(* ===== verification/_CoqProject ===== *)
-Q . S2P
Prelude.v
Crc16.v
Py32Ring.v
Py32Volume.v
Py32Uart.v
Py32Link.v
Py32Host.v
ActsRingbuf.v
NvramBits.v
NvramStorage.v
NvramConfig.v
NvramItems.v
NvramRegion.v
NvramStore.v
NvramScan.v
NvramApi.v
NvramSpec.v
PropertyCache.v
PropertyNvram.v
Messages.v
Libc.v
HexStr.v
PropertyManager.v
AudioPolicy.v
AudioSystem.v
VolumeManager.v
Speaker.v
I2cBitbang.v
Acm8635Regs.v
Acm8635.v
SpeakerAmp.v
Ws2812.v
SysWakelock.v
SysStandby.v
PowerManager.v
InputManager.v
RemoteCmd.v
SppBridge.v
HeadphoneDetect.v
Hotplug.v
DesktopManager.v
LineIn.v
