(* ===== verification/Prelude.v ===== *)
(** * Verification of the ZS285L2 / ATS2853P2 speaker firmware

    The repository is the firmware of a Bluetooth speaker on an Actions
    ATS2853P2 (a C-SKY core under Zephyr) with a PY32 microcontroller as its
    front panel.  This development models the parts of it that carry its own
    logic, in the shipped configuration
    samples/bt_speaker/app_conf/285l2_mc_bt/prj.conf, and proves what makes
    them correct.  File names below are under src/.

    ** The parts and how they interact

    The panel sends frames over UART1.  A DMA interrupt puts the bytes in a
    ring; a worker thread takes them out, runs the receive machine, and hands
    accepted commands to the volume manager, the tone control and the
    Bluetooth manager; it answers with status frames.  The volume manager sets
    the level in the audio system, which stores it as a decimal text in a
    property, and the step of the amplifier, an ACM8635 on a bit-banged I2C
    bus.  Properties are cached in RAM and flushed to the NVRAM store, a log of
    items in NOR flash that start-up scans again.  A phone sends commands over
    the serial port profile or a BLE service; the socket of the headphones mutes
    the amplifier.  The system monitor runs every 100 ms: it asks battery and
    hot-plug devices and puts an idle system to sleep; keys are debounced and
    reported by the input manager.

<<
       DMA ISR -> Py32Ring -> Py32Uart/Py32Link/Py32Host
                                     |  Py32Env, Py32AudioLaws
                              VolumeManager -> AudioSystem, AudioPolicy
                                     |  PropIface, PropIfaceLaws
                              PropertyManager (Libc, HexStr)
                                     |
                              PropertyCache
                                     |  PropEnv, PropLaws
                              NvramConfig .. NvramSpec
                                     |  FlashDrv, FlashLaws
                                 flash driver

       VolumeManager -> Acm8635 (SpeakerAmp) <- HeadphoneDetect
                           |  I2cDrv, RegBus, AcmChip
                       I2cBitbang

       SppBridge -> RemoteCmd  -- BtApi --> Bluetooth manager
       monitor (SysStandby) -> PowerManager, Hotplug -> DesktopManager (LineIn)
                    |
               SysWakelock <- InputManager, messages, players
>>

    Each arrow with a class name is an interface: the client is verified
    against the class, the component below discharges its laws.  Speaker.v puts
    the layers from the link to the flash together, SpeakerAmp.v those from the
    link to the registers of the amplifier.

    ** Files

    - Prelude: machine integers, byte buffers ([getb], [setb], [memcpy]),
      tactics, hint databases, closures of step relations.
    - Crc16, Py32Ring, Py32Volume, Py32Uart, Py32Link, Py32Host:
      samples/bt_speaker/src/system_app/system_app_py32_uart.c.  [py32] is the
      static state of the file (parameters, receive machine, last frame, the
      transmitter and the rest of the firmware behind [Py32Env]); one definition
      per C function under its C name.  Py32Host adds the uptime, the delayed
      work and the thread, and is the step relation [host_step]; the thread goes
      through its loop in sections ([thread_pc]) between which the interrupt, the
      idle work and the rest of the firmware run.
    - ActsRingbuf: ext/actions/base/utils/acts_ringbuf, all operations.
    - NvramBits, NvramStorage, NvramConfig: drivers/nvram/nvram_storage.c and
      nvram_config.c as a state monad over a flash device.  NvramItems,
      NvramRegion, NvramStore, NvramScan, NvramApi: the representation
      invariants, from entries in a segment to three maps; NvramSpec: the
      theorems, and a NOR flash on which they are exercised.
    - PropertyCache: ext/actions/base/property/property_cache.c; PropertyNvram:
      the cache on the NVRAM driver.
    - Messages: ext/actions/base/core/msg_manager.c on the message pool of
      ext/actions/porting/os_wrapper/os_wrapper.c on kernel/mailbox.c.
    - Libc, HexStr: what the managers use of lib/libc/minimal (ctype, [strtol],
      [snprintf], "%d") and ext/actions/base/utils/transcode/hex_str.c.
    - PropertyManager: ext/actions/base/property/property_manager.c.
    - AudioPolicy: the volume part of ext/actions/audio/audio_policy.c with the
      product's tables (system_audio_policy.c), and the AVRCP and LE audio
      volume scales of the Bluetooth manager.
    - AudioSystem: ext/actions/audio/audio_system.c with the volume routines of
      audio_track.c and audio_record.c; VolumeManager:
      ext/actions/audio/volume_manager.c.
    - Speaker: the interfaces discharged, and the composition.
    - I2cBitbang: drivers/i2c/i2c_bitbang_acts.c and i2c_gpio.c, every edge of the
      two lines, with a slave that watches them.  Acm8635Regs, Acm8635:
      drivers/codec_acm8635 (register tables; driver with bus recovery, faults,
      start, stop, volume).  SpeakerAmp: the volume manager on the amplifier.
    - Ws2812: samples/bt_speaker/src/btmusic/btmusic_ws2812.c, the LED strip down
      to the pulses on its pin.
    - SysWakelock, SysStandby, PowerManager, InputManager, Hotplug:
      ext/actions/system (sys_wakelock.c; sys_standby.c, sys_monitor.c and
      [sys_event_notify]; power/power_manager.c; input/input_manager.c;
      hotplug/hotplug_manager.c, hotplug_linein.c and hotplug_charger.c).
    - RemoteCmd: bt_manager_remote_cmd.c and system_app_ble_remote_cmd.c;
      SppBridge: bt_manager_spp.c and system_app_spp_uart_bridge.c.
    - HeadphoneDetect: system_app_headphone_detect.c on the amplifier driver.
    - DesktopManager: desktop/desktop_manager.c, [main_app_switch],
      [main_hotplug_event_handle] and the launch requests of
      common/system_app_launcher.c (samples/bt_speaker/src).
    - LineIn: drivers/hotplug/linein_detect.c, and the way from the socket through
      Hotplug and DesktopManager to the application.

    ** What the theorems show

    - Serial link: a frame without the byte 1 in its data is accepted exactly as
      sent, a command changes
      parameters, volume and tone and is answered once; bad CRC, unknown
      command, wrong length, bad value and repetition are refused; no byte
      sequence overruns the frame buffer; the CRC detects every error in two
      neighbouring bytes; the status frame is as specified.
    - Concurrency: the ring refines a FIFO under every interleaving; in every
      reachable state of [host_step] a host that counts as alive has its idle
      work pending or the thread about to submit it; a thread iteration returns
      whatever interrupts do; in silence the host is switched off by its
      deadline; bytes that arrive at the deadline can leave it off
      ([Py32Host.host_activity_race]).
    - Ring buffer: every operation sequence refines a bounded queue (buffers of
      more than 2^31 bytes must not be defragmented).
    - NVRAM: sequences of calls refine a map per region, start-up restores it
      from the flash alone, and an interrupted replacement is completed.
    - Properties: set and get, flush, deferred flush, integers as text, the
      write by message when the cache is full; flushed values survive a restart.
    - Messages: every operation refines a queue with waiting receivers and
      thirty places; messages to a receiver arrive once and in order, and no
      receiver waits while one is there for it.
    - Audio: every operation that changes state keeps the volumes in range and the pools
      consistent; a volume set is the volume read; scales round-trip.
    - Composition: [Speaker.py32_volume_survives_restart] follows a command
      from its bytes on the wire through all layers into the flash, and back
      out of it after a power cycle; [SpeakerAmp.py32_command_reaches_amplifier]
      follows it into the registers of the amplifier chip.
    - Amplifier and bus: a transfer on the two lines is the register access that
      the slave sees; the calls of the driver refine a volume and a playing
      flag; a start recovers a chip in fault; nine clocks free a bus that a
      slave holds.
    - LED strip: decoding the waveform as the LEDs do gives back the colours.
    - Power and keys: wake locks refine a set; standby and power-down are entered
      only after their idle time, asleep too, and, in an idle system, are entered; S2 ends
      exactly with a wake-up cause and restores what it switched off; battery
      warnings are spaced; a group of clicks is one message, a long press one
      message per stage.
    - Remote commands: the stream of the serial port refines a reference parser,
      and framed commands are carried out in order and acknowledged however the
      stream is cut, unless a packet by itself looks like an unframed command;
      bounds of both receivers.
    - Applications: in every run at most one application is entered at a time and
      messages go to it; the switch key reaches every registered one;
      [LineIn.line_in_follows_socket] goes from the voltage at the socket to the
      application that runs.
    - Headphones and hot plugging: the amplifier follows the socket; line-in and
      charger are reported exactly when a run of samples confirms a change.

    Some theorems record what the code does where that is hardly meant: a
    parameter value of 1 restarts the receive machine, a full int array
    overruns a stack buffer, volume-down past 0 reaches the amplifier as 255,
    pool loops follow null pointers, a power-off is followed by a power-on event,
    a frame header alone in a packet loses the next command, a packet of more
    than 580 bytes overruns the accumulator, starting the amplifier unmutes it
    with a plug in the socket, a seventeenth click counts as the first, a cable that is
    in at start-up does not enter line-in.

    ** Conventions, fuel and bounds

    Integers keep their width: [u8] to [u64], [s16], [s32] wrap.  [char] is
    unsigned and [long] has 32 bits, as on the target.  [None] is a call that
    does not return or an access outside an object; error codes are negative
    numbers as in C.  Mutexes and [irq_lock] make the sections they protect one
    step.  Loops that are not structural take fuel, and theorems show that it is
    enough: 256 plus the number of interrupts for a drain (255 bytes fit the
    ring), the size of the segment for scans and copies (an item takes at least
    a header), three rounds for [acts_ringbuf_copy], 32 digits for "%d", one
    more than the bytes in the accumulator for its loop (every round takes a
    byte out), two calls for the nested start of the LED strip, one more than the
    periods of the held-key work that have passed for the input manager, 32 for
    the search for the next plugin (one per bit).  The
    loop of S2 runs over the rounds that the environment provides.
    Hardware and calls that leave the model (amplifier, player, Bluetooth,
    messages) are appended to traces.  After a failed flash read the NVRAM model
    goes on with no bytes; its theorems assume a driver that reads.

    ** Not modelled

    The Bluetooth stack, controller and service, the media library, codecs and
    effects (binary libraries and third-party code); USB, file systems, OTA,
    display and factory test; the kernel beyond the mailbox, and the
    register-level drivers, whose documented behaviour (timeouts, semaphores,
    mutexes) the models use; the application and service managers (thread
    creation) and the applications behind the desktop manager, which are glue between the managers and
    those libraries; second LED strip, rhythm effects, SD card, encoder and the
    other parts that the shipped configuration switches off; dump and shell
    output.  That an item fits beside the live data of
    its segment is a hypothesis of the NVRAM theorems, because the code does not
    check it after a purge. *)

From stdpp Require Import base numbers list option.

#[global] Set Default Goal Selector "!".

(** ** Machine integers

    A w-bit unsigned C integer is a [Z] in [0, 2^w); the wrap-around of a
    conversion is written out with these functions. *)
Declare Scope cint_scope.
Delimit Scope cint_scope with cint.

Local Open Scope Z_scope.

Definition u8 (z : Z) : Z := z mod 256.
Definition u16 (z : Z) : Z := z mod 65536.
Definition u32 (z : Z) : Z := z mod 4294967296.
Definition u64 (z : Z) : Z := z mod 18446744073709551616.

(** [(s8_t) z] on the two's-complement targets of this firmware. *)
Definition s8 (z : Z) : Z :=
  let w := z mod 256 in if w <? 128 then w else w - 256.

(** [(int32_t) z] and [(int) z]. *)
Definition s32 (z : Z) : Z :=
  let w := z mod 4294967296 in
  if w <? 2147483648 then w else w - 4294967296.

Notation "x '⊕' y" := (Z.lxor x y)
  (at level 50, left associativity) : cint_scope.

(** A byte value, and byte buffers. *)
Definition is_u8 (b : Z) : Prop := 0 <= b < 256.
Definition is_u16 (b : Z) : Prop := 0 <= b < 65536.

Definition bytes_ok (l : list Z) : Prop := Forall is_u8 l.

#[export] Instance is_u8_dec b : Decision (is_u8 b).
Proof. unfold is_u8. apply _. Defined.
#[export] Instance is_u16_dec b : Decision (is_u16 b).
Proof. unfold is_u16. apply _. Defined.
#[export] Instance bytes_ok_dec l : Decision (bytes_ok l).
Proof. unfold bytes_ok. apply _. Defined.

(** Error numbers (errno.h), returned negated. *)
Definition ENOENT : Z := 2.
Definition EIO : Z := 5.
Definition ENOMEM : Z := 12.
Definition EACCES : Z := 13.
Definition ENODEV : Z := 19.
Definition EINVAL : Z := 22.

(** ** Tactics *)

(** [lia] over goals with [/] and [mod] by constants. *)
Ltac dlia := unfold u8, u16, u32, u64, is_u8, is_u16 in *;
             Z.to_euclidean_division_equations; lia.

(** Turn the boolean tests of the source's conditions into propositions. *)
Ltac zbool :=
  repeat match goal with
  | H : context [Z.eqb ?a ?b] |- _ => destruct (Z.eqb_spec a b)
  | H : context [Z.ltb ?a ?b] |- _ => destruct (Z.ltb_spec a b)
  | H : context [Z.leb ?a ?b] |- _ => destruct (Z.leb_spec a b)
  | |- context [Z.eqb ?a ?b] => destruct (Z.eqb_spec a b)
  | |- context [Z.ltb ?a ?b] => destruct (Z.ltb_spec a b)
  | |- context [Z.leb ?a ?b] => destruct (Z.leb_spec a b)
  end.

(** Case on the innermost [if]/[match] of the goal, keeping the equation. *)
Ltac dmatch :=
  match goal with
  | |- context [match ?x with _ => _ end] =>
      lazymatch x with
      | context [match _ with _ => _ end] => fail
      | _ => let E := fresh "E" in destruct x eqn:E
      end
  end.

(** Decidable facts about constants. *)
Ltac by_decide := apply (bool_decide_eq_true_1 _); vm_compute; reflexivity.

(** ** Shared lemmas on integers *)

Lemma u8_range z : is_u8 (u8 z).
Proof. dlia. Qed.
Lemma u16_range z : is_u16 (u16 z).
Proof. dlia. Qed.
Lemma u8_id z : is_u8 z → u8 z = z.
Proof. intros. unfold u8. apply Z.mod_small. done. Qed.
Lemma u16_id z : is_u16 z → u16 z = z.
Proof. intros. unfold u16. apply Z.mod_small. done. Qed.
Lemma u32_id z : 0 <= z < 4294967296 → u32 z = z.
Proof. intros. unfold u32. by apply Z.mod_small. Qed.
Lemma u64_id z : 0 <= z < 18446744073709551616 → u64 z = z.
Proof. intros. unfold u64. by apply Z.mod_small. Qed.

Lemma is_u8_u16 z : is_u8 z → is_u16 z.
Proof. dlia. Qed.

(** Bits of bounded numbers. *)
Lemma testbit_bounded n x i :
  0 <= n → 0 <= x < 2 ^ n → n <= i → Z.testbit x i = false.
Proof.
  intros Hn Hx Hi. rewrite <- (Z.mod_small x (2 ^ n)) by done.
  by apply Z.mod_pow2_bits_high.
Qed.

Lemma bounded_testbit n x :
  0 <= n → 0 <= x → (∀ i, n <= i → Z.testbit x i = false) → x < 2 ^ n.
Proof. intros Hn Hx Hb. by apply Z.bounded_iff_bits_nonneg. Qed.

Lemma lxor_bound n a b :
  0 <= n → 0 <= a < 2 ^ n → 0 <= b < 2 ^ n → 0 <= Z.lxor a b < 2 ^ n.
Proof.
  intros Hn Ha Hb. split; [by apply Z.lxor_nonneg; lia|].
  apply bounded_testbit; [done|apply Z.lxor_nonneg; lia|].
  intros i Hi. rewrite Z.lxor_spec.
  by rewrite !(testbit_bounded n) by done.
Qed.

Lemma lor_bound n a b :
  0 <= n → 0 <= a < 2 ^ n → 0 <= b < 2 ^ n → 0 <= Z.lor a b < 2 ^ n.
Proof.
  intros Hn Ha Hb. split; [by apply Z.lor_nonneg; lia|].
  apply bounded_testbit; [done|apply Z.lor_nonneg; lia|].
  intros i Hi. rewrite Z.lor_spec. by rewrite !(testbit_bounded n) by done.
Qed.

Lemma lxor_u8 a b : is_u8 a → is_u8 b → is_u8 (Z.lxor a b).
Proof. intros. by apply (lxor_bound 8). Qed.
Lemma lxor_u16 a b : is_u16 a → is_u16 b → is_u16 (Z.lxor a b).
Proof. intros. by apply (lxor_bound 16). Qed.

Lemma lxor_cancel_r a b c : Z.lxor a c = Z.lxor b c → a = b.
Proof.
  intros H. apply (f_equal (λ z, Z.lxor z c)) in H.
  by rewrite !Z.lxor_assoc, Z.lxor_nilpotent, !Z.lxor_0_r in H.
Qed.
Lemma lxor_cancel_l a b c : Z.lxor c a = Z.lxor c b → a = b.
Proof. rewrite !(Z.lxor_comm c). apply lxor_cancel_r. Qed.

(** From [a ^ b = c ^ d], move [c] and [b] across. *)
Lemma lxor_exchange a b c d : Z.lxor a b = Z.lxor c d → Z.lxor a c = Z.lxor b d.
Proof.
  intros H. apply Z.bits_inj'. intros i Hi.
  apply (f_equal (λ z, Z.testbit z i)) in H.
  rewrite !Z.lxor_spec in *.
  by destruct (Z.testbit a i), (Z.testbit b i), (Z.testbit c i), (Z.testbit d i).
Qed.

Lemma shiftr_1_bound n x : 0 <= n → 0 <= x < 2 ^ (n + 1) → 0 <= Z.shiftr x 1 < 2 ^ n.
Proof.
  intros Hn Hx. rewrite Z.shiftr_div_pow2 by lia.
  rewrite Z.pow_add_r in Hx by lia. change (2 ^ 1) with 2 in *. dlia.
Qed.

(** ** Byte memory: [memcpy]/[memset] on a buffer and reads from it *)

(** [dst[off .. off+len d) := d]; like every use of the C function in the
    modelled code the range must lie inside [dst] (the lemmas ask for it). *)
Definition memcpy (dst : list Z) (off : nat) (d : list Z) : list Z :=
  list_inserts off d dst.

(** The [n] bytes at [off]. *)
Definition slice (m : list Z) (off n : nat) : list Z := take n (drop off m).

(** [m[i]] for an index of type [Z]; 0 outside (never reached under the
    invariants proved below). *)
Definition getb (m : list Z) (i : Z) : Z := default 0 (m !! Z.to_nat i).
Definition setb (m : list Z) (i v : Z) : list Z := <[Z.to_nat i := v]> m.

Section memory.
Implicit Types (m d : list Z) (off n i : nat).

Lemma length_memcpy m off d : length (memcpy m off d) = length m.
Proof. apply length_inserts. Qed.

Lemma memcpy_cons m off (b : Z) d :
  memcpy m off (b :: d) = memcpy (<[off := b]> m) (S off) d.
Proof. apply list_insert_inserts_lt. lia. Qed.

Lemma length_slice m off n :
  (off + n <= length m)%nat → length (slice m off n) = n.
Proof. intros. unfold slice. rewrite length_take, length_drop. lia. Qed.

Lemma lookup_slice m off n i :
  (i < n)%nat → slice m off n !! i = m !! (off + i)%nat.
Proof.
  intros. unfold slice. rewrite lookup_take, decide_True by done.
  apply lookup_drop.
Qed.

Lemma slice_memcpy_same m off d :
  (off + length d <= length m)%nat → slice (memcpy m off d) off (length d) = d.
Proof.
  intros Hb. apply (list_eq_same_length _ _ (length d)); [done| |].
  { rewrite length_slice; [done|]. by rewrite length_memcpy. }
  intros i x y Hi Hx Hy. rewrite lookup_slice in Hx by done.
  unfold memcpy in Hx. rewrite list_lookup_inserts in Hx by lia.
  replace (off + i - off)%nat with i in Hx by lia. congruence.
Qed.

Lemma memcpy_twice m off d : memcpy (memcpy m off d) off d = memcpy m off d.
Proof.
  apply (list_eq_same_length _ _ (length m)).
  1-2: by rewrite !length_memcpy.
  intros i x y Hi Hx Hy. unfold memcpy in *.
  destruct (decide (off <= i < off + length d)%nat).
  - rewrite list_lookup_inserts in Hx by (rewrite ?length_inserts; lia).
    rewrite list_lookup_inserts in Hy by lia. congruence.
  - destruct (decide (i < off)%nat).
    + rewrite list_lookup_inserts_lt in Hx by lia. congruence.
    + rewrite list_lookup_inserts_ge in Hx by lia. congruence.
Qed.

Lemma take_memcpy_0 m d :
  (length d <= length m)%nat → take (length d) (memcpy m 0 d) = d.
Proof.
  intros. pose proof (slice_memcpy_same m 0 d ltac:(lia)) as Hs.
  unfold slice in Hs. by rewrite drop_0 in Hs.
Qed.

Lemma slice_memcpy_other m off d o n :
  (o + n <= off ∨ off + length d <= o)%nat →
  (o + n <= length m)%nat →
  slice (memcpy m off d) o n = slice m o n.
Proof.
  intros Hd Hb. apply (list_eq_same_length _ _ n).
  - by rewrite length_slice.
  - rewrite length_slice; [done|]. by rewrite length_memcpy.
  - intros i x y Hi Hx Hy. rewrite lookup_slice in Hx, Hy by done.
    unfold memcpy in Hx.
    destruct Hd; [rewrite list_lookup_inserts_lt in Hx by lia
                 |rewrite list_lookup_inserts_ge in Hx by lia]; congruence.
Qed.

Lemma bytes_ok_memcpy m off d : bytes_ok m → bytes_ok d → bytes_ok (memcpy m off d).
Proof. apply Forall_inserts. Qed.

Lemma bytes_ok_slice m off n : bytes_ok m → bytes_ok (slice m off n).
Proof. intros. by apply Forall_take, Forall_drop. Qed.

Lemma bytes_ok_setb m (i v : Z) : bytes_ok m → is_u8 v → bytes_ok (setb m i v).
Proof. intros. unfold setb, bytes_ok. by apply Forall_insert. Qed.

Lemma getb_u8 m (i : Z) : bytes_ok m → is_u8 (getb m i).
Proof.
  intros Hm. unfold getb. destruct (m !! _) eqn:E; [|by vm_compute].
  simpl. by eapply Forall_lookup_1 in E.
Qed.

Lemma length_setb m (i v : Z) : length (setb m i v) = length m.
Proof. apply length_insert. Qed.

Lemma slice_all m : slice m 0 (length m) = m.
Proof. unfold slice. by rewrite drop_0, firstn_all. Qed.

Lemma slice_app_split m off a b :
  slice m off (a + b) = slice m off a ++ slice m (off + a) b.
Proof.
  unfold slice. rewrite <- (take_drop a (take (a + b) (drop off m))).
  rewrite take_take, skipn_firstn_comm, drop_drop.
  f_equal; f_equal; lia.
Qed.
End memory.

Lemma getb_setb_eq m i v :
  0 <= i < Z.of_nat (length m) → getb (setb m i v) i = v.
Proof.
  intros. unfold getb, setb.
  by rewrite list_lookup_insert_eq by lia.
Qed.
Lemma getb_setb_ne m i j v :
  0 <= i → 0 <= j → i ≠ j → getb (setb m i v) j = getb m j.
Proof.
  intros. unfold getb, setb. by rewrite list_lookup_insert_ne by lia.
Qed.

Lemma getb_memcpy m (off : nat) d j :
  (off + length d <= length m)%nat → 0 <= j →
  getb (memcpy m off d) j =
  if (Z.of_nat off <=? j) && (j <? Z.of_nat (off + length d))
  then getb d (j - Z.of_nat off) else getb m j.
Proof.
  intros Hl Hj. unfold getb, memcpy.
  destruct (Z.leb_spec (Z.of_nat off) j); cbn [andb].
  - destruct (Z.ltb_spec j (Z.of_nat (off + length d))).
    + rewrite list_lookup_inserts by lia. by replace (Z.to_nat j - off)%nat
        with (Z.to_nat (j - Z.of_nat off)) by lia.
    + by rewrite list_lookup_inserts_ge by lia.
  - by rewrite list_lookup_inserts_lt by lia.
Qed.

Lemma getb_take d n j : 0 <= j < n → getb (take (Z.to_nat n) d) j = getb d j.
Proof. intros. unfold getb. by rewrite lookup_take, decide_True by lia. Qed.

Lemma getb_drop d n j : 0 <= j → 0 <= n → getb (drop (Z.to_nat n) d) j = getb d (n + j).
Proof.
  intros. unfold getb. rewrite lookup_drop. do 2 f_equal. lia.
Qed.

Lemma getb_replicate n c j : 0 <= j < Z.of_nat n → getb (replicate n c) j = c.
Proof. intros. unfold getb. by rewrite lookup_replicate_2 by lia. Qed.

(** The remainder on the first two periods. *)
Lemma mod_two_periods x n :
  0 < n → - n <= x < n → x mod n = if x <? 0 then x + n else x.
Proof.
  intros Hn Hx. destruct (Z.ltb_spec x 0).
  - rewrite <- (Z.mod_add x 1) by lia. rewrite Z.mod_small; lia.
  - apply Z.mod_small. lia.
Qed.

(** ** Searching, filtering and deleting in lists *)

Lemma list_find_ext_in {A} (P Q : A → Prop) `{!∀ x, Decision (P x)} `{!∀ x, Decision (Q x)} l :
  (∀ x, x ∈ l → P x ↔ Q x) → list_find P l = list_find Q l.
Proof.
  induction l as [|x l IH]; intros Hpq; [done|]. cbn [list_find].
  destruct (decide (P x)) as [E|E], (decide (Q x)) as [E'|E']; try done.
  - exfalso. apply E', Hpq, E. apply list_elem_of_here.
  - exfalso. apply E, Hpq, E'. apply list_elem_of_here.
  - rewrite IH; [done|]. intros y Hy. apply Hpq. by apply list_elem_of_further.
Qed.

Lemma filter_ext_in {A} (P Q : A → Prop) `{!∀ x, Decision (P x)} `{!∀ x, Decision (Q x)} (l : list A) :
  (∀ x, x ∈ l → P x ↔ Q x) → filter P l = filter Q l.
Proof.
  induction l as [|x l IH]; intros Hpq; [done|].
  assert (Hrest : filter P l = filter Q l) by (apply IH; intros y Hy; apply Hpq; by apply list_elem_of_further).
  pose proof (Hpq x (list_elem_of_here _ _)) as Hx. destruct (decide (P x)) as [E|E].
  - rewrite !filter_cons_True by tauto. by rewrite Hrest.
  - rewrite !filter_cons_False by tauto. exact Hrest.
Qed.

Lemma filter_all {A} (P : A → Prop) `{!∀ x, Decision (P x)} (l : list A) : (∀ x, x ∈ l → P x) → filter P l = l.
Proof.
  induction l as [|x l IH]; intros Hp; [done|]. rewrite filter_cons_True by (apply Hp, list_elem_of_here).
  f_equal. apply IH. intros y Hy. apply Hp. by apply list_elem_of_further.
Qed.

Lemma filter_map {A B} (f : A → B) (P : B → Prop) `{!∀ x, Decision (P x)} (l : list A) :
  filter P (f <$> l) = f <$> filter (λ x, P (f x)) l.
Proof.
  induction l as [|x l IH]; [done|]. cbn [fmap list_fmap]. destruct (decide (P (f x))).
  - rewrite !filter_cons_True by done. cbn [fmap list_fmap]. by rewrite <- IH.
  - rewrite !filter_cons_False by done. exact IH.
Qed.

Lemma delete_first {A} (P : A → Prop) `{!∀ x, Decision (P x)} l i x :
  list_find P l = Some (i, x) → filter P l = x :: filter P (delete i l).
Proof.
  revert i. induction l as [|y l IH]; intros i; [done|]. cbn [list_find]. case_decide as Hy.
  - intros [= <- <-]. by rewrite filter_cons_True.
  - destruct (list_find P l) as [[j z]|] eqn:E; [|done]. cbn [fmap option_fmap option_map prod_map id fst snd].
    intros [= <- <-]. cbn [delete list_delete].
    rewrite !filter_cons_False by done. by apply IH.
Qed.

Lemma delete_other {A} (P : A → Prop) `{!∀ x, Decision (P x)} (l : list A) (i : nat) x :
  l !! i = Some x → ¬ P x → filter P (delete i l) = filter P l.
Proof.
  revert i. induction l as [|y l IH]; intros [|i] Hi Hx; [done..| |]; cbn [delete list_delete].
  - injection Hi as ->. by rewrite filter_cons_False.
  - destruct (decide (P y)).
    + rewrite !filter_cons_True by done. f_equal. by apply IH.
    + rewrite !filter_cons_False by done. by apply IH.
Qed.

(** Counting the elements of a list by their indices. *)
Lemma count_by_index {A} (P : A → Prop) `{!∀ x, Decision (P x)} (l : list A) (sl : list nat) k :
  (∀ i x, l !! i = Some x → P x ↔ (k + i)%nat ∈ sl) →
  length (filter P l) = length (filter (λ i, i ∈ sl) (seq k (length l))).
Proof.
  revert k. induction l as [|x l IH]; intros k Hl; [done|]. cbn [length seq].
  pose proof (Hl 0%nat x eq_refl) as Hx. rewrite Nat.add_0_r in Hx.
  assert (Hrest : length (filter P l) = length (filter (λ i, i ∈ sl) (seq (S k) (length l)))).
  { apply IH. intros i y Hy. replace (S k + i)%nat with (k + S i)%nat by lia. by apply Hl. }
  destruct (decide (P x)) as [E|E].
  - rewrite !filter_cons_True by tauto. cbn [length]. by rewrite Hrest.
  - rewrite !filter_cons_False by tauto. exact Hrest.
Qed.

(** ** Hint databases *)
Create HintDb fw.
Create Rewrite HintDb fwlen.
#[export] Hint Resolve u8_range u16_range is_u8_u16 lxor_u8 lxor_u16
  bytes_ok_memcpy bytes_ok_slice bytes_ok_setb getb_u8 : fw.
#[export] Hint Rewrite length_memcpy length_setb @length_app @length_replicate
  @length_take @length_drop : fwlen.

(** ** Reachability of a step relation *)
Section closure.
Context {S : Type} (step : S → S → Prop).

(** Zero or more steps. *)
Inductive steps : S → S → Prop :=
  | steps_refl s : steps s s
  | steps_cons s1 s2 s3 : step s1 s2 → steps s2 s3 → steps s1 s3.

Lemma steps_invariant (I : S → Prop) :
  (∀ s s', I s → step s s' → I s') →
  ∀ s s', steps s s' → I s → I s'.
Proof. intros Hpres s s' Hs. induction Hs; eauto. Qed.

Lemma steps_trans s1 s2 s3 : steps s1 s2 → steps s2 s3 → steps s1 s3.
Proof. induction 1; eauto using steps_cons. Qed.
End closure.
