(* ===== verification/Crc16.v ===== *)
(** * CRC-16 of the PY32 link

    [py32_crc16] of samples/bt_speaker/src/system_app/system_app_py32_uart.c
    (reflected polynomial 0xA001, initial value 0xFFFF), and what makes it a
    usable frame check: it stays in 16 bits, it is a bijection of its register
    for every input byte, appending the CRC little-endian gives residue 0, and
    an error confined to two adjacent bytes always changes it. *)

From stdpp Require Import base numbers list option.
From S2P Require Import Prelude.
Local Open Scope Z_scope.

(** One round of the inner [for (j = 0; j < 8U; j++)] loop. *)
Definition crc16_bit (crc : Z) : Z :=
  if Z.testbit crc 0 then u16 (Z.lxor (Z.shiftr crc 1) 40961)
  else Z.shiftr crc 1.

(** The inner loop: eight rounds. *)
Definition crc16_rounds (crc : Z) : Z := Nat.iter 8 crc16_bit crc.

(** The body of the outer loop: [crc ^= data[i]] and the eight rounds. *)
Definition crc16_byte (crc b : Z) : Z := crc16_rounds (Z.lxor crc b).

(** [static uint16_t py32_crc16(const uint8_t *data, uint16_t length)] *)
Definition py32_crc16 (data : list Z) (length : nat) : Z :=
  fold_left crc16_byte (take length data) 65535.

(** ** Range *)

Lemma crc16_bit_range c : is_u16 c → is_u16 (crc16_bit c).
Proof.
  intros Hc. unfold crc16_bit. destruct (Z.testbit c 0).
  - apply u16_range.
  - pose proof (shiftr_1_bound 15 c). unfold is_u16 in *. lia.
Qed.

Lemma iter_crc16_bit_range n c : is_u16 c → is_u16 (Nat.iter n crc16_bit c).
Proof. intros Hc. induction n; simpl; auto using crc16_bit_range. Qed.

Lemma crc16_rounds_range c : is_u16 c → is_u16 (crc16_rounds c).
Proof. apply iter_crc16_bit_range. Qed.

Lemma crc16_byte_range c b : is_u16 c → is_u8 b → is_u16 (crc16_byte c b).
Proof. intros. apply crc16_rounds_range. auto with fw. Qed.

Lemma fold_crc16_range l c :
  is_u16 c → bytes_ok l → is_u16 (fold_left crc16_byte l c).
Proof.
  revert c. induction l as [|b l IH]; intros c Hc Hl; simpl; [done|].
  inversion Hl; subst. auto using crc16_byte_range.
Qed.

Lemma py32_crc16_range data n : bytes_ok data → is_u16 (py32_crc16 data n).
Proof.
  intros. apply fold_crc16_range; [by vm_compute|by apply Forall_take].
Qed.

(** ** Linearity over GF(2) *)

Lemma crc16_bit_lin a b :
  is_u16 a → is_u16 b →
  crc16_bit (Z.lxor a b) = Z.lxor (crc16_bit a) (crc16_bit b).
Proof.
  intros Ha Hb.
  assert (Hr : ∀ x, is_u16 x → is_u16 (Z.lxor (Z.shiftr x 1) 40961)).
  { intros x Hx. apply lxor_u16; [|by vm_compute].
    pose proof (shiftr_1_bound 15 x). unfold is_u16 in *. lia. }
  unfold crc16_bit. rewrite Z.lxor_spec, Z.shiftr_lxor.
  rewrite !u16_id by (rewrite <- ?Z.shiftr_lxor; auto with fw).
  destruct (Z.testbit a 0), (Z.testbit b 0); simpl.
  - rewrite (Z.lxor_comm (Z.shiftr b 1)), Z.lxor_assoc,
      <- (Z.lxor_assoc 40961), Z.lxor_nilpotent. by rewrite Z.lxor_0_l.
  - by rewrite !Z.lxor_assoc, (Z.lxor_comm 40961).
  - by rewrite !Z.lxor_assoc.
  - done.
Qed.

Lemma iter_crc16_bit_lin n a b :
  is_u16 a → is_u16 b →
  Nat.iter n crc16_bit (Z.lxor a b) =
  Z.lxor (Nat.iter n crc16_bit a) (Nat.iter n crc16_bit b).
Proof.
  intros. induction n as [|n IH]; [done|]. simpl.
  rewrite IH. by rewrite crc16_bit_lin by auto using iter_crc16_bit_range.
Qed.

Lemma crc16_rounds_lin a b :
  is_u16 a → is_u16 b →
  crc16_rounds (Z.lxor a b) = Z.lxor (crc16_rounds a) (crc16_rounds b).
Proof. apply iter_crc16_bit_lin. Qed.

(** ** Injectivity *)

(** The constant 0xA001 has bit 15 set, a halved register has not: the top
    bit tells which branch was taken. *)
Lemma crc16_bit_zero c : is_u16 c → crc16_bit c = 0 → c = 0.
Proof.
  intros Hc. unfold crc16_bit.
  pose proof (shiftr_1_bound 15 c) as Hs. unfold is_u16 in Hc.
  assert (Hh : 0 <= Z.shiftr c 1 < 2 ^ 15) by (apply Hs; lia).
  destruct (Z.testbit c 0) eqn:E.
  - rewrite u16_id.
    2:{ apply lxor_u16; [unfold is_u16; lia|by vm_compute]. }
    intros H. apply Z.lxor_eq in H. lia.
  - intros H. rewrite (Z.div_mod c 2) by lia.
    rewrite Z.shiftr_div_pow2 in H by lia. change (2 ^ 1) with 2 in H.
    rewrite H. rewrite Zmod_odd, <- Z.bit0_odd, E. done.
Qed.

Lemma iter_crc16_bit_zero n c :
  is_u16 c → Nat.iter n crc16_bit c = 0 → c = 0.
Proof.
  intros Hc. induction n as [|n IH]; [done|]. simpl.
  intros H. apply IH. by apply crc16_bit_zero; auto using iter_crc16_bit_range.
Qed.

Lemma crc16_rounds_inj a b :
  is_u16 a → is_u16 b → crc16_rounds a = crc16_rounds b → a = b.
Proof.
  intros Ha Hb H. apply Z.lxor_eq.
  apply (iter_crc16_bit_zero 8); [auto with fw|].
  change (crc16_rounds (Z.lxor a b) = 0).
  by rewrite crc16_rounds_lin, H, Z.lxor_nilpotent.
Qed.

Lemma crc16_byte_inj c c' b :
  is_u16 c → is_u16 c' → is_u8 b → crc16_byte c b = crc16_byte c' b → c = c'.
Proof.
  intros Hc Hc' Hb H. apply crc16_rounds_inj in H; auto with fw.
  by apply lxor_cancel_r in H.
Qed.

Lemma fold_crc16_inj l c c' :
  is_u16 c → is_u16 c' → bytes_ok l →
  fold_left crc16_byte l c = fold_left crc16_byte l c' → c = c'.
Proof.
  revert c c'. induction l as [|b l IH]; intros c c' Hc Hc' Hl; simpl; [done|].
  inversion Hl; subst. intros H.
  apply IH in H; auto using crc16_byte_range. by apply crc16_byte_inj in H.
Qed.

(** ** Error detection *)

(** The eight rounds never map a non-zero byte into a byte: two adjacent
    corrupted bytes cannot cancel. *)
Lemma crc16_table_high :
  forallb (λ d, (d =? 0) || (256 <=? crc16_rounds d)) (seqZ 0 256) = true.
Proof. vm_compute. reflexivity. Qed.

Lemma crc16_table_high_spec d :
  is_u8 d → is_u8 (crc16_rounds d) → d = 0.
Proof.
  intros Hd Ht. pose proof crc16_table_high as H.
  rewrite forallb_forall in H. specialize (H d).
  rewrite <- list_elem_of_In, elem_of_seqZ in H.
  unfold is_u8 in *. specialize (H ltac:(lia)).
  apply orb_true_iff in H as [H|H]; lia.
Qed.

(** The register after two bytes, spelled out. *)
Lemma fold_crc16_two c a b :
  fold_left crc16_byte [a; b] c = crc16_byte (crc16_byte c a) b.
Proof. reflexivity. Qed.

(** While the low bits are clear a round is a plain shift. *)
Lemma iter_crc16_bit_shift n x :
  (∀ i, 0 <= i < Z.of_nat n → Z.testbit x i = false) →
  Nat.iter n crc16_bit x = Z.shiftr x (Z.of_nat n).
Proof.
  induction n as [|n IH]; intros Hx; [done|]. simpl Nat.iter.
  rewrite IH by (intros; apply Hx; lia). unfold crc16_bit.
  rewrite Z.shiftr_spec, Hx, Z.shiftr_shiftr by lia. f_equal. lia.
Qed.

Lemma crc16_byte_low c : is_u16 c → crc16_byte c (Z.land c 255) = Z.shiftr c 8.
Proof.
  intros Hc. unfold crc16_byte, crc16_rounds.
  rewrite iter_crc16_bit_shift.
  - apply Z.bits_inj'. intros i Hi. change (Z.of_nat 8) with 8.
    rewrite !Z.shiftr_spec, Z.lxor_spec, Z.land_spec by lia.
    change 255 with (Z.ones 8). rewrite Z.ones_spec_high by lia.
    by rewrite andb_false_r, xorb_false_r.
  - intros i Hi. rewrite Z.lxor_spec, Z.land_spec.
    change 255 with (Z.ones 8). rewrite Z.ones_spec_low by lia.
    by rewrite andb_true_r, xorb_nilpotent.
Qed.

Lemma crc16_rounds_0 : crc16_rounds 0 = 0.
Proof. reflexivity. Qed.

(** From here on the rounds are used only through the lemmas above. *)
#[global] Opaque crc16_rounds.

(** Two bytes from the same register value determine each other. *)
Lemma crc16_two_bytes_inj c a b a' b' :
  is_u16 c → is_u8 a → is_u8 b → is_u8 a' → is_u8 b' →
  crc16_byte (crc16_byte c a) b = crc16_byte (crc16_byte c a') b' →
  a = a' ∧ b = b'.
Proof.
  intros Hc Ha Hb Ha' Hb' H. unfold crc16_byte in H.
  apply crc16_rounds_inj in H; [|auto 10 using crc16_rounds_range with fw..].
  rewrite !(crc16_rounds_lin c), !Z.lxor_assoc in H by auto with fw.
  apply lxor_cancel_l in H.
  pose proof (lxor_exchange _ _ _ _ H) as Hx.
  rewrite <- crc16_rounds_lin in Hx by auto with fw.
  assert (Hd : Z.lxor a a' = 0).
  { apply crc16_table_high_spec; [auto with fw|]. rewrite Hx. auto with fw. }
  apply Z.lxor_eq in Hd. subst a'. split; [done|].
  by apply lxor_cancel_l in H.
Qed.

(** C33: Changing two adjacent bytes of a message in any way changes its CRC:
    every error confined to two neighbouring bytes is detected. *)
Theorem py32_crc16_burst_detected pre post a b a' b' :
  bytes_ok pre → bytes_ok post →
  is_u8 a → is_u8 b → is_u8 a' → is_u8 b' → [a; b] ≠ [a'; b'] →
  py32_crc16 (pre ++ [a; b] ++ post) (length (pre ++ [a; b] ++ post)) ≠
  py32_crc16 (pre ++ [a'; b'] ++ post) (length (pre ++ [a'; b'] ++ post)).
Proof.
  intros Hpre Hpost Ha Hb Ha' Hb' Hne. unfold py32_crc16.
  rewrite !firstn_all, !fold_left_app, !fold_crc16_two.
  set (c := fold_left crc16_byte pre 65535).
  assert (Hc : is_u16 c) by (by apply fold_crc16_range).
  intros H. apply fold_crc16_inj in H; [|auto 10 using crc16_byte_range..|done].
  apply crc16_two_bytes_inj in H as [-> ->]; done.
Qed.

Lemma py32_crc16_burst_detected_witness :
  py32_crc16 [1; 16; 4; 50] 4 ≠ py32_crc16 [1; 17; 132; 50] 4.
Proof.
  apply (py32_crc16_burst_detected [1] [50] 16 4 17 132);
    [repeat constructor; unfold is_u8; lia..|discriminate].
Defined.

(** The two trailer bytes of a frame, low byte first. *)
Definition crc16_lo (crc : Z) : Z := Z.land crc 255.
Definition crc16_hi (crc : Z) : Z := Z.land (Z.shiftr crc 8) 255.

Lemma crc16_lo_u8 c : is_u16 c → is_u8 (crc16_lo c).
Proof.
  intros. unfold crc16_lo. change 255 with (Z.ones 8).
  rewrite Z.land_ones by lia. apply (u8_range c).
Qed.

Lemma shiftr_8_u8 c : is_u16 c → is_u8 (Z.shiftr c 8).
Proof.
  intros Hc. rewrite Z.shiftr_div_pow2 by lia. change (2 ^ 8) with 256. dlia.
Qed.

Lemma crc16_hi_eq c : is_u16 c → crc16_hi c = Z.shiftr c 8.
Proof.
  intros Hc. unfold crc16_hi. change 255 with (Z.ones 8).
  rewrite Z.land_ones by lia. change (2 ^ 8) with 256.
  by apply u8_id, shiftr_8_u8.
Qed.

Lemma crc16_hi_u8 c : is_u16 c → is_u8 (crc16_hi c).
Proof. intros. rewrite crc16_hi_eq by done. by apply shiftr_8_u8. Qed.

(** Reassembly of the received CRC: [crc = lo; crc |= hi << 8]. *)
Lemma crc16_lo_hi c :
  is_u16 c → Z.lor (crc16_lo c) (u16 (Z.shiftl (crc16_hi c) 8)) = c.
Proof.
  intros Hc. rewrite crc16_hi_eq by done. rewrite u16_id.
  2:{ pose proof (shiftr_8_u8 c Hc). rewrite Z.shiftl_mul_pow2 by lia.
      change (2 ^ 8) with 256. dlia. }
  apply Z.bits_inj'. intros i Hi. unfold crc16_lo. change 255 with (Z.ones 8).
  rewrite Z.lor_spec, Z.land_spec, Z.shiftl_spec by lia.
  destruct (Z.ltb_spec i 8).
  - rewrite Z.ones_spec_low, (Z.testbit_neg_r _ (i - 8)) by lia.
    by rewrite andb_true_r, orb_false_r.
  - rewrite Z.ones_spec_high, Z.shiftr_spec by lia.
    rewrite andb_false_r. simpl. f_equal. lia.
Qed.

(** Taking apart a reassembled CRC gives the two received bytes back. *)
Lemma crc16_join lo hi :
  is_u8 lo → is_u8 hi →
  crc16_lo (Z.lor lo (u16 (Z.shiftl hi 8))) = lo ∧
  crc16_hi (Z.lor lo (u16 (Z.shiftl hi 8))) = hi.
Proof.
  intros Hlo Hhi. rewrite u16_id.
  2:{ rewrite Z.shiftl_mul_pow2 by lia. change (2 ^ 8) with 256. dlia. }
  unfold crc16_lo, crc16_hi. change 255 with (Z.ones 8).
  split; apply Z.bits_inj'; intros i Hi;
    rewrite Z.land_spec, ?Z.shiftr_spec, Z.lor_spec, Z.shiftl_spec by lia;
    destruct (Z.ltb_spec i 8).
  - rewrite Z.ones_spec_low, (Z.testbit_neg_r _ (i - 8)) by lia.
    by rewrite andb_true_r, orb_false_r.
  - rewrite Z.ones_spec_high by lia. rewrite andb_false_r.
    symmetry. by apply (testbit_bounded 8).
  - rewrite Z.ones_spec_low, (testbit_bounded 8 lo) by (done || lia).
    rewrite andb_true_r. simpl. f_equal. lia.
  - rewrite Z.ones_spec_high by lia. rewrite andb_false_r.
    symmetry. by apply (testbit_bounded 8).
Qed.

(** Appending the CRC low byte first gives residue 0, which is how a receiver
    can check a whole frame. *)
Lemma py32_crc16_residue data :
  bytes_ok data →
  let crc := py32_crc16 data (length data) in
  let frame := data ++ [crc16_lo crc; crc16_hi crc] in
  py32_crc16 frame (length frame) = 0.
Proof.
  intros Hd crc frame.
  assert (Hc : is_u16 crc) by (by apply py32_crc16_range).
  unfold py32_crc16. rewrite firstn_all. subst frame.
  rewrite fold_left_app, fold_crc16_two.
  replace (fold_left crc16_byte data 65535) with crc.
  2:{ unfold crc, py32_crc16. by rewrite firstn_all. }
  unfold crc16_lo. rewrite crc16_byte_low, crc16_hi_eq by done.
  unfold crc16_byte. by rewrite Z.lxor_nilpotent, crc16_rounds_0.
Qed.
