(* ===== verification/Py32Ring.v ===== *)
(** * The UART receive ring of the PY32 link

    [py32_rx_ring], [py32_rx_head], [py32_rx_tail] and the wake-up semaphore
    of system_app_py32_uart.c: filled by the DMA interrupt handlers
    ([py32_rx_ring_push], [py32_dma_rx_isr], [py32_dma_rx_timeout_handle]),
    emptied one byte at a time under [irq_lock] by the thread
    ([py32_uart_ring_drain]).  The ring refines a bounded FIFO under every
    interleaving of the two sides. *)

From stdpp Require Import base numbers list option.
From S2P Require Import Prelude.
Local Open Scope Z_scope.

Definition PY32_RX_RING_SIZE : Z := 256.
Definition PY32_DMA_RX_BUF_SIZE : Z := 256.

(** [static K_SEM_DEFINE(py32_rx_wake, 0, 32)]: giving saturates at 32. *)
Definition PY32_RX_WAKE_LIMIT : Z := 32.

Record rx_ring := mk_rx_ring {
  py32_rx_ring : list Z;
  py32_rx_head : Z;
  py32_rx_tail : Z;
  py32_rx_wake : Z;
}.

Definition rx_ring_init : rx_ring :=
  mk_rx_ring (replicate 256 0) 0 0 0.

Definition k_sem_give (r : rx_ring) : rx_ring :=
  mk_rx_ring (py32_rx_ring r) (py32_rx_head r) (py32_rx_tail r)
    (if py32_rx_wake r =? PY32_RX_WAKE_LIMIT then py32_rx_wake r
     else py32_rx_wake r + 1).

(** [k_sem_take(&py32_rx_wake, K_MSEC(10))]: takes a unit or times out. *)
Definition k_sem_take (r : rx_ring) : rx_ring :=
  mk_rx_ring (py32_rx_ring r) (py32_rx_head r) (py32_rx_tail r)
    (if 0 <? py32_rx_wake r then py32_rx_wake r - 1 else py32_rx_wake r).

(** The loop of [py32_rx_ring_push]; stops at the first byte that does not
    fit. *)
Fixpoint rx_ring_push_loop (r : rx_ring) (data : list Z) (pushed : Z)
    : rx_ring * Z :=
  match data with
  | [] => (r, pushed)
  | b :: rest =>
      let next := u16 ((py32_rx_head r + 1) mod PY32_RX_RING_SIZE) in
      if next =? py32_rx_tail r then (r, pushed)
      else rx_ring_push_loop
             (mk_rx_ring (setb (py32_rx_ring r) (py32_rx_head r) b) next
                (py32_rx_tail r) (py32_rx_wake r))
             rest (pushed + 1)
  end.

Definition py32_rx_ring_push (r : rx_ring) (data : list Z) : rx_ring :=
  let '(r', pushed) := rx_ring_push_loop r data 0 in
  if 0 <? pushed then k_sem_give r' else r'.

(** One locked section of [py32_uart_ring_drain]. *)
Definition rx_ring_pop (r : rx_ring) : option (Z * rx_ring) :=
  if py32_rx_tail r =? py32_rx_head r then None
  else Some (getb (py32_rx_ring r) (py32_rx_tail r),
             mk_rx_ring (py32_rx_ring r) (py32_rx_head r)
               (u16 ((py32_rx_tail r + 1) mod PY32_RX_RING_SIZE))
               (py32_rx_wake r)).

(** DMA interrupt reasons: half-full pushes the first half of the DMA buffer,
    anything else (transfer complete) the second half. *)
Inductive dma_reason := DMA_IRQ_HF | DMA_IRQ_TC.

Definition py32_dma_rx_isr (dma_buf : list Z) (reason : dma_reason)
    (r : rx_ring) : rx_ring :=
  let half := Z.to_nat (PY32_DMA_RX_BUF_SIZE / 2) in
  match reason with
  | DMA_IRQ_HF => py32_rx_ring_push r (slice dma_buf 0 half)
  | DMA_IRQ_TC => py32_rx_ring_push r (slice dma_buf half half)
  end.

(** The idle-timeout callback delivers [len] bytes at [data]. *)
Definition py32_dma_rx_timeout_handle (data : list Z) (len : nat)
    (r : rx_ring) : rx_ring := py32_rx_ring_push r (take len data).

(** ** Abstract queue *)

Definition ring_len (r : rx_ring) : Z :=
  (py32_rx_head r - py32_rx_tail r) mod 256.

(** The bytes between tail and head, oldest first. *)
Definition ring_queue (r : rx_ring) : list Z :=
  (λ k, getb (py32_rx_ring r) ((py32_rx_tail r + k) mod 256))
    <$> seqZ 0 (ring_len r).

Record ring_wf (r : rx_ring) : Prop := {
  ring_wf_len : length (py32_rx_ring r) = 256%nat;
  ring_wf_head : 0 <= py32_rx_head r < 256;
  ring_wf_tail : 0 <= py32_rx_tail r < 256;
  ring_wf_bytes : bytes_ok (py32_rx_ring r);
  ring_wf_wake : 0 <= py32_rx_wake r <= 32;
}.

(** The specification: a FIFO of at most 255 bytes that keeps the prefix of
    an offered chunk that fits. *)
Definition fifo_push (q d : list Z) : list Z := q ++ take (255 - length q) d.
Definition fifo_pop (q : list Z) : option (Z * list Z) :=
  match q with [] => None | b :: q' => Some (b, q') end.

Lemma ring_init_wf : ring_wf rx_ring_init.
Proof.
  split; simpl; try lia. by apply (Forall_replicate _ 256).
Qed.

Lemma length_ring_queue r :
  length (ring_queue r) = Z.to_nat (ring_len r).
Proof. unfold ring_queue. by rewrite length_fmap, length_seqZ. Qed.

Lemma ring_len_bound r : 0 <= ring_len r < 256.
Proof. unfold ring_len. dlia. Qed.

Lemma ring_queue_le_255 r : (length (ring_queue r) <= 255)%nat.
Proof. rewrite length_ring_queue. pose proof (ring_len_bound r). lia. Qed.

(** A byte written at the head extends the queue by it. *)
Lemma ring_queue_snoc r b :
  ring_wf r →
  let next := (py32_rx_head r + 1) mod 256 in
  next ≠ py32_rx_tail r →
  ring_queue (mk_rx_ring (setb (py32_rx_ring r) (py32_rx_head r) b) next
                (py32_rx_tail r) (py32_rx_wake r)) = ring_queue r ++ [b].
Proof.
  intros [Hl Hh Ht _ _] next Hne. unfold ring_queue, ring_len; simpl.
  replace ((next - py32_rx_tail r) mod 256)
    with (1 + (py32_rx_head r - py32_rx_tail r) mod 256) by (subst next; dlia).
  set (n := (py32_rx_head r - py32_rx_tail r) mod 256) in *.
  assert (Hn : 0 <= n < 255) by (subst n next; dlia).
  rewrite Z.add_comm, seqZ_app by lia. rewrite fmap_app. f_equal.
  - apply list_fmap_ext. intros _ k Hk%list_elem_of_lookup_2%elem_of_seqZ.
    rewrite getb_setb_ne; [done|lia|dlia|subst n; dlia].
  - rewrite (seqZ_cons (0 + n)) by lia.
    replace (Z.pred 1) with 0 by lia. simpl. f_equal.
    rewrite <- (getb_setb_eq (py32_rx_ring r) (py32_rx_head r) b) at 2 by lia.
    f_equal. subst n. dlia.
Qed.

Lemma rx_ring_push_loop_spec data r pushed r' p' :
  ring_wf r → bytes_ok data →
  rx_ring_push_loop r data pushed = (r', p') →
  ring_wf r' ∧ ring_queue r' = fifo_push (ring_queue r) data ∧
  py32_rx_wake r' = py32_rx_wake r ∧
  p' = pushed + Z.of_nat (length (ring_queue r') - length (ring_queue r)).
Proof.
  revert r pushed. induction data as [|b data IH]; intros r pushed Hwf Hb; simpl.
  { intros [= <- <-]. unfold fifo_push. rewrite take_nil, app_nil_r.
    split_and!; try done. lia. }
  inversion Hb; subst.
  assert (Hn : u16 ((py32_rx_head r + 1) mod PY32_RX_RING_SIZE)
               = (py32_rx_head r + 1) mod 256).
  { apply u16_id. unfold PY32_RX_RING_SIZE. dlia. }
  rewrite Hn. destruct (Z.eqb_spec ((py32_rx_head r + 1) mod 256)
                          (py32_rx_tail r)) as [He|Hne].
  - intros [= <- <-]. unfold fifo_push.
    rewrite length_ring_queue.
    assert (ring_len r = 255) as ->.
    { destruct Hwf. unfold ring_len. dlia. }
    simpl. rewrite app_nil_r. split_and!; try done. lia.
  - intros Hloop. apply IH in Hloop as (Hwf' & Hq & Hw & Hp).
    + rewrite ring_queue_snoc in Hq, Hp by done. split_and!; [done| |done|].
      * rewrite Hq. unfold fifo_push. rewrite <- app_assoc, length_app. simpl.
        pose proof (ring_queue_le_255 r) as Hle.
        assert (length (ring_queue r) ≠ 255)%nat.
        { rewrite length_ring_queue. destruct Hwf. unfold ring_len. dlia. }
        replace (255 - length (ring_queue r))%nat
          with (S (255 - (length (ring_queue r) + 1))) by lia. done.
      * rewrite Hp, length_app. simpl.
        assert (length (ring_queue r') ≥ length (ring_queue r) + 1)%nat; [|lia].
        rewrite Hq. unfold fifo_push. rewrite !length_app. simpl. lia.
    + destruct Hwf as [Hl Hh Ht Hby Hwk]. split; simpl; try done; try dlia.
      * by rewrite length_setb.
      * auto with fw.
    + done.
Qed.

Lemma k_sem_give_wf r : ring_wf r → ring_wf (k_sem_give r).
Proof.
  intros []. split; simpl; try done. unfold PY32_RX_WAKE_LIMIT. zbool; lia.
Qed.

Lemma ring_queue_sem_give r : ring_queue (k_sem_give r) = ring_queue r.
Proof. done. Qed.

Lemma py32_rx_ring_push_spec r data :
  ring_wf r → bytes_ok data →
  ring_wf (py32_rx_ring_push r data) ∧
  ring_queue (py32_rx_ring_push r data) = fifo_push (ring_queue r) data.
Proof.
  intros Hwf Hb. unfold py32_rx_ring_push.
  destruct (rx_ring_push_loop r data 0) as [r' p] eqn:E.
  apply rx_ring_push_loop_spec in E as (Hwf' & Hq & _ & _); [|done..].
  destruct (0 <? p); auto using k_sem_give_wf.
Qed.

(** A push that stores a byte leaves the thread a wake-up. *)
Lemma py32_rx_ring_push_wakes r data :
  ring_wf r → bytes_ok data →
  (length (ring_queue r) < length (ring_queue (py32_rx_ring_push r data)))%nat →
  0 < py32_rx_wake (py32_rx_ring_push r data).
Proof.
  intros Hwf Hb. unfold py32_rx_ring_push.
  destruct (rx_ring_push_loop r data 0) as [r' p] eqn:E.
  apply rx_ring_push_loop_spec in E as (Hwf' & _ & _ & Hp); [|done..].
  destruct (Z.ltb_spec 0 p); intros Hlt.
  - destruct Hwf'. simpl. unfold PY32_RX_WAKE_LIMIT. zbool; lia.
  - lia.
Qed.

Lemma rx_ring_pop_spec r :
  ring_wf r →
  match rx_ring_pop r with
  | None => ring_queue r = []
  | Some (b, r') => ring_wf r' ∧ ring_queue r = b :: ring_queue r'
  end.
Proof.
  intros [Hl Hh Ht Hby Hw]. unfold rx_ring_pop.
  destruct (Z.eqb_spec (py32_rx_tail r) (py32_rx_head r)) as [He|Hne].
  - unfold ring_queue, ring_len. rewrite He, Z.sub_diag. done.
  - assert (Hn : u16 ((py32_rx_tail r + 1) mod PY32_RX_RING_SIZE)
                 = (py32_rx_tail r + 1) mod 256).
    { apply u16_id. unfold PY32_RX_RING_SIZE. dlia. }
    rewrite Hn. split; [split; simpl; done || dlia|].
    unfold ring_queue, ring_len; simpl.
    set (n := (py32_rx_head r - py32_rx_tail r) mod 256).
    assert (0 < n < 256) by (subst n; dlia).
    replace ((py32_rx_head r - (py32_rx_tail r + 1) mod 256) mod 256)
      with (Z.pred n) by (subst n; dlia).
    rewrite seqZ_cons by lia. simpl. f_equal.
    { f_equal. dlia. }
    change (Z.succ 0) with (1 + 0). rewrite <- (fmap_add_seqZ 1).
    rewrite <- list_fmap_compose. apply list_fmap_ext.
    intros _ k Hk%list_elem_of_lookup_2%elem_of_seqZ. simpl.
    f_equal. dlia.
Qed.

(** ** Interleavings

    The interrupt side and the thread side in any order; a pop that finds the
    ring empty delivers nothing. *)
Inductive ring_op := RPush (d : list Z) | RPop.

Definition ring_exec (r : rx_ring) (o : ring_op) : rx_ring * list Z :=
  match o with
  | RPush d => (py32_rx_ring_push r d, [])
  | RPop => match rx_ring_pop r with
            | None => (r, [])
            | Some (b, r') => (r', [b])
            end
  end.

Definition fifo_exec (q : list Z) (o : ring_op) : list Z * list Z :=
  match o with
  | RPush d => (fifo_push q d, [])
  | RPop => match fifo_pop q with
            | None => (q, [])
            | Some (b, q') => (q', [b])
            end
  end.

Fixpoint run {S} (exec : S → ring_op → S * list Z) (s : S) (ops : list ring_op)
    : S * list Z :=
  match ops with
  | [] => (s, [])
  | o :: ops' => let '(s1, out1) := exec s o in
                 let '(s2, out2) := run exec s1 ops' in (s2, out1 ++ out2)
  end.

Definition op_ok (o : ring_op) : Prop :=
  match o with RPush d => bytes_ok d | RPop => True end.

Lemma ring_exec_refines r o :
  ring_wf r → op_ok o →
  ring_wf (ring_exec r o).1 ∧
  fifo_exec (ring_queue r) o = (ring_queue (ring_exec r o).1, (ring_exec r o).2).
Proof.
  intros Hwf Ho. destruct o as [d|]; simpl in *.
  - destruct (py32_rx_ring_push_spec r d) as [? ->]; done.
  - pose proof (rx_ring_pop_spec r Hwf) as Hp.
    destruct (rx_ring_pop r) as [[b r']|]; simpl.
    + destruct Hp as [Hwf' ->]. done.
    + by rewrite Hp.
Qed.

(** C18: Under every interleaving of interrupt pushes and thread pops the receive
    ring behaves as a FIFO of at most 255 bytes that keeps the prefix of a
    chunk that fits, and stays well-formed. *)
Theorem rx_ring_refines_fifo ops r :
  ring_wf r → Forall op_ok ops →
  ring_wf (run ring_exec r ops).1 ∧
  run fifo_exec (ring_queue r) ops =
    (ring_queue (run ring_exec r ops).1, (run ring_exec r ops).2).
Proof.
  revert r. induction ops as [|o ops IH]; intros r Hwf Hops; simpl; [done|].
  inversion Hops; subst.
  destruct (ring_exec_refines r o) as [Hwf1 Hx]; [done..|].
  destruct (ring_exec r o) as [r1 out1]; simpl in *. rewrite Hx.
  destruct (IH r1) as [Hwf2 Hy]; [done..|].
  destruct (run ring_exec r1 ops) as [r2 out2]; simpl in *. by rewrite Hy.
Qed.

Lemma rx_ring_refines_fifo_witness :
  run fifo_exec [] [RPush [7; 8]; RPop; RPush [9]; RPop] =
    (ring_queue (run ring_exec rx_ring_init
                   [RPush [7; 8]; RPop; RPush [9]; RPop]).1, [7; 8]).
Proof.
  apply (rx_ring_refines_fifo [RPush [7; 8]; RPop; RPush [9]; RPop] rx_ring_init).
  - exact ring_init_wf.
  - repeat constructor; vm_compute; intuition discriminate.
Defined.
