(* ===== verification/Py32Volume.v ===== *)
(** * Volume wheel mapping of the PY32 link

    [py32_volume_pct_to_level] and [py32_volume_level_to_pct] of
    system_app_py32_uart.c: piecewise-linear interpolation between eleven
    anchors, scaled to the number of volume steps of the audio policy. *)

From stdpp Require Import base numbers list option.
From S2P Require Import Prelude.
Local Open Scope Z_scope.

Definition pct_anchor : list Z := [0; 10; 20; 30; 40; 50; 60; 70; 80; 90; 100].
Definition level_anchor : list Z := [0; 3; 6; 8; 10; 11; 12; 13; 14; 15; 16].

(** [for (i = 1; i < ARRAY_SIZE(a); i++) if (v <= a[i]) break;] followed by
    [if (i >= ARRAY_SIZE(a)) i = ARRAY_SIZE(a) - 1U;].  [n] counts the
    remaining iterations. *)
Fixpoint anchor_search (a : list Z) (v : Z) (n : nat) (i : Z) : Z :=
  match n with
  | O => Z.of_nat (length a) - 1
  | S n' => if v <=? getb a i then i else anchor_search a v n' (i + 1)
  end.

(** The 16-step level of a percentage, before scaling. *)
Definition pct_to_level16 (pct : Z) : Z :=
  let i := anchor_search pct_anchor pct 10 1 in
  let lo_pct := getb pct_anchor (i - 1) in
  let hi_pct := getb pct_anchor i in
  let lo_lvl := getb level_anchor (i - 1) in
  let hi_lvl := getb level_anchor i in
  if hi_pct =? lo_pct then lo_lvl
  else u32 (lo_lvl + u32 (u32 (pct - lo_pct) * u32 (hi_lvl - lo_lvl)
                          + u32 (hi_pct - lo_pct) / 2)
                     / u32 (hi_pct - lo_pct)).

(** [static int py32_volume_pct_to_level(uint8_t pct)]; [max] is what
    [audio_policy_get_volume_level()] returns. *)
Definition py32_volume_pct_to_level (max pct : Z) : Z :=
  if max <=? 0 then 0
  else
    let pct := if 100 <? pct then 100 else pct in
    let level := pct_to_level16 pct in
    let level := if max =? 16 then level else (level * max + 8) ÷ 16 in
    let level := if level <? 0 then 0 else level in
    if max <? level then max else level.

(** The percentage of a level of the 16-step table. *)
Definition level16_to_pct (mapped : Z) : Z :=
  let i := anchor_search level_anchor mapped 10 1 in
  let lo_pct := getb pct_anchor (i - 1) in
  let hi_pct := getb pct_anchor i in
  let lo_lvl := getb level_anchor (i - 1) in
  let hi_lvl := getb level_anchor i in
  if hi_lvl =? lo_lvl then u8 lo_pct
  else u8 (lo_pct + u32 (u32 (mapped - lo_lvl) * u32 (hi_pct - lo_pct)
                         + u32 (hi_lvl - lo_lvl) / 2)
                    / u32 (hi_lvl - lo_lvl)).

(** [static uint8_t py32_volume_level_to_pct(int level)] *)
Definition py32_volume_level_to_pct (max level : Z) : Z :=
  let level := if level <? 0 then 0 else level in
  if max <=? 0 then 0
  else
    let level := if max <? level then max else level in
    let mapped := if max =? 16 then level
                  else (level * 16 + max ÷ 2) ÷ max in
    let mapped := if 16 <? mapped then 16 else mapped in
    level16_to_pct mapped.

(** The table that [py32_volume_log_map_table] prints. *)
Definition py32_volume_log_map_table (max : Z) : list (Z * Z) :=
  (λ p, (p, py32_volume_pct_to_level max p)) <$> pct_anchor.

(** ** Correctness *)

Definition adjacent_le (f : Z → Z) (n : Z) : bool :=
  forallb (λ p, f p <=? f (p + 1)) (seqZ 0 n).

Lemma adjacent_le_mono f n :
  adjacent_le f n = true → ∀ p q, 0 <= p → p <= q → q <= n → f p <= f q.
Proof.
  intros H p q Hp Hpq Hq. unfold adjacent_le in H. rewrite forallb_forall in H.
  assert (Hs : ∀ k, 0 <= k < n → f k <= f (k + 1)).
  { intros k Hk. apply Z.leb_le, H. apply list_elem_of_In, elem_of_seqZ. lia. }
  remember (Z.to_nat (q - p)) as d eqn:Ed.
  revert q Hpq Hq Ed. induction d as [|d IH]; intros q Hpq Hq Ed.
  - by replace q with p by lia.
  - etrans; [apply (IH (q - 1)); lia|].
    replace q with ((q - 1) + 1) at 2 by lia. apply Hs. lia.
Qed.

Lemma forallb_range (P : Z → bool) n :
  forallb P (seqZ 0 n) = true → ∀ k, 0 <= k < n → P k = true.
Proof.
  intros H k Hk. rewrite forallb_forall in H. apply H.
  apply list_elem_of_In, elem_of_seqZ. lia.
Qed.

Lemma pct_to_level16_range p : 0 <= p <= 100 → 0 <= pct_to_level16 p <= 16.
Proof.
  intros Hp.
  assert (H : forallb (λ q, (0 <=? pct_to_level16 q) && (pct_to_level16 q <=? 16))
                (seqZ 0 101) = true) by reflexivity.
  pose proof (forallb_range _ _ H p ltac:(lia)) as Hx. cbv beta in Hx.
  apply andb_true_iff in Hx as [? ?]. lia.
Qed.

Lemma pct_to_level16_mono p q :
  0 <= p → p <= q → q <= 100 → pct_to_level16 p <= pct_to_level16 q.
Proof. apply adjacent_le_mono. reflexivity. Qed.

(** The scaling to [max] steps, on a level of the table. *)
Definition scale (max l : Z) : Z := if max =? 16 then l else (l * max + 8) ÷ 16.

Lemma scale_div max l : 0 < max → 0 <= l → scale max l = (l * max + 8) / 16.
Proof.
  intros. unfold scale. destruct (Z.eqb_spec max 16) as [->|].
  - rewrite Z.div_add_l by lia. change (8 / 16) with 0. lia.
  - apply Z.quot_div_nonneg; nia.
Qed.

Lemma scale_mono max l l' :
  0 < max → 0 <= l <= l' → scale max l <= scale max l'.
Proof. intros. rewrite !scale_div by lia. apply Z.div_le_mono; nia. Qed.

Lemma scale_0 max : 0 < max → scale max 0 = 0.
Proof. intros. by rewrite scale_div. Qed.
Lemma scale_16 max : 0 < max → scale max 16 = max.
Proof.
  intros. rewrite scale_div by lia. rewrite (Z.mul_comm 16), Z.div_add_l by lia.
  change (8 / 16) with 0. lia.
Qed.

Lemma scale_range max l : 0 < max → 0 <= l <= 16 → 0 <= scale max l <= max.
Proof.
  intros. pose proof (scale_mono max 0 l). pose proof (scale_mono max l 16).
  pose proof (scale_0 max). pose proof (scale_16 max). lia.
Qed.

(** Under the range facts the final clamps are inert. *)
Lemma py32_volume_pct_to_level_scale max pct :
  0 < max → 0 <= pct →
  py32_volume_pct_to_level max pct = scale max (pct_to_level16 (Z.min pct 100)).
Proof.
  intros Hm Hp. unfold py32_volume_pct_to_level.
  destruct (Z.leb_spec max 0); [lia|].
  replace (if 100 <? pct then 100 else pct) with (Z.min pct 100) by (zbool; lia).
  fold (scale max (pct_to_level16 (Z.min pct 100))).
  pose proof (scale_range max (pct_to_level16 (Z.min pct 100)) Hm
                (pct_to_level16_range (Z.min pct 100) ltac:(lia))).
  zbool; lia.
Qed.

Lemma py32_volume_pct_to_level_range max pct :
  0 < max → 0 <= pct → 0 <= py32_volume_pct_to_level max pct <= max.
Proof.
  intros. rewrite py32_volume_pct_to_level_scale by done.
  apply scale_range; [done|]. apply pct_to_level16_range. lia.
Qed.

(** For every number of levels the wheel mapping is monotone, stays within
    0..max, maps 0% to 0 and 100% and above to max. *)
Theorem py32_volume_pct_to_level_monotone max p q :
  0 < max → 0 <= p → p <= q →
  0 <= py32_volume_pct_to_level max p <= py32_volume_pct_to_level max q ∧
  py32_volume_pct_to_level max q <= max ∧
  py32_volume_pct_to_level max 0 = 0 ∧
  (100 <= q → py32_volume_pct_to_level max q = max).
Proof.
  intros Hm Hp Hpq. rewrite !py32_volume_pct_to_level_scale by lia.
  pose proof (pct_to_level16_range (Z.min p 100) ltac:(lia)).
  pose proof (pct_to_level16_range (Z.min q 100) ltac:(lia)).
  pose proof (scale_range max (pct_to_level16 (Z.min p 100))).
  pose proof (scale_range max (pct_to_level16 (Z.min q 100))).
  split_and!; try lia.
  - apply scale_mono; [done|].
    pose proof (pct_to_level16_mono (Z.min p 100) (Z.min q 100)). lia.
  - by apply scale_0.
  - intros. rewrite Z.min_r by lia. by apply scale_16.
Qed.

Lemma py32_volume_pct_to_level_monotone_witness :
  0 <= py32_volume_pct_to_level 16 37 <= py32_volume_pct_to_level 16 63.
Proof. apply (py32_volume_pct_to_level_monotone 16 37 63); lia. Defined.

(** Whatever the policy reports, the percentage is one. *)
Lemma level16_to_pct_range m : 0 <= m <= 16 → 0 <= level16_to_pct m <= 100.
Proof.
  intros Hm.
  assert (H : forallb (λ q, (0 <=? level16_to_pct q) && (level16_to_pct q <=? 100))
                (seqZ 0 17) = true) by reflexivity.
  pose proof (forallb_range _ _ H m ltac:(lia)) as Hx. cbv beta in Hx.
  apply andb_true_iff in Hx as [? ?]. lia.
Qed.

Lemma py32_volume_level_to_pct_range max level :
  0 <= py32_volume_level_to_pct max level <= 100.
Proof.
  unfold py32_volume_level_to_pct.
  destruct (Z.leb_spec max 0); [lia|].
  set (l := if max <? _ then _ else _).
  assert (Hl : 0 <= l) by (subst l; zbool; lia).
  apply level16_to_pct_range.
  assert (0 <= (l * 16 + max ÷ 2) ÷ max).
  { assert (0 <= max ÷ 2) by (apply Z.quot_pos; lia). apply Z.quot_pos; lia. }
  zbool; lia.
Qed.

Definition levels_round_trip (max : Z) : bool :=
  forallb (λ l, py32_volume_pct_to_level max (py32_volume_level_to_pct max l) =? l)
    (seqZ 0 (max + 1)).

Lemma level_round_trip max level :
  0 < max <= 16 → 0 <= level <= max →
  py32_volume_pct_to_level max (py32_volume_level_to_pct max level) = level ∧
  0 <= py32_volume_level_to_pct max level <= 100.
Proof.
  intros Hm Hl.
  assert (Ha : forallb (λ m, levels_round_trip (m + 1) &&
                forallb (λ l, (0 <=? py32_volume_level_to_pct (m + 1) l)
                              && (py32_volume_level_to_pct (m + 1) l <=? 100))
                  (seqZ 0 (m + 2))) (seqZ 0 16) = true) by (vm_compute; reflexivity).
  pose proof (forallb_range _ _ Ha (max - 1) ltac:(lia)) as H.
  apply andb_true_iff in H as [Hr Hb]. unfold levels_round_trip in Hr.
  replace (max - 1 + 1) with max in Hr, Hb by lia.
  replace (max - 1 + 2) with (max + 1) in Hb by lia.
  pose proof (forallb_range _ _ Hr level ltac:(lia)).
  pose proof (forallb_range _ _ Hb level ltac:(lia)) as Hx. cbv beta in *.
  apply andb_true_iff in Hx as [? ?]. split; lia.
Qed.

(** For every policy of 1 to 16 levels the percentage computed for a level
    maps back to that level and lies in 0..100. *)
Theorem py32_volume_level_roundtrip max level :
  0 < max <= 16 → 0 <= level <= max →
  py32_volume_pct_to_level max (py32_volume_level_to_pct max level) = level ∧
  0 <= py32_volume_level_to_pct max level <= 100.
Proof. apply level_round_trip. Qed.

Lemma py32_volume_level_roundtrip_witness :
  py32_volume_pct_to_level 16 (py32_volume_level_to_pct 16 7) = 7.
Proof. apply (py32_volume_level_roundtrip 16 7); lia. Defined.

(** The percentage echoed for a wheel position selects the same level again
    and is at most five points away, on the 16-step policy of this product. *)
Lemma py32_volume_echo_stable pct :
  0 <= pct <= 100 →
  let level := py32_volume_pct_to_level 16 pct in
  let echo := py32_volume_level_to_pct 16 level in
  py32_volume_pct_to_level 16 echo = level ∧ Z.abs (echo - pct) <= 5.
Proof.
  intros Hp.
  assert (H : forallb (λ p,
     let level := py32_volume_pct_to_level 16 p in
     let echo := py32_volume_level_to_pct 16 level in
     (py32_volume_pct_to_level 16 echo =? level) && (Z.abs (echo - p) <=? 5))
     (seqZ 0 101) = true) by (vm_compute; reflexivity).
  pose proof (forallb_range _ _ H pct ltac:(lia)) as Hx. cbv zeta in *.
  apply andb_true_iff in Hx as [? ?]. lia.
Qed.

(** The anchor table in the source comment, for the 16-step policy. *)
Example py32_volume_anchor_table :
  py32_volume_log_map_table 16 = zip pct_anchor level_anchor.
Proof. reflexivity. Qed.
