(* ===== verification/Py32Uart.v ===== *)
(** * PY32 link: parameters, status frames and the frame parser

    The protocol part of samples/bt_speaker/src/system_app/
    system_app_py32_uart.c in the shipped configuration (CONFIG_BT_MANAGER and
    CONFIG_AUDIO_SUPPORT_DYNAMIC_PEQ set, the debug and test options unset):
    [py32_state], the rhythm cache, the transmit path
    ([py32_uart_tx_bytes], [py32_tx_status_frame]), the byte-wise receive
    state machine ([py32_rx_feed_byte]) and the command handlers.  The calls
    into the rest of the firmware go through the interface class [Py32Env]. *)

From stdpp Require Import base numbers list option.
From S2P Require Import Prelude Crc16 Py32Ring Py32Volume.
Local Open Scope Z_scope.

Definition PY32_ADDR_HOST : Z := 1.
Definition PY32_ADDR_SLAVE : Z := 2.
Definition PY32_CMD_COMMON : Z := 16.
Definition PY32_SET_DATA_LEN : Z := 4.
Definition PY32_RSP_STATE_LEN : Z := 6.
Definition PY32_RSP_RHYTHM_LEN : Z := 11.
Definition PY32_RSP_DATA_LEN : Z := PY32_RSP_STATE_LEN + PY32_RSP_RHYTHM_LEN.
Definition PY32_FRAME_MAX : Z := 128.

Definition PY32_ERR_NONE : Z := 0.
Definition PY32_ERR_UNSUPPORTED : Z := 1.
Definition PY32_ERR_BAD_LEN : Z := 2.
Definition PY32_ERR_BAD_VALUE : Z := 3.
Definition PY32_ERR_CRC : Z := 4.

Definition PY32_PEQ_IDX_BASS : Z := 15.
Definition PY32_PEQ_IDX_TREBLE : Z := 16.
Definition BT_STATUS_PLAYING : Z := 2.

(** ** The rest of the firmware, as the link sees it *)

(** [eq_band_t] *)
Record eq_band := mk_eq_band { eq_cutoff : Z; eq_q : Z; eq_gain : Z; eq_type : Z }.

(** The Bluetooth manager calls of [py32_host_bt_enable]/[_disable]. *)
Inductive bt_call :=
  | BtSetUserVisual (enable discoverable connectable : bool) (mode : Z)
  | BtStartWaitConnect
  | BtPowonAutoReconnect (mode : Z)
  | BtAutoReconnectStop
  | BtEndPairMode
  | BtDisconnectAllPhone
  | BtEndWaitConnect.

(** UI messages posted with [py32_host_notify_ui]. *)
Inductive ui_event := UI_EVENT_POWER_ON | UI_EVENT_ENTER_BTMUSIC.

(** What the link calls: [W] is the state of the other subsystems. *)
Class Py32Env (W : Type) := {
  audio_policy_get_volume_level : W → Z;
  system_volume_get : W → Z;              (* AUDIO_STREAM_MUSIC *)
  system_volume_set : Z → W → W;          (* AUDIO_STREAM_MUSIC, display *)
  audio_policy_set_dynamic_peq_band : Z → eq_band → W → W;
  media_player_present : W → bool;
  media_player_dynamic_update_peq : W → W;
  bt_manager_is_inited : W → bool;
  bt_manager_power_on_setup : W → bool;
  bt_manager_get_connected_dev_num : W → Z;
  bt_manager_media_get_status : W → Z;
  bt_manager_call : bt_call → W → W;
  desktop_plugin_is_br_music : W → bool;
  ui_message_send_async : ui_event → W → W;
}.

(** What the link relies on, of an audio system that is ready: the volume read
    back is the one set, as long as it is a level of the policy; and the
    equaliser calls leave volume and number of levels alone. *)
Class Py32AudioLaws (W : Type) `{!Py32Env W} := {
  audio_ready : W → Prop;
  volume_get_set l w :
    audio_ready w → 0 <= l <= audio_policy_get_volume_level w →
    system_volume_get (system_volume_set l w) = l;
  volume_level_set l w :
    audio_ready w → audio_policy_get_volume_level (system_volume_set l w)
    = audio_policy_get_volume_level w;
  volume_get_peq i e w :
    system_volume_get (audio_policy_set_dynamic_peq_band i e w) = system_volume_get w;
  volume_level_peq i e w :
    audio_policy_get_volume_level (audio_policy_set_dynamic_peq_band i e w)
    = audio_policy_get_volume_level w;
  volume_get_update w :
    system_volume_get (media_player_dynamic_update_peq w) = system_volume_get w;
  volume_level_update w :
    audio_policy_get_volume_level (media_player_dynamic_update_peq w)
    = audio_policy_get_volume_level w;
}.

(** ** State *)

(** [struct py32_params] *)
Record py32_params := mk_params {
  volume : Z;
  treble : Z;
  bass : Z;
  vibration : Z;
  last_error : Z;
}.

(** The rhythm cache. *)
Record py32_rhythm := mk_rhythm {
  rhythm_bands : list Z;
  rhythm_playing : Z;
  rhythm_dirty : Z;
}.

(** The states of the receive machine. *)
Inductive rx_state :=
  | PY32_RX_ADDR | PY32_RX_CMD | PY32_RX_LEN
  | PY32_RX_DATA | PY32_RX_CRC_L | PY32_RX_CRC_H.

#[export] Instance rx_state_eq_dec : EqDecision rx_state.
Proof. solve_decision. Defined.

Record py32_parser := mk_parser {
  parse_state : rx_state;
  frame_addr : Z;
  frame_cmd : Z;
  frame_len : Z;
  frame_data : list Z;
  frame_got : Z;
  crc_rx : Z;
}.

(** [py32_last_rx_log]: the last frame that was accepted. *)
Record py32_rx_log := mk_rx_log {
  log_addr : Z;
  log_cmd : Z;
  log_len : Z;
  log_data : list Z;
  log_crc : Z;
}.

(** The transmit side: the duplicate filter of the TX print, the counters,
    the bytes put on the wire, and the values successive reads of the
    UART_STA_UTBB flag will return (an exhausted list reads idle: the shift
    register always empties eventually). *)
Record py32_tx := mk_tx {
  last_tx_log : list Z;
  last_tx_len : Z;
  tx_frame_count : Z;
  tx_byte_count : Z;
  tx_wire : list Z;
  tx_utbb : list bool;
  tx_timeouts : Z;
}.

Record py32 (W : Type) := mk_py32 {
  st_params : py32_params;
  st_rhythm : py32_rhythm;
  st_parser : py32_parser;
  st_rx_log : py32_rx_log;
  st_tx : py32_tx;
  st_world : W;
}.
Arguments mk_py32 {W}.
Arguments st_params {W}.
Arguments st_rhythm {W}.
Arguments st_parser {W}.
Arguments st_rx_log {W}.
Arguments st_tx {W}.
Arguments st_world {W}.

Section setters.
Context {W : Type}.
Definition set_params (p : py32_params) (s : py32 W) : py32 W :=
  mk_py32 p (st_rhythm s) (st_parser s) (st_rx_log s) (st_tx s) (st_world s).
Definition set_rhythm (r : py32_rhythm) (s : py32 W) : py32 W :=
  mk_py32 (st_params s) r (st_parser s) (st_rx_log s) (st_tx s) (st_world s).
Definition set_parser (p : py32_parser) (s : py32 W) : py32 W :=
  mk_py32 (st_params s) (st_rhythm s) p (st_rx_log s) (st_tx s) (st_world s).
Definition set_rx_log (l : py32_rx_log) (s : py32 W) : py32 W :=
  mk_py32 (st_params s) (st_rhythm s) (st_parser s) l (st_tx s) (st_world s).
Definition set_tx (t : py32_tx) (s : py32 W) : py32 W :=
  mk_py32 (st_params s) (st_rhythm s) (st_parser s) (st_rx_log s) t (st_world s).
Definition set_world (w : W) (s : py32 W) : py32 W :=
  mk_py32 (st_params s) (st_rhythm s) (st_parser s) (st_rx_log s) (st_tx s) w.
End setters.

Definition set_volume (v : Z) (p : py32_params) : py32_params :=
  mk_params v (treble p) (bass p) (vibration p) (last_error p).
Definition set_treble_bass (t b : Z) (p : py32_params) : py32_params :=
  mk_params (volume p) t b (vibration p) (last_error p).
Definition set_vibration (v : Z) (p : py32_params) : py32_params :=
  mk_params (volume p) (treble p) (bass p) v (last_error p).
Definition set_last_error (e : Z) (p : py32_params) : py32_params :=
  mk_params (volume p) (treble p) (bass p) (vibration p) e.

(** [static struct py32_params py32_state = {.treble = 12U, .bass = 12U}] *)
Definition py32_state_init : py32_params := mk_params 0 12 12 0 0.
Definition py32_rhythm_init : py32_rhythm := mk_rhythm (replicate 10 0) 0 0.
Definition py32_rx_log_init : py32_rx_log := mk_rx_log 0 0 0 (replicate 128 0) 0.
Definition py32_tx_init (utbb : list bool) : py32_tx :=
  mk_tx (replicate 128 0) 0 0 0 [] utbb 0.

(** ** Transmit path *)

(** [while (uart->stat & UART_STA_UTBB) ;]: the flag reads left after it. *)
Fixpoint utbb_spin (flags : list bool) : list bool :=
  match flags with
  | true :: rest => utbb_spin rest
  | false :: rest => rest
  | [] => []
  end.

(** [py32_uart1_putc_hw]: wait for the buffer, then write the data register. *)
Definition py32_uart1_putc_hw (c : Z) (t : py32_tx) : py32_tx :=
  mk_tx (last_tx_log t) (last_tx_len t) (tx_frame_count t) (tx_byte_count t)
    (tx_wire t ++ [c]) (utbb_spin (tx_utbb t)) (tx_timeouts t).

(** [py32_uart1_tx_wait_idle]: poll every millisecond, give up after 30. *)
Fixpoint tx_wait_idle_loop (flags : list bool) (wait_ms : Z) : list bool * bool :=
  match flags with
  | true :: rest =>
      let wait_ms := wait_ms + 1 in
      if 30 <? wait_ms then (rest, true) else tx_wait_idle_loop rest wait_ms
  | false :: rest => (rest, false)
  | [] => ([], false)
  end.

Definition py32_uart1_tx_wait_idle (t : py32_tx) : py32_tx :=
  let '(flags, timeout) := tx_wait_idle_loop (tx_utbb t) 0 in
  mk_tx (last_tx_log t) (last_tx_len t) (tx_frame_count t) (tx_byte_count t)
    (tx_wire t) flags (tx_timeouts t + if timeout then 1 else 0).

(** [py32_print_tx_frame]: remembers the frame unless it equals the last. *)
Definition py32_print_tx_frame (data : list Z) (t : py32_tx) : py32_tx :=
  let len := Z.of_nat (length data) in
  if (len =? 0) || (PY32_FRAME_MAX <? len) then t
  else if (len =? last_tx_len t) &&
          bool_decide (take (length data) (last_tx_log t) = data) then t
  else mk_tx (memcpy (last_tx_log t) 0 data) len (tx_frame_count t)
         (tx_byte_count t) (tx_wire t) (tx_utbb t) (tx_timeouts t).

(** [py32_uart_tx_bytes] *)
Definition py32_uart_tx_bytes (data : list Z) (t : py32_tx) : py32_tx :=
  let len := Z.of_nat (length data) in
  if (len =? 0) || (PY32_FRAME_MAX <? len) then t
  else
    let t := py32_print_tx_frame data t in
    let t := fold_left (λ t c, py32_uart1_putc_hw c t) data t in
    let t := py32_uart1_tx_wait_idle t in
    mk_tx (last_tx_log t) (last_tx_len t) (u32 (tx_frame_count t + 1))
      (u32 (tx_byte_count t + u32 len)) (tx_wire t) (tx_utbb t) (tx_timeouts t).

(** ** Parameters, status and frames *)

Section link.
Context {W : Type} `{!Py32Env W}.
Implicit Types (s : py32 W).

(** [py32_apply_volume] *)
Definition py32_apply_volume (volume_pct : Z) s : py32 W :=
  let level := py32_volume_pct_to_level
                 (audio_policy_get_volume_level (st_world s)) volume_pct in
  let s := set_params (set_volume volume_pct (st_params s)) s in
  set_world (system_volume_set level (st_world s)) s.

(** [py32_push_dynamic_peq] *)
Definition py32_push_dynamic_peq s : py32 W :=
  if media_player_present (st_world s)
  then set_world (media_player_dynamic_update_peq (st_world s)) s
  else s.

(** The filter of one tone control: 0..24 is -12..+12 dB in 0.1 dB. *)
Definition tone_band (cutoff lvl : Z) : eq_band :=
  mk_eq_band cutoff 70 ((lvl - 12) * 10) 1.

(** [py32_apply_treble_bass] *)
Definition py32_apply_treble_bass (t b : Z) s : py32 W :=
  if (24 <? t) || (24 <? b)
  then set_params (set_last_error PY32_ERR_BAD_VALUE (st_params s)) s
  else
    let s := set_params (set_treble_bass t b (st_params s)) s in
    let s := set_world (audio_policy_set_dynamic_peq_band PY32_PEQ_IDX_BASS
                          (tone_band 200 b) (st_world s)) s in
    let s := set_world (audio_policy_set_dynamic_peq_band PY32_PEQ_IDX_TREBLE
                          (tone_band 8000 t) (st_world s)) s in
    py32_push_dynamic_peq s.

(** [system_app_py32_reapply_eq] *)
Definition system_app_py32_reapply_eq s : py32 W :=
  py32_apply_treble_bass (treble (st_params s)) (bass (st_params s)) s.

(** [py32_get_bt_connected] *)
Definition py32_get_bt_connected s : Z :=
  if 0 <? bt_manager_get_connected_dev_num (st_world s) then 1 else 0.

(** [py32_sync_status_for_response] *)
Definition py32_sync_status_for_response s : py32 W :=
  let level := system_volume_get (st_world s) in
  if 0 <=? level
  then set_params (set_volume
         (py32_volume_level_to_pct
            (audio_policy_get_volume_level (st_world s)) level)
         (st_params s)) s
  else s.

(** The 17 data bytes of a status frame. *)
Definition status_data (s : py32 W) (err_code media_playing : Z) : list Z :=
  [volume (st_params s); treble (st_params s); bass (st_params s);
   vibration (st_params s); py32_get_bt_connected s; err_code]
  ++ (if media_playing =? 0 then replicate 10 0
      else take 10 (rhythm_bands (st_rhythm s)))
  ++ [media_playing].

(** Addr, CMD, LEN, DATA and the CRC over them, low byte first. *)
Definition frame_bytes (addr cmd : Z) (data : list Z) : list Z :=
  let hdr := [addr; cmd; Z.of_nat (length data)] ++ data in
  let crc := py32_crc16 hdr (length hdr) in
  hdr ++ [crc16_lo crc; crc16_hi crc].

(** [py32_tx_status_frame] *)
Definition py32_tx_status_frame (err_code : Z) s : py32 W :=
  let s := if err_code =? PY32_ERR_NONE
           then py32_sync_status_for_response s else s in
  let media_playing :=
    if bt_manager_media_get_status (st_world s) =? BT_STATUS_PLAYING
    then 1 else 0 in
  let data := status_data s err_code media_playing in
  let s := set_rhythm (mk_rhythm (rhythm_bands (st_rhythm s)) media_playing 0) s in
  set_tx (py32_uart_tx_bytes
            (frame_bytes PY32_ADDR_SLAVE PY32_CMD_COMMON data) (st_tx s)) s.

(** [py32_send_status_response], [system_app_py32_uart_push_now] *)
Definition py32_send_status_response (err_code : Z) s : py32 W :=
  py32_tx_status_frame err_code s.
Definition system_app_py32_uart_push_now s : py32 W :=
  py32_send_status_response PY32_ERR_NONE s.

(** [py32_rhythm_set_data]; a null [bands] is [None]. *)
Definition py32_rhythm_set_data (bands : option (list Z)) (playing : Z) s : py32 W :=
  match bands with
  | None => s
  | Some b => set_rhythm (mk_rhythm (memcpy (rhythm_bands (st_rhythm s)) 0 (take 10 b))
                            (if playing =? 0 then 0 else 1) 1) s
  end.

(** ** Receiving *)

(** [py32_parse_reset]; the data buffer keeps its bytes. *)
Definition parse_reset (p : py32_parser) : py32_parser :=
  mk_parser PY32_RX_ADDR 0 0 0 (frame_data p) 0 0.
Definition py32_parse_reset s : py32 W :=
  set_parser (parse_reset (st_parser s)) s.

(** [py32_rx_frame_same]: the duplicate test on received frames. *)
Definition py32_rx_frame_same (l : py32_rx_log) (addr cmd : Z)
    (data : list Z) (len crc : Z) : bool :=
  if negb (log_addr l =? addr) || negb (log_cmd l =? cmd) ||
     negb (log_len l =? len) || negb (log_crc l =? crc) then false
  else if len =? 0 then true
  else bool_decide (take (Z.to_nat len) (log_data l) = take (Z.to_nat len) data).

(** [py32_save_rx_log] *)
Definition py32_save_rx_log (l : py32_rx_log) (addr cmd : Z)
    (data : list Z) (len crc : Z) : py32_rx_log :=
  mk_rx_log addr cmd len
    (if 0 <? len then memcpy (log_data l) 0 (take (Z.to_nat len) data)
     else log_data l) crc.

(** [py32_handle_set_params] *)
Definition py32_handle_set_params (data : list Z) (len : Z) s : py32 W :=
  if negb (len =? PY32_SET_DATA_LEN) then
    py32_send_status_response PY32_ERR_BAD_LEN
      (set_params (set_last_error PY32_ERR_BAD_LEN (st_params s)) s)
  else
    let d0 := getb data 0 in let d1 := getb data 1 in
    let d2 := getb data 2 in let d3 := getb data 3 in
    let bad := (100 <? d0) || (24 <? d1) || (24 <? d2) || (100 <? d3) in
    let err := if bad then PY32_ERR_BAD_VALUE else PY32_ERR_NONE in
    let s := if bad then s
             else
               let s := py32_apply_volume d0 s in
               let s := py32_apply_treble_bass d1 d2 s in
               set_params (set_vibration d3 (st_params s)) s in
    py32_send_status_response err
      (set_params (set_last_error err (st_params s)) s).

(** [py32_handle_frame] *)
Definition py32_handle_frame (addr cmd : Z) (data : list Z) (len : Z) s : py32 W :=
  if negb (addr =? PY32_ADDR_HOST) then s
  else if cmd =? PY32_CMD_COMMON then py32_handle_set_params data len s
  else py32_send_status_response PY32_ERR_UNSUPPORTED
         (set_params (set_last_error PY32_ERR_UNSUPPORTED (st_params s)) s).

(** [py32_process_complete_frame] *)
Definition py32_process_complete_frame s : py32 W :=
  let p := st_parser s in
  if PY32_FRAME_MAX - 5 <? frame_len p then
    py32_parse_reset (py32_send_status_response PY32_ERR_BAD_LEN s)
  else
    let hdr := [frame_addr p; frame_cmd p; frame_len p]
               ++ take (Z.to_nat (frame_len p)) (frame_data p) in
    let crc_calc := py32_crc16 hdr (Z.to_nat (u16 (3 + frame_len p))) in
    if negb (crc_calc =? crc_rx p) then
      py32_parse_reset
        (py32_send_status_response PY32_ERR_CRC
           (set_params (set_last_error PY32_ERR_CRC (st_params s)) s))
    else if py32_rx_frame_same (st_rx_log s) (frame_addr p) (frame_cmd p)
              (frame_data p) (frame_len p) (crc_rx p) then
      py32_parse_reset s
    else
      let s := set_rx_log (py32_save_rx_log (st_rx_log s) (frame_addr p)
                 (frame_cmd p) (frame_data p) (frame_len p) (crc_rx p)) s in
      let s := py32_handle_frame (frame_addr p) (frame_cmd p)
                 (frame_data p) (frame_len p) s in
      py32_parse_reset s.

(** The PY32_RX_ADDR case of [py32_rx_feed_byte]; also the tail of the
    resynchronisation in PY32_RX_DATA, which resets and feeds again. *)
Definition feed_addr (c : Z) (p : py32_parser) : py32_parser :=
  if negb (c =? PY32_ADDR_HOST) then p
  else mk_parser PY32_RX_CMD c (frame_cmd p) (frame_len p) (frame_data p)
         (frame_got p) (crc_rx p).

(** [py32_rx_feed_byte] *)
Definition py32_rx_feed_byte (c : Z) s : py32 W :=
  let p := st_parser s in
  match parse_state p with
  | PY32_RX_ADDR => set_parser (feed_addr c p) s
  | PY32_RX_CMD =>
      set_parser (mk_parser PY32_RX_LEN (frame_addr p) c (frame_len p)
                    (frame_data p) (frame_got p) (crc_rx p)) s
  | PY32_RX_LEN =>
      let p' := mk_parser (parse_state p) (frame_addr p) (frame_cmd p) c
                  (frame_data p) 0 (crc_rx p) in
      if c =? 0 then
        set_parser (mk_parser PY32_RX_CRC_L (frame_addr p') (frame_cmd p')
                      c (frame_data p') 0 (crc_rx p')) s
      else if PY32_FRAME_MAX - 5 <? c then set_parser (parse_reset p') s
      else
        set_parser (mk_parser PY32_RX_DATA (frame_addr p') (frame_cmd p')
                      c (frame_data p') 0 (crc_rx p')) s
  | PY32_RX_DATA =>
      if (c =? PY32_ADDR_HOST) && (frame_got p <? frame_len p) then
        set_parser (feed_addr c (parse_reset p)) s
      else
        let got := u8 (frame_got p + 1) in
        set_parser (mk_parser
          (if frame_len p <=? got then PY32_RX_CRC_L else PY32_RX_DATA)
          (frame_addr p) (frame_cmd p) (frame_len p)
          (setb (frame_data p) (frame_got p) c) got (crc_rx p)) s
  | PY32_RX_CRC_L =>
      set_parser (mk_parser PY32_RX_CRC_H (frame_addr p) (frame_cmd p)
                    (frame_len p) (frame_data p) (frame_got p) c) s
  | PY32_RX_CRC_H =>
      py32_process_complete_frame
        (set_parser (mk_parser PY32_RX_CRC_H (frame_addr p) (frame_cmd p)
           (frame_len p) (frame_data p) (frame_got p)
           (Z.lor (crc_rx p) (u16 (Z.shiftl c 8)))) s)
  end.

(** [py32_uart_feed_rx_byte] over a chunk of bytes. *)
Definition feed_bytes (l : list Z) s : py32 W :=
  fold_left (λ s c, py32_rx_feed_byte c s) l s.
End link.
