(* ===== verification/Py32Link.v ===== *)
(** * PY32 link: correctness of the frame parser and the command handlers

    Theorems on the definitions of [Py32Uart]: what goes on the wire, the
    invariant of the receive machine, which byte sequences are accepted and
    what an accepted command does. *)

From stdpp Require Import base numbers list option.
From S2P Require Import Prelude Crc16 Py32Ring Py32Volume Py32Uart.
Local Open Scope Z_scope.

(** ** Transmit path *)

Lemma fold_putc_wire data t :
  let t' := fold_left (λ t c, py32_uart1_putc_hw c t) data t in
  tx_wire t' = tx_wire t ++ data ∧ tx_frame_count t' = tx_frame_count t ∧
  tx_byte_count t' = tx_byte_count t ∧ last_tx_log t' = last_tx_log t ∧
  last_tx_len t' = last_tx_len t.
Proof.
  revert t. induction data as [|c data IH]; intros t; simpl.
  { by rewrite app_nil_r. }
  destruct (IH (py32_uart1_putc_hw c t)) as (-> & -> & -> & -> & ->).
  simpl. by rewrite <- app_assoc.
Qed.

(** The idle poll reads the flag at most 31 times, and reports a timeout
    exactly when all 31 reads found it set. *)
Lemma tx_wait_idle_loop_spec flags n :
  0 <= n <= 30 →
  let '(rest, timeout) := tx_wait_idle_loop flags n in
  (∃ used, flags = used ++ rest ∧ Z.of_nat (length used) <= 31 - n ∧
     (timeout = true → used = replicate (Z.to_nat (31 - n)) true)) ∧
  (take (Z.to_nat (31 - n)) flags = replicate (Z.to_nat (31 - n)) true →
   timeout = true).
Proof.
  revert n. induction flags as [|[] flags IH]; intros n Hn; simpl.
  - split; [by exists []; split_and!; simpl; [|lia|]|].
    intros H. exfalso.
    rewrite take_nil in H. apply (f_equal length) in H.
    rewrite length_replicate in H. simpl in H. lia.
  - replace (Z.to_nat (31 - n)) with (S (Z.to_nat (30 - n))) by lia.
    destruct (Z.ltb_spec 30 (n + 1)) as [Hlt|Hge].
    + split; [|done]. exists [true]. split_and!; [done|simpl; lia|].
      intros _. replace (Z.to_nat (30 - n)) with 0%nat by lia. done.
    + specialize (IH (n + 1) ltac:(lia)).
      replace (31 - (n + 1)) with (30 - n) in IH by lia.
      destruct (tx_wait_idle_loop flags (n + 1)) as [rest timeout].
      destruct IH as [(used & -> & Hu & Ht) Hall]. split.
      * exists (true :: used). split_and!; [done|simpl; lia|].
        intros E. simpl. by rewrite Ht.
      * simpl. intros [= H]. auto.
  - split; [exists [false]; split_and!; simpl; [done|lia|done]|].
    replace (Z.to_nat (31 - n)) with (S (Z.to_nat (30 - n))) by lia.
    simpl. discriminate.
Qed.

Lemma py32_uart_tx_bytes_wire data t :
  (0 < length data <= 128)%nat →
  tx_wire (py32_uart_tx_bytes data t) = tx_wire t ++ data ∧
  tx_frame_count (py32_uart_tx_bytes data t) = u32 (tx_frame_count t + 1) ∧
  tx_byte_count (py32_uart_tx_bytes data t)
    = u32 (tx_byte_count t + Z.of_nat (length data)).
Proof.
  intros Hlen. unfold py32_uart_tx_bytes, PY32_FRAME_MAX.
  destruct (Z.eqb_spec (Z.of_nat (length data)) 0); [lia|].
  destruct (Z.ltb_spec 128 (Z.of_nat (length data))); [lia|]. simpl orb. cbv iota.
  assert (Hp : tx_wire (py32_print_tx_frame data t) = tx_wire t ∧
               tx_frame_count (py32_print_tx_frame data t) = tx_frame_count t ∧
               tx_byte_count (py32_print_tx_frame data t) = tx_byte_count t).
  { unfold py32_print_tx_frame. by repeat case_match. }
  destruct Hp as (Hw & Hf & Hb).
  destruct (fold_putc_wire data (py32_print_tx_frame data t))
    as (Hw' & Hf' & Hb' & _).
  unfold py32_uart1_tx_wait_idle.
  destruct (tx_wait_idle_loop _ 0) as [flags to]. simpl.
  rewrite Hw', Hf', Hb', Hw, Hf, Hb. split_and!; [done|done|].
  by rewrite (u32_id (Z.of_nat _)) by lia.
Qed.

(** ** Well-formed link state *)

(** Parameters in the ranges of the protocol. *)
Record params_ok (p : py32_params) : Prop := {
  params_ok_volume : 0 <= volume p <= 100;
  params_ok_treble : 0 <= treble p <= 24;
  params_ok_bass : 0 <= bass p <= 24;
  params_ok_vibration : 0 <= vibration p <= 100;
  params_ok_error : 0 <= last_error p <= 4;
}.

Record rhythm_ok (r : py32_rhythm) : Prop := {
  rhythm_ok_len : length (rhythm_bands r) = 10%nat;
  rhythm_ok_bytes : bytes_ok (rhythm_bands r);
}.

(** The receive machine: the write index stays inside [py32_frame_data] and
    the frame fits [hdr]; a machine outside PY32_RX_ADDR has seen the host
    address. *)
Record parser_wf (p : py32_parser) : Prop := {
  parser_wf_buf : length (frame_data p) = 128%nat;
  parser_wf_bytes : bytes_ok (frame_data p);
  parser_wf_cmd : is_u8 (frame_cmd p);
  parser_wf_len : 0 <= frame_len p <= PY32_FRAME_MAX - 5;
  parser_wf_got : 0 <= frame_got p <= frame_len p;
  parser_wf_crc : is_u16 (crc_rx p);
  parser_wf_state :
    match parse_state p with
    | PY32_RX_ADDR => True
    | PY32_RX_CMD | PY32_RX_LEN => frame_addr p = 1
    | PY32_RX_DATA => frame_addr p = 1 ∧ frame_got p < frame_len p
    | PY32_RX_CRC_L => frame_addr p = 1 ∧ frame_got p = frame_len p
    | PY32_RX_CRC_H => frame_addr p = 1 ∧ frame_got p = frame_len p ∧
                       is_u8 (crc_rx p)
    end;
}.

Section link_props.
Context {W : Type} `{!Py32Env W}.
Implicit Types (s : py32 W).

Record link_wf (s : py32 W) : Prop := {
  link_wf_params : params_ok (st_params s);
  link_wf_rhythm : rhythm_ok (st_rhythm s);
  link_wf_parser : parser_wf (st_parser s);
  link_wf_log : length (log_data (st_rx_log s)) = 128%nat;
}.

(** *** Status frames *)

(** Whether the phone plays, as DATA[16] reports it. *)
Definition media_playing (s : py32 W) : Z :=
  if bt_manager_media_get_status (st_world s) =? BT_STATUS_PLAYING then 1 else 0.

(** The state whose values a status frame reports. *)
Definition status_synced (err : Z) s : py32 W :=
  if err =? PY32_ERR_NONE then py32_sync_status_for_response s else s.

Definition status_frame (err : Z) s : list Z :=
  let s := status_synced err s in
  frame_bytes PY32_ADDR_SLAVE PY32_CMD_COMMON
    (status_data s err (media_playing s)).

Lemma length_frame_bytes addr cmd data :
  length (frame_bytes addr cmd data) = (5 + length data)%nat.
Proof. unfold frame_bytes. simpl. rewrite length_app. simpl. lia. Qed.

Lemma length_status_data s err m :
  length (rhythm_bands (st_rhythm s)) = 10%nat →
  length (status_data s err m) = 17%nat.
Proof.
  intros Hl. unfold status_data. rewrite !length_app. simpl.
  destruct (m =? 0); [done|]. rewrite length_take, Hl. done.
Qed.

Lemma status_synced_frame err s :
  st_rhythm (status_synced err s) = st_rhythm s ∧
  st_parser (status_synced err s) = st_parser s ∧
  st_rx_log (status_synced err s) = st_rx_log s ∧
  st_tx (status_synced err s) = st_tx s ∧
  st_world (status_synced err s) = st_world s ∧
  treble (st_params (status_synced err s)) = treble (st_params s) ∧
  bass (st_params (status_synced err s)) = bass (st_params s) ∧
  vibration (st_params (status_synced err s)) = vibration (st_params s) ∧
  last_error (st_params (status_synced err s)) = last_error (st_params s).
Proof.
  unfold status_synced, py32_sync_status_for_response. by repeat case_match.
Qed.

Lemma status_synced_params_ok err s :
  params_ok (st_params s) → params_ok (st_params (status_synced err s)).
Proof.
  intros []. unfold status_synced, py32_sync_status_for_response.
  repeat case_match; split; try done. apply py32_volume_level_to_pct_range.
Qed.

(** The whole effect of [py32_tx_status_frame]. *)
Lemma py32_tx_status_frame_eq err s :
  py32_tx_status_frame err s =
  mk_py32 (st_params (status_synced err s))
    (mk_rhythm (rhythm_bands (st_rhythm s)) (media_playing s) 0)
    (st_parser s) (st_rx_log s)
    (py32_uart_tx_bytes (status_frame err s) (st_tx s)) (st_world s).
Proof.
  destruct (status_synced_frame err s) as (Hr & Hp & Hl & Ht & Hw & _).
  unfold py32_tx_status_frame, status_frame. cbv zeta.
  fold (status_synced err s). fold (media_playing (status_synced err s)).
  unfold set_rhythm, set_tx; cbn [st_params st_rhythm st_parser st_rx_log st_tx st_world].
  unfold media_playing. by rewrite Hr, Hp, Hl, Ht, Hw.
Qed.

Lemma status_data_bytes s err :
  params_ok (st_params s) → rhythm_ok (st_rhythm s) → 0 <= err <= 4 →
  bytes_ok (status_data s err (media_playing s)).
Proof.
  intros [] [] He. unfold status_data, py32_get_bt_connected.
  repeat apply Forall_app_2; repeat constructor; unfold is_u8; try lia.
  1-2: by case_match.
  - destruct (media_playing s =? 0); [|by apply Forall_take].
    by apply (Forall_replicate _ 10).
  - unfold media_playing. by case_match.
  - unfold media_playing. by case_match.
Qed.

(** *** Frames *)

(** Header and data of a frame are bytes. *)
Lemma hdr_bytes_ok addr cmd data :
  is_u8 addr → is_u8 cmd → (length data <= 255)%nat → bytes_ok data →
  bytes_ok ([addr; cmd; Z.of_nat (length data)] ++ data).
Proof. intros. repeat apply Forall_cons_2; try done. unfold is_u8. lia. Qed.

Lemma frame_bytes_ok addr cmd data :
  is_u8 addr → is_u8 cmd → (length data <= 255)%nat → bytes_ok data →
  bytes_ok (frame_bytes addr cmd data).
Proof.
  intros Ha Hc Hl Hd. pose proof (hdr_bytes_ok _ _ _ Ha Hc Hl Hd) as Hh.
  apply Forall_app_2; [done|].
  apply Forall_cons_2; [by apply crc16_lo_u8, py32_crc16_range|].
  apply Forall_cons_2; [by apply crc16_hi_u8, py32_crc16_range|done].
Qed.

Lemma frame_bytes_residue addr cmd data :
  is_u8 addr → is_u8 cmd → (length data <= 255)%nat → bytes_ok data →
  py32_crc16 (frame_bytes addr cmd data) (length (frame_bytes addr cmd data)) = 0.
Proof. intros. by apply py32_crc16_residue, hdr_bytes_ok. Qed.

(** Byte [3 + i] of a frame is byte [i] of its data. *)
Lemma frame_bytes_data addr cmd data i n :
  (i + n <= length data)%nat →
  slice (frame_bytes addr cmd data) (3 + i) n = slice data i n.
Proof.
  intros Hi. unfold frame_bytes, slice. cbn [Nat.add drop app].
  rewrite drop_app_le by lia. rewrite take_app_le; [done|].
  rewrite length_drop. lia.
Qed.

Lemma status_data_layout s err m :
  length (rhythm_bands (st_rhythm s)) = 10%nat →
  slice (status_data s err m) 5 1 = [err] ∧
  slice (status_data s err m) 16 1 = [m] ∧
  slice (status_data s err m) 6 10 =
    (if m =? 0 then replicate 10 0 else rhythm_bands (st_rhythm s)).
Proof.
  intros Hl. unfold status_data. rewrite (take_ge (rhythm_bands _)) by lia.
  set (b := if m =? 0 then _ else _).
  assert (Hb : length b = 10%nat) by (subst b; by case_match).
  destruct b as [|b0 [|b1 [|b2 [|b3 [|b4 [|b5 [|b6 [|b7 [|b8 [|b9 [|]]]]]]]]]]];
    done.
Qed.

Lemma status_frame_layout err s :
  params_ok (st_params s) → rhythm_ok (st_rhythm s) → 0 <= err <= 4 →
  let f := status_frame err s in
  length f = 22%nat ∧ bytes_ok f ∧ take 3 f = [2; 16; 17] ∧
  slice f 8 1 = [err] ∧ slice f 19 1 = [media_playing s] ∧
  slice f 9 10 = (if media_playing s =? 0 then replicate 10 0
                  else rhythm_bands (st_rhythm s)) ∧
  py32_crc16 f (length f) = 0.
Proof.
  intros Hp Hr He. unfold status_frame. cbv zeta.
  destruct (status_synced_frame err s) as (Er & _ & _ & _ & Ew & _).
  replace (media_playing (status_synced err s)) with (media_playing s)
    by (unfold media_playing; by rewrite Ew).
  pose proof (status_data_bytes (status_synced err s) err
                ltac:(by apply status_synced_params_ok) ltac:(by rewrite Er) He) as Hb.
  replace (media_playing (status_synced err s)) with (media_playing s) in Hb
    by (unfold media_playing; by rewrite Ew).
  pose proof (length_status_data (status_synced err s) err (media_playing s)
                ltac:(rewrite Er; apply Hr)) as Hd.
  destruct (status_data_layout (status_synced err s) err (media_playing s)
              ltac:(rewrite Er; apply Hr)) as (H5 & H16 & H6).
  rewrite Er in H6.
  set (d := status_data _ _ _) in *.
  rewrite length_frame_bytes, Hd. split_and!; [done| | | | | |].
  - apply frame_bytes_ok; try done. lia.
  - unfold frame_bytes. by rewrite Hd.
  - by rewrite (frame_bytes_data _ _ _ 5) by lia.
  - by rewrite (frame_bytes_data _ _ _ 16) by lia.
  - by rewrite (frame_bytes_data _ _ _ 6) by lia.
  - pose proof (frame_bytes_residue 2 16 d) as Hx.
    rewrite length_frame_bytes, Hd in Hx. apply Hx; done || lia.
Qed.

(** A status response puts exactly one 22-byte frame on the wire: header 02
    10 11, the error code, the play state, the spectrum (zeros while not
    playing) and a CRC that gives residue 0; the frame and byte counters
    advance by 1 and 22 modulo 2^32. *)
Theorem py32_tx_status_frame_wire err s :
  params_ok (st_params s) → rhythm_ok (st_rhythm s) → 0 <= err <= 4 →
  let f := status_frame err s in
  let s' := py32_tx_status_frame err s in
  tx_wire (st_tx s') = tx_wire (st_tx s) ++ f ∧
  tx_frame_count (st_tx s') = u32 (tx_frame_count (st_tx s) + 1) ∧
  tx_byte_count (st_tx s') = u32 (tx_byte_count (st_tx s) + 22) ∧
  length f = 22%nat ∧ bytes_ok f ∧ take 3 f = [2; 16; 17] ∧
  slice f 8 1 = [err] ∧ slice f 19 1 = [media_playing s] ∧
  slice f 9 10 = (if media_playing s =? 0 then replicate 10 0
                  else rhythm_bands (st_rhythm s)) ∧
  py32_crc16 f (length f) = 0.
Proof.
  intros Hp Hr He f s'.
  destruct (status_frame_layout err s Hp Hr He) as (Hlen & Hrest). fold f in Hlen.
  destruct (py32_uart_tx_bytes_wire f (st_tx s)) as (Hw & Hn & Hb); [lia|].
  subst s'. rewrite py32_tx_status_frame_eq. cbn [st_tx]. fold f.
  rewrite Hw, Hn, Hb. rewrite Hlen at 1.
  exact (conj eq_refl (conj eq_refl (conj eq_refl (conj Hlen Hrest)))).
Qed.

(** *** What the handlers leave alone *)

Lemma send_status_parser err s :
  st_parser (py32_send_status_response err s) = st_parser s.
Proof.
  unfold py32_send_status_response. by rewrite py32_tx_status_frame_eq.
Qed.

Lemma send_status_rx_log err s :
  st_rx_log (py32_send_status_response err s) = st_rx_log s.
Proof.
  unfold py32_send_status_response. by rewrite py32_tx_status_frame_eq.
Qed.

Lemma apply_treble_bass_parser t b s :
  st_parser (py32_apply_treble_bass t b s) = st_parser s ∧
  st_rhythm (py32_apply_treble_bass t b s) = st_rhythm s ∧
  st_rx_log (py32_apply_treble_bass t b s) = st_rx_log s ∧
  st_tx (py32_apply_treble_bass t b s) = st_tx s.
Proof.
  unfold py32_apply_treble_bass, py32_push_dynamic_peq. by repeat case_match.
Qed.

(** The state in which [py32_handle_set_params] answers a well-sized
    command. *)
Definition set_params_applied (d0 d1 d2 d3 : Z) s : py32 W :=
  let s := py32_apply_volume d0 s in
  let s := py32_apply_treble_bass d1 d2 s in
  set_params (set_last_error PY32_ERR_NONE (set_vibration d3 (st_params s))) s.

Definition params_in_range (d0 d1 d2 d3 : Z) : bool :=
  negb ((100 <? d0) || (24 <? d1) || (24 <? d2) || (100 <? d3)).

(** Every branch of the handler is one status response. *)
Lemma py32_handle_set_params_eq data len s :
  py32_handle_set_params data len s =
  if negb (len =? 4) then
    py32_send_status_response PY32_ERR_BAD_LEN
      (set_params (set_last_error PY32_ERR_BAD_LEN (st_params s)) s)
  else if params_in_range (getb data 0) (getb data 1) (getb data 2) (getb data 3) then
    py32_send_status_response PY32_ERR_NONE
      (set_params_applied (getb data 0) (getb data 1) (getb data 2) (getb data 3) s)
  else
    py32_send_status_response PY32_ERR_BAD_VALUE
      (set_params (set_last_error PY32_ERR_BAD_VALUE (st_params s)) s).
Proof.
  unfold py32_handle_set_params, params_in_range, PY32_SET_DATA_LEN. cbv zeta.
  destruct (negb (len =? 4)); [done|].
  by destruct (_ || (100 <? getb data 3)).
Qed.

Lemma set_params_applied_rest d0 d1 d2 d3 s :
  st_parser (set_params_applied d0 d1 d2 d3 s) = st_parser s ∧
  st_rhythm (set_params_applied d0 d1 d2 d3 s) = st_rhythm s ∧
  st_rx_log (set_params_applied d0 d1 d2 d3 s) = st_rx_log s ∧
  st_tx (set_params_applied d0 d1 d2 d3 s) = st_tx s.
Proof.
  unfold set_params_applied. cbv zeta.
  destruct (apply_treble_bass_parser d1 d2 (py32_apply_volume d0 s))
    as (Hp & Hr & Hl & Ht).
  by cbn [st_parser st_rhythm st_rx_log st_tx set_params].
Qed.

(** The parameters of an accepted command. *)
Lemma set_params_applied_params d0 d1 d2 d3 s :
  params_in_range d0 d1 d2 d3 = true →
  st_params (set_params_applied d0 d1 d2 d3 s) = mk_params d0 d1 d2 d3 0.
Proof.
  unfold params_in_range, set_params_applied, py32_apply_treble_bass. intros H.
  apply negb_true_iff in H.
  apply orb_false_iff in H as [H _]. apply orb_false_iff in H as [H H2].
  apply orb_false_iff in H as [_ H1]. rewrite H1, H2. cbv zeta.
  cbn [orb]. unfold py32_push_dynamic_peq.
  by destruct (media_player_present _).
Qed.

Lemma handle_set_params_parser data len s :
  st_parser (py32_handle_set_params data len s) = st_parser s ∧
  st_rx_log (py32_handle_set_params data len s) = st_rx_log s.
Proof.
  rewrite py32_handle_set_params_eq.
  destruct (negb (len =? 4)); [by rewrite send_status_parser, send_status_rx_log|].
  destruct (params_in_range _ _ _ _);
    rewrite send_status_parser, send_status_rx_log; [|done].
  destruct (set_params_applied_rest (getb data 0) (getb data 1) (getb data 2)
              (getb data 3) s) as (-> & _ & -> & _). done.
Qed.

Lemma handle_frame_parser addr cmd data len s :
  st_parser (py32_handle_frame addr cmd data len s) = st_parser s ∧
  st_rx_log (py32_handle_frame addr cmd data len s) = st_rx_log s.
Proof.
  unfold py32_handle_frame. destruct (negb (addr =? _)); [done|].
  destruct (cmd =? _); [apply handle_set_params_parser|].
  by rewrite send_status_parser, send_status_rx_log.
Qed.

(** Completing a frame always ends in a reset machine. *)
Lemma process_complete_parser s :
  st_parser (py32_process_complete_frame s) = parse_reset (st_parser s).
Proof.
  unfold py32_process_complete_frame, py32_parse_reset. cbv zeta.
  destruct (_ <? frame_len _).
  { cbn [st_parser set_parser]. by rewrite send_status_parser. }
  destruct (negb _).
  { cbn [st_parser set_parser]. by rewrite send_status_parser. }
  destruct (py32_rx_frame_same _ _ _ _ _ _); [done|].
  cbn [st_parser set_parser].
  by rewrite (proj1 (handle_frame_parser _ _ _ _ _)).
Qed.

(** *** The invariant *)

(** Parameters and rhythm cache, which the handlers change. *)
Definition values_ok (s : py32 W) : Prop :=
  params_ok (st_params s) ∧ rhythm_ok (st_rhythm s).

Lemma send_status_values err s :
  values_ok s → values_ok (py32_send_status_response err s).
Proof.
  intros [Hp [Hl Hb]]. unfold py32_send_status_response.
  rewrite py32_tx_status_frame_eq. split; [by apply status_synced_params_ok|done].
Qed.

Lemma set_last_error_values e s :
  0 <= e <= 4 → values_ok s →
  values_ok (set_params (set_last_error e (st_params s)) s).
Proof. intros ? [[] ?]. split; [by split|done]. Qed.

Lemma params_in_range_spec d0 d1 d2 d3 :
  params_in_range d0 d1 d2 d3 = true → d0 <= 100 ∧ d1 <= 24 ∧ d2 <= 24 ∧ d3 <= 100.
Proof. unfold params_in_range. zbool; simpl; intros; done || lia. Qed.

Lemma params_in_range_ok v t b vib :
  bytes_ok [v; t; b; vib] → params_in_range v t b vib = true →
  params_ok (mk_params v t b vib 0).
Proof.
  intros Hb (?&?&?&?)%params_in_range_spec. unfold bytes_ok in Hb.
  decompose_Forall_hyps. unfold is_u8 in *. split; simpl; lia.
Qed.

Lemma handle_set_params_values data len s :
  bytes_ok data → values_ok s → values_ok (py32_handle_set_params data len s).
Proof.
  intros Hd Hv. rewrite py32_handle_set_params_eq.
  assert (Hg : ∀ i, is_u8 (getb data i)) by (intros; by apply getb_u8).
  destruct (negb (len =? 4)).
  { apply send_status_values, set_last_error_values; [done|done]. }
  destruct (params_in_range _ _ _ _) eqn:E; apply send_status_values.
  - split.
    + rewrite set_params_applied_params by done.
      apply params_in_range_ok; [|done]. by repeat constructor; apply Hg.
    + destruct (set_params_applied_rest (getb data 0) (getb data 1)
        (getb data 2) (getb data 3) s) as (_ & -> & _). apply Hv.
  - by apply set_last_error_values.
Qed.

Lemma handle_frame_values addr cmd data len s :
  bytes_ok data → values_ok s → values_ok (py32_handle_frame addr cmd data len s).
Proof.
  intros Hd Hv. unfold py32_handle_frame. destruct (negb (addr =? _)); [done|].
  destruct (cmd =? _); [by apply handle_set_params_values|].
  by apply send_status_values, set_last_error_values.
Qed.

Lemma process_complete_values s :
  bytes_ok (frame_data (st_parser s)) → values_ok s →
  values_ok (py32_process_complete_frame s).
Proof.
  intros Hd Hv. unfold py32_process_complete_frame, py32_parse_reset. cbv zeta.
  destruct (_ <? frame_len _); [by apply send_status_values|].
  destruct (negb _); [by apply send_status_values, set_last_error_values|].
  destruct (py32_rx_frame_same _ _ _ _ _ _); [done|].
  by apply (handle_frame_values _ _ _ _ (set_rx_log _ s)).
Qed.

Lemma parse_reset_wf p :
  length (frame_data p) = 128%nat → bytes_ok (frame_data p) →
  parser_wf (parse_reset p).
Proof. by split. Qed.

Lemma feed_addr_wf c p :
  parser_wf p → parse_state p = PY32_RX_ADDR → parser_wf (feed_addr c p).
Proof.
  intros [] Hs. unfold feed_addr, PY32_ADDR_HOST.
  destruct (Z.eqb_spec c 1); simpl; split; simpl; done || by rewrite Hs.
Qed.

(** One byte keeps the machine well-formed. *)
Lemma feed_byte_parser_wf c s :
  parser_wf (st_parser s) → is_u8 c → parser_wf (st_parser (py32_rx_feed_byte c s)).
Proof.
  intros Hwf Hc. unfold py32_rx_feed_byte, PY32_FRAME_MAX, PY32_ADDR_HOST.
  destruct (parse_state (st_parser s)) eqn:Es; cbv zeta; cbn [set_parser st_parser];
    [by apply feed_addr_wf| | | | |];
    destruct Hwf as [Hb Hby Hcmd Hl Hg Hcrc Hst]; rewrite Es in Hst;
    unfold PY32_FRAME_MAX in *.
  - by split.
  - unfold is_u8 in Hc. destruct (Z.eqb_spec c 0); [|destruct (Z.ltb_spec (128 - 5) c)];
      cbn [st_parser]; split; simpl; unfold PY32_FRAME_MAX; try done; lia.
  - destruct Hst as [Ha Hlt].
    destruct (_ && _); cbn [st_parser].
    { apply feed_addr_wf; [by apply parse_reset_wf|done]. }
    rewrite (u8_id (frame_got _ + 1)) by (unfold is_u8; lia).
    split; simpl; try done; unfold PY32_FRAME_MAX; try lia.
    + by rewrite length_setb.
    + by apply bytes_ok_setb.
    + destruct (Z.leb_spec (frame_len (st_parser s)) (frame_got (st_parser s) + 1));
        lia.
  - destruct Hst as [Ha Hgl]. split; simpl; try done. by apply is_u8_u16.
  - destruct Hst as (Ha & Hgl & Hlo). rewrite process_complete_parser.
    by apply parse_reset_wf.
Qed.

Lemma process_complete_log s :
  length (log_data (st_rx_log (py32_process_complete_frame s)))
  = length (log_data (st_rx_log s)).
Proof.
  unfold py32_process_complete_frame, py32_parse_reset. cbv zeta.
  destruct (_ <? frame_len _).
  { cbn [st_rx_log set_parser]. by rewrite send_status_rx_log. }
  destruct (negb _).
  { cbn [st_rx_log set_parser]. by rewrite send_status_rx_log. }
  destruct (py32_rx_frame_same _ _ _ _ _ _); [done|].
  cbn [st_rx_log set_parser]. rewrite (proj2 (handle_frame_parser _ _ _ _ _)).
  cbn [st_rx_log set_rx_log py32_save_rx_log log_data].
  destruct (0 <? _); [by rewrite length_memcpy|done].
Qed.

Lemma feed_byte_wf c s :
  link_wf s → is_u8 c → link_wf (py32_rx_feed_byte c s).
Proof.
  intros Hwf Hc. pose proof (feed_byte_parser_wf c s (link_wf_parser s Hwf) Hc) as Hp.
  assert (Hv : values_ok (py32_rx_feed_byte c s)).
  { destruct Hwf as [Hpa Hr Hwf _].
    unfold py32_rx_feed_byte. cbv zeta.
    destruct (parse_state (st_parser s)); repeat case_match; try done.
    apply process_complete_values; [apply Hwf|done]. }
  destruct Hv; split; [done..|].
  rewrite <- (link_wf_log s Hwf). unfold py32_rx_feed_byte. cbv zeta.
  destruct (parse_state (st_parser s)); repeat case_match; try done.
  by rewrite process_complete_log.
Qed.

Lemma feed_bytes_wf l s :
  link_wf s → bytes_ok l → link_wf (feed_bytes l s).
Proof.
  revert s. induction l as [|c l IH]; intros s Hwf Hl; [done|].
  inversion Hl; subst. apply IH; [by apply feed_byte_wf|done].
Qed.

(** C32: From a well-formed link every byte sequence keeps it well-formed
    (parameters in the protocol ranges, receive machine consistent); the write
    index into py32_frame_data stays below 128, the header copy fits, and the
    length-overflow branch of py32_process_complete_frame is never taken. *)
Theorem py32_rx_never_overflows l s :
  link_wf s → bytes_ok l →
  let s' := feed_bytes l s in
  let p := st_parser s' in
  link_wf s' ∧
  (parse_state p = PY32_RX_DATA → 0 <= frame_got p < PY32_FRAME_MAX) ∧
  (PY32_FRAME_MAX - 5 <? frame_len p) = false ∧
  3 + frame_len p <= PY32_FRAME_MAX.
Proof.
  intros Hwf Hl s' p. pose proof (feed_bytes_wf l s Hwf Hl) as Hwf'.
  split; [done|]. destruct (link_wf_parser _ Hwf') as [_ _ _ Hlen Hgot _ Hst].
  fold s' p in Hlen, Hgot, Hst. unfold PY32_FRAME_MAX in *.
  split; [|split; [apply Z.ltb_ge; lia|lia]].
  intros E. rewrite E in Hst. lia.
Qed.

(** *** Which frames are accepted *)

Lemma feed_bytes_app l1 l2 s :
  feed_bytes (l1 ++ l2) s = feed_bytes l2 (feed_bytes l1 s).
Proof. apply fold_left_app. Qed.

Lemma feed_bytes_cons c l s :
  feed_bytes (c :: l) s = feed_bytes l (py32_rx_feed_byte c s).
Proof. done. Qed.

(** No byte of the list is the host address. *)
Definition no_addr (d : list Z) : Prop := Forall (λ c, c ≠ PY32_ADDR_HOST) d.

Definition data_parser (addr cmd len got : Z) (fd : list Z) (crc : Z) : py32_parser :=
  mk_parser (if len <=? got then PY32_RX_CRC_L else PY32_RX_DATA)
    addr cmd len fd got crc.

(** Data bytes other than the host address land in the buffer in order. *)
Lemma feed_data d addr cmd len got fd crc s :
  0 <= got → got + Z.of_nat (length d) <= len → len <= 123 →
  no_addr d →
  st_parser s = data_parser addr cmd len got fd crc →
  feed_bytes d s =
  set_parser (data_parser addr cmd len (got + Z.of_nat (length d))
                (memcpy fd (Z.to_nat got) d) crc) s.
Proof.
  revert got fd s. induction d as [|c d IH]; intros got fd s Hg Hl Hm Hno Hp.
  { rewrite Z.add_0_r. destruct s; simpl in *. by subst. }
  cbn [length] in Hl. inversion Hno as [|? ? Hc Hno']; subst.
  rewrite feed_bytes_cons.
  assert (Hstep : py32_rx_feed_byte c s =
    set_parser (data_parser addr cmd len (got + 1) (<[Z.to_nat got := c]> fd) crc) s).
  { unfold py32_rx_feed_byte. rewrite Hp. unfold data_parser.
    destruct (Z.leb_spec len got); [lia|]. cbn [parse_state].
    destruct (Z.eqb_spec c PY32_ADDR_HOST); [done|]. cbn [andb frame_got frame_len].
    by rewrite u8_id by (unfold is_u8; lia). }
  rewrite Hstep, (IH (got + 1) (<[Z.to_nat got := c]> fd)); [|lia..|done|done].
  cbn [length]. rewrite memcpy_cons.
  replace (Z.to_nat (got + 1)) with (S (Z.to_nat got)) by lia.
  replace (got + 1 + Z.of_nat (length d)) with (got + Z.of_nat (S (length d))) by lia.
  done.
Qed.

(** The three header bytes of a frame. *)
Lemma feed_header cmd len s :
  parse_state (st_parser s) = PY32_RX_ADDR → 0 <= len <= 123 →
  feed_bytes [PY32_ADDR_HOST; cmd; len] s =
  set_parser (data_parser 1 cmd len 0 (frame_data (st_parser s))
                (crc_rx (st_parser s))) s.
Proof.
  intros Hs Hl. rewrite feed_bytes_cons. unfold py32_rx_feed_byte at 1.
  rewrite Hs. unfold feed_addr. cbn [Z.eqb PY32_ADDR_HOST Pos.eqb negb].
  rewrite feed_bytes_cons. unfold py32_rx_feed_byte at 1.
  cbn [set_parser st_parser parse_state].
  rewrite feed_bytes_cons. unfold py32_rx_feed_byte at 1.
  cbn [set_parser st_parser parse_state]. unfold data_parser, PY32_FRAME_MAX.
  destruct (Z.eqb_spec len 0) as [->|]; [done|].
  destruct (Z.ltb_spec (128 - 5) len); [lia|].
  destruct (Z.leb_spec len 0); [lia|]. done.
Qed.

(** The machine after a whole frame with trailer [lo], [hi]. *)
Definition full_parser (cmd : Z) (d fd : list Z) (crc : Z) : py32_parser :=
  mk_parser PY32_RX_CRC_H 1 cmd (Z.of_nat (length d)) (memcpy fd 0 d)
    (Z.of_nat (length d)) crc.

Definition raw_frame (cmd : Z) (d : list Z) (lo hi : Z) : list Z :=
  [PY32_ADDR_HOST; cmd; Z.of_nat (length d)] ++ d ++ [lo; hi].

Lemma feed_raw_frame cmd d lo hi s :
  parse_state (st_parser s) = PY32_RX_ADDR → (length d <= 123)%nat → no_addr d →
  feed_bytes (raw_frame cmd d lo hi) s =
  py32_process_complete_frame
    (set_parser (full_parser cmd d (frame_data (st_parser s))
                   (Z.lor lo (u16 (Z.shiftl hi 8)))) s).
Proof.
  intros Hs Hl Hno. unfold raw_frame.
  rewrite feed_bytes_app, feed_header by (done || lia).
  rewrite feed_bytes_app.
  rewrite (feed_data d 1 cmd (Z.of_nat (length d)) 0 (frame_data (st_parser s))
             (crc_rx (st_parser s))) by (done || lia).
  rewrite Z.add_0_l, feed_bytes_cons. unfold py32_rx_feed_byte at 1.
  cbn [set_parser st_parser]. unfold data_parser at 1. rewrite Z.leb_refl.
  cbn [parse_state]. rewrite feed_bytes_cons.
  unfold py32_rx_feed_byte. cbn [set_parser st_parser parse_state].
  by unfold data_parser; rewrite Z.leb_refl.
Qed.

(** What [py32_process_complete_frame] computes the CRC of. *)
Lemma full_parser_crc cmd d fd :
  length fd = 128%nat → (length d <= 123)%nat →
  let n := Z.of_nat (length d) in
  py32_crc16 ([1; cmd; n] ++ take (Z.to_nat n) (memcpy fd 0 d))
    (Z.to_nat (u16 (3 + n)))
  = py32_crc16 ([1; cmd; n] ++ d) (length ([1; cmd; n] ++ d)).
Proof.
  intros Hf Hd n. unfold n. rewrite Nat2Z.id.
  rewrite take_memcpy_0 by lia.
  f_equal. rewrite u16_id by (unfold is_u16; lia).
  rewrite length_app. simpl length. lia.
Qed.

(** The CRC a frame with this command and data must carry. *)
Definition frame_crc (cmd : Z) (d : list Z) : Z :=
  let hdr := [PY32_ADDR_HOST; cmd; Z.of_nat (length d)] ++ d in
  py32_crc16 hdr (length hdr).

(** Delivery of a checked frame: dropped when it repeats the last accepted
    one, else remembered and handled; the machine is reset either way. *)
Definition deliver (cmd : Z) (d : list Z) s : py32 W :=
  let fd := memcpy (frame_data (st_parser s)) 0 d in
  let n := Z.of_nat (length d) in
  let crc := frame_crc cmd d in
  let s := set_parser (mk_parser PY32_RX_ADDR 0 0 0 fd 0 0) s in
  if py32_rx_frame_same (st_rx_log s) 1 cmd fd n crc then s
  else py32_handle_frame 1 cmd fd n
         (set_rx_log (py32_save_rx_log (st_rx_log s) 1 cmd fd n crc) s).

(** The handlers do not read the machine. *)
Lemma status_synced_set_parser err p s :
  status_synced err (set_parser p s) = set_parser p (status_synced err s).
Proof.
  unfold status_synced, py32_sync_status_for_response.
  destruct (err =? _); [|done].
  change (st_world (set_parser p s)) with (st_world s).
  by destruct (0 <=? system_volume_get (st_world s)).
Qed.

Lemma status_frame_set_parser err p s :
  status_frame err (set_parser p s) = status_frame err s.
Proof.
  unfold status_frame. rewrite status_synced_set_parser. cbv zeta.
  set (s' := status_synced err s). reflexivity.
Qed.

Lemma send_status_set_parser err p s :
  py32_send_status_response err (set_parser p s)
  = set_parser p (py32_send_status_response err s).
Proof.
  unfold py32_send_status_response.
  rewrite !py32_tx_status_frame_eq, status_frame_set_parser,
    status_synced_set_parser. reflexivity.
Qed.

Lemma handle_frame_set_parser addr cmd data len p s :
  py32_handle_frame addr cmd data len (set_parser p s)
  = set_parser p (py32_handle_frame addr cmd data len s).
Proof.
  unfold py32_handle_frame. destruct (negb (addr =? _)); [done|].
  destruct (cmd =? _).
  2:{ by rewrite <- send_status_set_parser. }
  rewrite !py32_handle_set_params_eq.
  destruct (negb (len =? 4)); [by rewrite <- send_status_set_parser|].
  destruct (params_in_range _ _ _ _); rewrite <- send_status_set_parser; [|done].
  f_equal. unfold set_params_applied, py32_apply_treble_bass, py32_push_dynamic_peq,
    py32_apply_volume.
  cbv zeta. destruct (_ || _); [done|].
  cbn [st_params st_rhythm st_parser st_rx_log st_tx st_world
       set_params set_world set_parser].
  by destruct (media_player_present _).
Qed.

Lemma send_status_params err s :
  st_params (py32_send_status_response err s) = st_params (status_synced err s).
Proof. unfold py32_send_status_response. by rewrite py32_tx_status_frame_eq. Qed.

Lemma set_params_set_parser x p s :
  set_params x (set_parser p s) = set_parser p (set_params x s).
Proof. done. Qed.
Lemma set_rx_log_set_parser x p s :
  set_rx_log x (set_parser p s) = set_parser p (set_rx_log x s).
Proof. done. Qed.
Lemma set_parser_twice p p' s : set_parser p (set_parser p' s) = set_parser p s.
Proof. done. Qed.

Definition idle_parser (fd : list Z) : py32_parser :=
  mk_parser PY32_RX_ADDR 0 0 0 fd 0 0.

(** Completing a frame, by the outcome of the two checks. *)
Lemma process_complete_full cmd d fd crc s :
  length fd = 128%nat → (length d <= 123)%nat →
  let fd' := memcpy fd 0 d in
  let n := Z.of_nat (length d) in
  py32_process_complete_frame (set_parser (full_parser cmd d fd crc) s) =
  set_parser (idle_parser fd')
    (if negb (frame_crc cmd d =? crc) then
       py32_send_status_response PY32_ERR_CRC
         (set_params (set_last_error PY32_ERR_CRC (st_params s)) s)
     else if py32_rx_frame_same (st_rx_log s) 1 cmd fd' n crc then s
     else py32_handle_frame 1 cmd fd' n
            (set_rx_log (py32_save_rx_log (st_rx_log s) 1 cmd fd' n crc) s)).
Proof.
  intros Hf Hl fd' n. pose proof (full_parser_crc cmd d fd Hf Hl) as Hcrc.
  unfold py32_process_complete_frame. set (P := full_parser cmd d fd crc).
  change (st_parser (set_parser P s)) with P.
  change (st_params (set_parser P s)) with (st_params s).
  change (st_rx_log (set_parser P s)) with (st_rx_log s).
  change (frame_len P) with n. change (frame_addr P) with 1.
  change (frame_cmd P) with cmd. change (frame_data P) with fd'.
  change (crc_rx P) with crc. cbv zeta in *. fold fd' n in Hcrc. rewrite Hcrc.
  fold (frame_crc cmd d).
  unfold PY32_FRAME_MAX. destruct (Z.ltb_spec (128 - 5) n); [lia|].
  assert (Hfin : ∀ s0, py32_parse_reset (set_parser P s0) = set_parser (idle_parser fd') s0)
    by done.
  rewrite set_params_set_parser, send_status_set_parser, set_rx_log_set_parser,
    handle_frame_set_parser, !Hfin.
  destruct (negb _); [done|].
  by destruct (py32_rx_frame_same _ _ _ _ _ _).
Qed.

Lemma py32_accept_raw cmd d s :
  link_wf s → parse_state (st_parser s) = PY32_RX_ADDR →
  is_u8 cmd → bytes_ok d → (length d <= 123)%nat → no_addr d →
  feed_bytes (frame_bytes PY32_ADDR_HOST cmd d) s = deliver cmd d s.
Proof.
  intros Hwf Hs Hc Hd Hl Hno.
  replace (frame_bytes PY32_ADDR_HOST cmd d) with
    (raw_frame cmd d (crc16_lo (frame_crc cmd d)) (crc16_hi (frame_crc cmd d))).
  2:{ unfold raw_frame, frame_bytes, frame_crc. by rewrite app_assoc. }
  assert (Hcrc : is_u16 (frame_crc cmd d)).
  { apply py32_crc16_range, hdr_bytes_ok; done || lia. }
  rewrite feed_raw_frame, crc16_lo_hi by done.
  rewrite process_complete_full by (done || apply Hwf).
  unfold deliver. rewrite Z.eqb_refl. cbv zeta. fold (idle_parser (memcpy
    (frame_data (st_parser s)) 0 d)). cbn [negb].
  rewrite set_rx_log_set_parser, handle_frame_set_parser.
  set (P := idle_parser _). change (st_rx_log (set_parser P s)) with (st_rx_log s).
  by destruct (py32_rx_frame_same _ _ _ _ _ _).
Qed.

(** C1: Feeding a complete frame (host address, command, at most 123 data bytes
    none of which is the host address, correct CRC) byte by byte into an idle
    receive machine equals one delivery of that command and data: dropped when
    it repeats the last accepted frame, else remembered and handled once, and
    the machine is idle again. *)
Theorem py32_rx_accepts_frame cmd d s :
  link_wf s → parse_state (st_parser s) = PY32_RX_ADDR →
  is_u8 cmd → bytes_ok d → (length d <= 123)%nat → no_addr d →
  feed_bytes (frame_bytes PY32_ADDR_HOST cmd d) s = deliver cmd d s.
Proof.
  apply py32_accept_raw.
Qed.

(** A frame whose trailer is not its CRC changes nothing but last_error (4),
    leaves the rest of the firmware alone, answers with one status frame
    carrying error 4 and leaves the machine idle. *)
Theorem py32_rx_rejects_bad_crc cmd d lo hi s :
  link_wf s → parse_state (st_parser s) = PY32_RX_ADDR →
  is_u8 cmd → bytes_ok d → (length d <= 123)%nat → no_addr d →
  is_u8 lo → is_u8 hi → [lo; hi] ≠ [crc16_lo (frame_crc cmd d); crc16_hi (frame_crc cmd d)] →
  let s' := feed_bytes (raw_frame cmd d lo hi) s in
  st_params s' = set_last_error PY32_ERR_CRC (st_params s) ∧
  st_world s' = st_world s ∧ st_rx_log s' = st_rx_log s ∧
  parse_state (st_parser s') = PY32_RX_ADDR ∧
  tx_wire (st_tx s') = tx_wire (st_tx s) ++ status_frame PY32_ERR_CRC s.
Proof.
  intros Hwf Hs Hc Hd Hl Hno Hlo Hhi Hne s'. subst s'.
  rewrite feed_raw_frame, process_complete_full by (done || apply Hwf).
  destruct (Z.eqb_spec (frame_crc cmd d) (Z.lor lo (u16 (Z.shiftl hi 8)))) as [E|E].
  { destruct (crc16_join lo hi Hlo Hhi) as [E1 E2]. rewrite <- E in E1, E2.
    by rewrite E1, E2 in Hne. }
  cbn [negb]. unfold py32_send_status_response. rewrite py32_tx_status_frame_eq.
  split_and!; try done.
  destruct (status_frame_layout PY32_ERR_CRC s) as [Hlen _]; [apply Hwf..|done|].
  apply (py32_uart_tx_bytes_wire (status_frame PY32_ERR_CRC s)). lia.
Qed.

(** *** Commands *)

(** The frame differs from the last accepted one. *)
Definition fresh (cmd : Z) (d : list Z) (s : py32 W) : Prop :=
  py32_rx_frame_same (st_rx_log s) PY32_ADDR_HOST cmd
    (memcpy (frame_data (st_parser s)) 0 d) (Z.of_nat (length d))
    (frame_crc cmd d) = false.

(** The audio calls of an accepted command, in order. *)
Definition audio_applied (v t b : Z) (w : W) : W :=
  let w := system_volume_set
             (py32_volume_pct_to_level (audio_policy_get_volume_level w) v) w in
  let w := audio_policy_set_dynamic_peq_band PY32_PEQ_IDX_BASS (tone_band 200 b) w in
  let w := audio_policy_set_dynamic_peq_band PY32_PEQ_IDX_TREBLE (tone_band 8000 t) w in
  if media_player_present w then media_player_dynamic_update_peq w else w.

Lemma set_params_applied_world v t b vib s :
  params_in_range v t b vib = true →
  st_world (set_params_applied v t b vib s) = audio_applied v t b (st_world s).
Proof.
  unfold params_in_range, set_params_applied, py32_apply_treble_bass. intros H.
  apply negb_true_iff in H.
  apply orb_false_iff in H as [H _]. apply orb_false_iff in H as [H H2].
  apply orb_false_iff in H as [_ H1]. rewrite H1, H2. cbv zeta.
  cbn [orb]. unfold py32_push_dynamic_peq, audio_applied. cbv zeta.
  cbn [set_params set_world st_world py32_apply_volume].
  by destruct (media_player_present _).
Qed.

(** The four bytes as the handler reads them from the frame buffer. *)
Lemma getb_memcpy_4 fd v t b vib :
  length fd = 128%nat →
  let fd' := memcpy fd 0 [v; t; b; vib] in
  getb fd' 0 = v ∧ getb fd' 1 = t ∧ getb fd' 2 = b ∧ getb fd' 3 = vib.
Proof. by destruct fd as [|? [|? [|? [|? fd]]]]. Qed.

(** A checked, fresh set command is exactly one application of its values
    followed by one response. *)
Lemma deliver_set_command v t b vib s :
  link_wf s → fresh PY32_CMD_COMMON [v; t; b; vib] s →
  params_in_range v t b vib = true →
  ∃ fd log,
  deliver PY32_CMD_COMMON [v; t; b; vib] s =
  set_parser (idle_parser fd)
    (py32_send_status_response PY32_ERR_NONE
       (set_params_applied v t b vib (set_rx_log log s))).
Proof.
  intros Hwf Hf Hr. unfold deliver, fresh in *. cbv zeta.
  set (P := mk_parser _ _ _ _ _ _ _).
  change (st_rx_log (set_parser P s)) with (st_rx_log s).
  change (Z.of_nat (length [v; t; b; vib])) with 4 in *.
  change PY32_ADDR_HOST with 1 in Hf. rewrite Hf.
  rewrite set_rx_log_set_parser, handle_frame_set_parser.
  unfold py32_handle_frame. change (negb (1 =? PY32_ADDR_HOST)) with false.
  change (PY32_CMD_COMMON =? PY32_CMD_COMMON) with true. cbv iota.
  rewrite py32_handle_set_params_eq. change (negb (4 =? 4)) with false.
  destruct (getb_memcpy_4 (frame_data (st_parser s)) v t b vib) as (-> & -> & -> & ->).
  { apply Hwf. }
  rewrite Hr. eauto.
Qed.

Lemma audio_applied_volume `{!Py32AudioLaws W} v t b (w : W) :
  audio_ready w → 0 < audio_policy_get_volume_level w → 0 <= v →
  system_volume_get (audio_applied v t b w)
    = py32_volume_pct_to_level (audio_policy_get_volume_level w) v ∧
  audio_policy_get_volume_level (audio_applied v t b w)
    = audio_policy_get_volume_level w.
Proof.
  intros Hrd Hm Hv. unfold audio_applied. cbv zeta.
  pose proof (py32_volume_pct_to_level_range (audio_policy_get_volume_level w) v Hm Hv).
  destruct (media_player_present _);
    rewrite ?volume_get_update, ?volume_level_update, !volume_get_peq,
      !volume_level_peq, volume_level_set by done;
    by rewrite volume_get_set.
Qed.

(** A response without error reports the volume that is really set. *)
Lemma status_synced_none s :
  0 <= system_volume_get (st_world s) →
  st_params (status_synced PY32_ERR_NONE s) =
  set_volume (py32_volume_level_to_pct (audio_policy_get_volume_level (st_world s))
                (system_volume_get (st_world s))) (st_params s).
Proof.
  intros Hg. unfold status_synced, py32_sync_status_for_response.
  change (PY32_ERR_NONE =? PY32_ERR_NONE) with true. cbv iota zeta.
  by destruct (Z.leb_spec 0 (system_volume_get (st_world s))); [|lia].
Qed.

(** The first four data bytes of a status frame are the parameters. *)
Lemma status_frame_params err s :
  length (rhythm_bands (st_rhythm s)) = 10%nat →
  let p := st_params (status_synced err s) in
  slice (status_frame err s) 3 4 = [volume p; treble p; bass p; vibration p].
Proof.
  intros Hl p. unfold status_frame. cbv zeta.
  pose proof (length_status_data (status_synced err s) err
    (media_playing (status_synced err s))
    ltac:(by rewrite (proj1 (status_synced_frame err s)))) as Hd.
  by rewrite (frame_bytes_data _ _ _ 0 4) by lia.
Qed.

(** The effect of a set command on the rest of the firmware. *)
Lemma set_command_world v t b vib s :
  link_wf s → parse_state (st_parser s) = PY32_RX_ADDR →
  bytes_ok [v; t; b; vib] → no_addr [v; t; b; vib] →
  params_in_range v t b vib = true → fresh PY32_CMD_COMMON [v; t; b; vib] s →
  st_world (feed_bytes (frame_bytes PY32_ADDR_HOST PY32_CMD_COMMON [v; t; b; vib]) s) =
  audio_applied v t b (st_world s).
Proof.
  intros Hwf Hs Hb Hno Hr Hf. rewrite py32_accept_raw; [|done..|simpl; lia|done].
  destruct (deliver_set_command v t b vib s Hwf Hf Hr) as (fd & log & ->).
  unfold py32_send_status_response. rewrite py32_tx_status_frame_eq.
  cbn [set_parser st_world]. by apply (set_params_applied_world v t b vib (set_rx_log log s)).
Qed.

(** C2: A set command received between frames that differs from the last accepted
    frame, whose four values are in range and none of them 1 (the host
    address; such a command is lost), with the audio system up and at most
    sixteen volume levels, sets the system volume to the mapped level,
    programs the bass and treble filters in that order and updates the player
    if there is one, stores the four parameters, and answers with exactly one
    22-byte frame that carries the volume read back, error code 0 and a valid
    CRC; the reported percentage selects the same level again. *)
Theorem py32_set_command_effect `{!Py32AudioLaws W} v t b vib s :
  link_wf s → parse_state (st_parser s) = PY32_RX_ADDR →
  bytes_ok [v; t; b; vib] → no_addr [v; t; b; vib] →
  params_in_range v t b vib = true → fresh PY32_CMD_COMMON [v; t; b; vib] s →
  audio_ready (st_world s) → 0 < audio_policy_get_volume_level (st_world s) <= 16 →
  let max := audio_policy_get_volume_level (st_world s) in
  let s' := feed_bytes (frame_bytes PY32_ADDR_HOST PY32_CMD_COMMON [v; t; b; vib]) s in
  st_world s' = audio_applied v t b (st_world s) ∧
  system_volume_get (st_world s') = py32_volume_pct_to_level max v ∧
  st_params s' = mk_params
    (py32_volume_level_to_pct max (py32_volume_pct_to_level max v)) t b vib 0 ∧
  py32_volume_pct_to_level max (volume (st_params s')) = py32_volume_pct_to_level max v ∧
  parse_state (st_parser s') = PY32_RX_ADDR ∧
  ∃ f, tx_wire (st_tx s') = tx_wire (st_tx s) ++ f ∧ length f = 22%nat ∧
       slice f 3 4 = [volume (st_params s'); t; b; vib] ∧ slice f 8 1 = [0] ∧
       py32_crc16 f (length f) = 0.
Proof.
  intros Hwf Hs Hb Hno Hr Hf Hrd Hm max s'. subst s'.
  assert (Hv : 0 <= v) by (inversion Hb; unfold is_u8 in *; lia).
  rewrite py32_accept_raw; [|done..|simpl; lia|done].
  destruct (deliver_set_command v t b vib s Hwf Hf Hr) as (fd & log & ->).
  set (s1 := set_params_applied v t b vib (set_rx_log log s)).
  assert (Hw : st_world s1 = audio_applied v t b (st_world s))
    by (by apply (set_params_applied_world v t b vib (set_rx_log log s))).
  assert (Hp : st_params s1 = mk_params v t b vib 0)
    by (by apply set_params_applied_params).
  destruct (set_params_applied_rest v t b vib (set_rx_log log s)) as (_ & Hrh & _ & Ht).
  fold s1 in Hrh, Ht.
  destruct (audio_applied_volume v t b (st_world s)) as [Hg Hlv]; [done|lia|done|].
  fold max in Hg, Hlv.
  pose proof (py32_volume_pct_to_level_range max v ltac:(lia) Hv) as Hrg.
  assert (Hsy : st_params (status_synced PY32_ERR_NONE s1) = mk_params
    (py32_volume_level_to_pct max (py32_volume_pct_to_level max v)) t b vib 0).
  { rewrite status_synced_none by (rewrite Hw, Hg; lia).
    by rewrite Hw, Hg, Hlv, Hp. }
  unfold py32_send_status_response. rewrite py32_tx_status_frame_eq.
  cbn [set_parser st_world st_params st_parser st_tx idle_parser parse_state].
  rewrite Hw, Hsy. cbn [volume].
  assert (Hpo : params_ok (st_params s1)).
  { rewrite Hp. by apply params_in_range_ok. }
  assert (Hro : rhythm_ok (st_rhythm s1)) by (rewrite Hrh; apply Hwf).
  destruct (status_frame_layout PY32_ERR_NONE s1 Hpo Hro)
    as (Hlen & _ & _ & He & _ & _ & Hcrc); [done|].
  split_and!; [done|done|done|by apply level_round_trip|done|].
  exists (status_frame PY32_ERR_NONE s1). split_and!; [|done| |done|done].
  - rewrite <- (Ht : st_tx s1 = st_tx s). apply py32_uart_tx_bytes_wire. lia.
  - rewrite status_frame_params by apply Hro. by rewrite Hsy.
Qed.

(** *** Repeated frames *)

Lemma rx_frame_same_save l cmd d n crc :
  length (log_data l) = 128%nat → length d = 128%nat → 0 <= n <= 128 →
  py32_rx_frame_same (py32_save_rx_log l 1 cmd d n crc) 1 cmd d n crc = true.
Proof.
  intros Hl Hd Hn. unfold py32_rx_frame_same, py32_save_rx_log.
  cbn [log_addr log_cmd log_len log_crc log_data].
  rewrite !Z.eqb_refl. cbn [negb orb].
  destruct (Z.eqb_spec n 0); [done|]. destruct (Z.ltb_spec 0 n); [|lia].
  apply bool_decide_eq_true_2.
  pose proof (take_memcpy_0 (log_data l) (take (Z.to_nat n) d)) as Ht.
  rewrite length_take, Hd in Ht.
  replace (Z.to_nat n `min` 128)%nat with (Z.to_nat n) in Ht by lia.
  apply Ht. lia.
Qed.

Lemma deliver_parser cmd d s :
  st_parser (deliver cmd d s) =
  idle_parser (memcpy (frame_data (st_parser s)) 0 d).
Proof.
  unfold deliver. cbv zeta. destruct (py32_rx_frame_same _ _ _ _ _ _); [done|].
  by rewrite (proj1 (handle_frame_parser _ _ _ _ _)).
Qed.

(** After delivery the frame is the remembered one. *)
Lemma deliver_remembers cmd d s :
  link_wf s → (length d <= 123)%nat →
  let fd := memcpy (frame_data (st_parser s)) 0 d in
  py32_rx_frame_same (st_rx_log (deliver cmd d s)) 1 cmd fd
    (Z.of_nat (length d)) (frame_crc cmd d) = true.
Proof.
  intros Hwf Hl fd. unfold deliver. cbv zeta.
  match goal with |- context [if ?b then _ else _] => destruct b eqn:E end; [done|].
  rewrite (proj2 (handle_frame_parser _ _ _ _ _)).
  cbn [st_rx_log set_rx_log set_parser].
  apply rx_frame_same_save; [apply Hwf| |lia].
  unfold fd. rewrite length_memcpy. apply Hwf.
Qed.

Lemma deliver_idem cmd d s :
  link_wf s → (length d <= 123)%nat → deliver cmd d (deliver cmd d s) = deliver cmd d s.
Proof.
  intros Hwf Hl. pose proof (deliver_remembers cmd d s Hwf Hl) as Hrem.
  pose proof (deliver_parser cmd d s) as Hp.
  set (s1 := deliver cmd d s) in *. unfold deliver. cbv zeta.
  rewrite Hp. cbn [frame_data idle_parser]. rewrite memcpy_twice.
  cbn [st_rx_log set_parser]. cbv zeta in Hrem. rewrite Hrem.
  destruct s1. cbn in *. by rewrite Hp.
Qed.

(** A frame received twice in a row has exactly the effect of receiving it
    once: the whole link state is the same, so the repetition is neither
    applied nor answered. *)
Theorem py32_repeated_frame_ignored cmd d s :
  link_wf s → parse_state (st_parser s) = PY32_RX_ADDR →
  is_u8 cmd → bytes_ok d → (length d <= 123)%nat → no_addr d →
  let f := frame_bytes PY32_ADDR_HOST cmd d in
  feed_bytes (f ++ f) s = feed_bytes f s.
Proof.
  intros Hwf Hs Hc Hd Hl Hno f. rewrite feed_bytes_app.
  assert (Hf : bytes_ok f) by (apply frame_bytes_ok; done || lia).
  pose proof (feed_bytes_wf f s Hwf Hf) as Hwf'. unfold f in *.
  rewrite (py32_accept_raw cmd d s) in * by done.
  rewrite py32_accept_raw; [by apply deliver_idem|done| |done..].
  by rewrite deliver_parser.
Qed.

(** *** Which byte sequences can change the parameters *)

(** The four values the host sets; [last_error] is bookkeeping. *)
Definition host_values (p : py32_params) : list Z :=
  [volume p; treble p; bass p; vibration p].

(** How many more bytes, at least, until a set command can take effect. *)
Definition bytes_to_set (p : py32_parser) : Z :=
  match parse_state p with
  | PY32_RX_ADDR => 9
  | PY32_RX_CMD => 8
  | PY32_RX_LEN => 7
  | PY32_RX_DATA => if frame_len p =? 4 then 6 - frame_got p else 9
  | PY32_RX_CRC_L => if frame_len p =? 4 then 2 else 9
  | PY32_RX_CRC_H => if frame_len p =? 4 then 1 else 9
  end.

Lemma send_error_values e s :
  e ≠ PY32_ERR_NONE →
  host_values (st_params (py32_send_status_response e s)) = host_values (st_params s).
Proof.
  intros He. rewrite send_status_params. unfold status_synced.
  by destruct (Z.eqb_spec e PY32_ERR_NONE).
Qed.

(** Only a frame of four data bytes sets parameters. *)
Lemma process_complete_host_values s :
  frame_len (st_parser s) ≠ 4 →
  host_values (st_params (py32_process_complete_frame s))
  = host_values (st_params s).
Proof.
  intros Hl. unfold py32_process_complete_frame, py32_parse_reset. cbv zeta.
  destruct (_ <? frame_len _); [by apply send_error_values|].
  destruct (negb _).
  { cbn [set_parser st_params]. by rewrite send_error_values. }
  destruct (py32_rx_frame_same _ _ _ _ _ _); [done|].
  cbn [set_parser st_params]. unfold py32_handle_frame.
  destruct (negb (_ =? PY32_ADDR_HOST)); [done|].
  destruct (_ =? PY32_CMD_COMMON); [|by rewrite send_error_values].
  rewrite py32_handle_set_params_eq.
  destruct (Z.eqb_spec (frame_len (st_parser s)) 4); [done|].
  by cbn [negb]; rewrite send_error_values.
Qed.

(** One byte brings a set command at most one byte closer, and changes no
    parameter before the last one. *)
Lemma feed_byte_potential c s :
  parser_wf (st_parser s) → is_u8 c → 1 < bytes_to_set (st_parser s) →
  host_values (st_params (py32_rx_feed_byte c s)) = host_values (st_params s) ∧
  bytes_to_set (st_parser s) - 1 <= bytes_to_set (st_parser (py32_rx_feed_byte c s)).
Proof.
  intros [_ _ _ Hl Hg _ Hst] Hc. unfold bytes_to_set, py32_rx_feed_byte.
  destruct (parse_state (st_parser s)) eqn:Es; intros Hn; cbv zeta.
  - split; [done|]. cbn [set_parser st_parser]. unfold feed_addr.
    by destruct (negb _); [rewrite Es|].
  - split; [done|]. cbn. lia.
  - unfold PY32_FRAME_MAX.
    destruct (Z.eqb_spec c 0) as [->|]; [by split|].
    destruct (_ <? c); (split; [done|]); cbn [set_parser st_parser parse_reset
      parse_state frame_len frame_got]; [lia|]. destruct (c =? 4); lia.
  - unfold PY32_FRAME_MAX in Hl. destruct (_ && _) eqn:E; (split; [done|]).
    + apply andb_true_iff in E as [E _]. unfold feed_addr. rewrite E.
      cbn. destruct (_ =? 4); lia.
    + cbn [set_parser st_parser parse_state frame_len frame_got].
      rewrite (u8_id (frame_got _ + 1)) by (unfold is_u8; lia).
      destruct (Z.eqb_spec (frame_len (st_parser s)) 4), (Z.leb_spec
        (frame_len (st_parser s)) (frame_got (st_parser s) + 1)); lia.
  - split; [done|]. cbn. destruct (_ =? 4); lia.
  - destruct (Z.eqb_spec (frame_len (st_parser s)) 4); [lia|].
    rewrite process_complete_host_values by done.
    split; [done|]. rewrite process_complete_parser. cbn. lia.
Qed.

Lemma feed_bytes_potential l s :
  link_wf s → bytes_ok l →
  Z.of_nat (length l) < bytes_to_set (st_parser s) →
  host_values (st_params (feed_bytes l s)) = host_values (st_params s) ∧
  bytes_to_set (st_parser s) - Z.of_nat (length l)
    <= bytes_to_set (st_parser (feed_bytes l s)).
Proof.
  revert s. induction l as [|c l IH]; intros s Hwf Hl Hn; cbn [length] in *.
  { split; [done|]. cbn. lia. }
  inversion Hl; subst. rewrite feed_bytes_cons.
  destruct (feed_byte_potential c s) as [Hv Hp]; [apply Hwf|done|lia|].
  destruct (IH (py32_rx_feed_byte c s)) as [Hv' Hp'];
    [by apply feed_byte_wf|done|lia|].
  rewrite Hv', Hv. split; [done|lia].
Qed.

(** In the data field the host address restarts the machine. *)
Lemma feed_resync s :
  parse_state (st_parser s) = PY32_RX_DATA → link_wf s →
  py32_rx_feed_byte PY32_ADDR_HOST s =
  set_parser (mk_parser PY32_RX_CMD 1 0 0 (frame_data (st_parser s)) 0 0) s.
Proof.
  intros Es Hwf. destruct (link_wf_parser s Hwf) as [_ _ _ _ _ _ Hst].
  rewrite Es in Hst. unfold py32_rx_feed_byte. rewrite Es.
  destruct (Z.ltb_spec (frame_got (st_parser s)) (frame_len (st_parser s))); [done|lia].
Qed.

(** C35: A set command received between frames, one of whose four data bytes
    equals the host address 0x01, never changes volume, treble, bass or
    vibration while its bytes arrive, whatever the two bytes of its CRC: the
    machine resynchronises inside the data field. *)
Theorem py32_set_command_with_address_byte_lost pre post lo hi s :
  link_wf s → parse_state (st_parser s) = PY32_RX_ADDR →
  bytes_ok (pre ++ PY32_ADDR_HOST :: post) → bytes_ok [lo; hi] → no_addr pre →
  length (pre ++ PY32_ADDR_HOST :: post) = 4%nat →
  host_values (st_params (feed_bytes ([PY32_ADDR_HOST; PY32_CMD_COMMON; 4]
                            ++ (pre ++ PY32_ADDR_HOST :: post) ++ [lo; hi]) s))
  = host_values (st_params s).
Proof.
  intros Hwf Hs Hb Hcrc Hno Hl.
  assert (Hl' : (length pre + S (length post) = 4)%nat) by (by rewrite <- Hl, length_app).
  set (tl := post ++ [lo; hi]).
  assert (Hsplit : [PY32_ADDR_HOST; PY32_CMD_COMMON; 4] ++ (pre ++ PY32_ADDR_HOST :: post) ++ [lo; hi] =
    ([PY32_ADDR_HOST; PY32_CMD_COMMON; 4] ++ pre) ++ PY32_ADDR_HOST :: tl).
  { unfold tl. by rewrite <- !app_assoc. }
  rewrite Hsplit. apply Forall_app in Hb as [Hb1 Hb2]. inversion Hb2 as [|? ? _ Hb3]; subst.
  assert (Htl : bytes_ok tl) by (by apply Forall_app).
  assert (Hf1 : bytes_ok ([PY32_ADDR_HOST; PY32_CMD_COMMON; 4] ++ pre)) by (apply Forall_app; split; [by repeat constructor|done]).
  rewrite feed_bytes_app, feed_bytes_cons.
  set (s1 := feed_bytes _ s).
  assert (Hwf1 : link_wf s1) by (by apply feed_bytes_wf).
  assert (E1 : s1 = set_parser (data_parser 1 PY32_CMD_COMMON 4 (Z.of_nat (length pre))
      (memcpy (frame_data (st_parser s)) 0 pre) (crc_rx (st_parser s))) s).
  { unfold s1. rewrite feed_bytes_app, feed_header by (done || lia).
    by rewrite (feed_data pre 1 PY32_CMD_COMMON 4 0 (frame_data (st_parser s))
                  (crc_rx (st_parser s))) by (done || lia). }
  assert (Ed : parse_state (st_parser s1) = PY32_RX_DATA).
  { rewrite E1. cbn. by destruct (Z.leb_spec 4 (Z.of_nat (length pre))); [lia|]. }
  rewrite feed_resync by done.
  destruct (feed_bytes_potential tl
    (set_parser (mk_parser PY32_RX_CMD 1 0 0 (frame_data (st_parser s1)) 0 0) s1))
    as [Hv _].
  - rewrite <- feed_resync by done. by apply feed_byte_wf.
  - done.
  - unfold tl. rewrite length_app. cbn. lia.
  - rewrite Hv. by rewrite E1.
Qed.

(** *** Commands that are refused *)

(** The protocol's verdict on a checked frame. *)
Definition command_error (cmd : Z) (d : list Z) : Z :=
  if negb (cmd =? PY32_CMD_COMMON) then PY32_ERR_UNSUPPORTED
  else match d with
       | [v; t; b; vib] => if params_in_range v t b vib then PY32_ERR_NONE
                           else PY32_ERR_BAD_VALUE
       | _ => PY32_ERR_BAD_LEN
       end.

Lemma handle_frame_error cmd d fd s :
  length fd = 128%nat → (length d <= 123)%nat → command_error cmd d ≠ PY32_ERR_NONE →
  py32_handle_frame 1 cmd (memcpy fd 0 d) (Z.of_nat (length d)) s =
  py32_send_status_response (command_error cmd d)
    (set_params (set_last_error (command_error cmd d) (st_params s)) s).
Proof.
  intros Hf Hl. unfold py32_handle_frame, command_error.
  change (negb (1 =? PY32_ADDR_HOST)) with false. cbv iota.
  destruct (cmd =? PY32_CMD_COMMON); cbn [negb]; [|done].
  rewrite py32_handle_set_params_eq. intros He.
  destruct (decide (length d = 4%nat)) as [E4|N4].
  - destruct d as [|v [|t [|b [|vib [|]]]]]; try done.
    destruct (getb_memcpy_4 fd v t b vib Hf) as (-> & -> & -> & ->).
    change (negb (Z.of_nat (length [v; t; b; vib]) =? 4)) with false. cbv iota.
    by destruct (params_in_range v t b vib).
  - destruct (Z.eqb_spec (Z.of_nat (length d)) 4); [lia|]. cbn [negb].
    by destruct d as [|v [|t [|b [|vib [|]]]]].
Qed.

(** C34: A frame with a correct CRC received between frames, different from the
    last accepted one, with at most 123 data bytes none of which is 1 (the
    host address), is refused with error 1, 2 or 3 when its command is
    unknown, its data length is not four or a value is out of range: only
    last_error changes, nothing is applied, and one status frame carries the
    error. *)
Theorem py32_refused_command cmd d s :
  link_wf s → parse_state (st_parser s) = PY32_RX_ADDR →
  is_u8 cmd → bytes_ok d → (length d <= 123)%nat → no_addr d →
  fresh cmd d s → command_error cmd d ≠ PY32_ERR_NONE →
  let e := command_error cmd d in
  let s' := feed_bytes (frame_bytes PY32_ADDR_HOST cmd d) s in
  st_params s' = set_last_error e (st_params s) ∧
  st_world s' = st_world s ∧
  parse_state (st_parser s') = PY32_RX_ADDR ∧
  tx_wire (st_tx s') = tx_wire (st_tx s) ++ status_frame e s.
Proof.
  intros Hwf Hs Hc Hd Hl Hno Hf He e s'. subst s'.
  rewrite py32_accept_raw by done. unfold deliver, fresh in *. cbv zeta.
  set (P := mk_parser _ _ _ _ _ _ _).
  change (st_rx_log (set_parser P s)) with (st_rx_log s).
  change PY32_ADDR_HOST with 1 in Hf. rewrite Hf.
  rewrite set_rx_log_set_parser, handle_frame_set_parser.
  rewrite handle_frame_error by (done || apply Hwf). fold e.
  unfold py32_send_status_response. rewrite py32_tx_status_frame_eq.
  assert (Hne : (e =? PY32_ERR_NONE) = false) by (by apply Z.eqb_neq).
  unfold status_synced, status_frame, status_synced. rewrite Hne.
  split_and!; try done.
  apply (py32_uart_tx_bytes_wire (frame_bytes _ _ _)).
  rewrite length_frame_bytes, length_status_data; [lia|apply Hwf].
Qed.
End link_props.

(** ** A concrete world

    A recording implementation of [Py32Env]: a sixteen-step volume, the
    equaliser bands written, and the Bluetooth and UI calls in order. *)
Record sim_world := mk_sim {
  sim_volume : Z;
  sim_peq : list (Z * eq_band);
  sim_player : bool;
  sim_updates : Z;
  sim_connected : Z;
  sim_status : Z;
  sim_calls : list bt_call;
  sim_ui : list ui_event;
}.

#[export] Instance sim_env : Py32Env sim_world := {|
  audio_policy_get_volume_level _ := 16;
  system_volume_get := sim_volume;
  system_volume_set l w := mk_sim l (sim_peq w) (sim_player w) (sim_updates w)
    (sim_connected w) (sim_status w) (sim_calls w) (sim_ui w);
  audio_policy_set_dynamic_peq_band i e w := mk_sim (sim_volume w)
    (sim_peq w ++ [(i, e)]) (sim_player w) (sim_updates w)
    (sim_connected w) (sim_status w) (sim_calls w) (sim_ui w);
  media_player_present := sim_player;
  media_player_dynamic_update_peq w := mk_sim (sim_volume w) (sim_peq w)
    (sim_player w) (sim_updates w + 1)
    (sim_connected w) (sim_status w) (sim_calls w) (sim_ui w);
  bt_manager_is_inited _ := true;
  bt_manager_power_on_setup _ := true;
  bt_manager_get_connected_dev_num := sim_connected;
  bt_manager_media_get_status := sim_status;
  bt_manager_call c w := mk_sim (sim_volume w) (sim_peq w) (sim_player w)
    (sim_updates w) (sim_connected w) (sim_status w) (sim_calls w ++ [c]) (sim_ui w);
  desktop_plugin_is_br_music _ := true;
  ui_message_send_async e w := mk_sim (sim_volume w) (sim_peq w) (sim_player w)
    (sim_updates w) (sim_connected w) (sim_status w) (sim_calls w) (sim_ui w ++ [e]);
|}.

#[export] Program Instance sim_audio_laws : Py32AudioLaws sim_world := { audio_ready _ := True }.
Solve All Obligations with done.

Definition sim_world_init : sim_world := mk_sim 5 [] true 0 1 2 [] [].

Definition link_init {W} (w : W) : py32 W :=
  mk_py32 py32_state_init py32_rhythm_init (idle_parser (replicate 128 0))
    py32_rx_log_init (py32_tx_init [true; false; true]) w.
Definition sim_init : py32 sim_world := link_init sim_world_init.

Lemma link_init_wf {W} (w : W) : link_wf (link_init w).
Proof.
  split; [split; vm_compute; intuition discriminate| |split; try done|done].
  - split; [done|]. by apply (Forall_replicate _ 10).
  - by apply (Forall_replicate _ 128).
Qed.
Lemma sim_init_wf : link_wf sim_init.
Proof. apply link_init_wf. Qed.

(** [bytes_ok] and [no_addr] of literal lists. *)
Ltac by_bytes := repeat first [apply Forall_nil_2 | apply Forall_cons_2];
                 unfold is_u8, PY32_ADDR_HOST, PY32_CMD_COMMON; lia.

Lemma py32_tx_status_frame_wire_witness :
  tx_wire (st_tx (py32_tx_status_frame 0 sim_init)) = status_frame 0 sim_init.
Proof.
  apply (py32_tx_status_frame_wire 0 sim_init);
    [apply sim_init_wf|apply sim_init_wf|lia].
Defined.

Lemma py32_rx_never_overflows_witness :
  link_wf (feed_bytes [1; 16; 255; 1; 1; 16; 4; 50] sim_init).
Proof.
  apply (py32_rx_never_overflows [1; 16; 255; 1; 1; 16; 4; 50] sim_init);
    [apply sim_init_wf|by_bytes].
Defined.

Lemma py32_rx_accepts_frame_witness :
  feed_bytes (frame_bytes 1 16 [50; 12; 14; 30]) sim_init
  = deliver 16 [50; 12; 14; 30] sim_init.
Proof.
  apply (py32_rx_accepts_frame 16 [50; 12; 14; 30] sim_init);
    [apply sim_init_wf|done|by_bytes|by_bytes|simpl; lia|by_bytes].
Defined.

Lemma py32_rx_rejects_bad_crc_witness :
  st_params (feed_bytes (raw_frame 16 [50; 12; 14; 30] 0 0) sim_init)
  = mk_params 0 12 12 0 4.
Proof.
  apply (py32_rx_rejects_bad_crc 16 [50; 12; 14; 30] 0 0 sim_init);
    [apply sim_init_wf|done|by_bytes|by_bytes|simpl; lia|by_bytes|by_bytes|by_bytes|].
  vm_compute. discriminate.
Defined.

Lemma py32_set_command_effect_witness :
  let s' := feed_bytes (frame_bytes PY32_ADDR_HOST PY32_CMD_COMMON [50; 12; 14; 30])
              sim_init in
  system_volume_get (st_world s') =
    py32_volume_pct_to_level (audio_policy_get_volume_level (st_world sim_init)) 50.
Proof.
  pose proof (py32_set_command_effect 50 12 14 30 sim_init sim_init_wf eq_refl) as H.
  refine (proj1 (proj2 (H _ _ _ _ _ _))).
  - by_bytes.
  - by_bytes.
  - reflexivity.
  - vm_compute. reflexivity.
  - exact I.
  - vm_compute. intuition discriminate.
Defined.

Lemma py32_repeated_frame_ignored_witness :
  let f := frame_bytes 1 16 [50; 12; 14; 30] in
  feed_bytes (f ++ f) sim_init = feed_bytes f sim_init.
Proof.
  apply (py32_repeated_frame_ignored 16 [50; 12; 14; 30] sim_init);
    [apply sim_init_wf|done|by_bytes|by_bytes|simpl; lia|by_bytes].
Defined.

Lemma py32_set_command_with_address_byte_lost_witness :
  host_values (st_params (feed_bytes (frame_bytes 1 16 [50; 1; 14; 30]) sim_init))
  = [0; 12; 12; 0].
Proof.
  apply (py32_set_command_with_address_byte_lost [50] [14; 30]
           (crc16_lo (frame_crc 16 [50; 1; 14; 30])) (crc16_hi (frame_crc 16 [50; 1; 14; 30])) sim_init);
    [apply sim_init_wf|done|by_bytes|vm_compute; repeat constructor; intuition discriminate|by_bytes|done].
Defined.

Lemma py32_refused_command_witness :
  st_params (feed_bytes (frame_bytes 1 16 [50; 25; 14; 30]) sim_init)
  = mk_params 0 12 12 0 3.
Proof.
  apply (py32_refused_command 16 [50; 25; 14; 30] sim_init);
    [apply sim_init_wf|done|by_bytes|by_bytes|simpl; lia|by_bytes
    |vm_compute; reflexivity|done].
Defined.
