(* ===== verification/Py32Host.v ===== *)
(** * PY32 link: host presence, the worker thread and initialisation

    The part of system_app_py32_uart.c that decides whether the PY32 host is
    there: bytes on the UART switch the Bluetooth side on, ten silent seconds
    switch it off ([py32_host_on_rx_activity], [py32_host_idle_work_handler]);
    the thread loop ([py32_uart_ring_drain], the 50 ms status period) and the
    initialisation ([py32_uart_do_init], [py32_uart_dma_setup]).  The
    component as a whole is the step relation [host_step], in which interrupts,
    the delayed work, the thread and calls from other threads interleave. *)

From stdpp Require Import base numbers list option.
From S2P Require Import Prelude Crc16 Py32Ring Py32Volume Py32Uart Py32Link.
Local Open Scope Z_scope.

Definition PY32_HOST_IDLE_TIMEOUT_MS : Z := 10000.
Definition PY32_RHYTHM_PERIOD_MS : Z := 50.

(** ** The UART driver *)

(** Driver calls of the set-up path, in the order they are made. *)
Inductive uart_call :=
  | TxPinmux                          (* GPIO_CTL of the TX pin *)
  | FifoSwitch (is_tx : bool) (dma : bool)
  | IrqTxDisable
  | DmaRecvInit
  | DmaRecvConfig (size : Z)
  | DmaRecvTimeoutStart
  | DmaRecvStart.

(** What the driver answers. *)
Record uart_driver := mk_uart_driver {
  drv_bound : bool;                    (* device_get_binding finds the device *)
  drv_fifo_switch : bool → bool → Z;   (* uart_fifo_switch *)
  drv_recv_init : Z;                   (* uart_dma_recv_init *)
  drv_recv_start : Z;                  (* uart_dma_recv_start *)
}.

(** ** State *)

(** Where the thread is in its loop.  It has priority 14 and takes no lock, so
    the system work queue, whose priority is higher, may run the idle work
    between any two of these places. *)
Inductive thread_pc :=
  | TWait              (* at [k_sem_take] *)
  | TDrain (n : nat)   (* in [py32_uart_ring_drain], [n] bytes fed *)
  | TCheck             (* at the test of [py32_host_on_rx_activity] *)
  | TPowerOn           (* the host was off: at the store of [py32_host_power_on] *)
  | TEnable            (* at the calls of [py32_host_power_on] *)
  | TCancel            (* at [os_delayed_work_cancel] *)
  | TSubmit            (* at [os_delayed_work_submit] *)
  | TStatus.           (* at the 50 ms status frame *)

Record host (W : Type) := mk_host {
  h_link : py32 W;
  h_ring : rx_ring;
  py32_host_alive : bool;
  py32_host_idle_work : option Z;      (* deadline in ms while submitted *)
  py32_init_banner_done : bool;
  last_rhythm_tx_ms : Z;
  py32_tx_fifo_err : Z;
  py32_dma_rx_err : Z;
  py32_uart_dev : bool;
  py32_uart_tid : bool;                (* the thread exists *)
  py32_uart_init_work : option Z;
  h_uart_calls : list uart_call;
  h_pc : thread_pc;
}.
Arguments mk_host {W}.
Arguments h_link {W}.
Arguments h_ring {W}.
Arguments py32_host_alive {W}.
Arguments py32_host_idle_work {W}.
Arguments py32_init_banner_done {W}.
Arguments last_rhythm_tx_ms {W}.
Arguments py32_tx_fifo_err {W}.
Arguments py32_dma_rx_err {W}.
Arguments py32_uart_dev {W}.
Arguments py32_uart_tid {W}.
Arguments py32_uart_init_work {W}.
Arguments h_uart_calls {W}.
Arguments h_pc {W}.

Section host_setters.
Context {W : Type}.
Implicit Types h : host W.

Definition set_link (l : py32 W) h : host W :=
  mk_host l (h_ring h) (py32_host_alive h) (py32_host_idle_work h)
    (py32_init_banner_done h) (last_rhythm_tx_ms h) (py32_tx_fifo_err h)
    (py32_dma_rx_err h) (py32_uart_dev h) (py32_uart_tid h)
    (py32_uart_init_work h) (h_uart_calls h) (h_pc h).
Definition set_ring (r : rx_ring) h : host W :=
  mk_host (h_link h) r (py32_host_alive h) (py32_host_idle_work h)
    (py32_init_banner_done h) (last_rhythm_tx_ms h) (py32_tx_fifo_err h)
    (py32_dma_rx_err h) (py32_uart_dev h) (py32_uart_tid h)
    (py32_uart_init_work h) (h_uart_calls h) (h_pc h).
Definition set_alive (b : bool) h : host W :=
  mk_host (h_link h) (h_ring h) b (py32_host_idle_work h)
    (py32_init_banner_done h) (last_rhythm_tx_ms h) (py32_tx_fifo_err h)
    (py32_dma_rx_err h) (py32_uart_dev h) (py32_uart_tid h)
    (py32_uart_init_work h) (h_uart_calls h) (h_pc h).
Definition set_idle (d : option Z) h : host W :=
  mk_host (h_link h) (h_ring h) (py32_host_alive h) d
    (py32_init_banner_done h) (last_rhythm_tx_ms h) (py32_tx_fifo_err h)
    (py32_dma_rx_err h) (py32_uart_dev h) (py32_uart_tid h)
    (py32_uart_init_work h) (h_uart_calls h) (h_pc h).
Definition set_banner (b : bool) h : host W :=
  mk_host (h_link h) (h_ring h) (py32_host_alive h) (py32_host_idle_work h)
    b (last_rhythm_tx_ms h) (py32_tx_fifo_err h)
    (py32_dma_rx_err h) (py32_uart_dev h) (py32_uart_tid h)
    (py32_uart_init_work h) (h_uart_calls h) (h_pc h).
Definition set_last_tx (t : Z) h : host W :=
  mk_host (h_link h) (h_ring h) (py32_host_alive h) (py32_host_idle_work h)
    (py32_init_banner_done h) t (py32_tx_fifo_err h)
    (py32_dma_rx_err h) (py32_uart_dev h) (py32_uart_tid h)
    (py32_uart_init_work h) (h_uart_calls h) (h_pc h).
Definition set_uart (fifo_err dma_err : Z) (calls : list uart_call) h : host W :=
  mk_host (h_link h) (h_ring h) (py32_host_alive h) (py32_host_idle_work h)
    (py32_init_banner_done h) (last_rhythm_tx_ms h) fifo_err dma_err
    (py32_uart_dev h) (py32_uart_tid h) (py32_uart_init_work h)
    (h_uart_calls h ++ calls) (h_pc h).
Definition set_dev (b : bool) h : host W :=
  mk_host (h_link h) (h_ring h) (py32_host_alive h) (py32_host_idle_work h)
    (py32_init_banner_done h) (last_rhythm_tx_ms h) (py32_tx_fifo_err h)
    (py32_dma_rx_err h) b (py32_uart_tid h)
    (py32_uart_init_work h) (h_uart_calls h) (h_pc h).
Definition set_tid (b : bool) h : host W :=
  mk_host (h_link h) (h_ring h) (py32_host_alive h) (py32_host_idle_work h)
    (py32_init_banner_done h) (last_rhythm_tx_ms h) (py32_tx_fifo_err h)
    (py32_dma_rx_err h) (py32_uart_dev h) b
    (py32_uart_init_work h) (h_uart_calls h) (h_pc h).
Definition set_init_work (d : option Z) h : host W :=
  mk_host (h_link h) (h_ring h) (py32_host_alive h) (py32_host_idle_work h)
    (py32_init_banner_done h) (last_rhythm_tx_ms h) (py32_tx_fifo_err h)
    (py32_dma_rx_err h) (py32_uart_dev h) (py32_uart_tid h) d (h_uart_calls h) (h_pc h).
Definition set_pc (p : thread_pc) h : host W :=
  mk_host (h_link h) (h_ring h) (py32_host_alive h) (py32_host_idle_work h)
    (py32_init_banner_done h) (last_rhythm_tx_ms h) (py32_tx_fifo_err h)
    (py32_dma_rx_err h) (py32_uart_dev h) (py32_uart_tid h)
    (py32_uart_init_work h) (h_uart_calls h) p.
Definition on_world (f : W → W) h : host W :=
  set_link (set_world (f (st_world (h_link h))) (h_link h)) h.
End host_setters.

(** ** Operations *)

Section host_ops.
Context {W : Type} `{!Py32Env W}.
Implicit Types h : host W.

(** [py32_host_notify_ui] *)
Definition py32_host_notify_ui (e : ui_event) h : host W :=
  on_world (ui_message_send_async e) h.

(** [system_app_py32_host_is_alive] *)
Definition system_app_py32_host_is_alive h : bool := py32_host_alive h.

(** [py32_host_bt_enable]: wait for a connection, then reconnect the last
    phone when the power-on set-up asks for it. *)
Definition py32_host_bt_enable h : host W :=
  if negb (bt_manager_is_inited (st_world (h_link h))) then h
  else
    let h := on_world (bt_manager_call (BtSetUserVisual false false false 0)) h in
    let h := on_world (bt_manager_call BtStartWaitConnect) h in
    if bt_manager_power_on_setup (st_world (h_link h))
    then on_world (bt_manager_call (BtPowonAutoReconnect 0)) h
    else h.

(** [py32_host_bt_disable] *)
Definition py32_host_bt_disable h : host W :=
  if negb (bt_manager_is_inited (st_world (h_link h))) then h
  else
    let h := on_world (bt_manager_call BtAutoReconnectStop) h in
    let h := on_world (bt_manager_call BtEndPairMode) h in
    let h := on_world (bt_manager_call BtDisconnectAllPhone) h in
    let h := on_world (bt_manager_call BtEndWaitConnect) h in
    on_world (bt_manager_call (BtSetUserVisual true false false 0)) h.

(** [py32_host_power_on], [py32_host_power_off] *)
Definition power_on_calls h : host W :=
  let h := py32_host_bt_enable h in
  let h := py32_host_notify_ui UI_EVENT_POWER_ON h in
  if desktop_plugin_is_br_music (st_world (h_link h))
  then py32_host_notify_ui UI_EVENT_ENTER_BTMUSIC h
  else h.
Definition py32_host_power_on h : host W := power_on_calls (set_alive true h).

Definition py32_host_power_off h : host W :=
  py32_host_bt_disable (set_alive false h).

(** [py32_host_idle_work_handler] *)
Definition py32_host_idle_work_handler h : host W :=
  if py32_host_alive h then py32_host_power_off h else h.

(** [py32_host_on_rx_activity]: cancel and resubmit the idle work. *)
Definition py32_host_on_rx_activity (now : Z) h : host W :=
  let h := if negb (py32_host_alive h) then py32_host_power_on h else h in
  let h := set_idle None h in
  set_idle (Some (now + PY32_HOST_IDLE_TIMEOUT_MS)) h.

(** [py32_log_init_banner] *)
Definition py32_log_init_banner h : host W :=
  if py32_init_banner_done h then h else set_banner true h.

(** [py32_uart_ring_drain]: pop under the lock, feed, until the ring is
    empty.  [irqs] are the chunks that interrupts push while the loop runs,
    one before each locked section; the result carries the bytes fed, whose
    number is the return value, and the chunks that came too late. *)
Fixpoint py32_uart_ring_drain (fuel : nat) (irqs : list (list Z)) (h : host W)
    (fed : list Z) : option (host W * list Z * list (list Z)) :=
  match fuel with
  | O => None
  | S fuel' =>
      let '(r, irqs') := match irqs with
                         | [] => (h_ring h, [])
                         | d :: rest => (py32_rx_ring_push (h_ring h) d, rest)
                         end in
      match rx_ring_pop r with
      | None => Some (set_ring r h, fed, irqs')
      | Some (c, r') =>
          py32_uart_ring_drain fuel' irqs'
            (set_link (py32_rx_feed_byte c (h_link h)) (set_ring r' h))
            (fed ++ [c])
      end
  end.

(** Enough fuel for every run: see [py32_uart_ring_drain_total]. *)
Definition drain_fuel (irqs : list (list Z)) : nat := (256 + length irqs)%nat.

(** The 50 ms status frame at the end of a thread iteration;
    [k_uptime_get_32] wraps. *)
Definition py32_status_period (now : Z) h : host W :=
  let now32 := u32 now in
  if py32_init_banner_done h && py32_host_alive h &&
     (PY32_RHYTHM_PERIOD_MS <=? u32 (now32 - last_rhythm_tx_ms h))
  then set_last_tx now32
         (set_link (py32_tx_status_frame PY32_ERR_NONE (h_link h)) h)
  else h.

(** One iteration of the loop of [py32_uart_thread] when only interrupts come
    between: [now] is the uptime. *)
Definition py32_uart_thread_iteration (irqs : list (list Z)) (now : Z) h
    : option (host W) :=
  let h := set_ring (k_sem_take (h_ring h)) h in
  match py32_uart_ring_drain (drain_fuel irqs) irqs h [] with
  | None => None
  | Some (h, fed, late) =>
      let h := set_ring (fold_left py32_rx_ring_push late (h_ring h)) h in
      let h := if 0 <? Z.of_nat (length fed)
               then py32_host_on_rx_activity now h else h in
      Some (py32_status_period now h)
  end.

(** The same loop in the sections between which other threads may run. *)
Definition py32_thread_section (now : Z) h : host W :=
  match h_pc h with
  | TWait => set_pc (TDrain 0) (set_ring (k_sem_take (h_ring h)) h)
  | TDrain n =>
      match rx_ring_pop (h_ring h) with
      | None => set_pc (if 0 <? Z.of_nat n then TCheck else TStatus) h
      | Some (c, r) => set_pc (TDrain (S n)) (set_link (py32_rx_feed_byte c (h_link h)) (set_ring r h))
      end
  | TCheck => set_pc (if negb (py32_host_alive h) then TPowerOn else TCancel) h
  | TPowerOn => set_pc TEnable (set_alive true h)
  | TEnable => set_pc TCancel (power_on_calls h)
  | TCancel => set_pc TSubmit (set_idle None h)
  | TSubmit => set_pc TStatus (set_idle (Some (now + PY32_HOST_IDLE_TIMEOUT_MS)) h)
  | TStatus => set_pc TWait (py32_status_period now h)
  end.

(** [py32_uart1_force_cpu_tx] *)
Definition py32_uart1_force_cpu_tx (drv : uart_driver) h : host W :=
  set_uart (drv_fifo_switch drv true false) (py32_dma_rx_err h)
    [FifoSwitch true false; IrqTxDisable] h.

(** [py32_uart_dma_setup] *)
Definition py32_uart_dma_setup (drv : uart_driver) h : Z * host W :=
  let h := set_uart (py32_tx_fifo_err h) (py32_dma_rx_err h) [TxPinmux] h in
  let h := py32_uart1_force_cpu_tx drv h in
  let h := set_uart (py32_tx_fifo_err h) (drv_fifo_switch drv false true)
             [FifoSwitch false true; IrqTxDisable; DmaRecvInit] h in
  if negb (drv_recv_init drv =? 0) then (drv_recv_init drv, h)
  else
    let h := set_uart (py32_tx_fifo_err h) (py32_dma_rx_err h)
               [DmaRecvConfig PY32_DMA_RX_BUF_SIZE; DmaRecvTimeoutStart;
                DmaRecvStart] h in
    if negb (drv_recv_start drv =? 0) then (drv_recv_start drv, h)
    else (0, h).

(** [py32_uart_do_init] *)
Definition py32_uart_do_init (drv : uart_driver) h : host W :=
  let h := set_link (py32_parse_reset (set_params (mk_params 0 12 12 0 0) (h_link h))) h in
  let h := set_dev (drv_bound drv) h in
  if negb (py32_uart_dev h) then h
  else
    let h := set_ring (mk_rx_ring (py32_rx_ring (h_ring h)) 0 0
                         (py32_rx_wake (h_ring h))) h in
    let '(ret, h) := py32_uart_dma_setup drv h in
    if negb (ret =? 0) then h else set_tid true h.

(** [system_app_py32_uart_init] *)
Definition system_app_py32_uart_init (init_delay_ms now : Z) h : host W :=
  set_init_work (Some (now + init_delay_ms)) (set_idle None h).
End host_ops.

(** ** Draining the ring *)

(** The accesses of a drain: a push before the first pops, then pops only. *)
Definition drain_ops (used : list (list Z)) (n : nat) : list ring_op :=
  (used ≫= λ d, [RPush d; RPop]) ++ replicate n RPop.

Section drain.
Context {W : Type} `{!Py32Env W}.
Implicit Types h : host W.

(** More than the iterations a drain can make. *)
Definition drain_bound (irqs : list (list Z)) (r : rx_ring) : nat :=
  match irqs with
  | [] => length (ring_queue r)
  | _ => (255 + length irqs)%nat
  end.

(** What a drain has done when it returns. *)
Definition drained (irqs : list (list Z)) h (fed : list Z)
    (res : option (host W * list Z * list (list Z))) : Prop :=
  ∃ r' new used late n,
    res = Some (set_link (feed_bytes new (h_link h)) (set_ring r' h),
                fed ++ new, late) ∧
    irqs = used ++ late ∧ ring_wf r' ∧ ring_queue r' = [] ∧ bytes_ok new ∧
    run fifo_exec (ring_queue (h_ring h)) (drain_ops used n) = ([], new).

Lemma ring_queue_bytes r : ring_wf r → bytes_ok (ring_queue r).
Proof.
  intros Hwf. unfold ring_queue, bytes_ok. apply Forall_fmap, Forall_true.
  intros k. apply getb_u8, Hwf.
Qed.

(** One iteration that finds a byte, seen from its end. *)
Lemma drained_step irqs h fed c r0 r1 d irqs' res :
  (irqs, r0) = match d with
               | None => (irqs', h_ring h)
               | Some d => (d :: irqs', py32_rx_ring_push (h_ring h) d)
               end →
  (d = None → irqs' = []) →
  match d with None => True | Some d => bytes_ok d end →
  ring_wf (h_ring h) → ring_wf r1 → is_u8 c →
  ring_queue r0 = c :: ring_queue r1 →
  drained irqs' (set_link (py32_rx_feed_byte c (h_link h)) (set_ring r1 h))
    (fed ++ [c]) res →
  drained irqs h fed res.
Proof.
  intros Hirq Hnone Hd Hwf Hwf1 Hc Hq (r' & new & used & late & n & -> & Hir & Hwf' & He & Hb & Hrun).
  cbn [h_ring set_link set_ring] in Hrun.
  destruct d as [d|]; injection Hirq as -> ->.
  - exists r', (c :: new), (d :: used), late, n. split_and!; try done.
    + by rewrite <- app_assoc.
    + by rewrite Hir.
    + by constructor.
    + destruct (py32_rx_ring_push_spec (h_ring h) d) as [_ Hp]; [done..|].
      rewrite Hp in Hq. cbn [drain_ops mbind list_bind app]. cbn [run fifo_exec].
      rewrite Hq. cbn [fifo_pop]. fold (drain_ops used n). by rewrite Hrun.
  - rewrite (Hnone eq_refl) in *. symmetry in Hir. apply app_eq_nil in Hir as [-> ->].
    exists r', (c :: new), [], [], (S n). split_and!; try done.
    + by rewrite <- app_assoc.
    + by constructor.
    + cbn [drain_ops mbind list_bind app replicate]. cbn [run fifo_exec].
      rewrite Hq. cbn [fifo_pop]. cbn in Hrun. by rewrite Hrun.
Qed.

Lemma drain_spec fuel irqs h fed :
  ring_wf (h_ring h) → Forall bytes_ok irqs →
  (drain_bound irqs (h_ring h) < fuel)%nat →
  drained irqs h fed (py32_uart_ring_drain fuel irqs h fed).
Proof.
  revert irqs h fed. induction fuel as [|fuel IH]; intros irqs h fed Hwf Hirq Hfuel.
  { lia. }
  cbn [py32_uart_ring_drain]. destruct irqs as [|d irqs].
  - pose proof (rx_ring_pop_spec (h_ring h) Hwf) as Hpop.
    destruct (rx_ring_pop (h_ring h)) as [[c r1]|].
    + destruct Hpop as [Hwf1 Hq].
      assert (Hc : is_u8 c).
      { pose proof (ring_queue_bytes _ Hwf) as Hb. rewrite Hq in Hb. by inversion Hb. }
      eapply (drained_step [] h fed c _ r1 None); try done.
      apply IH; [done..|]. cbn in *. rewrite Hq in Hfuel. cbn in Hfuel. lia.
    + exists (h_ring h), [], [], [], 0%nat. rewrite app_nil_r.
      split_and!; try done; [constructor|by rewrite Hpop].
  - inversion Hirq; subst.
    destruct (py32_rx_ring_push_spec (h_ring h) d) as [Hwf0 Hq0]; [done..|].
    pose proof (rx_ring_pop_spec _ Hwf0) as Hpop.
    destruct (rx_ring_pop (py32_rx_ring_push (h_ring h) d)) as [[c r1]|].
    + destruct Hpop as [Hwf1 Hq].
      assert (Hc : is_u8 c).
      { pose proof (ring_queue_bytes _ Hwf0) as Hb. rewrite Hq in Hb. by inversion Hb. }
      eapply (drained_step (d :: irqs) h fed c _ r1 (Some d)); try done.
      apply IH; [done..|]. cbn [h_ring set_link set_ring].
      pose proof (ring_queue_le_255 (py32_rx_ring_push (h_ring h) d)) as Hle.
      rewrite Hq in Hle. cbn in Hle. destruct irqs; cbn in *; lia.
    + exists (py32_rx_ring_push (h_ring h) d), [], [d], irqs, 0%nat.
      rewrite app_nil_r. split_and!; try done; [constructor|].
      cbn [drain_ops mbind list_bind app replicate]. cbn [run fifo_exec].
      rewrite <- Hq0, Hpop. done.
Qed.

Lemma drain_fuel_enough irqs r : (drain_bound irqs r < drain_fuel irqs)%nat.
Proof.
  unfold drain_bound, drain_fuel. pose proof (ring_queue_le_255 r).
  destruct irqs; cbn in *; lia.
Qed.
End drain.

(** ** The component as a transition system *)

Section host_system.
Context {W : Type} `{!Py32Env W}.
Implicit Types h : host W.
Variable drv : uart_driver.

(** Uptime in ms and the state of the component. *)
Definition system : Type := Z * host W.

(** The time of the first delayed work that is due. *)
Definition works_due_by h (t : Z) : Prop :=
  (∀ d, py32_host_idle_work h = Some d → t <= d) ∧
  (∀ d, py32_uart_init_work h = Some d → t <= d).

Inductive host_step : system → system → Prop :=
  | step_isr now h d :                      (* DMA interrupt or RX timeout *)
      bytes_ok d →
      host_step (now, h) (now, set_ring (py32_rx_ring_push (h_ring h) d) h)
  | step_time now h d :                     (* time passes up to a due work *)
      0 < d → works_due_by h (now + d) → host_step (now, h) (now + d, h)
  | step_idle now h d :
      py32_host_idle_work h = Some d → d <= now →
      host_step (now, h) (now, py32_host_idle_work_handler (set_idle None h))
  | step_init now h d :
      py32_uart_init_work h = Some d → d <= now →
      host_step (now, h) (now, py32_uart_do_init drv (set_init_work None h))
  | step_thread_start now h :
      py32_uart_tid h = true → host_step (now, h) (now, py32_log_init_banner h)
  | step_thread now h :
      py32_uart_tid h = true → py32_init_banner_done h = true →
      host_step (now, h) (now, py32_thread_section now h)
  | step_push_now now h :
      host_step (now, h) (now, set_link (system_app_py32_uart_push_now (h_link h)) h)
  | step_rhythm now h bands playing :
      length bands = 10%nat → bytes_ok bands →
      host_step (now, h)
        (now, set_link (py32_rhythm_set_data (Some bands) playing (h_link h)) h)
  | step_reapply now h :
      host_step (now, h) (now, set_link (system_app_py32_reapply_eq (h_link h)) h)
  | step_world now h f :                    (* the rest of the firmware *)
      host_step (now, h) (now, on_world f h).

(** The thread is on its way to submit the idle work. *)
Definition submitting (p : thread_pc) : bool :=
  match p with TEnable | TCancel | TSubmit => true | _ => false end.

(** The invariant: link and ring well-formed; while the host counts as alive
    the idle work is pending or about to be submitted, and it is never more
    than ten seconds ahead; the thread exists only on a bound device. *)
Record host_wf (st : system) : Prop := {
  host_wf_link : link_wf (h_link st.2);
  host_wf_ring : ring_wf (h_ring st.2);
  host_wf_alive : py32_host_alive st.2 = true →
                    is_Some (py32_host_idle_work st.2) ∨ submitting (h_pc st.2) = true;
  host_wf_idle : ∀ d, py32_host_idle_work st.2 = Some d →
                   st.1 <= d <= st.1 + PY32_HOST_IDLE_TIMEOUT_MS;
  host_wf_last : 0 <= last_rhythm_tx_ms st.2 < 4294967296;
  host_wf_tid : py32_uart_tid st.2 = true →
                  py32_uart_dev st.2 = true ∧ drv_bound drv = true;
}.

(** Link states that differ only in parameters, log, wire and world. *)
Lemma link_wf_set_world (w : W) (l : py32 W) : link_wf l → link_wf (set_world w l).
Proof. intros []. by split. Qed.

(** Enabling, disabling and notifying only touch the rest of the firmware. *)
Definition same_but_world (h h' : host W) : Prop :=
  ∃ w, h' = set_link (set_world w (h_link h)) h.

Lemma on_world_same f h : same_but_world h (on_world f h).
Proof. by eexists. Qed.
Lemma same_but_world_refl h : same_but_world h h.
Proof. exists (st_world (h_link h)). destruct h as [[]]; done. Qed.
Lemma same_but_world_trans h1 h2 h3 :
  same_but_world h1 h2 → same_but_world h2 h3 → same_but_world h1 h3.
Proof. intros [w ->] [w' ->]. by exists w'. Qed.

Lemma bt_enable_same h : same_but_world h (py32_host_bt_enable h).
Proof.
  unfold py32_host_bt_enable. destruct (negb _); [apply same_but_world_refl|].
  cbv zeta. destruct (bt_manager_power_on_setup _);
    repeat (eapply same_but_world_trans; [|apply on_world_same]);
    apply same_but_world_refl.
Qed.

Lemma bt_disable_same h : same_but_world h (py32_host_bt_disable h).
Proof.
  unfold py32_host_bt_disable. destruct (negb _); [apply same_but_world_refl|].
  repeat (eapply same_but_world_trans; [|apply on_world_same]);
    apply same_but_world_refl.
Qed.

Lemma power_on_calls_same h : same_but_world h (power_on_calls h).
Proof.
  unfold power_on_calls, py32_host_notify_ui. cbv zeta.
  destruct (desktop_plugin_is_br_music _);
    repeat (eapply same_but_world_trans; [|apply on_world_same]);
    apply bt_enable_same.
Qed.
Lemma power_on_same h : same_but_world (set_alive true h) (py32_host_power_on h).
Proof. apply power_on_calls_same. Qed.

Lemma power_off_same h : same_but_world (set_alive false h) (py32_host_power_off h).
Proof. apply bt_disable_same. Qed.

Lemma tx_status_wf err (l : py32 W) :
  link_wf l → link_wf (py32_tx_status_frame err l).
Proof.
  intros Hwf. destruct (send_status_values err l) as [Hp Hr].
  { split; apply Hwf. }
  split; [done|done| |].
  - rewrite (send_status_parser err l : st_parser (py32_tx_status_frame err l) = _).
    apply Hwf.
  - rewrite (send_status_rx_log err l : st_rx_log (py32_tx_status_frame err l) = _).
    apply Hwf.
Qed.

Lemma rhythm_set_wf bands playing (l : py32 W) :
  link_wf l → length bands = 10%nat → bytes_ok bands →
  link_wf (py32_rhythm_set_data (Some bands) playing l).
Proof.
  intros [] Hlen Hb. split; try done. destruct link_wf_rhythm as [Hl Hbo].
  split; cbn [st_rhythm set_rhythm py32_rhythm_set_data rhythm_bands].
  - by rewrite length_memcpy.
  - apply bytes_ok_memcpy; [done|by apply Forall_take].
Qed.

Lemma reapply_wf (l : py32 W) : link_wf l → link_wf (system_app_py32_reapply_eq l).
Proof.
  intros Hwf. unfold system_app_py32_reapply_eq, py32_apply_treble_bass.
  destruct Hwf as [[] Hr Hp Hl].
  destruct (Z.ltb_spec 24 (treble (st_params l))); [lia|].
  destruct (Z.ltb_spec 24 (bass (st_params l))); [lia|]. cbn [orb]. cbv zeta.
  unfold py32_push_dynamic_peq. by destruct (media_player_present _).
Qed.

Lemma fold_push_wf late r :
  ring_wf r → Forall bytes_ok late → ring_wf (fold_left py32_rx_ring_push late r).
Proof.
  revert r. induction late as [|d late IH]; intros r Hr Hl; [done|].
  inversion Hl; subst. apply IH; [|done]. by apply py32_rx_ring_push_spec.
Qed.

Lemma k_sem_take_wf r : ring_wf r → ring_wf (k_sem_take r).
Proof. intros []. split; simpl; try done. zbool; lia. Qed.

(** A thread iteration returns, having fed the queued bytes. *)
Lemma thread_iteration_spec irqs now h :
  ring_wf (h_ring h) → Forall bytes_ok irqs →
  ∃ r' new,
    ring_wf r' ∧ bytes_ok new ∧
    (irqs = [] → new = ring_queue (h_ring h) ∧ ring_queue r' = []) ∧
    py32_uart_thread_iteration irqs now h = Some (py32_status_period now
      (let h1 := set_link (feed_bytes new (h_link h)) (set_ring r' h) in
       if 0 <? Z.of_nat (length new) then py32_host_on_rx_activity now h1 else h1)).
Proof.
  intros Hwf Hirq. unfold py32_uart_thread_iteration.
  destruct (drain_spec (drain_fuel irqs) irqs (set_ring (k_sem_take (h_ring h)) h) [])
    as (r' & new & used & late & n & -> & Hir & Hwf' & He & Hb & Hrun);
    [by apply k_sem_take_wf|done|apply drain_fuel_enough|].
  exists (fold_left py32_rx_ring_push late r'), new. split_and!; try done.
  - apply fold_push_wf; [done|]. rewrite Hir in Hirq. by apply Forall_app in Hirq as [_ ?].
  - intros ->. symmetry in Hir. apply app_eq_nil in Hir as [-> ->]. split; [|done].
    clear He Hwf'. cbn [h_ring set_ring drain_ops mbind list_bind app] in Hrun.
    change (ring_queue (k_sem_take (h_ring h))) with (ring_queue (h_ring h)) in Hrun.
    revert Hrun. generalize (ring_queue (h_ring h)) new.
    induction n as [|n IH]; intros q out; cbn [replicate run fifo_exec].
    { by intros [= -> <-]. }
    destruct q as [|b q]; cbn [fifo_pop].
    + destruct (run fifo_exec [] (replicate n RPop)) as [q' o] eqn:E.
      intros [= -> <-]. by apply IH in E.
    + destruct (run fifo_exec q (replicate n RPop)) as [q' o] eqn:E.
      intros [= -> <-]. apply IH in E. by subst.
Qed.

Lemma status_period_wf now h :
  host_wf (now, h) → host_wf (now, py32_status_period now h).
Proof.
  intros [Hl Hr Ha Hi Ht Hd]. unfold py32_status_period. cbv zeta.
  destruct (_ && _); [|by split]. split; try done; cbn in *.
  - by apply tx_status_wf.
  - unfold u32. apply Z.mod_pos_bound. lia.
Qed.

Lemma status_period_pc now h :
  h_pc (py32_status_period now h) = h_pc h ∧
  ∀ p, py32_status_period now (set_pc p h) = set_pc p (py32_status_period now h).
Proof. unfold py32_status_period. cbv zeta. split; [by destruct (_ && _)|]. intros p. cbn. by destruct (_ && _). Qed.

Lemma on_rx_activity_wf now h :
  link_wf (h_link h) → ring_wf (h_ring h) → 0 <= last_rhythm_tx_ms h < 4294967296 →
  (py32_uart_tid h = true → py32_uart_dev h = true ∧ drv_bound drv = true) →
  host_wf (now, py32_host_on_rx_activity now h) ∧
  py32_host_alive (py32_host_on_rx_activity now h) = true ∧
  py32_host_idle_work (py32_host_on_rx_activity now h)
    = Some (now + PY32_HOST_IDLE_TIMEOUT_MS).
Proof.
  intros Hl Hr Ht Hd. unfold py32_host_on_rx_activity. cbv zeta.
  destruct (py32_host_alive h) eqn:Ea; cbn [negb].
  - split; [|done]. split; try done; cbn; [by left|].
    intros d [= <-]. unfold PY32_HOST_IDLE_TIMEOUT_MS. lia.
  - destruct (power_on_same h) as [w ->]. split; [|done].
    split; cbn; try done; [by apply link_wf_set_world|by left|].
    intros d [= <-]. unfold PY32_HOST_IDLE_TIMEOUT_MS. lia.
Qed.

Lemma thread_step_wf now h irqs h' :
  host_wf (now, h) → Forall bytes_ok irqs →
  py32_uart_thread_iteration irqs now h = Some h' → host_wf (now, h').
Proof.
  intros [Hl Hr Ha Hi Ht Hd] Hirq.
  destruct (thread_iteration_spec irqs now h Hr Hirq) as (r' & new & Hr' & Hb & _ & ->).
  intros [= <-]. apply status_period_wf. cbv zeta.
  destruct (0 <? _).
  - apply on_rx_activity_wf; cbn in *; try done. by apply feed_bytes_wf.
  - split; cbn in *; try done. by apply feed_bytes_wf.
Qed.

Lemma do_init_wf now h :
  host_wf (now, h) → host_wf (now, py32_uart_do_init drv (set_init_work None h)).
Proof.
  intros [Hl Hr Ha Hi Ht Hd]. unfold py32_uart_do_init, py32_uart_dma_setup.
  cbv zeta. cbn [py32_uart_dev set_dev].
  assert (Hlink : link_wf (py32_parse_reset (set_params (mk_params 0 12 12 0 0) (h_link h)))).
  { destruct Hl as [_ Hrh [] Hlog]. split; [|done|by split|done]. split; cbn; lia. }
  destruct (drv_bound drv) eqn:Eb; cbn [negb].
  - assert (Hring : ring_wf (mk_rx_ring (py32_rx_ring (h_ring h)) 0 0
                               (py32_rx_wake (h_ring h)))).
    { destruct Hr. split; cbn; done || lia. }
    destruct (drv_recv_init drv =? 0) eqn:E1; cbn [negb];
      [|rewrite E1; by split].
    destruct (drv_recv_start drv =? 0) eqn:E2; cbn [negb];
      [|rewrite E2; by split].
    by split.
  - split; cbn in *; try done. intros E. destruct (Hd E) as [_ E']. congruence.
Qed.

(** One section of the thread. *)
Lemma thread_section_wf now h : host_wf (now, h) → host_wf (now, py32_thread_section now h).
Proof.
  intros Hwf. pose proof Hwf as [Hl Hr Ha Hi Ht Hd]. cbn [fst snd] in *. unfold py32_thread_section.
  destruct (h_pc h) eqn:Epc; cbn [submitting] in Ha.
  - split; cbn; try done. by apply k_sem_take_wf.
  - pose proof (rx_ring_pop_spec (h_ring h) Hr) as Hpop. destruct (rx_ring_pop (h_ring h)) as [[c r]|].
    + destruct Hpop as [Hr' Hq]. assert (Hc : is_u8 c).
      { pose proof (ring_queue_bytes _ Hr) as Hb. rewrite Hq in Hb. by inversion Hb. }
      split; cbn; try done. by apply (feed_bytes_wf [c] (h_link h)); [|constructor].
    + split; cbn; try done. intros E. destruct (Ha E); [by left|done].
  - split; cbn; try done. intros E. rewrite E. cbn. by right.
  - split; cbn; try done; try (by intros; right).
  - destruct (power_on_calls_same h) as [w ->]. split; cbn; try done; try (by intros; right). by apply link_wf_set_world.
  - split; cbn; try done; try (by intros; right).
  - split; cbn; try done; [by left|]. intros d [= <-]. unfold PY32_HOST_IDLE_TIMEOUT_MS. lia.
  - destruct (status_period_wf now h Hwf) as [Hl' Hr' Ha' Hi' Ht' Hd']. destruct (status_period_pc now h) as [Hp _]. cbn [fst snd] in *.
    rewrite Hp, Epc in Ha'. by split.
Qed.

Lemma host_step_wf st st' : host_wf st → host_step st st' → host_wf st'.
Proof.
  intros Hwf Hstep. destruct Hstep; try (by apply thread_section_wf);
    try (by apply do_init_wf); destruct Hwf as [Hl Hr Ha Hi Ht Hd]; cbn in *.
  - split; cbn; try done. by apply py32_rx_ring_push_spec.
  - split; cbn; try done. intros t E. specialize (Hi t E).
    destruct H0 as [Hdue _]. specialize (Hdue t E). lia.
  - unfold py32_host_idle_work_handler. cbn [py32_host_alive set_idle].
    destruct (py32_host_alive h) eqn:E; [|by split; cbn; rewrite ?E].
    destruct (power_off_same (set_idle None h)) as [w ->].
    split; cbn; try done. by apply link_wf_set_world.
  - unfold py32_log_init_banner. destruct (py32_init_banner_done h); by split.
  - split; cbn; try done. by apply tx_status_wf.
  - split; cbn; try done. by apply rhythm_set_wf.
  - split; cbn; try done. by apply reapply_wf.
  - split; cbn; try done. by apply link_wf_set_world.
Qed.

(** C30: In every state reached from a well-formed one, with the interrupt, the
    idle work and the rest of the firmware able to run between any two
    sections of the thread's loop, the link and the ring are well-formed, the
    worker thread exists only on a bound device, and while the host counts as
    alive the idle work is pending, at most ten seconds ahead, or the thread
    is on its way to submit it. *)
Theorem host_invariant st st' :
  host_wf st → steps host_step st st' →
  host_wf st' ∧
  (py32_host_alive st'.2 = true →
   (∃ d, py32_host_idle_work st'.2 = Some d ∧
         st'.1 <= d <= st'.1 + PY32_HOST_IDLE_TIMEOUT_MS) ∨
   submitting (h_pc st'.2) = true).
Proof.
  intros Hwf Hs. assert (Hwf' : host_wf st').
  { eapply (steps_invariant host_step host_wf); eauto using host_step_wf. }
  split; [done|]. intros E. destruct (host_wf_alive _ Hwf' E) as [[d Ed]|]; [left; exists d|by right].
  split; [done|]. by apply (host_wf_idle _ Hwf').
Qed.

(** Sections that run without an interruption are the loop body as written. *)
Fixpoint thread_sections (n : nat) (now : Z) h : host W :=
  match n with O => h | S n => thread_sections n now (py32_thread_section now h) end.

Lemma thread_sections_add n m now h : thread_sections (n + m) now h = thread_sections m now (thread_sections n now h).
Proof. revert h. induction n as [|n IH]; intros h; [done|]. apply IH. Qed.

Lemma power_on_calls_pc p h : power_on_calls (set_pc p h) = set_pc p (power_on_calls h).
Proof.
  assert (E : py32_host_bt_enable (set_pc p h) = set_pc p (py32_host_bt_enable h)).
  { unfold py32_host_bt_enable. cbn [set_pc h_link]. destruct (negb _); [done|]. cbv zeta. cbn. by destruct (bt_manager_power_on_setup _). }
  unfold power_on_calls. rewrite E. cbn. by destruct (desktop_plugin_is_br_music _).
Qed.

Lemma drain_sections now fuel : ∀ h fed h' fed' late,
  py32_uart_ring_drain fuel [] h fed = Some (h', fed', late) →
  late = [] ∧ ∃ n, thread_sections n now (set_pc (TDrain (length fed)) h) =
    set_pc (if 0 <? Z.of_nat (length fed') then TCheck else TStatus) h'.
Proof.
  induction fuel as [|fuel IH]; intros h fed h' fed' late; [done|]. cbn [py32_uart_ring_drain].
  destruct (rx_ring_pop (h_ring h)) as [[c r]|] eqn:E.
  - intros Hd. destruct (IH _ _ _ _ _ Hd) as (-> & n & Hn). split; [done|]. exists (S n). cbn [thread_sections].
    rewrite <- Hn. f_equal. unfold py32_thread_section. cbn [set_pc h_pc h_ring]. rewrite E, length_app. cbn [length].
    by replace (length fed + 1)%nat with (S (length fed)) by lia.
  - intros [= <- <- <-]. split; [done|]. exists 1%nat. cbn [thread_sections]. unfold py32_thread_section. cbn [set_pc h_pc h_ring]. rewrite E.
    by destruct h.
Qed.

Lemma activity_sections now h : ∃ n, thread_sections n now (set_pc TCheck h) = set_pc TStatus (py32_host_on_rx_activity now h).
Proof.
  unfold py32_host_on_rx_activity. destruct (py32_host_alive h) eqn:Ea.
  - assert (E1 : py32_thread_section now (set_pc TCheck h) = set_pc TCancel h) by (unfold py32_thread_section; cbn; by rewrite Ea).
    exists 3%nat. cbn [thread_sections]. by rewrite E1.
  - assert (E1 : py32_thread_section now (set_pc TCheck h) = set_pc TPowerOn h) by (unfold py32_thread_section; cbn; by rewrite Ea).
    assert (E3 : py32_thread_section now (set_pc TEnable (set_alive true h)) = set_pc TCancel (py32_host_power_on h)).
    { unfold py32_thread_section. cbn [set_pc h_pc]. by rewrite (power_on_calls_pc TEnable). }
    exists 5%nat. cbn [thread_sections]. rewrite E1. change (py32_thread_section now (set_pc TPowerOn h)) with (set_pc TEnable (set_alive true h)).
    by rewrite E3.
Qed.

Lemma thread_sections_run now h h' : h_pc h = TWait → py32_uart_thread_iteration [] now h = Some h' →
  ∃ n, thread_sections n now h = set_pc TWait h'.
Proof.
  intros Hpc. unfold py32_uart_thread_iteration. destruct (py32_uart_ring_drain _ _ _ _) as [[[h1 fed] late]|] eqn:Ed; [|done]. intros [= <-].
  destruct (drain_sections now _ _ _ _ _ _ Ed) as (-> & n & Hn). cbn [fold_left length] in *.
  assert (Hr : set_ring (h_ring h1) h1 = h1) by (by destruct h1). rewrite Hr.
  assert (Hs : thread_sections (S n) now h = set_pc (if 0 <? Z.of_nat (length fed) then TCheck else TStatus) h1).
  { cbn [thread_sections]. rewrite <- Hn. f_equal. unfold py32_thread_section. by rewrite Hpc. }
  assert (Hlast : ∀ h0, thread_sections 1 now (set_pc TStatus h0) = set_pc TWait (py32_status_period now h0)).
  { intros h0. cbn [thread_sections]. unfold py32_thread_section. cbn [h_pc set_pc]. rewrite (proj2 (status_period_pc now h0) TStatus).
    by destruct (py32_status_period now h0). }
  destruct (0 <? Z.of_nat (length fed)).
  - destruct (activity_sections now h1) as [m Hm]. exists (S n + (m + 1))%nat. by rewrite !thread_sections_add, Hs, Hm, Hlast.
  - exists (S n + 1)%nat. by rewrite thread_sections_add, Hs, Hlast.
Qed.

Lemma section_keeps now h :
  py32_uart_tid (py32_thread_section now h) = py32_uart_tid h ∧
  py32_init_banner_done (py32_thread_section now h) = py32_init_banner_done h.
Proof.
  unfold py32_thread_section. destruct (h_pc h); try done.
  - by destruct (rx_ring_pop (h_ring h)) as [[]|].
  - by destruct (power_on_calls_same h) as [w ->].
  - unfold py32_status_period. cbv zeta. by destruct (_ && _).
Qed.
Lemma thread_sections_steps n now h : py32_uart_tid h = true → py32_init_banner_done h = true →
  steps host_step (now, h) (now, thread_sections n now h).
Proof.
  revert h. induction n as [|n IH]; intros h Ht Hb; [apply steps_refl|]. eapply steps_cons; [by apply step_thread|].
  destruct (section_keeps now h) as [E1 E2]. apply IH; congruence.
Qed.

(** Bytes that arrive at the deadline: the thread has found the host alive when
    the idle work runs in between.  The host is then off although bytes were
    just received, with the idle work pending; it is switched on by the next
    bytes only. *)
Theorem host_activity_race now h :
  py32_uart_tid h = true → py32_init_banner_done h = true → py32_host_alive h = true →
  py32_host_idle_work h = Some now → h_pc h = TCheck →
  ∃ h', steps host_step (now, h) (now, h') ∧ py32_host_alive h' = false ∧
    py32_host_idle_work h' = Some (now + PY32_HOST_IDLE_TIMEOUT_MS) ∧ h_pc h' = TStatus.
Proof.
  intros Ht Hb Ha Hi Hp. set (h1 := py32_thread_section now h).
  assert (E1 : h1 = set_pc TCancel h) by (unfold h1, py32_thread_section; by rewrite Hp, Ha).
  set (h2 := py32_host_idle_work_handler (set_idle None h1)).
  assert (E2 : ∃ w, h2 = set_link w (set_alive false (set_idle None h1))).
  { unfold h2, py32_host_idle_work_handler. rewrite E1. cbn [py32_host_alive set_idle set_pc]. rewrite Ha.
    destruct (power_off_same (set_idle None (set_pc TCancel h))) as [w ->]. by eexists. }
  exists (thread_sections 2 now h2). split.
  - eapply steps_cons; [by apply step_thread|]. eapply steps_cons; [apply (step_idle now h1 now); [by rewrite E1|lia]|].
    apply thread_sections_steps; destruct E2 as [w ->]; by rewrite E1.
  - destruct E2 as [w ->]. by rewrite E1.
Qed.

(** A thread iteration always returns, whatever interrupts push while it
    drains; with bytes queued it leaves the host alive and the idle deadline
    ten seconds ahead, without bytes it leaves presence and deadline alone. *)
Theorem host_thread_iteration_total irqs st :
  host_wf st → Forall bytes_ok irqs →
  ∃ h', py32_uart_thread_iteration irqs st.1 st.2 = Some h' ∧ host_wf (st.1, h') ∧
    (irqs = [] → ring_queue (h_ring st.2) ≠ [] →
     py32_host_alive h' = true ∧
     py32_host_idle_work h' = Some (st.1 + PY32_HOST_IDLE_TIMEOUT_MS)) ∧
    (irqs = [] → ring_queue (h_ring st.2) = [] →
     py32_host_alive h' = py32_host_alive st.2 ∧
     py32_host_idle_work h' = py32_host_idle_work st.2).
Proof.
  destruct st as [now h]. cbn [fst snd]. intros Hwf Hirq.
  destruct (thread_iteration_spec irqs now h (host_wf_ring _ Hwf) Hirq)
    as (r' & new & Hr' & Hb & Hnew & E).
  eexists. split; [exact E|]. split; [by eapply thread_step_wf|].
  destruct Hwf as [Hl _ _ _ Ht Hd].
  assert (Hp : ∀ h0, py32_host_alive (py32_status_period now h0) = py32_host_alive h0 ∧
               py32_host_idle_work (py32_status_period now h0) = py32_host_idle_work h0).
  { intros h0. unfold py32_status_period. cbv zeta. by destruct (_ && _). }
  split; intros -> Hq; destruct (Hnew eq_refl) as [-> _]; cbv zeta;
    rewrite (proj1 (Hp _)), (proj2 (Hp _)).
  - destruct (ring_queue (h_ring h)) as [|b q] eqn:Eq; [done|].
    destruct (Z.ltb_spec 0 (Z.of_nat (length (b :: q)))); [|cbn [length] in *; lia].
    apply on_rx_activity_wf; cbn [h_link h_ring set_link set_ring snd] in *;
      try done. by apply feed_bytes_wf.
  - by rewrite Hq.
Qed.

(** Periodic status frames are at least 50 ms apart and are sent once 50 ms
    have passed, also across the wrap of the 32-bit uptime. *)
Theorem status_period_spacing now0 now h :
  link_wf (h_link h) → last_rhythm_tx_ms h = u32 now0 →
  now0 <= now < now0 + 4294967296 →
  py32_init_banner_done h = true → py32_host_alive h = true →
  let h' := py32_status_period now h in
  (now - now0 < PY32_RHYTHM_PERIOD_MS → h' = h) ∧
  (PY32_RHYTHM_PERIOD_MS <= now - now0 →
   tx_wire (st_tx (h_link h')) =
     tx_wire (st_tx (h_link h)) ++ status_frame PY32_ERR_NONE (h_link h) ∧
   last_rhythm_tx_ms h' = u32 now).
Proof.
  intros Hl Hlast Hnow Hb Ha h'. subst h'. unfold py32_status_period. cbv zeta.
  rewrite Hb, Ha, Hlast. cbn [andb].
  assert (Hd : u32 (u32 now - u32 now0) = now - now0).
  { unfold u32. rewrite <- Zminus_mod. apply Z.mod_small. lia. }
  rewrite Hd. destruct (Z.leb_spec PY32_RHYTHM_PERIOD_MS (now - now0)); split;
    intros; try done; try lia. split; [|done].
  cbn [h_link set_last_tx set_link]. rewrite py32_tx_status_frame_eq.
  apply py32_uart_tx_bytes_wire.
  destruct (status_frame_layout PY32_ERR_NONE (h_link h)) as [Hlen _];
    [apply Hl..|done|]. lia.
Qed.

(** When the idle deadline is reached the handler marks the host gone and
    makes the five Bluetooth calls stop-reconnect, end-pairing, disconnect,
    end-wait, hide in that order, without touching ring or wire. *)
Theorem host_idle_switches_off now h :
  py32_host_alive h = true → py32_host_idle_work h = Some now →
  bt_manager_is_inited (st_world (h_link h)) = true →
  let h' := py32_host_idle_work_handler (set_idle None h) in
  host_step (now, h) (now, h') ∧ system_app_py32_host_is_alive h' = false ∧
  py32_host_idle_work h' = None ∧ h_ring h' = h_ring h ∧
  tx_wire (st_tx (h_link h')) = tx_wire (st_tx (h_link h)) ∧
  st_world (h_link h') =
    fold_left (λ w c, bt_manager_call c w)
      [BtAutoReconnectStop; BtEndPairMode; BtDisconnectAllPhone; BtEndWaitConnect;
       BtSetUserVisual true false false 0] (st_world (h_link h)).
Proof.
  intros Ha Hi Hb h'. split; [by apply (step_idle now h now)|]. subst h'.
  unfold py32_host_idle_work_handler. cbn [py32_host_alive set_idle].
  rewrite Ha. unfold py32_host_power_off, py32_host_bt_disable.
  change (st_world (h_link (set_alive false (set_idle None h))))
    with (st_world (h_link h)). by rewrite Hb.
Qed.

(** *** Silence

    The steps that can be made while no byte arrives. *)
Inductive silent_step : system → system → Prop :=
  | silent_time now h d : 0 < d → works_due_by h (now + d) → silent_step (now, h) (now + d, h)
  | silent_idle now h d :
      py32_host_idle_work h = Some d → d <= now →
      silent_step (now, h) (now, py32_host_idle_work_handler (set_idle None h))
  | silent_init now h d :
      py32_uart_init_work h = Some d → d <= now →
      silent_step (now, h) (now, py32_uart_do_init drv (set_init_work None h))
  | silent_thread_start now h :
      py32_uart_tid h = true → silent_step (now, h) (now, py32_log_init_banner h)
  | silent_thread now h :
      py32_uart_tid h = true → py32_init_banner_done h = true →
      silent_step (now, h) (now, py32_thread_section now h)
  | silent_push_now now h :
      silent_step (now, h) (now, set_link (system_app_py32_uart_push_now (h_link h)) h)
  | silent_rhythm now h bands playing :
      length bands = 10%nat → bytes_ok bands →
      silent_step (now, h) (now, set_link (py32_rhythm_set_data (Some bands) playing (h_link h)) h)
  | silent_reapply now h :
      silent_step (now, h) (now, set_link (system_app_py32_reapply_eq (h_link h)) h)
  | silent_world now h f : silent_step (now, h) (now, on_world f h).

Lemma silent_host_step st st' : silent_step st st' → host_step st st'.
Proof.
  destruct 1 as [now h d H1 H2|now h d H1 H2|now h d H1 H2|now h H1|now h H1 H2|now h|now h b p H1 H2|now h|now h f].
  - by apply step_time.
  - by apply (step_idle now h d).
  - by apply (step_init now h d).
  - by apply step_thread_start.
  - by apply step_thread.
  - apply step_push_now.
  - by apply step_rhythm.
  - apply step_reapply.
  - apply step_world.
Qed.

(** The thread is outside [py32_host_on_rx_activity] and has no byte to tell it of. *)
Definition at_rest (p : thread_pc) : bool :=
  match p with TWait | TDrain 0 | TStatus => true | _ => false end.

(** Nothing queued, and the deadline is [D] or the host is off. *)
Definition waiting (D : Z) (st : system) : Prop :=
  host_wf st ∧ ring_queue (h_ring st.2) = [] ∧ at_rest (h_pc st.2) = true ∧
  (py32_host_idle_work st.2 = Some D ∨ py32_host_idle_work st.2 = None).

Lemma do_init_keeps_idle h :
  py32_host_idle_work (py32_uart_do_init drv h) = py32_host_idle_work h ∧
  py32_uart_init_work (py32_uart_do_init drv h) = py32_uart_init_work h ∧
  (ring_queue (h_ring h) = [] → ring_queue (h_ring (py32_uart_do_init drv h)) = []) ∧
  h_pc (py32_uart_do_init drv h) = h_pc h.
Proof.
  unfold py32_uart_do_init, py32_uart_dma_setup. cbv zeta. cbn [py32_uart_dev set_dev].
  destruct (drv_bound drv); cbn [negb]; [|done].
  destruct (drv_recv_init drv =? 0) eqn:E1; cbn [negb]; [|by rewrite E1].
  by destruct (drv_recv_start drv =? 0) eqn:E2; cbn [negb]; [|rewrite E2].
Qed.

Lemma idle_handler_off h :
  py32_host_idle_work (py32_host_idle_work_handler (set_idle None h)) = None ∧
  h_ring (py32_host_idle_work_handler (set_idle None h)) = h_ring h ∧
  h_pc (py32_host_idle_work_handler (set_idle None h)) = h_pc h ∧
  py32_host_alive (py32_host_idle_work_handler (set_idle None h)) = false.
Proof.
  unfold py32_host_idle_work_handler. cbn [py32_host_alive set_idle].
  destruct (py32_host_alive h) eqn:E; [|done]. by destruct (power_off_same (set_idle None h)) as [w ->].
Qed.

Lemma status_period_keeps now h :
  py32_host_idle_work (py32_status_period now h) = py32_host_idle_work h ∧
  h_ring (py32_status_period now h) = h_ring h.
Proof. unfold py32_status_period. cbv zeta. by destruct (_ && _). Qed.

Lemma waiting_step D st st' : waiting D st → silent_step st st' → waiting D st'.
Proof.
  intros (Hwf & Hq & Hp & Hi) Hs. pose proof (host_step_wf _ _ Hwf (silent_host_step _ _ Hs)) as Hwf'.
  split; [done|]. destruct Hs as [| | |now h|now h _ _| | | |]; try done; cbn [fst snd] in *.
  - destruct (idle_handler_off h) as (-> & -> & -> & _). auto.
  - destruct (do_init_keeps_idle (set_init_work None h)) as (-> & _ & Hr & ->). auto.
  - unfold py32_log_init_banner. by destruct (py32_init_banner_done h).
  - unfold py32_thread_section. pose proof (rx_ring_pop_spec (h_ring h) (host_wf_ring _ Hwf)) as Hpop.
    destruct (h_pc h) as [|[|n]| | | | | |]; try done.
    + destruct (rx_ring_pop (h_ring h)) as [[c r]|]; [|done]. destruct Hpop as [_ Hc]. by rewrite Hq in Hc.
    + cbn. destruct (status_period_keeps now h) as [-> ->]. done.
Qed.

Lemma waiting_alive D st : waiting D st → py32_host_alive st.2 = true → py32_host_idle_work st.2 = Some D ∧ host_wf st.
Proof.
  intros (Hwf & _ & Hp & Hi) Ha. split; [|done]. destruct (host_wf_alive _ Hwf Ha) as [[d E]|E].
  - rewrite E in *. destruct Hi as [[= ->]|?]; done.
  - by destruct (h_pc st.2) as [|[|]| | | | | |].
Qed.

(** The start-up work out of the way. *)
Lemma silent_init_done D st :
  waiting D st →
  ∃ st', steps silent_step st st' ∧ st'.1 <= Z.max st.1 D ∧
    ((py32_host_idle_work st'.2 = None ∨ py32_host_idle_work st'.2 = Some D) ∧
     (py32_host_idle_work st'.2 = Some D → ∀ e, py32_uart_init_work st'.2 = Some e → D <= e)).
Proof.
  destruct st as [now h]. intros (Hwf & Hq & _ & Hi). cbn [fst snd] in *.
  destruct (py32_uart_init_work h) as [e|] eqn:Ee.
  2: { exists (now, h). split; [apply steps_refl|]. cbn [fst snd]. rewrite Ee. split_and!; [lia|tauto|done]. }
  destruct (Z.le_gt_cases D e) as [Hle|Hgt].
  { exists (now, h). split; [apply steps_refl|]. cbn [fst snd]. rewrite Ee.
    split_and!; [lia|tauto|]. by intros _ ? [= <-]. }
  set (t := Z.max now e).
  exists (t, py32_uart_do_init drv (set_init_work None h)). cbn [fst snd].
  destruct (do_init_keeps_idle (set_init_work None h)) as (-> & -> & _).
  split; [|split_and!; [lia|cbn; tauto|done]].
  assert (Hfire : silent_step (t, h) (t, py32_uart_do_init drv (set_init_work None h))).
  { apply (silent_init t h e); [done|lia]. }
  destruct (Z.le_gt_cases e now) as [|Hlt].
  - assert (t = now) as Ht by lia. rewrite Ht in *. eapply steps_cons; [exact Hfire|apply steps_refl].
  - eapply steps_cons; [|eapply steps_cons; [exact Hfire|apply steps_refl]].
    replace t with (now + (e - now)) by lia. apply silent_time; [lia|]. split.
    + intros d Hd. destruct Hi as [Hi|Hi]; rewrite Hi in Hd; simplify_eq; lia.
    + intros d Hd. rewrite Ee in Hd. simplify_eq. lia.
Qed.

(** C31: Silence ends the session: once the ring is empty, the thread has dealt
    with what it read and no byte arrives, no run keeps the host alive past
    its idle deadline, at most ten seconds ahead, and from every state of such
    a run the switch-off is reached by that deadline, whatever the thread, the
    start-up work and the rest of the firmware do. *)
Theorem host_silence_switches_off now h D :
  host_wf (now, h) → ring_queue (h_ring h) = [] → at_rest (h_pc h) = true → py32_host_idle_work h = Some D →
  ∀ st, steps silent_step (now, h) st →
    (system_app_py32_host_is_alive st.2 = true → st.1 <= D <= now + PY32_HOST_IDLE_TIMEOUT_MS) ∧
    ∃ st', steps silent_step st st' ∧ st'.1 <= Z.max st.1 D ∧ system_app_py32_host_is_alive st'.2 = false.
Proof.
  intros Hwf Hq Hrest Hi st Hs.
  assert (Hwait : waiting D st).
  { apply (steps_invariant silent_step (waiting D) (waiting_step D) _ _ Hs). split_and!; auto. }
  pose proof (host_wf_idle _ Hwf _ Hi) as HD. cbn [fst] in HD. unfold system_app_py32_host_is_alive. split.
  - intros Ha. destruct (waiting_alive D st Hwait Ha) as [Hi' Hwf']. pose proof (host_wf_idle _ Hwf' _ Hi'). lia.
  - destruct (silent_init_done D st Hwait) as ([t h1] & H1 & Ht & Hi1 & Hinit). cbn [fst snd] in *.
    assert (Hw1 : waiting D (t, h1)) by (apply (steps_invariant silent_step (waiting D) (waiting_step D) _ _ H1 Hwait)).
    pose proof (waiting_alive D _ Hw1) as Hal. cbn [snd] in Hal. destruct Hw1 as (Hwf1 & _ & _). destruct Hi1 as [Hn|Hsome].
    { exists (t, h1). split_and!; [done|done|]. cbn [snd]. destruct (py32_host_alive h1); [|done]. destruct (Hal eq_refl). congruence. }
    destruct (host_wf_idle _ Hwf1 _ Hsome) as [HtD _]. cbn [fst] in HtD.
    exists (D, py32_host_idle_work_handler (set_idle None h1)). cbn [fst snd].
    destruct (idle_handler_off h1) as (_ & _ & _ & Hoff). split_and!; [|lia|exact Hoff].
    assert (Hfire : steps silent_step (D, h1) (D, py32_host_idle_work_handler (set_idle None h1))).
    { eapply steps_cons; [apply (silent_idle D h1 D); [done|lia]|apply steps_refl]. }
    eapply steps_trans; [exact H1|]. destruct (decide (t = D)) as [->|Hne]; [exact Hfire|].
    eapply steps_cons; [|exact Hfire]. replace D with (t + (D - t)) by lia. apply silent_time; [lia|]. split.
    + intros d Hd. rewrite Hsome in Hd. simplify_eq. lia.
    + intros d Hd. specialize (Hinit Hsome d Hd). lia.
Qed.

(** Initialisation starts the thread exactly when the device is bound and
    both DMA calls succeed, after the driver calls in the documented order; a
    failed receive initialisation never starts the DMA; parameters and machine
    are at their defaults on every path. *)
Theorem py32_uart_do_init_spec h :
  py32_uart_tid h = false →
  let h' := py32_uart_do_init drv h in
  (py32_uart_tid h' = true ↔
     drv_bound drv = true ∧ drv_recv_init drv = 0 ∧ drv_recv_start drv = 0) ∧
  (py32_uart_tid h' = true →
     h_uart_calls h' = h_uart_calls h ++
       [TxPinmux; FifoSwitch true false; IrqTxDisable; FifoSwitch false true;
        IrqTxDisable; DmaRecvInit; DmaRecvConfig 256; DmaRecvTimeoutStart;
        DmaRecvStart] ∧
     ring_queue (h_ring h') = []) ∧
  (drv_recv_init drv ≠ 0 → DmaRecvStart ∉ h_uart_calls h →
     DmaRecvStart ∉ h_uart_calls h') ∧
  st_params (h_link h') = py32_state_init ∧
  parse_state (st_parser (h_link h')) = PY32_RX_ADDR.
Proof.
  intros Htid h'. subst h'. unfold py32_uart_do_init, py32_uart_dma_setup. cbv zeta.
  cbn [py32_uart_dev set_dev]. destruct (drv_bound drv); cbn [negb].
  2:{ cbn. split_and!; try done; [split; [congruence|by intros (? & _)]|congruence]. }
  destruct (Z.eqb_spec (drv_recv_init drv) 0) as [E1|E1]; cbn [negb].
  2:{ destruct (Z.eqb_spec (drv_recv_init drv) 0); [done|]. cbn.
      split_and!; try done; [split; [congruence|tauto]|congruence|].
      intros _ Hn. rewrite <- !app_assoc. rewrite not_elem_of_app. split; [done|].
      cbn. rewrite !not_elem_of_cons. split_and!; try done. apply not_elem_of_nil. }
  destruct (Z.eqb_spec (drv_recv_start drv) 0) as [E2|E2]; cbn [negb].
  2:{ destruct (Z.eqb_spec (drv_recv_start drv) 0); [done|]. cbn.
      split_and!; try done; [split; [congruence|tauto]|congruence]. }
  cbn. rewrite <- !app_assoc. split_and!; try done.
Qed.
End host_system.

(** ** A concrete system *)

Definition sim_driver : uart_driver := mk_uart_driver true (λ _ _, 0) 0 0.

(** After initialisation, with four bytes queued. *)
Definition sim_host : host sim_world :=
  mk_host sim_init (py32_rx_ring_push rx_ring_init [1; 16; 4; 50]) false None
    true 0 0 0 true true None [] TWait.

Lemma sim_host_wf : host_wf sim_driver (0, sim_host).
Proof.
  split; try done.
  - apply sim_init_wf.
  - apply py32_rx_ring_push_spec; [apply ring_init_wf|by_bytes].
Qed.

(** A silent second, then the thread drains four bytes and is about to enable
    Bluetooth: alive, with the idle work to be submitted. *)
Lemma host_invariant_witness :
  let st := (1000, thread_sections 8 1000 sim_host) in
  host_wf sim_driver st ∧ py32_host_alive st.2 = true ∧
  ((∃ d, py32_host_idle_work st.2 = Some d ∧ st.1 <= d <= st.1 + PY32_HOST_IDLE_TIMEOUT_MS) ∨ submitting (h_pc st.2) = true).
Proof.
  intros st. destruct (host_invariant sim_driver (0, sim_host) st sim_host_wf) as [Hwf Ha].
  - eapply steps_cons; [apply (step_time sim_driver 0 sim_host 1000); [lia|by split]|]. apply thread_sections_steps; reflexivity.
  - assert (E : py32_host_alive st.2 = true) by (vm_compute; reflexivity). split; [exact Hwf|]. split; [exact E|exact (Ha E)].
Defined.

Lemma host_thread_iteration_total_witness :
  ∃ h', py32_uart_thread_iteration [] 0 sim_host = Some h' ∧
        py32_host_alive h' = true.
Proof.
  destruct (host_thread_iteration_total sim_driver [] (0, sim_host) sim_host_wf)
    as (h' & E & _ & Ha & _); [constructor|].
  exists h'. split; [exact E|].
  apply Ha; [reflexivity|]. vm_compute. discriminate.
Defined.

Definition sim_alive_host : host sim_world :=
  py32_host_on_rx_activity 4294967290 (set_last_tx 4294967290 sim_host).

Lemma status_period_spacing_witness :
  last_rhythm_tx_ms (py32_status_period 4294967340 sim_alive_host) = u32 4294967340.
Proof.
  apply (status_period_spacing 4294967290 4294967340 sim_alive_host);
    unfold PY32_RHYTHM_PERIOD_MS; try lia; try reflexivity.
  apply (host_wf_link sim_driver (4294967290, sim_alive_host)).
  apply on_rx_activity_wf; [apply sim_init_wf|apply sim_host_wf|cbn; lia|done].
Defined.

Lemma host_idle_switches_off_witness :
  system_app_py32_host_is_alive
    (py32_host_idle_work_handler
       (set_idle None (py32_host_on_rx_activity (-10000) sim_host))) = false.
Proof.
  apply (host_idle_switches_off sim_driver 0
           (py32_host_on_rx_activity (-10000) sim_host)); reflexivity.
Defined.

Lemma py32_uart_do_init_spec_witness :
  py32_uart_tid (py32_uart_do_init sim_driver (set_tid false sim_host)) = true.
Proof.
  apply (py32_uart_do_init_spec sim_driver (set_tid false sim_host)); [reflexivity|].
  split; [reflexivity|split; reflexivity].
Defined.

(** A host that spoke at time 0 and then nothing: off by ten seconds. *)
Lemma host_silence_switches_off_witness :
  ∃ st', steps (silent_step sim_driver) (0, py32_host_on_rx_activity 0 (set_ring rx_ring_init sim_host)) st' ∧
    st'.1 <= 10000 ∧ system_app_py32_host_is_alive st'.2 = false.
Proof.
  destruct (host_silence_switches_off sim_driver 0 (py32_host_on_rx_activity 0 (set_ring rx_ring_init sim_host)) 10000)
    with (st := (0, py32_host_on_rx_activity 0 (set_ring rx_ring_init sim_host))) as (_ & st' & H1 & H2 & H3).
  - apply on_rx_activity_wf; [apply sim_init_wf|apply ring_init_wf|cbn; lia|done].
  - reflexivity.
  - reflexivity.
  - reflexivity.
  - apply steps_refl.
  - exists st'. split_and!; [exact H1|cbn in H2; lia|exact H3].
Defined.
