(* ===== verification/ActsRingbuf.v ===== *)
(** * The byte ring buffer of the audio pipeline

    ext/actions/base/utils/acts_ringbuf/acts_ringbuf.c and the inline
    functions of acts_ringbuf.h: free-running 64-bit head and tail, the index
    into the buffer by mask when the size is a power of two and by remainder
    otherwise.  Every operation is shown to act on the bytes between head and
    tail as on a bounded queue, whichever way the index is computed. *)

From stdpp Require Import base numbers list option.
From S2P Require Import Prelude.
Local Open Scope Z_scope.

(** [struct acts_ringbuf]; [cpu_buf] is the memory at [cpu_ptr], and an
    address into it is an offset.  The DSP's view [dsp_ptr] is not used by
    these functions. *)
Record acts_ringbuf := mk_ringbuf {
  head : Z;
  tail : Z;
  rb_size : Z;
  mask : Z;
  cpu_buf : list Z;
}.

(** [is_power_of_two] of include/misc/util.h *)
Definition is_power_of_two (x : Z) : bool :=
  negb (x =? 0) && (Z.land x (u32 (x - 1)) =? 0).

(** [acts_ringbuf_init] *)
Definition acts_ringbuf_init (data : list Z) (size : Z) : acts_ringbuf :=
  mk_ringbuf 0 0 size (if is_power_of_two size then u32 (size - 1) else 0) data.

(** [buf->mask ? (x & buf->mask) : (x % buf->size)] *)
Definition rb_offset (b : acts_ringbuf) (x : Z) : Z :=
  if mask b =? 0 then u32 (x mod rb_size b) else u32 (Z.land x (mask b)).

(** acts_ringbuf.h *)
Definition acts_ringbuf_size (b : acts_ringbuf) : Z := rb_size b.
Definition acts_ringbuf_length (b : acts_ringbuf) : Z := u32 (u64 (tail b - head b)).
Definition acts_ringbuf_space (b : acts_ringbuf) : Z :=
  u32 (u64 (rb_size b - u64 (tail b - head b))).
Definition acts_ringbuf_is_empty (b : acts_ringbuf) : bool := head b =? tail b.
Definition acts_ringbuf_is_full (b : acts_ringbuf) : bool :=
  rb_size b =? u64 (tail b - head b).
Definition acts_ringbuf_is_half_empty (b : acts_ringbuf) : bool :=
  u64 (tail b - head b) <=? Z.shiftr (rb_size b) 1.
Definition acts_ringbuf_is_half_full (b : acts_ringbuf) : bool :=
  Z.shiftr (rb_size b) 1 <=? u64 (tail b - head b).
Definition acts_ringbuf_reset (b : acts_ringbuf) : acts_ringbuf :=
  mk_ringbuf 0 0 (rb_size b) (mask b) (cpu_buf b).
Definition acts_ringbuf_head_offset (b : acts_ringbuf) : Z := rb_offset b (head b).
Definition acts_ringbuf_tail_offset (b : acts_ringbuf) : Z := rb_offset b (tail b).

Definition set_head (h : Z) (b : acts_ringbuf) : acts_ringbuf :=
  mk_ringbuf h (tail b) (rb_size b) (mask b) (cpu_buf b).
Definition set_tail (t : Z) (b : acts_ringbuf) : acts_ringbuf :=
  mk_ringbuf (head b) t (rb_size b) (mask b) (cpu_buf b).
Definition set_buf (d : list Z) (b : acts_ringbuf) : acts_ringbuf :=
  mk_ringbuf (head b) (tail b) (rb_size b) (mask b) d.

(** [size] bytes from [offset], the part beyond the end from the start: the
    two [memcpy] of [acts_ringbuf_peek]. *)
Definition rb_copy_out (b : acts_ringbuf) (offset size : Z) : list Z :=
  let len := rb_size b - offset in
  if size <=? len then slice (cpu_buf b) (Z.to_nat offset) (Z.to_nat size)
  else slice (cpu_buf b) (Z.to_nat offset) (Z.to_nat len)
       ++ slice (cpu_buf b) 0 (Z.to_nat (size - len)).

(** The two [memcpy] of [acts_ringbuf_put] (the [memset] of
    [acts_ringbuf_fill] with constant data). *)
Definition rb_copy_in (b : acts_ringbuf) (offset size : Z) (data : list Z) : list Z :=
  let len := rb_size b - offset in
  if size <=? len
  then memcpy (cpu_buf b) (Z.to_nat offset) (take (Z.to_nat size) data)
  else memcpy (memcpy (cpu_buf b) (Z.to_nat offset) (take (Z.to_nat len) data))
         0 (take (Z.to_nat (size - len)) (drop (Z.to_nat len) data)).

(** [acts_ringbuf_peek]: the number of bytes, and what was stored at [data]
    (the caller ignores it when [data] is null). *)
Definition acts_ringbuf_peek (b : acts_ringbuf) (size : Z) : Z * list Z :=
  if acts_ringbuf_length b <? size then (0, [])
  else (size, rb_copy_out b (rb_offset b (head b)) size).

(** [acts_ringbuf_get] *)
Definition acts_ringbuf_get (b : acts_ringbuf) (size : Z) : Z * list Z * acts_ringbuf :=
  let '(size, out) := acts_ringbuf_peek b size in
  (size, out, set_head (u64 (head b + size)) b).

(** [acts_ringbuf_get_claim]: the offset stored in [*data], the size. *)
Definition acts_ringbuf_get_claim (b : acts_ringbuf) (size : Z) : Z * Z :=
  let offset := rb_offset b (head b) in
  let max_size := Z.min (u32 (rb_size b - offset)) (acts_ringbuf_length b) in
  (offset, if size <=? max_size then size else max_size).

(** [acts_ringbuf_get_finish] *)
Definition acts_ringbuf_get_finish (b : acts_ringbuf) (size : Z) : Z * acts_ringbuf :=
  let offset := rb_offset b (head b) in
  let max_size := Z.min (u32 (rb_size b - offset)) (acts_ringbuf_length b) in
  if max_size <? size then (- EINVAL, b)
  else (0, set_head (u64 (head b + size)) b).

(** [acts_ringbuf_put]; null data ([None]) only moves the tail. *)
Definition acts_ringbuf_put (b : acts_ringbuf) (data : option (list Z)) (size : Z)
    : Z * acts_ringbuf :=
  if acts_ringbuf_space b <? size then (0, b)
  else
    let b' := match data with
              | Some d => set_buf (rb_copy_in b (rb_offset b (tail b)) size d) b
              | None => b
              end in
    (size, set_tail (u64 (tail b + size)) b').

(** [acts_ringbuf_put_claim], [acts_ringbuf_put_finish] *)
Definition acts_ringbuf_put_claim (b : acts_ringbuf) (size : Z) : Z * Z :=
  let offset := rb_offset b (tail b) in
  let max_size := Z.min (u32 (rb_size b - offset)) (acts_ringbuf_space b) in
  (offset, if size <=? max_size then size else max_size).

Definition acts_ringbuf_put_finish (b : acts_ringbuf) (size : Z) : Z * acts_ringbuf :=
  let offset := rb_offset b (tail b) in
  let max_size := Z.min (u32 (rb_size b - offset)) (acts_ringbuf_space b) in
  if max_size <? size then (- EINVAL, b)
  else (0, set_tail (u64 (tail b + size)) b).

(** The [do ... while (1)] of [acts_ringbuf_copy]: the destination memory. *)
Fixpoint rb_copy_loop (fuel : nat) (dst src : acts_ringbuf) (buf : list Z)
    (src_offset dst_offset size : Z) : option (list Z) :=
  match fuel with
  | O => None
  | S fuel' =>
      let len := Z.min (u32 (rb_size src - src_offset)) (u32 (rb_size dst - dst_offset)) in
      let len := if size <? len then size else len in
      let buf := memcpy buf (Z.to_nat dst_offset)
                   (slice (cpu_buf src) (Z.to_nat src_offset) (Z.to_nat len)) in
      let size := size - len in
      if size =? 0 then Some buf
      else
        let src_offset := src_offset + len in
        let src_offset := if rb_size src <=? src_offset then 0 else src_offset in
        let dst_offset := dst_offset + len in
        let dst_offset := if rb_size dst <=? dst_offset then 0 else dst_offset in
        rb_copy_loop fuel' dst src buf src_offset dst_offset size
  end.

(** [acts_ringbuf_copy]: three rounds are enough, each but the last ends at
    the end of one of the two buffers (see [rb_copy_loop_spec]). *)
Definition acts_ringbuf_copy (dst src : acts_ringbuf) (size : Z)
    : option (Z * acts_ringbuf * acts_ringbuf) :=
  let src_length := acts_ringbuf_length src in
  let dst_space := acts_ringbuf_space dst in
  let size := if src_length <? size then src_length else size in
  let size := if dst_space <? size then dst_space else size in
  if size =? 0 then Some (0, dst, src)
  else
    match rb_copy_loop 3 dst src (cpu_buf dst) (rb_offset src (head src))
            (rb_offset dst (tail dst)) size with
    | None => None
    | Some buf => Some (size, set_tail (u64 (tail dst + size)) (set_buf buf dst),
                        set_head (u64 (head src + size)) src)
    end.

(** The user-supplied stream: [S] is its state; writing takes the bytes,
    reading delivers some; the result is a count or an error. *)
Section stream.
Context {S : Type} (stream_write : S → list Z → Z * S).
Context (stream_read : S → Z → Z * list Z * S).

(** [acts_ringbuf_read] *)
Definition acts_ringbuf_read (b : acts_ringbuf) (stream : S) (size : Z)
    : Z * acts_ringbuf * S :=
  if acts_ringbuf_length b <? size then (0, b, stream)
  else
    let offset := rb_offset b (head b) in
    let len := u32 (rb_size b - offset) in
    let '(stream_len, stream) :=
      if size <=? len then
        stream_write stream (slice (cpu_buf b) (Z.to_nat offset) (Z.to_nat size))
      else
        let '(stream_len, stream) :=
          stream_write stream (slice (cpu_buf b) (Z.to_nat offset) (Z.to_nat len)) in
        if stream_len =? len then
          let '(tmp, stream) :=
            stream_write stream (slice (cpu_buf b) 0 (Z.to_nat (size - len))) in
          (if 0 <? tmp then stream_len + tmp else stream_len, stream)
        else (stream_len, stream) in
    if 0 <? stream_len then
      (stream_len, set_head (u64 (head b + stream_len)) b, stream)
    else (0, b, stream).

(** [acts_ringbuf_write]: the callback stores its bytes at the address it
    is given. *)
Definition acts_ringbuf_write (b : acts_ringbuf) (stream : S) (size : Z)
    : Z * acts_ringbuf * S :=
  if acts_ringbuf_space b <? size then (0, b, stream)
  else
    let offset := rb_offset b (tail b) in
    let len := u32 (rb_size b - offset) in
    let '(stream_len, buf, stream) :=
      if size <=? len then
        let '(n, d, stream) := stream_read stream size in
        (n, memcpy (cpu_buf b) (Z.to_nat offset) d, stream)
      else
        let '(n, d, stream) := stream_read stream len in
        let buf := memcpy (cpu_buf b) (Z.to_nat offset) d in
        if n =? len then
          let '(tmp, d, stream) := stream_read stream (size - len) in
          (if 0 <? tmp then n + tmp else n, memcpy buf 0 d, stream)
        else (n, buf, stream) in
    let b := set_buf buf b in
    if 0 <? stream_len then
      (stream_len, set_tail (u64 (tail b + stream_len)) b, stream)
    else (0, b, stream).
End stream.

(** [acts_ringbuf_drop], [acts_ringbuf_drop_all] *)
Definition acts_ringbuf_drop (b : acts_ringbuf) (size : Z) : Z * acts_ringbuf :=
  if acts_ringbuf_length b <? size then (0, b)
  else (size, set_head (u64 (head b + size)) b).

Definition acts_ringbuf_drop_all (b : acts_ringbuf) : Z * acts_ringbuf :=
  let length := acts_ringbuf_length b in
  (length, set_head (u64 (head b + length)) b).

(** [acts_ringbuf_fill], [acts_ringbuf_fill_none] *)
Definition acts_ringbuf_fill (b : acts_ringbuf) (c size : Z) : Z * acts_ringbuf :=
  if acts_ringbuf_space b <? size then (0, b)
  else
    let buf := rb_copy_in b (rb_offset b (tail b)) size
                 (replicate (Z.to_nat size) c) in
    (size, set_tail (u64 (tail b + size)) (set_buf buf b)).

Definition acts_ringbuf_fill_none (b : acts_ringbuf) (size : Z) : Z * acts_ringbuf :=
  if acts_ringbuf_space b <? size then (0, b)
  else (size, set_tail (u64 (tail b + size)) b).

(** [acts_ringbuf_head_ptr], [acts_ringbuf_tail_ptr] *)
Definition acts_ringbuf_head_ptr (b : acts_ringbuf) : Z * Z :=
  acts_ringbuf_get_claim b (acts_ringbuf_length b).
Definition acts_ringbuf_tail_ptr (b : acts_ringbuf) : Z * Z :=
  acts_ringbuf_put_claim b (acts_ringbuf_space b).

(** The library's [memcpy] (lib/libc/minimal/source/string/string.c) copies
    upwards byte by byte; with overlapping areas that is visible. *)
Fixpoint memcpy_up (m : list Z) (dst src : nat) (n : nat) : list Z :=
  match n with
  | O => m
  | S n' => memcpy_up (<[dst := default 0 (m !! src)]> m) (S dst) (S src) n'
  end.

(** [acts_ringbuf_defrag]; the new tail is a sum of two [uint32_t]. *)
Definition acts_ringbuf_defrag (b : acts_ringbuf) : acts_ringbuf :=
  let roff := rb_offset b (head b) in
  let woff := rb_offset b (tail b) in
  let out_exit b := set_head 0 (set_tail (u64 (tail b - head b)) b) in
  if (roff =? 0) || acts_ringbuf_is_empty b then out_exit b
  else if woff <=? roff then
    set_head roff (set_tail (u32 (woff + rb_size b)) b)
  else
    out_exit (set_buf (memcpy_up (cpu_buf b) 0 (Z.to_nat roff)
                         (Z.to_nat (woff - roff))) b).

(** The heap as these functions use it: whether the next requests succeed,
    and how many blocks are out. *)
Record mem := mk_mem { mem_answers : list bool; mem_live : Z }.

Definition mem_malloc (m : mem) : bool * mem :=
  match mem_answers m with
  | true :: rest => (true, mk_mem rest (mem_live m + 1))
  | false :: rest => (false, mk_mem rest (mem_live m))
  | [] => (false, m)
  end.
Definition mem_free (m : mem) : mem := mk_mem (mem_answers m) (mem_live m - 1).

(** [acts_ringbuf_init_ext], [acts_ringbuf_destroy_ext] *)
Definition acts_ringbuf_init_ext (data : list Z) (size : Z) (m : mem)
    : option acts_ringbuf * mem :=
  let '(ok, m) := mem_malloc m in
  (if ok then Some (acts_ringbuf_init data size) else None, m).

Definition acts_ringbuf_destroy_ext (b : option acts_ringbuf) (m : mem) : mem :=
  match b with Some _ => mem_free m | None => m end.

(** [acts_ringbuf_alloc]; [garbage] is what the new data block contains. *)
Definition acts_ringbuf_alloc (size : Z) (garbage : list Z) (m : mem)
    : option acts_ringbuf * mem :=
  let '(ok, m) := mem_malloc m in
  if negb ok then (None, m)
  else
    let '(ok, m) := mem_malloc m in
    if negb ok then (None, mem_free m)
    else (Some (acts_ringbuf_init garbage size), m).

(** [acts_ringbuf_free] *)
Definition acts_ringbuf_free (b : option acts_ringbuf) (m : mem) : mem :=
  match b with Some _ => mem_free (mem_free m) | None => m end.

(** ** Index computation *)

Lemma is_power_of_two_pow x :
  0 < x < 4294967296 → is_power_of_two x = true → x = 2 ^ Z.log2 x.
Proof.
  intros Hx H. unfold is_power_of_two in H.
  apply andb_true_iff in H as [_ H]. apply Z.eqb_eq in H.
  rewrite u32_id in H by lia.
  destruct (Z.log2_spec x ltac:(lia)) as [Hlo Hhi].
  destruct (decide (x = 2 ^ Z.log2 x)) as [|Hne]; [done|]. exfalso.
  assert (Hb : Z.testbit (x - 1) (Z.log2 x) = true).
  { rewrite <- (Z.log2_unique (x - 1) (Z.log2 x)); [|apply Z.log2_nonneg|lia].
    apply Z.bit_log2. pose proof (Z.pow_pos_nonneg 2 (Z.log2 x) ltac:(lia)
      (Z.log2_nonneg x)). lia. }
  apply (f_equal (λ z, Z.testbit z (Z.log2 x))) in H.
  rewrite Z.land_spec, Hb, Z.bit_log2, Z.bits_0 in H by lia. done.
Qed.

(** Masking with [2^k - 1] is the remainder. *)
Lemma land_mask_mod x size :
  0 < size < 4294967296 → is_power_of_two size = true →
  Z.land x (size - 1) = x mod size.
Proof.
  intros Hs Hp. rewrite (is_power_of_two_pow size Hs Hp).
  rewrite <- Z.land_ones by apply Z.log2_nonneg.
  f_equal. rewrite Z.ones_equiv. lia.
Qed.

(** ** Well-formed buffers and their contents *)

Record rb_wf (b : acts_ringbuf) : Prop := {
  rb_wf_size : 0 < rb_size b < 4294967296;
  rb_wf_len : Z.of_nat (length (cpu_buf b)) = rb_size b;
  rb_wf_head : 0 <= head b <= tail b;
  rb_wf_fill : tail b - head b <= rb_size b;
  rb_wf_tail : tail b < 18446744073709551616;
  rb_wf_mask : mask b = if is_power_of_two (rb_size b) then rb_size b - 1 else 0;
}.

(** [n] bytes of a circular buffer from position [start]. *)
Definition circ (m : list Z) (size start n : Z) : list Z :=
  (λ k, getb m ((start + k) mod size)) <$> seqZ 0 n.

Definition rb_queue (b : acts_ringbuf) : list Z :=
  circ (cpu_buf b) (rb_size b) (head b) (tail b - head b).

(** The mask and the remainder compute the same index. *)
Lemma rb_offset_mod b x : rb_wf b → rb_offset b x = x mod rb_size b.
Proof.
  intros [Hs _ _ _ _ Hm]. unfold rb_offset. rewrite Hm.
  pose proof (Z.mod_pos_bound x (rb_size b) ltac:(lia)).
  destruct (is_power_of_two (rb_size b)) eqn:Ep.
  - destruct (Z.eqb_spec (rb_size b - 1) 0) as [E|E].
    + apply u32_id. lia.
    + rewrite land_mask_mod by done. apply u32_id. lia.
  - apply u32_id. lia.
Qed.

Lemma rb_length_eq b : rb_wf b → acts_ringbuf_length b = tail b - head b.
Proof.
  intros []. unfold acts_ringbuf_length. rewrite u64_id by lia. apply u32_id. lia.
Qed.

Lemma rb_space_eq b : rb_wf b → acts_ringbuf_space b = rb_size b - (tail b - head b).
Proof.
  intros []. unfold acts_ringbuf_space. rewrite (u64_id (tail b - head b)) by lia.
  rewrite u64_id by lia. apply u32_id. lia.
Qed.

Lemma acts_ringbuf_init_wf data size :
  0 < size < 4294967296 → Z.of_nat (length data) = size →
  rb_wf (acts_ringbuf_init data size) ∧ rb_queue (acts_ringbuf_init data size) = [].
Proof.
  intros Hs Hl. split; [|done]. split; cbn; try lia; try done.
  by rewrite u32_id by lia.
Qed.

(** *** Circular ranges *)

Lemma length_circ m size start n : length (circ m size start n) = Z.to_nat n.
Proof. unfold circ. by rewrite length_fmap, length_seqZ. Qed.

Lemma circ_app m size start a b :
  0 <= a → 0 <= b → circ m size start (a + b) = circ m size start a ++ circ m size (start + a) b.
Proof.
  intros. unfold circ. rewrite seqZ_app, fmap_app by lia. f_equal.
  replace (seqZ (0 + a) b) with (Z.add a <$> seqZ 0 b)
    by (rewrite fmap_add_seqZ; f_equal; lia).
  rewrite <- list_fmap_compose. apply list_fmap_ext.
  intros _ k _. cbn. do 2 f_equal. lia.
Qed.

Lemma circ_ext m m' size start n :
  (∀ k, 0 <= k < n → getb m ((start + k) mod size) = getb m' ((start + k) mod size)) →
  circ m size start n = circ m' size start n.
Proof.
  intros H. unfold circ. apply list_fmap_ext.
  intros _ k Hk%list_elem_of_lookup_2%elem_of_seqZ. apply H. lia.
Qed.

Lemma circ_start_mod m size start n :
  0 < size → circ m size (start mod size) n = circ m size start n.
Proof.
  intros. unfold circ. apply list_fmap_ext. intros _ k _. f_equal.
  by rewrite Zplus_mod_idemp_l.
Qed.

(** A range that does not wrap is a slice. *)
Lemma circ_slice m size start n :
  Z.of_nat (length m) = size → 0 <= start → 0 <= n → start + n <= size →
  circ m size start n = slice m (Z.to_nat start) (Z.to_nat n).
Proof.
  intros Hl Hs Hn Hb. apply (list_eq_same_length _ _ (Z.to_nat n)).
  - rewrite length_slice; [done|lia].
  - by rewrite length_circ.
  - intros i x y Hi Hx Hy. rewrite lookup_slice in Hy by done.
    unfold circ in Hx. rewrite list_lookup_fmap, lookup_seqZ_lt in Hx by lia.
    injection Hx as <-. unfold getb. rewrite Z.mod_small by lia.
    replace (Z.to_nat (start + (0 + Z.of_nat i))) with (Z.to_nat start + i)%nat by lia.
    by rewrite Hy.
Qed.

(** The two copies out of the buffer are the circular range. *)
Lemma rb_copy_out_circ b start n :
  rb_wf b → 0 <= start → 0 <= n <= rb_size b →
  rb_copy_out b (start mod rb_size b) n = circ (cpu_buf b) (rb_size b) start n.
Proof.
  intros [Hs Hl _ _ _ _] Hst Hn. unfold rb_copy_out.
  pose proof (Z.mod_pos_bound start (rb_size b) ltac:(lia)) as Hm.
  rewrite <- (circ_start_mod _ _ start) by lia.
  set (o := start mod rb_size b) in *.
  destruct (Z.leb_spec n (rb_size b - o)).
  - by rewrite circ_slice by lia.
  - replace n with ((rb_size b - o) + (n - (rb_size b - o))) at 2 by lia.
    rewrite circ_app by lia. rewrite circ_slice by lia. f_equal.
    rewrite <- (circ_start_mod _ _ (o + _)) by lia.
    replace (o + (rb_size b - o)) with (0 + 1 * rb_size b) by lia.
    rewrite Z.mod_add, Z.mod_0_l by lia. by rewrite circ_slice by lia.
Qed.

Lemma length_rb_copy_in b o n d : length (rb_copy_in b o n d) = length (cpu_buf b).
Proof. unfold rb_copy_in. case_match; by rewrite !length_memcpy. Qed.

(** Every cell after the two copies into the buffer. *)
Lemma rb_copy_in_lookup b o n d j :
  rb_wf b → 0 <= o < rb_size b → 0 <= n <= rb_size b → n <= Z.of_nat (length d) →
  0 <= j < rb_size b →
  getb (rb_copy_in b o n d) j =
  if (j - o) mod rb_size b <? n then getb d ((j - o) mod rb_size b)
  else getb (cpu_buf b) j.
Proof.
  intros [Hs Hl _ _ _ _] Ho Hn Hd Hj. rewrite mod_two_periods by lia.
  unfold rb_copy_in. destruct (Z.leb_spec n (rb_size b - o)).
  - rewrite getb_memcpy; [|rewrite length_take; lia|lia].
    rewrite length_take. zbool; cbn [andb]; try lia; try done.
    rewrite getb_take by lia. f_equal. lia.
  - rewrite getb_memcpy; [|rewrite length_memcpy, length_take, length_drop; lia|lia].
    rewrite getb_memcpy; [|rewrite length_take; lia|lia].
    rewrite !length_take, length_drop.
    zbool; cbn [andb]; try lia; try done.
    + rewrite getb_take, getb_drop by lia. f_equal. lia.
    + rewrite getb_take by lia. f_equal. lia.
Qed.

(** Bytes written after the queue extend it and leave it intact. *)
Lemma circ_extend b m n d :
  rb_wf b → 0 <= n → n <= rb_size b - (tail b - head b) → n <= Z.of_nat (length d) →
  (∀ j, 0 <= j < rb_size b →
     getb m j = if (j - tail b mod rb_size b) mod rb_size b <? n
                then getb d ((j - tail b mod rb_size b) mod rb_size b)
                else getb (cpu_buf b) j) →
  circ m (rb_size b) (head b) (tail b - head b + n) = rb_queue b ++ take (Z.to_nat n) d.
Proof.
  intros Hwf Hn Hsp Hd Hm. pose proof Hwf as [Hs Hl Hh Hf _ _].
  assert (Hj : ∀ x, 0 <= x mod rb_size b < rb_size b)
    by (intros; apply Z.mod_pos_bound; lia).
  rewrite circ_app by lia. f_equal.
  - apply circ_ext. intros k Hk.
    rewrite Hm, <- Zminus_mod, mod_two_periods by (done || lia).
    destruct (Z.ltb_spec (head b + k - tail b) 0); [|lia].
    by destruct (Z.ltb_spec (head b + k - tail b + rb_size b) n); [lia|].
  - replace (head b + (tail b - head b)) with (tail b) by lia.
    apply (list_eq_same_length _ _ (Z.to_nat n)).
    + rewrite length_take. lia.
    + apply length_circ.
    + intros i x y Hi Hx Hy.
      unfold circ in Hx. rewrite list_lookup_fmap, lookup_seqZ_lt in Hx by lia.
      injection Hx as <-. rewrite Hm, <- Zminus_mod by done.
      replace (tail b + (0 + Z.of_nat i) - tail b) with (Z.of_nat i) by lia.
      rewrite Z.mod_small by lia. destruct (Z.ltb_spec (Z.of_nat i) n); [|lia].
      rewrite <- (getb_take d n) by lia. unfold getb. rewrite Nat2Z.id. by rewrite Hy.
Qed.

Lemma circ_copy_in b n d :
  rb_wf b → 0 <= n → n <= rb_size b - (tail b - head b) → n <= Z.of_nat (length d) →
  circ (rb_copy_in b (tail b mod rb_size b) n d) (rb_size b) (head b)
    (tail b - head b + n) = rb_queue b ++ take (Z.to_nat n) d.
Proof.
  intros Hwf Hn Hsp Hd. pose proof Hwf as [Hs Hl Hh Hf _ _].
  apply circ_extend; try done. intros j Hj.
  apply rb_copy_in_lookup; try done; try lia. apply Z.mod_pos_bound. lia.
Qed.

(** ** Operations against the queue *)

Definition U64_LIMIT : Z := 18446744073709551616.

Lemma length_rb_queue b : rb_wf b → Z.of_nat (length (rb_queue b)) = tail b - head b.
Proof. intros []. unfold rb_queue. rewrite length_circ. lia. Qed.

Lemma rb_wf_set_buf b m :
  rb_wf b → length m = length (cpu_buf b) → rb_wf (set_buf m b).
Proof. intros [] E. split; cbn; try done. by rewrite E. Qed.

Lemma rb_wf_set_tail b n :
  rb_wf b → 0 <= n <= rb_size b - (tail b - head b) → tail b + n < U64_LIMIT →
  rb_wf (set_tail (u64 (tail b + n)) b).
Proof.
  unfold U64_LIMIT. intros [] Hn Ht. rewrite u64_id by lia. split; cbn; try done; lia.
Qed.

(** Taking [n] bytes off the front moves the head. *)
Lemma rb_set_head b n :
  rb_wf b → 0 <= n <= tail b - head b →
  rb_wf (set_head (u64 (head b + n)) b) ∧
  rb_queue (set_head (u64 (head b + n)) b) = drop (Z.to_nat n) (rb_queue b) ∧
  circ (cpu_buf b) (rb_size b) (head b) n = take (Z.to_nat n) (rb_queue b).
Proof.
  intros Hwf Hn. pose proof Hwf as []. rewrite u64_id by lia.
  assert (Hq : rb_queue b = circ (cpu_buf b) (rb_size b) (head b) n ++
                 circ (cpu_buf b) (rb_size b) (head b + n) (tail b - (head b + n))).
  { unfold rb_queue. rewrite <- circ_app by lia. f_equal. lia. }
  split_and!.
  - split; cbn; try done; lia.
  - rewrite Hq, drop_app_ge by (rewrite length_circ; lia).
    rewrite length_circ, Nat.sub_diag. done.
  - rewrite Hq, take_app_le, take_ge by (rewrite length_circ; lia). done.
Qed.

Lemma acts_ringbuf_put_spec b d n :
  rb_wf b → 0 <= n <= Z.of_nat (length d) → tail b + n < U64_LIMIT →
  if rb_size b <? Z.of_nat (length (rb_queue b)) + n
  then acts_ringbuf_put b (Some d) n = (0, b)
  else ∃ b', acts_ringbuf_put b (Some d) n = (n, b') ∧ rb_wf b' ∧
       rb_size b' = rb_size b ∧ tail b' = tail b + n ∧
       rb_queue b' = rb_queue b ++ take (Z.to_nat n) d.
Proof.
  intros Hwf Hn Ht. rewrite length_rb_queue by done. unfold acts_ringbuf_put.
  rewrite rb_space_eq, rb_offset_mod by done. pose proof Hwf as [Hs Hl Hh Hf Htl Hm].
  destruct (Z.ltb_spec (rb_size b) (tail b - head b + n));
    destruct (Z.ltb_spec (rb_size b - (tail b - head b)) n); try lia; [done|].
  unfold U64_LIMIT in Ht. eexists. split; [done|]. split_and!.
  - rewrite u64_id by lia. split; cbn; try done; try lia. by rewrite length_rb_copy_in.
  - done.
  - cbn. by rewrite u64_id by lia.
  - unfold rb_queue at 1. cbn [cpu_buf rb_size head tail set_tail set_buf].
    rewrite u64_id by lia.
    replace (tail b + n - head b) with (tail b - head b + n) by lia.
    apply circ_copy_in; done || lia.
Qed.

Lemma acts_ringbuf_fill_put b c n :
  acts_ringbuf_fill b c n = acts_ringbuf_put b (Some (replicate (Z.to_nat n) c)) n.
Proof. done. Qed.

Lemma acts_ringbuf_get_spec b n :
  rb_wf b → 0 <= n →
  if Z.of_nat (length (rb_queue b)) <? n
  then ∃ b', acts_ringbuf_get b n = (0, [], b') ∧ rb_wf b' ∧ rb_queue b' = rb_queue b ∧
       rb_size b' = rb_size b ∧ tail b' = tail b
  else ∃ b', acts_ringbuf_get b n = (n, take (Z.to_nat n) (rb_queue b), b') ∧ rb_wf b' ∧
       rb_queue b' = drop (Z.to_nat n) (rb_queue b) ∧
       rb_size b' = rb_size b ∧ tail b' = tail b.
Proof.
  intros Hwf Hn. rewrite length_rb_queue by done.
  unfold acts_ringbuf_get, acts_ringbuf_peek.
  rewrite rb_length_eq, rb_offset_mod by done. pose proof Hwf as [Hs Hl Hh Hf Htl Hm].
  destruct (Z.ltb_spec (tail b - head b) n).
  - destruct (rb_set_head b 0) as (Hw & Hq & _); [done|lia|].
    eexists. split; [done|]. by split_and!.
  - destruct (rb_set_head b n) as (Hw & Hq & Ho); [done|lia|].
    rewrite rb_copy_out_circ by (done || lia). rewrite Ho.
    eexists. split; [done|]. by split_and!.
Qed.

Lemma acts_ringbuf_drop_spec b n :
  rb_wf b → 0 <= n →
  if Z.of_nat (length (rb_queue b)) <? n then acts_ringbuf_drop b n = (0, b)
  else ∃ b', acts_ringbuf_drop b n = (n, b') ∧ rb_wf b' ∧
       rb_queue b' = drop (Z.to_nat n) (rb_queue b) ∧
       rb_size b' = rb_size b ∧ tail b' = tail b.
Proof.
  intros Hwf Hn. rewrite length_rb_queue by done. unfold acts_ringbuf_drop.
  rewrite rb_length_eq by done. destruct (Z.ltb_spec (tail b - head b) n); [done|].
  destruct (rb_set_head b n) as (Hw & Hq & _); [done|lia|].
  eexists. split; [done|]. by split_and!.
Qed.

Lemma acts_ringbuf_drop_all_spec b :
  rb_wf b →
  ∃ b', acts_ringbuf_drop_all b = (Z.of_nat (length (rb_queue b)), b') ∧ rb_wf b' ∧
        rb_queue b' = [] ∧ rb_size b' = rb_size b ∧ tail b' = tail b.
Proof.
  intros Hwf. rewrite length_rb_queue by done. unfold acts_ringbuf_drop_all.
  rewrite rb_length_eq by done. pose proof Hwf as [Hs Hl Hh Hf Htl Hm].
  destruct (rb_set_head b (tail b - head b)) as (Hw & Hq & _); [done|lia|].
  eexists. split; [done|]. split_and!; try done.
  rewrite Hq. apply drop_ge. pose proof (length_rb_queue b Hwf). lia.
Qed.

(** *** Claim and finish *)

(** The claimed area is a contiguous prefix of the queue; finishing with any
    part of it removes exactly that part, and more is refused. *)
Lemma acts_ringbuf_get_claim_spec b n off m :
  rb_wf b → 0 <= n → acts_ringbuf_get_claim b n = (off, m) →
  0 <= m <= n ∧ off + m <= rb_size b ∧
  slice (cpu_buf b) (Z.to_nat off) (Z.to_nat m) = take (Z.to_nat m) (rb_queue b) ∧
  (0 < n → rb_queue b ≠ [] → 0 < m) ∧
  (∀ k, 0 <= k <= m → ∃ b', acts_ringbuf_get_finish b k = (0, b') ∧ rb_wf b' ∧
     rb_queue b' = drop (Z.to_nat k) (rb_queue b)).
Proof.
  intros Hwf Hn. pose proof Hwf as [Hs Hl Hh Hf Htl Hm].
  unfold acts_ringbuf_get_claim, acts_ringbuf_get_finish.
  rewrite rb_length_eq, rb_offset_mod by done.
  pose proof (Z.mod_pos_bound (head b) (rb_size b) ltac:(lia)) as Ho.
  rewrite u32_id by lia.
  set (mx := Z.min (rb_size b - head b mod rb_size b) (tail b - head b)).
  intros [= <- <-]. set (m := if n <=? mx then n else mx).
  assert (Hmb : 0 <= m <= n ∧ m <= mx) by (subst m mx; zbool; lia).
  split_and!; try lia.
  - destruct (rb_set_head b m) as (_ & _ & Hq); [done|lia|].
    rewrite <- Hq, <- circ_start_mod by lia. by rewrite circ_slice by lia.
  - intros Hpos Hne. assert (tail b - head b ≠ 0).
    { intros E. apply Hne. unfold rb_queue. by rewrite E. }
    subst m mx. zbool; lia.
  - intros k Hk. destruct (Z.ltb_spec mx k); [lia|].
    destruct (rb_set_head b k) as (Hw & Hq & _); [done|lia|]. eauto.
Qed.

Lemma acts_ringbuf_put_claim_spec b n off m :
  rb_wf b → 0 <= n → acts_ringbuf_put_claim b n = (off, m) →
  0 <= m <= n ∧ off + m <= rb_size b ∧
  (0 < n → Z.of_nat (length (rb_queue b)) < rb_size b → 0 < m) ∧
  (∀ d, Z.of_nat (length d) <= m → tail b + Z.of_nat (length d) < U64_LIMIT →
     ∃ b', acts_ringbuf_put_finish (set_buf (memcpy (cpu_buf b) (Z.to_nat off) d) b)
             (Z.of_nat (length d)) = (0, b') ∧ rb_wf b' ∧
           rb_queue b' = rb_queue b ++ d).
Proof.
  intros Hwf Hn. rewrite length_rb_queue by done. pose proof Hwf as [Hs Hl Hh Hf Htl Hm].
  unfold acts_ringbuf_put_claim. rewrite rb_space_eq, rb_offset_mod by done.
  pose proof (Z.mod_pos_bound (tail b) (rb_size b) ltac:(lia)) as Ho.
  rewrite u32_id by lia.
  set (mx := Z.min (rb_size b - tail b mod rb_size b) (rb_size b - (tail b - head b))).
  intros [= <- <-]. set (m := if n <=? mx then n else mx).
  assert (Hmb : 0 <= m <= n ∧ m <= mx) by (subst m mx; zbool; lia).
  split_and!; try lia.
  { subst m mx. zbool; lia. }
  intros d Hd Ht. set (b1 := set_buf _ b).
  assert (Hwf1 : rb_wf b1) by (apply rb_wf_set_buf; [done|apply length_memcpy]).
  unfold acts_ringbuf_put_finish. rewrite rb_space_eq, rb_offset_mod by done.
  change (rb_size b1) with (rb_size b). change (tail b1) with (tail b).
  change (head b1) with (head b). rewrite u32_id by lia. fold mx.
  destruct (Z.ltb_spec mx (Z.of_nat (length d))); [lia|].
  eexists. split; [done|]. split; [apply (rb_wf_set_tail b1); [done|cbn; lia|done]|].
  unfold rb_queue at 1. cbn [cpu_buf rb_size head tail set_tail set_buf].
  unfold U64_LIMIT in Ht. change (tail b1) with (tail b). rewrite u64_id by lia.
  change (head b1) with (head b).
  replace (tail b + Z.of_nat (length d) - head b)
    with (tail b - head b + Z.of_nat (length d)) by lia.
  pose proof (circ_copy_in b (Z.of_nat (length d)) d Hwf) as Hc.
  rewrite Nat2Z.id, firstn_all in Hc. unfold rb_copy_in in Hc.
  destruct (Z.leb_spec (Z.of_nat (length d)) (rb_size b - tail b mod rb_size b)); [|lia].
  rewrite Nat2Z.id, firstn_all in Hc. apply Hc; lia.
Qed.

(** *** Defragmentation *)

(** Copying upwards to a lower address is a move, even when the areas
    overlap. *)
Lemma memcpy_up_lookup m dst src n i :
  (dst <= src)%nat → (src + n <= length m)%nat →
  memcpy_up m dst src n !! i =
  if decide (dst <= i < dst + n)%nat then m !! (src + (i - dst))%nat else m !! i.
Proof.
  revert m dst src. induction n as [|n IH]; intros m dst src Hle Hl; cbn [memcpy_up].
  { by rewrite decide_False by lia. }
  rewrite IH by (rewrite ?length_insert; lia).
  destruct (lookup_lt_is_Some_2 m src ltac:(lia)) as [x Hx]. rewrite Hx.
  change (default 0 (Some x)) with x.
  destruct (decide (S dst <= i < S dst + n)%nat).
  - rewrite decide_True by lia. rewrite list_lookup_insert_ne by lia.
    by replace (src + (i - dst))%nat with (S src + (i - S dst))%nat by lia.
  - destruct (decide (i = dst)) as [->|].
    + rewrite decide_True by lia. rewrite list_lookup_insert_eq by lia.
      rewrite <- Hx. by replace (src + (dst - dst))%nat with src by lia.
    + rewrite decide_False by lia. by rewrite list_lookup_insert_ne by lia.
Qed.

Lemma length_memcpy_up m dst src n : length (memcpy_up m dst src n) = length m.
Proof.
  revert m dst src. induction n as [|n IH]; intros m dst src; [done|].
  cbn [memcpy_up]. by rewrite IH, length_insert.
Qed.

Lemma memcpy_up_slice m src n :
  (src + n <= length m)%nat → slice (memcpy_up m 0 src n) 0 n = slice m src n.
Proof.
  intros Hl. apply (list_eq_same_length _ _ n).
  - by rewrite length_slice.
  - rewrite length_slice; [done|]. rewrite length_memcpy_up. lia.
  - intros i x y Hi Hx Hy. rewrite lookup_slice in Hx, Hy by done.
    rewrite memcpy_up_lookup in Hx by lia. rewrite decide_True in Hx by lia.
    replace (src + (0 + i - 0))%nat with (src + i)%nat in Hx by lia. congruence.
Qed.

(** How far apart head and tail are, from their offsets. *)
Lemma rb_offsets_distance b :
  rb_wf b → head b ≠ tail b →
  tail b - head b =
  if tail b mod rb_size b <=? head b mod rb_size b
  then tail b mod rb_size b + rb_size b - head b mod rb_size b
  else tail b mod rb_size b - head b mod rb_size b.
Proof.
  intros [Hs _ Hh Hf _ _] Hne.
  pose proof (Z.mod_pos_bound (head b) (rb_size b) ltac:(lia)).
  pose proof (Z.mod_pos_bound (tail b) (rb_size b) ltac:(lia)).
  pose proof (Z.div_mod (head b) (rb_size b) ltac:(lia)) as Eh.
  pose proof (Z.div_mod (tail b) (rb_size b) ltac:(lia)) as Et.
  set (qh := head b / rb_size b) in *. set (qt := tail b / rb_size b) in *.
  set (rh := head b mod rb_size b) in *. set (rt := tail b mod rb_size b) in *.
  assert (Hd : tail b - head b = rb_size b * (qt - qh) + (rt - rh)) by lia.
  destruct (Z.leb_spec rt rh).
  - assert (qt - qh = 1) by nia. nia.
  - assert (qt - qh = 0) by nia. nia.
Qed.

Lemma rb_rebase b m h n :
  rb_wf b → n = tail b - head b → 0 <= h → h + n < U64_LIMIT →
  length m = length (cpu_buf b) →
  circ m (rb_size b) h n = rb_queue b →
  rb_wf (mk_ringbuf h (h + n) (rb_size b) (mask b) m) ∧
  rb_queue (mk_ringbuf h (h + n) (rb_size b) (mask b) m) = rb_queue b.
Proof.
  unfold U64_LIMIT. intros [Hs Hl Hh Hf Htl Hm] -> Hh0 Hlt Hlen Hc. split.
  - split; cbn; try done; try lia.
  - unfold rb_queue at 1. cbn. rewrite <- Hc. f_equal. lia.
Qed.

Lemma acts_ringbuf_defrag_spec b :
  rb_wf b → rb_size b <= 2147483648 →
  rb_wf (acts_ringbuf_defrag b) ∧ rb_queue (acts_ringbuf_defrag b) = rb_queue b ∧
  rb_size (acts_ringbuf_defrag b) = rb_size b ∧ tail (acts_ringbuf_defrag b) <= tail b.
Proof.
  intros Hwf Hhalf. pose proof Hwf as [Hs Hl Hh Hf Htl Hm].
  unfold acts_ringbuf_defrag, acts_ringbuf_is_empty. rewrite !rb_offset_mod by done.
  pose proof (Z.mod_pos_bound (head b) (rb_size b) ltac:(lia)) as Hho.
  pose proof (Z.mod_pos_bound (tail b) (rb_size b) ltac:(lia)) as Hto.
  destruct (Z.eqb_spec (head b) (tail b)) as [He|Hne].
  { rewrite orb_true_r. unfold set_head, set_tail; cbn. rewrite He, Z.sub_diag.
    destruct (rb_rebase b (cpu_buf b) 0 0) as [H1 H2]; try done; try lia.
    { unfold rb_queue. by rewrite He, Z.sub_diag. }
    split_and!; [exact H1|exact H2|done|]. cbn. change (u64 0) with 0. lia. }
  rewrite orb_false_r. pose proof (rb_offsets_distance b Hwf Hne) as Hd.
  destruct (Z.eqb_spec (head b mod rb_size b) 0) as [Hr0|Hr0].
  { unfold set_head, set_tail; cbn. rewrite u64_id by lia.
    destruct (rb_rebase b (cpu_buf b) 0 (tail b - head b)) as [H1 H2];
      try done; try (unfold U64_LIMIT; lia).
    { by rewrite <- Hr0, circ_start_mod by lia. }
    split_and!; try done; cbn; lia. }
  destruct (Z.leb_spec (tail b mod rb_size b) (head b mod rb_size b)).
  - unfold set_head, set_tail; cbn. rewrite u32_id by lia.
    destruct (rb_rebase b (cpu_buf b) (head b mod rb_size b) (tail b - head b))
      as [H1 H2]; try done; try (unfold U64_LIMIT; lia).
    { by rewrite circ_start_mod by lia. }
    replace (tail b mod rb_size b + rb_size b)
      with (head b mod rb_size b + (tail b - head b)) by lia.
    split_and!; try done; cbn.
    pose proof (Z.mod_le (head b) (rb_size b)). lia.
  - unfold set_head, set_tail; cbn. rewrite u64_id by lia.
    set (m' := memcpy_up _ _ _ _).
    destruct (rb_rebase b m' 0 (tail b - head b)) as [H1 H2];
      try done; try (unfold U64_LIMIT; lia).
    { apply length_memcpy_up. }
    { unfold m'. rewrite circ_slice; [|rewrite length_memcpy_up; lia|lia..].
      rewrite <- Hd, memcpy_up_slice by lia.
      rewrite <- (circ_slice _ (rb_size b)) by lia. by rewrite circ_start_mod by lia. }
    split_and!; try done; cbn; lia.
Qed.

(** The sum wraps when write offset and size reach 2^32: the tail is then
    left below the head. *)
Lemma acts_ringbuf_defrag_wraps b :
  rb_wf b → head b ≠ tail b → 0 < head b mod rb_size b →
  tail b mod rb_size b <= head b mod rb_size b →
  4294967296 <= tail b mod rb_size b + rb_size b →
  tail (acts_ringbuf_defrag b) < head (acts_ringbuf_defrag b).
Proof.
  intros Hwf Hne Hr Hw Hbig. pose proof Hwf as [Hs Hl Hh Hf Htl Hm].
  unfold acts_ringbuf_defrag, acts_ringbuf_is_empty. rewrite !rb_offset_mod by done.
  pose proof (Z.mod_pos_bound (tail b) (rb_size b) ltac:(lia)) as Hto.
  destruct (Z.eqb_spec (head b mod rb_size b) 0); [lia|].
  destruct (Z.eqb_spec (head b) (tail b)); [done|]. cbn [orb].
  destruct (Z.leb_spec (tail b mod rb_size b) (head b mod rb_size b)); [|lia].
  cbn [set_head set_tail head tail]. unfold u32. Z.to_euclidean_division_equations; lia.
Qed.

(** *** Copying between buffers *)

(** Rounds [acts_ringbuf_copy] still needs. *)
Definition copy_rounds (dst src : acts_ringbuf) (so dof size : Z) : nat :=
  let wraps (s o : Z) := if s <? o + size then 1%nat else 0%nat in
  (1 + wraps (rb_size src) so + wraps (rb_size dst) dof)%nat.

Definition copied (dst src : acts_ringbuf) (buf buf' : list Z) (so dof size : Z) : Prop :=
  length buf' = length buf ∧
  ∀ j, 0 <= j < rb_size dst →
    let k := (j - dof) mod rb_size dst in
    getb buf' j = if k <? size then getb (cpu_buf src) ((so + k) mod rb_size src)
                  else getb buf j.

(** One round copies [len] bytes that reach the end of neither buffer. *)
Lemma copied_round dst src buf so dof len :
  rb_wf src → Z.of_nat (length buf) = rb_size dst → 0 < rb_size dst →
  0 <= so → 0 <= dof → 0 <= len → so + len <= rb_size src → dof + len <= rb_size dst →
  copied dst src buf
    (memcpy buf (Z.to_nat dof) (slice (cpu_buf src) (Z.to_nat so) (Z.to_nat len)))
    so dof len.
Proof.
  intros [Hs Hl _ _ _ _] Hb Hd Hso Hdo Hlen Hse Hde.
  split; [apply length_memcpy|]. intros j Hj k.
  assert (Hsl : length (slice (cpu_buf src) (Z.to_nat so) (Z.to_nat len)) = Z.to_nat len)
    by (apply length_slice; lia).
  rewrite getb_memcpy by (rewrite ?Hsl; lia). rewrite Hsl. unfold k.
  rewrite mod_two_periods by lia.
  zbool; cbn [andb]; try lia; try done.
  unfold slice. rewrite getb_take, getb_drop by lia. f_equal.
  rewrite Z.mod_small by lia. lia.
Qed.

(** Rounds compose. *)
Lemma copied_trans dst src buf buf1 buf2 so dof len size :
  0 < rb_size src → 0 < rb_size dst → 0 <= len <= size → size <= rb_size dst →
  0 <= so → 0 <= dof →
  copied dst src buf buf1 so dof len →
  copied dst src buf1 buf2 ((so + len) mod rb_size src) ((dof + len) mod rb_size dst)
    (size - len) →
  copied dst src buf buf2 so dof size.
Proof.
  intros Hs Hd Hlen Hsz Hso Hdo [Hl1 H1] [Hl2 H2].
  split; [congruence|]. intros j Hj k. rewrite H2 by done. cbv zeta.
  pose proof (Z.mod_pos_bound (j - dof) (rb_size dst) Hd) as Hk. fold k in Hk.
  assert (Ek : (j - (dof + len) mod rb_size dst) mod rb_size dst
               = (k - len) mod rb_size dst).
  { unfold k. rewrite Zminus_mod_idemp_r, Zminus_mod_idemp_l. f_equal. lia. }
  rewrite Ek. rewrite mod_two_periods by lia.
  pose proof (H1 j Hj) as Hj1. cbv zeta in Hj1. fold k in Hj1.
  destruct (Z.ltb_spec (k - len) 0).
  - destruct (Z.ltb_spec (k - len + rb_size dst) (size - len)); [lia|].
    rewrite Hj1. zbool; done || lia.
  - destruct (Z.ltb_spec (k - len) (size - len)).
    + destruct (Z.ltb_spec k size); [|lia]. f_equal.
      rewrite Zplus_mod_idemp_l. f_equal. lia.
    + rewrite Hj1. zbool; done || lia.
Qed.

(** The wrap of an offset that the loop advances. *)
Lemma offset_wrap o len size :
  0 < size → 0 <= o → 0 <= len → o + len <= size →
  (if size <=? o + len then 0 else o + len) = (o + len) mod size.
Proof.
  intros. destruct (Z.leb_spec size (o + len)).
  - replace (o + len) with size by lia. by rewrite Z.mod_same by lia.
  - by rewrite Z.mod_small by lia.
Qed.

Lemma rb_copy_loop_spec fuel dst src buf so dof size :
  rb_wf src → rb_wf dst → Z.of_nat (length buf) = rb_size dst →
  0 <= so < rb_size src → 0 <= dof < rb_size dst →
  0 < size <= rb_size src → size <= rb_size dst →
  (copy_rounds dst src so dof size <= fuel)%nat →
  ∃ buf', rb_copy_loop fuel dst src buf so dof size = Some buf' ∧
          copied dst src buf buf' so dof size.
Proof.
  intros Hsrc Hdst. pose proof Hsrc as [Hs _ _ _ _ _]. pose proof Hdst as [Hd _ _ _ _ _].
  revert buf so dof size. induction fuel as [|fuel IH];
    intros buf so dof size Hb Hso Hdo Hsz Hszd Hfuel; [unfold copy_rounds in Hfuel; lia|].
  cbn [rb_copy_loop]. rewrite !u32_id by lia. set (l0 := Z.min _ _).
  replace (if size <? l0 then size else l0) with (Z.min size l0) by (zbool; lia).
  set (len := Z.min size l0).
  assert (Hlen : 0 < len <= size ∧ so + len <= rb_size src ∧ dof + len <= rb_size dst)
    by (unfold len, l0; lia).
  pose proof (copied_round dst src buf so dof len Hsrc Hb) as Hr.
  destruct (Z.eqb_spec (size - len) 0) as [E|E].
  - eexists. split; [done|]. replace size with len by lia. apply Hr; lia.
  - rewrite !offset_wrap by lia.
    destruct (IH (memcpy buf (Z.to_nat dof)
                    (slice (cpu_buf src) (Z.to_nat so) (Z.to_nat len)))
                ((so + len) mod rb_size src) ((dof + len) mod rb_size dst) (size - len))
      as (buf' & -> & Hc); try lia.
    + by rewrite length_memcpy.
    + apply Z.mod_pos_bound. lia.
    + apply Z.mod_pos_bound. lia.
    + unfold copy_rounds in *.
      rewrite <- !offset_wrap by lia. unfold len, l0 in *. zbool; lia.
    + exists buf'. split; [done|]. eapply copied_trans; [..|apply Hr|done]; lia.
Qed.

(** Copying between two ring buffers terminates within three rounds and moves
    the largest prefix that source, destination and request allow: it is
    appended to the destination and removed from the source in order. *)
Theorem acts_ringbuf_copy_spec dst src size :
  rb_wf dst → rb_wf src → 0 <= size < 4294967296 → tail dst + size < U64_LIMIT →
  let n := Z.min size (Z.min (Z.of_nat (length (rb_queue src)))
                         (rb_size dst - Z.of_nat (length (rb_queue dst)))) in
  ∃ dst' src', acts_ringbuf_copy dst src size = Some (n, dst', src') ∧
    rb_wf dst' ∧ rb_wf src' ∧
    rb_queue dst' = rb_queue dst ++ take (Z.to_nat n) (rb_queue src) ∧
    rb_queue src' = drop (Z.to_nat n) (rb_queue src).
Proof.
  intros Hd Hs Hsz Ht. rewrite !length_rb_queue by done. intros n.
  pose proof Hd as [Hds Hdl Hdh Hdf Hdt _]. pose proof Hs as [Hss Hsl Hsh Hsf Hst _].
  unfold acts_ringbuf_copy. rewrite rb_length_eq, rb_space_eq, !rb_offset_mod by done.
  assert (En : (let s1 := if tail src - head src <? size then tail src - head src else size in
                if rb_size dst - (tail dst - head dst) <? s1
                then rb_size dst - (tail dst - head dst) else s1) = n)
    by (subst n; cbv zeta; zbool; lia).
  cbv zeta in En |- *. rewrite En. clear En.
  destruct (Z.eqb_spec n 0) as [E|E].
  { exists dst, src. rewrite E. split_and!; try done. by rewrite app_nil_r. }
  assert (Hn : 0 < n ∧ n <= size ∧ n <= tail src - head src ∧
               n <= rb_size dst - (tail dst - head dst)) by (subst n; lia).
  destruct (rb_copy_loop_spec 3 dst src (cpu_buf dst) (head src mod rb_size src)
              (tail dst mod rb_size dst) n) as (buf & -> & Hlen & Hc);
    try done; try lia; try (apply Z.mod_pos_bound; lia).
  { unfold copy_rounds. zbool; lia. }
  destruct (rb_set_head src n Hs) as (Hws & Hqs & Hcs); [lia|].
  do 2 eexists. split; [done|].
  assert (Hwd : rb_wf (set_tail (u64 (tail dst + n)) (set_buf buf dst))).
  { apply (rb_wf_set_tail (set_buf buf dst));
      [by apply rb_wf_set_buf|cbn; lia|cbn; lia]. }
  split_and!; try done. unfold U64_LIMIT in Ht.
  unfold rb_queue at 1. cbn [cpu_buf rb_size head tail set_tail set_buf].
  rewrite u64_id by lia.
  replace (tail dst + n - head dst) with (tail dst - head dst + n) by lia.
  rewrite (circ_extend dst buf n (circ (cpu_buf src) (rb_size src) (head src) n));
    [|done|lia|lia|rewrite length_circ; lia|].
  - rewrite Hcs, take_take. by rewrite Nat.min_id.
  - intros j Hj. rewrite (Hc j Hj). cbv zeta. set (k := (_ - _) mod _).
    pose proof (Z.mod_pos_bound (j - tail dst mod rb_size dst) (rb_size dst)
                  ltac:(lia)) as Hk. fold k in Hk.
    destruct (Z.ltb_spec k n); [|done]. rewrite Zplus_mod_idemp_l.
    unfold circ, getb. rewrite list_lookup_fmap, lookup_seqZ_lt by lia.
    cbn [fmap option_fmap option_map default from_option].
    by replace (0 + Z.of_nat (Z.to_nat k)) with k by lia.
Qed.

(** *** Streams *)

Section stream_laws.
Context {S : Type} (stream_write : S → list Z → Z * S).
Context (stream_read : S → Z → Z * list Z * S).

(** A sink: what it has accepted grows by the bytes it reports. *)
Context (accepted : S → list Z).
Hypothesis stream_write_law : ∀ s l, let '(n, s') := stream_write s l in
  n <= Z.of_nat (length l) ∧ accepted s' = accepted s ++ take (Z.to_nat n) l.

(** A source: what it delivers comes off the bytes it has pending. *)
Context (pending : S → list Z).
Hypothesis stream_read_law : ∀ s m, 0 <= m → let '(n, d, s') := stream_read s m in
  n <= m ∧ length d = Z.to_nat n ∧ pending s = d ++ pending s'.

(** The bytes offered by the branches of [acts_ringbuf_read]. *)
Lemma read_stream_prefix b (stream : S) size :
  rb_wf b → 0 <= size <= tail b - head b →
  let offset := head b mod rb_size b in
  let len := rb_size b - offset in
  let '(r, stream') :=
    if size <=? len then
      stream_write stream (slice (cpu_buf b) (Z.to_nat offset) (Z.to_nat size))
    else
      let '(n, stream1) :=
        stream_write stream (slice (cpu_buf b) (Z.to_nat offset) (Z.to_nat len)) in
      if n =? len then
        let '(tmp, stream2) :=
          stream_write stream1 (slice (cpu_buf b) 0 (Z.to_nat (size - len))) in
        (if 0 <? tmp then n + tmp else n, stream2)
      else (n, stream1) in
  r <= size ∧ accepted stream' = accepted stream ++ take (Z.to_nat r) (rb_queue b).
Proof.
  intros Hwf Hsz offset len. pose proof Hwf as [Hs Hl Hh Hf Htl Hm].
  pose proof (Z.mod_pos_bound (head b) (rb_size b) ltac:(lia)) as Ho. fold offset in Ho.
  destruct (rb_set_head b size Hwf Hsz) as (_ & _ & Hq).
  pose proof (rb_copy_out_circ b (head b) size Hwf ltac:(lia) ltac:(lia)) as Hout.
  rewrite Hq in Hout. unfold rb_copy_out in Hout. fold offset len in Hout.
  assert (Htk : ∀ r, r <= size → take (Z.to_nat r) (rb_queue b)
            = take (Z.to_nat r) (take (Z.to_nat size) (rb_queue b))).
  { intros r Hr. rewrite take_take. f_equal. lia. }
  destruct (Z.leb_spec size len).
  - pose proof (stream_write_law stream (slice (cpu_buf b) (Z.to_nat offset)
      (Z.to_nat size))) as Hw. destruct (stream_write _ _) as [r s'].
    destruct Hw as [Hr Ha]. rewrite length_slice in Hr by lia.
    split; [lia|]. by rewrite Ha, Htk, <- Hout by lia.
  - pose proof (stream_write_law stream (slice (cpu_buf b) (Z.to_nat offset)
      (Z.to_nat len))) as Hw. destruct (stream_write _ _) as [n s1].
    destruct Hw as [Hr Ha]. rewrite length_slice in Hr by lia.
    assert (Hl1 : length (slice (cpu_buf b) (Z.to_nat offset) (Z.to_nat len))
                  = Z.to_nat len) by (apply length_slice; lia).
    destruct (Z.eqb_spec n len) as [->|].
    + pose proof (stream_write_law s1 (slice (cpu_buf b) 0 (Z.to_nat (size - len)))) as Hw2.
      destruct (stream_write s1 _) as [tmp s2]. destruct Hw2 as [Hr2 Ha2].
      rewrite length_slice in Hr2 by lia.
      assert (Hlen1 : take (Z.to_nat len) (slice (cpu_buf b) (Z.to_nat offset)
        (Z.to_nat len)) = slice (cpu_buf b) (Z.to_nat offset) (Z.to_nat len))
        by (apply take_ge; lia).
      split; [zbool; lia|]. rewrite Ha2, Ha, Htk, <- Hout by (zbool; lia).
      rewrite <- app_assoc, Hlen1. f_equal. destruct (Z.ltb_spec 0 tmp).
      * rewrite take_app_ge by lia. rewrite Hl1. do 2 f_equal. lia.
      * replace (Z.to_nat tmp) with 0%nat by lia. cbn [take].
        by rewrite app_nil_r, take_app_le, Hlen1 by lia.
    + split; [lia|]. rewrite Ha, Htk, <- Hout by lia.
      by rewrite take_app_le by lia.
Qed.

Lemma acts_ringbuf_read_spec b (stream : S) size :
  rb_wf b → 0 <= size →
  let '(r, b', stream') := acts_ringbuf_read stream_write b stream size in
  0 <= r <= size ∧ rb_wf b' ∧
  rb_queue b' = drop (Z.to_nat r) (rb_queue b) ∧
  accepted stream' = accepted stream ++ take (Z.to_nat r) (rb_queue b).
Proof.
  intros Hwf Hsz. unfold acts_ringbuf_read. rewrite rb_length_eq, rb_offset_mod by done.
  pose proof Hwf as [Hs Hl Hh Hf Htl Hm].
  pose proof (Z.mod_pos_bound (head b) (rb_size b) ltac:(lia)) as Ho.
  rewrite u32_id by lia.
  destruct (Z.ltb_spec (tail b - head b) size).
  { split_and!; try done. by rewrite app_nil_r. }
  pose proof (read_stream_prefix b stream size Hwf ltac:(lia)) as Hp. cbv zeta in Hp |- *.
  destruct (if size <=? _ then _ else _) as [r s'].
  destruct Hp as [Hr Ha]. destruct (Z.ltb_spec 0 r).
  - destruct (rb_set_head b r Hwf) as (Hw & Hq & _); [lia|]. by split_and!; try lia.
  - replace (Z.to_nat r) with 0%nat in Ha by lia. by split_and!.
Qed.

(** The memory and count after the branches of [acts_ringbuf_write]. *)
Lemma write_stream_data b (stream : S) size :
  rb_wf b → 0 <= size <= rb_size b - (tail b - head b) →
  let offset := tail b mod rb_size b in
  let len := rb_size b - offset in
  let '(r, buf, stream') :=
    if size <=? len then
      let '(n, d, stream1) := stream_read stream size in
      (n, memcpy (cpu_buf b) (Z.to_nat offset) d, stream1)
    else
      let '(n, d, stream1) := stream_read stream len in
      let buf := memcpy (cpu_buf b) (Z.to_nat offset) d in
      if n =? len then
        let '(tmp, d, stream2) := stream_read stream1 (size - len) in
        (if 0 <? tmp then n + tmp else n, memcpy buf 0 d, stream2)
      else (n, buf, stream1) in
  ∃ d, r <= size ∧ length d = Z.to_nat r ∧ pending stream = d ++ pending stream' ∧
       buf = rb_copy_in b offset (Z.of_nat (length d)) d.
Proof.
  intros Hwf Hsz offset len. pose proof Hwf as [Hs Hl Hh Hf Htl Hm].
  pose proof (Z.mod_pos_bound (tail b) (rb_size b) ltac:(lia)) as Ho. fold offset in Ho.
  assert (Hin : ∀ d, Z.of_nat (length d) <= len →
            memcpy (cpu_buf b) (Z.to_nat offset) d
            = rb_copy_in b offset (Z.of_nat (length d)) d).
  { intros d Hd. unfold rb_copy_in. fold len.
    destruct (Z.leb_spec (Z.of_nat (length d)) len); [|lia].
    by rewrite Nat2Z.id, firstn_all. }
  destruct (Z.leb_spec size len).
  - pose proof (stream_read_law stream size ltac:(lia)) as Hr.
    destruct (stream_read stream size) as [[n d] s']. destruct Hr as (Hn & Hd & Hp).
    exists d. split_and!; try done. apply Hin. lia.
  - pose proof (stream_read_law stream len ltac:(lia)) as Hr.
    destruct (stream_read stream len) as [[n d] s1]. destruct Hr as (Hn & Hd & Hp).
    destruct (Z.eqb_spec n len) as [->|].
    + pose proof (stream_read_law s1 (size - len) ltac:(lia)) as Hr2.
      destruct (stream_read s1 (size - len)) as [[tmp d2] s2].
      destruct Hr2 as (Hn2 & Hd2 & Hp2). exists (d ++ d2).
      split_and!; [zbool; lia|rewrite length_app; zbool; lia| |].
      * by rewrite Hp, Hp2, app_assoc.
      * destruct (Z.ltb_spec 0 tmp).
        -- unfold rb_copy_in. fold len. rewrite length_app.
           destruct (Z.leb_spec (Z.of_nat (length d + length d2)) len); [lia|].
           rewrite take_app_le, take_ge by lia.
           rewrite drop_app_ge by lia.
           replace (Z.to_nat len - length d)%nat with 0%nat by lia.
           rewrite drop_0, take_ge by lia. done.
        -- assert (d2 = []) as -> by (apply nil_length_inv; lia).
           rewrite app_nil_r. apply Hin. lia.
    + exists d. split_and!; try done; [lia|]. apply Hin. lia.
Qed.

Lemma acts_ringbuf_write_spec b (stream : S) size :
  rb_wf b → 0 <= size → tail b + size < U64_LIMIT →
  let '(r, b', stream') := acts_ringbuf_write stream_read b stream size in
  ∃ d, 0 <= r <= size ∧ rb_wf b' ∧ r = Z.of_nat (length d) ∧
    rb_queue b' = rb_queue b ++ d ∧ pending stream = d ++ pending stream'.
Proof.
  intros Hwf Hsz Ht. unfold acts_ringbuf_write. rewrite rb_space_eq, rb_offset_mod by done.
  pose proof Hwf as [Hs Hl Hh Hf Htl Hm].
  pose proof (Z.mod_pos_bound (tail b) (rb_size b) ltac:(lia)) as Ho.
  rewrite u32_id by lia.
  destruct (Z.ltb_spec (rb_size b - (tail b - head b)) size).
  { exists []. split_and!; try done. by rewrite app_nil_r. }
  pose proof (write_stream_data b stream size Hwf ltac:(lia)) as Hp. cbv zeta in Hp |- *.
  destruct (if size <=? _ then _ else _) as [[r buf] s'].
  destruct Hp as (d & Hr & Hd & Hpe & ->). unfold U64_LIMIT in Ht.
  assert (Hw1 : rb_wf (set_buf (rb_copy_in b (tail b mod rb_size b)
                   (Z.of_nat (length d)) d) b))
    by (apply rb_wf_set_buf; [done|apply length_rb_copy_in]).
  pose proof (circ_copy_in b (Z.of_nat (length d)) d Hwf) as Hc.
  rewrite Nat2Z.id, firstn_all in Hc.
  destruct (Z.ltb_spec 0 r); exists d; split_and!; try lia; try done.
  - apply (rb_wf_set_tail (set_buf _ b)); [done|cbn; lia|cbn; unfold U64_LIMIT; lia].
  - unfold rb_queue at 1. cbn [cpu_buf rb_size head tail set_tail set_buf].
    rewrite u64_id by lia. rewrite <- Hc by lia. f_equal. lia.
  - unfold rb_queue at 1. cbn [cpu_buf rb_size head tail set_tail set_buf].
    rewrite <- Hc by lia. f_equal. lia.
Qed.
End stream_laws.

(** ** Refinement: any sequence of operations *)

Inductive rb_op :=
  | OpPut (d : list Z) | OpGet (n : Z) | OpPeek (n : Z) | OpDrop (n : Z) | OpDropAll
  | OpFill (c n : Z) | OpReset | OpDefrag | OpLength | OpSpace.

(** What the caller sees: the return value and the bytes copied out. *)
Definition rb_exec (b : acts_ringbuf) (o : rb_op) : acts_ringbuf * (Z * list Z) :=
  match o with
  | OpPut d => let '(r, b') := acts_ringbuf_put b (Some d) (Z.of_nat (length d)) in
               (b', (r, []))
  | OpGet n => let '(r, out, b') := acts_ringbuf_get b n in (b', (r, out))
  | OpPeek n => let '(r, out) := acts_ringbuf_peek b n in (b, (r, out))
  | OpDrop n => let '(r, b') := acts_ringbuf_drop b n in (b', (r, []))
  | OpDropAll => let '(r, b') := acts_ringbuf_drop_all b in (b', (r, []))
  | OpFill c n => let '(r, b') := acts_ringbuf_fill b c n in (b', (r, []))
  | OpReset => (acts_ringbuf_reset b, (0, []))
  | OpDefrag => (acts_ringbuf_defrag b, (0, []))
  | OpLength => (b, (acts_ringbuf_length b, []))
  | OpSpace => (b, (acts_ringbuf_space b, []))
  end.

(** The same calls on a queue of at most [cap] bytes: all or nothing. *)
Definition queue_exec (cap : Z) (q : list Z) (o : rb_op) : list Z * (Z * list Z) :=
  let len := Z.of_nat (length q) in
  match o with
  | OpPut d => if cap <? len + Z.of_nat (length d) then (q, (0, []))
               else (q ++ d, (Z.of_nat (length d), []))
  | OpGet n => if len <? n then (q, (0, []))
               else (drop (Z.to_nat n) q, (n, take (Z.to_nat n) q))
  | OpPeek n => if len <? n then (q, (0, [])) else (q, (n, take (Z.to_nat n) q))
  | OpDrop n => if len <? n then (q, (0, [])) else (drop (Z.to_nat n) q, (n, []))
  | OpDropAll => ([], (len, []))
  | OpFill c n => if cap <? len + n then (q, (0, []))
                  else (q ++ replicate (Z.to_nat n) c, (n, []))
  | OpReset => ([], (0, []))
  | OpDefrag => (q, (0, []))
  | OpLength => (q, (len, []))
  | OpSpace => (q, (cap - len, []))
  end.

Fixpoint exec_all {T} (exec : T → rb_op → T * (Z * list Z)) (s : T) (ops : list rb_op)
    : T * list (Z * list Z) :=
  match ops with
  | [] => (s, [])
  | o :: ops' => let '(s1, r) := exec s o in
                 let '(s2, rs) := exec_all exec s1 ops' in (s2, r :: rs)
  end.

(** Arguments are 32-bit counts, and a buffer of more than 2^31 bytes is not
    defragmented ([acts_ringbuf_defrag_wraps]); [bytes_in] bounds what an
    operation adds. *)
Definition rb_op_ok (size : Z) (o : rb_op) : Prop :=
  match o with
  | OpDefrag => size <= 2147483648
  | OpPut _ => True
  | OpGet n | OpPeek n | OpDrop n | OpFill _ n => 0 <= n
  | _ => True
  end.
Definition bytes_in (o : rb_op) : Z :=
  match o with
  | OpPut d => Z.of_nat (length d)
  | OpFill _ n => Z.max 0 n
  | _ => 0
  end.
Definition total_in (ops : list rb_op) : Z := foldr (λ o z, bytes_in o + z) 0 ops.

Lemma total_in_nonneg ops : 0 <= total_in ops.
Proof.
  induction ops as [|o ops IH]; [done|]. cbn [total_in foldr]. fold (total_in ops).
  destruct o; cbn [bytes_in]; lia.
Qed.

(** A put that fits or not, in the shape of the step below. *)
Lemma rb_put_refines b d n :
  rb_wf b → n = Z.of_nat (length d) → tail b + n < U64_LIMIT →
  let '(r, b') := acts_ringbuf_put b (Some d) n in
  rb_wf b' ∧ rb_size b' = rb_size b ∧ tail b' <= tail b + n ∧
  (rb_queue b', r) =
    if rb_size b <? Z.of_nat (length (rb_queue b)) + n then (rb_queue b, 0)
    else (rb_queue b ++ d, n).
Proof.
  intros Hwf -> Ht. pose proof (acts_ringbuf_put_spec b d (Z.of_nat (length d)) Hwf
    ltac:(lia) Ht) as Hp.
  destruct (_ <? _).
  - rewrite Hp. split_and!; try done. lia.
  - destruct Hp as (b' & -> & Hw & Hs & Htl & Hq).
    rewrite Nat2Z.id, firstn_all in Hq. rewrite Hq. split_and!; try done. lia.
Qed.

Lemma rb_exec_refines b o :
  rb_wf b → rb_op_ok (rb_size b) o → tail b + bytes_in o < U64_LIMIT →
  let '(b', r) := rb_exec b o in
  rb_wf b' ∧ rb_size b' = rb_size b ∧ tail b' <= tail b + bytes_in o ∧
  queue_exec (rb_size b) (rb_queue b) o = (rb_queue b', r).
Proof.
  intros Hwf Ho Ht. destruct o as [d|n|n|n| |c n| | | |]; cbn [rb_exec bytes_in queue_exec rb_op_ok] in *.
  - pose proof (rb_put_refines b d _ Hwf eq_refl Ht) as Hp.
    destruct (acts_ringbuf_put _ _ _) as [r b']. destruct Hp as (Hw & Hs & Htl & Hq).
    split_and!; try done. by destruct (_ <? _); injection Hq as -> ->.
  - pose proof (acts_ringbuf_get_spec b n Hwf Ho) as Hg. rewrite Z.add_0_r.
    destruct (_ <? _); destruct Hg as (b' & -> & Hw & Hq & Hs & Htl);
      rewrite Hq, Htl; by split_and!.
  - pose proof (acts_ringbuf_get_spec b n Hwf Ho) as Hg. rewrite Z.add_0_r.
    unfold acts_ringbuf_get in Hg. destruct (acts_ringbuf_peek b n) as [r out].
    destruct (_ <? _); destruct Hg as (b' & [= -> -> _] & _); by split_and!.
  - pose proof (acts_ringbuf_drop_spec b n Hwf Ho) as Hd. rewrite Z.add_0_r.
    destruct (_ <? _); [rewrite Hd; by split_and!|].
    destruct Hd as (b' & -> & Hw & Hq & Hs & Htl). rewrite Hq, Htl. by split_and!.
  - destruct (acts_ringbuf_drop_all_spec b Hwf) as (b' & -> & Hw & Hq & Hs & Htl).
    rewrite Hq, Htl. split_and!; try done. lia.
  - rewrite acts_ringbuf_fill_put. rewrite Z.max_r in * by lia.
    pose proof (rb_put_refines b (replicate (Z.to_nat n) c) n Hwf
      ltac:(rewrite length_replicate; lia) Ht) as Hp.
    destruct (acts_ringbuf_put _ _ _) as [r b']. destruct Hp as (Hw & Hs & Htl & Hq).
    split_and!; try done. by destruct (_ <? _); injection Hq as -> ->.
  - destruct Hwf. split_and!; try done; [split; cbn; try done; lia|cbn; lia].
  - destruct (acts_ringbuf_defrag_spec b Hwf Ho) as (Hw & Hq & Hs & Htl).
    rewrite Hq. split_and!; try done. lia.
  - rewrite rb_length_eq, length_rb_queue by done. split_and!; try done. lia.
  - rewrite rb_space_eq, length_rb_queue by done. split_and!; try done. lia.
Qed.

(** C19: Every sequence of put, get, peek, drop, fill, reset and defragment calls
    returns the values and bytes that the same calls on a bounded queue
    return, for power-of-two sizes (mask) and all others (remainder) alike, as
    long as the 64-bit counters do not wrap and buffers of more than 2^31
    bytes are not defragmented (their 32-bit sum wraps). *)
Theorem acts_ringbuf_refines_queue ops b :
  rb_wf b → Forall (rb_op_ok (rb_size b)) ops → tail b + total_in ops < U64_LIMIT →
  rb_wf (exec_all rb_exec b ops).1 ∧
  exec_all (queue_exec (rb_size b)) (rb_queue b) ops =
    (rb_queue (exec_all rb_exec b ops).1, (exec_all rb_exec b ops).2).
Proof.
  revert b. induction ops as [|o ops IH]; intros b Hwf Hops Ht; [done|].
  inversion Hops; subst. cbn [exec_all total_in foldr] in *. fold (total_in ops) in Ht.
  pose proof (total_in_nonneg ops).
  pose proof (rb_exec_refines b o Hwf) as Hs.
  destruct (rb_exec b o) as [b1 r].
  destruct Hs as (Hw1 & Hs1 & Ht1 & ->); [done|lia|].
  destruct (IH b1) as [Hw2 Hq]; [done|by rewrite Hs1|lia|]. rewrite Hs1 in Hq. rewrite Hq.
  by destruct (exec_all rb_exec b1 ops).
Qed.

(** A read claim is a contiguous prefix of the queue and a write claim
    contiguous free space inside the buffer, non-empty whenever there is any;
    finishing with a part of the claim removes or appends exactly that part. *)
Theorem acts_ringbuf_claims_contiguous b n :
  rb_wf b → 0 <= n →
  (let '(off, m) := acts_ringbuf_get_claim b n in
   0 <= m <= n ∧ off + m <= rb_size b ∧ (0 < n → rb_queue b ≠ [] → 0 < m) ∧
   slice (cpu_buf b) (Z.to_nat off) (Z.to_nat m) = take (Z.to_nat m) (rb_queue b) ∧
   ∀ k, 0 <= k <= m → ∃ b', acts_ringbuf_get_finish b k = (0, b') ∧ rb_wf b' ∧
          rb_queue b' = drop (Z.to_nat k) (rb_queue b)) ∧
  (let '(off, m) := acts_ringbuf_put_claim b n in
   0 <= m <= n ∧ off + m <= rb_size b ∧
   (0 < n → Z.of_nat (length (rb_queue b)) < rb_size b → 0 < m) ∧
   ∀ d, Z.of_nat (length d) <= m → tail b + Z.of_nat (length d) < U64_LIMIT →
     ∃ b', acts_ringbuf_put_finish (set_buf (memcpy (cpu_buf b) (Z.to_nat off) d) b)
             (Z.of_nat (length d)) = (0, b') ∧ rb_wf b' ∧
           rb_queue b' = rb_queue b ++ d).
Proof.
  intros Hwf Hn. split.
  - destruct (acts_ringbuf_get_claim b n) as [off m] eqn:E.
    by destruct (acts_ringbuf_get_claim_spec b n off m Hwf Hn E) as (? & ? & ? & ? & ?).
  - destruct (acts_ringbuf_put_claim b n) as [off m] eqn:E.
    by destruct (acts_ringbuf_put_claim_spec b n off m Hwf Hn E) as (? & ? & ? & ?).
Qed.

(** Reading into a stream and writing from one lose and duplicate nothing:
    the bytes of stream and buffer together are the same before and after,
    also when the callback takes less than offered or fails. *)
Theorem acts_ringbuf_stream_conserves {S} stream_write stream_read
    (accepted pending : S → list Z) b (stream : S) size :
  (∀ s l, let '(n, s') := stream_write s l in
     n <= Z.of_nat (length l) ∧ accepted s' = accepted s ++ take (Z.to_nat n) l) →
  (∀ s m, 0 <= m → let '(n, d, s') := stream_read s m in
     n <= m ∧ length d = Z.to_nat n ∧ pending s = d ++ pending s') →
  rb_wf b → 0 <= size → tail b + size < U64_LIMIT →
  (let '(r, b', stream') := acts_ringbuf_read stream_write b stream size in
   0 <= r <= size ∧ rb_wf b' ∧ length (rb_queue b') = (length (rb_queue b) - Z.to_nat r)%nat ∧
   accepted stream' ++ rb_queue b' = accepted stream ++ rb_queue b) ∧
  (let '(r, b', stream') := acts_ringbuf_write stream_read b stream size in
   0 <= r <= size ∧ rb_wf b' ∧ length (rb_queue b') = (length (rb_queue b) + Z.to_nat r)%nat ∧
   rb_queue b' ++ pending stream' = rb_queue b ++ pending stream).
Proof.
  intros Hw Hr Hwf Hs Ht. split.
  - pose proof (acts_ringbuf_read_spec stream_write accepted Hw b stream size Hwf Hs) as H.
    destruct (acts_ringbuf_read stream_write b stream size) as [[r b'] s'].
    destruct H as (Hrr & Hwb & -> & ->). split_and!; try done; try lia.
    + by rewrite length_drop.
    + by rewrite <- app_assoc, take_drop.
  - pose proof (acts_ringbuf_write_spec stream_read pending Hr b stream size Hwf Hs Ht) as H.
    destruct (acts_ringbuf_write stream_read b stream size) as [[r b'] s'].
    destruct H as (d & Hrr & Hwb & -> & -> & ->). split_and!; try done; try lia.
    + rewrite length_app. lia.
    + by rewrite <- app_assoc.
Qed.

(** An allocation that fails returns every block it took. *)
Lemma acts_ringbuf_alloc_no_leak size garbage m :
  let '(b, m') := acts_ringbuf_alloc size garbage m in
  mem_live (acts_ringbuf_free b m') = mem_live m.
Proof.
  unfold acts_ringbuf_alloc, mem_malloc, mem_free.
  destruct m as [[|[] [|[] l]] n]; cbn; lia.
Qed.

(** ** Witnesses *)

(** Twelve bytes: the index is a remainder; head and tail have passed the end. *)
Definition rb12 : acts_ringbuf := mk_ringbuf 8 15 12 0 [5; 6; 7; 0; 0; 0; 0; 0; 1; 2; 3; 4].
(** Eight bytes: the index is a mask. *)
Definition rb8 : acts_ringbuf := mk_ringbuf 6 9 8 7 [3; 0; 0; 0; 0; 0; 1; 2].

Lemma rb12_wf : rb_wf rb12.
Proof. split; cbn; lia || done. Qed.
Lemma rb8_wf : rb_wf rb8.
Proof. split; cbn; lia || done. Qed.

Lemma acts_ringbuf_copy_spec_witness :
  ∃ dst' src', acts_ringbuf_copy rb8 rb12 20 = Some (5, dst', src') ∧
    rb_queue dst' = [1; 2; 3] ++ [1; 2; 3; 4; 5] ∧ rb_queue src' = [6; 7].
Proof.
  destruct (acts_ringbuf_copy_spec rb8 rb12 20 rb8_wf rb12_wf) as (d & s & E & _ & _ & Hd & Hs);
    [lia|unfold U64_LIMIT; cbn; lia|].
  exists d, s. split; [exact E|]. split; [exact Hd|exact Hs].
Defined.

Lemma acts_ringbuf_refines_queue_witness :
  exec_all (queue_exec 12) [1; 2; 3; 4; 5; 6; 7] [OpPut [8; 9]; OpGet 3; OpDefrag; OpFill 0 4]
  = (rb_queue (exec_all rb_exec rb12 [OpPut [8; 9]; OpGet 3; OpDefrag; OpFill 0 4]).1,
     [(2, []); (3, [1; 2; 3]); (0, []); (4, [])]).
Proof.
  apply (acts_ringbuf_refines_queue [OpPut [8; 9]; OpGet 3; OpDefrag; OpFill 0 4] rb12).
  - apply rb12_wf.
  - repeat constructor; cbn; lia.
  - vm_compute. reflexivity.
Defined.

Lemma acts_ringbuf_claims_contiguous_witness :
  slice (cpu_buf rb12) 8 4 = take 4 (rb_queue rb12).
Proof.
  destruct (acts_ringbuf_claims_contiguous rb12 7 rb12_wf ltac:(lia)) as [H _].
  exact (proj1 (proj2 (proj2 (proj2 H)))).
Defined.

(** A sink that takes three bytes at a time, and a source of zeros. *)
Lemma acts_ringbuf_stream_conserves_witness :
  let w (s : list Z * list Z) (l : list Z) := (Z.of_nat (length (take 3 l)), (s.1 ++ take 3 l, s.2)) in
  let r (s : list Z * list Z) (m : Z) :=
    (Z.of_nat (length (take (Z.to_nat m) s.2)), take (Z.to_nat m) s.2,
     (s.1, drop (Z.to_nat m) s.2)) in
  let '(n, b', s') := acts_ringbuf_read w rb12 ([], [9; 9]) 6 in
  s'.1 ++ rb_queue b' = rb_queue rb12.
Proof.
  intros w r.
  assert (Hw : ∀ s l, let '(n, s') := w s l in n <= Z.of_nat (length l) ∧
            s'.1 = s.1 ++ take (Z.to_nat n) l).
  { intros s l. unfold w. rewrite Nat2Z.id. split; [rewrite length_take; lia|].
    by destruct l as [|? [|? [|? ?]]]. }
  assert (Hr : ∀ s m, 0 <= m → let '(n, d, s') := r s m in
            n <= m ∧ length d = Z.to_nat n ∧ s.2 = d ++ s'.2).
  { intros s m Hm. unfold r. cbn [snd]. split_and!; [rewrite length_take; lia|lia|].
    by rewrite take_drop. }
  assert (Ht : tail rb12 + 6 < U64_LIMIT) by (vm_compute; reflexivity).
  destruct (acts_ringbuf_stream_conserves w r fst snd rb12 ([], [9; 9]) 6 Hw Hr
              rb12_wf ltac:(lia) Ht) as [H _].
  destruct (acts_ringbuf_read w rb12 ([], [9; 9]) 6) as [[n b'] s'].
  exact (proj2 (proj2 (proj2 H))).
Defined.
