(* ===== verification/NvramBits.v ===== *)
(** * NVRAM: hash, CRC-8 and the item bitmap

    The integer and bit-level helpers of drivers/nvram/nvram_config.c:
    [calc_hash], the nibble-table [calc_crc8], the searches for set bits and
    the bitmap that marks where the valid items of a segment start.  The CRC is
    shown equal to the bitwise CRC-8/MAXIM its comment names, the bit searches
    to find the least set bit from a position. *)

From stdpp Require Import base numbers list option.
From S2P Require Import Prelude.
Local Open Scope Z_scope.

(** ** Hash *)

(** [calc_hash(key, len)] on the [len] bytes at [key] *)
Definition calc_hash (key : list Z) : Z :=
  Z.lxor (fold_left (λ hash b, u8 (hash + b)) key 0) 165.

(** ** CRC-8 *)

Definition crc8_table : list Z :=
  [0; 94; 188; 226; 97; 63; 221; 131; 194; 156; 126; 32; 163; 253; 31; 65;
   0; 157; 35; 190; 70; 219; 101; 248; 140; 17; 175; 50; 202; 87; 233; 116].

(** The body of the loop of [calc_crc8]. *)
Definition crc8_byte (crc b : Z) : Z :=
  let crc := Z.lxor b crc in
  Z.lxor (getb crc8_table (Z.land crc 15))
         (getb crc8_table (16 + Z.land (Z.shiftr crc 4) 15)).

(** [calc_crc8(addr, len, initial_crc)] on the [len] bytes at [addr] *)
Definition calc_crc8 (data : list Z) (initial_crc : Z) : Z :=
  fold_left crc8_byte data initial_crc.

(** The reference: polynomial 0x31, reflected (0x8C), bit by bit. *)
Definition crc8_maxim_bit (crc : Z) : Z :=
  if Z.testbit crc 0 then Z.lxor (Z.shiftr crc 1) 140 else Z.shiftr crc 1.
Definition crc8_maxim_byte (crc b : Z) : Z := Nat.iter 8 crc8_maxim_bit (Z.lxor crc b).
Definition crc8_maxim (data : list Z) (crc : Z) : Z := fold_left crc8_maxim_byte data crc.

(** ** Bit searches *)

Definition BITS_PER_LONG : Z := 32.

(** [find_lsb_set]: one plus the index of the least set bit, 0 for 0. *)
Fixpoint lsb_from (n : nat) (i x : Z) : Z :=
  match n with
  | O => 0
  | S n' => if Z.testbit x i then i + 1 else lsb_from n' (i + 1) x
  end.
Definition find_lsb_set (x : Z) : Z := lsb_from 32 0 x.

(** The end of both searches: look at the last, partial word. *)
Definition find_in_last (result size tmp : Z) : Z :=
  let tmp := Z.land tmp (Z.shiftr 4294967295 (BITS_PER_LONG - size)) in
  if tmp =? 0 then result + size else result + (find_lsb_set tmp - 1).

(** The loop over whole words, then the rest; the words are those left at
    [p]. *)
Fixpoint find_in_words (p : list Z) (result size : Z) : Z :=
  if size <? BITS_PER_LONG then
    (if size =? 0 then result else find_in_last result size (getb p 0))
  else
    match p with
    | [] => result
    | tmp :: p' =>
        if negb (tmp =? 0) then result + (find_lsb_set tmp - 1)
        else find_in_words p' (result + BITS_PER_LONG) (size - BITS_PER_LONG)
    end.

(** [find_first_bit] *)
Definition find_first_bit (addr : list Z) (size : Z) : Z := find_in_words addr 0 size.

(** [find_next_bit] *)
Definition find_next_bit (addr : list Z) (size offset : Z) : Z :=
  let p := drop (Z.to_nat (offset / BITS_PER_LONG)) addr in
  let result := Z.land offset (Z.lnot (BITS_PER_LONG - 1)) in
  if size <=? offset then size
  else
    let size := size - result in
    let offset := offset mod BITS_PER_LONG in
    if negb (offset =? 0) then
      let tmp := Z.land (getb p 0) (u32 (Z.shiftl 4294967295 offset)) in
      if size <? BITS_PER_LONG then find_in_last result size tmp
      else if negb (tmp =? 0) then result + (find_lsb_set tmp - 1)
      else find_in_words (drop 1 p) (result + BITS_PER_LONG) (size - BITS_PER_LONG)
    else find_in_words p result size.

(** ** The item bitmap *)

Definition NVRAM_ITEM_ALIGN_SIZE : Z := 16.
Definition NVRAM_SEG_ITEM_START_OFFSET : Z := 16.

(** [item_bitmap_first_offset], [item_bitmap_next_offset]; a null map is
    [None]. *)
Definition item_bitmap_first_offset (map : option (list Z)) (seg_size : Z) : Z :=
  match map with
  | None => NVRAM_SEG_ITEM_START_OFFSET
  | Some m => find_first_bit m (seg_size / NVRAM_ITEM_ALIGN_SIZE) * NVRAM_ITEM_ALIGN_SIZE
  end.

Definition item_bitmap_next_offset (map : option (list Z)) (seg_size offset : Z) : Z :=
  match map with
  | None => offset
  | Some m => find_next_bit m (seg_size / NVRAM_ITEM_ALIGN_SIZE)
                (offset / NVRAM_ITEM_ALIGN_SIZE) * NVRAM_ITEM_ALIGN_SIZE
  end.

(** [item_bitmap_update] *)
Definition item_bitmap_update (map : option (list Z)) (offset : Z) (is_set : bool)
    : option (list Z) :=
  match map with
  | None => None
  | Some m =>
      let bit := offset / NVRAM_ITEM_ALIGN_SIZE in
      let w := bit / 32 in
      let b := bit mod 32 in
      Some (setb m w (if is_set then Z.lor (getb m w) (Z.shiftl 1 b)
                      else Z.land (getb m w) (u32 (Z.lnot (Z.shiftl 1 b)))))
  end.

(** [item_bitmap_clear_all] *)
Definition item_bitmap_clear_all (map : option (list Z)) : option (list Z) :=
  match map with
  | None => None
  | Some m => Some (replicate (length m) 0)
  end.

(** ** The CRC is CRC-8/MAXIM *)

Lemma crc8_byte_table :
  forallb (λ x, Z.lxor (getb crc8_table (Z.land x 15))
                       (getb crc8_table (16 + Z.land (Z.shiftr x 4) 15))
                =? Nat.iter 8 crc8_maxim_bit x) (seqZ 0 256) = true.
Proof. vm_compute. reflexivity. Qed.

Lemma crc8_byte_maxim crc b : is_u8 crc → is_u8 b → crc8_byte crc b = crc8_maxim_byte crc b.
Proof.
  intros Hc Hb. unfold crc8_byte, crc8_maxim_byte. rewrite (Z.lxor_comm b).
  pose proof (lxor_u8 crc b Hc Hb) as Hx. pose proof crc8_byte_table as H.
  rewrite forallb_forall in H. specialize (H (Z.lxor crc b)).
  rewrite <- list_elem_of_In, elem_of_seqZ in H. unfold is_u8 in Hx.
  specialize (H ltac:(lia)). cbv beta in H. lia.
Qed.

Lemma crc8_byte_u8 crc b : is_u8 crc → is_u8 b → is_u8 (crc8_byte crc b).
Proof.
  intros Hc Hb. unfold crc8_byte. apply lxor_u8; apply getb_u8;
    repeat (constructor; [unfold is_u8; lia|]); constructor.
Qed.

Lemma calc_crc8_u8 data crc : is_u8 crc → bytes_ok data → is_u8 (calc_crc8 data crc).
Proof.
  revert crc. induction data as [|b data IH]; intros crc Hc Hd; [done|].
  inversion Hd; subst. apply IH; [by apply crc8_byte_u8|done].
Qed.

Lemma calc_crc8_app l1 l2 crc : calc_crc8 (l1 ++ l2) crc = calc_crc8 l2 (calc_crc8 l1 crc).
Proof. apply fold_left_app. Qed.

(** C39: The nibble-table CRC of headers and items equals the bitwise CRC-8/MAXIM
    its comment names, for every start value. *)
Theorem calc_crc8_is_maxim data crc :
  is_u8 crc → bytes_ok data → calc_crc8 data crc = crc8_maxim data crc.
Proof.
  revert crc. induction data as [|b data IH]; intros crc Hc Hd; [done|].
  inversion Hd; subst. unfold calc_crc8, crc8_maxim in *. cbn [fold_left].
  rewrite <- crc8_byte_maxim by done. apply IH; [by apply crc8_byte_u8|done].
Qed.

(** The check value of CRC-8/MAXIM: the digits 1 to 9 give 0xA1. *)
Lemma calc_crc8_is_maxim_witness :
  calc_crc8 [49; 50; 51; 52; 53; 54; 55; 56; 57] 0
  = crc8_maxim [49; 50; 51; 52; 53; 54; 55; 56; 57] 0.
Proof.
  apply calc_crc8_is_maxim; [unfold is_u8; lia|].
  repeat (constructor; [unfold is_u8; lia|]); constructor.
Defined.
Example calc_crc8_check : calc_crc8 [49; 50; 51; 52; 53; 54; 55; 56; 57] 0 = 161.
Proof. reflexivity. Qed.

Lemma calc_hash_u8 key : is_u8 (calc_hash key).
Proof.
  unfold calc_hash. apply lxor_u8; [|unfold is_u8; lia].
  assert (H : ∀ h, is_u8 h → is_u8 (fold_left (λ hash b, u8 (hash + b)) key h)).
  { induction key as [|b key IH]; intros h Hh; [done|]. cbn. apply IH, u8_range. }
  apply H. unfold is_u8. lia.
Qed.

(** ** The searches find the least set bit *)

(** Bit [i] of an array of 32-bit words. *)
Definition map_bit (m : list Z) (i : Z) : bool := Z.testbit (getb m (i / 32)) (i mod 32).

(** The result of a search from [off] below [size]. *)
Definition least_bit (P : Z → bool) (off size r : Z) : Prop :=
  off <= r <= size ∧ (r < size → P r = true) ∧ ∀ i, off <= i < r → P i = false.

Definition words_ok (m : list Z) : Prop := Forall (λ w, 0 <= w < 4294967296) m.

Lemma lsb_from_spec n i x :
  0 <= i → (∃ j, i <= j < i + Z.of_nat n ∧ Z.testbit x j = true) →
  let r := lsb_from n i x - 1 in
  i <= r < i + Z.of_nat n ∧ Z.testbit x r = true ∧ ∀ j, i <= j < r → Z.testbit x j = false.
Proof.
  revert i. induction n as [|n IH]; intros i Hi (j & Hj & Hb); [lia|].
  cbn [lsb_from]. destruct (Z.testbit x i) eqn:E.
  - split_and!; [lia|lia|by replace (i + 1 - 1) with i by lia|]. intros. lia.
  - destruct (IH (i + 1)) as (H1 & H2 & H3); [lia| |].
    { exists j. split; [|done]. destruct (decide (j = i)); [congruence|lia]. }
    split_and!; [lia|lia|done|]. intros k Hk.
    destruct (decide (k = i)) as [->|]; [done|]. apply H3. lia.
Qed.

Lemma find_lsb_set_spec x :
  0 < x < 4294967296 →
  let r := find_lsb_set x - 1 in
  0 <= r < 32 ∧ Z.testbit x r = true ∧ ∀ j, 0 <= j < r → Z.testbit x j = false.
Proof.
  intros Hx. apply (lsb_from_spec 32 0 x); [lia|].
  exists (Z.log2 x). split; [|apply Z.bit_log2; lia].
  split; [apply Z.log2_nonneg|]. apply Z.log2_lt_pow2; lia.
Qed.

Lemma getb_word m i : words_ok m → 0 <= getb m i < 4294967296.
Proof.
  intros Hm. unfold getb. destruct (m !! _) as [w|] eqn:E; [|cbn; lia].
  exact (Forall_lookup_1 _ _ _ _ Hm E).
Qed.

(** A word masked to its low [n] bits. *)
Lemma land_low_bits x n j :
  0 <= n <= 32 → 0 <= j < 32 →
  Z.testbit (Z.land x (Z.shiftr 4294967295 (32 - n))) j = Z.testbit x j && (j <? n).
Proof.
  intros Hn Hj. change 4294967295 with (Z.ones 32).
  rewrite Z.land_spec, Z.shiftr_spec by lia.
  destruct (Z.ltb_spec j n).
  - by rewrite Z.ones_spec_low by lia.
  - by rewrite Z.ones_spec_high by lia.
Qed.

Lemma land_shiftr_range x n :
  0 <= x < 4294967296 → 0 <= n <= 32 →
  0 <= Z.land x (Z.shiftr 4294967295 (32 - n)) < 4294967296.
Proof.
  intros Hx Hn. split; [apply Z.land_nonneg; lia|].
  apply (bounded_testbit 32); [lia|apply Z.land_nonneg; lia|].
  intros i Hi. rewrite Z.land_spec. by rewrite (testbit_bounded 32) by (done || lia).
Qed.

(** The partial last word. *)
Lemma find_in_last_spec P result size w :
  0 < size <= 32 → 0 <= w < 4294967296 →
  (∀ j, 0 <= j < size → P (result + j) = Z.testbit w j) →
  least_bit P result (result + size) (find_in_last result size w).
Proof.
  intros Hs Hw HP. unfold find_in_last, BITS_PER_LONG.
  pose proof (land_shiftr_range w size Hw ltac:(lia)) as Hr.
  set (tmp := Z.land _ _) in *.
  assert (Ht : ∀ j, 0 <= j < 32 → Z.testbit tmp j = Z.testbit w j && (j <? size)).
  { intros. apply land_low_bits; lia. }
  destruct (Z.eqb_spec tmp 0) as [E|E].
  - split_and!; [lia|lia|lia|]. intros i Hi.
    replace i with (result + (i - result)) by lia. rewrite HP by lia.
    specialize (Ht (i - result) ltac:(lia)). rewrite E, Z.bits_0 in Ht.
    destruct (Z.ltb_spec (i - result) size); [|lia]. by rewrite andb_true_r in Ht.
  - destruct (find_lsb_set_spec tmp ltac:(lia)) as (Hb & Hset & Hlow). cbv zeta in *.
    set (r := find_lsb_set tmp - 1) in *.
    pose proof (Ht r Hb) as Hrb. rewrite Hset in Hrb. symmetry in Hrb.
    apply andb_true_iff in Hrb as [Hwr Hlt]. apply Z.ltb_lt in Hlt.
    split_and!; [lia|lia|intros _; by rewrite HP by lia|].
    intros i Hi. replace i with (result + (i - result)) by lia. rewrite HP by lia.
    specialize (Ht (i - result) ltac:(lia)). rewrite Hlow in Ht by lia.
    destruct (Z.ltb_spec (i - result) size); [|lia]. by rewrite andb_true_r in Ht.
Qed.

(** A whole word that has a set bit. *)
Lemma find_in_word_spec P result size w :
  32 <= size → 0 < w < 4294967296 →
  (∀ j, 0 <= j < 32 → P (result + j) = Z.testbit w j) →
  least_bit P result (result + size) (result + (find_lsb_set w - 1)).
Proof.
  intros Hs Hw HP. destruct (find_lsb_set_spec w Hw) as (Hb & Hset & Hlow).
  cbv zeta in *. set (r := find_lsb_set w - 1) in *.
  split_and!; [lia|lia|intros _; by rewrite HP by lia|].
  intros i Hi. replace i with (result + (i - result)) by lia.
  rewrite HP by lia. apply Hlow. lia.
Qed.

Lemma least_bit_skip P off mid size r :
  off <= mid → (∀ i, off <= i < mid → P i = false) →
  least_bit P mid size r → least_bit P off size r.
Proof.
  intros Hm Hf (H1 & H2 & H3). split_and!; [lia|lia|done|].
  intros i Hi. destruct (decide (i < mid)); [apply Hf|apply H3]; lia.
Qed.

Lemma find_in_words_spec P p result size :
  words_ok p → 0 <= size <= 32 * Z.of_nat (length p) →
  (∀ j, 0 <= j < size → P (result + j) = map_bit p j) →
  least_bit P result (result + size) (find_in_words p result size).
Proof.
  revert result size. induction p as [|w p IH]; intros result size Hp Hs HP.
  - cbn in Hs. replace size with 0 by lia. cbn. rewrite Z.add_0_r.
    split_and!; [lia|lia|lia|]. intros. lia.
  - inversion Hp; subst. cbn [find_in_words]. unfold BITS_PER_LONG.
    destruct (Z.ltb_spec size 32).
    + destruct (Z.eqb_spec size 0) as [->|].
      { rewrite Z.add_0_r. split_and!; [lia|lia|lia|]. intros. lia. }
      apply find_in_last_spec; [lia|done|]. intros j Hj. rewrite HP by done.
      unfold map_bit. by rewrite Z.div_small, Z.mod_small by lia.
    + assert (HP0 : ∀ j, 0 <= j < 32 → P (result + j) = Z.testbit w j).
      { intros j Hj. rewrite HP by lia. unfold map_bit.
        by rewrite Z.div_small, Z.mod_small by lia. }
      destruct (Z.eqb_spec w 0) as [->|Hw]; cbn [negb].
      * apply (least_bit_skip _ _ (result + 32)); [lia| |].
        { intros i Hi. replace i with (result + (i - result)) by lia.
          rewrite HP0 by lia. apply Z.bits_0. }
        replace (result + size) with (result + 32 + (size - 32)) by lia.
        apply IH; [done|cbn [length] in Hs; lia|]. intros j Hj.
        replace (result + 32 + j) with (result + (j + 1 * 32)) by lia.
        rewrite HP by lia. unfold map_bit. rewrite Z.div_add, Z.mod_add by lia.
        f_equal. unfold getb. assert (0 <= j / 32) by (apply Z.div_pos; lia).
        replace (Z.to_nat (j / 32 + 1)) with (S (Z.to_nat (j / 32))) by lia. done.
      * apply find_in_word_spec; [done|lia|done].
Qed.

Lemma find_first_bit_spec m size :
  words_ok m → 0 <= size <= 32 * Z.of_nat (length m) →
  least_bit (map_bit m) 0 size (find_first_bit m size).
Proof. intros. by apply (find_in_words_spec (map_bit m) m 0 size). Qed.

Lemma land_lnot_31 off : 0 <= off → Z.land off (Z.lnot (BITS_PER_LONG - 1)) = 32 * (off / 32).
Proof.
  intros. change (BITS_PER_LONG - 1) with (Z.ones 5). rewrite <- Z.ldiff_land.
  rewrite Z.ldiff_ones_r by lia. rewrite Z.shiftl_mul_pow2, Z.shiftr_div_pow2 by lia.
  change (2 ^ 5) with 32. lia.
Qed.

Lemma map_bit_drop m k j :
  0 <= k → 0 <= j → map_bit (drop (Z.to_nat k) m) j = map_bit m (32 * k + j).
Proof.
  intros. unfold map_bit. rewrite getb_drop by (done || apply Z.div_pos; lia).
  replace (32 * k + j) with (j + k * 32) by lia.
  rewrite Z.div_add, Z.mod_add by lia. f_equal. f_equal. lia.
Qed.

(** A word masked to its bits from [n] on. *)
Lemma land_high_bits x n j :
  0 <= n < 32 → 0 <= j < 32 →
  Z.testbit (Z.land x (u32 (Z.shiftl 4294967295 n))) j = Z.testbit x j && (n <=? j).
Proof.
  intros Hn Hj. change 4294967295 with (Z.ones 32).
  rewrite Z.land_spec. f_equal. unfold u32. change 4294967296 with (2 ^ 32).
  rewrite Z.mod_pow2_bits_low, Z.shiftl_spec by lia.
  destruct (Z.leb_spec n j).
  - by rewrite Z.ones_spec_low by lia.
  - by rewrite Z.testbit_neg_r by lia.
Qed.

Lemma land_u32_range x y : 0 <= x < 4294967296 → 0 <= Z.land x (u32 y) < 4294967296.
Proof.
  intros Hx. assert (Hy : 0 <= u32 y < 4294967296) by (unfold u32; apply Z.mod_pos_bound; lia).
  split; [apply Z.land_nonneg; lia|].
  apply (bounded_testbit 32); [lia|apply Z.land_nonneg; lia|].
  intros i Hi. rewrite Z.land_spec. by rewrite (testbit_bounded 32) by (done || lia).
Qed.

(** Searching with the bits below [off] masked is searching from [off]. *)
Lemma least_bit_mask P off result size r :
  result <= off < size →
  least_bit (λ i, P i && (off <=? i)) result size r → least_bit P off size r.
Proof.
  intros Ho (H1 & H2 & H3). destruct (decide (r < size)) as [Hr|Hr].
  - specialize (H2 Hr). apply andb_true_iff in H2 as [HP Hle]. apply Z.leb_le in Hle.
    split_and!; [lia|lia|done|]. intros i Hi. specialize (H3 i ltac:(lia)). cbv beta in H3.
    destruct (Z.leb_spec off i); [|lia]. by rewrite andb_true_r in H3.
  - split_and!; [lia|lia|lia|]. intros i Hi. specialize (H3 i ltac:(lia)). cbv beta in H3.
    destruct (Z.leb_spec off i); [|lia]. by rewrite andb_true_r in H3.
Qed.

Lemma find_next_bit_spec m size off :
  words_ok m → 0 <= size <= 32 * Z.of_nat (length m) → 0 <= off <= size →
  least_bit (map_bit m) off size (find_next_bit m size off).
Proof.
  intros Hm Hs Ho. unfold find_next_bit. rewrite land_lnot_31 by lia.
  destruct (Z.leb_spec size off).
  { split_and!; [lia|lia|lia|]. intros. lia. }
  unfold BITS_PER_LONG. set (k := off / 32).
  pose proof (Z.div_mod off 32 ltac:(lia)) as Hdm. fold k in Hdm.
  pose proof (Z.mod_pos_bound off 32 ltac:(lia)) as Hmod.
  assert (Hk : 0 <= k) by (apply Z.div_pos; lia).
  assert (Hpd : words_ok (drop (Z.to_nat k) m)) by (by apply Forall_drop).
  assert (Hbit : ∀ j, 0 <= j → map_bit m (32 * k + j) = map_bit (drop (Z.to_nat k) m) j).
  { intros. by rewrite map_bit_drop. }
  assert (Hlen : size - 32 * k <= 32 * Z.of_nat (length (drop (Z.to_nat k) m)))
    by (rewrite length_drop; lia).
  replace size with (32 * k + (size - 32 * k)) at 1 by lia.
  destruct (Z.eqb_spec (off mod 32) 0) as [E0|E0]; cbn [negb].
  { replace off with (32 * k) at 1 by lia.
    apply find_in_words_spec; [done|lia|]. intros. by apply Hbit; lia. }
  apply (least_bit_mask _ off (32 * k)); [lia|].
  set (p := drop (Z.to_nat k) m) in *.
  pose proof (land_u32_range (getb p 0) (Z.shiftl 4294967295 (off mod 32))
                (getb_word p 0 Hpd)) as Hr.
  assert (Hbits : ∀ j, 0 <= j < 32 → map_bit m (32 * k + j) && (off <=? 32 * k + j)
            = Z.testbit (Z.land (getb p 0) (u32 (Z.shiftl 4294967295 (off mod 32)))) j).
  { intros j Hj. rewrite land_high_bits, Hbit by lia. unfold map_bit.
    rewrite Z.div_small, Z.mod_small by lia. f_equal. zbool; lia. }
  set (tmp := Z.land _ _) in *.
  destruct (Z.ltb_spec (size - 32 * k) 32).
  { apply find_in_last_spec; [lia|done|]. intros. apply Hbits. lia. }
  destruct (Z.eqb_spec tmp 0) as [Et|Et]; cbn [negb].
  2:{ apply find_in_word_spec; [lia|lia|done]. }
  apply (least_bit_skip _ _ (32 * k + 32)); [lia| |].
  { intros i Hi. replace i with (32 * k + (i - 32 * k)) by lia.
    rewrite Hbits by lia. by rewrite Et, Z.bits_0. }
  replace (32 * k + (size - 32 * k)) with (32 * k + 32 + (size - 32 * k - 32)) by lia.
  apply find_in_words_spec; [by apply Forall_drop|rewrite length_drop; lia|].
  intros j Hj. change (drop 1 p) with (drop (Z.to_nat 1) p).
  rewrite map_bit_drop, <- Hbit by lia.
  replace (32 * k + 32 + j) with (32 * k + (32 * 1 + j)) by lia.
  destruct (Z.leb_spec off (32 * k + (32 * 1 + j))); [|lia]. by rewrite andb_true_r.
Qed.

(** The word-wise bitmap searches return the least set bit at or after the
    start position, or the size when there is none, for sizes and positions of
    any alignment. *)
Theorem bit_search_least m size off :
  words_ok m → 0 <= size <= 32 * Z.of_nat (length m) → 0 <= off <= size →
  least_bit (map_bit m) 0 size (find_first_bit m size) ∧
  least_bit (map_bit m) off size (find_next_bit m size off).
Proof. split; [by apply find_first_bit_spec|by apply find_next_bit_spec]. Qed.

Lemma bit_search_least_witness :
  least_bit (map_bit [0; 4096; 1]) 45 80 (find_next_bit [0; 4096; 1] 80 45).
Proof.
  apply (bit_search_least [0; 4096; 1] 80 45); [|cbn; lia|lia].
  repeat (constructor; [lia|]); constructor.
Defined.

(** ** The bitmap as a set of offsets *)

(** The offset has its bit set. *)
Definition bitmap_has (m : list Z) (offset : Z) : bool := map_bit m (offset / 16).

(** Setting or clearing one bit of a word. *)
Lemma testbit_update w b j (is_set : bool) :
  0 <= w < 4294967296 → 0 <= b < 32 → 0 <= j < 32 →
  Z.testbit (if is_set then Z.lor w (Z.shiftl 1 b)
             else Z.land w (u32 (Z.lnot (Z.shiftl 1 b)))) j
  = if j =? b then is_set else Z.testbit w j.
Proof.
  intros Hw Hb Hj. rewrite Z.shiftl_1_l. destruct is_set.
  - rewrite Z.lor_spec, Z.pow2_bits_eqb by lia. rewrite (Z.eqb_sym b).
    destruct (j =? b); by rewrite ?orb_true_r, ?orb_false_r.
  - rewrite Z.land_spec. unfold u32. change 4294967296 with (2 ^ 32).
    rewrite Z.mod_pow2_bits_low, Z.lnot_spec, Z.pow2_bits_eqb by lia.
    rewrite (Z.eqb_sym b). destruct (j =? b); by rewrite ?andb_false_r, ?andb_true_r.
Qed.

Lemma word_update_range w b (is_set : bool) :
  0 <= w < 4294967296 → 0 <= b < 32 →
  0 <= (if is_set then Z.lor w (Z.shiftl 1 b)
        else Z.land w (u32 (Z.lnot (Z.shiftl 1 b)))) < 4294967296.
Proof.
  intros Hw Hb. destruct is_set; [|by apply land_u32_range].
  apply (lor_bound 32); [lia|done|]. rewrite Z.shiftl_1_l.
  split; [apply Z.pow_nonneg; lia|]. apply Z.pow_lt_mono_r; lia.
Qed.

Lemma item_bitmap_update_spec m i is_set :
  words_ok m → 0 <= i < 32 * Z.of_nat (length m) →
  ∃ m', item_bitmap_update (Some m) (16 * i) is_set = Some m' ∧
    words_ok m' ∧ length m' = length m ∧
    ∀ j, 0 <= j < 32 * Z.of_nat (length m) →
      map_bit m' j = if j =? i then is_set else map_bit m j.
Proof.
  intros Hm Hi. unfold item_bitmap_update, NVRAM_ITEM_ALIGN_SIZE.
  rewrite (Z.mul_comm 16), Z.div_mul by lia.
  pose proof (Z.div_mod i 32 ltac:(lia)). pose proof (Z.mod_pos_bound i 32 ltac:(lia)).
  assert (0 <= i / 32) by (apply Z.div_pos; lia).
  eexists. split; [done|]. split_and!.
  - apply Forall_insert; [done|]. by apply word_update_range; [apply getb_word|].
  - apply length_setb.
  - intros j Hj. unfold map_bit.
    pose proof (Z.div_mod j 32 ltac:(lia)). pose proof (Z.mod_pos_bound j 32 ltac:(lia)).
    assert (0 <= j / 32) by (apply Z.div_pos; lia).
    destruct (decide (j / 32 = i / 32)) as [E|E].
    + rewrite E, getb_setb_eq by lia. rewrite testbit_update by (done || by apply getb_word).
      zbool; done || lia.
    + rewrite getb_setb_ne by lia. destruct (Z.eqb_spec j i); [|done]. subst. done.
Qed.

Lemma item_bitmap_clear_spec m :
  ∃ m', item_bitmap_clear_all (Some m) = Some m' ∧ words_ok m' ∧ length m' = length m ∧
    ∀ j, map_bit m' j = false.
Proof.
  eexists. split; [done|]. split_and!.
  - apply Forall_replicate. lia.
  - apply length_replicate.
  - intros j. unfold map_bit, getb. destruct (replicate _ _ !! _) eqn:E.
    + apply lookup_replicate in E as [-> _]. apply Z.bits_0.
    + apply Z.bits_0.
Qed.
