(* ===== verification/NvramStorage.v ===== *)
(** * NVRAM: flash access

    drivers/nvram/nvram_storage.c on the flash driver, which is a ROM service
    here and enters as the class [FlashDrv], and the region-level accesses of
    nvram_config.c: bounds check, copying through the 128-byte buffer, the
    test for erased areas and the erasure.  All of them work in chunks; the
    theorems say that the chunking is invisible. *)

From stdpp Require Import base numbers list option.
From S2P Require Import Prelude NvramBits.
Local Open Scope Z_scope.

(** ** The flash driver *)

(** [flash_read], [flash_write], [flash_erase]: a result, negative on error,
    and the data or the new contents. *)
Class FlashDrv (F : Type) := {
  flash_read : F → Z → Z → Z * list Z;
  flash_write : F → Z → list Z → Z * F;
  flash_erase : F → Z → Z → Z * F;
}.

(** What a working NOR flash does: reading returns the cells, erasing sets a
    range to 0xff, and programming stores a byte in an erased cell and leaves
    the cells outside the range alone.  What programming does to a cell that
    is not erased is left open. *)
Class FlashLaws (F : Type) `{!FlashDrv F} := {
  cell : F → Z → Z;
  cell_u8 f a : is_u8 (cell f a);
  flash_read_ok f a n : 0 <= n → flash_read f a n = (0, cell f <$> seqZ a n);
  flash_write_ok f a d : (flash_write f a d).1 = 0;
  flash_write_in f a d x :
    a <= x < a + Z.of_nat (length d) → cell f x = 255 → bytes_ok d →
    cell (flash_write f a d).2 x = getb d (x - a);
  flash_write_out f a d x :
    x < a ∨ a + Z.of_nat (length d) <= x → cell (flash_write f a d).2 x = cell f x;
  flash_erase_ok f a n : (flash_erase f a n).1 = 0;
  flash_erase_in f a n x : a <= x < a + n → cell (flash_erase f a n).2 x = 255;
  flash_erase_out f a n x :
    x < a ∨ a + n <= x → cell (flash_erase f a n).2 x = cell f x;
}.


Definition NVRAM_STORAGE_READ_SEGMENT_SIZE : Z := 256.
Definition NVRAM_STORAGE_WRITE_SEGMENT_SIZE : Z := 32.
Definition NVRAM_BUFFER_SIZE : Z := 128.
Definition NVRAM_ERASE_ALIGN_SIZE : Z := 4096.

(** ** Regions *)

(** [struct region_info] without the name and flags. *)
Record region_info := mk_region {
  storage : bool;
  base_addr : Z;
  total_size : Z;
  seg_size : Z;
  seg_offset : Z;
  seg_write_offset : Z;
  seg_seq_id : Z;
  seg_item_map : option (list Z);
}.

Definition region_with_map (m : option (list Z)) (r : region_info) : region_info :=
  mk_region (storage r) (base_addr r) (total_size r) (seg_size r) (seg_offset r)
    (seg_write_offset r) (seg_seq_id r) m.
Definition region_with_write_offset (o : Z) (r : region_info) : region_info :=
  mk_region (storage r) (base_addr r) (total_size r) (seg_size r) (seg_offset r)
    o (seg_seq_id r) (seg_item_map r).
Definition region_with_seg (offset write_offset seq_id : Z) (r : region_info) : region_info :=
  mk_region (storage r) (base_addr r) (total_size r) (seg_size r) offset
    write_offset seq_id (seg_item_map r).
Definition region_with_storage (r : region_info) : region_info :=
  mk_region true (base_addr r) (total_size r) (seg_size r) (seg_offset r)
    (seg_write_offset r) (seg_seq_id r) (seg_item_map r).

(** [user_nvram_region], [factory_nvram_region], [factory_rw_nvram_region] *)
Definition user_nvram_region : region_info :=
  mk_region false 4145152 49152 8192 0 0 0 (Some (replicate 16 0)).
Definition factory_nvram_region : region_info :=
  mk_region false 4128768 8192 4096 0 0 0 None.
Definition factory_rw_nvram_region : region_info :=
  mk_region false 4136960 8192 4096 0 0 0 None.

(** [nvram_region_check_info], [is_in_nvram_region_bounds] *)
Definition nvram_region_check_info : list (Z * Z * Z) :=
  [(4145152, 49152, 8192); (4128768, 8192, 4096); (4136960, 8192, 4096)].
Definition is_in_nvram_region_bounds (r : region_info) : bool :=
  existsb (λ '(b, t, s), (base_addr r =? b) && (total_size r =? t) && (seg_size r =? s))
    nvram_region_check_info.

Section access.
Context {F : Type} `{!FlashDrv F}.
Implicit Types (f : F) (r : region_info).

(** The loop of [nvram_storage_write]; [fuel] bounds the rounds. *)
Fixpoint storage_write_loop (fuel : nat) f (addr : Z) (buf : list Z) : option (Z * F) :=
  match fuel with
  | O => None
  | S fuel' =>
      let size := Z.of_nat (length buf) in
      if size <=? 0 then Some (0, f)
      else
        let wlen := if size <? NVRAM_STORAGE_WRITE_SEGMENT_SIZE then size
                    else NVRAM_STORAGE_WRITE_SEGMENT_SIZE in
        let '(err, f) := flash_write f addr (take (Z.to_nat wlen) buf) in
        if err <? 0 then Some (- EIO, f)
        else storage_write_loop fuel' f (addr + wlen) (drop (Z.to_nat wlen) buf)
  end.

Definition nvram_storage_write f (addr : Z) (buf : list Z) : option (Z * F) :=
  storage_write_loop (S (length buf)) f addr buf.

(** The loop of [nvram_storage_read]: result and bytes. *)
Fixpoint storage_read_loop (fuel : nat) f (addr size : Z) : option (Z * list Z) :=
  match fuel with
  | O => None
  | S fuel' =>
      if size <=? 0 then Some (0, [])
      else
        let rlen := if size <? NVRAM_STORAGE_READ_SEGMENT_SIZE then size
                    else NVRAM_STORAGE_READ_SEGMENT_SIZE in
        let '(err, d) := flash_read f addr rlen in
        if err <? 0 then Some (- EIO, [])
        else match storage_read_loop fuel' f (addr + rlen) (size - rlen) with
             | None => None
             | Some (e, rest) => Some (e, d ++ rest)
             end
  end.

Definition nvram_storage_read f (addr size : Z) : option (Z * list Z) :=
  storage_read_loop (S (Z.to_nat size)) f addr size.

(** [nvram_storage_erase] *)
Definition nvram_storage_erase f (addr size : Z) : Z * F := flash_erase f addr size.

(** The parameter check of [region_read] and [region_write]. *)
Definition region_param_bad r (offset len : Z) : bool :=
  negb (storage r) || negb (is_in_nvram_region_bounds r) ||
  (u32 (total_size r) <? u32 (offset + len)).

(** [region_read] *)
Definition region_read r f (offset len : Z) : option (Z * list Z) :=
  if region_param_bad r offset len then Some (- EINVAL, [])
  else nvram_storage_read f (u32 (base_addr r + offset)) len.

(** [region_write] *)
Definition region_write r f (offset : Z) (buf : list Z) : option (Z * F) :=
  if region_param_bad r offset (Z.of_nat (length buf)) then Some (- EINVAL, f)
  else nvram_storage_write f (u32 (base_addr r + offset)) buf.

(** [region_copy] *)
Fixpoint region_copy_loop (fuel : nat) r f (src_offset dest_offset len : Z)
    : option (Z * F) :=
  match fuel with
  | O => None
  | S fuel' =>
      if len <=? 0 then Some (0, f)
      else
        let write_size := if len <? NVRAM_BUFFER_SIZE then len else NVRAM_BUFFER_SIZE in
        match region_read r f src_offset write_size with
        | None => None
        | Some (err, buf) =>
            if negb (err =? 0) then Some (err, f)
            else match region_write r f dest_offset buf with
                 | None => None
                 | Some (err, f) =>
                     if negb (err =? 0) then Some (err, f)
                     else region_copy_loop fuel' r f (src_offset + write_size)
                            (dest_offset + write_size) (len - write_size)
                 end
        end
  end.

Definition region_copy r f (src_offset dest_offset len : Z) : option (Z * F) :=
  region_copy_loop (S (Z.to_nat len)) r f src_offset dest_offset len.

(** The words of a chunk: all of them 0xffffffff; bytes after the last whole
    word are not looked at. *)
Definition words_empty (d : list Z) (read_size : Z) : bool :=
  forallb (λ b, b =? 255) (take (Z.to_nat (4 * (read_size / 4))) d).

(** [region_is_empy] *)
Fixpoint region_is_empy_loop (fuel : nat) r f (offset size : Z) : option bool :=
  match fuel with
  | O => None
  | S fuel' =>
      if size <=? 0 then Some true
      else
        let read_size := if size <? NVRAM_BUFFER_SIZE then size else NVRAM_BUFFER_SIZE in
        match nvram_storage_read f (u32 (base_addr r + offset)) read_size with
        | None => None
        | Some (_, d) =>
            if words_empty d read_size
            then region_is_empy_loop fuel' r f (offset + read_size) (size - read_size)
            else Some false
        end
  end.

Definition region_is_empy r f (offset size : Z) : option bool :=
  region_is_empy_loop (S (Z.to_nat size)) r f offset size.

(** [region_erase] *)
Fixpoint region_erase_loop (fuel : nat) r f (offset size : Z) : option F :=
  match fuel with
  | O => None
  | S fuel' =>
      if size <=? 0 then Some f
      else
        match region_is_empy r f offset NVRAM_ERASE_ALIGN_SIZE with
        | None => None
        | Some e =>
            let f := if negb e
                     then (nvram_storage_erase f (u32 (base_addr r + offset))
                             NVRAM_ERASE_ALIGN_SIZE).2
                     else f in
            region_erase_loop fuel' r f (offset + NVRAM_ERASE_ALIGN_SIZE)
              (size - NVRAM_ERASE_ALIGN_SIZE)
        end
  end.

Definition region_erase r f (offset size : Z) : option (Z * F) :=
  if negb (storage r) || (u32 (total_size r) <? u32 (offset + size)) ||
     negb (Z.land offset (NVRAM_ERASE_ALIGN_SIZE - 1) =? 0) ||
     negb (Z.land size (NVRAM_ERASE_ALIGN_SIZE - 1) =? 0)
  then Some (- EINVAL, f)
  else (λ f, (0, f)) <$> region_erase_loop (S (Z.to_nat size)) r f offset size.

(** [ROUND_UP(x, align)] of include/misc/util.h, for a power of two *)
Definition round_up (x align : Z) : Z := Z.land (x + (align - 1)) (Z.lnot (align - 1)).

(** [region_clear] *)
Definition region_clear r f (clear_size : Z) : option F :=
  let clear_size := round_up clear_size (seg_size r) in
  let clear_size := if total_size r - seg_size r <? clear_size
                    then total_size r - seg_size r else clear_size in
  let offset := seg_offset r + seg_size r in
  if u32 (total_size r) <? u32 (offset + clear_size) then
    let erase_size := total_size r - offset in
    match region_erase r f offset erase_size with
    | None => None
    | Some (_, f) => snd <$> region_erase r f 0 (clear_size - erase_size)
    end
  else snd <$> region_erase r f offset clear_size.

(** [region_write_data] *)
Fixpoint region_write_data_loop (fuel : nat) r f (offset : Z) (data : list Z) : option F :=
  match fuel with
  | O => None
  | S fuel' =>
      let size := Z.of_nat (length data) in
      if size <=? 0 then Some f
      else
        let wsize := if size <? NVRAM_BUFFER_SIZE then size else NVRAM_BUFFER_SIZE in
        match region_write r f offset (take (Z.to_nat wsize) data) with
        | None => None
        | Some (_, f) => region_write_data_loop fuel' r f (offset + wsize)
                           (drop (Z.to_nat wsize) data)
        end
  end.

Definition region_write_data r f (offset : Z) (data : list Z) : option F :=
  region_write_data_loop (S (length data)) r f offset data.
End access.

(** ** The chunks are invisible *)

Section access_laws.
Context {F : Type} `{!FlashDrv F} `{!FlashLaws F}.
Implicit Types (f : F) (r : region_info).

(** The [n] cells at [a]. *)
Definition cells f (a n : Z) : list Z := cell f <$> seqZ a n.

(** The range is erased. *)
Definition erased f (a n : Z) : Prop := ∀ x, a <= x < a + n → cell f x = 255.

(** [f'] is [f] with [d] stored at [a]. *)
Definition programmed f f' (a : Z) (d : list Z) : Prop :=
  ∀ x, cell f' x = if (a <=? x) && (x <? a + Z.of_nat (length d))
                   then getb d (x - a) else cell f x.

Lemma length_cells f a n : length (cells f a n) = Z.to_nat n.
Proof. unfold cells. by rewrite length_fmap, length_seqZ. Qed.

Lemma cells_app f a n m : 0 <= n → 0 <= m → cells f a (n + m) = cells f a n ++ cells f (a + n) m.
Proof. intros. unfold cells. by rewrite seqZ_app, fmap_app by lia. Qed.

Lemma cells_bytes f a n : bytes_ok (cells f a n).
Proof. unfold cells, bytes_ok. apply Forall_fmap, Forall_true. intros x. apply cell_u8. Qed.

Lemma getb_cells f a n i : 0 <= i < n → getb (cells f a n) i = cell f (a + i).
Proof.
  intros Hi. unfold getb, cells. rewrite list_lookup_fmap, lookup_seqZ_lt by lia.
  cbn. f_equal. lia.
Qed.

Lemma cells_ext f f' a n :
  (∀ x, a <= x < a + n → cell f x = cell f' x) → cells f a n = cells f' a n.
Proof.
  intros H. unfold cells. apply list_fmap_ext.
  intros _ x Hx%list_elem_of_lookup_2%elem_of_seqZ. apply H. lia.
Qed.

Lemma cells_eq f a (l : list Z) :
  cells f a (Z.of_nat (length l)) = l ↔
  ∀ i, 0 <= i < Z.of_nat (length l) → cell f (a + i) = getb l i.
Proof.
  split.
  - intros H i Hi. rewrite <- H. by rewrite getb_cells.
  - intros H. apply (list_eq_same_length _ _ (length l)); [done|rewrite length_cells; lia|].
    intros i x y Hi Hx Hy. unfold cells in Hx.
    rewrite list_lookup_fmap, lookup_seqZ_lt in Hx by lia. injection Hx as <-.
    rewrite H by lia. unfold getb. by rewrite Nat2Z.id, Hy.
Qed.

Lemma erased_cells f a n : erased f a n → cells f a n = replicate (Z.to_nat n) 255.
Proof.
  intros H. apply (list_eq_same_length _ _ (Z.to_nat n)).
  - apply length_replicate.
  - apply length_cells.
  - intros i x y Hi Hx Hy. apply lookup_replicate in Hy as [-> _]. unfold cells in Hx.
    rewrite list_lookup_fmap, lookup_seqZ_lt in Hx by lia. injection Hx as <-. apply H. lia.
Qed.

Lemma storage_read_loop_spec fuel f a n :
  0 <= n → (Z.to_nat n < fuel)%nat → storage_read_loop fuel f a n = Some (0, cells f a n).
Proof.
  revert a n. induction fuel as [|fuel IH]; intros a n Hn Hfuel; [lia|].
  cbn [storage_read_loop]. unfold NVRAM_STORAGE_READ_SEGMENT_SIZE.
  destruct (Z.leb_spec n 0).
  { by replace n with 0 by lia. }
  set (rlen := if n <? 256 then n else 256).
  assert (Hr : 0 < rlen <= n) by (subst rlen; zbool; lia).
  rewrite flash_read_ok by lia. cbn [Z.ltb Z.compare].
  rewrite IH by lia. do 2 f_equal. fold (cells f a rlen).
  rewrite <- cells_app by lia. f_equal. lia.
Qed.

Lemma nvram_storage_read_spec f a n :
  0 <= n → nvram_storage_read f a n = Some (0, cells f a n).
Proof. intros. apply storage_read_loop_spec; lia. Qed.

Lemma programmed_nil f a : programmed f f a [].
Proof. intros x. cbn. zbool; done || lia. Qed.

Lemma programmed_app f f1 f2 a d1 d2 :
  programmed f f1 a d1 → programmed f1 f2 (a + Z.of_nat (length d1)) d2 →
  programmed f f2 a (d1 ++ d2).
Proof.
  intros H1 H2 x. rewrite H2, H1, length_app, Nat2Z.inj_add.
  zbool; cbn [andb]; try lia; try done; unfold getb;
    first [rewrite lookup_app_l by lia; done
          |rewrite lookup_app_r by lia; do 2 f_equal; lia].
Qed.

Lemma programmed_out f f' a d x :
  programmed f f' a d → x < a ∨ a + Z.of_nat (length d) <= x → cell f' x = cell f x.
Proof. intros H Hx. rewrite H. zbool; done || lia. Qed.

Lemma programmed_cells f f' a d :
  programmed f f' a d → cells f' a (Z.of_nat (length d)) = d.
Proof.
  intros H. apply cells_eq. intros i Hi. rewrite H.
  destruct (Z.leb_spec a (a + i)); [|lia].
  destruct (Z.ltb_spec (a + i) (a + Z.of_nat (length d))); [|lia].
  cbn [andb]. f_equal. lia.
Qed.

Lemma flash_write_programmed f a d :
  erased f a (Z.of_nat (length d)) → bytes_ok d → programmed f (flash_write f a d).2 a d.
Proof.
  intros He Hd x. destruct (decide (a <= x < a + Z.of_nat (length d))) as [Hx|Hx].
  - rewrite flash_write_in by (done || by apply He). zbool; done || lia.
  - rewrite flash_write_out by lia. zbool; done || lia.
Qed.

Lemma storage_write_loop_spec fuel f a d :
  (length d < fuel)%nat → erased f a (Z.of_nat (length d)) → bytes_ok d →
  ∃ f', storage_write_loop fuel f a d = Some (0, f') ∧ programmed f f' a d.
Proof.
  revert f a d. induction fuel as [|fuel IH]; intros f a d Hfuel He Hd; [lia|].
  cbn [storage_write_loop]. unfold NVRAM_STORAGE_WRITE_SEGMENT_SIZE.
  destruct (Z.leb_spec (Z.of_nat (length d)) 0).
  { exists f. split; [done|]. rewrite (nil_length_inv d) by lia. apply programmed_nil. }
  set (wlen := if _ <? 32 then _ else 32).
  assert (Hw : 0 < wlen <= Z.of_nat (length d)) by (subst wlen; zbool; lia).
  pose proof (flash_write_ok f a (take (Z.to_nat wlen) d)) as Hok.
  assert (Hl : Z.of_nat (length (take (Z.to_nat wlen) d)) = wlen)
    by (rewrite length_take; lia).
  pose proof (flash_write_programmed f a (take (Z.to_nat wlen) d)) as Hp.
  destruct (flash_write f a (take (Z.to_nat wlen) d)) as [err f1].
  cbn [fst snd] in *. subst err. cbn [Z.ltb Z.compare].
  assert (Hp1 : programmed f f1 a (take (Z.to_nat wlen) d)).
  { apply Hp; [|by apply Forall_take]. intros x Hx. apply He. lia. }
  destruct (IH f1 (a + wlen) (drop (Z.to_nat wlen) d)) as (f' & -> & Hp2).
  - rewrite length_drop. lia.
  - intros x Hx. rewrite length_drop in Hx.
    rewrite (programmed_out _ _ _ _ x Hp1) by lia. apply He. lia.
  - by apply Forall_drop.
  - exists f'. split; [done|]. rewrite <- (take_drop (Z.to_nat wlen) d).
    eapply programmed_app; [done|]. by rewrite Hl.
Qed.

Lemma nvram_storage_write_spec f a d :
  erased f a (Z.of_nat (length d)) → bytes_ok d →
  ∃ f', nvram_storage_write f a d = Some (0, f') ∧ programmed f f' a d.
Proof. apply storage_write_loop_spec. lia. Qed.

(** *** Regions of the board *)

Definition region_ok r : Prop :=
  storage r = true ∧ is_in_nvram_region_bounds r = true.

Lemma region_ok_bounds r :
  region_ok r →
  0 < base_addr r ∧ base_addr r + total_size r <= 4194304 ∧
  (seg_size r = 4096 ∧ total_size r = 8192 ∨ seg_size r = 8192 ∧ total_size r = 49152).
Proof.
  intros [_ H]. unfold is_in_nvram_region_bounds, nvram_region_check_info in H.
  cbn [existsb] in H. zbool; cbn in H; try done; lia.
Qed.

Lemma region_param_good r off n :
  region_ok r → 0 <= off → 0 <= n → off + n <= total_size r →
  region_param_bad r off n = false ∧ u32 (base_addr r + off) = base_addr r + off.
Proof.
  intros Hr Ho Hn Hb. pose proof (region_ok_bounds r Hr) as (H1 & H2 & H3).
  destruct Hr as [Hs Hi]. unfold region_param_bad. rewrite Hs, Hi. cbn [negb orb].
  rewrite !u32_id by lia. split; [|done]. apply Z.ltb_ge. lia.
Qed.

Lemma region_read_spec r f off n :
  region_ok r → 0 <= off → 0 <= n → off + n <= total_size r →
  region_read r f off n = Some (0, cells f (base_addr r + off) n).
Proof.
  intros Hr Ho Hn Hb. destruct (region_param_good r off n) as [Hp Hu]; [done..|].
  unfold region_read. rewrite Hp, Hu. by apply nvram_storage_read_spec.
Qed.

Lemma region_write_spec r f off d :
  region_ok r → 0 <= off → off + Z.of_nat (length d) <= total_size r →
  erased f (base_addr r + off) (Z.of_nat (length d)) → bytes_ok d →
  ∃ f', region_write r f off d = Some (0, f') ∧ programmed f f' (base_addr r + off) d.
Proof.
  intros Hr Ho Hb He Hd.
  destruct (region_param_good r off (Z.of_nat (length d))) as [Hp Hu]; [done|lia..|].
  unfold region_write. rewrite Hp, Hu. by apply nvram_storage_write_spec.
Qed.

Lemma region_write_data_loop_spec fuel r f off d :
  region_ok r → 0 <= off → off + Z.of_nat (length d) <= total_size r →
  (length d < fuel)%nat → erased f (base_addr r + off) (Z.of_nat (length d)) → bytes_ok d →
  ∃ f', region_write_data_loop fuel r f off d = Some f' ∧
        programmed f f' (base_addr r + off) d.
Proof.
  intros Hr. revert f off d. induction fuel as [|fuel IH]; intros f off d Ho Hb Hfuel He Hd;
    [lia|].
  cbn [region_write_data_loop]. unfold NVRAM_BUFFER_SIZE.
  destruct (Z.leb_spec (Z.of_nat (length d)) 0).
  { exists f. split; [done|]. rewrite (nil_length_inv d) by lia. apply programmed_nil. }
  set (wlen := if _ <? 128 then _ else 128).
  assert (Hw : 0 < wlen <= Z.of_nat (length d)) by (subst wlen; zbool; lia).
  assert (Hl : Z.of_nat (length (take (Z.to_nat wlen) d)) = wlen)
    by (rewrite length_take; lia).
  destruct (region_write_spec r f off (take (Z.to_nat wlen) d)) as (f1 & -> & Hp1);
    [done|done|lia|intros x Hx; apply He; lia|by apply Forall_take|].
  destruct (IH f1 (off + wlen) (drop (Z.to_nat wlen) d)) as (f' & -> & Hp2).
  - lia.
  - rewrite length_drop. lia.
  - rewrite length_drop. lia.
  - intros x Hx. rewrite length_drop in Hx.
    rewrite (programmed_out _ _ _ _ x Hp1) by lia. apply He. lia.
  - by apply Forall_drop.
  - exists f'. split; [done|]. rewrite <- (take_drop (Z.to_nat wlen) d).
    eapply programmed_app; [done|]. by rewrite Hl, <- Z.add_assoc.
Qed.

Lemma region_write_data_spec r f off d :
  region_ok r → 0 <= off → off + Z.of_nat (length d) <= total_size r →
  erased f (base_addr r + off) (Z.of_nat (length d)) → bytes_ok d →
  ∃ f', region_write_data r f off d = Some f' ∧ programmed f f' (base_addr r + off) d.
Proof. intros. apply region_write_data_loop_spec; done || lia. Qed.

Lemma region_copy_loop_spec fuel r f src dst n :
  region_ok r → 0 <= src → 0 <= dst → 0 <= n → src + n <= total_size r →
  dst + n <= total_size r → (src + n <= dst ∨ dst + n <= src) → (Z.to_nat n < fuel)%nat →
  erased f (base_addr r + dst) n →
  ∃ f', region_copy_loop fuel r f src dst n = Some (0, f') ∧
        programmed f f' (base_addr r + dst) (cells f (base_addr r + src) n).
Proof.
  intros Hr. revert f src dst n. induction fuel as [|fuel IH];
    intros f src dst n Hs Hd Hn Hsb Hdb Hdis Hfuel He; [lia|].
  cbn [region_copy_loop]. unfold NVRAM_BUFFER_SIZE. destruct (Z.leb_spec n 0).
  { exists f. split; [done|]. replace n with 0 by lia. apply programmed_nil. }
  set (w := if n <? 128 then n else 128).
  assert (Hw : 0 < w <= n) by (subst w; zbool; lia).
  rewrite region_read_spec by (done || lia). cbn [Z.eqb negb].
  assert (Hl : Z.of_nat (length (cells f (base_addr r + src) w)) = w)
    by (rewrite length_cells; lia).
  destruct (region_write_spec r f dst (cells f (base_addr r + src) w)) as (f1 & -> & Hp1);
    [done|done|lia|intros x Hx; apply He; lia|apply cells_bytes|]. cbn [Z.eqb negb].
  destruct (IH f1 (src + w) (dst + w) (n - w)) as (f' & -> & Hp2); try lia.
  - intros x Hx. rewrite (programmed_out _ _ _ _ x Hp1) by lia. apply He. lia.
  - exists f'. split; [done|]. replace n with (w + (n - w)) by lia.
    rewrite cells_app by lia. eapply programmed_app; [done|]. rewrite Hl.
    rewrite <- !Z.add_assoc. rewrite <- (cells_ext f1 f); [done|].
    intros x Hx. apply (programmed_out _ _ _ _ x Hp1). lia.
Qed.

Lemma region_copy_spec r f src dst n :
  region_ok r → 0 <= src → 0 <= dst → 0 <= n → src + n <= total_size r →
  dst + n <= total_size r → (src + n <= dst ∨ dst + n <= src) →
  erased f (base_addr r + dst) n →
  ∃ f', region_copy r f src dst n = Some (0, f') ∧
        programmed f f' (base_addr r + dst) (cells f (base_addr r + src) n).
Proof. intros. apply region_copy_loop_spec; done || lia. Qed.

(** *** Erased areas *)

Lemma words_empty_erased f a n :
  0 <= n → (4 | n) → words_empty (cells f a n) n = true ↔ erased f a n.
Proof.
  intros Hn [k ->]. unfold words_empty. rewrite Z.div_mul by lia.
  rewrite take_ge by (rewrite length_cells; lia). rewrite forallb_forall. split.
  - intros H x Hx. apply Z.eqb_eq, H. apply list_elem_of_In, list_elem_of_fmap.
    exists x. split; [done|]. apply elem_of_seqZ. lia.
  - intros H b Hb%list_elem_of_In%list_elem_of_fmap. destruct Hb as (x & -> & Hx%elem_of_seqZ).
    apply Z.eqb_eq, H. lia.
Qed.

Lemma region_is_empy_loop_spec fuel r f off n :
  region_ok r → 0 <= off → 0 <= n → off + n <= total_size r → (4 | n) →
  (Z.to_nat n < fuel)%nat →
  ∃ e, region_is_empy_loop fuel r f off n = Some e ∧
       (e = true ↔ erased f (base_addr r + off) n).
Proof.
  intros Hr. revert off n. induction fuel as [|fuel IH]; intros off n Ho Hn Hb Hd Hfuel; [lia|].
  cbn [region_is_empy_loop]. unfold NVRAM_BUFFER_SIZE. destruct (Z.leb_spec n 0).
  { exists true. split; [done|]. split; [|done]. intros _ x Hx. lia. }
  set (w := if n <? 128 then n else 128).
  assert (Hw : 0 < w <= n) by (subst w; zbool; lia).
  assert (Hdw : (4 | w)) by (subst w; destruct (n <? 128); [done|by exists 32]).
  destruct (region_param_good r off w) as [_ ->]; [done|lia..|].
  rewrite nvram_storage_read_spec by lia.
  pose proof (words_empty_erased f (base_addr r + off) w ltac:(lia) Hdw) as Hwe.
  destruct (words_empty _ w).
  - destruct (IH (off + w) (n - w)) as (e & -> & He); [lia..|by apply Z.divide_sub_r|lia|].
    exists e. split; [done|]. rewrite He. split.
    + intros H2 x Hx. destruct (decide (x < base_addr r + off + w)).
      * apply Hwe; [done|lia].
      * apply H2. lia.
    + intros H2 x Hx. apply H2. lia.
  - exists false. split; [done|]. split; [done|]. intros H2.
    apply Hwe. intros x Hx. apply H2. lia.
Qed.

Lemma region_is_empy_spec r f off n :
  region_ok r → 0 <= off → 0 <= n → off + n <= total_size r → (4 | n) →
  ∃ e, region_is_empy r f off n = Some e ∧ (e = true ↔ erased f (base_addr r + off) n).
Proof. intros. apply region_is_empy_loop_spec; done || lia. Qed.

(** [f'] is [f] with [n] cells at [a] erased. *)
Definition wiped f f' (a n : Z) : Prop :=
  erased f' a n ∧ ∀ x, x < a ∨ a + n <= x → cell f' x = cell f x.

Lemma region_erase_loop_spec fuel r f off n :
  region_ok r → 0 <= off → 0 <= n → off + n <= total_size r → (4096 | n) →
  (Z.to_nat n < fuel)%nat →
  ∃ f', region_erase_loop fuel r f off n = Some f' ∧ wiped f f' (base_addr r + off) n.
Proof.
  intros Hr. revert f off n. induction fuel as [|fuel IH]; intros f off n Ho Hn Hb Hd Hfuel; [lia|].
  cbn [region_erase_loop]. unfold NVRAM_ERASE_ALIGN_SIZE. destruct (Z.leb_spec n 0).
  { exists f. split; [done|]. split; [|done]. intros x Hx. lia. }
  assert (4096 <= n) by (apply Z.divide_pos_le; [lia|done]).
  destruct (region_is_empy_spec r f off 4096) as (e & -> & He); [done|lia..|by exists 1024|].
  destruct (region_param_good r off 4096) as [_ ->]; [done|lia..|].
  set (f1 := if negb e then _ else f).
  assert (Hw1 : wiped f f1 (base_addr r + off) 4096).
  { subst f1. unfold nvram_storage_erase. destruct e; cbn [negb].
    - split; [by apply He|done].
    - split; [intros x Hx; by apply flash_erase_in|intros x Hx; by apply flash_erase_out]. }
  destruct Hw1 as [Hw1 Hw1o].
  destruct (IH f1 (off + 4096) (n - 4096)) as (f' & -> & Hw2 & Hw2o);
    [lia..|apply Z.divide_sub_r; [done|by exists 1]|lia|].
  exists f'. split; [done|]. split.
  - intros x Hx. destruct (decide (x < base_addr r + off + 4096)).
    + rewrite Hw2o by lia. apply Hw1. lia.
    + apply Hw2. lia.
  - intros x Hx. rewrite Hw2o by lia. apply Hw1o. lia.
Qed.

Lemma land_4095 x : 0 <= x → (4096 | x) → Z.land x (NVRAM_ERASE_ALIGN_SIZE - 1) = 0.
Proof.
  intros Hx [k ->]. change (NVRAM_ERASE_ALIGN_SIZE - 1) with (Z.ones 12).
  rewrite Z.land_ones by lia. change (2 ^ 12) with 4096. apply Z.mod_mul. lia.
Qed.

Lemma region_erase_spec r f off n :
  region_ok r → 0 <= off → 0 <= n → off + n <= total_size r → (4096 | off) → (4096 | n) →
  ∃ f', region_erase r f off n = Some (0, f') ∧ wiped f f' (base_addr r + off) n.
Proof.
  intros Hr Ho Hn Hb Hdo Hdn. unfold region_erase.
  pose proof (region_ok_bounds r Hr) as (H1 & H2 & H3).
  rewrite (proj1 Hr), !land_4095 by done. rewrite !u32_id by lia.
  destruct (Z.ltb_spec (total_size r) (off + n)); [lia|]. cbn [negb orb Z.eqb].
  destruct (region_erase_loop_spec (S (Z.to_nat n)) r f off n) as (f' & -> & Hw);
    [done..|lia|]. eauto.
Qed.
End access_laws.
