(* ===== verification/NvramConfig.v ===== *)
(** * NVRAM: items, segments and the configuration API

    The logic of drivers/nvram/nvram_config.c: items of a segment (header,
    name, data, state byte), the search by name through the bitmap, writing,
    the copy of the valid items into a fresh segment when the current one is
    full, the scan at start-up, and the calls other components use.  A region
    keeps its segment position in [region_info]; the flash and the region are
    the state of a small monad in which [None] means that a loop ran out of
    its fuel. *)

From stdpp Require Import base numbers list option.
From S2P Require Import Prelude NvramBits NvramStorage.
Local Open Scope Z_scope.

Definition NVRAM_MAX_NAME_SIZE : Z := 112.
Definition NVRAM_MAX_DATA_SIZE : Z := 512.
Definition NVRAM_REGION_SEG_VERSION : Z := 1.
Definition NVRAM_REGION_SEG_MAGIC : Z := 1381189198.
Definition NVRAM_REGION_ITEM_MAGIC : Z := 73.
Definition NVRAM_SEG_STATE_VALID : Z := 255.
Definition NVRAM_SEG_STATE_OBSOLETE : Z := 90.
Definition NVRAM_ITEM_STATE_VALID : Z := 255.
Definition NVRAM_ITEM_STATE_OBSOLETE : Z := 90.

(** ** Data layout *)

(** [struct nvram_item], eight bytes, [data_size] little-endian. *)
Record nvram_item := mk_item {
  it_magic : Z; it_state : Z; it_crc : Z; it_hash : Z; it_reserved : Z;
  it_name_size : Z; it_data_size : Z;
}.

Definition le16 (lo hi : Z) : Z := lo + 256 * hi.

Definition item_of_bytes (b : list Z) : nvram_item :=
  mk_item (getb b 0) (getb b 1) (getb b 2) (getb b 3) (getb b 4) (getb b 5)
    (le16 (getb b 6) (getb b 7)).
Definition item_to_bytes (i : nvram_item) : list Z :=
  [it_magic i; it_state i; it_crc i; it_hash i; it_reserved i; it_name_size i;
   it_data_size i mod 256; it_data_size i / 256].
(** The header bytes the CRC covers: from the hash on. *)
Definition item_crc_part (i : nvram_item) : list Z := drop 3 (item_to_bytes i).

Definition ITEM_HDR_SIZE : Z := 8.

(** [struct region_seg_header], sixteen bytes. *)
Record seg_header := mk_seg_header {
  sh_magic : Z; sh_state : Z; sh_crc : Z; sh_version : Z; sh_reserved : Z;
  sh_seq_id : Z; sh_head_size : Z; sh_seg_size : Z; sh_reserved2 : list Z;
}.

Definition hdr_of_bytes (b : list Z) : seg_header :=
  mk_seg_header
    (getb b 0 + 256 * getb b 1 + 65536 * getb b 2 + 16777216 * getb b 3)
    (getb b 4) (getb b 5) (getb b 6) (getb b 7) (getb b 8) (getb b 9)
    (le16 (getb b 10) (getb b 11)) (slice b 12 4).
Definition hdr_to_bytes (h : seg_header) : list Z :=
  [sh_magic h mod 256; sh_magic h / 256 mod 256; sh_magic h / 65536 mod 256;
   sh_magic h / 16777216 mod 256; sh_state h; sh_crc h; sh_version h; sh_reserved h;
   sh_seq_id h; sh_head_size h; sh_seg_size h mod 256; sh_seg_size h / 256 mod 256]
  ++ sh_reserved2 h.
(** The bytes its CRC covers: from the version on. *)
Definition hdr_crc_part (h : seg_header) : list Z := drop 6 (hdr_to_bytes h).

Definition SEG_HDR_SIZE : Z := 16.

Inductive item_status :=
  | ITEM_STATUS_EMPTY | ITEM_STATUS_VALID | ITEM_STATUS_OBSOLETE | ITEM_STATUS_INVALID.

(** [item_is_empty]: every header byte is 0xff. *)
Definition item_is_empty (i : nvram_item) : bool :=
  forallb (λ b, b =? 255) (item_to_bytes i).

(** [item_calc_real_size], [item_calc_aligned_size], [item_get_real_size],
    [item_get_aligned_size] *)
Definition item_calc_real_size (name_size data_size : Z) : Z :=
  ITEM_HDR_SIZE + name_size + data_size.
Definition item_calc_aligned_size (name_size data_size : Z) : Z :=
  round_up (item_calc_real_size name_size data_size) NVRAM_ITEM_ALIGN_SIZE.
Definition item_get_real_size (i : nvram_item) : Z :=
  item_calc_real_size (it_name_size i) (it_data_size i).
Definition item_get_aligned_size (i : nvram_item) : Z :=
  item_calc_aligned_size (it_name_size i) (it_data_size i).

(** A C string with its terminator. *)
Definition cstr (name : list Z) : list Z := name ++ [0].

(** ** The state monad *)

Section nvram.
Context {F : Type} `{!FlashDrv F}.

Record nv := mk_nv { nv_flash : F; nv_region : region_info }.

Definition M (A : Type) : Type := nv → option (A * nv).
Definition retM {A} (x : A) : M A := λ s, Some (x, s).
Definition bindM {A B} (m : M A) (k : A → M B) : M B :=
  λ s, match m s with None => None | Some (x, s') => k x s' end.
Definition get_region : M region_info := λ s, Some (nv_region s, s).
Definition mod_region (g : region_info → region_info) : M unit :=
  λ s, Some (tt, mk_nv (nv_flash s) (g (nv_region s))).
Definition stuckM {A} : M A := λ _, None.

Local Notation "'lets' x ':=' m 'in' k" := (bindM m (fun x => k))
  (at level 10, x binder, m at level 100, k at level 200).

(** Flash accesses of the current region. *)
Definition readM (offset len : Z) : M (Z * list Z) :=
  λ s, (λ r, (r, s)) <$> region_read (nv_region s) (nv_flash s) offset len.
Definition on_flash {A} (g : region_info → F → option (A * F)) : M A :=
  λ s, match g (nv_region s) (nv_flash s) with
       | None => None
       | Some (x, f) => Some (x, mk_nv f (nv_region s))
       end.
Definition writeM (offset : Z) (d : list Z) : M Z :=
  on_flash (λ r f, region_write r f offset d).
Definition copyM (src dst len : Z) : M Z :=
  on_flash (λ r f, region_copy r f src dst len).
Definition eraseM (offset size : Z) : M Z :=
  on_flash (λ r f, region_erase r f offset size).
Definition write_dataM (offset : Z) (d : list Z) : M unit :=
  on_flash (λ r f, (λ f, (tt, f)) <$> region_write_data r f offset d).
Definition is_empyM (offset size : Z) : M bool :=
  λ s, (λ e, (e, s)) <$> region_is_empy (nv_region s) (nv_flash s) offset size.
Definition update_map (offset : Z) (is_set : bool) : M unit :=
  mod_region (λ r, region_with_map (item_bitmap_update (seg_item_map r) offset is_set) r).
Definition clear_map : M unit :=
  mod_region (λ r, region_with_map (item_bitmap_clear_all (seg_item_map r)) r).

(** ** Items *)

(** [item_update_state]: the state is the second header byte. *)
Definition item_update_state (item_offset state : Z) : M unit :=
  lets _ := writeM (item_offset + 1) [state] in retM tt.

(** [item_calc_data_crc] *)
Fixpoint item_calc_data_crc_loop (fuel : nat) (offset size crc : Z) : M Z :=
  match fuel with
  | O => stuckM
  | S fuel' =>
      if size <=? 0 then retM crc
      else
        let read_size := if size <? NVRAM_BUFFER_SIZE then size else NVRAM_BUFFER_SIZE in
        lets '(_, d) := readM offset read_size in
        item_calc_data_crc_loop fuel' (offset + read_size) (size - read_size)
          (calc_crc8 d crc)
  end.
Definition item_calc_data_crc (offset size crc : Z) : M Z :=
  item_calc_data_crc_loop (S (Z.to_nat size)) offset size crc.

(** [item_get_item_name]: the name of a valid item, [None] for -1. *)
Definition item_get_item_name (item_offs : Z) (item : nvram_item) (len : Z)
    : M (option (list Z)) :=
  if negb (it_magic item =? NVRAM_REGION_ITEM_MAGIC) then retM None
  else if negb (it_state item =? NVRAM_ITEM_STATE_VALID) then retM None
  else if len <? it_name_size item then retM None
  else lets '(_, d) := readM (item_offs + ITEM_HDR_SIZE) (it_name_size item) in
       retM (Some d).

(** [item_check_validity] *)
Definition item_check_validity (item_offs : Z) (item : nvram_item) (check_crc : bool)
    : M item_status :=
  if negb (it_magic item =? NVRAM_REGION_ITEM_MAGIC) then
    retM (if item_is_empty item then ITEM_STATUS_EMPTY else ITEM_STATUS_INVALID)
  else if negb (it_state item =? NVRAM_ITEM_STATE_VALID) then
    retM (if it_state item =? NVRAM_ITEM_STATE_OBSOLETE then ITEM_STATUS_OBSOLETE
          else ITEM_STATUS_INVALID)
  else
    let name_offset := item_offs + ITEM_HDR_SIZE in
    lets '(_, name) := readM name_offset (it_name_size item) in
    if negb (it_hash item =? calc_hash name) then retM ITEM_STATUS_INVALID
    else if check_crc then
      let crc := calc_crc8 (item_crc_part item) 0 in
      let crc := calc_crc8 name crc in
      lets crc := item_calc_data_crc (name_offset + it_name_size item)
                    (it_data_size item) crc in
      if negb (it_crc item =? crc) then
        lets _ := item_update_state item_offs NVRAM_ITEM_STATE_OBSOLETE in
        retM ITEM_STATUS_INVALID
      else retM ITEM_STATUS_VALID
    else retM ITEM_STATUS_VALID.

(** The loop of [region_find_item]: the offset or an error, the header read
    last and the name read last (which stays in [nvram_buf]). The name test
    is [memcmp] over the stored name's size. *)
Fixpoint find_item_loop (fuel : nat) (name : list Z) (hash offs : Z)
    (item : nvram_item) (buf : list Z) : M (Z * nvram_item * list Z) :=
  match fuel with
  | O => stuckM
  | S fuel' =>
      lets r := get_region in
      if negb (offs <? seg_size r) then retM (- ENOENT, item, buf)
      else
        let item_offs := seg_offset r + offs in
        lets '(_, hdr) := readM item_offs ITEM_HDR_SIZE in
        let item := item_of_bytes hdr in
        if negb (it_magic item =? NVRAM_REGION_ITEM_MAGIC)
        then retM (- ENOENT, item, buf)
        else
          let next buf :=
            find_item_loop fuel' name hash
              (item_bitmap_next_offset (seg_item_map r) (seg_size r)
                 (offs + item_get_aligned_size item)) item buf in
          if (it_state item =? NVRAM_ITEM_STATE_VALID) && (it_hash item =? hash) then
            lets '(_, buf) := readM (item_offs + ITEM_HDR_SIZE) (it_name_size item) in
            if bool_decide (take (Z.to_nat (it_name_size item)) (cstr name) = buf)
            then retM (item_offs, item, buf)
            else next buf
          else next buf
  end.

Definition item_zero : nvram_item := mk_item 0 0 0 0 0 0 0.

(** Items start at multiples of sixteen, so a search has fewer rounds. *)
Definition find_fuel (r : region_info) : nat := S (Z.to_nat (seg_size r)).

(** [region_find_item] *)
Definition region_find_item (name : list Z) : M (Z * nvram_item * list Z) :=
  lets r := get_region in
  find_item_loop (find_fuel r) name (calc_hash (cstr name))
    (item_bitmap_first_offset (seg_item_map r) (seg_size r)) item_zero [].

(** ** Segments *)

(** [region_seg_update_state]: the state is the fifth header byte. *)
Definition region_seg_update_state (seg_offset state : Z) : M unit :=
  lets _ := writeM (seg_offset + 4) [state] in retM tt.

(** The header [region_write_item] builds. *)
Definition new_item (name data : list Z) : nvram_item :=
  let name_size := u8 (Z.of_nat (length (cstr name))) in
  let i := mk_item NVRAM_REGION_ITEM_MAGIC NVRAM_ITEM_STATE_VALID 0
             (calc_hash (take (Z.to_nat name_size) (cstr name))) 0 name_size
             (u16 (Z.of_nat (length data))) in
  let crc := calc_crc8 (item_crc_part i) 0 in
  let crc := calc_crc8 (take (Z.to_nat name_size) (cstr name)) crc in
  let crc := calc_crc8 (take (Z.to_nat (it_data_size i)) data) crc in
  mk_item (it_magic i) (it_state i) crc (it_hash i) 0 name_size (it_data_size i).

(** [region_write_item] *)
Definition region_write_item (offset : Z) (name data : list Z) : M Z :=
  let item := new_item name data in
  let item_data_offs := ITEM_HDR_SIZE + it_name_size item in
  if NVRAM_BUFFER_SIZE <? item_data_offs then retM (- EINVAL)
  else
    lets _ := writeM offset (item_to_bytes item ++
                take (Z.to_nat (it_name_size item)) (cstr name)) in
    lets _ := write_dataM (offset + item_data_offs) data in
    retM (item_data_offs + it_data_size item).

(** The loop of [region_copy_seg]: the new write offset. *)
Fixpoint copy_seg_loop (fuel : nat) (new_seg_offset item_offs new_item_offs limit : Z)
    (check_crc : bool) : M Z :=
  match fuel with
  | O => stuckM
  | S fuel' =>
      if negb (item_offs <? limit) then retM new_item_offs
      else
        lets '(_, hdr) := readM item_offs ITEM_HDR_SIZE in
        let item := item_of_bytes hdr in
        lets status := item_check_validity item_offs item check_crc in
        let size := item_get_aligned_size item in
        match status with
        | ITEM_STATUS_INVALID | ITEM_STATUS_EMPTY => retM new_item_offs
        | ITEM_STATUS_VALID =>
            lets _ := copyM item_offs new_item_offs (item_get_real_size item) in
            lets _ := update_map (new_item_offs - new_seg_offset) true in
            copy_seg_loop fuel' new_seg_offset (item_offs + size)
              (new_item_offs + size) limit check_crc
        | ITEM_STATUS_OBSOLETE =>
            copy_seg_loop fuel' new_seg_offset (item_offs + size) new_item_offs
              limit check_crc
        end
  end.

(** [region_copy_seg] *)
Definition region_copy_seg (new_seg_offset old_seg_offset copy_size : Z)
    (check_crc : bool) : M unit :=
  lets _ := clear_map in
  lets w := copy_seg_loop (S (Z.to_nat copy_size)) new_seg_offset
              (old_seg_offset + NVRAM_SEG_ITEM_START_OFFSET)
              (new_seg_offset + NVRAM_SEG_ITEM_START_OFFSET)
              (old_seg_offset + copy_size) check_crc in
  mod_region (region_with_write_offset w).

(** The header of a new segment. *)
Definition new_seg_header (size seq_id : Z) : seg_header :=
  let h := mk_seg_header NVRAM_REGION_SEG_MAGIC NVRAM_SEG_STATE_VALID 0
             NVRAM_REGION_SEG_VERSION 0 seq_id SEG_HDR_SIZE (u16 size) [0; 0; 0; 0] in
  mk_seg_header (sh_magic h) (sh_state h) (calc_crc8 (hdr_crc_part h) 0) (sh_version h)
    0 seq_id SEG_HDR_SIZE (u16 size) [0; 0; 0; 0].

(** [region_init_new_seg] *)
Definition region_init_new_seg (seg_offset : Z) : M unit :=
  lets r := get_region in
  let h := new_seg_header (seg_size r) (u8 (seg_seq_id r + 1)) in
  lets _ := eraseM seg_offset (seg_size r) in
  lets _ := writeM seg_offset (hdr_to_bytes h) in
  lets _ := mod_region (region_with_seg seg_offset
              (seg_offset + NVRAM_SEG_ITEM_START_OFFSET) (sh_seq_id h)) in
  clear_map.

(** [region_purge_seg] *)
Definition region_purge_seg (check_crc : bool) : M unit :=
  lets r := get_region in
  let new_seg_offset := seg_offset r + seg_size r in
  let new_seg_offset := if total_size r <=? new_seg_offset then 0 else new_seg_offset in
  lets e := is_empyM new_seg_offset (seg_size r) in
  lets _ := (if negb e then lets _ := eraseM new_seg_offset (seg_size r) in retM tt
             else retM tt) in
  let old_seg_offset := seg_offset r in
  let seg_copy_size := seg_write_offset r - seg_offset r in
  lets _ := region_init_new_seg new_seg_offset in
  lets _ := region_copy_seg new_seg_offset old_seg_offset seg_copy_size check_crc in
  region_seg_update_state old_seg_offset NVRAM_SEG_STATE_OBSOLETE.

(** [region_prepare_write_item] *)
Definition region_prepare_write_item (item_size : Z) : M unit :=
  lets r := get_region in
  if seg_offset r + seg_size r <? seg_write_offset r + item_size
  then region_purge_seg false else retM tt.

(** ** Setting and getting *)

(** The comparison loop of [region_is_same_config_data]. *)
Fixpoint same_data_loop (fuel : nat) (offset : Z) (data : list Z) : M bool :=
  match fuel with
  | O => stuckM
  | S fuel' =>
      let len := Z.of_nat (length data) in
      if len <=? 0 then retM true
      else
        let read_size := if len <? NVRAM_BUFFER_SIZE then len else NVRAM_BUFFER_SIZE in
        lets '(_, d) := readM offset read_size in
        if bool_decide (d = take (Z.to_nat read_size) data)
        then same_data_loop fuel' (offset + read_size) (drop (Z.to_nat read_size) data)
        else retM false
  end.

(** [region_is_same_config_data] *)
Definition region_is_same_config_data (name data : list Z) : M bool :=
  lets '(old_item_offs, item, _) := region_find_item name in
  if (0 <? old_item_offs) && (Z.of_nat (length data) =? it_data_size item)
  then same_data_loop (S (length data))
         (old_item_offs + ITEM_HDR_SIZE + it_name_size item) data
  else retM false.

(** The tail of [region_set]: the old item becomes obsolete. *)
Definition obsolete_old (old_item_offs : Z) : M unit :=
  lets r := get_region in
  if 0 <? old_item_offs then
    lets _ := item_update_state old_item_offs NVRAM_ITEM_STATE_OBSOLETE in
    update_map (old_item_offs - seg_offset r) false
  else retM tt.

(** The part of [region_set] that writes, once there is room. *)
Definition region_set_item (name data : list Z) (new_item_size : Z) : M Z :=
  lets '(old_item_offs, _, _) := region_find_item name in
  lets r := get_region in
  lets _ := region_write_item (seg_write_offset r) name data in
  lets _ := update_map (seg_write_offset r - seg_offset r) true in
  lets _ := mod_region (λ r, region_with_write_offset
                          (seg_write_offset r + new_item_size) r) in
  lets _ := obsolete_old old_item_offs in
  retM 0.

(** [region_set]; the empty list deletes. *)
Definition region_set (name data : list Z) : M Z :=
  lets r := get_region in
  let len := Z.of_nat (length data) in
  if NVRAM_MAX_DATA_SIZE <? len then retM (- EINVAL)
  else if negb (is_in_nvram_region_bounds r) then retM (- EINVAL)
  else
    let name_len := Z.of_nat (length (cstr name)) in
    if NVRAM_MAX_NAME_SIZE <? name_len then retM (- EINVAL)
    else if 0 <? len then
      lets same := region_is_same_config_data name data in
      if same then retM 0
      else
        let new_item_size := item_calc_aligned_size name_len len in
        lets _ := region_prepare_write_item new_item_size in
        region_set_item name data new_item_size
    else
      lets '(old_item_offs, _, _) := region_find_item name in
      lets _ := obsolete_old old_item_offs in
      retM 0.

(** [region_get]: the result and the bytes stored at [data]. *)
Definition region_get (name : list Z) (max_len : Z) : M (Z * list Z) :=
  if max_len =? 0 then retM (- EINVAL, [])
  else
    lets '(item_offs, item, buf) := region_find_item name in
    if item_offs <? 0 then retM (- ENOENT, [])
    else
      let crc := calc_crc8 (item_crc_part item) 0 in
      let crc := calc_crc8 (take (Z.to_nat (it_name_size item)) buf) crc in
      let data_offs := item_offs + ITEM_HDR_SIZE + it_name_size item in
      lets crc := item_calc_data_crc data_offs (it_data_size item) crc in
      if negb (it_crc item =? crc) then retM (- EACCES, [])
      else
        let len := if max_len <? it_data_size item then max_len else it_data_size item in
        lets '(_, d) := readM data_offs len in
        retM (len, d).

(** ** Start-up *)

(** [is_valid_region_seg_header], [is_valid_merge_region_seg_header] *)
Definition is_valid_header (state : Z) (h : seg_header) : bool :=
  (sh_magic h =? NVRAM_REGION_SEG_MAGIC) && (sh_state h =? state) &&
  (sh_crc h =? calc_crc8 (hdr_crc_part h) 0).
Definition is_valid_region_seg_header (h : seg_header) : bool :=
  is_valid_header NVRAM_SEG_STATE_VALID h.
Definition is_valid_merge_region_seg_header (h : seg_header) : bool :=
  is_valid_header NVRAM_SEG_STATE_OBSOLETE h.

(** The bytes of a buffer up to the terminator. *)
Fixpoint c_string (b : list Z) : list Z :=
  match b with
  | [] => []
  | c :: b' => if c =? 0 then [] else c :: c_string b'
  end.

(** The VALID case of [region_seg_scan]: an earlier item with the same name
    becomes obsolete, then the item is entered in the bitmap. *)
Definition scan_valid_item (offs item_offs : Z) (item : nvram_item) : M unit :=
  lets r := get_region in
  lets n := item_get_item_name item_offs item NVRAM_MAX_NAME_SIZE in
  lets _ := (match n with
             | None => retM tt
             | Some name =>
                 lets '(old_item_offs, _, _) := region_find_item (c_string name) in
                 if (0 <? old_item_offs) && negb (old_item_offs =? item_offs) then
                   lets _ := item_update_state old_item_offs NVRAM_ITEM_STATE_OBSOLETE in
                   update_map (old_item_offs - seg_offset r) false
                 else retM tt
             end) in
  update_map offs true.

(** The loop of [region_seg_scan]: an error or the offset after the last
    item. *)
Fixpoint seg_scan_loop (fuel : nat) (offs : Z) : M (Z + Z) :=
  match fuel with
  | O => stuckM
  | S fuel' =>
      lets r := get_region in
      if negb (offs <? seg_size r) then retM (inr offs)
      else
        let item_offs := seg_offset r + offs in
        lets '(err, hdr) := readM item_offs ITEM_HDR_SIZE in
        if negb (err =? 0) then retM (inl err)
        else
          let item := item_of_bytes hdr in
          let next := seg_scan_loop fuel' (offs + item_get_aligned_size item) in
          lets status := item_check_validity item_offs item true in
          match status with
          | ITEM_STATUS_VALID => lets _ := scan_valid_item offs item_offs item in next
          | ITEM_STATUS_EMPTY => retM (inr offs)
          | ITEM_STATUS_OBSOLETE | ITEM_STATUS_INVALID => next
          end
  end.

(** [region_seg_scan] *)
Definition region_seg_scan (force_merge : bool) : M Z :=
  lets _ := clear_map in
  lets r := get_region in
  lets res := seg_scan_loop (S (Z.to_nat (seg_size r))) NVRAM_SEG_ITEM_START_OFFSET in
  match res with
  | inl err => retM err
  | inr offs =>
      let item_offs := seg_offset r + offs in
      lets _ := mod_region (region_with_write_offset item_offs) in
      lets dirty := (if seg_size r <=? offs then retM true
                     else lets e := is_empyM item_offs (seg_size r - offs) in
                          retM (negb e)) in
      lets _ := (if force_merge || dirty then region_purge_seg true else retM tt) in
      retM 0
  end.

(** What the first loop of [region_scan] remembers. *)
Record scan_state := mk_scan {
  sc_found : bool;
  sc_old_found : bool;
  sc_old_off : Z;
  sc_old_id : Z;
}.

(** First loop of [region_scan]: the newest valid and the newest obsolete
    segment, by serial-number comparison of the sequence ids. *)
Fixpoint region_scan_loop (fuel : nat) (offs : Z) (sc : scan_state) : M (Z + scan_state) :=
  match fuel with
  | O => stuckM
  | S fuel' =>
      lets r := get_region in
      if negb (offs <? total_size r) then retM (inr sc)
      else
        lets '(err, b) := readM offs SEG_HDR_SIZE in
        if negb (err =? 0) then retM (inl err)
        else
          let hdr := hdr_of_bytes b in
          lets found :=
            (if is_valid_region_seg_header hdr &&
                (negb (sc_found sc) || (0 <? s8 (sh_seq_id hdr - seg_seq_id r)))
             then lets _ := mod_region (λ r, region_with_seg offs (seg_write_offset r)
                                               (sh_seq_id hdr) r) in
                  retM true
             else retM (sc_found sc)) in
          let sc :=
            if is_valid_merge_region_seg_header hdr &&
               (negb (sc_old_found sc) || (0 <? s8 (sh_seq_id hdr - sc_old_id sc)))
            then mk_scan found true offs (sh_seq_id hdr)
            else mk_scan found (sc_old_found sc) (sc_old_off sc) (sc_old_id sc) in
          region_scan_loop fuel' (offs + seg_size r) sc
  end.

(** Second loop of [region_scan]: the last valid segment whose id precedes
    the current one, left over from an interrupted purge. *)
Fixpoint find_previous_loop (fuel : nat) (offs : Z) (last : option Z) : M (Z + option Z) :=
  match fuel with
  | O => stuckM
  | S fuel' =>
      lets r := get_region in
      if negb (offs <? total_size r) then retM (inr last)
      else
        lets '(err, b) := readM offs SEG_HDR_SIZE in
        if negb (err =? 0) then retM (inl err)
        else
          let hdr := hdr_of_bytes b in
          find_previous_loop fuel' (offs + seg_size r)
            (if is_valid_region_seg_header hdr &&
                (s8 (seg_seq_id r - sh_seq_id hdr) =? 1)
             then Some offs else last)
  end.

(** [region_scan] *)
Definition region_scan : M Z :=
  lets r := get_region in
  let fuel := S (Z.to_nat (total_size r)) in
  lets res := region_scan_loop fuel 0 (mk_scan false false 0 0) in
  match res with
  | inl err => retM err
  | inr sc =>
      if sc_found sc then
        lets prev := find_previous_loop fuel 0 None in
        match prev with
        | inl err => retM err
        | inr last =>
            lets _ := (match last with
                       | None => retM tt
                       | Some last_off =>
                           lets r := get_region in
                           lets _ := region_init_new_seg (seg_offset r) in
                           lets _ := region_copy_seg (seg_offset r) last_off
                                       (seg_size r) true in
                           region_seg_update_state last_off NVRAM_SEG_STATE_OBSOLETE
                       end) in
            lets err := region_seg_scan false in
            retM (if err =? 0 then 0 else -1)
        end
      else if sc_old_found sc then
        lets _ := mod_region (λ r, region_with_seg (sc_old_off sc) (seg_write_offset r)
                                     (sc_old_id sc) r) in
        lets err := region_seg_scan true in
        retM (if err =? 0 then 0 else -1)
      else
        lets _ := region_init_new_seg 0 in
        retM 0
  end.

(** ** The configuration API *)

(** The driver's state: one flash, three regions. *)
Record nvram := mk_nvram {
  nvram_flash : F;
  user_region : region_info;
  factory_region : region_info;
  factory_rw_region : region_info;
}.

Definition on_user {A} (m : M A) (s : nvram) : option (A * nvram) :=
  match m (mk_nv (nvram_flash s) (user_region s)) with
  | None => None
  | Some (x, t) => Some (x, mk_nvram (nv_flash t) (nv_region t) (factory_region s)
                              (factory_rw_region s))
  end.
Definition on_factory {A} (m : M A) (s : nvram) : option (A * nvram) :=
  match m (mk_nv (nvram_flash s) (factory_region s)) with
  | None => None
  | Some (x, t) => Some (x, mk_nvram (nv_flash t) (user_region s) (nv_region t)
                              (factory_rw_region s))
  end.
Definition on_factory_rw {A} (m : M A) (s : nvram) : option (A * nvram) :=
  match m (mk_nv (nvram_flash s) (factory_rw_region s)) with
  | None => None
  | Some (x, t) => Some (x, mk_nvram (nv_flash t) (user_region s) (factory_region s)
                              (nv_region t))
  end.

(** [nvram_config_set], [nvram_config_set_factory] *)
Definition nvram_config_set (name data : list Z) (s : nvram) : option (Z * nvram) :=
  on_user (region_set name data) s.
Definition nvram_config_set_factory (name data : list Z) (s : nvram) : option (Z * nvram) :=
  on_factory_rw (region_set name data) s.

(** [nvram_config_get_factory] *)
Definition nvram_config_get_factory (name : list Z) (max_len : Z) (s : nvram)
    : option (Z * list Z * nvram) :=
  match on_factory_rw (region_get name max_len) s with
  | None => None
  | Some (ret, d, s) =>
      if 0 <=? ret then Some (ret, d, s)
      else on_factory (region_get name max_len) s
  end.

(** [nvram_config_get]: user, then factory rw, then factory. *)
Definition nvram_config_get (name : list Z) (max_len : Z) (s : nvram)
    : option (Z * list Z * nvram) :=
  match on_user (region_get name max_len) s with
  | None => None
  | Some (ret, d, s) =>
      if 0 <=? ret then Some (ret, d, s)
      else match on_factory_rw (region_get name max_len) s with
           | None => None
           | Some (ret, d, s) =>
               if 0 <=? ret then Some (ret, d, s)
               else on_factory (region_get name max_len) s
           end
  end.

(** [nvram_config_clear], [nvram_config_clear_all] *)
Definition clearM (len : Z) : M unit :=
  on_flash (λ r f, (λ f, (tt, f)) <$> region_clear r f len).
Definition nvram_config_clear (len : Z) (s : nvram) : option (Z * nvram) :=
  on_user (lets _ := clearM len in retM 0) s.
Definition nvram_config_clear_all (s : nvram) : option (Z * nvram) :=
  on_user (lets r := get_region in
           lets _ := eraseM 0 (total_size r) in
           lets _ := region_scan in retM 0) s.

(** [nvram_config_init]; [storage] is what [nvram_storage_init] returns. *)
Definition nvram_config_init (storage : bool) (s : nvram) : option (Z * nvram) :=
  if negb storage then Some (- ENODEV, s)
  else
    let s := mk_nvram (nvram_flash s) (user_region s)
               (region_with_storage (factory_region s))
               (region_with_storage (factory_rw_region s)) in
    match on_factory_rw region_scan s with
    | None => None
    | Some (_, s) =>
        match on_factory region_scan s with
        | None => None
        | Some (_, s) =>
            let s := mk_nvram (nvram_flash s) (region_with_storage (user_region s))
                       (factory_region s) (factory_rw_region s) in
            on_user (lets _ := region_scan in
                     lets r := get_region in
                     lets _ := clearM (total_size r / 2) in retM 0) s
        end
    end.

(** ** Traversal *)

(** What [nvram_config_traverse] passes to its callbacks. *)
Inductive traverse_event := NameCb (name : list Z) | DataCb (chunk : list Z).

(** [region_traverse_data]: chunks of at most [data_size] bytes. *)
Fixpoint region_traverse_data (fuel : nat) (offset size data_size : Z)
    : M (list traverse_event) :=
  match fuel with
  | O => stuckM
  | S fuel' =>
      if size <=? 0 then retM []
      else
        let read_size := if size <? data_size then size else data_size in
        lets '(_, d) := readM offset read_size in
        lets rest := region_traverse_data fuel' (offset + read_size) (size - read_size)
                       data_size in
        retM (DataCb d :: rest)
  end.

(** [region_traverse] *)
Fixpoint region_traverse_loop (fuel : nat) (offs data_len : Z) : M (list traverse_event) :=
  match fuel with
  | O => stuckM
  | S fuel' =>
      lets r := get_region in
      if negb (offs <? seg_size r) then retM []
      else
        let item_offs := seg_offset r + offs in
        lets '(_, hdr) := readM item_offs ITEM_HDR_SIZE in
        let item := item_of_bytes hdr in
        if negb (it_magic item =? NVRAM_REGION_ITEM_MAGIC) then retM []
        else
          lets here :=
            (if negb (it_state item =? NVRAM_ITEM_STATE_VALID) then retM []
             else
               lets '(_, name) := readM (item_offs + ITEM_HDR_SIZE) (it_name_size item) in
               lets data := region_traverse_data (S (Z.to_nat (it_data_size item)))
                              (item_offs + ITEM_HDR_SIZE + it_name_size item)
                              (it_data_size item) data_len in
               retM (NameCb name :: data)) in
          lets rest := region_traverse_loop fuel'
                         (item_bitmap_next_offset (seg_item_map r) (seg_size r)
                            (offs + item_get_aligned_size item)) data_len in
          retM (here ++ rest)
  end.

Definition region_traverse (data_len : Z) : M (list traverse_event) :=
  lets r := get_region in
  region_traverse_loop (find_fuel r)
    (item_bitmap_first_offset (seg_item_map r) (seg_size r)) data_len.

Definition nvram_config_traverse (data_len : Z) (s : nvram)
    : option (list traverse_event * nvram) := on_user (region_traverse data_len) s.
End nvram.
