(* ===== verification/NvramItems.v ===== *)
(** * NVRAM: the items of a segment and the search by name

    A segment as a sequence of entries laid out in flash, the bitmap that
    marks the live ones, and what [region_find_item] returns on it. *)

From stdpp Require Import base numbers list option gmap.
From S2P Require Import Prelude NvramBits NvramStorage NvramConfig.
Local Open Scope Z_scope.

(** ** Entries *)

(** An item: name without terminator, data, and whether its state byte is
    still valid. *)
Record entry := mk_entry { e_name : list Z; e_data : list Z; e_live : bool }.

(** Names are C strings that fit the name buffer, data is 1 to 512 bytes. *)
Definition name_ok (name : list Z) : Prop :=
  Forall (λ c, 0 < c < 256) name ∧ (length name < 112)%nat.
Definition data_ok (data : list Z) : Prop :=
  bytes_ok data ∧ (0 < length data <= 512)%nat.
Definition entry_ok (e : entry) : Prop := name_ok (e_name e) ∧ data_ok (e_data e).

(** The header as it is in flash. *)
Definition entry_item (e : entry) : nvram_item :=
  let i := new_item (e_name e) (e_data e) in
  mk_item (it_magic i) (if e_live e then NVRAM_ITEM_STATE_VALID else NVRAM_ITEM_STATE_OBSOLETE)
    (it_crc i) (it_hash i) (it_reserved i) (it_name_size i) (it_data_size i).

Definition entry_bytes (e : entry) : list Z :=
  item_to_bytes (entry_item e) ++ cstr (e_name e) ++ e_data e.

(** Size in the segment. *)
Definition entry_size (e : entry) : Z :=
  item_calc_aligned_size (Z.of_nat (length (cstr (e_name e)))) (Z.of_nat (length (e_data e))).

Definition entries_size (es : list entry) : Z := foldr (λ e z, entry_size e + z) 0 es.

Lemma round_up_16 x : round_up x 16 = (x + 15) / 16 * 16.
Proof.
  unfold round_up. change (16 - 1) with (Z.ones 4). rewrite <- Z.ldiff_land.
  rewrite Z.ldiff_ones_r, Z.shiftl_mul_pow2, Z.shiftr_div_pow2 by lia. done.
Qed.

Lemma item_calc_aligned_size_bounds n d :
  0 <= n → 0 <= d →
  let size := item_calc_aligned_size n d in
  8 + n + d <= size < 8 + n + d + 16 ∧ size mod 16 = 0.
Proof.
  intros Hn Hd. unfold item_calc_aligned_size, item_calc_real_size, ITEM_HDR_SIZE,
    NVRAM_ITEM_ALIGN_SIZE. rewrite round_up_16. cbv zeta. split; [dlia|].
  apply Z.mod_mul. lia.
Qed.

Lemma entry_size_bounds e :
  let real := 8 + Z.of_nat (length (cstr (e_name e))) + Z.of_nat (length (e_data e)) in
  real <= entry_size e < real + 16 ∧ entry_size e mod 16 = 0 ∧ 16 <= entry_size e.
Proof.
  intros real. unfold entry_size.
  pose proof (item_calc_aligned_size_bounds (Z.of_nat (length (cstr (e_name e))))
                (Z.of_nat (length (e_data e))) ltac:(lia) ltac:(lia)) as [H1 H2].
  split_and!; [subst real; lia|subst real; lia|done|].
  assert (1 <= Z.of_nat (length (cstr (e_name e)))).
  { unfold cstr. rewrite length_app. cbn. lia. }
  set (sz := item_calc_aligned_size _ _) in *.
  assert (sz = 16 * (sz / 16)) by (pose proof (Z.div_mod sz 16); lia).
  assert (1 <= sz / 16) by (apply Z.div_le_lower_bound; lia). lia.
Qed.

Lemma entries_size_app es1 es2 :
  entries_size (es1 ++ es2) = entries_size es1 + entries_size es2.
Proof. induction es1 as [|e es1 IH]; cbn; [done|]. fold entries_size. unfold entries_size in *. lia. Qed.

Lemma entries_size_nonneg es : 0 <= entries_size es.
Proof.
  induction es as [|e es IH]; [done|]. cbn. fold (entries_size es).
  pose proof (entry_size_bounds e) as (_ & _ & H). lia.
Qed.

Lemma entries_size_mod es : entries_size es mod 16 = 0.
Proof.
  induction es as [|e es IH]; [done|]. cbn. fold (entries_size es).
  pose proof (entry_size_bounds e) as (_ & H & _).
  rewrite Zplus_mod, H, IH. done.
Qed.

Lemma entries_size_length es : 16 * Z.of_nat (length es) <= entries_size es.
Proof.
  induction es as [|e es IH]; [done|]. cbn [length entries_size foldr].
  fold (entries_size es). pose proof (entry_size_bounds e) as (_ & _ & H). lia.
Qed.

(** The header round trip: what is written is what is read back. *)
Lemma length_cstr name : length (cstr name) = S (length name).
Proof. unfold cstr. rewrite length_app. cbn. lia. Qed.

Lemma cstr_bytes name : name_ok name → bytes_ok (cstr name).
Proof.
  intros [Hn _]. apply Forall_app_2; [|by repeat constructor; unfold is_u8].
  eapply Forall_impl; [exact Hn|]. intros c. unfold is_u8. lia.
Qed.

Lemma take_cstr name n : (length (cstr name) <= n)%nat → take n (cstr name) = cstr name.
Proof. apply take_ge. Qed.

(** The fields of a written header, for names and data in range. *)
Lemma new_item_fields name data :
  name_ok name → data_ok data →
  let i := new_item name data in
  it_magic i = 73 ∧ it_name_size i = Z.of_nat (length (cstr name)) ∧
  it_data_size i = Z.of_nat (length data) ∧ it_hash i = calc_hash (cstr name) ∧
  it_reserved i = 0 ∧
  it_crc i = calc_crc8 data (calc_crc8 (cstr name) (calc_crc8 (item_crc_part i) 0)).
Proof.
  intros [_ Hn] [_ Hd]. pose proof (length_cstr name) as Hl.
  unfold new_item. cbn [it_magic it_name_size it_data_size it_hash it_reserved it_crc].
  rewrite !(u8_id (Z.of_nat _)) by (unfold is_u8; lia).
  rewrite !(u16_id (Z.of_nat _)) by (unfold is_u16; lia).
  rewrite Nat2Z.id, take_cstr by lia. rewrite Nat2Z.id, (take_ge data) by lia.
  by split_and!.
Qed.

Lemma entry_item_fields e :
  entry_ok e →
  let i := entry_item e in
  it_magic i = 73 ∧ it_state i = (if e_live e then 255 else 90) ∧
  it_name_size i = Z.of_nat (length (cstr (e_name e))) ∧
  it_data_size i = Z.of_nat (length (e_data e)) ∧ it_hash i = calc_hash (cstr (e_name e)) ∧
  it_crc i = calc_crc8 (e_data e) (calc_crc8 (cstr (e_name e)) (calc_crc8 (item_crc_part i) 0)).
Proof.
  intros [Hn Hd]. destruct (new_item_fields _ _ Hn Hd) as (H1 & H2 & H3 & H4 & H5 & H6).
  unfold entry_item. cbn [it_magic it_state it_name_size it_data_size it_hash it_crc].
  split_and!; try done.
Qed.

Lemma item_bytes_roundtrip i :
  0 <= it_data_size i → item_of_bytes (item_to_bytes i) = i.
Proof.
  intros. destruct i as [m st c h r n d].
  assert (E : le16 (d mod 256) (d / 256) = d).
  { unfold le16. pose proof (Z.div_mod d 256 ltac:(lia)). lia. }
  rewrite <- E at 2. reflexivity.
Qed.

Lemma item_crc_part_eq e : item_crc_part (entry_item e) = item_crc_part (new_item (e_name e) (e_data e)).
Proof. done. Qed.

Lemma length_entry_bytes e :
  Z.of_nat (length (entry_bytes e)) =
  8 + Z.of_nat (length (cstr (e_name e))) + Z.of_nat (length (e_data e)).
Proof. unfold entry_bytes. rewrite !length_app. cbn [length item_to_bytes]. lia. Qed.

Lemma entry_item_bytes e : entry_ok e → bytes_ok (item_to_bytes (entry_item e)).
Proof.
  intros He. destruct (entry_item_fields e He) as (H1 & H2 & H3 & H4 & H5 & H6).
  pose proof He as [[Hn Hnl] [Hd Hdl]]. pose proof (length_cstr (e_name e)) as Hl.
  assert (Hds : is_u8 (it_data_size (entry_item e) mod 256) ∧
                is_u8 (it_data_size (entry_item e) / 256)).
  { rewrite H4. unfold is_u8. split; [apply Z.mod_pos_bound; lia|].
    split; [apply Z.div_pos; lia|apply Z.div_lt_upper_bound; lia]. }
  assert (Hh : is_u8 (it_hash (entry_item e))) by (rewrite H5; apply calc_hash_u8).
  assert (Hns : is_u8 (it_name_size (entry_item e))) by (rewrite H3; unfold is_u8; lia).
  destruct Hds as [Hlo Hhi].
  assert (Hr : is_u8 (it_reserved (entry_item e))) by (unfold is_u8; cbn; lia).
  assert (Hm : is_u8 (it_magic (entry_item e))) by (rewrite H1; unfold is_u8; lia).
  assert (Hs : is_u8 (it_state (entry_item e)))
    by (rewrite H2; unfold is_u8; destruct (e_live e); lia).
  assert (Hc : is_u8 (it_crc (entry_item e))).
  { rewrite H6. apply calc_crc8_u8; [|done]. apply calc_crc8_u8; [|by apply cstr_bytes].
    apply calc_crc8_u8; [unfold is_u8; lia|].
    unfold item_crc_part, item_to_bytes. cbn [drop].
    repeat (apply Forall_cons_2; [assumption|]). apply Forall_nil_2. }
  unfold item_to_bytes. repeat (apply Forall_cons_2; [assumption|]). apply Forall_nil_2.
Qed.

Lemma entry_bytes_ok e : entry_ok e → bytes_ok (entry_bytes e).
Proof.
  intros He. apply Forall_app_2; [by apply entry_item_bytes|].
  apply Forall_app_2; [apply cstr_bytes, He|apply He].
Qed.

Lemma entry_item_roundtrip e :
  entry_ok e → item_of_bytes (item_to_bytes (entry_item e)) = entry_item e.
Proof.
  intros He. apply item_bytes_roundtrip.
  destruct (entry_item_fields e He) as (_ & _ & _ & -> & _). lia.
Qed.

(** The names compare equal exactly when they are. *)
Lemma name_compare name name' :
  name_ok name → name_ok name' →
  take (length (cstr name')) (cstr name) = cstr name' ↔ name = name'.
Proof.
  intros [Hn _] [Hn' _]. rewrite length_cstr. split.
  2:{ intros ->. apply take_ge. by rewrite length_cstr. }
  intros H. destruct (decide (length name' < length name)%nat) as [Hlt|Hge].
  - exfalso. unfold cstr in H. rewrite take_app_le in H by lia.
    apply (f_equal (λ l, l !! length name')) in H.
    rewrite lookup_take, decide_True, lookup_app_r, Nat.sub_diag in H by lia.
    eapply Forall_lookup_1 in H; [|exact Hn]. cbv beta in H. lia.
  - destruct (decide (length name = length name')) as [E|E].
    + unfold cstr in H. rewrite take_ge in H by (rewrite length_app; cbn; lia).
      by apply app_inj_tail in H as [-> _].
    + exfalso. apply (f_equal length) in H.
      rewrite length_take, !length_cstr in H. lia.
Qed.

(** ** Positions of live entries *)

(** Whether a live entry starts at [o], for entries from [p] on. *)
Fixpoint live_at (p : Z) (es : list entry) (o : Z) : bool :=
  match es with
  | [] => false
  | e :: es' => (e_live e && (o =? p)) || live_at (p + entry_size e) es' o
  end.

(** Where the first live entry starts. *)
Fixpoint first_live (p : Z) (es : list entry) : option Z :=
  match es with
  | [] => None
  | e :: es' => if e_live e then Some p else first_live (p + entry_size e) es'
  end.

Lemma live_at_range p es o :
  live_at p es o = true → p <= o /\ o + 16 <= p + entries_size es.
Proof.
  revert p. induction es as [|e es IH]; intros p; cbn [live_at]; [done|].
  intros H. pose proof (entry_size_bounds e) as (_ & _ & Hs).
  pose proof (entries_size_nonneg es).
  cbn [entries_size foldr]. fold (entries_size es).
  apply orb_true_iff in H as [H|H].
  - apply andb_true_iff in H as [_ H]. lia.
  - apply IH in H. lia.
Qed.

Lemma live_at_app p es1 es2 o :
  live_at p (es1 ++ es2) o = live_at p es1 o || live_at (p + entries_size es1) es2 o.
Proof.
  revert p. induction es1 as [|e es1 IH]; intros p; cbn [live_at app entries_size foldr].
  - by rewrite Z.add_0_r.
  - fold (entries_size es1). rewrite IH, orb_assoc. do 2 f_equal. lia.
Qed.

Lemma live_at_suffix p es1 es2 o :
  p + entries_size es1 <= o →
  live_at p (es1 ++ es2) o = live_at (p + entries_size es1) es2 o.
Proof.
  intros Ho. rewrite live_at_app. destruct (live_at p es1 o) eqn:E; [|done].
  apply live_at_range in E. lia.
Qed.

Lemma first_live_spec p es :
  match first_live p es with
  | Some o => live_at p es o = true ∧ (o - p) mod 16 = 0 ∧
              ∀ o', o' < o → live_at p es o' = false
  | None => ∀ o', live_at p es o' = false
  end.
Proof.
  revert p. induction es as [|e es IH]; intros p; cbn [first_live live_at]; [done|].
  pose proof (entry_size_bounds e) as (_ & Hm & Hs).
  destruct (e_live e); cbn [andb].
  - rewrite Z.eqb_refl. split_and!; [done|by rewrite Z.sub_diag|].
    intros o' Ho. destruct (Z.eqb_spec o' p); [lia|]. cbn [orb].
    destruct (live_at _ _ o') eqn:E; [|done]. apply live_at_range in E. lia.
  - cbn [orb]. specialize (IH (p + entry_size e)).
    destruct (first_live (p + entry_size e) es) as [o|]; [|done].
    destruct IH as (H1 & H2 & H3). split_and!; [done| |done].
    replace (o - p) with ((o - (p + entry_size e)) + entry_size e) by lia.
    by rewrite Zplus_mod, H2, Hm.
Qed.

(** The result of a bit search is unique. *)
Lemma least_bit_unique P off size r r' :
  least_bit P off size r → least_bit P off size r' → r = r'.
Proof.
  intros (H1 & H2 & H3) (H1' & H2' & H3').
  destruct (Z.lt_trichotomy r r') as [Hlt|[->|Hlt]]; [|done|].
  - specialize (H2 ltac:(lia)). rewrite H3' in H2 by lia. done.
  - specialize (H2' ltac:(lia)). rewrite H3 in H2' by lia. done.
Qed.

(** What the bitmap has to be for a segment of [size] bytes. *)
Definition map_matches (map : option (list Z)) (size : Z) (es : list entry) : Prop :=
  match map with
  | None => True
  | Some m => words_ok m ∧ size <= 512 * Z.of_nat (length m) ∧
      ∀ i, 0 <= i < size / 16 → map_bit m i = live_at 16 es (16 * i)
  end.

(** Where the search goes next: with a bitmap to the next live entry, without
    one to the next entry. *)
Definition search_pos (map : option (list Z)) (size p : Z) (es2 : list entry) : Z :=
  match map with
  | None => p
  | Some _ => default size (first_live p es2)
  end.

Lemma next_offset_pos map size es1 es2 :
  0 < size → size mod 16 = 0 → map_matches map size (es1 ++ es2) →
  16 + entries_size (es1 ++ es2) <= size →
  let p := 16 + entries_size es1 in
  item_bitmap_next_offset map size p = search_pos map size p es2.
Proof.
  intros Hsz Hmod Hmap Hfit p. destruct map as [m|]; [|done]. destruct Hmap as (Hw & Hlen & Hbit).
  cbn [item_bitmap_next_offset search_pos]. unfold NVRAM_ITEM_ALIGN_SIZE.
  rewrite entries_size_app in Hfit.
  pose proof (entries_size_nonneg es1). pose proof (entries_size_nonneg es2).
  pose proof (entries_size_mod es1) as Hm1.
  assert (Hp16 : p = 16 * (p / 16)).
  { pose proof (Z.div_mod p 16 ltac:(lia)). assert (p mod 16 = 0); [|lia].
    unfold p. by rewrite Zplus_mod, Hm1. }
  assert (Hs16 : size = 16 * (size / 16)) by (pose proof (Z.div_mod size 16 ltac:(lia)); lia).
  set (sz := size / 16) in *. set (pq := p / 16) in *.
  assert (Hlv : ∀ i, pq <= i < sz → map_bit m i = live_at p es2 (16 * i)).
  { intros i Hi. rewrite Hbit by lia. by rewrite live_at_suffix by (fold p; lia). }
  pose proof (find_next_bit_spec m sz pq Hw ltac:(lia) ltac:(lia)) as Hfind.
  pose proof (first_live_spec p es2) as Hfl.
  destruct (first_live p es2) as [o|]; cbn [default].
  - destruct Hfl as (Hl & Hom & Hbefore). pose proof (live_at_range _ _ _ Hl) as Hor.
    assert (Ho16 : o = 16 * (o / 16)).
    { pose proof (Z.div_mod o 16 ltac:(lia)). assert (o mod 16 = 0); [|lia].
      replace o with (o - p + 16 * pq) by lia. rewrite Zplus_mod, Hom.
      rewrite (Z.mul_comm 16), Z.mod_mul by lia. done. }
    set (oq := o / 16) in *. fold p in Hfit.
    rewrite (least_bit_unique _ _ _ _ oq Hfind); [cbn; lia|].
    split_and!; [lia|lia| |].
    + intros _. rewrite Hlv by lia. by rewrite <- Ho16.
    + intros i Hi. rewrite Hlv by lia. apply Hbefore. lia.
  - rewrite (least_bit_unique _ _ _ _ sz Hfind); [cbn; lia|].
    split_and!; [lia|lia|lia|]. intros i Hi. rewrite Hlv by lia. apply Hfl.
Qed.

Lemma first_offset_pos map size es :
  0 < size → size mod 16 = 0 → map_matches map size es → 16 + entries_size es <= size →
  item_bitmap_first_offset map size = search_pos map size 16 es.
Proof.
  intros Hsz Hmod Hmap Hfit.
  pose proof (next_offset_pos map size [] es Hsz Hmod Hmap Hfit) as Hn.
  cbn [entries_size foldr] in Hn. rewrite Z.add_0_r in Hn. cbv zeta in Hn. rewrite <- Hn.
  destruct map as [m|]; [|done]. destruct Hmap as (Hw & Hlen & Hbit).
  cbn [item_bitmap_first_offset item_bitmap_next_offset]. unfold NVRAM_ITEM_ALIGN_SIZE. f_equal.
  pose proof (entries_size_nonneg es).
  assert (Hs16 : size = 16 * (size / 16)) by (pose proof (Z.div_mod size 16 ltac:(lia)); lia).
  set (sz := size / 16) in *. change (16 / 16) with 1.
  eapply least_bit_unique; [apply find_first_bit_spec; [done|lia]|].
  apply (least_bit_skip _ _ 1); [lia| |apply find_next_bit_spec; done || lia].
  intros i Hi. replace i with 0 by lia. rewrite Hbit by lia.
  destruct (live_at 16 es (16 * 0)) eqn:E; [|done]. apply live_at_range in E. lia.
Qed.

(** ** Segments in flash *)

(** The first live entry with a name. *)
Fixpoint find_entry (p : Z) (es : list entry) (name : list Z) : option (Z * entry) :=
  match es with
  | [] => None
  | e :: es' => if e_live e && bool_decide (e_name e = name) then Some (p, e)
                else find_entry (p + entry_size e) es' name
  end.

Section segment.
Context {F : Type} `{!FlashDrv F} `{!FlashLaws F}.
Implicit Types (f : F) (s : @nv F).

(** The entries one after the other from address [a]. *)
Fixpoint laid_out f (a : Z) (es : list entry) : Prop :=
  match es with
  | [] => True
  | e :: es' => cells f a (Z.of_nat (length (entry_bytes e))) = entry_bytes e ∧
                laid_out f (a + entry_size e) es'
  end.

(** Address of the current segment. *)
Definition seg_base (r : region_info) : Z := base_addr r + seg_offset r.

(** What a search sees of the current segment: the entries [es] in flash and
    a bitmap that marks the live ones; without a bitmap the search also needs
    to find the end, so the rest is erased. *)
Record seg_view (s : @nv F) (es : list entry) : Prop := {
  seg_region : region_ok (nv_region s);
  seg_pos : 0 <= seg_offset (nv_region s) /\
            seg_offset (nv_region s) + seg_size (nv_region s) <= total_size (nv_region s);
  seg_entries : Forall entry_ok es;
  seg_fits : 16 + entries_size es <= seg_size (nv_region s);
  seg_layout : laid_out (nv_flash s) (seg_base (nv_region s) + 16) es;
  seg_tail : seg_item_map (nv_region s) = None →
             erased (nv_flash s) (seg_base (nv_region s) + 16 + entries_size es)
               (seg_size (nv_region s) - 16 - entries_size es);
  seg_map : map_matches (seg_item_map (nv_region s)) (seg_size (nv_region s)) es;
}.

(** The current segment holds the entries [es], no two live ones with the
    same name, and is erased behind the write position. *)
Record seg_inv (s : @nv F) (es : list entry) : Prop := {
  inv_view : seg_view s es;
  inv_div : (seg_size (nv_region s) | seg_offset (nv_region s));
  inv_names : NoDup (e_name <$> filter (λ e, e_live e = true) es);
  inv_write : seg_write_offset (nv_region s) = seg_offset (nv_region s) + 16 + entries_size es;
  inv_free : erased (nv_flash s) (seg_base (nv_region s) + 16 + entries_size es)
               (seg_size (nv_region s) - 16 - entries_size es);
}.

Lemma laid_out_app f a es1 es2 :
  laid_out f a (es1 ++ es2) ↔ laid_out f a es1 ∧ laid_out f (a + entries_size es1) es2.
Proof.
  revert a. induction es1 as [|e es1 IH]; intros a; cbn [app laid_out entries_size foldr].
  - rewrite Z.add_0_r. tauto.
  - fold (entries_size es1). rewrite IH. rewrite <- Z.add_assoc. tauto.
Qed.

(** Entries keep their place when other cells change. *)
Lemma laid_out_ext f f' a es :
  (∀ x, a <= x < a + entries_size es → cell f' x = cell f x) →
  laid_out f a es → laid_out f' a es.
Proof.
  revert a. induction es as [|e es IH]; intros a Hx; cbn [laid_out]; [done|].
  pose proof (entry_size_bounds e) as (Hb & _ & _). pose proof (length_entry_bytes e) as Hl.
  pose proof (entries_size_nonneg es).
  cbn [entries_size foldr] in Hx. fold (entries_size es) in Hx.
  intros [H1 H2]. split.
  - etrans; [|exact H1]. apply cells_ext. intros x Hin. apply Hx. lia.
  - apply IH; [|done]. intros x Hin. apply Hx. lia.
Qed.

(** The three parts of an entry in flash. *)
Lemma entry_parts f a e :
  cells f a (Z.of_nat (length (entry_bytes e))) = entry_bytes e →
  cells f a 8 = item_to_bytes (entry_item e) ∧
  cells f (a + 8) (Z.of_nat (length (cstr (e_name e)))) = cstr (e_name e) ∧
  cells f (a + 8 + Z.of_nat (length (cstr (e_name e)))) (Z.of_nat (length (e_data e)))
    = e_data e.
Proof.
  rewrite length_entry_bytes, !cells_app by lia. unfold entry_bytes. intros H.
  rewrite <- app_assoc in H. apply app_inj_1 in H as [H1 H].
  2:{ rewrite length_cells. done. }
  apply app_inj_1 in H as [H2 H3]; [|rewrite length_cells; lia].
  split_and!; [done|done|]. by rewrite <- Z.add_assoc.
Qed.

Lemma seg_size_mod r : region_ok r → 0 < seg_size r /\ seg_size r mod 16 = 0.
Proof.
  intros Hr. pose proof (region_ok_bounds r Hr) as (_ & _ & H).
  destruct H as [[-> _]|[-> _]]; done.
Qed.

Lemma readM_spec s off n :
  region_ok (nv_region s) → 0 <= off → 0 <= n → off + n <= total_size (nv_region s) →
  readM off n s = Some ((0, cells (nv_flash s) (base_addr (nv_region s) + off) n), s).
Proof. intros. unfold readM. by rewrite region_read_spec. Qed.

(** Reading the header of an entry. *)
Lemma read_entry_header s es1 e es2 :
  seg_view s (es1 ++ e :: es2) →
  let r := nv_region s in
  let o := seg_offset r + (16 + entries_size es1) in
  readM o ITEM_HDR_SIZE s = Some ((0, item_to_bytes (entry_item e)), s) ∧
  readM (o + ITEM_HDR_SIZE) (Z.of_nat (length (cstr (e_name e)))) s
    = Some ((0, cstr (e_name e)), s) ∧
  cells (nv_flash s) (base_addr r + o + 8 + Z.of_nat (length (cstr (e_name e))))
    (Z.of_nat (length (e_data e))) = e_data e ∧
  o + entry_size e <= seg_offset r + seg_size r.
Proof.
  intros Hinv r o. destruct Hinv as [Hr Hp _ Hf Hl _ _]. fold r in Hr, Hp, Hf.
  rewrite entries_size_app in Hf. cbn [entries_size foldr] in Hf. fold (entries_size es2) in Hf.
  pose proof (entries_size_nonneg es1). pose proof (entries_size_nonneg es2).
  pose proof (entry_size_bounds e) as (Hb & _ & _).
  apply laid_out_app in Hl as [_ Hl]. cbn [laid_out] in Hl. destruct Hl as [Hl _].
  replace (seg_base (nv_region s) + 16 + entries_size es1) with (base_addr r + o) in Hl
    by (unfold seg_base, o, r; lia).
  destruct (entry_parts _ _ _ Hl) as (H1 & H2 & H3). unfold ITEM_HDR_SIZE.
  rewrite !readM_spec by (fold r; done || lia). fold r. rewrite H1.
  rewrite Z.add_assoc, H2. split_and!; [done|done|done|lia].
Qed.

(** Behind the entries the header reads as erased. *)
Lemma read_free_header s es :
  seg_view s es → seg_item_map (nv_region s) = None →
  16 + entries_size es < seg_size (nv_region s) →
  let r := nv_region s in
  let o := seg_offset r + (16 + entries_size es) in
  ∃ b, readM o ITEM_HDR_SIZE s = Some ((0, b), s) ∧ b = replicate 8 255.
Proof.
  intros Hinv Hnone Hlt r o. destruct Hinv as [Hr Hp _ Hf _ Hfree _]. specialize (Hfree Hnone). fold r in Hr, Hp, Hf, Hlt.
  destruct (seg_size_mod r Hr) as [_ Hm]. pose proof (entries_size_nonneg es).
  pose proof (entries_size_mod es) as Hme.
  assert (Hroom : 16 + entries_size es + 16 <= seg_size r).
  { pose proof (Z.div_mod (seg_size r) 16 ltac:(lia)).
    pose proof (Z.div_mod (entries_size es) 16 ltac:(lia)). lia. }
  unfold ITEM_HDR_SIZE. eexists. rewrite readM_spec by (fold r; done || lia).
  split; [done|]. fold r. rewrite erased_cells; [done|]. intros x Hx. apply Hfree.
  fold r. unfold seg_base, o in *. lia.
Qed.

(** One round of the search that is at an entry. *)
Lemma find_item_loop_step fuel name es1 e es2 item buf s :
  seg_view s (es1 ++ e :: es2) → name_ok name →
  let r := nv_region s in
  let p := 16 + entries_size es1 in
  let hash := calc_hash (cstr name) in
  let next := search_pos (seg_item_map r) (seg_size r) (p + entry_size e) es2 in
  find_item_loop (S fuel) name hash p item buf s =
  if e_live e && (calc_hash (cstr (e_name e)) =? hash) then
    if bool_decide (name = e_name e)
    then Some ((seg_offset r + p, entry_item e, cstr (e_name e)), s)
    else find_item_loop fuel name hash next (entry_item e) (cstr (e_name e)) s
  else find_item_loop fuel name hash next (entry_item e) buf s.
Proof.
  intros Hinv Hname r p hash next.
  assert (Hinv' : seg_view s ((es1 ++ [e]) ++ es2)) by (by rewrite <- app_assoc).
  destruct (read_entry_header s es1 e es2 Hinv) as (Hh & Hn & _ & Hend).
  fold r p in Hh, Hn, Hend.
  pose proof (seg_entries _ _ Hinv) as Hok. apply Forall_app in Hok as [_ Hok].
  inversion Hok as [|? ? Hoke _]; subst.
  destruct (entry_item_fields e Hoke) as (F1 & F2 & F3 & F4 & F5 & _).
  destruct (seg_size_mod r (seg_region _ _ Hinv)) as [Hs0 Hs16].
  pose proof (next_offset_pos (seg_item_map r) (seg_size r) (es1 ++ [e]) es2 Hs0 Hs16
                (seg_map _ _ Hinv') (seg_fits _ _ Hinv')) as Hnext.
  cbv zeta in Hnext.
  assert (Hp' : 16 + entries_size (es1 ++ [e]) = p + entry_size e).
  { rewrite entries_size_app. cbn. unfold p. lia. }
  rewrite Hp' in Hnext. fold next in Hnext.
  assert (Hsize : item_get_aligned_size (entry_item e) = entry_size e).
  { unfold item_get_aligned_size, entry_size. by rewrite F3, F4. }
  pose proof (entry_size_bounds e) as (_ & _ & Hge16).
  cbn [find_item_loop]. unfold get_region, bindM at 1. fold r.
  destruct (Z.ltb_spec p (seg_size r)) as [_|Hge]; [|lia]. cbn [negb].
  unfold bindM at 1. rewrite Hh. rewrite (entry_item_roundtrip e Hoke).
  rewrite F1, Hsize, Hnext, F2, F3, F5.
  change (negb (73 =? NVRAM_REGION_ITEM_MAGIC)) with false. cbv iota.
  destruct (e_live e); cbn [andb].
  - change (255 =? NVRAM_ITEM_STATE_VALID) with true. cbn [andb].
    destruct (calc_hash (cstr (e_name e)) =? hash); [|done].
    unfold bindM. rewrite Hn, Nat2Z.id.
    pose proof (name_compare name (e_name e) Hname (proj1 Hoke)) as Hcmp.
    case_bool_decide as H1; case_bool_decide as H2; tauto.
  - by change (90 =? NVRAM_ITEM_STATE_VALID) with false.
Qed.

Lemma find_item_loop_spec fuel name es1 es2 item buf s :
  seg_view s (es1 ++ es2) → name_ok name → (length es2 < fuel)%nat →
  let r := nv_region s in
  let p := 16 + entries_size es1 in
  ∃ ret it bf,
    find_item_loop fuel name (calc_hash (cstr name))
      (search_pos (seg_item_map r) (seg_size r) p es2) item buf s = Some ((ret, it, bf), s) ∧
    match find_entry p es2 name with
    | None => ret = - ENOENT
    | Some (q, e) => ret = seg_offset r + q ∧ it = entry_item e ∧ bf = cstr name
    end.
Proof.
  intros Hinv Hname. revert fuel es1 item buf Hinv.
  induction es2 as [|e es2 IH]; intros fuel es1 item buf Hinv Hfuel r p.
  - rewrite app_nil_r in Hinv. destruct fuel as [|fuel]; [cbn in Hfuel; lia|].
    cbn [find_item_loop find_entry]. unfold get_region, bindM at 1. fold r.
    pose proof (seg_fits _ _ Hinv) as Hfit. fold r p in Hfit.
    destruct (seg_item_map r) as [m|] eqn:Em; cbn [search_pos first_live].
    { change (default (seg_size r) None) with (seg_size r). rewrite Z.ltb_irrefl. cbn [negb].
      by do 3 eexists. }
    destruct (Z.ltb_spec p (seg_size r)) as [Hlt|Hge]; cbn [negb]; [|by do 3 eexists].
    destruct (read_free_header s es1 Hinv Em Hlt) as (b & Hrd & ->). fold r p in Hrd.
    unfold bindM at 1. rewrite Hrd. by do 3 eexists.
  - assert (Hinv' : seg_view s ((es1 ++ [e]) ++ es2)) by (by rewrite <- app_assoc).
    assert (Hp' : 16 + entries_size (es1 ++ [e]) = p + entry_size e).
    { rewrite entries_size_app. cbn. unfold p. lia. }
    assert (IH' : ∀ fuel item buf, (length es2 < fuel)%nat → ∃ ret it bf,
      find_item_loop fuel name (calc_hash (cstr name))
        (search_pos (seg_item_map r) (seg_size r) (p + entry_size e) es2) item buf s
        = Some ((ret, it, bf), s) ∧
      match find_entry (p + entry_size e) es2 name with
      | None => ret = - ENOENT
      | Some (q, e) => ret = seg_offset r + q ∧ it = entry_item e ∧ bf = cstr name
      end).
    { intros. rewrite <- Hp'. by apply IH. }
    clear IH. cbn [length] in Hfuel. cbn [find_entry].
    destruct (decide (e_live e = false ∧ seg_item_map r ≠ None)) as [[Hd Hm]|Hstop].
    { destruct (seg_item_map r); [|done]. cbn [search_pos first_live]. rewrite Hd.
      cbn [andb]. apply IH'. lia. }
    assert (Hpos : search_pos (seg_item_map r) (seg_size r) p (e :: es2) = p).
    { destruct (seg_item_map r); [|done]. cbn [search_pos first_live].
      destruct (e_live e); [done|]. exfalso. apply Hstop. done. }
    rewrite Hpos. destruct fuel as [|fuel]; [lia|].
    pose proof (find_item_loop_step fuel name es1 e es2 item buf s Hinv Hname) as Hst.
    cbv zeta in Hst. fold r p in Hst. rewrite Hst. clear Hst.
    destruct (e_live e) eqn:El; cbn [andb]; [|apply IH'; lia].
    destruct (decide (name = e_name e)) as [Heq|Hneq].
    + rewrite !(bool_decide_eq_true_2 (_ = _)) by congruence. rewrite Heq, Z.eqb_refl.
      by do 3 eexists.
    + rewrite !(bool_decide_eq_false_2 (_ = _)) by congruence.
      destruct (_ =? _); apply IH'; lia.
Qed.

(** What the search returns on a well-formed segment. *)
Lemma region_find_item_spec s es name :
  seg_view s es → name_ok name →
  ∃ ret it bf, region_find_item name s = Some ((ret, it, bf), s) ∧
    match find_entry 16 es name with
    | None => ret = - ENOENT
    | Some (q, e) => ret = seg_offset (nv_region s) + q ∧ it = entry_item e ∧ bf = cstr name
    end.
Proof.
  intros Hinv Hname. unfold region_find_item, get_region, bindM. cbv beta iota zeta.
  destruct (seg_size_mod _ (seg_region _ _ Hinv)) as [Hs0 Hs16].
  rewrite (first_offset_pos _ _ es Hs0 Hs16 (seg_map _ _ Hinv) (seg_fits _ _ Hinv)).
  pose proof (entries_size_length es). pose proof (seg_fits _ _ Hinv) as Hf.
  apply (find_item_loop_spec _ name [] es item_zero [] s Hinv Hname).
  unfold find_fuel. lia.
Qed.
End segment.
