(* ===== verification/NvramRegion.v ===== *)
(** * NVRAM: a region as a map from names to data

    What the region operations of nvram_config.c do to the entries of the
    current segment, and to the finite map those entries stand for: lookup,
    insertion, deletion and the move into a fresh segment. *)

From stdpp Require Import base numbers list option gmap.
From S2P Require Import Prelude NvramBits NvramStorage NvramConfig NvramItems.
Local Open Scope Z_scope.

(** ** The abstract contents *)

Definition live (es : list entry) : list entry := filter (λ e, e_live e = true) es.

(** The map a segment stands for. *)
Definition contents (es : list entry) : gmap (list Z) (list Z) :=
  list_to_map ((λ e, (e_name e, e_data e)) <$> live es).

Lemma live_cons e es : live (e :: es) = if e_live e then e :: live es else live es.
Proof.
  unfold live. rewrite filter_cons. destruct (e_live e); [by rewrite decide_True|].
  by rewrite decide_False.
Qed.

Lemma live_app es1 es2 : live (es1 ++ es2) = live es1 ++ live es2.
Proof. apply filter_app. Qed.

Lemma contents_cons e es :
  contents (e :: es) = if e_live e then <[e_name e := e_data e]> (contents es) else contents es.
Proof. unfold contents. rewrite live_cons. by destruct (e_live e). Qed.

Lemma contents_lookup p es name :
  contents es !! name = (λ '(_, e), e_data e) <$> find_entry p es name.
Proof.
  revert p. induction es as [|e es IH]; intros p; [done|].
  rewrite contents_cons. cbn [find_entry]. destruct (e_live e); cbn [andb]; [|apply IH].
  case_bool_decide as E.
  - rewrite E. by rewrite lookup_insert_eq.
  - by rewrite lookup_insert_ne by done.
Qed.

(** A found entry splits the list. *)
Lemma find_entry_split p es name q e :
  find_entry p es name = Some (q, e) →
  ∃ es1 es2, es = es1 ++ e :: es2 ∧ q = p + entries_size es1 ∧ e_live e = true ∧
    e_name e = name ∧ find_entry p es1 name = None.
Proof.
  revert p. induction es as [|e' es IH]; intros p; cbn [find_entry]; [done|].
  destruct (e_live e' && bool_decide (e_name e' = name)) eqn:E.
  - intros [= <- <-]. apply andb_true_iff in E as [E1 E2%bool_decide_eq_true].
    exists [], es. cbn. split_and!; try done. lia.
  - intros H. destruct (IH _ H) as (es1 & es2 & -> & -> & H1 & H2 & H3).
    exists (e' :: es1), es2. cbn [app entries_size foldr find_entry]. rewrite E.
    fold (entries_size es1). split_and!; try done. lia.
Qed.

Lemma find_entry_none p es name :
  find_entry p es name = None ↔ name ∉ e_name <$> live es.
Proof.
  revert p. induction es as [|e es IH]; intros p.
  { cbn. split; [intros _; apply not_elem_of_nil|done]. }
  rewrite live_cons. cbn [find_entry]. destruct (e_live e); cbn [andb]; [|apply IH].
  cbn [fmap list_fmap]. rewrite not_elem_of_cons. case_bool_decide as E.
  - split; [done|]. intros [H _]. by rewrite E in H.
  - rewrite IH. split; [intros H; split; [congruence|done]|by intros [_ H]].
Qed.

Lemma contents_none es name : contents es !! name = None ↔ name ∉ e_name <$> live es.
Proof. rewrite (contents_lookup 0), fmap_None. apply find_entry_none. Qed.

Lemma contents_app es1 es2 : contents (es1 ++ es2) = contents es1 ∪ contents es2.
Proof. unfold contents. by rewrite live_app, fmap_app, list_to_map_app. Qed.

Lemma app_eq_split (a b l : list Z) n :
  length a = n → a ++ b = l ↔ a = take n l ∧ b = drop n l.
Proof.
  intros <-. split.
  - intros <-. by rewrite take_app_length, drop_app_length.
  - intros [Ha ->]. rewrite Ha at 1. apply take_drop.
Qed.

Section region.
Context {F : Type} `{!FlashDrv F} `{!FlashLaws F}.
Implicit Types (f : F) (s : @nv F).

(** ** Reading *)

Lemma item_calc_data_crc_spec s off n crc :
  region_ok (nv_region s) → 0 <= off → 0 <= n → off + n <= total_size (nv_region s) →
  item_calc_data_crc off n crc s =
  Some (calc_crc8 (cells (nv_flash s) (base_addr (nv_region s) + off) n) crc, s).
Proof.
  intros Hr. unfold item_calc_data_crc. generalize (Nat.lt_succ_diag_r (Z.to_nat n)).
  generalize (S (Z.to_nat n)) as fuel. intros fuel.
  revert off n crc. induction fuel as [|fuel IH]; intros off n crc Hfuel Ho Hn Hb; [lia|].
  cbn [item_calc_data_crc_loop]. unfold NVRAM_BUFFER_SIZE. destruct (Z.leb_spec n 0).
  { by replace n with 0 by lia. }
  set (w := if n <? 128 then n else 128).
  assert (Hw : 0 < w <= n) by (subst w; zbool; lia).
  unfold bindM. rewrite readM_spec by (done || lia).
  rewrite IH by (done || lia). do 2 f_equal. rewrite <- calc_crc8_app, Z.add_assoc.
  rewrite <- cells_app by lia. do 2 f_equal. lia.
Qed.

Lemma same_data_loop_spec s fuel off data :
  region_ok (nv_region s) → 0 <= off →
  off + Z.of_nat (length data) <= total_size (nv_region s) → (length data < fuel)%nat →
  same_data_loop fuel off data s =
  Some (bool_decide (cells (nv_flash s) (base_addr (nv_region s) + off)
                       (Z.of_nat (length data)) = data), s).
Proof.
  intros Hr. revert off data. induction fuel as [|fuel IH]; intros off data Ho Hb Hfuel; [lia|].
  cbn [same_data_loop]. unfold NVRAM_BUFFER_SIZE.
  destruct (Z.leb_spec (Z.of_nat (length data)) 0).
  { rewrite (nil_length_inv data) by lia. done. }
  set (w := if _ <? 128 then _ else 128).
  assert (Hw : 0 < w <= Z.of_nat (length data)) by (subst w; zbool; lia).
  unfold bindM. rewrite readM_spec by (done || lia).
  assert (Hsplit : cells (nv_flash s) (base_addr (nv_region s) + off) (Z.of_nat (length data)) =
    cells (nv_flash s) (base_addr (nv_region s) + off) w ++
    cells (nv_flash s) (base_addr (nv_region s) + (off + w)) (Z.of_nat (length data) - w)).
  { rewrite Z.add_assoc, <- cells_app by lia. f_equal. lia. }
  assert (Hl : length (cells (nv_flash s) (base_addr (nv_region s) + off) w) = Z.to_nat w)
    by apply length_cells.
  pose proof (app_eq_split _ (cells (nv_flash s) (base_addr (nv_region s) + (off + w))
                (Z.of_nat (length data) - w)) data _ Hl) as Heq. rewrite <- Hsplit in Heq.
  case_bool_decide as E.
  - rewrite IH by (rewrite ?length_drop; lia).
    replace (Z.of_nat (length (drop (Z.to_nat w) data))) with (Z.of_nat (length data) - w)
      by (rewrite length_drop; lia).
    do 2 f_equal. apply bool_decide_ext. rewrite Heq. tauto.
  - rewrite bool_decide_eq_false_2; [done|]. rewrite Heq. tauto.
Qed.

(** Reading a name yields the longest prefix of its data that fits. *)
Lemma region_get_view s es name max_len :
  seg_view s es → name_ok name → 0 < max_len →
  region_get name max_len s =
  Some (match contents es !! name with
        | None => (- ENOENT, [])
        | Some d => (Z.min max_len (Z.of_nat (length d)), take (Z.to_nat max_len) d)
        end, s).
Proof.
  intros Hv Hname Hmax. unfold region_get. destruct (Z.eqb_spec max_len 0); [lia|].
  destruct (region_find_item_spec s es name Hv Hname) as (ret & it & bf & Hfind & Hres).
  unfold bindM at 1. rewrite Hfind, (contents_lookup 16).
  destruct (find_entry 16 es name) as [[q e]|] eqn:Hfe; [|by subst ret].
  destruct Hres as (-> & -> & ->).
  destruct (find_entry_split _ _ _ _ _ Hfe) as (es1 & es2 & -> & -> & Hl & Hnm & _).
  destruct (read_entry_header s es1 e es2 Hv) as (_ & _ & Hdata & Hend).
  pose proof (seg_entries _ _ Hv) as Hok. apply Forall_app in Hok as [_ Hok].
  inversion Hok as [|? ? Hoke _]; subst.
  destruct (entry_item_fields e Hoke) as (_ & _ & F3 & F4 & _ & F6).
  pose proof (entry_size_bounds e) as (Hsz & _ & _). pose proof (entries_size_nonneg es1).
  pose proof (seg_region _ _ Hv) as Hr. pose proof (seg_pos _ _ Hv) as Hp.
  set (r := nv_region s) in *. set (o := seg_offset r + (16 + entries_size es1)) in *.
  destruct (Z.ltb_spec o 0); [lia|]. rewrite F3, F4, F6, Nat2Z.id, take_cstr by lia.
  unfold bindM at 1, ITEM_HDR_SIZE.
  rewrite item_calc_data_crc_spec by (fold r; done || lia). fold r.
  replace (base_addr r + (o + 8 + Z.of_nat (length (cstr (e_name e)))))
    with (base_addr r + o + 8 + Z.of_nat (length (cstr (e_name e)))) by lia.
  rewrite Hdata, Z.eqb_refl. cbn [negb].
  set (d := e_data e) in *.
  assert (Hlen : (if max_len <? Z.of_nat (length d) then max_len else Z.of_nat (length d))
                 = Z.min max_len (Z.of_nat (length d))) by (zbool; lia).
  rewrite Hlen. set (len := Z.min _ _) in *. unfold bindM, retM.
  rewrite readM_spec by (fold r; done || lia). fold r. cbn [fmap option_fmap option_map].
  do 3 f_equal.
  replace (base_addr r + (o + 8 + Z.of_nat (length (cstr (e_name e)))))
    with (base_addr r + o + 8 + Z.of_nat (length (cstr (e_name e)))) by lia.
  set (a := base_addr r + o + 8 + Z.of_nat (length (cstr (e_name e)))) in *.
  assert (Hsub : cells (nv_flash s) a (len + (Z.of_nat (length d) - len)) = d)
    by (etrans; [|exact Hdata]; f_equal; lia).
  rewrite cells_app in Hsub by lia.
  apply (app_eq_split _ _ _ (Z.to_nat len)) in Hsub; [|apply length_cells].
  destruct Hsub as [-> _]. unfold len. destruct (Z.min_spec max_len (Z.of_nat (length d)))
    as [[_ ->]|[? ->]]; [done|]. unfold d in *. by rewrite !take_ge by lia.
Qed.

(** The comparison made before a write. *)
Lemma region_is_same_view s es name data :
  seg_view s es → name_ok name →
  region_is_same_config_data name data s =
  Some (bool_decide (contents es !! name = Some data), s).
Proof.
  intros Hv Hname. unfold region_is_same_config_data.
  destruct (region_find_item_spec s es name Hv Hname) as (ret & it & bf & Hfind & Hres).
  unfold bindM at 1. rewrite Hfind, (contents_lookup 16).
  destruct (find_entry 16 es name) as [[q e]|] eqn:Hfe; [|by subst ret].
  destruct Hres as (-> & -> & ->).
  destruct (find_entry_split _ _ _ _ _ Hfe) as (es1 & es2 & -> & -> & Hl & Hnm & _).
  destruct (read_entry_header s es1 e es2 Hv) as (_ & _ & Hdata & Hend).
  pose proof (seg_entries _ _ Hv) as Hok. apply Forall_app in Hok as [_ Hok].
  inversion Hok as [|? ? Hoke _]; subst.
  destruct (entry_item_fields e Hoke) as (_ & _ & F3 & F4 & _ & _).
  pose proof (entry_size_bounds e) as (Hsz & _ & _). pose proof (entries_size_nonneg es1).
  pose proof (seg_region _ _ Hv) as Hr. pose proof (seg_pos _ _ Hv) as Hp.
  set (r := nv_region s) in *. set (o := seg_offset r + (16 + entries_size es1)) in *.
  destruct (Z.ltb_spec 0 o); [|lia]. rewrite F3, F4. cbn [andb fmap option_fmap option_map].
  destruct (Z.eqb_spec (Z.of_nat (length data)) (Z.of_nat (length (e_data e)))) as [E|E].
  - unfold ITEM_HDR_SIZE. rewrite same_data_loop_spec by (fold r; done || lia). fold r.
    rewrite E, !Z.add_assoc, Hdata. do 2 f_equal. apply bool_decide_ext.
    split; [by intros ->|by intros [= ->]].
  - rewrite bool_decide_eq_false_2; [done|]. intros [= <-]. done.
Qed.

(** ** Writing *)

Lemma writeM_spec s off d :
  region_ok (nv_region s) → 0 <= off → off + Z.of_nat (length d) <= total_size (nv_region s) →
  erased (nv_flash s) (base_addr (nv_region s) + off) (Z.of_nat (length d)) → bytes_ok d →
  ∃ f', writeM off d s = Some (0, mk_nv f' (nv_region s)) ∧
        programmed (nv_flash s) f' (base_addr (nv_region s) + off) d.
Proof.
  intros. unfold writeM, on_flash.
  destruct (region_write_spec (nv_region s) (nv_flash s) off d) as (f' & -> & Hp); eauto.
Qed.

(** The item a write produces. *)
Lemma region_write_item_spec s off name data :
  let e := mk_entry name data true in
  let r := nv_region s in
  let n := Z.of_nat (length (entry_bytes e)) in
  region_ok r → name_ok name → data_ok data → 0 <= off → off + n <= total_size r →
  erased (nv_flash s) (base_addr r + off) n →
  ∃ f', region_write_item off name data s = Some (n, mk_nv f' r) ∧
        programmed (nv_flash s) f' (base_addr r + off) (entry_bytes e).
Proof.
  intros e r n Hr Hname Hdata Ho Hb He.
  assert (Hoke : entry_ok e) by done.
  destruct (new_item_fields name data Hname Hdata) as (_ & F3 & F4 & _).
  pose proof (length_entry_bytes e) as Hn. fold n in Hn. cbn [e_name e_data e] in Hn.
  assert (Hitem : entry_item e = new_item name data) by done.
  assert (Hhdr : bytes_ok (item_to_bytes (new_item name data) ++ cstr name)).
  { apply Forall_app_2; [rewrite <- Hitem; by apply entry_item_bytes|by apply cstr_bytes]. }
  assert (Hhl : Z.of_nat (length (item_to_bytes (new_item name data) ++ cstr name))
                = 8 + Z.of_nat (length (cstr name))) by (rewrite length_app; cbn [length item_to_bytes]; lia).
  unfold region_write_item. rewrite F3, F4, Nat2Z.id, take_cstr by lia.
  unfold NVRAM_BUFFER_SIZE, ITEM_HDR_SIZE. pose proof (length_cstr name). destruct Hname as [Hnb Hnl].
  destruct (Z.ltb_spec 128 (8 + Z.of_nat (length (cstr name)))); [lia|].
  destruct (writeM_spec s off (item_to_bytes (new_item name data) ++ cstr name))
    as (f1 & Hw & Hp1); [done|done|fold r; lia| |done|].
  { intros x Hx. apply He. fold r in Hx. lia. }
  unfold bindM at 1. rewrite Hw. fold r in Hp1.
  destruct (region_write_data_spec r f1 (off + (8 + Z.of_nat (length (cstr name)))) data)
    as (f2 & Hw2 & Hp2); [done|lia|lia| |apply Hdata|].
  { intros x Hx. rewrite (programmed_out _ _ _ _ x Hp1) by lia. apply He. lia. }
  exists f2. unfold bindM at 1, write_dataM, on_flash. cbn [nv_flash nv_region]. fold r.
  rewrite Hw2. cbn [fmap option_fmap option_map]. unfold retM. split; [do 2 f_equal; lia|].
  unfold entry_bytes. rewrite Hitem. cbn [e_name e_data e]. rewrite app_assoc.
  eapply programmed_app; [exact Hp1|]. by rewrite Hhl, <- Z.add_assoc.
Qed.

(** *** The bitmap follows the entries *)

Lemma map_matches_update map size es es' o b :
  map_matches map size es → 0 <= o → o < size → o mod 16 = 0 →
  (∀ x, live_at 16 es' x = if x =? o then b else live_at 16 es x) →
  map_matches (item_bitmap_update map o b) size es'.
Proof.
  intros Hm Ho1 Ho2 Ho3 Hlive. destruct map as [m|]; [|done]. destruct Hm as (Hw & Hl & Hb).
  pose proof (Z.div_mod o 16 ltac:(lia)) as Hdm. set (i := o / 16) in *.
  replace o with (16 * i) by lia.
  destruct (item_bitmap_update_spec m i b Hw) as (m' & -> & Hw' & Hl' & Hb'); [lia|].
  cbn [map_matches]. rewrite Hl'. split_and!; [done|done|]. intros j Hj.
  pose proof (Z.div_mod size 16 ltac:(lia)). pose proof (Z.mod_pos_bound size 16 ltac:(lia)).
  rewrite Hb' by lia. rewrite Hlive, Hb by lia.
  destruct (Z.eqb_spec j i), (Z.eqb_spec (16 * j) o); done || lia.
Qed.

Lemma map_matches_clear map size es :
  map_matches map size es → map_matches (item_bitmap_clear_all map) size [].
Proof.
  destruct map as [m|]; [|done]. intros (_ & Hl & _).
  destruct (item_bitmap_clear_spec m) as (m' & -> & Hw' & Hl' & Hb').
  cbn [map_matches]. rewrite Hl'. split_and!; [done|done|]. intros j Hj. apply Hb'.
Qed.

Lemma map_is_none map o b : item_bitmap_update map o b = None ↔ map = None.
Proof. by destruct map. Qed.

(** ** Steps inside the item area of the segment *)

(** The same segment of the same region, and no cell outside its item area
    changed. *)
Definition items_only s s' : Prop :=
  nv_region s' = region_with_map (seg_item_map (nv_region s'))
                   (region_with_write_offset (seg_write_offset (nv_region s')) (nv_region s)) ∧
  ∀ x, x < seg_base (nv_region s) + 16 ∨ seg_base (nv_region s) + seg_size (nv_region s) <= x →
       cell (nv_flash s') x = cell (nv_flash s) x.

#[export] Instance items_only_preorder : PreOrder items_only.
Proof.
  split.
  - intros [f r]. split; [by destruct r|done].
  - intros [f1 r1] [f2 r2] [f3 r3] [H1 H2] [H3 H4]. cbn [nv_region nv_flash] in *.
    rewrite H1 in H3, H4. split; [exact H3|]. cbn [nv_region nv_flash].
    intros x Hx. rewrite H4; [by apply H2|exact Hx].
Qed.

(** A new item behind the others. *)
Lemma seg_view_append f f' r es e o :
  seg_view (mk_nv f r) es → entry_ok e → e_live e = true →
  16 + entries_size es + entry_size e <= seg_size r →
  erased f (seg_base r + 16 + entries_size es) (seg_size r - 16 - entries_size es) →
  programmed f f' (seg_base r + 16 + entries_size es) (entry_bytes e) →
  let s' := mk_nv f' (region_with_write_offset o
              (region_with_map (item_bitmap_update (seg_item_map r) (16 + entries_size es) true) r)) in
  seg_view s' (es ++ [e]) ∧ items_only (mk_nv f r) s' ∧
  erased f' (seg_base r + 16 + entries_size (es ++ [e])) (seg_size r - 16 - entries_size (es ++ [e])).
Proof.
  intros [Hr Hp Hok Hf Hl Ht Hm] He Hlive Hfit Hfree Hprog s'. cbn [nv_flash nv_region] in *.
  assert (Hsz : entries_size (es ++ [e]) = entries_size es + entry_size e)
    by (rewrite entries_size_app; cbn; lia).
  pose proof (entries_size_nonneg es). pose proof (entry_size_bounds e) as (Hb & Hbm & Hb16).
  pose proof (length_entry_bytes e) as Hle.
  assert (Hfree' : erased f' (seg_base r + 16 + entries_size (es ++ [e]))
                     (seg_size r - 16 - entries_size (es ++ [e]))).
  { rewrite Hsz. intros x Hx. rewrite (programmed_out _ _ _ _ x Hprog) by lia. apply Hfree. lia. }
  split_and!; [split|..]; cbn [nv_flash nv_region s']; try done.
  - by apply Forall_app_2; [|constructor].
  - cbn. lia.
  - apply laid_out_app. split.
    + eapply laid_out_ext; [|exact Hl]. intros x Hx. apply (programmed_out _ _ _ _ x Hprog).
      unfold seg_base in *. cbn in Hx. lia.
    + cbn [laid_out]. split; [|done].
      change (seg_base _) with (seg_base r). set (a := seg_base r + 16 + entries_size es) in *.
      by apply (programmed_cells f).
  - change (seg_size (region_with_write_offset _ _)) with (seg_size r).
    apply (map_matches_update _ _ es); [done|lia|lia| |].
    { by rewrite Zplus_mod, entries_size_mod. }
    intros x. rewrite live_at_app. cbn [live_at]. rewrite Hlive, orb_false_r. cbn [andb].
    destruct (Z.eqb_spec x (16 + entries_size es)) as [->|]; [by rewrite orb_true_r|].
    by rewrite orb_false_r.
  - split; [done|]. cbn [nv_region nv_flash]. intros x Hx.
    apply (programmed_out _ _ _ _ x Hprog). lia.
Qed.

Definition dead (e : entry) : entry := mk_entry (e_name e) (e_data e) false.

Lemma entry_size_dead e : entry_size (dead e) = entry_size e.
Proof. done. Qed.

Lemma entries_size_dead es1 e es2 :
  entries_size (es1 ++ dead e :: es2) = entries_size (es1 ++ e :: es2).
Proof. by rewrite !entries_size_app. Qed.

(** Only the state byte of an obsolete item differs. *)
Lemma entry_bytes_dead e :
  e_live e = true → entry_bytes (dead e) = <[1%nat := 90]> (entry_bytes e).
Proof. intros Hl. unfold entry_bytes, entry_item. rewrite Hl. done. Qed.

Lemma live_at_dead p es1 e es2 x :
  live_at p (es1 ++ dead e :: es2) x =
  if x =? p + entries_size es1 then false else live_at p (es1 ++ e :: es2) x.
Proof.
  rewrite !live_at_app. cbn [live_at dead e_live andb orb]. rewrite entry_size_dead.
  set (q := p + entries_size es1). destruct (Z.eqb_spec x q) as [->|Hne].
  - destruct (live_at p es1 q) eqn:E1; [apply live_at_range in E1; lia|].
    destruct (live_at (q + entry_size e) es2 q) eqn:E2; [|done].
    apply live_at_range in E2. pose proof (entry_size_bounds e) as (_ & _ & ?). lia.
  - by rewrite andb_false_r.
Qed.

(** An item becomes obsolete. *)
Lemma seg_view_dead f f' r es1 e es2 :
  seg_view (mk_nv f r) (es1 ++ e :: es2) → e_live e = true →
  let q := 16 + entries_size es1 in
  programmed f f' (seg_base r + q + 1) [90] →
  let s' := mk_nv f' (region_with_map (item_bitmap_update (seg_item_map r) q false) r) in
  seg_view s' (es1 ++ dead e :: es2) ∧ items_only (mk_nv f r) s' ∧
  (∀ x, seg_base r + 16 + entries_size (es1 ++ e :: es2) <= x → cell f' x = cell f x).
Proof.
  intros [Hr Hp Hok Hf Hl Ht Hm] Hlive q Hprog s'. cbn [nv_flash nv_region] in *.
  pose proof (entries_size_nonneg es1). pose proof (entries_size_nonneg es2).
  pose proof (entry_size_bounds e) as (Hb & _ & Hb16). pose proof (length_entry_bytes e) as Hle.
  pose proof (length_cstr (e_name e)) as Hlc.
  assert (Hsz : entries_size (es1 ++ e :: es2) = entries_size es1 + entry_size e + entries_size es2)
    by (rewrite entries_size_app; cbn; fold (entries_size es2); lia).
  assert (Hout : ∀ x, x ≠ seg_base r + q + 1 → cell f' x = cell f x).
  { intros x Hx. apply (programmed_out _ _ _ _ x Hprog). cbn [length]. lia. }
  split_and!; [split|..]; cbn [nv_flash nv_region s']; rewrite ?entries_size_dead; try done.
  - apply Forall_app in Hok as [H1 H2]. inversion H2; subst.
    apply Forall_app_2; [done|by constructor].
  - apply laid_out_app in Hl as [Hl1 Hl2]. cbn [laid_out] in Hl2. destruct Hl2 as [Hl2 Hl3].
    change (seg_base (region_with_map _ r)) with (seg_base r). unfold q in *.
    apply laid_out_app. split; [|cbn [laid_out]; split].
    + eapply laid_out_ext; [|exact Hl1]. intros x Hx. apply Hout. lia.
    + apply cells_eq. rewrite (entry_bytes_dead e Hlive), length_insert. intros i Hi.
      set (a := seg_base r + 16 + entries_size es1) in *. rewrite cells_eq in Hl2.
      change (<[1%nat := 90]> (entry_bytes e)) with (setb (entry_bytes e) 1 90).
      destruct (decide (i = 1)) as [->|Hne].
      * rewrite getb_setb_eq by lia. pose proof (programmed_cells _ _ _ _ Hprog) as Hc.
        rewrite cells_eq in Hc. specialize (Hc 0 ltac:(cbn; lia)). change (getb [90] 0) with 90 in Hc.
        rewrite <- Hc. f_equal. unfold a. lia.
      * rewrite getb_setb_ne by lia. rewrite <- Hl2 by lia. apply Hout. lia.
    + rewrite entry_size_dead. eapply laid_out_ext; [|exact Hl3]. intros x Hx. apply Hout. lia.
  - change (seg_size (region_with_map _ r)) with (seg_size r).
    change (seg_base (region_with_map _ r)) with (seg_base r).
    intros Hnone%map_is_none x Hx. rewrite Hout; [|unfold q; lia]. apply Ht; [done|lia].
  - change (seg_size (region_with_map _ r)) with (seg_size r).
    apply (map_matches_update _ _ (es1 ++ e :: es2)); [done|lia|lia| |intros; apply live_at_dead].
    unfold q. by rewrite Zplus_mod, entries_size_mod.
  - split; [by destruct r|]. cbn [nv_region nv_flash]. intros x Hx. apply Hout. unfold q. lia.
  - intros x Hx. apply Hout. unfold q. lia.
Qed.

Lemma dead_names es1 e es2 :
  e_live e = true → NoDup (e_name <$> live (es1 ++ e :: es2)) →
  (e_name e ∉ e_name <$> live (es1 ++ dead e :: es2)) ∧
  NoDup (e_name <$> live (es1 ++ dead e :: es2)).
Proof.
  intros Hl Hnd. rewrite !live_app, !fmap_app, !live_cons in *. rewrite Hl in Hnd.
  cbn [dead e_live fmap list_fmap] in *.
  apply NoDup_app in Hnd as (H1 & H2 & H3).
  apply NoDup_cons in H3 as [H3 H4]. rewrite not_elem_of_app. split_and!; [|done|].
  - intros Hin. apply (H2 _ Hin). left.
  - apply NoDup_app. split_and!; [done| |done]. intros x Hx Hx'. apply (H2 x Hx). by right.
Qed.

Lemma contents_dead es1 e es2 :
  e_live e = true → NoDup (e_name <$> live (es1 ++ e :: es2)) →
  contents (es1 ++ dead e :: es2) = delete (e_name e) (contents (es1 ++ e :: es2)).
Proof.
  intros Hl Hnd. destruct (dead_names es1 e es2 Hl Hnd) as [Hn _].
  rewrite live_app, live_cons, fmap_app, not_elem_of_app in Hn. cbn [dead e_live] in Hn.
  destruct Hn as [Hn1 Hn2]. rewrite !contents_app, !contents_cons, Hl, delete_union.
  cbn [dead e_live]. rewrite delete_insert_eq. by rewrite !delete_id by (by apply contents_none).
Qed.

Lemma contents_snoc es e :
  e_live e = true → e_name e ∉ e_name <$> live es →
  contents (es ++ [e]) = <[e_name e := e_data e]> (contents es).
Proof.
  intros Hl Hn. rewrite contents_app, contents_cons, Hl.
  rewrite <- insert_union_r by (by apply contents_none). change (contents []) with (∅ : gmap (list Z) (list Z)).
  by rewrite map_union_empty.
Qed.

(** Making the found item obsolete; without one nothing happens. *)
Lemma obsolete_old_spec s es1 e es2 :
  seg_view s (es1 ++ e :: es2) → e_live e = true →
  let r := nv_region s in
  let q := 16 + entries_size es1 in
  ∃ f', obsolete_old (seg_offset r + q) s =
          Some (tt, mk_nv f' (region_with_map (item_bitmap_update (seg_item_map r) q false) r)) ∧
        programmed (nv_flash s) f' (seg_base r + q + 1) [90].
Proof.
  intros Hv Hl r q. destruct (read_entry_header s es1 e es2 Hv) as (_ & _ & _ & Hend).
  pose proof (seg_region _ _ Hv) as Hr. pose proof (seg_pos _ _ Hv) as Hp.
  pose proof (entries_size_nonneg es1). pose proof (entry_size_bounds e) as (_ & _ & ?).
  fold r q in Hend, Hp, Hr.
  pose proof (seg_layout _ _ Hv) as Hlay. apply laid_out_app in Hlay as [_ [Hlay _]].
  destruct (entry_parts _ _ _ Hlay) as (Hh & _). fold r in Hh.
  assert (Hst : cell (nv_flash s) (base_addr r + (seg_offset r + q + 1)) = 255).
  { replace (base_addr r + (seg_offset r + q + 1))
      with (seg_base r + 16 + entries_size es1 + 1) by (unfold seg_base, q; lia).
    rewrite <- (getb_cells (nv_flash s) _ 8) by lia. rewrite Hh. unfold entry_item. by rewrite Hl. }
  unfold obsolete_old, get_region, bindM at 1. fold r.
  destruct (Z.ltb_spec 0 (seg_offset r + q)); [|lia].
  unfold item_update_state, NVRAM_ITEM_STATE_OBSOLETE, bindM.
  destruct (writeM_spec s (seg_offset r + q + 1) [90]) as (f' & -> & Hprog);
    [done|lia|cbn [length]; fold r; lia| |by constructor|].
  { intros x Hx. cbn [length] in Hx. fold r in Hx.
    replace x with (base_addr r + (seg_offset r + q + 1)) by lia. done. }
  exists f'. unfold retM, update_map, mod_region. cbn [nv_flash nv_region]. fold r.
  replace (seg_offset r + q - seg_offset r) with q by lia.
  split; [done|]. replace (seg_base r + q + 1) with (base_addr r + (seg_offset r + q + 1))
    by (unfold seg_base; lia). done.
Qed.

(** Appending an item, before the old one is made obsolete. *)
Lemma append_spec s es name data :
  seg_inv s es → name_ok name → data_ok data →
  let e := mk_entry name data true in
  let r := nv_region s in
  16 + entries_size es + entry_size e <= seg_size r →
  ∃ n f', region_write_item (seg_write_offset r) name data s = Some (n, mk_nv f' r) ∧
    let s' := mk_nv f' (region_with_write_offset (seg_write_offset r + entry_size e)
                (region_with_map (item_bitmap_update (seg_item_map r)
                   (seg_write_offset r - seg_offset r) true) r)) in
    seg_view s' (es ++ [e]) ∧ items_only s s' ∧
    erased f' (seg_base r + 16 + entries_size (es ++ [e]))
      (seg_size r - 16 - entries_size (es ++ [e])).
Proof.
  intros [Hv _ _ Hw Hfree] Hname Hdata e r Hroom. fold r in Hw, Hfree.
  pose proof (seg_region _ _ Hv) as Hr. pose proof (seg_pos _ _ Hv) as Hp. fold r in Hr, Hp.
  pose proof (entries_size_nonneg es). pose proof (entry_size_bounds e) as (Hb & _ & _).
  pose proof (length_entry_bytes e) as Hle.
  assert (Ha : base_addr r + seg_write_offset r = seg_base r + 16 + entries_size es)
    by (unfold seg_base; lia).
  destruct (region_write_item_spec s (seg_write_offset r) name data)
    as (f' & Hwr & Hprog); [done|done|done|lia|fold r e; lia| |].
  { intros x Hx. apply Hfree. fold r e in Hx. lia. }
  fold r e in Hwr, Hprog. rewrite Ha in Hprog. exists (Z.of_nat (length (entry_bytes e))), f'.
  split; [done|]. cbv zeta.
  replace (seg_write_offset r - seg_offset r) with (16 + entries_size es) by lia.
  destruct s as [f r']. apply (seg_view_append f f' r); done.
Qed.

(** A name is set: the new item is there, the old one obsolete. *)
Lemma region_set_item_spec s es name data :
  seg_inv s es → name_ok name → data_ok data →
  let e := mk_entry name data true in
  16 + entries_size es + entry_size e <= seg_size (nv_region s) →
  ∃ s' es', region_set_item name data (entry_size e) s = Some (0, s') ∧
    seg_inv s' es' ∧ contents es' = <[name := data]> (contents es) ∧ items_only s s'.
Proof.
  intros Hinv Hname Hdata e Hroom. pose proof Hinv as [Hv Hdiv Hnd Hw _]. fold (live es) in Hnd.
  destruct (append_spec s es name data Hinv Hname Hdata Hroom) as (n & f1 & Hwr & Hv1 & Hio1 & Hfree1).
  fold e in Hwr, Hv1, Hio1, Hfree1. set (s1 := mk_nv f1 (region_with_write_offset _ _)) in *.
  destruct (region_find_item_spec s es name Hv Hname) as (ret & it & bf & Hfind & Hres).
  assert (Hrun : region_set_item name data (entry_size e) s =
    bindM (obsolete_old ret) (λ _, retM 0) s1).
  { unfold region_set_item, bindM at 1. rewrite Hfind. unfold get_region, bindM at 1.
    unfold bindM at 1. rewrite Hwr. reflexivity. }
  rewrite Hrun. unfold bindM. clear Hrun Hfind Hwr.
  assert (Hsz : entries_size (es ++ [e]) = entries_size es + entry_size e)
    by (rewrite entries_size_app; cbn; lia).
  destruct (find_entry 16 es name) as [[q e0]|] eqn:Hfe.
  - destruct Hres as (-> & _).
    destruct (find_entry_split _ _ _ _ _ Hfe) as (es1 & es2 & -> & -> & Hl & Hnm & _).
    rewrite <- app_assoc in Hv1. cbn [app] in Hv1.
    destruct (obsolete_old_spec s1 es1 e0 (es2 ++ [e]) Hv1 Hl) as (f2 & Hob & Hprog).
    change (seg_offset (nv_region s1)) with (seg_offset (nv_region s)) in Hob.
    rewrite Hob. destruct (seg_view_dead f1 f2 _ es1 e0 (es2 ++ [e]) Hv1 Hl Hprog) as (Hv2 & Hio2 & Hout).
    destruct (dead_names es1 e0 es2 Hl Hnd) as [Hnot Hnd'].
    eexists _, (es1 ++ dead e0 :: es2 ++ [e]). split; [reflexivity|].
    assert (Hassoc : es1 ++ dead e0 :: es2 ++ [e] = (es1 ++ dead e0 :: es2) ++ [e])
      by (by rewrite <- app_assoc).
    assert (Hszd : entries_size (es1 ++ dead e0 :: es2 ++ [e]) = entries_size ((es1 ++ e0 :: es2) ++ [e])).
    { rewrite entries_size_dead. by rewrite <- app_assoc. }
    split_and!; [split| |].
    + exact Hv2.
    + exact Hdiv.
    + fold (live (es1 ++ dead e0 :: es2 ++ [e])). rewrite Hassoc, live_app, fmap_app.
      apply NoDup_app. split_and!; [done| |apply NoDup_singleton].
      intros x Hx Hx'. cbn in Hx'. apply list_elem_of_singleton in Hx' as ->.
      rewrite Hnm in Hnot. done.
    + rewrite Hszd, Hsz. cbn. lia.
    + rewrite Hszd. intros x Hx. cbn [nv_flash]. rewrite Hout; [apply Hfree1; exact Hx|].
      rewrite <- app_assoc in Hx. cbn [app] in Hx. apply Hx.
    + rewrite Hassoc, contents_snoc by (cbn; congruence).
      rewrite contents_dead by done. cbn [e_name e_data e]. rewrite Hnm. apply insert_delete_eq.
    + etrans; [exact Hio1|exact Hio2].
  - subst ret. change (obsolete_old (- ENOENT) s1) with (Some (tt, s1)).
    apply find_entry_none in Hfe.
    eexists _, (es ++ [e]). split; [reflexivity|]. split_and!; [split| |].
    + exact Hv1.
    + exact Hdiv.
    + fold (live (es ++ [e])). rewrite live_app, fmap_app.
      apply NoDup_app. split_and!; [done| |apply NoDup_singleton].
      intros x Hx Hx'. cbn in Hx'. apply list_elem_of_singleton in Hx' as ->. done.
    + rewrite Hsz. cbn. lia.
    + exact Hfree1.
    + by rewrite contents_snoc.
    + exact Hio1.
Qed.

(** Setting no data deletes the name. *)
Lemma region_delete_spec s es name :
  seg_inv s es → name_ok name →
  ∃ s' es', region_set name [] s = Some (0, s') ∧ seg_inv s' es' ∧
    contents es' = delete name (contents es) ∧ items_only s s'.
Proof.
  intros Hinv Hname. pose proof Hinv as [Hv Hdiv Hnd Hw Hfree]. fold (live es) in Hnd.
  destruct (region_find_item_spec s es name Hv Hname) as (ret & it & bf & Hfind & Hres).
  assert (Hrun : region_set name [] s = bindM (obsolete_old ret) (λ _, retM 0) s).
  { unfold region_set, get_region, bindM at 1.
    rewrite (proj2 (seg_region _ _ Hv)). cbn [length negb].
    pose proof (length_cstr name). destruct Hname as [_ Hl]. unfold NVRAM_MAX_NAME_SIZE.
    destruct (Z.ltb_spec 112 (Z.of_nat (length (cstr name)))); [lia|].
    change (0 <? Z.of_nat 0) with false. change (NVRAM_MAX_DATA_SIZE <? Z.of_nat 0) with false.
    cbv iota. unfold bindM at 1. by rewrite Hfind. }
  rewrite Hrun. unfold bindM. clear Hrun Hfind.
  destruct (find_entry 16 es name) as [[q e0]|] eqn:Hfe.
  - destruct Hres as (-> & _).
    destruct (find_entry_split _ _ _ _ _ Hfe) as (es1 & es2 & -> & -> & Hl & Hnm & _).
    destruct (obsolete_old_spec s es1 e0 es2 Hv Hl) as (f2 & Hob & Hprog). rewrite Hob.
    destruct s as [f r]. cbn [nv_flash nv_region] in *.
    destruct (seg_view_dead f f2 r es1 e0 es2 Hv Hl Hprog) as (Hv2 & Hio2 & Hout).
    destruct (dead_names es1 e0 es2 Hl Hnd) as [Hnot Hnd'].
    eexists _, (es1 ++ dead e0 :: es2). split; [reflexivity|].
    split_and!; [split| |]; rewrite ?entries_size_dead; try done.
    + intros x Hx. cbn [nv_flash]. rewrite Hout; [by apply Hfree|apply Hx].
    + rewrite contents_dead by done. by rewrite Hnm.
  - subst ret. change (obsolete_old (- ENOENT) s) with (Some (tt, s)).
    eexists _, es. split; [reflexivity|]. split_and!; [done| |reflexivity].
    symmetry. apply delete_id. by rewrite (contents_lookup 16), Hfe.
Qed.

(** ** Moving to a fresh segment *)

Lemma item_is_empty_erased : item_of_bytes (replicate 8 255) = mk_item 255 255 255 255 255 255 65535.
Proof. reflexivity. Qed.

(** The check of a stored entry passes; of an erased header it says so. *)
Lemma item_check_validity_spec s off e cc :
  let r := nv_region s in
  region_ok r → entry_ok e → 0 <= off → off + entry_size e <= total_size r →
  cells (nv_flash s) (base_addr r + off) (Z.of_nat (length (entry_bytes e))) = entry_bytes e →
  item_check_validity off (entry_item e) cc s =
  Some (if e_live e then ITEM_STATUS_VALID else ITEM_STATUS_OBSOLETE, s).
Proof.
  intros r Hr Hok Ho Hb Hc. destruct (entry_parts _ _ _ Hc) as (_ & H2 & H3).
  destruct (entry_item_fields e Hok) as (F1 & F2 & F3 & F4 & F5 & F6).
  pose proof (entry_size_bounds e) as (Hsz & _ & _).
  unfold item_check_validity. rewrite F1, F2. unfold NVRAM_REGION_ITEM_MAGIC, NVRAM_ITEM_STATE_VALID.
  cbn [negb Z.eqb Pos.eqb]. destruct (e_live e); [|done]. cbn [negb Z.eqb Pos.eqb].
  rewrite F3, F4, F5. unfold bindM at 1, ITEM_HDR_SIZE.
  rewrite readM_spec by (fold r; done || lia). fold r. rewrite Z.add_assoc, H2, Z.eqb_refl.
  cbn [negb]. destruct cc; [|done]. unfold bindM.
  rewrite item_calc_data_crc_spec by (fold r; done || lia). fold r.
  rewrite !Z.add_assoc, H3. rewrite F6, Z.eqb_refl. done.
Qed.

(** Entries to copy: from [old] on, erased behind them up to [limit], away
    from the segment [r] points to. *)
Record copy_src f r (old limit : Z) (es : list entry) : Prop := {
  cs_ok : Forall entry_ok es;
  cs_pos : 0 <= old /\ old + entries_size es <= limit <= total_size r;
  cs_dis : limit <= seg_offset r ∨ seg_offset r + seg_size r <= old;
  cs_stop : old + entries_size es < limit → old + entries_size es + 8 <= limit;
  cs_layout : laid_out f (base_addr r + old) es;
  cs_erased : erased f (base_addr r + old + entries_size es) (limit - old - entries_size es);
}.

Lemma copy_src_next f r old limit e es :
  copy_src f r old limit (e :: es) →
  copy_src f r (old + entry_size e) limit es ∧ entry_ok e ∧
  cells f (base_addr r + old) (Z.of_nat (length (entry_bytes e))) = entry_bytes e.
Proof.
  intros [Hok Hp Hd Hs Hl He]. cbn [entries_size foldr] in *. fold (entries_size es) in *.
  inversion Hok; subst. cbn [laid_out] in Hl. destruct Hl as [Hl1 Hl2].
  pose proof (entry_size_bounds e) as (_ & _ & ?). pose proof (entries_size_nonneg es).
  split_and!; [split|done|done]; try done; try lia.
  - by rewrite Z.add_assoc.
  - intros x Hx. apply He. lia.
Qed.

Lemma copy_src_ext f f' r m old limit es :
  copy_src f r old limit es →
  (∀ x, x < seg_base r ∨ seg_base r + seg_size r <= x → cell f' x = cell f x) →
  copy_src f' (region_with_map m r) old limit es.
Proof.
  intros [Hok Hp Hd Hs Hl He] Hx. pose proof (entries_size_nonneg es). unfold seg_base in Hx.
  split; try done; cbn [base_addr region_with_map].
  - eapply laid_out_ext; [|exact Hl]. intros x Hin. apply Hx. lia.
  - intros x Hin. rewrite Hx by lia. apply He. lia.
Qed.

(** The copy appends the live entries to those already in the new segment. *)
Lemma copy_seg_loop_spec fuel f r es0 es old limit cc :
  seg_view (mk_nv f r) es0 →
  erased f (seg_base r + 16 + entries_size es0) (seg_size r - 16 - entries_size es0) →
  copy_src f r old limit es →
  16 + entries_size es0 + entries_size (live es) <= seg_size r → (length es < fuel)%nat →
  ∃ f' m', copy_seg_loop fuel (seg_offset r) old (seg_offset r + (16 + entries_size es0)) limit cc
             (mk_nv f r) =
           Some (seg_offset r + (16 + entries_size (es0 ++ live es)),
                 mk_nv f' (region_with_map m' r)) ∧
    seg_view (mk_nv f' (region_with_map m' r)) (es0 ++ live es) ∧
    items_only (mk_nv f r) (mk_nv f' (region_with_map m' r)) ∧
    erased f' (seg_base r + 16 + entries_size (es0 ++ live es))
      (seg_size r - 16 - entries_size (es0 ++ live es)).
Proof.
  revert fuel f r es0 old. induction es as [|e es IH];
    intros fuel f r es0 old Hv Hfree Hsrc Hroom Hfuel;
    (destruct fuel as [|fuel]; [cbn in Hfuel; lia|]); cbn [copy_seg_loop length] in *;
    pose proof (seg_region _ _ Hv) as Hr; cbn [nv_region] in Hr.
  - destruct Hsrc as [_ Hp _ Hs _ He]. cbn [entries_size foldr] in *. rewrite Z.add_0_r in *.
    exists f, (seg_item_map r). cbn [live filter]. change (live []) with (@nil entry).
    rewrite app_nil_r. replace (region_with_map (seg_item_map r) r) with r by (by destruct r).
    split; [|split_and!; [done|reflexivity|done]].
    destruct (Z.ltb_spec old limit) as [Hlt|]; [|done]. cbn [negb].
    unfold bindM, ITEM_HDR_SIZE. specialize (Hs Hlt).
    rewrite readM_spec by (cbn [nv_region]; done || lia). cbn [nv_region nv_flash].
    rewrite (erased_cells f (base_addr r + old) 8); [reflexivity|].
    intros x Hx. apply He. lia.
  - destruct (copy_src_next _ _ _ _ _ _ Hsrc) as (Hsrc' & Hok & Hc).
    pose proof (cs_pos _ _ _ _ _ Hsrc) as Hp. pose proof (cs_dis _ _ _ _ _ Hsrc) as Hdis.
    cbn [entries_size foldr] in Hp. fold (entries_size es) in Hp.
    pose proof (entry_size_bounds e) as (Hsz & _ & H16). pose proof (entries_size_nonneg es).
    pose proof (length_entry_bytes e) as Hle. pose proof (entries_size_nonneg es0).
    pose proof (seg_pos _ _ Hv) as Hsp. cbn [nv_region] in Hsp.
    destruct (entry_item_fields e Hok) as (_ & _ & F3 & F4 & _).
    assert (Hal : item_get_aligned_size (entry_item e) = entry_size e)
      by (unfold item_get_aligned_size, entry_size; by rewrite F3, F4).
    assert (Hre : item_get_real_size (entry_item e) = Z.of_nat (length (entry_bytes e)))
      by (unfold item_get_real_size, item_calc_real_size, ITEM_HDR_SIZE; rewrite F3, F4; lia).
    destruct (Z.ltb_spec old limit); [|lia]. cbn [negb]. unfold bindM at 1, ITEM_HDR_SIZE.
    rewrite readM_spec by (cbn [nv_region]; done || lia). cbn [nv_region nv_flash].
    destruct (entry_parts _ _ _ Hc) as (-> & _ & _). rewrite (entry_item_roundtrip e Hok).
    unfold bindM at 1.
    rewrite (item_check_validity_spec (mk_nv f r) old e cc) by (done || cbn [nv_region]; lia).
    rewrite Hal. rewrite live_cons in *. destruct (e_live e) eqn:Hl; [|apply IH; done || lia].
    cbn [entries_size foldr] in Hroom. fold (entries_size (live es)) in Hroom.
    pose proof (entries_size_nonneg (live es)).
    assert (Ha : base_addr r + (seg_offset r + (16 + entries_size es0)) =
                 seg_base r + 16 + entries_size es0) by (unfold seg_base; lia).
    destruct (region_copy_spec r f old (seg_offset r + (16 + entries_size es0))
                (item_get_real_size (entry_item e))) as (f1 & Hcp & Hprog); try done; try lia.
    { rewrite Ha. intros x Hx. apply Hfree. lia. }
    unfold bindM at 1, copyM, on_flash. cbn [nv_region nv_flash]. rewrite Hcp.
    rewrite Hre, Hc, Ha in Hprog.
    destruct (seg_view_append f f1 r es0 e (seg_write_offset r) Hv Hok Hl ltac:(lia) Hfree Hprog)
      as (Hv1 & Hio1 & Hfree1).
    set (m1 := item_bitmap_update _ _ _) in *.
    replace (region_with_write_offset (seg_write_offset r) (region_with_map m1 r))
      with (region_with_map m1 r) in * by (by destruct r).
    assert (Hsz1 : entries_size (es0 ++ [e]) = entries_size es0 + entry_size e)
      by (rewrite entries_size_app; cbn; lia).
    destruct (IH fuel f1 (region_with_map m1 r) (es0 ++ [e]) (old + entry_size e))
      as (f' & m' & Hrun & Hv' & Hio' & Hfree'); [done|done| |cbn; lia|lia|].
    { eapply copy_src_ext; [exact Hsrc'|]. intros x Hx. apply Hio1. cbn. lia. }
    exists f', m'. rewrite <- app_assoc in *. cbn [app] in *. split_and!.
    + unfold bindM, update_map, mod_region. cbn [nv_region nv_flash].
      replace (seg_offset r + (16 + entries_size es0) - seg_offset r)
        with (16 + entries_size es0) by lia. fold m1.
      replace (seg_offset r + (16 + entries_size es0) + entry_size e)
        with (seg_offset r + (16 + entries_size (es0 ++ [e]))) by lia.
      exact Hrun.
    + exact Hv'.
    + etrans; [exact Hio1|exact Hio'].
    + exact Hfree'.
Qed.
End region.
