(* ===== verification/NvramStore.v ===== *)
(** * NVRAM: the region as a persistent store

    The segment headers join the invariant: exactly one segment of a region
    carries a valid header.  Moving to the next segment keeps the contents,
    and setting, deleting and reading act on the abstract map as they should
    as long as the data fits. *)

From stdpp Require Import base numbers list option gmap.
From S2P Require Import Prelude NvramBits NvramStorage NvramConfig NvramItems NvramRegion.
Local Open Scope Z_scope.

(** ** Segment headers *)

Lemma le32_split m :
  0 <= m < 4294967296 →
  m mod 256 + 256 * (m / 256 mod 256) + 65536 * (m / 65536 mod 256)
  + 16777216 * (m / 16777216 mod 256) = m.
Proof. intros. dlia. Qed.

Lemma hdr_roundtrip h :
  0 <= sh_magic h < 4294967296 → is_u16 (sh_seg_size h) → length (sh_reserved2 h) = 4%nat →
  hdr_of_bytes (hdr_to_bytes h) = h.
Proof.
  destruct h as [m st c v rs sq hs sz r2]. cbn [sh_magic sh_seg_size sh_reserved2].
  intros Hm Hs Hr. destruct r2 as [|a [|b [|c' [|d [|]]]]]; try done.
  trans (mk_seg_header (m mod 256 + 256 * (m / 256 mod 256) + 65536 * (m / 65536 mod 256)
           + 16777216 * (m / 16777216 mod 256)) st c v rs sq hs
           (le16 (sz mod 256) (sz / 256 mod 256)) [a; b; c'; d]); [reflexivity|].
  rewrite le32_split by done. f_equal. unfold le16. dlia.
Qed.

Definition seg_size_ok (size : Z) : Prop := size = 4096 ∨ size = 8192.

Lemma new_seg_header_facts size seq :
  seg_size_ok size → is_u8 seq →
  let h := new_seg_header size seq in
  hdr_of_bytes (hdr_to_bytes h) = h ∧ bytes_ok (hdr_to_bytes h) ∧
  is_valid_region_seg_header h = true ∧ is_valid_merge_region_seg_header h = false.
Proof.
  intros Hs Hq h.
  assert (Hu : u16 size = size) by (apply u16_id; unfold is_u16; destruct Hs; lia).
  assert (Hcrc : is_u8 (sh_crc h)).
  { unfold h, new_seg_header. cbn [sh_crc]. apply calc_crc8_u8; [unfold is_u8; lia|].
    unfold hdr_crc_part, hdr_to_bytes. cbn [drop app sh_version sh_reserved sh_seq_id sh_head_size
      sh_seg_size sh_reserved2]. rewrite Hu.
    repeat (apply Forall_cons_2; [first [done|by vm_compute|destruct Hs as [-> | ->]; by vm_compute]|]).
    apply Forall_nil_2. }
  split_and!.
  - apply hdr_roundtrip; [by vm_compute| |done]. unfold h. cbn [new_seg_header sh_seg_size].
    apply u16_range.
  - unfold hdr_to_bytes. fold h.
    apply Forall_app_2; [|unfold h; cbn [new_seg_header sh_reserved2]; by repeat constructor].
    repeat (apply Forall_cons_2; [first [exact Hcrc|exact Hq|apply Z.mod_pos_bound; lia
                                        |by vm_compute]|]).
    apply Forall_nil_2.
  - unfold is_valid_region_seg_header, is_valid_header.
    rewrite !andb_true_iff, !Z.eqb_eq. by split_and!.
  - done.
Qed.

Lemma length_hdr size seq : length (hdr_to_bytes (new_seg_header size seq)) = 16%nat.
Proof. done. Qed.

Section store.
Context {F : Type} `{!FlashDrv F} `{!FlashLaws F}.
Implicit Types (f : F) (s : @nv F) (r : region_info).

Lemma region_seg_size_ok r : region_ok r → seg_size_ok (seg_size r).
Proof. intros H%region_ok_bounds. unfold seg_size_ok. lia. Qed.

(** The header of the segment at an offset of the region. *)
Definition header_at f r (off : Z) : seg_header := hdr_of_bytes (cells f (base_addr r + off) 16).

(** A bitmap large enough for the segment. *)
Definition map_fits r : Prop := map_matches (item_bitmap_clear_all (seg_item_map r)) (seg_size r) [].

(** Offsets of segments. *)
Definition seg_at r (off : Z) : Prop :=
  0 <= off ∧ off + seg_size r <= total_size r ∧ (seg_size r | off).

Lemma seg_at_align r off : region_ok r → seg_at r off → (4096 | off) ∧ (4096 | seg_size r).
Proof.
  intros Hr (_ & _ & Hd). assert (H : (4096 | seg_size r)).
  { destruct (region_seg_size_ok r Hr) as [-> | ->]; [by exists 1|by exists 2]. }
  split; [by etrans|done].
Qed.

(** Two segments are the same or disjoint. *)
Lemma seg_at_disjoint r o1 o2 :
  region_ok r → seg_at r o1 → seg_at r o2 → o1 ≠ o2 →
  o1 + seg_size r <= o2 ∨ o2 + seg_size r <= o1.
Proof.
  intros Hr (_ & _ & [k1 ->]) (_ & _ & [k2 ->]) Hne.
  destruct (seg_size_mod r Hr) as [Hs _].
  destruct (Z.lt_trichotomy k1 k2) as [?|[->|?]]; [left; nia|done|right; nia].
Qed.

(** Preparing a segment. *)
Lemma region_init_new_seg_spec s off :
  let r := nv_region s in
  region_ok r → seg_at r off → map_fits r →
  let seq := u8 (seg_seq_id r + 1) in
  let r' := region_with_map (item_bitmap_clear_all (seg_item_map r))
              (region_with_seg off (off + 16) seq r) in
  ∃ f', region_init_new_seg off s = Some (tt, mk_nv f' r') ∧
    seg_inv (mk_nv f' r') [] ∧
    cells f' (base_addr r + off) 16 = hdr_to_bytes (new_seg_header (seg_size r) seq) ∧
    ∀ x, x < base_addr r + off ∨ base_addr r + off + seg_size r <= x →
         cell f' x = cell (nv_flash s) x.
Proof.
  intros r Hr Hat Hmap seq r'. pose proof Hat as (Ho & Hb & Hdiv).
  destruct (seg_at_align r off Hr Hat) as [Hd1 Hd2]. destruct (seg_size_mod r Hr) as [Hs0 _].
  pose proof (region_seg_size_ok r Hr) as Hsok.
  destruct (new_seg_header_facts (seg_size r) seq Hsok (u8_range _)) as (_ & Hhb & _).
  unfold region_init_new_seg, get_region, bindM at 1. fold r.
  destruct (region_erase_spec r (nv_flash s) off (seg_size r)) as (f1 & He & Hw1 & Hw1o); try done; try lia.
  unfold bindM at 1, eraseM, on_flash. fold r. rewrite He.
  destruct (writeM_spec (mk_nv f1 r) off (hdr_to_bytes (new_seg_header (seg_size r) seq)))
    as (f2 & Hwr & Hprog); cbn [nv_region nv_flash]; rewrite ?length_hdr; try done.
  { destruct Hsok; lia. }
  { intros x Hx. apply Hw1. destruct Hsok; lia. }
  unfold bindM at 1. fold seq. rewrite Hwr. cbn [nv_region nv_flash] in Hprog.
  exists f2. unfold bindM, clear_map, mod_region, NVRAM_SEG_ITEM_START_OFFSET. cbn [nv_region nv_flash].
  split; [done|].
  assert (Htail : erased f2 (base_addr r + off + 16) (seg_size r - 16)).
  { intros x Hx. rewrite (programmed_out _ _ _ _ x Hprog) by (rewrite length_hdr; lia).
    apply Hw1. lia. }
  split_and!.
  - split; cbn [nv_region nv_flash]; try done.
    + split; cbn [nv_region nv_flash]; try done.
      * cbn. destruct Hsok; lia.
      * intros _ x Hx. apply Htail. revert Hx. unfold seg_base. cbn. lia.
    + apply NoDup_nil_2.
    + cbn. lia.
    + intros x Hx. apply Htail. revert Hx. unfold seg_base. cbn. lia.
  - apply (programmed_cells _ _ _ _ Hprog).
  - intros x Hx. rewrite (programmed_out _ _ _ _ x Hprog) by (rewrite length_hdr; destruct Hsok; lia).
    by apply Hw1o.
Qed.

(** The invariant of a region in use. *)
Record region_inv s (es : list entry) : Prop := {
  ri_seg : seg_inv s es;
  ri_seq : is_u8 (seg_seq_id (nv_region s));
  ri_hdr : cells (nv_flash s) (seg_base (nv_region s)) 16 =
           hdr_to_bytes (new_seg_header (seg_size (nv_region s)) (seg_seq_id (nv_region s)));
  ri_others : ∀ o, seg_at (nv_region s) o → o ≠ seg_offset (nv_region s) →
              is_valid_region_seg_header (header_at (nv_flash s) (nv_region s) o) = false;
}.

(** What the operations leave alone: the place of the region and every cell
    outside it. *)
Definition same_region s s' : Prop :=
  storage (nv_region s') = storage (nv_region s) ∧
  base_addr (nv_region s') = base_addr (nv_region s) ∧
  total_size (nv_region s') = total_size (nv_region s) ∧
  seg_size (nv_region s') = seg_size (nv_region s) ∧
  ∀ x, x < base_addr (nv_region s) ∨ base_addr (nv_region s) + total_size (nv_region s) <= x →
       cell (nv_flash s') x = cell (nv_flash s) x.

#[export] Instance same_region_preorder : PreOrder same_region.
Proof.
  split; [by intros s|]. intros s1 s2 s3 (A1 & A2 & A3 & A4 & A5) (B1 & B2 & B3 & B4 & B5).
  split_and!; [congruence..|]. intros x Hx. rewrite B5 by (rewrite A2, A3; done). by apply A5.
Qed.

Lemma seg_inv_at s es : seg_inv s es → seg_at (nv_region s) (seg_offset (nv_region s)).
Proof. intros [Hv Hd _ _ _]. destruct (seg_pos _ _ Hv). by split_and!. Qed.

Lemma items_only_fields s s' :
  items_only s s' →
  storage (nv_region s') = storage (nv_region s) ∧
  base_addr (nv_region s') = base_addr (nv_region s) ∧
  total_size (nv_region s') = total_size (nv_region s) ∧
  seg_size (nv_region s') = seg_size (nv_region s) ∧
  seg_offset (nv_region s') = seg_offset (nv_region s) ∧
  seg_seq_id (nv_region s') = seg_seq_id (nv_region s).
Proof. intros [Hr _]. destruct (nv_region s'), (nv_region s). by injection Hr as <- <- <- <- <- <-. Qed.

Lemma items_only_same_region s s' es : seg_inv s es → items_only s s' → same_region s s'.
Proof.
  intros Hinv Hio. destruct (items_only_fields _ _ Hio) as (E1 & E2 & E3 & E4 & E5 & E6).
  destruct Hio as [_ Hx]. destruct (seg_inv_at _ _ Hinv) as (H1 & H2 & _).
  split_and!; [done..|]. intros x Hout. apply Hx. unfold seg_base. lia.
Qed.

(** The part of the invariant about the headers. *)
Definition headers_ok s : Prop :=
  let r := nv_region s in
  is_u8 (seg_seq_id r) ∧
  cells (nv_flash s) (seg_base r) 16 = hdr_to_bytes (new_seg_header (seg_size r) (seg_seq_id r)) ∧
  ∀ o, seg_at r o → o ≠ seg_offset r →
       is_valid_region_seg_header (header_at (nv_flash s) r o) = false.

Lemma region_inv_split s es : region_inv s es ↔ seg_inv s es ∧ headers_ok s.
Proof. split; [by intros [H1 H2 H3 H4]|intros (H1 & H2 & H3 & H4); by split]. Qed.

(** Steps inside the items keep the headers. *)
Lemma headers_ok_items s s' :
  region_ok (nv_region s) → seg_at (nv_region s) (seg_offset (nv_region s)) →
  headers_ok s → items_only s s' → headers_ok s'.
Proof.
  intros Hok Hat (Hq & Hh & Ho) Hio.
  destruct (items_only_fields _ _ Hio) as (E1 & E2 & E3 & E4 & E5 & E6). destruct Hio as [_ Hx].
  pose proof (region_seg_size_ok _ Hok) as Hsz.
  split_and!; [by rewrite E6| |].
  - unfold seg_base in *. rewrite E2, E4, E5, E6, <- Hh. apply cells_ext.
    intros x Hin. apply Hx. lia.
  - intros o Hato Hne. unfold seg_at in Hato. rewrite E3, E4 in Hato. rewrite E5 in Hne.
    rewrite <- (Ho o Hato Hne). unfold header_at. rewrite E2. do 2 f_equal. apply cells_ext.
    destruct (seg_at_disjoint _ _ _ Hok Hato Hat Hne) as [Hd|Hd];
      intros x Hin; apply Hx; unfold seg_base; destruct Hsz; lia.
Qed.

Lemma region_inv_items s s' es es' :
  region_inv s es → items_only s s' → seg_inv s' es' → region_inv s' es'.
Proof.
  intros [Hinv Hh]%region_inv_split Hio Hinv'. apply region_inv_split. split; [done|].
  apply (headers_ok_items s); [|by apply (seg_inv_at s es)|done|done].
  apply (seg_region _ _ (inv_view _ _ Hinv)).
Qed.

(** ** Moving to the next segment *)

Lemma live_idemp es : live (live es) = live es.
Proof. unfold live. rewrite list_filter_filter. apply list_filter_iff. tauto. Qed.

Lemma contents_live es : contents (live es) = contents es.
Proof. unfold contents. by rewrite live_idemp. Qed.

Lemma live_size es : entries_size (live es) <= entries_size es.
Proof.
  induction es as [|e es IH]; [done|]. rewrite live_cons.
  pose proof (entry_size_bounds e) as (_ & _ & ?).
  destruct (e_live e); cbn [entries_size foldr]; fold (entries_size es); [fold (entries_size (live es))|]; lia.
Qed.

(** Copying into a segment just prepared. *)
Lemma region_copy_seg_spec f r old size es cc :
  seg_inv (mk_nv f r) [] → copy_src f r (old + 16) (old + size) es →
  16 + entries_size (live es) <= seg_size r → NoDup (e_name <$> live es) →
  ∃ f' r', region_copy_seg (seg_offset r) old size cc (mk_nv f r) = Some (tt, mk_nv f' r') ∧
    seg_inv (mk_nv f' r') (live es) ∧ items_only (mk_nv f r) (mk_nv f' r').
Proof.
  intros [Hv Hdiv _ Hw Hfree] Hsrc Hroom Hnd. cbn [nv_region nv_flash] in *.
  set (r0 := region_with_map (item_bitmap_clear_all (seg_item_map r)) r).
  assert (Hv0 : seg_view (mk_nv f r0) []).
  { destruct Hv as [H1 H2 H3 H4 H5 H6 H7]. split; cbn [nv_region nv_flash] in *; try done.
    by apply (map_matches_clear _ _ []). }
  pose proof (cs_pos _ _ _ _ _ Hsrc) as Hp. pose proof (entries_size_length es) as Hlen.
  unfold region_copy_seg, NVRAM_SEG_ITEM_START_OFFSET.
  destruct (copy_seg_loop_spec (S (Z.to_nat size)) f r0 [] es (old + 16) (old + size) cc)
    as (f' & m' & Hrun & Hv' & Hio' & Hfree'); try done; [by destruct Hsrc; split|lia|].
  unfold bindM, clear_map, mod_region at 1. cbn [nv_region nv_flash]. fold r0.
  cbn [entries_size foldr] in Hrun. rewrite Z.add_0_r in Hrun.
  change (seg_offset r0) with (seg_offset r) in Hrun. rewrite Hrun.
  cbn [app] in *. unfold mod_region. cbn [nv_region nv_flash].
  eexists f', _. split; [reflexivity|]. split.
  - split; cbn [nv_region nv_flash]; try done.
    + by destruct Hv'; split.
    + fold (live (live es)). by rewrite live_idemp.
    + cbn. lia.
  - split; [done|]. apply Hio'.
Qed.

(** The segment that comes next. *)
Definition next_seg r : Z :=
  if total_size r <=? seg_offset r + seg_size r then 0 else seg_offset r + seg_size r.

Lemma next_seg_at r :
  region_ok r → seg_at r (seg_offset r) → seg_at r (next_seg r) ∧ next_seg r ≠ seg_offset r.
Proof.
  intros Hr (H1 & H2 & H3). pose proof (region_ok_bounds r Hr) as (_ & _ & Hb).
  unfold next_seg, seg_at. destruct (Z.leb_spec (total_size r) (seg_offset r + seg_size r)) as [Hl|Hl].
  - split_and!; [lia|lia|apply Z.divide_0_r|lia].
  - split_and!; [lia| |apply Z.divide_add_r; [done|apply Z.divide_refl]|lia].
    destruct H3 as [k Hk]. destruct Hb as [[E1 E2]|[E1 E2]]; rewrite E1, E2 in *; lia.
Qed.

(** An obsolete mark invalidates a header. *)
Lemma obsolete_header_invalid f f' a :
  programmed f f' (a + 4) [90] →
  is_valid_region_seg_header (hdr_of_bytes (cells f' a 16)) = false.
Proof.
  intros Hp. apply programmed_cells in Hp. rewrite cells_eq in Hp.
  specialize (Hp 0 ltac:(cbn; lia)). rewrite Z.add_0_r in Hp. change (getb [90] 0) with 90 in Hp.
  unfold is_valid_region_seg_header, is_valid_header, hdr_of_bytes. cbn [sh_magic sh_state sh_crc].
  rewrite (getb_cells f' a 16 4), Hp by lia. by rewrite andb_false_r.
Qed.

(** The item area alone matters to the segment. *)
Lemma seg_inv_ext f f' r es :
  seg_inv (mk_nv f r) es →
  (∀ x, seg_base r + 16 <= x < seg_base r + seg_size r → cell f' x = cell f x) →
  seg_inv (mk_nv f' r) es.
Proof.
  intros [[H1 H2 H3 H4 H5 H6 H7] Hd Hn Hw Hf] Hx. cbn [nv_region nv_flash] in *.
  pose proof (entries_size_nonneg es).
  assert (He : erased f' (seg_base r + 16 + entries_size es) (seg_size r - 16 - entries_size es)).
  { intros x Hin. rewrite Hx by lia. apply Hf. lia. }
  split; [split|..]; cbn [nv_region nv_flash]; try done.
  eapply laid_out_ext; [|exact H5]. intros x Hin. apply Hx. lia.
Qed.

Lemma region_seg_update_state_spec s off :
  let r := nv_region s in
  region_ok r → seg_at r off → cell (nv_flash s) (base_addr r + off + 4) = 255 →
  ∃ f', region_seg_update_state off NVRAM_SEG_STATE_OBSOLETE s = Some (tt, mk_nv f' r) ∧
        programmed (nv_flash s) f' (base_addr r + off + 4) [90].
Proof.
  intros r Hr (H1 & H2 & _) Hc. destruct (region_seg_size_ok r Hr);
  (destruct (writeM_spec s (off + 4) [90]) as (f' & Hw & Hp); cbn [length]; try done; fold r; try lia;
   [intros x Hx; replace x with (base_addr r + off + 4) by lia; done|by constructor|];
   exists f'; unfold region_seg_update_state, NVRAM_SEG_STATE_OBSOLETE, bindM; rewrite Hw;
   split; [done|by rewrite Z.add_assoc in Hp]).
Qed.

(** Erasing the next segment when something is in it. *)
Lemma purge_wipe_spec {A} s off (k : unit → M A) :
  let r := nv_region s in
  region_ok r → seg_at r off →
  ∃ f', bindM (is_empyM off (seg_size r)) (λ e,
          bindM (if negb e then bindM (eraseM off (seg_size r)) (λ _, retM tt) else retM tt) k) s
        = k tt (mk_nv f' r) ∧
    ∀ x, x < base_addr r + off ∨ base_addr r + off + seg_size r <= x →
         cell f' x = cell (nv_flash s) x.
Proof.
  intros r Hr Hat. pose proof Hat as (H1 & H2 & _).
  destruct (seg_at_align r off Hr Hat) as [Hd1 Hd2]. destruct (seg_size_mod r Hr) as [Hs0 _].
  unfold bindM, is_empyM, eraseM, on_flash. fold r.
  destruct (region_is_empy_spec r (nv_flash s) off (seg_size r)) as (e & -> & _); try done; try lia.
  { etrans; [|exact Hd2]. by exists 1024. }
  cbn [fmap option_fmap option_map]. destruct e; cbn [negb].
  - exists (nv_flash s). unfold retM, r. by destruct s.
  - fold r. destruct (region_erase_spec r (nv_flash s) off (seg_size r)) as (f1 & -> & _ & Hw1o);
      try done; try lia. exists f1. done.
Qed.

Lemma seg_header_state s es :
  region_inv s es → cell (nv_flash s) (seg_base (nv_region s) + 4) = 255.
Proof.
  intros [_ _ Hh _]. rewrite <- (getb_cells (nv_flash s) _ 16) by lia. rewrite Hh. done.
Qed.

Lemma map_fits_inv s es : seg_inv s es → map_fits (nv_region s).
Proof. intros [Hv _ _ _ _]. eapply map_matches_clear, (seg_map _ _ Hv). Qed.

(** The last act of a purge: the segment the region was in is retired once
    the segment at [new] holds the entries. *)
Lemma region_retire_spec s es f2 r2 es2 new :
  let r := nv_region s in
  region_inv s es → seg_at r new → new ≠ seg_offset r →
  storage r2 = storage r → base_addr r2 = base_addr r → total_size r2 = total_size r →
  seg_size r2 = seg_size r → seg_offset r2 = new → is_u8 (seg_seq_id r2) →
  seg_inv (mk_nv f2 r2) es2 →
  cells f2 (base_addr r + new) 16 = hdr_to_bytes (new_seg_header (seg_size r) (seg_seq_id r2)) →
  (∀ x, x < base_addr r + new ∨ base_addr r + new + seg_size r <= x →
        cell f2 x = cell (nv_flash s) x) →
  ∃ s', region_seg_update_state (seg_offset r) NVRAM_SEG_STATE_OBSOLETE (mk_nv f2 r2) = Some (tt, s') ∧
    region_inv s' es2 ∧ same_region s s' ∧ seg_offset (nv_region s') = new.
Proof.
  intros r Hri Hatn Hne E1 E2 E3 E4 E5 Hq2 Hinv2 Hh2 Hx2.
  pose proof (seg_header_state _ _ Hri) as Hst. pose proof Hri as [Hinv _ _ Hoth].
  pose proof (seg_inv_at _ _ Hinv) as Hat. fold r in Hat, Hst, Hoth.
  assert (Hr : region_ok r) by (by apply (seg_region _ _ (inv_view _ _ Hinv))).
  pose proof (seg_at_disjoint r _ _ Hr Hatn Hat Hne) as Hdis.
  pose proof (region_seg_size_ok r Hr) as Hsz.
  assert (Hr2 : region_ok r2) by (by apply (seg_region _ _ (inv_view _ _ Hinv2))).
  assert (Hat2 : seg_at r2 (seg_offset r)) by (unfold seg_at; rewrite E3, E4; exact Hat).
  destruct (region_seg_update_state_spec (mk_nv f2 r2) (seg_offset r) Hr2 Hat2)
    as (f3 & -> & Hp3); cbn [nv_region nv_flash] in *.
  { rewrite E2, Hx2 by (destruct Hsz; lia). exact Hst. }
  rewrite E2 in Hp3.
  assert (Hx3 : ∀ x, x ≠ base_addr r + seg_offset r + 4 → cell f3 x = cell f2 x).
  { intros x Hx. apply (programmed_out _ _ _ _ x Hp3). cbn [length]. lia. }
  eexists. split; [reflexivity|]. cbn [nv_region]. split_and!; [split|split|done]; cbn [nv_region nv_flash].
  - apply (seg_inv_ext f2); [done|]. unfold seg_base. rewrite E2, E4, E5. intros x Hx.
    apply Hx3. destruct Hsz; lia.
  - done.
  - unfold seg_base. rewrite E2, E4, E5, <- Hh2. apply cells_ext. intros x Hx.
    apply Hx3. destruct Hsz; lia.
  - intros o Hato Hneo. unfold seg_at in Hato. rewrite E3, E4 in Hato. rewrite E5 in Hneo.
    destruct (decide (o = seg_offset r)) as [->|Hno].
    + unfold header_at. rewrite E2. by apply (obsolete_header_invalid f2).
    + rewrite <- (Hoth o Hato Hno). unfold header_at. rewrite E2. do 2 f_equal. apply cells_ext.
      pose proof (seg_at_disjoint r _ _ Hr Hato Hat Hno).
      pose proof (seg_at_disjoint r _ _ Hr Hato Hatn Hneo).
      intros x Hx. rewrite Hx3 by (destruct Hsz; lia). apply Hx2. destruct Hsz; lia.
  - done.
  - split_and!; [done..|]. fold r. intros x Hx. pose proof Hat as (? & ? & _).
    pose proof Hatn as (? & ? & _). rewrite Hx3 by (destruct Hsz; lia). apply Hx2. lia.
Qed.

(** The purge: the live entries, and nothing else, in the next segment. *)
Lemma region_purge_seg_spec s es cc :
  region_inv s es →
  ∃ s', region_purge_seg cc s = Some (tt, s') ∧ region_inv s' (live es) ∧ same_region s s' ∧
    seg_offset (nv_region s') = next_seg (nv_region s).
Proof.
  intros Hri. pose proof Hri as [Hinv _ _ _].
  pose proof (map_fits_inv _ _ Hinv) as Hmap. pose proof (seg_inv_at _ _ Hinv) as Hat.
  pose proof Hinv as [Hv _ Hnd Hw _]. fold (live es) in Hnd.
  pose proof (seg_region _ _ Hv) as Hr. pose proof (seg_fits _ _ Hv) as Hfit.
  pose proof (seg_layout _ _ Hv) as Hl. set (r := nv_region s) in *.
  destruct (next_seg_at r Hr Hat) as [Hatn Hne].
  pose proof (seg_at_disjoint r _ _ Hr Hatn Hat Hne) as Hdis.
  pose proof (live_size es) as Hls. pose proof (entries_size_nonneg es).
  unfold region_purge_seg, get_region, bindM at 1. fold r. fold (next_seg r).
  match goal with |- context [bindM _ (λ e, bindM _ ?k)] =>
    destruct (purge_wipe_spec s (next_seg r) k Hr Hatn) as (f0 & Hwipe & Hx0) end.
  fold r in Hwipe, Hx0. rewrite Hwipe. clear Hwipe.
  destruct (region_init_new_seg_spec (mk_nv f0 r) (next_seg r) Hr Hatn Hmap)
    as (f1 & Hini & Hinv1 & Hh1 & Hx1). cbn [nv_region nv_flash] in *.
  set (r1 := region_with_map _ (region_with_seg _ _ _ r)) in *.
  unfold bindM at 1. rewrite Hini. clear Hini.
  assert (Hx01 : ∀ x, x < base_addr r + next_seg r ∨ base_addr r + next_seg r + seg_size r <= x →
                      cell f1 x = cell (nv_flash s) x) by (intros x Hx; rewrite Hx1, Hx0; done).
  assert (Hsrc : copy_src f1 r1 (seg_offset r + 16)
                   (seg_offset r + (seg_write_offset r - seg_offset r)) es).
  { pose proof Hatn as (? & ? & _). pose proof Hat as (? & ? & _).
    split; cbn [r1 base_addr total_size seg_size seg_offset region_with_map region_with_seg]; try lia.
    - apply (seg_entries _ _ Hv).
    - rewrite Z.add_assoc. eapply laid_out_ext; [|exact Hl]. intros x Hin. apply Hx01. lia.
    - intros x Hin. lia. }
  destruct (region_copy_seg_spec f1 r1 (seg_offset r) (seg_write_offset r - seg_offset r) es cc)
    as (f2 & r2 & Hcopy & Hinv2 & Hio2); [done|done|cbn; lia|done|].
  unfold bindM. change (seg_offset r1) with (next_seg r) in Hcopy. rewrite Hcopy. clear Hcopy.
  destruct (items_only_fields _ _ Hio2) as (E1 & E2 & E3 & E4 & E5 & E6).
  destruct Hio2 as [_ Hx2]. cbn [nv_region nv_flash] in *.
  change (seg_base r1) with (base_addr r + next_seg r) in Hx2.
  change (seg_size r1) with (seg_size r) in Hx2.
  apply (region_retire_spec s es f2 r2 (live es) (next_seg r)); try done.
  - rewrite E6. apply u8_range.
  - rewrite E6. etrans; [|exact Hh1]. apply cells_ext. intros x Hx. apply Hx2. lia.
  - fold r. intros x Hx. rewrite Hx2 by lia. by apply Hx01.
Qed.

(** ** The abstract store *)

(** Space an item takes. *)
Definition item_space (name data : list Z) : Z :=
  item_calc_aligned_size (Z.of_nat (length (cstr name))) (Z.of_nat (length data)).

(** Space a map takes. *)
Definition stored_size (m : gmap (list Z) (list Z)) : Z :=
  map_fold (λ name data z, item_space name data + z) 0 m.

Lemma stored_size_insert m name data :
  m !! name = None → stored_size (<[name := data]> m) = item_space name data + stored_size m.
Proof. intros Hn. unfold stored_size. 
  rewrite (map_fold_insert_L (λ name data z, item_space name data + z)); [done|intros; lia|done].
Qed.

Lemma stored_size_contents es :
  NoDup (e_name <$> live es) → stored_size (contents es) = entries_size (live es).
Proof.
  induction es as [|e es IH]; [done|]. rewrite contents_cons, live_cons.
  destruct (e_live e); [|done]. cbn [fmap list_fmap].
  intros [Hn Hnd]%NoDup_cons. rewrite stored_size_insert by (by apply contents_none).
  rewrite IH by done. done.
Qed.

(** The region stores the map [m]. *)
Definition region_store s (m : gmap (list Z) (list Z)) : Prop :=
  ∃ es, region_inv s es ∧ contents es = m.

(** Room is made when there is none. *)
Lemma region_prepare_spec s es size :
  region_inv s es → 16 + entries_size (live es) + size <= seg_size (nv_region s) →
  ∃ s' es', region_prepare_write_item size s = Some (tt, s') ∧ region_inv s' es' ∧
    contents es' = contents es ∧ same_region s s' ∧
    16 + entries_size es' + size <= seg_size (nv_region s').
Proof.
  intros Hri Hroom. pose proof (inv_write _ _ (ri_seg _ _ Hri)) as Hw.
  unfold region_prepare_write_item, get_region, bindM.
  destruct (Z.ltb_spec (seg_offset (nv_region s) + seg_size (nv_region s))
              (seg_write_offset (nv_region s) + size)) as [Hlt|Hge].
  - destruct (region_purge_seg_spec s es false Hri) as (s' & -> & Hri' & Hsame & _).
    exists s', (live es). split_and!; [done|done|apply contents_live|done|].
    destruct Hsame as (_ & _ & _ & -> & _). done.
  - exists s, es. split_and!; [done|done|done|reflexivity|lia].
Qed.

(** The guards of [region_set] for well-formed arguments. *)
Lemma region_set_run s es name data :
  region_inv s es → name_ok name → data_ok data →
  region_set name data s =
  if bool_decide (contents es !! name = Some data) then Some (0, s)
  else bindM (region_prepare_write_item (item_space name data))
         (λ _, region_set_item name data (item_space name data)) s.
Proof.
  intros [Hinv _ _ _] Hname Hdata. pose proof (inv_view _ _ Hinv) as Hv.
  unfold region_set, get_region, bindM at 1. rewrite (proj2 (seg_region _ _ Hv)).
  pose proof (length_cstr name). pose proof Hname as [_ Hl]. pose proof Hdata as [_ Hd].
  unfold NVRAM_MAX_NAME_SIZE, NVRAM_MAX_DATA_SIZE. cbn [negb].
  destruct (Z.ltb_spec 512 (Z.of_nat (length data))); [lia|].
  destruct (Z.ltb_spec 112 (Z.of_nat (length (cstr name)))); [lia|].
  destruct (Z.ltb_spec 0 (Z.of_nat (length data))); [|lia].
  unfold bindM at 1. rewrite (region_is_same_view s es name data Hv Hname).
  by case_bool_decide.
Qed.

Lemma region_set_store s m name data :
  region_store s m → name_ok name → data_ok data →
  16 + stored_size m + item_space name data <= seg_size (nv_region s) →
  ∃ s', region_set name data s = Some (0, s') ∧ region_store s' (<[name := data]> m) ∧
    same_region s s'.
Proof.
  intros (es & Hri & <-) Hname Hdata Hroom.
  rewrite stored_size_contents in Hroom by apply (inv_names _ _ (ri_seg _ _ Hri)).
  rewrite (region_set_run s es) by done. case_bool_decide as Hsame.
  { exists s. split_and!; [done| |reflexivity]. exists es. split; [done|].
    by rewrite insert_id. }
  destruct (region_prepare_spec s es (item_space name data) Hri Hroom)
    as (s1 & es1 & Hrun1 & Hri1 & Hc1 & Hs1 & Hroom1).
  unfold bindM. rewrite Hrun1.
  destruct (region_set_item_spec s1 es1 name data (ri_seg _ _ Hri1) Hname Hdata Hroom1)
    as (s2 & es2 & Hrun2 & Hinv2 & Hc2 & Hio2).
  exists s2. split_and!; [exact Hrun2| |].
  - exists es2. split; [by eapply region_inv_items|]. by rewrite Hc2, Hc1.
  - etrans; [exact Hs1|]. by eapply items_only_same_region; [apply (ri_seg _ _ Hri1)|].
Qed.

Lemma region_delete_store s m name :
  region_store s m → name_ok name →
  ∃ s', region_set name [] s = Some (0, s') ∧ region_store s' (delete name m) ∧ same_region s s'.
Proof.
  intros (es & Hri & <-) Hname.
  destruct (region_delete_spec s es name (ri_seg _ _ Hri) Hname) as (s' & es' & Hrun & Hinv & Hc & Hio).
  exists s'. split_and!; [done| |].
  - exists es'. split; [by eapply region_inv_items|done].
  - by eapply items_only_same_region; [apply (ri_seg _ _ Hri)|].
Qed.

(** What a read returns for a stored value. *)
Definition get_result (v : option (list Z)) (max_len : Z) : Z * list Z :=
  match v with
  | None => (- ENOENT, [])
  | Some d => (Z.min max_len (Z.of_nat (length d)), take (Z.to_nat max_len) d)
  end.

Lemma region_get_store s m name max_len :
  region_store s m → name_ok name → 0 < max_len →
  region_get name max_len s = Some (get_result (m !! name) max_len, s).
Proof.
  intros (es & Hri & <-) Hname Hmax.
  by rewrite (region_get_view s es) by (done || apply (inv_view _ _ (ri_seg _ _ Hri))).
Qed.

(** A region is not affected by what happens elsewhere in the flash. *)
Lemma region_inv_ext f f' r es :
  region_inv (mk_nv f r) es →
  (∀ x, base_addr r <= x < base_addr r + total_size r → cell f' x = cell f x) →
  region_inv (mk_nv f' r) es.
Proof.
  intros [Hinv Hq Hh Ho] Hx. cbn [nv_region nv_flash] in *.
  pose proof (seg_inv_at _ _ Hinv) as (H1 & H2 & _). cbn [nv_region] in *.
  pose proof (region_seg_size_ok r (seg_region _ _ (inv_view _ _ Hinv))) as Hsz.
  split; cbn [nv_region nv_flash]; try done.
  - eapply seg_inv_ext; [done|]. intros x Hin. apply Hx. unfold seg_base in Hin. lia.
  - rewrite <- Hh. apply cells_ext. intros x Hin. apply Hx. unfold seg_base in Hin. destruct Hsz; lia.
  - intros o Hat Hne. rewrite <- (Ho o Hat Hne). unfold header_at. do 2 f_equal. apply cells_ext.
    destruct Hat as (H3 & H4 & _). intros x Hin. apply Hx. destruct Hsz; lia.
Qed.
End store.
