(* ===== verification/NvramScan.v ===== *)
(** * NVRAM: recovery at start-up

    [region_scan] rebuilds the region from the flash alone: it finds the one
    valid segment, walks its items, makes items obsolete that a later item
    replaced, and enters the rest in the bitmap.  The contents after a restart
    are those before it, also when the restart interrupted a write between
    the new item and the mark on the old one. *)

From stdpp Require Import base numbers list option gmap.
From S2P Require Import Prelude NvramBits NvramStorage NvramConfig NvramItems NvramRegion NvramStore.
Local Open Scope Z_scope.

(** ** What the scan does to the entries *)

(** The live entry of that name, if any, becomes obsolete. *)
Definition kill (name : list Z) (es : list entry) : list entry :=
  (λ e, if e_live e && bool_decide (e_name e = name) then dead e else e) <$> es.

(** One more entry is scanned. *)
Definition scan_add (seen : list entry) (e : entry) : list entry :=
  (if e_live e then kill (e_name e) seen else seen) ++ [e].
Definition scan_entries (seen rest : list entry) : list entry := foldl scan_add seen rest.

(** The map in which later items win. *)
Definition last_wins (m : gmap (list Z) (list Z)) (es : list entry) : gmap (list Z) (list Z) :=
  foldl (λ m e, if e_live e then <[e_name e := e_data e]> m else m) m es.

Lemma kill_size name es : entries_size (kill name es) = entries_size es.
Proof.
  induction es as [|e es IH]; [done|]. cbn [kill fmap list_fmap entries_size foldr].
  fold (kill name es) (entries_size (kill name es)) (entries_size es). rewrite IH.
  by destruct (_ && _).
Qed.

Lemma kill_none name es : name ∉ e_name <$> live es → kill name es = es.
Proof.
  induction es as [|e es IH]; [done|]. rewrite live_cons. cbn [kill fmap list_fmap].
  fold (kill name es). destruct (e_live e); cbn [andb].
  - cbn [fmap list_fmap]. rewrite not_elem_of_cons. intros [Hne Hn].
    rewrite bool_decide_eq_false_2 by congruence. by rewrite IH.
  - intros Hn. by rewrite IH.
Qed.

Lemma kill_app name es1 es2 : kill name (es1 ++ es2) = kill name es1 ++ kill name es2.
Proof. apply fmap_app. Qed.

(** With unique live names one entry changes. *)
Lemma kill_found es1 e es2 :
  e_live e = true → NoDup (e_name <$> live (es1 ++ e :: es2)) →
  kill (e_name e) (es1 ++ e :: es2) = es1 ++ dead e :: es2.
Proof.
  intros Hl Hnd. destruct (dead_names es1 e es2 Hl Hnd) as [Hn _].
  rewrite live_app, live_cons, fmap_app, not_elem_of_app in Hn. cbn [dead e_live] in Hn.
  destruct Hn as [Hn1 Hn2]. rewrite kill_app. cbn [kill fmap list_fmap].
  rewrite Hl, bool_decide_eq_true_2 by done. cbn [andb]. fold (kill (e_name e) es2).
  by rewrite !kill_none.
Qed.

Lemma kill_facts name es :
  NoDup (e_name <$> live es) →
  (name ∉ e_name <$> live (kill name es)) ∧ NoDup (e_name <$> live (kill name es)) ∧
  contents (kill name es) = delete name (contents es).
Proof.
  intros Hnd. destruct (find_entry 0 es name) as [[q e]|] eqn:Hf.
  - destruct (find_entry_split _ _ _ _ _ Hf) as (es1 & es2 & -> & _ & Hl & <- & _).
    rewrite kill_found by done. destruct (dead_names es1 e es2 Hl Hnd).
    split_and!; [done|done|by apply contents_dead].
  - pose proof (proj1 (find_entry_none _ _ _) Hf) as Hn. rewrite kill_none by done.
    split_and!; [done|done|]. symmetry. apply delete_id. by apply contents_none.
Qed.

Lemma scan_add_facts seen e :
  NoDup (e_name <$> live seen) →
  NoDup (e_name <$> live (scan_add seen e)) ∧
  contents (scan_add seen e) = (if e_live e then <[e_name e := e_data e]> (contents seen)
                                else contents seen) ∧
  entries_size (scan_add seen e) = entries_size seen + entry_size e.
Proof.
  intros Hnd. unfold scan_add. rewrite entries_size_app. destruct (e_live e) eqn:Hl.
  - destruct (kill_facts (e_name e) seen Hnd) as (Hn & Hnd' & Hc). split_and!.
    + rewrite live_app, live_cons, Hl, fmap_app. apply NoDup_app.
      split_and!; [done| |apply NoDup_singleton].
      intros x Hx Hx'%list_elem_of_singleton. by subst.
    + rewrite contents_snoc by done. rewrite Hc. apply insert_delete_eq.
    + rewrite kill_size. cbn. lia.
  - split_and!.
    + rewrite live_app, live_cons, Hl. change (live []) with (@nil entry). by rewrite app_nil_r.
    + rewrite contents_app, contents_cons, Hl. change (contents []) with (∅ : gmap (list Z) (list Z)).
      apply map_union_empty.
    + cbn. lia.
Qed.

Lemma scan_entries_facts seen rest :
  NoDup (e_name <$> live seen) →
  NoDup (e_name <$> live (scan_entries seen rest)) ∧
  contents (scan_entries seen rest) = last_wins (contents seen) rest ∧
  entries_size (scan_entries seen rest) = entries_size seen + entries_size rest.
Proof.
  revert seen. induction rest as [|e rest IH]; intros seen Hnd.
  { split_and!; [done|done|by rewrite Z.add_0_r]. }
  destruct (scan_add_facts seen e Hnd) as (H1 & H2 & H3).
  change (scan_entries seen (e :: rest)) with (scan_entries (scan_add seen e) rest).
  change (entries_size (e :: rest)) with (entry_size e + entries_size rest).
  change (last_wins _ (e :: rest)) with
    (last_wins (if e_live e then <[e_name e := e_data e]> (contents seen) else contents seen) rest).
  rewrite <- H2.
  destruct (IH _ H1) as (H4 & H5 & H6). split_and!; [done|exact H5|lia].
Qed.

(** Without replaced items nothing is lost or changed. *)
Lemma last_wins_contents m es :
  NoDup (e_name <$> live es) → last_wins m es = contents es ∪ m.
Proof.
  revert m. induction es as [|e es IH]; intros m Hnd; [cbn; by rewrite map_empty_union|].
  cbn [last_wins foldl]. rewrite contents_cons. rewrite live_cons in Hnd.
  destruct (e_live e); [|by apply IH]. cbn [fmap list_fmap] in Hnd.
  apply NoDup_cons in Hnd as [Hn Hnd]. fold (last_wins (<[e_name e := e_data e]> m) es).
  rewrite IH by done. rewrite <- insert_union_r by (by apply contents_none).
  by rewrite insert_union_l.
Qed.

Section scan.
Context {F : Type} `{!FlashDrv F} `{!FlashLaws F}.
Implicit Types (f : F) (s : @nv F) (r : region_info).

Definition unmapped r : region_info := region_with_map None r.

(** The state of the scan: [seen] is behind it and in the bitmap. *)
Record scan_inv f r (seen rest : list entry) : Prop := {
  sc_view : seg_view (mk_nv f (unmapped r)) (seen ++ rest);
  sc_map : map_matches (seg_item_map r) (seg_size r) seen;
  sc_names : NoDup (e_name <$> live seen);
}.

Lemma seg_view_prefix f r es1 es2 m :
  seg_view (mk_nv f (unmapped r)) (es1 ++ es2) → seg_item_map r = Some m →
  map_matches (Some m) (seg_size r) es1 → seg_view (mk_nv f r) es1.
Proof.
  intros [H1 H2 H3 H4 H5 _ _] Hm Hmap. cbn [nv_region nv_flash] in *.
  apply Forall_app in H3 as [H3 _]. rewrite laid_out_app in H5. destruct H5 as [H5 _].
  rewrite entries_size_app in H4. pose proof (entries_size_nonneg es2).
  split; cbn [nv_region nv_flash]; try done.
  - cbn in H4. lia.
  - by rewrite Hm.
  - by rewrite Hm.
Qed.

(** The view the search has during the scan. *)
Lemma scan_search_view f r seen rest :
  scan_inv f r seen rest →
  ∃ more, seg_view (mk_nv f r) (seen ++ more) ∧
    (more = rest ∨ more = [] ∧ seg_item_map r ≠ None).
Proof.
  intros [Hv Hm _]. destruct (seg_item_map r) as [m|] eqn:E.
  - exists []. rewrite app_nil_r. split; [by eapply seg_view_prefix|by right].
  - exists rest. split; [|by left]. unfold unmapped in Hv.
    by replace r with (region_with_map None r) by (by destruct r; cbn in *; subst).
Qed.

Lemma find_entry_app p es1 es2 name :
  find_entry p (es1 ++ es2) name =
  match find_entry p es1 name with
  | Some x => Some x
  | None => find_entry (p + entries_size es1) es2 name
  end.
Proof.
  revert p. induction es1 as [|e es1 IH]; intros p.
  { cbn [app find_entry entries_size foldr]. by rewrite Z.add_0_r. }
  change (entries_size (e :: es1)) with (entry_size e + entries_size es1).
  cbn [app find_entry]. destruct (_ && _); [done|]. rewrite IH, <- Z.add_assoc. done.
Qed.

Lemma c_string_cstr name : name_ok name → c_string (cstr name) = name.
Proof.
  intros [Hn _]. induction Hn as [|c name Hc Hn IH]; [done|]. cbn [cstr app c_string].
  destruct (Z.eqb_spec c 0); [lia|]. f_equal. exact IH.
Qed.

Lemma live_at_snoc es e x :
  live_at 16 (es ++ [e]) x = if x =? 16 + entries_size es then e_live e else live_at 16 es x.
Proof.
  rewrite live_at_app. cbn [live_at]. rewrite orb_false_r.
  destruct (Z.eqb_spec x (16 + entries_size es)) as [->|]; [|by rewrite andb_false_r, orb_false_r].
  rewrite andb_true_r. destruct (live_at 16 es _) eqn:E; [|done]. apply live_at_range in E. lia.
Qed.

(** The entry the scan is at. *)
Lemma scan_entry f r seen e rest :
  scan_inv f r seen (e :: rest) →
  let off := seg_offset r + (16 + entries_size seen) in
  region_ok r ∧ entry_ok e ∧ 0 < off ∧ off + entry_size e <= seg_offset r + seg_size r ∧
  seg_offset r + seg_size r <= total_size r ∧
  cells f (base_addr r + off) (Z.of_nat (length (entry_bytes e))) = entry_bytes e.
Proof.
  intros [Hv _ _] off. pose proof (read_entry_header _ _ _ _ Hv) as (_ & _ & _ & Hend).
  destruct Hv as [H1 H2 H3 H4 H5 _ _]. cbn [nv_region nv_flash unmapped region_with_map
    seg_offset seg_size total_size base_addr] in *.
  apply Forall_app in H3 as [_ H3]. inversion H3; subst.
  rewrite laid_out_app in H5. destruct H5 as [_ [H5 _]].
  pose proof (entries_size_nonneg seen).
  split_and!; try done; [subst off; lia|lia|]. etrans; [|exact H5]. f_equal. unfold seg_base, off.
  cbn. lia.
Qed.

(** The name of a live entry. *)
Lemma item_get_item_name_spec s off e :
  let r := nv_region s in
  region_ok r → entry_ok e → e_live e = true → 0 <= off → off + entry_size e <= total_size r →
  cells (nv_flash s) (base_addr r + off) (Z.of_nat (length (entry_bytes e))) = entry_bytes e →
  item_get_item_name off (entry_item e) NVRAM_MAX_NAME_SIZE s = Some (Some (cstr (e_name e)), s).
Proof.
  intros r Hr Hok Hl Ho Hb Hc. destruct (entry_parts _ _ _ Hc) as (_ & H2 & _).
  destruct (entry_item_fields e Hok) as (F1 & F2 & F3 & _).
  pose proof (entry_size_bounds e) as (Hsz & _ & _).
  pose proof (length_cstr (e_name e)). destruct Hok as [[_ Hnl] _].
  unfold item_get_item_name, bindM. rewrite F1, F2, F3, Hl.
  unfold NVRAM_MAX_NAME_SIZE, NVRAM_REGION_ITEM_MAGIC, NVRAM_ITEM_STATE_VALID, ITEM_HDR_SIZE.
  cbn [negb Z.eqb Pos.eqb].
  destruct (Z.ltb_spec 112 (Z.of_nat (length (cstr (e_name e))))); [lia|].
  rewrite readM_spec by (fold r; done || lia). fold r. rewrite Z.add_assoc, H2. done.
Qed.

(** What the scan does with an item replaced by a later one. *)
Lemma scan_kill f r seen e rest :
  scan_inv f r seen (e :: rest) → e_live e = true →
  let off := seg_offset r + (16 + entries_size seen) in
  ∃ f' r' ret it bf, region_find_item (e_name e) (mk_nv f r) = Some ((ret, it, bf), mk_nv f r) ∧
    (if (0 <? ret) && negb (ret =? off)
     then bindM (item_update_state ret NVRAM_ITEM_STATE_OBSOLETE)
            (λ _, update_map (ret - seg_offset r) false)
     else retM tt) (mk_nv f r) = Some (tt, mk_nv f' r') ∧
    scan_inv f' r' (kill (e_name e) seen) (e :: rest) ∧
    items_only (mk_nv f r) (mk_nv f' r').
Proof.
  intros Hsc Hl off. destruct (scan_entry _ _ _ _ _ Hsc) as (Hr & Hok & Hoff & Hb1 & Hb2 & Hc).
  fold off in Hoff, Hb1, Hc.
  destruct (scan_search_view _ _ _ _ Hsc) as (more & Hv & Hmore). pose proof Hsc as [Hvu Hm Hnd].
  destruct (region_find_item_spec _ _ (e_name e) Hv (proj1 Hok)) as (ret & it & bf & Hfind & Hres).
  rewrite find_entry_app in Hres. cbn [nv_region] in Hres.
  destruct (find_entry 16 seen (e_name e)) as [[q e0]|] eqn:Hfe.
  - destruct Hres as (-> & _ & _).
    destruct (find_entry_split _ _ _ _ _ Hfe) as (es1 & es2 & -> & -> & Hl0 & Hnm & _).
    rewrite <- app_assoc in Hv, Hvu. cbn [app] in Hv, Hvu.
    destruct (obsolete_old_spec _ es1 e0 (es2 ++ more) Hv Hl0) as (f' & Hob & Hprog).
    cbn [nv_region nv_flash] in Hob, Hprog. 
    assert (Hoffeq : off = seg_offset r + 16 + entries_size es1 + entry_size e0 + entries_size es2).
    { unfold off. rewrite entries_size_app.
      change (entries_size (e0 :: es2)) with (entry_size e0 + entries_size es2). lia. }
    pose proof (entry_size_bounds e0) as (_ & _ & ?). pose proof (entries_size_nonneg es1).
    pose proof (entries_size_nonneg es2). pose proof (seg_pos _ _ Hv) as Hp. cbn [nv_region] in Hp.
    eexists f', _, _, _, _. split; [exact Hfind|].
    destruct (Z.ltb_spec 0 (seg_offset r + (16 + entries_size es1))) as [Hpos|]; [|lia].
    destruct (Z.eqb_spec (seg_offset r + (16 + entries_size es1)) off); [lia|].
    cbn [andb negb]. unfold obsolete_old, get_region, bindM at 1 in Hob. cbn [nv_region] in Hob.
    destruct (Z.ltb_spec 0 (seg_offset r + (16 + entries_size es1))); [|lia].
    split; [exact Hob|]. rewrite <- Hnm, kill_found by done.
    destruct (seg_view_dead f f' _ es1 e0 (es2 ++ e :: rest) Hvu Hl0 Hprog) as (Hv2 & Hio2 & _).
    cbn [unmapped seg_item_map region_with_map item_bitmap_update] in Hv2, Hio2. split; [split|].
    + rewrite <- app_assoc. exact Hv2.
    + change (seg_size (region_with_map _ r)) with (seg_size r).
      pose proof (entry_size_bounds e) as (_ & _ & ?).
      apply (map_matches_update _ _ (es1 ++ e0 :: es2)); [done|lia|lia| |].
      { by rewrite Zplus_mod, entries_size_mod. }
      intros x. apply live_at_dead.
    + apply dead_names; done.
    + split; [by destruct r|]. apply Hio2.
  - assert (Hn : e_name e ∉ e_name <$> live seen) by (by apply find_entry_none in Hfe).
    rewrite (kill_none _ _ Hn). exists f, r, ret, it, bf. split; [exact Hfind|].
    split; [|split; [done|reflexivity]].
    destruct Hmore as [-> | [-> _]]; cbn [find_entry] in Hres; [|by subst ret].
    rewrite Hl, bool_decide_eq_true_2 in Hres by done. cbn [andb] in Hres.
    destruct Hres as (-> & _). fold off. by rewrite Z.eqb_refl, andb_false_r.
Qed.

(** Entering an item in the bitmap. *)
Lemma scan_enter f r seen e rest :
  scan_inv f r seen (e :: rest) → NoDup (e_name <$> live (seen ++ [e])) →
  let p := 16 + entries_size seen in
  scan_inv f (if e_live e then region_with_map (item_bitmap_update (seg_item_map r) p true) r else r)
    (seen ++ [e]) rest.
Proof.
  intros Hsc Hnd p. destruct (scan_entry _ _ _ _ _ Hsc) as (Hr & _ & Hoff & Hb & _).
  pose proof (entry_size_bounds e) as (_ & _ & ?). pose proof (entries_size_nonneg seen).
  destruct Hsc as [Hv Hm _]. split; [| |done].
  - rewrite <- app_assoc. cbn [app]. by destruct (e_live e).
  - pose proof (live_at_snoc seen e) as Hs. destruct (e_live e).
    + change (seg_size (region_with_map _ r)) with (seg_size r).
      apply (map_matches_update _ _ seen); [done|lia|lia| |done].
      unfold p. by rewrite Zplus_mod, entries_size_mod.
    + destruct (seg_item_map r) as [m|]; [|done].
      destruct Hm as (Hw & Hl & Hbit). split_and!; [done|done|]. intros i Hi.
      rewrite Hs, Hbit by done. destruct (Z.eqb_spec (16 * i) (16 + entries_size seen)) as [E'|]; [|done].
      destruct (live_at 16 seen (16 * i)) eqn:El; [|done]. apply live_at_range in El. lia.
Qed.

(** One valid item. *)
Lemma scan_valid_item_spec f r seen e rest :
  scan_inv f r seen (e :: rest) → e_live e = true →
  let p := 16 + entries_size seen in
  ∃ f' r', scan_valid_item p (seg_offset r + p) (entry_item e) (mk_nv f r) = Some (tt, mk_nv f' r') ∧
    scan_inv f' r' (scan_add seen e) rest ∧ items_only (mk_nv f r) (mk_nv f' r').
Proof.
  intros Hsc Hl p. destruct (scan_entry _ _ _ _ _ Hsc) as (Hr & Hok & Hoff & Hb1 & Hb2 & Hc).
  fold p in Hoff, Hb1, Hc.
  destruct (scan_kill _ _ _ _ _ Hsc Hl) as (f1 & r1 & ret & it & bf & Hfind & Hrun & Hsc1 & Hio1).
  fold p in Hrun.
  pose proof (scan_enter f1 r1 (kill (e_name e) seen) e rest Hsc1) as Hent.
  rewrite kill_size, Hl in Hent. fold p in Hent.
  exists f1, (region_with_map (item_bitmap_update (seg_item_map r1) p true) r1). split_and!.
  - unfold scan_valid_item, get_region, bindM at 1. unfold bindM at 1. cbn [nv_region].
    rewrite (item_get_item_name_spec (mk_nv f r) _ e) by (done || cbn [nv_region]; lia).
    rewrite (c_string_cstr _ (proj1 Hok)). unfold bindM at 1. unfold bindM at 1.
    rewrite Hfind. cbn [nv_region]. rewrite Hrun. done.
  - unfold scan_add. rewrite Hl. apply Hent.
    pose proof (scan_add_facts seen e (sc_names _ _ _ _ Hsc)) as (H & _). unfold scan_add in H.
    by rewrite Hl in H.
  - destruct Hio1 as [Hr1 Hx1]. split; [|exact Hx1]. cbn [nv_region] in *. rewrite Hr1. by destruct r.
Qed.

(** The whole walk over the items. *)
Lemma seg_scan_loop_spec fuel f r seen rest :
  scan_inv f r seen rest → (length rest < fuel)%nat →
  ∃ f' r', seg_scan_loop fuel (16 + entries_size seen) (mk_nv f r) =
      Some (inr (16 + entries_size (scan_entries seen rest)), mk_nv f' r') ∧
    scan_inv f' r' (scan_entries seen rest) [] ∧ items_only (mk_nv f r) (mk_nv f' r').
Proof.
  revert fuel f r seen. induction rest as [|e rest IH]; intros fuel f r seen Hsc Hfuel;
    (destruct fuel as [|fuel]; [cbn in Hfuel; lia|]); cbn [seg_scan_loop length] in *;
    unfold get_region, bindM at 1; cbn [nv_region].
  - exists f, r. cbn [scan_entries foldl]. split; [|split; [done|reflexivity]].
    pose proof Hsc as [Hv _ _]. rewrite app_nil_r in Hv.
    destruct (Z.ltb_spec (16 + entries_size seen) (seg_size r)) as [Hlt|]; [|done]. cbn [negb].
    destruct (read_free_header _ seen Hv eq_refl Hlt) as (b & Hrd & ->).
    assert (Hrd' : readM (seg_offset r + (16 + entries_size seen)) ITEM_HDR_SIZE (mk_nv f r) =
                   Some ((0, replicate 8 255), mk_nv f r)).
    { revert Hrd. unfold readM. cbn [nv_region nv_flash].
      change (region_read (unmapped r)) with (region_read r).
      change (seg_offset (unmapped r)) with (seg_offset r).
      destruct (region_read r f _ _) as [x|]; [|done]. cbn. congruence. }
    unfold bindM at 1. rewrite Hrd'. reflexivity.
  - destruct (scan_entry _ _ _ _ _ Hsc) as (Hr & Hok & Hoff & Hb1 & Hb2 & Hc).
    pose proof (entry_size_bounds e) as (_ & _ & ?).
    destruct (scan_add_facts seen e (sc_names _ _ _ _ Hsc)) as (Hnd & _ & Hsz).
    set (p := 16 + entries_size seen) in *.
    destruct (Z.ltb_spec p (seg_size r)); [|lia]. cbn [negb]. unfold bindM at 1, ITEM_HDR_SIZE.
    rewrite readM_spec by (cbn [nv_region]; done || lia). cbn [nv_region nv_flash Z.eqb negb].
    destruct (entry_parts _ _ _ Hc) as (-> & _ & _). rewrite (entry_item_roundtrip e Hok).
    destruct (entry_item_fields e Hok) as (_ & _ & F3 & F4 & _).
    assert (Hal : p + item_get_aligned_size (entry_item e) = 16 + entries_size (scan_add seen e)).
    { unfold item_get_aligned_size. rewrite F3, F4. fold (entry_size e). lia. }
    rewrite Hal. unfold bindM at 1.
    rewrite (item_check_validity_spec (mk_nv f r) _ e true) by (done || cbn [nv_region]; lia).
    change (scan_entries seen (e :: rest)) with (scan_entries (scan_add seen e) rest).
    destruct (e_live e) eqn:Hl.
    + destruct (scan_valid_item_spec f r seen e rest Hsc Hl) as (f1 & r1 & Hrun & Hsc1 & Hio1).
      fold p in Hrun. unfold bindM at 1. rewrite Hrun.
      destruct (IH fuel f1 r1 (scan_add seen e) Hsc1 ltac:(lia)) as (f' & r' & Hrun' & Hsc' & Hio').
      exists f', r'. split_and!; [exact Hrun'|exact Hsc'|by etrans].
    + apply IH; [|lia]. pose proof (scan_enter f r seen e rest Hsc) as Hent.
      unfold scan_add in Hnd |- *. rewrite Hl in Hnd, Hent |- *. by apply Hent.
Qed.

(** ** A segment as the flash alone has it *)

Record flash_holds f r (es : list entry) : Prop := {
  fh_view : seg_view (mk_nv f (unmapped r)) es;
  fh_div : (seg_size r | seg_offset r);
  fh_headers : headers_ok (mk_nv f r);
}.

Lemma flash_holds_at f r es : flash_holds f r es → region_ok r ∧ seg_at r (seg_offset r).
Proof.
  intros [Hv Hd _]. pose proof (seg_pos _ _ Hv) as [H1 H2]. cbn in H1, H2.
  split; [exact (seg_region _ _ Hv)|done].
Qed.

(** A region in use is such a segment. *)
Lemma region_inv_holds s es :
  region_inv s es → flash_holds (nv_flash s) (nv_region s) es.
Proof.
  intros [[Hv Hd _ _ Hfree] Hh]%region_inv_split. destruct s as [f r]. split; try done.
  destruct Hv as [H1 H2 H3 H4 H5 H6 H7]. by split.
Qed.

(** The scan of the items puts the region in order. *)
Lemma seg_scan_items f r es :
  flash_holds f r es → map_fits r →
  let r0 := region_with_map (item_bitmap_clear_all (seg_item_map r)) r in
  let o := 16 + entries_size es in
  ∃ f1 r1, seg_scan_loop (S (Z.to_nat (seg_size r))) 16 (mk_nv f r0) = Some (inr o, mk_nv f1 r1) ∧
    let s2 := mk_nv f1 (region_with_write_offset (seg_offset r + o) r1) in
    region_inv s2 (scan_entries [] es) ∧ items_only (mk_nv f r) s2.
Proof.
  intros Hf Hmap r0 o. destruct (flash_holds_at _ _ _ Hf) as [Hr Hat]. destruct Hf as [Hv Hd Hh].
  assert (Hsc0 : scan_inv f r0 [] es) by (split; [exact Hv|exact Hmap|apply NoDup_nil_2]).
  pose proof (entries_size_length es). pose proof (entries_size_nonneg es).
  pose proof (seg_fits _ _ Hv) as Hfit. cbn in Hfit. fold (entries_size es) in Hfit.
  destruct (scan_entries_facts [] es (NoDup_nil_2)) as (Hnd & _ & Hsz).
  destruct (seg_scan_loop_spec (S (Z.to_nat (seg_size r))) f r0 [] es Hsc0)
    as (f1 & r1 & Hrun & Hsc1 & Hio1); [lia|]. set (es1 := scan_entries [] es) in *.
  change (entries_size []) with 0 in Hrun, Hsz. rewrite Z.add_0_r, Hsz in Hrun.
  destruct (scan_search_view _ _ _ _ Hsc1) as (more & Hv1 & Hmore).
  assert (more = []) as -> by (by destruct Hmore as [|[]]). rewrite app_nil_r in Hv1.
  destruct (items_only_fields _ _ Hio1) as (E1 & E2 & E3 & E4 & E5 & E6). cbn [nv_region] in *.
  exists f1, r1. split; [exact Hrun|].
  assert (Hio2 : items_only (mk_nv f r) (mk_nv f1 (region_with_write_offset (seg_offset r + o) r1))).
  { destruct Hio1 as [Hr1 Hx1]. split; [|exact Hx1]. cbn [nv_region] in *. rewrite Hr1.
    by destruct r. }
  split; [|exact Hio2]. apply region_inv_split. split; [|by apply (headers_ok_items (mk_nv f r))].
  pose proof Hsc1 as [Hvu _ _]. rewrite app_nil_r in Hvu. split; cbn [nv_region nv_flash].
  - destruct Hv1; by split.
  - cbn. rewrite E4, E5. exact Hd.
  - done.
  - cbn. rewrite E5. unfold o. cbn. lia.
  - exact (seg_tail _ _ Hvu eq_refl).
Qed.

(** The test for garbage behind the items always answers. *)
Lemma seg_scan_dirty s es :
  region_inv s es →
  let r := nv_region s in
  let o := 16 + entries_size es in
  ∃ d, (if seg_size r <=? o then retM true
        else bindM (is_empyM (seg_offset r + o) (seg_size r - o)) (λ e, retM (negb e))) s
       = Some (d, s).
Proof.
  intros Hri r o. pose proof Hri as [Hinv _ _ _]. destruct (seg_inv_at _ _ Hinv) as (H1 & H2 & _).
  assert (Hr : region_ok r) by apply (seg_region _ _ (inv_view _ _ Hinv)). fold r in H1, H2.
  pose proof (entries_size_nonneg es).
  destruct (Z.leb_spec (seg_size r) o); [by eexists|].
  destruct (region_is_empy_spec r (nv_flash s) (seg_offset r + o) (seg_size r - o)) as (e & He & _);
    [done|lia|lia|lia| |].
  - destruct (seg_size_mod r Hr) as [_ Hm]. pose proof (entries_size_mod es) as Hm1.
    apply Z.mod_divide in Hm, Hm1; [|lia..].
    apply Z.divide_sub_r; [|apply Z.divide_add_r; [by exists 4|]];
      (etrans; [|eassumption]); by exists 4.
  - unfold bindM, is_empyM. fold r. rewrite He. by eexists.
Qed.

(** Scanning the items of the segment. *)
Lemma region_seg_scan_spec f r es fm :
  flash_holds f r es → map_fits r →
  ∃ s', region_seg_scan fm (mk_nv f r) = Some (0, s') ∧ region_store s' (last_wins ∅ es) ∧
    same_region (mk_nv f r) s'.
Proof.
  intros Hf Hmap. destruct (flash_holds_at _ _ _ Hf) as [Hr Hat].
  destruct (seg_scan_items f r es Hf Hmap) as (f1 & r1 & Hrun & Hri & Hio).
  destruct (scan_entries_facts [] es (NoDup_nil_2)) as (_ & Hc & Hsz).
  set (s2 := mk_nv f1 (region_with_write_offset _ _)) in *. set (es1 := scan_entries [] es) in *.
  change (entries_size []) with 0 in Hsz. rewrite Z.add_0_l in Hsz.
  destruct (items_only_fields _ _ Hio) as (E1 & E2 & E3 & E4 & E5 & E6).
  destruct (seg_scan_dirty s2 es1 Hri) as (d & Hdirty). rewrite Hsz, E4, E5 in Hdirty.
  cbn [nv_region] in Hdirty.
  assert (Hsame : same_region (mk_nv f r) s2).
  { destruct Hio as [_ Hx]. split_and!; try done. cbn [nv_region] in *. intros x Hout. apply Hx.
    unfold seg_base. destruct Hat as (? & ? & _). lia. }
  unfold region_seg_scan. unfold bindM at 1, clear_map, mod_region at 1. cbn [nv_region nv_flash].
  unfold get_region, bindM at 1. cbn [nv_region nv_flash seg_size seg_offset region_with_map].
  unfold bindM at 1, NVRAM_SEG_ITEM_START_OFFSET. rewrite Hrun.
  unfold bindM at 1, mod_region. cbn [nv_region nv_flash]. fold s2.
  unfold bindM at 1. rewrite Hdirty. destruct (fm || d).
  - destruct (region_purge_seg_spec _ _ true Hri) as (s' & Hp & Hri' & Hs' & _).
    unfold bindM. rewrite Hp. exists s'. split_and!; [done| |by etrans].
    exists (live es1). split; [done|]. by rewrite contents_live.
  - exists s2. split_and!; [done| |done]. by exists es1.
Qed.

(** ** Finding the segment *)

(** The headers, by offset. *)
Lemma flash_holds_header f r es o :
  flash_holds f r es → seg_at r o →
  readM o SEG_HDR_SIZE (mk_nv f r) = Some ((0, cells f (base_addr r + o) 16), mk_nv f r) ∧
  if decide (o = seg_offset r)
  then is_valid_region_seg_header (header_at f r o) = true ∧
       sh_seq_id (header_at f r o) = seg_seq_id r
  else is_valid_region_seg_header (header_at f r o) = false.
Proof.
  intros Hf Hat. destruct (flash_holds_at _ _ _ Hf) as [Hr _]. destruct Hf as [_ _ (Hq & Hh & Ho)].
  pose proof (region_seg_size_ok r Hr) as Hsz. cbn [nv_region nv_flash] in *. split.
  - destruct Hat as (H1 & H2 & _). unfold SEG_HDR_SIZE.
    by rewrite readM_spec by (cbn [nv_region]; done || destruct Hsz; lia).
  - case_decide as E; [|by apply Ho]. subst o. unfold header_at. fold (seg_base r). rewrite Hh.
    destruct (new_seg_header_facts (seg_size r) (seg_seq_id r) Hsz Hq) as (-> & _ & -> & _). done.
Qed.

Lemma seg_at_step r k :
  region_ok r → 0 <= k → k * seg_size r < total_size r → seg_at r (k * seg_size r).
Proof.
  intros Hr Hk Hlt. pose proof (region_ok_bounds r Hr) as (_ & _ & Hb).
  split_and!; [destruct Hb; lia| |by exists k].
  destruct Hb as [[E1 E2]|[E1 E2]]; rewrite E1, E2 in *; lia.
Qed.

(** The first pass finds the valid segment. *)
Lemma region_scan_loop_spec fuel f r0 off seq es k sc :
  let r1 := region_with_seg off (seg_write_offset r0) seq r0 in
  flash_holds f r1 es → 0 <= k → (sc_found sc = true ↔ off < k * seg_size r0) →
  (Z.to_nat (total_size r0 - k * seg_size r0) < fuel)%nat →
  ∃ sc', region_scan_loop fuel (k * seg_size r0) sc (mk_nv f (if sc_found sc then r1 else r0)) =
         Some (inr sc', mk_nv f r1) ∧ sc_found sc' = true.
Proof.
  intros r1 Hf. destruct (flash_holds_at _ _ _ Hf) as [Hr Hat].
  assert (Hr0 : region_ok r0) by exact Hr. destruct (seg_size_mod r0 Hr0) as [Hs0 _].
  revert k sc. induction fuel as [|fuel IH]; intros k sc Hk Hfound Hfuel; [lia|].
  cbn [region_scan_loop]. unfold get_region, bindM at 1. cbn [nv_region].
  replace (total_size (if sc_found sc then r1 else r0)) with (total_size r0) by (by destruct (sc_found sc)).
  replace (seg_size (if sc_found sc then r1 else r0)) with (seg_size r0) by (by destruct (sc_found sc)).
  destruct (Z.ltb_spec (k * seg_size r0) (total_size r0)) as [Hlt|Hge]; cbn [negb].
  2:{ destruct Hat as (? & H2 & _). cbn in H2.
      assert (E : sc_found sc = true) by (apply Hfound; lia). rewrite E. by exists sc. }
  pose proof (seg_at_step r0 k Hr0 Hk Hlt) as Hatk.
  destruct (flash_holds_header f r1 es (k * seg_size r0) Hf Hatk) as [Hrd Hhdr].
  assert (Hrd0 : readM (k * seg_size r0) SEG_HDR_SIZE (mk_nv f (if sc_found sc then r1 else r0)) =
    Some ((0, cells f (base_addr r0 + k * seg_size r0) 16),
          mk_nv f (if sc_found sc then r1 else r0))).
  { unfold SEG_HDR_SIZE. destruct Hatk as (? & ? & _). pose proof (region_seg_size_ok r0 Hr0) as Hsz.
    rewrite readM_spec by (cbn [nv_region]; destruct (sc_found sc); done || (cbn; destruct Hsz; lia)).
    by destruct (sc_found sc). }
  unfold bindM at 1. rewrite Hrd0. cbn [Z.eqb negb]. unfold header_at in Hhdr.
  change (base_addr r1) with (base_addr r0) in Hhdr. change (seg_offset r1) with off in Hhdr.
  change (seg_seq_id r1) with seq in Hhdr. set (hdr := hdr_of_bytes _) in *.
  replace (k * seg_size r0 + seg_size r0) with ((k + 1) * seg_size r0) by lia.
  assert (Hnext : ∀ sc', sc_found sc' = true ↔ off < (k + 1) * seg_size r0 →
    ∃ sc'', region_scan_loop fuel ((k + 1) * seg_size r0) sc' (mk_nv f (if sc_found sc' then r1 else r0)) =
         Some (inr sc'', mk_nv f r1) ∧ sc_found sc'' = true).
  { intros sc' Hsc'. apply IH; [lia|done|nia]. }
  case_decide as E.
  - destruct Hhdr as [Hval Hseq]. rewrite Hval.
    assert (Hnf : sc_found sc = false) by (destruct (sc_found sc); [apply proj1 in Hfound; specialize (Hfound eq_refl); lia|done]).
    rewrite Hnf. cbn [andb negb orb]. unfold bindM at 1, bindM at 1, mod_region. cbn [nv_region nv_flash].
    rewrite E, Hseq. fold r1. unfold retM.
    destruct (_ && _); (edestruct Hnext as (sc'' & Hrun & Hsc''); [|exists sc''; split; [exact Hrun|done]]);
      cbn [sc_found]; split; [lia|done|lia|done].
  - rewrite Hhdr. cbn [andb]. unfold bindM at 1, retM.
    assert (Hiff : sc_found sc = true ↔ off < (k + 1) * seg_size r0).
    { rewrite Hfound. pose proof (seg_at_disjoint r0 _ _ Hr0 Hatk Hat E) as Hdis. cbn in Hdis.
      split; lia. }
    destruct (is_valid_merge_region_seg_header hdr && _);
      (edestruct Hnext as (sc'' & Hrun & Hsc''); [|exists sc''; split; [exact Hrun|done]]); done.
Qed.

(** No segment is left over from a purge. *)
Lemma find_previous_loop_spec fuel f r es k :
  flash_holds f r es → 0 <= k → (Z.to_nat (total_size r - k * seg_size r) < fuel)%nat →
  find_previous_loop fuel (k * seg_size r) None (mk_nv f r) = Some (inr None, mk_nv f r).
Proof.
  intros Hf. destruct (flash_holds_at _ _ _ Hf) as [Hr Hat]. destruct (seg_size_mod r Hr) as [Hs0 _].
  revert k. induction fuel as [|fuel IH]; intros k Hk Hfuel; [lia|].
  cbn [find_previous_loop]. unfold get_region, bindM at 1. cbn [nv_region].
  destruct (Z.ltb_spec (k * seg_size r) (total_size r)) as [Hlt|Hge]; cbn [negb]; [|done].
  pose proof (seg_at_step r k Hr Hk Hlt) as Hatk.
  destruct (flash_holds_header f r es (k * seg_size r) Hf Hatk) as [Hrd Hhdr].
  unfold bindM. rewrite Hrd. cbn [Z.eqb negb]. unfold header_at in Hhdr.
  replace (k * seg_size r + seg_size r) with ((k + 1) * seg_size r) by lia.
  assert (Hn : is_valid_region_seg_header (hdr_of_bytes (cells f (base_addr r + k * seg_size r) 16)) &&
    (s8 (seg_seq_id r - sh_seq_id (hdr_of_bytes (cells f (base_addr r + k * seg_size r) 16))) =? 1)
    = false).
  { case_decide; [|by rewrite Hhdr]. destruct Hhdr as [_ ->]. by rewrite Z.sub_diag, andb_false_r. }
  rewrite Hn. apply IH; [lia|nia].
Qed.

(** The scan of a region in whatever state, over a flash that holds a valid
    segment. *)
Lemma region_scan_spec f r0 off seq es :
  let r1 := region_with_seg off (seg_write_offset r0) seq r0 in
  flash_holds f r1 es → map_fits r0 →
  ∃ s', region_scan (mk_nv f r0) = Some (0, s') ∧ region_store s' (last_wins ∅ es) ∧
    same_region (mk_nv f r0) s'.
Proof.
  intros r1 Hf Hmap. destruct (flash_holds_at _ _ _ Hf) as [Hr Hat].
  pose proof (region_ok_bounds r0 Hr) as (_ & _ & Hb).
  destruct (region_scan_loop_spec (S (Z.to_nat (total_size r0))) f r0 off seq es 0
              (mk_scan false false 0 0) Hf) as (sc & Hrun & Hfound); [lia| |lia|].
  { cbn [sc_found]. destruct Hat as (H1 & _). cbn in H1. split; [done|lia]. }
  cbn [sc_found] in Hrun. rewrite Z.mul_0_l in Hrun.
  pose proof (find_previous_loop_spec (S (Z.to_nat (total_size r0))) f r1 es 0 Hf ltac:(lia)
                ltac:(cbn; lia)) as Hprev. rewrite Z.mul_0_l in Hprev.
  destruct (region_seg_scan_spec f r1 es false Hf Hmap) as (s' & Hscan & Hst & Hsame).
  exists s'. split_and!; [|done|exact Hsame].
  unfold region_scan, get_region, bindM at 1. cbn [nv_region]. unfold bindM at 1. rewrite Hrun.
  cbv beta iota zeta. rewrite Hfound. unfold bindM. fold r1. rewrite Hprev. unfold retM. rewrite Hscan. done.
Qed.
End scan.
