(* ===== verification/NvramApi.v ===== *)
(** * NVRAM: the configuration API

    The calls the rest of the firmware uses, over three regions in one flash:
    setting and deleting act on the user region, reading falls through from
    user to factory, and a restart rebuilds all three from the flash. *)

From stdpp Require Import base numbers list option gmap.
From S2P Require Import Prelude NvramBits NvramStorage NvramConfig NvramItems NvramRegion NvramStore NvramScan.
Local Open Scope Z_scope.

(** ** Clearing and blank flash *)

Section maintenance.
Context {F : Type} `{!FlashDrv F} `{!FlashLaws F}.
Implicit Types (f : F) (s : @nv F) (r : region_info).

(** An erased header is not valid. *)
Lemma erased_header_invalid f a :
  erased f a 16 → is_valid_region_seg_header (hdr_of_bytes (cells f a 16)) = false ∧
                  is_valid_merge_region_seg_header (hdr_of_bytes (cells f a 16)) = false.
Proof. intros H. rewrite (erased_cells f a 16 H). by vm_compute. Qed.

(** Erasing whole segments other than the current one. *)
Lemma region_inv_wipe f f' r es a n :
  region_inv (mk_nv f r) es → wiped f f' (base_addr r + a) n → 0 <= a → a + n <= total_size r →
  (seg_size r | a) → (seg_size r | n) →
  (a + n <= seg_offset r ∨ seg_offset r + seg_size r <= a) →
  region_inv (mk_nv f' r) es ∧ same_region (mk_nv f r) (mk_nv f' r).
Proof.
  intros [Hinv Hq Hh Ho] [Hw Hout] Ha Hn Hda Hdn Hdis. cbn [nv_region nv_flash] in *.
  pose proof (seg_inv_at _ _ Hinv) as Hat. cbn [nv_region] in Hat.
  assert (Hr : region_ok r) by apply (seg_region _ _ (inv_view _ _ Hinv)).
  pose proof (region_seg_size_ok r Hr) as Hsz. pose proof Hat as (H1 & H2 & _).
  split; [split|split_and!]; cbn [nv_region nv_flash]; try done.
  - apply (seg_inv_ext f); [done|]. intros x Hx. apply Hout. unfold seg_base in Hx. lia.
  - rewrite <- Hh. apply cells_ext. intros x Hx. apply Hout. unfold seg_base in Hx. destruct Hsz; lia.
  - intros o Hato Hne. pose proof Hato as (H3 & H4 & Hdo). unfold header_at.
    destruct Hda as [ka ->], Hdn as [kn ->], Hdo as [ko ->].
    destruct (decide (ka <= ko < ka + kn)) as [Hin|Hnin].
    + apply erased_header_invalid. intros x Hx. apply Hw. destruct Hsz; nia.
    + rewrite <- (Ho _ Hato Hne). unfold header_at. do 2 f_equal. apply cells_ext.
      intros x Hx. apply Hout. destruct Hsz as [E|E]; rewrite E in *; lia.
  - intros x Hx. apply Hout. lia.
Qed.

Lemma round_up_seg size x :
  seg_size_ok size → 0 <= x → 0 <= round_up x size /\ (size | round_up x size) /\
                              round_up x size < x + size.
Proof.
  intros [-> | ->] Hx; unfold round_up.
  - change (4096 - 1) with (Z.ones 12). rewrite <- Z.ldiff_land, Z.ldiff_ones_r,
      Z.shiftl_mul_pow2, Z.shiftr_div_pow2 by lia. change (2 ^ 12) with 4096.
    change (Z.ones 12) with 4095. split; [dlia|split; [by eexists|dlia]].
  - change (8192 - 1) with (Z.ones 13). rewrite <- Z.ldiff_land, Z.ldiff_ones_r,
      Z.shiftl_mul_pow2, Z.shiftr_div_pow2 by lia. change (2 ^ 13) with 8192.
    change (Z.ones 13) with 8191. split; [dlia|split; [by eexists|dlia]].
Qed.

Lemma erase_other f r es a n :
  region_inv (mk_nv f r) es → 0 <= a → 0 <= n → a + n <= total_size r →
  (seg_size r | a) → (seg_size r | n) →
  (a + n <= seg_offset r ∨ seg_offset r + seg_size r <= a) →
  ∃ f', region_erase r f a n = Some (0, f') ∧ region_inv (mk_nv f' r) es ∧
        same_region (mk_nv f r) (mk_nv f' r).
Proof.
  intros Hri Ha Hn Hb Hda Hdn Hdis.
  assert (Hr : region_ok r) by apply (seg_region _ _ (inv_view _ _ (ri_seg _ _ Hri))).
  assert (H4 : (4096 | seg_size r))
    by (destruct (region_seg_size_ok r Hr) as [-> | ->]; [by exists 1|by exists 2]).
  destruct (region_erase_spec r f a n) as (f' & He & Hw); try done; [by etrans..|].
  exists f'. split; [done|]. by apply (region_inv_wipe f f' r es a n).
Qed.

(** Clearing removes old segments, not the current one. *)
Lemma region_clear_store s m len :
  region_store s m → 0 <= len < 1048576 →
  ∃ s', clearM len s = Some (tt, s') ∧ region_store s' m ∧ same_region s s'.
Proof.
  intros (es & Hri & Hm) Hlen. destruct s as [f r].
  assert (Hr : region_ok r) by apply (seg_region _ _ (inv_view _ _ (ri_seg _ _ Hri))).
  pose proof (region_ok_bounds r Hr) as (Hb1 & Hb2 & Hb3).
  pose proof (seg_inv_at _ _ (ri_seg _ _ Hri)) as (H1 & H2 & Hd). cbn [nv_region] in H1, H2, Hd.
  pose proof (region_seg_size_ok r Hr) as Hsz.
  destruct (round_up_seg (seg_size r) len Hsz ltac:(lia)) as (Hr1 & Hr2 & Hr3).
  assert (Htot : (seg_size r | total_size r)).
  { destruct Hb3 as [[-> ->]|[-> ->]]; [by exists 2|by exists 6]. }
  unfold clearM, on_flash, region_clear. cbn [nv_region nv_flash].
  set (c := if _ <? _ then total_size r - seg_size r else round_up len (seg_size r)).
  assert (Hc : 0 <= c <= total_size r - seg_size r ∧ (seg_size r | c)).
  { subst c. destruct (Z.ltb_spec (total_size r - seg_size r) (round_up len (seg_size r))).
    - split; [destruct Hb3; lia|]. apply Z.divide_sub_r; [done|apply Z.divide_refl].
    - split; [lia|done]. }
  destruct Hc as [Hc1 Hc2]. rewrite !u32_id by lia.
  assert (Hdn : (seg_size r | seg_offset r + seg_size r))
    by (apply Z.divide_add_r; [done|apply Z.divide_refl]).
  destruct (Z.ltb_spec (total_size r) (seg_offset r + seg_size r + c)).
  - destruct (erase_other f r es (seg_offset r + seg_size r) (total_size r - (seg_offset r + seg_size r)))
      as (f1 & -> & Hri1 & Hs1); try done; try lia; [by apply Z.divide_sub_r|].
    destruct (erase_other f1 r es 0 (c - (total_size r - (seg_offset r + seg_size r))))
      as (f2 & -> & Hri2 & Hs2); try done; try lia.
    { apply Z.divide_0_r. }
    { apply Z.divide_sub_r; [done|by apply Z.divide_sub_r]. }
    exists (mk_nv f2 r). split_and!; [done|by exists es|by etrans].
  - destruct (erase_other f r es (seg_offset r + seg_size r) c)
      as (f1 & -> & Hri1 & Hs1); try done; try lia.
    exists (mk_nv f1 r). split_and!; [done|by exists es|done].
Qed.

(** *** A blank region *)

Lemma blank_scan_loop fuel f r k :
  region_ok r → erased f (base_addr r) (total_size r) → 0 <= k →
  (Z.to_nat (total_size r - k * seg_size r) < fuel)%nat →
  region_scan_loop fuel (k * seg_size r) (mk_scan false false 0 0) (mk_nv f r) =
  Some (inr (mk_scan false false 0 0), mk_nv f r).
Proof.
  intros Hr He. destruct (seg_size_mod r Hr) as [Hs0 _]. pose proof (region_seg_size_ok r Hr) as Hsz.
  revert k. induction fuel as [|fuel IH]; intros k Hk Hfuel; [lia|].
  cbn [region_scan_loop]. unfold get_region, bindM at 1. cbn [nv_region].
  destruct (Z.ltb_spec (k * seg_size r) (total_size r)) as [Hlt|Hge]; cbn [negb]; [|done].
  pose proof (seg_at_step r k Hr Hk Hlt) as (H1 & H2 & _).
  unfold bindM at 1, SEG_HDR_SIZE.
  rewrite readM_spec by (cbn [nv_region]; done || destruct Hsz; lia).
  cbn [nv_region nv_flash Z.eqb negb].
  destruct (erased_header_invalid f (base_addr r + k * seg_size r)) as [Hv Hm].
  { intros x Hx. apply He. destruct Hsz; lia. }
  rewrite Hv, Hm. cbn [andb]. unfold bindM at 1, retM. cbn [sc_found sc_old_found sc_old_off sc_old_id].
  replace (k * seg_size r + seg_size r) with ((k + 1) * seg_size r) by lia.
  apply IH; [lia|nia].
Qed.

Lemma region_scan_blank f r :
  region_ok r → map_fits r → erased f (base_addr r) (total_size r) →
  ∃ s', region_scan (mk_nv f r) = Some (0, s') ∧ region_store s' ∅ ∧ same_region (mk_nv f r) s'.
Proof.
  intros Hr Hmap He. pose proof (region_ok_bounds r Hr) as (_ & _ & Hb).
  pose proof (region_seg_size_ok r Hr) as Hsz.
  pose proof (blank_scan_loop (S (Z.to_nat (total_size r))) f r 0 Hr He ltac:(lia) ltac:(lia)) as Hloop.
  rewrite Z.mul_0_l in Hloop.
  assert (Hat : seg_at r 0) by (split_and!; [lia|lia|apply Z.divide_0_r]).
  destruct (region_init_new_seg_spec (mk_nv f r) 0 Hr Hat Hmap) as (f1 & Hini & Hinv & Hh & Hx).
  cbn [nv_region nv_flash] in *. set (r1 := region_with_map _ _) in *.
  exists (mk_nv f1 r1). split_and!.
  - unfold region_scan, get_region, bindM. cbn [nv_region]. rewrite Hloop.
    cbn [sc_found sc_old_found]. rewrite Hini. done.
  - exists []. split; [|done]. apply region_inv_split. split; [done|]. split_and!; cbn [nv_region nv_flash].
    + apply u8_range.
    + exact Hh.
    + intros o Hato Hne. pose proof (seg_at_disjoint r o 0 Hr Hato Hat Hne) as Hdis.
      destruct Hato as (H1 & H2 & _). apply erased_header_invalid. intros x Hin.
      change (base_addr r1) with (base_addr r) in Hin. cbn in H2.
      rewrite Hx by (destruct Hsz; lia). apply He. destruct Hsz; lia.
  - split_and!; try done. intros x Hout. apply Hx. cbn [nv_region] in Hout. lia.
Qed.
End maintenance.

(** ** The three regions *)

(** The place of a region, fixed by the board. *)
Definition placed (r0 r : region_info) : Prop :=
  storage r = true ∧ base_addr r = base_addr r0 ∧ total_size r = total_size r0 ∧
  seg_size r = seg_size r0.

Section api.
Context {F : Type} `{!FlashDrv F} `{!FlashLaws F}.
Implicit Types (f : F) (s : @nvram F).

(** The driver stores [mu] in the user region, [mw] in the writable factory
    region and [mf] in the factory region. *)
Record nvram_store s (mu mw mf : gmap (list Z) (list Z)) : Prop := {
  ns_user : region_store (mk_nv (nvram_flash s) (user_region s)) mu;
  ns_rw : region_store (mk_nv (nvram_flash s) (factory_rw_region s)) mw;
  ns_factory : region_store (mk_nv (nvram_flash s) (factory_region s)) mf;
  ns_place : placed user_nvram_region (user_region s) ∧
             placed factory_rw_nvram_region (factory_rw_region s) ∧
             placed factory_nvram_region (factory_region s);
}.

Lemma placed_step r0 f f' r r' :
  placed r0 r → same_region (mk_nv f r) (mk_nv f' r') → placed r0 r'.
Proof.
  intros (P1 & P2 & P3 & P4) (E1 & E2 & E3 & E4 & _). cbn [nv_region] in *.
  split_and!; congruence.
Qed.

(** Work on one region leaves the others alone. *)
Lemma region_store_frame f f' r r' m ro :
  same_region (mk_nv f r) (mk_nv f' r') → region_store (mk_nv f ro) m →
  (base_addr ro + total_size ro <= base_addr r ∨ base_addr r + total_size r <= base_addr ro) →
  region_store (mk_nv f' ro) m.
Proof.
  intros (_ & _ & _ & _ & Hx) (es & Hri & Hm) Hdis. exists es. split; [|done].
  eapply region_inv_ext; [exact Hri|]. intros x Hin. apply Hx. cbn [nv_region]. lia.
Qed.

(** An operation on the user region that turns its map into another one. *)
Lemma on_user_store {A} (op : M A) s mu mw mf (x : A) mu' :
  nvram_store s mu mw mf →
  (∀ t, region_store t mu → seg_size (nv_region t) = 8192 →
        ∃ t', op t = Some (x, t') ∧ region_store t' mu' ∧ same_region t t') →
  ∃ s', on_user op s = Some (x, s') ∧ nvram_store s' mu' mw mf.
Proof.
  intros [Hu Hw Hf (P1 & P2 & P3)] Hop. unfold on_user.
  destruct (Hop _ Hu) as ([f' r'] & -> & Hst & Hsame); [by destruct P1 as (_ & _ & _ & E)|].
  eexists. split; [reflexivity|].
  pose proof P1 as (_ & A1 & A2 & _). pose proof P2 as (_ & B1 & B2 & _). pose proof P3 as (_ & C1 & C2 & _).
  cbn in A1, A2, B1, B2, C1, C2.
  split; cbn [nvram_flash user_region factory_region factory_rw_region nv_flash nv_region].
  - done.
  - eapply region_store_frame; [exact Hsame|done|lia].
  - eapply region_store_frame; [exact Hsame|done|lia].
  - split_and!; [|done|done]. eapply placed_step; [exact P1|exact Hsame].
Qed.

(** An operation on the writable factory region, likewise. *)
Lemma on_factory_rw_store {A} (op : M A) s mu mw mf (x : A) mw' :
  nvram_store s mu mw mf →
  (∀ t, region_store t mw → seg_size (nv_region t) = 4096 →
        ∃ t', op t = Some (x, t') ∧ region_store t' mw' ∧ same_region t t') →
  ∃ s', on_factory_rw op s = Some (x, s') ∧ nvram_store s' mu mw' mf.
Proof.
  intros [Hu Hw Hf (P1 & P2 & P3)] Hop. unfold on_factory_rw.
  destruct (Hop _ Hw) as ([f' r'] & -> & Hst & Hsame); [by destruct P2 as (_ & _ & _ & E)|].
  eexists. split; [reflexivity|].
  pose proof P1 as (_ & A1 & A2 & _). pose proof P2 as (_ & B1 & B2 & _). pose proof P3 as (_ & C1 & C2 & _).
  cbn in A1, A2, B1, B2, C1, C2.
  split; cbn [nvram_flash user_region factory_region factory_rw_region nv_flash nv_region].
  - eapply region_store_frame; [exact Hsame|done|lia].
  - done.
  - eapply region_store_frame; [exact Hsame|done|lia].
  - split_and!; [done| |done]. eapply placed_step; [exact P2|exact Hsame].
Qed.

(** ** Restart *)

(** What a scan of the region at [r0] finds in the flash. *)
Definition recovers f (r0 : region_info) (m : gmap (list Z) (list Z)) : Prop :=
  (∃ off seq es, flash_holds f (region_with_seg off (seg_write_offset r0) seq
                                  (region_with_storage r0)) es ∧ last_wins ∅ es = m) ∨
  (erased f (base_addr r0) (total_size r0) ∧ m = ∅).

Lemma flash_holds_ext f f' r es :
  flash_holds f r es →
  (∀ x, base_addr r <= x < base_addr r + total_size r → cell f' x = cell f x) →
  flash_holds f' r es.
Proof.
  intros Hf Hx. destruct (flash_holds_at _ _ _ Hf) as [Hr (H1 & H2 & _)].
  pose proof (region_seg_size_ok r Hr) as Hsz. pose proof (entries_size_nonneg es).
  destruct Hf as [[V1 V2 V3 V4 V5 V6 V7] Hd (Hq & Hh & Ho)].
  cbn [nv_region nv_flash unmapped region_with_map seg_offset seg_size total_size base_addr
    seg_item_map] in *.
  assert (Hbase : seg_base (unmapped r) = base_addr r + seg_offset r) by done.
  split; [split| |split_and!]; cbn [nv_region nv_flash]; try done.
  - eapply laid_out_ext; [|exact V5]. intros x Hin. apply Hx. lia.
  - intros _ x Hin. rewrite Hx; [apply V6; done|]. cbn in Hin. lia.
  - rewrite <- Hh. apply cells_ext. unfold seg_base. intros x Hin. apply Hx. destruct Hsz; lia.
  - intros o Hat Hne. rewrite <- (Ho o Hat Hne). unfold header_at. do 2 f_equal. apply cells_ext.
    destruct Hat as (H3 & H4 & _). intros x Hin. apply Hx. destruct Hsz; lia.
Qed.

Lemma recovers_ext f f' r0 m :
  recovers f r0 m →
  (∀ x, base_addr r0 <= x < base_addr r0 + total_size r0 → cell f' x = cell f x) →
  recovers f' r0 m.
Proof.
  intros [(off & seq & es & Hf & Hm)|[He Hm]] Hx.
  - left. exists off, seq, es. split; [|done]. by eapply flash_holds_ext.
  - right. split; [|done]. intros x Hin. rewrite Hx by done. by apply He.
Qed.

(** A region in use recovers to what it stores. *)
Lemma region_store_recovers f r r0 m :
  region_store (mk_nv f r) m → placed r0 r → recovers f r0 m.
Proof.
  intros (es & Hri & Hm) Hpl. left. exists (seg_offset r), (seg_seq_id r), es.
  pose proof (inv_names _ _ (ri_seg _ _ Hri)) as Hnd. fold (live es) in Hnd.
  split; [|by rewrite last_wins_contents, map_union_empty].
  apply region_inv_holds in Hri. cbn [nv_flash nv_region] in Hri.
  destruct r0, r, Hpl as (P1 & P2 & P3 & P4). cbn in P1, P2, P3, P4. subst.
  destruct Hri as [[V1 V2 V3 V4 V5 V6 V7] Hd Hh]. by split; [split| |].
Qed.

Lemma region_scan_recovers f r0 m :
  is_in_nvram_region_bounds r0 = true → map_fits r0 → recovers f r0 m →
  ∃ t, region_scan (mk_nv f (region_with_storage r0)) = Some (0, t) ∧ region_store t m ∧
    same_region (mk_nv f (region_with_storage r0)) t.
Proof.
  intros Hb Hmap [(off & seq & es & Hf & <-)|[He ->]].
  - by apply (region_scan_spec f (region_with_storage r0) off seq es).
  - apply region_scan_blank; [by split|done|done].
Qed.

Lemma map_fits_board :
  map_fits user_nvram_region ∧ map_fits factory_nvram_region ∧ map_fits factory_rw_nvram_region.
Proof.
  split_and!; [|done|done]. unfold map_fits. cbn [user_nvram_region seg_item_map seg_size].
  destruct (item_bitmap_clear_spec (replicate 16 0)) as (m' & -> & Hw & Hl & Hb).
  split_and!; [done|by rewrite Hl|]. intros i Hi. apply Hb.
Qed.

(** The state after power-on: nothing but the flash survives. *)
Definition power_on f : @nvram F :=
  mk_nvram f user_nvram_region factory_nvram_region factory_rw_nvram_region.

Lemma placed_scan f r0 t :
  same_region (mk_nv f (region_with_storage r0)) t → placed r0 (nv_region t).
Proof. intros (E1 & E2 & E3 & E4 & _). by split_and!. Qed.

Lemma nvram_config_init_spec f mu mw mf :
  recovers f user_nvram_region mu → recovers f factory_rw_nvram_region mw →
  recovers f factory_nvram_region mf →
  ∃ s, nvram_config_init true (power_on f) = Some (0, s) ∧ nvram_store s mu mw mf.
Proof.
  intros Hu Hw Hf. destruct map_fits_board as (Mu & Mf & Mw).
  unfold nvram_config_init, power_on, on_factory_rw, on_factory, on_user. cbn [negb
    nvram_flash user_region factory_region factory_rw_region].
  destruct (region_scan_recovers f factory_rw_nvram_region mw eq_refl Mw Hw) as ([f1 rw] & Hrun1 & Hst1 & Hs1).
  rewrite Hrun1. cbn [nvram_flash user_region factory_region factory_rw_region nv_flash nv_region].
  pose proof Hs1 as (_ & _ & _ & _ & Hx1).
  cbn [nv_flash nv_region factory_rw_nvram_region region_with_storage base_addr total_size] in Hx1.
  destruct (region_scan_recovers f1 factory_nvram_region mf eq_refl Mf) as ([f2 rf] & Hrun2 & Hst2 & Hs2).
  { eapply recovers_ext; [exact Hf|]. cbn. intros x Hin. apply Hx1. lia. }
  rewrite Hrun2. cbn [nvram_flash user_region factory_region factory_rw_region nv_flash nv_region].
  pose proof Hs2 as (_ & _ & _ & _ & Hx2).
  cbn [nv_flash nv_region factory_nvram_region region_with_storage base_addr total_size] in Hx2.
  destruct (region_scan_recovers f2 user_nvram_region mu eq_refl Mu) as ([f3 ru] & Hrun3 & Hst3 & Hs3).
  { eapply recovers_ext; [exact Hu|]. cbn. intros x Hin. rewrite Hx2, Hx1 by lia. done. }
  unfold bindM at 1. rewrite Hrun3. unfold get_region, bindM. cbn [nv_region].
  pose proof (placed_scan _ _ _ Hs1) as P1. pose proof (placed_scan _ _ _ Hs2) as P2.
  pose proof (placed_scan _ _ _ Hs3) as P3. cbn [nv_region] in P1, P2, P3.
  pose proof P1 as (_ & A1 & A2 & _). pose proof P2 as (_ & B1 & B2 & _). pose proof P3 as (_ & C1 & C2 & _).
  destruct (region_clear_store (mk_nv f3 ru) mu (total_size ru / 2) Hst3) as ([f4 ru'] & Hrun4 & Hst4 & Hs4).
  { rewrite C2. by vm_compute. }
  rewrite Hrun4. eexists. split; [reflexivity|].
  cbn in A1, A2, B1, B2, C1, C2.
  split; cbn [nvram_flash user_region factory_region factory_rw_region nv_flash nv_region].
  - done.
  - eapply region_store_frame; [exact Hs4| |lia]. eapply region_store_frame; [exact Hs3| |cbn; lia].
    eapply region_store_frame; [exact Hs2|done|cbn; lia].
  - eapply region_store_frame; [exact Hs4| |lia]. eapply region_store_frame; [exact Hs3|done|cbn; lia].
  - split_and!; [|done|done]. eapply placed_step; [exact P3|exact Hs4].
Qed.
End api.
