(* ===== verification/NvramSpec.v ===== *)
(** * NVRAM: what the configuration store promises

    The theorems about nvram_config.c as its callers see it, and a simulated
    NOR flash on which they are exercised. *)

From stdpp Require Import base numbers list option gmap.
From S2P Require Import Prelude NvramBits NvramStorage NvramConfig NvramItems NvramRegion NvramStore NvramScan NvramApi.
Local Open Scope Z_scope.

Section spec.
Context {F : Type} `{!FlashDrv F} `{!FlashLaws F}.
Implicit Types (f : F) (s : @nvram F) (name data : list Z).

(** Setting a name to 1 to 512 bytes that fit beside the stored data returns
    0 and replaces or adds exactly that entry of the user region, whether or
    not the segment has to be purged first; the factory regions are untouched. *)
Theorem nvram_config_set_stores s mu mw mf name data :
  nvram_store s mu mw mf → name_ok name → data_ok data →
  16 + stored_size mu + item_space name data <= 8192 →
  ∃ s', nvram_config_set name data s = Some (0, s') ∧
        nvram_store s' (<[name := data]> mu) mw mf.
Proof.
  intros Hst Hn Hd Hroom. apply (on_user_store _ _ mu); [done|]. intros t Ht Hsz.
  apply region_set_store; [done..|lia].
Qed.

(** Setting a name to no data returns 0 and removes exactly that entry from
    the user region. *)
Theorem nvram_config_set_empty_deletes s mu mw mf name :
  nvram_store s mu mw mf → name_ok name →
  ∃ s', nvram_config_set name [] s = Some (0, s') ∧ nvram_store s' (delete name mu) mw mf.
Proof.
  intros Hst Hn. apply (on_user_store _ _ mu); [done|]. intros t Ht _. by apply region_delete_store.
Qed.

(** A factory setting that fits goes to the writable factory region, which
    has no bitmap, and leaves the user and the read-only factory region alone. *)
Theorem nvram_config_set_factory_stores s mu mw mf name data :
  nvram_store s mu mw mf → name_ok name → data_ok data →
  16 + stored_size mw + item_space name data <= 4096 →
  ∃ s', nvram_config_set_factory name data s = Some (0, s') ∧
        nvram_store s' mu (<[name := data]> mw) mf.
Proof.
  intros Hst Hn Hd Hroom. apply (on_factory_rw_store _ _ mu mw); [done|]. intros t Ht Hsz.
  apply region_set_store; [done..|lia].
Qed.

Lemma get_result_sign v max_len : 0 < max_len → (0 <=? (get_result v max_len).1) = bool_decide (is_Some v).
Proof.
  intros. destruct v as [d|]; cbn [get_result fst].
  - rewrite bool_decide_eq_true_2 by eauto. apply Z.leb_le. lia.
  - by rewrite bool_decide_eq_false_2 by (by intros [? ?]).
Qed.

Lemma on_region_get s mu mw mf name max_len :
  nvram_store s mu mw mf → name_ok name → 0 < max_len →
  on_user (region_get name max_len) s = Some (get_result (mu !! name) max_len, s) ∧
  on_factory_rw (region_get name max_len) s = Some (get_result (mw !! name) max_len, s) ∧
  on_factory (region_get name max_len) s = Some (get_result (mf !! name) max_len, s).
Proof.
  intros [Hu Hw Hf _] Hn Hm. unfold on_user, on_factory_rw, on_factory.
  rewrite (region_get_store _ _ _ _ Hu Hn Hm), (region_get_store _ _ _ _ Hw Hn Hm),
    (region_get_store _ _ _ _ Hf Hn Hm). by destruct s.
Qed.

Lemma nvram_config_get_factory_run s mu mw mf name max_len :
  nvram_store s mu mw mf → name_ok name → 0 < max_len →
  nvram_config_get_factory name max_len s =
  Some (get_result ((mw ∪ mf) !! name) max_len, s).
Proof.
  intros Hst Hn Hm. destruct (on_region_get s mu mw mf name max_len Hst Hn Hm) as (_ & Hw & Hf).
  unfold nvram_config_get_factory. rewrite Hw. pose proof (get_result_sign (mw !! name) max_len Hm) as Hs.
  rewrite lookup_union. destruct (get_result (mw !! name) max_len) as [ret d] eqn:E.
  cbn [fst] in Hs. rewrite Hs. rewrite Hf. destruct (mw !! name) as [v|] eqn:El.
  - rewrite bool_decide_eq_true_2 by eauto. rewrite union_Some_l. by rewrite E.
  - rewrite bool_decide_eq_false_2 by (by intros [? ?]). by rewrite (left_id_L None (∪)).
Qed.

(** Reading a name returns the longest prefix of its data that fits the
    buffer, taken from the user region, else the writable factory region, else
    the factory region, -ENOENT when none has it, and changes nothing. *)
Theorem nvram_config_get_lookup s mu mw mf name max_len :
  nvram_store s mu mw mf → name_ok name → 0 < max_len →
  nvram_config_get name max_len s =
  Some (get_result ((mu ∪ (mw ∪ mf)) !! name) max_len, s).
Proof.
  intros Hst Hn Hm. pose proof (nvram_config_get_factory_run s mu mw mf name max_len Hst Hn Hm) as Hfac.
  destruct (on_region_get s mu mw mf name max_len Hst Hn Hm) as (Hu & _).
  unfold nvram_config_get. rewrite Hu. fold (nvram_config_get_factory name max_len s).
  pose proof (get_result_sign (mu !! name) max_len Hm) as Hs.
  rewrite lookup_union. destruct (get_result (mu !! name) max_len) as [ret d] eqn:E.
  cbn [fst] in Hs. rewrite Hs, Hfac. destruct (mu !! name) as [v|] eqn:El.
  - rewrite bool_decide_eq_true_2 by eauto. rewrite union_Some_l. by rewrite E.
  - rewrite bool_decide_eq_false_2 by (by intros [? ?]). by rewrite (left_id_L None (∪)).
Qed.

(** More than 512 bytes of data or a name of 112 characters or more is
    refused with -EINVAL and the store is unchanged. *)
Theorem nvram_config_set_rejects s name data :
  512 < Z.of_nat (length data) ∨ 112 <= Z.of_nat (length name) →
  ∃ s', nvram_config_set name data s = Some (- EINVAL, s') ∧ s' = s.
Proof.
  intros H. exists s. split; [|done]. unfold nvram_config_set, on_user, region_set, get_region, bindM at 1.
  cbn [nv_region]. unfold NVRAM_MAX_DATA_SIZE, NVRAM_MAX_NAME_SIZE. pose proof (length_cstr name).
  destruct (Z.ltb_spec 512 (Z.of_nat (length data))); [by destruct s|].
  destruct (is_in_nvram_region_bounds (user_region s)); [|by destruct s]. cbn [negb].
  destruct (Z.ltb_spec 112 (Z.of_nat (length (cstr name)))); [by destruct s|lia].
Qed.

(** *** Sequences of calls *)

(** A call: data to set, none to delete. *)
Definition nv_apply (m : gmap (list Z) (list Z)) (c : list Z * list Z) : gmap (list Z) (list Z) :=
  let '(name, data) := c in if decide (data = []) then delete name m else <[name := data]> m.

Fixpoint nv_calls (calls : list (list Z * list Z)) s : option (@nvram F) :=
  match calls with
  | [] => Some s
  | (name, data) :: calls' =>
      match nvram_config_set name data s with
      | Some (0, s') => nv_calls calls' s'
      | _ => None
      end
  end.

(** Each call is well-formed and fits when its turn comes. *)
Fixpoint calls_fit (m : gmap (list Z) (list Z)) (calls : list (list Z * list Z)) : Prop :=
  match calls with
  | [] => True
  | (name, data) :: calls' =>
      name_ok name ∧ (data = [] ∨ data_ok data ∧ 16 + stored_size m + item_space name data <= 8192) ∧
      calls_fit (nv_apply m (name, data)) calls'
  end.

(** C5: Any sequence of nvram_config_set calls (with data to set, without to
    delete), including the moves to a fresh flash segment it triggers, acts on
    the three regions like the same sequence of insertions and deletions on a
    finite map, as long as each value fits the segment beside what is stored. *)
Theorem nvram_calls_refine_map calls s mu mw mf :
  nvram_store s mu mw mf → calls_fit mu calls →
  ∃ s', nv_calls calls s = Some s' ∧ nvram_store s' (foldl nv_apply mu calls) mw mf.
Proof.
  revert s mu. induction calls as [|[name data] calls IH]; intros s mu Hst Hfit; [by exists s|].
  destruct Hfit as (Hn & Hd & Hrest).
  assert (Hstep : ∃ s1, nvram_config_set name data s = Some (0, s1) ∧
                        nvram_store s1 (nv_apply mu (name, data)) mw mf).
  { unfold nv_apply. case_decide as E.
    - subst data. apply (on_user_store _ _ mu); [done|]. intros t Ht _. by apply region_delete_store.
    - destruct Hd as [|[Hd Hroom]]; [done|]. apply (on_user_store _ _ mu); [done|].
      intros t Ht Hsz. apply region_set_store; [done..|lia]. }
  destruct Hstep as (s1 & Hrun & Hst1). cbn [nv_calls foldl]. rewrite Hrun. by apply IH.
Qed.

(** *** Power cycles *)

(** C6: Start-up from the flash alone, with the RAM state at its initial values,
    restores exactly the contents of all three regions; scanning, the bitmap
    reconstruction and the clearing of old segments lose nothing and the loops
    terminate. *)
Theorem nvram_restart_keeps_contents s mu mw mf :
  nvram_store s mu mw mf →
  ∃ s', nvram_config_init true (power_on (nvram_flash s)) = Some (0, s') ∧
        nvram_store s' mu mw mf.
Proof.
  intros [Hu Hw Hf (P1 & P2 & P3)].
  apply nvram_config_init_spec; by eapply region_store_recovers.
Qed.

(** On an erased flash the start-up writes a first segment header in each
    region and leaves three empty stores. *)
Theorem nvram_blank_flash_starts_empty f :
  erased f 4128768 65536 →
  ∃ s', nvram_config_init true (power_on f) = Some (0, s') ∧ nvram_store s' ∅ ∅ ∅.
Proof.
  intros He. apply nvram_config_init_spec; right; (split; [|done]); cbn; intros x Hx; apply He; lia.
Qed.

(** C7: Power lost after a new item is completely written and before the old item
    of the same name is marked obsolete: the next start-up makes the old one
    obsolete and the store holds the new value and everything else unchanged. *)
Theorem nvram_interrupted_set_completes s mu mw mf name data :
  let r := user_region s in
  nvram_store s mu mw mf → name_ok name → data_ok data →
  seg_write_offset r + item_space name data <= seg_offset r + seg_size r →
  ∃ n t s', region_write_item (seg_write_offset r) name data (mk_nv (nvram_flash s) r) = Some (n, t) ∧
    nvram_config_init true (power_on (nv_flash t)) = Some (0, s') ∧
    nvram_store s' (<[name := data]> mu) mw mf.
Proof.
  intros r [(es & Hri & Hm) Hw Hf (P1 & P2 & P3)] Hn Hd Hroom. fold r in Hri.
  pose proof Hri as [Hinv Hh]%region_inv_split. pose proof (inv_write _ _ Hinv) as Hwo.
  pose proof (inv_names _ _ Hinv) as Hnd. fold (live es) in Hnd. cbn [nv_region] in Hwo.
  assert (Hroom' : 16 + entries_size es + item_space name data <= seg_size r) by lia.
  destruct (append_spec _ es name data Hinv Hn Hd Hroom') as (n & f' & Hrun & Hv & Hio & Hfree).
  cbn [nv_region] in Hrun. set (s2 := mk_nv f' (region_with_write_offset _ _)) in *.
  pose proof (items_only_same_region _ _ _ Hinv Hio) as Hsame.
  assert (Hh2 : headers_ok s2).
  { eapply headers_ok_items; [..|exact Hh|exact Hio]; [|by eapply seg_inv_at].
    apply (seg_region _ _ (inv_view _ _ Hinv)). }
  exists n, (mk_nv f' r). edestruct (nvram_config_init_spec f' (<[name := data]> mu) mw mf)
    as (s' & Hini & Hst'); [| | |exists s'; split_and!; [exact Hrun|exact Hini|exact Hst']].
  - left. exists (seg_offset r), (seg_seq_id r), (es ++ [mk_entry name data true]). split.
    + pose proof (inv_div _ _ Hinv) as Hdiv. cbn [nv_region] in Hdiv.
      fold r in P1. subst s2. clearbody r. destruct r, P1 as (Q1 & Q2 & Q3 & Q4). cbn in Q1, Q2, Q3, Q4. subst.
      destruct Hv as [V1 V2 V3 V4 V5 V6 V7]. split; [split|..]; try done.
    + unfold last_wins. rewrite foldl_app. fold (last_wins ∅ es).
      rewrite (last_wins_contents ∅ es Hnd), map_union_empty, Hm. done.
  - eapply recovers_ext; [by eapply region_store_recovers|]. destruct Hsame as (_ & _ & _ & _ & Hx).
    pose proof P1 as (_ & A1 & A2 & _). cbn in A1, A2. intros x Hin. apply Hx. cbn [nv_region] in *.
    cbn in Hin. unfold r. lia.
  - eapply recovers_ext; [by eapply region_store_recovers|]. destruct Hsame as (_ & _ & _ & _ & Hx).
    pose proof P1 as (_ & A1 & A2 & _). cbn in A1, A2. intros x Hin. apply Hx. cbn [nv_region] in *.
    cbn in Hin. unfold r. lia.
Qed.
End spec.

(** ** A simulated flash *)

(** Cells by address; programming can only clear bits. *)
Definition nor : Type := Z → Z.

#[export] Instance nor_drv : FlashDrv nor := {
  flash_read f a n := (0, (λ x, u8 (f x)) <$> seqZ a n);
  flash_write f a d :=
    (0, λ x, if (a <=? x) && (x <? a + Z.of_nat (length d))
             then Z.land (u8 (f x)) (getb d (x - a)) else f x);
  flash_erase f a n := (0, λ x, if (a <=? x) && (x <? a + n) then 255 else f x);
}.

#[export] Program Instance nor_laws : FlashLaws nor := { cell f x := u8 (f x) }.
Next Obligation. intros f a. apply u8_range. Qed.
Next Obligation. done. Qed.
Next Obligation. done. Qed.
Next Obligation.
  intros f a d x Hx Hc Hd. cbn [flash_write nor_drv snd].
  destruct (Z.leb_spec a x); [|lia]. destruct (Z.ltb_spec x (a + Z.of_nat (length d))); [|lia].
  cbn [andb]. rewrite Hc. change 255 with (Z.ones 8). rewrite Z.land_comm, Z.land_ones by lia.
  change (2 ^ 8) with 256. pose proof (getb_u8 d (x - a) Hd) as Hb.
  fold (u8 (getb d (x - a))). by rewrite !u8_id by (rewrite ?u8_id; done).
Qed.
Next Obligation.
  intros f a d x Hx. cbn [flash_write nor_drv snd].
  destruct (Z.leb_spec a x), (Z.ltb_spec x (a + Z.of_nat (length d))); cbn [andb]; done || lia.
Qed.
Next Obligation. done. Qed.
Next Obligation.
  intros f a n x Hx. cbn [flash_erase nor_drv snd].
  destruct (Z.leb_spec a x), (Z.ltb_spec x (a + n)); cbn [andb]; done || lia.
Qed.
Next Obligation.
  intros f a n x Hx. cbn [flash_erase nor_drv snd].
  destruct (Z.leb_spec a x), (Z.ltb_spec x (a + n)); cbn [andb]; done || lia.
Qed.

(** A flash from the factory. *)
Definition blank_nor : nor := λ _, 255.

(** The three regions just initialised. *)
Definition fresh_flash : nor := λ x,
  let hdr size b := getb (hdr_to_bytes (new_seg_header size 1)) (x - b) in
  if (4128768 <=? x) && (x <? 4128784) then hdr 4096 4128768
  else if (4136960 <=? x) && (x <? 4136976) then hdr 4096 4136960
  else if (4145152 <=? x) && (x <? 4145168) then hdr 8192 4145152
  else 255.

Definition fresh_region (r : region_info) : region_info :=
  mk_region true (base_addr r) (total_size r) (seg_size r) 0 16 1 (seg_item_map r).

Definition fresh_nvram : @nvram nor :=
  mk_nvram fresh_flash (fresh_region user_nvram_region) (fresh_region factory_nvram_region)
    (fresh_region factory_rw_nvram_region).

Lemma fresh_region_store f r :
  is_in_nvram_region_bounds r = true → map_fits r →
  seg_item_map r = item_bitmap_clear_all (seg_item_map r) →
  cells f (base_addr r) 16 = hdr_to_bytes (new_seg_header (seg_size r) 1) →
  erased f (base_addr r + 16) (total_size r - 16) →
  region_store (mk_nv f (fresh_region r)) ∅.
Proof.
  intros Hb Hmap Hm Hh He. exists []. split; [|done].
  assert (Hr : region_ok (fresh_region r)) by (by split).
  pose proof (region_ok_bounds _ Hr) as (_ & _ & Hbd). cbn in Hbd.
  assert (Hat : seg_at (fresh_region r) 0) by (split_and!; [lia|cbn; lia|apply Z.divide_0_r]).
  assert (Htail : erased f (base_addr r + 0 + 16 + 0) (seg_size r - 16 - 0)).
  { intros x Hx. apply He. lia. }
  apply region_inv_split. split; [split; [split|..]|split_and!]; cbn [nv_region nv_flash]; try done.
  - cbn. lia.
  - cbn. lia.
  - cbn [fresh_region seg_item_map]. rewrite Hm. exact Hmap.
  - apply Z.divide_0_r.
  - apply NoDup_nil_2.
  - unfold seg_base. cbn. rewrite Z.add_0_r. exact Hh.
  - intros o Hato Hne. pose proof (seg_at_disjoint _ o 0 Hr Hato Hat Hne) as Hdis.
    destruct Hato as (H1 & H2 & _). cbn in H1, H2, Hdis. apply erased_header_invalid.
    intros x Hx. apply He. cbn in Hx. lia.
Qed.

Ltac fresh_cells :=
  intros x Hx; cbn [cell nor_laws]; unfold fresh_flash;
  repeat match goal with
  | |- context [(?a <=? x)] => destruct (Z.leb_spec a x); cbn [andb]
  | |- context [(x <? ?a)] => destruct (Z.ltb_spec x a); cbn [andb]
  end; try reflexivity; cbn in Hx; lia.

Lemma fresh_store : nvram_store fresh_nvram ∅ ∅ ∅.
Proof.
  destruct map_fits_board as (Mu & Mf & Mw).
  split; cbn [fresh_nvram nvram_flash user_region factory_region factory_rw_region].
  - apply fresh_region_store; [done|done|done|vm_compute; reflexivity|fresh_cells].
  - apply fresh_region_store; [done|done|done|vm_compute; reflexivity|fresh_cells].
  - apply fresh_region_store; [done|done|done|vm_compute; reflexivity|fresh_cells].
  - by split_and!.
Qed.

(** ** The theorems at work *)

Definition VOLUME : list Z := [86; 79; 76; 85; 77; 69].
Definition BT_NAME : list Z := [66; 84; 95; 78; 65; 77; 69].

Lemma sample_names : name_ok VOLUME ∧ name_ok BT_NAME.
Proof. split; (split; [repeat constructor; lia|cbn; lia]). Qed.

Lemma sample_data : data_ok [30] ∧ data_ok [90; 83; 50].
Proof. split; (split; [repeat constructor; unfold is_u8; lia|cbn; lia]). Qed.

Lemma volume_store : ∃ s : @nvram nor, nvram_store s (<[VOLUME := [30]]> ∅) ∅ ∅.
Proof.
  destruct (on_user_store (region_set VOLUME [30]) fresh_nvram ∅ ∅ ∅ 0 (<[VOLUME := [30]]> ∅) fresh_store)
    as (s & _ & Hs); [|by exists s].
  intros t Ht Hsz. apply region_set_store; [done|apply sample_names|apply sample_data|].
  rewrite Hsz. by vm_compute.
Qed.

Lemma nvram_config_set_stores_witness :
  ∃ s', nvram_config_set VOLUME [30] fresh_nvram = Some (0, s') ∧
        nvram_store s' (<[VOLUME := [30]]> ∅) ∅ ∅.
Proof.
  apply (nvram_config_set_stores fresh_nvram ∅ ∅ ∅ VOLUME [30]).
  - exact fresh_store.
  - apply sample_names.
  - apply sample_data.
  - by vm_compute.
Defined.

Lemma nvram_config_set_empty_deletes_witness :
  ∃ s s' : @nvram nor, nvram_store s (<[VOLUME := [30]]> ∅) ∅ ∅ ∧
    nvram_config_set VOLUME [] s = Some (0, s') ∧
    nvram_store s' (delete VOLUME (<[VOLUME := [30]]> ∅)) ∅ ∅.
Proof.
  destruct volume_store as (s & Hs).
  destruct (nvram_config_set_empty_deletes s _ _ _ VOLUME Hs (proj1 sample_names)) as (s' & H1 & H2).
  by exists s, s'.
Defined.

Lemma nvram_config_set_factory_stores_witness :
  ∃ s', nvram_config_set_factory BT_NAME [90; 83; 50] fresh_nvram = Some (0, s') ∧
        nvram_store s' ∅ (<[BT_NAME := [90; 83; 50]]> ∅) ∅.
Proof.
  apply (nvram_config_set_factory_stores fresh_nvram ∅ ∅ ∅ BT_NAME [90; 83; 50]).
  - exact fresh_store.
  - apply sample_names.
  - apply sample_data.
  - by vm_compute.
Defined.

Lemma nvram_config_get_lookup_witness :
  ∃ s : @nvram nor, nvram_config_get VOLUME 8 s = Some ((1, [30]), s).
Proof.
  destruct volume_store as (s & Hs). exists s.
  rewrite (nvram_config_get_lookup s _ _ _ VOLUME 8 Hs (proj1 sample_names) eq_refl). reflexivity.
Defined.

Lemma nvram_config_set_rejects_witness :
  ∃ s', nvram_config_set VOLUME (replicate 513 0) fresh_nvram = Some (- EINVAL, s') ∧ s' = fresh_nvram.
Proof. apply nvram_config_set_rejects. left. by vm_compute. Defined.

Definition sample_calls : list (list Z * list Z) :=
  [(VOLUME, [30]); (BT_NAME, [90; 83; 50]); (VOLUME, [31]); (BT_NAME, [])].

Lemma nvram_calls_refine_map_witness :
  ∃ s', nv_calls sample_calls fresh_nvram = Some s' ∧
        nvram_store s' (foldl nv_apply ∅ sample_calls) ∅ ∅.
Proof.
  apply nvram_calls_refine_map; [exact fresh_store|].
  assert (H31 : data_ok [31]) by (split; [repeat constructor; unfold is_u8; lia|cbn; lia]).
  destruct sample_names, sample_data. cbn [calls_fit sample_calls].
  split_and!; try done; first [by left|right; split; [done|by vm_compute]].
Defined.

Lemma nvram_restart_keeps_contents_witness :
  ∃ s s' : @nvram nor, nvram_config_init true (power_on (nvram_flash s)) = Some (0, s') ∧
    nvram_store s' (<[VOLUME := [30]]> ∅) ∅ ∅.
Proof.
  destruct volume_store as (s & Hs).
  destruct (nvram_restart_keeps_contents s _ _ _ Hs) as (s' & H1 & H2). by exists s, s'.
Defined.

Lemma nvram_blank_flash_starts_empty_witness :
  ∃ s', nvram_config_init true (power_on blank_nor) = Some (0, s') ∧ nvram_store s' ∅ ∅ ∅.
Proof. apply nvram_blank_flash_starts_empty. intros x Hx. reflexivity. Defined.

Lemma nvram_interrupted_set_completes_witness :
  ∃ n t s', region_write_item 16 VOLUME [30] (mk_nv fresh_flash (user_region fresh_nvram)) = Some (n, t) ∧
    nvram_config_init true (power_on (nv_flash t)) = Some (0, s') ∧
    nvram_store s' (<[VOLUME := [30]]> ∅) ∅ ∅.
Proof.
  apply (nvram_interrupted_set_completes fresh_nvram ∅ ∅ ∅ VOLUME [30]).
  - exact fresh_store.
  - apply sample_names.
  - apply sample_data.
  - by vm_compute.
Defined.
