(* ===== verification/PropertyCache.v ===== *)
(** * The property cache

    ext/actions/base/property/property_cache.c: a table of 70 items in front
    of the NVRAM store.  Values set are kept in RAM until a flush; a deleted
    value stays as an item without data so that the flush removes it from the
    store.  Bluetooth keys are kept by reference: the item points to the
    caller's buffer.

    The NVRAM calls and the allocator enter through the class [PropEnv]; what
    the cache relies on is [PropLaws], proved for the NVRAM driver in
    PropertyNvram.v.  Every operation runs under a mutex and is modelled as one
    step.  [None] stands for an operation that does not return: a store call
    that ran out of fuel, or a copy into an item that has no block of its own
    (a null pointer after a failed allocation). *)

From stdpp Require Import base numbers list option gmap.
From S2P Require Import Prelude NvramConfig NvramItems NvramStore.
Local Open Scope Z_scope.

Definition MAX_NVRAM_ITEM_CACHE_NUM : nat := 70.

(** A caller's buffer: one that nobody writes while it is in use, by its
    contents, or an address of memory that may change. *)
Inductive cptr := Local (b : list Z) | Addr (a : Z).

(** The [data] pointer of an item: null, a block of its own, the caller's. *)
Inductive item_data := Null | Own (b : list Z) | Ref (p : cptr).

(** [struct cahce_item_data] *)
Record cache_item := mk_cache_item {
  ci_name : list Z;
  ci_data : item_data;
  ci_len : Z;
  ci_used : bool;
  ci_flush_req : bool;
  ci_global : bool;
}.

Definition item_clear : cache_item := mk_cache_item [] Null 0 false false false.
(** [data_len] has ten bits. *)
Definition set_item_data (d : item_data) (len : Z) (it : cache_item) : cache_item :=
  mk_cache_item (ci_name it) d (len mod 1024) (ci_used it) (ci_flush_req it) (ci_global it).
Definition set_item_global (g : bool) (it : cache_item) : cache_item :=
  mk_cache_item (ci_name it) (ci_data it) (ci_len it) (ci_used it) (ci_flush_req it) g.
Definition set_item_flush (b : bool) (it : cache_item) : cache_item :=
  mk_cache_item (ci_name it) (ci_data it) (ci_len it) (ci_used it) b (ci_global it).
Definition use_item (name : list Z) (d : item_data) (len : Z) (it : cache_item) : cache_item :=
  mk_cache_item name d (len mod 1024) true (ci_flush_req it) (ci_global it).

(** What the cache calls: the store (a null data pointer is [None]), the
    allocator, and the memory behind a caller's pointer. *)
Class PropEnv (W : Type) := {
  nv_get : list Z → Z → W → option (Z * list Z * W);
  nv_set : list Z → option (list Z) → Z → W → option (Z * W);
  mem_malloc : Z → W → bool * W;
  load : cptr → W → list Z;
}.

Section cache.
Context {W : Type} `{!PropEnv W}.

Record pcache := mk_pcache { pc_items : list cache_item; pc_world : W }.

Definition set_items (l : list cache_item) (s : pcache) : pcache := mk_pcache l (pc_world s).
Definition set_pworld (w : W) (s : pcache) : pcache := mk_pcache (pc_items s) w.
Definition upd_item (i : nat) (it : cache_item) (s : pcache) : pcache :=
  set_items (<[i := it]> (pc_items s)) s.

(** [property_cache_init] *)
Definition property_cache_init (s : pcache) : pcache :=
  set_items (replicate MAX_NVRAM_ITEM_CACHE_NUM item_clear) s.

(** [find_property_cache] *)
Definition find_property_cache (l : list cache_item) (name : list Z) : option (nat * cache_item) :=
  list_find (λ it, ci_used it = true ∧ ci_name it = name) l.

(** The search for a free item. *)
Definition find_free (l : list cache_item) : option (nat * cache_item) :=
  list_find (λ it, ci_used it = false) l.

(** [get_property_cache]: a free item with room for name and data, or none. *)
Definition get_property_cache (name : list Z) (len : Z) (s : pcache)
    : option (nat * cache_item) * pcache :=
  match find_free (pc_items s) with
  | None => (None, s)
  | Some (i, it) =>
      let '(ok, w) := mem_malloc (Z.of_nat (length name) + 1) (pc_world s) in
      let s := set_pworld w s in
      if negb ok then (None, s)
      else if len =? 0 then (Some (i, set_item_data Null (ci_len it) it), s)
      else
        let '(ok, w) := mem_malloc len (pc_world s) in
        let s := set_pworld w s in
        if negb ok then (None, s)
        else (Some (i, set_item_data (Own (replicate (Z.to_nat len) 0)) (ci_len it) it), s)
  end.

(** [get_property_cache2]: the flag is set before the allocation is checked. *)
Definition get_property_cache2 (name : list Z) (len : Z) (s : pcache)
    : option (nat * cache_item) * pcache :=
  match find_free (pc_items s) with
  | None => (None, s)
  | Some (i, it) =>
      let '(ok, w) := mem_malloc (Z.of_nat (length name) + 1) (pc_world s) in
      let it := set_item_global true it in
      let s := upd_item i it (set_pworld w s) in
      if negb ok then (None, s)
      else if len =? 0 then (Some (i, set_item_data Null (ci_len it) it), s)
      else (Some (i, it), s)
  end.

(** [put_property_cache] *)
Definition put_property_cache (i : nat) (s : pcache) : pcache := upd_item i item_clear s.

(** The bytes an item's data pointer leads to. *)
Definition data_bytes (d : item_data) (w : W) : option (list Z) :=
  match d with Null => None | Own b => Some b | Ref p => Some (load p w) end.

(** [property_cache_get]: the result and the bytes stored in the buffer. *)
Definition property_cache_get (name : list Z) (len : Z) (s : pcache)
    : option (Z * list Z * pcache) :=
  match find_property_cache (pc_items s) name with
  | Some (_, it) =>
      let read_len := if len <? ci_len it then len else ci_len it in
      let bytes := match data_bytes (ci_data it) (pc_world s) with
                   | None => []
                   | Some b => take (Z.to_nat read_len) b
                   end in
      Some (read_len, bytes, s)
  | None =>
      match nv_get name len (pc_world s) with
      | None => None
      | Some (r, b, w) => Some (r, b, set_pworld w s)
      end
  end.

(** [memcpy(item->data, data, len)] into the item's own block. *)
Definition copy_into (d : item_data) (bytes : list Z) : option item_data :=
  match d with
  | Own b => Some (Own (memcpy b 0 bytes))
  | Null | Ref _ => None
  end.

(** The value of an existing item is replaced, in place when the length is
    the same, in a new block otherwise; when that cannot be allocated the
    pointer is null and the result still 0. *)
Definition replace_data (i : nat) (it : cache_item) (data : cptr) (len : Z) (s : pcache)
    : option (Z * pcache) :=
  if ci_len it =? len then
    match copy_into (ci_data it) (take (Z.to_nat len) (load data (pc_world s))) with
    | None => None
    | Some d => Some (0, upd_item i (set_item_data d (ci_len it) it) s)
    end
  else
    let '(ok, w) := mem_malloc len (pc_world s) in
    let s := set_pworld w s in
    if negb ok then Some (0, upd_item i (set_item_data Null (ci_len it) it) s)
    else
      Some (0, upd_item i (set_item_data (Own (take (Z.to_nat len) (load data (pc_world s))))
                             len it) s).

(** A new item; the copy is skipped when there is no block. *)
Definition new_cache_item (name : list Z) (data : option cptr) (len : Z) (s : pcache)
    : Z * pcache :=
  match get_property_cache name len s with
  | (None, s) => (- ENOMEM, s)
  | (Some (i, it), s) =>
      let d := match ci_data it, data with
               | Own _, Some p => Own (take (Z.to_nat len) (load p (pc_world s)))
               | d, _ => d
               end in
      (0, upd_item i (use_item name d len it) s)
  end.

(** [property_cache_set2] *)
Definition property_cache_set2 (name : list Z) (data : option cptr) (len : Z) (s : pcache)
    : option (Z * pcache) :=
  match find_property_cache (pc_items s) name with
  | Some (i, it) =>
      match data with
      | None =>
          match ci_data it with
          | Null => Some (0, s)
          | _ => Some (0, upd_item i (set_item_data Null 0 it) s)
          end
      | Some p => replace_data i it p len s
      end
  | None => Some (new_cache_item name data len s)
  end.

(** [property_cache_set_bt_keys] *)
Definition property_cache_set_bt_keys (name : list Z) (data : option cptr) (len : Z) (s : pcache)
    : option (Z * pcache) :=
  match find_property_cache (pc_items s) name with
  | Some (i, it) =>
      match data with
      | None => Some (0, put_property_cache i s)
      | Some p => replace_data i it p len s
      end
  | None => Some (new_cache_item name data len s)
  end.

(** [property_cache_set_global_data]: the item refers to the caller's data. *)
Definition property_cache_set_global_data (name : list Z) (data : option cptr) (len : Z)
    (s : pcache) : option (Z * pcache) :=
  match find_property_cache (pc_items s) name with
  | Some (i, it) =>
      match data with
      | None => Some (0, put_property_cache i s)
      | Some p => Some (0, upd_item i (set_item_data (Ref p) len it) s)
      end
  | None =>
      match get_property_cache2 name len s with
      | (None, s) => Some (- ENOMEM, s)
      | (Some (i, it), s) =>
          let d := match data with None => Null | Some p => Ref p end in
          Some (0, upd_item i (use_item name d len it) s)
      end
  end.

(** [strncmp(a, b, n) == 0] *)
Definition strncmp_eq (a b : list Z) (n : nat) : bool :=
  bool_decide (take n (cstr a) = take n (cstr b)).

Definition CFG_BT_KEYS : list Z := [66; 84; 95; 75; 69; 89; 83].
Definition CFG_BT_CCC : list Z := [66; 84; 95; 67; 67; 67].
Definition CFG_BT_SC : list Z := [66; 84; 95; 83; 67].
Definition CFG_BT_CF : list Z := [66; 84; 95; 67; 70].

(** [property_cache_set] *)
Definition property_cache_set (name : list Z) (data : option cptr) (len : Z) (s : pcache)
    : option (Z * pcache) :=
  if bool_decide (is_Some data) && (len <=? 0) then Some (- EINVAL, s)
  else
    let len := match data with None => 0 | Some _ => len end in
    if negb (getb (cstr name) 0 =? 66) || negb (getb (cstr name) 1 =? 84)
    then property_cache_set2 name data len s
    else if strncmp_eq name CFG_BT_KEYS 7
    then property_cache_set_global_data name data len s
    else if strncmp_eq name CFG_BT_CCC 6 || strncmp_eq name CFG_BT_CF 6 ||
            strncmp_eq name CFG_BT_SC 6
    then property_cache_set_bt_keys name data len s
    else property_cache_set2 name data len s.

(** Which items a flush of [name] means: those whose name starts with it. *)
Definition flush_selects (name : option (list Z)) (it : cache_item) : bool :=
  ci_used it &&
  match name with
  | None => true
  | Some n => bool_decide (take (length n) (ci_name it) = n)
  end.

(** [nvram_config_set(item->name, item->data, item->data_len)] *)
Definition write_item (it : cache_item) (w : W) : option (Z * W) :=
  nv_set (ci_name it) (data_bytes (ci_data it) w) (ci_len it) w.

(** [property_cache_flush] *)
Fixpoint flush_loop (name : option (list Z)) (l : list cache_item) (w : W)
    : option (list cache_item * W) :=
  match l with
  | [] => Some ([], w)
  | it :: l' =>
      let rest it w := match flush_loop name l' w with
                       | None => None
                       | Some (l', w) => Some (it :: l', w)
                       end in
      if flush_selects name it then
        match write_item it w with
        | None => None
        | Some (ret, w) => if ret =? 0 then rest item_clear w else rest it w
        end
      else rest it w
  end.
Definition property_cache_flush (name : option (list Z)) (s : pcache) : option (Z * pcache) :=
  match flush_loop name (pc_items s) (pc_world s) with
  | None => None
  | Some (l, w) => Some (0, mk_pcache l w)
  end.

(** [property_cache_flush_req] *)
Definition property_cache_flush_req (name : option (list Z)) (s : pcache) : Z * pcache :=
  (0, set_items ((λ it, if flush_selects name it then set_item_flush true it else it)
                   <$> pc_items s) s).

(** [property_cache_flush_req_deal] *)
Fixpoint flush_req_deal_loop (l : list cache_item) (w : W) : option (list cache_item * W) :=
  match l with
  | [] => Some ([], w)
  | it :: l' =>
      let rest it w := match flush_req_deal_loop l' w with
                       | None => None
                       | Some (l', w) => Some (it :: l', w)
                       end in
      if ci_used it && ci_flush_req it then
        match write_item it w with
        | None => None
        | Some (ret, w) => rest (set_item_flush false (if ret =? 0 then item_clear else it)) w
        end
      else rest it w
  end.
Definition property_cache_flush_req_deal (s : pcache) : option (Z * pcache) :=
  match flush_req_deal_loop (pc_items s) (pc_world s) with
  | None => None
  | Some (l, w) => Some (0, mk_pcache l w)
  end.
End cache.

(** ** What the cache relies on *)

(** [stores w mu mf]: the user region holds [mu], the factory regions together
    [mf].  [fits] says when a value can be stored beside others; [ample] that
    the allocator will not fail. *)
Class PropLaws (W : Type) `{!PropEnv W} := {
  stores : W → gmap (list Z) (list Z) → gmap (list Z) (list Z) → Prop;
  fits : gmap (list Z) (list Z) → list Z → list Z → Prop;
  ample : W → Prop;
  nv_get_ok w mu mf name n :
    stores w mu mf → name_ok name → 0 < n →
    nv_get name n w = Some (get_result ((mu ∪ mf) !! name) n, w);
  nv_set_ok w mu mf name data :
    stores w mu mf → name_ok name → data_ok data → fits mu name data →
    ∃ w', nv_set name (Some data) (Z.of_nat (length data)) w = Some (0, w') ∧
      stores w' (<[name := data]> mu) mf ∧ (ample w → ample w') ∧ ∀ p, load p w' = load p w;
  nv_set_prefix w name data n :
    0 <= n <= Z.of_nat (length data) →
    nv_set name (Some data) n w = nv_set name (Some (take (Z.to_nat n) data)) n w;
  nv_delete_ok w mu mf name :
    stores w mu mf → name_ok name →
    ∃ w', nv_set name None 0 w = Some (0, w') ∧
      stores w' (delete name mu) mf ∧ (ample w → ample w') ∧ ∀ p, load p w' = load p w;
  malloc_ok w n :
    ample w → ∃ w', mem_malloc n w = (true, w') ∧ ample w' ∧
      (∀ mu mf, stores w mu mf → stores w' mu mf) ∧ ∀ p, load p w' = load p w;
}.

(** ** Finding items *)

Definition item_key (it : cache_item) : option (list Z) :=
  if ci_used it then Some (ci_name it) else None.

Lemma item_key_used it name : item_key it = Some name ↔ ci_used it = true ∧ ci_name it = name.
Proof. unfold item_key. destruct (ci_used it); split; intros; simplify_eq; [done|..]; by destruct_and?; simplify_eq. Qed.

Definition unique_keys (l : list cache_item) : Prop :=
  ∀ i j it jt name, l !! i = Some it → l !! j = Some jt →
    item_key it = Some name → item_key jt = Some name → i = j.

Lemma find_some l name i it :
  find_property_cache l name = Some (i, it) → l !! i = Some it ∧ item_key it = Some name.
Proof.
  unfold find_property_cache. intros (H1 & H2 & _)%list_find_Some.
  split; [done|by apply item_key_used].
Qed.

Lemma find_none l name i it :
  find_property_cache l name = None → l !! i = Some it → item_key it ≠ Some name.
Proof.
  unfold find_property_cache. rewrite list_find_None. intros Hall Hi Hk%item_key_used.
  eapply Forall_lookup_1 in Hall; [|exact Hi]. done.
Qed.

Lemma find_free_some l i it :
  find_free l = Some (i, it) → l !! i = Some it ∧ item_key it = None.
Proof.
  unfold find_free. intros (H1 & H2 & _)%list_find_Some. split; [done|].
  unfold item_key. by rewrite H2.
Qed.

(** Other names are found as before. *)
Lemma find_upd_other l i it it' name :
  l !! i = Some it → item_key it ≠ Some name → item_key it' ≠ Some name →
  find_property_cache (<[i := it']> l) name = find_property_cache l name.
Proof.
  intros Hi H1 H2. rewrite item_key_used in H1, H2. unfold find_property_cache.
  revert i Hi. induction l as [|x l IH]; intros [|i] Hi; simplify_eq/=.
  - by rewrite !decide_False by done.
  - case_decide; [done|]. by rewrite IH.
Qed.

(** The changed item is found under its own name. *)
Lemma find_upd_hit l i it it' name :
  l !! i = Some it → item_key it' = Some name →
  (∀ j jt, l !! j = Some jt → j ≠ i → item_key jt ≠ Some name) →
  find_property_cache (<[i := it']> l) name = Some (i, it').
Proof.
  intros Hi Hk Hothers. unfold find_property_cache. apply list_find_Some.
  pose proof (lookup_lt_Some _ _ _ Hi). split; [|split].
  - by apply list_lookup_insert_eq.
  - by apply item_key_used.
  - intros j jt Hj Hlt. rewrite list_lookup_insert_ne in Hj by lia.
    rewrite <- item_key_used. eapply Hothers; [done|lia].
Qed.

Lemma find_upd_gone l i it it' name :
  l !! i = Some it → item_key it' ≠ Some name →
  (∀ j jt, l !! j = Some jt → j ≠ i → item_key jt ≠ Some name) →
  find_property_cache (<[i := it']> l) name = None.
Proof.
  intros Hi Hk Hothers. unfold find_property_cache. apply list_find_None, Forall_lookup_2.
  pose proof (lookup_lt_Some _ _ _ Hi). intros j jt Hj. rewrite <- item_key_used.
  destruct (decide (j = i)) as [->|Hne].
  - rewrite list_lookup_insert_eq in Hj by done. by simplify_eq.
  - rewrite list_lookup_insert_ne in Hj by done. by eapply Hothers.
Qed.

Lemma unique_upd l i it it' :
  unique_keys l → l !! i = Some it →
  (∀ name, item_key it' = Some name →
           item_key it = Some name ∨ find_property_cache l name = None) →
  unique_keys (<[i := it']> l).
Proof.
  intros Hu Hi Hk a b at' bt name Ha Hb Hka Hkb. pose proof (lookup_lt_Some _ _ _ Hi).
  destruct (decide (a = i)) as [->|Hai], (decide (b = i)) as [->|Hbi]; [done|..].
  - rewrite list_lookup_insert_eq in Ha by done. rewrite list_lookup_insert_ne in Hb by done.
    simplify_eq. destruct (Hk _ Hka) as [Hk'|Hk']; [by eapply Hu|].
    exfalso. by eapply find_none.
  - rewrite list_lookup_insert_ne in Ha by done. rewrite list_lookup_insert_eq in Hb by done.
    simplify_eq. destruct (Hk _ Hkb) as [Hk'|Hk']; [by eapply Hu|].
    exfalso. by eapply find_none.
  - rewrite list_lookup_insert_ne in Ha, Hb by done. by eapply Hu.
Qed.

Section cache_laws.
Context {W : Type} `{!PropEnv W} `{!PropLaws W}.
Implicit Types (s : @pcache W) (w : W) (name : list Z).

(** Names whose data is kept by reference. *)
Definition is_keys name : bool := strncmp_eq name CFG_BT_KEYS 7.

(** The value of an item; empty for a deleted one. *)
Definition item_value w (it : cache_item) : list Z :=
  take (Z.to_nat (ci_len it)) (default [] (data_bytes (ci_data it) w)).

Record item_ok w (it : cache_item) : Prop := {
  io_name : name_ok (ci_name it);
  io_len : 0 <= ci_len it <= 512;
  io_value : Z.of_nat (length (item_value w it)) = ci_len it;
  io_bytes : bytes_ok (item_value w it);
  io_data : match ci_data it with
            | Null => True
            | Own b => Z.of_nat (length b) = ci_len it ∧ is_keys (ci_name it) = false ∧ 0 < ci_len it
            | Ref _ => is_keys (ci_name it) = true ∧ 0 < ci_len it
            end;
}.

Record pc_inv s : Prop := {
  pi_size : length (pc_items s) = MAX_NVRAM_ITEM_CACHE_NUM;
  pi_unique : unique_keys (pc_items s);
  pi_items : ∀ i it, pc_items s !! i = Some it → ci_used it = true → item_ok (pc_world s) it;
}.

(** What the cache has for a name. *)
Definition cached s name : option (list Z) :=
  (λ '(_, it), item_value (pc_world s) it) <$> find_property_cache (pc_items s) name.

Lemma item_value_load w w' it :
  (∀ p, load p w' = load p w) → item_value w' it = item_value w it.
Proof.
  intros Hl. unfold item_value. destruct (ci_data it) as [|b|p]; cbn [data_bytes]; [done|done|].
  by rewrite Hl.
Qed.

Lemma item_ok_load w w' it : (∀ p, load p w' = load p w) → item_ok w it → item_ok w' it.
Proof. intros Hl [H1 H2 H3 H4 H5]. split; rewrite ?(item_value_load w w' it Hl); done. Qed.

(** An item is entered or changed. *)
Lemma cache_upd s i it it' w' name :
  pc_inv s → pc_items s !! i = Some it →
  item_key it = Some name ∨ (item_key it = None ∧ find_property_cache (pc_items s) name = None) →
  item_key it' = Some name → item_ok w' it' → (∀ p, load p w' = load p (pc_world s)) →
  let s' := upd_item i it' (set_pworld w' s) in
  pc_inv s' ∧ cached s' name = Some (item_value w' it') ∧
  ∀ n, n ≠ name → cached s' n = cached s n.
Proof.
  intros [Hsz Hu Hok] Hi Hold Hk Hok' Hl s'. subst s'.
  assert (Hothers : ∀ j jt, pc_items s !! j = Some jt → j ≠ i → item_key jt ≠ Some name).
  { intros j jt Hj Hne Hkj. destruct Hold as [Hold|[_ Hold]].
    - apply Hne. by eapply Hu.
    - by eapply find_none. }
  pose proof (lookup_lt_Some _ _ _ Hi). split_and!.
  - split; cbn [upd_item set_items set_pworld pc_items pc_world].
    + by rewrite length_insert.
    + eapply unique_upd; [done|done|]. intros n Hn. rewrite Hk in Hn. simplify_eq.
      destruct Hold as [Hold|[_ Hold]]; [by left|by right].
    + intros j jt Hj Hused. destruct (decide (j = i)) as [->|Hne].
      * rewrite list_lookup_insert_eq in Hj by done. by simplify_eq.
      * rewrite list_lookup_insert_ne in Hj by done. eapply item_ok_load; [exact Hl|].
        by eapply Hok.
  - unfold cached. cbn [upd_item set_items set_pworld pc_items pc_world].
    by rewrite (find_upd_hit _ i it it' name).
  - intros n Hn. unfold cached. cbn [upd_item set_items set_pworld pc_items pc_world].
    rewrite (find_upd_other _ i it).
    + destruct (find_property_cache (pc_items s) n) as [[j jt]|]; [|done]. cbn. f_equal.
      by apply item_value_load.
    + done.
    + destruct Hold as [-> | [-> _]]; [congruence|done].
    + rewrite Hk. congruence.
Qed.

(** A cache just initialised is empty. *)
Lemma fresh_cache_ok s : pc_inv (property_cache_init s) ∧ ∀ name, cached (property_cache_init s) name = None.
Proof.
  assert (Hnone : ∀ i it, replicate MAX_NVRAM_ITEM_CACHE_NUM item_clear !! i = Some it → it = item_clear).
  { intros i it Hi. by apply lookup_replicate in Hi as [-> _]. }
  split; [split; cbn [property_cache_init set_items pc_items]|intros name; unfold cached].
  - apply length_replicate.
  - intros i j it jt n Hi _ Hk. by rewrite (Hnone _ _ Hi) in Hk.
  - intros i it Hi Hused. by rewrite (Hnone _ _ Hi) in Hused.
  - assert (find_property_cache (pc_items (property_cache_init s)) name = None) as ->; [|done].
    unfold find_property_cache. apply list_find_None, Forall_lookup_2. intros i it Hi.
    rewrite (Hnone _ _ Hi). by intros [? _].
Qed.

(** ** Reading *)

(** What a read of a name finds: the cached value, else the stored one. *)
Definition pc_lookup s (mu mf : gmap (list Z) (list Z)) name : option (list Z) :=
  match cached s name with
  | Some d => Some d
  | None => (mu ∪ mf) !! name
  end.

Lemma pcache_eta s : set_pworld (pc_world s) s = s.
Proof. by destruct s. Qed.

Lemma property_cache_get_spec s mu mf name max_len :
  pc_inv s → stores (pc_world s) mu mf → name_ok name → 0 < max_len →
  property_cache_get name max_len s = Some (get_result (pc_lookup s mu mf name) max_len, s).
Proof.
  intros [_ _ Hok] Hst Hn Hm. unfold property_cache_get, pc_lookup, cached.
  destruct (find_property_cache (pc_items s) name) as [[i it]|] eqn:Hf; cbn.
  - apply find_some in Hf as [Hi Hk%item_key_used].
    destruct (Hok i it Hi (proj1 Hk)) as [_ Hl Hv _ _]. unfold item_value in *.
    set (b := default [] (data_bytes (ci_data it) (pc_world s))) in *.
    replace (match data_bytes (ci_data it) (pc_world s) with
             | Some b => take (Z.to_nat (if max_len <? ci_len it then max_len else ci_len it)) b
             | None => []
             end) with (take (Z.to_nat (if max_len <? ci_len it then max_len else ci_len it)) b).
    2:{ subst b. destruct (data_bytes _ _); [done|apply take_nil]. }
    rewrite Hv, take_take. do 3 f_equal.
    + destruct (Z.ltb_spec max_len (ci_len it)); lia.
    + f_equal. destruct (Z.ltb_spec max_len (ci_len it)); lia.
  - rewrite (nv_get_ok _ mu mf) by done. destruct (get_result _ _). by rewrite pcache_eta.
Qed.

(** ** Writing *)

(** A buffer good for [len] bytes. *)
Definition buffer_ok w (p : cptr) (len : Z) : Prop :=
  0 < len <= 512 ∧ len <= Z.of_nat (length (load p w)) ∧ bytes_ok (load p w).

(** The bytes a caller hands over. *)
Definition given w (p : cptr) (len : Z) : list Z := take (Z.to_nat len) (load p w).

Lemma given_length w p len : buffer_ok w p len → Z.of_nat (length (given w p len)) = len.
Proof. intros ([? ?] & ? & _). unfold given. rewrite length_take. lia. Qed.

Lemma small_len len : 0 <= len <= 512 → len mod 1024 = len.
Proof. intros. apply Z.mod_small. lia. Qed.

(** Where a value can go: an item of that name or a free one. *)
Definition has_slot s name : Prop :=
  find_property_cache (pc_items s) name ≠ None ∨ find_free (pc_items s) ≠ None.

(** The outcome of a successful write of [v] under [name]. *)
Definition wrote s s' name (v : list Z) : Prop :=
  pc_inv s' ∧ cached s' name = Some v ∧ (∀ n, n ≠ name → cached s' n = cached s n) ∧
  (∀ mu mf, stores (pc_world s) mu mf → stores (pc_world s') mu mf) ∧ ample (pc_world s') ∧
  ∀ p, load p (pc_world s') = load p (pc_world s).

Lemma own_item_ok w v it len :
  name_ok (ci_name it) → is_keys (ci_name it) = false → ci_data it = Own v → ci_len it = len →
  0 < len <= 512 → Z.of_nat (length v) = len → bytes_ok v →
  item_ok w it ∧ item_value w it = v.
Proof.
  intros Hn Hk Hd Hl Hlen Hv Hb.
  assert (Hval : item_value w it = v).
  { unfold item_value. rewrite Hd, Hl. cbn. apply take_ge. lia. }
  split; [|done]. split; rewrite ?Hval, ?Hd; try done; try lia. by split_and!; [lia|..|lia].
Qed.

Lemma given_bytes w p len : buffer_ok w p len → bytes_ok (given w p len).
Proof. intros (_ & _ & H). by apply Forall_take. Qed.

Lemma replace_data_spec s i it p len name :
  pc_inv s → ample (pc_world s) → find_property_cache (pc_items s) name = Some (i, it) →
  is_keys name = false → buffer_ok (pc_world s) p len →
  ∃ s', replace_data i it p len s = Some (0, s') ∧ wrote s s' name (given (pc_world s) p len).
Proof.
  intros Hinv Ham Hf Hk Hbuf. apply find_some in Hf as [Hi Hkey].
  pose proof (proj1 (item_key_used _ _) Hkey) as [Hused Hname].
  pose proof (pi_items _ Hinv i it Hi Hused) as [H1 H2 H3 H4 H5].
  pose proof (given_length _ _ _ Hbuf) as Hgl. pose proof (given_bytes _ _ _ Hbuf) as Hgb.
  destruct Hbuf as ([Hl1 Hl2] & Hl3 & Hl4). unfold replace_data. destruct (Z.eqb_spec (ci_len it) len) as [E|E].
  - assert (Hown : ∃ b, ci_data it = Own b ∧ Z.of_nat (length b) = len).
    { destruct (ci_data it) as [|b|q] eqn:Ed.
      - unfold item_value in H3. rewrite Ed in H3. cbn in H3. rewrite take_nil in H3. cbn in H3. lia.
      - exists b. split; [done|]. lia.
      - rewrite Hname, Hk in H5. by destruct H5. }
    destruct Hown as (b & Ed & Hbl). rewrite Ed. cbn [copy_into]. fold (given (pc_world s) p len).
    set (it' := set_item_data _ _ it).
    assert (Hb' : memcpy b 0 (given (pc_world s) p len) = given (pc_world s) p len).
    { rewrite <- (take_ge (memcpy b 0 (given (pc_world s) p len)) (length (given (pc_world s) p len)))
        by (rewrite length_memcpy; lia). apply take_memcpy_0. lia. }
    assert (Hoi : item_ok (pc_world s) it' ∧ item_value (pc_world s) it' = given (pc_world s) p len).
    { apply (own_item_ok _ _ _ len); subst it'; cbn [set_item_data ci_name ci_data ci_len];
        rewrite ?Hname, ?Hb', ?E, ?small_len by lia; done || lia || (by rewrite <- Hname). }
    destruct Hoi as [Hok' Hval'].
    destruct (cache_upd s i it it' (pc_world s) name Hinv Hi (or_introl Hkey) Hkey Hok') as (I1 & I2 & I3);
      [done|]. rewrite pcache_eta in I1, I2, I3. eexists. split; [reflexivity|].
    split_and!; [done|by rewrite I2, Hval'|done|done|done|done].
  - destruct (malloc_ok (pc_world s) len Ham) as (w' & Hm & Ham' & Hst' & Hld'). rewrite Hm. cbn [negb].
    cbn [set_pworld pc_world]. rewrite Hld'. fold (given (pc_world s) p len).
    set (it' := set_item_data _ _ it).
    assert (Hoi : item_ok w' it' ∧ item_value w' it' = given (pc_world s) p len).
    { apply (own_item_ok _ _ _ len); subst it'; cbn [set_item_data ci_name ci_data ci_len];
        rewrite ?Hname, ?small_len by lia; done || lia || (by rewrite <- Hname). }
    destruct Hoi as [Hok' Hval'].
    destruct (cache_upd s i it it' w' name Hinv Hi (or_introl Hkey) Hkey Hok' Hld') as (I1 & I2 & I3).
    eexists. split; [reflexivity|]. split_and!; [done|by rewrite I2, Hval'|done|done|done|done].
Qed.

Lemma new_cache_item_spec s p len name :
  pc_inv s → ample (pc_world s) → find_property_cache (pc_items s) name = None →
  find_free (pc_items s) ≠ None → name_ok name → is_keys name = false →
  buffer_ok (pc_world s) p len →
  ∃ s', new_cache_item name (Some p) len s = (0, s') ∧ wrote s s' name (given (pc_world s) p len).
Proof.
  intros Hinv Ham Hf Hfree Hn Hk Hbuf. pose proof (given_length _ _ _ Hbuf) as Hgl.
  pose proof (given_bytes _ _ _ Hbuf) as Hgb. destruct Hbuf as ([Hl1 Hl2] & _).
  unfold new_cache_item, get_property_cache.
  destruct (find_free (pc_items s)) as [[i it]|] eqn:Ef; [|done].
  apply find_free_some in Ef as [Hi Hkey].
  destruct (malloc_ok (pc_world s) (Z.of_nat (length name) + 1) Ham) as (w1 & Hm1 & Ham1 & Hst1 & Hld1).
  rewrite Hm1. cbn [negb]. destruct (Z.eqb_spec len 0); [lia|]. cbn [set_pworld pc_world].
  destruct (malloc_ok w1 len Ham1) as (w2 & Hm2 & Ham2 & Hst2 & Hld2). rewrite Hm2.
  cbn [negb set_pworld pc_world pc_items set_item_data ci_data].
  rewrite Hld2, Hld1. fold (given (pc_world s) p len). set (it' := use_item _ _ _ _).
  assert (Hoi : item_ok w2 it' ∧ item_value w2 it' = given (pc_world s) p len).
  { apply (own_item_ok _ _ _ len); subst it'; cbn [use_item ci_name ci_data ci_len];
      rewrite ?small_len by lia; done || lia. }
  destruct Hoi as [Hok' Hval'].
  destruct (cache_upd s i it it' w2 name Hinv Hi (or_intror (conj Hkey Hf)) eq_refl Hok') as (I1 & I2 & I3).
  { intros q. by rewrite Hld2, Hld1. }
  eexists. split; [reflexivity|].
  split_and!; [exact I1|by rewrite <- Hval'|exact I3|by intros; apply Hst2, Hst1|exact Ham2|].
  intros q. cbn. by rewrite Hld2, Hld1.
Qed.

(** Storing a reference. *)
Lemma set_global_data_spec s p len name :
  pc_inv s → ample (pc_world s) → has_slot s name → name_ok name → is_keys name = true →
  buffer_ok (pc_world s) p len →
  ∃ s', property_cache_set_global_data name (Some p) len s = Some (0, s') ∧
        wrote s s' name (given (pc_world s) p len).
Proof.
  intros Hinv Ham Hslot Hn Hk Hbuf. pose proof (given_length _ _ _ Hbuf) as Hgl.
  pose proof (given_bytes _ _ _ Hbuf) as Hgb. destruct Hbuf as ([Hl1 Hl2] & _).
  assert (Href : ∀ w it, (∀ q, load q w = load q (pc_world s)) → ci_name it = name →
                 ci_data it = Ref p → ci_len it = len →
                 item_ok w it ∧ item_value w it = given (pc_world s) p len).
  { intros w it Hld H1 H2 H3.
    assert (Hval : item_value w it = given (pc_world s) p len).
    { unfold item_value, given. rewrite H2, H3. cbn. by rewrite Hld. }
    split; [|done]. split; rewrite ?Hval, ?H1, ?H2, ?H3; try done; lia. }
  unfold property_cache_set_global_data. destruct (find_property_cache (pc_items s) name) as [[i it]|] eqn:Hf.
  - apply find_some in Hf as [Hi Hkey]. pose proof (proj1 (item_key_used _ _) Hkey) as [Hused Hname].
    set (it' := set_item_data _ _ it).
    destruct (Href (pc_world s) it') as [Hok' Hval']; [done|done|done|by apply small_len; lia|].
    destruct (cache_upd s i it it' (pc_world s) name Hinv Hi (or_introl Hkey) Hkey Hok') as (I1 & I2 & I3);
      [done|]. rewrite pcache_eta in I1, I2, I3. eexists. split; [reflexivity|].
    split_and!; [done|by rewrite I2, Hval'|done|done|done|done].
  - destruct Hslot as [Hslot|Hfree]; [done|]. unfold get_property_cache2.
    destruct (find_free (pc_items s)) as [[i it]|] eqn:Ef; [|done].
    apply find_free_some in Ef as [Hi Hkey]. pose proof (lookup_lt_Some _ _ _ Hi) as Hlt.
    destruct (malloc_ok (pc_world s) (Z.of_nat (length name) + 1) Ham) as (w1 & Hm1 & Ham1 & Hst1 & Hld1).
    rewrite Hm1. cbn [negb]. destruct (Z.eqb_spec len 0); [lia|].
    set (it' := use_item _ _ _ _).
    destruct (Href w1 it') as [Hok' Hval']; [done|done|done|by apply small_len; lia|].
    destruct (cache_upd s i it it' w1 name Hinv Hi (or_intror (conj Hkey Hf)) eq_refl Hok' Hld1)
      as (I1 & I2 & I3).
    eexists. split; [reflexivity|].
    unfold upd_item, set_items, set_pworld in *. cbn [pc_items pc_world] in *.
    rewrite list_insert_insert_eq. split_and!; [done|by rewrite I2, Hval'|done|done|done|done].
Qed.

(** Setting a value, whichever way the name is stored. *)
Lemma property_cache_set_spec s p len name :
  pc_inv s → ample (pc_world s) → has_slot s name → name_ok name →
  buffer_ok (pc_world s) p len →
  ∃ s', property_cache_set name (Some p) len s = Some (0, s') ∧
        wrote s s' name (given (pc_world s) p len).
Proof.
  intros Hinv Ham Hslot Hn Hbuf. pose proof Hbuf as ([Hl1 Hl2] & _).
  assert (Hown : is_keys name = false → ∃ s',
    match find_property_cache (pc_items s) name with
    | Some (i, it) => replace_data i it p len s
    | None => Some (new_cache_item name (Some p) len s)
    end = Some (0, s') ∧ wrote s s' name (given (pc_world s) p len)).
  { intros Hk. destruct (find_property_cache (pc_items s) name) as [[i it]|] eqn:Hf.
    - by apply (replace_data_spec s i it p len name).
    - destruct Hslot as [|Hfree]; [done|].
      destruct (new_cache_item_spec s p len name) as (s' & -> & Hw); try done. by exists s'. }
  unfold property_cache_set. rewrite bool_decide_eq_true_2 by eauto. cbn [andb].
  destruct (Z.leb_spec len 0); [lia|].
  assert (Hset2 : is_keys name = false → ∃ s', property_cache_set2 name (Some p) len s = Some (0, s') ∧
    wrote s s' name (given (pc_world s) p len)) by exact Hown.
  assert (Hsetb : is_keys name = false → ∃ s', property_cache_set_bt_keys name (Some p) len s = Some (0, s') ∧
    wrote s s' name (given (pc_world s) p len)) by exact Hown.
  assert (Hbt : is_keys name = true → getb (cstr name) 0 = 66 ∧ getb (cstr name) 1 = 84).
  { unfold is_keys, strncmp_eq. intros Heq%bool_decide_eq_true.
    rewrite <- (getb_take (cstr name) 7 0), <- (getb_take (cstr name) 7 1) by lia.
    change (Z.to_nat 7) with 7%nat. rewrite Heq. done. }
  destruct (is_keys name) eqn:Hk.
  - destruct (Hbt eq_refl) as [-> ->]. cbn [Z.eqb Pos.eqb negb orb]. unfold is_keys in Hk. rewrite Hk.
    by apply set_global_data_spec.
  - destruct (negb _ || negb _); [by apply Hset2|]. unfold is_keys in Hk. rewrite Hk.
    destruct (strncmp_eq name CFG_BT_CCC 6 || _ || _); [by apply Hsetb|by apply Hset2].
Qed.

(** ** Deleting *)

(** Names whose deletion drops the item. *)
Definition is_special name : bool :=
  is_keys name || strncmp_eq name CFG_BT_CCC 6 || strncmp_eq name CFG_BT_CF 6 ||
  strncmp_eq name CFG_BT_SC 6.

Lemma null_item_ok w it :
  name_ok (ci_name it) → ci_data it = Null → ci_len it = 0 → item_ok w it ∧ item_value w it = [].
Proof.
  intros Hn Hd Hl.
  assert (Hv : item_value w it = []) by (unfold item_value; by rewrite Hd, Hl).
  split; [|done]. split; rewrite ?Hv, ?Hd, ?Hl; done || lia || apply Forall_nil_2.
Qed.

Lemma property_cache_set2_delete s name len :
  pc_inv s → ample (pc_world s) → has_slot s name → name_ok name → len = 0 →
  ∃ s', property_cache_set2 name None len s = Some (0, s') ∧ wrote s s' name [].
Proof.
  intros Hinv Ham Hslot Hn ->. unfold property_cache_set2.
  destruct (find_property_cache (pc_items s) name) as [[i it]|] eqn:Hf.
  - pose proof Hf as [Hi Hkey]%find_some. pose proof (proj1 (item_key_used _ _) Hkey) as [Hused Hname].
    set (it' := set_item_data Null 0 it).
    destruct (null_item_ok (pc_world s) it') as [Hok' Hval']; [by rewrite <- Hname in Hn|done|done|].
    destruct (cache_upd s i it it' (pc_world s) name Hinv Hi (or_introl Hkey) Hkey Hok') as (I1 & I2 & I3);
      [done|]. rewrite pcache_eta in I1, I2, I3. rewrite Hval' in I2.
    destruct (ci_data it) eqn:Ed; (eexists; split; [reflexivity|]); [|by split_and!..].
    split_and!; try done. unfold cached. rewrite Hf. cbn. f_equal.
    unfold item_value. rewrite Ed. apply take_nil.
  - destruct Hslot as [|Hfree]; [done|]. unfold new_cache_item, get_property_cache.
    destruct (find_free (pc_items s)) as [[i it]|] eqn:Ef; [|done].
    apply find_free_some in Ef as [Hi Hkey].
    destruct (malloc_ok (pc_world s) (Z.of_nat (length name) + 1) Ham) as (w1 & Hm1 & Ham1 & Hst1 & Hld1).
    rewrite Hm1. cbn [negb Z.eqb set_item_data ci_data]. set (it' := use_item _ _ _ _).
    destruct (null_item_ok w1 it') as [Hok' Hval']; [done..|].
    destruct (cache_upd s i it it' w1 name Hinv Hi (or_intror (conj Hkey Hf)) eq_refl Hok' Hld1)
      as (I1 & I2 & I3). rewrite Hval' in I2.
    eexists. split; [reflexivity|]. by split_and!.
Qed.

Lemma property_cache_delete_spec s name len :
  pc_inv s → ample (pc_world s) → has_slot s name → name_ok name → is_special name = false →
  ∃ s', property_cache_set name None len s = Some (0, s') ∧ wrote s s' name [].
Proof.
  intros Hinv Ham Hslot Hn Hsp. unfold property_cache_set.
  rewrite bool_decide_eq_false_2 by (by intros [? ?]). cbn [andb].
  destruct (negb _ || negb _); [by apply property_cache_set2_delete|].
  unfold is_special in Hsp. rewrite !orb_false_iff in Hsp. destruct Hsp as [[[H1 H2] H3] H4].
  unfold is_keys in H1. rewrite H1, H2, H3, H4. by apply property_cache_set2_delete.
Qed.

(** Dropping an item uncovers the stored value. *)
Lemma put_property_cache_spec s i it name :
  pc_inv s → find_property_cache (pc_items s) name = Some (i, it) →
  let s' := put_property_cache i s in
  pc_inv s' ∧ cached s' name = None ∧ ∀ n, n ≠ name → cached s' n = cached s n.
Proof.
  intros [Hsz Hu Hok] Hf s'. apply find_some in Hf as [Hi Hkey]. subst s'.
  assert (Hothers : ∀ j jt, pc_items s !! j = Some jt → j ≠ i → item_key jt ≠ Some name).
  { intros j jt Hj Hne Hkj. apply Hne. by eapply Hu. }
  pose proof (lookup_lt_Some _ _ _ Hi).
  unfold put_property_cache, cached, upd_item, set_items. cbn [pc_items pc_world]. split_and!.
  - split; cbn [pc_items pc_world].
    + by rewrite length_insert.
    + by eapply unique_upd.
    + intros j jt Hj Hused. destruct (decide (j = i)) as [->|Hne].
      * rewrite list_lookup_insert_eq in Hj by done. by simplify_eq.
      * rewrite list_lookup_insert_ne in Hj by done. by eapply Hok.
  - by rewrite (find_upd_gone _ i it).
  - intros n Hn. rewrite (find_upd_other _ i it); [done|done|rewrite Hkey; congruence|done].
Qed.

(** ** Flushing *)

(** What an item does to the store when written. *)
Definition apply_item w (mu : gmap (list Z) (list Z)) (it : cache_item) : gmap (list Z) (list Z) :=
  if decide (item_value w it = []) then delete (ci_name it) mu
  else <[ci_name it := item_value w it]> mu.

(** Every selected value fits when its turn comes. *)
Fixpoint flush_fits w (name : option (list Z)) (mu : gmap (list Z) (list Z)) (l : list cache_item) : Prop :=
  match l with
  | [] => True
  | it :: l' =>
      if flush_selects name it
      then (item_value w it = [] ∨ fits mu (ci_name it) (item_value w it)) ∧
           flush_fits w name (apply_item w mu it) l'
      else flush_fits w name mu l'
  end.

Definition flush_result w (name : option (list Z)) (mu : gmap (list Z) (list Z)) (l : list cache_item) : gmap (list Z) (list Z) :=
  foldl (λ mu it, if flush_selects name it then apply_item w mu it else mu) mu l.

Lemma apply_item_load w w' mu it :
  (∀ p, load p w' = load p w) → apply_item w' mu it = apply_item w mu it.
Proof. intros Hl. unfold apply_item. by rewrite (item_value_load w w' it Hl). Qed.

Lemma flush_fits_load w w' (name : option (list Z)) mu l :
  (∀ p, load p w' = load p w) → flush_fits w name mu l → flush_fits w' name mu l.
Proof.
  intros Hl. revert mu. induction l as [|it l IH]; intros mu; [done|]. cbn [flush_fits].
  rewrite (item_value_load w w' it Hl), (apply_item_load w w' mu it Hl).
  destruct (flush_selects name it); [|by apply IH]. intros [? ?]. by split; [|apply IH].
Qed.

Lemma flush_result_load w w' (name : option (list Z)) mu l :
  (∀ p, load p w' = load p w) → flush_result w' name mu l = flush_result w name mu l.
Proof.
  intros Hl. revert mu. induction l as [|it l IH]; intros mu; [done|].
  unfold flush_result in *. cbn [foldl]. rewrite (apply_item_load w w' mu it Hl). apply IH.
Qed.

Lemma write_item_spec w mu mf it :
  stores w mu mf → item_ok w it →
  item_value w it = [] ∨ fits mu (ci_name it) (item_value w it) →
  ∃ w', write_item it w = Some (0, w') ∧ stores w' (apply_item w mu it) mf ∧
    (ample w → ample w') ∧ ∀ p, load p w' = load p w.
Proof.
  intros Hst [H1 H2 H3 H4 H5] Hfit. unfold write_item, apply_item.
  destruct (ci_data it) as [|b|p] eqn:Ed; cbn [data_bytes].
  - assert (Hv : item_value w it = []) by (unfold item_value; rewrite Ed; apply take_nil).
    rewrite Hv in H3. cbn in H3. rewrite <- H3. rewrite decide_True by done. by apply nv_delete_ok.
  - destruct H5 as (Hb & _ & Hpos). rewrite decide_False by (intros E; rewrite E in H3; cbn in H3; lia).
    destruct Hfit as [E|Hfit]; [rewrite E in H3; cbn in H3; lia|].
    rewrite nv_set_prefix by lia.
    assert (Hv : take (Z.to_nat (ci_len it)) b = item_value w it) by (unfold item_value; by rewrite Ed).
    rewrite Hv, <- H3. apply nv_set_ok; try done. split; [done|lia].
  - destruct H5 as (_ & Hpos). rewrite decide_False by (intros E; rewrite E in H3; cbn in H3; lia).
    destruct Hfit as [E|Hfit]; [rewrite E in H3; cbn in H3; lia|].
    assert (Hv : take (Z.to_nat (ci_len it)) (load p w) = item_value w it)
      by (unfold item_value; by rewrite Ed).
    rewrite nv_set_prefix.
    2:{ rewrite <- Hv, length_take in H3. lia. }
    rewrite Hv, <- H3. apply nv_set_ok; try done. split; [done|lia].
Qed.

Lemma flush_loop_spec w mu mf (name : option (list Z)) l :
  stores w mu mf → (∀ it, it ∈ l → ci_used it = true → item_ok w it) → flush_fits w name mu l →
  ∃ w', flush_loop name l w =
          Some ((λ it, if flush_selects name it then item_clear else it) <$> l, w') ∧
    stores w' (flush_result w name mu l) mf ∧ (ample w → ample w') ∧ ∀ p, load p w' = load p w.
Proof.
  revert w mu. induction l as [|it l IH]; intros w mu Hst Hok Hfit; [by exists w|].
  cbn [flush_loop flush_fits fmap list_fmap] in *. unfold flush_result. cbn [foldl].
  fold (flush_result w name (if flush_selects name it then apply_item w mu it else mu) l).
  destruct (flush_selects name it) eqn:Hsel.
  - destruct Hfit as [Hf1 Hf2]. assert (Hused : ci_used it = true)
      by (unfold flush_selects in Hsel; by destruct (ci_used it)).
    destruct (write_item_spec w mu mf it Hst) as (w1 & -> & Hst1 & Ham1 & Hld1); [by apply Hok; [left|]|done|].
    cbn [Z.eqb]. destruct (IH w1 (apply_item w mu it)) as (w2 & Hrun & Hst2 & Ham2 & Hld2); [done| |by eapply flush_fits_load|].
    { intros jt Hj Hu. eapply item_ok_load; [exact Hld1|]. apply Hok; [by right|done]. }
    unfold fmap in Hrun. rewrite Hrun. exists w2. split_and!; [done| |tauto|intros q; by rewrite Hld2, Hld1].
    by rewrite <- (flush_result_load w w1).
  - destruct (IH w mu Hst) as (w2 & Hrun & Hst2 & Ham2 & Hld2); [intros jt Hj; apply Hok; by right|done|].
    unfold fmap in Hrun. rewrite Hrun. by exists w2.
Qed.

(** The store after a flush, name by name. *)
Lemma flush_result_lookup w (name : option (list Z)) mu l n :
  unique_keys l →
  flush_result w name mu l !! n =
  match find_property_cache l n with
  | Some (_, it) => if flush_selects name it
                    then (if decide (item_value w it = []) then None else Some (item_value w it))
                    else mu !! n
  | None => mu !! n
  end.
Proof.
  revert mu. induction l as [|it l IH]; intros mu Hu; [done|].
  assert (Hu' : unique_keys l).
  { intros i j a c nm Ha Hc. intros H1 H2. pose proof (Hu (S i) (S j) a c nm Ha Hc H1 H2). lia. }
  unfold flush_result. cbn [foldl]. fold (flush_result w name (if flush_selects name it then apply_item w mu it else mu) l).
  rewrite IH by done. unfold find_property_cache. cbn [list_find].
  case_decide as Hk.
  - assert (Hnone : find_property_cache l n = None).
    { destruct (find_property_cache l n) as [[j jt]|] eqn:E; [|done]. exfalso.
      apply find_some in E as [Hj Hkj]. apply item_key_used in Hk.
      pose proof (Hu 0%nat (S j) it jt n eq_refl Hj Hk Hkj). done. }
    unfold find_property_cache in Hnone. rewrite Hnone. destruct (flush_selects name it); [|done].
    unfold apply_item. destruct Hk as [_ <-]. case_decide; [by rewrite lookup_delete_eq|by rewrite lookup_insert_eq].
  - destruct (list_find _ l) as [[j jt]|]; cbn.
    + assert (Hsame : flush_selects name it = true → ci_name it ≠ n).
      { intros Hsel E. apply Hk. unfold flush_selects in Hsel. by destruct (ci_used it). }
      destruct (flush_selects name jt); [done|]. destruct (flush_selects name it); [|done].
      specialize (Hsame eq_refl). unfold apply_item.
      case_decide; [by rewrite lookup_delete_ne|by rewrite lookup_insert_ne].
    + destruct (flush_selects name it) eqn:Hsel; [|done].
      assert (ci_name it ≠ n).
      { intros E. apply Hk. unfold flush_selects in Hsel. by destruct (ci_used it). }
      unfold apply_item. case_decide; [by rewrite lookup_delete_ne|by rewrite lookup_insert_ne].
Qed.

Lemma flushed_items (name : option (list Z)) l (n : list Z) :
  unique_keys l →
  find_property_cache ((λ it, if flush_selects name it then item_clear else it) <$> l) n =
  match find_property_cache l n with
  | Some (i, it) => if flush_selects name it then None else Some (i, it)
  | None => None
  end.
Proof.
  intros Hu. set (g := λ it, if flush_selects name it then item_clear else it).
  destruct (find_property_cache l n) as [[i it]|] eqn:Hf.
  - pose proof Hf as [Hi Hk]%find_some. destruct (flush_selects name it) eqn:Hsel.
    + unfold find_property_cache. apply list_find_None, Forall_lookup_2. intros j jt Hj Hkj.
      apply list_lookup_fmap_Some in Hj as (jt0 & -> & Hj). rewrite <- item_key_used in Hkj.
      assert (Hk0 : item_key jt0 = Some n ∧ flush_selects name jt0 = false).
      { unfold g in Hkj. by destruct (flush_selects name jt0). }
      destruct Hk0 as [Hk0 Hsel0]. assert (E : i = j) by (by apply (Hu i j it jt0 n)).
      subst j. simplify_eq. congruence.
    + unfold find_property_cache in *. apply list_find_Some in Hf as (_ & Hp & Hbefore).
      apply list_find_Some. split; [|split; [done|]].
      * rewrite list_lookup_fmap, Hi. cbn. unfold g. by rewrite Hsel.
      * intros j jt Hj Hlt Hkj. apply list_lookup_fmap_Some in Hj as (jt0 & -> & Hj).
        apply (Hbefore j jt0 Hj Hlt). unfold g in Hkj. destruct (flush_selects name jt0); [|done].
        by destruct Hkj.
  - unfold find_property_cache. apply list_find_None, Forall_lookup_2. intros j jt Hj Hkj.
    apply list_lookup_fmap_Some in Hj as (jt0 & -> & Hj). rewrite <- item_key_used in Hkj.
    eapply find_none; [exact Hf|exact Hj|]. unfold g in Hkj. by destruct (flush_selects name jt0).
Qed.

(** What a flush of [sel] leaves in the cache. *)
Definition kept s (sel : option (list Z)) name : option (list Z) :=
  match find_property_cache (pc_items s) name with
  | Some (_, it) => if flush_selects sel it then None else cached s name
  | None => None
  end.

Lemma property_cache_flush_spec s mu mf sel :
  pc_inv s → stores (pc_world s) mu mf → flush_fits (pc_world s) sel mu (pc_items s) →
  ∃ s', property_cache_flush sel s = Some (0, s') ∧ pc_inv s' ∧
    stores (pc_world s') (flush_result (pc_world s) sel mu (pc_items s)) mf ∧
    (ample (pc_world s) → ample (pc_world s')) ∧
    ∀ name, cached s' name = kept s sel name.
Proof.
  intros [Hsz Hu Hok] Hst Hfit. unfold property_cache_flush.
  destruct (flush_loop_spec (pc_world s) mu mf sel (pc_items s) Hst) as (w' & -> & Hst' & Ham' & Hld').
  { intros it Hin Hused. apply list_elem_of_lookup in Hin as [i Hi]. by eapply Hok. }
  { done. }
  eexists. split; [reflexivity|]. cbn [pc_items pc_world]. split_and!; [split|done|done|]; cbn [pc_items pc_world].
  - by rewrite length_fmap.
  - intros i j it jt name Hi Hj Hki Hkj.
    apply list_lookup_fmap_Some in Hi as (it0 & -> & Hi). apply list_lookup_fmap_Some in Hj as (jt0 & -> & Hj).
    eapply (Hu i j it0 jt0 name Hi Hj).
    + by destruct (flush_selects sel it0).
    + by destruct (flush_selects sel jt0).
  - intros i it Hi Hused. apply list_lookup_fmap_Some in Hi as (it0 & -> & Hi).
    destruct (flush_selects sel it0); [done|]. eapply item_ok_load; [exact Hld'|]. by eapply Hok.
  - intros name. unfold cached, kept. cbn [pc_items pc_world]. rewrite flushed_items by done.
    destruct (find_property_cache (pc_items s) name) as [[i it]|] eqn:Hf; [|done].
    destruct (flush_selects sel it); [done|]. cbn. unfold cached. rewrite Hf. cbn. f_equal.
    by apply item_value_load.
Qed.

(** ** Theorems *)

(** Setting a name to 1 to 512 bytes returns 0 and from then on reads of that
    name give those bytes (cut to the buffer) and reads of every other name
    what they gave before, whichever of the three set routines the name
    selects; the store is not touched. *)
Theorem property_cache_set_get s mu mf name p len :
  pc_inv s → stores (pc_world s) mu mf → ample (pc_world s) → has_slot s name → name_ok name →
  buffer_ok (pc_world s) p len →
  ∃ s', property_cache_set name (Some p) len s = Some (0, s') ∧
    pc_inv s' ∧ stores (pc_world s') mu mf ∧
    ∀ n max_len, name_ok n → 0 < max_len →
      property_cache_get n max_len s' =
      Some (get_result (if decide (n = name) then Some (given (pc_world s) p len)
                        else pc_lookup s mu mf n) max_len, s').
Proof.
  intros Hinv Hst Ham Hslot Hn Hbuf.
  destruct (property_cache_set_spec s p len name Hinv Ham Hslot Hn Hbuf)
    as (s' & Hrun & Hinv' & Hc & Hoth & Hst' & Ham' & Hld').
  exists s'. split_and!; [done|done|by apply Hst'|]. intros n max_len Hn' Hm.
  rewrite (property_cache_get_spec s' mu mf) by (done || by apply Hst').
  unfold pc_lookup. case_decide as E; [subst n; by rewrite Hc|by rewrite Hoth].
Qed.

(** Deleting an ordinary name keeps an item without data, so that reads find
    nothing although the store still has the value; other names and the store
    are unchanged. *)
Theorem property_cache_delete_get s mu mf name len :
  pc_inv s → stores (pc_world s) mu mf → ample (pc_world s) → has_slot s name → name_ok name →
  is_special name = false →
  ∃ s', property_cache_set name None len s = Some (0, s') ∧
    pc_inv s' ∧ stores (pc_world s') mu mf ∧
    ∀ n max_len, name_ok n → 0 < max_len →
      property_cache_get n max_len s' =
      Some (get_result (if decide (n = name) then Some [] else pc_lookup s mu mf n) max_len, s').
Proof.
  intros Hinv Hst Ham Hslot Hn Hsp.
  destruct (property_cache_delete_spec s name len Hinv Ham Hslot Hn Hsp)
    as (s' & Hrun & Hinv' & Hc & Hoth & Hst' & Ham' & Hld').
  exists s'. split_and!; [done|done|by apply Hst'|]. intros n max_len Hn' Hm.
  rewrite (property_cache_get_spec s' mu mf) by (done || by apply Hst').
  unfold pc_lookup. case_decide as E; [subst n; by rewrite Hc|by rewrite Hoth].
Qed.

(** A flush of everything returns 0, writes every cached value to the store,
    removes the deleted names from it, leaves other names alone and leaves the
    cache empty. *)
Theorem property_cache_flush_all s mu mf :
  pc_inv s → stores (pc_world s) mu mf → flush_fits (pc_world s) None mu (pc_items s) →
  ∃ s' mu', property_cache_flush None s = Some (0, s') ∧ pc_inv s' ∧
    stores (pc_world s') mu' mf ∧ (∀ name, cached s' name = None) ∧
    ∀ name, mu' !! name = match cached s name with
                          | None => mu !! name
                          | Some [] => None
                          | Some d => Some d
                          end.
Proof.
  intros Hinv Hst Hfit.
  destruct (property_cache_flush_spec s mu mf None Hinv Hst Hfit) as (s' & Hrun & Hinv' & Hst' & _ & Hc).
  assert (Hsel : ∀ name i it, find_property_cache (pc_items s) name = Some (i, it) → flush_selects None it = true).
  { intros name i it [_ [Hu _]%item_key_used]%find_some. unfold flush_selects. by rewrite Hu. }
  eexists s', _. split_and!; [done|done|exact Hst'| |].
  - intros name. rewrite Hc. unfold kept.
    destruct (find_property_cache (pc_items s) name) as [[i it]|] eqn:Hf; [|done].
    by rewrite (Hsel _ _ _ Hf).
  - intros name. rewrite flush_result_lookup by apply (pi_unique _ Hinv). unfold cached.
    destruct (find_property_cache (pc_items s) name) as [[i it]|] eqn:Hf; [|done].
    rewrite (Hsel _ _ _ Hf). cbn. case_decide as E; [by rewrite E|]. by destruct (item_value (pc_world s) it).
Qed.

(** Deleting a cached Bluetooth key record only drops the cache item: the
    value in the store, if any, is read again. *)
Theorem property_cache_delete_bt_keys_uncovers s mu mf name len i it :
  pc_inv s → stores (pc_world s) mu mf → name_ok name → is_keys name = true →
  find_property_cache (pc_items s) name = Some (i, it) →
  ∃ s', property_cache_set name None len s = Some (0, s') ∧ pc_inv s' ∧
    ∀ max_len, 0 < max_len →
      property_cache_get name max_len s' = Some (get_result ((mu ∪ mf) !! name) max_len, s').
Proof.
  intros Hinv Hst Hn Hk Hf.
  destruct (put_property_cache_spec s i it name Hinv Hf) as (Hinv' & Hc & _).
  exists (put_property_cache i s). split_and!; [|done|].
  - unfold property_cache_set. rewrite bool_decide_eq_false_2 by (by intros [? ?]). cbn [andb].
    assert (Hbt : getb (cstr name) 0 = 66 ∧ getb (cstr name) 1 = 84).
    { unfold is_keys, strncmp_eq in Hk. apply bool_decide_eq_true in Hk.
      rewrite <- (getb_take (cstr name) 7 0), <- (getb_take (cstr name) 7 1) by lia.
      change (Z.to_nat 7) with 7%nat. rewrite Hk. done. }
    destruct Hbt as [-> ->]. cbn [Z.eqb Pos.eqb negb orb]. unfold is_keys in Hk. rewrite Hk.
    unfold property_cache_set_global_data. by rewrite Hf.
  - intros max_len Hm. rewrite (property_cache_get_spec _ mu mf) by done. unfold pc_lookup. by rewrite Hc.
Qed.
End cache_laws.

(** When the block for a value of another length cannot be allocated the call
    still reports success, and a later read returns the old length without
    storing any byte. *)
Theorem property_cache_set_without_memory {W} `{!PropEnv W} (s : @pcache W) name p len i it w' :
  find_property_cache (pc_items s) name = Some (i, it) → is_special name = false →
  0 < len → ci_len it ≠ len → 0 <= ci_len it < 1024 → mem_malloc len (pc_world s) = (false, w') →
  ∃ s', property_cache_set name (Some p) len s = Some (0, s') ∧
    ∀ max_len, 0 < max_len →
      property_cache_get name max_len s' = Some (Z.min max_len (ci_len it), [], s').
Proof.
  intros Hf Hsp Hl Hne Hrange Hm. pose proof Hf as [Hi Hk]%find_some.
  set (it' := set_item_data Null (ci_len it) it).
  exists (upd_item i it' (set_pworld w' s)). split.
  - unfold property_cache_set. rewrite bool_decide_eq_true_2 by eauto. cbn [andb].
    destruct (Z.leb_spec len 0); [lia|].
    unfold is_special in Hsp. rewrite !orb_false_iff in Hsp. destruct Hsp as [[[H1 H2] H3] H4].
    unfold is_keys in H1. rewrite H1, H2, H3, H4.
    assert (Hrep : replace_data i it p len s = Some (0, upd_item i it' (set_pworld w' s))).
    { unfold replace_data. destruct (Z.eqb_spec (ci_len it) len); [done|]. by rewrite Hm. }
    destruct (negb _ || negb _); cbn [orb]; unfold property_cache_set2; by rewrite Hf, Hrep.
  - intros max_len Hmax. unfold property_cache_get. cbn [upd_item set_items set_pworld pc_items pc_world].
    assert (Hf' : find_property_cache (<[i := it']> (pc_items s)) name = Some (i, it')).
    { unfold find_property_cache in *. apply list_find_Some in Hf as (_ & Hp & Hbefore).
      apply list_find_Some. pose proof (lookup_lt_Some _ _ _ Hi). split; [by apply list_lookup_insert_eq|].
      split; [done|]. intros j jt Hj Hlt. rewrite list_lookup_insert_ne in Hj by lia. by eapply Hbefore. }
    rewrite Hf'. subst it'. cbn [set_item_data ci_data ci_len data_bytes].
    rewrite Z.mod_small by lia. do 3 f_equal. destruct (Z.ltb_spec max_len (ci_len it)); lia.
Qed.

(** Requesting a flush and dealing with the requests later has exactly the
    effect of flushing at once, whatever the store answers. *)
Theorem property_cache_flush_req_deal_is_flush {W} `{!PropEnv W} (s : @pcache W) sel :
  Forall (λ it, ci_flush_req it = false) (pc_items s) →
  property_cache_flush_req_deal (property_cache_flush_req sel s).2 = property_cache_flush sel s.
Proof.
  intros Hno. unfold property_cache_flush_req_deal, property_cache_flush, property_cache_flush_req.
  cbn [snd set_items pc_items pc_world].
  set (g := λ it, if flush_selects sel it then set_item_flush true it else it).
  assert (Hloop : ∀ l w, Forall (λ it, ci_flush_req it = false) l →
            flush_req_deal_loop (g <$> l) w = flush_loop sel l w); [|by rewrite Hloop].
  induction l as [|it l IH]; intros w Hl; [done|]. inversion Hl as [|? ? Hit Hl']; subst.
  cbn [fmap list_fmap flush_req_deal_loop flush_loop]. fold (g <$> l).
  assert (Hg : ci_used (g it) && ci_flush_req (g it) = flush_selects sel it).
  { unfold g. destruct (flush_selects sel it) eqn:E; cbn.
    - unfold flush_selects in E. by destruct (ci_used it).
    - by rewrite Hit, andb_false_r. }
  rewrite Hg. destruct (flush_selects sel it) eqn:E.
  - assert (Hw : write_item (g it) w = write_item it w) by (unfold g; by rewrite E). rewrite Hw.
    destruct (write_item it w) as [[ret w1]|]; [|done]. fold g. unfold fmap in IH. rewrite IH by done.
    destruct (ret =? 0); [done|].
    assert (Hback : set_item_flush false (g it) = it).
    { unfold g. rewrite E. destruct it; cbn in *. by subst. }
    by rewrite Hback.
  - unfold fmap in IH. fold g. rewrite IH by done. unfold g. by rewrite E.
Qed.
