(* ===== verification/PropertyNvram.v ===== *)
(** * The property cache on the NVRAM driver

    The interface of PropertyCache.v discharged by the driver of
    NvramConfig.v, and what follows for both together: flushed properties
    survive a restart. *)

From stdpp Require Import base numbers list option gmap.
From S2P Require Import Prelude NvramBits NvramStorage NvramConfig NvramItems NvramRegion NvramStore NvramScan NvramApi NvramSpec PropertyCache.
Local Open Scope Z_scope.

Section world.
Context {F : Type} `{!FlashDrv F}.

(** The driver, the answers the allocator has left (success when it runs out)
    and the memory callers' pointers lead to. *)
Record pworld := mk_pworld {
  pw_nvram : @nvram F;
  pw_mallocs : list bool;
  pw_mem : Z → list Z;
}.

Definition pw_set_nvram (s : @nvram F) (w : pworld) : pworld :=
  mk_pworld s (pw_mallocs w) (pw_mem w).

(** The pointer guard of [region_set] before the call proper. *)
Definition nvram_config_set_ptr (name : list Z) (data : option (list Z)) (len : Z) (s : @nvram F)
    : option (Z * @nvram F) :=
  match data with
  | None => if len =? 0 then nvram_config_set name [] s else Some (- EINVAL, s)
  | Some d => nvram_config_set name (take (Z.to_nat len) d) s
  end.

#[export] Instance pworld_env : PropEnv pworld := {
  nv_get name n w :=
    match nvram_config_get name n (pw_nvram w) with
    | None => None
    | Some (r, d, s) => Some (r, d, pw_set_nvram s w)
    end;
  nv_set name data len w :=
    match nvram_config_set_ptr name data len (pw_nvram w) with
    | None => None
    | Some (r, s) => Some (r, pw_set_nvram s w)
    end;
  mem_malloc _ w :=
    match pw_mallocs w with
    | [] => (true, w)
    | b :: l => (b, mk_pworld (pw_nvram w) l (pw_mem w))
    end;
  load p w := match p with Local b => b | Addr a => pw_mem w a end;
}.
End world.

Section world_laws.
Context {F : Type} `{!FlashDrv F} `{!FlashLaws F}.

Definition pw_stores (w : @pworld F) (mu mf : gmap (list Z) (list Z)) : Prop :=
  ∃ mw mff, nvram_store (pw_nvram w) mu mw mff ∧ mf = mw ∪ mff.
Definition pw_fits (mu : gmap (list Z) (list Z)) (name data : list Z) : Prop :=
  16 + stored_size mu + item_space name data <= 8192.
Definition pw_ample (w : @pworld F) : Prop := Forall (λ b, b = true) (pw_mallocs w).

Lemma user_set_store s mu mw mf name data :
  nvram_store s mu mw mf → name_ok name → data_ok data → pw_fits mu name data →
  ∃ s' : @nvram F, nvram_config_set name data s = Some (0, s') ∧
        nvram_store s' (<[name := data]> mu) mw mf.
Proof.
  intros Hst Hn Hd Hroom. apply (on_user_store _ _ mu); [done|]. intros t Ht Hsz.
  apply region_set_store; [done..|]. unfold pw_fits in Hroom. lia.
Qed.

#[export] Program Instance pworld_laws : PropLaws (@pworld F) := {
  stores := pw_stores; fits := pw_fits; ample := pw_ample;
}.
Next Obligation.
  intros w mu mf name n (mw & mff & Hst & ->) Hn Hlen. cbn [nv_get pworld_env].
  destruct (on_region_get (pw_nvram w) mu mw mff name n Hst Hn Hlen) as (Hu & _).
  pose proof (nvram_config_get_factory_run (pw_nvram w) mu mw mff name n Hst Hn Hlen) as Hfac.
  unfold nvram_config_get. rewrite Hu. fold (nvram_config_get_factory name n (pw_nvram w)).
  pose proof (get_result_sign (mu !! name) n Hlen) as Hs. rewrite lookup_union.
  destruct (get_result (mu !! name) n) as [ret d] eqn:E. cbn [fst] in Hs. rewrite Hs, Hfac.
  destruct (mu !! name) as [v|] eqn:El.
  - rewrite bool_decide_eq_true_2 by eauto. rewrite union_Some_l, E. by destruct w.
  - rewrite bool_decide_eq_false_2 by (by intros [? ?]). rewrite (left_id_L None (∪)).
    destruct (get_result ((mw ∪ mff) !! name) n). by destruct w.
Qed.
Next Obligation.
  intros w mu mf name data (mw & mff & Hst & ->) Hn Hd Hfit.
  destruct (user_set_store _ mu mw mff name data Hst Hn Hd Hfit) as (s' & Hrun & Hst').
  cbn [nv_set pworld_env nvram_config_set_ptr]. rewrite Nat2Z.id, firstn_all, Hrun.
  eexists. split; [reflexivity|]. split_and!; [by exists mw, mff|done|]. by intros [b|a].
Qed.
Next Obligation.
  intros w name data n Hn. cbn [nv_set pworld_env nvram_config_set_ptr]. by rewrite take_take, Nat.min_id.
Qed.
Next Obligation.
  intros w mu mf name (mw & mff & Hst & ->) Hn.
  destruct (on_user_store (region_set name []) (pw_nvram w) mu mw mff 0 (delete name mu) Hst)
    as (s' & Hrun & Hst').
  { intros t Ht _. by apply region_delete_store. }
  cbn [nv_set pworld_env nvram_config_set_ptr Z.eqb]. unfold nvram_config_set. rewrite Hrun.
  eexists. split; [reflexivity|]. split_and!; [by exists mw, mff|done|]. by intros [b|a].
Qed.
Next Obligation.
  intros [s [|b l] mem] n Ham; unfold pw_ample in Ham; cbn in *.
  - eexists. split; [reflexivity|]. done.
  - inversion Ham; subst. eexists. split; [reflexivity|]. split_and!; try done.
Qed.

(** ** Flushed properties survive a restart *)

(** The NVRAM driver after a flush and a power cycle. *)
Lemma flush_restart (s : @pcache pworld) mu mf :
  pc_inv s → stores (pc_world s) mu mf → flush_fits (pc_world s) None mu (pc_items s) →
  ∃ s1 s2 mu1, property_cache_flush None s = Some (0, s1) ∧
    nvram_config_init true (power_on (nvram_flash (pw_nvram (pc_world s1)))) = Some (0, s2) ∧
    (∀ w, pw_nvram w = s2 → stores w mu1 mf) ∧
    ∀ name, (mu1 ∪ mf) !! name = match cached s name with
                                 | None => (mu ∪ mf) !! name
                                 | Some [] => mf !! name
                                 | Some d => Some d
                                 end.
Proof.
  intros Hinv Hst Hfit.
  destruct (property_cache_flush_spec s mu mf None Hinv Hst Hfit) as (s1 & Hrun & _ & Hst1 & _).
  destruct Hst1 as (mw & mff & Hnv & ->). set (mu1 := flush_result _ _ _ _) in *.
  destruct Hnv as [Hu Hw Hf (P1 & P2 & P3)].
  destruct (nvram_config_init_spec (nvram_flash (pw_nvram (pc_world s1))) mu1 mw mff) as (s2 & Hini & Hst2);
    [by eapply region_store_recovers..|].
  exists s1, s2, mu1. split_and!; [done|done|intros w <-; by exists mw, mff|]. intros name.
  rewrite lookup_union. subst mu1. rewrite flush_result_lookup by apply (pi_unique _ Hinv). unfold cached.
  destruct (find_property_cache (pc_items s) name) as [[i it]|] eqn:Hfs; cbn.
  - apply find_some in Hfs as [_ [Hused _]%item_key_used]. unfold flush_selects. rewrite Hused. cbn [andb].
    case_decide as E; [rewrite E; apply (left_id_L None (∪))|].
    destruct (item_value (pc_world s) it); [done|]. apply union_Some_l.
  - symmetry. apply lookup_union.
Qed.

(** C15: Everything the property cache held is read back after a flush for which
    the NVRAM segment has room, a power cycle and a start with an empty cache:
    a cached value as it was set, a deleted name as the factory value, an
    untouched name as before; the composition of cache and NVRAM driver. *)
Theorem property_flush_survives_restart (s : @pcache pworld) mu mf :
  pc_inv s → stores (pc_world s) mu mf → flush_fits (pc_world s) None mu (pc_items s) →
  ∃ s1 s2, property_cache_flush None s = Some (0, s1) ∧
    nvram_config_init true (power_on (nvram_flash (pw_nvram (pc_world s1)))) = Some (0, s2) ∧
    let fresh := property_cache_init (mk_pcache [] (pw_set_nvram s2 (pc_world s1))) in
    ∀ name max_len, name_ok name → 0 < max_len →
      property_cache_get name max_len fresh =
      Some (get_result (match cached s name with
                        | None => (mu ∪ mf) !! name
                        | Some [] => mf !! name
                        | Some d => Some d
                        end) max_len, fresh).
Proof.
  intros Hinv Hst Hfit. destruct (flush_restart s mu mf Hinv Hst Hfit) as (s1 & s2 & mu1 & Hrun & Hini & Hst2 & Hl).
  exists s1, s2. split_and!; [done|done|]. intros fresh name max_len Hn Hm.
  destruct (fresh_cache_ok (mk_pcache [] (pw_set_nvram s2 (pc_world s1)))) as [Hinvf Hcf].
  rewrite (property_cache_get_spec fresh mu1 mf) by (done || by apply Hst2).
  unfold pc_lookup. by rewrite Hcf, Hl.
Qed.
End world_laws.

(** ** The theorems at work *)

(** An empty cache on a fresh store; the Bluetooth stack's key buffer is at
    address 1. *)
Definition sample_world : @pworld nor :=
  mk_pworld fresh_nvram [] (λ a, if a =? 1 then [7; 7; 7; 7] else []).
Definition sample_cache : @pcache (@pworld nor) := property_cache_init (mk_pcache [] sample_world).

Lemma sample_stores : stores (pc_world sample_cache) ∅ ∅.
Proof.
  exists ∅, ∅. split; [exact fresh_store|]. symmetry. apply map_union_empty.
Qed.

Lemma sample_cache_inv : pc_inv sample_cache.
Proof. apply fresh_cache_ok. Qed.

Lemma sample_buffer : buffer_ok (pc_world sample_cache) (Local [30]) 1.
Proof. split_and!; [lia|lia|cbn; lia|repeat constructor; unfold is_u8; lia]. Qed.

Lemma sample_slot name : has_slot sample_cache name.
Proof. right. by vm_compute. Qed.

Lemma property_cache_set_get_witness :
  ∃ s', property_cache_set VOLUME (Some (Local [30])) 1 sample_cache = Some (0, s') ∧
    property_cache_get VOLUME 8 s' = Some ((1, [30]), s').
Proof.
  destruct (property_cache_set_get sample_cache ∅ ∅ VOLUME (Local [30]) 1 sample_cache_inv sample_stores)
    as (s' & Hrun & _ & _ & Hget).
  - apply Forall_nil_2.
  - apply sample_slot.
  - apply sample_names.
  - exact sample_buffer.
  - exists s'. split; [exact Hrun|]. rewrite (Hget VOLUME 8 (proj1 sample_names) eq_refl). reflexivity.
Defined.

(** A cache with the volume in it. *)
Lemma sample_with_volume :
  ∃ s : @pcache (@pworld nor), pc_inv s ∧ stores (pc_world s) ∅ ∅ ∧ ample (pc_world s) ∧
    cached s VOLUME = Some [30] ∧ (∀ n, n ≠ VOLUME → cached s n = None).
Proof.
  destruct (property_cache_set_spec sample_cache (Local [30]) 1 VOLUME sample_cache_inv)
    as (s' & _ & H1 & H2 & H3 & H4 & H5 & _).
  - apply Forall_nil_2.
  - apply sample_slot.
  - apply sample_names.
  - exact sample_buffer.
  - exists s'. split_and!; [done|apply H4, sample_stores|done|done|]. intros n Hn. rewrite H3 by done.
    unfold cached. replace (find_property_cache (pc_items sample_cache) n) with (@None (nat * cache_item)); [done|].
    symmetry. apply list_find_None, Forall_lookup_2. intros i it Hi.
    apply lookup_replicate in Hi as [-> _]. by intros [? _].
Qed.

Lemma property_cache_delete_get_witness :
  ∃ s s' : @pcache (@pworld nor), cached s VOLUME = Some [30] ∧
    property_cache_set VOLUME None 0 s = Some (0, s') ∧
    property_cache_get VOLUME 8 s' = Some ((0, []), s').
Proof.
  destruct sample_with_volume as (s & Hinv & Hst & Ham & Hc & _).
  destruct (property_cache_delete_get s ∅ ∅ VOLUME 0 Hinv Hst Ham) as (s' & Hrun & _ & _ & Hget).
  - left. intros Hf. unfold cached in Hc. by rewrite Hf in Hc.
  - apply sample_names.
  - reflexivity.
  - exists s, s'. split_and!; [done|done|]. rewrite (Hget VOLUME 8 (proj1 sample_names) eq_refl). reflexivity.
Defined.


(** A cache with one item. *)
Definition one_item_cache (it : cache_item) (mallocs : list bool) : @pcache (@pworld nor) :=
  mk_pcache (it :: replicate 69 item_clear) (mk_pworld fresh_nvram mallocs (pw_mem sample_world)).

Lemma one_item_inv it mallocs :
  item_ok (pc_world (one_item_cache it mallocs)) it → pc_inv (one_item_cache it mallocs).
Proof.
  intros Hok.
  assert (Hrest : ∀ i a, pc_items (one_item_cache it mallocs) !! S i = Some a → a = item_clear).
  { intros i a Ha. by apply (lookup_replicate 69 item_clear a i) in Ha as [-> _]. }
  split.
  - reflexivity.
  - intros [|i] [|j] a c n Ha Hc Hka Hkc; [done|..].
    + by rewrite (Hrest _ _ Hc) in Hkc.
    + by rewrite (Hrest _ _ Ha) in Hka.
    + by rewrite (Hrest _ _ Ha) in Hka.
  - intros [|i] a Ha Hu; [by injection Ha as <-|]. by rewrite (Hrest _ _ Ha) in Hu.
Qed.

Definition volume_item : cache_item := mk_cache_item VOLUME (Own [30]) 1 true false false.
Definition keys_item : cache_item := mk_cache_item CFG_BT_KEYS (Ref (Addr 1)) 4 true false true.

Lemma volume_item_ok mallocs : item_ok (pc_world (one_item_cache volume_item mallocs)) volume_item.
Proof.
  split; [apply sample_names|cbn; lia|done|repeat constructor; unfold is_u8; lia|].
  split_and!; [done|done|cbn; lia].
Qed.

Lemma keys_item_ok mallocs : item_ok (pc_world (one_item_cache keys_item mallocs)) keys_item.
Proof.
  split; [split; [repeat constructor; lia|cbn; lia]|cbn; lia|done
         |repeat constructor; unfold is_u8; lia|].
  split_and!; [done|cbn; lia].
Qed.

Lemma one_item_stores it mallocs : stores (pc_world (one_item_cache it mallocs)) ∅ ∅.
Proof. exists ∅, ∅. split; [exact fresh_store|]. symmetry. apply map_union_empty. Qed.

Lemma volume_flush_fits :
  flush_fits (pc_world (one_item_cache volume_item [])) None ∅
    (pc_items (one_item_cache volume_item [])).
Proof.
  cbn [one_item_cache pc_items flush_fits]. change (flush_selects None volume_item) with true. cbv iota.
  split; [right; by vm_compute|]. generalize (apply_item (pc_world (one_item_cache volume_item [])) ∅ volume_item).
  intros mu. generalize 69%nat as n. intros n. induction n as [|n IH]; [done|]. exact IH.
Qed.

Lemma property_cache_flush_all_witness :
  ∃ s' mu', property_cache_flush None (one_item_cache volume_item []) = Some (0, s') ∧
    stores (pc_world s') mu' ∅ ∧ mu' !! VOLUME = Some [30].
Proof.
  destruct (property_cache_flush_all (one_item_cache volume_item []) ∅ ∅
              (one_item_inv _ _ (volume_item_ok [])) (one_item_stores _ _) volume_flush_fits)
    as (s' & mu' & Hrun & _ & Hst & _ & Hl).
  exists s', mu'. split_and!; [exact Hrun|exact Hst|]. rewrite Hl. reflexivity.
Defined.

Lemma property_flush_survives_restart_witness :
  ∃ s1 s2, property_cache_flush None (one_item_cache volume_item []) = Some (0, s1) ∧
    nvram_config_init true (power_on (nvram_flash (pw_nvram (pc_world s1)))) = Some (0, s2) ∧
    let fresh := property_cache_init (mk_pcache [] (pw_set_nvram s2 (pc_world s1))) in
    property_cache_get VOLUME 8 fresh = Some ((1, [30]), fresh).
Proof.
  destruct (property_flush_survives_restart (one_item_cache volume_item []) ∅ ∅
              (one_item_inv _ _ (volume_item_ok [])) (one_item_stores _ _) volume_flush_fits)
    as (s1 & s2 & H1 & H2 & Hget).
  exists s1, s2. split_and!; [exact H1|exact H2|]. cbv zeta in *.
  rewrite (Hget VOLUME 8 (proj1 sample_names) eq_refl). reflexivity.
Defined.

Lemma property_cache_delete_bt_keys_uncovers_witness :
  ∃ s', property_cache_set CFG_BT_KEYS None 0 (one_item_cache keys_item []) = Some (0, s') ∧
    property_cache_get CFG_BT_KEYS 8 s' = Some (get_result ((∅ ∪ ∅ : gmap (list Z) (list Z)) !! CFG_BT_KEYS) 8, s').
Proof.
  destruct (property_cache_delete_bt_keys_uncovers (one_item_cache keys_item []) ∅ ∅ CFG_BT_KEYS 0
              0%nat keys_item (one_item_inv _ _ (keys_item_ok [])) (one_item_stores _ _)
              (io_name _ _ (keys_item_ok [])) eq_refl eq_refl) as (s' & Hrun & _ & Hget).
  exists s'. split; [exact Hrun|]. by apply Hget.
Defined.

Lemma property_cache_set_without_memory_witness :
  ∃ s', property_cache_set VOLUME (Some (Local [30; 31])) 2 (one_item_cache volume_item [false]) = Some (0, s') ∧
    property_cache_get VOLUME 8 s' = Some (1, [], s').
Proof.
  destruct (property_cache_set_without_memory (one_item_cache volume_item [false]) VOLUME (Local [30; 31]) 2
              0%nat volume_item (pc_world (one_item_cache volume_item [])) eq_refl eq_refl eq_refl)
    as (s' & Hrun & Hget).
  - done.
  - cbn. lia.
  - reflexivity.
  - exists s'. split; [exact Hrun|]. exact (Hget 8 eq_refl).
Defined.

Lemma property_cache_flush_req_deal_is_flush_witness :
  property_cache_flush_req_deal (property_cache_flush_req None (one_item_cache volume_item [])).2 =
  property_cache_flush None (one_item_cache volume_item []).
Proof.
  apply property_cache_flush_req_deal_is_flush. apply Forall_cons_2; [reflexivity|].
  apply Forall_replicate. reflexivity.
Defined.
