(* ===== verification/Messages.v ===== *)
(** * The message system

    How the applications, the services and the system talk to each other:
    ext/actions/base/core/msg_manager.c (listeners by name) on the message pool
    of ext/actions/porting/os_wrapper/os_wrapper.c on the mailbox of
    kernel/mailbox.c, of which only asynchronous sends and receives by one
    mailbox are used.  CONFIG_NUM_MBOX_ASYNC_MSGS is 30, CONFIG_MESSAGE_DEBUG is
    not set; [msg_manager_send_sync_msg] is compiled out and
    [os_send_sync_msg] has no caller.

    A thread is its address, 0 is [NULL] and, as in C, [K_ANY].  A message is
    its sixteen bytes.  The sections under [irq_lock] are one step; a receiver
    that has to wait does so in three: it enters the receive queue, it is
    matched by a sender (or its timeout expires), and it resumes and takes the
    data.  A sender runs at priority -1 while it sends and is not preempted by
    other threads. *)

From stdpp Require Import base numbers list option gmap sorting.
From S2P Require Import Prelude.
Local Open Scope Z_scope.

(** ** State *)

Definition NUM_MBOX_ASYNC_MSGS : nat := 30.
Definition APP_MSG_SIZE : Z := 16.
Definition K_ANY : Z := 0.
Definition EMSGSIZE : Z := 36.
Definition ETIMEDOUT : Z := 60.
Definition ALL_RECEIVER_NAME : list Z := [97; 108; 108].

(** [struct k_mbox_async]: the priority of the dummy thread and the transmit
    descriptor.  [tx_data] and [tx_sem] point into the pool and are the index
    of the slot; [tx_sync] is the index of the descriptor itself. *)
Record tx_msg := mk_tx_msg {
  tx_prio : Z;
  tx_info : Z;
  tx_size : Z;
  tx_data : nat;
  tx_target : Z;
  tx_source : Z;
  tx_sync : nat;
  tx_sem : nat;
}.

(** The receiver's descriptor, on the stack of the thread [rx_thread]
    ([tx_target_thread] of the C structure). *)
Record rx_msg := mk_rx_msg {
  rx_thread : Z;
  rx_source : Z;
  rx_info : Z;
  rx_size : Z;
  rx_data : option nat;
  rx_sync : option nat;
}.

(** [struct msg_info] *)
Record msg_info := mk_msg_info { mi_sem : Z; mi_msg : list Z }.

(** [ms_threads]: the threads that exist, with their priorities; [ms_woken]:
    receivers that have been matched and have not run since. *)
Record msgsys := mk_msgsys {
  ms_threads : gmap Z Z;
  ms_listeners : list (list Z * Z);
  ms_async : list tx_msg;
  ms_async_free : list nat;
  ms_tx_queue : list nat;
  ms_rx_queue : list (Z * rx_msg);
  ms_woken : list rx_msg;
  ms_pool : list msg_info;
}.

Definition set_threads (m : gmap Z Z) (s : msgsys) : msgsys :=
  mk_msgsys m (ms_listeners s) (ms_async s) (ms_async_free s) (ms_tx_queue s) (ms_rx_queue s) (ms_woken s) (ms_pool s).
Definition set_listeners (l : list (list Z * Z)) (s : msgsys) : msgsys :=
  mk_msgsys (ms_threads s) l (ms_async s) (ms_async_free s) (ms_tx_queue s) (ms_rx_queue s) (ms_woken s) (ms_pool s).
Definition set_async (l : list tx_msg) (free : list nat) (s : msgsys) : msgsys :=
  mk_msgsys (ms_threads s) (ms_listeners s) l free (ms_tx_queue s) (ms_rx_queue s) (ms_woken s) (ms_pool s).
Definition set_tx_queue (q : list nat) (s : msgsys) : msgsys :=
  mk_msgsys (ms_threads s) (ms_listeners s) (ms_async s) (ms_async_free s) q (ms_rx_queue s) (ms_woken s) (ms_pool s).
Definition set_rx (q : list (Z * rx_msg)) (woken : list rx_msg) (s : msgsys) : msgsys :=
  mk_msgsys (ms_threads s) (ms_listeners s) (ms_async s) (ms_async_free s) (ms_tx_queue s) q woken (ms_pool s).
Definition set_pool (p : list msg_info) (s : msgsys) : msgsys :=
  mk_msgsys (ms_threads s) (ms_listeners s) (ms_async s) (ms_async_free s) (ms_tx_queue s) (ms_rx_queue s) (ms_woken s) p.

Definition tx_clear : tx_msg := mk_tx_msg 0 0 0 0 0 0 0 0.
Definition tx_of (s : msgsys) (d : nat) : tx_msg := default tx_clear (ms_async s !! d).
Definition slot_msg (s : msgsys) (i : nat) : list Z :=
  match ms_pool s !! i with Some mi => mi_msg mi | None => [] end.

(** ** The mailbox *)

(** [_pend_thread]: behind every thread of the same or a higher priority. *)
Fixpoint pend {A} (prio : A → Z) (x : A) (q : list A) : list A :=
  match q with
  | [] => [x]
  | y :: q' => if prio x <? prio y then x :: q else y :: pend prio x q'
  end.

(** Whether a message and a receiver are compatible. *)
Definition matches (tx : tx_msg) (rx : rx_msg) : Prop :=
  (tx_target tx = K_ANY ∨ tx_target tx = rx_thread rx) ∧
  (rx_source rx = K_ANY ∨ rx_source rx = tx_source tx).
#[export] Instance matches_dec tx rx : Decision (matches tx rx).
Proof. unfold matches. apply _. Defined.

(** [_mbox_message_match]: both descriptors after a match. *)
Definition matched_tx (tx : tx_msg) (rx : rx_msg) : tx_msg :=
  mk_tx_msg (tx_prio tx) (rx_info rx) (tx_size tx) (tx_data tx) (rx_thread rx) (tx_source tx) (tx_sync tx) (tx_sem tx).
Definition matched_rx (tx : tx_msg) (rx : rx_msg) : rx_msg :=
  mk_rx_msg (rx_thread rx) (tx_source tx) (tx_info tx) (if tx_size tx <? rx_size rx then tx_size tx else rx_size rx)
    (Some (tx_data tx)) (Some (tx_sync tx)).
Definition mbox_message_match (tx : tx_msg) (rx : rx_msg) : option (tx_msg * rx_msg) :=
  if decide (matches tx rx) then Some (matched_tx tx rx, matched_rx tx rx) else None.

(** [k_sem_give] on a semaphore with limit 1 that nobody waits for. *)
Definition pool_sem_give (i : nat) (s : msgsys) : msgsys :=
  set_pool (alter (λ mi, mk_msg_info (if mi_sem mi =? 1 then 1 else mi_sem mi + 1) (mi_msg mi)) i (ms_pool s)) s.

(** [_mbox_message_dispose] *)
Definition mbox_message_dispose (rx : rx_msg) (s : msgsys) : msgsys :=
  match rx_sync rx with
  | None => s
  | Some d =>
      let tx := tx_of s d in
      let tx := mk_tx_msg (tx_prio tx) (tx_info tx) (rx_size rx) (tx_data tx) (tx_target tx) (tx_source tx)
                  (tx_sync tx) (tx_sem tx) in
      pool_sem_give (tx_sem tx) (set_async (<[d := tx]> (ms_async s)) (d :: ms_async_free s) s)
  end.

(** [_mbox_message_put] for a descriptor. *)
Definition mbox_message_put (cur : Z) (d : nat) (s : msgsys) : msgsys :=
  let tx := tx_of s d in
  let tx := mk_tx_msg (tx_prio tx) (tx_info tx) (tx_size tx) (tx_data tx) (tx_target tx) cur (tx_sync tx) (tx_sem tx) in
  let s := set_async (<[d := tx]> (ms_async s)) (ms_async_free s) s in
  match list_find (λ e, matches tx e.2) (ms_rx_queue s) with
  | Some (i, (_, rx)) =>
      set_rx (delete i (ms_rx_queue s)) (ms_woken s ++ [matched_rx tx rx])
        (set_async (<[d := matched_tx tx rx]> (ms_async s)) (ms_async_free s) s)
  | None => set_tx_queue (pend (λ d, tx_prio (tx_of s d)) d (ms_tx_queue s)) s
  end.

(** [k_mbox_async_put]; [None]: the call waits for a free descriptor. *)
Definition k_mbox_async_put (cur : Z) (info size : Z) (data : nat) (target : Z) (sem : nat) (s : msgsys)
    : option msgsys :=
  match ms_async_free s with
  | [] => None
  | d :: free =>
      let tx := mk_tx_msg (default 0 (ms_threads s !! cur)) info size data target 0 d sem in
      Some (mbox_message_put cur d (set_async (<[d := tx]> (ms_async s)) free s))
  end.

(** [k_mbox_data_get] into a buffer of its own. *)
Definition k_mbox_data_get (rx : rx_msg) (buffer : list Z) (s : msgsys) : list Z * msgsys :=
  let buffer := match rx_data rx with
                | Some i => if 0 <? rx_size rx then memcpy buffer 0 (take (Z.to_nat (rx_size rx)) (slot_msg s i)) else buffer
                | None => buffer
                end in
  (buffer, mbox_message_dispose rx s).

(** [k_mbox_get] up to the point where the thread has data, has none, or
    waits.
    Taking a message that is already there and disposing of it are one step here;
    the code unlocks the interrupts in between, where only the slot and the
    descriptor of this message are still in use. *)
Inductive mbox_got :=
  | Got (rx : rx_msg) (buffer : list Z)
  | NoMsg
  | Pending.

Definition k_mbox_get (cur : Z) (rx : rx_msg) (buffer : list Z) (wait : bool) (s : msgsys) : mbox_got * msgsys :=
  match list_find (λ d, matches (tx_of s d) rx) (ms_tx_queue s) with
  | Some (i, d) =>
      let tx := tx_of s d in
      let s := set_tx_queue (delete i (ms_tx_queue s))
                 (set_async (<[d := matched_tx tx rx]> (ms_async s)) (ms_async_free s) s) in
      let '(buffer, s) := k_mbox_data_get (matched_rx tx rx) buffer s in
      (Got (matched_rx tx rx) buffer, s)
  | None =>
      if negb wait then (NoMsg, s)
      else (Pending, set_rx (pend fst (default 0 (ms_threads s !! cur), rx) (ms_rx_queue s)) (ms_woken s) s)
  end.

(** The descriptor that [k_mbox_clear_msg] and [k_mbox_delete_msg] use. *)
Definition discard_rx (tx : tx_msg) : rx_msg :=
  let m := matched_rx tx (mk_rx_msg 0 K_ANY (tx_size tx) (tx_size tx) None None) in
  mk_rx_msg (rx_thread m) (rx_source m) (rx_info m) 0 (rx_data m) (rx_sync m).

(** [k_mbox_delete_msg]: the messages of the queue for which [msg_match]
    holds are disposed of; [k_mbox_clear_msg] does it to all. *)
Fixpoint delete_loop (msg_match : tx_msg → bool) (l : list nat) (s : msgsys) : Z * msgsys :=
  match l with
  | [] => (0, s)
  | d :: l' =>
      if msg_match (tx_of s d) then
        let tx := tx_of s d in
        let any := mk_tx_msg (tx_prio tx) (tx_info tx) (tx_size tx) (tx_data tx) K_ANY (tx_source tx) (tx_sync tx) (tx_sem tx) in
        let rx := discard_rx any in
        let s := set_tx_queue (filter (λ e, e ≠ d) (ms_tx_queue s))
                   (set_async (<[d := matched_tx any (mk_rx_msg 0 K_ANY (tx_size tx) (tx_size tx) None None)]> (ms_async s))
                      (ms_async_free s) s) in
        let '(n, s) := delete_loop msg_match l' (mbox_message_dispose rx s) in
        (n + 1, s)
      else delete_loop msg_match l' s
  end.
Definition k_mbox_delete_msg (msg_match : tx_msg → bool) (s : msgsys) : Z * msgsys :=
  delete_loop msg_match (ms_tx_queue s) s.
Definition k_mbox_clear_msg (s : msgsys) : msgsys := (k_mbox_delete_msg (λ _, true) s).2.

(** [k_mbox_get_pending_msg_cnt] *)
Definition k_mbox_get_pending_msg_cnt (target : Z) (s : msgsys) : Z :=
  Z.of_nat (length (filter (λ d, tx_target (tx_of s d) = target) (ms_tx_queue s))).

(** ** The message pool *)

(** [msg_pool_get_free_msg_info] *)
Definition msg_pool_get_free_msg_info (s : msgsys) : option (nat * msgsys) :=
  '(i, mi) ← list_find (λ mi, 0 < mi_sem mi) (ms_pool s);
  Some (i, set_pool (<[i := mk_msg_info (mi_sem mi - 1) (replicate 16 0)]> (ms_pool s)) s).

(** [msg_pool_get_free_msg_num] *)
Definition msg_pool_get_free_msg_num (s : msgsys) : Z :=
  Z.of_nat NUM_MBOX_ASYNC_MSGS - Z.of_nat (length (filter (λ mi, ¬ 0 < mi_sem mi) (ms_pool s))).

(** [os_is_free_msg_enough] *)
Definition os_is_free_msg_enough (s : msgsys) : bool := 5 <? msg_pool_get_free_msg_num s.

(** [os_send_async_msg] *)
Definition os_send_async_msg (cur receiver : Z) (msg : list Z) (s : msgsys) : option (Z * msgsys) :=
  match msg_pool_get_free_msg_info s with
  | None => Some (- ENOMEM, s)
  | Some (i, s) =>
      let s := set_pool (alter (λ mi, mk_msg_info (mi_sem mi) (memcpy (mi_msg mi) 0 msg)) i (ms_pool s)) s in
      s ← k_mbox_async_put cur APP_MSG_SIZE APP_MSG_SIZE i receiver i s;
      Some (0, s)
  end.

(** [os_receive_msg]: its part before and behind the wait. *)
Inductive received :=
  | RMsg (msg : list Z)
  | RErr (ret : Z)
  | RWait.
Definition os_receive_done (rx : rx_msg) (buffer : list Z) : received :=
  if negb (rx_info rx =? rx_size rx) then RErr (- EMSGSIZE) else RMsg buffer.
Definition os_receive_msg (cur : Z) (wait : bool) (s : msgsys) : received * msgsys :=
  let '(g, s) := k_mbox_get cur (mk_rx_msg cur K_ANY APP_MSG_SIZE APP_MSG_SIZE None None) (replicate 16 0) wait s in
  (match g with
   | Got rx buffer => os_receive_done rx buffer
   | NoMsg => RErr (- ETIMEDOUT)
   | Pending => RWait
   end, s).

(** The receiver resumes after a match, or after its timeout. *)
Definition os_receive_resume (cur : Z) (s : msgsys) : option (received * msgsys) :=
  '(i, rx) ← list_find (λ rx, rx_thread rx = cur) (ms_woken s);
  let s := set_rx (ms_rx_queue s) (delete i (ms_woken s)) s in
  let '(buffer, s) := k_mbox_data_get rx (replicate 16 0) s in
  Some (os_receive_done rx buffer, s).
Definition os_receive_timeout (cur : Z) (s : msgsys) : option (received * msgsys) :=
  '(i, _) ← list_find (λ e, rx_thread e.2 = cur) (ms_rx_queue s);
  Some (RErr (- ETIMEDOUT), set_rx (delete i (ms_rx_queue s)) (ms_woken s) s).

(** [os_msg_init] *)
Definition os_msg_init (s : msgsys) : msgsys := set_pool (fmap (λ mi, mk_msg_info 1 (mi_msg mi)) (ms_pool s)) s.

(** [os_msg_delete]: the predicate of the caller sees the message and both
    threads. *)
Definition os_msg_delete (msg_match : list Z → Z → Z → bool) (s : msgsys) : Z * msgsys :=
  k_mbox_delete_msg (λ tx, msg_match (slot_msg s (tx_data tx)) (tx_target tx) (tx_source tx)) s.

(** ** The message manager *)

(** [msg_manager_find_by_name], [msg_manager_listener_tid] *)
Definition msg_manager_find_by_name (name : list Z) (s : msgsys) : option (nat * (list Z * Z)) :=
  list_find (λ l, l.1 = name) (ms_listeners s).
Definition msg_manager_listener_tid (name : list Z) (s : msgsys) : Z :=
  match msg_manager_find_by_name name s with Some (_, l) => l.2 | None => 0 end.

(** [msg_manager_find_by_tid], [msg_manager_get_current] *)
Definition msg_manager_get_name_by_tid (tid : Z) (s : msgsys) : option (list Z) :=
  (λ x, x.2.1) <$> list_find (λ l, l.2 = tid) (ms_listeners s).

(** [msg_manager_add_listener]; [memory]: there is memory for the entry. *)
Definition msg_manager_add_listener (name : list Z) (tid : Z) (memory : bool) (s : msgsys) : bool * msgsys :=
  (true, if memory then set_listeners (ms_listeners s ++ [(name, tid)]) s else s).

(** [msg_manager_remove_listener] *)
Definition msg_manager_remove_listener (name : list Z) (s : msgsys) : bool * msgsys :=
  match msg_manager_find_by_name name s with
  | Some (i, _) => (true, set_listeners (delete i (ms_listeners s)) s)
  | None => (false, s)
  end.

(** [msg_manager_send_async_msg] *)
Definition msg_manager_send_async_msg (cur : Z) (receiver msg : list Z) (s : msgsys) : option (bool * msgsys) :=
  let prio := default 0 (ms_threads s !! cur) in
  let s := set_threads (<[cur := -1]> (ms_threads s)) s in
  let exit (r : bool) (s : msgsys) := (r, set_threads (<[cur := prio]> (ms_threads s)) s) in
  let target := if decide (receiver = ALL_RECEIVER_NAME) then K_ANY else msg_manager_listener_tid receiver s in
  if decide (receiver ≠ ALL_RECEIVER_NAME ∧ target = 0) then Some (exit false s)
  else
    '(ret, s) ← os_send_async_msg cur target msg s;
    Some (exit (ret =? 0) s).

(** [msg_manager_receive_msg], [msg_manager_drop_all_msg],
    [msg_manager_get_free_msg_num], [msg_manager_get_pending_msg_cnt] are the
    calls below them. *)

(** ** Operations *)

(** What a thread or the timer can do. *)
Inductive msg_op :=
  | OpSend (cur : Z) (receiver msg : list Z)
  | OpReceive (cur : Z) (wait : bool)
  | OpResume (cur : Z)
  | OpTimeout (cur : Z)
  | OpDropAll
  | OpDelete (msg_match : list Z → Z → Z → bool)
  | OpAddListener (name : list Z) (tid : Z) (memory : bool)
  | OpRemoveListener (name : list Z).
Inductive msg_res :=
  | ResBool (b : bool)
  | ResRecv (r : received)
  | ResCount (n : Z).

(** A thread that waits or has yet to resume makes no call. *)
Definition idle_thread (cur : Z) (s : msgsys) : Prop :=
  cur ≠ 0 ∧ is_Some (ms_threads s !! cur) ∧
  (cur ∉ ((λ e, rx_thread e.2) <$> ms_rx_queue s)) ∧ (cur ∉ (rx_thread <$> ms_woken s)).
#[export] Instance idle_thread_dec cur s : Decision (idle_thread cur s).
Proof. unfold idle_thread. apply _. Defined.

(** [None]: the operation is not possible in the state, or does not return. *)
Definition msg_exec (op : msg_op) (s : msgsys) : option (msg_res * msgsys) :=
  match op with
  | OpSend cur receiver msg =>
      if decide (idle_thread cur s ∧ length msg = 16%nat) then
        ('(r, s) ← msg_manager_send_async_msg cur receiver msg s; Some (ResBool r, s))
      else None
  | OpReceive cur wait =>
      if decide (idle_thread cur s) then let '(r, s) := os_receive_msg cur wait s in Some (ResRecv r, s) else None
  | OpResume cur => '(r, s) ← os_receive_resume cur s; Some (ResRecv r, s)
  | OpTimeout cur => '(r, s) ← os_receive_timeout cur s; Some (ResRecv r, s)
  | OpDropAll => Some (ResCount 0, k_mbox_clear_msg s)
  | OpDelete f => let '(n, s) := os_msg_delete f s in Some (ResCount n, s)
  | OpAddListener name tid memory => let '(r, s) := msg_manager_add_listener name tid memory s in Some (ResBool r, s)
  | OpRemoveListener name => let '(r, s) := msg_manager_remove_listener name s in Some (ResBool r, s)
  end.

(** ** Specification

    A queue of messages with target and sender, the receivers that wait in the
    order in which they are served, and the messages handed to receivers that
    have not resumed; at most thirty messages are under way. *)

Record spec := mk_spec {
  sp_threads : gmap Z Z;
  sp_listeners : list (list Z * Z);
  sp_queue : list (Z * Z * list Z);
  sp_waiting : list (Z * Z);
  sp_woken : list (Z * list Z);
}.

Definition for_thread (t target : Z) : Prop := target = K_ANY ∨ target = t.
#[export] Instance for_thread_dec t target : Decision (for_thread t target).
Proof. unfold for_thread. apply _. Defined.

Definition sp_idle (cur : Z) (a : spec) : Prop :=
  cur ≠ 0 ∧ is_Some (sp_threads a !! cur) ∧ (cur ∉ (sp_waiting a).*2) ∧ (cur ∉ (sp_woken a).*1).
#[export] Instance sp_idle_dec cur a : Decision (sp_idle cur a).
Proof. unfold sp_idle. apply _. Defined.

Definition sp_put (cur target : Z) (m : list Z) (a : spec) : spec :=
  match list_find (λ w, for_thread w.2 target) (sp_waiting a) with
  | Some (i, (_, t)) =>
      mk_spec (sp_threads a) (sp_listeners a) (sp_queue a) (delete i (sp_waiting a)) (sp_woken a ++ [(t, m)])
  | None => mk_spec (sp_threads a) (sp_listeners a) (sp_queue a ++ [(target, cur, m)]) (sp_waiting a) (sp_woken a)
  end.

Definition sp_target (receiver : list Z) (a : spec) : option Z :=
  if decide (receiver = ALL_RECEIVER_NAME) then Some K_ANY
  else match list_find (λ l, l.1 = receiver) (sp_listeners a) with
       | Some (_, l) => if l.2 =? 0 then None else Some l.2
       | None => None
       end.

Definition sp_under_way (a : spec) : nat := (length (sp_queue a) + length (sp_woken a))%nat.

Definition sp_exec (op : msg_op) (a : spec) : option (msg_res * spec) :=
  match op with
  | OpSend cur receiver m =>
      if decide (sp_idle cur a ∧ length m = 16%nat) then
        match sp_target receiver a with
        | None => Some (ResBool false, a)
        | Some target =>
            if decide (sp_under_way a < 30)%nat then Some (ResBool true, sp_put cur target m a)
            else Some (ResBool false, a)
        end
      else None
  | OpReceive cur wait =>
      if decide (sp_idle cur a) then
        match list_find (λ e, for_thread cur e.1.1) (sp_queue a) with
        | Some (i, (_, m)) =>
            Some (ResRecv (RMsg m), mk_spec (sp_threads a) (sp_listeners a) (delete i (sp_queue a)) (sp_waiting a) (sp_woken a))
        | None =>
            if wait then
              Some (ResRecv RWait, mk_spec (sp_threads a) (sp_listeners a) (sp_queue a)
                      (pend fst (default 0 (sp_threads a !! cur), cur) (sp_waiting a)) (sp_woken a))
            else Some (ResRecv (RErr (- ETIMEDOUT)), a)
        end
      else None
  | OpResume cur =>
      '(i, (_, m)) ← list_find (λ w, w.1 = cur) (sp_woken a);
      Some (ResRecv (RMsg m), mk_spec (sp_threads a) (sp_listeners a) (sp_queue a) (sp_waiting a) (delete i (sp_woken a)))
  | OpTimeout cur =>
      '(i, _) ← list_find (λ w, w.2 = cur) (sp_waiting a);
      Some (ResRecv (RErr (- ETIMEDOUT)),
            mk_spec (sp_threads a) (sp_listeners a) (sp_queue a) (delete i (sp_waiting a)) (sp_woken a))
  | OpDropAll => Some (ResCount 0, mk_spec (sp_threads a) (sp_listeners a) [] (sp_waiting a) (sp_woken a))
  | OpDelete f =>
      let sel (e : Z * Z * list Z) := f e.2 e.1.1 e.1.2 in
      Some (ResCount (Z.of_nat (length (filter sel (sp_queue a)))),
            mk_spec (sp_threads a) (sp_listeners a) (filter (λ e, ¬ sel e) (sp_queue a)) (sp_waiting a) (sp_woken a))
  | OpAddListener name tid memory =>
      Some (ResBool true, if memory then mk_spec (sp_threads a) (sp_listeners a ++ [(name, tid)]) (sp_queue a) (sp_waiting a) (sp_woken a) else a)
  | OpRemoveListener name =>
      match list_find (λ l, l.1 = name) (sp_listeners a) with
      | Some (i, _) => Some (ResBool true, mk_spec (sp_threads a) (delete i (sp_listeners a)) (sp_queue a) (sp_waiting a) (sp_woken a))
      | None => Some (ResBool false, a)
      end
  end.

(** What a state of the code stands for. *)
Definition queued (s : msgsys) (d : nat) : Z * Z * list Z :=
  (tx_target (tx_of s d), tx_source (tx_of s d), slot_msg s (tx_data (tx_of s d))).
Definition handed (s : msgsys) (rx : rx_msg) : Z * list Z :=
  (rx_thread rx, match rx_data rx with Some i => slot_msg s i | None => [] end).
Definition abs (s : msgsys) : spec :=
  mk_spec (ms_threads s) (ms_listeners s) (queued s <$> ms_tx_queue s)
    ((λ e, (e.1, rx_thread e.2)) <$> ms_rx_queue s) (handed s <$> ms_woken s).

(** ** Invariant *)

(** Descriptors and pool when the descriptors [u] are in use: every other one
    is free, and each holds a slot of its own. *)
Definition slots_of (s : msgsys) (u : list nat) : list nat := (λ d, tx_sem (tx_of s d)) <$> u.

Record store_ok (u : list nat) (s : msgsys) : Prop := {
  st_async : length (ms_async s) = 30%nat;
  st_pool : length (ms_pool s) = 30%nat;
  st_descs : ms_async_free s ++ u ≡ₚ seq 0 30;
  st_slots : NoDup (slots_of s u);
  st_sems : ∀ i mi, ms_pool s !! i = Some mi →
    length (mi_msg mi) = 16%nat ∧ mi_sem mi = if decide (i ∈ slots_of s u) then 0 else 1;
  st_used : ∀ d, d ∈ u → tx_sync (tx_of s d) = d ∧ tx_data (tx_of s d) = tx_sem (tx_of s d) ∧
                         (tx_sem (tx_of s d) < 30)%nat;
}.

Lemma store_nodup u s : store_ok u s → NoDup (ms_async_free s ++ u).
Proof. intros H. rewrite (st_descs u s H). apply NoDup_seq. Qed.

Lemma store_lt u s d : store_ok u s → d ∈ ms_async_free s ++ u → (d < 30)%nat.
Proof. intros H Hd. rewrite (st_descs u s H) in Hd. apply elem_of_seq in Hd. lia. Qed.

Lemma store_perm u u' s : u ≡ₚ u' → store_ok u s → store_ok u' s.
Proof.
  intros Hp [H1 H2 H3 H4 H5 H6].
  assert (Hs : slots_of s u ≡ₚ slots_of s u') by (unfold slots_of; by rewrite Hp).
  split; [done|done|by rewrite <- Hp|by rewrite <- Hs| |intros d Hd; apply H6; by rewrite Hp].
  intros i mi Hi. destruct (H5 i mi Hi) as [Hl ->]. split; [done|].
  destruct (decide (i ∈ slots_of s u)) as [E|E], (decide (i ∈ slots_of s u')) as [E'|E']; try done;
    rewrite Hs in E; done.
Qed.

Lemma tx_of_insert s d e tx free :
  (d < length (ms_async s))%nat →
  tx_of (set_async (<[d := tx]> (ms_async s)) free s) e = if decide (e = d) then tx else tx_of s e.
Proof.
  intros Hd. unfold tx_of. cbn [set_async ms_async]. case_decide as E; subst.
  - by rewrite list_lookup_insert_eq.
  - by rewrite list_lookup_insert_ne.
Qed.

(** A store that looks the same to the descriptors in use. *)
Lemma store_same u s s' :
  store_ok u s → length (ms_async s') = 30%nat → ms_async_free s' = ms_async_free s → ms_pool s' = ms_pool s →
  (∀ d, d ∈ u → tx_sync (tx_of s' d) = tx_sync (tx_of s d) ∧ tx_data (tx_of s' d) = tx_data (tx_of s d) ∧
                tx_sem (tx_of s' d) = tx_sem (tx_of s d)) →
  store_ok u s'.
Proof.
  intros [H1 H2 H3 H4 H5 H6] Hl Hf Hp Hd.
  assert (Hs : slots_of s' u = slots_of s u).
  { unfold slots_of. apply list_fmap_ext. intros i d Hi. apply Hd. by eapply list_elem_of_lookup_2. }
  split; rewrite ?Hs, ?Hf, ?Hp; try done. intros d Hin. destruct (Hd d Hin) as (-> & -> & ->). by apply H6.
Qed.

(** A message disposed of gives descriptor and slot back. *)
Lemma dispose_spec u d rx s :
  store_ok (d :: u) s → rx_sync rx = Some d →
  let s' := mbox_message_dispose rx s in
  store_ok u s' ∧ (∀ e, e ∈ u → tx_of s' e = tx_of s e) ∧ (∀ i, slot_msg s' i = slot_msg s i) ∧
  ms_threads s' = ms_threads s ∧ ms_listeners s' = ms_listeners s ∧ ms_tx_queue s' = ms_tx_queue s ∧
  ms_rx_queue s' = ms_rx_queue s ∧ ms_woken s' = ms_woken s.
Proof.
  intros Hok Hd. cbv zeta. unfold mbox_message_dispose. rewrite Hd. cbv zeta. cbn [tx_sem].
  pose proof (store_nodup _ _ Hok) as Hnd. pose proof Hok as [H1 H2 H3 H4 H5 H6].
  assert (Hlt : (d < 30)%nat) by (apply (store_lt _ _ d Hok), elem_of_app; right; apply list_elem_of_here).
  set (tx := mk_tx_msg _ _ (rx_size rx) _ _ _ _ _).
  set (s1 := set_async (<[d := tx]> (ms_async s)) (d :: ms_async_free s) s).
  set (sl := tx_sem (tx_of s d)).
  assert (Htx : ∀ e, e ∈ u → tx_of (pool_sem_give sl s1) e = tx_of s e).
  { intros e He. change (tx_of (pool_sem_give sl s1) e) with (tx_of s1 e). unfold s1. rewrite tx_of_insert by lia.
    rewrite decide_False; [done|]. intros ->. apply NoDup_app in Hnd as (_ & _ & Hnd).
    by apply NoDup_cons in Hnd as [? _]. }
  assert (Hslots : slots_of (pool_sem_give sl s1) u = slots_of s u).
  { unfold slots_of. apply list_fmap_ext. intros i e He. rewrite Htx; [done|]. by eapply list_elem_of_lookup_2. }
  split; [|split_and!; try done].
  - split; cbn [pool_sem_give set_pool set_async s1 ms_async ms_pool ms_async_free].
    + by rewrite length_insert.
    + by rewrite length_alter.
    + rewrite <- H3. cbn [app]. by rewrite Permutation_middle.
    + rewrite Hslots. by apply NoDup_cons in H4 as [_ ?].
    + intros i mi Hi. rewrite Hslots. cbn [slots_of fmap list_fmap] in H4, H5. fold sl in H4, H5.
      apply NoDup_cons in H4 as [Hsl _]. fold (slots_of s u) in Hsl, H5. destruct (decide (i = sl)) as [->|Hne].
      * rewrite list_lookup_alter_eq in Hi. destruct (ms_pool s !! sl) as [mi0|] eqn:E; [|done]. injection Hi as <-.
        destruct (H5 sl mi0 E) as [Hl Hs]. rewrite decide_True in Hs by apply list_elem_of_here.
        rewrite decide_False by done. cbn [mi_sem mi_msg]. by rewrite Hs.
      * rewrite list_lookup_alter_ne in Hi by done. destruct (H5 i mi Hi) as [Hl ->]. split; [done|].
        destruct (decide (i ∈ slots_of s u)) as [E|E].
        -- rewrite decide_True; [done|]. by apply list_elem_of_further.
        -- rewrite decide_False; [done|]. intros [?|?]%elem_of_cons; done.
    + intros e He. rewrite Htx by done. apply H6. by apply list_elem_of_further.
  - intros i. unfold slot_msg. cbn [pool_sem_give set_pool set_async s1 ms_pool].
    destruct (decide (i = sl)) as [->|Hne]; [|by rewrite list_lookup_alter_ne].
    rewrite list_lookup_alter_eq. by destruct (ms_pool s !! sl).
Qed.

(** *** Queues *)

Lemma pend_last {A} (prio : A → Z) x q : (∀ y, y ∈ q → prio y <= prio x) → pend prio x q = q ++ [x].
Proof.
  induction q as [|y q IH]; intros H; [done|]. cbn [pend app].
  destruct (Z.ltb_spec (prio x) (prio y)) as [Hlt|_].
  - specialize (H y (list_elem_of_here _ _)). lia.
  - rewrite IH; [done|]. intros z Hz. apply H. by apply list_elem_of_further.
Qed.

Lemma pend_perm {A} (prio : A → Z) x q : pend prio x q ≡ₚ x :: q.
Proof.
  induction q as [|y q IH]; [done|]. cbn [pend]. destruct (_ <? _); [done|]. rewrite IH. apply Permutation_swap.
Qed.

Lemma pend_fmap {A B} (f : A → B) (p : A → Z) (p' : B → Z) x q :
  (∀ a, p' (f a) = p a) → pend p' (f x) (f <$> q) = f <$> pend p x q.
Proof.
  intros Hp. induction q as [|y q IH]; [done|]. cbn [pend fmap list_fmap]. rewrite !Hp.
  destruct (_ <? _); [done|]. cbn [fmap list_fmap]. f_equal. exact IH.
Qed.

(** *** The pool *)

Lemma store_length u s : store_ok u s → length u = length (slots_of s u) ∧ (length (ms_async_free s) + length u = 30)%nat.
Proof.
  intros H. split; [unfold slots_of; by rewrite length_fmap|].
  pose proof (Permutation_length (st_descs u s H)) as E. by rewrite length_app, length_seq in E.
Qed.

Lemma get_free_spec u s :
  store_ok u s →
  match msg_pool_get_free_msg_info s with
  | None => length u = 30%nat
  | Some (i, s1) =>
      (length u < 30)%nat ∧ (i < 30)%nat ∧ (i ∉ slots_of s u) ∧
      s1 = set_pool (<[i := mk_msg_info 0 (replicate 16 0)]> (ms_pool s)) s
  end.
Proof.
  intros H. pose proof (store_length u s H) as [Hl Hsum]. destruct H as [H1 H2 H3 H4 H5 H6].
  unfold msg_pool_get_free_msg_info.
  destruct (list_find (λ mi, 0 < mi_sem mi) (ms_pool s)) as [[i mi]|] eqn:E; cbn [mbind option_bind].
  - apply list_find_Some in E as (Hi & Hs & _). destruct (H5 i mi Hi) as [_ Hsem].
    destruct (decide (i ∈ slots_of s u)) as [|Hni]; [lia|]. pose proof (lookup_lt_Some _ _ _ Hi) as Hlt.
    split_and!; [|lia|done|by rewrite Hsem].
    assert (Hsub : i :: slots_of s u ⊆+ seq 0 30).
    { apply NoDup_submseteq; [by apply NoDup_cons|]. intros j [->|Hj]%elem_of_cons; apply elem_of_seq; [lia|].
      unfold slots_of in Hj. apply list_elem_of_fmap in Hj as (d & -> & Hd). destruct (H6 d Hd) as (_ & _ & ?). lia. }
    apply submseteq_length in Hsub. rewrite length_seq in Hsub. cbn [length] in Hsub. lia.
  - apply list_find_None in E.
    assert (Hsub : seq 0 30 ⊆+ slots_of s u).
    { apply NoDup_submseteq; [apply NoDup_seq|]. intros j Hj%elem_of_seq.
      destruct (lookup_lt_is_Some_2 (ms_pool s) j ltac:(lia)) as [mi Hi]. destruct (H5 j mi Hi) as [_ Hsem].
      apply (Forall_lookup_1 _ _ _ _ E) in Hi. destruct (decide (j ∈ slots_of s u)); [done|]. lia. }
    apply submseteq_length in Hsub. rewrite length_seq in Hsub. lia.
Qed.

(** A slot and a descriptor taken for a message. *)
Lemma take_spec u s i d free tx msg :
  store_ok u s → i ∉ slots_of s u → (i < 30)%nat → ms_async_free s = d :: free → length msg = 16%nat →
  tx_data tx = i → tx_sem tx = i → tx_sync tx = d →
  let pool := alter (λ mi, mk_msg_info (mi_sem mi) (memcpy (mi_msg mi) 0 msg)) i
                (<[i := mk_msg_info 0 (replicate 16 0)]> (ms_pool s)) in
  let s' := set_async (<[d := tx]> (ms_async s)) free (set_pool pool s) in
  store_ok (d :: u) s' ∧ (∀ e, e ∈ u → tx_of s' e = tx_of s e) ∧ tx_of s' d = tx ∧ slot_msg s' i = msg ∧
  ∀ j, j ≠ i → slot_msg s' j = slot_msg s j.
Proof.
  intros H Hi Hlt Hf Hm Hd Hs Hy pool s'. pose proof (store_nodup _ _ H) as Hnd. pose proof H as [H1 H2 H3 H4 H5 H6].
  assert (Hdlt : (d < 30)%nat).
  { apply (store_lt u s d H). rewrite Hf. apply list_elem_of_here. }
  assert (Hnin : d ∉ u).
  { rewrite Hf in Hnd. apply NoDup_cons in Hnd as [Hnd _]. intros Hin. apply Hnd, elem_of_app. by right. }
  assert (Htx : ∀ e, e ∈ u → tx_of s' e = tx_of s e).
  { intros e He. unfold s'. unfold tx_of. cbn [set_async ms_async]. rewrite list_lookup_insert_ne; [done|]. by intros ->. }
  assert (Htd : tx_of s' d = tx).
  { unfold tx_of, s'. cbn [set_async ms_async]. rewrite list_lookup_insert_eq by (cbn; lia). done. }
  assert (Hsl : slots_of s' (d :: u) = i :: slots_of s u).
  { unfold slots_of. cbn [fmap list_fmap]. rewrite Htd, Hs. f_equal. apply list_fmap_ext. intros k e He.
    rewrite Htx; [done|]. by eapply list_elem_of_lookup_2. }
  assert (Hpi : pool !! i = Some (mk_msg_info 0 msg)).
  { unfold pool. rewrite list_lookup_alter_eq, list_lookup_insert_eq by lia. cbn [fmap option_fmap option_map mi_sem mi_msg].
    do 2 f_equal. pose proof (take_memcpy_0 (replicate 16 0) msg ltac:(cbn; lia)) as Ht.
    rewrite firstn_all2 in Ht; [done|]. rewrite length_memcpy. cbn. lia. }
  assert (Hpo : ∀ j, j ≠ i → pool !! j = ms_pool s !! j).
  { intros j Hj. unfold pool. by rewrite list_lookup_alter_ne, list_lookup_insert_ne. }
  split; [split|split_and!; try done].
  - unfold s'. cbn. by rewrite length_insert.
  - unfold s'. cbn [set_async set_pool ms_pool]. unfold pool. by rewrite length_alter, length_insert.
  - unfold s'. cbn [set_async set_pool ms_async_free]. rewrite <- H3, Hf. cbn [app]. by rewrite Permutation_middle.
  - rewrite Hsl. by apply NoDup_cons.
  - intros j mi Hj. change (ms_pool s' !! j) with (pool !! j) in Hj. rewrite Hsl. destruct (decide (j = i)) as [->|Hne].
    + rewrite Hpi in Hj. injection Hj as <-. rewrite decide_True by apply list_elem_of_here. done.
    + rewrite Hpo in Hj by done. destruct (H5 j mi Hj) as [Hl ->]. split; [done|].
      destruct (decide (j ∈ slots_of s u)) as [E|E].
      * rewrite decide_True; [done|]. by apply list_elem_of_further.
      * rewrite decide_False; [done|]. intros [?|?]%elem_of_cons; done.
  - intros e [->|He]%elem_of_cons; [by rewrite Htd, Hy, Hd, Hs|rewrite Htx by done; by apply H6].
  - unfold slot_msg. change (ms_pool s' !! i) with (pool !! i). by rewrite Hpi.
  - intros j Hj. unfold slot_msg. change (ms_pool s' !! j) with (pool !! j). by rewrite Hpo.
Qed.

(** *** The invariant of the system *)

Definition used (s : msgsys) : list nat := ms_tx_queue s ++ omap rx_sync (ms_woken s).

(** The queues: what a descriptor in a queue looks like, that no thread is
    there twice, and that no receiver waits while a message for it is queued. *)
Record queues_ok (s : msgsys) : Prop := {
  qo_tx : ∀ d, d ∈ ms_tx_queue s → tx_prio (tx_of s d) = -1 ∧ tx_info (tx_of s d) = 16 ∧ tx_size (tx_of s d) = 16;
  qo_rx : ∀ e, e ∈ ms_rx_queue s → rx_source e.2 = K_ANY ∧ rx_info e.2 = 16 ∧ rx_size e.2 = 16;
  qo_woken : ∀ rx, rx ∈ ms_woken s →
    ∃ d, rx_sync rx = Some d ∧ rx_data rx = Some (tx_data (tx_of s d)) ∧ rx_info rx = 16 ∧ rx_size rx = 16;
  qo_threads : NoDup (((λ e, rx_thread e.2) <$> ms_rx_queue s) ++ (rx_thread <$> ms_woken s));
  qo_quiet : ∀ d e, d ∈ ms_tx_queue s → e ∈ ms_rx_queue s → ¬ matches (tx_of s d) e.2;
}.
Definition msg_inv (s : msgsys) : Prop := store_ok (used s) s ∧ queues_ok s.

Lemma used_tx s d : d ∈ ms_tx_queue s → d ∈ used s.
Proof. intros. apply elem_of_app. by left. Qed.
Lemma used_woken s rx d : rx ∈ ms_woken s → rx_sync rx = Some d → d ∈ used s.
Proof. intros H Hd. apply elem_of_app. right. apply list_elem_of_omap. eauto. Qed.

(** What the messages under way stand for, seen from a state that agrees on
    them. *)
Lemma queued_same s s' (q : list nat) :
  (∀ d, d ∈ q → tx_target (tx_of s' d) = tx_target (tx_of s d) ∧ tx_source (tx_of s' d) = tx_source (tx_of s d) ∧
                slot_msg s' (tx_data (tx_of s' d)) = slot_msg s (tx_data (tx_of s d))) →
  queued s' <$> q = queued s <$> q.
Proof.
  intros H. apply list_fmap_ext. intros i d Hd. unfold queued.
  by destruct (H d ltac:(by eapply list_elem_of_lookup_2)) as (-> & -> & ->).
Qed.
Lemma handed_same s s' (l : list rx_msg) :
  (∀ rx i, rx ∈ l → rx_data rx = Some i → slot_msg s' i = slot_msg s i) → handed s' <$> l = handed s <$> l.
Proof.
  intros H. apply list_fmap_ext. intros i rx Hi. unfold handed. f_equal.
  destruct (rx_data rx) eqn:E; [|done]. eapply H; [by eapply list_elem_of_lookup_2|done].
Qed.

(** A receiver that takes from anybody matches by the target alone. *)
Lemma matches_any tx rx : rx_source rx = K_ANY → matches tx rx ↔ for_thread (rx_thread rx) (tx_target tx).
Proof. intros H. unfold matches, for_thread. tauto. Qed.

(** A change outside the descriptors in use. *)
Lemma queues_same s s' :
  queues_ok s → (∀ e, e ∈ used s → tx_of s' e = tx_of s e) → ms_tx_queue s' = ms_tx_queue s →
  ms_rx_queue s' = ms_rx_queue s → ms_woken s' = ms_woken s → queues_ok s'.
Proof.
  intros [Q1 Q2 Q3 Q4 Q5] Ho Ht Hr Hw. split; rewrite ?Ht, ?Hr, ?Hw; try done.
  - intros d Hd. rewrite Ho by (by apply used_tx). by apply Q1.
  - intros rx Hrx. destruct (Q3 rx Hrx) as (d & E1 & E2 & E3). exists d. by rewrite Ho by (by eapply used_woken).
  - intros d e Hd He. rewrite Ho by (by apply used_tx). by apply Q5.
Qed.

(** The queued and handed messages of a state that agrees on them. *)
Lemma abs_same u s s' :
  store_ok u s → queues_ok s → (∀ d, d ∈ used s' → d ∈ u) → (∀ e, e ∈ used s' → tx_of s' e = tx_of s e) →
  (∀ j, j ∈ slots_of s u → slot_msg s' j = slot_msg s j) → (∀ rx, rx ∈ ms_woken s' → rx ∈ ms_woken s) →
  (queued s' <$> ms_tx_queue s') = (queued s <$> ms_tx_queue s') ∧ (handed s' <$> ms_woken s') = (handed s <$> ms_woken s').
Proof.
  intros Hst Hq Hu Ho Hs Hw.
  assert (Hslot : ∀ d, d ∈ u → slot_msg s' (tx_data (tx_of s d)) = slot_msg s (tx_data (tx_of s d))).
  { intros d Hd. destruct (st_used u s Hst d Hd) as (_ & E & _). apply Hs. rewrite E. unfold slots_of.
    apply list_elem_of_fmap. eauto. }
  split.
  - apply queued_same. intros d Hd. pose proof (used_tx s' d Hd) as Hd'. rewrite Ho by done. by rewrite Hslot by auto.
  - apply handed_same. intros rx i Hrx Hi. destruct (qo_woken s Hq rx (Hw rx Hrx)) as (d & E1 & E2 & _).
    rewrite Hi in E2. injection E2 as ->. apply Hslot, Hu. by eapply used_woken.
Qed.

(** A descriptor rewritten in place keeps its slot. *)
Lemma set_desc_spec d tx s :
  store_ok (d :: used s) s → queues_ok s →
  tx_sync tx = d → tx_data tx = tx_data (tx_of s d) → tx_sem tx = tx_sem (tx_of s d) →
  let s' := set_async (<[d := tx]> (ms_async s)) (ms_async_free s) s in
  store_ok (d :: used s') s' ∧ queues_ok s' ∧ tx_of s' d = tx ∧ abs s' = abs s.
Proof.
  intros Hst Hq Hy Hd Hs s'. pose proof (store_nodup _ _ Hst) as Hnd. pose proof Hst as [H1 _ _ _ _ H6].
  destruct (H6 d (list_elem_of_here _ _)) as (Hy' & _ & _).
  assert (Hlt : (d < 30)%nat) by (apply (store_lt _ _ d Hst), elem_of_app; right; apply list_elem_of_here).
  assert (Ho : ∀ e, e ∈ used s → tx_of s' e = tx_of s e).
  { intros e He. unfold s'. rewrite tx_of_insert by lia. rewrite decide_False; [done|]. intros ->.
    apply NoDup_app in Hnd as (_ & _ & Hnd). by apply NoDup_cons in Hnd as [? _]. }
  assert (Htd : tx_of s' d = tx) by (unfold s'; rewrite tx_of_insert by lia; by rewrite decide_True).
  split_and!; [|by apply (queues_same s)|done|].
  - change (used s') with (used s). apply (store_same _ s); [done|unfold s'; cbn; by rewrite length_insert|done|done|].
    intros e [->|He]%elem_of_cons; [rewrite Htd; split_and!; congruence|by rewrite Ho].
  - destruct (abs_same (d :: used s) s s' Hst Hq) as [E1 E2]; try done.
    { intros e. apply list_elem_of_further. }
    unfold abs. rewrite E1, E2. done.
Qed.

(** A message handed to a waiting receiver. *)
Lemma hand_over_spec d i p rx m s :
  store_ok (d :: used s) s → queues_ok s → ms_rx_queue s !! i = Some (p, rx) →
  rx_thread m = rx_thread rx → rx_sync m = Some d → rx_data m = Some (tx_data (tx_of s d)) →
  rx_info m = 16 → rx_size m = 16 →
  let s' := set_rx (delete i (ms_rx_queue s)) (ms_woken s ++ [m]) s in
  msg_inv s' ∧
  abs s' = mk_spec (ms_threads s) (ms_listeners s) (sp_queue (abs s)) (delete i (sp_waiting (abs s)))
             (sp_woken (abs s) ++ [(rx_thread rx, slot_msg s (tx_data (tx_of s d)))]).
Proof.
  intros Hst [Q1 Q2 Q3 Q4 Q5] Hrx Ht Hy Hd Hi Hz s'.
  split; [split; [|split]|].
  - apply (store_perm (d :: used s)); [|apply (store_same _ s); try done; apply Hst].
    unfold used. cbn [s' set_rx ms_tx_queue ms_woken]. rewrite omap_app. cbn [omap list_omap]. rewrite Hy.
    rewrite Permutation_cons_append, <- (assoc_L (++)). done.
  - exact Q1.
  - intros e He. apply Q2. exact (list_elem_of_delete_inv _ _ _ He).
  - cbn [s' set_rx ms_woken]. intros r [Hr|Hr%list_elem_of_singleton]%elem_of_app; [by apply Q3|]. subst r. by exists d.
  - cbn [s' set_rx ms_rx_queue ms_woken]. rewrite fmap_app. cbn [fmap list_fmap]. rewrite Ht.
    rewrite (assoc_L (++)), Permutation_app_comm. cbn [app]. revert Q4. apply NoDup_Permutation_proper.
    rewrite (delete_Permutation (ms_rx_queue s) i _ Hrx) at 2. done.
  - intros e r He Hr. apply Q5; [done|]. exact (list_elem_of_delete_inv _ _ _ Hr).
  - unfold abs. cbn [s' set_rx ms_threads ms_listeners ms_tx_queue ms_rx_queue ms_woken
      sp_threads sp_listeners sp_queue sp_waiting sp_woken]. f_equal; [by rewrite list_fmap_delete|].
    rewrite fmap_app. cbn [fmap list_fmap]. unfold handed at 2. rewrite Hd, Ht. done.
Qed.

(** A message queued because no receiver waits for it. *)
Lemma enqueue_spec d s :
  store_ok (d :: used s) s → queues_ok s →
  tx_prio (tx_of s d) = -1 → tx_info (tx_of s d) = 16 → tx_size (tx_of s d) = 16 →
  Forall (λ e, ¬ matches (tx_of s d) e.2) (ms_rx_queue s) →
  let s' := set_tx_queue (pend (λ d, tx_prio (tx_of s d)) d (ms_tx_queue s)) s in
  msg_inv s' ∧
  abs s' = mk_spec (ms_threads s) (ms_listeners s) (sp_queue (abs s) ++ [queued s d]) (sp_waiting (abs s)) (sp_woken (abs s)).
Proof.
  intros Hst [Q1 Q2 Q3 Q4 Q5] Hp Hi Hz Hno s'.
  assert (Hq : ms_tx_queue s' = ms_tx_queue s ++ [d]).
  { apply pend_last. intros e He. destruct (Q1 e He) as [-> _]. lia. }
  split; [split; [|split]|].
  - apply (store_perm (d :: used s)); [|apply (store_same _ s); try done; apply Hst].
    unfold used. rewrite Hq. by rewrite (Permutation_app_comm _ [d]).
  - intros e. rewrite Hq. intros [He|He%list_elem_of_singleton]%elem_of_app; [by apply Q1|]. by subst e.
  - exact Q2.
  - exact Q3.
  - exact Q4.
  - intros e r. rewrite Hq. intros [He|He%list_elem_of_singleton]%elem_of_app Hr; [by apply Q5|].
    subst e. by apply (proj1 (Forall_forall _ _) Hno).
  - unfold abs. rewrite Hq, fmap_app. done.
Qed.

(** Putting a message into the mailbox. *)
Lemma put_spec cur d s :
  store_ok (d :: used s) s → queues_ok s →
  tx_prio (tx_of s d) = -1 → tx_info (tx_of s d) = 16 → tx_size (tx_of s d) = 16 →
  let s' := mbox_message_put cur d s in
  msg_inv s' ∧ abs s' = sp_put cur (tx_target (tx_of s d)) (slot_msg s (tx_data (tx_of s d))) (abs s).
Proof.
  intros Hst Hq Hp Hi Hz s'. destruct (st_used _ _ Hst d (list_elem_of_here _ _)) as (Hy & _ & _).
  unfold s', mbox_message_put. cbv zeta. set (tx := mk_tx_msg _ _ _ _ _ cur _ _).
  destruct (set_desc_spec d tx s Hst Hq Hy eq_refl eq_refl) as (Hst1 & Hq1 & Hd1 & Habs1). cbv zeta in *.
  set (s1 := set_async (<[d := tx]> (ms_async s)) (ms_async_free s) s) in *. rewrite <- Habs1.
  assert (Hfind : list_find (λ w, for_thread w.2 (tx_target (tx_of s d))) (sp_waiting (abs s1)) =
                  prod_map id (λ e, (e.1, rx_thread e.2)) <$> list_find (λ e, matches tx e.2) (ms_rx_queue s1)).
  { cbn [abs sp_waiting]. rewrite list_find_fmap. f_equal. apply list_find_ext_in. intros e He.
    exact (iff_sym (matches_any tx e.2 (proj1 (qo_rx s1 Hq1 e He)))). }
  unfold sp_put. rewrite Hfind. destruct (list_find _ (ms_rx_queue s1)) as [[i [p rx]]|] eqn:E;
    cbn [fmap option_fmap option_map prod_map id fst snd].
  - apply list_find_Some in E as (Hrx & _ & _).
    destruct (set_desc_spec d (matched_tx tx rx) s1 Hst1 Hq1) as (Hst2 & Hq2 & Hd2 & Habs2); [done|by rewrite Hd1..|]. cbv zeta in *.
    set (s2 := set_async _ _ s1) in *. rewrite <- Habs2.
    destruct (qo_rx s1 Hq1 (p, rx) (list_elem_of_lookup_2 _ _ _ Hrx)) as (_ & _ & Rz). cbn [snd] in Rz.
    destruct (hand_over_spec d i p rx (matched_rx tx rx) s2 Hst2 Hq2 Hrx eq_refl) as [Hinv Habs];
      [cbn; by rewrite Hy|by rewrite Hd2|done|cbn; rewrite Hz, Rz; done|].
    cbv zeta in *. split; [exact Hinv|]. etrans; [exact Habs|]. rewrite Hd2. done.
  - apply list_find_None in E.
    destruct (enqueue_spec d s1 Hst1 Hq1) as [Hinv Habs]; [by rewrite Hd1..|by rewrite Hd1|]. cbv zeta in *.
    split; [exact Hinv|]. etrans; [exact Habs|]. unfold queued. rewrite Hd1. done.
Qed.

(** *** The operations *)

Lemma abs_idle cur s : idle_thread cur s ↔ sp_idle cur (abs s).
Proof.
  unfold idle_thread, sp_idle. cbn [abs sp_threads sp_waiting sp_woken]. by rewrite <- !list_fmap_compose.
Qed.

Lemma used_length s : msg_inv s → length (used s) = sp_under_way (abs s).
Proof.
  intros [_ [_ _ Hw _ _]]. unfold used, sp_under_way, abs. cbn [sp_queue sp_woken]. rewrite length_app, !length_fmap. f_equal.
  induction (ms_woken s) as [|rx l IH]; [done|]. destruct (Hw rx (list_elem_of_here _ _)) as (d & Hd & _).
  cbn [omap list_omap]. rewrite Hd. cbn [length]. f_equal. apply IH. intros r Hr. apply Hw. by apply list_elem_of_further.
Qed.

Lemma inv_threads m s : msg_inv s → msg_inv (set_threads m s).
Proof. intros [[] []]. by split; split. Qed.
Lemma inv_listeners l s : msg_inv s → msg_inv (set_listeners l s).
Proof. intros [[] []]. by split; split. Qed.

(** Taking the data of a message. *)
Lemma data_get_spec u d rx s :
  store_ok (d :: u) s → rx_sync rx = Some d → rx_data rx = Some (tx_data (tx_of s d)) → rx_size rx = 16 →
  (k_mbox_data_get rx (replicate 16 0) s) = (slot_msg s (tx_data (tx_of s d)), mbox_message_dispose rx s).
Proof.
  intros Hst Hy Hd Hz. unfold k_mbox_data_get. rewrite Hd, Hz. change (0 <? 16) with true. cbv iota. f_equal.
  destruct Hst as [_ Hl _ _ H5 H6]. destruct (H6 d (list_elem_of_here _ _)) as (_ & E & Hlt).
  unfold slot_msg. destruct (lookup_lt_is_Some_2 (ms_pool s) (tx_data (tx_of s d)) ltac:(lia)) as [mi Hmi]. rewrite Hmi.
  destruct (H5 _ mi Hmi) as [Hlen _]. rewrite firstn_all2 by (cbn; lia).
  pose proof (take_memcpy_0 (replicate 16 0) (mi_msg mi) ltac:(cbn; lia)) as Ht.
  rewrite firstn_all2 in Ht; [done|]. rewrite length_memcpy. cbn. lia.
Qed.

(** The invariant after a message has left: [tx'] and [wk'] are the queues
    without it. *)
Lemma dispose_inv d rx s :
  store_ok (d :: used s) s → queues_ok s → rx_sync rx = Some d →
  let s' := mbox_message_dispose rx s in
  msg_inv s' ∧ abs s' = abs s ∧ ms_tx_queue s' = ms_tx_queue s ∧ (∀ e, e ∈ used s → tx_of s' e = tx_of s e) ∧
  (∀ i, slot_msg s' i = slot_msg s i) ∧ ms_rx_queue s' = ms_rx_queue s ∧ ms_woken s' = ms_woken s.
Proof.
  intros Hst Hq Hd. cbv zeta.
  destruct (dispose_spec (used s) d rx s Hst Hd) as (Hst' & Ho & Hs & Ht & Hl & Hx & Hr & Hw). cbv zeta in *.
  set (s' := mbox_message_dispose rx s) in *.
  assert (Hu : used s' = used s) by (unfold used; by rewrite Hx, Hw).
  split_and!; try done.
  - split; [by rewrite Hu|]. by apply (queues_same s).
  - destruct (abs_same (d :: used s) s s' Hst Hq) as [E1 E2].
    + intros e. rewrite Hu. apply list_elem_of_further.
    + intros e. rewrite Hu. apply Ho.
    + done.
    + intros r. by rewrite Hw.
    + unfold abs. rewrite E1, E2, Ht, Hl, Hx, Hr, Hw. done.
Qed.

Lemma queues_sub s s' :
  queues_ok s → (∀ e, e ∈ used s' → tx_of s' e = tx_of s e) → (∀ d, d ∈ ms_tx_queue s' → d ∈ ms_tx_queue s) →
  (∀ e, e ∈ ms_rx_queue s' → e ∈ ms_rx_queue s) → (∀ r, r ∈ ms_woken s' → r ∈ ms_woken s) →
  NoDup (((λ e, rx_thread e.2) <$> ms_rx_queue s') ++ (rx_thread <$> ms_woken s')) → queues_ok s'.
Proof.
  intros [Q1 Q2 Q3 Q4 Q5] Ho Ht Hr Hw Hn. split; [|auto| |done|].
  - intros d Hd. rewrite Ho by (by apply used_tx). auto.
  - intros rx Hrx. destruct (Q3 rx (Hw _ Hrx)) as (d & E1 & E2 & E3). exists d. by rewrite Ho by (by eapply used_woken).
  - intros d e Hd He. rewrite Ho by (by apply used_tx). auto.
Qed.

(** The state between the match and the disposal of a queued message; the
    descriptor keeps its slot. *)
Definition unqueued (d : nat) (tx : tx_msg) (q : list nat) (s : msgsys) : msgsys :=
  set_tx_queue q (set_async (<[d := tx]> (ms_async s)) (ms_async_free s) s).

Lemma unqueued_spec d tx q s :
  msg_inv s → ms_tx_queue s ≡ₚ d :: q → tx_sync tx = tx_sync (tx_of s d) → tx_data tx = tx_data (tx_of s d) →
  tx_sem tx = tx_sem (tx_of s d) →
  let s' := unqueued d tx q s in
  store_ok (d :: used s') s' ∧ queues_ok s' ∧ tx_of s' d = tx ∧ (∀ e, e ∈ used s' → tx_of s' e = tx_of s e) ∧
  abs s' = mk_spec (ms_threads s) (ms_listeners s) (queued s <$> q) (sp_waiting (abs s)) (sp_woken (abs s)).
Proof.
  intros [Hst Hq] Hp Hy Hd Hs s'.
  assert (Hu : used s ≡ₚ d :: used s').
  { unfold used, s', unqueued. cbn [set_tx_queue set_async ms_tx_queue ms_woken]. by rewrite Hp. }
  apply (store_perm _ _ _ Hu) in Hst. pose proof (store_nodup _ _ Hst) as Hnd. pose proof (st_async _ _ Hst) as Hl.
  assert (Hlt : (d < 30)%nat) by (apply (store_lt _ _ d Hst), elem_of_app; right; apply list_elem_of_here).
  assert (Hof : ∀ e, tx_of s' e = if decide (e = d) then tx else tx_of s e).
  { intros e. change (tx_of s' e) with (tx_of (set_async (<[d := tx]> (ms_async s)) (ms_async_free s) s) e).
    apply tx_of_insert. lia. }
  assert (Ho : ∀ e, e ∈ used s' → tx_of s' e = tx_of s e).
  { intros e He. rewrite Hof, decide_False; [done|]. intros ->. apply NoDup_app in Hnd as (_ & _ & Hnd).
    by apply NoDup_cons in Hnd as [? _]. }
  assert (Htd : tx_of s' d = tx) by (by rewrite Hof, decide_True).
  split_and!; try done.
  - apply (store_same _ s); [done|unfold s', unqueued; cbn; by rewrite length_insert|done|done|].
    intros e [->|He]%elem_of_cons; [by rewrite Htd|by rewrite Ho].
  - apply (queues_sub s); try done; [|apply Hq]. intros e He. rewrite Hp. by apply list_elem_of_further.
  - destruct (abs_same (d :: used s') s s' Hst Hq) as [E1 E2]; try done.
    { intros e. apply list_elem_of_further. }
    unfold abs. rewrite E1, E2. done.
Qed.

Lemma receive_refines cur wait s r s' :
  msg_inv s → idle_thread cur s → os_receive_msg cur wait s = (r, s') →
  msg_inv s' ∧ sp_exec (OpReceive cur wait) (abs s) = Some (ResRecv r, abs s').
Proof.
  intros Hinv Hidle. unfold os_receive_msg, k_mbox_get. cbn [sp_exec].
  rewrite decide_True by (by apply abs_idle). set (rx := mk_rx_msg cur K_ANY APP_MSG_SIZE APP_MSG_SIZE None None).
  assert (Hfind : list_find (λ e, for_thread cur e.1.1) (sp_queue (abs s)) =
                  prod_map id (queued s) <$> list_find (λ d, matches (tx_of s d) rx) (ms_tx_queue s)).
  { cbn [abs sp_queue]. rewrite list_find_fmap. f_equal. apply list_find_ext. intros d.
    exact (iff_sym (matches_any (tx_of s d) rx eq_refl)). }
  rewrite Hfind. destruct (list_find _ (ms_tx_queue s)) as [[i d]|] eqn:E; cbn [fmap option_fmap option_map prod_map id fst snd].
  - apply list_find_Some in E as (Hi & _ & _). pose proof (delete_Permutation _ _ _ Hi) as Hp.
    pose proof Hinv as [Hst Hq]. pose proof (list_elem_of_lookup_2 _ _ _ Hi) as Hin.
    destruct (qo_tx s Hq d Hin) as (_ & Ei & Ez).
    destruct (st_used _ _ Hst d (used_tx s d Hin)) as (Ey & _ & _).
    destruct (unqueued_spec d (matched_tx (tx_of s d) rx) (delete i (ms_tx_queue s)) s Hinv Hp eq_refl eq_refl eq_refl)
      as (Hst1 & Hq1 & Htd & Ho1 & Habs1). cbv zeta in *.
    cbv zeta. change (set_tx_queue (delete i (ms_tx_queue s)) (set_async (<[d:=matched_tx (tx_of s d) rx]> (ms_async s)) (ms_async_free s) s))
      with (unqueued d (matched_tx (tx_of s d) rx) (delete i (ms_tx_queue s)) s).
    set (s1 := unqueued _ _ _ s) in *. set (m := matched_rx (tx_of s d) rx).
    assert (Hm : rx_sync m = Some d ∧ rx_data m = Some (tx_data (tx_of s1 d)) ∧ rx_size m = 16 ∧ rx_info m = 16).
    { rewrite Htd. cbn [m matched_rx rx_sync rx_data rx_size rx_info matched_tx tx_data]. rewrite Ey, Ei, Ez. done. }
    destruct Hm as (M1 & M2 & M3 & M4). rewrite (data_get_spec (used s1) d m s1 Hst1 M1 M2 M3).
    unfold os_receive_done. rewrite M3, M4. change (16 =? 16) with true. cbn [negb]. intros [= <- <-].
    destruct (dispose_inv d m s1 Hst1 Hq1 M1) as (Hinv' & Habs & _). cbv zeta in *. split; [done|].
    rewrite Habs, Habs1, list_fmap_delete. cbn [queued]. do 3 f_equal. rewrite Htd. done.
  - destruct wait; cbn [negb].
    + intros [= <- <-]. set (s1 := set_rx _ _ s). pose proof Hinv as [Hst Hq]. split.
      * split; [by apply (store_same _ s); try apply Hst|]. destruct Hq as [Q1 Q2 Q3 Q4 Q5].
        assert (Hrx : ∀ e, e ∈ ms_rx_queue s1 → e.2 = rx ∨ e ∈ ms_rx_queue s).
        { intros e. cbn [s1 set_rx ms_rx_queue]. rewrite pend_perm. intros [->|]%elem_of_cons; auto. }
        split; [exact Q1| |exact Q3| |].
        -- intros e [He|He]%Hrx; [rewrite He; done|by apply Q2].
        -- cbn [s1 set_rx ms_rx_queue ms_woken]. rewrite pend_perm. cbn [fmap list_fmap app snd rx rx_thread].
           destruct Hidle as (_ & _ & H1 & H2). apply NoDup_cons. split; [|exact Q4]. rewrite elem_of_app. tauto.
        -- intros d e Hd [He|He]%Hrx; [|by apply Q5]. rewrite He. apply list_find_None in E.
           rewrite Forall_forall in E. by apply E.
      * do 2 f_equal. unfold abs. cbn [s1 set_rx ms_threads ms_listeners ms_tx_queue ms_rx_queue ms_woken
          sp_threads sp_listeners sp_queue sp_waiting sp_woken]. f_equal.
        by apply (pend_fmap (λ e : Z * rx_msg, (e.1, rx_thread e.2)) fst fst (default 0 (ms_threads s !! cur), rx)).
    + intros [= <- <-]. done.
Qed.

Lemma resume_refines cur s :
  msg_inv s →
  match os_receive_resume cur s with
  | Some (r, s') => msg_inv s' ∧ sp_exec (OpResume cur) (abs s) = Some (ResRecv r, abs s')
  | None => sp_exec (OpResume cur) (abs s) = None
  end.
Proof.
  intros Hinv. unfold os_receive_resume. cbn [sp_exec].
  assert (Hfind : list_find (λ w, w.1 = cur) (sp_woken (abs s)) =
                  prod_map id (handed s) <$> list_find (λ rx, rx_thread rx = cur) (ms_woken s)).
  { cbn [abs sp_woken]. by rewrite list_find_fmap. }
  rewrite Hfind. destruct (list_find _ (ms_woken s)) as [[i rx]|] eqn:E; [|done].
  cbn [fmap option_fmap option_map prod_map id fst snd mbind option_bind].
  apply list_find_Some in E as (Hi & Ht & _). pose proof Hinv as [Hst Hq].
  destruct (qo_woken s Hq rx (list_elem_of_lookup_2 _ _ _ Hi)) as (d & Ey & Ed & Ei & Ez).
  set (s1 := set_rx _ _ s). pose proof (delete_Permutation _ _ _ Hi) as Hp.
  assert (Hu : used s ≡ₚ d :: used s1).
  { unfold used, s1. cbn [set_rx ms_tx_queue ms_woken]. rewrite Hp at 1. cbn [omap list_omap]. rewrite Ey.
    by rewrite Permutation_middle. }
  assert (Hst1 : store_ok (d :: used s1) s1).
  { apply (store_same _ s); [by apply (store_perm (used s))|apply Hst|done|done|done]. }
  assert (Hq1 : queues_ok s1).
  { apply (queues_sub s); try done; [intros r; apply list_elem_of_delete_inv|].
    pose proof (qo_threads s Hq) as Hn. rewrite Hp in Hn. cbn [fmap list_fmap] in Hn. rewrite <- Permutation_middle in Hn.
    by apply NoDup_cons in Hn as [_ Hn]. }
  rewrite (data_get_spec (used s1) d rx s1 Hst1 Ey Ed Ez).
  destruct (dispose_inv d rx s1 Hst1 Hq1 Ey) as (Hinv' & Habs & _). cbv zeta in *.
  unfold os_receive_done. rewrite Ei, Ez. change (16 =? 16) with true. cbn [negb]. split; [done|].
  rewrite Habs. unfold handed at 1. rewrite Ed. do 2 f_equal. unfold abs. cbn [s1 set_rx ms_threads ms_listeners ms_tx_queue
    ms_rx_queue ms_woken sp_threads sp_listeners sp_queue sp_waiting sp_woken]. f_equal. by rewrite list_fmap_delete.
Qed.

Lemma timeout_refines cur s :
  msg_inv s →
  match os_receive_timeout cur s with
  | Some (r, s') => msg_inv s' ∧ sp_exec (OpTimeout cur) (abs s) = Some (ResRecv r, abs s')
  | None => sp_exec (OpTimeout cur) (abs s) = None
  end.
Proof.
  intros [Hst Hq]. unfold os_receive_timeout. cbn [sp_exec].
  assert (Hfind : list_find (λ w, w.2 = cur) (sp_waiting (abs s)) =
                  prod_map id (λ e, (e.1, rx_thread e.2)) <$> list_find (λ e, rx_thread e.2 = cur) (ms_rx_queue s)).
  { cbn [abs sp_waiting]. by rewrite list_find_fmap. }
  rewrite Hfind. destruct (list_find _ (ms_rx_queue s)) as [[i e]|] eqn:E; [|done].
  cbn [fmap option_fmap option_map prod_map id fst snd mbind option_bind].
  apply list_find_Some in E as (Hi & Ht & _). set (s1 := set_rx _ _ s). split.
  - split; [by apply (store_same _ s); try apply Hst|].
    apply (queues_sub s); try done; [intros r; apply list_elem_of_delete_inv|].
    pose proof (qo_threads s Hq) as Hn. rewrite (delete_Permutation _ _ _ Hi) in Hn. cbn [fmap list_fmap app] in Hn.
    by apply NoDup_cons in Hn as [_ Hn].
  - do 2 f_equal. unfold abs. cbn [s1 set_rx ms_threads ms_listeners ms_tx_queue
    ms_rx_queue ms_woken sp_threads sp_listeners sp_queue sp_waiting sp_woken]. f_equal. by rewrite list_fmap_delete.
Qed.

(** Sending below the manager. *)
Lemma os_send_refines cur target msg s :
  msg_inv s → ms_threads s !! cur = Some (-1) → length msg = 16%nat →
  ∃ ret s', os_send_async_msg cur target msg s = Some (ret, s') ∧ msg_inv s' ∧
    if decide (sp_under_way (abs s) < 30)%nat then ret = 0 ∧ abs s' = sp_put cur target msg (abs s)
    else ret = - ENOMEM ∧ s' = s.
Proof.
  intros Hinv Hprio Hm. pose proof Hinv as [Hst Hq]. unfold os_send_async_msg.
  rewrite <- (used_length s Hinv). pose proof (get_free_spec (used s) s Hst) as Hfree.
  destruct (msg_pool_get_free_msg_info s) as [[i s0]|].
  2: { exists (- ENOMEM), s. split_and!; [done|done|]. destruct (decide _); [lia|done]. }
  destruct Hfree as (Hlen & Hi & Hni & ->).
  pose proof (store_length _ _ Hst) as [_ Hsum]. unfold k_mbox_async_put.
  cbn [set_pool ms_async_free ms_threads ms_async]. rewrite Hprio.
  destruct (ms_async_free s) as [|d free] eqn:Ef; [cbn [length] in Hsum; lia|]. cbn [default mbind option_bind].
  set (tx := mk_tx_msg (-1) APP_MSG_SIZE APP_MSG_SIZE i target 0 d i).
  destruct (take_spec (used s) s i d free tx msg Hst Hni Hi Ef Hm eq_refl eq_refl eq_refl)
    as (Hst2 & Ho & Htd & Hmsg & Hoth). cbv zeta in *.
  set (pool := alter _ i _) in *. set (s2 := set_async _ free (set_pool pool s)) in *.
  assert (Hu : used s2 = used s) by done.
  assert (Hq2 : queues_ok s2) by (by apply (queues_same s)).
  destruct (put_spec cur d s2) as [Hinv' Habs]; [by rewrite Hu|done|by rewrite Htd..|].
  eexists _, _. split; [reflexivity|]. split; [exact Hinv'|]. destruct (decide _); [|lia].
  split; [done|]. etrans; [exact Habs|]. rewrite Htd. cbn [tx tx_target tx_data].
  rewrite Hmsg. f_equal. destruct (abs_same (used s) s s2 Hst Hq) as [E1 E2]; try done.
  { intros j Hj. apply Hoth. by intros ->. }
  unfold abs. rewrite E1, E2. done.
Qed.

Lemma sp_put_threads cur target m th a :
  sp_put cur target m (mk_spec th (sp_listeners a) (sp_queue a) (sp_waiting a) (sp_woken a)) =
  let b := sp_put cur target m a in mk_spec th (sp_listeners b) (sp_queue b) (sp_waiting b) (sp_woken b).
Proof. unfold sp_put. cbn [sp_waiting]. by destruct (list_find _ _) as [[? [? ?]]|]. Qed.

Lemma send_refines cur receiver msg s :
  msg_inv s → idle_thread cur s → length msg = 16%nat →
  ∃ r s', msg_manager_send_async_msg cur receiver msg s = Some (r, s') ∧ msg_inv s' ∧
    sp_exec (OpSend cur receiver msg) (abs s) = Some (ResBool r, abs s').
Proof.
  intros Hinv Hidle Hm. pose proof Hidle as (_ & (prio & Hp) & _). cbn [sp_exec].
  rewrite decide_True by (split; [by apply abs_idle|done]). unfold msg_manager_send_async_msg. rewrite Hp. cbn [default from_option id].
  set (s0 := set_threads (<[cur := -1]> (ms_threads s)) s).
  assert (Hback : <[cur := prio]> (<[cur := -1]> (ms_threads s)) = ms_threads s) by (by rewrite insert_insert_eq, insert_id).
  assert (Hid : set_threads (<[cur := prio]> (ms_threads s0)) s0 = s).
  { unfold s0. cbn [set_threads ms_threads]. rewrite Hback. by destruct s. }
  set (target := if decide (receiver = ALL_RECEIVER_NAME) then K_ANY else msg_manager_listener_tid receiver s0).
  assert (Ht : sp_target receiver (abs s) = if decide (receiver ≠ ALL_RECEIVER_NAME ∧ target = 0) then None else Some target).
  { unfold sp_target, target. cbn [abs sp_listeners]. destruct (decide (receiver = ALL_RECEIVER_NAME)) as [E|E].
    - rewrite decide_False; [done|]. by intros [? _].
    - unfold msg_manager_listener_tid, msg_manager_find_by_name. cbn [s0 set_threads ms_listeners].
      destruct (list_find _ (ms_listeners s)) as [[? l]|]; [|by rewrite decide_True].
      destruct (Z.eqb_spec l.2 0) as [E0|E0]; [by rewrite decide_True|]. rewrite decide_False; [done|]. by intros [_ ?]. }
  rewrite Ht. clearbody target. destruct (decide (receiver ≠ ALL_RECEIVER_NAME ∧ target = 0)) as [Hno|_].
  { eexists _, _. split; [reflexivity|]. rewrite Hid. done. }
  destruct (os_send_refines cur target msg s0) as (ret & s1 & Hrun & Hinv1 & Hres);
    [by apply inv_threads|unfold s0; cbn; by rewrite lookup_insert_eq|done|].
  rewrite Hrun. cbn [mbind option_bind]. eexists _, _. split; [reflexivity|]. split; [by apply inv_threads|].
  change (sp_under_way (abs s0)) with (sp_under_way (abs s)) in Hres. destruct (decide _) as [Hlt|Hge].
  - destruct Hres as [-> Habs]. change (0 =? 0) with true. do 2 f_equal.
    change (abs (set_threads ?m ?x)) with (mk_spec m (sp_listeners (abs x)) (sp_queue (abs x)) (sp_waiting (abs x)) (sp_woken (abs x))).
    assert (Hth : ms_threads s1 = <[cur := -1]> (ms_threads s)).
    { change (ms_threads s1) with (sp_threads (abs s1)). rewrite Habs. unfold sp_put.
      by destruct (list_find _ _) as [[? [? ?]]|]. }
    rewrite Hth, Hback, Habs. rewrite <- sp_put_threads. done.
  - destruct Hres as [-> ->]. change (- ENOMEM =? 0) with false. by rewrite Hid.
Qed.

Lemma filter_out (d : nat) (q : list nat) : NoDup q → d ∈ q → q ≡ₚ d :: filter (λ e, e ≠ d) q.
Proof.
  induction q as [|x q IH]; intros Hn Hd; [by apply elem_of_nil in Hd|]. apply NoDup_cons in Hn as [Hx Hn].
  destruct (decide (x = d)) as [->|Hne].
  - rewrite filter_cons_False by tauto. f_equiv. symmetry. apply reflexive_eq, filter_all.
    intros y Hy ->. done.
  - rewrite filter_cons_True by done. apply elem_of_cons in Hd as [->|Hd]; [done|].
    rewrite Permutation_swap. by rewrite <- IH.
Qed.

Lemma tx_queue_nodup s : msg_inv s → NoDup (ms_tx_queue s).
Proof.
  intros [Hst _]. apply store_nodup in Hst. apply NoDup_app in Hst as (_ & _ & Hn). by apply NoDup_app in Hn as (Hn & _).
Qed.

(** What stays when messages leave the queue unread. *)
Record kept (s s' : msgsys) : Prop := {
  kp_tx e : e ∈ ms_tx_queue s' → e ∈ ms_tx_queue s ∧ tx_of s' e = tx_of s e;
  kp_slot i : slot_msg s' i = slot_msg s i;
  kp_rest : ms_threads s' = ms_threads s ∧ ms_listeners s' = ms_listeners s ∧
            ms_rx_queue s' = ms_rx_queue s ∧ ms_woken s' = ms_woken s;
}.

Lemma kept_abs s s' :
  kept s s' →
  abs s' = mk_spec (ms_threads s) (ms_listeners s) (queued s <$> ms_tx_queue s') (sp_waiting (abs s)) (sp_woken (abs s)).
Proof.
  intros [K1 K2 (K3 & K4 & K5 & K6)]. unfold abs. rewrite K3, K4, K5, K6. f_equal.
  - apply queued_same. intros d Hd. destruct (K1 d Hd) as [_ ->]. by rewrite K2.
  - apply handed_same. intros. apply K2.
Qed.

Lemma kept_trans s1 s2 s3 : kept s1 s2 → kept s2 s3 → kept s1 s3.
Proof.
  intros [A1 A2 (A3 & A4 & A5 & A6)] [B1 B2 (B3 & B4 & B5 & B6)]. split; [|intros; by rewrite B2|split_and!; congruence].
  intros e He. destruct (B1 e He) as [He' ->]. by apply A1.
Qed.

(** One message discarded. *)
Lemma discard_spec d tx' m s :
  msg_inv s → d ∈ ms_tx_queue s → tx_sync tx' = d → tx_data tx' = tx_data (tx_of s d) → tx_sem tx' = tx_sem (tx_of s d) →
  rx_sync m = Some d →
  let s' := mbox_message_dispose m (unqueued d tx' (filter (λ e, e ≠ d) (ms_tx_queue s)) s) in
  msg_inv s' ∧ kept s s' ∧ ms_tx_queue s' = filter (λ e, e ≠ d) (ms_tx_queue s).
Proof.
  intros Hinv Hd Hy Hx Hs Hm. cbv zeta. pose proof (filter_out d _ (tx_queue_nodup s Hinv) Hd) as Hp.
  destruct (st_used _ _ (proj1 Hinv) d (used_tx s d Hd)) as (Ey & _ & _).
  destruct (unqueued_spec d tx' _ s Hinv Hp) as (Hst1 & Hq1 & _ & Ho1 & _); [congruence|done|done|]. cbv zeta in *.
  set (s1 := unqueued _ _ _ s) in *.
  destruct (dispose_spec (used s1) d m s1 Hst1 Hm) as (_ & _ & _ & T1 & T2 & _). cbv zeta in *.
  destruct (dispose_inv d m s1 Hst1 Hq1 Hm) as (Hinv' & _ & Hq' & Ho' & Hs' & Hr' & Hw'). cbv zeta in *.
  set (s' := mbox_message_dispose m s1) in *.
  split_and!; [done| |by rewrite Hq']. split; [|intros i; by rewrite Hs'|split_and!; [exact T1|exact T2|exact Hr'|exact Hw']].
  intros e. rewrite Hq'. intros He. split; [by apply list_elem_of_filter in He as [_ ?]|].
  rewrite Ho' by exact (used_tx s1 e He). apply Ho1. exact (used_tx s1 e He).
Qed.

Lemma delete_loop_spec f l s :
  msg_inv s → NoDup l → (∀ d, d ∈ l → d ∈ ms_tx_queue s) →
  ∃ s', delete_loop f l s = (Z.of_nat (length (filter (λ d, f (tx_of s d)) l)), s') ∧ msg_inv s' ∧ kept s s' ∧
    ms_tx_queue s' = filter (λ d, ¬ (d ∈ l ∧ f (tx_of s d))) (ms_tx_queue s).
Proof.
  revert s. induction l as [|d l IH]; intros s Hinv Hn Hl.
  { exists s. split_and!; [done|done|by split|]. symmetry. apply filter_all. intros e _ [[]%elem_of_nil _]. }
  apply NoDup_cons in Hn as [Hd Hn]. cbn [delete_loop]. pose proof (Hl d (list_elem_of_here _ _)) as Hdq.
  destruct (st_used _ _ (proj1 Hinv) d (used_tx s d Hdq)) as (Ey & _ & _).
  destruct (f (tx_of s d)) eqn:Ef.
  - cbv zeta. set (any := mk_tx_msg _ _ _ _ K_ANY _ _ _). set (rx0 := mk_rx_msg 0 _ _ _ _ _).
    change (set_tx_queue (filter (λ e, e ≠ d) (ms_tx_queue s)) (set_async (<[d := matched_tx any rx0]> (ms_async s)) (ms_async_free s) s))
      with (unqueued d (matched_tx any rx0) (filter (λ e, e ≠ d) (ms_tx_queue s)) s).
    destruct (discard_spec d (matched_tx any rx0) (discard_rx any) s Hinv Hdq) as (Hinv1 & K1 & Hq1);
      [exact Ey|done|done|cbn; by rewrite Ey|]. cbv zeta in *. set (s1 := mbox_message_dispose _ _) in *.
    assert (Hf : ∀ e, e ∈ l → tx_of s1 e = tx_of s e ∧ e ∈ ms_tx_queue s1).
    { intros e He. assert (Hin : e ∈ ms_tx_queue s1).
      { rewrite Hq1. apply list_elem_of_filter. split; [by intros ->|]. apply Hl. by apply list_elem_of_further. }
      split; [|done]. by apply (kp_tx _ _ K1). }
    destruct (IH s1 Hinv1 Hn (λ e He, proj2 (Hf e He))) as (s' & -> & Hinv' & K' & Hq').
    exists s'. split_and!; [|done|by eapply kept_trans|].
    + rewrite filter_cons_True by (by rewrite Ef). cbn [length]. f_equal.
      assert (filter (λ e, f (tx_of s1 e)) l = filter (λ e, f (tx_of s e)) l) as ->; [|lia].
      apply filter_ext_in. intros e He. by rewrite (proj1 (Hf e He)).
    + rewrite Hq', Hq1, list_filter_filter. apply filter_ext_in. intros e He.
      rewrite elem_of_cons. split.
      * intros [H1 H2] [[H3|H3] H4]; [done|]. apply H1. split; [done|]. by rewrite (proj1 (Hf e H3)).
      * intros H. split; [|intros ->; apply H; split; [by left|by rewrite Ef]].
        intros [H1 H2]. apply H. split; [by right|]. by rewrite <- (proj1 (Hf e H1)).
  - destruct (IH s Hinv Hn) as (s' & -> & Hinv' & K' & Hq'); [intros e He; apply Hl; by apply list_elem_of_further|].
    exists s'. split_and!; [|done|done|].
    + rewrite filter_cons_False by (rewrite Ef; by intros []). done.
    + rewrite Hq'. apply filter_ext_in. intros e _. rewrite elem_of_cons. split.
      * intros H1 [[H3|H3] H4]; [by rewrite H3, Ef in H4|by apply H1].
      * intros H1 [H2 H3]. apply H1. auto.
Qed.

Lemma delete_refines f s :
  msg_inv s →
  let r := os_msg_delete f s in
  msg_inv r.2 ∧ sp_exec (OpDelete f) (abs s) = Some (ResCount r.1, abs r.2).
Proof.
  intros Hinv r. unfold r, os_msg_delete, k_mbox_delete_msg.
  set (g := λ tx, f (slot_msg s (tx_data tx)) (tx_target tx) (tx_source tx)).
  destruct (delete_loop_spec g (ms_tx_queue s) s Hinv (tx_queue_nodup s Hinv) ltac:(done)) as (s' & -> & Hinv' & K & Hq).
  cbn [fst snd sp_exec]. split; [done|]. rewrite (kept_abs s s' K), Hq. do 2 f_equal; cbn [abs sp_queue].
  - do 2 f_equal. rewrite filter_map, length_fmap. done.
  - rewrite filter_map. f_equal. f_equal. apply filter_ext_in. intros d Hd. cbn. tauto.
Qed.

Lemma drop_all_refines s :
  msg_inv s → msg_inv (k_mbox_clear_msg s) ∧ sp_exec OpDropAll (abs s) = Some (ResCount 0, abs (k_mbox_clear_msg s)).
Proof.
  intros Hinv. unfold k_mbox_clear_msg, k_mbox_delete_msg.
  destruct (delete_loop_spec (λ _, true) (ms_tx_queue s) s Hinv (tx_queue_nodup s Hinv) ltac:(done)) as (s' & -> & Hinv' & K & Hq).
  cbn [snd sp_exec]. split; [done|]. rewrite (kept_abs s s' K).
  assert (ms_tx_queue s' = []) as ->; [|done]. rewrite Hq.
  destruct (filter _ _) as [|d l] eqn:E; [done|].
  assert (Hd : d ∈ d :: l) by apply list_elem_of_here. rewrite <- E in Hd. apply list_elem_of_filter in Hd as [H Hd].
  destruct H. done.
Qed.

(** Every operation follows the specification. *)
Lemma msg_exec_refines op s :
  msg_inv s →
  match msg_exec op s with
  | Some (r, s') => msg_inv s' ∧ sp_exec op (abs s) = Some (r, abs s')
  | None => sp_exec op (abs s) = None
  end.
Proof.
  intros Hinv. destruct op as [cur receiver msg|cur wait|cur|cur| |f|name tid memory|name]; cbn [msg_exec].
  - destruct (decide (idle_thread cur s ∧ length msg = 16%nat)) as [[H1 H2]|H].
    + destruct (send_refines cur receiver msg s Hinv H1 H2) as (r & s' & -> & Hi & He). done.
    + cbn [sp_exec]. rewrite decide_False; [done|]. intros [H1%abs_idle H2]. by apply H.
  - destruct (decide (idle_thread cur s)) as [H|H].
    + destruct (os_receive_msg cur wait s) as [r s'] eqn:E. by apply (receive_refines cur wait s r s').
    + cbn [sp_exec]. rewrite decide_False; [done|]. by intros H1%abs_idle.
  - pose proof (resume_refines cur s Hinv) as H. by destruct (os_receive_resume cur s) as [[r s']|].
  - pose proof (timeout_refines cur s Hinv) as H. by destruct (os_receive_timeout cur s) as [[r s']|].
  - by apply drop_all_refines.
  - pose proof (delete_refines f s Hinv) as H. by destruct (os_msg_delete f s).
  - cbn [sp_exec]. destruct memory; [split; [by apply inv_listeners|done]|done].
  - unfold msg_manager_remove_listener, msg_manager_find_by_name. cbn [sp_exec abs sp_listeners].
    destruct (list_find _ (ms_listeners s)) as [[i l]|]; [split; [by apply inv_listeners|done]|done].
Qed.

(** ** Order and loss

    Seen from one receiver: what has been sent to it, what it has received and
    what is pending for it, a message handed to it first. *)

Definition sent_to (t : Z) (op : msg_op) (r : msg_res) (s : msgsys) : list (list Z) :=
  match op, r with
  | OpSend _ receiver m, ResBool true => if decide (sp_target receiver (abs s) = Some t) then [m] else []
  | _, _ => []
  end.
Definition received_by (t : Z) (op : msg_op) (r : msg_res) : list (list Z) :=
  match op, r with
  | OpReceive cur _, ResRecv (RMsg m) | OpResume cur, ResRecv (RMsg m) => if decide (cur = t) then [m] else []
  | _, _ => []
  end.
Definition pending_for (t : Z) (a : spec) : list (list Z) :=
  (filter (λ w, w.1 = t) (sp_woken a)).*2 ++ (filter (λ e, e.1.1 = t) (sp_queue a)).*2.

(** A run of operations, with the two logs. *)
Fixpoint msg_run (t : Z) (ops : list msg_op) (s : msgsys) : option (list (list Z) * list (list Z) * msgsys) :=
  match ops with
  | [] => Some ([], [], s)
  | op :: ops' =>
      '(r, s1) ← msg_exec op s;
      '(sent, recv, s') ← msg_run t ops' s1;
      Some (sent_to t op r s ++ sent, received_by t op r ++ recv, s')
  end.

(** Messages to one receiver each, none of them dropped. *)
Definition directed (op : msg_op) : Prop :=
  match op with
  | OpSend _ receiver _ => receiver ≠ ALL_RECEIVER_NAME
  | OpDropAll | OpDelete _ => False
  | _ => True
  end.
Definition directed_queue (a : spec) : Prop := Forall (λ e, e.1.1 ≠ K_ANY) (sp_queue a).

(** No receiver waits for a message that is there. *)
Lemma quiet_pending s w :
  msg_inv s → w ∈ sp_waiting (abs s) → filter (λ e, e.1.1 = w.2) (sp_queue (abs s)) = [].
Proof.
  intros [_ Hq] Hw. cbn [abs sp_waiting] in Hw. apply list_elem_of_fmap in Hw as (e & -> & He). cbn [snd].
  destruct (filter _ _) as [|x l] eqn:E; [done|]. exfalso.
  assert (Hx : x ∈ x :: l) by apply list_elem_of_here. rewrite <- E in Hx. apply list_elem_of_filter in Hx as [Hx Hin].
  cbn [abs sp_queue] in Hin. apply list_elem_of_fmap in Hin as (d & -> & Hd). apply (qo_quiet s Hq d e Hd He).
  apply matches_any; [apply (qo_rx s Hq e He)|]. right. exact Hx.
Qed.

Lemma not_woken cur a : sp_idle cur a → filter (λ w, w.1 = cur) (sp_woken a) = [].
Proof.
  intros (_ & _ & _ & Hn). destruct (filter _ _) as [|x l] eqn:E; [done|]. exfalso. apply Hn.
  assert (Hx : x ∈ x :: l) by apply list_elem_of_here. rewrite <- E in Hx. apply list_elem_of_filter in Hx as [<- Hin].
  apply list_elem_of_fmap. eauto.
Qed.

Lemma put_pending t cur target m s :
  msg_inv s → target ≠ K_ANY →
  pending_for t (sp_put cur target m (abs s)) = pending_for t (abs s) ++ (if decide (target = t) then [m] else []) ∧
  (directed_queue (abs s) → directed_queue (sp_put cur target m (abs s))).
Proof.
  intros Hinv Ht. unfold sp_put, pending_for.
  destruct (list_find _ (sp_waiting (abs s))) as [[i [p w]]|] eqn:E; cbn [sp_woken sp_queue].
  - split; [|done]. apply list_find_Some in E as (Hi & [->|Hw] & _); [done|]. cbn [snd] in Hw. subst w.
    rewrite filter_app, fmap_app, filter_cons. cbn [fst]. case_decide; [subst|by rewrite !app_nil_r].
    pose proof (quiet_pending s _ Hinv (list_elem_of_lookup_2 _ _ _ Hi)) as Hq. cbn [snd] in Hq. rewrite Hq.
    by rewrite !app_nil_r.
  - split; [|intros Hd; apply Forall_app; split; [done|by apply Forall_singleton]].
    rewrite filter_app, fmap_app, filter_cons. cbn [fst]. rewrite (assoc_L (++)). f_equal. by case_decide.
Qed.

(** One operation. *)
Lemma step_pending t op s r s' :
  msg_inv s → directed_queue (abs s) → directed op → msg_exec op s = Some (r, s') →
  pending_for t (abs s) ++ sent_to t op r s = received_by t op r ++ pending_for t (abs s') ∧ directed_queue (abs s').
Proof.
  intros Hinv Hdq Hop Hrun. pose proof (msg_exec_refines op s Hinv) as Href. rewrite Hrun in Href.
  destruct Href as [_ Hexec]. revert Hexec. generalize (abs s') as a'. intros a' Hexec. destruct op as [cur receiver m|cur wait|cur|cur| |f|name tid memory|name]; cbn [sp_exec directed] in *;
    try done.
  - destruct (decide (sp_idle cur (abs s) ∧ _)); [|done]. unfold sent_to, received_by.
    destruct (sp_target receiver (abs s)) as [target|] eqn:Et.
    2: { injection Hexec as <- <-. by rewrite app_nil_r. }
    assert (Ht : target ≠ K_ANY).
    { unfold sp_target in Et. rewrite decide_False in Et by done. destruct (list_find _ _) as [[? l]|]; [|done].
      destruct (Z.eqb_spec l.2 0); [done|]. by injection Et as <-. }
    destruct (decide (_ < 30)%nat); injection Hexec as <- <-; [|by rewrite app_nil_r].
    destruct (put_pending t cur target m s Hinv Ht) as [-> Hd]. split; [|by apply Hd]. cbn [app]. f_equal.
    destruct (decide (target = t)), (decide (Some target = Some t)); congruence.
  - destruct (decide (sp_idle cur (abs s))) as [Hidle|]; [|done]. cbn [sent_to]. rewrite app_nil_r.
    destruct (list_find _ (sp_queue (abs s))) as [[i [[tgt src] m]]|] eqn:E.
    + injection Hexec as <- <-. cbn [received_by]. pose proof E as (Hi & Hfor & _)%list_find_Some. cbn [fst] in Hfor.
      assert (tgt = cur) as ->.
      { destruct Hfor as [->|]; [|done]. by apply (Forall_lookup_1 _ _ _ _ Hdq) in Hi. }
      split; [|by apply Forall_delete]. unfold pending_for. cbn [sp_woken sp_queue].
    change (handed s <$> ms_woken s) with (sp_woken (abs s)). change (queued s <$> ms_tx_queue s) with (sp_queue (abs s)). case_decide as Ec.
      * subst t. rewrite not_woken by done. cbn [fmap list_fmap app].
        rewrite (list_find_ext_in _ (λ e : Z * Z * list Z, e.1.1 = cur)) in E.
        -- by rewrite (delete_first _ _ _ _ E).
        -- intros e He. unfold for_thread. split; [|by right]. intros [He0|]; [|done].
           exfalso. by apply (proj1 (Forall_forall _ _) Hdq e He).
      * cbn [app]. f_equal. f_equal. symmetry. apply (delete_other _ _ _ _ Hi). done.
    + destruct wait; injection Hexec as <- <-; (split; [reflexivity|exact Hdq]).
  - cbn [sent_to]. rewrite app_nil_r. destruct (list_find _ (sp_woken (abs s))) as [[i [w m]]|] eqn:E; [|done].
    cbn [mbind option_bind] in Hexec. injection Hexec as <- <-. cbn [received_by]. split; [|done].
    pose proof E as (Hi & Hw & _)%list_find_Some. cbn [fst] in Hw. subst w. unfold pending_for. cbn [sp_woken sp_queue].
    change (handed s <$> ms_woken s) with (sp_woken (abs s)). change (queued s <$> ms_tx_queue s) with (sp_queue (abs s)).
    case_decide as Ec.
    + subst t. by rewrite (delete_first _ _ _ _ E).
    + cbn [app]. f_equal. f_equal. symmetry. apply (delete_other _ _ _ _ Hi). done.
  - cbn [sent_to]. rewrite app_nil_r. destruct (list_find _ (sp_waiting (abs s))) as [[i w]|]; [|done].
    cbn [mbind option_bind] in Hexec. injection Hexec as <- <-. split; [reflexivity|exact Hdq].
  - injection Hexec as <- <-. cbn [sent_to]. rewrite app_nil_r. destruct memory; (split; [reflexivity|exact Hdq]).
  - destruct (list_find _ (sp_listeners (abs s))) as [[i l]|]; injection Hexec as <- <-; cbn [sent_to];
      rewrite app_nil_r; (split; [reflexivity|exact Hdq]).
Qed.

(** C16: Every operation of the message system (sending by name, receiving at once
    or after a wait, timeout, dropping, deleting by predicate, listeners) does
    to pool, descriptors and mailbox what the specification does to one queue
    with waiting receivers: a message goes to the first waiting receiver it is
    for, otherwise to the end of the queue, and sending fails exactly when the
    receiver's name is not registered or thirty messages are under way; it
    never waits for a descriptor, and the free count the code reports is
    thirty less those. *)
Theorem messages_refine_queue op s :
  msg_inv s →
  match msg_exec op s with
  | Some (r, s') => msg_inv s' ∧ sp_exec op (abs s) = Some (r, abs s')
  | None => sp_exec op (abs s) = None
  end ∧
  msg_pool_get_free_msg_num s = 30 - Z.of_nat (sp_under_way (abs s)).
Proof.
  intros Hinv. split; [by apply msg_exec_refines|]. rewrite <- (used_length s Hinv). destruct Hinv as [Hst _].
  pose proof (store_length _ _ Hst) as [Hl _]. destruct Hst as [_ Hp _ Hn Hs Hu].
  unfold msg_pool_get_free_msg_num. change (Z.of_nat NUM_MBOX_ASYNC_MSGS) with 30. rewrite Hl. do 2 f_equal.
  rewrite (count_by_index _ (ms_pool s) (slots_of s (used s)) 0).
  - rewrite Hp. apply Permutation_length, NoDup_Permutation; [apply NoDup_filter, NoDup_seq|done|].
    intros j. rewrite list_elem_of_filter, elem_of_seq. split; [tauto|]. intros Hj. split; [done|].
    unfold slots_of in Hj. apply list_elem_of_fmap in Hj as (d & -> & Hd). destruct (Hu d Hd) as (_ & _ & ?). lia.
  - intros j mi Hj. destruct (Hs j mi Hj) as [_ ->]. cbn [Nat.add]. case_decide; split; intros; done || lia.
Qed.

(** C17: Over every run without broadcasts and drops, the messages sent to a
    receiver are those it has received followed by those pending for it, in
    the order of sending: none is lost, duplicated or overtaken, whatever the
    priorities of the senders, and a receiver that waits has none pending. *)
Theorem messages_in_order t ops s sent recv s' :
  msg_inv s → directed_queue (abs s) → Forall directed ops → msg_run t ops s = Some (sent, recv, s') →
  pending_for t (abs s) ++ sent = recv ++ pending_for t (abs s') ∧
  (t ∈ (sp_waiting (abs s')).*2 → pending_for t (abs s') = []).
Proof.
  intros Hinv Hdq Hops Hrun.
  assert (H : pending_for t (abs s) ++ sent = recv ++ pending_for t (abs s') ∧ msg_inv s').
  { revert s sent recv Hinv Hdq Hrun. induction Hops as [|op ops Hop _ IH]; intros s sent recv Hinv Hdq Hrun.
    { injection Hrun as <- <- <-. by rewrite app_nil_r. }
    cbn [msg_run] in Hrun. destruct (msg_exec op s) as [[r s1]|] eqn:E; [|done]. cbn [mbind option_bind] in Hrun.
    destruct (msg_run t ops s1) as [[[sent1 recv1] s2]|] eqn:E1; [|done]. injection Hrun as <- <- <-.
    destruct (step_pending t op s r s1 Hinv Hdq Hop E) as [Hstep Hdq1].
    pose proof (msg_exec_refines op s Hinv) as Href. rewrite E in Href.
    destruct (IH s1 sent1 recv1 (proj1 Href) Hdq1 E1) as [Hrest Hinv2]. split; [|done].
    rewrite (assoc_L (++)), Hstep, <- (assoc_L (++)), Hrest. by rewrite (assoc_L (++)). }
  destruct H as [H Hinv']. split; [done|]. intros (w & -> & Hw)%list_elem_of_fmap. unfold pending_for.
  rewrite (quiet_pending s' w Hinv' Hw), app_nil_r.
  destruct (filter _ (sp_woken (abs s'))) as [|x l] eqn:E; [done|]. exfalso.
  assert (Hx : x ∈ x :: l) by apply list_elem_of_here. rewrite <- E in Hx. apply list_elem_of_filter in Hx as [Hx Hin].
  cbn [abs sp_waiting sp_woken] in Hw, Hin. apply list_elem_of_fmap in Hw as (e & -> & He).
  apply list_elem_of_fmap in Hin as (rx & -> & Hrx). cbn [fst snd handed] in Hx.
  pose proof (qo_threads s' (proj2 Hinv')) as (_ & Hdis & _)%NoDup_app. apply (Hdis (rx_thread e.2)).
  - apply list_elem_of_fmap. eauto.
  - rewrite <- Hx. apply list_elem_of_fmap. eauto.
Qed.

(** ** A system with two threads *)

(** After [init_mbox_module], [os_msg_init] and two registrations. *)
Definition msgs_init : msgsys :=
  os_msg_init (mk_msgsys {[1 := 5; 2 := 7]} [([109; 97; 105; 110], 1)] (replicate 30 tx_clear) (rev (seq 0 30)) [] [] []
    (replicate 30 (mk_msg_info 0 (replicate 16 0)))).

Lemma msgs_init_inv : msg_inv msgs_init.
Proof.
  split; [split|split].
  - reflexivity.
  - reflexivity.
  - unfold used. cbn [msgs_init os_msg_init set_pool ms_async_free ms_tx_queue ms_woken omap list_omap app].
    rewrite app_nil_r. symmetry. apply Permutation_rev.
  - constructor.
  - intros i mi Hi. cbn [msgs_init os_msg_init set_pool ms_pool] in Hi. rewrite list_lookup_fmap in Hi.
    destruct (replicate 30 _ !! i) as [mi0|] eqn:E; [|done]. apply lookup_replicate in E as [-> _]. injection Hi as <-.
    rewrite decide_False; [done|]. by intros []%elem_of_nil.
  - intros d []%elem_of_nil.
  - intros d []%elem_of_nil.
  - intros e []%elem_of_nil.
  - intros r []%elem_of_nil.
  - constructor.
  - intros d e []%elem_of_nil.
Qed.

Lemma messages_refine_queue_witness :
  msg_pool_get_free_msg_num msgs_init = 30 ∧
  match msg_exec (OpReceive 1 true) msgs_init with Some (r, s') => msg_inv s' | None => False end.
Proof.
  destruct (messages_refine_queue (OpReceive 1 true) msgs_init msgs_init_inv) as [H Hn]. split; [exact Hn|].
  destruct (msg_exec (OpReceive 1 true) msgs_init) as [[r s']|] eqn:E; [exact (proj1 H)|]. vm_compute in E. discriminate.
Defined.

(** The receiver waits, two messages are sent, it takes the first. *)
Definition sample_ops : list msg_op :=
  [OpReceive 1 true; OpSend 2 [109; 97; 105; 110] (replicate 16 7);
   OpSend 2 [109; 97; 105; 110] (replicate 16 8); OpResume 1].

Lemma sample_ops_directed : Forall directed sample_ops.
Proof. repeat constructor; discriminate. Qed.

Lemma messages_in_order_witness :
  ∃ s', msg_run 1 sample_ops msgs_init = Some ([replicate 16 7; replicate 16 8], [replicate 16 7], s') ∧
    pending_for 1 (abs s') = [replicate 16 8].
Proof.
  destruct (msg_run 1 sample_ops msgs_init) as [[[sent recv] s']|] eqn:E.
  - destruct (messages_in_order 1 sample_ops msgs_init sent recv s' msgs_init_inv (Forall_nil_2 _) sample_ops_directed E)
      as [H _].
    exists s'. vm_compute in E. injection E as <- <- _. split; [reflexivity|].
    change (pending_for 1 (abs msgs_init)) with (@nil (list Z)) in H. cbn [app] in H. by injection H.
  - vm_compute in E. discriminate.
Defined.
