(* ===== verification/Libc.v ===== *)
(** * Number conversions of the C library

    The parts of lib/libc/minimal that the property and audio code rely on:
    the character classes of ctype.h, [_to_dec] and its helpers of
    stdout/prf.c with the bounded output of [snprintf], and [strtol].  A C
    string is a list of bytes; functions that read a string up to its
    terminator return [None] when the buffer ends first (the C code reads past
    it).  [long] has 32 bits on the target. *)

From stdpp Require Import base numbers list option.
From S2P Require Import Prelude.
Local Open Scope Z_scope.

(** ** ctype.h: the unsigned subtraction trick *)

Definition isspace (c : Z) : bool := (c =? 32) || (u32 (u32 c - 9) <? 5).
Definition isdigit (c : Z) : bool := u32 (u32 c - 48) <? 10.
Definition isupper (c : Z) : bool := u32 (u32 c - 65) <? 26.
Definition isalpha (c : Z) : bool := u32 (Z.lor (u32 c) 32 - 97) <? 26.
Definition isxdigit (c : Z) : bool :=
  (u32 (u32 c - 48) <? 10) || (u32 (u32 c - 97) <? 6) || (u32 (u32 c - 65) <? 6).
Definition toupper (c : Z) : Z := if (97 <=? c) && (c <=? 122) then c - 32 else c.

(** [strlen]: the bytes before the terminator. *)
Fixpoint strlen (s : list Z) : option Z :=
  match s with
  | [] => None
  | c :: s' => if c =? 0 then Some 0 else option_map (λ n, 1 + n) (strlen s')
  end.

(** ** Printing *)

(** The digits of [n], lowest first, as [_to_x] writes them; the fuel bounds
    the number of digits. *)
Fixpoint to_x_loop (fuel : nat) (n base : Z) : list Z :=
  match fuel with
  | O => []
  | S fuel =>
      let d := n mod base in
      (48 + d + (if 9 <? d then 39 else 0)) ::
      (if n / base =? 0 then [] else to_x_loop fuel (n / base) base)
  end.

(** [_reverse_and_pad] *)
Definition reverse_and_pad (l : list Z) (minlen : Z) : list Z :=
  rev (l ++ replicate (Z.to_nat (minlen - Z.of_nat (length l))) 48).

(** [_to_x]: a 32-bit number has at most 32 digits in any base. *)
Definition to_x (n base minlen : Z) : list Z := reverse_and_pad (to_x_loop 32 n base) minlen.

(** [_to_udec] *)
Definition to_udec (value precision : Z) : list Z := to_x value 10 precision.

(** [_to_dec]: the most negative value is its own negation. *)
Definition to_dec (value : Z) (fplus fspace : bool) (precision : Z) : list Z :=
  let neg := if u32 value =? 2147483648 then value else s32 (- value) in
  if value <? 0 then 45 :: to_udec (u32 neg) precision
  else if fplus then 43 :: to_udec (u32 value) precision
  else if fspace then 32 :: to_udec (u32 value) precision
  else to_udec (u32 value) precision.

(** What ["%d"] prints. *)
Definition percent_d (v : Z) : list Z := to_dec v false false (-1).

(** [snprintf(&buf[off], size, ...)] printing [text]: at most [size - 1]
    characters (as [int]) and the terminator are stored, none when [size] is 0;
    the result is the length of the whole text.  [None]: a byte outside [buf]
    is written. *)
Definition snprintf (buf : list Z) (off size : Z) (text : list Z) : option (Z * list Z) :=
  let n := Z.of_nat (length text) in
  if u32 size =? 0 then Some (n, buf)
  else
    let out := take (Z.to_nat (s32 size - 1)) text ++ [0] in
    if off + Z.of_nat (length out) <=? Z.of_nat (length buf)
    then Some (n, memcpy buf (Z.to_nat off) out) else None.

(** ** [strtol] *)

(** [do { c = *s++; } while (isspace(c));] *)
Fixpoint skip_spaces (s : list Z) : option (Z * list Z) :=
  match s with
  | [] => None
  | c :: s' => if isspace c then skip_spaces s' else Some (c, s')
  end.

Definition next_char (s : list Z) : option (Z * list Z) :=
  match s with [] => None | c :: s' => Some (c, s') end.

(** The value of a digit or letter; [None] for anything else. *)
Definition digit_value (c : Z) : option Z :=
  if isdigit c then Some (c - 48)
  else if isalpha c then Some (c - (if isupper c then 55 else 87))
  else None.

(** The conversion loop at the character [c], the string [s] behind it: the
    accumulator, [any], and the number of bytes from [c] on. *)
Fixpoint strtol_loop (base cutoff cutlim acc any c : Z) (s : list Z) : option (Z * Z * nat) :=
  match digit_value c with
  | None => Some (acc, any, S (length s))
  | Some d =>
      if base <=? d then Some (acc, any, S (length s))
      else
        let '(acc, any) :=
          if (any <? 0) || (cutoff <? acc) || ((acc =? cutoff) && (cutlim <? d))
          then (acc, -1) else (u32 (acc * base + d), 1) in
        match s with
        | [] => None
        | c :: s => strtol_loop base cutoff cutlim acc any c s
        end
  end.

(** [strtol]: the value and the offset of [*endptr]. *)
Definition strtol (nptr : list Z) (base : Z) : option (Z * Z) :=
  '(c, s) ← skip_spaces nptr;
  let neg := c =? 45 in
  '(c, s) ← (if (c =? 45) || (c =? 43) then next_char s else Some (c, s));
  '(c, s, base) ←
    (if ((base =? 0) || (base =? 16)) && (c =? 48) then
       match s with
       | [] => None
       | x :: s' =>
           if (x =? 120) || (x =? 88)
           then '(c, s) ← next_char s'; Some (c, s, 16)
           else Some (c, s, base)
       end
     else Some (c, s, base));
  let base := if base =? 0 then (if c =? 48 then 8 else 10) else base in
  let cutoff := if neg then 2147483648 else 2147483647 in
  let cutlim := cutoff mod base in
  '(acc, any, rest) ← strtol_loop base (cutoff / base) cutlim 0 0 c s;
  let acc := if any <? 0 then (if neg then -2147483648 else 2147483647)
             else if neg then s32 (- acc) else s32 acc in
  Some (acc, if any =? 0 then 0 else Z.of_nat (length nptr) - Z.of_nat rest).

(** ** Printing and reading agree *)

(** The number a string of decimal digits stands for. *)
Definition dec_value (l : list Z) : Z := foldl (λ a c, a * 10 + (c - 48)) 0 l.
Definition dec_digit (c : Z) : Prop := 48 <= c < 58.

Lemma s32_id z : -2147483648 <= z < 2147483648 → s32 z = z.
Proof. intros. unfold s32. destruct (Z.ltb_spec (z mod 4294967296) 2147483648); dlia. Qed.

Lemma to_x_loop_digits fuel n : 0 <= n → Forall dec_digit (to_x_loop fuel n 10).
Proof.
  revert n. induction fuel as [|fuel IH]; intros n Hn; [constructor|]. cbn [to_x_loop]. constructor.
  - unfold dec_digit. destruct (Z.ltb_spec 9 (n mod 10)); dlia.
  - destruct (n / 10 =? 0); [constructor|]. apply IH. dlia.
Qed.

Lemma to_x_loop_value fuel n :
  0 <= n < 10 ^ Z.of_nat fuel → dec_value (rev (to_x_loop fuel n 10)) = n.
Proof.
  revert n. induction fuel as [|fuel IH]; intros n Hn; [cbn in Hn; unfold dec_value; cbn; lia|].
  rewrite Nat2Z.inj_succ, Z.pow_succ_r in Hn by lia. cbn [to_x_loop rev]. unfold dec_value.
  rewrite foldl_app. fold (dec_value (rev (if n / 10 =? 0 then [] else to_x_loop fuel (n / 10) 10))).
  cbn [foldl]. destruct (Z.ltb_spec 9 (n mod 10)); [dlia|].
  destruct (Z.eqb_spec (n / 10) 0) as [E|E]; [change (dec_value (rev [])) with 0; dlia|].
  rewrite IH; dlia.
Qed.

Lemma to_x_loop_length fuel n k :
  0 <= n < 10 ^ Z.of_nat k → (0 < k)%nat → (length (to_x_loop fuel n 10) <= k)%nat.
Proof.
  revert n k. induction fuel as [|fuel IH]; intros n k Hn Hk; [cbn; lia|]. cbn [to_x_loop length].
  destruct (Z.eqb_spec (n / 10) 0); [cbn; lia|]. destruct k as [|[|k]]; [lia|cbn in Hn; dlia|].
  apply le_n_S, IH; [|lia]. rewrite Nat2Z.inj_succ, Z.pow_succ_r in Hn by lia. dlia.
Qed.

Lemma to_udec_spec n :
  0 <= n < 4294967296 →
  Forall dec_digit (to_udec n (-1)) ∧ dec_value (to_udec n (-1)) = n ∧
  (0 < length (to_udec n (-1)) <= 10)%nat.
Proof.
  intros Hn. unfold to_udec, to_x, reverse_and_pad.
  replace (Z.to_nat _) with 0%nat by lia. cbn [replicate]. rewrite app_nil_r. split_and!.
  - apply Forall_rev, to_x_loop_digits. lia.
  - apply to_x_loop_value. change (10 ^ Z.of_nat 32) with 100000000000000000000000000000000. lia.
  - rewrite length_rev. cbn. lia.
  - rewrite length_rev. apply to_x_loop_length; [|lia]. change (10 ^ Z.of_nat 10) with 10000000000. lia.
Qed.

Lemma dec_digit_char c :
  dec_digit c → digit_value c = Some (c - 48) ∧ isspace c = false ∧ c ≠ 45 ∧ c ≠ 43 ∧ c ≠ 0.
Proof.
  intros Hc. unfold dec_digit in Hc. unfold digit_value, isdigit, isspace.
  assert (u32 c = c) as -> by (apply u32_id; lia). rewrite (u32_id (c - 48)), (u32_id (c - 9)) by lia.
  destruct (Z.ltb_spec (c - 48) 10), (Z.ltb_spec (c - 9) 5), (Z.eqb_spec c 32); try lia.
  split_and!; [done|done|lia..].
Qed.

Lemma dec_foldl_mono l a : Forall dec_digit l → 0 <= a → a <= foldl (λ a c, a * 10 + (c - 48)) a l.
Proof.
  intros Hl. revert a. induction Hl as [|c l Hc Hl IH]; intros a Ha; [cbn; lia|]. cbn [foldl].
  unfold dec_digit in Hc. etrans; [|apply IH; lia]. lia.
Qed.

(** The loop over a number within the limit, up to the terminator. *)
Lemma strtol_loop_digits limit l : limit = 2147483647 ∨ limit = 2147483648 →
  ∀ c acc any rest, Forall dec_digit (c :: l) → 0 <= acc → 0 <= any →
  foldl (λ a c, a * 10 + (c - 48)) acc (c :: l) <= limit →
  strtol_loop 10 (limit / 10) (limit mod 10) acc any c (l ++ 0 :: rest) =
  Some (foldl (λ a c, a * 10 + (c - 48)) acc (c :: l), 1, S (length rest)).
Proof.
  intros Hlim. induction l as [|c' l IH]; intros c acc any rest Hd Hacc Hany Hle;
    inversion Hd as [|? ? Hc Hd']; subst; destruct (dec_digit_char c Hc) as (Hv & _);
    unfold dec_digit in Hc.
  all: pose proof (dec_foldl_mono _ (acc * 10 + (c - 48)) Hd' ltac:(lia)) as Hm; cbn [foldl] in Hle, Hm.
  all: assert (Hstep : (any <? 0) || (limit / 10 <? acc) || ((acc =? limit / 10) && (limit mod 10 <? c - 48)) = false)
         by (destruct (Z.ltb_spec any 0), (Z.ltb_spec (limit / 10) acc), (Z.eqb_spec acc (limit / 10)),
               (Z.ltb_spec (limit mod 10) (c - 48)); cbn; try done; dlia).
  all: assert (u32 (acc * 10 + (c - 48)) = acc * 10 + (c - 48)) as Hu by (apply u32_id; lia).
  - cbn [app strtol_loop]. rewrite Hv. destruct (Z.leb_spec 10 (c - 48)); [lia|]. rewrite Hstep, Hu.
    by destruct rest.
  - cbn [app strtol_loop]. rewrite Hv. destruct (Z.leb_spec 10 (c - 48)); [lia|]. rewrite Hstep, Hu.
    cbn [foldl]. change (strtol_loop 10 (limit / 10) (limit mod 10) (acc * 10 + (c - 48)) 1 c' (l ++ 0 :: rest)
      = Some (foldl (λ a c, a * 10 + (c - 48)) (acc * 10 + (c - 48)) (c' :: l), 1, S (length rest))).
    apply IH; [done|lia|lia|done].
Qed.

Lemma percent_d_neg v : -2147483648 <= v < 0 → percent_d v = 45 :: to_udec (- v) (-1).
Proof.
  intros Hv. unfold percent_d, to_dec. destruct (Z.ltb_spec v 0); [|lia]. do 2 f_equal.
  destruct (Z.eqb_spec (u32 v) 2147483648) as [E|E].
  - unfold u32 in *. dlia.
  - rewrite s32_id by (unfold u32 in E; dlia). apply u32_id. lia.
Qed.

Lemma percent_d_nonneg v : 0 <= v < 2147483648 → percent_d v = to_udec v (-1).
Proof.
  intros Hv. unfold percent_d, to_dec. destruct (Z.ltb_spec v 0); [lia|]. by rewrite u32_id by lia.
Qed.

Lemma percent_d_length v :
  -2147483648 <= v < 2147483648 → (0 < length (percent_d v) <= 11)%nat.
Proof.
  intros Hv. destruct (Z.ltb_spec v 0).
  - rewrite percent_d_neg by lia. destruct (to_udec_spec (- v)) as (_ & _ & ?); [lia|]. cbn [length]. lia.
  - rewrite percent_d_nonneg by lia. destruct (to_udec_spec v) as (_ & _ & ?); lia.
Qed.

(** No terminator inside the text. *)
Lemma percent_d_chars v :
  -2147483648 <= v < 2147483648 → Forall (λ c, 0 < c < 256) (percent_d v).
Proof.
  intros Hv. assert (Hd : ∀ n, 0 <= n < 4294967296 → Forall (λ c, 0 < c < 256) (to_udec n (-1))).
  { intros n Hn. destruct (to_udec_spec n Hn) as (H & _). eapply Forall_impl; [|exact H].
    unfold dec_digit. lia. }
  destruct (Z.ltb_spec v 0).
  - rewrite percent_d_neg by lia. constructor; [lia|]. apply Hd. lia.
  - rewrite percent_d_nonneg by lia. apply Hd. lia.
Qed.

(** [strtol] reads back what ["%d"] printed, and stops at the terminator. *)
Lemma strtol_percent_d v rest :
  -2147483648 <= v < 2147483648 →
  strtol (percent_d v ++ 0 :: rest) 10 = Some (v, Z.of_nat (length (percent_d v))).
Proof.
  intros Hv. destruct (Z.ltb_spec v 0).
  - rewrite percent_d_neg by lia. destruct (to_udec_spec (- v)) as (Hd & Hval & Hlen); [lia|].
    destruct (to_udec (- v) (-1)) as [|c l]; [cbn in Hlen; lia|].
    unfold strtol. cbn [app skip_spaces]. change (isspace 45) with false. cbn -[strtol_loop length Z.div Z.modulo].
    unfold dec_value in Hval. erewrite (strtol_loop_digits 2147483648); [|by right|done|lia|lia|lia].
    rewrite Hval. cbn -[length Z.of_nat]. f_equal. f_equal.
    + rewrite s32_id; lia.
    + cbn [length]. rewrite length_app. cbn [length]. lia.
  - rewrite percent_d_nonneg by lia. destruct (to_udec_spec v) as (Hd & Hval & Hlen); [lia|].
    destruct (to_udec v (-1)) as [|c l]; [cbn in Hlen; lia|].
    pose proof (Forall_inv Hd) as Hc. destruct (dec_digit_char c Hc) as (_ & Hsp & H1 & H2 & _).
    unfold strtol. cbn [app skip_spaces]. rewrite Hsp. apply Z.eqb_neq in H1, H2. cbn [mbind option_bind].
    rewrite H1, H2. cbn -[strtol_loop length Z.div Z.modulo].
    unfold dec_value in Hval. erewrite (strtol_loop_digits 2147483647); [|by left|done|lia|lia|lia].
    rewrite Hval. cbn -[length Z.of_nat]. f_equal. f_equal.
    + rewrite s32_id; lia.
    + cbn [length]. rewrite length_app. cbn [length]. lia.
Qed.

Lemma strlen_app s rest : Forall (λ c, 0 < c < 256) s → strlen (s ++ 0 :: rest) = Some (Z.of_nat (length s)).
Proof.
  induction 1 as [|c s Hc Hs IH]; [done|]. cbn [app strlen length]. destruct (Z.eqb_spec c 0); [lia|].
  rewrite IH. cbn. f_equal. lia.
Qed.

(** A copy to the start of a buffer. *)
Lemma memcpy_start m d : (length d <= length m)%nat → memcpy m 0 d = d ++ drop (length d) m.
Proof.
  intros Hl. unfold memcpy. rewrite <- (take_drop (length d) m) at 1.
  apply list_inserts_0_r. rewrite length_take. lia.
Qed.

(** Text that fits is stored with its terminator. *)
Lemma snprintf_fits buf size text :
  Z.of_nat (length text) < size <= Z.of_nat (length buf) → size < 2147483648 →
  snprintf buf 0 size text = Some (Z.of_nat (length text), memcpy buf 0 (text ++ [0])).
Proof.
  intros [H1 H2] H3. unfold snprintf. rewrite u32_id, s32_id by lia. destruct (Z.eqb_spec size 0); [lia|].
  rewrite firstn_all2 by lia. rewrite length_app.
  replace (0 + _ <=? _) with true; [done|]. symmetry. apply Z.leb_le. cbn [length]. lia.
Qed.

(** ** Reading ends at a terminator *)

Lemma skip_spaces_term l : 0 ∈ l → ∃ c s k, skip_spaces l = Some (c, s) ∧ l = k ++ c :: s ∧ 0 ∈ c :: s.
Proof.
  induction l as [|x l IH]; intros H0; [by apply elem_of_nil in H0|]. cbn [skip_spaces].
  destruct (isspace x) eqn:E; [|by exists x, l, []].
  apply elem_of_cons in H0 as [<-|H0]; [by vm_compute in E|].
  destruct (IH H0) as (c & s & k & -> & -> & H). by exists c, s, (x :: k).
Qed.

Lemma strtol_loop_term base cutoff cutlim s : ∀ acc any c, 0 ∈ c :: s →
  ∃ acc' any' n, strtol_loop base cutoff cutlim acc any c s = Some (acc', any', n) ∧
    (0 < n <= S (length s))%nat.
Proof.
  assert (Hstop : digit_value 0 = None) by (by vm_compute).
  induction s as [|x s IH]; intros acc any c H0; cbn [strtol_loop].
  - apply elem_of_cons in H0 as [<-|H0]; [|by apply elem_of_nil in H0]. rewrite Hstop.
    eexists _, _, _. split; [reflexivity|]. cbn. lia.
  - destruct (digit_value c) as [d|] eqn:Ed; [|eexists _, _, _; split; [reflexivity|]; cbn; lia].
    destruct (base <=? d); [eexists _, _, _; split; [reflexivity|]; cbn; lia|].
    apply elem_of_cons in H0 as [<-|H0]; [by rewrite Hstop in Ed|].
    destruct (_ || _ || _).
    + destruct (IH acc (-1) x H0) as (a & y & n & -> & Hn). eexists _, _, _. split; [reflexivity|]. cbn. lia.
    + destruct (IH (u32 (acc * base + d)) 1 x H0) as (a & y & n & -> & Hn).
      eexists _, _, _. split; [reflexivity|]. cbn. lia.
Qed.

(** A terminated buffer is never read past, and the end pointer stays in it. *)
Lemma strtol_term l : 0 ∈ l → ∃ v off, strtol l 10 = Some (v, off) ∧ 0 <= off < Z.of_nat (length l).
Proof.
  intros H0. destruct (skip_spaces_term l H0) as (c & s & k & Hs & Hl & Hc). unfold strtol. rewrite Hs.
  cbn [mbind option_bind].
  assert (Hsign : ∃ c' s' k', (if (c =? 45) || (c =? 43) then next_char s else Some (c, s)) = Some (c', s') ∧
            c :: s = k' ++ c' :: s' ∧ 0 ∈ c' :: s').
  { destruct ((c =? 45) || (c =? 43)) eqn:E; [|by exists c, s, []].
    apply elem_of_cons in Hc as [<-|Hc]; [done|]. destruct s as [|x s]; [by apply elem_of_nil in Hc|].
    by exists x, s, [c]. }
  destruct Hsign as (c' & s' & k' & -> & Hl' & Hc'). cbn [mbind option_bind].
  change ((10 =? 0) || (10 =? 16)) with false. cbn [andb mbind option_bind]. change (10 =? 0) with false. cbv iota.
  set (cutoff := if c =? 45 then 2147483648 else 2147483647).
  destruct (strtol_loop_term 10 (cutoff / 10) (cutoff mod 10) s' 0 0 c' Hc') as (acc & any & n & -> & Hn).
  cbn [mbind option_bind]. eexists _, _. split; [reflexivity|].
  assert (Hlen : (S (length s') <= length l)%nat).
  { rewrite Hl, length_app. rewrite Hl', length_app. cbn [length]. lia. }
  destruct (any =? 0); lia.
Qed.
