(* ===== verification/HexStr.v ===== *)
(** * Hexadecimal and decimal text

    ext/actions/base/utils/transcode/hex_str.c.  [char] is unsigned, as the
    C-SKY compiler has it.  A conversion from text returns [None] when it reads
    past the end of the source. *)

From stdpp Require Import base numbers list option.
From S2P Require Import Prelude Libc.
Local Open Scope Z_scope.

(** ** Operations *)

(** One nibble of [hex_to_str]. *)
Definition hex_nibble (x : Z) : Z := let d := u8 (48 + x) in if 57 <? d then u8 (d + 7) else d.

Fixpoint hex_to_str_loop (src : list Z) : list Z :=
  match src with
  | [] => []
  | b :: src' => hex_nibble (u8 b / 16) :: hex_nibble (u8 b mod 16) :: hex_to_str_loop src'
  end.

(** [hex_to_str]: the result and the bytes stored, terminator included. *)
Definition hex_to_str (src : list Z) : Z * list Z :=
  (2 * Z.of_nat (length src), hex_to_str_loop src ++ [0]).

(** One character of [str_to_hex]. *)
Definition str_nibble (h : Z) : Z := let s := u8 (toupper h - 48) in if 9 <? s then u8 (s - 7) else s.

(** [str_to_hex]: the [n] bytes stored. *)
Fixpoint str_to_hex (src : list Z) (n : nat) : option (list Z) :=
  match n with
  | O => Some []
  | S n =>
      match src with
      | h1 :: h2 :: src' =>
          l ← str_to_hex src' n;
          Some (u8 (Z.lor (Z.shiftl (str_nibble h1) 4) (str_nibble h2)) :: l)
      | _ => None
      end
  end.

(** [char2hex], [hex2char]: [None] stands for -EINVAL with nothing stored. *)
Definition char2hex (c : Z) : option Z :=
  if (48 <=? c) && (c <=? 57) then Some (u8 (c - 48))
  else if (97 <=? c) && (c <=? 102) then Some (u8 (c - 97 + 10))
  else if (65 <=? c) && (c <=? 70) then Some (u8 (c - 65 + 10))
  else None.
Definition hex2char (x : Z) : option Z :=
  if x <=? 9 then Some (u8 (x + 48))
  else if x <=? 15 then Some (u8 (x - 10 + 97))
  else None.

(** The loop of [u8_to_dec]: three divisors, the characters stored, the room
    left. *)
Fixpoint u8_to_dec_loop (fuel : nat) (buflen divisor value num_digits : Z) (out : list Z)
    : list Z * Z * Z :=
  match fuel with
  | O => (out, buflen, num_digits)
  | S fuel =>
      if (0 <? buflen) && (0 <? divisor) then
        let digit := u8 (value / divisor) in
        let '(out, buflen, num_digits) :=
          if negb (digit =? 0) || (divisor =? 1) || negb (num_digits =? 0)
          then (out ++ [u8 (digit + 48)], u8 (buflen - 1), u8 (num_digits + 1))
          else (out, buflen, num_digits) in
        u8_to_dec_loop fuel buflen (divisor / 10) (u8 (value - digit * divisor)) num_digits out
      else (out, buflen, num_digits)
  end.

(** [u8_to_dec]: the number of digits and the bytes stored.  The divisor is 0
    after three rounds; the fourth leaves the loop. *)
Definition u8_to_dec (buflen value : Z) : Z * list Z :=
  let '(out, buflen, num) := u8_to_dec_loop 4 buflen 100 value 0 [] in
  (num, if buflen =? 0 then out else out ++ [0]).

(** ** Round trips *)

(** A statement over all bytes, checked one by one. *)
Lemma byte_cases (P : Z → bool) :
  forallb P (Z.of_nat <$> seq 0 256) = true → ∀ b, is_u8 b → P b = true.
Proof.
  intros H b [H1 H2]. rewrite forallb_forall in H. apply H.
  replace b with (Z.of_nat (Z.to_nat b)) by lia. apply in_map, in_seq. lia.
Qed.

Lemma nibbles_roundtrip b :
  is_u8 b →
  u8 (Z.lor (Z.shiftl (str_nibble (hex_nibble (u8 b / 16))) 4) (str_nibble (hex_nibble (u8 b mod 16)))) = b.
Proof. intros Hb. apply Z.eqb_eq. revert b Hb. apply byte_cases. by vm_compute. Qed.

(** Bytes printed in hexadecimal are read back, and the length returned is that
    of the text. *)
Theorem hex_str_roundtrip src :
  bytes_ok src →
  (hex_to_str src).1 = Z.of_nat (length (hex_to_str_loop src)) ∧
  str_to_hex (hex_to_str src).2 (length src) = Some src.
Proof.
  intros Hs. unfold hex_to_str. cbn [fst snd]. split.
  - induction Hs as [|b src _ _ IH]; [done|]. cbn [hex_to_str_loop length]. lia.
  - induction Hs as [|b src Hb _ IH]; [done|]. cbn [hex_to_str_loop length app str_to_hex].
    rewrite IH. cbn. by rewrite nibbles_roundtrip.
Qed.

(** A digit is read back, in either case. *)
Lemma hex2char_char2hex x : 0 <= x <= 15 → (hex2char x ≫= char2hex) = Some x.
Proof.
  intros Hx. assert (Hu : is_u8 x) by (unfold is_u8; lia).
  assert (H : bool_decide (x <= 15 → (hex2char x ≫= char2hex) = Some x) = true).
  { clear Hx. revert x Hu. apply byte_cases. by vm_compute. }
  apply bool_decide_eq_true in H. apply H. lia.
Qed.

(** More room than digits only stays free. *)
Lemma u8_to_dec_loop_room fuel b k d v n out :
  Z.of_nat fuel <= b → 0 <= k → b + k < 256 →
  u8_to_dec_loop fuel (b + k) d v n out =
  let '(out, l, n) := u8_to_dec_loop fuel b d v n out in (out, l + k, n).
Proof.
  revert b d v n out. induction fuel as [|fuel IH]; intros b d v n out Hb Hk Hlt; [done|].
  cbn [u8_to_dec_loop]. destruct (Z.ltb_spec 0 (b + k)), (Z.ltb_spec 0 b); try lia.
  destruct (0 <? d); cbn [andb]; [|done]. destruct (_ || _ || _).
  - assert (u8 (b + k - 1) = b - 1 + k) as -> by (rewrite u8_id; unfold is_u8; lia).
    assert (u8 (b - 1) = b - 1) as -> by (apply u8_id; unfold is_u8; lia). apply IH; lia.
  - apply IH; lia.
Qed.

(** Three digits leave room in a buffer of four. *)
Lemma u8_to_dec_loop_left value :
  is_u8 value → 0 < (u8_to_dec_loop 4 4 100 value 0 []).1.2.
Proof. intros Hv. apply Z.ltb_lt. revert value Hv. apply byte_cases. by vm_compute. Qed.

Definition dec_text (buflen value : Z) : Z * list Z :=
  let text := take (Z.to_nat buflen) (percent_d value) in
  (Z.of_nat (length text), if Z.of_nat (length text) <? buflen then text ++ [0] else text).

(** Every value in every buffer of at most four bytes. *)
Lemma u8_to_dec_small buflen value :
  0 <= buflen <= 4 → is_u8 value → u8_to_dec buflen value = dec_text buflen value.
Proof.
  intros Hn Hv. apply (bool_decide_eq_true_1 _). revert value Hv.
  assert (buflen = 0 ∨ buflen = 1 ∨ buflen = 2 ∨ buflen = 3 ∨ buflen = 4) as [->|[->|[->|[->| ->]]]] by lia.
  all: apply byte_cases; by vm_compute.
Qed.

Lemma percent_d_u8 value : is_u8 value → (length (percent_d value) <= 3)%nat.
Proof.
  intros Hv. unfold is_u8 in Hv. rewrite percent_d_nonneg by lia. unfold to_udec, to_x, reverse_and_pad.
  replace (Z.to_nat (-1 - _)) with 0%nat by lia. rewrite app_nil_r, length_rev.
  apply to_x_loop_length; cbn; lia.
Qed.

(** [u8_to_dec] writes what [%d] writes, cut to the buffer, and a terminator
    when there is room for one. *)
Theorem u8_to_dec_prints buflen value :
  is_u8 buflen → is_u8 value →
  let text := take (Z.to_nat buflen) (percent_d value) in
  u8_to_dec buflen value =
  (Z.of_nat (length text),
   if Z.of_nat (length text) <? buflen then text ++ [0] else text).
Proof.
  intros [Hn1 Hn2] Hv text. subst text. destruct (Z.leb_spec buflen 4) as [H|H].
  { by rewrite u8_to_dec_small. }
  pose proof (u8_to_dec_small 4 value ltac:(lia) Hv) as H4. pose proof (percent_d_u8 value Hv).
  pose proof (u8_to_dec_loop_left value Hv) as Hleft.
  unfold u8_to_dec, dec_text in *. replace buflen with (4 + (buflen - 4)) at 1 by lia.
  rewrite u8_to_dec_loop_room by lia. destruct (u8_to_dec_loop 4 4 100 value 0 []) as [[out l] n].
  rewrite !firstn_all2 in * by lia. cbn [Z.of_nat] in *.
  destruct (Z.ltb_spec (Z.of_nat (length (percent_d value))) 4); [|lia].
  destruct (Z.ltb_spec (Z.of_nat (length (percent_d value))) buflen); [|lia].
  cbn [fst snd] in Hleft. destruct (Z.eqb_spec (l + (buflen - 4)) 0), (Z.eqb_spec l 0); [lia..|].
  exact H4.
Qed.
