(* ===== verification/PropertyManager.v ===== *)
(** * The property manager

    ext/actions/base/property/property_manager.c: typed access to the property
    cache (integers, booleans, strings, arrays as text), the fallback of
    [property_set] to a write by message when the cache has no room, flushing
    and clearing.  CONFIG_PROPERTY_CACHE is set and
    CONFIG_NVRAM_USER_STORAGE_EXT_FLASH is not.

    A function that fills a caller's buffer takes the buffer's bytes and
    returns the new ones; the length passed is the buffer's size.  [None]: the
    call does not return, or accesses memory outside a buffer. *)

From stdpp Require Import base numbers list option gmap.
From S2P Require Import Prelude Libc HexStr NvramConfig NvramItems NvramStore PropertyCache.
Local Open Scope Z_scope.

(** The further calls of the store. *)
Class PropMgrEnv (W : Type) := {
  nv_set_factory : list Z → option (list Z) → Z → W → option (Z * W);
  nv_clear_all : W → option (Z * W);
}.

(** [struct nvram_write_msg] *)
Record nvram_write_msg := mk_nvram_write_msg {
  wm_name : list Z;
  wm_data : option (list Z);
  wm_len : Z;
}.

Section manager.
Context {W : Type} `{!PropEnv W} `{!PropMgrEnv W}.

(** The cache, the write messages in the system application's queue, and the
    answers [send_async_msg] has left (success when they run out). *)
Record pmgr := mk_pmgr {
  pm_cache : @pcache W;
  pm_msgs : list nvram_write_msg;
  pm_sends : list bool;
}.

Definition set_cache (c : pcache) (s : pmgr) : pmgr := mk_pmgr c (pm_msgs s) (pm_sends s).

Definition pm_malloc (n : Z) (s : pmgr) : bool * pmgr :=
  let '(ok, w) := mem_malloc n (pc_world (pm_cache s)) in
  (ok, set_cache (set_pworld w (pm_cache s)) s).

(** [send_async_msg(CONFIG_SYS_APP_NAME, &msg)]; the result is not looked at. *)
Definition send_async_msg (m : nvram_write_msg) (s : pmgr) : pmgr :=
  match pm_sends s with
  | [] => mk_pmgr (pm_cache s) (pm_msgs s ++ [m]) []
  | true :: l => mk_pmgr (pm_cache s) (pm_msgs s ++ [m]) l
  | false :: l => mk_pmgr (pm_cache s) (pm_msgs s) l
  end.

(** [submit_nvram_write_work] *)
Definition submit_nvram_write_work (name : list Z) (data : option cptr) (len : Z) (s : pmgr)
    : Z * pmgr :=
  let '(ok, s) := pm_malloc 12 s in
  if negb ok then (- ENOMEM, s)
  else
    let '(ok, s) := pm_malloc (Z.of_nat (length name) + 1) s in
    if negb ok then (- ENOMEM, s)
    else
      match data with
      | Some p =>
          if 0 <? len then
            let '(ok, s) := pm_malloc len s in
            if negb ok then (- ENOMEM, s)
            else
              let d := take (Z.to_nat len) (load p (pc_world (pm_cache s))) in
              (0, send_async_msg (mk_nvram_write_msg name (Some d) len) s)
          else (0, send_async_msg (mk_nvram_write_msg name None len) s)
      | None => (0, send_async_msg (mk_nvram_write_msg name None len) s)
      end.

(** [nvram_write_msg_callback] on the first message of the queue: the write of
    [handle_nvram_write_request], its result only printed, and the cleanup. *)
Definition handle_nvram_write_request (m : nvram_write_msg) (s : pmgr) : option pmgr :=
  '(_, w) ← nv_set (wm_name m) (wm_data m) (wm_len m) (pc_world (pm_cache s));
  Some (set_cache (set_pworld w (pm_cache s)) s).
Definition nvram_write_msg_callback (s : pmgr) : option pmgr :=
  match pm_msgs s with
  | [] => Some s
  | m :: l => handle_nvram_write_request m (mk_pmgr (pm_cache s) l (pm_sends s))
  end.

(** ** Raw access *)

(** [property_get]: the result and the buffer. *)
Definition property_get (key buf : list Z) (value_len : Z) (s : pmgr)
    : option (Z * list Z * pmgr) :=
  '(ret, bytes, c) ← property_cache_get key value_len (pm_cache s);
  Some (ret, memcpy buf 0 bytes, set_cache c s).

(** [property_set] *)
Definition property_set (key : list Z) (value : option cptr) (value_len : Z) (s : pmgr)
    : option (Z * pmgr) :=
  '(ret, c) ← property_cache_set key value value_len (pm_cache s);
  let s := set_cache c s in
  if ret =? - ENOMEM then Some (submit_nvram_write_work key value value_len s)
  else Some (ret, s).

(** [property_set_factory] *)
Definition property_set_factory (key : list Z) (value : option (list Z)) (value_len : Z) (s : pmgr)
    : option (Z * pmgr) :=
  '(ret, w) ← nv_set_factory key value value_len (pc_world (pm_cache s));
  Some (ret, set_cache (set_pworld w (pm_cache s)) s).

(** ** Integers *)

Definition temp_data : list Z := replicate 16 0.

(** The integer in a text buffer; [None] (inner) when it is not one. *)
Definition parse_int (temp : list Z) : option (option Z) :=
  '(v, off) ← strtol temp 10;
  c ← temp !! Z.to_nat off;
  Some (if negb (off =? 0) && (c =? 0) && (-2147483648 <=? v) && (v <=? 2147483647)
        then Some v else None).

(** [property_get_int] *)
Definition property_get_int (key : list Z) (default_value : Z) (s : pmgr) : option (Z * pmgr) :=
  '(ret, temp, s) ← property_get key temp_data 16 s;
  if 0 <? ret then
    v ← parse_int temp;
    Some (default default_value v, s)
  else Some (default_value, s).

(** [property_get_integer]: the result and the value stored. *)
Definition property_get_integer (key : list Z) (default_value : Z) (s : pmgr)
    : option (Z * Z * pmgr) :=
  '(ret, temp, s) ← property_get key temp_data 15 s;
  if 0 <? ret then
    v ← parse_int temp;
    match v with
    | Some v => Some (ret, v, s)
    | None => Some (- EINVAL, default_value, s)
    end
  else Some (- EACCES, default_value, s).

(** The text of a buffer is set as the value. *)
Definition property_set_text (key temp : list Z) (s : pmgr) : option (Z * pmgr) :=
  n ← strlen temp;
  '(ret, s) ← property_set key (Some (Local temp)) n s;
  Some (if ret =? 0 then 0 else - EACCES, s).

(** [property_set_int] *)
Definition property_set_int (key : list Z) (value : Z) (s : pmgr) : option (Z * pmgr) :=
  '(_, temp) ← snprintf temp_data 0 16 (percent_d value);
  property_set_text key temp s.

(** ** Strings and booleans *)

(** [property_get_string]; [def_value] is a C string without its terminator. *)
Definition property_get_string (key buf : list Z) (value_len : Z) (def_value : option (list Z))
    (s : pmgr) : option (Z * list Z * pmgr) :=
  '(ret, buf, s) ← property_get key buf value_len s;
  if ret <=? 0 then
    match def_value with
    | None => Some (- EACCES, buf, s)
    | Some d =>
        let buf := memcpy buf 0 (replicate (Z.to_nat value_len) 0) in
        let str_len := if value_len <? Z.of_nat (length d) then value_len else Z.of_nat (length d) in
        Some (- EACCES, memcpy buf 0 (take (Z.to_nat str_len) d), s)
    end
  else Some (ret, buf, s).

(** [property_get_hexstring] *)
Definition property_get_hexstring (key buf : list Z) (value_len : Z) (s : pmgr)
    : option (Z * list Z * pmgr) :=
  '(ret, buf, s) ← property_get key buf value_len s;
  if ret <=? 0 then Some (- ENOENT, buf, s)
  else if value_len <? ret then Some (- EINVAL, buf, s)
  else if forallb isxdigit (take (Z.to_nat ret) buf) then Some (ret, buf, s)
  else Some (- EACCES, buf, s).

Definition TRUE_TEXT : list Z := [116; 114; 117; 101].
Definition FALSE_TEXT : list Z := [102; 97; 108; 115; 101].

(** [property_get_bool]: the result and the value stored. *)
Definition property_get_bool (key : list Z) (def_value : bool) (s : pmgr) : option (Z * bool * pmgr) :=
  '(ret, temp, s) ← property_get key temp_data 16 s;
  if ret <=? 0 then Some (- EACCES, def_value, s)
  else Some (ret, bool_decide (take 5 temp = TRUE_TEXT ++ [0]), s).

(** [property_set_bool] *)
Definition property_set_bool (key : list Z) (value : bool) (s : pmgr) : option (Z * pmgr) :=
  '(_, temp) ← snprintf temp_data 0 16 (if value then TRUE_TEXT else FALSE_TEXT);
  property_set_text key temp s.

(** ** Arrays *)

(** [property_get_byte_array] *)
Definition property_get_byte_array (key buf : list Z) (value_len : Z) (default_value : list Z)
    (s : pmgr) : option (Z * list Z * pmgr) :=
  '(len, temp, s) ← property_get key temp_data 16 s;
  if 0 <? len then
    let value_len := if len / 2 <? value_len then len / 2 else value_len in
    bytes ← str_to_hex temp (Z.to_nat value_len);
    Some (0, memcpy buf 0 bytes, s)
  else Some (0, memcpy buf 0 (take (Z.to_nat value_len) default_value), s).

(** The loop that prints an array: a comma at the start only. *)
Fixpoint array_text_loop (value : list Z) (temp : list Z) (off : Z) : option (list Z) :=
  match value with
  | [] => Some temp
  | v :: value' =>
      '(n, temp) ← (if off =? 0 then snprintf temp off (16 - off) [44] else Some (0, temp));
      let off := off + n in
      '(n, temp) ← snprintf temp off (16 - off) (percent_d v);
      array_text_loop value' temp (off + n)
  end.

(** [property_set_byte_array], [property_set_int_array]: the code is the same
    for [char] and [int] elements. *)
Definition property_set_int_array (key : list Z) (value : list Z) (s : pmgr) : option (Z * pmgr) :=
  temp ← array_text_loop value temp_data 0;
  '(ret, s) ← property_set key (Some (Local temp)) 16 s;
  Some (if ret =? 0 then 0 else - EACCES, s).
Definition property_set_byte_array (key : list Z) (value : list Z) (s : pmgr) : option (Z * pmgr) :=
  temp ← array_text_loop value temp_data 0;
  '(ret, s) ← property_set key (Some (Local temp)) 16 s;
  Some (if ret =? 0 then 0 else - EACCES, s).

(** [property_get_int_array]: [while (!str_begin)] with [str_begin] just set
    does not run; the arrays are taken as raw bytes. *)
Definition property_get_int_array (key buf : list Z) (value_len : Z) (default_value : list Z)
    (s : pmgr) : option (Z * list Z * pmgr) :=
  '(ret, _, s) ← property_get key temp_data 16 s;
  if 0 <? ret then Some (0, buf, s)
  else Some (0, memcpy buf 0 (take (Z.to_nat value_len) default_value), s).

(** ** Flushing *)

Definition property_flush (key : option (list Z)) (s : pmgr) : option (Z * pmgr) :=
  '(_, c) ← property_cache_flush key (pm_cache s);
  Some (0, set_cache c s).
Definition property_flush_req (key : option (list Z)) (s : pmgr) : Z * pmgr :=
  (0, set_cache (property_cache_flush_req key (pm_cache s)).2 s).
Definition property_flush_req_deal (s : pmgr) : option (Z * pmgr) :=
  '(_, c) ← property_cache_flush_req_deal (pm_cache s);
  Some (0, set_cache c s).

(** [property_clear_user_info] *)
Definition property_clear_user_info (s : pmgr) : option (Z * pmgr) :=
  '(_, s) ← property_flush None s;
  '(_, w) ← nv_clear_all (pc_world (pm_cache s));
  Some (0, set_cache (set_pworld w (pm_cache s)) s).

(** [property_manager_init] *)
Definition property_manager_init (s : pmgr) : Z * pmgr :=
  (0, set_cache (property_cache_init (pm_cache s)) s).
End manager.

(** A buffer of the caller's own is what it holds. *)
Class PropMgrLaws (W : Type) `{!PropEnv W} := {
  load_local b w : load (Local b) w = b;
}.

Section manager_laws.
Context {W : Type} `{!PropEnv W} `{!PropMgrEnv W} `{!PropLaws W} `{!PropMgrLaws W}.
Implicit Types (s : @pmgr W) (key : list Z) (mu mf : gmap (list Z) (list Z)).

(** A manager in order, on a store with [mu] in the user region and [mf]
    below it. *)
Record mgr_ok s mu mf : Prop := {
  mo_inv : pc_inv (pm_cache s);
  mo_stores : stores (pc_world (pm_cache s)) mu mf;
  mo_ample : ample (pc_world (pm_cache s));
}.

(** What is found under a name. *)
Definition prop_lookup s mu mf key : option (list Z) := pc_lookup (pm_cache s) mu mf key.

Lemma pmgr_eta s : set_cache (pm_cache s) s = s.
Proof. by destruct s. Qed.

Lemma property_get_spec s mu mf key buf n :
  mgr_ok s mu mf → name_ok key → 0 < n →
  property_get key buf n s =
  let '(ret, bytes) := get_result (prop_lookup s mu mf key) n in Some (ret, memcpy buf 0 bytes, s).
Proof.
  intros [Hinv Hst _] Hk Hn. unfold property_get, prop_lookup.
  rewrite (property_cache_get_spec _ mu mf) by done. destruct (get_result _ _) as [ret bytes].
  cbn. by rewrite pmgr_eta.
Qed.

(** A write that found room in the cache. *)
Lemma property_set_spec s mu mf key p len :
  mgr_ok s mu mf → has_slot (pm_cache s) key → name_ok key →
  buffer_ok (pc_world (pm_cache s)) p len →
  ∃ s', property_set key (Some p) len s = Some (0, s') ∧ mgr_ok s' mu mf ∧
    pm_msgs s' = pm_msgs s ∧
    prop_lookup s' mu mf key = Some (given (pc_world (pm_cache s)) p len) ∧
    ∀ n, n ≠ key → prop_lookup s' mu mf n = prop_lookup s mu mf n.
Proof.
  intros [Hinv Hst Ham] Hslot Hk Hbuf.
  destruct (property_cache_set_spec _ p len key Hinv Ham Hslot Hk Hbuf)
    as (c & Hrun & Hinv' & Hc & Hoth & Hst' & Ham' & _).
  exists (set_cache c s). unfold property_set. rewrite Hrun. cbn. split_and!; try done.
  - split; [done|by apply Hst'|done].
  - unfold prop_lookup, pc_lookup. cbn [set_cache pm_cache]. by rewrite Hc.
  - intros n Hn. unfold prop_lookup, pc_lookup. cbn [set_cache pm_cache]. by rewrite Hoth.
Qed.

(** *** Text values *)

(** A short text without terminator inside. *)
Definition text_ok (text : list Z) : Prop :=
  Forall (λ c, 0 < c < 256) text ∧ (0 < length text <= 15)%nat.

(** The buffer after the text was printed into it. *)
Lemma temp_data_text text :
  (length text <= 15)%nat →
  memcpy temp_data 0 (text ++ [0]) = text ++ 0 :: replicate (15 - length text) 0.
Proof.
  intros Hl. rewrite memcpy_start by (rewrite length_app; cbn; lia).
  unfold temp_data. rewrite drop_replicate, length_app, <- (assoc_L (++)). cbn [length app]. do 3 f_equal. lia.
Qed.

(** The same without the terminator, as a read leaves it. *)
Lemma temp_data_bytes text :
  (length text <= 15)%nat → memcpy temp_data 0 text = text ++ 0 :: replicate (15 - length text) 0.
Proof.
  intros Hl. rewrite memcpy_start by (cbn; lia).
  unfold temp_data. rewrite drop_replicate. f_equal. by replace (16 - length text)%nat with (S (15 - length text)) by lia.
Qed.

Lemma property_set_text_spec s mu mf key text :
  mgr_ok s mu mf → has_slot (pm_cache s) key → name_ok key → text_ok text →
  ∃ s', ('(_, temp) ← snprintf temp_data 0 16 text; property_set_text key temp s) = Some (0, s') ∧
    mgr_ok s' mu mf ∧ pm_msgs s' = pm_msgs s ∧ prop_lookup s' mu mf key = Some text ∧
    ∀ n, n ≠ key → prop_lookup s' mu mf n = prop_lookup s mu mf n.
Proof.
  intros Hs Hslot Hk [Htext Hlen]. rewrite snprintf_fits by (cbn [temp_data length replicate]; lia).
  cbn [mbind option_bind]. rewrite temp_data_text by lia. unfold property_set_text. rewrite strlen_app by done.
  cbn [mbind option_bind]. set (temp := text ++ 0 :: replicate (15 - length text) 0).
  destruct (property_set_spec s mu mf key (Local temp) (Z.of_nat (length text)) Hs Hslot Hk)
    as (s' & Hrun & Hs' & Hm & Hl & Hoth).
  - unfold buffer_ok. rewrite load_local. subst temp. split_and!; [lia|lia|rewrite length_app; lia|].
    apply Forall_app. split; [eapply Forall_impl; [exact Htext|]; cbn; unfold is_u8; lia|].
    constructor; [by vm_compute|]. apply Forall_replicate. by vm_compute.
  - exists s'. rewrite Hrun. cbn. split_and!; try done. rewrite Hl. unfold given. rewrite load_local, Nat2Z.id.
    subst temp. by rewrite take_app_length.
Qed.

(** Reading a short text into the sixteen-byte buffer. *)
Lemma property_get_text_spec s mu mf key text n :
  mgr_ok s mu mf → name_ok key → prop_lookup s mu mf key = Some text →
  (0 < length text)%nat → Z.of_nat (length text) <= n <= 15 ∨ n = 16 ∧ (length text <= 15)%nat →
  property_get key temp_data n s =
  Some (Z.of_nat (length text), text ++ 0 :: replicate (15 - length text) 0, s).
Proof.
  intros Hs Hk Hl Hpos Hn. rewrite (property_get_spec s mu mf) by (done || lia). rewrite Hl. cbn [get_result].
  rewrite firstn_all2 by lia. rewrite temp_data_bytes by lia. do 3 f_equal. lia.
Qed.

(** A stored integer text reads as its value. *)
Lemma parse_int_percent_d v rest :
  -2147483648 <= v < 2147483648 → parse_int (percent_d v ++ 0 :: rest) = Some (Some v).
Proof.
  intros Hv. unfold parse_int. rewrite strtol_percent_d by done. cbn [mbind option_bind].
  rewrite Nat2Z.id, lookup_app_r, Nat.sub_diag by lia. cbn [lookup list_lookup].
  pose proof (percent_d_length v Hv). destruct (Z.eqb_spec (Z.of_nat (length (percent_d v))) 0); [lia|].
  destruct (Z.leb_spec (-2147483648) v), (Z.leb_spec v 2147483647); [done|lia..].
Qed.

Lemma property_get_int_text s mu mf key v d :
  mgr_ok s mu mf → name_ok key → -2147483648 <= v < 2147483648 →
  prop_lookup s mu mf key = Some (percent_d v) → property_get_int key d s = Some (v, s).
Proof.
  intros Hs Hk Hv Hl. pose proof (percent_d_length v Hv). unfold property_get_int.
  rewrite (property_get_text_spec s mu mf key (percent_d v)) by (done || lia). cbn [mbind option_bind].
  destruct (Z.ltb_spec 0 (Z.of_nat (length (percent_d v)))); [|lia]. by rewrite parse_int_percent_d.
Qed.

(** Reads of a name depend on what is found under it alone. *)
Lemma property_get_int_same s s' mu mf key d :
  mgr_ok s mu mf → mgr_ok s' mu mf → name_ok key →
  prop_lookup s' mu mf key = prop_lookup s mu mf key →
  fst <$> property_get_int key d s' = fst <$> property_get_int key d s.
Proof.
  intros Hs Hs' Hk Hl. unfold property_get_int.
  rewrite (property_get_spec s mu mf), (property_get_spec s' mu mf) by done. rewrite Hl.
  destruct (get_result _ _) as [ret bytes]. cbn. destruct (0 <? ret); [|done].
  by destruct (parse_int _) as [v|].
Qed.

(** ** Theorems *)

(** Storing any 32-bit int under an ordinary name with room in the cache
    returns 0 without a message, and reading it back as a decimal text gives
    that int for every default, through both readers; integers under other
    names read as before. *)
Theorem property_set_get_int s mu mf key v :
  mgr_ok s mu mf → has_slot (pm_cache s) key → name_ok key → is_keys key = false →
  -2147483648 <= v < 2147483648 →
  ∃ s', property_set_int key v s = Some (0, s') ∧ mgr_ok s' mu mf ∧ pm_msgs s' = pm_msgs s ∧
    (∀ d, property_get_int key d s' = Some (v, s')) ∧
    (∀ d, property_get_integer key d s' = Some (Z.of_nat (length (percent_d v)), v, s')) ∧
    ∀ n d, name_ok n → n ≠ key →
      fst <$> property_get_int n d s' = fst <$> property_get_int n d s.
Proof.
  intros Hs Hslot Hk _ Hv. pose proof (percent_d_length v Hv) as Hlen.
  destruct (property_set_text_spec s mu mf key (percent_d v) Hs Hslot Hk)
    as (s' & Hrun & Hs' & Hm & Hl & Hoth); [split; [by apply percent_d_chars|lia]|].
  exists s'. split_and!; [done|done|done|..].
  - intros d. by apply (property_get_int_text s' mu mf).
  - intros d. unfold property_get_integer.
    rewrite (property_get_text_spec s' mu mf key (percent_d v)) by (done || lia). cbn [mbind option_bind].
    destruct (Z.ltb_spec 0 (Z.of_nat (length (percent_d v)))); [|lia]. by rewrite parse_int_percent_d.
  - intros n d Hn Hne. apply (property_get_int_same s s' mu mf); [done|done|done|by apply Hoth].
Qed.

(** A stored truth value is read back whatever the default, with the length of
    its text as the result. *)
Theorem property_set_get_bool s mu mf key b :
  mgr_ok s mu mf → has_slot (pm_cache s) key → name_ok key → is_keys key = false →
  ∃ s', property_set_bool key b s = Some (0, s') ∧ mgr_ok s' mu mf ∧
    ∀ d, property_get_bool key d s' = Some (if b then 4 else 5, b, s').
Proof.
  intros Hs Hslot Hk _. set (text := if b then TRUE_TEXT else FALSE_TEXT).
  destruct (property_set_text_spec s mu mf key text Hs Hslot Hk) as (s' & Hrun & Hs' & _ & Hl & _).
  { subst text. split; [destruct b; repeat constructor; lia|destruct b; cbn; lia]. }
  exists s'. split_and!; [done|done|]. intros d. unfold property_get_bool.
  rewrite (property_get_text_spec s' mu mf key text) by (done || subst text; destruct b; cbn; lia).
  subst text. by destruct b.
Qed.

(** *** A full cache *)

Definition cache_full s key : Prop :=
  find_property_cache (pc_items (pm_cache s)) key = None ∧ find_free (pc_items (pm_cache s)) = None.

Lemma property_cache_set_full s key p len :
  cache_full s key → 0 < len →
  property_cache_set key (Some p) len (pm_cache s) = Some (- ENOMEM, pm_cache s).
Proof.
  intros [Hnone Hfree] Hlen. unfold property_cache_set. rewrite bool_decide_eq_true_2 by eauto. cbn [andb].
  destruct (Z.leb_spec len 0); [lia|].
  assert (Hnew : new_cache_item key (Some p) len (pm_cache s) = (- ENOMEM, pm_cache s)).
  { unfold new_cache_item, get_property_cache. by rewrite Hfree. }
  unfold property_cache_set2, property_cache_set_bt_keys, property_cache_set_global_data, get_property_cache2.
  rewrite Hnone, Hnew, Hfree.
  repeat (destruct (_ || _); [done|]).
  destruct (strncmp_eq key CFG_BT_KEYS 7); [done|]. by destruct (_ || _).
Qed.

(** Deleting a name that the full cache does not hold goes the same way. *)
Lemma property_cache_clear_full s key :
  cache_full s key →
  property_cache_set key None 0 (pm_cache s) = Some (- ENOMEM, pm_cache s).
Proof.
  intros [Hnone Hfree]. unfold property_cache_set. rewrite bool_decide_eq_false_2 by (by intros [? ?]). cbn [andb].
  assert (Hnew : new_cache_item key None 0 (pm_cache s) = (- ENOMEM, pm_cache s)).
  { unfold new_cache_item, get_property_cache. by rewrite Hfree. }
  unfold property_cache_set2, property_cache_set_bt_keys, property_cache_set_global_data, get_property_cache2.
  rewrite Hnone, Hnew, Hfree.
  repeat (destruct (_ || _); [done|]).
  destruct (strncmp_eq key CFG_BT_KEYS 7); [done|]. by destruct (_ || _).
Qed.

(** Allocation succeeds and changes nothing that is looked at. *)
Lemma pm_malloc_ok s mu mf n :
  mgr_ok s mu mf →
  ∃ s', pm_malloc n s = (true, s') ∧ mgr_ok s' mu mf ∧ pm_msgs s' = pm_msgs s ∧
    pm_sends s' = pm_sends s ∧ pc_items (pm_cache s') = pc_items (pm_cache s) ∧
    ∀ p, load p (pc_world (pm_cache s')) = load p (pc_world (pm_cache s)).
Proof.
  intros [[Hsz Hu Hok] Hst Ham]. destruct (malloc_ok (pc_world (pm_cache s)) n Ham) as (w & Hm & Ham' & Hst' & Hld).
  exists (set_cache (set_pworld w (pm_cache s)) s). unfold pm_malloc. rewrite Hm.
  split_and!; [done| |done..]. split; [|by apply Hst'|done]. split; [done|done|].
  intros i it Hi Hused. eapply item_ok_load; [exact Hld|]. by eapply Hok.
Qed.

(** What is found depends on the items and the memory behind them. *)
Lemma prop_lookup_same s s' mu mf key :
  pc_items (pm_cache s') = pc_items (pm_cache s) →
  (∀ p, load p (pc_world (pm_cache s')) = load p (pc_world (pm_cache s))) →
  prop_lookup s' mu mf key = prop_lookup s mu mf key.
Proof.
  intros Hi Hl. unfold prop_lookup, pc_lookup, cached. rewrite Hi.
  destruct (find_property_cache _ key) as [[i it]|]; [|done]. cbn. f_equal. by apply item_value_load.
Qed.

(** The message with the value is queued. *)
Lemma submit_nvram_write_work_spec s mu mf key p len :
  mgr_ok s mu mf → pm_sends s = [] → buffer_ok (pc_world (pm_cache s)) p len →
  let m := mk_nvram_write_msg key (Some (given (pc_world (pm_cache s)) p len)) len in
  ∃ s', submit_nvram_write_work key (Some p) len s = (0, s') ∧ mgr_ok s' mu mf ∧
    pm_msgs s' = pm_msgs s ++ [m] ∧ pc_items (pm_cache s') = pc_items (pm_cache s) ∧
    ∀ p, load p (pc_world (pm_cache s')) = load p (pc_world (pm_cache s)).
Proof.
  intros Hs Hsend Hbuf m.
  destruct (pm_malloc_ok s mu mf 12 Hs) as (s1 & E1 & Hs1 & M1 & S1 & I1 & L1).
  destruct (pm_malloc_ok s1 mu mf (Z.of_nat (length key) + 1) Hs1) as (s2 & E2 & Hs2 & M2 & S2 & I2 & L2).
  destruct (pm_malloc_ok s2 mu mf len Hs2) as (s3 & E3 & Hs3 & M3 & S3 & I3 & L3).
  assert (Hld : ∀ p, load p (pc_world (pm_cache s3)) = load p (pc_world (pm_cache s))) by (intros; congruence).
  exists (mk_pmgr (pm_cache s3) (pm_msgs s3 ++ [m]) []).
  unfold submit_nvram_write_work. rewrite E1. cbn [negb]. rewrite E2. cbn [negb].
  destruct Hbuf as ([Hpos _] & _). destruct (Z.ltb_spec 0 len); [|lia]. rewrite E3. cbn [negb].
  split_and!; cbn [pm_cache pm_msgs].
  - unfold send_async_msg. rewrite S3, S2, S1, Hsend. subst m. unfold given. by rewrite Hld.
  - destruct Hs3 as [H1 H2 H3]. by split.
  - by rewrite M3, M2, M1.
  - congruence.
  - done.
Qed.

(** A value for a name that a full cache does not hold is put into one
    message: the call returns 0 and nothing is read differently until the
    callback has run, which writes the value to the store, where every read
    then finds it, and frees the message. *)
Theorem property_set_full_cache s mu mf key p len :
  mgr_ok s mu mf → cache_full s key → pm_msgs s = [] → pm_sends s = [] → name_ok key →
  buffer_ok (pc_world (pm_cache s)) p len → fits mu key (given (pc_world (pm_cache s)) p len) →
  ∃ s1 s2, property_set key (Some p) len s = Some (0, s1) ∧ mgr_ok s1 mu mf ∧
    length (pm_msgs s1) = 1%nat ∧
    (∀ n, prop_lookup s1 mu mf n = prop_lookup s mu mf n) ∧
    nvram_write_msg_callback s1 = Some s2 ∧ pm_msgs s2 = [] ∧
    let v := given (pc_world (pm_cache s)) p len in
    mgr_ok s2 (<[key := v]> mu) mf ∧
    ∀ n, prop_lookup s2 (<[key := v]> mu) mf n =
         if decide (n = key) then Some v else prop_lookup s mu mf n.
Proof.
  intros Hs Hfull Hmsgs Hsend Hk Hbuf Hfit. pose proof Hbuf as ([Hpos Hle] & Hlen & Hby).
  destruct (submit_nvram_write_work_spec s mu mf key p len Hs Hsend Hbuf) as (s1 & Hrun & Hs1 & Hm & Hi & Hl).
  rewrite Hmsgs in Hm. cbn [app] in Hm. set (v := given (pc_world (pm_cache s)) p len) in *.
  assert (Hv : Z.of_nat (length v) = len) by (by apply given_length).
  destruct (nv_set_ok (pc_world (pm_cache s1)) mu mf key v) as (w & Hset & Hst & Ham & Hld); try done.
  { apply Hs1. }
  { split; [by apply given_bytes|lia]. }
  rewrite Hv in Hset. set (s2 := mk_pmgr (set_pworld w (pm_cache s1)) [] (pm_sends s1)).
  assert (Hnone : find_property_cache (pc_items (pm_cache s1)) key = None) by (rewrite Hi; apply Hfull).
  exists s1, s2. cbv zeta. fold v. split_and!.
  - unfold property_set. rewrite property_cache_set_full by done. cbn. rewrite pmgr_eta. by rewrite Hrun.
  - done.
  - by rewrite Hm.
  - intros n. by apply prop_lookup_same.
  - unfold nvram_write_msg_callback. rewrite Hm. unfold handle_nvram_write_request. cbn [wm_name wm_data wm_len pm_cache].
    by rewrite Hset.
  - done.
  - destruct Hs1 as [[H1 H2 H3] H4 H5]. split; [|exact Hst|by apply Ham]. split; [done|done|].
    intros i it Hit Hused. eapply item_ok_load; [exact Hld|]. by eapply H3.
  - intros n. unfold prop_lookup, pc_lookup, cached. cbn [s2 pm_cache set_pworld pc_items pc_world]. rewrite Hi.
    case_decide as E.
    + subst n. destruct Hfull as [-> _]. cbn. by rewrite lookup_union, lookup_insert_eq, union_Some_l.
    + destruct (find_property_cache (pc_items (pm_cache s)) n) as [[i it]|]; cbn.
      * f_equal. apply item_value_load. intros q. by rewrite Hld.
      * by rewrite !lookup_union, lookup_insert_ne by done.
Qed.
End manager_laws.

(** *** Arrays as text *)

(** The characters a list of numbers is printed with, without separators. *)
Definition array_chars (l : list Z) : list Z := mjoin (percent_d <$> l).

(** At an offset past the buffer the terminator lands outside. *)
Lemma array_text_overflow_now v value temp off :
  (length temp = 16)%nat → 16 < off < 2147483648 → array_text_loop (v :: value) temp off = None.
Proof.
  intros Ht Hoff. cbn [array_text_loop]. destruct (Z.eqb_spec off 0); [lia|]. cbn [mbind option_bind].
  replace (off + 0) with off by lia. unfold snprintf.
  assert (u32 (16 - off) = 4294967296 + 16 - off) as ->.
  { unfold u32. rewrite <- (Z.mod_add _ 1) by lia. rewrite Z.mod_small; lia. }
  destruct (Z.eqb_spec (4294967296 + 16 - off) 0); [lia|]. rewrite s32_id by lia.
  replace (Z.to_nat (16 - off - 1)) with 0%nat by lia. rewrite take_0. cbn [app length].
  destruct (Z.leb_spec (off + Z.of_nat 1) (Z.of_nat (length temp))); [lia|done].
Qed.

(** One element is printed: nothing outside the buffer is written while the
    offset is inside it. *)
Lemma array_text_step v value temp off :
  (length temp = 16)%nat → 0 < off <= 16 → -2147483648 <= v < 2147483648 →
  ∃ temp', (length temp' = 16)%nat ∧
    array_text_loop (v :: value) temp off =
    array_text_loop value temp' (off + Z.of_nat (length (percent_d v))).
Proof.
  intros Ht Hoff Hv. cbn [array_text_loop]. destruct (Z.eqb_spec off 0); [lia|]. cbn [mbind option_bind].
  replace (off + 0) with off by lia. unfold snprintf. rewrite u32_id, s32_id by lia.
  destruct (Z.eqb_spec (16 - off) 0).
  { exists temp. split; [done|]. done. }
  exists (memcpy temp (Z.to_nat off) (take (Z.to_nat (16 - off - 1)) (percent_d v) ++ [0])).
  rewrite length_memcpy. split; [done|].
  destruct (Z.leb_spec (off + Z.of_nat (length (take (Z.to_nat (16 - off - 1)) (percent_d v) ++ [0])))
              (Z.of_nat (length temp))) as [|H]; [done|].
  rewrite length_app, length_take in H. cbn [length] in H. lia.
Qed.

Lemma array_text_overflow l v value temp off :
  (length temp = 16)%nat → 0 < off <= 16 → Forall (λ v, -2147483648 <= v < 2147483648) l →
  16 < off + Z.of_nat (length (array_chars l)) →
  array_text_loop (l ++ v :: value) temp off = None.
Proof.
  intros Ht Hoff Hl. revert temp off Ht Hoff. induction Hl as [|x l Hx Hl IH]; intros temp off Ht Hoff Hlong.
  { cbn in Hlong. lia. }
  cbn [app]. destruct (array_text_step x (l ++ v :: value) temp off Ht Hoff Hx) as (temp' & Ht' & ->).
  pose proof (percent_d_length x Hx). unfold array_chars in Hlong. cbn [fmap list_fmap mjoin list_join] in Hlong.
  rewrite length_app in Hlong. fold (array_chars l) in Hlong.
  destruct (Z.leb_spec (off + Z.of_nat (length (percent_d x))) 16).
  - apply IH; [done|lia|]. unfold array_chars, mjoin, fmap in *. lia.
  - destruct l as [|y l]; cbn [app]; apply array_text_overflow_now; [done|lia|done|lia].
Qed.

(** Once the numbers so far have more than 15 characters, storing one more
    number writes outside the buffer on the stack. *)
Theorem property_set_int_array_overflow {W} `{!PropEnv W} (s : @pmgr W) key l v value :
  Forall (λ v, -2147483648 <= v < 2147483648) l → (15 < length (array_chars l))%nat →
  property_set_int_array key (l ++ v :: value) s = None.
Proof.
  intros Hl Hlong. unfold property_set_int_array.
  assert (array_text_loop (l ++ v :: value) temp_data 0 = None) as ->; [|done].
  destruct l as [|x l]; [cbn in Hlong; lia|]. inversion Hl as [|? ? Hx Hl']; subst.
  cbn [app array_text_loop]. change (0 =? 0) with true. cbv iota.
  change (snprintf temp_data 0 (16 - 0) [44]) with (Some (1, memcpy temp_data 0 [44; 0])).
  cbn [mbind option_bind].
  assert (H : array_text_loop (x :: (l ++ v :: value)) (memcpy temp_data 0 [44; 0]) 1 = None).
  { apply (array_text_overflow (x :: l)); [done|lia|done|lia]. }
  exact H.
Qed.
