(* ===== verification/AudioPolicy.v ===== *)
(** * Audio policy: volume tables and volume scales

    The volume part of ext/actions/audio/audio_policy.c with the policy
    samples/bt_speaker/src/system_app/system_audio_policy.c registers
    (CONFIG_AUDIO_VOLUME_PA and CONFIG_AUDIO_MULTI_CHANNEL_MODE set,
    CONFIG_MUSIC_EXTERNAL_EFFECT not set, 16 levels), and the conversions of the
    Bluetooth manager between the levels and the volume scales of AVRCP (0-127)
    and LE Audio (0-255). *)

From stdpp Require Import base numbers list option.
From S2P Require Import Prelude.
Local Open Scope Z_scope.

(** [audio_stream_type_e] *)
Inductive audio_stream :=
  | AUDIO_STREAM_DEFAULT | AUDIO_STREAM_MUSIC | AUDIO_STREAM_LOCAL_MUSIC | AUDIO_STREAM_TTS
  | AUDIO_STREAM_VOICE | AUDIO_STREAM_LINEIN | AUDIO_STREAM_LINEIN_MIX | AUDIO_STREAM_SUBWOOFER
  | AUDIO_STREAM_ASR | AUDIO_STREAM_AI | AUDIO_STREAM_USOUND | AUDIO_STREAM_USOUND_MIX
  | AUDIO_STREAM_USPEAKER | AUDIO_STREAM_I2SRX_IN | AUDIO_STREAM_SPDIF_IN
  | AUDIO_STREAM_GENERATE_IN | AUDIO_STREAM_GENERATE_OUT | AUDIO_STREAM_LOCAL_RECORD
  | AUDIO_STREAM_GMA_RECORD | AUDIO_STREAM_BACKGROUND_RECORD | AUDIO_STREAM_MIC_IN
  | AUDIO_STREAM_FM | AUDIO_STREAM_TWS | AUDIO_STREAM_OKMIC | AUDIO_STREAM_OKMIC_FM
  | AUDIO_STREAM_OKMIC_LINE_IN | AUDIO_STREAM_LE_AUDIO | AUDIO_STREAM_SOUNDBAR | AUDIO_STREAM_BMR.

#[export] Instance audio_stream_eq_dec : EqDecision audio_stream.
Proof. solve_decision. Defined.

(** The fields of [struct audio_policy_t] the volume code reads; a null table
    is [None]. *)
Record audio_policy := mk_audio_policy {
  audio_out_volume_level : Z;
  tts_fixed_volume : bool;
  volume_saveto_nvram : bool;
  music_da_table : option (list Z);
  music_pa_table : option (list Z);
  voice_da_table : option (list Z);
  voice_pa_table : option (list Z);
  usound_da_table : option (list Z);
  usound_pa_table : option (list Z);
  multi_ch_da0_table : option (list Z);
  multi_ch_da1_table : option (list Z);
}.

Definition FULL_RANGE_DA_VALUE : Z := 1073741824.
Definition FULL_RANGE_PA_VALUE : Z := 40.

(** The guard of every table access: a level of type [u8_t], cut to the top
    level. *)
Definition clip_level (p : audio_policy) (level : Z) : Z :=
  let level := u8 level in
  if audio_out_volume_level p <? level then audio_out_volume_level p else level.

(** [(s16_t) z] *)
Definition s16 (z : Z) : Z := let w := z mod 65536 in if w <? 32768 then w else w - 65536.

Definition table_value (t : option (list Z)) (level default : Z) : Z :=
  match t with Some l => getb l level | None => default end.

(** [audio_policy_get_pa_volume] *)
Definition audio_policy_get_pa_volume (user_policy : option audio_policy) (stream_type : audio_stream)
    (volume_level : Z) : Z :=
  match user_policy with
  | None => FULL_RANGE_PA_VALUE
  | Some p =>
      let level := clip_level p volume_level in
      match stream_type with
      | AUDIO_STREAM_VOICE => table_value (voice_pa_table p) level FULL_RANGE_PA_VALUE
      | AUDIO_STREAM_USOUND => table_value (usound_pa_table p) level FULL_RANGE_PA_VALUE
      | AUDIO_STREAM_SOUNDBAR | AUDIO_STREAM_LE_AUDIO | AUDIO_STREAM_LINEIN | AUDIO_STREAM_FM
      | AUDIO_STREAM_I2SRX_IN | AUDIO_STREAM_MIC_IN | AUDIO_STREAM_MUSIC
      | AUDIO_STREAM_LOCAL_MUSIC | AUDIO_STREAM_SPDIF_IN | AUDIO_STREAM_TTS =>
          table_value (music_pa_table p) level FULL_RANGE_PA_VALUE
      | _ => FULL_RANGE_PA_VALUE
      end
  end.

(** [audio_policy_get_da_volume] *)
Definition audio_policy_get_da_volume (user_policy : option audio_policy) (stream_type : audio_stream)
    (volume_level : Z) : Z :=
  match user_policy with
  | None => FULL_RANGE_DA_VALUE
  | Some p =>
      let level := clip_level p volume_level in
      match stream_type with
      | AUDIO_STREAM_VOICE => table_value (voice_da_table p) level FULL_RANGE_DA_VALUE
      | AUDIO_STREAM_USOUND => s32 (table_value (usound_da_table p) level FULL_RANGE_DA_VALUE)
      | AUDIO_STREAM_SOUNDBAR | AUDIO_STREAM_LE_AUDIO | AUDIO_STREAM_LINEIN | AUDIO_STREAM_FM
      | AUDIO_STREAM_I2SRX_IN | AUDIO_STREAM_MIC_IN | AUDIO_STREAM_SPDIF_IN | AUDIO_STREAM_MUSIC
      | AUDIO_STREAM_LOCAL_MUSIC | AUDIO_STREAM_TTS =>
          s32 (table_value (music_da_table p) level FULL_RANGE_DA_VALUE)
      | _ => FULL_RANGE_DA_VALUE
      end
  end.

(** [audio_policy_get_multi_ch_da_volume] *)
Definition audio_policy_get_multi_ch_da_volume (user_policy : option audio_policy)
    (stream_type : audio_stream) (level ch : Z) : Z :=
  match user_policy with
  | None => 0
  | Some p =>
      let level := clip_level p level in
      match stream_type with
      | AUDIO_STREAM_VOICE => 0
      | _ => if ch =? 0 then s16 (table_value (multi_ch_da0_table p) level 0)
             else if ch =? 1 then s16 (table_value (multi_ch_da1_table p) level 0)
             else 0
      end
  end.

(** [audio_policy_is_da_mute] without the external effect. *)
Definition audio_policy_is_da_mute (stream_type : audio_stream) : bool := false.

(** [audio_policy_get_volume_level] *)
Definition audio_policy_get_volume_level (user_policy : option audio_policy) : Z :=
  match user_policy with Some p => audio_out_volume_level p | None => 16 end.

(** [audio_policy_check_tts_fixed_volume], [..._check_save_volume_to_nvram] *)
Definition audio_policy_check_tts_fixed_volume (user_policy : option audio_policy) : bool :=
  match user_policy with Some p => tts_fixed_volume p | None => true end.
Definition audio_policy_check_save_volume_to_nvram (user_policy : option audio_policy) : bool :=
  match user_policy with Some p => volume_saveto_nvram p | None => true end.

(** [audio_policy_get_volume_level_by_db], in tenths of a decibel. *)
Definition vol_level_db_table : list Z :=
  [-590; -440; -380; -340; -290; -240; -210; -190; -170; -147; -123; -100; -74; -50; -30; -2; 0].

(** The loop: the first entry above the volume, 0 when there is none. *)
Fixpoint first_above (i : Z) (table : list Z) (db : Z) : Z :=
  match table with
  | [] => 0
  | t :: table' => if db <? t then i else first_above (i + 1) table' db
  end.
Definition audio_policy_get_volume_level_by_db (user_policy : option audio_policy) (volume_db : Z) : Z :=
  let level := if getb vol_level_db_table 16 <=? volume_db then 16
               else first_above 0 vol_level_db_table volume_db in
  Z.quot (level * audio_policy_get_volume_level user_policy) 16.

(** [system_audio_policy] *)
Definition MAX_AUDIO_VOL_LEVEL : Z := 16.
Definition voice_da_values : list Z :=
  [0; 4860; 6113; 7684; 9657; 12137; 15254; 19172; 22068; 23262; 24521; 25848; 27247; 28722;
   30277; 31916; 31926].
Definition voice_pa_values : list Z := replicate 17 40.
Definition music_da_values : list Z := replicate 17 1073741824.
Definition music_pa_values : list Z :=
  [0; 16; 18; 21; 23; 26; 29; 31; 32; 33; 34; 35; 36; 37; 38; 39; 40].
Definition system_audio_policy : audio_policy :=
  mk_audio_policy MAX_AUDIO_VOL_LEVEL true true
    (Some music_da_values) (Some music_pa_values) (Some voice_da_values) (Some voice_pa_values)
    (Some music_da_values) (Some music_pa_values)
    (Some (replicate 17 0)) (Some (replicate 17 0)).

(** ** Bluetooth volume scales, in 32-bit unsigned arithmetic *)

(** [bt_manager_music_to_lea_volume], [bt_manager_lea_to_music_volume] *)
Definition bt_manager_music_to_lea_volume (max_volume music_vol : Z) : Z :=
  if music_vol =? 0 then 0
  else if max_volume <=? music_vol then 255
  else u32 (music_vol * 256) / max_volume.
Definition bt_manager_lea_to_music_volume (max_volume lea_vol : Z) : Z :=
  if lea_vol =? 0 then 0
  else if 255 <=? lea_vol then max_volume
  else u32 (u32 (lea_vol + 1) * max_volume) / 256.

(** [_bt_manager_music_to_avrcp_volume], [_bt_manager_avrcp_to_music_volume] *)
Definition bt_manager_music_to_avrcp_volume (max_volume music_vol : Z) : Z :=
  if music_vol =? 0 then 0
  else if max_volume <=? music_vol then 127
  else u32 (music_vol * 128) / max_volume.
Definition bt_manager_avrcp_to_music_volume (max_volume avrcp_vol : Z) : Z :=
  if avrcp_vol =? 0 then 0
  else if 127 <=? avrcp_vol then max_volume
  else
    let music_vol := u32 (u32 (avrcp_vol + 1) * max_volume) / 128 in
    if music_vol =? 0 then 1 else music_vol.

(** ** Theorems *)

(** A level scaled up to [n] steps and back is the level, when there are fewer
    levels than steps. *)
Lemma scale_roundtrip n m v :
  0 < m < n → 0 < v < m → 0 < v * n / m < n - 1 ∧ (v * n / m + 1) * m / n = v.
Proof.
  intros Hm Hv. set (q := v * n / m).
  assert (Hq : m * q <= v * n < m * (q + 1)).
  { subst q. pose proof (Z.mul_div_le (v * n) m ltac:(lia)). pose proof (Z.mul_succ_div_gt (v * n) m ltac:(lia)). lia. }
  split; [nia|]. symmetry. apply (Z.div_unique _ _ _ ((q + 1) * m - n * v)); nia.
Qed.

(** The same for the code's scale with its two end points. *)
Lemma scale_code n m v : 0 < m < n → 0 <= v <= m → n <= 256 →
  let up := if v =? 0 then 0 else if m <=? v then n - 1 else u32 (v * n) / m in
  0 <= up < n ∧ (up = 0 ↔ v = 0) ∧ (up = n - 1 → v = m) ∧
  (0 < up < n - 1 → u32 (u32 (up + 1) * m) / n = v).
Proof.
  intros Hm Hv Hn up. subst up. destruct (Z.eqb_spec v 0), (Z.leb_spec m v); try lia.
  destruct (scale_roundtrip n m v) as [H1 H2]; [lia|lia|]. rewrite (u32_id (v * n)) by nia.
  split_and!; try lia. intros _. rewrite (u32_id (v * n / m + 1)) by lia. rewrite u32_id by nia. done.
Qed.

(** For every policy of fewer than 127 levels, a level sent to the phone on
    the AVRCP scale (0..127) or the LE audio scale (0..255) comes back as the
    same level, so that echoing a volume never moves it. *)
Theorem bt_volume_scales_roundtrip max_volume v :
  0 < max_volume < 127 → 0 <= v <= max_volume →
  0 <= bt_manager_music_to_avrcp_volume max_volume v <= 127 ∧
  bt_manager_avrcp_to_music_volume max_volume (bt_manager_music_to_avrcp_volume max_volume v) = v ∧
  0 <= bt_manager_music_to_lea_volume max_volume v <= 255 ∧
  bt_manager_lea_to_music_volume max_volume (bt_manager_music_to_lea_volume max_volume v) = v.
Proof.
  intros Hm Hv.
  destruct (scale_code 128 max_volume v) as (A1 & A2 & A3 & A4); [lia..|].
  destruct (scale_code 256 max_volume v) as (L1 & L2 & L3 & L4); [lia..|].
  unfold bt_manager_avrcp_to_music_volume, bt_manager_lea_to_music_volume,
    bt_manager_music_to_avrcp_volume, bt_manager_music_to_lea_volume.
  change (128 - 1) with 127 in *. change (256 - 1) with 255 in *.
  set (a := if v =? 0 then 0 else if max_volume <=? v then 127 else _) in *.
  set (l := if v =? 0 then 0 else if max_volume <=? v then 255 else _) in *.
  split_and!; try lia.
  - destruct (Z.eqb_spec a 0), (Z.leb_spec 127 a); try lia. rewrite A4 by lia.
    destruct (Z.eqb_spec v 0); lia.
  - destruct (Z.eqb_spec l 0), (Z.leb_spec 255 l); lia.
Qed.

(** A policy whose tables have an entry for every level. *)
Definition policy_ok (p : audio_policy) : Prop :=
  0 < audio_out_volume_level p < 256 ∧
  ∀ t, t ∈ [music_da_table p; music_pa_table p; voice_da_table p; voice_pa_table p;
            usound_da_table p; usound_pa_table p; multi_ch_da0_table p; multi_ch_da1_table p] →
    match t with Some l => Z.of_nat (length l) = audio_out_volume_level p + 1 | None => True end.

(** Every table access of a registered policy is inside the table, whatever
    level is asked for. *)
Theorem audio_policy_table_access p level t l :
  policy_ok p → t = Some l →
  t ∈ [music_da_table p; music_pa_table p; voice_da_table p; voice_pa_table p;
       usound_da_table p; usound_pa_table p; multi_ch_da0_table p; multi_ch_da1_table p] →
  0 <= clip_level p level < Z.of_nat (length l).
Proof.
  intros [Hlev Htab] -> Ht%Htab. unfold clip_level.
  destruct (Z.ltb_spec (audio_out_volume_level p) (u8 level)); dlia.
Qed.

Lemma system_audio_policy_ok : policy_ok system_audio_policy.
Proof.
  split; [by vm_compute|]. intros t Ht. rewrite !elem_of_cons in Ht.
  by repeat (destruct Ht as [->|Ht]; [done|]); apply elem_of_nil in Ht.
Qed.

(** The decibel table climbs. *)
Lemma first_above_range i l db : 0 <= i → 0 <= first_above i l db < i + Z.of_nat (length l) ∨ first_above i l db = 0.
Proof.
  revert i. induction l as [|t l IH]; intros i Hi; [by right|]. cbn [first_above length].
  destruct (db <? t); [left; lia|]. destruct (IH (i + 1)); [lia|left; lia|by right].
Qed.

(** Below some entry the loop finds the smallest index above. *)
Lemma first_above_mono i l db db' :
  0 <= i → db <= db' → Exists (λ t, db' < t) l →
  first_above i l db <= first_above i l db' ∧ i <= first_above i l db.
Proof.
  intros Hi Hle Hex. revert i Hi. induction Hex as [t l Ht|t l Hex IH]; intros i Hi; cbn [first_above].
  - destruct (Z.ltb_spec db t), (Z.ltb_spec db' t); lia.
  - destruct (IH (i + 1) ltac:(lia)). destruct (Z.ltb_spec db t), (Z.ltb_spec db' t); lia.
Qed.

(** The level for a volume in decibels grows with the volume and stays in the
    range of the policy; 0 dB is the top level. *)
Theorem audio_policy_level_by_db_monotone p db db' :
  policy_ok p → db <= db' →
  0 <= audio_policy_get_volume_level_by_db (Some p) db
    <= audio_policy_get_volume_level_by_db (Some p) db' ∧
  audio_policy_get_volume_level_by_db (Some p) db' <= audio_out_volume_level p ∧
  audio_policy_get_volume_level_by_db (Some p) 0 = audio_out_volume_level p.
Proof.
  intros [Hlev _] Hle.
  pose (lev x := if getb vol_level_db_table 16 <=? x then 16 else first_above 0 vol_level_db_table x).
  assert (Hlev' : ∀ x, 0 <= lev x <= 16).
  { intros x. subst lev. cbv beta. destruct (_ <=? x); [lia|].
    destruct (first_above_range 0 vol_level_db_table x ltac:(lia)) as [H|H]; [cbn [length vol_level_db_table] in H; lia|lia]. }
  assert (Hmono : lev db <= lev db').
  { pose proof (Hlev' db). subst lev. cbv beta in *. change (getb vol_level_db_table 16) with 0 in *.
    destruct (Z.leb_spec 0 db), (Z.leb_spec 0 db'); try lia.
    apply first_above_mono; [lia|done|]. do 16 apply Exists_cons_tl. by constructor. }
  unfold audio_policy_get_volume_level_by_db, audio_policy_get_volume_level.
  fold (lev db). fold (lev db'). set (m := audio_out_volume_level p) in *.
  pose proof (Hlev' db). pose proof (Hlev' db'). rewrite !Z.quot_div_nonneg by nia.
  split_and!.
  - apply Z.div_pos; nia.
  - apply Z.div_le_mono; nia.
  - apply Z.div_le_upper_bound; nia.
  - change (getb vol_level_db_table 16 <=? 0) with true. cbv iota.
    rewrite Z.quot_div_nonneg by lia. replace (16 * m) with (m * 16) by lia. apply Z.div_mul. lia.
Qed.

Lemma bt_volume_scales_roundtrip_witness :
  bt_manager_avrcp_to_music_volume 16 (bt_manager_music_to_avrcp_volume 16 5) = 5 ∧
  bt_manager_lea_to_music_volume 16 (bt_manager_music_to_lea_volume 16 5) = 5.
Proof. destruct (bt_volume_scales_roundtrip 16 5) as (_ & H1 & _ & H2); [lia|lia|]. exact (conj H1 H2). Defined.
