(* ===== verification/AudioSystem.v ===== *)
(** * The audio system: volumes, tracks and records

    ext/actions/audio/audio_system.c, with the volume functions of
    audio_track.c and audio_record.c it calls.  The state behind the static
    pointer [audio_system] is [None] before [aduio_system_init]; tracks and
    records are objects in memory that the pools point to.  Properties go
    through the class [PropIface], hardware calls into a trace.  [None] stands
    for a call that does not return or follows a null pointer.  The dump
    functions only print and are left out; [os_mutex] makes a volume change one
    step. *)

From stdpp Require Import base numbers list option functions.
From S2P Require Import Prelude Libc AudioPolicy.
Local Open Scope Z_scope.

Definition ESRCH : Z := 3.
Definition ENXIO : Z := 6.
Definition EAGAIN : Z := 11.
Definition MAX_AUDIO_TRACK_NUM : nat := 2.
Definition MAX_AUDIO_RECORD_NUM : nat := 2.
Definition MAX_VOLUME_VALUE : Z := 2.
Definition MIN_VOLUME_VALUE : Z := 1.
Definition DEFAULT_VOLUME : Z := 5.

(** The names of the volume properties. *)
Definition CFG_TONE_VOLUME : list Z := [84; 79; 78; 69; 95; 86; 79; 76; 85; 77; 69].
Definition CFG_TTS_MIN_VOL : list Z := [84; 84; 83; 95; 77; 73; 78; 95; 86; 79; 76; 85; 77; 69].
Definition CFG_TTS_MAX_VOL : list Z := [84; 84; 83; 95; 77; 65; 88; 95; 86; 79; 76; 85; 77; 69].
Definition CFG_BTPLAY_VOLUME : list Z := [66; 84; 80; 76; 65; 89; 95; 86; 79; 76; 85; 77; 69].
Definition CFG_BTCALL_VOLUME : list Z := [66; 84; 67; 65; 76; 76; 95; 86; 79; 76; 85; 77; 69].
Definition CFG_LINEIN_VOLUME : list Z := [76; 73; 78; 69; 73; 78; 95; 86; 79; 76; 85; 77; 69].
Definition CFG_MIC_IN_VOLUME : list Z := [77; 73; 67; 95; 73; 78; 95; 86; 79; 76; 85; 77; 69].
Definition CFG_SPDIF_IN_VOLUME : list Z := [83; 80; 68; 73; 70; 95; 73; 78; 95; 86; 79; 76; 85; 77; 69].
Definition CFG_FM_VOLUME : list Z := [70; 77; 95; 86; 79; 76; 85; 77; 69].
Definition CFG_I2SRX_IN_VOLUME : list Z := [73; 50; 83; 82; 88; 95; 73; 78; 95; 86; 79; 76; 85; 77; 69].
Definition CFG_LOCALPLAY_VOLUME : list Z := [76; 79; 67; 65; 76; 80; 76; 65; 89; 95; 86; 79; 76; 85; 77; 69].
Definition CFG_USOUND_VOLUME : list Z := [85; 83; 79; 85; 78; 68; 95; 86; 79; 76; 85; 77; 69].
Definition CFG_LEA_VOLUME : list Z := [76; 69; 65; 95; 86; 79; 76; 85; 77; 69].
Definition CFG_BMR_VOLUME : list Z := [76; 69; 95; 86; 79; 76; 85; 77; 69].

(** The volume fields of [struct audio_system_t]. *)
Inductive vol_slot :=
  | master_volume | tts_volume | music_volume | voice_volume | linein_volume | fm_volume
  | i2srx_in_volume | mic_in_volume | spidf_in_volume | usound_volume | lcmusic_volume
  | max_volume | min_volume | lea_volume | bmr_volume.
#[export] Instance vol_slot_eq_dec : EqDecision vol_slot.
Proof. solve_decision. Defined.

(** The fields of [struct audio_track_t] and [struct audio_record_t] in use. *)
Record audio_track := mk_track { tr_stream : audio_stream; tr_volume : Z; tr_output_sample_rate : Z }.
Record audio_record := mk_record { rc_stream : audio_stream; rc_muted : bool; rc_volume : Z }.

(** [struct audio_system_t]: pool entries are addresses. *)
Record audio_sys := mk_audio_sys {
  as_vols : vol_slot → Z;
  audio_track_pool : list (option Z);
  audio_record_pool : list (option Z);
  audio_track_num : Z;
  audio_record_num : Z;
  microphone_muted : bool;
  output_sample_rate : Z;
  master_muted : bool;
}.

(** Calls on the hardware layer and on the streaming part of the tracks. *)
Inductive hal_call :=
  | HalChannelMute (track : Z) (mute : bool)
  | HalChannelPaVolume (track pa : Z)
  | HalAinVolume (record volume : Z)
  | TrackStart (track : Z)
  | RecordStart (record : Z)
  | HalAudioOutInit
  | HalAudioInInit.

(** The property manager, as the audio system uses it. *)
Class PropIface (W : Type) := {
  prop_get_int : list Z → Z → W → option (Z * W);
  prop_set : list Z → option (list Z) → W → option (Z * W);
}.

Section audio.
Context {W : Type} `{!PropIface W}.

Record audio := mk_audio {
  au_sys : option audio_sys;
  au_tracks : Z → audio_track;
  au_records : Z → audio_record;
  au_policy : option audio_policy;
  au_calls : list hal_call;
  au_world : W;
}.

Definition au_set_sys (y : audio_sys) (s : audio) : audio :=
  mk_audio (Some y) (au_tracks s) (au_records s) (au_policy s) (au_calls s) (au_world s).
Definition au_set_world (w : W) (s : audio) : audio :=
  mk_audio (au_sys s) (au_tracks s) (au_records s) (au_policy s) (au_calls s) w.
Definition au_set_track (a : Z) (t : audio_track) (s : audio) : audio :=
  mk_audio (au_sys s) (<[a := t]> (au_tracks s)) (au_records s) (au_policy s) (au_calls s) (au_world s).
Definition au_set_record (a : Z) (r : audio_record) (s : audio) : audio :=
  mk_audio (au_sys s) (au_tracks s) (<[a := r]> (au_records s)) (au_policy s) (au_calls s) (au_world s).
Definition au_call (c : hal_call) (s : audio) : audio :=
  mk_audio (au_sys s) (au_tracks s) (au_records s) (au_policy s) (au_calls s ++ [c]) (au_world s).

(** An operation on the system structure; [-ESRCH] before it exists. *)
Definition with_sys {A} (err : A) (f : audio_sys → audio → A) (s : audio) : A :=
  match au_sys s with None => err | Some y => f y s end.

Definition set_vol (k : vol_slot) (v : Z) (y : audio_sys) : audio_sys :=
  mk_audio_sys (<[k := u8 v]> (as_vols y)) (audio_track_pool y) (audio_record_pool y)
    (audio_track_num y) (audio_record_num y) (microphone_muted y) (output_sample_rate y) (master_muted y).
Definition set_tracks (l : list (option Z)) (n : Z) (y : audio_sys) : audio_sys :=
  mk_audio_sys (as_vols y) l (audio_record_pool y)
    n (audio_record_num y) (microphone_muted y) (output_sample_rate y) (master_muted y).
Definition set_records (l : list (option Z)) (n : Z) (y : audio_sys) : audio_sys :=
  mk_audio_sys (as_vols y) (audio_track_pool y) l
    (audio_track_num y) n (microphone_muted y) (output_sample_rate y) (master_muted y).

Definition au_set_vol (k : vol_slot) (v : Z) (s : audio) : audio :=
  match au_sys s with None => s | Some y => au_set_sys (set_vol k v y) s end.
Definition vol (k : vol_slot) (s : audio) : Z :=
  match au_sys s with None => 0 | Some y => as_vols y k end.

(** ** Tracks *)

(** [audio_track_set_volume] *)
Definition audio_track_set_volume (a volume : Z) (s : audio) : audio :=
  let t := au_tracks s a in
  let s := if volume =? 0 then au_call (HalChannelMute a true) s
           else au_call (HalChannelPaVolume a (audio_policy_get_pa_volume (au_policy s) (tr_stream t) volume))
                  (au_call (HalChannelMute a false) s) in
  au_set_track a (mk_track (tr_stream t) (u16 volume) (tr_output_sample_rate t)) s.

(** [audio_track_set_pa_volume], [audio_track_set_mute], [audio_track_get_volume] *)
Definition audio_track_set_pa_volume (a pa_volume : Z) (s : audio) : audio :=
  au_call (HalChannelPaVolume a pa_volume) (au_call (HalChannelMute a false) s).
Definition audio_track_set_mute (a : Z) (mute : bool) (s : audio) : audio :=
  au_call (HalChannelMute a mute) s.
Definition audio_track_get_volume (a : Z) (s : audio) : Z := tr_volume (au_tracks s a).

(** [audio_record_set_volume] *)
Definition audio_record_set_volume (a volume : Z) (s : audio) : audio :=
  let r := au_records s a in
  au_call (HalAinVolume a volume) (au_set_record a (mk_record (rc_stream r) (rc_muted r) (u16 volume)) s).

(** The pointers of a pool, in order. *)
Definition pool_entries (l : list (option Z)) : list Z := omap id l.

(** The tracks a stream type means. *)
Definition stream_tracks (stream_type : audio_stream) (s : audio) (l : list (option Z)) : list Z :=
  filter (λ a, tr_stream (au_tracks s a) = stream_type) (pool_entries l).

(** [audio_system_get_track], [audio_system_get_record] *)
Definition audio_system_get_track (s : audio) : option Z :=
  with_sys None (λ y _, head (pool_entries (audio_track_pool y))) s.
Definition audio_system_get_record (s : audio) : option Z :=
  with_sys None (λ y _, head (pool_entries (audio_record_pool y))) s.

(** [audio_system_get_audio_track_handle] *)
Definition audio_system_get_audio_track_handle (stream_type : audio_stream) (s : audio) : option Z :=
  with_sys None (λ y s, head (stream_tracks stream_type s (audio_track_pool y))) s.

(** [audio_system_get_audio_record_handle]: an empty entry is followed. *)
Fixpoint record_handle_loop (stream_type : audio_stream) (l : list (option Z)) (s : audio)
    : option (option Z) :=
  match l with
  | [] => Some None
  | None :: _ => None
  | Some a :: l' => if decide (rc_stream (au_records s a) = stream_type) then Some (Some a)
                    else record_handle_loop stream_type l' s
  end.
Definition audio_system_get_audio_record_handle (stream_type : audio_stream) (s : audio)
    : option (option Z) :=
  with_sys (Some None) (λ y s, record_handle_loop stream_type (audio_record_pool y) s) s.

(** The first free entry of a pool. *)
Definition pool_free (l : list (option Z)) : option nat := fst <$> list_find (λ e, e = None) l.
(** The first entry with the address. *)
Definition pool_find (a : Z) (l : list (option Z)) : option nat := fst <$> list_find (λ e, e = Some a) l.

(** [audio_system_register_track]: 0 also when the pool is full. *)
Definition audio_system_register_track (a : Z) (s : audio) : Z * audio :=
  with_sys (- ESRCH, s) (λ y s,
    match pool_free (audio_track_pool y) with
    | None => (0, s)
    | Some i => (0, au_set_sys (set_tracks (<[i := Some a]> (audio_track_pool y))
                                  (u8 (audio_track_num y + 1)) y) s)
    end) s.

(** [audio_system_register_record], [audio_system_unregister_record] *)
Definition audio_system_register_record (a : Z) (s : audio) : Z * audio :=
  with_sys (- ESRCH, s) (λ y s,
    match pool_free (audio_record_pool y) with
    | None => (- EAGAIN, s)
    | Some i => (0, au_set_sys (set_records (<[i := Some a]> (audio_record_pool y))
                                  (u8 (audio_record_num y + 1)) y) s)
    end) s.
Definition audio_system_unregister_record (a : Z) (s : audio) : Z * audio :=
  with_sys (- ESRCH, s) (λ y s,
    match pool_find a (audio_record_pool y) with
    | None => (- ENXIO, s)
    | Some i => (0, au_set_sys (set_records (<[i := None]> (audio_record_pool y))
                                  (u8 (audio_record_num y - 1)) y) s)
    end) s.

(** ** Volumes *)

(** [_audio_system_save_volume]: the text with its terminator is stored, and
    the result not looked at by any caller. *)
Definition audio_system_save_volume (name : list Z) (volume : Z) (s : audio) : option audio :=
  if negb (audio_policy_check_save_volume_to_nvram (au_policy s)) then Some s
  else
    '(_, temp) ← snprintf (replicate 5 0) 0 5 (percent_d (u8 volume));
    n ← strlen temp;
    '(_, w) ← prop_set name (Some (take (Z.to_nat (n + 1)) temp)) (au_world s);
    Some (au_set_world w s).

(** The blocks of [audio_system_set_stream_volume]: whether a stream type
    changes a field, and the property it is kept in. *)
Definition volume_blocks : list (list audio_stream * vol_slot * list Z) := [
  ([AUDIO_STREAM_VOICE], voice_volume, CFG_BTCALL_VOLUME);
  ([AUDIO_STREAM_LE_AUDIO], lea_volume, CFG_LEA_VOLUME);
  ([AUDIO_STREAM_BMR], bmr_volume, CFG_BMR_VOLUME);
  ([AUDIO_STREAM_MUSIC; AUDIO_STREAM_DEFAULT; AUDIO_STREAM_SOUNDBAR], music_volume, CFG_BTPLAY_VOLUME);
  ([AUDIO_STREAM_LINEIN; AUDIO_STREAM_DEFAULT], linein_volume, CFG_LINEIN_VOLUME);
  ([AUDIO_STREAM_USOUND; AUDIO_STREAM_DEFAULT], usound_volume, CFG_USOUND_VOLUME);
  ([AUDIO_STREAM_LOCAL_MUSIC; AUDIO_STREAM_DEFAULT], lcmusic_volume, CFG_LOCALPLAY_VOLUME);
  ([AUDIO_STREAM_FM; AUDIO_STREAM_DEFAULT], fm_volume, CFG_FM_VOLUME);
  ([AUDIO_STREAM_I2SRX_IN; AUDIO_STREAM_DEFAULT], i2srx_in_volume, CFG_I2SRX_IN_VOLUME);
  ([AUDIO_STREAM_MIC_IN; AUDIO_STREAM_DEFAULT], mic_in_volume, CFG_MIC_IN_VOLUME);
  ([AUDIO_STREAM_SPDIF_IN; AUDIO_STREAM_DEFAULT], spidf_in_volume, CFG_SPDIF_IN_VOLUME)].

Fixpoint volume_blocks_loop (l : list (list audio_stream * vol_slot * list Z))
    (stream_type : audio_stream) (volume : Z) (s : audio) : option audio :=
  match l with
  | [] => Some s
  | (streams, k, name) :: l' =>
      s ← (if decide (stream_type ∈ streams)
           then audio_system_save_volume name volume (au_set_vol k volume s)
           else Some s);
      volume_blocks_loop l' stream_type volume s
  end.

(** The limits: the volume and the result code. *)
Definition volume_limits (level : Z) (stream_type : audio_stream) (volume : Z) : Z * Z :=
  let '(volume, ret) := if level <=? volume then (level, MAX_VOLUME_VALUE) else (volume, 0) in
  let '(volume, ret) := if decide (stream_type = AUDIO_STREAM_USOUND)
                        then if 16 <=? volume then (16, MAX_VOLUME_VALUE) else (volume, ret)
                        else (volume, ret) in
  if volume <=? 0 then (0, MIN_VOLUME_VALUE) else (volume, ret).

(** The block behind the stream's own field: every stream but a call sets the
    master volume and, unless it is fixed, the volume of the voice prompts. *)
Definition set_master_and_tts (stream_type : audio_stream) (volume : Z) (s : audio) : option audio :=
  if decide (stream_type = AUDIO_STREAM_VOICE) then Some s
  else
    let s := au_set_vol master_volume volume s in
    let volume := if volume <? vol min_volume s then vol min_volume s else volume in
    let volume := if vol max_volume s <? volume then vol max_volume s else volume in
    if negb (audio_policy_check_tts_fixed_volume (au_policy s))
    then audio_system_save_volume CFG_TONE_VOLUME volume (au_set_vol tts_volume volume s)
    else Some s.

(** [audio_system_set_stream_volume] *)
Definition audio_system_set_stream_volume (stream_type : audio_stream) (volume : Z) (s : audio)
    : option (Z * audio) :=
  with_sys (Some (- ESRCH, s)) (λ y s,
    let '(volume, ret) := volume_limits (audio_policy_get_volume_level (au_policy s)) stream_type volume in
    let tracks := filter (λ a, tr_stream (au_tracks s a) = stream_type ∨ stream_type = AUDIO_STREAM_DEFAULT)
                    (pool_entries (audio_track_pool y)) in
    let s := foldl (λ s a, audio_track_set_volume a volume s) s tracks in
    s ← volume_blocks_loop volume_blocks stream_type volume s;
    s ← set_master_and_tts stream_type volume s;
    Some (ret, s)) s.

(** Which field a stream type reads. *)
Definition stream_slot (stream_type : audio_stream) : vol_slot :=
  match stream_type with
  | AUDIO_STREAM_MUSIC | AUDIO_STREAM_SOUNDBAR => music_volume
  | AUDIO_STREAM_LE_AUDIO => lea_volume
  | AUDIO_STREAM_BMR => bmr_volume
  | AUDIO_STREAM_TTS => tts_volume
  | AUDIO_STREAM_VOICE => voice_volume
  | AUDIO_STREAM_LINEIN => linein_volume
  | AUDIO_STREAM_USOUND => usound_volume
  | AUDIO_STREAM_LOCAL_MUSIC => lcmusic_volume
  | AUDIO_STREAM_FM => fm_volume
  | AUDIO_STREAM_I2SRX_IN => i2srx_in_volume
  | AUDIO_STREAM_SPDIF_IN => spidf_in_volume
  | _ => master_volume
  end.

(** [audio_system_get_stream_volume] *)
Definition audio_system_get_stream_volume (stream_type : audio_stream) (s : audio) : Z :=
  with_sys (- ESRCH) (λ y _, as_vols y (stream_slot stream_type)) s.

(** [audio_system_get_current_volume]: every pool entry is followed. *)
Fixpoint tts_in_pool (l : list (option Z)) (s : audio) : option bool :=
  match l with
  | [] => Some false
  | None :: _ => None
  | Some a :: l' => b ← tts_in_pool l' s;
                    Some (bool_decide (tr_stream (au_tracks s a) = AUDIO_STREAM_TTS) || b)
  end.
Definition audio_system_get_current_volume (stream_type : audio_stream) (s : audio) : option Z :=
  with_sys (Some (- ESRCH)) (λ y s,
    b ← tts_in_pool (audio_track_pool y) s;
    Some (if (b : bool) then as_vols y tts_volume else audio_system_get_stream_volume stream_type s)) s.

(** [audio_system_get_current_pa_volume] *)
Definition audio_system_get_current_pa_volume (stream_type : audio_stream) (s : audio) : option Z :=
  with_sys (Some (- ESRCH)) (λ y s,
    volume ← audio_system_get_current_volume stream_type s;
    b ← tts_in_pool (audio_track_pool y) s;
    Some (audio_policy_get_pa_volume (au_policy s)
            (if (b : bool) then AUDIO_STREAM_TTS else stream_type) volume)) s.

(** [audio_system_unregister_track]: the volumes of the tracks that stay are
    set again, stream by stream; the result is 0 in any case. *)
Fixpoint reset_volumes_loop (l : list (option Z)) (s : audio) : option audio :=
  match l with
  | [] => Some s
  | None :: l' => reset_volumes_loop l' s
  | Some a :: l' =>
      '(_, s) ← audio_system_set_stream_volume (tr_stream (au_tracks s a)) (tr_volume (au_tracks s a)) s;
      reset_volumes_loop l' s
  end.
Definition audio_system_unregister_track (a : Z) (s : audio) : option (Z * audio) :=
  with_sys (Some (- ESRCH, s)) (λ y s,
    let y := match pool_find a (audio_track_pool y) with
             | None => y
             | Some i => set_tracks (<[i := None]> (audio_track_pool y)) (u8 (audio_track_num y - 1)) y
             end in
    s ← reset_volumes_loop (audio_track_pool y) (au_set_sys y s);
    Some (0, s)) s.

(** [audio_system_set_stream_pa_volume], [audio_system_set_microphone_volume] *)
Definition audio_system_set_stream_pa_volume (stream_type : audio_stream) (volume : Z) (s : audio)
    : Z * audio :=
  with_sys (- ESRCH, s) (λ y s,
    let tracks := filter (λ a, tr_stream (au_tracks s a) = stream_type ∨ stream_type = AUDIO_STREAM_DEFAULT)
                    (pool_entries (audio_track_pool y)) in
    (0, foldl (λ s a, audio_track_set_pa_volume a volume s) s tracks)) s.
Definition audio_system_set_microphone_volume (volume : Z) (s : audio) : Z * audio :=
  with_sys (- ESRCH, s) (λ y s,
    (0, foldl (λ s a, audio_record_set_volume a volume s) s (pool_entries (audio_record_pool y)))) s.

(** [audio_system_set_master_volume], [audio_system_get_master_volume] *)
Definition audio_system_set_master_volume (value : Z) (s : audio) : option (Z * audio) :=
  with_sys (Some (- ESRCH, s)) (λ _ s,
    audio_system_set_stream_volume AUDIO_STREAM_DEFAULT value (au_set_vol master_volume value s)) s.
Definition audio_system_get_master_volume (s : audio) : Z :=
  with_sys (- ESRCH) (λ y _, as_vols y master_volume) s.

(** ** Muting, sample rate *)

Definition audio_system_set_master_mute (value : bool) (s : audio) : Z * audio :=
  with_sys (- ESRCH, s) (λ y s,
    (0, au_set_sys (mk_audio_sys (as_vols y) (audio_track_pool y) (audio_record_pool y) (audio_track_num y)
                      (audio_record_num y) (microphone_muted y) (output_sample_rate y) value) s)) s.
Definition audio_system_get_master_mute (s : audio) : Z :=
  with_sys (- ESRCH) (λ y _, if master_muted y then 1 else 0) s.

(** [audio_system_set_stream_mute], [audio_system_get_stream_mute]: the latter
    asks whether the volume of the first track of the stream is 0. *)
Definition audio_system_set_stream_mute (stream_type : audio_stream) (mute : bool) (s : audio)
    : Z * audio :=
  with_sys (- ESRCH, s) (λ y s,
    let tracks := stream_tracks stream_type s (audio_track_pool y) in
    (if decide (tracks = []) then - ESRCH else 0,
     foldl (λ s a, audio_track_set_mute a mute s) s tracks)) s.
Definition audio_system_get_stream_mute (stream_type : audio_stream) (s : audio) : Z :=
  with_sys (- ESRCH) (λ y s,
    match head (stream_tracks stream_type s (audio_track_pool y)) with
    | Some a => if audio_track_get_volume a s =? 0 then 1 else 0
    | None => 0
    end) s.

(** [audio_system_mute_microphone], [audio_system_get_microphone_muted] *)
Definition audio_system_mute_microphone (value : bool) (s : audio) : Z * audio :=
  with_sys (- ESRCH, s) (λ y s,
    let y := mk_audio_sys (as_vols y) (audio_track_pool y) (audio_record_pool y) (audio_track_num y)
               (audio_record_num y) value (output_sample_rate y) (master_muted y) in
    (0, foldl (λ s a, let r := au_records s a in
                      au_set_record a (mk_record (rc_stream r) value (rc_volume r)) s)
          (au_set_sys y s) (pool_entries (audio_record_pool y)))) s.
Definition audio_system_get_microphone_muted (s : audio) : Z :=
  with_sys (- ESRCH) (λ y _, if microphone_muted y then 1 else 0) s.

(** [audio_system_trigger_track_start], [audio_system_trigger_record_start] *)
Definition audio_system_trigger_track_start (stream_type : audio_stream) (s : audio) : Z * audio :=
  with_sys (- ESRCH, s) (λ y s,
    match head (stream_tracks stream_type s (audio_track_pool y)) with
    | Some a => (0, au_call (TrackStart a) s)
    | None => (0, s)
    end) s.
Definition audio_system_trigger_record_start (stream_type : audio_stream) (s : audio) : Z * audio :=
  with_sys (- ESRCH, s) (λ y s,
    match head (filter (λ a, rc_stream (au_records s a) = stream_type) (pool_entries (audio_record_pool y))) with
    | Some a => (0, au_call (RecordStart a) s)
    | None => (0, s)
    end) s.

(** [audio_system_set_output_sample_rate], [audio_system_get_output_sample_rate] *)
Definition audio_system_set_output_sample_rate (value : Z) (s : audio) : Z * audio :=
  with_sys (- ESRCH, s) (λ y s,
    (0, au_set_sys (mk_audio_sys (as_vols y) (audio_track_pool y) (audio_record_pool y) (audio_track_num y)
                      (audio_record_num y) (microphone_muted y) (u8 value) (master_muted y)) s)) s.
Definition audio_system_get_output_sample_rate (s : audio) : Z :=
  with_sys (- ESRCH) (λ y s,
    if output_sample_rate y =? 0 then
      match audio_system_get_track s with
      | Some a => tr_output_sample_rate (au_tracks s a)
      | None => output_sample_rate y
      end
    else output_sample_rate y) s.

(** ** Start-up *)

(** [_audio_system_get_volume_config] *)
Definition audio_system_get_volume_config (name : list Z) (k : vol_slot) (s : audio) : option audio :=
  '(value, w) ← prop_get_int name DEFAULT_VOLUME (au_world s);
  let value := if (value <=? 0) || (audio_policy_get_volume_level (au_policy s) <? value)
               then DEFAULT_VOLUME else value in
  Some (au_set_vol k value (au_set_world w s)).

Fixpoint load_volumes (l : list (list Z * vol_slot)) (s : audio) : option audio :=
  match l with
  | [] => Some s
  | (name, k) :: l' => s ← audio_system_get_volume_config name k s; load_volumes l' s
  end.

Definition audio_sys_clear : audio_sys :=
  mk_audio_sys (λ _, 0) (replicate MAX_AUDIO_TRACK_NUM None) (replicate MAX_AUDIO_RECORD_NUM None)
    0 0 false 0 false.

(** The fields read after the master volume has been copied. *)
Definition config_volumes : list (list Z * vol_slot) := [
  (CFG_TONE_VOLUME, tts_volume); (CFG_BTCALL_VOLUME, voice_volume); (CFG_LINEIN_VOLUME, linein_volume);
  (CFG_USOUND_VOLUME, usound_volume); (CFG_LEA_VOLUME, lea_volume); (CFG_BMR_VOLUME, bmr_volume);
  (CFG_LOCALPLAY_VOLUME, lcmusic_volume); (CFG_FM_VOLUME, fm_volume);
  (CFG_I2SRX_IN_VOLUME, i2srx_in_volume); (CFG_SPDIF_IN_VOLUME, spidf_in_volume);
  (CFG_TTS_MIN_VOL, min_volume); (CFG_TTS_MAX_VOL, max_volume)].

(** [aduio_system_init] *)
Definition aduio_system_init (s : audio) : option (Z * audio) :=
  let s := au_set_sys audio_sys_clear s in
  s ← audio_system_get_volume_config CFG_BTPLAY_VOLUME music_volume s;
  let s := au_set_vol master_volume (vol music_volume s) s in
  s ← load_volumes config_volumes s;
  Some (0, au_call HalAudioInInit (au_call HalAudioOutInit s)).

(** [audio_system_clear_volume] *)
Definition cleared_names : list (list Z) := [
  CFG_BTPLAY_VOLUME; CFG_TONE_VOLUME; CFG_BTCALL_VOLUME; CFG_LINEIN_VOLUME; CFG_USOUND_VOLUME;
  CFG_LEA_VOLUME; CFG_BMR_VOLUME; CFG_LOCALPLAY_VOLUME; CFG_FM_VOLUME; CFG_I2SRX_IN_VOLUME;
  CFG_SPDIF_IN_VOLUME; CFG_TTS_MIN_VOL; CFG_TTS_MAX_VOL].
Fixpoint clear_loop (l : list (list Z)) (s : audio) : option audio :=
  match l with
  | [] => Some s
  | name :: l' => '(_, w) ← prop_set name None (au_world s); clear_loop l' (au_set_world w s)
  end.
Definition audio_system_clear_volume (s : audio) : option audio := clear_loop cleared_names s.
End audio.

(** ** The operations as one step function *)

Inductive audio_op :=
  | OpInit
  | OpSetVolume (stream_type : audio_stream) (volume : Z)
  | OpMasterVolume (volume : Z)
  | OpPaVolume (stream_type : audio_stream) (volume : Z)
  | OpMicrophoneVolume (volume : Z)
  | OpRegisterTrack (a : Z)
  | OpUnregisterTrack (a : Z)
  | OpRegisterRecord (a : Z)
  | OpUnregisterRecord (a : Z)
  | OpMasterMute (value : bool)
  | OpStreamMute (stream_type : audio_stream) (mute : bool)
  | OpMicrophoneMute (value : bool)
  | OpTrackStart (stream_type : audio_stream)
  | OpRecordStart (stream_type : audio_stream)
  | OpSampleRate (value : Z)
  | OpClearVolume.

Definition audio_step {W} `{!PropIface W} (op : audio_op) (s : @audio W) : option (Z * audio) :=
  match op with
  | OpInit => aduio_system_init s
  | OpSetVolume st v => audio_system_set_stream_volume st v s
  | OpMasterVolume v => audio_system_set_master_volume v s
  | OpPaVolume st v => Some (audio_system_set_stream_pa_volume st v s)
  | OpMicrophoneVolume v => Some (audio_system_set_microphone_volume v s)
  | OpRegisterTrack a => Some (audio_system_register_track a s)
  | OpUnregisterTrack a => audio_system_unregister_track a s
  | OpRegisterRecord a => Some (audio_system_register_record a s)
  | OpUnregisterRecord a => Some (audio_system_unregister_record a s)
  | OpMasterMute b => Some (audio_system_set_master_mute b s)
  | OpStreamMute st b => Some (audio_system_set_stream_mute st b s)
  | OpMicrophoneMute b => Some (audio_system_mute_microphone b s)
  | OpTrackStart st => Some (audio_system_trigger_track_start st s)
  | OpRecordStart st => Some (audio_system_trigger_record_start st s)
  | OpSampleRate v => Some (audio_system_set_output_sample_rate v s)
  | OpClearVolume => s ← audio_system_clear_volume s; Some (0, s)
  end.

(** ** What the audio system relies on *)

Definition volume_names : list (list Z) := [
  CFG_TONE_VOLUME; CFG_TTS_MIN_VOL; CFG_TTS_MAX_VOL; CFG_BTPLAY_VOLUME; CFG_BTCALL_VOLUME;
  CFG_LINEIN_VOLUME; CFG_MIC_IN_VOLUME; CFG_SPDIF_IN_VOLUME; CFG_FM_VOLUME; CFG_I2SRX_IN_VOLUME;
  CFG_LOCALPLAY_VOLUME; CFG_USOUND_VOLUME; CFG_LEA_VOLUME; CFG_BMR_VOLUME].
Definition valid_key (name : list Z) : Prop := name ∈ volume_names.

(** The text stored for a volume. *)
Definition volume_text (v : Z) : list Z := percent_d v ++ [0].

(** The property calls on the volume properties return, and leave them usable. *)
Class PropIfaceLaws (W : Type) `{!PropIface W} := {
  prop_ready : W → Prop;
  prop_set_total name v w :
    prop_ready w → valid_key name → 0 <= v < 256 →
    ∃ r w', prop_set name (Some (volume_text v)) w = Some (r, w') ∧ prop_ready w';
  prop_clear_total name w :
    prop_ready w → valid_key name → ∃ r w', prop_set name None w = Some (r, w') ∧ prop_ready w';
  prop_get_int_total name d w :
    prop_ready w → valid_key name → ∃ v w', prop_get_int name d w = Some (v, w') ∧ prop_ready w';
}.

(** Facts about the constant keys. *)
Ltac valid_key := by_decide.

Section audio_laws.
Context {W : Type} `{!PropIface W} `{!PropIfaceLaws W}.
Implicit Types (s : @audio W) (y : audio_sys).

Definition level s : Z := audio_policy_get_volume_level (au_policy s).

(** A structure in order: volumes within the levels, pools of fixed size whose
    counters count their entries. *)
Record sys_ok (lev : Z) y : Prop := {
  so_vols k : 0 <= as_vols y k <= lev;
  so_tracks : length (audio_track_pool y) = MAX_AUDIO_TRACK_NUM;
  so_track_num : audio_track_num y = Z.of_nat (length (pool_entries (audio_track_pool y)));
  so_records : length (audio_record_pool y) = MAX_AUDIO_RECORD_NUM;
  so_record_num : audio_record_num y = Z.of_nat (length (pool_entries (audio_record_pool y)));
}.

Record audio_ok s : Prop := {
  ao_ready : prop_ready (au_world s);
  ao_level : DEFAULT_VOLUME <= level s < 256;
  ao_sys : ∃ y, au_sys s = Some y ∧ sys_ok (level s) y;
}.

Lemma volume_text_ok v : 0 <= v < 256 → bytes_ok (volume_text v) ∧ (0 < length (volume_text v) <= 12)%nat.
Proof.
  intros Hv. unfold volume_text. split.
  - apply Forall_app. split; [|by repeat constructor].
    pose proof (percent_d_chars v ltac:(lia)) as H. eapply Forall_impl; [|exact H]. unfold is_u8. lia.
  - rewrite length_app. pose proof (percent_d_length v ltac:(lia)). cbn. lia.
Qed.

Lemma save_volume_eq name v s :
  0 <= v < 256 →
  audio_system_save_volume name v s =
  if negb (audio_policy_check_save_volume_to_nvram (au_policy s)) then Some s
  else '(_, w) ← prop_set name (Some (volume_text v)) (au_world s); Some (au_set_world w s).
Proof.
  intros Hv. unfold audio_system_save_volume. destruct (negb _); [done|].
  rewrite u8_id by done. pose proof (percent_d_chars v ltac:(lia)) as Hc.
  assert (Hlen : (length (percent_d v) <= 3)%nat).
  { rewrite percent_d_nonneg by lia. unfold to_udec, to_x, reverse_and_pad.
    replace (Z.to_nat (-1 - _)) with 0%nat by lia. rewrite app_nil_r, length_rev. apply to_x_loop_length; cbn; lia. }
  rewrite snprintf_fits by (rewrite ?length_replicate; lia). cbn [mbind option_bind].
  rewrite memcpy_start by (rewrite length_app, length_replicate; cbn; lia).
  rewrite <- (assoc_L (++)). cbn [app]. rewrite strlen_app by done. cbn [mbind option_bind].
  replace (Z.to_nat (Z.of_nat (length (percent_d v)) + 1)) with (S (length (percent_d v))) by lia.
  replace (take (S (length (percent_d v))) _) with (volume_text v); [done|].
  unfold volume_text. change (percent_d v ++ 0 :: drop (length (percent_d v ++ [0])) (replicate 5 0))
    with (percent_d v ++ [0] ++ drop (length (percent_d v ++ [0])) (replicate 5 0)).
  rewrite (assoc_L (++)), take_app_length'; [done|]. rewrite length_app. cbn. lia.
Qed.

Lemma save_volume_total name v s :
  prop_ready (au_world s) → valid_key name → 0 <= v < 256 →
  ∃ w, audio_system_save_volume name v s = Some (au_set_world w s) ∧ prop_ready w.
Proof.
  intros Hr Hk Hv. rewrite save_volume_eq by done. destruct (negb _).
  - exists (au_world s). by destruct s.
  - destruct (prop_set_total name v (au_world s) Hr Hk Hv) as (r & w & -> & Hw). by exists w.
Qed.

(** Whether the blocks change a field. *)
Definition touches (l : list (list audio_stream * vol_slot * list Z)) (st : audio_stream) (k : vol_slot) : bool :=
  existsb (λ '(streams, k', _), bool_decide (st ∈ streams) && bool_decide (k' = k)) l.

Lemma au_set_vol_sys k v s y : au_sys s = Some y → au_sys (au_set_vol k v s) = Some (set_vol k v y).
Proof. intros Hy. unfold au_set_vol. by rewrite Hy. Qed.

Lemma set_vol_get k v y k' : as_vols (set_vol k v y) k' = if decide (k = k') then u8 v else as_vols y k'.
Proof.
  cbn [set_vol as_vols]. case_decide as E; [subst; by rewrite fn_lookup_insert|by rewrite fn_lookup_insert_ne].
Qed.

(** Everything but volumes and properties is as before. *)
Record same_but_vols s s' : Prop := {
  sv_tracks : au_tracks s' = au_tracks s;
  sv_records : au_records s' = au_records s;
  sv_policy : au_policy s' = au_policy s;
  sv_calls : au_calls s' = au_calls s;
  sv_sys : ∀ y, au_sys s = Some y → ∃ y', au_sys s' = Some y' ∧
    audio_track_pool y' = audio_track_pool y ∧ audio_record_pool y' = audio_record_pool y ∧
    audio_track_num y' = audio_track_num y ∧ audio_record_num y' = audio_record_num y;
}.

Lemma same_but_vols_trans s1 s2 s3 : same_but_vols s1 s2 → same_but_vols s2 s3 → same_but_vols s1 s3.
Proof.
  intros [A1 A2 A3 A4 A5] [B1 B2 B3 B4 B5]. split; [congruence..|].
  intros y (y2 & Hy2 & H1 & H2 & H3 & H4)%A5. destruct (B5 y2 Hy2) as (y3 & Hy3 & G1 & G2 & G3 & G4).
  exists y3. split_and!; [done|congruence..].
Qed.
Lemma same_but_vols_refl s : same_but_vols s s.
Proof. split; [done..|]. eauto 8. Qed.
Lemma same_but_vols_set k v w s : same_but_vols s (au_set_world w (au_set_vol k v s)).
Proof.
  unfold au_set_vol. destruct (au_sys s) as [y0|] eqn:E; split; try done; cbn; intros y Hy; simplify_eq.
  eexists. by split_and!.
Qed.

(** What the volume code leaves: the fields given by [f]. *)
Definition vols_are s (f : vol_slot → Z) : Prop := ∃ y, au_sys s = Some y ∧ ∀ k, as_vols y k = f k.

Lemma vols_are_set s f k v w :
  vols_are s f → vols_are (au_set_world w (au_set_vol k v s)) (λ k', if decide (k = k') then u8 v else f k').
Proof.
  intros (y & Hy & Hf). exists (set_vol k v y). cbn [au_set_world au_sys]. split; [by apply au_set_vol_sys|].
  intros k'. rewrite set_vol_get. by case_decide.
Qed.

Lemma volume_blocks_loop_spec l st v s f :
  prop_ready (au_world s) → 0 <= v < 256 → Forall (λ b, valid_key b.2) l → vols_are s f →
  ∃ s', volume_blocks_loop l st v s = Some s' ∧ prop_ready (au_world s') ∧ same_but_vols s s' ∧
    vols_are s' (λ k, if touches l st k then v else f k).
Proof.
  intros Hr Hv Hl. revert s f Hr. induction Hl as [|[[streams k] name] l Hk Hl IH]; intros s f Hr Hf.
  { exists s. split_and!; [done|done|apply same_but_vols_refl|]. destruct Hf as (y & Hy & Hf). exists y. by split. }
  cbn [volume_blocks_loop]. case_decide as E.
  - destruct (save_volume_total name v (au_set_vol k v s)) as (w & -> & Hw); [|done|done|].
    { unfold au_set_vol. by destruct (au_sys s). }
    cbn [mbind option_bind].
    destruct (IH (au_set_world w (au_set_vol k v s)) _ Hw (vols_are_set s f k v w Hf)) as (s' & -> & Hr' & Hs' & y & Hy & Hf').
    exists s'. split_and!; [done|done|eapply same_but_vols_trans; [apply same_but_vols_set|done]|].
    exists y. split; [done|]. intros k'. rewrite Hf'. cbn [touches existsb]. fold (touches l st k').
    rewrite (bool_decide_eq_true_2 (st ∈ streams)) by done. cbn [andb]. rewrite u8_id by done.
    destruct (touches l st k'); [by rewrite orb_true_r|]. rewrite orb_false_r. by case_decide; case_bool_decide.
  - cbn [mbind option_bind]. destruct (IH s f Hr Hf) as (s' & -> & Hr' & Hs' & y & Hy & Hf').
    exists s'. split_and!; [done|done|done|]. exists y. split; [done|]. intros k'. rewrite Hf'.
    cbn [touches existsb]. fold (touches l st k'). by rewrite (bool_decide_eq_false_2 (st ∈ streams)).
Qed.

(** *** Setting a volume *)

(** The tracks set: their volume is the new one, their stream stays. *)
Lemma set_track_volumes l v s :
  let s' := foldl (λ s a, audio_track_set_volume a v s) s l in
  au_sys s' = au_sys s ∧ au_policy s' = au_policy s ∧ au_world s' = au_world s ∧
  au_records s' = au_records s ∧
  (∀ a, tr_stream (au_tracks s' a) = tr_stream (au_tracks s a)) ∧
  ∀ a, tr_volume (au_tracks s' a) = if decide (a ∈ l) then u16 v else tr_volume (au_tracks s a).
Proof.
  revert s. induction l as [|b l IH]; intros s s'; subst s'.
  { cbn. split_and!; try done. }
  cbn [foldl]. destruct (IH (audio_track_set_volume b v s)) as (H1 & H2 & H3 & H4 & H5 & H6).
  set (s1 := audio_track_set_volume b v s) in *.
  assert (Hs : au_sys s1 = au_sys s ∧ au_policy s1 = au_policy s ∧ au_world s1 = au_world s ∧
               au_records s1 = au_records s ∧
               au_tracks s1 = <[b := mk_track (tr_stream (au_tracks s b)) (u16 v)
                                       (tr_output_sample_rate (au_tracks s b))]> (au_tracks s)).
  { subst s1. unfold audio_track_set_volume. by destruct (v =? 0). }
  destruct Hs as (G1 & G2 & G3 & G4 & G5). split_and!; [congruence..| |].
  - intros a. rewrite H5, G5. destruct (decide (a = b)) as [->|Hne]; [by rewrite fn_lookup_insert|by rewrite fn_lookup_insert_ne].
  - intros a. rewrite H6, G5. destruct (decide (a = b)) as [->|Hne].
    + rewrite fn_lookup_insert. cbn [tr_volume]. rewrite (decide_True (P := b ∈ b :: l)) by apply elem_of_cons, or_introl, eq_refl.
      by case_decide.
    + rewrite fn_lookup_insert_ne by done. case_decide as E.
      * rewrite decide_True by (by apply elem_of_cons; right). done.
      * rewrite decide_False by (rewrite elem_of_cons; intuition). done.
Qed.

(** The volume after the limits, and the code that goes with it. *)
Definition top_level lev (st : audio_stream) : Z :=
  if decide (st = AUDIO_STREAM_USOUND) then Z.min lev 16 else lev.
Definition limited lev st v : Z := Z.max 0 (Z.min (top_level lev st) v).

Lemma volume_limits_spec lev st v :
  0 < lev →
  volume_limits lev st v =
  (limited lev st v, if v <=? 0 then MIN_VOLUME_VALUE
                     else if top_level lev st <=? v then MAX_VOLUME_VALUE else 0).
Proof.
  intros Hl. unfold volume_limits, limited, top_level. destruct (decide (st = AUDIO_STREAM_USOUND)); zbool; f_equal; lia.
Qed.

(** What the tail leaves in the fields. *)
Definition tail_vols (pol : option audio_policy) (st : audio_stream) (v : Z) (f : vol_slot → Z) (k : vol_slot) : Z :=
  if decide (st = AUDIO_STREAM_VOICE) then f k
  else if decide (k = master_volume) then v
  else if decide (k = tts_volume) then
    if audio_policy_check_tts_fixed_volume pol then f k
    else Z.min (Z.max v (f min_volume)) (f max_volume)
  else f k.

(** What a volume change leaves in the fields. *)
Definition new_vols (pol : option audio_policy) (st : audio_stream) (v : Z) (f : vol_slot → Z) : vol_slot → Z :=
  tail_vols pol st v (λ k, if touches volume_blocks st k then v else f k).

Lemma volume_blocks_keys : Forall (λ b, valid_key b.2) volume_blocks.
Proof. repeat apply Forall_cons_2; [valid_key..|constructor]. Qed.

Lemma touches_fixed st k :
  k = master_volume ∨ k = tts_volume ∨ k = min_volume ∨ k = max_volume → touches volume_blocks st k = false.
Proof. intros [->|[->|[->| ->]]]; by destruct st. Qed.

Lemma vols_are_ext s f g : vols_are s f → (∀ k, f k = g k) → vols_are s g.
Proof. intros (y & Hy & Hf) H. exists y. split; [done|]. intros k. by rewrite Hf. Qed.

Lemma vols_are_vol s f k : vols_are s f → vol k s = f k.
Proof. intros (y & Hy & Hf). unfold vol. by rewrite Hy. Qed.

Lemma au_set_vol_world k v s : au_world (au_set_vol k v s) = au_world s.
Proof. unfold au_set_vol. by destruct (au_sys s). Qed.
Lemma au_set_vol_policy k v s : au_policy (au_set_vol k v s) = au_policy s.
Proof. unfold au_set_vol. by destruct (au_sys s). Qed.
Lemma au_set_vol_eta k v s : au_set_world (au_world s) (au_set_vol k v s) = au_set_vol k v s.
Proof. unfold au_set_vol. destruct (au_sys s); by destruct s. Qed.

Lemma set_master_and_tts_spec st v s f :
  prop_ready (au_world s) → 0 <= v < 256 → (∀ k, 0 <= f k < 256) → vols_are s f →
  ∃ s', set_master_and_tts st v s = Some s' ∧ prop_ready (au_world s') ∧ same_but_vols s s' ∧
    vols_are s' (tail_vols (au_policy s) st v f).
Proof.
  intros Hr Hv Hf Hs. unfold set_master_and_tts, tail_vols. destruct (decide (st = AUDIO_STREAM_VOICE)).
  { exists s. split_and!; [done|done|apply same_but_vols_refl|done]. }
  pose proof (vols_are_set s f master_volume v (au_world s) Hs) as H1. rewrite au_set_vol_eta in H1.
  rewrite au_set_vol_policy, !(vols_are_vol _ _ _ H1). cbn [decide].
  rewrite !(decide_False (P := master_volume = _)) by done.
  set (m := if f max_volume <? _ then _ else _).
  assert (Hm : m = Z.min (Z.max v (f min_volume)) (f max_volume)) by (subst m; zbool; lia).
  pose proof (Hf min_volume). pose proof (Hf max_volume).
  destruct (audio_policy_check_tts_fixed_volume (au_policy s)); cbn [negb].
  - exists (au_set_vol master_volume v s). split_and!; [done|by rewrite au_set_vol_world| |].
    + rewrite <- au_set_vol_eta. apply same_but_vols_set.
    + apply (vols_are_ext _ _ _ H1). intros k. rewrite (u8_id v) by done.
      destruct (decide (master_volume = k)) as [<-|]; [done|]. rewrite decide_False by done. by case_decide.
  - destruct (save_volume_total CFG_TONE_VOLUME m (au_set_vol tts_volume m (au_set_vol master_volume v s)))
      as (w & -> & Hw); [by rewrite !au_set_vol_world|valid_key|lia|].
    eexists. split_and!; [reflexivity|done| |].
    + eapply same_but_vols_trans; [|apply same_but_vols_set].
      rewrite <- au_set_vol_eta. apply same_but_vols_set.
    + apply (vols_are_ext _ _ _ (vols_are_set _ _ tts_volume m w H1)). intros k.
      rewrite (u8_id v), (u8_id m) by (unfold is_u8; lia).
      destruct (decide (tts_volume = k)) as [<-|]; [by rewrite Hm|].
      destruct (decide (master_volume = k)) as [<-|]; [done|]. by rewrite !decide_False.
Qed.

(** A volume change returns, whatever the properties answer. *)
Lemma set_stream_volume_run st v s y :
  prop_ready (au_world s) → 0 < level s < 256 → au_sys s = Some y →
  (∀ k, 0 <= as_vols y k < 256) →
  let c := limited (level s) st v in
  ∃ s' y', audio_system_set_stream_volume st v s =
    Some (if v <=? 0 then MIN_VOLUME_VALUE
          else if top_level (level s) st <=? v then MAX_VOLUME_VALUE else 0, s') ∧
    prop_ready (au_world s') ∧ au_policy s' = au_policy s ∧ au_records s' = au_records s ∧
    au_sys s' = Some y' ∧ audio_track_pool y' = audio_track_pool y ∧
    audio_record_pool y' = audio_record_pool y ∧ audio_track_num y' = audio_track_num y ∧
    audio_record_num y' = audio_record_num y ∧
    (∀ k, as_vols y' k = new_vols (au_policy s) st c (as_vols y) k) ∧
    (∀ a, tr_stream (au_tracks s' a) = tr_stream (au_tracks s a)) ∧
    (∀ a, Some a ∈ audio_track_pool y → tr_stream (au_tracks s a) = st → tr_volume (au_tracks s' a) = c).
Proof.
  intros Hr Hlev Hy Hvols c.
  assert (Hc : 0 <= c < 256) by (subst c; unfold limited, top_level; case_decide; lia).
  unfold audio_system_set_stream_volume, with_sys. rewrite Hy. fold (level s).
  rewrite volume_limits_spec by lia. fold c.
  set (ts := filter _ _). destruct (set_track_volumes ts c s) as (T1 & T2 & T3 & T4 & T5 & T6).
  set (s1 := foldl (λ s a, audio_track_set_volume a c s) s ts) in *.
  destruct (volume_blocks_loop_spec volume_blocks st c s1 (as_vols y)) as (s2 & -> & Hr2 & Hs2 & Hf2);
    [by rewrite T3|done|apply volume_blocks_keys|exists y; split; [congruence|done]|].
  cbn [mbind option_bind].
  edestruct (set_master_and_tts_spec st c s2) as (s3 & -> & Hr3 & Hs3 & y3 & Hy3 & Hf3); [done|done| |exact Hf2|].
  { intros k. cbv beta. destruct (touches volume_blocks st k); [done|apply Hvols]. }
  destruct (same_but_vols_trans _ _ _ Hs2 Hs3) as [B1 B2 B3 B4 B5].
  destruct (B5 y) as (y3' & Hy3' & P1 & P2 & P3 & P4); [congruence|]. simplify_eq.
  exists s3, y3. cbn [mbind option_bind]. split_and!; try congruence.
  - intros k. rewrite Hf3. unfold new_vols. by rewrite (sv_policy _ _ Hs2), T2.
  - intros a Ha Hst. rewrite B1, T6, decide_True; [apply u16_id; unfold is_u16; lia|].
    apply list_elem_of_filter. split; [by left|]. unfold pool_entries. apply list_elem_of_omap. by exists (Some a).
Qed.

Lemma limited_range lev st v : 0 < lev → 0 <= limited lev st v <= lev.
Proof. intros. unfold limited, top_level. case_decide; lia. Qed.

(** New volumes stay within the levels. *)
Lemma new_vols_range pol st v f lev k :
  0 <= v <= lev → (∀ k, 0 <= f k <= lev) → 0 <= new_vols pol st v f k <= lev.
Proof.
  intros Hv Hf. unfold new_vols, tail_vols. cbv beta.
  rewrite (touches_fixed st min_volume), (touches_fixed st max_volume) by tauto.
  pose proof (Hf min_volume). pose proof (Hf max_volume).
  destruct (decide (st = AUDIO_STREAM_VOICE)); [by destruct (touches _ st k); [|apply Hf]|].
  destruct (decide (k = master_volume)); [done|]. destruct (decide (k = tts_volume)).
  - destruct (audio_policy_check_tts_fixed_volume pol); [destruct (touches _ st k); [done|apply Hf]|lia].
  - destruct (touches _ st k); [done|apply Hf].
Qed.

(** The field a stream reads is the one it sets. *)
Lemma new_vols_own pol st v f : st ≠ AUDIO_STREAM_TTS → new_vols pol st v f (stream_slot st) = v.
Proof. intros Hst. unfold new_vols, tail_vols. by destruct st. Qed.

Lemma new_vols_other pol st st' v f :
  st ≠ AUDIO_STREAM_DEFAULT → stream_slot st' ≠ stream_slot st →
  stream_slot st' ≠ master_volume → stream_slot st' ≠ tts_volume →
  new_vols pol st v f (stream_slot st') = f (stream_slot st').
Proof.
  intros Hd. assert (Hmic : stream_slot st' ≠ mic_in_volume) by (by destruct st').
  revert Hmic. generalize (stream_slot st'). intros k Hmic Hne Hm Ht. unfold new_vols, tail_vols.
  rewrite (decide_False (P := k = master_volume)), (decide_False (P := k = tts_volume)) by done.
  replace (touches volume_blocks st k) with false; [by case_decide|].
  symmetry. destruct st, k; try reflexivity; cbn in Hne; congruence.
Qed.

Lemma set_stream_volume_ok st v s :
  audio_ok s → ∃ ret s', audio_system_set_stream_volume st v s = Some (ret, s') ∧ audio_ok s'.
Proof.
  intros [Hr Hl (y & Hy & [V1 V2 V3 V4 V5])]. unfold DEFAULT_VOLUME in Hl.
  destruct (set_stream_volume_run st v s y Hr ltac:(lia) Hy ltac:(intros k; specialize (V1 k); lia))
    as (s' & y' & Hrun & Hr' & Hp & _ & Hy' & P1 & P2 & P3 & P4 & Hf & _).
  eexists _, s'. split; [exact Hrun|]. assert (Hlev : level s' = level s) by (unfold level; congruence).
  split; rewrite ?Hlev; [done|done|]. exists y'. split; [done|]. split; [|congruence..].
  intros k. rewrite Hf. apply new_vols_range; [|done]. apply limited_range. lia.
Qed.

(** Setting the volume of a stream cuts it to the range of the policy (16 for
    USB sound), reports whether it is at an end of the range, is what the
    stream reads and all its tracks play at afterwards, and leaves the volumes
    of the streams with other fields alone. *)
Theorem audio_system_set_get_volume st v s :
  audio_ok s → st ≠ AUDIO_STREAM_TTS →
  let c := limited (level s) st v in
  ∃ s', audio_system_set_stream_volume st v s =
    Some (if v <=? 0 then MIN_VOLUME_VALUE
          else if top_level (level s) st <=? v then MAX_VOLUME_VALUE else 0, s') ∧
    audio_system_get_stream_volume st s' = c ∧ 0 <= c <= level s ∧
    (∀ a y, au_sys s = Some y → Some a ∈ audio_track_pool y → tr_stream (au_tracks s a) = st →
            tr_volume (au_tracks s' a) = c) ∧
    (st ≠ AUDIO_STREAM_DEFAULT → ∀ st', stream_slot st' ≠ stream_slot st →
       stream_slot st' ≠ master_volume → stream_slot st' ≠ tts_volume →
       audio_system_get_stream_volume st' s' = audio_system_get_stream_volume st' s).
Proof.
  intros [Hr Hl (y & Hy & [V1 _ _ _ _])] Hst c. unfold DEFAULT_VOLUME in Hl.
  destruct (set_stream_volume_run st v s y Hr ltac:(lia) Hy ltac:(intros k; specialize (V1 k); lia))
    as (s' & y' & Hrun & _ & _ & _ & Hy' & _ & _ & _ & _ & Hf & _ & Ht).
  exists s'. unfold audio_system_get_stream_volume, with_sys. rewrite Hy', Hy. split_and!.
  - exact Hrun.
  - rewrite Hf. by apply new_vols_own.
  - apply limited_range. lia.
  - apply limited_range. lia.
  - intros a y0 [= <-]. apply Ht.
  - intros Hd st' H1 H2 H3. rewrite Hf. by apply new_vols_other.
Qed.

(** *** All operations keep the structure in order *)

Lemma pool_two (l : list (option Z)) : length l = 2%nat → ∃ a b, l = [a; b].
Proof. destruct l as [|a [|b [|]]]; try done. eauto. Qed.

Lemma pool_fill l i a :
  length l = 2%nat → pool_free l = Some i →
  length (<[i := Some a]> l) = 2%nat ∧
  length (pool_entries (<[i := Some a]> l)) = S (length (pool_entries l)).
Proof. intros (x & z & ->)%pool_two. by destruct x, z; cbn; intros [= <-]. Qed.

Lemma pool_drop l i a :
  length l = 2%nat → pool_find a l = Some i →
  length (<[i := None]> l) = 2%nat ∧
  S (length (pool_entries (<[i := None]> l))) = length (pool_entries l).
Proof.
  intros (x & z & ->)%pool_two Hf. unfold pool_find in Hf.
  destruct (list_find _ _) as [[j e]|] eqn:E; [|done]. injection Hf as <-.
  apply list_find_Some in E as (Hj & -> & _). by destruct j as [|[|j]]; cbn in Hj; simplify_eq; destruct x || destruct z.
Qed.

Lemma pool_entries_two l : length l = 2%nat → (length (pool_entries l) <= 2)%nat.
Proof. intros (x & z & ->)%pool_two. destruct x, z; cbn; lia. Qed.

(** A change of the structure alone. *)
Lemma audio_ok_sys s y' : audio_ok s → sys_ok (level s) y' → audio_ok (au_set_sys y' s).
Proof. intros [Hr Hl _] Hy. split; [done|done|]. by exists y'. Qed.

(** A change of neither structure, properties nor policy. *)
Lemma audio_ok_same s s' :
  audio_ok s → au_sys s' = au_sys s → au_policy s' = au_policy s → au_world s' = au_world s → audio_ok s'.
Proof.
  intros [Hr Hl Hy] H1 H2 H3. assert (level s' = level s) by (unfold level; congruence).
  split; [congruence|congruence|]. rewrite H1. by replace (level s') with (level s).
Qed.

Lemma foldl_same (f : @audio W → Z → audio) l s :
  (∀ s a, au_sys (f s a) = au_sys s ∧ au_policy (f s a) = au_policy s ∧ au_world (f s a) = au_world s) →
  audio_ok s → audio_ok (foldl f s l).
Proof.
  intros Hf. revert s. induction l as [|a l IH]; intros s Hs; [done|]. cbn [foldl]. apply IH.
  destruct (Hf s a) as (H1 & H2 & H3). by eapply audio_ok_same.
Qed.

(** Reading a volume from the properties. *)
Lemma get_volume_config_ok name k s :
  audio_ok s → valid_key name →
  ∃ s', audio_system_get_volume_config name k s = Some s' ∧ audio_ok s'.
Proof.
  intros [Hr Hl (y & Hy & [V1 V2 V3 V4 V5])] Hk. unfold audio_system_get_volume_config.
  destruct (prop_get_int_total name DEFAULT_VOLUME (au_world s) Hr Hk) as (v & w & -> & Hw).
  cbn [mbind option_bind]. fold (level s). set (c := if _ || _ then DEFAULT_VOLUME else v).
  assert (Hc : 0 <= c <= level s).
  { subst c. unfold DEFAULT_VOLUME in *. destruct (Z.leb_spec v 0), (Z.ltb_spec (level s) v); cbn; lia. }
  eexists. split; [reflexivity|]. unfold au_set_vol. cbn [au_set_world au_sys]. rewrite Hy.
  apply audio_ok_sys.
  - split; [done|done|]. exists y. split; [done|]. by split.
  - split; [|done..]. intros k'. rewrite set_vol_get. rewrite u8_id by (unfold is_u8; change (level (au_set_world w s)) with (level s); lia).
    case_decide; [done|apply V1].
Qed.

Lemma load_volumes_ok l s :
  audio_ok s → Forall (λ e, valid_key e.1) l → ∃ s', load_volumes l s = Some s' ∧ audio_ok s'.
Proof.
  intros Hs Hl. revert s Hs. induction Hl as [|[name k] l Hk Hl IH]; intros s Hs; [by exists s|].
  cbn [load_volumes]. destruct (get_volume_config_ok name k s Hs Hk) as (s1 & -> & Hs1). by apply IH.
Qed.

(** A volume within the levels entered by hand. *)
Lemma audio_ok_set_vol k v s : audio_ok s → 0 <= v <= level s → audio_ok (au_set_vol k v s).
Proof.
  intros Hs Hv. pose proof Hs as [_ Hl (y & Hy & [V1 V2 V3 V4 V5])]. unfold au_set_vol. rewrite Hy.
  apply audio_ok_sys; [done|]. split; [|done..]. intros k'. rewrite set_vol_get.
  rewrite u8_id by (unfold is_u8; lia). case_decide; [done|apply V1].
Qed.

Lemma init_ok s :
  prop_ready (au_world s) → DEFAULT_VOLUME <= level s < 256 →
  ∃ s', aduio_system_init s = Some (0, s') ∧ audio_ok s'.
Proof.
  intros Hr Hl. unfold aduio_system_init.
  assert (H0 : audio_ok (au_set_sys audio_sys_clear s)).
  { split; [done|done|]. eexists. split; [reflexivity|]. split; try done. intros k.
    change (level (au_set_sys audio_sys_clear s)) with (level s). unfold DEFAULT_VOLUME in Hl. cbn. lia. }
  destruct (get_volume_config_ok CFG_BTPLAY_VOLUME music_volume _ H0) as (s1 & -> & H1); [valid_key|].
  cbn [mbind option_bind].
  assert (H2 : audio_ok (au_set_vol master_volume (vol music_volume s1) s1)).
  { apply audio_ok_set_vol; [done|]. destruct H1 as [_ _ (y & Hy & [V _ _ _ _])]. unfold vol. rewrite Hy. apply V. }
  destruct (load_volumes_ok config_volumes _ H2) as (s3 & -> & H3).
  { repeat apply Forall_cons_2; [valid_key..|constructor]. }
  eexists. split; [reflexivity|]. by apply (audio_ok_same s3).
Qed.

Lemma reset_volumes_ok l s : audio_ok s → ∃ s', reset_volumes_loop l s = Some s' ∧ audio_ok s'.
Proof.
  revert s. induction l as [|[a|] l IH]; intros s Hs; [by exists s| |by apply IH]. cbn [reset_volumes_loop].
  destruct (set_stream_volume_ok (tr_stream (au_tracks s a)) (tr_volume (au_tracks s a)) s Hs) as (r & s1 & -> & Hs1).
  by apply IH.
Qed.

Lemma register_ok a s : audio_ok s →
  audio_ok (audio_system_register_track a s).2 ∧ audio_ok (audio_system_register_record a s).2.
Proof.
  intros Hs. pose proof Hs as [_ _ (y & Hy & [V1 V2 V3 V4 V5])].
  unfold audio_system_register_track, audio_system_register_record, with_sys. rewrite Hy.
  pose proof (pool_entries_two _ V2). pose proof (pool_entries_two _ V4). split.
  - destruct (pool_free (audio_track_pool y)) as [i|] eqn:E; [|done]. apply audio_ok_sys; [done|].
    destruct (pool_fill _ i a V2 E) as [H1 H2]. split; try done. cbn [set_tracks audio_track_num audio_track_pool].
    rewrite H2, u8_id by (unfold is_u8; lia). lia.
  - destruct (pool_free (audio_record_pool y)) as [i|] eqn:E; [|done]. apply audio_ok_sys; [done|].
    destruct (pool_fill _ i a V4 E) as [H1 H2]. split; try done. cbn [set_records audio_record_num audio_record_pool].
    rewrite H2, u8_id by (unfold is_u8; lia). lia.
Qed.

Lemma unregister_record_ok a s : audio_ok s → audio_ok (audio_system_unregister_record a s).2.
Proof.
  intros Hs. pose proof Hs as [_ _ (y & Hy & [V1 V2 V3 V4 V5])].
  unfold audio_system_unregister_record, with_sys. rewrite Hy. pose proof (pool_entries_two _ V4).
  destruct (pool_find a (audio_record_pool y)) as [i|] eqn:E; [|done]. apply audio_ok_sys; [done|].
  destruct (pool_drop _ i a V4 E) as [H1 H2]. split; try done. cbn [set_records audio_record_num audio_record_pool].
  rewrite u8_id by (unfold is_u8; lia). lia.
Qed.

Lemma unregister_track_ok a s :
  audio_ok s → ∃ s', audio_system_unregister_track a s = Some (0, s') ∧ audio_ok s'.
Proof.
  intros Hs. pose proof Hs as [_ _ (y & Hy & Hok)]. unfold audio_system_unregister_track, with_sys. rewrite Hy.
  set (y' := match pool_find a (audio_track_pool y) with None => y | Some i => _ end).
  assert (Hy' : sys_ok (level s) y').
  { subst y'. destruct (pool_find a (audio_track_pool y)) as [i|] eqn:E; [|done].
    destruct Hok as [V1 V2 V3 V4 V5]. destruct (pool_drop _ i a V2 E) as [H1 H2].
    pose proof (pool_entries_two _ V2). split; try done. cbn [set_tracks audio_track_num audio_track_pool].
    rewrite u8_id by (unfold is_u8; lia). lia. }
  destruct (reset_volumes_ok (audio_track_pool y') _ (audio_ok_sys s y' Hs Hy')) as (s' & -> & Hs').
  by exists s'.
Qed.

Lemma master_volume_ok v s :
  audio_ok s → ∃ ret s', audio_system_set_master_volume v s = Some (ret, s') ∧ audio_ok s'.
Proof.
  intros [Hr Hl (y & Hy & [V1 V2 V3 V4 V5])]. unfold DEFAULT_VOLUME in Hl.
  unfold audio_system_set_master_volume, with_sys. rewrite Hy. set (s0 := au_set_vol master_volume v s).
  assert (Hy0 : au_sys s0 = Some (set_vol master_volume v y)) by (by apply au_set_vol_sys).
  assert (H0 : level s0 = level s) by (unfold level, s0; by rewrite au_set_vol_policy).
  destruct (set_stream_volume_run AUDIO_STREAM_DEFAULT v s0 _ ltac:(unfold s0; by rewrite au_set_vol_world)
              ltac:(lia) Hy0) as (s' & y' & -> & R1 & R2 & _ & R3 & P1 & P2 & P3 & P4 & Hf & _).
  { intros k. rewrite set_vol_get. specialize (V1 k). case_decide; [unfold u8; dlia|lia]. }
  eexists _, s'. split; [done|]. assert (Hlev : level s' = level s) by (unfold level in *; congruence).
  split; rewrite ?Hlev; [done|unfold DEFAULT_VOLUME; lia|]. exists y'. split; [done|].
  split; [|cbn in *; congruence..]. intros k. rewrite Hf, H0.
  pose proof (limited_range (level s) AUDIO_STREAM_DEFAULT v ltac:(lia)) as Hc.
  destruct (decide (k = master_volume)) as [->|Hk]; [exact Hc|].
  assert (Hsame : ∀ p c, new_vols p AUDIO_STREAM_DEFAULT c (as_vols (set_vol master_volume v y)) k =
                         new_vols p AUDIO_STREAM_DEFAULT c (as_vols y) k).
  { intros p c. unfold new_vols, tail_vols. cbv beta.
    rewrite !(decide_False (P := k = master_volume)) by done. rewrite !set_vol_get.
    by rewrite !(decide_False (P := master_volume = _)) by done. }
  rewrite Hsame. by apply new_vols_range.
Qed.

(** Clearing touches only the properties. *)
Lemma clear_loop_ok l s :
  Forall valid_key l → audio_ok s → ∃ s', clear_loop l s = Some s' ∧ audio_ok s'.
Proof.
  intros Hl. revert s. induction Hl as [|name l Hn Hl IH]; intros s Hs; [by exists s|]. cbn [clear_loop].
  destruct Hs as [Hr Hv Hy]. destruct (prop_clear_total name (au_world s) Hr Hn) as (r & w & -> & Hw).
  cbn [mbind option_bind]. apply IH. by split.
Qed.

Lemma clear_volume_ok s : audio_ok s → ∃ s', audio_system_clear_volume s = Some s' ∧ audio_ok s'.
Proof. apply clear_loop_ok. repeat apply Forall_cons_2; try apply Forall_nil_2; valid_key. Qed.

Lemma step_pair (p : Z * @audio W) : audio_ok p.2 → ∃ ret s', Some p = Some (ret, s') ∧ audio_ok s'.
Proof. destruct p. eauto. Qed.

(** C40: From a state in order every operation that changes the audio system
    (start-up, volumes, mutes, registering and unregistering tracks and
    records, starting them, sample rate, clearing the stored volumes) returns
    without following a null pointer or writing past a buffer, and keeps the
    state in order: all fifteen volumes in the range of the policy, both pools
    of size two and their counters equal to the number of entries. The three
    getters that read every pool entry are not among them: with a free entry
    they follow a null pointer. *)
Theorem audio_step_keeps_order op s :
  audio_ok s → ∃ ret s', audio_step op s = Some (ret, s') ∧ audio_ok s'.
Proof.
  intros Hs. pose proof Hs as [Hr Hl (y & Hy & Hok)].
  assert (Hsys : ∀ y', as_vols y' = as_vols y → audio_track_pool y' = audio_track_pool y →
            audio_record_pool y' = audio_record_pool y → audio_track_num y' = audio_track_num y →
            audio_record_num y' = audio_record_num y → audio_ok (au_set_sys y' s)).
  { intros y' E1 E2 E3 E4 E5. apply audio_ok_sys; [done|]. destruct Hok as [V1 V2 V3 V4 V5].
    split; try congruence. intros k. rewrite E1. apply V1. }
  destruct op; cbn [audio_step]; try apply step_pair.
  - destruct (init_ok s Hr Hl) as (s' & -> & H). eauto.
  - by apply set_stream_volume_ok.
  - by apply master_volume_ok.
  - unfold audio_system_set_stream_pa_volume, with_sys. rewrite Hy. by apply foldl_same.
  - unfold audio_system_set_microphone_volume, with_sys. rewrite Hy. by apply foldl_same.
  - by apply register_ok.
  - destruct (unregister_track_ok a s Hs) as (s' & -> & H). eauto.
  - by apply register_ok.
  - by apply unregister_record_ok.
  - unfold audio_system_set_master_mute, with_sys. rewrite Hy. by apply Hsys.
  - unfold audio_system_set_stream_mute, with_sys. rewrite Hy. by apply foldl_same.
  - unfold audio_system_mute_microphone, with_sys. rewrite Hy. apply foldl_same; [done|]. by apply Hsys.
  - unfold audio_system_trigger_track_start, with_sys. rewrite Hy.
    destruct (head _); [by apply (audio_ok_same s)|done].
  - unfold audio_system_trigger_record_start, with_sys. rewrite Hy.
    destruct (head _); [by apply (audio_ok_same s)|done].
  - unfold audio_system_set_output_sample_rate, with_sys. rewrite Hy. by apply Hsys.
  - destruct (clear_volume_ok s Hs) as (s' & -> & H). cbn. eauto.
Qed.

(** An empty entry of the track pool is followed: with fewer than two tracks
    the current volume cannot be asked for. *)
Theorem audio_system_get_current_volume_faults st s y :
  au_sys s = Some y → None ∈ audio_track_pool y → audio_system_get_current_volume st s = None.
Proof.
  intros Hy Hnone. unfold audio_system_get_current_volume, with_sys. rewrite Hy.
  assert (tts_in_pool (audio_track_pool y) s = None) as ->; [|done].
  induction (audio_track_pool y) as [|[a|] l IH]; [by apply elem_of_nil in Hnone| |done].
  cbn [tts_in_pool]. apply elem_of_cons in Hnone as [|Hnone]; [done|]. by rewrite (IH Hnone).
Qed.

(** *** What is stored *)

Lemma blocks_skip streams k name l st v s :
  st ∉ streams → volume_blocks_loop ((streams, k, name) :: l) st v s = volume_blocks_loop l st v s.
Proof. intros H. cbn [volume_blocks_loop]. by rewrite decide_False. Qed.
Lemma blocks_take streams k name l st v s s' :
  st ∈ streams → audio_system_save_volume name v (au_set_vol k v s) = Some s' →
  volume_blocks_loop ((streams, k, name) :: l) st v s = volume_blocks_loop l st v s'.
Proof. intros H Hs. cbn [volume_blocks_loop]. rewrite decide_True by done. by rewrite Hs. Qed.

(** The music volume goes to its property, and to nothing else while the
    volume of the voice prompts is fixed. *)
Lemma set_music_world st v s y r w :
  st = AUDIO_STREAM_MUSIC ∨ st = AUDIO_STREAM_SOUNDBAR → 0 < level s < 256 → au_sys s = Some y →
  audio_policy_check_save_volume_to_nvram (au_policy s) = true →
  audio_policy_check_tts_fixed_volume (au_policy s) = true →
  prop_set CFG_BTPLAY_VOLUME (Some (volume_text (limited (level s) st v))) (au_world s) = Some (r, w) →
  ∃ ret s', audio_system_set_stream_volume st v s = Some (ret, s') ∧ au_world s' = w.
Proof.
  intros Hst Hlev Hy Hsave Htts Hset. pose proof (limited_range (level s) st v ltac:(lia)) as Hc.
  unfold audio_system_set_stream_volume, with_sys. rewrite Hy. fold (level s). rewrite volume_limits_spec by lia.
  set (c := limited (level s) st v) in *. set (ts := filter _ _).
  destruct (set_track_volumes ts c s) as (T1 & T2 & T3 & _).
  set (s1 := foldl (λ s a, audio_track_set_volume a c s) s ts) in *.
  assert (Hsv : audio_system_save_volume CFG_BTPLAY_VOLUME c (au_set_vol music_volume c s1) =
                Some (au_set_world w (au_set_vol music_volume c s1))).
  { rewrite save_volume_eq by lia. rewrite au_set_vol_policy, T2, Hsave, au_set_vol_world, T3. cbn [negb].
    by rewrite Hset. }
  assert (Hblocks : volume_blocks_loop volume_blocks st c s1 = Some (au_set_world w (au_set_vol music_volume c s1))).
  { unfold volume_blocks. destruct Hst as [-> | ->];
      do 3 (rewrite blocks_skip by by_decide); erewrite blocks_take by (by_decide || exact Hsv);
      by do 7 (rewrite blocks_skip by by_decide). }
  rewrite Hblocks. cbn [mbind option_bind]. unfold set_master_and_tts.
  rewrite decide_False by (by destruct Hst as [-> | ->]).
  rewrite au_set_vol_policy. cbn [au_set_world au_policy]. rewrite au_set_vol_policy, T2, Htts. cbn [negb].
  eexists _, _. split; [reflexivity|]. by rewrite au_set_vol_world.
Qed.

(** A volume read at start-up. *)
Lemma get_volume_config_value name k s y v w :
  prop_get_int name DEFAULT_VOLUME (au_world s) = Some (v, w) → 0 < v <= level s → level s < 256 →
  au_sys s = Some y →
  ∃ s', audio_system_get_volume_config name k s = Some s' ∧ vol k s' = v ∧ au_world s' = w.
Proof.
  intros Hget Hv Hl Hy. unfold audio_system_get_volume_config. rewrite Hget. cbn [mbind option_bind]. fold (level s).
  destruct (Z.leb_spec v 0), (Z.ltb_spec (level s) v); try lia. cbn [orb].
  eexists. split; [reflexivity|]. unfold vol. rewrite (au_set_vol_sys _ _ _ y) by done.
  rewrite set_vol_get, decide_True by done. rewrite au_set_vol_world. split; [apply u8_id; unfold is_u8; lia|done].
Qed.

Lemma au_set_vol_other k k' v s : k ≠ k' → vol k' (au_set_vol k v s) = vol k' s.
Proof.
  intros Hne. unfold vol, au_set_vol. destruct (au_sys s) as [y|] eqn:Hy; [|by rewrite Hy].
  cbn [au_set_sys au_sys]. by rewrite set_vol_get, decide_False.
Qed.

(** Loading the other volumes leaves a field alone. *)
Lemma load_volumes_other l s s' k :
  load_volumes l s = Some s' → Forall (λ e, e.2 ≠ k) l → vol k s' = vol k s.
Proof.
  intros Hrun Hl. revert s Hrun. induction Hl as [|[name k'] l Hk Hl IH]; intros s Hrun; [by injection Hrun as ->|].
  cbn [load_volumes] in Hrun. unfold audio_system_get_volume_config in Hrun.
  destruct (prop_get_int name DEFAULT_VOLUME (au_world s)) as [[x w]|]; [|done]. cbn [mbind option_bind] in Hrun.
  rewrite (IH _ Hrun). cbn in Hk. by rewrite au_set_vol_other.
Qed.

(** Start-up takes the music volume from its property. *)
Lemma init_music_volume s v w :
  prop_ready (au_world s) → DEFAULT_VOLUME <= level s < 256 →
  prop_get_int CFG_BTPLAY_VOLUME DEFAULT_VOLUME (au_world s) = Some (v, w) → 0 < v <= level s →
  ∃ s', aduio_system_init s = Some (0, s') ∧ audio_ok s' ∧
    audio_system_get_stream_volume AUDIO_STREAM_MUSIC s' = v.
Proof.
  intros Hr Hl Hget Hv. destruct (init_ok s Hr Hl) as (s' & Hrun & Hok). exists s'. split_and!; [done|done|].
  unfold aduio_system_init in Hrun.
  destruct (get_volume_config_value CFG_BTPLAY_VOLUME music_volume (au_set_sys audio_sys_clear s) audio_sys_clear v w)
    as (s1 & E1 & Hm & _); [done|done|by destruct Hl|done|].
  rewrite E1 in Hrun. cbn [mbind option_bind] in Hrun.
  destruct (load_volumes config_volumes _) as [s3|] eqn:E3; [|done]. cbn [mbind option_bind] in Hrun. injection Hrun as <-.
  apply (load_volumes_other _ _ _ music_volume) in E3; [|by repeat constructor].
  rewrite au_set_vol_other, Hm in E3 by done.
  destruct Hok as [_ _ (y & Hy & _)]. unfold audio_system_get_stream_volume, with_sys. rewrite Hy.
  unfold vol in E3. cbn [au_call au_sys] in Hy. by rewrite Hy in E3.
Qed.
End audio_laws.
