(* ===== verification/VolumeManager.v ===== *)
(** * The volume manager

    ext/actions/audio/volume_manager.c in the shipped configuration
    (CONFIG_CODEC_ACM8635 and CONFIG_BT_MANAGER set, CONFIG_TWS and
    CONFIG_ESD_MANAGER not): the volume of a stream is set in the audio system
    and announced to the player, the amplifier, the Bluetooth manager and the
    main application.  The calls to those go into a trace. *)

From stdpp Require Import base numbers list option functions.
From S2P Require Import Prelude Libc AudioPolicy AudioSystem.
Local Open Scope Z_scope.

(** What is announced. *)
Inductive bt_volume_type := BT_VOLUME_TYPE_BR_MUSIC | BT_VOLUME_TYPE_BR_CALL | BT_VOLUME_TYPE_LE_AUDIO.
Inductive vol_call :=
  | PlayerSetVolume (left right : Z)
  | PlayerFadeOut (ms : Z)
  | PlayerFadeIn (ms : Z)
  | PlayerSmartVolume (volume : Z)
  | AmpSetVolume (volume : Z)
  | BtVolumeSet (value : Z) (type : bt_volume_type)
  | SysEventMaxVolume
  | SysEventMinVolume
  | VolumeChangedMsg (value : Z) (limited : bool).

Section volume.
Context {W : Type} `{!PropIface W}.

(** [vm_player]: there is a main player; [vm_amp]: the amplifier is bound;
    [vm_timestamp]: the static [volume_timestampe]; [vm_cycles]: what the next
    reads of the cycle counter return (0 when it runs out);
    [vm_cycles_per_us]: [sys_clock_hw_cycles_per_sec / 1000000]. *)
Record volmgr := mk_volmgr {
  vm_audio : @audio W;
  vm_player : bool;
  vm_amp : bool;
  vm_timestamp : Z;
  vm_cycles : list Z;
  vm_cycles_per_us : Z;
  vm_smart_gain : Z;
  vm_calls : list vol_call;
}.

Definition vm_set_audio (a : audio) (s : volmgr) : volmgr :=
  mk_volmgr a (vm_player s) (vm_amp s) (vm_timestamp s) (vm_cycles s) (vm_cycles_per_us s)
    (vm_smart_gain s) (vm_calls s).
Definition vm_call (c : vol_call) (s : volmgr) : volmgr :=
  mk_volmgr (vm_audio s) (vm_player s) (vm_amp s) (vm_timestamp s) (vm_cycles s) (vm_cycles_per_us s)
    (vm_smart_gain s) (vm_calls s ++ [c]).

(** [k_cycle_get_32] *)
Definition k_cycle_get_32 (s : volmgr) : Z * volmgr :=
  (match vm_cycles s with [] => 0 | c :: _ => c end,
   mk_volmgr (vm_audio s) (vm_player s) (vm_amp s) (vm_timestamp s) (tail (vm_cycles s)) (vm_cycles_per_us s)
     (vm_smart_gain s) (vm_calls s)).

(** [system_volume_get] *)
Definition system_volume_get (stream_type : audio_stream) (s : volmgr) : Z :=
  audio_system_get_stream_volume stream_type (vm_audio s).

(** [_system_volume_get_map_stream_type] *)
Definition system_volume_get_map_stream_type (stream_type : audio_stream) (s : volmgr) : audio_stream :=
  match audio_system_get_track (vm_audio s) with
  | Some a =>
      let ts := tr_stream (au_tracks (vm_audio s) a) in
      if decide (stream_type = AUDIO_STREAM_MUSIC ∧ ts = AUDIO_STREAM_SOUNDBAR) then ts else stream_type
  | None => stream_type
  end.

(** [_system_volume_fade_da_volume] *)
Definition system_volume_fade_da_volume (stream_type : audio_stream) (old_volume volume : Z) (s : volmgr)
    : volmgr :=
  if audio_policy_is_da_mute stream_type then
    if volume =? 0 then vm_call (PlayerFadeOut 30) (vm_call (PlayerSetVolume volume volume) s)
    else
      let s := if old_volume =? 0 then vm_call (PlayerFadeIn 30) s else s in
      vm_call (PlayerSetVolume volume volume) s
  else vm_call (PlayerSetVolume volume volume) s.

(** At most one event per half second. *)
Definition limit_event (c : vol_call) (s : volmgr) : volmgr :=
  let '(now, s) := k_cycle_get_32 s in
  if 500000 <? u32 (now - vm_timestamp s) / vm_cycles_per_us s then
    let s := vm_call c s in
    let '(now, s) := k_cycle_get_32 s in
    mk_volmgr (vm_audio s) (vm_player s) (vm_amp s) now (vm_cycles s) (vm_cycles_per_us s)
      (vm_smart_gain s) (vm_calls s)
  else s.

(** The streams the amplifier follows. *)
Definition amp_streams : list audio_stream :=
  [AUDIO_STREAM_MUSIC; AUDIO_STREAM_VOICE; AUDIO_STREAM_TTS; AUDIO_STREAM_LINEIN; AUDIO_STREAM_USOUND;
   AUDIO_STREAM_LE_AUDIO; AUDIO_STREAM_LOCAL_MUSIC].
Definition amp_sync (stream_type : audio_stream) (volume : Z) (s : volmgr) : volmgr :=
  if decide (stream_type ∈ amp_streams) then
    if vm_amp s then vm_call (AmpSetVolume (u8 volume)) s else s
  else s.

(** The Bluetooth manager takes a [uint8_t]. *)
Definition bt_sync (stream_type : audio_stream) (volume : Z) (s : volmgr) : volmgr :=
  match stream_type with
  | AUDIO_STREAM_SOUNDBAR | AUDIO_STREAM_MUSIC => vm_call (BtVolumeSet (u8 volume) BT_VOLUME_TYPE_BR_MUSIC) s
  | AUDIO_STREAM_VOICE => vm_call (BtVolumeSet (u8 volume) BT_VOLUME_TYPE_BR_CALL) s
  | AUDIO_STREAM_LE_AUDIO =>
      vm_call (BtVolumeSet (u8 (bt_manager_music_to_lea_volume
                                  (audio_policy_get_volume_level (au_policy (vm_audio s))) (u32 volume)))
                 BT_VOLUME_TYPE_LE_AUDIO) s
  | _ => s
  end.

(** The level handed to the player is cut to the policy's range; without a
    player and a track of the stream it is not. *)
Definition player_volume (stream_type : audio_stream) (volume : Z) (s : volmgr) : Z :=
  if vm_player s && bool_decide (is_Some (audio_system_get_audio_track_handle stream_type (vm_audio s))) then
    let lev := audio_policy_get_volume_level (au_policy (vm_audio s)) in
    if volume <=? 0 then 0 else if lev <=? volume then lev else volume
  else volume.

(** [system_volume_set] *)
Definition system_volume_set (stream_type : audio_stream) (volume : Z) (display : bool) (s : volmgr)
    : option (Z * volmgr) :=
  let old_volume := audio_system_get_stream_volume stream_type (vm_audio s) in
  let stream_type := system_volume_get_map_stream_type stream_type s in
  let has_track := vm_player s && bool_decide (is_Some (audio_system_get_audio_track_handle stream_type (vm_audio s))) in
  let volume := player_volume stream_type volume s in
  let s := if has_track then system_volume_fade_da_volume stream_type old_volume volume s else s in
  '(ret, a) ← audio_system_set_stream_volume stream_type volume (vm_audio s);
  let s := vm_set_audio a s in
  let at_max := display && (ret =? MAX_VOLUME_VALUE) in
  let at_min := display && (ret =? MIN_VOLUME_VALUE) in
  let s := if at_max then limit_event SysEventMaxVolume s
           else if at_min then limit_event SysEventMinVolume s else s in
  let is_limited := at_max || at_min in
  if old_volume =? audio_system_get_stream_volume stream_type (vm_audio s) then
    Some (old_volume, if display then vm_call (VolumeChangedMsg (u32 old_volume) true) s else s)
  else
    let s := bt_sync stream_type volume (amp_sync stream_type volume s) in
    Some (volume, if display then vm_call (VolumeChangedMsg (u32 volume) is_limited) s else s).

(** [system_volume_down], [system_volume_up] *)
Definition system_volume_down (stream_type : audio_stream) (decrement : Z) (s : volmgr) : option (Z * volmgr) :=
  system_volume_set stream_type (system_volume_get stream_type s - decrement) true s.
Definition system_volume_up (stream_type : audio_stream) (increment : Z) (s : volmgr) : option (Z * volmgr) :=
  system_volume_set stream_type (system_volume_get stream_type s + increment) true s.

(** [system_player_volume_set] *)
Definition system_player_volume_set (stream_type : audio_stream) (volume : Z) (s : volmgr)
    : option (Z * volmgr) :=
  let old_volume := audio_system_get_stream_volume stream_type (vm_audio s) in
  let stream_type := system_volume_get_map_stream_type stream_type s in
  let has_track := vm_player s && bool_decide (is_Some (audio_system_get_audio_track_handle stream_type (vm_audio s))) in
  let s := if has_track then system_volume_fade_da_volume stream_type old_volume volume s else s in
  '(_, a) ← audio_system_set_stream_volume stream_type volume (vm_audio s);
  let s := vm_set_audio a s in
  if old_volume =? audio_system_get_stream_volume stream_type (vm_audio s) then Some (old_volume, s)
  else Some (volume, amp_sync stream_type volume s).

(** [system_player_smart_control_volume_set] *)
Definition system_player_smart_control_volume_set (volume : Z) (s : volmgr) : Z * volmgr :=
  let s := mk_volmgr (vm_audio s) (vm_player s) (vm_amp s) (vm_timestamp s) (vm_cycles s)
             (vm_cycles_per_us s) (s16 volume) (vm_calls s) in
  (0, if vm_player s then vm_call (PlayerSmartVolume volume) s else s).
End volume.

(** ** Theorems *)

Section volume_laws.
Context {W : Type} `{!PropIface W} `{!PropIfaceLaws W}.
Implicit Types (s : @volmgr W) (st : audio_stream).

(** The announcements leave the audio system alone. *)
Lemma fade_audio st o v s : vm_audio (system_volume_fade_da_volume st o v s) = vm_audio s.
Proof. done. Qed.
Lemma limit_event_audio c s : vm_audio (limit_event c s) = vm_audio s.
Proof. unfold limit_event, k_cycle_get_32. cbn. by destruct (500000 <? _). Qed.
Lemma amp_sync_audio st v s : vm_audio (amp_sync st v s) = vm_audio s.
Proof. unfold amp_sync. case_decide; [|done]. by destruct (vm_amp s). Qed.
Lemma bt_sync_audio st v s : vm_audio (bt_sync st v s) = vm_audio s.
Proof. by destruct st. Qed.

Lemma player_volume_limited st v s :
  0 < level (vm_audio s) →
  limited (level (vm_audio s)) st (player_volume st v s) = limited (level (vm_audio s)) st v.
Proof.
  intros Hl. unfold player_volume. fold (level (vm_audio s)). destruct (_ && _); [|done].
  unfold limited, top_level. case_decide; zbool; lia.
Qed.

(** The volume read for a stream is that of the mapped stream. *)
Lemma map_stream_slot st s : stream_slot (system_volume_get_map_stream_type st s) = stream_slot st.
Proof.
  unfold system_volume_get_map_stream_type. destruct (audio_system_get_track (vm_audio s)); [|done].
  case_decide as E; [|done]. by destruct E as [-> ->].
Qed.
Lemma map_stream_top lev st s :
  top_level lev (system_volume_get_map_stream_type st s) = top_level lev st.
Proof.
  unfold system_volume_get_map_stream_type. destruct (audio_system_get_track (vm_audio s)); [|done].
  case_decide as E; [|done]. by destruct E as [-> ->].
Qed.
Lemma map_stream_tts st s : st ≠ AUDIO_STREAM_TTS → system_volume_get_map_stream_type st s ≠ AUDIO_STREAM_TTS.
Proof.
  unfold system_volume_get_map_stream_type. destruct (audio_system_get_track (vm_audio s)); [|done].
  case_decide as E; [|done]. by destruct E as [-> ->].
Qed.

(** What a volume change does to the audio system. *)
Lemma system_volume_set_audio st v d s ret a :
  let st' := system_volume_get_map_stream_type st s in
  audio_system_set_stream_volume st' (player_volume st' v s) (vm_audio s) = Some (ret, a) →
  ∃ r s', system_volume_set st v d s = Some (r, s') ∧ vm_audio s' = a ∧
    (if audio_system_get_stream_volume st (vm_audio s) =? audio_system_get_stream_volume st a
     then r = audio_system_get_stream_volume st (vm_audio s) else r = player_volume st' v s) ∧
    (d = true → ∃ cs lim, vm_calls s' = cs ++ [VolumeChangedMsg (u32 r) lim]).
Proof.
  intros st' Hrun. unfold system_volume_set. fold st'.
  set (old := audio_system_get_stream_volume st (vm_audio s)).
  set (s1 := if _ && _ then system_volume_fade_da_volume st' old (player_volume st' v s) s else s).
  assert (H1 : vm_audio s1 = vm_audio s) by (subst s1; by destruct (_ && _)).
  rewrite H1, Hrun. cbn [mbind option_bind].
  set (s2 := if d && (ret =? MAX_VOLUME_VALUE) then _ else _).
  assert (H2 : vm_audio s2 = a).
  { subst s2. by destruct (d && (ret =? MAX_VOLUME_VALUE)), (d && (ret =? MIN_VOLUME_VALUE));
      rewrite ?limit_event_audio. }
  assert (Hget : audio_system_get_stream_volume st' (vm_audio s2) = audio_system_get_stream_volume st a).
  { rewrite H2. unfold audio_system_get_stream_volume. by rewrite (map_stream_slot st s : stream_slot st' = _). }
  rewrite Hget. destruct (old =? _) eqn:E.
  - eexists _, _. split; [reflexivity|]. split_and!; [by destruct d|done|]. intros ->. cbn [vm_call vm_calls]. eauto.
  - eexists _, _. split; [reflexivity|]. split_and!; [|done|intros ->; cbn [vm_call vm_calls]; eauto].
    destruct d; cbn [vm_call vm_audio]; by rewrite bt_sync_audio, amp_sync_audio.
Qed.

(** The volume is set, whatever is announced. *)
Lemma system_volume_set_level st v s :
  audio_ok (vm_audio s) → st ≠ AUDIO_STREAM_TTS →
  let st' := system_volume_get_map_stream_type st s in
  ∃ ret a, audio_system_set_stream_volume st' (player_volume st' v s) (vm_audio s) = Some (ret, a) ∧
    audio_ok a ∧ audio_system_get_stream_volume st a = limited (level (vm_audio s)) st v ∧
    level a = level (vm_audio s).
Proof.
  intros Hs Hst st'. pose proof Hs as [Hr Hl (y & Hy & [V1 V2 V3 V4 V5])]. unfold DEFAULT_VOLUME in Hl.
  destruct (set_stream_volume_ok st' (player_volume st' v s) (vm_audio s) Hs) as (ret & a & Hrun & Ha).
  destruct (set_stream_volume_run st' (player_volume st' v s) (vm_audio s) y Hr ltac:(lia) Hy
              ltac:(intros k; specialize (V1 k); lia)) as (a' & y' & Hrun' & _ & Hp & _ & Hy' & _ & _ & _ & _ & Hf & _).
  exists ret, a. rewrite Hrun in Hrun'. simplify_eq. split_and!; [done|done| |unfold level; congruence].
  unfold audio_system_get_stream_volume, with_sys. rewrite Hy', Hf. rewrite player_volume_limited by lia.
  rewrite <- (map_stream_slot st s). fold st'. rewrite new_vols_own by (by apply map_stream_tts).
  unfold limited. by rewrite (map_stream_top (level (vm_audio s)) st s : top_level _ st' = _).
Qed.

(** In the range the player's volume is the one asked for. *)
Lemma player_volume_in_range st v s :
  0 <= v <= top_level (level (vm_audio s)) st → player_volume st v s = v.
Proof.
  intros Hv. unfold player_volume. fold (level (vm_audio s)). destruct (_ && _); [|done].
  unfold top_level in Hv. case_decide; zbool; lia.
Qed.

(** The volume manager always returns, leaves the audio system in order with
    the volume of the stream cut to its range, returns the value asked for
    when that is in the range, and with display set announces exactly the
    returned value last. *)
Theorem system_volume_set_result st v d s :
  audio_ok (vm_audio s) → st ≠ AUDIO_STREAM_TTS →
  ∃ r s', system_volume_set st v d s = Some (r, s') ∧ audio_ok (vm_audio s') ∧
    system_volume_get st s' = limited (level (vm_audio s)) st v ∧
    (0 <= v <= top_level (level (vm_audio s)) st → r = v) ∧
    (d = true → ∃ cs lim, vm_calls s' = cs ++ [VolumeChangedMsg (u32 r) lim]).
Proof.
  intros Hs Hst. destruct (system_volume_set_level st v s Hs Hst) as (ret & a & Hrun & Ha & Hget & _).
  destruct (system_volume_set_audio st v d s _ _ Hrun) as (r & s' & Hset & Haud & Hres & Hmsg).
  exists r, s'. unfold system_volume_get. rewrite Haud. split_and!; [done|done|done| |done].
  intros Hv. assert (Hlim : limited (level (vm_audio s)) st v = v) by (unfold limited; lia).
  rewrite Hget, Hlim in Hres. destruct (Z.eqb_spec (audio_system_get_stream_volume st (vm_audio s)) v); [lia|].
  rewrite Hres. apply player_volume_in_range. by rewrite map_stream_top.
Qed.
End volume_laws.
