(* ===== verification/Speaker.v ===== *)
(** * From the serial link to the flash

    The components put together: the audio system stores volumes through the
    property manager, whose cache stands on the NVRAM driver; the PY32 link
    sets the volume through the volume manager.  The interfaces [PropMgrEnv],
    [PropIface], [Py32Env] and their laws are discharged by the models of the
    components, and a volume sent by the host is followed to the flash and back
    through a restart. *)

From stdpp Require Import base numbers list option gmap functions.
From S2P Require Import Prelude Libc Py32Volume Py32Uart Py32Link NvramBits NvramStorage NvramConfig NvramItems NvramRegion NvramStore NvramScan NvramApi NvramSpec PropertyCache PropertyNvram PropertyManager AudioPolicy AudioSystem VolumeManager.
Local Open Scope Z_scope.

(** ** The property manager on the NVRAM driver *)

Section stack.
Context {F : Type} `{!FlashDrv F}.

#[export] Instance pworld_mgr_env : PropMgrEnv (@pworld F) := {
  nv_set_factory name data len w :=
    match data with
    | None => if len =? 0 then
                match nvram_config_set_factory name [] (pw_nvram w) with
                | None => None
                | Some (r, s) => Some (r, pw_set_nvram s w)
                end
              else Some (- EINVAL, w)
    | Some d =>
        match nvram_config_set_factory name (take (Z.to_nat len) d) (pw_nvram w) with
        | None => None
        | Some (r, s) => Some (r, pw_set_nvram s w)
        end
    end;
  nv_clear_all w :=
    match nvram_config_clear_all (pw_nvram w) with
    | None => None
    | Some (r, s) => Some (r, pw_set_nvram s w)
    end;
}.

#[export] Instance pworld_mgr_laws : PropMgrLaws (@pworld F).
Proof. by split. Qed.
End stack.

(** ** The audio system on the property manager *)

Section audio_props.
Context {W : Type} `{!PropEnv W} `{!PropMgrEnv W}.

#[export] Instance pmgr_iface : PropIface (@pmgr W) := {
  prop_get_int := property_get_int;
  prop_set name v s :=
    match v with
    | Some b => property_set name (Some (Local b)) (Z.of_nat (length b)) s
    | None => property_set name None 0 s
    end;
}.
End audio_props.

Section audio_props_laws.
Context {W : Type} `{!PropEnv W} `{!PropMgrEnv W} `{!PropLaws W} `{!PropMgrLaws W}.
Implicit Types (s : @pmgr W).

(** A value that the sixteen-byte buffer holds with a terminator. *)
Definition terminated (d : list Z) : Prop := (length d <= 15)%nat ∨ 0 ∈ take 16 d.

(** A name that holds such values on every level: cache, user region and
    below. *)
Definition name_texts s (mu mf : gmap (list Z) (list Z)) (name : list Z) : Prop :=
  ∀ d, cached (pm_cache s) name = Some d ∨ (mu ∪ mf) !! name = Some d ∨ mf !! name = Some d → terminated d.

Definition volumes_readable s mu mf : Prop := ∀ name, name ∈ volume_names → name_texts s mu mf name.

Lemma volume_names_ok name : name ∈ volume_names → name_ok name ∧ is_keys name = false.
Proof.
  intros H. assert (Hall : Forall (λ n, name_ok n ∧ is_keys n = false) volume_names).
  { repeat apply Forall_cons_2; try apply Forall_nil_2;
      (split; [split; [repeat constructor; lia|cbn; lia]|by vm_compute]). }
  rewrite Forall_forall in Hall. by apply Hall, list_elem_of_In.
Qed.

Lemma volume_names_plain name : name ∈ volume_names → is_special name = false.
Proof.
  intros H. assert (Hall : Forall (λ n, is_special n = false) volume_names).
  { repeat apply Forall_cons_2; try apply Forall_nil_2; by vm_compute. }
  rewrite Forall_forall in Hall. by apply Hall, list_elem_of_In.
Qed.

(** The buffer after a read of such a value has a terminator. *)
Lemma read_buffer_term d : terminated d → 0 ∈ memcpy temp_data 0 (take 16 d).
Proof.
  intros Hd. assert (Hl : (length (take 16 d) <= 16)%nat) by (rewrite length_take; lia).
  rewrite memcpy_start by (cbn; lia). apply elem_of_app. destruct Hd as [Hd|Hd]; [|by left].
  right. unfold temp_data. rewrite drop_replicate, length_take.
  replace (16 - Nat.min 16 (length d))%nat with (S (15 - length d)) by lia. apply elem_of_cons. by left.
Qed.

Lemma parse_int_total temp : 0 ∈ temp → ∃ v, parse_int temp = Some v.
Proof.
  intros H0. destruct (strtol_term temp H0) as (v & off & Hs & Hoff). unfold parse_int. rewrite Hs.
  cbn [mbind option_bind]. destruct (lookup_lt_is_Some_2 temp (Z.to_nat off)) as [c ->]; [lia|]. cbn. eauto.
Qed.

(** An integer can be read whatever is stored, as long as it is terminated. *)
Lemma property_get_int_total s mu mf name d :
  mgr_ok s mu mf → name_ok name → (∀ v, prop_lookup s mu mf name = Some v → terminated v) →
  ∃ v, property_get_int name d s = Some (v, s).
Proof.
  intros Hs Hn Hterm. unfold property_get_int. rewrite (property_get_spec s mu mf) by done.
  destruct (prop_lookup s mu mf name) as [x|] eqn:E; cbn [get_result mbind option_bind].
  - destruct (0 <? _); [|eauto]. change (Z.to_nat 16) with 16%nat.
    destruct (parse_int_total _ (read_buffer_term x (Hterm x eq_refl))) as (v & ->). cbn. eauto.
  - change (0 <? - ENOENT) with false. cbv iota. eauto.
Qed.

Lemma prop_lookup_layers s mu mf name d :
  prop_lookup s mu mf name = Some d →
  cached (pm_cache s) name = Some d ∨ (mu ∪ mf) !! name = Some d.
Proof. unfold prop_lookup, pc_lookup. destruct (cached (pm_cache s) name); intros H; [left|right]; congruence. Qed.

(** The same items over the same memory. *)
Lemma cached_same s s' name :
  pc_items (pm_cache s') = pc_items (pm_cache s) →
  (∀ p, load p (pc_world (pm_cache s')) = load p (pc_world (pm_cache s))) →
  cached (pm_cache s') name = cached (pm_cache s) name.
Proof.
  intros Hi Hl. unfold cached. rewrite Hi. destruct (find_property_cache _ name) as [[i it]|]; [|done].
  cbn. f_equal. by apply item_value_load.
Qed.

Lemma submit_total s mu mf key data len :
  mgr_ok s mu mf →
  ∃ r s', submit_nvram_write_work key data len s = (r, s') ∧ mgr_ok s' mu mf ∧
    ∀ n, cached (pm_cache s') n = cached (pm_cache s) n.
Proof.
  intros Hs. unfold submit_nvram_write_work.
  destruct (pm_malloc_ok s mu mf 12 Hs) as (s1 & -> & Hs1 & _ & _ & I1 & L1). cbn [negb].
  destruct (pm_malloc_ok s1 mu mf (Z.of_nat (length key) + 1) Hs1) as (s2 & -> & Hs2 & _ & _ & I2 & L2). cbn [negb].
  assert (Hsend : ∀ m t, mgr_ok t mu mf → mgr_ok (send_async_msg m t) mu mf ∧ pm_cache (send_async_msg m t) = pm_cache t).
  { intros m t Ht. unfold send_async_msg. destruct (pm_sends t) as [|[] l]; (split; [destruct Ht; by split|done]). }
  assert (Hfin : ∀ m t, mgr_ok t mu mf → pc_items (pm_cache t) = pc_items (pm_cache s) →
            (∀ p, load p (pc_world (pm_cache t)) = load p (pc_world (pm_cache s))) →
            ∃ r s', (0, send_async_msg m t) = (r, s') ∧ mgr_ok s' mu mf ∧
              ∀ n, cached (pm_cache s') n = cached (pm_cache s) n).
  { intros m t Ht Hi Hl. destruct (Hsend m t Ht) as [H1 H2]. eexists _, _. split; [reflexivity|].
    split; [exact H1|]. intros n. rewrite H2. by apply (cached_same s t). }
  destruct data as [p|]; [destruct (0 <? len)|].
  - destruct (pm_malloc_ok s2 mu mf len Hs2) as (s3 & -> & Hs3 & _ & _ & I3 & L3). cbn [negb].
    apply Hfin; [done|congruence|intros; congruence].
  - apply Hfin; [done|congruence|intros; congruence].
  - apply Hfin; [done|congruence|intros; congruence].
Qed.

(** A volume name is cleared by an empty item, or by message when the cache is
    full. *)
Lemma volume_clear_store s mu mf name :
  mgr_ok s mu mf → name ∈ volume_names →
  ∃ r s', prop_set name None s = Some (r, s') ∧ mgr_ok s' mu mf ∧
    (∀ n, n ≠ name → cached (pm_cache s') n = cached (pm_cache s) n) ∧
    (cached (pm_cache s') name = Some [] ∨ cached (pm_cache s') name = cached (pm_cache s) name).
Proof.
  intros Hs Hname. destruct (volume_names_ok name Hname) as [Hn _]. pose proof (volume_names_plain name Hname) as Hsp.
  cbn [prop_set pmgr_iface]. unfold property_set.
  destruct (decide (cache_full s name)) as [Hfull|Hroom].
  - rewrite property_cache_clear_full by done. cbn [mbind option_bind].
    rewrite pmgr_eta. change (- ENOMEM =? - ENOMEM) with true. cbv iota.
    destruct (submit_total s mu mf name None 0 Hs) as (r & s' & -> & Hs' & Hc).
    exists r, s'. split_and!; [done|done|by intros|by right].
  - assert (Hslot : has_slot (pm_cache s) name).
    { unfold has_slot, cache_full in *. destruct (find_property_cache _ name), (find_free _); auto. }
    pose proof Hs as [Hinv Hst Ham].
    destruct (property_cache_delete_spec (pm_cache s) name 0 Hinv Ham Hslot Hn Hsp)
      as (c & -> & Hinv' & Hc & Hoth & Hst' & Ham' & _).
    exists 0, (set_cache c s). cbn [mbind option_bind].
    change (0 =? - ENOMEM) with false. cbv iota.
    split_and!; [done|split; [done|by apply Hst'|done]|done|by left].
Qed.

(** Storing a volume text: in the cache when it has room, by message otherwise. *)
Lemma volume_text_store s mu mf name v :
  mgr_ok s mu mf → name ∈ volume_names → 0 <= v < 256 →
  ∃ r s', prop_set name (Some (volume_text v)) s = Some (r, s') ∧ mgr_ok s' mu mf ∧
    (∀ n, n ≠ name → cached (pm_cache s') n = cached (pm_cache s) n) ∧
    (cached (pm_cache s') name = Some (volume_text v) ∨
     ¬ has_slot (pm_cache s) name ∧ cached (pm_cache s') name = cached (pm_cache s) name).
Proof.
  intros Hs Hname Hv. destruct (volume_names_ok name Hname) as [Hn _]. destruct (volume_text_ok v Hv) as [Hb Hlen].
  assert (Hbuf : buffer_ok (pc_world (pm_cache s)) (Local (volume_text v)) (Z.of_nat (length (volume_text v)))).
  { unfold buffer_ok. rewrite load_local. split_and!; [lia..|done]. }
  cbn [prop_set pmgr_iface].
  destruct (decide (find_property_cache (pc_items (pm_cache s)) name = None ∧ find_free (pc_items (pm_cache s)) = None)) as [Hfull|Hroom].
  - unfold property_set. rewrite property_cache_set_full by (done || lia). cbn [mbind option_bind].
    rewrite pmgr_eta. change (- ENOMEM =? - ENOMEM) with true. cbv iota.
    destruct (submit_total s mu mf name (Some (Local (volume_text v))) (Z.of_nat (length (volume_text v))) Hs) as (r & s' & -> & Hs' & Hc).
    exists r, s'. split_and!; [done|done|by intros|right]. split; [|done]. destruct Hfull as [H1 H2]. unfold has_slot. tauto.
  - assert (Hslot : has_slot (pm_cache s) name).
    { unfold has_slot. destruct (find_property_cache _ name), (find_free _); auto. }
    pose proof Hs as [Hinv Hst Ham].
    destruct (property_cache_set_spec _ (Local (volume_text v)) (Z.of_nat (length (volume_text v))) name Hinv Ham Hslot Hn Hbuf)
      as (c & Hrun & Hinv' & Hc & Hoth & Hst' & Ham' & _).
    exists 0, (set_cache c s). unfold property_set. rewrite Hrun. cbn [mbind option_bind].
    change (0 =? - ENOMEM) with false. cbv iota. split_and!; [done|split; [done|by apply Hst'|done]|done|left].
    cbn [set_cache pm_cache]. rewrite Hc. unfold given. by rewrite load_local, Nat2Z.id, firstn_all.
Qed.

Lemma volume_text_terminated v : 0 <= v < 256 → terminated (volume_text v).
Proof.
  intros Hv. left. pose proof (percent_d_length v ltac:(lia)). unfold volume_text. rewrite length_app. cbn. lia.
Qed.

(** A stored volume is read as its number. *)
Lemma property_get_int_volume s mu mf v d :
  mgr_ok s mu mf → 0 <= v < 256 → prop_lookup s mu mf CFG_BTPLAY_VOLUME = Some (volume_text v) →
  property_get_int CFG_BTPLAY_VOLUME d s = Some (v, s).
Proof.
  intros Hs Hv Hl. destruct (volume_text_ok v Hv) as [_ Hlen]. unfold property_get_int.
  rewrite (property_get_text_spec s mu mf CFG_BTPLAY_VOLUME (volume_text v))
    by (done || (apply volume_names_ok; by_decide) || lia).
  cbn [mbind option_bind]. destruct (Z.ltb_spec 0 (Z.of_nat (length (volume_text v)))); [|lia].
  unfold volume_text at 1. rewrite <- (assoc_L (++)). cbn [app]. by rewrite parse_int_percent_d by lia.
Qed.

(** A manager the audio system can use. *)
Definition pmgr_ready s : Prop := ∃ mu mf, mgr_ok s mu mf ∧ volumes_readable s mu mf.

#[export] Program Instance pmgr_iface_laws : PropIfaceLaws (@pmgr W) := { prop_ready := pmgr_ready }.
Next Obligation.
  intros name v s (mu & mf & Hs & Hread) Hname Hv.
  destruct (volume_text_store s mu mf name v Hs Hname Hv) as (r & s' & Hrun & Hs' & Hoth & Hc).
  exists r, s'. split; [done|]. exists mu, mf. split; [done|]. intros n Hn d Hd.
  destruct (decide (n = name)) as [->|Hne]; [|apply (Hread n Hn); by rewrite Hoth in Hd].
  destruct Hc as [Hc|[_ Hc]]; [|apply (Hread name Hn); by rewrite Hc in Hd].
  destruct Hd as [Hd|Hd]; [|apply (Hread name Hn); by right]. rewrite Hc in Hd. simplify_eq.
  by apply volume_text_terminated.
Qed.
Next Obligation.
  intros name s (mu & mf & Hs & Hread) Hname.
  destruct (volume_clear_store s mu mf name Hs Hname) as (r & s' & Hrun & Hs' & Hoth & Hc).
  exists r, s'. split; [done|]. exists mu, mf. split; [done|]. intros n Hn d Hd.
  destruct (decide (n = name)) as [->|Hne]; [|apply (Hread n Hn); by rewrite Hoth in Hd].
  destruct Hc as [Hc|Hc]; [|apply (Hread name Hn); by rewrite Hc in Hd].
  destruct Hd as [Hd|Hd]; [|apply (Hread name Hn); by right]. rewrite Hc in Hd. simplify_eq. left. cbn. lia.
Qed.
Next Obligation.
  intros name d s (mu & mf & Hs & Hread) Hname. destruct (volume_names_ok name Hname) as [Hn _].
  destruct (property_get_int_total s mu mf name d Hs Hn) as (v & Hv).
  { intros x Hx. apply (Hread name Hname). destruct (prop_lookup_layers s mu mf name x Hx); tauto. }
  exists v, s. split; [done|]. by exists mu, mf.
Qed.
End audio_props_laws.

(** ** The serial link on the volume manager *)

Section speaker.
Context {W : Type} `{!PropEnv W} `{!PropMgrEnv W}.

(** The firmware as the link sees it; the calls that do not matter for the
    volume are recorded. *)
Record speaker := mk_speaker {
  sp_vol : @volmgr (@pmgr W);
  sp_peq : list (Z * eq_band);
  sp_peq_updates : nat;
  sp_connected : Z;
  sp_status : Z;
  sp_calls : list bt_call;
  sp_ui : list ui_event;
}.

Definition sp_set_vol (v : volmgr) (w : speaker) : speaker :=
  mk_speaker v (sp_peq w) (sp_peq_updates w) (sp_connected w) (sp_status w) (sp_calls w) (sp_ui w).
Definition sp_audio (w : speaker) : @audio (@pmgr W) := vm_audio (sp_vol w).
Definition sp_props (w : speaker) : @pmgr W := au_world (sp_audio w).

#[export] Instance speaker_env : Py32Env speaker := {
  Py32Uart.audio_policy_get_volume_level w := level (sp_audio w);
  Py32Uart.system_volume_get w := VolumeManager.system_volume_get AUDIO_STREAM_MUSIC (sp_vol w);
  Py32Uart.system_volume_set l w :=
    match VolumeManager.system_volume_set AUDIO_STREAM_MUSIC l true (sp_vol w) with
    | Some (_, v) => sp_set_vol v w
    | None => w
    end;
  audio_policy_set_dynamic_peq_band i e w :=
    mk_speaker (sp_vol w) (sp_peq w ++ [(i, e)]) (sp_peq_updates w) (sp_connected w) (sp_status w) (sp_calls w) (sp_ui w);
  media_player_present w := vm_player (sp_vol w);
  media_player_dynamic_update_peq w :=
    mk_speaker (sp_vol w) (sp_peq w) (S (sp_peq_updates w)) (sp_connected w) (sp_status w) (sp_calls w) (sp_ui w);
  bt_manager_is_inited _ := true;
  bt_manager_power_on_setup _ := true;
  bt_manager_get_connected_dev_num := sp_connected;
  bt_manager_media_get_status := sp_status;
  bt_manager_call c w :=
    mk_speaker (sp_vol w) (sp_peq w) (sp_peq_updates w) (sp_connected w) (sp_status w) (sp_calls w ++ [c]) (sp_ui w);
  desktop_plugin_is_br_music _ := true;
  ui_message_send_async e w :=
    mk_speaker (sp_vol w) (sp_peq w) (sp_peq_updates w) (sp_connected w) (sp_status w) (sp_calls w) (sp_ui w ++ [e]);
}.
End speaker.

Section speaker_laws.
Context {W : Type} `{!PropEnv W} `{!PropMgrEnv W} `{!PropLaws W} `{!PropMgrLaws W}.
Implicit Types (w : @speaker W).

Lemma limited_music lev l : 0 <= l <= lev → limited lev AUDIO_STREAM_MUSIC l = l.
Proof. intros. unfold limited, top_level. rewrite decide_False by done. lia. Qed.

#[export] Program Instance speaker_audio_laws : Py32AudioLaws (@speaker W) :=
  { audio_ready w := audio_ok (sp_audio w) }.
Next Obligation.
  intros l w Hw Hl. cbn in *.
  destruct (system_volume_set_level AUDIO_STREAM_MUSIC l (sp_vol w)) as (ret & a & Hrun & _ & Hget & _); [done|done|].
  destruct (system_volume_set_audio AUDIO_STREAM_MUSIC l true (sp_vol w) ret a Hrun) as (r & v & -> & Hv & _).
  cbn. unfold VolumeManager.system_volume_get. rewrite Hv, Hget. by apply limited_music.
Qed.
Next Obligation.
  intros l w Hw. cbn in *.
  destruct (system_volume_set_level AUDIO_STREAM_MUSIC l (sp_vol w)) as (ret & a & Hrun & _ & _ & Hlev); [done|done|].
  destruct (system_volume_set_audio AUDIO_STREAM_MUSIC l true (sp_vol w) ret a Hrun) as (r & v & -> & Hv & _).
  unfold sp_audio, sp_set_vol. cbn [sp_vol]. by rewrite Hv.
Qed.
Solve All Obligations with done.

(** The speaker in order, with room for the music volume among the properties. *)
Record speaker_ok w (mu mf : gmap (list Z) (list Z)) : Prop := {
  sk_policy : au_policy (sp_audio w) = Some system_audio_policy;
  sk_sys : ∃ y, au_sys (sp_audio w) = Some y ∧ sys_ok 16 y;
  sk_props : mgr_ok (sp_props w) mu mf;
  sk_texts : volumes_readable (sp_props w) mu mf;
  sk_slot : has_slot (pm_cache (sp_props w)) CFG_BTPLAY_VOLUME;
}.

Lemma speaker_level w mu mf : speaker_ok w mu mf → level (sp_audio w) = 16.
Proof. intros [Hp _ _ _ _]. unfold level. by rewrite Hp. Qed.

Lemma speaker_audio_ok w mu mf : speaker_ok w mu mf → audio_ok (sp_audio w).
Proof.
  intros Hw. pose proof (speaker_level w mu mf Hw) as Hl. destruct Hw as [Hp Hy Hm Ht _].
  split; rewrite ?Hl; [by exists mu, mf|unfold DEFAULT_VOLUME; lia|done].
Qed.

(** Setting a level stores its text under the name of the music volume. *)
Lemma speaker_volume_stored w mu mf l :
  speaker_ok w mu mf → 0 <= l <= 16 →
  let p' := sp_props (Py32Uart.system_volume_set l w) in
  mgr_ok p' mu mf ∧ volumes_readable p' mu mf ∧
  cached (pm_cache p') CFG_BTPLAY_VOLUME = Some (volume_text l).
Proof.
  intros Hw Hl p'. pose proof (speaker_level w mu mf Hw) as Hlev.
  pose proof (speaker_audio_ok w mu mf Hw) as Hok. destruct Hw as [Hp (y & Hy & Hsy) Hm Ht Hslot].
  assert (Hname : CFG_BTPLAY_VOLUME ∈ volume_names) by by_decide.
  destruct (volume_text_store (sp_props w) mu mf CFG_BTPLAY_VOLUME l Hm Hname ltac:(lia))
    as (r & q & Hset & Hq & Hoth & [Hc|[Hno _]]); [|done].
  set (st := system_volume_get_map_stream_type AUDIO_STREAM_MUSIC (sp_vol w)).
  assert (Hst : st = AUDIO_STREAM_MUSIC ∨ st = AUDIO_STREAM_SOUNDBAR).
  { subst st. unfold system_volume_get_map_stream_type. destruct (audio_system_get_track _); [|by left].
    case_decide as E; [right; apply E|by left]. }
  assert (Hlim : limited (level (sp_audio w)) st (player_volume st l (sp_vol w)) = l).
  { change (sp_audio w) with (vm_audio (sp_vol w)) in *. rewrite player_volume_limited by lia.
    rewrite Hlev. unfold limited, top_level. rewrite decide_False by (by destruct Hst as [-> | ->]). lia. }
  destruct (set_music_world st (player_volume st l (sp_vol w)) (sp_audio w) y r q Hst ltac:(lia) Hy
              ltac:(by rewrite Hp) ltac:(by rewrite Hp) ltac:(by rewrite Hlim)) as (ret & a & Hrun & Ha).
  destruct (system_volume_set_audio AUDIO_STREAM_MUSIC l true (sp_vol w) ret a Hrun) as (r' & v' & Hsv & Hv' & _).
  assert (Hp' : p' = q).
  { subst p'. cbn [Py32Uart.system_volume_set speaker_env]. rewrite Hsv.
    unfold sp_props, sp_audio, sp_set_vol. cbn [sp_vol]. by rewrite Hv'. }
  rewrite Hp'. split_and!; [done| |done]. intros n Hn d Hd.
  destruct (decide (n = CFG_BTPLAY_VOLUME)) as [->|Hne]; [|apply (Ht n Hn); by rewrite Hoth in Hd].
  rewrite Hc in Hd. destruct Hd as [[= <-]|Hd]; [apply volume_text_terminated; lia|apply (Ht _ Hn); by right].
Qed.

(** Tone control leaves the properties alone. *)
Lemma audio_applied_props v t b w :
  sp_props (audio_applied v t b w) =
  sp_props (Py32Uart.system_volume_set (py32_volume_pct_to_level (level (sp_audio w)) v) w).
Proof. unfold audio_applied. by destruct (media_player_present _). Qed.
End speaker_laws.

(** ** Through a restart *)

Section restart.
Context {F : Type} `{!FlashDrv F} `{!FlashLaws F}.

(** The audio system and the properties at power on, over the driver. *)
Definition boot_props (s : @nvram F) (mem : Z → list Z) : @pmgr (@pworld F) :=
  (property_manager_init (mk_pmgr (mk_pcache [] (mk_pworld s [] mem)) [] [])).2.
Definition boot_audio (s : @nvram F) (mem : Z → list Z) : @audio (@pmgr (@pworld F)) :=
  mk_audio None (λ _, mk_track AUDIO_STREAM_DEFAULT 0 0) (λ _, mk_record AUDIO_STREAM_DEFAULT false 0)
    (Some system_audio_policy) [] (boot_props s mem).

Lemma boot_cache s mem : pc_inv (pm_cache (boot_props s mem)) ∧ ∀ n, cached (pm_cache (boot_props s mem)) n = None.
Proof.
  change (pm_cache (boot_props s mem)) with (property_cache_init (mk_pcache [] (mk_pworld s [] mem))).
  apply fresh_cache_ok.
Qed.

(** C4: End to end: a set command received between frames over the serial link,
    different from the last accepted frame and with four values in range none
    of which is 1 (the host address), on a speaker in order whose property
    cache has the music volume or a free entry, sets the music volume, and
    after a property flush for which the NVRAM segment has room and a power
    cycle, the start-up of the NVRAM driver, the property manager and the
    audio system brings back exactly the level the percentage in the command
    stands for (when that level is not 0). *)
Theorem py32_volume_survives_restart v t b vib (s : py32 (@speaker (@pworld F))) mu mf :
  link_wf s → parse_state (st_parser s) = PY32_RX_ADDR →
  bytes_ok [v; t; b; vib] → no_addr [v; t; b; vib] →
  params_in_range v t b vib = true → fresh PY32_CMD_COMMON [v; t; b; vib] s →
  speaker_ok (st_world s) mu mf →
  let l := py32_volume_pct_to_level 16 v in
  let s1 := feed_bytes (frame_bytes PY32_ADDR_HOST PY32_CMD_COMMON [v; t; b; vib]) s in
  let p1 := sp_props (st_world s1) in
  0 < l → flush_fits (pc_world (pm_cache p1)) None mu (pc_items (pm_cache p1)) →
  ∃ p2 nv, property_flush None p1 = Some (0, p2) ∧
    nvram_config_init true (power_on (nvram_flash (pw_nvram (pc_world (pm_cache p2))))) = Some (0, nv) ∧
    ∀ mem, ∃ a, aduio_system_init (boot_audio nv mem) = Some (0, a) ∧ audio_ok a ∧
      audio_system_get_stream_volume AUDIO_STREAM_MUSIC a = l.
Proof.
  intros Hwf Hidle Hb Hno Hr Hf Hw l s1 p1 Hl Hfit.
  assert (Hrange : 0 <= l <= 16).
  { apply py32_volume_pct_to_level_range; [lia|]. inversion Hb; unfold is_u8 in *; lia. }
  assert (Hp1 : p1 = sp_props (Py32Uart.system_volume_set l (st_world s))).
  { subst p1 s1. rewrite set_command_world by done. rewrite audio_applied_props.
    by rewrite (speaker_level _ mu mf Hw). }
  destruct (speaker_volume_stored (st_world s) mu mf l Hw Hrange) as (Hm & Ht & Hc). rewrite <- Hp1 in Hm, Ht, Hc.
  clearbody p1. clear Hp1.
  pose proof Hm as [Hinv Hst _].
  destruct (flush_restart (pm_cache p1) mu mf Hinv Hst Hfit) as (c2 & nv & mu1 & Hflush & Hini & Hst2 & Hlook).
  exists (set_cache c2 p1), nv. split_and!; [unfold property_flush; by rewrite Hflush|done|]. intros mem.
  destruct (boot_cache nv mem) as [Hfi Hfc].
  assert (Hb0 : mgr_ok (boot_props nv mem) mu1 mf).
  { split; [exact Hfi|by apply Hst2|apply Forall_nil_2]. }
  assert (Hb1 : volumes_readable (boot_props nv mem) mu1 mf).
  { intros n Hn d [Hd|[Hd|Hd]]; [rewrite Hfc in Hd; discriminate| |].
    - rewrite Hlook in Hd. apply (Ht n Hn). destruct (cached (pm_cache p1) n) as [[|x d']|] eqn:E; [right; right; exact Hd|left; congruence|right; left; exact Hd].
    - apply (Ht n Hn). auto. }
  assert (Hget : property_get_int CFG_BTPLAY_VOLUME DEFAULT_VOLUME (boot_props nv mem) = Some (l, boot_props nv mem)).
  { apply (property_get_int_volume _ mu1 mf); [done|lia|].
    unfold prop_lookup, pc_lookup. rewrite Hfc, Hlook, Hc.
    unfold volume_text. by destruct (percent_d l). }
  assert (Hlev : level (boot_audio nv mem) = 16) by reflexivity.
  apply (init_music_volume _ _ (boot_props nv mem)); rewrite ?Hlev;
    [by exists mu1, mf|unfold DEFAULT_VOLUME; lia|exact Hget|lia].
Qed.
End restart.

(** ** Instances

    A speaker just started on an erased flash, and what the theorems of the
    components it is made of say of it. *)

Definition sample_mgr : @pmgr (@pworld nor) := mk_pmgr sample_cache [] [].
Definition sample_audio : @audio (@pmgr (@pworld nor)) :=
  mk_audio (Some audio_sys_clear) (λ _, mk_track AUDIO_STREAM_DEFAULT 0 0)
    (λ _, mk_record AUDIO_STREAM_DEFAULT false 0) (Some system_audio_policy) [] sample_mgr.
Definition sample_volmgr (sys : audio_sys) (amp : bool) : @volmgr (@pmgr (@pworld nor)) :=
  mk_volmgr (au_set_sys sys sample_audio) false amp 0 [] 24 0 [].
Definition sample_speaker : @speaker (@pworld nor) :=
  mk_speaker (sample_volmgr audio_sys_clear false) [] 0 0 0 [] [].
Definition sample_link : py32 (@speaker (@pworld nor)) := link_init sample_speaker.

Lemma sample_mgr_ok : mgr_ok sample_mgr ∅ ∅.
Proof. split; [apply sample_cache_inv|apply sample_stores|apply Forall_nil_2]. Qed.

Lemma sample_cached n : cached (pm_cache sample_mgr) n = None.
Proof. cbn [sample_mgr pm_cache]. apply fresh_cache_ok. Qed.

Lemma sample_readable : volumes_readable sample_mgr ∅ ∅.
Proof. intros n _ d [Hd|[Hd|Hd]]; [by rewrite (sample_cached n) in Hd|done|done]. Qed.

Lemma clear_sys_ok (f : vol_slot → Z) :
  (∀ k, 0 <= f k <= 16) →
  sys_ok 16 (mk_audio_sys f (replicate MAX_AUDIO_TRACK_NUM None) (replicate MAX_AUDIO_RECORD_NUM None) 0 0 false 0 false).
Proof. intros H. by split. Qed.

Lemma sample_volmgr_ok (f : vol_slot → Z) amp :
  (∀ k, 0 <= f k <= 16) →
  audio_ok (vm_audio (sample_volmgr
    (mk_audio_sys f (replicate MAX_AUDIO_TRACK_NUM None) (replicate MAX_AUDIO_RECORD_NUM None) 0 0 false 0 false) amp)).
Proof.
  intros H. split; [exists ∅, ∅; split; [apply sample_mgr_ok|apply sample_readable]|by vm_compute|].
  eexists. split; [reflexivity|]. by apply clear_sys_ok.
Qed.

Lemma sample_speaker_ok : speaker_ok sample_speaker ∅ ∅.
Proof.
  split; [done| |apply sample_mgr_ok|apply sample_readable|apply sample_slot].
  eexists. split; [reflexivity|]. by apply clear_sys_ok.
Qed.

Lemma sample_audio_ok : audio_ok sample_audio.
Proof. apply (sample_volmgr_ok (λ _, 0) false). lia. Qed.

(** The properties after the command that asks for half the volume. *)
#[local] Abbreviation sample_commanded :=
  (sp_props (st_world (feed_bytes (frame_bytes PY32_ADDR_HOST PY32_CMD_COMMON [50; 12; 14; 30]) sample_link))).

Lemma sample_commanded_items :
  pc_items (pm_cache sample_commanded) =
  mk_cache_item CFG_BTPLAY_VOLUME (Own (volume_text 11)) 3 true false false :: replicate 69 item_clear.
Proof. vm_compute. reflexivity. Qed.

Lemma sample_flush_fits :
  flush_fits (pc_world (pm_cache sample_commanded)) None ∅ (pc_items (pm_cache sample_commanded)).
Proof.
  rewrite sample_commanded_items. generalize (pc_world (pm_cache sample_commanded)). intros w.
  cbn [flush_fits]. change (flush_selects None _) with true. cbv iota.
  split; [right; by vm_compute|]. generalize (apply_item w ∅ (mk_cache_item CFG_BTPLAY_VOLUME (Own (volume_text 11)) 3 true false false)).
  intros mu. generalize 69%nat as n. intros n. induction n as [|n IH]; [done|]. exact IH.
Qed.

Lemma py32_volume_survives_restart_witness :
  ∃ p2 nv, property_flush None sample_commanded = Some (0, p2) ∧
    nvram_config_init true (power_on (nvram_flash (pw_nvram (pc_world (pm_cache p2))))) = Some (0, nv) ∧
    ∃ a, aduio_system_init (boot_audio nv (λ _, [])) = Some (0, a) ∧
      audio_system_get_stream_volume AUDIO_STREAM_MUSIC a = 11.
Proof.
  destruct (py32_volume_survives_restart 50 12 14 30 sample_link ∅ ∅ (link_init_wf _) eq_refl)
    as (p2 & nv & H1 & H2 & Hboot).
  - by_bytes.
  - by_bytes.
  - reflexivity.
  - unfold fresh. vm_compute. reflexivity.
  - exact sample_speaker_ok.
  - vm_compute. reflexivity.
  - exact sample_flush_fits.
  - exists p2, nv. split_and!; [exact H1|exact H2|].
    destruct (Hboot (λ _, [])) as (a & Ha & _ & Hv). exists a. split; [exact Ha|]. rewrite Hv. by vm_compute.
Defined.

Lemma property_set_get_int_witness :
  ∃ s', property_set_int CFG_BTPLAY_VOLUME (-42) sample_mgr = Some (0, s') ∧
    property_get_int CFG_BTPLAY_VOLUME 7 s' = Some (-42, s').
Proof.
  destruct (property_set_get_int sample_mgr ∅ ∅ CFG_BTPLAY_VOLUME (-42) sample_mgr_ok)
    as (s' & Hrun & _ & _ & Hget & _).
  - apply sample_slot.
  - apply volume_names_ok. by_decide.
  - reflexivity.
  - lia.
  - exists s'. split; [exact Hrun|apply Hget].
Defined.

Lemma audio_step_keeps_order_witness :
  ∃ ret s', audio_step (OpSetVolume AUDIO_STREAM_VOICE 9) sample_audio = Some (ret, s') ∧ audio_ok s'.
Proof. apply (audio_step_keeps_order (OpSetVolume AUDIO_STREAM_VOICE 9) sample_audio sample_audio_ok). Defined.

Lemma audio_system_set_get_volume_witness :
  ∃ s', audio_system_set_stream_volume AUDIO_STREAM_VOICE 40 sample_audio = Some (MAX_VOLUME_VALUE, s') ∧
    audio_system_get_stream_volume AUDIO_STREAM_VOICE s' = top_level 16 AUDIO_STREAM_VOICE.
Proof.
  destruct (audio_system_set_get_volume AUDIO_STREAM_VOICE 40 sample_audio sample_audio_ok) as (s' & Hrun & Hget & _).
  - discriminate.
  - exists s'. split; [exact Hrun|]. rewrite Hget. by vm_compute.
Defined.

Lemma system_volume_set_result_witness :
  ∃ s', system_volume_set AUDIO_STREAM_MUSIC 9 true (sample_volmgr audio_sys_clear true) = Some (9, s') ∧
    VolumeManager.system_volume_get AUDIO_STREAM_MUSIC s' = 9.
Proof.
  destruct (system_volume_set_result AUDIO_STREAM_MUSIC 9 true (sample_volmgr audio_sys_clear true))
    as (r & s' & Hrun & _ & Hget & Hr & _).
  - apply sample_volmgr_ok. lia.
  - discriminate.
  - exists s'. rewrite Hrun, Hr by (vm_compute; intuition discriminate). split; [done|]. rewrite Hget. by vm_compute.
Defined.

(** A cache whose seventy items are taken. *)
Definition full_item (i : nat) : cache_item := mk_cache_item [65; Z.of_nat i + 1] (Own [7]) 1 true false false.
Definition full_mgr : @pmgr (@pworld nor) :=
  mk_pmgr (mk_pcache (full_item <$> seq 0 70) sample_world) [] [].

Lemma full_items_lookup i it : (full_item <$> seq 0 70) !! i = Some it → it = full_item i ∧ (i < 70)%nat.
Proof. intros (j & -> & [-> Hj]%lookup_seq)%list_lookup_fmap_Some. done. Qed.

Lemma full_mgr_ok : mgr_ok full_mgr ∅ ∅.
Proof.
  split; [split|exact sample_stores|apply Forall_nil_2].
  - reflexivity.
  - intros i j a c n [-> _]%full_items_lookup [-> _]%full_items_lookup [= Ha] [= Hc].
    rewrite <- Ha in Hc. injection Hc. lia.
  - intros i it [-> Hi]%full_items_lookup _. split; [|cbn; lia|done| |split_and!; [done|done|cbn; lia]].
    + split; [repeat constructor; lia|cbn; lia].
    + repeat constructor; unfold is_u8; lia.
Qed.

Lemma property_set_full_cache_witness :
  ∃ s1 s2, property_set CFG_BTPLAY_VOLUME (Some (Local [30])) 1 full_mgr = Some (0, s1) ∧
    nvram_write_msg_callback s1 = Some s2 ∧
    prop_lookup s2 {[CFG_BTPLAY_VOLUME := [30]]} ∅ CFG_BTPLAY_VOLUME = Some [30].
Proof.
  destruct (property_set_full_cache full_mgr ∅ ∅ CFG_BTPLAY_VOLUME (Local [30]) 1 full_mgr_ok)
    as (s1 & s2 & Hset & _ & _ & _ & Hcb & _ & _ & Hl).
  - split; by vm_compute.
  - reflexivity.
  - reflexivity.
  - apply volume_names_ok. by_decide.
  - exact sample_buffer.
  - by vm_compute.
  - exists s1, s2. split_and!; [exact Hset|exact Hcb|].
    pose proof (Hl CFG_BTPLAY_VOLUME) as H. rewrite decide_True in H by done. exact H.
Defined.

Lemma property_set_int_array_overflow_witness :
  property_set_int_array CFG_BTPLAY_VOLUME [100000; 200000; 300000; 4] sample_mgr = None.
Proof.
  apply (property_set_int_array_overflow sample_mgr CFG_BTPLAY_VOLUME [100000; 200000; 300000] 4 []).
  - repeat constructor; lia.
  - vm_compute. lia.
Defined.

Lemma audio_system_get_current_volume_faults_witness :
  audio_system_get_current_volume AUDIO_STREAM_MUSIC sample_audio = None.
Proof.
  apply (audio_system_get_current_volume_faults AUDIO_STREAM_MUSIC sample_audio audio_sys_clear); [reflexivity|].
  apply list_elem_of_here.
Defined.
