(* ===== verification/I2cBitbang.v ===== *)
(** * The software I2C master

    drivers/i2c/i2c_bitbang_acts.c on the lines of drivers/i2c/i2c_gpio.c
    (CONFIG_I2C_GPIO_1: GPIO0 is SCL, GPIO19 is SDA), with the transfer
    functions of include/i2c.h on top.  The amplifier is the only device on the
    bus.

    The master is a function of the two lines, behind the class [I2cIo].  The
    other end of the wire is hardware: [bus] is an open-drain pair of lines with
    a slave that follows the I2C specification (UM10204) bit by bit, as START,
    STOP and clock edges reach it, and passes what it receives to a device
    behind the class [SlaveDev].  The slave does not stretch the clock. *)

From stdpp Require Import base numbers list option.
From S2P Require Import Prelude.
Local Open Scope Z_scope.

(** ** Lines and timing *)

(** What the master does to the lines ([struct i2c_bitbang_io]) and the busy
    wait. *)
Class I2cIo (W : Type) := {
  io_set_scl : bool → W → W;
  io_set_sda : bool → W → W;
  io_get_scl : W → bool;
  io_get_sda : W → bool;
  io_delay : Z → W → W;
}.

(** [NS_TO_SYS_CLOCK_HW_CYCLES]; [hz] is [CONFIG_SYS_CLOCK_HW_CYCLES_PER_SEC]. *)
Definition NS_TO_SYS_CLOCK_HW_CYCLES (hz ns : Z) : Z := hz * ns / 1000000000 + 1.

(** A delay table: [T_LOW] and [T_HIGH]; the other indices are aliases. *)
Record i2c_delays := mk_delays { T_LOW : Z; T_HIGH : Z }.
Definition T_SU_STA (d : i2c_delays) : Z := T_LOW d.
Definition T_HD_STA (d : i2c_delays) : Z := T_HIGH d.
Definition T_SU_STP (d : i2c_delays) : Z := T_HIGH d.
Definition T_BUF (d : i2c_delays) : Z := T_LOW d.

Definition delays_fast (hz : Z) : i2c_delays :=
  mk_delays (u32 (NS_TO_SYS_CLOCK_HW_CYCLES hz 1300)) (u32 (NS_TO_SYS_CLOCK_HW_CYCLES hz 600)).
Definition delays_standard (hz : Z) : i2c_delays :=
  mk_delays (u32 (NS_TO_SYS_CLOCK_HW_CYCLES hz 4700)) (u32 (NS_TO_SYS_CLOCK_HW_CYCLES hz 4000)).
Definition delays_scan_slow (hz : Z) : i2c_delays :=
  mk_delays (u32 (NS_TO_SYS_CLOCK_HW_CYCLES hz 100000)) (u32 (NS_TO_SYS_CLOCK_HW_CYCLES hz 100000)).

(** [union dev_config]: bit 0 is [use_10_bit_addr], bits 1 to 3 the speed, bit
    4 [is_master_device]. *)
Definition I2C_SPEED_STANDARD : Z := 1.
Definition I2C_SPEED_FAST : Z := 2.
Definition I2C_SPEED_ULTRA : Z := 5.
Definition cfg_use_10_bit_addr (raw : Z) : bool := Z.testbit raw 0.
Definition cfg_speed (raw : Z) : Z := Z.land (Z.shiftr raw 1) 7.
Definition mk_dev_config (speed : Z) (is_master : bool) : Z :=
  Z.lor (Z.shiftl speed 1) (if is_master then 16 else 0).

(** [i2c_bitbang_configure]: the result, and the table when it is changed. *)
Definition ENOTSUP : Z := 35.
Definition i2c_bitbang_configure (hz raw : Z) (d : i2c_delays) : Z * i2c_delays :=
  if cfg_use_10_bit_addr raw then (- ENOTSUP, d)
  else if cfg_speed raw =? I2C_SPEED_STANDARD then (0, delays_standard hz)
  else if cfg_speed raw =? I2C_SPEED_FAST then (0, delays_fast hz)
  else if cfg_speed raw =? I2C_SPEED_ULTRA then (0, delays_scan_slow hz)
  else (- ENOTSUP, d).

(** [i2c_bitbang_init] *)
Definition i2c_bitbang_init (hz : Z) : i2c_delays :=
  (i2c_bitbang_configure hz (mk_dev_config I2C_SPEED_STANDARD false) (mk_delays 0 0)).2.

(** ** The master *)

(** [struct i2c_msg]; the length is that of the buffer. *)
Record i2c_msg := mk_msg { msg_buf : list Z; msg_flags : Z }.
Definition I2C_MSG_WRITE : Z := 0.
Definition I2C_MSG_READ : Z := 1.
Definition I2C_MSG_RW_MASK : Z := 1.
Definition I2C_MSG_STOP : Z := 2.
Definition I2C_MSG_RESTART : Z := 4.
Definition has (flags bit : Z) : bool := negb (Z.land flags bit =? 0).

Section master.
Context {W : Type} `{!I2cIo W} (d : i2c_delays).
Implicit Types w : W.

(** [i2c_bus_arb]: up to twenty looks at the clock line. *)
Fixpoint bus_arb_loop (n : nat) (w : W) : bool * W :=
  match n with
  | O => (false, w)
  | S n => if io_get_scl w then (true, w) else bus_arb_loop n (io_delay (T_LOW d) w)
  end.
Definition i2c_bus_arb (w : W) : bool * W := bus_arb_loop 20 w.

(** [i2c_set_scl], [i2c_set_sda] *)
Definition i2c_set_scl (state : bool) (w : W) : W :=
  let w := io_set_scl state w in
  if state then (i2c_bus_arb w).2 else w.
Definition i2c_set_sda (state : bool) (w : W) : W := io_set_sda state w.

(** [i2c_start], [i2c_repeated_start], [i2c_stop] *)
Definition i2c_start (w : W) : W :=
  let w := i2c_set_sda false w in
  let w := io_delay (T_HD_STA d) w in
  i2c_set_scl false w.
Definition i2c_repeated_start (w : W) : W :=
  let w := i2c_set_sda true w in
  let w := i2c_set_scl true w in
  let w := io_delay (T_SU_STA d) w in
  i2c_start w.
Definition i2c_stop (w : W) : W :=
  let w := i2c_set_sda false w in
  let w := i2c_set_scl true w in
  let w := io_delay (T_SU_STP d) w in
  let w := i2c_set_sda true w in
  io_delay (T_BUF d) w.

(** [i2c_write_bit], [i2c_read_bit] *)
Definition i2c_write_bit (bit : bool) (w : W) : W :=
  let w := i2c_set_sda bit w in
  let w := io_delay (T_LOW d) w in
  let w := i2c_set_scl true w in
  let w := io_delay (T_HIGH d) w in
  i2c_set_scl false w.
Definition i2c_read_bit (w : W) : bool * W :=
  let w := i2c_set_scl true w in
  let w := io_delay (T_HIGH d) w in
  let bit := io_get_sda w in
  let w := i2c_set_scl false w in
  (bit, io_delay (T_LOW d) w).

(** [i2c_write_byte]: [true] for an ACK.  The mask runs from bit 7 down and is
    zero after eight rounds. *)
Fixpoint write_byte_loop (n : nat) (byte mask : Z) (w : W) : W :=
  match n with
  | O => w
  | S n =>
      let w := i2c_write_bit (negb (Z.land byte mask =? 0)) w in
      let mask := Z.shiftr mask 1 in
      if mask =? 0 then w else write_byte_loop n byte mask w
  end.
Definition i2c_write_byte (byte : Z) (w : W) : bool * W :=
  let w := write_byte_loop 8 byte (Z.shiftl 1 7) w in
  let w := i2c_set_sda true w in
  let w := io_delay (T_LOW d) w in
  let '(bit, w) := i2c_read_bit w in
  (negb bit, w).

(** [i2c_read_byte]: the leading 1 reaches bit 8 after eight rounds. *)
Fixpoint read_byte_loop (n : nat) (byte : Z) (w : W) : Z * W :=
  match n with
  | O => (byte, w)
  | S n =>
      let byte := Z.shiftl byte 1 in
      let '(bit, w) := i2c_read_bit w in
      let byte := Z.lor byte (Z.b2z bit) in
      if negb (Z.land byte (Z.shiftl 1 8) =? 0) then (byte, w) else read_byte_loop n byte w
  end.
Definition i2c_read_byte (w : W) : Z * W :=
  let w := i2c_set_sda true w in
  let '(byte, w) := read_byte_loop 8 1 w in
  (u8 byte, w).

(** The two data loops of [i2c_bitbang_transfer]. *)
Fixpoint read_loop (n : nat) (w : W) : list Z * W :=
  match n with
  | O => ([], w)
  | S n =>
      let '(b, w) := i2c_read_byte w in
      let w := i2c_write_bit (bool_decide (n = 0%nat)) w in
      let '(bs, w) := read_loop n w in
      (b :: bs, w)
  end.
Fixpoint write_loop (bs : list Z) (w : W) : bool * W :=
  match bs with
  | [] => (true, w)
  | b :: bs =>
      let '(ack, w) := i2c_write_byte b w in
      if ack then write_loop bs w else (false, w)
  end.

(** One round of the message loop up to its data; [false]: no ACK. *)
Definition msg_address (slave_address flags : Z) (w : W) : bool * Z * W :=
  if has flags I2C_MSG_RESTART then
    let byte0 := Z.lor (u32 (Z.shiftl slave_address 1)) (Z.b2z (Z.land flags I2C_MSG_RW_MASK =? I2C_MSG_READ)) in
    let '(ack, w) := i2c_write_byte (u8 byte0) w in
    (ack, Z.land flags (Z.lnot I2C_MSG_RESTART), w)
  else (true, flags, w).
Fixpoint transfer_loop (msgs : list i2c_msg) (slave_address flags : Z) (w : W) : Z * list i2c_msg * W :=
  match msgs with
  | [] => (0, [], w)
  | m :: ms =>
      let w := if has flags I2C_MSG_STOP then i2c_stop w else w in
      let flags := Z.land flags I2C_MSG_RESTART in
      let w := if has flags I2C_MSG_RESTART then i2c_start w
               else if has (msg_flags m) I2C_MSG_RESTART then i2c_repeated_start w else w in
      let flags := Z.lor flags (msg_flags m) in
      let '(ack, flags, w) := msg_address slave_address flags w in
      if negb ack then (- EIO, m :: ms, w)
      else if Z.land flags I2C_MSG_RW_MASK =? I2C_MSG_READ then
        let '(bs, w) := read_loop (length (msg_buf m)) w in
        let '(r, ms, w) := transfer_loop ms slave_address flags w in
        (r, mk_msg bs (msg_flags m) :: ms, w)
      else
        let '(ack, w) := write_loop (msg_buf m) w in
        if negb ack then (- EIO, m :: ms, w)
        else
          let '(r, ms, w) := transfer_loop ms slave_address flags w in
          (r, m :: ms, w)
  end.

(** [i2c_bitbang_transfer] *)
Definition i2c_bitbang_transfer (msgs : list i2c_msg) (slave_address : Z) (w : W) : Z * list i2c_msg * W :=
  match msgs with
  | [] => (0, [], w)
  | _ =>
      let flags := I2C_MSG_RESTART in
      let w := i2c_set_scl true w in
      let flags := Z.lor flags I2C_MSG_STOP in
      let '(result, msgs, w) := transfer_loop msgs slave_address flags w in
      (result, msgs, i2c_stop w)
  end.
End master.

(** ** The I2C driver interface *)

(** [struct i2c_driver_api] *)
Class I2cDrv (W : Type) := {
  i2c_transfer : list i2c_msg → Z → W → Z * list i2c_msg * W;
  i2c_configure : Z → W → Z * W;
}.

Section api.
Context {W : Type} `{!I2cDrv W}.

(** The buffer of a message after a transfer. *)
Definition buf_of (msgs : list i2c_msg) (i : nat) : list Z := default [] (msg_buf <$> msgs !! i).

(** [i2c_write] *)
Definition i2c_write (buf : list Z) (addr : Z) (w : W) : Z * W :=
  let '(r, _, w) := i2c_transfer [mk_msg buf (Z.lor I2C_MSG_WRITE I2C_MSG_STOP)] addr w in (r, w).

(** [i2c_burst_read]: [buf] is the caller's buffer, of the length to read. *)
Definition i2c_burst_read (dev_addr start_addr : Z) (buf : list Z) (w : W) : Z * list Z * W :=
  let '(r, msgs, w) := i2c_transfer
    [mk_msg [start_addr] I2C_MSG_WRITE; mk_msg buf (Z.lor (Z.lor I2C_MSG_RESTART I2C_MSG_READ) I2C_MSG_STOP)]
    dev_addr w in
  (r, buf_of msgs 1, w).

(** [i2c_reg_read_byte]: the result and the caller's variable. *)
Definition i2c_reg_read_byte (dev_addr reg_addr value : Z) (w : W) : Z * Z * W :=
  let '(r, buf, w) := i2c_burst_read dev_addr reg_addr [value] w in (r, default 0 (head buf), w).
End api.

(** ** The other end of the wire *)

(** A device as its slave interface sees it: its 7-bit address, the start of
    a read ([true]) or a write after its address, a byte received (and whether
    it is acknowledged), a byte to send. *)
Class SlaveDev (D : Type) := {
  sl_address : Z;
  sl_begin : bool → D → D;
  sl_rx : Z → D → bool * D;
  sl_tx : D → Z * D;
}.
Arguments sl_address _ {_}.

(** The slave: not addressed; shifting in the [k]-th bit of the address or of a
    data byte; holding its acknowledge, with the direction that follows; sending,
    [k] bits being on the wire or sent; waiting for the master's acknowledge;
    having got it. *)
Inductive slave :=
  | SlIdle
  | SlShift (address : bool) (k : nat) (acc : Z)
  | SlAcking (read : bool)
  | SlSend (k : nat) (byte : Z)
  | SlWaitAck
  | SlGotAck.

Section slave.
Context {D : Type} `{!SlaveDev D}.

(** The lines: what the master and the slave let go ([true]) or pull low. *)
Record bus := mk_bus {
  b_scl : bool;
  b_sda : bool;
  b_slave_sda : bool;
  b_state : slave;
  b_dev : D;
}.
Definition sda_level (b : bus) : bool := b_sda b && b_slave_sda b.

Definition byte_bit (byte : Z) (k : nat) : bool := Z.testbit byte (7 - Z.of_nat k).

(** The slave drives the first bit of a new byte. *)
Definition load_byte (dev : D) : bool * slave * D :=
  let '(byte, dev) := sl_tx dev in (byte_bit byte 0, SlSend 1 byte, dev).

(** A rising clock edge: the line is sampled. *)
Definition on_rise (level : bool) (st : slave) : slave :=
  match st with
  | SlShift a k acc => SlShift a (S k) (2 * acc + Z.b2z level)
  | SlWaitAck => if level then SlIdle else SlGotAck
  | _ => st
  end.

(** A falling edge: the slave's line, its next state, the device. *)
Definition on_fall (sda : bool) (st : slave) (dev : D) : bool * slave * D :=
  match st with
  | SlShift true 8 acc =>
      if acc / 2 =? sl_address D then
        (false, SlAcking (negb (acc mod 2 =? 0)), sl_begin (negb (acc mod 2 =? 0)) dev)
      else (true, SlIdle, dev)
  | SlShift false 8 acc =>
      let '(ack, dev) := sl_rx acc dev in
      (negb ack, if ack then SlAcking false else SlIdle, dev)
  | SlAcking false => (true, SlShift false 0 0, dev)
  | SlAcking true => load_byte dev
  | SlSend 8 byte => (true, SlWaitAck, dev)
  | SlSend k byte => (byte_bit byte k, SlSend (S k) byte, dev)
  | SlGotAck => load_byte dev
  | SlIdle => (true, SlIdle, dev)
  | SlShift _ _ _ | SlWaitAck => (sda, st, dev)
  end.

Definition bus_set_scl (v : bool) (b : bus) : bus :=
  match b_scl b, v with
  | false, true => mk_bus true (b_sda b) (b_slave_sda b) (on_rise (sda_level b) (b_state b)) (b_dev b)
  | true, false =>
      let '(s, st, dev) := on_fall (b_slave_sda b) (b_state b) (b_dev b) in
      mk_bus false (b_sda b) s st dev
  | _, _ => b
  end.

(** A change of the data line while the clock is high is a START or a STOP. *)
Definition bus_set_sda (v : bool) (b : bus) : bus :=
  let b' := mk_bus (b_scl b) v (b_slave_sda b) (b_state b) (b_dev b) in
  if b_scl b then
    match sda_level b, sda_level b' with
    | true, false => mk_bus (b_scl b) v true (SlShift true 0 0) (b_dev b)
    | false, true => mk_bus (b_scl b) v true SlIdle (b_dev b)
    | _, _ => b'
    end
  else b'.

#[export] Instance bus_io : I2cIo bus := {
  io_set_scl := bus_set_scl;
  io_set_sda := bus_set_sda;
  io_get_scl := b_scl;
  io_get_sda := sda_level;
  io_delay := λ _ b, b;
}.

(** Nothing is under way and both lines are high. *)
Definition bus_idle (dev : D) : bus := mk_bus true true true SlIdle dev.

(** ** Transfers as the device should see them *)

Fixpoint dev_write (bs : list Z) (dev : D) : bool * D :=
  match bs with
  | [] => (true, dev)
  | b :: bs => let '(ack, dev) := sl_rx b dev in if ack then dev_write bs dev else (false, dev)
  end.
Fixpoint dev_read (n : nat) (dev : D) : list Z * D :=
  match n with
  | O => ([], dev)
  | S n => let '(b, dev) := sl_tx dev in let '(bs, dev) := dev_read n dev in (b :: bs, dev)
  end.

Definition is_read (m : i2c_msg) : bool := Z.land (msg_flags m) I2C_MSG_RW_MASK =? I2C_MSG_READ.

(** A message with an address in front, and one that goes on writing. *)
Definition dev_data (m : i2c_msg) (dev : D) : option (list Z) * D :=
  if is_read m then let '(bs, dev) := dev_read (length (msg_buf m)) dev in (Some bs, dev)
  else let '(ack, dev) := dev_write (msg_buf m) dev in (if ack then Some (msg_buf m) else None, dev).
Definition dev_msg (addressed : bool) (address : Z) (m : i2c_msg) (dev : D) : option (list Z) * D :=
  if addressed then
    if address =? sl_address D then dev_data m (sl_begin (is_read m) dev) else (None, dev)
  else dev_data m dev.
Fixpoint dev_transfer (first : bool) (msgs : list i2c_msg) (address : Z) (dev : D) : Z * list i2c_msg * D :=
  match msgs with
  | [] => (0, [], dev)
  | m :: ms =>
      match dev_msg (first || has (msg_flags m) I2C_MSG_RESTART) address m dev with
      | (None, dev) => (- EIO, m :: ms, dev)
      | (Some bs, dev) =>
          let '(r, ms, dev) := dev_transfer false ms address dev in
          (r, mk_msg bs (msg_flags m) :: ms, dev)
      end
  end.
End slave.
Arguments bus : clear implicits.

(** What callers send: bytes; nothing read without a byte; STOP only on the last
    message; no message that goes on reading. *)
Definition msg_ok (first : bool) (after_read : bool) (m : i2c_msg) (ms : list i2c_msg) : Prop :=
  bytes_ok (msg_buf m) ∧ 0 <= msg_flags m < 8 ∧
  (is_read m = true → msg_buf m ≠ []) ∧
  (has (msg_flags m) I2C_MSG_STOP = true → ms = []) ∧
  (first = true ∨ has (msg_flags m) I2C_MSG_RESTART = true ∨ (after_read = false ∧ is_read m = false)).
Fixpoint msgs_ok (first after_read : bool) (msgs : list i2c_msg) : Prop :=
  match msgs with
  | [] => True
  | m :: ms => msg_ok first after_read m ms ∧ msgs_ok false (is_read m) ms
  end.

(** ** The master drives the slave *)

(** The bits of a byte, most significant first, shifted in and shifted out. *)
Definition shift_in (bits : list bool) (acc : Z) : Z := foldl (λ a (b : bool), 2 * a + Z.b2z b) acc bits.
Definition bits_of (byte : Z) : list bool := byte_bit byte <$> seq 0 8.

Lemma shift_in_bits byte : is_u8 byte → shift_in (bits_of byte) 0 = byte.
Proof.
  intros Hb. assert (Hall : Forall (λ n, shift_in (bits_of (Z.of_nat n)) 0 = Z.of_nat n) (seq 0 256)).
  { apply (bool_decide_unpack _). by vm_compute. }
  rewrite Forall_forall in Hall. specialize (Hall (Z.to_nat byte)).
  rewrite Z2Nat.id in Hall by (unfold is_u8 in Hb; lia). apply Hall.
  apply in_seq. unfold is_u8 in Hb. lia.
Qed.

(** The test of a mask is the bit. *)
Lemma land_pow2_bit z n : 0 <= n → negb (Z.land z (2 ^ n) =? 0) = Z.testbit z n.
Proof.
  intros Hn. destruct (Z.testbit z n) eqn:E.
  - destruct (Z.eqb_spec (Z.land z (2 ^ n)) 0) as [H0|]; [|done].
    apply (f_equal (λ x, Z.testbit x n)) in H0.
    by rewrite Z.land_spec, E, Z.pow2_bits_true, Z.bits_0 in H0 by lia.
  - rewrite (proj2 (Z.eqb_eq _ 0)); [done|]. apply Z.bits_inj'. intros i Hi.
    rewrite Z.land_spec, Z.pow2_bits_eqb, Z.bits_0 by lia.
    destruct (Z.eqb_spec n i) as [<-|]; [by rewrite E|apply andb_false_r].
Qed.

Lemma mask_bit byte (k : nat) :
  (k < 8)%nat → negb (Z.land byte (Z.shiftr 128 (Z.of_nat k)) =? 0) = byte_bit byte k.
Proof.
  intros Hk. unfold byte_bit. rewrite <- land_pow2_bit by lia.
  do 8 (destruct k as [|k]; [done|]). lia.
Qed.

Lemma bit8_test z : 0 <= z < 512 → negb (Z.land z 256 =? 0) = (256 <=? z).
Proof.
  intros Hz. rewrite (land_pow2_bit z 8 ltac:(lia) : negb (Z.land z 256 =? 0) = _).
  pose proof (Z.testbit_spec' z 8 ltac:(lia)) as Hb. change (2 ^ 8) with 256 in Hb.
  destruct (Z.testbit z 8), (Z.leb_spec 256 z); cbn [Z.b2z] in Hb; try done; exfalso; dlia.
Qed.

Section wire.
Context {D : Type} `{!SlaveDev D} (d : i2c_delays).
Hypothesis tx_byte : ∀ dev : D, is_u8 (sl_tx dev).1.
Implicit Types (dev : D) (b : bus D).

(** Between bytes: the clock is low and the slave lets the data line go. *)
Definition mid (sda : bool) (st : slave) (dev : D) : bus D := mk_bus false sda true st dev.

Lemma start_ok dev : i2c_start d (bus_idle dev) = mid false (SlShift true 0 0) dev.
Proof. done. Qed.
Lemma stop_idle_ok dev : i2c_stop d (bus_idle dev) = bus_idle dev.
Proof. done. Qed.
Lemma stop_ok sda st dev : i2c_stop d (mid sda st dev) = bus_idle dev.
Proof. done. Qed.
Lemma repeated_start_ok sda st dev : i2c_repeated_start d (mid sda st dev) = mid false (SlShift true 0 0) dev.
Proof. done. Qed.

(** A bit that does not complete a byte. *)
Lemma write_bit_shift sda a (k : nat) acc bit dev :
  (k < 7)%nat →
  i2c_write_bit d bit (mid sda (SlShift a k acc) dev) = mid bit (SlShift a (S k) (2 * acc + Z.b2z bit)) dev.
Proof.
  intros Hk. unfold i2c_write_bit, i2c_set_sda, i2c_set_scl, mid. cbn.
  unfold sda_level, bus_set_scl. cbn. rewrite andb_true_r.
  do 7 (destruct k as [|k]; [by destruct a|]). lia.
Qed.

(** Eight bits bring the slave to its decision. *)
Lemma write_bits sda a byte dev :
  is_u8 byte →
  write_byte_loop d 8 byte 128 (mid sda (SlShift a 0 0) dev) =
  let '(s, st, dev') := on_fall true (SlShift a 8 byte) dev in mk_bus false (byte_bit byte 7) s st dev'.
Proof.
  intros Hb. cbn [write_byte_loop].
  rewrite (mask_bit byte 0 ltac:(lia) : negb (Z.land byte 128 =? 0) = _).
  change (Z.shiftr 128 1) with (Z.shiftr 128 (Z.of_nat 1)).
  repeat match goal with |- context [Z.shiftr (Z.shiftr 128 (Z.of_nat ?k)) 1] =>
    change (Z.shiftr (Z.shiftr 128 (Z.of_nat k)) 1) with (Z.shiftr 128 (Z.of_nat (S k))) end.
  rewrite !mask_bit by lia. cbn [Z.eqb Z.shiftr Z.shiftl Z.opp Z.of_nat Pos.of_succ_nat Pos.succ Pos.iter Z.div2 Pos.div2].
  rewrite !write_bit_shift by lia.
  unfold i2c_write_bit, i2c_set_sda, i2c_set_scl, mid. cbn -[on_fall byte_bit Z.mul Z.add].
  unfold sda_level, bus_set_scl. cbn -[on_fall byte_bit Z.mul Z.add]. rewrite andb_true_r.
  replace (2 * _ + Z.b2z (byte_bit byte 7)) with byte; [done|].
  symmetry. exact (shift_in_bits byte Hb).
Qed.

(** A data byte, and the address byte, with their acknowledge. *)
Lemma write_data_ok sda byte dev :
  is_u8 byte →
  i2c_write_byte d byte (mid sda (SlShift false 0 0) dev) =
  let '(ack, dev') := sl_rx byte dev in (ack, mid true (if ack : bool then SlShift false 0 0 else SlIdle) dev').
Proof.
  intros Hb. unfold i2c_write_byte. change (Z.shiftl 1 7) with 128. rewrite write_bits by done.
  cbn [on_fall]. destruct (sl_rx byte dev) as [[|] dev'] eqn:E; reflexivity.
Qed.

(** The slave that sends: the first bit of the byte is on the line. *)
Definition sending (sda : bool) (dev : D) : bus D :=
  let '(s, st, dev') := load_byte dev in mk_bus false sda s st dev'.

Lemma write_address_ok sda (addr : Z) (rw : bool) dev :
  0 <= addr < 128 →
  i2c_write_byte d (2 * addr + Z.b2z rw) (mid sda (SlShift true 0 0) dev) =
  if addr =? sl_address D then
    (true, if rw then sending true (sl_begin true dev) else mid true (SlShift false 0 0) (sl_begin false dev))
  else (false, mid true SlIdle dev).
Proof.
  intros Ha. unfold i2c_write_byte. change (Z.shiftl 1 7) with 128.
  rewrite write_bits by (destruct rw; cbn [Z.b2z]; unfold is_u8; lia).
  cbn [on_fall].
  replace ((2 * addr + Z.b2z rw) / 2) with addr by (destruct rw; cbn [Z.b2z]; dlia).
  replace (negb ((2 * addr + Z.b2z rw) mod 2 =? 0)) with rw
    by (destruct rw; cbn [Z.b2z]; zbool; cbn; [exfalso; dlia|done..|exfalso; dlia]).
  destruct (addr =? sl_address D); [|done]. unfold sending. destruct rw; [|done].
  unfold i2c_set_sda, i2c_read_bit, i2c_set_scl. cbn -[load_byte].
  by destruct (load_byte _) as [[s st] dev'].
Qed.

(** Reading the bits of a byte. *)
Lemma read_bit_send sda byte (k : nat) dev :
  (0 < k <= 8)%nat →
  i2c_read_bit d (mk_bus false true sda (SlSend k byte) dev) =
  (sda, if decide (k = 8%nat) then mid true SlWaitAck dev
        else mk_bus false true (byte_bit byte k) (SlSend (S k) byte) dev).
Proof.
  intros Hk. unfold i2c_read_bit, i2c_set_scl, mid. destruct k as [|k]; [lia|].
  do 8 (destruct k as [|k]; [done|]). lia.
Qed.

Lemma read_loop_go (n : nat) acc bit w w' :
  0 < acc → i2c_read_bit d w = (bit, w') →
  read_byte_loop d (S n) acc w =
  let acc := 2 * acc + Z.b2z bit in
  if negb (Z.land acc 256 =? 0) then (acc, w') else read_byte_loop d n acc w'.
Proof.
  intros Ha Hr. cbn [read_byte_loop]. rewrite Hr.
  replace (Z.lor (Z.shiftl acc 1) (Z.b2z bit)) with (2 * acc + Z.b2z bit); [done|].
  rewrite Z.shiftl_mul_pow2 by lia. rewrite (Z.mul_comm acc).
  destruct bit; cbn [Z.b2z]; [|by rewrite Z.lor_0_r, Z.add_0_r].
  apply Z.bits_inj'. intros i Hi. change (2 ^ 1) with 2.
  destruct (decide (i = 0)) as [->|].
  - by rewrite Z.lor_spec, orb_comm, Z.testbit_odd_0.
  - replace i with (Z.succ (i - 1)) by lia.
    rewrite Z.testbit_odd_succ, Z.lor_spec, Z.testbit_even_succ by lia.
    by rewrite (testbit_bounded 1 1), orb_false_r by lia.
Qed.

(** Eight bits read are the byte that is sent. *)
Lemma read_byte_ok sda byte dev :
  is_u8 byte →
  i2c_read_byte d (mk_bus false sda (byte_bit byte 0) (SlSend 1 byte) dev) = (byte, mid true SlWaitAck dev).
Proof.
  intros Hb. unfold i2c_read_byte. change (i2c_set_sda true _)
    with (mk_bus false true (byte_bit byte 0) (SlSend 1 byte) dev).
  assert (Hin : shift_in (bits_of byte) 0 = byte) by (by apply shift_in_bits).
  unfold shift_in, bits_of in Hin. cbn [seq fmap list_fmap foldl] in Hin.
  assert (Hbits : ∀ j, 0 <= Z.b2z (byte_bit byte j) <= 1) by (intros j; destruct (byte_bit byte j); cbn; lia).
  pose proof (Hbits 0%nat); pose proof (Hbits 1%nat); pose proof (Hbits 2%nat); pose proof (Hbits 3%nat).
  pose proof (Hbits 4%nat); pose proof (Hbits 5%nat); pose proof (Hbits 6%nat); pose proof (Hbits 7%nat).
  do 7 (erewrite read_loop_go; [|lia|apply read_bit_send; lia]; cbv zeta;
        rewrite bit8_test, (proj2 (Z.leb_gt _ _)), decide_False by lia).
  erewrite read_loop_go; [|lia|apply read_bit_send; lia]. cbv zeta.
  rewrite bit8_test, (proj2 (Z.leb_le _ _)), decide_True by lia.
  f_equal. unfold is_u8 in Hb. dlia.
Qed.

(** The master's acknowledge. *)
Lemma ack_ok sda dev : i2c_write_bit d false (mid sda SlWaitAck dev) = sending false dev.
Proof. unfold sending. cbn -[load_byte]. by destruct (load_byte dev) as [[s st] dev']. Qed.
Lemma nack_ok sda dev : i2c_write_bit d true (mid sda SlWaitAck dev) = mid true SlIdle dev.
Proof. done. Qed.

(** The data of a message. *)
Lemma read_loop_ok n : ∀ sda dev,
  read_loop d (S n) (sending sda dev) =
  let '(bs, dev') := dev_read (S n) dev in (bs, mid true SlIdle dev').
Proof.
  induction n as [|n IH]; intros sda dev; pose proof (tx_byte dev) as Hb;
    unfold sending, load_byte; cbn [read_loop dev_read]; destruct (sl_tx dev) as [byte dev1]; cbn [fst] in Hb;
    rewrite read_byte_ok by done.
  - by rewrite bool_decide_eq_true_2, nack_ok by done.
  - rewrite bool_decide_eq_false_2, ack_ok by done.
    specialize (IH false dev1). cbn [read_loop] in IH. rewrite IH.
    cbn [dev_read]. destruct (sl_tx dev1) as [b2 dev2]. by destruct (dev_read n dev2).
Qed.

Lemma write_loop_ok bs : ∀ sda dev,
  bytes_ok bs →
  write_loop d bs (mid sda (SlShift false 0 0) dev) =
  let '(ack, dev') := dev_write bs dev in
  (ack, mid (bool_decide (bs ≠ []) || sda) (if ack : bool then SlShift false 0 0 else SlIdle) dev').
Proof.
  induction bs as [|byte bs IH]; intros sda dev Hbs; [done|]. apply Forall_cons_iff in Hbs as [Hb Hbs].
  cbn [write_loop dev_write]. rewrite write_data_ok by done. destruct (sl_rx byte dev) as [[|] dev']; [|done].
  rewrite IH by done. rewrite orb_true_r. by destruct (dev_write bs dev').
Qed.
End wire.

(** ** Transfers reach the device *)

Section transfer.
Context {D : Type} `{!SlaveDev D} (d : i2c_delays).
Hypothesis tx_byte : ∀ dev : D, is_u8 (sl_tx dev).1.
Implicit Types (dev : D).

(** Flags after the address phase. *)
Definition data_flags (m : i2c_msg) : Z := Z.land (msg_flags m) 3.

Lemma flags_small f : 0 <= f < 8 → f ∈ [0; 1; 2; 3; 4; 5; 6; 7].
Proof.
  intros. assert (f = 0 ∨ f = 1 ∨ f = 2 ∨ f = 3 ∨ f = 4 ∨ f = 5 ∨ f = 6 ∨ f = 7) as Hf by lia.
  rewrite !elem_of_cons. tauto.
Qed.
Ltac flag_cases H := apply flags_small in H; rewrite !elem_of_cons in H;
  destruct H as [->|[->|[->|[->|[->|[->|[->|[->|H]]]]]]]]; [..|by apply elem_of_nil in H].

Lemma restart_flags f :
  0 <= f < 8 → if has f I2C_MSG_RESTART then Z.lor I2C_MSG_RESTART f = f else Z.land f 3 = f.
Proof. intros Hf. flag_cases Hf; done. Qed.

(** An address byte in front of the data. *)
Lemma msg_address_ok sda m addr dev :
  0 <= addr < 128 → 0 <= msg_flags m < 8 →
  msg_address d addr (Z.lor I2C_MSG_RESTART (msg_flags m)) (mid sda (SlShift true 0 0) dev) =
  if addr =? sl_address D then
    (true, data_flags m,
     if is_read m then sending true (sl_begin true dev) else mid true (SlShift false 0 0) (sl_begin false dev))
  else (false, data_flags m, mid true SlIdle dev).
Proof.
  intros Ha Hf. unfold msg_address, data_flags, is_read.
  assert (Hbyte : ∀ r : bool, u8 (Z.lor (u32 (Z.shiftl addr 1)) (Z.b2z r)) = 2 * addr + Z.b2z r).
  { intros r. rewrite Z.shiftl_mul_pow2, u32_id by lia. change (2 ^ 1) with 2.
    assert (Z.lor (addr * 2) (Z.b2z r) = 2 * addr + Z.b2z r) as ->; [|unfold u8; rewrite Z.mod_small; destruct r; cbn; lia].
    rewrite Z.mul_comm, <- Z.add_lor_land. replace (Z.land (2 * addr) (Z.b2z r)) with 0; [lia|].
    symmetry. apply Z.bits_inj'. intros i Hi. rewrite Z.land_spec, Z.bits_0.
    destruct (decide (i = 0)) as [->|]; [by rewrite Z.testbit_even_0|].
    destruct r; cbn [Z.b2z]; [|by rewrite Z.bits_0, andb_false_r].
    by rewrite (testbit_bounded 1 1), andb_false_r by lia. }
  rewrite Hbyte. flag_cases Hf; cbn [has Z.land Z.lor Pos.land Pos.lor Z.eqb Pos.eqb negb I2C_MSG_RESTART I2C_MSG_RW_MASK I2C_MSG_READ];
    rewrite write_address_ok by done; by destruct (addr =? sl_address D).
Qed.

(** A round of the message loop behind the address phase. *)
Definition round (m : i2c_msg) (ms : list i2c_msg) (addr : Z) (r : bool * Z * bus D) : Z * list i2c_msg * bus D :=
  let '(ack, flags, w) := r in
  if negb ack then (- EIO, m :: ms, w)
  else if Z.land flags I2C_MSG_RW_MASK =? I2C_MSG_READ then
    let '(bs, w) := read_loop d (length (msg_buf m)) w in
    let '(r, ms, w) := transfer_loop d ms addr flags w in
    (r, mk_msg bs (msg_flags m) :: ms, w)
  else
    let '(ack, w) := write_loop d (msg_buf m) w in
    if negb ack then (- EIO, m :: ms, w)
    else let '(r, ms, w) := transfer_loop d ms addr flags w in (r, m :: ms, w).

(** What holds of the rest of a transfer, with the clock low. *)
Definition rest_ok (addr : Z) (after_read : bool) (ms : list i2c_msg) : Prop :=
  ∀ flags sda st dev,
    0 <= flags < 4 → (has flags I2C_MSG_STOP = true → ms = []) →
    (after_read = false → st = SlShift false 0 0) →
    ∃ sda' st', transfer_loop d ms addr flags (mid sda st dev) =
      let '(r, ms', dev') := dev_transfer false ms addr dev in (r, ms', mid sda' st' dev').

Lemma data_flags_read m : (Z.land (data_flags m) I2C_MSG_RW_MASK =? I2C_MSG_READ) = is_read m.
Proof. unfold data_flags, is_read, I2C_MSG_RW_MASK. by rewrite <- Z.land_assoc. Qed.
Lemma data_flags_stop m : has (data_flags m) I2C_MSG_STOP = has (msg_flags m) I2C_MSG_STOP.
Proof. unfold data_flags, has, I2C_MSG_STOP. by rewrite <- Z.land_assoc. Qed.
Lemma data_flags_range m : 0 <= data_flags m < 4.
Proof.
  unfold data_flags. change 3 with (Z.ones 2). rewrite Z.land_ones by lia. apply Z.mod_pos_bound. done.
Qed.

(** The data of a message and what follows. *)
Lemma round_data_ok m ms addr flags sda dev :
  bytes_ok (msg_buf m) → (is_read m = true → msg_buf m ≠ []) →
  (has (msg_flags m) I2C_MSG_STOP = true → ms = []) → rest_ok addr (is_read m) ms →
  0 <= flags < 4 → flags = data_flags m →
  ∃ sda' st', round m ms addr
      (true, flags, if is_read m then sending sda dev else mid sda (SlShift false 0 0) dev) =
    match dev_data m dev with
    | (None, dev') => (- EIO, m :: ms, mid sda' st' dev')
    | (Some bs, dev') =>
        let '(r, ms', dev'') := dev_transfer false ms addr dev' in
        (r, mk_msg bs (msg_flags m) :: ms', mid sda' st' dev'')
    end.
Proof.
  intros Hb Hne Hstop Hrest Hf ->. unfold round, dev_data. cbn [negb]. rewrite data_flags_read.
  rewrite <- (data_flags_stop m) in Hstop.
  destruct (is_read m) eqn:Er.
  - destruct (msg_buf m) as [|b0 bs0] eqn:Ebuf; [by destruct Hne|]. cbn [length].
    rewrite (read_loop_ok d tx_byte). destruct (dev_read _ dev) as [bs dev'].
    destruct (Hrest (data_flags m) true SlIdle dev' Hf Hstop ltac:(done)) as (sda' & st' & ->).
    exists sda', st'. by destruct (dev_transfer false ms addr dev') as [[r ms'] dev''].
  - rewrite write_loop_ok by done. destruct (dev_write (msg_buf m) dev) as [[|] dev']; cbn [negb]; [|eauto].
    destruct (Hrest (data_flags m) (bool_decide (msg_buf m ≠ []) || sda) (SlShift false 0 0) dev' Hf Hstop
                ltac:(done)) as (sda' & st' & ->).
    exists sda', st'. destruct (dev_transfer false ms addr dev') as [[r ms'] dev'']. by destruct m.
Qed.

Lemma round_addressed_ok m ms addr sda dev :
  0 <= addr < 128 → bytes_ok (msg_buf m) → 0 <= msg_flags m < 8 → (is_read m = true → msg_buf m ≠ []) →
  (has (msg_flags m) I2C_MSG_STOP = true → ms = []) → rest_ok addr (is_read m) ms →
  ∃ sda' st', round m ms addr
      (msg_address d addr (Z.lor I2C_MSG_RESTART (msg_flags m)) (mid sda (SlShift true 0 0) dev)) =
    match dev_msg true addr m dev with
    | (None, dev') => (- EIO, m :: ms, mid sda' st' dev')
    | (Some bs, dev') =>
        let '(r, ms', dev'') := dev_transfer false ms addr dev' in
        (r, mk_msg bs (msg_flags m) :: ms', mid sda' st' dev'')
    end.
Proof.
  intros Ha Hb Hf Hne Hstop Hrest. rewrite msg_address_ok by done. unfold dev_msg.
  destruct (addr =? sl_address D); [|by eexists _, _].
  destruct (round_data_ok m ms addr (data_flags m) true (sl_begin (is_read m) dev) Hb Hne Hstop Hrest
              (data_flags_range m) eq_refl) as (sda' & st' & Hr).
  exists sda', st'. rewrite <- Hr. by destruct (is_read m).
Qed.

Lemma transfer_rest_ok addr ms : ∀ after_read,
  0 <= addr < 128 → msgs_ok false after_read ms → rest_ok addr after_read ms.
Proof.
  induction ms as [|m ms IH]; intros after Ha Hms flags sda st dev Hf Hst Hw; [by eexists _, _|].
  destruct Hms as [(Hb & Hmf & Hne & Hstop & Hcont) Hms]. specialize (IH (is_read m) Ha Hms).
  assert (Hs : has flags I2C_MSG_STOP = false) by (destruct (has flags I2C_MSG_STOP); [by discriminate Hst|done]).
  assert (Hz : Z.land flags I2C_MSG_RESTART = 0) by (assert (0 <= flags < 8) as Hf8 by lia; flag_cases Hf8; done || lia).
  change (transfer_loop d (m :: ms) addr flags (mid sda st dev)) with
    (round m ms addr (msg_address d addr (Z.lor (Z.land flags I2C_MSG_RESTART) (msg_flags m))
       (if has (Z.land flags I2C_MSG_RESTART) I2C_MSG_RESTART
        then i2c_start d (if has flags I2C_MSG_STOP then i2c_stop d (mid sda st dev) else mid sda st dev)
        else if has (msg_flags m) I2C_MSG_RESTART
             then i2c_repeated_start d (if has flags I2C_MSG_STOP then i2c_stop d (mid sda st dev) else mid sda st dev)
             else (if has flags I2C_MSG_STOP then i2c_stop d (mid sda st dev) else mid sda st dev)))).
  rewrite Hs, Hz. change (has 0 I2C_MSG_RESTART) with false. cbv iota. rewrite Z.lor_0_l.
  cbn [dev_transfer orb]. destruct (has (msg_flags m) I2C_MSG_RESTART) eqn:Er.
  - rewrite repeated_start_ok.
    pose proof (restart_flags _ Hmf) as Hrf. rewrite Er in Hrf.
    destruct (round_addressed_ok m ms addr false dev Ha Hb Hmf Hne Hstop IH) as (sda' & st' & Hr).
    rewrite Hrf in Hr. exists sda', st'. rewrite Hr. destruct (dev_msg true addr m dev) as [[bs|] dev']; [|done].
    by destruct (dev_transfer false ms addr dev') as [[r ms'] dev''].
  - destruct Hcont as [|[|[Hafter Hread]]]; [done|congruence|]. rewrite (Hw Hafter).
    pose proof (restart_flags _ Hmf) as Hdf. rewrite Er in Hdf. symmetry in Hdf. fold (data_flags m) in Hdf.
    unfold msg_address. rewrite Er.
    destruct (round_data_ok m ms addr (data_flags m) sda dev Hb Hne Hstop IH (data_flags_range m) eq_refl)
      as (sda' & st' & Hr). rewrite Hread, <- Hdf in Hr.
    exists sda', st'. rewrite Hr. unfold dev_msg. destruct (dev_data m dev) as [[bs|] dev']; [|done].
    by destruct (dev_transfer false ms addr dev') as [[r ms'] dev''].
Qed.

(** On an idle bus a transfer, clocked out bit by bit, is the transfer that the
    device should see, and the bus is idle again. *)
Lemma transfer_refines msgs addr dev :
  0 <= addr < 128 → msgs_ok true false msgs →
  i2c_bitbang_transfer d msgs addr (bus_idle dev) =
  let '(r, msgs', dev') := dev_transfer true msgs addr dev in (r, msgs', bus_idle dev').
Proof.
  intros Ha Hms. destruct msgs as [|m ms]; [done|].
  destruct Hms as [(Hb & Hmf & Hne & Hstop & _) Hms].
  change (i2c_bitbang_transfer d (m :: ms) addr (bus_idle dev)) with
    (let '(result, msgs, w) := round m ms addr
       (msg_address d addr (Z.lor I2C_MSG_RESTART (msg_flags m)) (i2c_start d (i2c_stop d (bus_idle dev)))) in
     (result, msgs, i2c_stop d w)).
  rewrite stop_idle_ok, start_ok.
  destruct (round_addressed_ok m ms addr false dev Ha Hb Hmf Hne Hstop (transfer_rest_ok addr ms _ Ha Hms))
    as (sda' & st' & ->).
  cbn [dev_transfer orb]. destruct (dev_msg true addr m dev) as [[bs|] dev']; [|by rewrite stop_ok].
  destruct (dev_transfer false ms addr dev') as [[r ms'] dev'']. by rewrite stop_ok.
Qed.
End transfer.

(** ** The bus of the board *)

(** The context of the driver ([struct i2c_gpio_context]) and the lines it
    drives: a line is let go by making the pin an input with pull-up, and pulled
    low by making it an output. *)
Record i2c_gpio (D : Type) := mk_i2c_gpio { ig_hz : Z; ig_delays : i2c_delays; ig_bus : bus D }.
Arguments mk_i2c_gpio {_} _ _ _.
Arguments ig_hz {_} _.
Arguments ig_delays {_} _.
Arguments ig_bus {_} _.

Section board.
Context {D : Type} `{!SlaveDev D}.

(** [i2c_gpio_transfer], [i2c_gpio_configure] *)
Definition i2c_gpio_transfer (msgs : list i2c_msg) (addr : Z) (c : i2c_gpio D) : Z * list i2c_msg * i2c_gpio D :=
  let '(r, msgs, b) := i2c_bitbang_transfer (ig_delays c) msgs addr (ig_bus c) in
  (r, msgs, mk_i2c_gpio (ig_hz c) (ig_delays c) b).
Definition i2c_gpio_configure (raw : Z) (c : i2c_gpio D) : Z * i2c_gpio D :=
  let '(r, dl) := i2c_bitbang_configure (ig_hz c) raw (ig_delays c) in
  (r, mk_i2c_gpio (ig_hz c) dl (ig_bus c)).
#[export] Instance i2c_gpio_drv : I2cDrv (i2c_gpio D) := {
  i2c_transfer := i2c_gpio_transfer;
  i2c_configure := i2c_gpio_configure;
}.

(** [i2c_gpio_init] and [i2c_gpio_acts_setup_pins] with a bound GPIO device:
    both lines are let go. *)
Definition i2c_gpio_init (hz : Z) (b : bus D) : i2c_gpio D :=
  mk_i2c_gpio hz (i2c_bitbang_init hz) (io_set_sda true (io_set_scl true b)).
End board.

(** ** Devices with registers *)

(** A chip with 8-bit register addresses. *)
Class RegChip (R : Type) := {
  rc_address : Z;
  rc_write : Z → Z → R → R;
  rc_read : Z → R → Z * R;
}.
Arguments rc_address _ {_}.

(** The usual slave of such a chip: the first byte of a write is the register
    address, which counts up with every byte written or read. *)
Record reg_dev (R : Type) := mk_reg_dev { rd_first : bool; rd_ptr : Z; rd_regs : R }.
Arguments mk_reg_dev {_} _ _ _.
Arguments rd_first {_} _.
Arguments rd_ptr {_} _.
Arguments rd_regs {_} _.

#[export] Instance reg_dev_slave {R} `{!RegChip R} : SlaveDev (reg_dev R) := {
  sl_address := rc_address R;
  sl_begin := λ read dev, mk_reg_dev (negb read) (rd_ptr dev) (rd_regs dev);
  sl_rx := λ byte dev,
    (true, if rd_first dev then mk_reg_dev false byte (rd_regs dev)
           else mk_reg_dev false (u8 (rd_ptr dev + 1)) (rc_write (rd_ptr dev) byte (rd_regs dev)));
  sl_tx := λ dev,
    let '(byte, r) := rc_read (rd_ptr dev) (rd_regs dev) in
    (u8 byte, mk_reg_dev (rd_first dev) (u8 (rd_ptr dev + 1)) r);
}.

Section registers.
Context {R : Type} `{!RegChip R}.
Implicit Types (r : R) (c : i2c_gpio (reg_dev R)).

Lemma reg_dev_tx_byte (dev : reg_dev R) : is_u8 (sl_tx dev).1.
Proof. cbn. destruct (rc_read _ _). apply u8_range. Qed.

(** The board's bus is at rest and the chip's registers are [r]. *)
Definition at_rest (r : R) (c : i2c_gpio (reg_dev R)) : Prop :=
  ∃ first ptr, ig_bus c = bus_idle (mk_reg_dev first ptr r).

Lemma bytes_1 a : is_u8 a → bytes_ok [a].
Proof. intros. apply Forall_cons_iff. auto. Qed.
Lemma bytes_2 a b : is_u8 a → is_u8 b → bytes_ok [a; b].
Proof. intros. apply Forall_cons_iff. split; [done|by apply bytes_1]. Qed.
Lemma write_msgs_ok reg val :
  is_u8 reg → is_u8 val → msgs_ok true false [mk_msg [reg; val] (Z.lor I2C_MSG_WRITE I2C_MSG_STOP)].
Proof. intros. split; [|done]. split_and!; cbn; auto using bytes_2; done. Qed.
Lemma read_msgs_ok reg val :
  is_u8 reg → is_u8 val →
  msgs_ok true false [mk_msg [reg] I2C_MSG_WRITE;
                      mk_msg [val] (Z.lor (Z.lor I2C_MSG_RESTART I2C_MSG_READ) I2C_MSG_STOP)].
Proof.
  intros. split; [|split; [|done]]; (split_and!; cbn; auto using bytes_1; done).
Qed.

(** A register write over the two wires. *)
Lemma i2c_write_reg addr reg val r c :
  0 <= addr < 128 → is_u8 reg → is_u8 val → at_rest r c →
  ∃ c', i2c_write [reg; val] addr c = (if addr =? rc_address R then 0 else - EIO, c') ∧
    at_rest (if addr =? rc_address R then rc_write reg val r else r) c' ∧ ig_delays c' = ig_delays c ∧ ig_hz c' = ig_hz c.
Proof.
  intros Ha Hr Hv (first & ptr & Hb). unfold i2c_write. cbn [i2c_transfer i2c_gpio_drv]. unfold i2c_gpio_transfer.
  rewrite Hb, (transfer_refines (ig_delays c) reg_dev_tx_byte)
    by eauto using write_msgs_ok.
  cbn. unfold dev_msg. cbn. destruct (addr =? rc_address R); cbn;
    (eexists; split; [reflexivity|]; split_and!; [|done..]; unfold at_rest; cbn; eauto).
Qed.

(** A register read over the two wires. *)
Lemma i2c_read_reg addr reg val r c :
  0 <= addr < 128 → is_u8 reg → is_u8 val → at_rest r c →
  ∃ c', i2c_reg_read_byte addr reg val c =
      (if addr =? rc_address R then 0 else - EIO, if addr =? rc_address R then u8 (rc_read reg r).1 else val, c') ∧
    at_rest (if addr =? rc_address R then (rc_read reg r).2 else r) c' ∧ ig_delays c' = ig_delays c ∧ ig_hz c' = ig_hz c.
Proof.
  intros Ha Hr Hv (first & ptr & Hb). unfold i2c_reg_read_byte, i2c_burst_read.
  cbn [i2c_transfer i2c_gpio_drv]. unfold i2c_gpio_transfer.
  rewrite Hb, (transfer_refines (ig_delays c) reg_dev_tx_byte)
    by eauto using read_msgs_ok.
  cbn. unfold dev_msg. cbn. destruct (addr =? rc_address R) eqn:E; cbn; rewrite ?E; cbn.
  - unfold dev_data. change (is_read (mk_msg [reg] I2C_MSG_WRITE)) with false.
    change (is_read (mk_msg [val] _)) with true. change (has _ I2C_MSG_RESTART) with true. cbn.
    destruct (rc_read reg r) as [byte r'] eqn:Er. cbn.
    eexists; split; [reflexivity|]; split_and!; [|done..]; unfold at_rest; cbn; eauto.
  - eexists; split; [reflexivity|]; split_and!; [|done..]; unfold at_rest; cbn; eauto.
Qed.
End registers.

(** ** Theorems *)

(** The delays are no shorter than asked for. *)
Lemma ns_to_cycles_enough hz ns : 0 <= hz → 0 <= ns → hz * ns < NS_TO_SYS_CLOCK_HW_CYCLES hz ns * 1000000000.
Proof. intros. unfold NS_TO_SYS_CLOCK_HW_CYCLES. dlia. Qed.

(** C9: On an idle bus a transfer of well-formed messages, bit by bit on the two
    lines against a slave that watches edges and does not stretch the clock,
    does what the message-level specification says: the addressed device sees
    exactly the bytes of the write messages and its bytes fill the read
    buffers, the first byte that is not acknowledged ends it with -EIO, and
    the bus is idle afterwards. *)
Theorem i2c_transfer_refines {D} `{!SlaveDev D} (c : i2c_gpio D) (dev : D) msgs addr :
  (∀ dev' : D, is_u8 (sl_tx dev').1) → ig_bus c = bus_idle dev → 0 <= addr < 128 → msgs_ok true false msgs →
  let '(r, msgs', dev') := dev_transfer true msgs addr dev in
  i2c_gpio_transfer msgs addr c = (r, msgs', mk_i2c_gpio (ig_hz c) (ig_delays c) (bus_idle dev')).
Proof.
  intros Htx Hc Ha Hm. unfold i2c_gpio_transfer. rewrite Hc, (transfer_refines (ig_delays c) Htx msgs addr dev Ha Hm).
  by destruct (dev_transfer true msgs addr dev) as [[r msgs'] dev'].
Qed.

(** A device that collects what it receives and sends how much that was. *)
Definition collector : Type := list Z.
#[local] Instance collector_slave : SlaveDev collector := {
  sl_address := 0x1c;
  sl_begin := λ _ l, l;
  sl_rx := λ b l, (true, l ++ [b]);
  sl_tx := λ l, (u8 (Z.of_nat (length l)), l);
}.
Lemma i2c_transfer_refines_witness :
  i2c_gpio_transfer [mk_msg [7; 200] I2C_MSG_WRITE; mk_msg [0] 7] 0x1c
    (mk_i2c_gpio 24000000 (delays_standard 24000000) (bus_idle ([] : collector))) =
  (0, [mk_msg [7; 200] I2C_MSG_WRITE; mk_msg [2] 7],
   mk_i2c_gpio 24000000 (delays_standard 24000000) (bus_idle ([7; 200] : collector))).
Proof.
  assert (Hm : msgs_ok true false [mk_msg [7; 200] I2C_MSG_WRITE; mk_msg [0] 7]).
  { split; [|split; [|done]]; (split_and!; [apply (bool_decide_unpack _); by vm_compute|by auto..]). }
  pose proof (i2c_transfer_refines (mk_i2c_gpio 24000000 (delays_standard 24000000) (bus_idle ([] : collector))) []
           [mk_msg [7; 200] I2C_MSG_WRITE; mk_msg [0] 7] 0x1c (λ l, u8_range _) eq_refl ltac:(lia) Hm) as Ht.
  change (dev_transfer true _ _ _) with
    (0, [mk_msg [7; 200] I2C_MSG_WRITE; mk_msg [2] 7], [7; 200] : collector) in Ht.
  exact Ht.
Defined.
