(* ===== verification/Acm8635Regs.v ===== *)
(** * Register tables of the ACM8635 amplifier

    drivers/codec_acm8635/acm8635_regs.c: the two register scripts of the vendor's
    tuning tool and the volume table.  A script entry is a register address and
    the byte for it; register 0 selects the page.  A volume entry is the four
    bytes of a gain coefficient, most significant first; the entries are ordered
    from 0 dB down. *)

From stdpp Require Import base numbers list.
From S2P Require Import Prelude.
Local Open Scope Z_scope.

Definition acm8635_reg_tab_init : list (Z * Z) :=
  [(0x00, 0x00); (0x04, 0x00); (0xfc, 0x86); (0xfd, 0x25); (0xfe, 0x53); (0x00, 0x01); (0x02, 0x20); (0x00, 0x00)].

Definition acm8635_reg_tab_main : list (Z * Z) :=
  [(0x00, 0x00); (0x04, 0x00); (0x00, 0x01); (0x02, 0x00); (0x00, 0x00); (0x00, 0x04); (0x38, 0xff); (0x39, 0x80);
   (0x3a, 0x00); (0x3b, 0x00); (0x3c, 0x00); (0x3d, 0x00); (0x3e, 0x00); (0x3f, 0x00); (0x40, 0x00); (0x41, 0x00);
   (0x42, 0x00); (0x43, 0x00); (0x44, 0xff); (0x45, 0x80); (0x46, 0x00); (0x47, 0x00); (0x00, 0x05); (0xc8, 0x08);
   (0xc9, 0xbe); (0xca, 0x56); (0xcb, 0x65); (0xcc, 0xee); (0xcd, 0x83); (0xce, 0x53); (0xcf, 0x36); (0xd0, 0x08);
   (0xd1, 0xbe); (0xd2, 0x56); (0xd3, 0x65); (0xd4, 0x0f); (0xd5, 0xf2); (0xd6, 0xbf); (0xd7, 0x83); (0xd8, 0xf8);
   (0xd9, 0x0d); (0xda, 0x32); (0xdb, 0x29); (0xdc, 0x08); (0xdd, 0x01); (0xde, 0xff); (0xdf, 0x35); (0xe0, 0xf0);
   (0xe1, 0x20); (0xe2, 0xf4); (0xe3, 0x33); (0xe4, 0x07); (0xe5, 0xdd); (0xe6, 0x45); (0xe7, 0xa1); (0xe8, 0x0f);
   (0xe9, 0xdf); (0xea, 0x0b); (0xeb, 0xcd); (0xec, 0xf8); (0xed, 0x20); (0xee, 0xbb); (0xef, 0x2a); (0xf0, 0x08);
   (0xf1, 0x06); (0xf2, 0x37); (0xf3, 0xf1); (0xf4, 0xf0); (0xf5, 0x2b); (0xf6, 0x9b); (0xf7, 0x1e); (0xf8, 0x07);
   (0xf9, 0xce); (0xfa, 0xa2); (0xfb, 0x7f); (0xfc, 0x0f); (0xfd, 0xd4); (0xfe, 0x64); (0xff, 0xe2); (0x00, 0x06);
   (0x04, 0xf8); (0x05, 0x2b); (0x06, 0x25); (0x07, 0x90); (0x08, 0x07); (0x09, 0xfc); (0x0a, 0xa6); (0x0b, 0x27);
   (0x0c, 0xf0); (0x0d, 0x65); (0x0e, 0xfe); (0x0f, 0x01); (0x10, 0x07); (0x11, 0x9e); (0x12, 0xf0); (0x13, 0xe6);
   (0x14, 0x0f); (0x15, 0x9a); (0x16, 0x01); (0x17, 0xff); (0x18, 0xf8); (0x19, 0x64); (0x1a, 0x68); (0x1b, 0xf3);
   (0x1c, 0x07); (0x1d, 0xf9); (0x1e, 0x4b); (0x1f, 0xb0); (0x20, 0xf0); (0x21, 0x9c); (0x22, 0x87); (0x23, 0x44);
   (0x24, 0x07); (0x25, 0x6e); (0x26, 0x50); (0x27, 0x67); (0x28, 0x0f); (0x29, 0x63); (0x2a, 0x78); (0x2b, 0xbc);
   (0x2c, 0xf8); (0x2d, 0x98); (0x2e, 0x63); (0x2f, 0xe9); (0x30, 0x07); (0x31, 0xf8); (0x32, 0x92); (0x33, 0x8f);
   (0x34, 0xf1); (0x35, 0x11); (0x36, 0xc2); (0x37, 0x1a); (0x38, 0x06); (0x39, 0xfd); (0x3a, 0xde); (0x3b, 0xde);
   (0x3c, 0x0e); (0x3d, 0xee); (0x3e, 0x3d); (0x3f, 0xe6); (0x40, 0xf9); (0x41, 0x09); (0x42, 0x8e); (0x43, 0x93);
   (0x44, 0x07); (0x45, 0xfc); (0x46, 0x2d); (0x47, 0xa6); (0x48, 0xf1); (0x49, 0x64); (0x4a, 0x62); (0x4b, 0x0b);
   (0x4c, 0x06); (0x4d, 0xb4); (0x4e, 0x09); (0x4f, 0x9e); (0x50, 0x0e); (0x51, 0x9b); (0x52, 0x9d); (0x53, 0xf5);
   (0x54, 0xf9); (0x55, 0x4f); (0x56, 0xc8); (0x57, 0xbc); (0x58, 0x08); (0x59, 0x12); (0x5a, 0xcd); (0x5b, 0x11);
   (0x5c, 0xf2); (0x5d, 0x70); (0x5e, 0x68); (0x5f, 0x35); (0x60, 0x05); (0x61, 0xdf); (0x62, 0x70); (0x63, 0x19);
   (0x64, 0x0d); (0x65, 0x8f); (0x66, 0x97); (0x67, 0xcb); (0x68, 0xfa); (0x69, 0x0d); (0x6a, 0xc2); (0x6b, 0xd6);
   (0x6c, 0x07); (0x6d, 0xbb); (0x6e, 0xca); (0x6f, 0xc6); (0x70, 0xf8); (0x71, 0xf7); (0x72, 0xf7); (0x73, 0xe8);
   (0x74, 0x02); (0x75, 0x35); (0x76, 0xd6); (0x77, 0x48); (0x78, 0x07); (0x79, 0x08); (0x7a, 0x08); (0x7b, 0x18);
   (0x7c, 0xfe); (0x7d, 0x0e); (0x7e, 0x5e); (0x7f, 0xf2); (0x80, 0x07); (0x81, 0x96); (0x82, 0x3a); (0x83, 0x8a);
   (0x84, 0x01); (0x85, 0xb5); (0x86, 0xdf); (0x87, 0x64); (0x88, 0xff); (0x89, 0x05); (0x8a, 0x94); (0x8b, 0xca);
   (0x8c, 0xfe); (0x8d, 0x4a); (0x8e, 0x20); (0x8f, 0x9c); (0x90, 0x01); (0x91, 0x64); (0x92, 0x30); (0x93, 0xad);
   (0x94, 0x04); (0x95, 0x6b); (0x96, 0x81); (0x97, 0xf3); (0x98, 0x08); (0x99, 0xd7); (0x9a, 0x03); (0x9b, 0xe5);
   (0x9c, 0x04); (0x9d, 0x6b); (0x9e, 0x81); (0x9f, 0xf3); (0xa0, 0xf6); (0xa1, 0x20); (0xa2, 0x13); (0xa3, 0x46);
   (0xa4, 0xfc); (0xa5, 0x1f); (0xa6, 0xb0); (0xa7, 0xd9); (0xf8, 0x08); (0xf9, 0xbe); (0xfa, 0x56); (0xfb, 0x65);
   (0xfc, 0xee); (0xfd, 0x83); (0xfe, 0x53); (0xff, 0x36); (0x00, 0x07); (0x04, 0x08); (0x05, 0xbe); (0x06, 0x56);
   (0x07, 0x65); (0x08, 0x0f); (0x09, 0xf2); (0x0a, 0xbf); (0x0b, 0x83); (0x0c, 0xf8); (0x0d, 0x0d); (0x0e, 0x32);
   (0x0f, 0x29); (0x10, 0x08); (0x11, 0x01); (0x12, 0xff); (0x13, 0x35); (0x14, 0xf0); (0x15, 0x20); (0x16, 0xf4);
   (0x17, 0x33); (0x18, 0x07); (0x19, 0xdd); (0x1a, 0x45); (0x1b, 0xa1); (0x1c, 0x0f); (0x1d, 0xdf); (0x1e, 0x0b);
   (0x1f, 0xcd); (0x20, 0xf8); (0x21, 0x20); (0x22, 0xbb); (0x23, 0x2a); (0x24, 0x08); (0x25, 0x06); (0x26, 0x37);
   (0x27, 0xf1); (0x28, 0xf0); (0x29, 0x2b); (0x2a, 0x9b); (0x2b, 0x1e); (0x2c, 0x07); (0x2d, 0xce); (0x2e, 0xa2);
   (0x2f, 0x7f); (0x30, 0x0f); (0x31, 0xd4); (0x32, 0x64); (0x33, 0xe2); (0x34, 0xf8); (0x35, 0x2b); (0x36, 0x25);
   (0x37, 0x90); (0x38, 0x07); (0x39, 0xfc); (0x3a, 0xa6); (0x3b, 0x27); (0x3c, 0xf0); (0x3d, 0x65); (0x3e, 0xfe);
   (0x3f, 0x01); (0x40, 0x07); (0x41, 0x9e); (0x42, 0xf0); (0x43, 0xe6); (0x44, 0x0f); (0x45, 0x9a); (0x46, 0x01);
   (0x47, 0xff); (0x48, 0xf8); (0x49, 0x64); (0x4a, 0x68); (0x4b, 0xf3); (0x4c, 0x07); (0x4d, 0xf9); (0x4e, 0x4b);
   (0x4f, 0xb0); (0x50, 0xf0); (0x51, 0x9c); (0x52, 0x87); (0x53, 0x44); (0x54, 0x07); (0x55, 0x6e); (0x56, 0x50);
   (0x57, 0x67); (0x58, 0x0f); (0x59, 0x63); (0x5a, 0x78); (0x5b, 0xbc); (0x5c, 0xf8); (0x5d, 0x98); (0x5e, 0x63);
   (0x5f, 0xe9); (0x60, 0x07); (0x61, 0xf8); (0x62, 0x92); (0x63, 0x8f); (0x64, 0xf1); (0x65, 0x11); (0x66, 0xc2);
   (0x67, 0x1a); (0x68, 0x06); (0x69, 0xfd); (0x6a, 0xde); (0x6b, 0xde); (0x6c, 0x0e); (0x6d, 0xee); (0x6e, 0x3d);
   (0x6f, 0xe6); (0x70, 0xf9); (0x71, 0x09); (0x72, 0x8e); (0x73, 0x93); (0x74, 0x07); (0x75, 0xfc); (0x76, 0x2d);
   (0x77, 0xa6); (0x78, 0xf1); (0x79, 0x64); (0x7a, 0x62); (0x7b, 0x0b); (0x7c, 0x06); (0x7d, 0xb4); (0x7e, 0x09);
   (0x7f, 0x9e); (0x80, 0x0e); (0x81, 0x9b); (0x82, 0x9d); (0x83, 0xf5); (0x84, 0xf9); (0x85, 0x4f); (0x86, 0xc8);
   (0x87, 0xbc); (0x88, 0x08); (0x89, 0x12); (0x8a, 0xcd); (0x8b, 0x11); (0x8c, 0xf2); (0x8d, 0x70); (0x8e, 0x68);
   (0x8f, 0x35); (0x90, 0x05); (0x91, 0xdf); (0x92, 0x70); (0x93, 0x19); (0x94, 0x0d); (0x95, 0x8f); (0x96, 0x97);
   (0x97, 0xcb); (0x98, 0xfa); (0x99, 0x0d); (0x9a, 0xc2); (0x9b, 0xd6); (0x9c, 0x07); (0x9d, 0xbb); (0x9e, 0xca);
   (0x9f, 0xc6); (0xa0, 0xf8); (0xa1, 0xf7); (0xa2, 0xf7); (0xa3, 0xe8); (0xa4, 0x02); (0xa5, 0x35); (0xa6, 0xd6);
   (0xa7, 0x48); (0xa8, 0x07); (0xa9, 0x08); (0xaa, 0x08); (0xab, 0x18); (0xac, 0xfe); (0xad, 0x0e); (0xae, 0x5e);
   (0xaf, 0xf2); (0xb0, 0x07); (0xb1, 0x96); (0xb2, 0x3a); (0xb3, 0x8a); (0xb4, 0x01); (0xb5, 0xb5); (0xb6, 0xdf);
   (0xb7, 0x64); (0xb8, 0xff); (0xb9, 0x05); (0xba, 0x94); (0xbb, 0xca); (0xbc, 0xfe); (0xbd, 0x4a); (0xbe, 0x20);
   (0xbf, 0x9c); (0xc0, 0x01); (0xc1, 0x64); (0xc2, 0x30); (0xc3, 0xad); (0xc4, 0x04); (0xc5, 0x6b); (0xc6, 0x81);
   (0xc7, 0xf3); (0xc8, 0x08); (0xc9, 0xd7); (0xca, 0x03); (0xcb, 0xe5); (0xcc, 0x04); (0xcd, 0x6b); (0xce, 0x81);
   (0xcf, 0xf3); (0xd0, 0xf6); (0xd1, 0x20); (0xd2, 0x13); (0xd3, 0x46); (0xd4, 0xfc); (0xd5, 0x1f); (0xd6, 0xb0);
   (0xd7, 0xd9); (0x00, 0x04); (0x94, 0x00); (0x95, 0xe2); (0x96, 0xc4); (0x97, 0x6b); (0x90, 0x00); (0x91, 0xb4);
   (0x92, 0xce); (0x93, 0x08); (0x8c, 0x00); (0x8d, 0xb4); (0x8e, 0xce); (0x8f, 0x08); (0xec, 0x00); (0xed, 0x2d);
   (0xee, 0x7a); (0xef, 0xc2); (0xf0, 0x00); (0xf1, 0x44); (0xf2, 0x32); (0xf3, 0x13); (0xf4, 0x00); (0xf5, 0x06);
   (0xf6, 0xd3); (0xf7, 0x72); (0xf8, 0x00); (0xf9, 0x00); (0xfa, 0x00); (0xfb, 0x00); (0xfc, 0x00); (0xfd, 0x00);
   (0xfe, 0x00); (0xff, 0x00); (0x00, 0x05); (0x04, 0xff); (0x05, 0x81); (0x06, 0x47); (0x07, 0xae); (0x08, 0xf5);
   (0x09, 0xb3); (0x0a, 0xb7); (0x0b, 0xc8); (0x0c, 0xfd); (0x0d, 0xc1); (0x0e, 0xf8); (0x0f, 0x89); (0x10, 0x00);
   (0x11, 0x00); (0x12, 0x00); (0x13, 0x00); (0x14, 0x00); (0x15, 0x00); (0x16, 0x00); (0x17, 0x00); (0x40, 0x00);
   (0x41, 0x80); (0x42, 0x00); (0x43, 0x00); (0x18, 0x00); (0x19, 0x44); (0x1a, 0x32); (0x1b, 0x13); (0x1c, 0x02);
   (0x1d, 0xa3); (0x1e, 0x9a); (0x1f, 0xcc); (0x20, 0x00); (0x21, 0x01); (0x22, 0x5d); (0x23, 0x85); (0x24, 0x00);
   (0x25, 0x00); (0x26, 0x00); (0x27, 0x00); (0x28, 0x00); (0x29, 0x00); (0x2a, 0x00); (0x2b, 0x00); (0x2c, 0xff);
   (0x2d, 0x81); (0x2e, 0x47); (0x2f, 0xae); (0x30, 0xf5); (0x31, 0xb3); (0x32, 0xb7); (0x33, 0xc8); (0x34, 0xfd);
   (0x35, 0xc1); (0x36, 0xf8); (0x37, 0x89); (0x38, 0x00); (0x39, 0x00); (0x3a, 0x00); (0x3b, 0x00); (0x3c, 0x00);
   (0x3d, 0x00); (0x3e, 0x00); (0x3f, 0x00); (0x44, 0x00); (0x45, 0x80); (0x46, 0x00); (0x47, 0x00); (0x00, 0x0b);
   (0x60, 0x00); (0x61, 0x22); (0x62, 0x1d); (0x63, 0x95); (0x64, 0x00); (0x65, 0x06); (0x66, 0xd3); (0x67, 0x72);
   (0x68, 0x00); (0x69, 0x00); (0x6a, 0x00); (0x6b, 0x00); (0x6c, 0x00); (0x6d, 0x00); (0x6e, 0x00); (0x6f, 0x00);
   (0x70, 0xff); (0x71, 0x81); (0x72, 0x47); (0x73, 0xae); (0x74, 0xf5); (0x75, 0xb3); (0x76, 0xb7); (0x77, 0xc8);
   (0x78, 0xfe); (0x79, 0x01); (0x7a, 0xc0); (0x7b, 0x79); (0x7c, 0x00); (0x7d, 0x00); (0x7e, 0x00); (0x7f, 0x00);
   (0x80, 0x00); (0x81, 0x00); (0x82, 0x00); (0x83, 0x00); (0xac, 0x7f); (0xad, 0xff); (0xae, 0xff); (0xaf, 0xff);
   (0x84, 0x02); (0x85, 0xa3); (0x86, 0x9a); (0x87, 0xcc); (0x88, 0x00); (0x89, 0x01); (0x8a, 0x5d); (0x8b, 0x85);
   (0x8c, 0x00); (0x8d, 0x00); (0x8e, 0x00); (0x8f, 0x00); (0x90, 0x00); (0x91, 0x00); (0x92, 0x00); (0x93, 0x00);
   (0x94, 0xff); (0x95, 0x81); (0x96, 0x47); (0x97, 0xae); (0x98, 0xf5); (0x99, 0xb3); (0x9a, 0xb7); (0x9b, 0xc8);
   (0x9c, 0xfe); (0x9d, 0x01); (0x9e, 0xc0); (0x9f, 0x79); (0xa0, 0x00); (0xa1, 0x00); (0xa2, 0x00); (0xa3, 0x00);
   (0xa4, 0x00); (0xa5, 0x00); (0xa6, 0x00); (0xa7, 0x00); (0xb0, 0x7f); (0xb1, 0xff); (0xb2, 0xff); (0xb3, 0xff);
   (0x00, 0x05); (0x64, 0x06); (0x65, 0x55); (0x66, 0x9f); (0x67, 0x77); (0x68, 0x06); (0x69, 0x55); (0x6a, 0x9f);
   (0x6b, 0x77); (0x6c, 0x06); (0x6d, 0x55); (0x6e, 0x9f); (0x6f, 0x77); (0x70, 0x51); (0x71, 0xe4); (0x72, 0xab);
   (0x73, 0xab); (0x74, 0xc2); (0x75, 0xe0); (0x76, 0x2a); (0x77, 0xcd); (0x78, 0x06); (0x79, 0x55); (0x7a, 0x9f);
   (0x7b, 0x77); (0x7c, 0x06); (0x7d, 0x55); (0x7e, 0x9f); (0x7f, 0x77); (0x80, 0x06); (0x81, 0x55); (0x82, 0x9f);
   (0x83, 0x77); (0x84, 0x51); (0x85, 0xe4); (0x86, 0xab); (0x87, 0xab); (0x88, 0xc2); (0x89, 0xe0); (0x8a, 0x2a);
   (0x8b, 0xcd); (0x00, 0x09); (0xec, 0x58); (0xed, 0x3a); (0xee, 0x4b); (0xef, 0x22); (0xf0, 0xa7); (0xf1, 0xc5);
   (0xf2, 0xb4); (0xf3, 0xde); (0xf4, 0x58); (0xf5, 0x3a); (0xf6, 0x4b); (0xf7, 0x22); (0xf8, 0x51); (0xf9, 0xe4);
   (0xfa, 0xab); (0xfb, 0xab); (0xfc, 0xc2); (0xfd, 0xe0); (0xfe, 0x2a); (0xff, 0xcd); (0x00, 0x0a); (0x04, 0x58);
   (0x05, 0x3a); (0x06, 0x4b); (0x07, 0x22); (0x08, 0xa7); (0x09, 0xc5); (0x0a, 0xb4); (0x0b, 0xde); (0x0c, 0x58);
   (0x0d, 0x3a); (0x0e, 0x4b); (0x0f, 0x22); (0x10, 0x51); (0x11, 0xe4); (0x12, 0xab); (0x13, 0xab); (0x14, 0xc2);
   (0x15, 0xe0); (0x16, 0x2a); (0x17, 0xcd); (0x00, 0x04); (0x9c, 0x06); (0x9d, 0x55); (0x9e, 0x9f); (0x9f, 0x77);
   (0xa0, 0x06); (0xa1, 0x55); (0xa2, 0x9f); (0xa3, 0x77); (0xa4, 0x06); (0xa5, 0x55); (0xa6, 0x9f); (0xa7, 0x77);
   (0xa8, 0x51); (0xa9, 0xe4); (0xaa, 0xab); (0xab, 0xab); (0xac, 0xc2); (0xad, 0xe0); (0xae, 0x2a); (0xaf, 0xcd);
   (0xb0, 0x06); (0xb1, 0x55); (0xb2, 0x9f); (0xb3, 0x77); (0xb4, 0x06); (0xb5, 0x55); (0xb6, 0x9f); (0xb7, 0x77);
   (0xb8, 0x06); (0xb9, 0x55); (0xba, 0x9f); (0xbb, 0x77); (0xbc, 0x51); (0xbd, 0xe4); (0xbe, 0xab); (0xbf, 0xab);
   (0xc0, 0xc2); (0xc1, 0xe0); (0xc2, 0x2a); (0xc3, 0xcd); (0xc4, 0x58); (0xc5, 0x3a); (0xc6, 0x4b); (0xc7, 0x22);
   (0xc8, 0xa7); (0xc9, 0xc5); (0xca, 0xb4); (0xcb, 0xde); (0xcc, 0x58); (0xcd, 0x3a); (0xce, 0x4b); (0xcf, 0x22);
   (0xd0, 0x51); (0xd1, 0xe4); (0xd2, 0xab); (0xd3, 0xab); (0xd4, 0xc2); (0xd5, 0xe0); (0xd6, 0x2a); (0xd7, 0xcd);
   (0xd8, 0x58); (0xd9, 0x3a); (0xda, 0x4b); (0xdb, 0x22); (0xdc, 0xa7); (0xdd, 0xc5); (0xde, 0xb4); (0xdf, 0xde);
   (0xe0, 0x58); (0xe1, 0x3a); (0xe2, 0x4b); (0xe3, 0x22); (0xe4, 0x51); (0xe5, 0xe4); (0xe6, 0xab); (0xe7, 0xab);
   (0xe8, 0xc2); (0xe9, 0xe0); (0xea, 0x2a); (0xeb, 0xcd); (0x00, 0x0c); (0x98, 0x00); (0x99, 0x1b); (0x9a, 0x4b);
   (0x9b, 0x98); (0x9c, 0x00); (0x9d, 0x22); (0x9e, 0x1d); (0x9f, 0x95); (0xa0, 0x00); (0xa1, 0x06); (0xa2, 0xd3);
   (0xa3, 0x72); (0xa4, 0x00); (0xa5, 0x00); (0xa6, 0x00); (0xa7, 0x00); (0xa8, 0x00); (0xa9, 0x00); (0xaa, 0x00);
   (0xab, 0x00); (0xac, 0xff); (0xad, 0x81); (0xae, 0x47); (0xaf, 0xae); (0xb0, 0xf5); (0xb1, 0xb3); (0xb2, 0xb7);
   (0xb3, 0xc8); (0xb4, 0xfd); (0xb5, 0xd7); (0xb6, 0x3b); (0xb7, 0x2e); (0xb8, 0x00); (0xb9, 0x00); (0xba, 0x00);
   (0xbb, 0x00); (0xbc, 0x00); (0xbd, 0x00); (0xbe, 0x00); (0xbf, 0x00); (0x00, 0x0a); (0x18, 0x07); (0x19, 0xf8);
   (0x1a, 0x6e); (0x1b, 0x2c); (0x1c, 0xf0); (0x1d, 0x0f); (0x1e, 0x23); (0x1f, 0xa8); (0x20, 0x07); (0x21, 0xf8);
   (0x22, 0x6e); (0x23, 0x2c); (0x24, 0x0f); (0x25, 0xf0); (0x26, 0xd5); (0x27, 0x2f); (0x28, 0xf8); (0x29, 0x0f);
   (0x2a, 0x1c); (0x2b, 0x7f); (0x2c, 0x07); (0x2d, 0xb9); (0x2e, 0x63); (0x2f, 0x75); (0x30, 0xfb); (0x31, 0x8f);
   (0x32, 0xf4); (0x33, 0xe1); (0x34, 0x01); (0x35, 0x26); (0x36, 0xb2); (0x37, 0xc9); (0x38, 0x04); (0x39, 0x70);
   (0x3a, 0x0b); (0x3b, 0x1f); (0x3c, 0xff); (0x3d, 0x1f); (0x3e, 0xe9); (0x3f, 0xc1); (0x40, 0x07); (0x41, 0x9d);
   (0x42, 0x0a); (0x43, 0x7f); (0x44, 0x00); (0x45, 0x00); (0x46, 0x00); (0x47, 0x00); (0x48, 0xff); (0x49, 0x99);
   (0x4a, 0x9d); (0x4b, 0x17); (0x4c, 0x00); (0x4d, 0x00); (0x4e, 0x00); (0x4f, 0x00); (0x50, 0x00); (0x51, 0xc9);
   (0x52, 0x58); (0x53, 0x6b); (0xb8, 0x07); (0xb9, 0xf8); (0xba, 0x6e); (0xbb, 0x2c); (0xbc, 0xf0); (0xbd, 0x0f);
   (0xbe, 0x23); (0xbf, 0xa8); (0xc0, 0x07); (0xc1, 0xf8); (0xc2, 0x6e); (0xc3, 0x2c); (0xc4, 0x0f); (0xc5, 0xf0);
   (0xc6, 0xd5); (0xc7, 0x2f); (0xc8, 0xf8); (0xc9, 0x0f); (0xca, 0x1c); (0xcb, 0x7f); (0xcc, 0x07); (0xcd, 0xb9);
   (0xce, 0x63); (0xcf, 0x75); (0xd0, 0xfb); (0xd1, 0x8f); (0xd2, 0xf4); (0xd3, 0xe1); (0xd4, 0x01); (0xd5, 0x26);
   (0xd6, 0xb2); (0xd7, 0xc9); (0xd8, 0x04); (0xd9, 0x70); (0xda, 0x0b); (0xdb, 0x1f); (0xdc, 0xff); (0xdd, 0x1f);
   (0xde, 0xe9); (0xdf, 0xc1); (0xe0, 0x07); (0xe1, 0x9d); (0xe2, 0x0a); (0xe3, 0x7f); (0xe4, 0x00); (0xe5, 0x00);
   (0xe6, 0x00); (0xe7, 0x00); (0xe8, 0xff); (0xe9, 0x99); (0xea, 0x9d); (0xeb, 0x17); (0xec, 0x00); (0xed, 0x00);
   (0xee, 0x00); (0xef, 0x00); (0xf0, 0x00); (0xf1, 0xc9); (0xf2, 0x58); (0xf3, 0x6b); (0x00, 0x04); (0x28, 0xff);
   (0x29, 0xbf); (0x2a, 0xd9); (0x2b, 0x19); (0x2c, 0xff); (0x2d, 0xbf); (0x2e, 0xd9); (0x2f, 0x19); (0x00, 0x0b);
   (0xc8, 0x00); (0xc9, 0x00); (0xca, 0xc4); (0xcb, 0xa5); (0xcc, 0x00); (0xcd, 0x01); (0xce, 0x89); (0xcf, 0x4a);
   (0xd0, 0x00); (0xd1, 0x00); (0xd2, 0xc4); (0xd3, 0xa5); (0xd4, 0x0f); (0xd5, 0x8e); (0xd6, 0x46); (0xd7, 0x25);
   (0xd8, 0xf8); (0xd9, 0x6e); (0xda, 0xa7); (0xdb, 0x48); (0xdc, 0x00); (0xdd, 0x00); (0xde, 0xc4); (0xdf, 0xa5);
   (0xe0, 0x00); (0xe1, 0x01); (0xe2, 0x89); (0xe3, 0x4a); (0xe4, 0x00); (0xe5, 0x00); (0xe6, 0xc4); (0xe7, 0xa5);
   (0xe8, 0x0f); (0xe9, 0x8e); (0xea, 0x46); (0xeb, 0x25); (0xec, 0xf8); (0xed, 0x6e); (0xee, 0xa7); (0xef, 0x48);
   (0xf0, 0x07); (0xf1, 0xfa); (0xf2, 0x51); (0xf3, 0xf5); (0xf4, 0xf0); (0xf5, 0x0b); (0xf6, 0x5c); (0xf7, 0x16);
   (0xf8, 0x07); (0xf9, 0xfa); (0xfa, 0x51); (0xfb, 0xf5); (0xfc, 0x0f); (0xfd, 0xf4); (0xfe, 0x9f); (0xff, 0xe2);
   (0x00, 0x0c); (0x04, 0xf8); (0x05, 0x0b); (0x06, 0x58); (0x07, 0x0e); (0x08, 0x08); (0x09, 0x04); (0x0a, 0xaa);
   (0x0b, 0xba); (0x0c, 0xf0); (0x0d, 0x16); (0x0e, 0xc0); (0x0f, 0x3f); (0x10, 0x07); (0x11, 0xe4); (0x12, 0xb5);
   (0x13, 0x31); (0x14, 0x0f); (0x15, 0xe9); (0x16, 0x3f); (0x17, 0xc1); (0x18, 0xf8); (0x19, 0x16); (0x1a, 0xa0);
   (0x1b, 0x15); (0x1c, 0x08); (0x1d, 0x00); (0x1e, 0x00); (0x1f, 0x00); (0x20, 0x00); (0x21, 0x00); (0x22, 0x00);
   (0x23, 0x00); (0x24, 0x00); (0x25, 0x00); (0x26, 0x00); (0x27, 0x00); (0x28, 0x00); (0x29, 0x00); (0x2a, 0x00);
   (0x2b, 0x00); (0x2c, 0x00); (0x2d, 0x00); (0x2e, 0x00); (0x2f, 0x00); (0x30, 0x08); (0x31, 0x00); (0x32, 0x00);
   (0x33, 0x00); (0x34, 0x00); (0x35, 0x00); (0x36, 0x00); (0x37, 0x00); (0x38, 0x00); (0x39, 0x00); (0x3a, 0x00);
   (0x3b, 0x00); (0x3c, 0x00); (0x3d, 0x00); (0x3e, 0x00); (0x3f, 0x00); (0x40, 0x00); (0x41, 0x00); (0x42, 0x00);
   (0x43, 0x00); (0x5c, 0x00); (0x5d, 0xff); (0x5e, 0x64); (0x5f, 0xc1); (0x60, 0x00); (0x61, 0x1b); (0x62, 0x4b);
   (0x63, 0x98); (0x64, 0x00); (0x65, 0x22); (0x66, 0x1d); (0x67, 0x95); (0x68, 0x00); (0x69, 0x06); (0x6a, 0xd3);
   (0x6b, 0x72); (0x6c, 0x00); (0x6d, 0x00); (0x6e, 0x00); (0x6f, 0x00); (0x70, 0x00); (0x71, 0x00); (0x72, 0x00);
   (0x73, 0x00); (0x74, 0xff); (0x75, 0x81); (0x76, 0x47); (0x77, 0xae); (0x78, 0xf5); (0x79, 0xb3); (0x7a, 0xb7);
   (0x7b, 0xc8); (0x7c, 0xfe); (0x7d, 0x01); (0x7e, 0xc0); (0x7f, 0x79); (0x80, 0x00); (0x81, 0x00); (0x82, 0x00);
   (0x83, 0x00); (0x84, 0x00); (0x85, 0x00); (0x86, 0x00); (0x87, 0x00); (0x00, 0x01); (0x01, 0x00); (0x00, 0x00);
   (0x11, 0x03); (0x02, 0x01); (0x06, 0xb0); (0x05, 0x38); (0x28, 0x03); (0x03, 0x45); (0x01, 0x84); (0x0f, 0xca);
   (0x10, 0xca); (0x1d, 0xca); (0x00, 0x01); (0x09, 0x04); (0x00, 0x00); (0x04, 0x02); (0x04, 0x03)].

Definition acm8635_vol_table : list Z :=
  [0x00; 0x80; 0x00; 0x00;
   0x00; 0x5f; 0xfc; 0x89;
   0x00; 0x43; 0xf4; 0x05;
   0x00; 0x32; 0xf5; 0x2d;
   0x00; 0x26; 0x36; 0x80;
   0x00; 0x1b; 0x0d; 0x7b;
   0x00; 0x14; 0x49; 0x61;
   0x00; 0x0f; 0x36; 0x7c;
   0x00; 0x0a; 0xc5; 0x15;
   0x00; 0x08; 0x13; 0x85;
   0x00; 0x06; 0x0e; 0x6c;
   0x00; 0x03; 0xd2; 0x40;
   0x00; 0x02; 0x69; 0x3c;
   0x00; 0x00; 0xc3; 0x30;
   0x00; 0x00; 0x4d; 0xb5;
   0x00; 0x00; 0x26; 0xf2;
   0x00; 0x00; 0x00; 0x1c].
