(* ===== verification/Acm8635.v ===== *)
(** * The amplifier driver

    drivers/codec_acm8635/driver.c in the shipped configuration (software I2C,
    CONFIG_CODEC_ACM8635_I2C_FORCE_WRITE, address 0x1c, initial volume 8, 10 ms
    between the two register scripts and none behind them).  [acm] is the
    driver's static data with the I2C driver below it, reached through the class
    [I2cDrv]; the recovery routine drives the two lines itself ([I2cIo]).
    [k_sleep] adds to [ac_slept]; log output is left out, the register reads
    made for it are not.

    The chip is hardware: what is documented of it, that register 0 selects the
    page, that coefficient memory and the control register keep what is written
    to them, is the class [AcmChip]. *)

From stdpp Require Import base numbers list option gmap.
From S2P Require Import Prelude I2cBitbang Acm8635Regs.
Local Open Scope Z_scope.

(** ** Data *)

Definition CODEC_ACM8635_I2C_ADDR : Z := 0x1c.
Definition CODEC_ACM8635_INIT_VOLUME : Z := 8.
Definition CODEC_ACM8635_DSP_INIT_DELAY_MS : Z := 10.
Definition CODEC_ACM8635_DSP_MAIN_DELAY_MS : Z := 0.
Definition ACM8635_STATE_PLAY : Z := 3.
Definition ACM8635_STATE_RPT_PLAY : Z := 3.
Definition ACM8635_FAULT_CLR_REG : Z := 1.
Definition ACM8635_FAULT_CLR_BIT : Z := 0x80.

(** [struct acm8635_device_data] ([ac_bound]: [i2c_dev] is set) and
    [acm8635_amp_playing]. *)
Record acm (W : Type) := mk_acm {
  ac_bound : bool;
  ac_addr : Z;
  ac_volume : Z;
  ac_playing : bool;
  ac_slept : Z;
  ac_w : W;
}.
Arguments mk_acm {_} _ _ _ _ _ _.
Arguments ac_bound {_} _.
Arguments ac_addr {_} _.
Arguments ac_volume {_} _.
Arguments ac_playing {_} _.
Arguments ac_slept {_} _.
Arguments ac_w {_} _.

Section driver.
Context {W : Type} `{!I2cDrv W} `{!I2cIo W}.
Implicit Types s : acm W.

Definition set_w (w : W) (s : acm W) : acm W :=
  mk_acm (ac_bound s) (ac_addr s) (ac_volume s) (ac_playing s) (ac_slept s) w.
Definition set_volume_field (v : Z) (s : acm W) : acm W :=
  mk_acm (ac_bound s) (ac_addr s) v (ac_playing s) (ac_slept s) (ac_w s).
Definition set_playing (p : bool) (s : acm W) : acm W :=
  mk_acm (ac_bound s) (ac_addr s) (ac_volume s) p (ac_slept s) (ac_w s).
Definition k_sleep (ms : Z) (s : acm W) : acm W :=
  mk_acm (ac_bound s) (ac_addr s) (ac_volume s) (ac_playing s) (ac_slept s + ms) (ac_w s).

(** ** Bus recovery *)

(** [acm8635_twi_gpio_mode] with [output] set: the pin drives its latch, which
    is 0 because the drivers only ever clear it. *)
Definition acm8635_twi_gpio_mode_out (line : bool → W → W) (w : W) : W := line false w.

(** One clock of the recovery, and nine of them. *)
Definition recovery_clock (w : W) : W := io_delay 5 (io_set_scl true (io_delay 5 (io_set_scl false w))).
Definition acm8635_i2c_gpio_bus_recovery (w : W) : W :=
  let w := acm8635_twi_gpio_mode_out io_set_scl w in
  let w := acm8635_twi_gpio_mode_out io_set_sda w in
  let w := io_set_scl true w in
  let w := io_set_sda true w in
  let w := io_delay 1000 w in
  let w := Nat.iter 9 recovery_clock w in
  let w := io_delay 5 (io_set_sda false w) in
  let w := io_delay 5 (io_set_scl false w) in
  let w := io_delay 5 (io_set_scl true w) in
  let w := io_delay 50 (io_set_sda true w) in
  let w := io_set_scl true w in
  let w := io_set_sda true w in
  io_delay 50 w.

(** [acm8635_i2c_bus_recovery] *)
Definition acm8635_i2c_bus_recovery (s : acm W) : acm W :=
  let w := acm8635_i2c_gpio_bus_recovery (ac_w s) in
  if negb (ac_bound s) then set_w w s
  else set_w (i2c_configure (mk_dev_config I2C_SPEED_STANDARD true) w).2 s.

(** ** Register access *)

(** [acm8635_write_byte], [acm8635_read_byte]: [val] is the caller's variable. *)
Definition acm8635_write_byte (reg val : Z) (s : acm W) : Z * acm W :=
  let '(ret, w) := i2c_write [u8 reg; u8 val] (ac_addr s) (ac_w s) in (ret, set_w w s).
Definition acm8635_read_byte (reg val : Z) (s : acm W) : Z * Z * acm W :=
  let '(ret, val, w) := i2c_reg_read_byte (ac_addr s) reg val (ac_w s) in (ret, val, set_w w s).

(** [acm8635_load_reg_table], [acm8635_load_reg_tables] *)
Fixpoint acm8635_load_reg_table (tab : list (Z * Z)) (s : acm W) : Z * acm W :=
  match tab with
  | [] => (0, s)
  | (address, data) :: tab =>
      let '(ret, s) := acm8635_write_byte address data s in
      if negb (ret =? 0) then (ret, s) else acm8635_load_reg_table tab s
  end.
Definition acm8635_load_reg_tables (s : acm W) : Z * acm W :=
  let '(ret, s) := acm8635_load_reg_table acm8635_reg_tab_init s in
  if negb (ret =? 0) then (ret, s)
  else
    let s := k_sleep CODEC_ACM8635_DSP_INIT_DELAY_MS s in
    let '(ret, s) := acm8635_load_reg_table acm8635_reg_tab_main s in
    if negb (ret =? 0) then (ret, s)
    else (0, if 0 <? CODEC_ACM8635_DSP_MAIN_DELAY_MS then k_sleep CODEC_ACM8635_DSP_MAIN_DELAY_MS s else s).

(** Three registers of page 0 in turn, up to the first failure. *)
Definition read_three (r1 r2 r3 : Z) (v : Z * Z * Z) (s : acm W) : Z * (Z * Z * Z) * acm W :=
  let '(v1, v2, v3) := v in
  let '(ret, s) := acm8635_write_byte 0x00 0x00 s in
  if negb (ret =? 0) then (ret, (v1, v2, v3), s)
  else
    let '(ret, v1, s) := acm8635_read_byte r1 v1 s in
    if negb (ret =? 0) then (ret, (v1, v2, v3), s)
    else
      let '(ret, v2, s) := acm8635_read_byte r2 v2 s in
      if negb (ret =? 0) then (ret, (v1, v2, v3), s)
      else
        let '(ret, v3, s) := acm8635_read_byte r3 v3 s in
        (ret, (v1, v2, v3), s).

(** [acm8635_read_chip_id], [acm8635_read_status_regs] *)
Definition acm8635_read_chip_id (v : Z * Z * Z) (s : acm W) : Z * (Z * Z * Z) * acm W :=
  read_three 0xfc 0xfd 0xfe v s.
Definition acm8635_read_status_regs (v : Z * Z * Z) (s : acm W) : Z * (Z * Z * Z) * acm W :=
  read_three 0x15 0x04 0x16 v s.

(** [acm8635_status_regs_dead] *)
Definition acm8635_status_regs_dead (v : Z * Z * Z) : bool :=
  let '(r15, ctrl, stat) := v in (r15 =? 0) && (ctrl =? 0) && (stat =? 0).

(** [acm8635_probe_online] *)
Definition acm8635_probe_online (v : Z * Z * Z) (s : acm W) : Z * (Z * Z * Z) * acm W :=
  let '(ret, v, s) := acm8635_read_status_regs v s in
  if negb (ret =? 0) then (ret, v, s)
  else if acm8635_status_regs_dead v then (- EIO, v, s) else (0, v, s).

(** [acm8635_read_fault_regs]: failures are not looked at. *)
Definition acm8635_read_fault_regs (v : Z * Z * Z) (s : acm W) : (Z * Z * Z) * acm W :=
  let '(f17, f18, f19) := v in
  let '(_, s) := acm8635_write_byte 0x00 0x00 s in
  let '(_, f17, s) := acm8635_read_byte 0x17 f17 s in
  let '(_, f18, s) := acm8635_read_byte 0x18 f18 s in
  let '(_, f19, s) := acm8635_read_byte 0x19 f19 s in
  ((f17, f18, f19), s).
Definition acm8635_has_fault (v : Z * Z * Z) : bool :=
  let '(f17, f18, f19) := v in negb (f17 =? 0) || negb (f18 =? 0) || negb (f19 =? 0).

(** ** Volume, play state, faults *)

(** A sequence of writes whose results are not looked at. *)
Fixpoint write_all (l : list (Z * Z)) (s : acm W) : acm W :=
  match l with
  | [] => s
  | (reg, val) :: l => write_all l (acm8635_write_byte reg val s).2
  end.

(** [acm8635_set_volume] *)
Definition vol_byte (vol : Z) (i : Z) : Z := getb acm8635_vol_table (4 * (16 - vol) + i).
Definition volume_writes (vol : Z) : list (Z * Z) :=
  [(0x00, 0x04); (0x8c, vol_byte vol 0); (0x8d, vol_byte vol 1); (0x8e, vol_byte vol 2); (0x8f, vol_byte vol 3);
   (0x00, 0x04); (0x90, vol_byte vol 0); (0x91, vol_byte vol 1); (0x92, vol_byte vol 2); (0x93, vol_byte vol 3);
   (0x00, 0x0c); (0x5c, vol_byte vol 0); (0x5d, vol_byte vol 1); (0x5e, vol_byte vol 2); (0x5f, vol_byte vol 3)].
Definition acm8635_set_volume (vol : Z) (s : acm W) : acm W :=
  let vol := if 16 <? vol then 16 else vol in
  set_volume_field vol (write_all (volume_writes vol) s).

(** [acm8635_play_enable], [acm8635_fault_clear] *)
Definition acm8635_play_enable (s : acm W) : acm W := write_all [(0x00, 0x00); (0x04, ACM8635_STATE_PLAY)] s.
Definition acm8635_fault_clear (s : acm W) : acm W :=
  k_sleep 5 (write_all [(0x00, 0x00); (ACM8635_FAULT_CLR_REG, ACM8635_FAULT_CLR_BIT)] s).

(** [acm8635_recover_faults], [acm8635_log_play_state] *)
Definition acm8635_recover_faults (s : acm W) : acm W :=
  let '(_, s) := acm8635_read_fault_regs (0, 0, 0) s in
  let s := acm8635_fault_clear s in
  (acm8635_read_fault_regs (0, 0, 0) s).2.
Definition acm8635_log_play_state (s : acm W) : acm W := (acm8635_read_status_regs (0, 0, 0) s).2.

(** [acm8635_dsp_configure] *)
Definition acm8635_dsp_configure (vol : Z) (s : acm W) : Z * acm W :=
  let '(ret, s) := acm8635_load_reg_tables s in
  if negb (ret =? 0) then (ret, s) else (0, acm8635_set_volume vol s).

(** [acm8635_ensure_i2c_online] *)
Definition acm8635_ensure_i2c_online (s : acm W) : Z * acm W :=
  let '(ret, v, s) := acm8635_probe_online (0, 0, 0) s in
  if ret =? 0 then (0, s)
  else
    let s := acm8635_i2c_bus_recovery s in
    let '(ret, v, s) := acm8635_probe_online v s in
    if ret =? 0 then (0, s)
    else
      let '(ret, s) := acm8635_dsp_configure (ac_volume s) s in
      if negb (ret =? 0) then (ret, s)
      else
        let '(ret, v, s) := acm8635_probe_online v s in
        if negb (ret =? 0) then (ret, s) else (0, acm8635_log_play_state s).

(** ** The amplifier interface *)

(** [acm8635_register_init] *)
Definition acm8635_register_init (s : acm W) : Z * acm W :=
  let s := mk_acm (ac_bound s) CODEC_ACM8635_I2C_ADDR (ac_volume s) (ac_playing s) (ac_slept s) (ac_w s) in
  let '(_, _, s) := acm8635_read_chip_id (0, 0, 0) s in
  let '(ret, s) := acm8635_load_reg_tables s in
  if negb (ret =? 0) then (ret, s)
  else (0, acm8635_log_play_state (acm8635_set_volume CODEC_ACM8635_INIT_VOLUME s)).

(** [acm8635_init]; [found]: the I2C device is there. *)
Definition acm8635_init (found : bool) (s : acm W) : Z * acm W :=
  let s := mk_acm found (ac_addr s) (ac_volume s) (ac_playing s) (ac_slept s) (ac_w s) in
  if negb found then (- ENODEV, s)
  else
    let s := set_volume_field CODEC_ACM8635_INIT_VOLUME s in
    let s := set_w (i2c_configure (mk_dev_config I2C_SPEED_STANDARD true) (ac_w s)).2 s in
    acm8635_register_init (acm8635_i2c_bus_recovery s).

(** [acm8635_amp_open], [acm8635_amp_stop], [acm8635_amp_close] *)
Definition acm8635_amp_open (s : acm W) : Z * acm W := (0, s).
Definition acm8635_amp_stop (s : acm W) : Z * acm W :=
  if negb (ac_bound s) then (- ENODEV, s) else (0, set_playing false s).
Definition acm8635_amp_close (s : acm W) : Z * acm W := acm8635_amp_stop s.

(** [acm8635_amp_start] behind the check for a running amplifier: volume and
    play state; a second attempt when the chip does not report it; a last one
    after faults.  [v] and [f] are the status and fault registers as last read. *)
Definition start_enable (s : acm W) : (Z * Z * Z) * acm W :=
  let '(f, s) := acm8635_read_fault_regs (0, 0, 0) s in
  let s := if acm8635_has_fault f then acm8635_recover_faults s else s in
  let s := acm8635_set_volume (ac_volume s) s in
  let s := acm8635_play_enable s in
  (f, set_playing true (k_sleep 10 s)).
Definition start_again (v f : Z * Z * Z) (s : acm W) : (Z * Z * Z) * (Z * Z * Z) * acm W :=
  let s := k_sleep 10 (acm8635_play_enable s) in
  let '(_, v, s) := acm8635_read_status_regs v s in
  let '(f, s) := acm8635_read_fault_regs f s in
  (v, f, s).
Definition start_faulty (v f : Z * Z * Z) (s : acm W) : acm W :=
  let s := acm8635_recover_faults s in
  let s := k_sleep 10 (acm8635_play_enable s) in
  let s := acm8635_log_play_state s in
  let '(_, v, s) := acm8635_read_status_regs v s in
  (acm8635_read_fault_regs f s).2.
Definition not_playing (v : Z * Z * Z) : bool :=
  let '(_, ctrl, stat) := v in negb (stat =? ACM8635_STATE_RPT_PLAY) || negb (ctrl =? ACM8635_STATE_PLAY).
Definition start_play (s : acm W) : acm W :=
  let '(f, s) := start_enable s in
  let '(_, v, s) := acm8635_read_status_regs (0, 0, 0) s in
  let '(f, s) := acm8635_read_fault_regs f s in
  let '(v, f, s) := if not_playing v then start_again v f s else (v, f, s) in
  let s := acm8635_log_play_state s in
  if acm8635_has_fault f then start_faulty v f s else s.
Definition acm8635_amp_start (s : acm W) : Z * acm W :=
  if negb (ac_bound s) then (- ENODEV, s)
  else
    let '(ret, s) := acm8635_ensure_i2c_online s in
    if negb (ret =? 0) then (ret, s)
    else
      let '(_, s) := acm8635_write_byte 0x00 0x00 s in
      let '(ret, state, s) := acm8635_read_byte 0x04 0 s in
      if (ret =? 0) && (state =? ACM8635_STATE_PLAY) && ac_playing s then (0, s)
      else (0, start_play s).

(** [acm8635_amp_set_volume], [acm8635_amp_set_reg], [acm8635_amp_dump_regs] *)
Definition acm8635_amp_set_volume (volume : Z) (s : acm W) : Z * acm W :=
  if negb (ac_bound s) then (- ENODEV, s) else (0, acm8635_set_volume volume s).
Definition acm8635_amp_set_reg (addr dat : Z) (s : acm W) : Z * acm W := acm8635_write_byte addr (u8 dat) s.
Definition acm8635_amp_dump_regs (s : acm W) : Z * acm W := (- ENOTSUP, s).
End driver.

(** ** The chip *)

(** Registers that keep what is written to them: coefficient memory (page 4 and
    up) and the control register 0x04 of page 0.  The writes that leave the other
    kept registers alone are those to them and the clearing of the fault log. *)
Definition kept (page reg : Z) : Prop := (4 <= page ∧ reg ≠ 0) ∨ (page = 0 ∧ reg = 4).
Definition benign (page reg val : Z) : Prop :=
  kept page reg ∨ (page = 0 ∧ reg = ACM8635_FAULT_CLR_REG ∧ val = ACM8635_FAULT_CLR_BIT).

Class AcmChip (R : Type) `{!RegChip R} := {
  chip_page : R → Z;
  chip_reg : R → Z → Z → Z;
  chip_page_write v r :
    is_u8 v → chip_page (rc_write 0 v r) = v ∧
    ∀ p q, kept p q → chip_reg (rc_write 0 v r) p q = chip_reg r p q;
  chip_reg_write q v r :
    q ≠ 0 → is_u8 q → is_u8 v → benign (chip_page r) q v →
    chip_page (rc_write q v r) = chip_page r ∧
    ∀ p' q', kept p' q' →
      chip_reg (rc_write q v r) p' q' = if decide (p' = chip_page r ∧ q' = q) then v else chip_reg r p' q';
  chip_read_value q r : kept (chip_page r) q → (rc_read q r).1 = chip_reg r (chip_page r) q;
  chip_read_keeps q r :
    chip_page (rc_read q r).2 = chip_page r ∧
    ∀ p' q', kept p' q' → chip_reg (rc_read q r).2 p' q' = chip_reg r p' q';
}.

(** The lines of the board's bus, for the recovery routine. *)
#[export] Instance i2c_gpio_io {D} `{!SlaveDev D} : I2cIo (i2c_gpio D) := {
  io_set_scl := λ v c, mk_i2c_gpio (ig_hz c) (ig_delays c) (io_set_scl v (ig_bus c));
  io_set_sda := λ v c, mk_i2c_gpio (ig_hz c) (ig_delays c) (io_set_sda v (ig_bus c));
  io_get_scl := λ c, io_get_scl (ig_bus c);
  io_get_sda := λ c, io_get_sda (ig_bus c);
  io_delay := λ n c, mk_i2c_gpio (ig_hz c) (ig_delays c) (io_delay n (ig_bus c));
}.

(** ** Recovery frees the bus *)

Section recovery.
Context {D : Type} `{!SlaveDev D}.
Implicit Types (dev : D) (b : bus D).

(** The states a slave can be left in: it pulls the line only while it
    acknowledges or sends. *)
Definition bus_wf (b : bus D) : Prop :=
  match b_state b with
  | SlIdle | SlWaitAck | SlGotAck => b_slave_sda b = true
  | SlShift _ k _ => b_slave_sda b = true ∧ (k <= 8)%nat
  | SlAcking _ => True
  | SlSend k _ => (1 <= k <= 8)%nat
  end.

Lemma clock_idle dev : recovery_clock (bus_idle dev) = bus_idle dev.
Proof. done. Qed.
Lemma clocks_idle n dev : Nat.iter n recovery_clock (bus_idle dev) = bus_idle dev.
Proof. induction n as [|n IH]; [done|]. cbn [Nat.iter nat_rect]. unfold Nat.iter in IH. by rewrite IH. Qed.

(** One clock while the slave sends. *)
Lemma clock_send sda (k : nat) byte dev :
  (1 <= k <= 8)%nat →
  recovery_clock (mk_bus true true sda (SlSend k byte) dev) =
  if decide (k = 8%nat) then bus_idle dev else mk_bus true true (byte_bit byte k) (SlSend (S k) byte) dev.
Proof.
  intros Hk. destruct k as [|k]; [lia|]. do 8 (destruct k as [|k]; [done|]). lia.
Qed.
Lemma clocks_send n : ∀ sda k byte dev,
  (1 <= k <= 8)%nat → (9 - k <= n)%nat →
  Nat.iter n recovery_clock (mk_bus true true sda (SlSend k byte) dev) = bus_idle dev.
Proof.
  induction n as [|n IH]; intros sda k byte dev Hk Hn; [lia|].
  rewrite Nat.iter_succ_r, clock_send by done. case_decide; [apply clocks_idle|]. apply IH; lia.
Qed.

(** One clock while it receives. *)
Lemma clock_shift (k : nat) acc dev :
  (k < 8)%nat →
  recovery_clock (mk_bus true true true (SlShift false k acc) dev) =
  mk_bus true true true (SlShift false (S k) (2 * acc + 1)) dev.
Proof. intros Hk. do 8 (destruct k as [|k]; [done|]). lia. Qed.

(** Nine clocks from a slave that holds the line end in the idle state, or in the
    acknowledge of a byte of ones. *)
Lemma clocks_held sda st dev :
  (match st with SlAcking _ => True | SlSend k _ => (1 <= k <= 8)%nat | _ => False end) →
  ∃ dev', Nat.iter 9 recovery_clock (mk_bus true true sda st dev) = bus_idle dev' ∨
    ∃ s, Nat.iter 9 recovery_clock (mk_bus true true sda st dev) = mk_bus true true s (SlAcking false) dev'.
Proof.
  destruct st as [| |[|]|k byte| |]; try done; intros Hst.
  - exists (load_byte dev).2. left. rewrite Nat.iter_succ_r.
    assert (∃ byte, recovery_clock (mk_bus true true sda (SlAcking true) dev) =
                    mk_bus true true (byte_bit byte 0) (SlSend 1 byte) (load_byte dev).2) as (byte & ->).
    { unfold recovery_clock, load_byte. cbn -[byte_bit]. unfold bus_set_scl. cbn -[byte_bit].
      unfold load_byte. destruct (sl_tx dev) as [byte dev']. by exists byte. }
    apply clocks_send; lia.
  - exists (sl_rx 255 dev).2.
    assert (Hrx : Nat.iter 9 recovery_clock (mk_bus true true sda (SlAcking false) dev) =
      if (sl_rx 255 dev).1 then mk_bus true true false (SlAcking false) (sl_rx 255 dev).2
      else bus_idle (sl_rx 255 dev).2).
    { rewrite Nat.iter_succ_r. change (recovery_clock _) with (mk_bus true true true (SlShift false 1 1) dev).
      do 7 (rewrite Nat.iter_succ_r, clock_shift by lia).
      rewrite Nat.iter_succ_r. unfold recovery_clock, io_set_scl, io_delay, bus_io, bus_set_scl.
      cbn [b_scl b_state b_dev on_fall b_slave_sda b_sda]. change (2 * _ + 1) with 255.
      by destruct (sl_rx 255 dev) as [[|] dev']. }
    rewrite Hrx. destruct (sl_rx 255 dev).1; [right|left]; eauto.
  - exists dev. left. apply clocks_send; lia.
Qed.

(** The clock falls. *)
Lemma bus_wf_fall b : bus_wf b → bus_wf (io_set_scl false b) ∧ b_scl (io_set_scl false b) = false.
Proof.
  destruct b as [[|] sda s st dev]; [|done]. unfold bus_wf.
  destruct st as [|[|] k acc|[|]|k byte| |]; cbn -[byte_bit]; intros Hwf; try done.
  - destruct Hwf as [-> Hk]. do 9 (destruct k as [|k]; [try (split; [split; [done|lia]|done])|]); [|lia].
    cbn. by destruct (_ =? _).
  - destruct Hwf as [-> Hk]. do 9 (destruct k as [|k]; [try (split; [split; [done|lia]|done])|]); [|lia].
    cbn. by destruct (sl_rx acc dev) as [[|] dev'].
  - unfold bus_set_scl. cbn -[byte_bit]. unfold load_byte. destruct (sl_tx dev). split; [cbn; lia|done].
  - split; [split; [done|lia]|done].
  - destruct k as [|k]; [lia|]. do 8 (destruct k as [|k]; [cbn -[byte_bit]; split; [first [done|lia]|done]|]). lia.
  - unfold bus_set_scl. cbn -[byte_bit]. unfold load_byte. destruct (sl_tx dev). split; [cbn; lia|done].
Qed.

(** The data line is pulled, the clock rises and the data line is let go: a STOP,
    unless the slave pulls the line too. *)
Lemma stop_attempt b :
  bus_wf b → b_scl b = false →
  let b1 := io_set_sda true (io_set_scl true (io_set_sda false b)) in
  (∃ dev, b1 = bus_idle dev) ∨
  ∃ st dev, b1 = mk_bus true true false st dev ∧
    match st with SlAcking _ => True | SlSend k _ => (1 <= k <= 8)%nat | _ => False end.
Proof.
  destruct b as [scl sda s st dev]. cbn [b_scl]. intros Hwf ->. unfold bus_wf in Hwf. cbn [b_state b_slave_sda] in Hwf.
  destruct s; [left; by exists dev|]. right.
  destruct st as [|a k acc|r|k byte| |]; try (exfalso; naive_solver); by eexists _, dev.
Qed.

(** Whatever state the slave was left in, even pulling the data line low in the
    middle of a byte, the recovery routine brings the bus to rest. *)
Lemma bus_recovery_idle b : bus_wf b → ∃ dev, acm8635_i2c_gpio_bus_recovery b = bus_idle dev.
Proof.
  intros [Hwf Hscl]%bus_wf_fall.
  assert (Hfin : ∀ b1, (∃ dev, b1 = bus_idle dev) ∨ (∃ s dev, b1 = mk_bus true true s (SlAcking false) dev) →
    ∃ dev, io_set_sda true (io_set_scl true (io_set_sda true (io_set_scl true (io_set_scl false (io_set_sda false b1)))))
           = bus_idle dev).
  { intros b1 [(dev & ->)|([|] & dev & ->)]; by exists dev. }
  unfold acm8635_i2c_gpio_bus_recovery, acm8635_twi_gpio_mode_out. cbn [io_delay bus_io].
  pose proof (stop_attempt _ Hwf Hscl) as Hhead. cbv zeta in Hhead. apply Hfin.
  destruct Hhead as [(dev & Hb)|(st & dev & Hb & Hst)]; cbn [io_set_scl io_set_sda bus_io] in Hb |- *; rewrite Hb.
  - left. exists dev. apply clocks_idle.
  - destruct (clocks_held false st dev Hst) as (dev' & [Hc|(s & Hc)]); [left|right]; eauto.
Qed.
End recovery.

(** ** The driver and the chip *)

(** What the driver relies on: a bus at rest with the chip in state [r] carries a
    register write and a register read, and stays at rest under configuration
    and recovery. *)
Class RegBus (W R : Type) `{!I2cDrv W} `{!I2cIo W} `{!RegChip R} := {
  rb_rest : R → W → Prop;
  rb_write addr reg val r w :
    0 <= addr < 128 → is_u8 reg → is_u8 val → rb_rest r w →
    ∃ w', i2c_write [reg; val] addr w = (if addr =? rc_address R then 0 else - EIO, w') ∧
      rb_rest (if addr =? rc_address R then rc_write reg val r else r) w';
  rb_read addr reg val r w :
    0 <= addr < 128 → is_u8 reg → is_u8 val → rb_rest r w →
    ∃ w', i2c_reg_read_byte addr reg val w =
        (if addr =? rc_address R then 0 else - EIO, if addr =? rc_address R then u8 (rc_read reg r).1 else val, w') ∧
      rb_rest (if addr =? rc_address R then (rc_read reg r).2 else r) w';
  rb_configure raw r w : rb_rest r w → rb_rest r (i2c_configure raw w).2;
  rb_recovery r w : rb_rest r w → rb_rest r (acm8635_i2c_gpio_bus_recovery w);
}.

Section chip.
Context {W R : Type} `{!I2cDrv W} `{!I2cIo W} `{!RegChip R} `{!RegBus W R} `{!AcmChip R}.
Implicit Types (s : acm W) (r : R).

(** The driver talks to the chip, the bus is at rest and the chip's state is
    [r]. *)
Definition chip_at (s : acm W) (r : R) : Prop :=
  rb_rest r (ac_w s) ∧ ac_addr s = rc_address R ∧ 0 <= rc_address R < 128.

(** Same driver data, except what is said. *)
Definition same_data (s s' : acm W) : Prop :=
  ac_bound s' = ac_bound s ∧ ac_addr s' = ac_addr s ∧ ac_volume s' = ac_volume s ∧ ac_playing s' = ac_playing s.
#[export] Instance same_data_po : PreOrder same_data.
Proof.
  split; [by intros s|]. intros s1 s2 s3 (A1 & A2 & A3 & A4) (B1 & B2 & B3 & B4). repeat split; congruence.
Qed.

(** Every transfer reaches the chip. *)
Lemma write_byte_chip reg val s r :
  chip_at s r →
  ∃ s', acm8635_write_byte reg val s = (0, s') ∧ chip_at s' (rc_write (u8 reg) (u8 val) r) ∧ same_data s s'.
Proof.
  intros (Hr & Ha & Hrange). unfold acm8635_write_byte. rewrite Ha.
  destruct (rb_write (rc_address R) (u8 reg) (u8 val) r (ac_w s) Hrange (u8_range _) (u8_range _) Hr)
    as (c' & -> & Hc). rewrite Z.eqb_refl in *.
  eexists. split; [reflexivity|]. split; [|done].
  split; [exact Hc|by split].
Qed.
Lemma read_byte_chip reg val s r :
  chip_at s r → is_u8 reg → is_u8 val →
  ∃ s', acm8635_read_byte reg val s = (0, u8 (rc_read reg r).1, s') ∧ chip_at s' (rc_read reg r).2 ∧ same_data s s'.
Proof.
  intros (Hr & Ha & Hrange) Hreg Hv. unfold acm8635_read_byte. rewrite Ha.
  destruct (rb_read (rc_address R) reg val r (ac_w s) Hrange Hreg Hv Hr) as (c' & -> & Hc).
  rewrite Z.eqb_refl in *. eexists. split; [reflexivity|]. split; [|done].
  split; [exact Hc|by split].
Qed.

(** What a list of writes does to the chip. *)
Definition chip_writes (l : list (Z * Z)) (r : R) : R := foldl (λ r e, rc_write (u8 e.1) (u8 e.2) r) r l.

Lemma write_all_chip l : ∀ s r,
  chip_at s r → chip_at (write_all l s) (chip_writes l r) ∧ same_data s (write_all l s).
Proof.
  induction l as [|[reg val] l IH]; intros s r Hs; [done|]. cbn [write_all chip_writes foldl fst snd].
  destruct (write_byte_chip reg val s r Hs) as (s' & -> & Hs' & Hd). cbn [snd].
  destruct (IH s' _ Hs') as [Hc Hd']. split; [done|by etrans].
Qed.
Lemma load_reg_table_chip l : ∀ s r,
  chip_at s r → ∃ s', acm8635_load_reg_table l s = (0, s') ∧ chip_at s' (chip_writes l r) ∧ same_data s s'.
Proof.
  induction l as [|[reg val] l IH]; intros s r Hs; [by exists s|]. cbn [acm8635_load_reg_table chip_writes foldl fst snd].
  destruct (write_byte_chip reg val s r Hs) as (s' & -> & Hs' & Hd). cbn [Z.eqb negb].
  destruct (IH s' _ Hs') as (s'' & -> & Hc & Hd'). exists s''. split_and!; [done|done|by etrans].
Qed.

(** The kept registers are a function [f] of page and register. *)
Definition shows (s : acm W) (f : Z → Z → Z) : Prop :=
  ∃ r, chip_at s r ∧ ∀ p q, kept p q → chip_reg r p q = f p q.

(** Three bytes. *)
Definition u8s (v : Z * Z * Z) : Prop := is_u8 v.1.1 ∧ is_u8 v.1.2 ∧ is_u8 v.2.
Lemma u8s_0 : u8s (0, 0, 0).
Proof. done. Qed.
Lemma u8s_u8 a b c : u8s (u8 a, u8 b, u8 c).
Proof. split; [apply u8_range|]. split; apply u8_range. Qed.
#[local] Hint Resolve u8s_0 u8s_u8 : core.

(** Reading leaves them alone. *)
Lemma kept_read q r : ∀ p' q', kept p' q' → chip_reg (rc_read q r).2 p' q' = chip_reg r p' q'.
Proof. apply chip_read_keeps. Qed.
Lemma read_three_shows q1 q2 q3 v s f :
  shows s f → is_u8 q1 → is_u8 q2 → is_u8 q3 → u8s v →
  ∃ v' s', read_three q1 q2 q3 v s = (0, v', s') ∧ shows s' f ∧ same_data s s' ∧
    u8s v' ∧ (q2 = 4 → v'.1.2 = u8 (f 0 4)).
Proof.
  intros (r & Hs & Hf) H1 H2 H3 (Hv1 & Hv2 & Hv3). destruct v as [[v1 v2] v3]. cbn [fst snd] in *. unfold read_three.
  destruct (write_byte_chip 0 0 s r Hs) as (s0 & -> & Hs0 & D0). cbn [Z.eqb negb].
  set (r0 := rc_write (u8 0) (u8 0) r) in *.
  destruct (read_byte_chip q1 v1 s0 r0 Hs0 H1 Hv1) as (s1 & -> & Hs1 & D1). cbn [Z.eqb negb].
  destruct (read_byte_chip q2 v2 s1 _ Hs1 H2 Hv2) as (s2 & -> & Hs2 & D2). cbn [Z.eqb negb].
  destruct (read_byte_chip q3 v3 s2 _ Hs2 H3 Hv3) as (s3 & -> & Hs3 & D3).
  destruct (chip_page_write 0 r ltac:(done)) as [Hpage Hkeep].
  change (rc_write 0 0 r) with r0 in Hpage, Hkeep.
  eexists _, s3. split; [reflexivity|]. split_and!; [|by do 3 (etrans; [eassumption|])|apply u8s_u8|].
  - eexists. split; [exact Hs3|]. intros p q Hk. rewrite !kept_read by done. by rewrite <- Hf, <- Hkeep.
  - intros ->. cbn [fst snd]. f_equal. destruct (chip_read_keeps q1 r0) as [Hp Hk].
    rewrite chip_read_value by (rewrite Hp, Hpage; right; done).
    rewrite Hp, Hpage, Hk, Hkeep, Hf by (right; done). done.
Qed.

Lemma read_faults_shows v s f :
  shows s f → u8s v →
  ∃ v' s', acm8635_read_fault_regs v s = (v', s') ∧ shows s' f ∧ same_data s s' ∧ u8s v'.
Proof.
  intros (r & Hs & Hf) (Hv1 & Hv2 & Hv3). destruct v as [[v1 v2] v3]. cbn [fst snd] in *. unfold acm8635_read_fault_regs.
  destruct (write_byte_chip 0 0 s r Hs) as (s0 & -> & Hs0 & D0).
  destruct (read_byte_chip 0x17 v1 s0 _ Hs0 ltac:(done) Hv1) as (s1 & -> & Hs1 & D1).
  destruct (read_byte_chip 0x18 v2 s1 _ Hs1 ltac:(done) Hv2) as (s2 & -> & Hs2 & D2).
  destruct (read_byte_chip 0x19 v3 s2 _ Hs2 ltac:(done) Hv3) as (s3 & -> & Hs3 & D3).
  destruct (chip_page_write 0 r ltac:(done)) as [_ Hkeep].
  eexists _, s3. split; [reflexivity|]. split_and!; [|by do 3 (etrans; [eassumption|])|apply u8s_u8].
  eexists. split; [exact Hs3|]. intros p q Hk. rewrite !kept_read by done. by rewrite <- Hf, <- Hkeep.
Qed.

(** Lists of writes, as an update of page and kept registers. *)
Definition upd (p q v : Z) (f : Z → Z → Z) : Z → Z → Z := λ p' q', if decide (p' = p ∧ q' = q) then v else f p' q'.
Fixpoint spec_writes (l : list (Z * Z)) (page : Z) (f : Z → Z → Z) : Z * (Z → Z → Z) :=
  match l with
  | [] => (page, f)
  | (q, v) :: l => if q =? 0 then spec_writes l v f else spec_writes l page (upd page q v f)
  end.
Fixpoint benign_all (l : list (Z * Z)) (page : Z) : Prop :=
  match l with
  | [] => True
  | (q, v) :: l => is_u8 q ∧ is_u8 v ∧ if q =? 0 then benign_all l v else benign page q v ∧ benign_all l page
  end.

Lemma chip_writes_spec l : ∀ r page f,
  chip_page r = page → (∀ p q, kept p q → chip_reg r p q = f p q) → benign_all l page →
  chip_page (chip_writes l r) = (spec_writes l page f).1 ∧
  ∀ p q, kept p q → chip_reg (chip_writes l r) p q = (spec_writes l page f).2 p q.
Proof.
  induction l as [|[q v] l IH]; intros r page f Hp Hf Hb; [done|].
  cbn [benign_all] in Hb. destruct Hb as (Hq & Hv & Hb). cbn [chip_writes foldl spec_writes fst snd].
  rewrite (u8_id q), (u8_id v) by done. destruct (Z.eqb_spec q 0) as [->|Hne].
  - destruct (chip_page_write v r Hv) as [Hp' Hk]. apply IH; [done|by intros; rewrite Hk, Hf|done].
  - destruct Hb as [Hben Hb]. rewrite <- Hp in Hben. destruct (chip_reg_write q v r Hne Hq Hv Hben) as [Hp' Hk].
    apply IH; [congruence| |done]. intros p' q' Hk'. rewrite Hk by done. unfold upd. rewrite Hp. case_decide; auto.
Qed.

Lemma write_all_shows l s f v rest :
  shows s f → l = (0, v) :: rest → is_u8 v → benign_all rest v →
  shows (write_all l s) (spec_writes rest v f).2 ∧ same_data s (write_all l s).
Proof.
  intros (r & Hs & Hf) -> Hv Hb. destruct (write_all_chip ((0, v) :: rest) s r Hs) as [Hc Hd].
  split; [|done]. eexists. split; [exact Hc|].
  destruct (chip_writes_spec ((0, v) :: rest) r (chip_page r) f eq_refl Hf) as [_ Hk]; [by split|].
  exact Hk.
Qed.

(** ** Volume *)

(** The coefficient registers of the three channels, and which byte of the gain
    they hold. *)
Definition vol_index (p q : Z) : option Z :=
  if decide (p = 4) then
    if decide (0x8c <= q <= 0x8f) then Some (q - 0x8c)
    else if decide (0x90 <= q <= 0x93) then Some (q - 0x90) else None
  else if decide (p = 0xc ∧ 0x5c <= q <= 0x5f) then Some (q - 0x5c) else None.
Definition with_volume (vol : Z) (f : Z → Z → Z) : Z → Z → Z :=
  λ p q, match vol_index p q with Some i => vol_byte vol i | None => f p q end.
Definition with_ctrl (v : Z) (f : Z → Z → Z) : Z → Z → Z := upd 0 4 v f.

Lemma vol_table_bytes : bytes_ok acm8635_vol_table.
Proof. apply (bool_decide_unpack _). by vm_compute. Qed.
Lemma vol_byte_u8 vol i : is_u8 (vol_byte vol i).
Proof. apply getb_u8, vol_table_bytes. Qed.

Lemma volume_writes_spec vol f p q :
  (spec_writes (tail (volume_writes vol)) 4 f).2 p q = with_volume vol f p q.
Proof.
  cbn [volume_writes tail spec_writes Z.eqb snd]. unfold with_volume, vol_index, upd.
  destruct (decide (p = 4)) as [->|H4].
  - destruct (decide (0x8c <= q <= 0x8f)); [|destruct (decide (0x90 <= q <= 0x93))];
      repeat match goal with |- context [decide (?a = ?b ∧ q = ?e)] =>
        destruct (decide (a = b ∧ q = e)) as [[? ->]|?]; [done || lia|] end; done || lia.
  - destruct (decide (p = 0xc ∧ 0x5c <= q <= 0x5f)) as [[-> Hq]|Hn];
      repeat match goal with |- context [decide (?a = ?b ∧ q = ?e)] =>
        destruct (decide (a = b ∧ q = e)) as [[? ->]|?]; [done || lia|] end; done || lia.
Qed.

Definition cap_volume (vol : Z) : Z := if 16 <? vol then 16 else vol.

Lemma set_volume_shows vol s f :
  shows s f →
  let s' := acm8635_set_volume vol s in
  shows s' (with_volume (cap_volume vol) f) ∧ ac_volume s' = cap_volume vol ∧
  ac_bound s' = ac_bound s ∧ ac_addr s' = ac_addr s ∧ ac_playing s' = ac_playing s.
Proof.
  intros Hs. cbv zeta. unfold acm8635_set_volume. fold (cap_volume vol).
  destruct (write_all_shows (volume_writes (cap_volume vol)) s f 4 _ Hs eq_refl ltac:(done)) as [(r & Hr & Hf) (D1 & D2 & _ & D4)].
  { cbn. split_and!; try apply vol_byte_u8; try done; left; left; lia. }
  split_and!; [|done..]. exists r. split; [exact Hr|]. intros p q Hk. rewrite Hf by done. apply volume_writes_spec.
Qed.

Lemma play_enable_shows s f :
  shows s f → shows (acm8635_play_enable s) (with_ctrl ACM8635_STATE_PLAY f) ∧ same_data s (acm8635_play_enable s).
Proof.
  intros Hs. apply (write_all_shows _ s f 0 [(4, ACM8635_STATE_PLAY)] Hs eq_refl); [done|].
  cbn. split_and!; try done. left. right. done.
Qed.
Lemma sleep_shows ms s f : shows s f → shows (k_sleep ms s) f ∧ same_data s (k_sleep ms s).
Proof. done. Qed.
Lemma fault_clear_shows s f : shows s f → shows (acm8635_fault_clear s) f ∧ same_data s (acm8635_fault_clear s).
Proof.
  intros Hs. unfold acm8635_fault_clear.
  destruct (write_all_shows _ s f 0 [(ACM8635_FAULT_CLR_REG, ACM8635_FAULT_CLR_BIT)] Hs eq_refl ltac:(done))
    as [(r & Hr & Hf) Hd].
  { cbn. split_and!; try done. by right. }
  split; [|done]. exists r. split; [exact Hr|]. intros p q Hk. rewrite Hf by done. cbn. unfold upd.
  case_decide as E; [|done]. destruct E as [-> ->]. destruct Hk as [?|[_ ?]]; [lia|done].
Qed.
Lemma recover_faults_shows s f : shows s f → shows (acm8635_recover_faults s) f ∧ same_data s (acm8635_recover_faults s).
Proof.
  intros Hs. unfold acm8635_recover_faults.
  destruct (read_faults_shows (0, 0, 0) s f Hs u8s_0) as (v & s1 & -> & H1 & D1 & _).
  destruct (fault_clear_shows s1 f H1) as [H2 D2].
  destruct (read_faults_shows (0, 0, 0) _ f H2 u8s_0) as (v' & s3 & -> & H3 & D3 & _).
  split; [done|]. by do 2 (etrans; [eassumption|]).
Qed.
Lemma log_play_state_shows s f : shows s f → shows (acm8635_log_play_state s) f ∧ same_data s (acm8635_log_play_state s).
Proof.
  intros Hs. unfold acm8635_log_play_state, acm8635_read_status_regs.
  destruct (read_three_shows 0x15 0x04 0x16 (0, 0, 0) s f Hs) as (v & s1 & -> & H1 & D1 & _); done.
Qed.

(** The scripts leave the chip in the play state, whatever it was in. *)
Lemma load_reg_tables_shows s r :
  chip_at s r → ∃ s' f, acm8635_load_reg_tables s = (0, s') ∧ shows s' f ∧ f 0 4 = ACM8635_STATE_PLAY ∧ same_data s s'.
Proof.
  intros Hs. unfold acm8635_load_reg_tables.
  destruct (load_reg_table_chip acm8635_reg_tab_init s r Hs) as (s1 & -> & H1 & D1). cbn [Z.eqb negb].
  destruct (load_reg_table_chip acm8635_reg_tab_main (k_sleep CODEC_ACM8635_DSP_INIT_DELAY_MS s1) _ H1) as (s2 & -> & H2 & D2).
  cbn [Z.eqb negb]. change (0 <? CODEC_ACM8635_DSP_MAIN_DELAY_MS) with false. cbv iota.
  set (r1 := chip_writes acm8635_reg_tab_init r) in *. clearbody r1.
  exists s2. eexists. split; [reflexivity|]. split_and!; [eexists; split; [exact H2|done]| |by etrans].
  cbv beta. rewrite <- (take_drop 1164 acm8635_reg_tab_main). unfold chip_writes. rewrite foldl_app.
  fold (chip_writes (take 1164 acm8635_reg_tab_main) r1). set (r2 := chip_writes _ r1). clearbody r2.
  change (drop 1164 acm8635_reg_tab_main) with [(0, 0); (4, 2); (4, 3)].
  destruct (chip_writes_spec [(0, 0); (4, 2); (4, 3)] r2 (chip_page r2) (chip_reg r2) eq_refl ltac:(done)) as [_ Hk].
  { cbn. split_and!; try done; left; by right. }
  exact (Hk 0 4 (or_intror (conj eq_refl eq_refl))).
Qed.

(** ** The chip is brought on line *)

Lemma chip_at_shows s r : chip_at s r → shows s (chip_reg r).
Proof. intros Hs. exists r. split; [exact Hs|done]. Qed.

(** The chip answers a probe unless its status registers are all zero. *)
Lemma probe_online_shows v s f :
  shows s f → u8s v →
  ∃ ret v' s', acm8635_probe_online v s = (ret, v', s') ∧ shows s' f ∧ same_data s s' ∧ u8s v' ∧ (ret = 0 ∨ ret = - EIO) ∧ (u8 (f 0 4) ≠ 0 → ret = 0).
Proof.
  intros Hs Hu. unfold acm8635_probe_online, acm8635_read_status_regs.
  destruct (read_three_shows 0x15 0x04 0x16 v s f Hs) as (v' & s1 & -> & Hs1 & D1 & Hv & Hc); try done.
  cbn [Z.eqb negb]. destruct v' as [[r15 ctrl] stat]. cbn [fst snd] in *. unfold acm8635_status_regs_dead.
  destruct ((r15 =? 0) && (ctrl =? 0) && (stat =? 0)) eqn:E.
  - eexists _, _, _. split; [reflexivity|]. refine (conj Hs1 (conj D1 (conj Hv (conj (or_intror eq_refl) _)))). intros Hne. exfalso. apply Hne.
    rewrite <- Hc by done. apply andb_true_iff in E as [E _]. apply andb_true_iff in E as [_ E]. by apply Z.eqb_eq.
  - eexists _, _, _. split; [reflexivity|]. by refine (conj Hs1 (conj D1 (conj Hv (conj (or_introl eq_refl) _)))).
Qed.

Lemma recovery_shows s f :
  shows s f → shows (acm8635_i2c_bus_recovery s) f ∧ same_data s (acm8635_i2c_bus_recovery s).
Proof.
  intros (r & (Hr & Ha & Hrange) & Hf). unfold acm8635_i2c_bus_recovery.
  destruct (negb (ac_bound s)); (split; [|done]); exists r; (split; [|done]); (split; [|by split]).
  - by apply rb_recovery.
  - by apply rb_configure, rb_recovery.
Qed.

(** What the coefficient registers hold. *)
Definition holds_volume (vol : Z) (f : Z → Z → Z) : Prop := ∀ p q i, vol_index p q = Some i → f p q = vol_byte vol i.
Lemma with_volume_holds vol f : holds_volume vol (with_volume vol f).
Proof. intros p q i Hi. unfold with_volume. by rewrite Hi. Qed.
Lemma with_ctrl_holds vol v f : holds_volume vol f → holds_volume vol (with_ctrl v f).
Proof.
  intros Hf p q i Hi. unfold with_ctrl, upd. case_decide as E; [|by apply Hf]. by destruct E as [-> ->].
Qed.
Lemma with_volume_ctrl vol f : with_volume vol f 0 4 = f 0 4.
Proof. done. Qed.

(** From any state of the chip the driver gets through: either the registers are
    as they were, or the scripts have been loaded again and the volume set. *)
Lemma ensure_online_shows s f :
  shows s f → 0 <= ac_volume s <= 16 →
  ∃ s' f', acm8635_ensure_i2c_online s = (0, s') ∧ shows s' f' ∧ same_data s s' ∧
    ((∀ p q, kept p q → f' p q = f p q) ∨ (f' 0 4 = ACM8635_STATE_PLAY ∧ holds_volume (ac_volume s) f')) ∧
    (u8 (f 0 4) ≠ 0 → ∀ p q, kept p q → f' p q = f p q).
Proof.
  intros Hs Hv. unfold acm8635_ensure_i2c_online.
  destruct (probe_online_shows (0, 0, 0) s f Hs) as (ret & v & s1 & -> & H1 & D1 & U1 & Hr & Hz); try done.
  destruct Hr as [->| ->]; cbn [Z.eqb Z.opp EIO]; [exists s1, f; split_and!; try done; by left|].
  destruct (recovery_shows s1 f H1) as [H2 D2].
  destruct (probe_online_shows v _ f H2 U1) as (ret & v' & s3 & -> & H3 & D3 & U3 & Hr & Hz').
  assert (D13 : same_data s s3) by (by do 2 (etrans; [eassumption|])).
  destruct Hr as [->| ->]; cbn [Z.eqb Z.opp EIO]; [exists s3, f; split_and!; try done; by left|].
  unfold acm8635_dsp_configure. destruct H3 as (r3 & H3 & _).
  destruct (load_reg_tables_shows s3 r3 H3) as (s4 & f4 & -> & H4 & Hc4 & D4). cbn [Z.eqb negb].
  destruct (set_volume_shows (ac_volume s3) s4 f4 H4) as (H5 & V5 & B5 & A5 & P5).
  set (s5 := acm8635_set_volume (ac_volume s3) s4) in *.
  destruct (probe_online_shows v' s5 _ H5 U3) as (ret & v'' & s6 & -> & H6 & D6 & _ & _ & Hz6).
  rewrite Hz6 by (by rewrite with_volume_ctrl, Hc4). cbn [Z.eqb negb].
  destruct (log_play_state_shows s6 _ H6) as [H7 D7].
  destruct D13 as (B13 & A13 & V13 & P13), D4 as (B4 & A4 & V4 & P4).
  assert (Hcap : cap_volume (ac_volume s3) = ac_volume s) by (unfold cap_volume; zbool; lia).
  eexists _, _. split; [reflexivity|]. split_and!; [exact H7| | |].
  - etrans; [|exact D7]. etrans; [|exact D6]. split_and!; congruence.
  - right. rewrite with_volume_ctrl, Hcap. split; [done|apply with_volume_holds].
  - intros Hne. exfalso. by specialize (Hz Hne).
Qed.

(** ** Starting *)

(** The chip plays with the volume of the driver. *)
Definition plays (s : acm W) : Prop := ∃ f, shows s f ∧ u8 (f 0 4) = ACM8635_STATE_PLAY ∧ holds_volume (ac_volume s) f.

Lemma plays_same s s' f :
  shows s' f → f 0 4 = ACM8635_STATE_PLAY → holds_volume (ac_volume s) f → ac_volume s' = ac_volume s → plays s'.
Proof. intros H1 H2 H3 Hv. exists f. rewrite Hv, H2. by split. Qed.

Lemma read_status_shows v s f :
  shows s f → u8s v →
  ∃ v' s', acm8635_read_status_regs v s = (0, v', s') ∧ shows s' f ∧ same_data s s' ∧ u8s v'.
Proof.
  intros Hs Hv. destruct (read_three_shows 0x15 0x04 0x16 v s f Hs) as (v' & s' & E & H & D & U & _); [done..|].
  by exists v', s'.
Qed.

Lemma start_enable_shows s f :
  shows s f → 0 <= ac_volume s <= 16 →
  ∃ v s' f', start_enable s = (v, s') ∧ u8s v ∧ shows s' f' ∧ f' 0 4 = ACM8635_STATE_PLAY ∧
    holds_volume (ac_volume s) f' ∧ same_data (set_playing true s) s'.
Proof.
  intros Hs Hv. unfold start_enable.
  destruct (read_faults_shows (0, 0, 0) s f Hs u8s_0) as (f1 & s1 & -> & H1 & D1 & F1).
  set (s2 := if acm8635_has_fault f1 then acm8635_recover_faults s1 else s1).
  assert (shows s2 f ∧ same_data s s2) as [H2 (B2 & A2 & V2 & P2)].
  { subst s2. destruct (acm8635_has_fault f1); [|done].
    destruct (recover_faults_shows s1 f H1) as [HA HB]. split; [done|by etrans]. }
  clearbody s2. destruct (set_volume_shows (ac_volume s2) s2 f H2) as (H3 & V3 & B3 & A3 & P3).
  assert (Hcap : cap_volume (ac_volume s2) = ac_volume s) by (rewrite V2; unfold cap_volume; zbool; lia).
  rewrite Hcap in H3, V3. destruct (play_enable_shows _ _ H3) as [H4 (B4 & A4 & V4 & P4)].
  eexists _, _, _. split; [reflexivity|]. split; [done|]. split; [exact H4|].
  split; [done|]. split; [apply with_ctrl_holds, with_volume_holds|].
  unfold same_data. cbn [ac_bound ac_addr ac_volume ac_playing set_playing k_sleep]. split_and!; congruence.
Qed.

Lemma start_again_shows v (fl : Z * Z * Z) s g :
  shows s g → u8s v → u8s fl →
  ∃ v' fl' s', start_again v fl s = (v', fl', s') ∧ u8s v' ∧ u8s fl' ∧
    shows s' (with_ctrl ACM8635_STATE_PLAY g) ∧ same_data s s'.
Proof.
  intros Hs V F. unfold start_again. destruct (play_enable_shows s g Hs) as [H1 D1].
  destruct (read_status_shows v (k_sleep 10 (acm8635_play_enable s)) _ H1 V) as (v' & s3 & -> & H3 & D3 & U3).
  destruct (read_faults_shows fl s3 _ H3 F) as (fl' & s4 & -> & H4 & D4 & U4).
  eexists _, _, _. refine (conj eq_refl (conj U3 (conj U4 (conj H4 _)))). etrans; [exact D1|]. by etrans.
Qed.
Lemma start_faulty_shows v (fl : Z * Z * Z) s g :
  shows s g → u8s v → u8s fl →
  shows (start_faulty v fl s) (with_ctrl ACM8635_STATE_PLAY g) ∧ same_data s (start_faulty v fl s).
Proof.
  intros Hs V F. unfold start_faulty. destruct (recover_faults_shows s g Hs) as [H1 D1].
  destruct (play_enable_shows _ g H1) as [H2 D2].
  destruct (log_play_state_shows (k_sleep 10 (acm8635_play_enable (acm8635_recover_faults s))) _ H2) as [H3 D3].
  destruct (read_status_shows v _ _ H3 V) as (v' & s4 & -> & H4 & D4 & U4).
  destruct (read_faults_shows fl s4 _ H4 F) as (f' & s5 & -> & H5 & D5 & U5).
  split; [exact H5|]. etrans; [exact D1|]. etrans; [exact D2|]. etrans; [exact D3|]. by etrans.
Qed.

Lemma start_play_shows s f :
  shows s f → 0 <= ac_volume s <= 16 → plays (start_play s) ∧ same_data (set_playing true s) (start_play s).
Proof.
  intros Hs Hv. unfold start_play.
  destruct (start_enable_shows s f Hs Hv) as (f1 & s1 & g & -> & U1 & H1 & C1 & G1 & D1).
  destruct (read_status_shows (0, 0, 0) s1 g H1 u8s_0) as (v2 & s2 & -> & H2 & D2 & U2).
  destruct (read_faults_shows f1 s2 g H2 U1) as (f3 & s3 & -> & H3 & D3 & U3).
  assert (D13 : same_data (set_playing true s) s3) by (etrans; [exact D1|]; by etrans).
  set (sel := if not_playing v2 then start_again v2 f3 s3 else (v2, f3, s3)).
  assert (∃ v4 f4 s4 g4, sel = (v4, f4, s4) ∧ u8s v4 ∧ u8s f4 ∧ shows s4 g4 ∧ same_data s3 s4 ∧
    g4 0 4 = ACM8635_STATE_PLAY ∧ holds_volume (ac_volume s) g4) as (v4 & f4 & s4 & g4 & -> & U4 & F4 & H4 & D4 & C4 & G4).
  { subst sel. destruct (not_playing v2); [|by eexists _, _, _, g].
    destruct (start_again_shows v2 f3 s3 g H3 U2 U3) as (v4 & f4 & s4 & -> & U4 & F4 & H4 & D4).
    eexists _, _, _, _. refine (conj eq_refl (conj U4 (conj F4 (conj H4 (conj D4 (conj eq_refl _)))))).
    by apply with_ctrl_holds. }
  destruct (log_play_state_shows s4 g4 H4) as [H5 D5].
  assert (D15 : same_data (set_playing true s) (acm8635_log_play_state s4)) by (etrans; [exact D13|]; by etrans).
  destruct (acm8635_has_fault f4).
  - destruct (start_faulty_shows v4 f4 _ g4 H5 U4 F4) as [H6 D6].
    assert (D16 : same_data (set_playing true s) (start_faulty v4 f4 (acm8635_log_play_state s4))) by (by etrans).
    split; [|done]. eapply (plays_same s); [exact H6|done|by apply with_ctrl_holds|apply D16].
  - split; [|done]. eapply (plays_same s); [exact H5|done|done|apply D15].
Qed.

(** Starting from any state of the chip, even after it has lost its registers:
    the call succeeds, and unless a running amplifier is left as it is, the chip
    plays with the driver's volume. *)
Lemma amp_start_shows s f :
  ac_bound s = true → shows s f → 0 <= ac_volume s <= 16 →
  ∃ s' f', acm8635_amp_start s = (0, s') ∧ shows s' f' ∧ ac_bound s' = true ∧ ac_volume s' = ac_volume s ∧
    ac_playing s' = true ∧ u8 (f' 0 4) = ACM8635_STATE_PLAY ∧
    (ac_playing s = false ∨ u8 (f 0 4) ≠ ACM8635_STATE_PLAY ∨ holds_volume (ac_volume s) f →
     holds_volume (ac_volume s) f').
Proof.
  intros Hb Hs Hv. unfold acm8635_amp_start. rewrite Hb. cbn [negb].
  destruct (ensure_online_shows s f Hs Hv) as (s1 & f1 & -> & H1 & D1 & Hcase & Hsame). cbn [Z.eqb negb].
  destruct H1 as (r1 & H1 & Hf1). destruct (write_byte_chip 0 0 s1 r1 H1) as (s2 & -> & H2 & D2).
  destruct (chip_page_write 0 r1 ltac:(done)) as [Hpage Hkeep].
  destruct (read_byte_chip 4 0 s2 _ H2 ltac:(done) ltac:(done)) as (s3 & -> & H3 & D3).
  set (r2 := rc_write (u8 0) (u8 0) r1) in *. change (rc_write 0 0 r1) with r2 in Hpage, Hkeep.
  assert (Hk04 : kept 0 4) by (by right).
  assert (Hval : (rc_read 4 r2).1 = f1 0 4) by (rewrite chip_read_value by (by rewrite Hpage); by rewrite Hpage, Hkeep, Hf1).
  rewrite Hval. cbn [Z.eqb andb].
  assert (H3f : shows s3 f1) by (eexists; split; [exact H3|]; intros; by rewrite kept_read, Hkeep, Hf1).
  assert (D13 : same_data s s3) by (etrans; [exact D1|]; by etrans). destruct D13 as (B & A & V & P).
  destruct (Z.eqb_spec (u8 (f1 0 4)) ACM8635_STATE_PLAY) as [Heq|Hne]; [destruct (ac_playing s3) eqn:Hp|].
  1: { cbn [andb]. exists s3, f1. split_and!; try done; try congruence.
       intros Hreq. destruct Hcase as [Hold|[_ Hnew]]; [|done].
       destruct Hreq as [?|[Hx|Hh]]; [congruence| |].
       - exfalso. apply Hx. by rewrite <- Hold.
       - intros p q i Hi. rewrite Hold; [by apply Hh|]. left. unfold vol_index in Hi. repeat case_decide; try done; lia. }
  all: cbn [andb]; destruct (start_play_shows s3 f1 H3f ltac:(lia)) as [(f4 & H4 & C4 & G4) (B4 & A4 & V4 & P4)];
    cbn [set_playing ac_bound ac_addr ac_volume ac_playing] in *;
    exists (start_play s3), f4; split_and!; try done; try congruence;
    intros _; by rewrite V4, V in G4.
Qed.

(** ** Sequences of calls *)

Inductive amp_op := AmpOpen | AmpClose | AmpStart | AmpStop | AmpSetVol (vol : Z).
Definition amp_exec (op : amp_op) (s : acm W) : Z * acm W :=
  match op with
  | AmpOpen => acm8635_amp_open s
  | AmpClose => acm8635_amp_close s
  | AmpStart => acm8635_amp_start s
  | AmpStop => acm8635_amp_stop s
  | AmpSetVol vol => acm8635_amp_set_volume vol s
  end.
Fixpoint amp_run (ops : list amp_op) (s : acm W) : list Z * acm W :=
  match ops with
  | [] => ([], s)
  | op :: ops => let '(r, s) := amp_exec op s in let '(rs, s) := amp_run ops s in (r :: rs, s)
  end.

(** What the client sees: a volume and whether it has been started. *)
Definition amp_spec (op : amp_op) (a : Z * bool) : Z * bool :=
  match op with
  | AmpOpen => a
  | AmpClose | AmpStop => (a.1, false)
  | AmpStart => (a.1, true)
  | AmpSetVol vol => (cap_volume vol, a.2)
  end.

(** The driver is bound to the chip, the chip plays with its volume. *)
Definition amp_ok (s : acm W) : Prop := ac_bound s = true ∧ 0 <= ac_volume s <= 16 ∧ plays s.

Lemma amp_exec_ok op s :
  amp_ok s → (∀ vol, op = AmpSetVol vol → is_u8 vol) →
  ∃ s', amp_exec op s = (0, s') ∧ amp_ok s' ∧ (ac_volume s', ac_playing s') = amp_spec op (ac_volume s, ac_playing s).
Proof.
  intros (Hb & Hv & f & Hs & Hc & Hh) Hvol. destruct op as [| | | |vol]; cbn [amp_exec amp_spec fst snd].
  - exists s. refine (conj eq_refl (conj (conj Hb (conj Hv _)) eq_refl)). by exists f.
  - unfold acm8635_amp_close, acm8635_amp_stop. rewrite Hb. eexists. split; [reflexivity|].
    refine (conj (conj Hb (conj Hv _)) eq_refl). by exists f.
  - destruct (amp_start_shows s f Hb Hs Hv) as (s' & f' & -> & Hs' & Hb' & Hv' & Hp' & Hc' & Hh').
    exists s'. split; [done|]. split; [|by rewrite Hv', Hp']. split; [done|]. split; [lia|].
    exists f'. split_and!; [done..|rewrite Hv'; apply Hh'; auto].
  - unfold acm8635_amp_stop. rewrite Hb. eexists. split; [reflexivity|].
    refine (conj (conj Hb (conj Hv _)) eq_refl). by exists f.
  - specialize (Hvol vol eq_refl). unfold acm8635_amp_set_volume. rewrite Hb. cbn [negb].
    destruct (set_volume_shows vol s f Hs) as (H1 & V1 & B1 & A1 & P1).
    eexists. split; [reflexivity|]. split; [|by rewrite V1, P1]. split; [congruence|].
    split; [rewrite V1; unfold cap_volume, is_u8 in *; zbool; lia|].
    eexists. split; [exact H1|]. split; [done|rewrite V1; apply with_volume_holds].
Qed.

Lemma amp_run_ok ops : ∀ s,
  amp_ok s → (∀ vol, AmpSetVol vol ∈ ops → is_u8 vol) →
  ∃ s', amp_run ops s = (replicate (length ops) 0, s') ∧ amp_ok s' ∧
    (ac_volume s', ac_playing s') = foldl (λ a op, amp_spec op a) (ac_volume s, ac_playing s) ops.
Proof.
  induction ops as [|op ops IH]; intros s Hs Hvol; [by exists s|]. cbn [amp_run length replicate foldl].
  destruct (amp_exec_ok op s Hs) as (s1 & -> & H1 & Hspec).
  { intros vol ->. apply Hvol. apply elem_of_cons. by left. }
  destruct (IH s1 H1) as (s2 & -> & H2 & Hspec2).
  { intros vol Hin. apply Hvol. apply elem_of_cons. by right. }
  exists s2. split; [done|]. split; [done|]. by rewrite Hspec2, Hspec.
Qed.

(** Initialisation brings the chip from any state to playing at volume 8. *)
Lemma acm8635_init_ok s r :
  rb_rest r (ac_w s) → rc_address R = CODEC_ACM8635_I2C_ADDR →
  ∃ s', acm8635_init true s = (0, s') ∧ amp_ok s' ∧ ac_volume s' = CODEC_ACM8635_INIT_VOLUME ∧
    ac_playing s' = ac_playing s.
Proof.
  intros Hr Haddr. unfold acm8635_init. cbn [negb].
  set (s1 := set_w _ _). set (s2 := acm8635_i2c_bus_recovery s1).
  assert (H2 : rb_rest r (ac_w s2) ∧ ac_bound s2 = true ∧ ac_volume s2 = CODEC_ACM8635_INIT_VOLUME ∧ ac_playing s2 = ac_playing s).
  { split_and!; try done. by apply rb_configure, rb_recovery, rb_configure. }
  clearbody s2. clear s1. destruct H2 as (H2 & B2 & V2 & P2). unfold acm8635_register_init.
  set (s3 := mk_acm _ _ _ _ _ _).
  assert (H3 : chip_at s3 r) by (split; [exact H2|]; rewrite Haddr; by split).
  assert (D3 : ac_bound s3 = true ∧ ac_volume s3 = CODEC_ACM8635_INIT_VOLUME ∧ ac_playing s3 = ac_playing s) by (by split_and!).
  clearbody s3. destruct D3 as (B3 & V3 & P3).
  destruct (read_three_shows 0xfc 0xfd 0xfe (0, 0, 0) s3 _ (chip_at_shows s3 r H3)) as (v & s4 & E4 & H4 & D4 & _); [done..|].
  unfold acm8635_read_chip_id. rewrite E4. destruct H4 as (r4 & H4 & _).
  destruct (load_reg_tables_shows s4 r4 H4) as (s5 & f5 & -> & H5 & C5 & D5). cbn [Z.eqb negb].
  destruct (set_volume_shows CODEC_ACM8635_INIT_VOLUME s5 f5 H5) as (H6 & V6 & B6 & A6 & P6).
  destruct (log_play_state_shows _ _ H6) as [H7 (B7 & A7 & V7 & P7)].
  destruct D4 as (B4 & A4 & V4 & P4), D5 as (B5 & A5 & V5 & P5).
  eexists. split; [reflexivity|]. assert (Hv : ac_volume (acm8635_log_play_state (acm8635_set_volume CODEC_ACM8635_INIT_VOLUME s5)) = 8)
    by (rewrite V7, V6; done).
  split; [|split; [done|congruence]]. split; [congruence|]. split; [rewrite Hv; lia|].
  eexists. split; [exact H7|]. split; [by rewrite with_volume_ctrl, C5|]. rewrite Hv. apply with_volume_holds.
Qed.
End chip.

(** ** The board's bus discharges the interface *)

#[export] Instance i2c_gpio_reg_bus {R} `{!RegChip R} : RegBus (i2c_gpio (reg_dev R)) R.
Proof.
  refine {| rb_rest := at_rest |}.
  - intros addr reg val r w Ha Hr Hv Hw.
    destruct (i2c_write_reg addr reg val r w Ha Hr Hv Hw) as (w' & H1 & H2 & _). by exists w'.
  - intros addr reg val r w Ha Hr Hv Hw.
    destruct (i2c_read_reg addr reg val r w Ha Hr Hv Hw) as (w' & H1 & H2 & _). by exists w'.
  - intros raw r w (first & ptr & Hw). exists first, ptr. cbn. unfold i2c_gpio_configure.
    by destruct (i2c_bitbang_configure _ _ _).
  - intros r w (first & ptr & Hw). exists first, ptr. destruct w as [hz dl b]. cbn [ig_bus] in Hw. by subst b.
Defined.

(** ** Theorems *)

Section lift.
Context {D : Type} `{!SlaveDev D}.
Implicit Types c : i2c_gpio D.
Lemma ig_set_scl v c : ig_bus (io_set_scl v c) = io_set_scl v (ig_bus c).
Proof. reflexivity. Qed.
Lemma ig_set_sda v c : ig_bus (io_set_sda v c) = io_set_sda v (ig_bus c).
Proof. reflexivity. Qed.
Lemma ig_delay n c : ig_bus (io_delay n c) = io_delay n (ig_bus c).
Proof. reflexivity. Qed.
Lemma ig_clocks n c : ig_bus (Nat.iter n recovery_clock c) = Nat.iter n recovery_clock (ig_bus c).
Proof.
  induction n as [|n IH]; [reflexivity|]. rewrite !Nat.iter_succ. unfold recovery_clock at 1 3.
  by rewrite ig_delay, ig_set_scl, ig_delay, ig_set_scl, IH.
Qed.
Lemma ig_recovery c : ig_bus (acm8635_i2c_gpio_bus_recovery c) = acm8635_i2c_gpio_bus_recovery (ig_bus c).
Proof.
  unfold acm8635_i2c_gpio_bus_recovery, acm8635_twi_gpio_mode_out. cbv zeta.
  rewrite ?ig_delay, ?ig_set_sda, ?ig_set_scl.
  repeat (rewrite ig_delay || rewrite ig_set_sda || rewrite ig_set_scl || rewrite ig_clocks). reflexivity.
Qed.
End lift.

(** From every state of lines and slave that the bus can be in, a slave that
    holds the data line low in the middle of a byte included, the nine clocks
    and the stop of the recovery leave both lines high and the slave idle. *)
Theorem acm8635_bus_recovery_frees {D} `{!SlaveDev D} (c : i2c_gpio D) :
  bus_wf (ig_bus c) →
  ∃ dev, ig_bus (acm8635_i2c_gpio_bus_recovery c) = bus_idle dev.
Proof.
  intros Hwf. destruct (bus_recovery_idle (ig_bus c) Hwf) as (dev & Hdev). exists dev. by rewrite ig_recovery.
Qed.

Section theorems.
Context {W R : Type} `{!I2cDrv W} `{!I2cIo W} `{!RegChip R} `{!RegBus W R} `{!AcmChip R}.

(** C8: After the driver has initialised, any sequence of open, start, stop, close
    and set-volume calls succeeds and does to volume and playing flag what the
    specification does; the chip is in play state and its three gain words
    hold the table entry of the volume. *)
Theorem acm8635_calls_refine (s : acm W) (r : R) ops :
  rb_rest r (ac_w s) → rc_address R = CODEC_ACM8635_I2C_ADDR → (∀ vol, AmpSetVol vol ∈ ops → is_u8 vol) →
  ∃ s1 s2, acm8635_init true s = (0, s1) ∧ amp_run ops s1 = (replicate (length ops) 0, s2) ∧
    amp_ok s2 ∧ (ac_volume s2, ac_playing s2) =
                foldl (λ a op, amp_spec op a) (CODEC_ACM8635_INIT_VOLUME, ac_playing s) ops.
Proof.
  intros Hr Ha Hvol. destruct (acm8635_init_ok s r Hr Ha) as (s1 & Hinit & H1 & V1 & P1).
  destruct (amp_run_ok ops s1 H1 Hvol) as (s2 & Hrun & H2 & Hspec). rewrite V1, P1 in Hspec.
  exists s1, s2. by split_and!.
Qed.

(** C20: Whatever the chip registers hold, starting a bound amplifier on a bus at
    rest succeeds, sets the playing flag and keeps the volume; when the driver
    was not playing or the chip had left the play state, it ends in play state
    with the gain of the volume. *)
Theorem acm8635_start_recovers (s : acm W) (r : R) :
  rb_rest r (ac_w s) → ac_bound s = true → ac_addr s = rc_address R → 0 <= rc_address R < 128 →
  0 <= ac_volume s <= 16 →
  ∃ s', acm8635_amp_start s = (0, s') ∧ ac_playing s' = true ∧ ac_volume s' = ac_volume s ∧
    (ac_playing s = false ∨ u8 (chip_reg r 0 4) ≠ ACM8635_STATE_PLAY → amp_ok s').
Proof.
  intros Hr Hb Ha Hrange Hv.
  destruct (amp_start_shows s (chip_reg r) Hb (chip_at_shows s r (conj Hr (conj Ha Hrange))) Hv)
    as (s' & f' & Hrun & Hs' & Hb' & Hv' & Hp' & Hc' & Hh').
  exists s'. refine (conj Hrun (conj Hp' (conj Hv' _))). intros Hreq. split; [done|]. split; [lia|].
  exists f'. refine (conj Hs' (conj Hc' _)). rewrite Hv'. apply Hh'. tauto.
Qed.

(** A chip that does not answer. *)
Definition off_line (s : acm W) (r : R) : Prop :=
  rb_rest r (ac_w s) ∧ 0 <= ac_addr s < 128 ∧ ac_addr s ≠ rc_address R.
Lemma offline_write reg val s (r : R) :
  off_line s r → ∃ s', acm8635_write_byte reg val s = (- EIO, s') ∧ off_line s' r ∧ same_data s s'.
Proof.
  intros (Hr & Ha & Hne). unfold acm8635_write_byte.
  destruct (rb_write (ac_addr s) (u8 reg) (u8 val) r (ac_w s) Ha (u8_range _) (u8_range _) Hr) as (w' & -> & Hw).
  rewrite (proj2 (Z.eqb_neq _ _) Hne) in *. eexists. split; [reflexivity|]. by split.
Qed.
Lemma offline_write_all l : ∀ s (r : R), off_line s r → off_line (write_all l s) r ∧ same_data s (write_all l s).
Proof.
  induction l as [|[q v] l IH]; intros s r Hs; [done|]. cbn [write_all].
  destruct (offline_write q v s r Hs) as (s' & -> & H1 & D1). destruct (IH s' r H1) as [H2 D2].
  split; [done|by etrans].
Qed.
Lemma offline_probe v s (r : R) :
  off_line s r → ∃ s', acm8635_probe_online v s = (- EIO, v, s') ∧ off_line s' r ∧ same_data s s'.
Proof.
  intros Hs. unfold acm8635_probe_online, acm8635_read_status_regs, read_three.
  destruct (offline_write 0 0 s r Hs) as (s' & -> & H1 & D1). exists s'. by destruct v as [[v1 v2] v3].
Qed.

(** With a chip that does not acknowledge, setting the volume still reports
    success and keeps the capped volume for the next start, while starting
    tries recovery and reload and then returns -EIO; the playing flag, the
    volume and the chip are unchanged. *)
Theorem acm8635_offline (s : acm W) (r : R) vol :
  ac_bound s = true → off_line s r → is_u8 vol →
  ∃ s1 s2, acm8635_amp_set_volume vol s = (0, s1) ∧ off_line s1 r ∧ ac_volume s1 = cap_volume vol ∧
    acm8635_amp_start s1 = (- EIO, s2) ∧ off_line s2 r ∧ same_data s1 s2.
Proof.
  intros Hb Hs Hv. unfold acm8635_amp_set_volume, acm8635_set_volume. rewrite Hb. cbn [negb]. fold (cap_volume vol).
  destruct (offline_write_all (volume_writes (cap_volume vol)) s r Hs) as [H1 (B1 & A1 & V1 & P1)].
  set (s1 := set_volume_field (cap_volume vol) (write_all (volume_writes (cap_volume vol)) s)).
  assert (Hs1 : off_line s1 r ∧ ac_bound s1 = true ∧ ac_volume s1 = cap_volume vol) 
    by (split; [exact H1|]; split; [exact (eq_trans B1 Hb)|done]).
  exists s1. enough (∃ s2, acm8635_amp_start s1 = (- EIO, s2) ∧ off_line s2 r ∧ same_data s1 s2) as (s2 & Hs2)
    by (exists s2; exact (conj eq_refl (conj (proj1 Hs1) (conj (proj2 (proj2 Hs1)) Hs2)))).
  clearbody s1. destruct Hs1 as (Hs1 & Hb1 & _). unfold acm8635_amp_start, acm8635_ensure_i2c_online. rewrite Hb1.
  destruct (offline_probe (0, 0, 0) s1 r Hs1) as (s2 & -> & (R2 & A2 & N2) & D2). cbn [negb Z.eqb Z.opp EIO].
  assert (H3 : off_line (acm8635_i2c_bus_recovery s2) r ∧ same_data s2 (acm8635_i2c_bus_recovery s2)).
  { unfold acm8635_i2c_bus_recovery. destruct (negb (ac_bound s2)); (split; [|done]); (split; [|by split]).
    - by apply rb_recovery.
    - by apply rb_configure, rb_recovery. }
  destruct H3 as [H3 D3]. set (s3 := acm8635_i2c_bus_recovery s2) in *. clearbody s3.
  destruct (offline_probe (0, 0, 0) s3 r H3) as (s4 & -> & H4 & D4). cbn [Z.eqb].
  unfold acm8635_dsp_configure, acm8635_load_reg_tables.
  change acm8635_reg_tab_init with ((0, 0) :: tail acm8635_reg_tab_init). cbn [acm8635_load_reg_table].
  destruct (offline_write 0 0 s4 r H4) as (s5 & -> & H5 & D5). cbn [negb Z.eqb].
  exists s5. refine (conj eq_refl (conj H5 _)). etrans; [exact D2|]. etrans; [exact D3|]. by etrans.
Qed.
End theorems.

(** The gain of a volume step as a fixed-point number with 23 fractional bits,
    and the attenuation that the table's comments give, in half decibels. *)
Definition vol_coef (vol : Z) : Z :=
  Z.lor (Z.shiftl (vol_byte vol 0) 24)
    (Z.lor (Z.shiftl (vol_byte vol 1) 16) (Z.lor (Z.shiftl (vol_byte vol 2) 8) (vol_byte vol 3))).
Definition vol_attenuation (vol : Z) : Z :=
  nth (Z.to_nat (16 - vol)) [0; 5; 11; 16; 21; 27; 32; 37; 43; 48; 53; 61; 69; 89; 105; 117; 219] 0.

(** The coefficient [c] is [2^23 * 10^(-h/40)] rounded to nearest, without
    leaving the integers. *)
Definition rounds_to (c h : Z) : Prop :=
  (2 * c - 1) ^ 40 * 10 ^ h <= 2 ^ 960 <= (2 * c + 1) ^ 40 * 10 ^ h.

(** Every entry of the volume table is 2^23 times the attenuation its comment
    gives, rounded to nearest (stated in integers), and the gain strictly
    increases with the volume step. *)
Theorem acm8635_volume_gain vol :
  0 <= vol <= 16 →
  rounds_to (vol_coef vol) (vol_attenuation vol) ∧ (vol < 16 → vol_coef vol < vol_coef (vol + 1)).
Proof.
  intros Hv. assert (Hall : Forall (λ n : nat, rounds_to (vol_coef (Z.of_nat n)) (vol_attenuation (Z.of_nat n)) ∧
      (Z.of_nat n < 16 → vol_coef (Z.of_nat n) < vol_coef (Z.of_nat n + 1))) (seq 0 17)).
  { unfold rounds_to. apply (bool_decide_unpack _). by vm_compute. }
  rewrite Forall_forall in Hall. specialize (Hall (Z.to_nat vol)). rewrite Z2Nat.id in Hall by lia.
  apply Hall, elem_of_seq. lia.
Qed.
Lemma acm8635_volume_gain_witness :
  rounds_to (vol_coef 8) 43 ∧ (8 < 16 → vol_coef 8 < vol_coef (8 + 1)).
Proof. exact (acm8635_volume_gain 8 ltac:(lia)). Defined.

(** ** A chip to run against *)

(** A page register and a memory. *)
Record acm_sim := mk_sim { sim_page : Z; sim_regs : gmap (Z * Z) Z }.
#[export] Instance acm_sim_chip : RegChip acm_sim := {
  rc_address := 0x1c;
  rc_write := λ q v c, if q =? 0 then mk_sim v (sim_regs c)
                       else mk_sim (sim_page c) (<[(sim_page c, q) := v]> (sim_regs c));
  rc_read := λ q c, (if q =? 0 then sim_page c else default 0 (sim_regs c !! (sim_page c, q)), c);
}.
#[export] Instance acm_sim_laws : AcmChip acm_sim.
Proof.
  refine {| chip_page := sim_page; chip_reg := λ c p q, default 0 (sim_regs c !! (p, q)) |}.
  - done.
  - intros q v r Hq _ _ _. cbn. rewrite (proj2 (Z.eqb_neq q 0)) by done. split; [done|]. intros p' q' _. cbn.
    case_decide as E; [destruct E as [-> ->]; by rewrite lookup_insert_eq|].
    rewrite lookup_insert_ne; [done|]. intros [= <- <-]. by apply E.
  - intros q r Hk. cbn. rewrite (proj2 (Z.eqb_neq q 0)); [done|]. destruct Hk; lia.
  - done.
Defined.

(** The driver before initialisation, on an idle bus with a chip that has just
    been powered; and after the chip has lost its registers while playing. *)
Definition sim_bus (r : acm_sim) : i2c_gpio (reg_dev acm_sim) :=
  mk_i2c_gpio 24000000 (delays_standard 24000000) (bus_idle (mk_reg_dev false 0 r)).
Definition acm_boot : acm (i2c_gpio (reg_dev acm_sim)) := mk_acm false 0 0 false 0 (sim_bus (mk_sim 0 ∅)).
Definition acm_lost : acm (i2c_gpio (reg_dev acm_sim)) := mk_acm true 0x1c 12 true 0 (sim_bus (mk_sim 0 ∅)).

Lemma acm8635_calls_refine_witness :
  ∃ s1 s2, acm8635_init true acm_boot = (0, s1) ∧ amp_run [AmpStart; AmpSetVol 200; AmpStop] s1 = ([0; 0; 0], s2) ∧
    amp_ok (R := acm_sim) s2 ∧ (ac_volume s2, ac_playing s2) = (16, false).
Proof.
  apply (acm8635_calls_refine (R := acm_sim) acm_boot (mk_sim 0 ∅) [AmpStart; AmpSetVol 200; AmpStop]).
  - by exists false, 0.
  - reflexivity.
  - intros vol Hv. rewrite !elem_of_cons in Hv. destruct Hv as [?|[Hv|[?|Hv]]]; [done| |done|by apply elem_of_nil in Hv].
    injection Hv as ->. by vm_compute.
Defined.
Lemma acm8635_start_recovers_witness :
  ∃ s', acm8635_amp_start acm_lost = (0, s') ∧ ac_volume s' = 12 ∧ amp_ok (R := acm_sim) s'.
Proof.
  destruct (acm8635_start_recovers (R := acm_sim) acm_lost (mk_sim 0 ∅)) as (s' & Hrun & _ & Hv & Hok);
    [by exists false, 0|done..|cbn; lia|].
  exists s'. split; [exact Hrun|]. split; [exact Hv|]. apply Hok. right. by vm_compute.
Defined.

Lemma acm8635_offline_witness :
  let s := mk_acm true 0x1d 3 false 0 (sim_bus (mk_sim 0 ∅)) in
  ∃ s1 s2, acm8635_amp_set_volume 9 s = (0, s1) ∧ off_line s1 (mk_sim 0 ∅) ∧ ac_volume s1 = 9 ∧
    acm8635_amp_start s1 = (-5, s2) ∧ off_line s2 (mk_sim 0 ∅) ∧ same_data s1 s2.
Proof.
  apply (acm8635_offline (mk_acm true 0x1d 3 false 0 (sim_bus (mk_sim 0 ∅))) (mk_sim 0 ∅) 9); [done| |done].
  split; [by exists false, 0|]. by cbn.
Defined.

(** A slave that pulls the data line low in the middle of a byte. *)
Lemma acm8635_bus_recovery_frees_witness :
  ∃ dev, ig_bus (acm8635_i2c_gpio_bus_recovery
    (mk_i2c_gpio 24000000 (delays_standard 24000000)
       (mk_bus false true false (SlSend 3 0) (mk_reg_dev false 0 (mk_sim 0 ∅))))) = bus_idle dev.
Proof. apply acm8635_bus_recovery_frees. cbn. lia. Defined.
