(* ===== verification/SpeakerAmp.v ===== *)
(** * From the serial link to the amplifier

    The volume manager's calls to the amplifier, replayed on the driver of
    Acm8635.v: what a command of the host and a volume key leave in the gain
    registers of the chip. *)

From stdpp Require Import base numbers list option gmap functions.
From S2P Require Import Prelude Libc Py32Volume Py32Uart Py32Link NvramBits NvramStorage NvramConfig NvramItems NvramRegion NvramStore NvramScan NvramApi NvramSpec PropertyCache PropertyNvram PropertyManager AudioPolicy AudioSystem VolumeManager Speaker I2cBitbang Acm8635.
Local Open Scope Z_scope.

(** The calls of [amp_set_volume] among the announcements. *)
Definition amp_op_of (c : vol_call) : option amp_op :=
  match c with AmpSetVolume v => Some (AmpSetVol v) | _ => None end.
Definition amp_calls (cs : list vol_call) : list amp_op := omap amp_op_of cs.

Lemma amp_calls_app cs ds : amp_calls (cs ++ ds) = amp_calls cs ++ amp_calls ds.
Proof. apply omap_app. Qed.
Lemma amp_calls_skip c cs : amp_op_of c = None → amp_calls (cs ++ [c]) = amp_calls cs.
Proof. intros H. rewrite amp_calls_app. cbn. rewrite H. by rewrite app_nil_r. Qed.
Lemma amp_calls_set v cs : amp_calls (cs ++ [AmpSetVolume v]) = amp_calls cs ++ [AmpSetVol v].
Proof. by rewrite amp_calls_app. Qed.

Section calls.
Context {W : Type} `{!PropIface W}.
Implicit Types (s : @volmgr W) (st : audio_stream).

(** Everything the manager says to the others leaves the amplifier alone. *)
Definition amp_view s : list amp_op * bool := (amp_calls (vm_calls s), vm_amp s).
Lemma view_call c s : amp_op_of c = None → amp_view (vm_call c s) = amp_view s.
Proof. intros H. unfold amp_view. cbn [vm_call vm_calls vm_amp]. by rewrite amp_calls_skip. Qed.
Lemma view_limit c s : amp_op_of c = None → amp_view (limit_event c s) = amp_view s.
Proof.
  intros H. unfold limit_event, k_cycle_get_32. cbn. destruct (500000 <? _); [|done].
  unfold amp_view. cbn. by rewrite amp_calls_skip.
Qed.
Lemma view_fade st o v s : amp_view (system_volume_fade_da_volume st o v s) = amp_view s.
Proof.
  unfold system_volume_fade_da_volume. destruct (audio_policy_is_da_mute st), (v =? 0), (o =? 0);
    by rewrite ?view_call.
Qed.
Lemma view_bt st v s : amp_view (bt_sync st v s) = amp_view s.
Proof. destruct st; cbn [bt_sync]; by rewrite ?view_call. Qed.
Lemma view_amp st v s :
  amp_view (amp_sync st v s) =
  ((amp_view s).1 ++ (if bool_decide (st ∈ amp_streams) && vm_amp s then [AmpSetVol (u8 v)] else []), vm_amp s).
Proof.
  unfold amp_sync. case_decide as E; [rewrite bool_decide_true by done|by rewrite bool_decide_false, app_nil_r].
  destruct (vm_amp s) eqn:Ev; unfold amp_view; cbn; rewrite ?Ev, ?amp_calls_set, ?app_nil_r; done.
Qed.
End calls.

Section replay.
Context {P : Type} `{!PropIface P} `{!PropIfaceLaws P}.
Implicit Types (s : @volmgr P) (st : audio_stream).

(** One volume change calls the amplifier at most once, and only when the
    volume of the stream is another one than before. *)
Lemma system_volume_set_amp st v d s ret a :
  let st' := system_volume_get_map_stream_type st s in
  audio_system_set_stream_volume st' (player_volume st' v s) (vm_audio s) = Some (ret, a) →
  ∃ r s', system_volume_set st v d s = Some (r, s') ∧ vm_audio s' = a ∧
    amp_view s' = (amp_calls (vm_calls s) ++
      (if audio_system_get_stream_volume st (vm_audio s) =? audio_system_get_stream_volume st a then []
       else if bool_decide (st' ∈ amp_streams) && vm_amp s then [AmpSetVol (u8 (player_volume st' v s))] else []),
      vm_amp s).
Proof.
  intros st' Hrun. destruct (system_volume_set_audio st v d s ret a Hrun) as (r & s' & Hset & Ha & _).
  exists r, s'. refine (conj Hset (conj Ha _)). revert Hset. unfold system_volume_set. fold st'.
  set (old := audio_system_get_stream_volume st (vm_audio s)).
  set (s1 := if _ && _ then system_volume_fade_da_volume st' old (player_volume st' v s) s else s).
  assert (H1 : vm_audio s1 = vm_audio s ∧ amp_view s1 = amp_view s)
    by (subst s1; destruct (_ && _); [split; [done|apply view_fade]|done]).
  destruct H1 as [H1 V1]. rewrite H1, Hrun. cbn [mbind option_bind].
  set (s2 := if d && (ret =? MAX_VOLUME_VALUE) then _ else _).
  assert (H2 : vm_audio s2 = a ∧ amp_view s2 = amp_view s).
  { subst s2. destruct (d && (ret =? MAX_VOLUME_VALUE)), (d && (ret =? MIN_VOLUME_VALUE));
      rewrite ?limit_event_audio, ?view_limit by done; (split; [done|exact V1]). }
  destruct H2 as [H2 V2]. clearbody s1 s2. rewrite H2.
  assert (Hget : audio_system_get_stream_volume st' a = audio_system_get_stream_volume st a).
  { unfold audio_system_get_stream_volume. by rewrite (map_stream_slot st s : stream_slot st' = _). }
  assert (Hamp : vm_amp s2 = vm_amp s) by (unfold amp_view in V2; congruence).
  rewrite Hget. destruct (old =? _); intros [= <- <-].
  - rewrite app_nil_r. destruct d; rewrite ?view_call by done; exact V2.
  - destruct d; rewrite ?view_call, view_bt, view_amp, V2, Hamp by done; reflexivity.
Qed.
End replay.

Section amplifier.
Context {F : Type} `{!PropEnv F} `{!PropMgrEnv F} `{!PropLaws F} `{!PropMgrLaws F}.
Context {W R : Type} `{!I2cDrv W} `{!I2cIo W} `{!RegChip R} `{!RegBus W R} `{!AcmChip R}.
Implicit Types (w : @speaker F) (a : acm W).

(** The amplifier bound to the volume manager, the music not from the sound
    bar. *)
Record amp_wired w : Prop := {
  aw_amp : vm_amp (sp_vol w) = true;
  aw_music : system_volume_get_map_stream_type AUDIO_STREAM_MUSIC (sp_vol w) = AUDIO_STREAM_MUSIC;
}.

(** A level set over the link and the amplifier. *)
Lemma level_reaches_amp w mu mf a l :
  speaker_ok w mu mf → amp_wired w → amp_ok a → 0 <= l <= 16 →
  let w' := Py32Uart.system_volume_set l w in
  ∃ ops a', amp_calls (vm_calls (sp_vol w')) = amp_calls (vm_calls (sp_vol w)) ++ ops ∧
    amp_run ops a = (replicate (length ops) 0, a') ∧ amp_ok a' ∧ ac_playing a' = ac_playing a ∧
    if decide (Py32Uart.system_volume_get w = l) then ops = [] ∧ a' = a else ac_volume a' = l.
Proof.
  intros Hw [Hamp Hmus] Ha Hl w'. pose proof (speaker_level w mu mf Hw) as Hlev.
  pose proof (speaker_audio_ok w mu mf Hw) as Hok.
  destruct (system_volume_set_level AUDIO_STREAM_MUSIC l (sp_vol w) Hok ltac:(done)) as (ret & au & Hrun & _ & Hget & _).
  assert (Hpv : player_volume AUDIO_STREAM_MUSIC l (sp_vol w) = l).
  { apply player_volume_in_range. change (vm_audio (sp_vol w)) with (sp_audio w). rewrite Hlev.
    unfold top_level. rewrite decide_False by done. lia. }
  destruct (system_volume_set_amp AUDIO_STREAM_MUSIC l true (sp_vol w) ret au Hrun) as (r & v' & Hset & _ & Hview).
  change (vm_audio (sp_vol w)) with (sp_audio w) in Hget. rewrite Hlev, limited_music in Hget by done.
  rewrite Hmus, Hpv, Hamp, Hget in Hview. rewrite (bool_decide_true (AUDIO_STREAM_MUSIC ∈ amp_streams)) in Hview
    by (apply elem_of_cons; by left). cbn [andb] in Hview.
  assert (Hw' : vm_calls (sp_vol w') = vm_calls v').
  { subst w'. cbn [Py32Uart.system_volume_set speaker_env]. by rewrite Hset. }
  rewrite Hw'. injection Hview as Hview _. rewrite Hview. clear Hw' Hview.
  change (Py32Uart.system_volume_get w) with (audio_system_get_stream_volume AUDIO_STREAM_MUSIC (sp_audio w)).
  change (vm_audio (sp_vol w)) with (sp_audio w).
  destruct (Z.eqb_spec (audio_system_get_stream_volume AUDIO_STREAM_MUSIC (sp_audio w)) l) as [E|E].
  - exists [], a. refine (conj eq_refl (conj eq_refl (conj Ha (conj eq_refl _)))). by case_decide.
  - exists [AmpSetVol (u8 l)].
    destruct (amp_run_ok [AmpSetVol (u8 l)] a Ha) as (a' & Hr & Ha' & Hspec).
    { intros vol Hin%list_elem_of_singleton. injection Hin as ->. apply u8_range. }
    exists a'. cbn [foldl amp_spec] in Hspec. injection Hspec as Hv Hp. rewrite (u8_id l) in Hv by (unfold is_u8; lia).
    refine (conj eq_refl (conj Hr (conj Ha' (conj Hp _)))). case_decide; [done|]. rewrite Hv. unfold cap_volume. zbool; lia.
Qed.

(** C3: A set command of the host, received byte by byte between frames, different
    from the last accepted frame and with four values in range none of which
    is 1 (the host address), ends in the amplifier, on a speaker in order (a
    property cache entry for the music volume or a free one included) whose
    volume manager knows the amplifier and maps music to itself, with the
    amplifier driver bound and in order: when its level differs from the
    current one, the calls of the volume manager bring the driver to that
    level and the gain words of the chip to its table entry; when it does not,
    no call is made and the amplifier keeps what it had. *)
Theorem py32_command_reaches_amplifier v t b vib (s : py32 (@speaker F)) mu mf a :
  link_wf s → parse_state (st_parser s) = PY32_RX_ADDR →
  bytes_ok [v; t; b; vib] → no_addr [v; t; b; vib] →
  params_in_range v t b vib = true → fresh PY32_CMD_COMMON [v; t; b; vib] s →
  speaker_ok (st_world s) mu mf → amp_wired (st_world s) → amp_ok a →
  let l := py32_volume_pct_to_level 16 v in
  let w1 := st_world (feed_bytes (frame_bytes PY32_ADDR_HOST PY32_CMD_COMMON [v; t; b; vib]) s) in
  ∃ ops a', amp_calls (vm_calls (sp_vol w1)) = amp_calls (vm_calls (sp_vol (st_world s))) ++ ops ∧
    amp_run ops a = (replicate (length ops) 0, a') ∧ amp_ok a' ∧ ac_playing a' = ac_playing a ∧
    if decide (Py32Uart.system_volume_get (st_world s) = l) then ops = [] ∧ a' = a else ac_volume a' = l.
Proof.
  intros Hwf Hidle Hb Hno Hr Hf Hw Haw Ha l w1.
  assert (Hrange : 0 <= l <= 16).
  { apply py32_volume_pct_to_level_range; [lia|]. inversion Hb; unfold is_u8 in *; lia. }
  assert (Hw1 : sp_vol w1 = sp_vol (Py32Uart.system_volume_set l (st_world s))).
  { subst w1. rewrite set_command_world by done. unfold audio_applied.
    change (Py32Uart.audio_policy_get_volume_level (st_world s)) with (level (sp_audio (st_world s))).
    rewrite (speaker_level _ mu mf Hw). fold l. by destruct (media_player_present _). }
  rewrite Hw1. by apply (level_reaches_amp (st_world s) mu mf).
Qed.

(** Without a player and a music track, a step down from a volume below the
    step stores volume 0 and sets the amplifier to its loudest step, 16. *)
Theorem volume_down_past_zero_is_loudest (m : @volmgr (@pmgr F)) y a d :
  audio_ok (vm_audio m) → vm_player m = false → vm_amp m = true →
  au_sys (vm_audio m) = Some y → audio_track_pool y = [None; None] →
  0 < as_vols y music_volume < d → d <= 16 → amp_ok a →
  ∃ r m' ops a', system_volume_down AUDIO_STREAM_MUSIC d m = Some (r, m') ∧
    VolumeManager.system_volume_get AUDIO_STREAM_MUSIC m' = 0 ∧
    amp_calls (vm_calls m') = amp_calls (vm_calls m) ++ ops ∧
    amp_run ops a = (replicate (length ops) 0, a') ∧ amp_ok a' ∧ ac_volume a' = 16.
Proof.
  intros Hs Hpl Hamp Hy Hpool Hv Hd Ha. unfold system_volume_down.
  assert (Hold : audio_system_get_stream_volume AUDIO_STREAM_MUSIC (vm_audio m) = as_vols y music_volume)
    by (unfold audio_system_get_stream_volume, with_sys; by rewrite Hy).
  assert (Hmap : system_volume_get_map_stream_type AUDIO_STREAM_MUSIC m = AUDIO_STREAM_MUSIC)
    by (unfold system_volume_get_map_stream_type, audio_system_get_track, with_sys; by rewrite Hy, Hpool).
  assert (Hget0 : VolumeManager.system_volume_get AUDIO_STREAM_MUSIC m = as_vols y music_volume) by exact Hold.
  rewrite Hget0. set (v := as_vols y music_volume - d).
  destruct (system_volume_set_level AUDIO_STREAM_MUSIC v m Hs ltac:(done)) as (ret & au & Hrun & _ & Hget & _).
  destruct (system_volume_set_amp AUDIO_STREAM_MUSIC v true m ret au Hrun) as (r & m' & Hset & Hau & Hview).
  assert (Hlim : limited (level (vm_audio m)) AUDIO_STREAM_MUSIC v = 0).
  { destruct Hs as [_ Hl _]. unfold limited, top_level, DEFAULT_VOLUME in *. rewrite decide_False by done. lia. }
  rewrite Hlim in Hget. rewrite Hmap, Hold, Hget, Hamp in Hview.
  rewrite (bool_decide_true (AUDIO_STREAM_MUSIC ∈ amp_streams)), (proj2 (Z.eqb_neq _ 0)) in Hview
    by (lia || (apply elem_of_cons; by left)).
  assert (Hpv : player_volume AUDIO_STREAM_MUSIC v m = v) by (unfold player_volume; by rewrite Hpl).
  cbn [andb] in Hview. rewrite Hpv in Hview. injection Hview as Hview _.
  destruct (amp_run_ok [AmpSetVol (u8 v)] a Ha) as (a' & Hr & Ha' & Hspec).
  { intros vol Hin%list_elem_of_singleton. injection Hin as ->. apply u8_range. }
  cbn [foldl amp_spec] in Hspec. injection Hspec as Hvol _.
  exists r, m', [AmpSetVol (u8 v)], a'.
  refine (conj Hset (conj _ (conj Hview (conj Hr (conj Ha' _))))).
  - unfold VolumeManager.system_volume_get. by rewrite Hau.
  - rewrite Hvol. unfold cap_volume, u8, v. zbool; dlia.
Qed.
End amplifier.

(** ** Instances *)

Definition playing_amp : acm (i2c_gpio (reg_dev acm_sim)) := (acm8635_init true acm_boot).2.
Lemma playing_amp_ok : amp_ok (R := acm_sim) playing_amp ∧ ac_volume playing_amp = 8.
Proof.
  destruct (acm8635_init_ok (R := acm_sim) acm_boot (mk_sim 0 ∅)) as (s & Hi & Hok & Hv & _);
    [by exists false, 0|done|]. unfold playing_amp. rewrite Hi. by split.
Qed.

Definition wired_speaker : @speaker (@pworld nor) :=
  mk_speaker (sample_volmgr audio_sys_clear true) [] 0 0 0 [] [].
Lemma wired_speaker_ok : speaker_ok wired_speaker ∅ ∅.
Proof. destruct sample_speaker_ok as [H1 H2 H3 H4 H5]. by split. Qed.

Lemma py32_command_reaches_amplifier_witness :
  let w1 := st_world (feed_bytes (frame_bytes PY32_ADDR_HOST PY32_CMD_COMMON [50; 12; 14; 30]) (link_init wired_speaker)) in
  ∃ ops a', amp_calls (vm_calls (sp_vol w1)) = ops ∧
    (amp_run ops playing_amp).2 = a' ∧ amp_ok (R := acm_sim) a' ∧ ac_volume a' = 11.
Proof.
  destruct (py32_command_reaches_amplifier (R := acm_sim) 50 12 14 30 (link_init wired_speaker) ∅ ∅ playing_amp)
    as (ops & a' & Hops & Hrun & Ha & _ & Hv).
  - apply link_init_wf.
  - reflexivity.
  - by_bytes.
  - by_bytes.
  - reflexivity.
  - unfold fresh. vm_compute. reflexivity.
  - exact wired_speaker_ok.
  - by split.
  - exact (proj1 playing_amp_ok).
  - exists ops, a'. split; [exact Hops|]. split; [by rewrite Hrun|]. split; [exact Ha|].
    case_decide as E; [vm_compute in E; discriminate|]. rewrite Hv. by vm_compute.
Defined.

Lemma volume_down_past_zero_is_loudest_witness :
  let sys := mk_audio_sys (λ _, 1) [None; None] (replicate MAX_AUDIO_RECORD_NUM None) 0 0 false 0 false in
  ∃ r m' a', system_volume_down AUDIO_STREAM_MUSIC 2 (sample_volmgr sys true) = Some (r, m') ∧
    (amp_run (amp_calls (vm_calls m')) playing_amp).2 = a' ∧ ac_volume a' = 16.
Proof.
  intros sys.
  destruct (volume_down_past_zero_is_loudest (R := acm_sim) (sample_volmgr sys true) sys playing_amp 2)
    as (r & m' & ops & a' & Hrun & _ & Hops & Hr & _ & Hv);
    [apply (sample_volmgr_ok (λ _, 1)); lia|done..|cbn; lia|lia|exact (proj1 playing_amp_ok)|].
  exists r, m', a'. split; [exact Hrun|]. rewrite Hops. cbn [sample_volmgr vm_calls amp_calls omap list_omap app].
  split; [by rewrite Hr|exact Hv].
Defined.
