(* ===== verification/Ws2812.v ===== *)
(** * The ambient light strip

    samples/bt_speaker/src/btmusic/btmusic_ws2812.c in the shipped configuration
    (CONFIG_BT_MUSIC_LED_STRIP, _AMBIENT and _DEBUG_LOG set, _SELFTEST, STRIP2
    and LED_RHYTHM not; GPIO 8, 25 LEDs; a cycle counter of 24 MHz).  The pin is
    driven by hand: what the driver does to it is a trace of events, and a model
    of the chained LEDs, which tell a one from a zero by the length of the high
    pulse and take over a frame when the line stays low, decodes the trace. *)

From stdpp Require Import base numbers list option.
From S2P Require Import Prelude Libc.
Local Open Scope Z_scope.

Definition WS2812_LED_COUNT : nat := 25.
Definition WS2812_T0H_NS : Z := 300.
Definition WS2812_T0L_NS : Z := 900.
Definition WS2812_T1H_NS : Z := 900.
Definition WS2812_T1L_NS : Z := 300.
Definition WS2812_RESET_US : Z := 500.
Definition SYS_CLOCK_HW_CYCLES_PER_SEC : Z := 24000000.

Definition WS2812_NS_TO_CYCLES (ns : Z) : Z := u32 (u64 (SYS_CLOCK_HW_CYCLES_PER_SEC * ns) / 1000000000).

(** What happens at the pin; [EvNops] is a loop of that many [nop]s, [EvCtl] the
    write of the pin's function register. *)
Inductive pin_event :=
  | EvCtl
  | EvHigh
  | EvLow
  | EvNops (n : Z)
  | EvWait (us : Z)
  | EvLock
  | EvUnlock.

Record ws2812_timing := mk_timing { t0h : Z; t0l : Z; t1h : Z; t1l : Z }.

(** The statics of the file.  [ws_timer]: [ambient_cycle_timer] is started;
    [ws_gpio]: the pin has its GPIO function; [ws_reads]: how often the cycle
    counter has been read. *)
Record strip := mk_strip {
  ws2812_inited : bool;
  ws2812_show_cnt : Z;
  ws2812_nop_per_cycle : Z;
  ws_nops : ws2812_timing;
  ws2812_grb : list Z;
  ambient_mode : Z;
  ws_timer : bool;
  ws_gpio : bool;
  ws_reads : nat;
  ws_out : list pin_event;
}.

Definition ws_set_inited (b : bool) (s : strip) : strip :=
  mk_strip b (ws2812_show_cnt s) (ws2812_nop_per_cycle s) (ws_nops s) (ws2812_grb s) (ambient_mode s)
    (ws_timer s) (ws_gpio s) (ws_reads s) (ws_out s).
Definition ws_set_cnt (n : Z) (s : strip) : strip :=
  mk_strip (ws2812_inited s) n (ws2812_nop_per_cycle s) (ws_nops s) (ws2812_grb s) (ambient_mode s)
    (ws_timer s) (ws_gpio s) (ws_reads s) (ws_out s).
Definition ws_set_grb (l : list Z) (s : strip) : strip :=
  mk_strip (ws2812_inited s) (ws2812_show_cnt s) (ws2812_nop_per_cycle s) (ws_nops s) l (ambient_mode s)
    (ws_timer s) (ws_gpio s) (ws_reads s) (ws_out s).
Definition ws_set_mode (m : Z) (s : strip) : strip :=
  mk_strip (ws2812_inited s) (ws2812_show_cnt s) (ws2812_nop_per_cycle s) (ws_nops s) (ws2812_grb s) m
    (ws_timer s) (ws_gpio s) (ws_reads s) (ws_out s).
Definition ws_set_timer (b : bool) (s : strip) : strip :=
  mk_strip (ws2812_inited s) (ws2812_show_cnt s) (ws2812_nop_per_cycle s) (ws_nops s) (ws2812_grb s)
    (ambient_mode s) b (ws_gpio s) (ws_reads s) (ws_out s).
Definition ws_set_gpio (b : bool) (s : strip) : strip :=
  mk_strip (ws2812_inited s) (ws2812_show_cnt s) (ws2812_nop_per_cycle s) (ws_nops s) (ws2812_grb s)
    (ambient_mode s) (ws_timer s) b (ws_reads s) (ws_out s).
Definition ws_emit (l : list pin_event) (s : strip) : strip :=
  mk_strip (ws2812_inited s) (ws2812_show_cnt s) (ws2812_nop_per_cycle s) (ws_nops s) (ws2812_grb s)
    (ambient_mode s) (ws_timer s) (ws_gpio s) (ws_reads s) (ws_out s ++ l).

(** ** Timing *)

Definition ws2812_cycles_to_nops (per cycles : Z) : Z :=
  if (cycles =? 0) || (per =? 0) then 0
  else let n := u32 (cycles + per - 1) / per in if n =? 0 then 1 else n.

(** Cycles per [nop], from the times of one and two hundred of them. *)
Definition nop_cycles (c100 c200 : Z) : Z :=
  let per := if c100 <? c200 then (c200 - c100) / 100 else 1 in
  if per =? 0 then 1 else per.

(** The loop counts for that pace. *)
Definition timing_of (per : Z) : ws2812_timing :=
  let h0 := ws2812_cycles_to_nops per (WS2812_NS_TO_CYCLES WS2812_T0H_NS) in
  let h1 := ws2812_cycles_to_nops per (WS2812_NS_TO_CYCLES WS2812_T1H_NS) in
  let l0 := ws2812_cycles_to_nops per (WS2812_NS_TO_CYCLES WS2812_T0L_NS) in
  let l1 := ws2812_cycles_to_nops per (WS2812_NS_TO_CYCLES WS2812_T1L_NS) in
  let h0 := if 1 <? h0 then h0 - 1 else h0 in
  let h1 := if 2 <? h1 then h1 - 2 else h1 in
  let l0 := if l0 <? h0 then h0 else l0 in
  let l1 := if l1 <? h1 then h1 else l1 in
  mk_timing h0 l0 h1 l1.

Section driver.
(** [clock k]: what the [k]-th read of the cycle counter returns. *)
Variable clock : nat → Z.

Definition ws2812_measure_nops (n : Z) (s : strip) : Z * strip :=
  (u32 (clock (S (ws_reads s)) - clock (ws_reads s)),
   mk_strip (ws2812_inited s) (ws2812_show_cnt s) (ws2812_nop_per_cycle s) (ws_nops s) (ws2812_grb s)
     (ambient_mode s) (ws_timer s) (ws_gpio s) (S (S (ws_reads s))) (ws_out s ++ [EvNops n])).

Definition ws2812_refresh_timing (s : strip) : strip :=
  let '(c100, s) := ws2812_measure_nops 100 s in
  let '(c200, s) := ws2812_measure_nops 200 s in
  let per := nop_cycles c100 c200 in
  mk_strip (ws2812_inited s) (ws2812_show_cnt s) per (timing_of per) (ws2812_grb s)
    (ambient_mode s) (ws_timer s) (ws_gpio s) (ws_reads s) (ws_out s).

Definition ws2812_calibrate (s : strip) : strip := ws2812_refresh_timing (ws_emit [EvWait 2000] s).

(** ** The pin *)

Definition ws2812_gpio_set_pin (high : bool) (s : strip) : strip := ws_emit [if high then EvHigh else EvLow] s.
Definition ws2812_gpio_init_pin (s : strip) : strip :=
  ws2812_gpio_set_pin false (ws_set_gpio true (ws_emit [EvCtl] s)).
Definition ws2812_gpio_ensure_pin (s : strip) : strip :=
  if negb (ws_gpio s) then ws2812_gpio_init_pin s else s.

Definition bit_wave (tm : ws2812_timing) (bit : bool) : list pin_event :=
  if bit then [EvHigh; EvNops (t1h tm); EvLow; EvNops (t1l tm)]
  else [EvHigh; EvNops (t0h tm); EvLow; EvNops (t0l tm)].
Definition byte_bits (val : Z) : list bool :=
  (λ b, negb (Z.land val (Z.shiftl 1 b) =? 0)) <$> [7; 6; 5; 4; 3; 2; 1; 0].
Definition byte_wave (tm : ws2812_timing) (val : Z) : list pin_event :=
  byte_bits val ≫= bit_wave tm.
Definition ws2812_flush_buf (tm : ws2812_timing) (grb : list Z) (s : strip) : strip :=
  ws_emit [EvLow] (ws_emit (grb ≫= byte_wave tm) s).

(** With [tm] null the timing is the one just measured. *)
Definition ws2812_flush_pin (grb : list Z) (reset_us : Z) (tm : option ws2812_timing) (s : strip) : strip :=
  let s := ws2812_refresh_timing s in
  let tm := default (ws_nops s) tm in
  let s := ws2812_gpio_ensure_pin s in
  let s := ws_emit [EvLock] s in
  let s := ws2812_flush_buf tm grb s in
  let s := ws_emit [EvUnlock] s in
  let s := ws2812_gpio_set_pin false s in
  let s := ws_emit [EvWait reset_us] s in
  ws_set_cnt (u32 (ws2812_show_cnt s + 1)) s.
Definition ws2812_flush (s : strip) : strip := ws2812_flush_pin (ws2812_grb s) WS2812_RESET_US None s.

(** ** The calls *)

(** All LEDs in one colour; the padding behind them is left as it is. *)
Definition fill_leds (r g b : Z) (grb : list Z) : list Z :=
  foldl (λ m i, memcpy m (i * 3) [g; r; b]) grb (seq 0 WS2812_LED_COUNT).
Definition ambient_body (r g b : Z) (s : strip) : strip :=
  ws2812_flush (ws_set_grb (fill_leds r g b (ws2812_grb s)) s).

Definition ambient_cycle_start (s : strip) : strip := ws_set_timer true s.

(** [btmusic_ws2812_init] and [btmusic_ws2812_ambient_set] call each other;
    two levels are enough, because the flag is set before the inner call. *)
Fixpoint init_fuel (fuel : nat) (s : strip) : option strip :=
  match fuel with
  | O => None
  | S fuel =>
      if ws2812_inited s then Some s
      else
        let s := ws2812_gpio_init_pin s in
        let s := ws_emit [EvWait 500] s in
        let s := ws2812_calibrate s in
        let s := ws2812_flush (ws_set_grb (replicate 78 0) s) in
        let s := ws_set_cnt 0 (ws_set_inited true s) in
        s ← (if negb (ws2812_inited s) then init_fuel fuel s else Some s);
        Some (ambient_cycle_start (ambient_body 32 12 0 s))
  end.
Definition btmusic_ws2812_init (s : strip) : option strip := init_fuel 2 s.
Definition ensure_init (s : strip) : option strip :=
  if negb (ws2812_inited s) then btmusic_ws2812_init s else Some s.
Definition btmusic_ws2812_ambient_set (r g b : Z) (s : strip) : option strip :=
  s ← ensure_init s; Some (ambient_body r g b s).
Definition btmusic_ws2812_ambient_off (s : strip) : option strip := btmusic_ws2812_ambient_set 0 0 0 s.

Definition ambient_modes : list (Z * Z * Z) :=
  [(80, 0, 0); (0, 80, 0); (0, 0, 80); (80, 60, 0); (80, 0, 80); (0, 80, 80); (40, 20, 0); (32, 12, 0)].
Definition ambient_cycle_cb (s : strip) : option strip :=
  '(r, g, b) ← ambient_modes !! Z.to_nat (ambient_mode s);
  s ← btmusic_ws2812_ambient_set r g b s;
  Some (ws_set_mode ((ambient_mode s + 1) mod Z.of_nat (length ambient_modes)) s).

Definition btmusic_ws2812_deinit (s : strip) : strip :=
  if negb (ws2812_inited s) then s
  else ws_set_inited false (ws2812_flush (ws_set_grb (replicate 78 0) s)).

Definition btmusic_ws2812_show_rgb (r g b : Z) (s : strip) : option strip :=
  s ← ensure_init s;
  let s := ambient_body r g b s in
  Some (ws_set_cnt (u32 (ws2812_show_cnt s + 1)) s).

Definition btmusic_ws2812_show_grb (grb : option (list Z)) (s : strip) : option strip :=
  match grb with
  | None => Some s
  | Some d =>
      if Z.of_nat (length d) =? 0 then Some s
      else
        s ← ensure_init s;
        let max := length (ws2812_grb s) in
        let len := if (max <? length d)%nat then max else length d in
        let s := ws2812_flush (ws_set_grb (memcpy (replicate max 0) 0 (take len d)) s) in
        Some (ws_set_cnt (u32 (ws2812_show_cnt s + 1)) s)
  end.
End driver.

(** ** The LEDs

    A high pulse of at least [th j] loops is a one, a shorter one a zero, in the
    [j]-th frame: the LEDs' threshold is a time, and how many loops fit into it
    depends on the processor clock, which changes between frames.  A low line
    for at least 280 us takes over what has been received.  An edge outside the
    locked section could be moved by an interrupt: such a frame is bad. *)
Record leds := mk_leds {
  rx_frame : nat;
  rx_high : bool;
  rx_time : Z;
  rx_bits : list bool;
  rx_locked : bool;
  rx_bad : bool;
  rx_shown : list bool;
}.
Definition LATCH_US : Z := 280.
(** A bit is told by the length of its high part; the length of the low part between
    two bits is not looked at. *)
Definition leds_step (th : nat → Z) (l : leds) (e : pin_event) : leds :=
  match e with
  | EvCtl => l
  | EvHigh => mk_leds (rx_frame l) true 0 (rx_bits l) (rx_locked l) (rx_bad l || negb (rx_locked l)) (rx_shown l)
  | EvLow =>
      if rx_high l then
        mk_leds (rx_frame l) false 0 (rx_bits l ++ [th (rx_frame l) <=? rx_time l]) (rx_locked l) (rx_bad l || negb (rx_locked l)) (rx_shown l)
      else l
  | EvNops n =>
      mk_leds (rx_frame l) (rx_high l) (if rx_high l then rx_time l + n else rx_time l) (rx_bits l) (rx_locked l)
        (rx_bad l) (rx_shown l)
  | EvWait us =>
      if negb (rx_high l) && (LATCH_US <=? us) && negb (bool_decide (rx_bits l = [])) then
        mk_leds (rx_frame l) false 0 [] (rx_locked l) (rx_bad l) (rx_bits l)
      else l
  | EvLock => mk_leds (S (rx_frame l)) (rx_high l) (rx_time l) (rx_bits l) true (rx_bad l) (rx_shown l)
  | EvUnlock => mk_leds (rx_frame l) (rx_high l) (rx_time l) (rx_bits l) false (rx_bad l) (rx_shown l)
  end.
Definition leds_run (th : nat → Z) : leds → list pin_event → leds := foldl (leds_step th).
Definition leds_off : leds := mk_leds 0 false 0 [] false false [].

(** Between frames: the line low, nothing received, interrupts on. *)
Definition quiet (shown : list bool) (l : leds) : Prop :=
  rx_high l = false ∧ rx_bits l = [] ∧ rx_locked l = false ∧ rx_bad l = false ∧ rx_shown l = shown.

Lemma leds_run_app th l es fs : leds_run th l (es ++ fs) = leds_run th (leds_run th l es) fs.
Proof. apply foldl_app. Qed.

(** A threshold between the two pulses. *)
Definition separates (th : Z) (tm : ws2812_timing) : Prop := t0h tm < th <= t1h tm.

Lemma leds_bit th tm bit j bits t sh :
  separates (th j) tm →
  ∃ t', leds_run th (mk_leds j false t bits true false sh) (bit_wave tm bit) =
        mk_leds j false t' (bits ++ [bit]) true false sh.
Proof.
  intros [H0 H1]. exists 0. destruct bit; cbn; repeat f_equal; lia.
Qed.
Lemma leds_bits th tm j bs : ∀ bits t sh,
  separates (th j) tm →
  ∃ t', leds_run th (mk_leds j false t bits true false sh) (bs ≫= bit_wave tm) =
        mk_leds j false t' (bits ++ bs) true false sh.
Proof.
  induction bs as [|b bs IH]; intros bits t sh Hs; [exists t; by rewrite app_nil_r|].
  rewrite bind_cons, leds_run_app. destruct (leds_bit th tm b j bits t sh Hs) as (t1 & ->).
  destruct (IH (bits ++ [b]) t1 sh Hs) as (t2 & ->). exists t2. by rewrite <- (assoc_L (++)).
Qed.

(** The bits of a frame. *)
Definition frame_bits (grb : list Z) : list bool := grb ≫= byte_bits.
Lemma frame_wave tm grb : grb ≫= byte_wave tm = frame_bits grb ≫= bit_wave tm.
Proof.
  unfold frame_bits. induction grb as [|x l IH]; [done|]. by rewrite !bind_cons, bind_app, IH.
Qed.
Lemma frame_bits_nonempty grb : grb ≠ [] → frame_bits grb ≠ [].
Proof. by destruct grb. Qed.

(** Bytes come back from their bits. *)
Fixpoint bits_byte (acc : Z) (bs : list bool) : Z :=
  match bs with [] => acc | b :: bs => bits_byte (2 * acc + Z.b2z b) bs end.
Lemma byte_bits_inv v : is_u8 v → bits_byte 0 (byte_bits v) = v.
Proof.
  intros Hv. assert (Hall : Forall (λ n, bits_byte 0 (byte_bits (Z.of_nat n)) = Z.of_nat n) (seq 0 256))
    by (apply (bool_decide_unpack _); by vm_compute).
  rewrite Forall_forall in Hall. specialize (Hall (Z.to_nat v)). rewrite Z2Nat.id in Hall by (unfold is_u8 in Hv; lia).
  apply Hall, in_seq. unfold is_u8 in Hv. lia.
Qed.

Section proofs.
Variable clock : nat → Z.
Implicit Types (s : strip).

(** What the four reads of a measurement that starts with the [k]-th tell. *)
Definition pace (k : nat) : Z :=
  nop_cycles (u32 (clock (S k) - clock k)) (u32 (clock (S (S (S k))) - clock (S (S k)))).
(** The LEDs' threshold lies between the two pulses, in every frame. *)
Definition readable (th : nat → Z) : Prop := ∀ j k, separates (th j) (timing_of (pace k)).

Record same_strip s s' : Prop := {
  ss_inited : ws2812_inited s' = ws2812_inited s;
  ss_grb : ws2812_grb s' = ws2812_grb s;
  ss_mode : ambient_mode s' = ambient_mode s;
  ss_timer : ws_timer s' = ws_timer s;
}.
Lemma same_strip_refl s : same_strip s s.
Proof. by split. Qed.

Lemma quiet_silent th sh l e :
  match e with EvHigh | EvLock => False | _ => True end → quiet sh l → quiet sh (leds_step th l e).
Proof.
  intros He (H1 & H2 & H3 & H4 & H5). destruct l as [j h t bits lk bad shown]. cbn in *. subst.
  by destruct e; cbn; rewrite ?andb_false_r.
Qed.

Definition shows_frame th (grb : list Z) (es : list pin_event) : Prop :=
  quiet (frame_bits grb) (leds_run th leds_off es).
Definition is_quiet th (es : list pin_event) : Prop := ∃ sh, quiet sh (leds_run th leds_off es).

Lemma quiet_emit th es e :
  match e with EvHigh | EvLock => False | _ => True end → is_quiet th es → is_quiet th (es ++ [e]).
Proof. intros He (sh & H). exists sh. rewrite leds_run_app. by apply quiet_silent. Qed.

Lemma refresh_eq s :
  ws2812_refresh_timing clock s =
  mk_strip (ws2812_inited s) (ws2812_show_cnt s) (pace (ws_reads s)) (timing_of (pace (ws_reads s))) (ws2812_grb s)
    (ambient_mode s) (ws_timer s) (ws_gpio s) (S (S (S (S (ws_reads s))))) ((ws_out s ++ [EvNops 100]) ++ [EvNops 200]).
Proof. reflexivity. Qed.

Lemma ws_emit_emit k l s : ws_emit l (ws_emit k s) = ws_emit (k ++ l) s.
Proof. unfold ws_emit. cbn. by rewrite (assoc_L (++)). Qed.

Lemma flush_eq s s1 :
  s1 = ws2812_gpio_ensure_pin (ws2812_refresh_timing clock s) →
  ws_nops s1 = ws_nops (ws2812_refresh_timing clock s) →
  ws2812_flush clock s =
  ws_set_cnt (u32 (ws2812_show_cnt s1 + 1))
    (ws_emit ([EvLock] ++ (frame_bits (ws2812_grb s) ≫= bit_wave (ws_nops s1)) ++
              [EvLow; EvUnlock; EvLow; EvWait WS2812_RESET_US]) s1).
Proof.
  intros H1 H2. unfold ws2812_flush, ws2812_flush_pin, ws2812_flush_buf. rewrite <- H1, frame_wave. cbn [default].
  rewrite <- H2. unfold ws2812_gpio_set_pin. rewrite !ws_emit_emit. reflexivity.
Qed.

Lemma flush_shows th s :
  readable th → ws2812_grb s ≠ [] → is_quiet th (ws_out s) →
  let s' := ws2812_flush clock s in
  same_strip s s' ∧ shows_frame th (ws2812_grb s) (ws_out s').
Proof.
  intros Hth Hne Hq s'. destruct (ws2812_gpio_ensure_pin (ws2812_refresh_timing clock s)) as [i1 c1 p1 n1 g1 m1 ti1 gp1 r1 o1] eqn:E1.
  assert (H1 : is_quiet th o1 ∧ n1 = timing_of (pace (ws_reads s)) ∧ i1 = ws2812_inited s ∧ g1 = ws2812_grb s ∧
               m1 = ambient_mode s ∧ ti1 = ws_timer s).
  { rewrite refresh_eq in E1. generalize dependent (timing_of (pace (ws_reads s))). intros tm E1. unfold ws2812_gpio_ensure_pin, ws2812_gpio_init_pin, ws2812_gpio_set_pin in E1.
    cbn in E1. destruct (negb (ws_gpio s)); injection E1 as <- <- <- <- <- <- <- <- <- <-;
      (split; [by repeat (apply quiet_emit; [done|])|done]). }
  destruct H1 as ((sh & Hq1) & -> & Hi & Hg & Hm & Hti).
  set (s1 := mk_strip i1 _ _ _ _ _ _ _ _ _) in *.
  assert (Hs' : s' = ws_set_cnt (u32 (ws2812_show_cnt s1 + 1))
      (ws_emit ([EvLock] ++ (frame_bits (ws2812_grb s) ≫= bit_wave (timing_of (pace (ws_reads s)))) ++
                [EvLow; EvUnlock; EvLow; EvWait WS2812_RESET_US]) s1)).
  { exact (flush_eq s s1 (eq_sym E1) eq_refl). }
  assert (Hs1 : same_strip s s1) by (by split).
  assert (Ho : ws_out s1 = o1) by done. clearbody s1. subst o1. clear E1.
  rewrite Hs'. split; [by destruct Hs1; split|]. unfold shows_frame, ws_emit, ws_set_cnt. cbn [ws_out].
  rewrite !leds_run_app. destruct (leds_run th leds_off (ws_out s1)) as [j h t bits lk bad shown].
  destruct Hq1 as (E1 & E2 & E3 & E4 & E5). cbn in E1, E2, E3, E4, E5. subst.
  change (leds_run th (mk_leds j false t [] false false sh) [EvLock]) with (mk_leds (S j) false t [] true false sh).
  destruct (leds_bits th (timing_of (pace (ws_reads s))) (S j) (frame_bits (ws2812_grb s)) [] t sh (Hth _ _)) as (t' & ->).
  cbn. rewrite bool_decide_false by (by apply frame_bits_nonempty). done.
Qed.

(** ** Any sequence of calls

    The specification: whether the strip is on, the colours of its LEDs (three
    bytes each, green first), the place in the colour cycle and whether the
    cycle is running. *)
Inductive ws_op :=
  | WsInit
  | WsDeinit
  | WsAmbientSet (r g b : Z)
  | WsAmbientOff
  | WsShowRgb (r g b : Z)
  | WsShowGrb (grb : option (list Z))
  | WsTick.
Record lamp := mk_lamp { lamp_on : bool; lamp_leds : list Z; lamp_mode : Z; lamp_cycle : bool }.

Definition solid (r g b : Z) : list Z := concat (replicate WS2812_LED_COUNT [g; r; b]).
Definition lamp_show (l : list Z) (a : lamp) : lamp := mk_lamp true l (lamp_mode a) (lamp_cycle a).
Definition lamp_wake (a : lamp) : lamp :=
  if lamp_on a then a else mk_lamp true (solid 32 12 0) (lamp_mode a) true.
Definition lamp_step (op : ws_op) (a : lamp) : lamp :=
  match op with
  | WsInit => lamp_wake a
  | WsDeinit => if lamp_on a then mk_lamp false (replicate 75 0) (lamp_mode a) (lamp_cycle a) else a
  | WsAmbientSet r g b | WsShowRgb r g b => lamp_show (solid r g b) (lamp_wake a)
  | WsAmbientOff => lamp_show (solid 0 0 0) (lamp_wake a)
  | WsShowGrb None | WsShowGrb (Some []) => a
  | WsShowGrb (Some d) => lamp_show (take 75 (d ++ replicate 75 0)) (lamp_wake a)
  | WsTick =>
      if lamp_cycle a then
        let '(r, g, b) := default (0, 0, 0) (ambient_modes !! Z.to_nat (lamp_mode a)) in
        let a := lamp_show (solid r g b) (lamp_wake a) in
        mk_lamp true (lamp_leds a) ((lamp_mode a + 1) mod 8) (lamp_cycle a)
      else a
  end.

(** The thread's timer calls the callback only when it has been started. *)
Definition ws_exec (op : ws_op) s : option strip :=
  match op with
  | WsInit => btmusic_ws2812_init clock s
  | WsDeinit => Some (btmusic_ws2812_deinit clock s)
  | WsAmbientSet r g b => btmusic_ws2812_ambient_set clock r g b s
  | WsAmbientOff => btmusic_ws2812_ambient_off clock s
  | WsShowRgb r g b => btmusic_ws2812_show_rgb clock r g b s
  | WsShowGrb d => btmusic_ws2812_show_grb clock d s
  | WsTick => if ws_timer s then ambient_cycle_cb clock s else Some s
  end.
Fixpoint ws_run (ops : list ws_op) s : option strip :=
  match ops with [] => Some s | op :: ops => s ← ws_exec op s; ws_run ops s end.

(** The LEDs pass on what is behind their own three bytes. *)
Definition led_bits (l : leds) : list bool := take (8 * 75) (rx_shown l).

Record strip_inv th s (a : lamp) : Prop := {
  si_inited : ws2812_inited s = lamp_on a;
  si_len : length (ws2812_grb s) = 78%nat;
  si_mode : ambient_mode s = lamp_mode a;
  si_range : 0 <= lamp_mode a < 8;
  si_timer : ws_timer s = lamp_cycle a;
  si_wire : ∃ sh, quiet sh (leds_run th leds_off (ws_out s)) ∧ take (8 * 75) sh = frame_bits (lamp_leds a);
}.

Lemma take_frame_bits n grb : take (8 * n) (frame_bits grb) = frame_bits (take n grb).
Proof.
  revert grb. induction n as [|n IH]; intros [|x l]; [done..|].
  unfold frame_bits in *. cbn [take]. rewrite !bind_cons, <- IH.
  replace (8 * S n)%nat with (length (byte_bits x) + 8 * n)%nat by (cbn; lia). apply take_app_add.
Qed.

Lemma memcpy_app (p m d : list Z) : memcpy (p ++ m) (length p) d = p ++ memcpy m 0 d.
Proof.
  unfold memcpy. replace (length p) with (length p + 0)%nat by lia. generalize 0%nat. 
  induction d as [|b d IH]; intros i; [done|]. cbn [list_inserts].
  rewrite plus_n_Sm, IH. by rewrite insert_app_r.
Qed.

(** The loop over the LEDs writes their bytes and nothing behind them. *)
Lemma fill_leds_prefix r g b m n :
  (3 * n <= length m)%nat →
  foldl (λ m i, memcpy m (i * 3) [g; r; b]) m (seq 0 n) = concat (replicate n [g; r; b]) ++ drop (3 * n) m.
Proof.
  induction n as [|n IH]; intros Hn; [done|]. rewrite seq_S, foldl_app, IH by lia. cbn [foldl plus].
  rewrite replicate_S_end, concat_app. cbn [concat]. rewrite app_nil_r.
  assert (Hl : length (concat (replicate n [g; r; b])) = (n * 3)%nat).
  { clear. induction n as [|n IH]; [done|]. cbn [replicate concat]. rewrite length_app, IH. cbn. lia. }
  assert (Hd : (3 <= length (drop (3 * n) m))%nat) by (rewrite length_drop; lia).
  replace (3 * S n)%nat with (3 * n + 3)%nat by lia. rewrite <- drop_drop.
  rewrite <- Hl. rewrite memcpy_app, memcpy_start by done. by rewrite (assoc_L (++)).
Qed.
Lemma fill_leds_take r g b m : length m = 78%nat → take 75 (fill_leds r g b m) = solid r g b.
Proof.
  intros Hm. unfold fill_leds. rewrite fill_leds_prefix by (unfold WS2812_LED_COUNT; lia). by apply take_app_length'.
Qed.
Lemma length_fill_leds r g b m : length (fill_leds r g b m) = length m.
Proof.
  unfold fill_leds. generalize (seq 0 WS2812_LED_COUNT). intros l. revert m.
  induction l as [|i l IH]; intros m; [done|]. cbn [foldl]. by rewrite IH, length_memcpy.
Qed.

(** A flush with new contents. *)
Lemma flush_inv th s a g :
  readable th → strip_inv th s a → length g = 78%nat →
  let s' := ws2812_flush clock (ws_set_grb g s) in
  strip_inv th s' (mk_lamp (lamp_on a) (take 75 g) (lamp_mode a) (lamp_cycle a)).
Proof.
  intros Hth [H1 H2 H3 H4 H5 (sh & H6 & _)] Hg s'.
  destruct (flush_shows th (ws_set_grb g s) Hth) as [[E1 E2 E3 E4] Hsh]; [by destruct g|by exists sh|].
  fold s' in E1, E2, E3, E4, Hsh. cbn [ws_set_grb ws2812_inited ws2812_grb ambient_mode ws_timer] in *.
  split; cbn [lamp_on lamp_leds lamp_mode lamp_cycle]; try congruence.
  eexists. split; [exact Hsh|apply take_frame_bits].
Qed.

Lemma ambient_body_inv th s a r g b :
  readable th → strip_inv th s a →
  strip_inv th (ambient_body clock r g b s) (mk_lamp (lamp_on a) (solid r g b) (lamp_mode a) (lamp_cycle a)).
Proof.
  intros Hth Hs. pose proof (si_len _ _ _ Hs) as Hl. rewrite <- (fill_leds_take r g b (ws2812_grb s)) by done.
  apply flush_inv; [done..|]. by rewrite length_fill_leds.
Qed.

(** Events that leave the LEDs alone. *)
Lemma inv_emit th s a e :
  match e with EvHigh | EvLock => False | _ => True end → strip_inv th s a → strip_inv th (ws_emit [e] s) a.
Proof.
  intros He [H1 H2 H3 H4 H5 (sh & H6 & H7)]. split; [done..|]. exists sh. split; [|done].
  cbn [ws_emit ws_out]. rewrite leds_run_app. by apply quiet_silent.
Qed.
Lemma inv_cnt th s a n : strip_inv th s a → strip_inv th (ws_set_cnt n s) a.
Proof. intros [H1 H2 H3 H4 H5 H6]. by split. Qed.

Lemma inv_gpio th s a b : strip_inv th s a → strip_inv th (ws_set_gpio b s) a.
Proof. intros [H1 H2 H3 H4 H5 H6]. by split. Qed.
Lemma inv_gpio_init th s a : strip_inv th s a → strip_inv th (ws2812_gpio_init_pin s) a.
Proof.
  intros Hs. unfold ws2812_gpio_init_pin, ws2812_gpio_set_pin. apply inv_emit; [done|].
  apply inv_gpio. by apply inv_emit.
Qed.
Lemma inv_calibrate th s a : strip_inv th s a → strip_inv th (ws2812_calibrate clock s) a.
Proof.
  intros Hs. assert (H : strip_inv th (ws_emit [EvNops 200] (ws_emit [EvNops 100] (ws_emit [EvWait 2000] s))) a)
    by (repeat (apply inv_emit; [done|]); done).
  unfold ws2812_calibrate, ws2812_refresh_timing. cbn [ws2812_measure_nops fst snd].
  destruct H as [K1 K2 K3 K4 K5 K6]. by split.
Qed.
Lemma inv_started th s a l :
  strip_inv th s (mk_lamp (lamp_on a) l (lamp_mode a) (lamp_cycle a)) →
  strip_inv th (ws_set_cnt 0 (ws_set_inited true s)) (mk_lamp true l (lamp_mode a) (lamp_cycle a)).
Proof. intros [H1 H2 H3 H4 H5 H6]. by split. Qed.
Lemma inv_stopped th s a l :
  strip_inv th s (mk_lamp (lamp_on a) l (lamp_mode a) (lamp_cycle a)) →
  strip_inv th (ws_set_inited false s) (mk_lamp false l (lamp_mode a) (lamp_cycle a)).
Proof. intros [H1 H2 H3 H4 H5 H6]. by split. Qed.
Lemma inv_mode th s a m :
  strip_inv th s a → 0 <= m < 8 →
  strip_inv th (ws_set_mode m s) (mk_lamp (lamp_on a) (lamp_leds a) m (lamp_cycle a)).
Proof. intros [H1 H2 H3 H4 H5 H6] Hm. by split. Qed.
Lemma inv_cycle th s a :
  strip_inv th s a → strip_inv th (ambient_cycle_start s) (mk_lamp (lamp_on a) (lamp_leds a) (lamp_mode a) true).
Proof. intros [H1 H2 H3 H4 H5 H6]. by split. Qed.

(** The part of the initialisation before the first colour. *)
Definition init_dark s : strip :=
  ws_set_cnt 0 (ws_set_inited true (ws2812_flush clock (ws_set_grb (replicate 78 0)
    (ws2812_calibrate clock (ws_emit [EvWait 500] (ws2812_gpio_init_pin s)))))).
Lemma init_fuel_dark n s :
  ws2812_inited s = false →
  init_fuel clock (S n) s = Some (ambient_cycle_start (ambient_body clock 32 12 0 (init_dark s))).
Proof. intros H. cbn [init_fuel]. rewrite H. reflexivity. Qed.

Lemma init_inv th s a :
  readable th → strip_inv th s a →
  ∃ s', btmusic_ws2812_init clock s = Some s' ∧ strip_inv th s' (lamp_wake a).
Proof.
  intros Hth Hs. unfold btmusic_ws2812_init, lamp_wake. pose proof (si_inited _ _ _ Hs) as Hi.
  destruct (lamp_on a) eqn:Eon; [exists s; cbn [init_fuel]; by rewrite Hi|].
  rewrite init_fuel_dark by done. eexists. split; [reflexivity|].
  refine (inv_cycle th _ _ (ambient_body_inv th _ (mk_lamp true _ _ (lamp_cycle a)) 32 12 0 Hth (inv_started th _ a _ _))).
  apply flush_inv; [done| |done]. apply inv_calibrate, inv_emit; [done|]. by apply inv_gpio_init.
Qed.

Lemma ensure_inv th s a :
  readable th → strip_inv th s a → ∃ s', ensure_init clock s = Some s' ∧ strip_inv th s' (lamp_wake a).
Proof.
  intros Hth Hs. unfold ensure_init. destruct (ws2812_inited s) eqn:E; [|by apply init_inv].
  exists s. split; [done|]. unfold lamp_wake. by rewrite <- (si_inited _ _ _ Hs), E.
Qed.
Lemma lamp_wake_on a : lamp_on (lamp_wake a) = true.
Proof. unfold lamp_wake. by destruct (lamp_on a) eqn:E. Qed.

Lemma ambient_set_inv th s a r g b :
  readable th → strip_inv th s a →
  ∃ s', btmusic_ws2812_ambient_set clock r g b s = Some s' ∧ strip_inv th s' (lamp_show (solid r g b) (lamp_wake a)).
Proof.
  intros Hth Hs. unfold btmusic_ws2812_ambient_set. destruct (ensure_inv th s a Hth Hs) as (s1 & -> & H1).
  eexists. split; [reflexivity|]. unfold lamp_show. rewrite <- (lamp_wake_on a). by apply ambient_body_inv.
Qed.

Lemma ws_exec_inv th op s a :
  readable th → strip_inv th s a → ∃ s', ws_exec op s = Some s' ∧ strip_inv th s' (lamp_step op a).
Proof.
  intros Hth Hs. destruct op as [| |r g b| |r g b|d|]; cbn [ws_exec lamp_step].
  - by apply init_inv.
  - eexists. split; [reflexivity|]. unfold btmusic_ws2812_deinit. rewrite (si_inited _ _ _ Hs).
    destruct (lamp_on a) eqn:E; cbn [negb]; [|done].
    pose proof (flush_inv th s a (replicate 78 0) Hth Hs eq_refl) as H. rewrite take_replicate in H.
    change (Nat.min 75 78) with 75%nat in H. by apply (inv_stopped th _ a).
  - by apply ambient_set_inv.
  - by apply ambient_set_inv.
  - unfold btmusic_ws2812_show_rgb. destruct (ensure_inv th s a Hth Hs) as (s1 & -> & H1).
    eexists. split; [reflexivity|]. apply inv_cnt. unfold lamp_show. rewrite <- (lamp_wake_on a). by apply ambient_body_inv.
  - destruct d as [[|x d]|]; [by exists s| |by exists s].
    unfold btmusic_ws2812_show_grb. cbn [length]. rewrite (proj2 (Z.eqb_neq _ 0)) by lia.
    destruct (ensure_inv th s a Hth Hs) as (s1 & -> & H1). cbn [mbind option_bind].
    eexists. split; [reflexivity|]. apply inv_cnt. rewrite (si_len _ _ _ H1).
    set (g := memcpy _ _ _). assert (Hg : length g = 78%nat) by (subst g; by rewrite length_memcpy).
    assert (Ht : take 75 g = take 75 ((x :: d) ++ replicate 75 0)).
    { subst g. change (S (length d)) with (length (x :: d)). generalize (x :: d). intros e.
      destruct (Nat.ltb_spec 78 (length e)).
      - rewrite memcpy_start by (rewrite length_take, length_replicate; lia).
        rewrite !take_app_le by (rewrite ?length_take; lia). apply take_take.
      - rewrite firstn_all. rewrite memcpy_start by (rewrite length_replicate; lia). rewrite drop_replicate.
        destruct (decide (75 <= length e)%nat); [by rewrite !take_app_le by lia|].
        rewrite !take_app_ge by lia. f_equal. rewrite !take_replicate. f_equal. lia. }
    rewrite <- Ht. unfold lamp_show. rewrite <- (lamp_wake_on a). by apply flush_inv.
  - rewrite (si_timer _ _ _ Hs). destruct (lamp_cycle a) eqn:Ec; [|by exists s].
    unfold ambient_cycle_cb. rewrite (si_mode _ _ _ Hs). pose proof (si_range _ _ _ Hs) as Hr.
    destruct (lookup_lt_is_Some_2 ambient_modes (Z.to_nat (lamp_mode a))) as [[[r g] b] ->]; [cbn; lia|].
    cbn [mbind option_bind default]. destruct (ambient_set_inv th s a r g b Hth Hs) as (s1 & -> & H1).
    eexists. split; [reflexivity|]. change (Z.of_nat (length ambient_modes)) with 8.
    rewrite (si_mode _ _ _ H1). apply (inv_mode th _ _ _ H1). apply Z.mod_pos_bound. lia.
Qed.

Lemma ws_run_inv th ops : ∀ s a,
  readable th → strip_inv th s a →
  ∃ s', ws_run ops s = Some s' ∧ strip_inv th s' (foldl (λ a op, lamp_step op a) a ops).
Proof.
  induction ops as [|op ops IH]; intros s a Hth Hs; [by exists s|]. cbn [ws_run foldl].
  destruct (ws_exec_inv th op s a Hth Hs) as (s1 & -> & H1). by apply IH.
Qed.
End proofs.

(** ** Theorems *)

(** Bytes from a stream of bits. *)
Fixpoint decode_frame (n : nat) (bits : list bool) : list Z :=
  match n with
  | O => []
  | S n => bits_byte 0 (take 8 bits) :: decode_frame n (drop 8 bits)
  end.
Lemma decode_frame_bits l : bytes_ok l → decode_frame (length l) (frame_bits l) = l.
Proof.
  induction 1 as [|v l Hv Hl IH]; [done|]. unfold frame_bits in *. rewrite bind_cons. cbn [length decode_frame].
  rewrite take_app_length', drop_app_length' by done. by rewrite byte_bits_inv, IH.
Qed.

(** The statics as the loader leaves them. *)
Definition strip_boot (gpio : bool) : strip :=
  mk_strip false 0 0 (mk_timing 0 0 0 0) (replicate 78 0) 0 false gpio 0 [].
Definition lamp_boot : lamp := mk_lamp false [] 0 false.
Lemma strip_boot_inv th gpio : strip_inv th (strip_boot gpio) lamp_boot.
Proof. split; [done..|]. exists []. by split. Qed.

(** C21: Decoding the waveform on the pin the way the LEDs do gives back the
    colours of the last call, for every sequence of init, deinit, show,
    ambient and timer calls, as long as the measured loop times let the LEDs
    tell a one from a zero; the line ends low and no bit is torn. *)
Theorem ws2812_calls_shown clock th gpio ops :
  readable clock th →
  let a := foldl (λ a op, lamp_step op a) lamp_boot ops in
  ∃ s, ws_run clock ops (strip_boot gpio) = Some s ∧ ws2812_inited s = lamp_on a ∧ 0 <= ambient_mode s < 8 ∧
    let l := leds_run th leds_off (ws_out s) in
    rx_high l = false ∧ rx_locked l = false ∧ rx_bad l = false ∧
    (bytes_ok (lamp_leds a) → decode_frame (length (lamp_leds a)) (take (8 * 75) (rx_shown l)) = lamp_leds a).
Proof.
  intros Hth a. destruct (ws_run_inv clock th ops _ _ Hth (strip_boot_inv th gpio)) as (s & Hrun & [H1 H2 H3 H4 H5 H6]).
  destruct H6 as (sh & (Q1 & Q2 & Q3 & Q4 & Q5) & Hw). exists s. fold a in H1, H3, H4, Hw. cbv zeta. rewrite Q5, Hw.
  split; [exact Hrun|]. split; [exact H1|]. split; [lia|]. split; [exact Q1|]. split; [exact Q3|].
  split; [exact Q4|apply decode_frame_bits].
Qed.

(** The colour cycle: the [k]-th tick after initialisation. *)
Lemma cycle_leds k a :
  lamp_on a = true → lamp_cycle a = true → 0 <= lamp_mode a < 8 →
  let a' := foldl (λ a op, lamp_step op a) a (replicate (S k) WsTick) in
  lamp_on a' = true ∧ lamp_cycle a' = true ∧ lamp_mode a' = (lamp_mode a + Z.of_nat (S k)) mod 8 ∧
  ∃ r g b, ambient_modes !! Z.to_nat ((lamp_mode a + Z.of_nat k) mod 8) = Some (r, g, b) ∧ lamp_leds a' = solid r g b.
Proof.
  revert a. induction k as [|k IH]; intros a Hon Hc Hm.
  - cbn [replicate foldl lamp_step]. rewrite Hc. unfold lamp_wake. rewrite Hon.
    replace ((lamp_mode a + Z.of_nat 0) mod 8) with (lamp_mode a) by (rewrite Z.mod_small; lia).
    destruct (lookup_lt_is_Some_2 ambient_modes (Z.to_nat (lamp_mode a))) as [[[r g] b] E]; [cbn; lia|].
    rewrite E. cbn [default]. split; [done|]. split; [done|]. split; [done|]. by exists r, g, b.
  - change (replicate (S (S k)) WsTick) with (WsTick :: replicate (S k) WsTick). cbn [foldl].
    assert (H1 : lamp_on (lamp_step WsTick a) = true ∧ lamp_cycle (lamp_step WsTick a) = true ∧
                 lamp_mode (lamp_step WsTick a) = (lamp_mode a + 1) mod 8).
    { cbn [lamp_step]. rewrite Hc. unfold lamp_wake. rewrite Hon.
      by destruct (default _ _) as [[r g] b]. }
    destruct H1 as (O1 & C1 & M1). pose proof (Z.mod_pos_bound (lamp_mode a + 1) 8) as Hb.
    destruct (IH (lamp_step WsTick a) O1 C1) as (O2 & C2 & M2 & r & g & b & Hl & He); [lia|].
    rewrite M1 in M2, Hl. split; [done|]. split; [done|]. split.
    + rewrite M2, Zplus_mod_idemp_l. f_equal. lia.
    + exists r, g, b. split; [|done]. rewrite <- Hl, Zplus_mod_idemp_l. by replace (lamp_mode a + 1 + Z.of_nat k) with (lamp_mode a + Z.of_nat (S k)) by lia.
Qed.
Theorem ambient_cycle_colours clock th gpio k :
  readable clock th →
  ∃ s r g b, ws_run clock (WsInit :: replicate (S k) WsTick) (strip_boot gpio) = Some s ∧
    ambient_modes !! (k `mod` 8)%nat = Some (r, g, b) ∧
    decode_frame 75 (take (8 * 75) (rx_shown (leds_run th leds_off (ws_out s)))) = solid r g b.
Proof.
  intros Hth. destruct (ws_run_inv clock th (WsInit :: replicate (S k) WsTick) _ _ Hth (strip_boot_inv th gpio))
    as (s & Hrun & [_ _ _ _ _ (sh & (_ & _ & _ & _ & Hsh) & Hw)]).
  change (foldl _ lamp_boot (WsInit :: _)) with
    (foldl (λ a op, lamp_step op a) (lamp_wake lamp_boot) (replicate (S k) WsTick)) in Hw.
  destruct (cycle_leds k (lamp_wake lamp_boot)) as (_ & _ & _ & r & g & b & Hm & Hl); [done|done|cbn; lia|].
  exists s, r, g, b. split; [exact Hrun|]. rewrite Hl in Hw.
  change (lamp_mode (lamp_wake lamp_boot)) with 0 in Hm. rewrite Z.add_0_l in Hm.
  change 8 with (Z.of_nat 8) in Hm. rewrite <- Nat2Z.inj_mod, Nat2Z.id in Hm. split; [exact Hm|]. rewrite Hsh, Hw.
  apply (decode_frame_bits (solid r g b)).
  assert (Hall : Forall (λ '(r, g, b), bytes_ok (solid r g b)) ambient_modes)
    by (repeat apply Forall_cons_2; try apply Forall_nil_2; apply (bool_decide_unpack _); by vm_compute).
  rewrite Forall_lookup in Hall. exact (Hall _ _ Hm).
Qed.

Lemma nop_cycles_one c100 c200 : c200 < c100 + 200 → nop_cycles c100 c200 = 1.
Proof.
  intros H. unfold nop_cycles. destruct (Z.ltb_spec c100 c200); [|done].
  assert ((c200 - c100) / 100 = 0 ∨ (c200 - c100) / 100 = 1) as [-> | ->] by dlia; done.
Qed.

(** As long as a [nop] takes less than two cycles of the 24 MHz counter the
    measurement has no influence: the loop counts are the same at every processor
    clock, and the low time of a one, 300 ns by the comment, is as long as its
    high time. *)
Theorem ws2812_timing_is_fixed clock s :
  let t k := u32 (clock (S (ws_reads s + k)%nat) - clock (ws_reads s + k)%nat) in
  t 2%nat < t 0%nat + 200 → ws_nops (ws2812_refresh_timing clock s) = mk_timing 6 21 19 19.
Proof.
  intros t H. unfold ws2812_refresh_timing. cbn [ws2812_measure_nops ws_reads ws_nops].
  rewrite nop_cycles_one; [by vm_compute|]. unfold t in H.
  by rewrite Nat.add_0_r, <- plus_n_Sm, <- plus_n_Sm, Nat.add_0_r in H.
Qed.

(** ** Instances *)

(** A counter read at growing distances, fifty-two cycles more for the second
    hundred of [nop]s. *)
Definition sample_clock (k : nat) : Z := 13 * (Z.of_nat k * Z.of_nat k).
Lemma sample_readable_led : readable sample_clock (λ _, 12).
Proof.
  intros j k. unfold pace. rewrite nop_cycles_one; [by vm_compute|].
  unfold sample_clock. rewrite !Nat2Z.inj_succ. unfold Z.succ. set (x := Z.of_nat k).
  replace (13 * ((x + 1) * (x + 1)) - 13 * (x * x)) with (26 * x + 13) by lia.
  replace (13 * ((x + 1 + 1 + 1) * (x + 1 + 1 + 1)) - 13 * ((x + 1 + 1) * (x + 1 + 1))) with (26 * x + 65) by lia.
  dlia.
Qed.

Lemma ws2812_calls_shown_witness :
  ∃ s, ws_run sample_clock [WsInit; WsAmbientSet 1 2 3; WsTick] (strip_boot false) = Some s ∧
    decode_frame 75 (take (8 * 75) (rx_shown (leds_run (λ _, 12) leds_off (ws_out s)))) = solid 80 0 0.
Proof.
  destruct (ws2812_calls_shown sample_clock (λ _, 12) false [WsInit; WsAmbientSet 1 2 3; WsTick] sample_readable_led)
    as (s & Hrun & _ & _ & _ & _ & _ & Hd). exists s. split; [exact Hrun|]. apply Hd. by_decide.
Defined.

Lemma ambient_cycle_colours_witness :
  ∃ s, ws_run sample_clock (WsInit :: replicate 10 WsTick) (strip_boot true) = Some s ∧
    decode_frame 75 (take (8 * 75) (rx_shown (leds_run (λ _, 12) leds_off (ws_out s)))) = solid 0 80 0.
Proof.
  destruct (ambient_cycle_colours sample_clock (λ _, 12) true 9 sample_readable_led)
    as (s & r & g & b & Hrun & Hm & Hd). exists s. split; [exact Hrun|]. rewrite Hd. clear Hrun Hd. injection Hm as <- <- <-. reflexivity.
Defined.

Lemma ws2812_timing_is_fixed_witness :
  ws_nops (ws2812_refresh_timing sample_clock (strip_boot false)) = mk_timing 6 21 19 19.
Proof. apply ws2812_timing_is_fixed. by vm_compute. Defined.
