(* ===== verification/SysWakelock.v ===== *)
(** * Wake locks

    ext/actions/system/sys_wakelock.c: one bit per holder, and the time at which
    the last holder let go, from which the idle time is computed.  The calls run
    with interrupts locked; [now] is what [os_uptime_get_32] returns in them. *)

From stdpp Require Import base numbers list option gmap sets.
From S2P Require Import Prelude.
Local Open Scope Z_scope.

Definition EEXIST : Z := 17.
Definition ESRCH : Z := 3.

Definition WAKELOCK_INPUT : Z := 1.
Definition WAKELOCK_MESSAGE : Z := 2.
Definition WAKELOCK_BT_EVENT : Z := 3.
Definition WAKELOCK_PLAYER : Z := 4.
Definition WAKELOCK_USB_DEVICE : Z := 5.
Definition WAKELOCK_WAKE_UP : Z := 6.
Definition WAKELOCK_OTA : Z := 7.
Definition WAKELOCK_281B_TWS : Z := 8.
Definition WAKELOCK_PHAPP_TEST : Z := 9.

Record wakelocks := mk_wakelocks { wakelocks_bitmaps : Z; wakelocks_free_timestamp : Z }.

(** [_sys_wakelock_lookup]: the holder itself when it holds a lock. *)
Definition sys_wakelock_lookup (holder : Z) (s : wakelocks) : Z :=
  if negb (Z.land (wakelocks_bitmaps s) (Z.shiftl 1 holder) =? 0) then holder else 0.

Definition sys_wake_lock (holder : Z) (s : wakelocks) : Z * wakelocks :=
  let wakelock := sys_wakelock_lookup holder s in
  if negb (wakelock =? 0) then (- EEXIST, s)
  else (0, mk_wakelocks (Z.lor (wakelocks_bitmaps s) (Z.shiftl 1 holder)) 0).

Definition sys_wake_unlock (now holder : Z) (s : wakelocks) : Z * wakelocks :=
  let wakelock := sys_wakelock_lookup holder s in
  if wakelock =? 0 then (- ESRCH, s)
  else
    let bm := Z.land (wakelocks_bitmaps s) (u32 (Z.lnot (Z.shiftl 1 holder))) in
    (0, mk_wakelocks bm (if bm =? 0 then now else wakelocks_free_timestamp s)).

Definition sys_wakelocks_init (now : Z) (s : wakelocks) : wakelocks := mk_wakelocks (wakelocks_bitmaps s) now.
Definition sys_wakelocks_check (s : wakelocks) : Z := wakelocks_bitmaps s.
Definition sys_wakelocks_get_free_time (now : Z) (s : wakelocks) : Z :=
  if negb (wakelocks_bitmaps s =? 0) || (wakelocks_free_timestamp s =? 0) then 0
  else u32 (now - wakelocks_free_timestamp s).
Definition sys_wakelocks_free_time_reset (now : Z) (s : wakelocks) : wakelocks :=
  mk_wakelocks (wakelocks_bitmaps s) now.

(** ** The bitmap as a set *)

(** The holders of the enumeration and those that the bitmap has room for. *)
Definition is_holder (h : Z) : Prop := 1 <= h < 32.

Record holds (bm : Z) (X : gset Z) : Prop := {
  ho_range : 0 <= bm < 2 ^ 32;
  ho_bits : ∀ h, 0 <= h → Z.testbit bm h = bool_decide (h ∈ X);
  ho_holders : ∀ h, h ∈ X → is_holder h;
}.

Lemma testbit_one h i : 0 <= h → 0 <= i → Z.testbit (Z.shiftl 1 h) i = bool_decide (i = h).
Proof.
  intros Hh Hi. rewrite Z.shiftl_1_l, Z.pow2_bits_eqb by done.
  destruct (Z.eqb_spec h i) as [->|]; [by rewrite bool_decide_true|by rewrite bool_decide_false by congruence].
Qed.
Lemma land_one_zero bm h : 0 <= h → (Z.land bm (Z.shiftl 1 h) =? 0) = negb (Z.testbit bm h).
Proof.
  intros Hh. destruct (Z.testbit bm h) eqn:E; cbn [negb].
  - apply Z.eqb_neq. intros H0. apply (f_equal (λ z, Z.testbit z h)) in H0.
    rewrite Z.land_spec, E, testbit_one, Z.bits_0, bool_decide_true in H0 by done. discriminate.
  - apply Z.eqb_eq, Z.bits_inj'. intros i Hi. rewrite Z.land_spec, testbit_one, Z.bits_0 by done.
    destruct (decide (i = h)) as [->|]; [by rewrite E|by rewrite bool_decide_false, andb_false_r].
Qed.

Lemma lookup_holds bm ts X h :
  holds bm X → is_holder h → sys_wakelock_lookup h (mk_wakelocks bm ts) = if bool_decide (h ∈ X) then h else 0.
Proof.
  intros [_ Hb _] [Hh _]. unfold sys_wakelock_lookup. cbn [wakelocks_bitmaps].
  rewrite land_one_zero, (Hb h) by lia. by destruct (bool_decide (h ∈ X)).
Qed.

Lemma holds_zero bm X : holds bm X → (bm =? 0) = bool_decide (X = ∅).
Proof.
  intros [Hr Hb Hx]. destruct (Z.eqb_spec bm 0) as [->|Hne].
  - symmetry. apply bool_decide_eq_true. apply set_eq. intros h. split; [|by intros ?%elem_of_empty].
    intros Hh. pose proof (Hx h Hh) as [H1 H2]. pose proof (Hb h ltac:(lia)) as E. rewrite Z.bits_0 in E.
    symmetry in E. by apply bool_decide_eq_false in E.
  - symmetry. apply bool_decide_eq_false. intros ->. apply Hne, Z.bits_inj'. intros i Hi.
    rewrite Hb, Z.bits_0 by done. apply bool_decide_false, not_elem_of_empty.
Qed.

Lemma holds_empty : holds 0 ∅.
Proof.
  split; [lia| |by intros h ?%elem_of_empty].
  intros h Hh. rewrite Z.bits_0. symmetry. apply bool_decide_false, not_elem_of_empty.
Qed.

Lemma holds_lock bm X h : holds bm X → is_holder h → holds (Z.lor bm (Z.shiftl 1 h)) ({[h]} ∪ X).
Proof.
  intros [Hr Hb Hx] [H1 H2]. split.
  - apply lor_bound; [lia|done|]. rewrite Z.shiftl_1_l. split; [apply Z.pow_nonneg; lia|]. by apply Z.pow_lt_mono_r.
  - intros i Hi. rewrite Z.lor_spec, Hb, testbit_one by lia.
    destruct (decide (i = h)) as [->|Hne].
    + rewrite (bool_decide_true (h = h)), orb_true_r by done. symmetry. apply bool_decide_true. set_solver.
    + rewrite (bool_decide_false (i = h)), orb_false_r by done. apply bool_decide_ext. set_solver.
  - intros i Hi. apply elem_of_union in Hi as [->%elem_of_singleton|]; [done|by apply Hx].
Qed.
Lemma holds_unlock bm X h :
  holds bm X → is_holder h → holds (Z.land bm (u32 (Z.lnot (Z.shiftl 1 h)))) (X ∖ {[h]}).
Proof.
  intros [Hr Hb Hx] [H1 H2].
  assert (Hbit : ∀ i, 0 <= i → Z.testbit (Z.land bm (u32 (Z.lnot (Z.shiftl 1 h)))) i = bool_decide (i ∈ X ∖ {[h]})).
  { intros i Hi. rewrite Z.land_spec, Hb by done.
    destruct (decide (i ∈ X)) as [Hin|Hni]; [|rewrite !bool_decide_false by set_solver; done].
    pose proof (Hx i Hin) as [H3 H4]. rewrite (bool_decide_true (i ∈ X)) by done. cbn [andb].
    unfold u32. change 4294967296 with (2 ^ 32). rewrite Z.mod_pow2_bits_low, Z.lnot_spec, testbit_one by lia.
    destruct (decide (i = h)) as [->|Hne].
    + rewrite (bool_decide_true (h = h)), bool_decide_false by set_solver. done.
    + rewrite (bool_decide_false (i = h)), bool_decide_true by set_solver. done. }
  split; [|done|set_solver]. split; [apply Z.land_nonneg; left; lia|].
  apply bounded_testbit; [lia|apply Z.land_nonneg; left; lia|]. intros i Hi. rewrite Hbit by lia.
  apply bool_decide_false. intros Hin. apply elem_of_difference in Hin as [Hin _]. apply Hx in Hin. unfold is_holder in Hin. lia.
Qed.

(** ** Refinement

    The specification keeps the holders and the time of the last release ([None]
    while somebody holds a lock or when that time is not known). *)
Inductive wl_op := WlLock (h : Z) | WlUnlock (h : Z) | WlFreeReset.
Record wl_spec := mk_wl_spec { held : gset Z; since : option Z }.

Definition wl_exec (now : Z) (op : wl_op) (s : wakelocks) : Z * wakelocks :=
  match op with
  | WlLock h => sys_wake_lock h s
  | WlUnlock h => sys_wake_unlock (u32 now) h s
  | WlFreeReset => (0, sys_wakelocks_free_time_reset (u32 now) s)
  end.
Definition wl_spec_exec (now : Z) (op : wl_op) (a : wl_spec) : Z * wl_spec :=
  match op with
  | WlLock h => if bool_decide (h ∈ held a) then (- EEXIST, a) else (0, mk_wl_spec ({[h]} ∪ held a) None)
  | WlUnlock h =>
      if bool_decide (h ∈ held a) then
        (0, mk_wl_spec (held a ∖ {[h]}) (if bool_decide (held a ∖ {[h]} = ∅) then Some now else since a))
      else (- ESRCH, a)
  | WlFreeReset => (0, mk_wl_spec (held a) (Some now))
  end.
Definition wl_idle (now : Z) (a : wl_spec) : Z :=
  if bool_decide (held a = ∅) then match since a with Some t => u32 (now - t) | None => 0 end else 0.

(** A stored time of 0 counts as not known, which the specification only calls
    [None]; so the times are those of a clock that does not read 0. *)
Record wl_refines (s : wakelocks) (a : wl_spec) : Prop := {
  wr_held : holds (wakelocks_bitmaps s) (held a);
  wr_since : match since a with
             | Some t => wakelocks_free_timestamp s = u32 t ∧ u32 t ≠ 0
             | None => wakelocks_free_timestamp s = 0
             end;
}.

Definition wl_op_ok (op : wl_op) : Prop :=
  match op with WlLock h | WlUnlock h => is_holder h | WlFreeReset => True end.
#[export] Instance wl_op_ok_dec op : Decision (wl_op_ok op).
Proof. destruct op; unfold wl_op_ok, is_holder; apply _. Defined.

Lemma u32_sub_u32 a b : u32 (a - u32 b) = u32 (a - b).
Proof. unfold u32. by rewrite Zminus_mod_idemp_r. Qed.
Lemma u32_u32_sub a b : u32 (u32 a - b) = u32 (a - b).
Proof. unfold u32. by rewrite Zminus_mod_idemp_l. Qed.

Lemma wl_exec_refines now op s a :
  wl_refines s a → wl_op_ok op → u32 now ≠ 0 →
  (wl_exec now op s).1 = (wl_spec_exec now op a).1 ∧ wl_refines (wl_exec now op s).2 (wl_spec_exec now op a).2.
Proof.
  intros [Hh Hs] Hop Hnow. destruct s as [bm ts], a as [X t]. cbn [wakelocks_bitmaps held since wakelocks_free_timestamp] in *.
  destruct op as [h|h|]; cbn [wl_exec wl_spec_exec held since wl_op_ok] in *.
  - unfold sys_wake_lock. rewrite (lookup_holds bm ts X h Hh Hop). case_bool_decide as E.
    + rewrite (proj2 (Z.eqb_neq h 0)) by (unfold is_holder in Hop; lia). by split.
    + rewrite Z.eqb_refl. split; [done|]. split; [|done]. by apply holds_lock.
  - unfold sys_wake_unlock. rewrite (lookup_holds bm ts X h Hh Hop). case_bool_decide as E.
    + rewrite (proj2 (Z.eqb_neq h 0)) by (unfold is_holder in Hop; lia). split; [done|].
      pose proof (holds_unlock bm X h Hh Hop) as Hu. split; [exact Hu|]. cbn [snd since wakelocks_free_timestamp wakelocks_bitmaps].
      rewrite (holds_zero _ _ Hu). by case_bool_decide.
    + rewrite Z.eqb_refl. by split.
  - split; [done|]. by split.
Qed.

Lemma wl_idle_free now s a : wl_refines s a → sys_wakelocks_get_free_time (u32 now) s = wl_idle now a.
Proof.
  intros [Hh Hs]. unfold sys_wakelocks_get_free_time, wl_idle. rewrite (holds_zero _ _ Hh).
  case_bool_decide; cbn [negb orb]; [|done]. destruct (since a) as [t|].
  - destruct Hs as [-> Hne]. rewrite (proj2 (Z.eqb_neq _ 0)) by done. by rewrite u32_sub_u32, u32_u32_sub.
  - by rewrite Hs.
Qed.

(** Calls with the times they happen at. *)
Fixpoint wl_run (ops : list (Z * wl_op)) (s : wakelocks) : list Z * wakelocks :=
  match ops with
  | [] => ([], s)
  | (t, op) :: ops => let '(r, s) := wl_exec t op s in let '(rs, s) := wl_run ops s in (r :: rs, s)
  end.
Fixpoint wl_spec_run (ops : list (Z * wl_op)) (a : wl_spec) : list Z * wl_spec :=
  match ops with
  | [] => ([], a)
  | (t, op) :: ops => let '(r, a) := wl_spec_exec t op a in let '(rs, a) := wl_spec_run ops a in (r :: rs, a)
  end.

Lemma wl_run_refines ops : ∀ s a,
  wl_refines s a → Forall (λ '(t, op), wl_op_ok op ∧ u32 t ≠ 0) ops →
  (wl_run ops s).1 = (wl_spec_run ops a).1 ∧ wl_refines (wl_run ops s).2 (wl_spec_run ops a).2.
Proof.
  induction ops as [|[t op] ops IH]; intros s a Hs Hall; [done|].
  apply Forall_cons_1 in Hall as [[Hop Ht] Hall]. cbn [wl_run wl_spec_run].
  destruct (wl_exec_refines t op s a Hs Hop Ht) as [Hr Hs'].
  destruct (wl_exec t op s) as [r s'], (wl_spec_exec t op a) as [r' a']. cbn in Hr, Hs'.
  destruct (IH s' a' Hs' Hall) as [Hrs Hs'']. 
  destruct (wl_run ops s') as [rs s''], (wl_spec_run ops a') as [rs' a'']. cbn in *. by subst.
Qed.

(** C27: The wake locks are a set of holders with the time since the last one let
    go: results, emptiness check and free time of any sequence of lock and
    unlock calls are those of the set. *)
Theorem wakelocks_refine_set t0 ops now :
  u32 t0 ≠ 0 → Forall (λ '(t, op), wl_op_ok op ∧ u32 t ≠ 0) ops →
  let s := sys_wakelocks_init (u32 t0) (mk_wakelocks 0 0) in
  let a := mk_wl_spec ∅ (Some t0) in
  let '(rs, s') := wl_run ops s in
  let '(rs', a') := wl_spec_run ops a in
  rs = rs' ∧ (sys_wakelocks_check s' = 0 ↔ held a' = ∅) ∧
  (∀ h, is_holder h → Z.testbit (sys_wakelocks_check s') h = bool_decide (h ∈ held a')) ∧
  sys_wakelocks_get_free_time (u32 now) s' = wl_idle now a'.
Proof.
  intros Ht Hall s a. assert (Hs : wl_refines s a) by (split; [apply holds_empty|done]).
  destruct (wl_run_refines ops s a Hs Hall) as [Hr Hs'].
  destruct (wl_run ops s) as [rs s'], (wl_spec_run ops a) as [rs' a']. cbn in Hr, Hs'.
  split; [done|]. destruct Hs' as [Hh Hsi]. split; [|split].
  - pose proof (holds_zero _ _ Hh) as Hz. unfold sys_wakelocks_check. split; intros E.
    + rewrite E in Hz. symmetry in Hz. by apply bool_decide_eq_true in Hz.
    + rewrite E, bool_decide_true in Hz by done. by apply Z.eqb_eq.
  - intros h [H1 H2]. apply (ho_bits _ _ Hh). lia.
  - apply wl_idle_free. by split.
Qed.
Lemma wakelocks_refine_set_witness :
  let s := sys_wakelocks_init 5 (mk_wakelocks 0 0) in
  wl_run [(10, WlLock 2); (20, WlLock 4); (25, WlLock 2); (30, WlUnlock 2); (40, WlUnlock 4)] s =
    ([0; 0; -17; 0; 0], mk_wakelocks 0 40) ∧
  sys_wakelocks_get_free_time 100 (mk_wakelocks 0 40) = 60.
Proof.
  intros s.
  pose proof (wakelocks_refine_set 5 [(10, WlLock 2); (20, WlLock 4); (25, WlLock 2); (30, WlUnlock 2); (40, WlUnlock 4)] 100
    ltac:(done) ltac:(by_decide)) as H.
  split; [by vm_compute|]. vm_compute in H. tauto.
Defined.
