(* ===== verification/SysStandby.v ===== *)
(** * Standby and the system monitor

    ext/actions/system/sys_standby.c and sys_monitor.c in the shipped
    configuration (CONFIG_SYS_STANDBY, SYS_WAKELOCK, AUTO_POWEDOWN_CONNECTED,
    SOC_DVFS_DYNAMIC_LEVEL, AUDIO_POWERON_OPEN_PA, USB_HOTPLUG, WATCHDOG,
    TASK_WDT and THREAD_TIMER set; AUTO_STANDBY_S2_LOWFREQ, TWS, MMC and the LED
    managers not; standby after 60 s, power-down after 600 s).  The monitor's
    timer runs the standby work every 100 ms.

    The time does not move during a handler, except in the loop of S2, which
    gives the other threads 300 us in every round: what happens in that time
    (and in a deep sleep) is a list of events for each round. *)

From stdpp Require Import base numbers list option sets.
From S2P Require Import Prelude SysWakelock.
Local Open Scope Z_scope.

Definition EFAULT : Z := 14.
Definition AUTO_STANDBY_TIME_SEC : Z := 60.
Definition AUTO_POWEDOWN_TIME_SEC : Z := 600.
Definition STANDBY_MIN_TIME_SEC : Z := 10.
Definition STANDBY_BT_MIN_SLEEP_MSEC : Z := 10.
Definition OS_FOREVER : Z := -1.
Definition SOC_DVFS_LEVEL_IDLE : Z := 10.

(** SHORT_WK, LONG_WK, BAT, ONOFF0_S, ONOFF0_L, REMOTE, RESET_WK, DC5VON *)
Definition STANDBY_VALID_WAKEUP_PD : Z :=
  foldr (λ b m, Z.lor (Z.shiftl 1 b) m) 0 [2; 1; 12; 14; 15; 11; 3; 4].

Definition SYS_EVENT_NONE : Z := 0.
Definition SYS_EVENT_POWER_ON : Z := 1.
Definition SYS_EVENT_POWER_OFF : Z := 2.

Inductive STANDBY_STATE_E := STANDBY_NORMAL | STANDBY_S1 | STANDBY_S2 | STANDBY_S3.
#[export] Instance standby_state_eq_dec : EqDecision STANDBY_STATE_E.
Proof. solve_decision. Defined.

Record standby_context_t := mk_context {
  auto_standby_time : Z;
  auto_powerdown_time : Z;
  standby_state : STANDBY_STATE_E;
  dvfs_level : Z;
  bt_ctrl_sleep_time : Z;
  bt_ctrl_sleep_timestamp : Z;
  bt_ctrl_sleep_pending : bool;
  bt_host_wake_up_pending : bool;
  wakeup_timestamp : Z;
}.

(** Calls of the rest of the system. *)
Inductive pm_call :=
  | ClosePa | OpenPa | UsbSuspend | UsbResume
  | DvfsUnset (level : Z) | DvfsSet (level : Z)
  | SetWakeupSrc | ClearPending
  | SuspendFrontApp | ResumeFrontApp
  | AdcKeyDisable | AdcKeyEnable | BatteryDisable | BatteryEnable
  | LightSleepEnter | LightSleepExit | DeepSleep
  | WatchdogClear | TaskWdtFeed.

(** The surroundings: time since start in ms, the 28-bit clock of the radio, the
    supply, pairing and broadcast modes, the wake-up flags of the power unit, how
    many more reads will find the on/off key down, the processor's level, and
    which of front application, key and battery converter exist. *)
Record surroundings := mk_env {
  env_now : Z;
  env_rc : Z;
  env_dc5v : bool;
  env_pair : bool;
  env_auracast : Z;
  env_pending : Z;
  env_key : nat;
  env_dvfs : Z;
  env_app : bool;
  env_adckey : bool;
  env_battery : bool;
}.

(** [sb_last]: the static [last_timestamp]; [sb_events]: what has been given to
    [sys_event_notify]. *)
Record standby := mk_standby {
  sb_ctx : standby_context_t;
  sb_locks : wakelocks;
  sb_last : Z;
  sb_env : surroundings;
  sb_events : list Z;
  sb_calls : list pm_call;
}.

Definition on_ctx (f : standby_context_t → standby_context_t) (s : standby) : standby :=
  mk_standby (f (sb_ctx s)) (sb_locks s) (sb_last s) (sb_env s) (sb_events s) (sb_calls s).
Definition set_locks (w : wakelocks) (s : standby) : standby :=
  mk_standby (sb_ctx s) w (sb_last s) (sb_env s) (sb_events s) (sb_calls s).
Definition set_last (t : Z) (s : standby) : standby :=
  mk_standby (sb_ctx s) (sb_locks s) t (sb_env s) (sb_events s) (sb_calls s).
Definition on_env (f : surroundings → surroundings) (s : standby) : standby :=
  mk_standby (sb_ctx s) (sb_locks s) (sb_last s) (f (sb_env s)) (sb_events s) (sb_calls s).
Definition sys_event_notify (e : Z) (s : standby) : standby :=
  mk_standby (sb_ctx s) (sb_locks s) (sb_last s) (sb_env s) (sb_events s ++ [e]) (sb_calls s).
Definition pm (c : pm_call) (s : standby) : standby :=
  mk_standby (sb_ctx s) (sb_locks s) (sb_last s) (sb_env s) (sb_events s) (sb_calls s ++ [c]).
Definition pm_if (b : bool) (c : pm_call) (s : standby) : standby := if b then pm c s else s.

Definition set_state (st : STANDBY_STATE_E) (c : standby_context_t) : standby_context_t :=
  mk_context (auto_standby_time c) (auto_powerdown_time c) st (dvfs_level c) (bt_ctrl_sleep_time c)
    (bt_ctrl_sleep_timestamp c) (bt_ctrl_sleep_pending c) (bt_host_wake_up_pending c) (wakeup_timestamp c).
Definition set_dvfs_level (l : Z) (c : standby_context_t) : standby_context_t :=
  mk_context (auto_standby_time c) (auto_powerdown_time c) (standby_state c) l (bt_ctrl_sleep_time c)
    (bt_ctrl_sleep_timestamp c) (bt_ctrl_sleep_pending c) (bt_host_wake_up_pending c) (wakeup_timestamp c).
Definition set_ctrl_sleep (pending : bool) (time stamp : Z) (c : standby_context_t) : standby_context_t :=
  mk_context (auto_standby_time c) (auto_powerdown_time c) (standby_state c) (dvfs_level c) time
    stamp pending (bt_host_wake_up_pending c) (wakeup_timestamp c).
Definition set_host_wake (pending : bool) (c : standby_context_t) : standby_context_t :=
  mk_context (auto_standby_time c) (auto_powerdown_time c) (standby_state c) (dvfs_level c) (bt_ctrl_sleep_time c)
    (bt_ctrl_sleep_timestamp c) (bt_ctrl_sleep_pending c) pending (wakeup_timestamp c).
Definition set_wakeup_timestamp (t : Z) (c : standby_context_t) : standby_context_t :=
  mk_context (auto_standby_time c) (auto_powerdown_time c) (standby_state c) (dvfs_level c) (bt_ctrl_sleep_time c)
    (bt_ctrl_sleep_timestamp c) (bt_ctrl_sleep_pending c) (bt_host_wake_up_pending c) t.

Definition env_set_pending (p : Z) (e : surroundings) : surroundings :=
  mk_env (env_now e) (env_rc e) (env_dc5v e) (env_pair e) (env_auracast e) p (env_key e) (env_dvfs e)
    (env_app e) (env_adckey e) (env_battery e).
Definition env_set_key (n : nat) (e : surroundings) : surroundings :=
  mk_env (env_now e) (env_rc e) (env_dc5v e) (env_pair e) (env_auracast e) (env_pending e) n (env_dvfs e)
    (env_app e) (env_adckey e) (env_battery e).
Definition now (s : standby) : Z := u32 (env_now (sb_env s)).
Definition free_time (s : standby) : Z := sys_wakelocks_get_free_time (now s) (sb_locks s).
Definition state (s : standby) : STANDBY_STATE_E := standby_state (sb_ctx s).

(** ** What the other threads and the hardware do *)

Definition sys_set_bt_ctrl_sleep_pending (pending : bool) (sleep_time : Z) (s : standby) : standby :=
  on_ctx (set_ctrl_sleep pending sleep_time (env_rc (sb_env s))) s.
Definition sys_set_bt_host_wake_up_pending (pending : bool) (s : standby) : standby :=
  on_ctx (set_host_wake pending) s.

Inductive env_act :=
  | ActTime (ms : Z)
  | ActLock (holder : Z)
  | ActUnlock (holder : Z)
  | ActBtHost
  | ActBtCtrl (pending : bool) (sleep_time : Z)
  | ActRc (rc : Z)
  | ActDc5v (on : bool)
  | ActPair (on : bool)
  | ActAuracast (mode : Z)
  | ActPending (bits : Z)
  | ActKey (reads : nat).
Definition do_act (s : standby) (a : env_act) : standby :=
  match a with
  | ActTime ms => on_env (λ e, mk_env (env_now e + ms) (env_rc e) (env_dc5v e) (env_pair e) (env_auracast e)
                                 (env_pending e) (env_key e) (env_dvfs e) (env_app e) (env_adckey e) (env_battery e)) s
  | ActLock h => set_locks (sys_wake_lock h (sb_locks s)).2 s
  | ActUnlock h => set_locks (sys_wake_unlock (now s) h (sb_locks s)).2 s
  | ActBtHost => sys_set_bt_host_wake_up_pending true s
  | ActBtCtrl p t => sys_set_bt_ctrl_sleep_pending p t s
  | ActRc rc => on_env (λ e, mk_env (env_now e) rc (env_dc5v e) (env_pair e) (env_auracast e)
                                 (env_pending e) (env_key e) (env_dvfs e) (env_app e) (env_adckey e) (env_battery e)) s
  | ActDc5v b => on_env (λ e, mk_env (env_now e) (env_rc e) b (env_pair e) (env_auracast e)
                                 (env_pending e) (env_key e) (env_dvfs e) (env_app e) (env_adckey e) (env_battery e)) s
  | ActPair b => on_env (λ e, mk_env (env_now e) (env_rc e) (env_dc5v e) b (env_auracast e)
                                 (env_pending e) (env_key e) (env_dvfs e) (env_app e) (env_adckey e) (env_battery e)) s
  | ActAuracast m => on_env (λ e, mk_env (env_now e) (env_rc e) (env_dc5v e) (env_pair e) m
                                 (env_pending e) (env_key e) (env_dvfs e) (env_app e) (env_adckey e) (env_battery e)) s
  | ActPending bits => on_env (λ e, env_set_pending (Z.lor (env_pending e) bits) e) s
  | ActKey n => on_env (env_set_key n) s
  end.

(** ** Power-down *)

(** [_sys_standby_allow_auto_powerdown] *)
Definition sys_standby_allow_auto_powerdown : bool := true.

(** [_sys_standby_check_auto_powerdown] *)
Definition sys_standby_check_auto_powerdown (s : standby) : Z * standby :=
  if env_dc5v (sb_env s) then (0, s)
  else if sys_standby_allow_auto_powerdown then
    if auto_powerdown_time (sb_ctx s) <=? free_time s then (1, sys_event_notify SYS_EVENT_POWER_OFF s) else (0, s)
  else (0, s).

(** ** The states *)

Definition sys_standby_enter_s1 (s : standby) : standby :=
  pm UsbSuspend (pm ClosePa (on_ctx (set_state STANDBY_S1) s)).
Definition sys_standby_exit_s1 (s : standby) : standby :=
  let s := on_ctx (set_state STANDBY_NORMAL) s in
  let s := on_ctx (set_wakeup_timestamp (now s)) s in
  pm UsbResume (pm OpenPa s).

Definition sys_standby_enter_s2 (s : standby) : standby :=
  let s := on_ctx (set_state STANDBY_S2) s in
  let s := on_ctx (set_dvfs_level (env_dvfs (sb_env s))) s in
  let s := pm (DvfsUnset (dvfs_level (sb_ctx s))) s in
  let s := pm (DvfsSet SOC_DVFS_LEVEL_IDLE) s in
  let s := pm SetWakeupSrc s in
  on_env (env_set_pending 0) (pm ClearPending s).
Definition sys_standby_exit_s2 (s : standby) : standby :=
  let s := on_ctx (set_state STANDBY_S1) s in
  let s := pm (DvfsUnset SOC_DVFS_LEVEL_IDLE) s in
  pm (DvfsSet (dvfs_level (sb_ctx s))) s.

(** [_sys_standby_enter_s3]: [slept] is what happens during the deep sleep. *)
Definition sys_standby_enter_s3 (slept : list env_act) (s : standby) : standby :=
  foldl do_act (pm DeepSleep (on_ctx (set_state STANDBY_S3) s)) slept.

Definition disable_s1 (s : standby) : Z * standby :=
  (0, set_locks (sys_wakelocks_free_time_reset (now s) (sb_locks s)) s).
Definition sys_standby_process_normal (s : standby) : Z * standby :=
  if negb (sys_wakelocks_check (sb_locks s) =? 0) then disable_s1 s
  else if env_dc5v (sb_env s) then disable_s1 s
  else if bt_host_wake_up_pending (sb_ctx s) then disable_s1 (sys_set_bt_host_wake_up_pending false s)
  else if env_pair (sb_env s) then disable_s1 s
  else
    let s := if 10000 <? u32 (free_time s - sb_last s) then set_last (free_time s) s else s in
    if negb (env_auracast (sb_env s) =? 1) then
      if auto_standby_time (sb_ctx s) <? free_time s then (0, sys_standby_enter_s1 s) else (0, s)
    else (0, s).

Definition sys_standby_process_s1 (s : standby) : Z * standby :=
  if negb (sys_wakelocks_check (sb_locks s) =? 0) then (0, sys_standby_exit_s1 s)
  else if auto_standby_time (sb_ctx s) <? free_time s then (0, sys_standby_enter_s2 s)
  else (0, sys_standby_exit_s1 s).

(** The on/off key is waited for until it is up. *)
Fixpoint wait_key (reads : nat) (s : standby) : standby :=
  match reads with
  | O => s
  | S n => wait_key n (on_env (env_set_key n) s)
  end.

(** [_sys_standby_wakeup_from_s2] *)
Definition sys_standby_wakeup_from_s2 (s : standby) : bool * standby :=
  let wakelocks := sys_wakelocks_check (sb_locks s) in
  let '(down, s) := sys_standby_check_auto_powerdown s in
  if negb (down =? 0) then (true, s)
  else if negb (Z.land (env_pending (sb_env s)) STANDBY_VALID_WAKEUP_PD =? 0) then
    (true, on_env (env_set_pending 0) (pm ClearPending s))
  else if bt_host_wake_up_pending (sb_ctx s) then (true, on_ctx (set_host_wake false) s)
  else if negb (wakelocks =? 0) then (true, s)
  else if (0 <? env_key (sb_env s))%nat then (true, wait_key (env_key (sb_env s)) s)
  else (false, s).

(** [_sys_standby_process_before_s2], [_sys_standby_process_after_s2] *)
Definition sys_standby_process_before_s2 (s : standby) : standby :=
  let s := pm_if (env_app (sb_env s)) SuspendFrontApp s in
  let s := pm_if (env_adckey (sb_env s)) AdcKeyDisable s in
  let s := pm_if (env_battery (sb_env s)) BatteryDisable s in
  pm LightSleepEnter s.
Definition sys_standby_process_after_s2 (s : standby) : standby :=
  let s := pm LightSleepExit s in
  let s := pm_if (env_adckey (sb_env s)) AdcKeyEnable s in
  let s := pm_if (env_battery (sb_env s)) BatteryEnable s in
  let s := sys_standby_exit_s2 s in
  pm_if (env_app (sb_env s)) ResumeFrontApp s.

(** Whether the controller's sleep leaves time for a deep sleep. *)
Definition deep_sleep_fits (s : standby) : bool :=
  let c := sb_ctx s in
  let cur_time := env_rc (sb_env s) in
  if cur_time <? bt_ctrl_sleep_timestamp c then
    u32 (cur_time + STANDBY_BT_MIN_SLEEP_MSEC + 0x10000000) <? u32 (bt_ctrl_sleep_time c + bt_ctrl_sleep_timestamp c)
  else u32 (STANDBY_BT_MIN_SLEEP_MSEC + cur_time) <? u32 (bt_ctrl_sleep_time c + bt_ctrl_sleep_timestamp c).

(** A round: what happens in a deep sleep, should there be one, and in the 300 us. *)
Definition round : Type := list env_act * list env_act.
Fixpoint s2_loop (rounds : list round) (s : standby) : option standby :=
  let s := pm TaskWdtFeed (pm WatchdogClear s) in
  let '(woken, s) := sys_standby_wakeup_from_s2 s in
  if woken then Some s
  else
    match rounds with
    | [] => None
    | (slept, acts) :: rounds =>
        let s := if bt_ctrl_sleep_pending (sb_ctx s) then
                   if deep_sleep_fits s then sys_standby_enter_s3 slept s else s
                 else s in
        s2_loop rounds (foldl do_act s acts)
    end.

(** [_sys_standby_process_s2]; [None]: still asleep when the rounds are used up. *)
Definition sys_standby_process_s2 (rounds : list round) (s : standby) : option (Z * standby) :=
  s ← s2_loop rounds (sys_standby_process_before_s2 s);
  let s := sys_standby_process_after_s2 s in
  let s := set_locks (sys_wake_lock WAKELOCK_WAKE_UP (sb_locks s)).2 s in
  let s := sys_standby_exit_s1 s in
  let s := set_locks (sys_wake_unlock (now s) WAKELOCK_WAKE_UP (sb_locks s)).2 s in
  Some (0, s).

(** [_sys_standby_work_handle] *)
Definition sys_standby_work_handle (rounds : list round) (s : standby) : option (Z * standby) :=
  let '(ret, s) := sys_standby_check_auto_powerdown s in
  if negb (ret =? 0) then Some (ret, s)
  else
    match state s with
    | STANDBY_NORMAL => Some (sys_standby_process_normal s)
    | STANDBY_S1 => Some (sys_standby_process_s1 s)
    | STANDBY_S2 => sys_standby_process_s2 rounds s
    | STANDBY_S3 => Some (ret, s)
    end.

(** [sys_standby_init]; [powerdown]: the property AUTO_POWERDOWN; [added]: what
    [sys_monitor_add_work] returns. *)
Definition standby_time : Z :=
  if AUTO_STANDBY_TIME_SEC =? 0 then u32 OS_FOREVER
  else if AUTO_STANDBY_TIME_SEC <? STANDBY_MIN_TIME_SEC then STANDBY_MIN_TIME_SEC * 1000
  else AUTO_STANDBY_TIME_SEC * 1000.
Definition sys_standby_init (powerdown : bool) (added : Z) (s : standby) : Z * standby :=
  let c := mk_context standby_time (if powerdown then AUTO_POWEDOWN_TIME_SEC * 1000 else u32 OS_FOREVER)
             STANDBY_NORMAL 0 0 0 false false 0 in
  let s := set_locks (sys_wakelocks_init (now s) (sb_locks s)) (on_ctx (λ _, c) s) in
  if negb (added =? 0) then (- EFAULT, s) else (0, s).

Definition system_wakeup_time (s : standby) : Z :=
  if negb (wakeup_timestamp (sb_ctx s) =? 0) then u32 (now s - wakeup_timestamp (sb_ctx s)) else u32 OS_FOREVER.

(** ** The monitor *)

Definition MAX_MONITOR_WORK_NUM : nat := 5.

Section monitor.
(** The registered works, what running one does and how an event is sent. *)
Context {W St : Type} (run_work : W → St → option (Z * St)) (notify : Z → St → St).

Record sys_monitor_t := mk_monitor { monitor_stoped : bool; monitor_work : list (option W); mon_timer : bool }.

Definition sys_monitor_init : sys_monitor_t := mk_monitor false (replicate MAX_MONITOR_WORK_NUM None) false.

Fixpoint add_loop (w : W) (l : list (option W)) : option (list (option W)) :=
  match l with
  | [] => None
  | None :: l => Some (Some w :: l)
  | Some v :: l => l' ← add_loop w l; Some (Some v :: l')
  end.
Definition sys_monitor_add_work (w : W) (m : sys_monitor_t) : Z * sys_monitor_t :=
  match add_loop w (monitor_work m) with
  | Some l => (0, mk_monitor (monitor_stoped m) l (mon_timer m))
  | None => (- ESRCH, m)
  end.

Definition sys_monitor_start (m : sys_monitor_t) : sys_monitor_t := mk_monitor (monitor_stoped m) (monitor_work m) true.
Definition sys_monitor_stop (m : sys_monitor_t) : sys_monitor_t := mk_monitor true (monitor_work m) false.

Fixpoint works_loop (l : list (option W)) (s : St) : option St :=
  match l with
  | [] => Some s
  | None :: l => works_loop l s
  | Some w :: l =>
      '(event, s) ← run_work w s;
      works_loop l (if negb (event =? SYS_EVENT_NONE) then notify event s else s)
  end.
(** [_sys_monitor_timer_handle] *)
Definition sys_monitor_timer_handle (m : sys_monitor_t) (s : St) : option St :=
  if monitor_stoped m then Some s else works_loop (monitor_work m) s.
End monitor.

(** ** When the system falls asleep

    The runs of the system, with the last time at which there was a reason to
    stay awake: a lock held by anybody, or something a tick in the normal state
    saw, or the way out of S2. *)
Definition held (s : standby) : bool := negb (wakelocks_bitmaps (sb_locks s) =? 0).
Definition stays_awake (s : standby) : bool :=
  match state s with
  | STANDBY_NORMAL => held s || env_dc5v (sb_env s) || bt_host_wake_up_pending (sb_ctx s) || env_pair (sb_env s)
  | STANDBY_S2 => true
  | _ => held s
  end.
Definition act_ok (a : env_act) : Prop :=
  match a with ActTime ms => 0 <= ms | ActLock h | ActUnlock h => 0 <= h | _ => True end.
#[export] Instance act_ok_dec a : Decision (act_ok a).
Proof. destruct a; unfold act_ok; apply _. Defined.

Inductive run : standby → Z → Prop :=
  | run_start powerdown added s :
      sb_locks s = mk_wakelocks 0 0 → run (sys_standby_init powerdown added s).2 (env_now (sb_env s))
  | run_act s busy a :
      run s busy → act_ok a →
      run (do_act s a) (if held s || held (do_act s a) then env_now (sb_env (do_act s a)) else busy)
  | run_tick s busy rounds r s' :
      run s busy → sys_standby_work_handle rounds s = Some (r, s') →
      run s' (if (r =? 0) && stays_awake s then env_now (sb_env s') else busy).

(** The stored time is not before the last reason to stay awake. *)
Record idle_inv (s : standby) (busy : Z) : Prop := {
  ii_past : busy <= env_now (sb_env s);
  ii_held : held s = true → busy = env_now (sb_env s);
  ii_free : held s = false → wakelocks_free_timestamp (sb_locks s) = 0 ∨
              ∃ t, busy <= t <= env_now (sb_env s) ∧ wakelocks_free_timestamp (sb_locks s) = u32 t;
}.

Lemma u32_le x : 0 <= x → u32 x <= x.
Proof. intros. unfold u32. apply Z.mod_le; lia. Qed.

Lemma idle_free_time s busy : idle_inv s busy → free_time s <= env_now (sb_env s) - busy.
Proof.
  intros [H1 H2 H3]. unfold free_time, sys_wakelocks_get_free_time. unfold held in *.
  destruct (wakelocks_bitmaps (sb_locks s) =? 0); cbn [negb orb] in *; [|lia].
  destruct (Z.eqb_spec (wakelocks_free_timestamp (sb_locks s)) 0); [lia|].
  destruct (H3 eq_refl) as [|(t & Ht & ->)]; [done|]. unfold now. rewrite u32_sub_u32, u32_u32_sub.
  pose proof (u32_le (env_now (sb_env s) - t) ltac:(lia)). lia.
Qed.

(** A step that keeps the locks and the time keeps the invariant. *)
Lemma idle_inv_same s s' busy :
  sb_locks s' = sb_locks s → env_now (sb_env s') = env_now (sb_env s) → idle_inv s busy → idle_inv s' busy.
Proof. intros Hl Ht [H1 H2 H3]. unfold held in *. split; unfold held; rewrite ?Hl, ?Ht; done. Qed.
(** Letting the idle time start now. *)
Lemma idle_inv_now s : (held s = false → wakelocks_free_timestamp (sb_locks s) = now s) → idle_inv s (env_now (sb_env s)).
Proof. intros H. split; [lia|done|]. intros Hh. right. exists (env_now (sb_env s)). split; [lia|by apply H]. Qed.

Lemma lock_held h w : 0 <= h → wakelocks_bitmaps (sys_wake_lock h w).2 ≠ 0.
Proof.
  intros Hh. unfold sys_wake_lock, sys_wakelock_lookup. rewrite land_one_zero, negb_involutive by done.
  destruct (Z.testbit (wakelocks_bitmaps w) h) eqn:E.
  - assert (Hne : wakelocks_bitmaps w ≠ 0) by (intros H0; rewrite H0, Z.bits_0 in E; discriminate).
    destruct (negb (h =? 0)); cbn; [done|]. intros [H0 _]%Z.lor_eq_0_iff. done.
  - cbn. intros [_ H0]%Z.lor_eq_0_iff. apply (f_equal (λ z, Z.testbit z h)) in H0.
    rewrite testbit_one, bool_decide_true, Z.bits_0 in H0 by done. discriminate.
Qed.

Lemma unlock_free t h w :
  wakelocks_bitmaps (sys_wake_unlock t h w).2 = 0 → sys_wake_unlock t h w = (- ESRCH, w) ∨
  wakelocks_bitmaps w ≠ 0 ∧ wakelocks_free_timestamp (sys_wake_unlock t h w).2 = t.
Proof.
  unfold sys_wake_unlock, sys_wakelock_lookup. intros H0.
  destruct (negb (Z.land (wakelocks_bitmaps w) (Z.shiftl 1 h) =? 0)) eqn:E; [|by left].
  destruct (Z.eqb_spec h 0); [by left|]. right. cbn in *. rewrite H0. split; [|done].
  intros Hb. rewrite Hb, Z.land_0_l in E. discriminate.
Qed.

Lemma relock_free t h w :
  0 <= h → wakelocks_bitmaps (sys_wake_unlock t h (sys_wake_lock h w).2).2 = 0 →
  wakelocks_free_timestamp (sys_wake_unlock t h (sys_wake_lock h w).2).2 = t.
Proof.
  intros Hh H0. pose proof (lock_held h w Hh) as Hl. destruct (unlock_free _ _ _ H0) as [Hu|[_ Hu]]; [|done].
  rewrite Hu in H0. done.
Qed.

Lemma do_act_inv s busy a :
  idle_inv s busy → act_ok a →
  idle_inv (do_act s a) (if held s || held (do_act s a) then env_now (sb_env (do_act s a)) else busy).
Proof.
  intros Hs Ha. pose proof Hs as [H1 H2 H3].
  destruct a as [ms|h|h| | | | | | | |]; cbn [act_ok] in Ha;
    try (match goal with |- idle_inv ?s' _ => change (held s') with (held s) end; rewrite orb_diag;
         destruct (held s) eqn:E; [apply idle_inv_now; intros E'; change (held s = false) in E'; congruence|
                                   by apply (idle_inv_same s)]).
  - change (held (do_act s (ActTime ms))) with (held s). rewrite orb_diag. destruct (held s) eqn:E.
    + apply idle_inv_now. intros E'. change (held s = false) in E'. congruence.
    + split; cbn; [lia|intros E'; change (held s = true) in E'; congruence|].
      intros _. destruct (H3 eq_refl) as [|(t & Ht & ->)]; [by left|right]. exists t. split; [lia|done].
  - assert (Hh : held (do_act s (ActLock h)) = true).
    { unfold held. cbn. apply negb_true_iff, Z.eqb_neq. by apply lock_held. }
    rewrite Hh, orb_true_r. apply idle_inv_now. congruence.
  - destruct (held s) eqn:E; cbn [orb].
    + apply idle_inv_now. intros E'. unfold held in E, E'. cbn in E'. apply negb_false_iff, Z.eqb_eq in E'.
      destruct (unlock_free (now s) h (sb_locks s) E') as [Hu|[_ Hu]]; [|exact Hu].
      exfalso. rewrite Hu in E'. cbn in E'. rewrite E' in E. discriminate.
    + assert (Hu : do_act s (ActUnlock h) = s).
      { cbn. unfold sys_wake_unlock, sys_wakelock_lookup. unfold held in E. apply negb_false_iff, Z.eqb_eq in E.
        rewrite E, Z.land_0_l. cbn. by destruct s. }
      rewrite Hu, E. done.
Qed.

Lemma check_powerdown_eq s :
  sys_standby_check_auto_powerdown s =
  if negb (env_dc5v (sb_env s)) && (auto_powerdown_time (sb_ctx s) <=? free_time s)
  then (1, sys_event_notify SYS_EVENT_POWER_OFF s) else (0, s).
Proof.
  unfold sys_standby_check_auto_powerdown, sys_standby_allow_auto_powerdown.
  by destruct (env_dc5v (sb_env s)), (_ <=? _).
Qed.

(** What a tick in the normal state and in S1 does. *)
Lemma process_normal_cases s :
  state s = STANDBY_NORMAL →
  ∃ s', sys_standby_process_normal s = (0, s') ∧ env_now (sb_env s') = env_now (sb_env s) ∧
    sb_events s' = sb_events s ∧
    if stays_awake s then state s' = STANDBY_NORMAL ∧ sb_locks s' = mk_wakelocks (wakelocks_bitmaps (sb_locks s)) (now s)
    else sb_locks s' = sb_locks s ∧
      state s' = if negb (env_auracast (sb_env s) =? 1) && (auto_standby_time (sb_ctx s) <? free_time s)
                 then STANDBY_S1 else STANDBY_NORMAL.
Proof.
  intros Hst. unfold stays_awake. rewrite Hst.
  unfold sys_standby_process_normal, sys_wakelocks_check, held.
  destruct (negb (wakelocks_bitmaps (sb_locks s) =? 0)); [by eexists|].
  destruct (env_dc5v (sb_env s)); [by eexists|]. cbn [orb].
  destruct (bt_host_wake_up_pending (sb_ctx s)); [by eexists|].
  destruct (env_pair (sb_env s)); [by eexists|].
  set (s1 := if 10000 <? _ then _ else s).
  assert (H1 : sb_ctx s1 = sb_ctx s ∧ sb_locks s1 = sb_locks s ∧ sb_env s1 = sb_env s ∧ sb_events s1 = sb_events s)
    by (subst s1; by destruct (10000 <? _)).
  clearbody s1. destruct H1 as (C1 & L1 & E1 & V1).
  assert (F1 : free_time s1 = free_time s) by (unfold free_time, now; by rewrite L1, E1).
  rewrite E1, C1, F1. destruct (env_auracast (sb_env s) =? 1), (auto_standby_time (sb_ctx s) <? free_time s); cbn [negb andb];
    eexists; (split; [reflexivity|]); cbn; unfold state; cbn; rewrite ?E1, ?C1, ?L1, ?V1; done.
Qed.

Lemma process_s1_cases s :
  state s = STANDBY_S1 →
  ∃ s', sys_standby_process_s1 s = (0, s') ∧ sb_locks s' = sb_locks s ∧ env_now (sb_env s') = env_now (sb_env s) ∧
    sb_events s' = sb_events s ∧
    state s' = if negb (held s) && (auto_standby_time (sb_ctx s) <? free_time s) then STANDBY_S2 else STANDBY_NORMAL.
Proof.
  intros Hst. unfold sys_standby_process_s1, sys_wakelocks_check. fold (held s).
  destruct (held s); [by eexists|]. cbn [negb andb]. by destruct (_ <? free_time s); eexists.
Qed.

(** On the way out of S2 a lock is taken and released. *)
Lemma process_s2_locks rounds s r s' :
  sys_standby_process_s2 rounds s = Some (r, s') →
  r = 0 ∧ state s' = STANDBY_NORMAL ∧ (held s' = false → wakelocks_free_timestamp (sb_locks s') = now s').
Proof.
  unfold sys_standby_process_s2. destruct (s2_loop rounds _) as [s1|]; [|done]. cbn [mbind option_bind].
  set (s2 := sys_standby_process_after_s2 s1). clearbody s2. intros Hrun. apply (inj Some) in Hrun.
  pose proof (f_equal fst Hrun) as Hr. apply (f_equal snd) in Hrun. cbn [fst snd] in Hr, Hrun. subst r s'.
  split; [done|]. split; [done|]. intros Hh. apply negb_false_iff, Z.eqb_eq in Hh.
  refine (relock_free _ _ _ _ Hh). by vm_compute.
Qed.

Lemma tick_inv s busy rounds r s' :
  idle_inv s busy → sys_standby_work_handle rounds s = Some (r, s') →
  idle_inv s' (if (r =? 0) && stays_awake s then env_now (sb_env s') else busy).
Proof.
  intros Hs. unfold sys_standby_work_handle. rewrite check_powerdown_eq.
  destruct (negb (env_dc5v (sb_env s)) && _); cbn [negb Z.eqb].
  { intros [= <- <-]. cbn [andb Z.eqb]. by apply (idle_inv_same s). }
  destruct (state s) eqn:Hst; intros Hrun.
  - destruct (process_normal_cases s Hst) as (s1 & E & Hn & _ & Hl). rewrite E in Hrun. injection Hrun as <- <-.
    cbn [Z.eqb andb]. destruct (stays_awake s).
    + destruct Hl as [_ Hl]. apply idle_inv_now. intros _. rewrite Hl. cbn. unfold now. by rewrite Hn.
    + destruct Hl as [Hl _]. by apply (idle_inv_same s).
  - destruct (process_s1_cases s Hst) as (s1 & E & Hl & Hn & _). rewrite E in Hrun. injection Hrun as <- <-.
    cbn [Z.eqb andb]. unfold stays_awake. rewrite Hst. destruct (held s) eqn:Hh; [|by apply (idle_inv_same s)].
    rewrite Hn, <- (ii_held _ _ Hs Hh). by apply (idle_inv_same s).
  - destruct (process_s2_locks rounds s r s' Hrun) as (-> & _ & Hf). unfold stays_awake. rewrite Hst. cbn [Z.eqb andb].
    by apply idle_inv_now.
  - injection Hrun as <- <-. cbn [Z.eqb andb]. unfold stays_awake. rewrite Hst. destruct (held s) eqn:Hh; [|done].
    by rewrite <- (ii_held _ _ Hs Hh).
Qed.

Lemma run_inv s busy : run s busy → idle_inv s busy.
Proof.
  induction 1 as [pd added s Hl|s busy a _ IH Ha|s busy rounds r s' _ IH Ht].
  - assert (E : ∀ t : standby, wakelocks_free_timestamp (sb_locks t) = now s → env_now (sb_env t) = env_now (sb_env s) →
                idle_inv t (env_now (sb_env s))).
    { intros t Et En. rewrite <- En. apply idle_inv_now. intros _. rewrite Et. unfold now. by rewrite En. }
    unfold sys_standby_init. destruct (negb (added =? 0)); apply E; done.
  - by apply do_act_inv.
  - by apply (tick_inv s busy rounds r).
Qed.

(** ** Theorems *)

(** A tick outside S2. *)
Definition powerdown_due (s : standby) : bool :=
  negb (env_dc5v (sb_env s)) && (auto_powerdown_time (sb_ctx s) <=? free_time s).
Definition standby_due (s : standby) : bool := auto_standby_time (sb_ctx s) <? free_time s.
Definition next_state (s : standby) : STANDBY_STATE_E :=
  match state s with
  | STANDBY_NORMAL =>
      if negb (stays_awake s) && negb (env_auracast (sb_env s) =? 1) && standby_due s then STANDBY_S1 else STANDBY_NORMAL
  | STANDBY_S1 => if negb (held s) && standby_due s then STANDBY_S2 else STANDBY_NORMAL
  | st => st
  end.
Lemma work_handle_cases s rounds r s' :
  sys_standby_work_handle rounds s = Some (r, s') → state s ≠ STANDBY_S2 →
  if powerdown_due s then r = 1 ∧ s' = sys_event_notify SYS_EVENT_POWER_OFF s
  else r = 0 ∧ sb_events s' = sb_events s ∧ state s' = next_state s.
Proof.
  unfold sys_standby_work_handle. rewrite check_powerdown_eq. fold (powerdown_due s).
  destruct (powerdown_due s); cbn [negb Z.eqb]; [by intros [= <- <-]|].
  unfold next_state. destruct (state s) eqn:Hst; intros Ht Hne; [| |done|].
  - destruct (process_normal_cases s Hst) as (s1 & E & _ & Hv & Hl). rewrite E in Ht. injection Ht as <- <-.
    split; [done|]. split; [done|]. destruct (stays_awake s); [by destruct Hl|by destruct Hl as [_ ->]].
  - destruct (process_s1_cases s Hst) as (s1 & E & _ & _ & Hv & Hl). rewrite E in Ht. injection Ht as <- <-. done.
  - injection Ht as <- <-. done.
Qed.

(** ** Falling asleep *)

(** A tick [p] ms after the last one. *)
Definition tick (p : Z) (s : standby) : option standby :=
  '(_, s) ← sys_standby_work_handle [] (do_act s (ActTime p)); Some s.
Fixpoint ticks (n : nat) (p : Z) (s : standby) : option standby :=
  match n with O => Some s | S n => s ← ticks n p s; tick p s end.

(** Nothing going on, the idle time counting from [t0]. *)
Record quiet_since (t0 : Z) (s : standby) : Prop := {
  qs_locks : sb_locks s = mk_wakelocks 0 (u32 t0);
  qs_t0 : u32 t0 ≠ 0;
  qs_dc5v : env_dc5v (sb_env s) = false;
  qs_host : bt_host_wake_up_pending (sb_ctx s) = false;
  qs_pair : env_pair (sb_env s) = false;
  qs_auracast : env_auracast (sb_env s) ≠ 1;
}.

Lemma quiet_free t0 s :
  quiet_since t0 s → t0 <= env_now (sb_env s) < t0 + 2 ^ 32 → free_time s = env_now (sb_env s) - t0.
Proof.
  intros [Hl H0 _ _ _ _] Ht. unfold free_time, sys_wakelocks_get_free_time, now. rewrite Hl. cbn [wakelocks_bitmaps wakelocks_free_timestamp].
  rewrite (proj2 (Z.eqb_neq (u32 t0) 0)) by done. cbn [Z.eqb negb orb].
  rewrite u32_sub_u32, u32_u32_sub. apply u32_id. lia.
Qed.

(** The parts of the state that a quiet tick does not touch. *)
Definition same_but_time (s s' : standby) : Prop :=
  sb_ctx s' = sb_ctx s ∧ sb_calls s' = sb_calls s ∧ sb_events s' = sb_events s ∧ env_dvfs (sb_env s') = env_dvfs (sb_env s).

(** A quiet tick in the normal state, up to the static that only the log uses. *)
Lemma quiet_work t0 s :
  quiet_since t0 s → state s = STANDBY_NORMAL → free_time s < auto_powerdown_time (sb_ctx s) →
  ∃ s', sys_standby_work_handle [] s = Some (0, if standby_due s then sys_standby_enter_s1 s' else s') ∧
    sb_ctx s' = sb_ctx s ∧ sb_env s' = sb_env s ∧ sb_locks s' = sb_locks s ∧ sb_calls s' = sb_calls s ∧ sb_events s' = sb_events s.
Proof.
  intros [L Z A H P U] Hst Hf. unfold sys_standby_work_handle. rewrite check_powerdown_eq, A. cbn [negb andb].
  rewrite (proj2 (Z.leb_gt _ _)) by lia. cbn [Z.eqb negb]. rewrite Hst.
  unfold sys_standby_process_normal, sys_wakelocks_check. rewrite L, A, H, P. cbn [wakelocks_bitmaps Z.eqb negb].
  set (s' := if 10000 <? _ then _ else s).
  assert (H' : sb_ctx s' = sb_ctx s ∧ sb_env s' = sb_env s ∧ sb_locks s' = sb_locks s ∧ sb_calls s' = sb_calls s ∧ sb_events s' = sb_events s)
    by (subst s'; by destruct (10000 <? _)).
  clearbody s'. exists s'. destruct H' as (C & E & L' & K & V).
  assert (F : free_time s' = free_time s) by (unfold free_time, now; by rewrite L', E).
  rewrite E, C, F, (proj2 (Z.eqb_neq _ 1)) by done. cbn [negb]. fold (standby_due s).
  rewrite L' in *. destruct (standby_due s); by split_and!.
Qed.

Lemma quiet_ticks p t0 s n :
  0 <= p → quiet_since t0 s → env_now (sb_env s) = t0 → state s = STANDBY_NORMAL →
  auto_standby_time (sb_ctx s) < auto_powerdown_time (sb_ctx s) <= 2 ^ 32 →
  Z.of_nat n * p <= auto_standby_time (sb_ctx s) →
  ∃ s', ticks n p s = Some s' ∧ quiet_since t0 s' ∧ env_now (sb_env s') = t0 + Z.of_nat n * p ∧ same_but_time s s'.
Proof.
  intros Hp Hq Ht Hst Hlim. induction n as [|n IH]; intros Hn.
  { exists s. split; [done|]. split; [done|]. split; [lia|]. by split_and!. }
  destruct IH as (s1 & Hs1 & Q1 & N1 & C1 & K1 & V1 & D1); [lia|]. cbn [ticks]. rewrite Hs1. cbn [mbind option_bind].
  unfold tick. set (s2 := do_act s1 (ActTime p)).
  assert (Q2 : quiet_since t0 s2) by (destruct Q1; by split).
  assert (N2 : env_now (sb_env s2) = t0 + Z.of_nat (S n) * p) by (subst s2; cbn [do_act on_env sb_env env_now]; lia).
  assert (E2 : sb_ctx s2 = sb_ctx s ∧ sb_calls s2 = sb_calls s ∧ sb_events s2 = sb_events s ∧ env_dvfs (sb_env s2) = env_dvfs (sb_env s))
    by (by split_and!).
  clearbody s2. destruct E2 as (C2 & K2 & V2 & D2).
  pose proof (quiet_free t0 s2 Q2 ltac:(lia)) as F2.
  destruct (quiet_work t0 s2 Q2) as (s3 & -> & C3 & E3 & L3 & K3 & V3); [unfold state; by rewrite C2|rewrite C2; lia|].
  unfold standby_due. rewrite (proj2 (Z.ltb_ge _ _)) by (rewrite C2; lia). cbn [mbind option_bind].
  exists s3. split; [done|]. destruct Q2. split; [split; rewrite ?L3, ?E3, ?C3; done|]. split; [congruence|].
  repeat split; congruence.
Qed.

Lemma tick_into_s1 p t0 s :
  quiet_since t0 s → state s = STANDBY_NORMAL → t0 <= env_now (sb_env s) + p < t0 + 2 ^ 32 →
  auto_standby_time (sb_ctx s) < env_now (sb_env s) + p - t0 < auto_powerdown_time (sb_ctx s) →
  ∃ s', tick p s = Some s' ∧ sb_locks s' = sb_locks s ∧ sb_env s' = sb_env (do_act s (ActTime p)) ∧
    sb_ctx s' = set_state STANDBY_S1 (sb_ctx s) ∧ sb_calls s' = sb_calls s ++ [ClosePa; UsbSuspend] ∧ sb_events s' = sb_events s.
Proof.
  intros Hq Hst Hr Hlim. unfold tick. set (s2 := do_act s (ActTime p)).
  assert (Q2 : quiet_since t0 s2) by (destruct Hq; by split).
  assert (E2 : sb_ctx s2 = sb_ctx s ∧ sb_calls s2 = sb_calls s ∧ sb_events s2 = sb_events s ∧ sb_locks s2 = sb_locks s ∧
    env_now (sb_env s2) = env_now (sb_env s) + p) by (by split_and!).
  clearbody s2. destruct E2 as (C2 & K2 & V2 & L2 & N2).
  pose proof (quiet_free t0 s2 Q2 ltac:(lia)) as F2.
  destruct (quiet_work t0 s2 Q2) as (s3 & -> & C3 & E3 & L3 & K3 & V3); [unfold state; by rewrite C2|rewrite C2; lia|].
  unfold standby_due. rewrite (proj2 (Z.ltb_lt _ _)) by (rewrite C2; lia). cbn [mbind option_bind].
  eexists. split; [reflexivity|]. unfold sys_standby_enter_s1. cbn. rewrite C3, K3, V3, C2, K2, V2, L3, E3, L2, <- (assoc_L (++)).
  by split_and!.
Qed.

Lemma tick_into_s2 p t0 s :
  sb_locks s = mk_wakelocks 0 (u32 t0) → u32 t0 ≠ 0 → env_dc5v (sb_env s) = false → state s = STANDBY_S1 →
  t0 <= env_now (sb_env s) + p < t0 + 2 ^ 32 →
  auto_standby_time (sb_ctx s) < env_now (sb_env s) + p - t0 < auto_powerdown_time (sb_ctx s) →
  ∃ s', tick p s = Some s' ∧ state s' = STANDBY_S2 ∧ dvfs_level (sb_ctx s') = env_dvfs (sb_env s) ∧
    sb_calls s' = sb_calls s ++ [DvfsUnset (env_dvfs (sb_env s)); DvfsSet SOC_DVFS_LEVEL_IDLE; SetWakeupSrc; ClearPending] ∧
    sb_events s' = sb_events s.
Proof.
  intros L0 Hz A0 Hst Hr Hlim. unfold tick. set (s3 := do_act s (ActTime p)).
  assert (E3 : sb_ctx s3 = sb_ctx s ∧ sb_calls s3 = sb_calls s ∧ sb_events s3 = sb_events s ∧ sb_locks s3 = sb_locks s ∧
    env_now (sb_env s3) = env_now (sb_env s) + p ∧ env_dc5v (sb_env s3) = false ∧ env_dvfs (sb_env s3) = env_dvfs (sb_env s))
    by (by split_and!).
  clearbody s3. destruct E3 as (C3 & K3 & V3 & L3 & N3 & A3 & D3).
  assert (F3 : free_time s3 = env_now (sb_env s3) - t0).
  { unfold free_time, sys_wakelocks_get_free_time, now. rewrite L3, L0.
    cbn [wakelocks_bitmaps wakelocks_free_timestamp]. rewrite (proj2 (Z.eqb_neq (u32 t0) 0)) by done. cbn [Z.eqb negb orb].
    rewrite u32_sub_u32, u32_u32_sub. apply u32_id. lia. }
  unfold sys_standby_work_handle. rewrite check_powerdown_eq, A3, F3, C3, N3. cbn [negb andb].
  rewrite (proj2 (Z.leb_gt _ _)) by lia. cbn [Z.eqb negb]. unfold state in *. rewrite C3, Hst.
  unfold sys_standby_process_s1, sys_wakelocks_check. rewrite L3, L0, F3, C3, N3.
  cbn [wakelocks_bitmaps Z.eqb negb]. rewrite (proj2 (Z.ltb_lt _ _)) by lia. cbn [mbind option_bind].
  eexists. split; [reflexivity|]. split; [done|]. unfold sys_standby_enter_s2. cbn.
  rewrite K3, V3, D3, <- !(assoc_L (++)). by split_and!.
Qed.

(** C25: A system that stays idle is in NORMAL up to the standby time, in S1 at
    the next tick of the monitor and in S2 one tick later, with the calls that
    switch off the amplifier and USB, lower the clock and arm the wake-up
    sources in that order. *)
Theorem idle_system_falls_asleep p t0 s :
  0 < p → quiet_since t0 s → env_now (sb_env s) = t0 → state s = STANDBY_NORMAL →
  0 <= auto_standby_time (sb_ctx s) →
  auto_standby_time (sb_ctx s) + 2 * p < auto_powerdown_time (sb_ctx s) <= 2 ^ 32 →
  let n := Z.to_nat (auto_standby_time (sb_ctx s) / p) in
  (∀ k s', (k <= n)%nat → ticks k p s = Some s' → state s' = STANDBY_NORMAL ∧ sb_calls s' = sb_calls s) ∧
  (∃ s', ticks (S n) p s = Some s' ∧ state s' = STANDBY_S1 ∧ sb_calls s' = sb_calls s ++ [ClosePa; UsbSuspend]) ∧
  ∃ s', ticks (S (S n)) p s = Some s' ∧ state s' = STANDBY_S2 ∧ dvfs_level (sb_ctx s') = env_dvfs (sb_env s) ∧
    sb_calls s' = sb_calls s ++ [ClosePa; UsbSuspend; DvfsUnset (env_dvfs (sb_env s)); DvfsSet SOC_DVFS_LEVEL_IDLE;
                                 SetWakeupSrc; ClearPending] ∧ sb_events s' = sb_events s.
Proof.
  intros Hp Hq Ht Hst H0 Hlim n. set (T := auto_standby_time (sb_ctx s)) in *.
  assert (Hn : Z.of_nat n * p <= T < Z.of_nat (S n) * p) by (unfold n; dlia).
  split.
  { intros k s' Hk Hrun. destruct (quiet_ticks p t0 s k) as (s1 & Hs1 & _ & _ & C1 & K1 & _); [lia|done..|fold T; lia|fold T; nia|].
    rewrite Hs1 in Hrun. injection Hrun as <-. unfold state. rewrite C1. done. }
  destruct (quiet_ticks p t0 s n) as (s1 & Hs1 & Q1 & N1 & C1 & K1 & V1 & D1); [lia|done..|fold T; lia|fold T; lia|].
  destruct (tick_into_s1 p t0 s1 Q1) as (s2 & Hs2 & L2 & E2 & C2 & K2 & V2);
    [unfold state; by rewrite C1|lia|rewrite C1; fold T; lia|].
  assert (Hrun2 : ticks (S n) p s = Some s2) by (cbn [ticks]; by rewrite Hs1).
  split; [exists s2; split; [done|]; split; [unfold state; by rewrite C2|by rewrite K2, K1]|].
  change (ticks (S (S n)) p s) with (s' ← ticks (S n) p s; tick p s'). rewrite Hrun2. cbn [mbind option_bind].
  assert (N2 : env_now (sb_env s2) = t0 + Z.of_nat (S n) * p) by (rewrite E2; cbn [do_act on_env sb_env env_now]; lia).
  destruct (tick_into_s2 p t0 s2) as (s3 & Hs3 & S3 & D3 & K3 & V3).
  - rewrite L2. apply Q1.
  - apply Hq.
  - rewrite E2. apply Q1.
  - unfold state. by rewrite C2.
  - lia.
  - rewrite C2, C1, N2. cbn [set_state auto_standby_time auto_powerdown_time]. fold T. lia.
  - exists s3. assert (Hd : env_dvfs (sb_env s2) = env_dvfs (sb_env s)) by (rewrite E2; exact D1).
    rewrite Hd in D3, K3. rewrite K3, K2, K1, V3, V2, V1, <- (assoc_L (++)). by split_and!.
Qed.

(** ** Asleep in S2, and awake again *)

Definition wake_cause (s : standby) : bool :=
  powerdown_due s || negb (Z.land (env_pending (sb_env s)) STANDBY_VALID_WAKEUP_PD =? 0) ||
  bt_host_wake_up_pending (sb_ctx s) || held s || (0 <? env_key (sb_env s))%nat.

Lemma wakeup_cause s :
  (sys_standby_wakeup_from_s2 s).1 = wake_cause s ∧ (wake_cause s = false → (sys_standby_wakeup_from_s2 s).2 = s).
Proof.
  unfold sys_standby_wakeup_from_s2, wake_cause. rewrite check_powerdown_eq. fold (powerdown_due s).
  destruct (powerdown_due s); cbn [Z.eqb negb orb]; [done|].
  destruct (negb (Z.land _ _ =? 0)); cbn [orb]; [done|]. destruct (bt_host_wake_up_pending (sb_ctx s)); [done|].
  unfold sys_wakelocks_check. fold (held s). destruct (held s); [done|]. by destruct (0 <? _)%nat.
Qed.

(** What the calls during the sleep leave alone. *)
Definition sleep_call (c : pm_call) : Prop := c ∈ [WatchdogClear; TaskWdtFeed; DeepSleep; ClearPending].
Record slept_through (s s' : standby) : Prop := {
  st_app : env_app (sb_env s') = env_app (sb_env s);
  st_adckey : env_adckey (sb_env s') = env_adckey (sb_env s);
  st_battery : env_battery (sb_env s') = env_battery (sb_env s);
  st_dvfs : dvfs_level (sb_ctx s') = dvfs_level (sb_ctx s);
  st_calls : ∃ mid, sb_calls s' = sb_calls s ++ mid ∧ Forall sleep_call mid;
}.
#[export] Instance slept_through_po : PreOrder slept_through.
Proof.
  split.
  - intros s. split; [done..|]. exists []. by rewrite app_nil_r.
  - intros s1 s2 s3 [A1 B1 C1 D1 (m1 & E1 & F1)] [A2 B2 C2 D2 (m2 & E2 & F2)]. split; [congruence..|].
    exists (m1 ++ m2). split; [by rewrite E2, E1, (assoc_L (++))|by apply Forall_app_2].
Qed.

Lemma slept_pm c s : sleep_call c → slept_through s (pm c s).
Proof. intros Hc. split; [done..|]. exists [c]. split; [done|by constructor]. Qed.
Lemma slept_silent s s' :
  env_app (sb_env s') = env_app (sb_env s) → env_adckey (sb_env s') = env_adckey (sb_env s) →
  env_battery (sb_env s') = env_battery (sb_env s) → dvfs_level (sb_ctx s') = dvfs_level (sb_ctx s) →
  sb_calls s' = sb_calls s → slept_through s s'.
Proof. intros. split; [done..|]. exists []. by rewrite app_nil_r. Qed.
Lemma slept_acts acts : ∀ s, slept_through s (foldl do_act s acts).
Proof.
  induction acts as [|a acts IH]; intros s; [done|]. cbn [foldl]. etrans; [|apply IH].
  apply slept_silent; by destruct a.
Qed.
Lemma slept_key n : ∀ s, slept_through s (wait_key n s).
Proof. induction n as [|n IH]; intros s; [done|]. cbn [wait_key]. etrans; [|apply IH]. by apply slept_silent. Qed.
Lemma slept_wakeup s : slept_through s (sys_standby_wakeup_from_s2 s).2.
Proof.
  unfold sys_standby_wakeup_from_s2. rewrite check_powerdown_eq.
  destruct (negb (env_dc5v (sb_env s)) && _); cbn [Z.eqb negb]; [by apply slept_silent|].
  destruct (negb (Z.land _ _ =? 0)).
  { etrans; [apply (slept_pm ClearPending); unfold sleep_call; set_solver|by apply slept_silent]. }
  destruct (bt_host_wake_up_pending (sb_ctx s)); [by apply slept_silent|].
  destruct (negb (_ =? 0)); [done|]. destruct (0 <? _)%nat; [apply slept_key|done].
Qed.

(** One round of the loop that does not end the sleep. *)
Definition s2_round (r : round) (s : standby) : standby :=
  let s := pm TaskWdtFeed (pm WatchdogClear s) in
  let s := if bt_ctrl_sleep_pending (sb_ctx s) then
             if deep_sleep_fits s then sys_standby_enter_s3 r.1 s else s
           else s in
  foldl do_act s r.2.
Lemma slept_watchdogs s : slept_through s (pm TaskWdtFeed (pm WatchdogClear s)).
Proof. etrans; apply slept_pm; unfold sleep_call; set_solver. Qed.
Lemma slept_round r s : slept_through s (s2_round r s).
Proof.
  unfold s2_round. etrans; [apply slept_watchdogs|]. set (s1 := pm TaskWdtFeed _). clearbody s1.
  etrans; [|apply slept_acts]. destruct (bt_ctrl_sleep_pending (sb_ctx s1)); [|done]. destruct (deep_sleep_fits s1); [|done].
  unfold sys_standby_enter_s3. etrans; [|apply slept_acts].
  etrans; [by apply (slept_silent s1 (on_ctx (set_state STANDBY_S3) s1))|]. apply slept_pm. unfold sleep_call. set_solver.
Qed.

Lemma s2_loop_eq rounds s :
  s2_loop rounds s =
  if wake_cause s then Some (sys_standby_wakeup_from_s2 (pm TaskWdtFeed (pm WatchdogClear s))).2
  else match rounds with [] => None | r :: rounds => s2_loop rounds (s2_round r s) end.
Proof.
  assert (H : ∀ t, s2_loop rounds s = t ↔
    (let '(woken, s1) := sys_standby_wakeup_from_s2 (pm TaskWdtFeed (pm WatchdogClear s)) in
     if woken then Some s1 else
     match rounds with
     | [] => None
     | (slept, acts) :: rounds =>
         s2_loop rounds (foldl do_act (if bt_ctrl_sleep_pending (sb_ctx s1) then
                   if deep_sleep_fits s1 then sys_standby_enter_s3 slept s1 else s1 else s1) acts)
     end) = t) by (by destruct rounds as [|[]]).
  apply H. set (s1 := pm TaskWdtFeed (pm WatchdogClear s)). destruct (wakeup_cause s1) as [H1 H2].
  change (wake_cause s1) with (wake_cause s) in H1, H2. destruct (sys_standby_wakeup_from_s2 s1) as [w s2]. cbn in H1, H2. subst w.
  destruct (wake_cause s); [done|]. rewrite (H2 eq_refl). by destruct rounds as [|[]].
Qed.

(** The states in which the loop looks for a reason to wake up. *)
Fixpoint sleeping (rounds : list round) (s : standby) : list standby :=
  s :: match rounds with [] => [] | r :: rounds => sleeping rounds (s2_round r s) end.

Lemma s2_loop_wakes rounds : ∀ s,
  is_Some (s2_loop rounds s) ↔ Exists (λ s, wake_cause s = true) (sleeping rounds s).
Proof.
  induction rounds as [|r rounds IH]; intros s; rewrite s2_loop_eq; cbn [sleeping]; rewrite Exists_cons;
    destruct (wake_cause s) eqn:E.
  - split; [by left|by eexists].
  - rewrite Exists_nil. split; [by intros [? ?]|naive_solver].
  - split; [by left|by eexists].
  - rewrite IH. split; [by right|naive_solver].
Qed.
Lemma s2_loop_slept rounds : ∀ s s', s2_loop rounds s = Some s' → slept_through s s'.
Proof.
  induction rounds as [|r rounds IH]; intros s s'; rewrite s2_loop_eq; destruct (wake_cause s); try done;
    [intros [= <-]; etrans; [apply slept_watchdogs|apply slept_wakeup]..|].
  intros Hs. etrans; [apply slept_round|by apply IH].
Qed.

(** The calls around the sleep. *)
Definition before_calls (e : surroundings) : list pm_call :=
  (if env_app e then [SuspendFrontApp] else []) ++ (if env_adckey e then [AdcKeyDisable] else []) ++
  (if env_battery e then [BatteryDisable] else []) ++ [LightSleepEnter].
Definition after_calls (e : surroundings) (level : Z) : list pm_call :=
  [LightSleepExit] ++ (if env_adckey e then [AdcKeyEnable] else []) ++ (if env_battery e then [BatteryEnable] else []) ++
  [DvfsUnset SOC_DVFS_LEVEL_IDLE; DvfsSet level] ++ (if env_app e then [ResumeFrontApp] else []) ++ [OpenPa; UsbResume].

(** Events that end the sleep. *)
Definition wakes (a : env_act) : Prop :=
  match a with
  | ActLock h => 0 <= h
  | ActBtHost => True
  | ActPending bits => Z.land bits STANDBY_VALID_WAKEUP_PD ≠ 0
  | ActKey n => (0 < n)%nat
  | _ => False
  end.
Lemma wakes_cause a s : wakes a → wake_cause (do_act s a) = true.
Proof.
  unfold wake_cause. destruct a as [|h| | | | | | | |bits|n]; cbn [wakes]; intros Ha; try done.
  - assert (Hh : held (do_act s (ActLock h)) = true)
      by (unfold held; apply negb_true_iff, Z.eqb_neq; by apply lock_held).
    by rewrite Hh, !orb_true_r.
  - cbn [do_act sys_set_bt_host_wake_up_pending on_ctx sb_ctx set_host_wake bt_host_wake_up_pending]. by rewrite !orb_true_r.
  - assert (Hp : negb (Z.land (env_pending (sb_env (do_act s (ActPending bits)))) STANDBY_VALID_WAKEUP_PD =? 0) = true).
    { apply negb_true_iff, Z.eqb_neq. cbn. rewrite Z.land_lor_distr_l. by intros [_ H]%Z.lor_eq_0_iff. }
    by rewrite Hp, !orb_true_r.
  - assert (Hk : (0 <? env_key (sb_env (do_act s (ActKey n))))%nat = true) by (by apply Nat.ltb_lt).
    by rewrite Hk, !orb_true_r.
Qed.

(** C26: The loop of S2 ends exactly when a wake-up cause holds in one of its
    rounds, and does so when a lock, a Bluetooth wake-up, a wake-up flag or
    the on/off key ends a round; then the state is NORMAL, the wake-up time is
    recorded, and what was put to sleep is restored: light sleep is left, then
    the ADC key, the battery converter, the processor's level, the front
    application, the amplifier and USB, in this order. *)
Theorem s2_wakes_and_restores rounds s :
  (is_Some (sys_standby_process_s2 rounds s) ↔
     Exists (λ s, wake_cause s = true) (sleeping rounds (sys_standby_process_before_s2 s))) ∧
  (∀ l slept acts a, rounds = l ++ [(slept, acts ++ [a])] → wakes a → is_Some (sys_standby_process_s2 rounds s)) ∧
  (∀ r s', sys_standby_process_s2 rounds s = Some (r, s') →
     r = 0 ∧ state s' = STANDBY_NORMAL ∧ wakeup_timestamp (sb_ctx s') = now s' ∧
     ∃ mid, Forall sleep_call mid ∧
       sb_calls s' = sb_calls s ++ before_calls (sb_env s) ++ mid ++ after_calls (sb_env s) (dvfs_level (sb_ctx s))).
Proof.
  set (s0 := sys_standby_process_before_s2 s).
  assert (Hsome : is_Some (sys_standby_process_s2 rounds s) ↔ is_Some (s2_loop rounds s0)).
  { unfold sys_standby_process_s2. fold s0. destruct (s2_loop rounds s0); cbn [mbind option_bind].
    - split; intros _; by eexists.
    - split; by intros [? ?]. }
  split; [by rewrite Hsome, s2_loop_wakes|]. split.
  { intros l slept acts a -> Ha. apply Hsome, s2_loop_wakes. generalize s0. clear -Ha.
    induction l as [|r l IH]; intros s0; cbn [app sleeping].
    - right. left. unfold s2_round. cbn [fst snd]. rewrite foldl_app. cbn [foldl]. by apply wakes_cause.
    - right. apply IH. }
  intros r s' Hrun. pose proof (process_s2_locks rounds s r s' Hrun) as (-> & Hst & _). split; [done|]. split; [done|].
  unfold sys_standby_process_s2 in Hrun. fold s0 in Hrun. destruct (s2_loop rounds s0) as [s1|] eqn:E; [|done].
  cbn [mbind option_bind] in Hrun. apply (inj Some) in Hrun. apply (f_equal snd) in Hrun. cbn [snd] in Hrun. subst s'.
  split; [done|].
  destruct (s2_loop_slept rounds s0 s1 E) as [A1 B1 C1 D1 (mid & K1 & F1)]. exists mid. split; [done|].
  assert (H0 : sb_env s0 = sb_env s ∧ sb_ctx s0 = sb_ctx s ∧ sb_calls s0 = sb_calls s ++ before_calls (sb_env s)).
  { subst s0. unfold sys_standby_process_before_s2, pm_if, before_calls. cbn.
    destruct (env_app (sb_env s)) eqn:E1, (env_adckey (sb_env s)) eqn:E2, (env_battery (sb_env s)) eqn:E3;
      cbn; rewrite ?E1, ?E2, ?E3; cbn; rewrite ?E3; cbn; rewrite <- ?(assoc_L (++)); done. }
  clearbody s0. destruct H0 as (E0 & C0 & K0). rewrite E0 in A1, B1, C1. rewrite C0 in D1. rewrite K0 in K1.
  unfold sys_standby_process_after_s2, pm_if, after_calls. cbn. rewrite B1. rewrite <- A1, <- B1, <- C1, <- D1.
  destruct (env_app (sb_env s1)) eqn:E1, (env_adckey (sb_env s1)) eqn:E2, (env_battery (sb_env s1)) eqn:E3;
    cbn; rewrite ?E1, ?E2, ?E3; cbn; rewrite ?E1, ?E3; cbn; rewrite K1, <- ?(assoc_L (++)); done.
Qed.

(** *** Power-offs announced asleep

    The same states with the last time at which a lock was held. *)
Definition act_busy (p : standby * Z) (a : env_act) : standby * Z :=
  let s := do_act p.1 a in (s, if held p.1 || held s then env_now (sb_env s) else p.2).
Definition round_busy (r : round) (p : standby * Z) : standby * Z :=
  let s := pm TaskWdtFeed (pm WatchdogClear p.1) in
  foldl act_busy
    (if bt_ctrl_sleep_pending (sb_ctx s) then
       if deep_sleep_fits s then foldl act_busy (pm DeepSleep (on_ctx (set_state STANDBY_S3) s), p.2) r.1 else (s, p.2)
     else (s, p.2)) r.2.
Fixpoint asleep (rounds : list round) (p : standby * Z) : list (standby * Z) :=
  p :: match rounds with [] => [] | r :: rounds => asleep rounds (round_busy r p) end.
Definition round_ok (r : round) : Prop := Forall act_ok r.1 ∧ Forall act_ok r.2.

(** The states in which a tick looks at the power-down time. *)
Definition moments (rounds : list round) (s : standby) (busy : Z) : list (standby * Z) :=
  (s, busy) :: match state s with
               | STANDBY_S2 => asleep rounds (sys_standby_process_before_s2 s, busy)
               | _ => []
               end.

Lemma acts_busy_fst acts : ∀ p, (foldl act_busy p acts).1 = foldl do_act p.1 acts.
Proof. induction acts as [|a acts IH]; intros p; [done|]. apply (IH (act_busy p a)). Qed.
Lemma round_busy_fst r p : (round_busy r p).1 = s2_round r p.1.
Proof.
  unfold round_busy, s2_round. rewrite acts_busy_fst. set (s := pm TaskWdtFeed _).
  destruct (bt_ctrl_sleep_pending (sb_ctx s)); [|done]. destruct (deep_sleep_fits s); [|done]. by rewrite acts_busy_fst.
Qed.

(** Such states keep the idle time right, the limit and the events as they are. *)
Record asleep_ok (s0 : standby) (p : standby * Z) : Prop := {
  ao_inv : idle_inv p.1 p.2;
  ao_limit : auto_powerdown_time (sb_ctx p.1) = auto_powerdown_time (sb_ctx s0);
  ao_events : sb_events p.1 = sb_events s0;
}.
Lemma asleep_ok_same s0 p s :
  asleep_ok s0 p → sb_locks s = sb_locks p.1 → env_now (sb_env s) = env_now (sb_env p.1) →
  auto_powerdown_time (sb_ctx s) = auto_powerdown_time (sb_ctx p.1) → sb_events s = sb_events p.1 →
  asleep_ok s0 (s, p.2).
Proof.
  intros [H1 H2 H3] Hl Ht Hc He. split; cbn [fst snd]; [by apply (idle_inv_same p.1)|congruence..].
Qed.
Lemma asleep_ok_acts s0 acts : Forall act_ok acts → ∀ p, asleep_ok s0 p → asleep_ok s0 (foldl act_busy p acts).
Proof.
  induction 1 as [|a acts Ha _ IH]; intros p Hp; [done|]. cbn [foldl]. apply IH. destruct Hp as [H1 H2 H3].
  split; cbn [act_busy fst snd]; [by apply do_act_inv|rewrite <- H2; by destruct a|rewrite <- H3; by destruct a].
Qed.
Lemma asleep_ok_round s0 r p : round_ok r → asleep_ok s0 p → asleep_ok s0 (round_busy r p).
Proof.
  intros [Hr1 Hr2] Hp. unfold round_busy. set (s := pm TaskWdtFeed _).
  assert (Hs : asleep_ok s0 (s, p.2)) by (by apply asleep_ok_same). clearbody s.
  apply asleep_ok_acts; [done|]. destruct (bt_ctrl_sleep_pending (sb_ctx s)); [|done]. destruct (deep_sleep_fits s); [|done].
  apply asleep_ok_acts; [done|]. by apply (asleep_ok_same s0 (s, p.2)).
Qed.

Lemma wakeup_events s :
  sb_events (sys_standby_wakeup_from_s2 s).2 =
  if powerdown_due s then sb_events s ++ [SYS_EVENT_POWER_OFF] else sb_events s.
Proof.
  assert (Hkey : ∀ n t, sb_events (wait_key n t) = sb_events t).
  { induction n as [|n IH]; intros t; [done|]. cbn [wait_key]. by rewrite IH. }
  unfold sys_standby_wakeup_from_s2. rewrite check_powerdown_eq. fold (powerdown_due s).
  destruct (powerdown_due s); cbn [Z.eqb negb]; [done|].
  destruct (negb (Z.land _ _ =? 0)); [done|]. destruct (bt_host_wake_up_pending (sb_ctx s)); [done|].
  destruct (negb (_ =? 0)); [done|]. destruct (0 <? _)%nat; [apply Hkey|done].
Qed.

(** The loop announces a power-off only in a state where it is due. *)
Lemma s2_loop_events s0 rounds : Forall round_ok rounds → ∀ p s',
  asleep_ok s0 p → s2_loop rounds p.1 = Some s' → sb_events s' ≠ sb_events s0 →
  sb_events s' = sb_events s0 ++ [SYS_EVENT_POWER_OFF] ∧
  ∃ w, w ∈ asleep rounds p ∧ asleep_ok s0 w ∧ powerdown_due w.1 = true.
Proof.
  assert (Hwake : ∀ rounds p s', asleep_ok s0 p →
    Some (sys_standby_wakeup_from_s2 (pm TaskWdtFeed (pm WatchdogClear p.1))).2 = Some s' → sb_events s' ≠ sb_events s0 →
    sb_events s' = sb_events s0 ++ [SYS_EVENT_POWER_OFF] ∧
    ∃ w, w ∈ asleep rounds p ∧ asleep_ok s0 w ∧ powerdown_due w.1 = true).
  { intros l p s' Hp [= <-]. rewrite wakeup_events. change (powerdown_due (pm _ (pm _ p.1))) with (powerdown_due p.1).
    cbn [pm sb_events]. rewrite (ao_events _ _ Hp). destruct (powerdown_due p.1) eqn:E; [|done]. intros _.
    split; [done|]. exists p. split; [destruct l; apply elem_of_cons; by left|done]. }
  induction 1 as [|r rounds Hr _ IH]; intros p s' Hp; rewrite s2_loop_eq; destruct (wake_cause p.1); try done; try by apply Hwake.
  rewrite <- round_busy_fst. intros Hl He. destruct (IH _ s' (asleep_ok_round s0 r p Hr Hp) Hl He) as (H1 & w & Hw & Hok).
  split; [done|]. exists w. split; [apply elem_of_cons; by right|done].
Qed.

(** Before the sleep only calls are made. *)
Lemma before_s2_calls s :
  ∃ l, sys_standby_process_before_s2 s = mk_standby (sb_ctx s) (sb_locks s) (sb_last s) (sb_env s) (sb_events s) l.
Proof.
  assert (Hpm : ∀ b c t, pm_if b c t =
    mk_standby (sb_ctx t) (sb_locks t) (sb_last t) (sb_env t) (sb_events t) (sb_calls t ++ if b then [c] else [])).
  { intros [] c t; [done|]. destruct t. cbn. by rewrite app_nil_r. }
  unfold sys_standby_process_before_s2. rewrite !Hpm. by eexists.
Qed.

(** A tick announces a power-off only in one of its moments. *)
Lemma work_handle_events s busy rounds r s' :
  idle_inv s busy → Forall round_ok rounds → sys_standby_work_handle rounds s = Some (r, s') → sb_events s' ≠ sb_events s →
  sb_events s' = sb_events s ++ [SYS_EVENT_POWER_OFF] ∧
  ∃ w, w ∈ moments rounds s busy ∧ asleep_ok s w ∧ powerdown_due w.1 = true.
Proof.
  intros Hs Hr Ht He. assert (Hok : asleep_ok s (s, busy)) by (by split).
  destruct (powerdown_due s) eqn:Ep.
  { assert (E : s' = sys_event_notify SYS_EVENT_POWER_OFF s).
    { revert Ht. unfold sys_standby_work_handle. rewrite check_powerdown_eq. fold (powerdown_due s). rewrite Ep.
      cbn [Z.eqb negb]. by intros [= _ <-]. }
    subst s'. split; [done|]. exists (s, busy). split; [apply elem_of_cons; by left|done]. }
  destruct (decide (state s = STANDBY_S2)) as [Hst|Hst].
  - unfold sys_standby_work_handle in Ht. rewrite check_powerdown_eq in Ht. fold (powerdown_due s) in Ht. rewrite Ep in Ht.
    cbn [Z.eqb negb] in Ht. rewrite Hst in Ht. unfold sys_standby_process_s2 in Ht.
    destruct (s2_loop rounds (sys_standby_process_before_s2 s)) as [s1|] eqn:E; [|done]. cbn [mbind option_bind] in Ht.
    assert (Ev : sb_events s' = sb_events s1).
    { apply (inj Some) in Ht. apply (f_equal snd) in Ht. cbn [snd] in Ht. subst s'.
      unfold sys_standby_process_after_s2, pm_if. cbn. by destruct (env_app _), (env_adckey _), (env_battery _). }
    assert (Hb : asleep_ok s (sys_standby_process_before_s2 s, busy)).
    { destruct (before_s2_calls s) as [l ->]. by apply (asleep_ok_same s (s, busy)). }
    rewrite Ev in *. destruct (s2_loop_events s rounds Hr _ s1 Hb E He) as (H1 & w & Hw & Hw').
    split; [done|]. exists w. split; [|done]. unfold moments. rewrite Hst. apply elem_of_cons. by right.
  - exfalso. apply He. pose proof (work_handle_cases s rounds r s' Ht Hst) as Hc. rewrite Ep in Hc. by destruct Hc as (_ & -> & _).
Qed.

(** C10: In every run of the system, S1 is entered only when more than the standby
    time has passed since a wake lock was last held and since a tick in NORMAL
    last saw a lock, the 5 V supply, a Bluetooth wake-up or pairing, none of
    which holds now; S2 only when the same time has passed and no lock is
    held; and a tick announces a power-off, at its beginning or from within
    the loop of S2, only in a moment when at least the power-down time has
    passed in this way, asleep too, and without 5 V, and announces it once. *)
Theorem standby_only_when_idle s busy rounds r s' :
  run s busy → Forall round_ok rounds → sys_standby_work_handle rounds s = Some (r, s') →
  (state s = STANDBY_NORMAL → state s' = STANDBY_S1 →
     auto_standby_time (sb_ctx s) < env_now (sb_env s) - busy ∧ stays_awake s = false) ∧
  (state s = STANDBY_S1 → state s' = STANDBY_S2 →
     auto_standby_time (sb_ctx s) < env_now (sb_env s) - busy ∧ held s = false) ∧
  (sb_events s' ≠ sb_events s →
     sb_events s' = sb_events s ++ [SYS_EVENT_POWER_OFF] ∧
     ∃ w busy', (w, busy') ∈ moments rounds s busy ∧
       auto_powerdown_time (sb_ctx s) <= env_now (sb_env w) - busy' ∧ env_dc5v (sb_env w) = false).
Proof.
  intros Hrun Hr Ht. pose proof (run_inv s busy Hrun) as Hinv. pose proof (idle_free_time s busy Hinv) as Hfree.
  pose proof (work_handle_cases s rounds r s' Ht) as Hc. split; [|split].
  - intros Hst Hst'. destruct (powerdown_due s) eqn:Ep.
    { destruct Hc as [_ ->]; [congruence|]. change (state s = STANDBY_S1) in Hst'. congruence. }
    destruct Hc as (_ & Hv & Hn); [congruence|].
    unfold next_state, standby_due in Hn. rewrite Hst, Hst' in Hn. destruct (stays_awake s); [done|].
    destruct (negb (_ =? 1)); [|done]. cbn [andb negb] in Hn. destruct (Z.ltb_spec (auto_standby_time (sb_ctx s)) (free_time s)); [|done].
    split; [lia|done].
  - intros Hst Hst'. destruct (powerdown_due s) eqn:Ep.
    { destruct Hc as [_ ->]; [congruence|]. change (state s = STANDBY_S2) in Hst'. congruence. }
    destruct Hc as (_ & Hv & Hn); [congruence|].
    unfold next_state, standby_due in Hn. rewrite Hst, Hst' in Hn. destruct (held s); [done|].
    cbn [andb negb] in Hn. destruct (Z.ltb_spec (auto_standby_time (sb_ctx s)) (free_time s)); [|done]. split; [lia|done].
  - intros He. destruct (work_handle_events s busy rounds r s' Hinv Hr Ht He) as (Hev & [w b] & Hw & [H1 H2 H3] & Hd).
    split; [done|]. exists w, b. split; [done|]. cbn [fst snd] in *. pose proof (idle_free_time w b H1).
    unfold powerdown_due in Hd. apply andb_true_iff in Hd as [Hd1 Hd2]. split; [lia|by apply negb_true_iff].
Qed.

(** ** The monitor's table *)

Section monitor_laws.
Context {W St : Type} (run_work : W → St → option (Z * St)) (notify : Z → St → St).

(** The works in the order of their registration. *)
Fixpoint run_all (ws : list W) (s : St) : option St :=
  match ws with
  | [] => Some s
  | w :: ws => '(event, s) ← run_work w s; run_all ws (if negb (event =? SYS_EVENT_NONE) then notify event s else s)
  end.
Definition table (ws : list W) : list (option W) := (fmap (M := list) Some ws) ++ replicate (MAX_MONITOR_WORK_NUM - length ws) None.

Lemma works_loop_table ws s : works_loop run_work notify (table ws) s = run_all ws s.
Proof.
  unfold table. generalize (MAX_MONITOR_WORK_NUM - length ws)%nat. intros n. revert s.
  induction ws as [|w ws IH]; intros s; cbn.
  - induction n as [|n IH]; [done|exact IH].
  - destruct (run_work w s) as [[e s']|]; [apply IH|done].
Qed.
Lemma add_loop_table (ws : list W) (w : W) n : add_loop w ((fmap (M := list) Some ws) ++ replicate n None) =
  match n with O => None | S n => Some ((fmap (M := list) Some (ws ++ [w])) ++ replicate n None) end.
Proof.
  induction ws as [|v ws IH]; cbn; [by destruct n|]. rewrite IH. by destruct n.
Qed.
Lemma add_work_table ws w stoped timer :
  sys_monitor_add_work w (mk_monitor stoped (table ws) timer) =
  if (length ws <? MAX_MONITOR_WORK_NUM)%nat then (0, mk_monitor stoped (table (ws ++ [w])) timer)
  else (- ESRCH, mk_monitor stoped (table ws) timer).
Proof.
  unfold sys_monitor_add_work. cbn [monitor_work monitor_stoped mon_timer]. unfold table at 1. rewrite add_loop_table.
  destruct (Nat.ltb_spec (length ws) MAX_MONITOR_WORK_NUM) as [H|H].
  - destruct (MAX_MONITOR_WORK_NUM - length ws)%nat as [|n] eqn:E; [lia|]. unfold table. rewrite length_app. cbn [length].
    by replace (MAX_MONITOR_WORK_NUM - (length ws + 1))%nat with n by lia.
  - by replace (MAX_MONITOR_WORK_NUM - length ws)%nat with 0%nat by lia.
Qed.
End monitor_laws.

(** C38: When the automatic power-down is due, the tick of the monitor sends
    SYS_EVENT_POWER_OFF and right after it SYS_EVENT_POWER_ON, since the work
    returns 1 as its status and the monitor sends what a work returns. *)
Theorem powerdown_is_followed_by_power_on rounds (m : @sys_monitor_t (list round)) s :
  m = (sys_monitor_add_work rounds sys_monitor_init).2 → powerdown_due s = true →
  ∃ s', sys_monitor_timer_handle sys_standby_work_handle sys_event_notify m s = Some s' ∧
    sb_events s' = sb_events s ++ [SYS_EVENT_POWER_OFF; SYS_EVENT_POWER_ON].
Proof.
  intros -> Hd. change sys_monitor_init with (mk_monitor false (table (W := list round) []) false).
  rewrite add_work_table. cbn [length]. change (0 <? MAX_MONITOR_WORK_NUM)%nat with true. cbn [snd app]. unfold sys_monitor_timer_handle. cbn [monitor_stoped monitor_work].
  rewrite works_loop_table. cbn [run_all]. unfold sys_standby_work_handle. rewrite check_powerdown_eq. fold (powerdown_due s).
  rewrite Hd. cbn. eexists. split; [reflexivity|]. cbn. by rewrite <- (assoc_L (++)).
Qed.

(** ** Instances *)

Definition quiet_env (t : Z) : surroundings := mk_env t 0 false false 0 0 0 30 true true true.
Definition standby_boot : standby :=
  (sys_standby_init true 0 (mk_standby (mk_context 0 0 STANDBY_NORMAL 0 0 0 false false 0) (mk_wakelocks 0 0) 0 (quiet_env 100) [] [])).2.

(** Asleep a minute after start-up; ten minutes later the power-off is announced
    from the loop. *)
Definition drowsy_boot : standby := Eval vm_compute in default standby_boot (tick 60001 standby_boot).
Definition asleep_boot : standby := Eval vm_compute in default standby_boot (tick 0 drowsy_boot).
Definition woken_boot : standby :=
  Eval vm_compute in (default (0, standby_boot) (sys_standby_work_handle [([], [ActTime 600000])] asleep_boot)).2.

Lemma asleep_boot_run : run asleep_boot 100.
Proof.
  assert (H0 : run standby_boot 100) by (by apply run_start).
  pose proof (run_act _ _ (ActTime 60001) H0 ltac:(by cbn)) as H1.
  assert (H2 : run drowsy_boot 100).
  { refine (run_tick _ _ [] 0 _ H1 _). by vm_compute. }
  pose proof (run_act _ _ (ActTime 0) H2 ltac:(by cbn)) as H3.
  refine (run_tick _ _ [] 0 _ H3 _). by vm_compute.
Qed.

Lemma standby_only_when_idle_witness :
  state asleep_boot = STANDBY_S2 ∧ sb_events woken_boot = sb_events asleep_boot ++ [SYS_EVENT_POWER_OFF] ∧
  ∃ w busy', (w, busy') ∈ moments [([], [ActTime 600000])] asleep_boot 100 ∧
    auto_powerdown_time (sb_ctx asleep_boot) <= env_now (sb_env w) - busy' ∧ env_dc5v (sb_env w) = false.
Proof.
  split; [reflexivity|].
  refine (proj2 (proj2 (standby_only_when_idle asleep_boot 100 [([], [ActTime 600000])] 0 woken_boot asleep_boot_run _ _)) _).
  - repeat constructor; cbn; lia.
  - vm_compute. reflexivity.
  - vm_compute. discriminate.
Defined.

(** Two rounds, a lock taken in the second. *)
Definition two_rounds : list round := [([], [ActTime 50]); ([], [ActTime 20; ActLock 3])].
Definition locked_boot : standby :=
  Eval vm_compute in (default (0, standby_boot) (sys_standby_process_s2 two_rounds asleep_boot)).2.

Lemma s2_wakes_and_restores_witness :
  is_Some (sys_standby_process_s2 two_rounds asleep_boot) ∧ state locked_boot = STANDBY_NORMAL ∧
  ∃ mid, Forall sleep_call mid ∧
    sb_calls locked_boot = sb_calls asleep_boot ++ before_calls (sb_env asleep_boot) ++ mid ++
      after_calls (sb_env asleep_boot) (dvfs_level (sb_ctx asleep_boot)).
Proof.
  destruct (s2_wakes_and_restores two_rounds asleep_boot) as (_ & Hwake & Hrun). split.
  - apply (Hwake [([], [ActTime 50])] [] [ActTime 20] (ActLock 3)); [reflexivity|cbn; lia].
  - destruct (Hrun 0 locked_boot) as (_ & Hst & _ & Hcalls); [vm_compute; reflexivity|]. split; [exact Hst|exact Hcalls].
Defined.

Lemma idle_system_falls_asleep_witness :
  ∃ s', ticks 602 100 standby_boot = Some s' ∧ state s' = STANDBY_S2.
Proof.
  destruct (idle_system_falls_asleep 100 100 standby_boot) as (_ & _ & s' & Hrun & Hst & _).
  - lia.
  - by split.
  - reflexivity.
  - reflexivity.
  - by vm_compute.
  - vm_compute. split; [reflexivity|discriminate].
  - exists s'. split; [exact Hrun|exact Hst].
Defined.

Lemma powerdown_is_followed_by_power_on_witness :
  ∃ s', sys_monitor_timer_handle sys_standby_work_handle sys_event_notify
      (sys_monitor_add_work [] sys_monitor_init).2 (do_act standby_boot (ActTime 600000)) = Some s' ∧
    sb_events s' = [SYS_EVENT_POWER_OFF; SYS_EVENT_POWER_ON].
Proof. apply (powerdown_is_followed_by_power_on [] _ (do_act standby_boot (ActTime 600000)) eq_refl). by vm_compute. Defined.
