(* ===== verification/PowerManager.v ===== *)
(** * The power manager

    ext/actions/system/power/power_manager.c in the shipped configuration
    (CONFIG_BT_HFP_HF and CONFIG_PROPERTY set, TWS and POWER_SMART_CONTROL not):
    what the battery driver reports is kept, and a work of the system monitor
    turns it into messages and system events.  The battery driver is a parameter:
    [supply p] is the value of a property, or [None] when reading it fails. *)

From stdpp Require Import base numbers list option sets.
From S2P Require Import Prelude AudioPolicy AudioSystem SysWakelock SysStandby.
Local Open Scope Z_scope.

Definition DEFAULT_BOOTPOWER_LEVEL : Z := 3100000.
Definition DEFAULT_NOPOWER_LEVEL : Z := 3400000.
Definition DEFAULT_LOWPOWER_LEVEL : Z := 3600000.
Definition DEFAULT_OTA_POWER_LEVEL : Z := 3700000.
Definition DEFAULT_REPORT_PERIODS : Z := 90 * 1000.

Definition CFG_LOW_POWER_WARNING_LEVEL : list Z := [76; 79; 87; 80; 79; 87; 69; 82; 95; 76; 69; 86; 69; 76].
Definition CFG_SHUTDOWN_POWER_LEVEL : list Z := [78; 79; 80; 79; 87; 69; 82; 95; 76; 69; 86; 69; 76].
Definition CFG_OTA_POWER_LEVEL : list Z := [79; 84; 65; 95; 80; 79; 87; 69; 82; 95; 76; 69; 86; 69; 76].

Definition SYS_EVENT_BATTERY_LOW : Z := 5.
Definition SYS_EVENT_BATTERY_TOO_LOW : Z := 6.
Definition SYS_EVENT_CHARGE_FULL : Z := 8.

Inductive supply_prop :=
  | POWER_SUPPLY_PROP_STATUS
  | POWER_SUPPLY_PROP_ONLINE
  | POWER_SUPPLY_PROP_VOLTAGE_NOW
  | POWER_SUPPLY_PROP_CAPACITY
  | POWER_SUPPLY_PROP_DC5V.
Inductive bat_charge_event :=
  | BAT_CHG_EVENT_DC5V_IN
  | BAT_CHG_EVENT_DC5V_OUT
  | BAT_CHG_EVENT_CHARGE_START
  | BAT_CHG_EVENT_CHARGE_STOP
  | BAT_CHG_EVENT_CHARGE_FULL
  | BAT_CHG_EVENT_VOLTAGE_CHANGE (voltage_val : Z)
  | BAT_CHG_EVENT_CAP_CHANGE (cap : Z).

Record power_manager_info := mk_power {
  pw_dev : bool;
  nopower_level : Z;
  lowpower_level : Z;
  ota_power_level : Z;
  current_vol : Z;
  current_cap : Z;
  slave_vol : Z;
  slave_cap : Z;
  battary_changed : bool;
  charge_full_flag : bool;
  report_timestamp : Z;
}.
Definition power_clear : power_manager_info := mk_power false 0 0 0 0 0 0 0 false false 0.

(** What leaves the manager. *)
Inductive power_out :=
  | HfpBatteryReport (cap : Z)
  | MsgBatChargeEvent
  | PowerEvent (event : Z)
  | PowerOff
  | RegisterNotify
  | AddWork.

Section power.
Context {W : Type} `{!PropIface W} (supply : supply_prop → option Z).

(** [pm_info]: the global pointer. *)
Record power := mk_pwr { pm_info : option power_manager_info; pm_props : W; pm_out : list power_out }.
Definition pw_emit (l : list power_out) (s : power) : power := mk_pwr (pm_info s) (pm_props s) (pm_out s ++ l).
Definition pw_set (i : power_manager_info) (s : power) : power := mk_pwr (Some i) (pm_props s) (pm_out s).

Definition with_changed (b : bool) (i : power_manager_info) : power_manager_info :=
  mk_power (pw_dev i) (nopower_level i) (lowpower_level i) (ota_power_level i) (current_vol i) (current_cap i)
    (slave_vol i) (slave_cap i) b (charge_full_flag i) (report_timestamp i).
Definition with_full (b : bool) (i : power_manager_info) : power_manager_info :=
  mk_power (pw_dev i) (nopower_level i) (lowpower_level i) (ota_power_level i) (current_vol i) (current_cap i)
    (slave_vol i) (slave_cap i) (battary_changed i) b (report_timestamp i).
Definition with_vol (v : Z) (i : power_manager_info) : power_manager_info :=
  mk_power (pw_dev i) (nopower_level i) (lowpower_level i) (ota_power_level i) v (current_cap i)
    (slave_vol i) (slave_cap i) (battary_changed i) (charge_full_flag i) (report_timestamp i).
Definition with_cap (c : Z) (i : power_manager_info) : power_manager_info :=
  mk_power (pw_dev i) (nopower_level i) (lowpower_level i) (ota_power_level i) (current_vol i) c
    (slave_vol i) (slave_cap i) (battary_changed i) (charge_full_flag i) (report_timestamp i).
Definition with_report (t : Z) (i : power_manager_info) : power_manager_info :=
  mk_power (pw_dev i) (nopower_level i) (lowpower_level i) (ota_power_level i) (current_vol i) (current_cap i)
    (slave_vol i) (slave_cap i) (battary_changed i) (charge_full_flag i) t.

Definition power_supply_report (event : bat_charge_event) (s : power) : power :=
  match pm_info s with
  | None => s
  | Some i =>
      match event with
      | BAT_CHG_EVENT_DC5V_IN | BAT_CHG_EVENT_DC5V_OUT => s
      | BAT_CHG_EVENT_CHARGE_START | BAT_CHG_EVENT_CHARGE_STOP => pw_set (with_changed true i) s
      | BAT_CHG_EVENT_CHARGE_FULL => pw_set (with_full true i) s
      | BAT_CHG_EVENT_VOLTAGE_CHANGE v => pw_set (with_vol (s32 v) i) s
      | BAT_CHG_EVENT_CAP_CHANGE c => pw_set (with_changed true (with_cap (s32 c) i)) s
      end
  end.

Definition get_system_bat_info (p : supply_prop) (s : power) : Z :=
  match pm_info s with
  | None => - ENODEV
  | Some i => if negb (pw_dev i) then - ENODEV else match supply p with Some v => v | None => - ENODEV end
  end.
Definition power_manager_get_battery_capacity (s : power) : Z := get_system_bat_info POWER_SUPPLY_PROP_CAPACITY s.
Definition power_manager_get_charge_status (s : power) : Z := get_system_bat_info POWER_SUPPLY_PROP_STATUS s.
Definition POWER_SUPPLY_STATUS_FULL : Z := 4.
Definition power_manager_get_battery_is_full (s : power) : bool :=
  power_manager_get_charge_status s =? POWER_SUPPLY_STATUS_FULL.
Definition power_manager_get_battery_vol (s : power) : Z := get_system_bat_info POWER_SUPPLY_PROP_VOLTAGE_NOW s.
Definition power_manager_get_dc5v_status (s : power) : Z := get_system_bat_info POWER_SUPPLY_PROP_DC5V s.

(** These follow the pointer without a test ([None]: it is null). *)
Definition power_manager_set_slave_battery_state (capacity vol : Z) (s : power) : option (Z * power) :=
  i ← pm_info s;
  Some (0, pw_set (mk_power (pw_dev i) (nopower_level i) (lowpower_level i) (ota_power_level i) (current_vol i)
                     (current_cap i) vol capacity true (charge_full_flag i) (report_timestamp i)) s).
Definition power_manager_check_is_no_power (s : power) : option bool :=
  if negb (power_manager_get_dc5v_status s =? 0) then Some false
  else i ← pm_info s; Some (power_manager_get_battery_vol s <=? nopower_level i).
Definition power_manager_check_ota_power (s : power) : option bool :=
  if negb (power_manager_get_dc5v_status s =? 0) then Some true
  else i ← pm_info s; Some (ota_power_level i <? power_manager_get_battery_vol s).

(** ** The work *)

Definition report_due (now : Z) (i : power_manager_info) : bool :=
  (DEFAULT_REPORT_PERIODS <=? u32 (now - report_timestamp i)) || (report_timestamp i =? 0).

(** [_power_manager_work_handle] at uptime [now]. *)
Definition power_manager_work_handle (now : Z) (s : power) : Z * power :=
  match pm_info s with
  | None => (- ESRCH, s)
  | Some i =>
      let s := if battary_changed i then
                 pw_emit [HfpBatteryReport (current_cap i); MsgBatChargeEvent] (pw_set (with_changed false i) s)
               else s in
      let i := with_changed false i in
      if negb (power_manager_get_dc5v_status s =? 0) then (0, s)
      else
        let s := if charge_full_flag i then pw_emit [PowerEvent SYS_EVENT_CHARGE_FULL] (pw_set (with_full false i) s) else s in
        let i := with_full false i in
        if current_vol i <=? nopower_level i then
          if report_due now i then
            (0, pw_set (with_report now i) (pw_emit [PowerEvent SYS_EVENT_BATTERY_TOO_LOW] s))
          else (0, s)
        else if (current_vol i <=? lowpower_level i) && report_due now i then
          (0, pw_set (with_report now i) (pw_emit [PowerEvent SYS_EVENT_BATTERY_LOW] s))
        else (0, s)
  end.

(** [bound]: the battery device exists. *)
Definition power_manager_init (bound : bool) (s : power) : option (Z * power) :=
  let s := pw_set power_clear s in
  let i := mk_power bound 0 0 0 0 0 0 0 false false 0 in
  let s := pw_set i s in
  if negb bound then Some (- ENODEV, s)
  else if (power_manager_get_battery_vol s <=? DEFAULT_BOOTPOWER_LEVEL) && (power_manager_get_dc5v_status s =? 0) then
    Some (0, pw_emit [PowerOff] s)
  else
    let s := pw_emit [RegisterNotify] s in
    '(low, w) ← prop_get_int CFG_LOW_POWER_WARNING_LEVEL DEFAULT_LOWPOWER_LEVEL (pm_props s);
    '(no, w) ← prop_get_int CFG_SHUTDOWN_POWER_LEVEL DEFAULT_NOPOWER_LEVEL w;
    '(ota, w) ← prop_get_int CFG_OTA_POWER_LEVEL DEFAULT_OTA_POWER_LEVEL w;
    let s := mk_pwr (pm_info s) w (pm_out s) in
    let i := mk_power bound no low ota (power_manager_get_battery_vol s) (power_manager_get_battery_capacity s)
               4200000 100 false false 0 in
    Some (0, pw_emit [AddWork] (pw_set i s)).
End power.

(** ** Reports *)

Section laws.
Context {W : Type} `{!PropIface W} (supply : supply_prop → option Z).
Implicit Types (s : @power W).

(** What one run of the work sends, and the state it leaves. *)
Definition no_5v s : bool := power_manager_get_dc5v_status supply s =? 0.
Definition low_event (i : power_manager_info) : option Z :=
  if current_vol i <=? nopower_level i then Some SYS_EVENT_BATTERY_TOO_LOW
  else if current_vol i <=? lowpower_level i then Some SYS_EVENT_BATTERY_LOW else None.
Definition work_news (now : Z) (i : power_manager_info) (unplugged : bool) : list power_out :=
  (if battary_changed i then [HfpBatteryReport (current_cap i); MsgBatChargeEvent] else []) ++
  (if unplugged then
     (if charge_full_flag i then [PowerEvent SYS_EVENT_CHARGE_FULL] else []) ++
     match low_event i with Some e => if report_due now i then [PowerEvent e] else [] | None => [] end
   else []).
Definition work_info (now : Z) (i : power_manager_info) (unplugged : bool) : power_manager_info :=
  let i := with_changed false i in
  if unplugged then
    let i := with_full false i in
    match low_event i with Some _ => if report_due now i then with_report now i else i | None => i end
  else i.

Lemma dc5v_same s i' out :
  (∀ i, pm_info s = Some i → pw_dev i' = pw_dev i) → is_Some (pm_info s) →
  power_manager_get_dc5v_status supply (mk_pwr (Some i') (pm_props s) out) = power_manager_get_dc5v_status supply s.
Proof.
  intros Hd [i Hi]. unfold power_manager_get_dc5v_status, get_system_bat_info. cbn [pm_info]. by rewrite Hi, (Hd i Hi).
Qed.

Lemma power_info_eta (i : power_manager_info) :
  (battary_changed i = false → with_changed false i = i) ∧ (charge_full_flag i = false → with_full false i = i).
Proof. destruct i. cbn. split; by intros ->. Qed.

Lemma work_handle_eq now s i :
  pm_info s = Some i →
  power_manager_work_handle supply now s =
  (0, mk_pwr (Some (work_info now i (no_5v s))) (pm_props s) (pm_out s ++ work_news now i (no_5v s))).
Proof.
  intros Hi. unfold power_manager_work_handle. rewrite Hi.
  set (s1 := if battary_changed i then _ else s).
  assert (H1 : s1 = mk_pwr (Some (with_changed false i)) (pm_props s)
      (pm_out s ++ (if battary_changed i then [HfpBatteryReport (current_cap i); MsgBatChargeEvent] else []))).
  { subst s1. destruct (battary_changed i) eqn:E; [done|]. rewrite app_nil_r, (proj1 (power_info_eta i) E), <- Hi. by destruct s. }
  rewrite H1, dc5v_same; [|intros j Hj; by simplify_eq|by eexists]. unfold no_5v, work_info, work_news.
  change (charge_full_flag (with_changed false i)) with (charge_full_flag i).
  change (current_vol (with_full false (with_changed false i))) with (current_vol i).
  change (nopower_level (with_full false (with_changed false i))) with (nopower_level i).
  change (lowpower_level (with_full false (with_changed false i))) with (lowpower_level i).
  change (report_due now (with_full false (with_changed false i))) with (report_due now i).
  change (low_event (with_full false (with_changed false i))) with (low_event i).
  destruct (power_manager_get_dc5v_status supply s =? 0); cbn [negb]; [|by rewrite app_nil_r].
  rewrite (assoc_L (++)). generalize (pm_out s ++ (if battary_changed i then [HfpBatteryReport (current_cap i); MsgBatChargeEvent] else [])).
  intros out. clear s1 H1. set (s2 := if charge_full_flag i then _ else _).
  assert (H2 : s2 = mk_pwr (Some (with_full false (with_changed false i))) (pm_props s)
      (out ++ (if charge_full_flag i then [PowerEvent SYS_EVENT_CHARGE_FULL] else []))).
  { subst s2. destruct (charge_full_flag i) eqn:E; [done|]. rewrite app_nil_r.
    by rewrite (proj2 (power_info_eta (with_changed false i))). }
  rewrite H2. clear s2 H2. rewrite (assoc_L (++)). unfold low_event.
  destruct (current_vol i <=? nopower_level i), (current_vol i <=? lowpower_level i), (report_due now i); cbn;
    by rewrite ?app_nil_r.
Qed.

(** Runs: reports of the driver and the work of the monitor, with the time of
    the last event about a low battery. *)
Definition is_low_event (o : power_out) : Prop :=
  o = PowerEvent SYS_EVENT_BATTERY_LOW ∨ o = PowerEvent SYS_EVENT_BATTERY_TOO_LOW.
Definition sends_low (now : Z) (i : power_manager_info) (unplugged : bool) : bool :=
  unplugged && bool_decide (is_Some (low_event i)) && report_due now i.
Lemma sends_low_spec now i u : sends_low now i u = true ↔ Exists is_low_event (work_news now i u).
Proof.
  unfold sends_low, work_news. split.
  - intros [[-> Hl%bool_decide_eq_true]%andb_true_iff Hr]%andb_true_iff. rewrite Hr. destruct Hl as [e He]. rewrite He.
    rewrite !Exists_app. right. right. apply Exists_cons_hd. unfold low_event in He. unfold is_low_event.
    destruct (_ <=? nopower_level i); [simplify_eq; by right|]. destruct (_ <=? lowpower_level i); simplify_eq. by left.
  - unfold is_low_event. rewrite Exists_app. intros [H|H].
    + exfalso. destruct (battary_changed i); [|by apply Exists_nil in H].
      rewrite !Exists_cons, Exists_nil in H. naive_solver.
    + destruct u; [|by apply Exists_nil in H]. rewrite Exists_app in H. destruct H as [H|H].
      { exfalso. destruct (charge_full_flag i); [|by apply Exists_nil in H].
        rewrite Exists_cons, Exists_nil in H. destruct H as [[H|H]|[]]; discriminate. }
      destruct (low_event i) as [e|]; [|by apply Exists_nil in H].
      destruct (report_due now i); [|by apply Exists_nil in H]. by rewrite bool_decide_true by (by eexists).
Qed.

Inductive pw_run : @power W → Z → option Z → Prop :=
  | pw_start s i t : pm_info s = Some i → report_timestamp i = 0 → pw_run s t None
  | pw_report s t last ev : pw_run s t last → pw_run (power_supply_report ev s) t last
  | pw_work s t last t' i :
      pw_run s t last → t <= t' → u32 t' ≠ 0 → pm_info s = Some i →
      pw_run (power_manager_work_handle supply (u32 t') s).2 t'
        (if sends_low (u32 t') i (no_5v s) then Some t' else last).

Lemma pw_run_inv s t last :
  pw_run s t last →
  ∃ i, pm_info s = Some i ∧
    match last with
    | Some t0 => t0 <= t ∧ report_timestamp i = u32 t0 ∧ u32 t0 ≠ 0
    | None => report_timestamp i = 0
    end.
Proof.
  induction 1 as [s i t Hi Hr|s t last ev _ (i & Hi & IH)|s t last t' i _ (i' & Hi' & IH) Ht Hz Hi]; [by exists i| |].
  - unfold power_supply_report. rewrite Hi. destruct ev; eexists; (split; [done|]); done.
  - simplify_eq. rewrite (work_handle_eq _ s i') by done. cbn [snd pm_info]. eexists. split; [reflexivity|].
    unfold sends_low, work_info.
    change (low_event (with_full false (with_changed false i'))) with (low_event i').
    change (report_due (u32 t') (with_full false (with_changed false i'))) with (report_due (u32 t') i').
    assert (Hold : match last with Some t0 => t0 <= t' ∧ report_timestamp i' = u32 t0 ∧ u32 t0 ≠ 0 | None => report_timestamp i' = 0 end).
    { destruct last as [t0|]; [|done]. destruct IH as (H1 & H2). split; [lia|done]. }
    destruct (no_5v s); cbn [andb]; [|exact Hold]. destruct (low_event i') as [e|]; [|exact Hold].
    rewrite bool_decide_true by (by eexists). cbn [andb]. destruct (report_due (u32 t') i'); [|exact Hold]. cbn. by split.
Qed.

(** In every run, two battery warnings of the power manager, low or too low,
    are at least 90 seconds apart, also across the wrap-around of the 32-bit
    clock. *)
Theorem power_warnings_spaced s t t0 t' r s' news :
  pw_run s t (Some t0) → t <= t' →
  power_manager_work_handle supply (u32 t') s = (r, s') → pm_out s' = pm_out s ++ news →
  Exists is_low_event news → DEFAULT_REPORT_PERIODS <= t' - t0.
Proof.
  intros Hrun Ht Hw Hout Hex. destruct (pw_run_inv _ _ _ Hrun) as (i & Hi & Ht0 & Hts & Hz).
  rewrite (work_handle_eq _ s i) in Hw by done. injection Hw as _ <-. cbn [pm_out] in Hout.
  apply (inj (pm_out s ++.)) in Hout. subst news. apply sends_low_spec in Hex. unfold sends_low in Hex.
  apply andb_true_iff in Hex as [_ Hd]. unfold report_due in Hd. rewrite Hts in Hd.
  rewrite (proj2 (Z.eqb_neq (u32 t0) 0)), orb_false_r in Hd by done. apply Z.leb_le in Hd.
  rewrite u32_sub_u32, u32_u32_sub in Hd. pose proof (u32_le (t' - t0) ltac:(lia)). lia.
Qed.

(** A battery that got full is reported as such when the supply is taken away,
    not before. *)
Theorem charge_full_reported_unplugged now s i r s' news :
  pm_info s = Some i → power_manager_work_handle supply now s = (r, s') → pm_out s' = pm_out s ++ news →
  PowerEvent SYS_EVENT_CHARGE_FULL ∈ news ↔ charge_full_flag i = true ∧ no_5v s = true.
Proof.
  intros Hi Hw Hout. rewrite (work_handle_eq _ s i) in Hw by done. injection Hw as _ <-. cbn [pm_out] in Hout.
  apply (inj (pm_out s ++.)) in Hout. subst news. unfold work_news. rewrite elem_of_app.
  assert (Hlow : ∀ l, l = match low_event i with Some e => if report_due now i then [PowerEvent e] else [] | None => [] end →
            ¬ PowerEvent SYS_EVENT_CHARGE_FULL ∈ l).
  { intros l ->. unfold low_event. destruct (_ <=? nopower_level i); [|destruct (_ <=? lowpower_level i)];
      try (destruct (report_due now i)); set_solver. }
  split.
  - intros [H|H]; [destruct (battary_changed i); set_solver|]. destruct (no_5v s); [|set_solver].
    apply elem_of_app in H as [H|H]; [|by apply Hlow in H]. by destruct (charge_full_flag i); [|set_solver].
  - intros [-> ->]. right. apply elem_of_app. left. set_solver.
Qed.

(** A driver that fails is taken for a supply that is there: no shutdown and an
    update allowed. *)
Theorem power_driver_failure s :
  supply POWER_SUPPLY_PROP_DC5V = None →
  power_manager_check_is_no_power supply s = Some false ∧ power_manager_check_ota_power supply s = Some true.
Proof.
  intros Hs. assert (H : power_manager_get_dc5v_status supply s = - ENODEV).
  { unfold power_manager_get_dc5v_status, get_system_bat_info. destruct (pm_info s) as [i|]; [|done].
    rewrite Hs. by destruct (pw_dev i). }
  unfold power_manager_check_is_no_power, power_manager_check_ota_power. by rewrite H.
Qed.
End laws.

(** ** Instances *)

#[local] Instance unit_props : PropIface unit := {
  prop_get_int := λ _ d w, Some (d, w);
  prop_set := λ _ _ w, Some (0, w);
}.
Definition sample_supply (p : supply_prop) : option Z :=
  match p with POWER_SUPPLY_PROP_STATUS => Some 2 | POWER_SUPPLY_PROP_ONLINE => Some 1 | POWER_SUPPLY_PROP_CAPACITY => Some 12 | POWER_SUPPLY_PROP_VOLTAGE_NOW => Some 3500000 | POWER_SUPPLY_PROP_DC5V => Some 0 end.
Definition sample_power : @power unit :=
  match power_manager_init sample_supply true (mk_pwr None () []) with Some (_, s) => s | None => mk_pwr None () [] end.

Lemma power_warnings_spaced_witness :
  let s1 := (power_manager_work_handle sample_supply 1000 sample_power).2 in
  ∃ s2, power_manager_work_handle sample_supply 91000 s1 = (0, s2) ∧
    pm_out s2 = pm_out s1 ++ [PowerEvent SYS_EVENT_BATTERY_LOW] ∧ DEFAULT_REPORT_PERIODS <= 91000 - 1000.
Proof.
  intros s1. eexists. split; [reflexivity|]. split; [reflexivity|].
  refine (power_warnings_spaced sample_supply s1 1000 1000 91000 _ _ [PowerEvent SYS_EVENT_BATTERY_LOW] _ _ eq_refl eq_refl _).
  - refine (pw_work sample_supply sample_power 0 None 1000 _ _ _ _ eq_refl); [|lia|done].
    by apply (pw_start sample_supply sample_power (mk_power true 3400000 3600000 3700000 3500000 12 4200000 100 false false 0)).
  - lia.
  - apply Exists_cons_hd. by left.
Defined.
