(* ===== verification/InputManager.v ===== *)
(** * The input manager

    ext/actions/system/input/input_manager.c in the shipped configuration
    (CONFIG_INPUT_MUTIPLE_CLICK set, the encoder and the ADC slider not; the keys
    of boards/csky/ats2853p2_evb/board.h).  The key drivers report a key that is
    down at every scan and its release once; the manager makes clicks, multiple
    clicks and long presses of them.  A delayed work is a deadline; works that are
    due run before the next key event, the earliest first. *)

From Stdlib Require Import Sorting.Sorted.
From stdpp Require Import base numbers list option.
From S2P Require Import Prelude SysWakelock SysStandby.
Local Open Scope Z_scope.

Definition LONG_PRESS_TIMER : Z := 10.
Definition SUPER_LONG_PRESS_TIMER : Z := 50.
Definition SUPER_LONG_PRESS_6S_TIMER : Z := 150.
Definition QUICKLY_CLICK_DURATION : Z := 300.
Definition KEY_EVENT_CANCEL_DURATION : Z := 50.

Definition KEY_POWER : Z := 2.
Definition KEY_VOLUMEUP : Z := 3.
Definition KEY_VOLUMEDOWN : Z := 4.
Definition KEY_NEXTSONG : Z := 7.
Definition KEY_PREVIOUSSONG : Z := 8.
Definition KEY_TBD : Z := 27.
Definition support_hold_key : list Z := [KEY_VOLUMEDOWN; KEY_VOLUMEUP; KEY_NEXTSONG; KEY_PREVIOUSSONG].
Definition support_mutiple_key : list Z := [KEY_POWER; KEY_TBD; KEY_NEXTSONG; KEY_PREVIOUSSONG].

Definition KEY_TYPE_LONG_DOWN : Z := 0x10000000.
Definition KEY_TYPE_DOUBLE_CLICK : Z := 0x40000000.
Definition KEY_TYPE_HOLD : Z := 0x08000000.
Definition KEY_TYPE_SHORT_UP : Z := 0x04000000.
Definition KEY_TYPE_LONG_UP : Z := 0x02000000.
Definition KEY_TYPE_HOLD_UP : Z := 0x01000000.
Definition KEY_TYPE_LONG6S : Z := 0x00400000.
Definition KEY_TYPE_LONG : Z := 0x00200000.
Definition KEY_TYPE_TRIPLE_CLICK : Z := 0x00100000.

Inductive key_value := KEY_VALUE_DOWN | KEY_VALUE_UP.

(** What leaves the manager: the callback, the key message of
    [sys_event_report_input] and the messages of a held key. *)
Inductive key_out :=
  | KeyCallback (value : Z)
  | KeyReport (value : Z)
  | KeyHold (value : Z).

(** [im_work_item], [im_hold_key_work]: the deadlines of the works; [im_cb]: there
    is a callback; [im_free]: [os_is_free_msg_enough]. *)
Record input_manager_info := mk_input {
  im_work_item : option Z;
  im_hold_key_work : option Z;
  im_cb : bool;
  press_type : Z;
  press_code : Z;
  report_key_value : Z;
  report_stamp : Z;
  press_timer : Z;
  click_num : Z;
  im_lock : bool;
  key_hold : bool;
  filter_itself : bool;
  im_free : bool;
  im_out : list key_out;
}.

Definition set_work (w : option Z) (s : input_manager_info) : input_manager_info :=
  mk_input w (im_hold_key_work s) (im_cb s) (press_type s) (press_code s) (report_key_value s) (report_stamp s)
    (press_timer s) (click_num s) (im_lock s) (key_hold s) (filter_itself s) (im_free s) (im_out s).
Definition set_hold_work (w : option Z) (s : input_manager_info) : input_manager_info :=
  mk_input (im_work_item s) w (im_cb s) (press_type s) (press_code s) (report_key_value s) (report_stamp s)
    (press_timer s) (click_num s) (im_lock s) (key_hold s) (filter_itself s) (im_free s) (im_out s).
Definition set_type (t : Z) (s : input_manager_info) : input_manager_info :=
  mk_input (im_work_item s) (im_hold_key_work s) (im_cb s) t (press_code s) (report_key_value s) (report_stamp s)
    (press_timer s) (click_num s) (im_lock s) (key_hold s) (filter_itself s) (im_free s) (im_out s).
Definition set_code (c : Z) (s : input_manager_info) : input_manager_info :=
  mk_input (im_work_item s) (im_hold_key_work s) (im_cb s) (press_type s) c (report_key_value s) (report_stamp s)
    (press_timer s) (click_num s) (im_lock s) (key_hold s) (filter_itself s) (im_free s) (im_out s).
Definition set_value (v : Z) (s : input_manager_info) : input_manager_info :=
  mk_input (im_work_item s) (im_hold_key_work s) (im_cb s) (press_type s) (press_code s) v (report_stamp s)
    (press_timer s) (click_num s) (im_lock s) (key_hold s) (filter_itself s) (im_free s) (im_out s).
Definition set_stamp (t : Z) (s : input_manager_info) : input_manager_info :=
  mk_input (im_work_item s) (im_hold_key_work s) (im_cb s) (press_type s) (press_code s) (report_key_value s) t
    (press_timer s) (click_num s) (im_lock s) (key_hold s) (filter_itself s) (im_free s) (im_out s).
Definition set_timer (t : Z) (s : input_manager_info) : input_manager_info :=
  mk_input (im_work_item s) (im_hold_key_work s) (im_cb s) (press_type s) (press_code s) (report_key_value s)
    (report_stamp s) t (click_num s) (im_lock s) (key_hold s) (filter_itself s) (im_free s) (im_out s).
Definition set_clicks (n : Z) (s : input_manager_info) : input_manager_info :=
  mk_input (im_work_item s) (im_hold_key_work s) (im_cb s) (press_type s) (press_code s) (report_key_value s)
    (report_stamp s) (press_timer s) n (im_lock s) (key_hold s) (filter_itself s) (im_free s) (im_out s).
Definition set_lock (b : bool) (s : input_manager_info) : input_manager_info :=
  mk_input (im_work_item s) (im_hold_key_work s) (im_cb s) (press_type s) (press_code s) (report_key_value s)
    (report_stamp s) (press_timer s) (click_num s) b (key_hold s) (filter_itself s) (im_free s) (im_out s).
Definition set_hold (b : bool) (s : input_manager_info) : input_manager_info :=
  mk_input (im_work_item s) (im_hold_key_work s) (im_cb s) (press_type s) (press_code s) (report_key_value s)
    (report_stamp s) (press_timer s) (click_num s) (im_lock s) b (filter_itself s) (im_free s) (im_out s).
Definition set_filter (b : bool) (s : input_manager_info) : input_manager_info :=
  mk_input (im_work_item s) (im_hold_key_work s) (im_cb s) (press_type s) (press_code s) (report_key_value s)
    (report_stamp s) (press_timer s) (click_num s) (im_lock s) (key_hold s) b (im_free s) (im_out s).
Definition key_emit (l : list key_out) (s : input_manager_info) : input_manager_info :=
  mk_input (im_work_item s) (im_hold_key_work s) (im_cb s) (press_type s) (press_code s) (report_key_value s)
    (report_stamp s) (press_timer s) (click_num s) (im_lock s) (key_hold s) (filter_itself s) (im_free s) (im_out s ++ l).
Definition callback (v : Z) (s : input_manager_info) : input_manager_info :=
  if im_cb s then key_emit [KeyCallback v] s else s.

Definition bit_of (v bit : Z) : bool := negb (Z.land v bit =? 0).

(** ** The works *)

Definition report_key_event (s : input_manager_info) : input_manager_info :=
  if filter_itself s then
    let v := report_key_value s in
    if bit_of v KEY_TYPE_SHORT_UP || bit_of v KEY_TYPE_DOUBLE_CLICK || bit_of v KEY_TYPE_TRIPLE_CLICK ||
       bit_of v KEY_TYPE_LONG_UP
    then set_filter false s else s
  else
    let s := set_clicks 0 s in
    key_emit [KeyReport (report_key_value s)] s.

Definition is_support_hold (key_code : Z) : bool := existsb (Z.eqb key_code) support_hold_key.
Definition is_support_mutiple_click (key_code : Z) : bool := existsb (Z.eqb key_code) support_mutiple_key.

Definition check_hold_key (now : Z) (s : input_manager_info) : input_manager_info :=
  if key_hold s then
    let s := set_hold_work (Some (now + 200)) s in
    if negb (im_lock s) then
      let v := Z.lor KEY_TYPE_HOLD (press_code s) in
      let s := callback v s in
      if filter_itself s then s else key_emit [KeyHold v] s
    else s
  else if negb (im_lock s) then
    let v := Z.lor KEY_TYPE_HOLD_UP (press_code s) in
    let s := callback v s in
    if filter_itself s then set_filter false s else key_emit [KeyHold v] s
  else s.

(** ** Key events *)

(** [k_uptime_delta_32(&input_manager->report_stamp)] *)
Definition stamp_delta (now : Z) (s : input_manager_info) : Z * input_manager_info :=
  (u32 (now - report_stamp s), set_stamp now s).

Definition is_long (t : Z) : bool := (t =? KEY_TYPE_LONG_DOWN) || (t =? KEY_TYPE_LONG) || (t =? KEY_TYPE_LONG6S).

(** A release that may belong to a multiple click. *)
Definition count_click (now : Z) (s : input_manager_info) : input_manager_info :=
  let s :=
    if report_key_value s =? Z.lor (press_type s) (press_code s) then
      let '(d, s) := stamp_delta now s in
      if d <=? QUICKLY_CLICK_DURATION then
        set_stamp now (set_clicks ((click_num s + 1) mod 16) (set_work None s))
      else s
    else s in
  if click_num s =? 0 then set_type KEY_TYPE_SHORT_UP s
  else if click_num s =? 1 then set_type KEY_TYPE_DOUBLE_CLICK s
  else if click_num s =? 2 then set_type KEY_TYPE_TRIPLE_CLICK s
  else s.

Definition key_up (now code : Z) (s : input_manager_info) : input_manager_info :=
  let s := set_hold false (set_code code s) in
  let s :=
    if is_long (press_type s) then set_type KEY_TYPE_LONG_UP s
    else if is_support_mutiple_click (press_code s) then count_click now s
    else set_type KEY_TYPE_SHORT_UP s in
  set_timer 0 s.

Definition key_down (now code : Z) (s : input_manager_info) : bool * input_manager_info :=
  if negb (code =? press_code s) then
    (false, set_filter false (set_type 0 (set_timer 0 (set_code code s))))
  else
    let s := set_timer ((press_timer s + 1) mod 4096) s in
    if SUPER_LONG_PRESS_6S_TIMER <=? press_timer s then
      if negb (press_type s =? KEY_TYPE_LONG6S) then (true, set_type KEY_TYPE_LONG6S s) else (false, s)
    else if SUPER_LONG_PRESS_TIMER <=? press_timer s then
      if negb (press_type s =? KEY_TYPE_LONG) then (true, set_type KEY_TYPE_LONG s) else (false, s)
    else if LONG_PRESS_TIMER <=? press_timer s then
      if negb (press_type s =? KEY_TYPE_LONG_DOWN) then
        let s := set_type KEY_TYPE_LONG_DOWN s in
        let s := if is_support_hold (press_code s) then set_hold_work (Some (now + 500)) (set_hold true s) else s in
        (true, s)
      else (false, s)
    else (false, s).

Definition need_report (now : Z) (s : input_manager_info) : input_manager_info :=
  let s := set_value (Z.lor (press_type s) (press_code s)) s in
  let s := callback (report_key_value s) s in
  if im_lock s then s
  else if negb (im_free s) then s
  else if is_support_mutiple_click (press_code s) then
    set_work (Some (now + (QUICKLY_CLICK_DURATION + KEY_EVENT_CANCEL_DURATION))) (set_stamp now s)
  else set_work (Some now) s.

(** [key_event_handle] for events of type EV_KEY *)
Definition key_event_handle (now : Z) (value : key_value) (code : Z) (s : input_manager_info) : input_manager_info :=
  match value with
  | KEY_VALUE_UP => need_report now (key_up now code s)
  | KEY_VALUE_DOWN => let '(need, s) := key_down now code s in if need then need_report now s else s
  end.

(** [adckey]: opening the ADC keys succeeds. *)
Definition input_manager_init (cb adckey : bool) (s : input_manager_info) : bool * input_manager_info :=
  let s := mk_input None None cb 0 0 0 0 0 0 false false false (im_free s) (im_out s) in
  if negb adckey then (false, s) else (true, set_lock true s).
Definition input_manager_lock : input_manager_info → input_manager_info := set_lock true.
Definition input_manager_unlock : input_manager_info → input_manager_info := set_lock false.
Definition input_manager_islock (s : input_manager_info) : bool := im_lock s.
Definition input_manager_filter_key_itself : input_manager_info → input_manager_info := set_filter true.

(** ** Time *)

Definition due (t : Z) (w : option Z) : option Z := match w with Some d => if d <=? t then Some d else None | None => None end.
Fixpoint run_due (fuel : nat) (t : Z) (s : input_manager_info) : input_manager_info :=
  match fuel with
  | O => s
  | S fuel =>
      match due t (im_work_item s), due t (im_hold_key_work s) with
      | None, None => s
      | Some d, Some h =>
          if d <=? h then run_due fuel t (report_key_event (set_work None s))
          else run_due fuel t (check_hold_key h (set_hold_work None s))
      | Some d, None => run_due fuel t (report_key_event (set_work None s))
      | None, Some h => run_due fuel t (check_hold_key h (set_hold_work None s))
      end
  end.
(** Enough for the works due by [t]: the held key's work repeats every 200 ms. *)
Definition due_fuel (t : Z) (s : input_manager_info) : nat :=
  S (S (match im_hold_key_work s with Some h => Z.to_nat ((t - h) / 200 + 1) | None => 0 end)).
Definition until (t : Z) (s : input_manager_info) : input_manager_info := run_due (due_fuel t s) t s.

Definition key_event : Type := Z * key_value.
Fixpoint key_events (code : Z) (l : list key_event) (s : input_manager_info) : input_manager_info :=
  match l with
  | [] => s
  | (t, v) :: l => key_events code l (key_event_handle t v code (until t s))
  end.

(** ** The works that are due *)

Definition pending (t : Z) (s : input_manager_info) : nat :=
  (match due t (im_work_item s) with Some _ => 1 | None => 0 end +
   match due t (im_hold_key_work s) with Some h => Z.to_nat ((t - h) / 200 + 1) | None => 0 end)%nat.

Lemma report_key_event_works s :
  im_work_item (report_key_event s) = im_work_item s ∧ im_hold_key_work (report_key_event s) = im_hold_key_work s.
Proof. unfold report_key_event. destruct (filter_itself s); [|done]. by destruct (_ || _). Qed.
Lemma check_hold_key_works h s :
  im_work_item (check_hold_key h s) = im_work_item s ∧
  im_hold_key_work (check_hold_key h s) = if key_hold s then Some (h + 200) else im_hold_key_work s.
Proof.
  unfold check_hold_key, callback. destruct (key_hold s); cbn; destruct (im_lock s), (im_cb s), (filter_itself s) eqn:E;
    cbn; rewrite ?E; done.
Qed.

Lemma due_spec t w d : due t w = Some d ↔ w = Some d ∧ d <= t.
Proof. destruct w as [x|]; cbn; [|naive_solver]. destruct (Z.leb_spec x t); naive_solver lia. Qed.

Lemma pending_item t s d : due t (im_work_item s) = Some d → (pending t (report_key_event (set_work None s)) < pending t s)%nat.
Proof.
  intros Hd. unfold pending. destruct (report_key_event_works (set_work None s)) as [-> ->]. cbn [set_work im_work_item im_hold_key_work].
  rewrite Hd. cbn [due]. lia.
Qed.
Lemma pending_hold t s h :
  due t (im_hold_key_work s) = Some h → (pending t (check_hold_key h (set_hold_work None s)) < pending t s)%nat.
Proof.
  intros Hh. unfold pending. destruct (check_hold_key_works h (set_hold_work None s)) as [-> ->]. cbn [set_hold_work im_work_item im_hold_key_work key_hold].
  rewrite Hh. apply due_spec in Hh as [_ Hle]. destruct (key_hold s); cbn [due]; [|dlia].
  destruct (Z.leb_spec (h + 200) t); [|dlia]. replace (t - (h + 200)) with (t - h + -1 * 200) by lia.
  rewrite Z.div_add by lia. dlia.
Qed.

Lemma run_due_done fuel t : ∀ s,
  (pending t s <= fuel)%nat → pending t (run_due fuel t s) = 0%nat.
Proof.
  induction fuel as [|fuel IH]; intros s Hp; [cbn; lia|]. cbn [run_due].
  destruct (due t (im_work_item s)) as [d|] eqn:Ed, (due t (im_hold_key_work s)) as [h|] eqn:Eh.
  - destruct (d <=? h); apply IH; [pose proof (pending_item t s d Ed)|pose proof (pending_hold t s h Eh)]; lia.
  - apply IH. pose proof (pending_item t s d Ed). lia.
  - apply IH. pose proof (pending_hold t s h Eh). lia.
  - unfold pending. by rewrite Ed, Eh.
Qed.

(** The fuel is enough: nothing is due afterwards. *)
Lemma until_done t s : due t (im_work_item (until t s)) = None ∧ due t (im_hold_key_work (until t s)) = None.
Proof.
  assert (H : pending t (until t s) = 0%nat).
  { apply run_due_done. unfold pending, due_fuel. destruct (due t (im_work_item s)), (im_hold_key_work s) as [h|]; cbn [due];
      try destruct (h <=? t); lia. }
  unfold pending in H. destruct (due t (im_work_item (until t s))); [lia|].
  destruct (due t (im_hold_key_work (until t s))) as [h|] eqn:E; [|done]. apply due_spec in E as [_ E]. exfalso. dlia.
Qed.

(** Nothing due, nothing done. *)
Lemma until_quiet t s : due t (im_work_item s) = None → due t (im_hold_key_work s) = None → until t s = s.
Proof. intros H1 H2. unfold until, due_fuel. cbn [run_due]. by rewrite H1, H2. Qed.

(** ** Multiple clicks *)

(** The messages about keys, without those of a held key. *)
Definition reports (out : list key_out) : list Z :=
  omap (λ o, match o with KeyReport v => Some v | _ => None end) out.
Lemma reports_app l k : reports (l ++ k) = reports l ++ reports k.
Proof. apply omap_app. Qed.
Definition cb_out (cb : bool) (v : Z) : list key_out := if cb then [KeyCallback v] else [].
Lemma reports_cb l cb v : reports (l ++ cb_out cb v) = reports l.
Proof. rewrite reports_app. destruct cb; by rewrite app_nil_r. Qed.

(** The type of the [k]-th click in a row; the counter has four bits. *)
Definition click_type (k : Z) : Z :=
  let num := (k - 1) mod 16 in
  if num =? 0 then KEY_TYPE_SHORT_UP else if num =? 1 then KEY_TYPE_DOUBLE_CLICK else KEY_TYPE_TRIPLE_CLICK.

(** A release of type [ty] at [t] waits to be reported; the key has been down for
    [m] scans since. *)
Definition waiting (ty num c : Z) (cb : bool) (t m : Z) (out : list key_out) : input_manager_info :=
  mk_input (Some (t + 350)) None cb ty c (Z.lor ty c) t m num false false false true out.

(** After [k] clicks of [c], the last at [t]. *)
Definition clicked (c : Z) (cb : bool) (k t m : Z) (out : list key_out) : input_manager_info :=
  waiting (click_type k) ((k - 1) mod 16) c cb t m out.

Section clicks.
Variables (c : Z) (cb : bool).
Hypothesis Hmulti : is_support_mutiple_click c = true.

Lemma click_type_not_long k : is_long (click_type k) = false.
Proof. unfold click_type. cbv zeta. by destruct ((k - 1) mod 16 =? 0), ((k - 1) mod 16 =? 1). Qed.

Lemma waiting_down ty num t m out t' :
  t' < t + 350 → 0 <= m < 9 →
  key_event_handle t' KEY_VALUE_DOWN c (until t' (waiting ty num c cb t m out)) = waiting ty num c cb t (m + 1) out.
Proof.
  intros Ht Hm. rewrite until_quiet; [|cbn; zbool; [lia|done]|done].
  unfold key_event_handle, key_down. cbn [waiting press_code]. rewrite Z.eqb_refl. cbn [negb].
  cbn [waiting set_timer press_timer]. rewrite Z.mod_small by lia. unfold SUPER_LONG_PRESS_6S_TIMER, SUPER_LONG_PRESS_TIMER, LONG_PRESS_TIMER.
  rewrite !(proj2 (Z.leb_gt _ _)) by lia. done.
Qed.
Lemma waiting_downs ty num t out ds : ∀ m,
  Forall (λ t', t' < t + 350) ds → 0 <= m → m + Z.of_nat (length ds) <= 9 →
  key_events c ((λ t', (t', KEY_VALUE_DOWN)) <$> ds) (waiting ty num c cb t m out) = waiting ty num c cb t (m + Z.of_nat (length ds)) out.
Proof.
  induction ds as [|d ds IH]; intros m Hd Hm Hl; [by rewrite Z.add_0_r|].
  apply Forall_cons_1 in Hd as [Hd Hds]. cbn [fmap list_fmap key_events length] in *.
  rewrite waiting_down by lia. rewrite IH by (done || lia). f_equal. lia.
Qed.
Lemma click_type_next k (s : input_manager_info) :
  press_type s = click_type k →
  (if k mod 16 =? 0 then set_type KEY_TYPE_SHORT_UP s else if k mod 16 =? 1 then set_type KEY_TYPE_DOUBLE_CLICK s
   else if k mod 16 =? 2 then set_type KEY_TYPE_TRIPLE_CLICK s else s) = set_type (click_type (k + 1)) s.
Proof.
  intros Ht. destruct s. cbn in Ht. subst. unfold click_type, set_type. replace (k + 1 - 1) with k by lia. cbn.
  assert (Hk : (k - 1) mod 16 = if k mod 16 =? 0 then 15 else k mod 16 - 1).
  { destruct (Z.eqb_spec (k mod 16) 0); Z.to_euclidean_division_equations; lia. }
  rewrite Hk. zbool; try lia; done.
Qed.
Lemma clicked_up k t m out t' :
  t <= t' <= t + 300 →
  key_event_handle t' KEY_VALUE_UP c (until t' (clicked c cb k t m out)) =
  clicked c cb (k + 1) t' 0 (out ++ cb_out cb (Z.lor (click_type (k + 1)) c)).
Proof.
  intros Ht. rewrite until_quiet; [|cbn; zbool; [lia|done]|done].
  unfold key_event_handle, key_up. change (set_hold false (set_code c (clicked c cb k t m out))) with (clicked c cb k t m out).
  change (press_type (clicked c cb k t m out)) with (click_type k). change (press_code (clicked c cb k t m out)) with c.
  rewrite click_type_not_long, Hmulti. unfold count_click, stamp_delta. cbn [clicked waiting report_key_value press_type press_code report_stamp].
  rewrite Z.eqb_refl, u32_id by lia. unfold QUICKLY_CLICK_DURATION.
  rewrite (proj2 (Z.leb_le _ _)) by lia. cbn [set_stamp set_clicks set_work click_num].
  change (click_num (clicked c cb k t m out)) with ((k - 1) mod 16).
  rewrite Zplus_mod_idemp_l. replace (k - 1 + 1) with k by lia.
  set (s1 := set_stamp t' (set_clicks (k mod 16) (set_work None (set_stamp t' (clicked c cb k t m out))))).
  rewrite (click_type_next k s1) by done. subst s1. unfold need_report, callback.
  cbn -[is_support_mutiple_click Z.lor Z.add click_type Z.modulo]. destruct cb; cbn -[is_support_mutiple_click Z.lor Z.add click_type Z.modulo];
    rewrite Hmulti; unfold clicked, waiting, cb_out; rewrite ?app_nil_r; 
    (replace (k + 1 - 1) with k by lia); reflexivity.
Qed.

(** No click under way: works idle, the last report at [st], [m] scans at most of a
    press so far. *)
Record idle_keys (st m : Z) (out : list key_out) (s : input_manager_info) : Prop := {
  ik_work : im_work_item s = None;
  ik_hold : im_hold_key_work s = None;
  ik_cb : im_cb s = cb;
  ik_type : is_long (press_type s) = false;
  ik_stamp : report_stamp s = st;
  ik_timer : 0 <= press_timer s <= m;
  ik_clicks : click_num s = 0;
  ik_lock : im_lock s = false;
  ik_filter : filter_itself s = false;
  ik_free : im_free s = true;
  ik_out : im_out s = out;
}.

Lemma idle_down st m out s t :
  idle_keys st m out s → m < 9 → idle_keys st (m + 1) out (key_event_handle t KEY_VALUE_DOWN c (until t s)).
Proof.
  intros [H1 H2 H3 H4 H5 H6 H7 H8 H9 H10 H11] Hm. rewrite until_quiet by (by rewrite ?H1, ?H2).
  unfold key_event_handle, key_down. destruct (Z.eqb_spec c (press_code s)) as [->|Hne]; cbn [negb].
  - cbn [set_timer press_timer]. rewrite Z.mod_small by lia. unfold SUPER_LONG_PRESS_6S_TIMER, SUPER_LONG_PRESS_TIMER, LONG_PRESS_TIMER.
    rewrite !(proj2 (Z.leb_gt _ _)) by lia. split; try done. cbn. lia.
  - split; try done. cbn. lia.
Qed.
Lemma idle_downs st out ds : ∀ m s,
  idle_keys st m out s → m + Z.of_nat (length ds) <= 9 →
  idle_keys st (m + Z.of_nat (length ds)) out (key_events c ((λ t, (t, KEY_VALUE_DOWN)) <$> ds) s).
Proof.
  induction ds as [|d ds IH]; intros m s Hs Hl; [by rewrite Z.add_0_r|]. cbn [fmap list_fmap key_events length] in *.
  replace (m + Z.of_nat (S (length ds))) with (m + 1 + Z.of_nat (length ds)) by lia.
  apply IH; [apply idle_down; [done|lia]|lia].
Qed.
Lemma idle_up st m out s t :
  idle_keys st m out s → st + 300 < t < st + 2 ^ 32 →
  key_event_handle t KEY_VALUE_UP c (until t s) = clicked c cb 1 t 0 (out ++ cb_out cb (Z.lor KEY_TYPE_SHORT_UP c)).
Proof.
  intros [H1 H2 H3 H4 H5 H6 H7 H8 H9 H10 H11] Ht. rewrite until_quiet by (by rewrite ?H1, ?H2).
  destruct s as [wi hw cb' ty co v stm ti cn lk kh fi fr o]. cbn in H1, H2, H3, H4, H5, H6, H7, H8, H9, H10, H11. subst.
  unfold key_event_handle, key_up. unfold set_code, set_hold.
  cbn [im_work_item im_hold_key_work im_cb press_type press_code report_key_value report_stamp press_timer click_num im_lock key_hold filter_itself im_free im_out].
  rewrite H4, Hmulti. unfold count_click, stamp_delta. cbn [report_key_value press_type press_code report_stamp click_num].
  rewrite u32_id by lia. unfold QUICKLY_CLICK_DURATION. rewrite (proj2 (Z.leb_gt _ _)) by lia.
  destruct (v =? Z.lor ty c); cbn [set_stamp click_num Z.eqb]; unfold need_report, callback;
    cbn -[is_support_mutiple_click Z.lor Z.add]; destruct cb; cbn -[is_support_mutiple_click Z.lor Z.add];
    rewrite Hmulti; unfold clicked, waiting, cb_out; rewrite ?app_nil_r; reflexivity.
Qed.

(** A click: when the key was seen down, and when it was released. *)
Definition click : Type := list Z * Z.
Definition click_events (k : click) : list key_event := ((λ t, (t, KEY_VALUE_DOWN)) <$> k.1) ++ [(k.2, KEY_VALUE_UP)].
Definition short_click (k : click) : Prop := (length k.1 <= 9)%nat ∧ Forall (λ t, t <= k.2) k.1.
(** Each release at most 300 ms after the one before. *)
Fixpoint quick_after (t : Z) (ks : list click) : Prop :=
  match ks with [] => True | k :: ks => short_click k ∧ t <= k.2 <= t + 300 ∧ quick_after k.2 ks end.
Definition last_release (t : Z) (ks : list click) : Z := foldl (λ _ k, k.2) t ks.

Lemma key_events_app l k : ∀ s, key_events c (l ++ k) s = key_events c k (key_events c l s).
Proof. induction l as [|[t v] l IH]; intros s; [done|]. cbn [app key_events]. apply IH. Qed.

Lemma key_events_cons e l s : key_events c (e :: l) s = key_events c l (key_event_handle e.1 e.2 c (until e.1 s)).
Proof. by destruct e. Qed.
Lemma key_events_click ds u s :
  key_events c (click_events (ds, u)) s =
  key_event_handle u KEY_VALUE_UP c (until u (key_events c ((λ t, (t, KEY_VALUE_DOWN)) <$> ds) s)).
Proof. unfold click_events. rewrite key_events_app. cbn [fst snd key_events]. reflexivity. Qed.

Lemma clicked_more ks : ∀ k t out,
  quick_after t ks →
  ∃ out', key_events c (ks ≫= click_events) (clicked c cb k t 0 out) =
            clicked c cb (k + Z.of_nat (length ks)) (last_release t ks) 0 out' ∧ reports out' = reports out.
Proof.
  induction ks as [|[ds u] ks IH]; intros k t out Hq.
  { exists out. by rewrite Z.add_0_r. }
  destruct Hq as ((Hd & Hds) & Hu & Hq). cbn [fst snd length] in *. rewrite bind_cons. unfold click_events at 1. cbn [fst snd].
  rewrite !key_events_app. unfold clicked at 1. rewrite waiting_downs; [|eapply Forall_impl; [|exact Hds]; cbn; lia|lia|lia].
  change (waiting (click_type k) ((k - 1) mod 16) c cb t) with (clicked c cb k t). cbn [key_events]. rewrite clicked_up by lia.
  destruct (IH (k + 1) u (out ++ cb_out cb (Z.lor (click_type (k + 1)) c))) as (out' & -> & Ho); [done|].
  exists out'. split; [|by rewrite Ho, reports_cb]. unfold last_release. cbn [foldl snd]. f_equal. lia.
Qed.

(** One message for a group of clicks, and the keys idle again. *)
Lemma clicks_reported st s k0 ks t out :
  idle_keys st 0 out s → short_click k0 → st + 300 < k0.2 < st + 2 ^ 32 → quick_after k0.2 ks →
  last_release k0.2 ks + 350 <= t →
  let s' := until t (key_events c ((k0 :: ks) ≫= click_events) s) in
  let n := Z.of_nat (length (k0 :: ks)) in
  reports (im_out s') = reports out ++ [Z.lor (click_type n) c] ∧
  idle_keys (last_release k0.2 ks) 0 (im_out s') s'.
Proof.
  intros Hs [Hd Hds] Hk0 Hq Ht s' n. destruct k0 as [ds u]. cbn [fst snd] in *.
  pose proof (idle_downs st out ds 0 s Hs ltac:(lia)) as Hs1.
  destruct (clicked_more ks 1 u (out ++ cb_out cb (Z.lor KEY_TYPE_SHORT_UP c))) as (out' & Hmore & Ho); [done|].
  assert (E : s' = mk_input None None cb (click_type n) c (Z.lor (click_type n) c) (last_release u ks) 0 0 false false false true
      (out' ++ [KeyReport (Z.lor (click_type n) c)])).
  { subst s'. rewrite bind_cons. unfold click_events at 1. cbn [fst snd]. rewrite !key_events_app. cbn [key_events].
    rewrite (idle_up _ _ _ _ _ Hs1), Hmore by done.
    replace (1 + Z.of_nat (length ks)) with n by (subst n; cbn [length]; lia).
    unfold until, due_fuel. cbn [clicked waiting im_hold_key_work im_work_item run_due due].
    rewrite (proj2 (Z.leb_le _ _)) by lia. reflexivity. }
  rewrite E. cbn [im_out]. split; [rewrite reports_app, Ho, reports_cb; done|].
  split; try done. apply click_type_not_long.
Qed.

(** A long press of such a key is under way and reported so far. *)
Record long_held (out : list key_out) (s : input_manager_info) : Prop := {
  lh_work : im_work_item s = None;
  lh_hold : im_hold_key_work s = None;
  lh_cb : im_cb s = cb;
  lh_type : is_long (press_type s) = true;
  lh_clicks : click_num s = 0;
  lh_lock : im_lock s = false;
  lh_filter : filter_itself s = false;
  lh_free : im_free s = true;
  lh_out : im_out s = out;
}.
Lemma long_released out s t :
  long_held out s →
  key_event_handle t KEY_VALUE_UP c (until t s) =
  waiting KEY_TYPE_LONG_UP 0 c cb t 0 (out ++ cb_out cb (Z.lor KEY_TYPE_LONG_UP c)).
Proof.
  intros [H1 H2 H3 H4 H5 H6 H7 H8 H9]. rewrite until_quiet by (by rewrite ?H1, ?H2).
  destruct s as [wi hw cb' ty co v stm ti cn lk kh fi fr o]. cbn in H1, H2, H3, H4, H5, H6, H7, H8, H9. subst.
  unfold key_event_handle, key_up, set_code, set_hold.
  cbn [im_work_item im_hold_key_work im_cb press_type press_code report_key_value report_stamp press_timer click_num im_lock key_hold filter_itself im_free im_out].
  rewrite H4. unfold need_report, callback.
  cbn -[is_support_mutiple_click Z.lor Z.add]. destruct cb; cbn -[is_support_mutiple_click Z.lor Z.add];
    rewrite Hmulti; unfold waiting, cb_out; rewrite ?app_nil_r; reflexivity.
Qed.
Lemma long_release_clicked t m out t' :
  t <= t' <= t + 300 →
  key_event_handle t' KEY_VALUE_UP c (until t' (waiting KEY_TYPE_LONG_UP 0 c cb t m out)) =
  clicked c cb 2 t' 0 (out ++ cb_out cb (Z.lor KEY_TYPE_DOUBLE_CLICK c)).
Proof.
  intros Ht. rewrite until_quiet; [|cbn; zbool; [lia|done]|done].
  unfold key_event_handle, key_up, set_code, set_hold, waiting.
  cbn [im_work_item im_hold_key_work im_cb press_type press_code report_key_value report_stamp press_timer click_num im_lock key_hold filter_itself im_free im_out].
  replace (is_long KEY_TYPE_LONG_UP) with false by done. cbv iota. rewrite Hmulti.
  unfold count_click, stamp_delta. cbn [report_key_value press_type press_code report_stamp].
  rewrite Z.eqb_refl, u32_id by lia. unfold QUICKLY_CLICK_DURATION. rewrite (proj2 (Z.leb_le _ _)) by lia. cbn [set_stamp set_clicks set_work click_num]. change ((0 + 1) mod 16) with 1. cbn [Z.eqb Pos.eqb].
  unfold need_report, callback. cbn -[is_support_mutiple_click Z.lor Z.add]. destruct cb; cbn -[is_support_mutiple_click Z.lor Z.add];
    rewrite Hmulti; unfold clicked, waiting, cb_out; rewrite ?app_nil_r; reflexivity.
Qed.
Lemma clicked_done k t out t' :
  t + 350 <= t' →
  reports (im_out (until t' (clicked c cb k t 0 out))) = reports out ++ [Z.lor (click_type k) c].
Proof.
  intros Ht. unfold until, due_fuel. cbn [clicked waiting im_hold_key_work im_work_item run_due due].
  rewrite (proj2 (Z.leb_le _ _)) by lia. cbn -[Z.lor reports]. by rewrite reports_app.
Qed.
End clicks.

(** ** Long presses *)

(** The type after [n] scans, and what has been reported by then. *)
Definition long_type (n : Z) : Z :=
  if SUPER_LONG_PRESS_6S_TIMER <=? n then KEY_TYPE_LONG6S
  else if SUPER_LONG_PRESS_TIMER <=? n then KEY_TYPE_LONG
  else if LONG_PRESS_TIMER <=? n then KEY_TYPE_LONG_DOWN else 0.
Definition long_reports (c n : Z) : list Z :=
  (if LONG_PRESS_TIMER <=? n then [Z.lor KEY_TYPE_LONG_DOWN c] else []) ++
  (if SUPER_LONG_PRESS_TIMER <=? n then [Z.lor KEY_TYPE_LONG c] else []) ++
  (if SUPER_LONG_PRESS_6S_TIMER <=? n then [Z.lor KEY_TYPE_LONG6S c] else []).

(** The messages out and the one whose work has been submitted. *)
Definition sent (s : input_manager_info) : list Z :=
  reports (im_out s) ++ match im_work_item s with Some _ => [report_key_value s] | None => [] end.

Lemma long_type_long n : is_long (long_type n) = (LONG_PRESS_TIMER <=? n).
Proof.
  unfold long_type, SUPER_LONG_PRESS_6S_TIMER, SUPER_LONG_PRESS_TIMER, LONG_PRESS_TIMER.
  repeat match goal with |- context [?a <=? ?b] => destruct (Z.leb_spec a b) end; try lia; done.
Qed.

(** What a press of [n] scans has in [press_type]: before it is long, whatever
    the key before left there. *)
Definition type_after (n ty : Z) : Prop :=
  if LONG_PRESS_TIMER <=? n then ty = long_type n else is_long ty = false.

Lemma type_after_long n ty : type_after n ty → is_long ty = (LONG_PRESS_TIMER <=? n).
Proof. unfold type_after. destruct (LONG_PRESS_TIMER <=? n) eqn:E; [intros ->; by rewrite long_type_long|done]. Qed.

(** From one scan to the next: the type changes exactly when [long_type] does. *)
Lemma type_after_next n ty :
  0 <= n → type_after n ty →
  (LONG_PRESS_TIMER <=? n + 1 = true → (ty =? long_type (n + 1)) = (long_type (n + 1) =? long_type n)) ∧
  (long_type (n + 1) = long_type n → type_after (n + 1) ty).
Proof.
  intros Hn Hty. unfold type_after in *. destruct (Z.leb_spec LONG_PRESS_TIMER n) as [Hl|Hs].
  - subst ty. rewrite (proj2 (Z.leb_le _ _)) by lia. split; [intros _; apply Z.eqb_sym|by intros ->].
  - assert (L0 : is_long (long_type n) = false) by (rewrite long_type_long; by apply Z.leb_gt).
    destruct (Z.leb_spec LONG_PRESS_TIMER (n + 1)) as [Hl|Hs']; [|done].
    assert (L1 : is_long (long_type (n + 1)) = true) by (rewrite long_type_long; by apply Z.leb_le).
    split; [intros _|intros E; congruence].
    rewrite !(proj2 (Z.eqb_neq _ _)); [done|intros E; congruence..].
Qed.

Section long_press.
Variable c : Z.
Hypothesis Hsingle : is_support_mutiple_click c = false.

(** Down for [n] scans after the first one, at time [t]. *)
Record pressed (r : list Z) (t n : Z) (s : input_manager_info) : Prop := {
  pr_code : press_code s = c;
  pr_timer : press_timer s = n;
  pr_type : type_after n (press_type s);
  pr_lock : im_lock s = false;
  pr_filter : filter_itself s = false;
  pr_free : im_free s = true;
  pr_work : match im_work_item s with Some d => d <= t | None => True end;
  pr_sent : sent s = r ++ long_reports c n;
}.

(** The works leave a press as it is, and the message is out afterwards. *)
Lemma report_pressed r t n s d :
  pressed r t n s → im_work_item s = Some d → pressed r t n (report_key_event (set_work None s)).
Proof.
  intros [H1 H2 H3 H4 H5 H6 H7 H8] Hw. unfold report_key_event. cbn [set_work filter_itself]. rewrite H5. split; try done.
  revert H8. unfold sent. rewrite Hw. cbn. rewrite reports_app. by rewrite app_nil_r.
Qed.
Lemma hold_pressed r t n s h :
  pressed r t n s → pressed r t n (check_hold_key h (set_hold_work None s)).
Proof.
  intros [H1 H2 H3 H4 H5 H6 H7 H8]. unfold check_hold_key, callback. cbn. rewrite H4. cbn.
  destruct (key_hold s), (im_cb s); cbn; rewrite H5; cbn; (split; try done);
    revert H8; unfold sent; cbn; rewrite ?reports_app; cbn; by rewrite ?app_nil_r.
Qed.
Lemma run_due_pressed r t n fuel t' : ∀ s, pressed r t n s → pressed r t n (run_due fuel t' s).
Proof.
  induction fuel as [|fuel IH]; intros s Hs; [done|]. cbn [run_due].
  destruct (due t' (im_work_item s)) as [d|] eqn:Ed, (due t' (im_hold_key_work s)) as [h|] eqn:Eh; [|apply IH..|done];
    try apply due_spec in Ed as [Ed _].
  - destruct (d <=? h); apply IH; [by apply (report_pressed _ _ _ _ d)|by apply hold_pressed].
  - by apply (report_pressed _ _ _ _ d).
  - by apply hold_pressed.
Qed.
Lemma until_pressed r t n s t' :
  pressed r t n s → t <= t' → pressed r t' n (until t' s) ∧ im_work_item (until t' s) = None.
Proof.
  intros Hs Ht. pose proof (run_due_pressed r t n (due_fuel t' s) t' s Hs) as Hp. fold (until t' s) in Hp.
  destruct (until_done t' s) as [Hd _]. assert (Hn : im_work_item (until t' s) = None).
  { pose proof (pr_work _ _ _ _ Hp) as Hw. destruct (im_work_item (until t' s)) as [d|]; [|done].
    cbn in Hd. destruct (Z.leb_spec d t'); [done|lia]. }
  split; [|done]. destruct Hp as [H1 H2 H3 H4 H5 H6 H7 H8]. split; try done. by rewrite Hn.
Qed.

Lemma long_reports_step n :
  0 <= n → long_reports c (n + 1) =
  long_reports c n ++ (if long_type (n + 1) =? long_type n then [] else [Z.lor (long_type (n + 1)) c]).
Proof.
  intros Hn. unfold long_reports, long_type, SUPER_LONG_PRESS_6S_TIMER, SUPER_LONG_PRESS_TIMER, LONG_PRESS_TIMER.
  repeat match goal with |- context [?a <=? ?b] => destruct (Z.leb_spec a b) end; try lia; done.
Qed.

(** A report for a key without multiple clicks is submitted at once. *)
Lemma need_report_single t s :
  press_code s = c → im_lock s = false → im_free s = true → im_work_item s = None →
  let s' := need_report t s in
  press_code s' = c ∧ press_timer s' = press_timer s ∧ press_type s' = press_type s ∧ im_lock s' = false ∧
  filter_itself s' = filter_itself s ∧ im_free s' = true ∧ im_work_item s' = Some t ∧
  sent s' = sent s ++ [Z.lor (press_type s) c].
Proof.
  intros H1 H2 H3 H4. unfold need_report, callback.
  cbn -[is_support_mutiple_click Z.lor]. destruct (im_cb s); cbn -[is_support_mutiple_click Z.lor]; rewrite H2, H3, H1, Hsingle; cbn -[Z.lor];
    unfold sent; cbn -[Z.lor]; rewrite H4, ?reports_app; cbn -[Z.lor]; rewrite ?app_nil_r, ?H1; by split_and!.
Qed.

Lemma pressed_down r t n s t' :
  pressed r t n s → 0 <= n < 4095 → t <= t' →
  pressed r t' (n + 1) (key_event_handle t' KEY_VALUE_DOWN c (until t' s)).
Proof.
  assert (Hth : LONG_PRESS_TIMER < SUPER_LONG_PRESS_TIMER < SUPER_LONG_PRESS_6S_TIMER) by done.
  intros Hs Hn Ht. destruct (until_pressed r t n s t' Hs Ht) as [[H1 H2 H3 H4 H5 H6 _ H8] Hw].
  set (s1 := until t' s) in *. clearbody s1. clear Hs s.
  unfold key_event_handle, key_down. rewrite H1, Z.eqb_refl. cbn [negb].
  set (s2 := set_timer ((press_timer s1 + 1) mod 4096) s1).
  assert (T2 : press_timer s2 = n + 1) by (subst s2; cbn; rewrite H2, Z.mod_small; lia).
  assert (E2 : press_code s2 = c ∧ type_after n (press_type s2) ∧ im_lock s2 = false ∧ filter_itself s2 = false ∧
    im_free s2 = true ∧ im_work_item s2 = None ∧ sent s2 = r ++ long_reports c n) by (by split_and!).
  clearbody s2. destruct E2 as (C2 & P2 & L2 & F2 & R2 & W2 & S2). rewrite T2.
  pose proof (long_reports_step n ltac:(lia)) as Hstep. destruct (type_after_next n (press_type s2) ltac:(lia) P2) as [Hcmp Hkeep].
  assert (Hquiet : long_type (n + 1) = long_type n → pressed r t' (n + 1) s2).
  { intros E. rewrite E, Z.eqb_refl, app_nil_r in Hstep. split; try done; [by apply Hkeep|by rewrite W2|by rewrite S2, Hstep]. }
  assert (Hnew : ∀ s3, press_type s3 = long_type (n + 1) → press_code s3 = c → press_timer s3 = n + 1 → im_lock s3 = false →
    filter_itself s3 = false → im_free s3 = true → im_work_item s3 = None → sent s3 = sent s2 →
    LONG_PRESS_TIMER <= n + 1 → long_type (n + 1) ≠ long_type n → pressed r t' (n + 1) (need_report t' s3)).
  { intros s3 P3 C3 T3 L3 F3 R3 W3 S3 Hlong Hne.
    destruct (need_report_single t' s3 C3 L3 R3 W3) as (A1 & A2 & A3 & A4 & A5 & A6 & A7 & A8).
    rewrite (proj2 (Z.eqb_neq _ _)) in Hstep by done.
    split; try done; [congruence| |congruence| |].
    - unfold type_after. rewrite (proj2 (Z.leb_le _ _)) by done. congruence.
    - rewrite A7. lia.
    - by rewrite A8, S3, S2, P3, Hstep, (assoc_L (++)). }
  assert (Hcase : ∀ ty s3, long_type (n + 1) = ty → LONG_PRESS_TIMER <= n + 1 → press_type s3 = ty → press_code s3 = c →
    press_timer s3 = n + 1 → im_lock s3 = false → filter_itself s3 = false → im_free s3 = true → im_work_item s3 = None →
    sent s3 = sent s2 →
    pressed r t' (n + 1) (let '(need, s) := if negb (press_type s2 =? ty) then (true, s3) else (false, s2) in
                          if need then need_report t' s else s)).
  { intros ty s3 <- Hlong P3 C3 T3 L3 F3 R3 W3 S3. rewrite Hcmp by (by apply Z.leb_le).
    destruct (Z.eqb_spec (long_type (n + 1)) (long_type n)) as [E|E]; cbn [negb]; [by apply Hquiet|by apply Hnew]. }
  assert (V : long_type (n + 1) = long_type (n + 1)) by done. revert V. unfold long_type at 2.
  destruct (Z.leb_spec SUPER_LONG_PRESS_6S_TIMER (n + 1)); [intros V; apply Hcase; done || (cbv; lia) || lia|].
  destruct (Z.leb_spec SUPER_LONG_PRESS_TIMER (n + 1)); [intros V; apply Hcase; done || lia|].
  destruct (Z.leb_spec LONG_PRESS_TIMER (n + 1)); [intros V; destruct (is_support_hold _); by apply Hcase|].
  intros V. apply Hquiet. rewrite V. unfold long_type. by rewrite !(proj2 (Z.leb_gt _ n)) by lia.
Qed.

Lemma pressed_downs r ds : ∀ t n s u t',
  Sorted Z.le (t :: ds ++ [u; t']) → 0 <= n → n + Z.of_nat (length ds) < 4096 → pressed r t n s →
  ∃ t1, t1 <= u <= t' ∧ pressed r t1 (n + Z.of_nat (length ds)) (key_events c ((λ d, (d, KEY_VALUE_DOWN)) <$> ds) s).
Proof.
  induction ds as [|d ds IH]; intros t n s u t' Hs Hn Hl Hp; cbn [app fmap list_fmap key_events length] in *.
  - exists t. apply Sorted_inv in Hs as [Hs H1]. apply Sorted_inv in Hs as [_ H2]. inversion H1; inversion H2; subst.
    rewrite Z.add_0_r. split; [lia|done].
  - apply Sorted_inv in Hs as [Hs H1]. inversion H1 as [|? ? Hd]; subst.
    replace (n + Z.of_nat (S (length ds))) with (n + 1 + Z.of_nat (length ds)) by lia.
    apply (IH d); [done|lia|lia|]. apply (pressed_down _ t); [done|lia|done].
Qed.
Lemma pressed_first s t :
  im_work_item s = None → im_hold_key_work s = None → im_lock s = false → im_free s = true →
  (press_code s = c → press_timer s = 0 ∧ is_long (press_type s) = false ∧ filter_itself s = false) →
  pressed (reports (im_out s)) t (if press_code s =? c then 1 else 0)
    (key_event_handle t KEY_VALUE_DOWN c (until t s)).
Proof.
  intros Hw Hh Hl Hf Hc. rewrite until_quiet by (by rewrite ?Hw, ?Hh). unfold key_event_handle, key_down.
  rewrite (Z.eqb_sym c). destruct (Z.eqb_spec (press_code s) c) as [E|E]; cbn [negb].
  - destruct (Hc E) as (Ht & Hty & Hfi). cbn [set_timer press_timer]. rewrite Ht.
    change ((0 + 1) mod 4096) with 1. change (SUPER_LONG_PRESS_6S_TIMER <=? 1) with false.
    change (SUPER_LONG_PRESS_TIMER <=? 1) with false. change (LONG_PRESS_TIMER <=? 1) with false. cbv iota.
    split; try done; [cbn; by rewrite Hw|]. unfold sent. cbn [set_timer im_work_item im_out]. by rewrite Hw.
  - split; try done; [cbn; by rewrite Hw|]. unfold sent. cbn [set_filter set_type set_timer set_code im_work_item im_out]. by rewrite Hw.
Qed.

(** The release: one more message is submitted. *)
Lemma pressed_up r t n s u :
  pressed r t n s → t <= u →
  let s' := key_event_handle u KEY_VALUE_UP c (until u s) in
  im_lock s' = false ∧ filter_itself s' = false ∧ im_work_item s' = Some u ∧
  sent s' = r ++ long_reports c n ++ [Z.lor (if LONG_PRESS_TIMER <=? n then KEY_TYPE_LONG_UP else KEY_TYPE_SHORT_UP) c].
Proof.
  intros Hs Hu. destruct (until_pressed r t n s u Hs Hu) as [[P1 P2 P3 P4 P5 P6 _ P8] W3].
  set (s3 := until u s) in *. clearbody s3. unfold key_event_handle. set (s4 := key_up u c s3).
  assert (H4 : press_code s4 = c ∧ im_lock s4 = false ∧ im_free s4 = true ∧ im_work_item s4 = None ∧ filter_itself s4 = false ∧
    press_type s4 = (if LONG_PRESS_TIMER <=? n then KEY_TYPE_LONG_UP else KEY_TYPE_SHORT_UP) ∧ sent s4 = sent s3).
  { subst s4. unfold key_up. cbn [set_code set_hold press_type press_code]. rewrite Hsingle, (type_after_long n _ P3).
    by destruct (LONG_PRESS_TIMER <=? n). }
  clearbody s4. destruct H4 as (C4 & L4 & F4 & W4 & I4 & T4 & S4).
  destruct (need_report_single u s4 C4 L4 F4 W4) as (_ & _ & _ & A4 & A5 & _ & A7 & A8).
  split_and!; [done|congruence|done|]. by rewrite A8, S4, P8, T4, <- (assoc_L (++)).
Qed.
End long_press.

(** The works neither lose a message nor add one. *)
Lemma run_due_sent t fuel : ∀ s,
  filter_itself s = false → im_lock s = false →
  sent (run_due fuel t s) = sent s ∧ (im_work_item (run_due fuel t s) = None ∨ im_work_item (run_due fuel t s) = im_work_item s).
Proof.
  assert (Hr : ∀ s d, filter_itself s = false → im_work_item s = Some d →
    let s' := report_key_event (set_work None s) in
    sent s' = sent s ∧ filter_itself s' = false ∧ im_lock s' = im_lock s ∧ im_work_item s' = None).
  { intros s d Hf Hw. unfold report_key_event. cbn [set_work filter_itself]. rewrite Hf. split_and!; try done.
    unfold sent. rewrite Hw. cbn. rewrite reports_app. by rewrite app_nil_r. }
  assert (Hh : ∀ s h, filter_itself s = false → im_lock s = false →
    let s' := check_hold_key h (set_hold_work None s) in
    sent s' = sent s ∧ filter_itself s' = false ∧ im_lock s' = false ∧ im_work_item s' = im_work_item s).
  { intros s h Hf Hl. unfold check_hold_key, callback. cbn. rewrite Hl. cbn.
    destruct (key_hold s), (im_cb s); cbn; rewrite Hf; cbn; (split_and!; try done);
      unfold sent; cbn; rewrite ?reports_app; cbn; by rewrite ?app_nil_r. }
  induction fuel as [|fuel IH]; intros s Hf Hl; [by auto|]. cbn [run_due].
  assert (Gr : ∀ d, im_work_item s = Some d → let s' := run_due fuel t (report_key_event (set_work None s)) in
    sent s' = sent s ∧ (im_work_item s' = None ∨ im_work_item s' = im_work_item s)).
  { intros d Ed. destruct (Hr s d Hf Ed) as (E1 & E2 & E3 & E4). edestruct IH as [I1 I2]; [exact E2|congruence|].
    cbn zeta. rewrite I1, E1. rewrite E4 in I2. destruct I2; auto. }
  assert (Gh : ∀ h, let s' := run_due fuel t (check_hold_key h (set_hold_work None s)) in
    sent s' = sent s ∧ (im_work_item s' = None ∨ im_work_item s' = im_work_item s)).
  { intros h. destruct (Hh s h Hf Hl) as (E1 & E2 & E3 & E4). edestruct IH as [I1 I2]; [exact E2|exact E3|].
    cbn zeta. rewrite I1, E1. by rewrite E4 in I2. }
  destruct (due t (im_work_item s)) as [d|] eqn:Ed, (due t (im_hold_key_work s)) as [h|]; try apply due_spec in Ed as [Ed _];
    [destruct (d <=? h)|..]; first [by apply (Gr d)|by apply Gh|by auto].
Qed.
Lemma until_sent t s u :
  filter_itself s = false → im_lock s = false → im_work_item s = Some u → u <= t → reports (im_out (until t s)) = sent s.
Proof.
  intros Hf Hl Hw Hu. destruct (run_due_sent t (due_fuel t s) s Hf Hl) as [Hs Hi]. fold (until t s) in Hs, Hi.
  destruct (until_done t s) as [Hd _]. rewrite <- Hs. unfold sent.
  destruct Hi as [->|E]; [by rewrite app_nil_r|]. rewrite E, Hw in Hd. cbn in Hd. destruct (Z.leb_spec u t); [done|lia].
Qed.

(** The type of a group of clicks, by the number after the first. *)
Lemma click_type_length (k0 : click) (ks : list click) :
  click_type (Z.of_nat (length (k0 :: ks))) =
  (match length ks mod 16 with 0 => KEY_TYPE_SHORT_UP | 1 => KEY_TYPE_DOUBLE_CLICK | _ => KEY_TYPE_TRIPLE_CLICK end)%nat.
Proof.
  unfold click_type. cbn [length]. replace (Z.of_nat (S (length ks)) - 1) with (Z.of_nat (length ks)) by lia.
  change 16 with (Z.of_nat 16). rewrite <- Nat2Z.inj_mod. generalize (length ks mod 16)%nat. intros [|[|n]]; [done|done|].
  zbool; done || (exfalso; lia).
Qed.

(** ** Theorems *)

(** C28: With the keys idle, the manager unlocked, messages free and the last
    report more than 300 ms (and less than 2^32 ms) before the first release,
    a group of clicks of a key with multiple clicks, each of at most nine
    scans and released at most 300 ms after the one before, is reported by
    exactly one message: with n clicks after the first a short press, a double
    click, or a triple click when n modulo 16 is 0, 1 or more (the counter has
    four bits, so a seventeenth click counts as the first); the keys are then
    idle again. *)
Theorem clicks_reported_once c s st k0 ks t :
  is_support_mutiple_click c = true →
  idle_keys (im_cb s) st 0 (im_out s) s → short_click k0 → st + 300 < k0.2 < st + 2 ^ 32 → quick_after k0.2 ks →
  last_release k0.2 ks + 350 <= t →
  let s' := until t (key_events c ((k0 :: ks) ≫= click_events) s) in
  reports (im_out s') = reports (im_out s) ++
    [Z.lor (match length ks mod 16 with 0 => KEY_TYPE_SHORT_UP | 1 => KEY_TYPE_DOUBLE_CLICK | _ => KEY_TYPE_TRIPLE_CLICK end)%nat c] ∧
  idle_keys (im_cb s) (last_release k0.2 ks) 0 (im_out s') s'.
Proof.
  intros Hm Hs Hk0 Hst Hq Ht s'. destruct (clicks_reported c (im_cb s) Hm st s k0 ks t (im_out s) Hs Hk0 Hst Hq Ht) as [Hr Hi].
  split; [|exact Hi]. fold s' in Hr. by rewrite Hr, click_type_length.
Qed.

(** When a click follows a long press within 300 ms of its release, the
    release of the long press is never reported and the single click is
    reported as a double click. *)
Theorem long_press_then_click_is_double c s u ds u' t :
  is_support_mutiple_click c = true → long_held (im_cb s) (im_out s) s →
  (length ds <= 9)%nat → Forall (λ d, d <= u') ds → u <= u' <= u + 300 → u' + 350 <= t →
  reports (im_out (until t (key_events c ((u, KEY_VALUE_UP) :: click_events (ds, u')) s))) =
  reports (im_out s) ++ [Z.lor KEY_TYPE_DOUBLE_CLICK c].
Proof.
  intros Hm Hs Hd Hds Hu Ht. rewrite key_events_cons, key_events_click. cbn [fst snd].
  rewrite (long_released c (im_cb s) Hm _ _ _ Hs).
  rewrite waiting_downs; [|eapply Forall_impl; [|exact Hds]; cbn; lia|lia|lia].
  rewrite (long_release_clicked c (im_cb s) Hm) by done. rewrite clicked_done by done. rewrite !reports_cb. reflexivity.
Qed.

(** C29: A key without multiple clicks, pressed with no report or hold work
    pending, no filter set for it, the manager unlocked and messages free, is
    reported once when it becomes a long, a super long and a six-second press
    and once when it is released, as LONG_UP or SHORT_UP, however the works
    for a held key interleave; the scans are counted from the second on, from
    the first on when the same key was the last one and has been released, up
    to 4095. *)
Theorem long_press_reported c s ds u t :
  is_support_mutiple_click c = false → im_work_item s = None → im_hold_key_work s = None →
  im_lock s = false → im_free s = true →
  (press_code s = c → press_timer s = 0 ∧ is_long (press_type s) = false ∧ filter_itself s = false) →
  let n := Z.of_nat (length ds) - (if press_code s =? c then 0 else 1) in
  ds ≠ [] → n <= 4095 → Sorted Z.le (ds ++ [u; t]) →
  reports (im_out (until t (key_events c (((λ d, (d, KEY_VALUE_DOWN)) <$> ds) ++ [(u, KEY_VALUE_UP)]) s))) =
  reports (im_out s) ++ long_reports c n ++
    [Z.lor (if LONG_PRESS_TIMER <=? n then KEY_TYPE_LONG_UP else KEY_TYPE_SHORT_UP) c].
Proof.
  intros Hm Hw Hh Hl Hf Hc n Hne Hlen Hsort. destruct ds as [|d0 ds]; [done|].
  cbn [app fmap list_fmap key_events length] in *.
  pose proof (pressed_first c s d0 Hw Hh Hl Hf Hc) as H1.
  assert (Hn : (if press_code s =? c then 1 else 0) + Z.of_nat (length ds) = n /\ 0 <= (if press_code s =? c then 1 else 0))
    by (subst n; destruct (press_code s =? c); lia).
  destruct (pressed_downs c Hm _ ds d0 _ _ u t Hsort (proj2 Hn) ltac:(lia) H1) as (d1 & Hd1 & H2).
  rewrite key_events_app. cbn [key_events].
  destruct (pressed_up c Hm _ d1 _ _ u H2 ltac:(lia)) as (Hl' & Hf' & Hw' & Hs').
  rewrite (until_sent t _ u) by (done || lia). rewrite Hs', (proj1 Hn). done.
Qed.

(** ** Witnesses *)

Definition keys_up : input_manager_info :=
  mk_input None None true 0 KEY_POWER 0 0 0 0 false false false true [].

Lemma clicks_reported_once_witness :
  reports (im_out (until 1600 (key_events KEY_POWER ([([1000; 1040], 1080); ([1180], 1220)] ≫= click_events) keys_up))) =
  [Z.lor KEY_TYPE_DOUBLE_CLICK KEY_POWER].
Proof.
  refine (proj1 (clicks_reported_once KEY_POWER keys_up 0 ([1000; 1040], 1080) [([1180], 1220)] 1600 _ _ _ _ _ _)).
  - reflexivity.
  - split; reflexivity || (cbn; lia).
  - split; [cbn; lia|by_decide].
  - cbn. lia.
  - split; [split; [cbn; lia|by_decide]|]. split; [cbn; lia|done].
  - cbn. lia.
Defined.
Lemma long_press_then_click_is_double_witness :
  let s := set_type KEY_TYPE_LONG_DOWN (set_timer 12 keys_up) in
  reports (im_out (until 2000 (key_events KEY_POWER ((1000, KEY_VALUE_UP) :: click_events ([1100], 1200)) s))) =
  [Z.lor KEY_TYPE_DOUBLE_CLICK KEY_POWER].
Proof.
  apply (long_press_then_click_is_double KEY_POWER (set_type KEY_TYPE_LONG_DOWN (set_timer 12 keys_up)) 1000 [1100] 1200 2000);
    [reflexivity|split; reflexivity|cbn; lia|by_decide|lia|lia].
Defined.
Lemma long_press_reported_witness :
  let ds := (λ n, Z.of_nat n * 40) <$> seq 0 10 in
  let s := set_code KEY_VOLUMEUP (set_type KEY_TYPE_LONG_UP keys_up) in
  reports (im_out (until 1000 (key_events KEY_VOLUMEUP (((λ d, (d, KEY_VALUE_DOWN)) <$> ds) ++ [(480, KEY_VALUE_UP)]) s))) =
  [Z.lor KEY_TYPE_LONG_DOWN KEY_VOLUMEUP; Z.lor KEY_TYPE_LONG_UP KEY_VOLUMEUP].
Proof.
  etransitivity; [apply (long_press_reported KEY_VOLUMEUP (set_code KEY_VOLUMEUP (set_type KEY_TYPE_LONG_UP keys_up))
    ((λ n, Z.of_nat n * 40) <$> seq 0 10) 480 1000)|vm_compute; reflexivity];
    try reflexivity; try discriminate; [done|]. cbn. repeat constructor; lia.
Defined.
