(* ===== verification/RemoteCmd.v ===== *)
(** * Remote commands

    ext/actions/bluetooth/bt_manager/bt_manager_remote_cmd.c, the one place where
    the commands of a phone are carried out, and its entrance over Bluetooth LE,
    samples/bt_speaker/src/system_app/system_app_ble_remote_cmd.c (switched off by
    CONFIG_SYSTEM_APP_BLE_REMOTE_CMD in the shipped configuration; its option for
    acknowledgements is a parameter).

    The Bluetooth manager's calls go to the class [BtApi].  A pointer is the list
    of the bytes behind it; [None] is a read past its end. *)

From stdpp Require Import base numbers list option.
From S2P Require Import Prelude.
Local Open Scope Z_scope.

Definition ENOTSUP : Z := 35.
Definition REBOOT_TYPE_GOTO_ADFU : Z := 0x1000.

(** The functions of the Bluetooth manager that commands call. *)
Inductive remote_call :=
  | bt_manager_media_play_previous
  | bt_manager_media_play_next
  | bt_manager_media_pause
  | bt_manager_media_play
  | bt_manager_media_playpause
  | bt_manager_volume_up
  | bt_manager_volume_down
  | bt_manager_audio_effect_switch
  | bt_manager_call_accept
  | bt_manager_call_terminate
  | sys_pm_reboot (type : Z).

Class BtApi (W : Type) := bt_call : remote_call → W → Z * W.

#[export] Instance remote_call_eq_dec : EqDecision remote_call.
Proof. solve_decision. Defined.

Section dispatch.
Context {W : Type} `{!BtApi W}.

(** [len] is the length the caller passes; the bytes are read from [payload]. *)
Definition bt_manager_remote_cmd_dispatch (payload : list Z) (len : Z) (w : W) : option (Z * W) :=
  if len <? 2 then Some (- EINVAL, w)
  else
    b0 ← payload !! 0%nat;
    if negb (b0 =? 0xD2) then Some (- EINVAL, w)
    else
      b1 ← payload !! 1%nat;
      Some (
        if b1 =? 0x00 then bt_call bt_manager_media_play_previous w
        else if b1 =? 0x01 then bt_call bt_manager_media_play_next w
        else if b1 =? 0x02 then bt_call bt_manager_media_pause w
        else if b1 =? 0x03 then bt_call bt_manager_media_play w
        else if b1 =? 0x04 then bt_call bt_manager_media_playpause w
        else if b1 =? 0x05 then bt_call bt_manager_volume_up w
        else if b1 =? 0x06 then bt_call bt_manager_volume_down w
        else if b1 =? 0x07 then bt_call bt_manager_audio_effect_switch w
        else if b1 =? 0x08 then bt_call bt_manager_call_accept w
        else if b1 =? 0x09 then bt_call bt_manager_call_terminate w
        else if b1 =? 0x0A then (0, (bt_call (sys_pm_reboot REBOOT_TYPE_GOTO_ADFU) w).2)
        else (- ENOTSUP, w)).

(** ** What a command means *)

Definition call_of (sub : Z) : option remote_call :=
  [bt_manager_media_play_previous; bt_manager_media_play_next; bt_manager_media_pause; bt_manager_media_play;
   bt_manager_media_playpause; bt_manager_volume_up; bt_manager_volume_down; bt_manager_audio_effect_switch;
   bt_manager_call_accept; bt_manager_call_terminate; sys_pm_reboot REBOOT_TYPE_GOTO_ADFU] !! Z.to_nat sub.
Definition remote_cmd (sub : Z) (w : W) : Z * W :=
  match call_of sub with
  | Some (sys_pm_reboot t) => (0, (bt_call (sys_pm_reboot t) w).2)
  | Some c => bt_call c w
  | None => (- ENOTSUP, w)
  end.

Lemma dispatch_cmd sub rest len w :
  0 <= sub → 2 <= len →
  bt_manager_remote_cmd_dispatch (0xD2 :: sub :: rest) len w = Some (remote_cmd sub w).
Proof.
  intros Hs Hl. unfold bt_manager_remote_cmd_dispatch. rewrite (proj2 (Z.ltb_ge _ _)) by done. cbn [lookup list_lookup mbind option_bind negb].
  replace (0xD2 =? 0xD2) with true by done. cbn [negb]. f_equal. unfold remote_cmd, call_of.
  destruct (Z.lt_ge_cases sub 11) as [Hlt|Hge].
  - assert (Hc : sub ∈ ([0; 1; 2; 3; 4; 5; 6; 7; 8; 9; 10] : list Z)) by (rewrite !elem_of_cons; lia).
    rewrite !elem_of_cons, elem_of_nil in Hc. by intuition subst.
  - rewrite !(proj2 (Z.eqb_neq _ _)) by lia. by rewrite lookup_ge_None_2 by (cbn [length]; lia).
Qed.
Lemma dispatch_short payload len w : len < 2 → bt_manager_remote_cmd_dispatch payload len w = Some (- EINVAL, w).
Proof. intros. unfold bt_manager_remote_cmd_dispatch. by rewrite (proj2 (Z.ltb_lt _ _)). Qed.
Lemma dispatch_other b rest len w :
  b ≠ 0xD2 → bt_manager_remote_cmd_dispatch (b :: rest) len w = Some (- EINVAL, w).
Proof.
  intros. unfold bt_manager_remote_cmd_dispatch. destruct (len <? 2); [done|]. cbn [lookup list_lookup mbind option_bind].
  by rewrite (proj2 (Z.eqb_neq _ _)).
Qed.
End dispatch.

(** Results by a function, calls in a list. *)
#[export] Instance bt_trace (ret : remote_call → Z) : BtApi (list remote_call) := λ c w, (ret c, w ++ [c]).

(** ** Bluetooth LE *)

Definition BLE_REMOTE_CMD_ACK_MARKER : Z := 0x80.
Definition BLE_CMD_SYNC0 : Z := 0xA5.
Definition BLE_CMD_SYNC1 : Z := 0x5A.
Definition BLE_CMD_FRAME_HDR : Z := 4.
Definition BT_ATT_ERR_INVALID_OFFSET : Z := 0x07.
Definition BT_GATT_CCC_NOTIFY : Z := 1.

(** The references the host stack counts, and what is sent to a connection. *)
Inductive ble_out :=
  | ConnRef (conn : Z)
  | ConnUnref (conn : Z)
  | BleSend (conn : Z) (data : list Z)
  | BleServiceReg.

Definition ble_cmd_ack_status (ret : Z) : Z :=
  if ret =? 0 then 0 else if ret <? 0 then u8 (- ret) else 0xFF.

(** The payload as offset into the data, its length and whether it was framed. *)
Definition ble_remote_cmd_parse_write (data : list Z) (len : Z) : option (option (nat * Z * bool)) :=
  if (BLE_CMD_FRAME_HDR <=? len) && (getb data 0 =? BLE_CMD_SYNC0) && (getb data 1 =? BLE_CMD_SYNC1) then
    let body_len := u16 (Z.lor (u16 (Z.shiftl (getb data 2) 8)) (getb data 3)) in
    if (body_len <? 2) || (len <? u16 (BLE_CMD_FRAME_HDR + body_len)) then Some None
    else
      (* the log line prints data[BLE_CMD_FRAME_HDR + 1] *)
      _ ← data !! 5%nat; Some (Some (4%nat, body_len, true))
  else if (2 <=? len) && (getb data 0 =? 0xD2) then Some (Some (0%nat, len, false))
  else Some None.

Section ble.
Context {W : Type} `{!BtApi W} (cmd_ack : bool).

Record ble := mk_ble {
  ble_cmd_conn : option Z;
  ble_cmd_notify_on : bool;
  ble_cmd_registered : bool;
  ble_trace : list ble_out;
  ble_world : W;
}.
Definition ble_emit (l : list ble_out) (s : ble) : ble :=
  mk_ble (ble_cmd_conn s) (ble_cmd_notify_on s) (ble_cmd_registered s) (ble_trace s ++ l) (ble_world s).
Definition ble_set_conn (c : option Z) (s : ble) : ble :=
  mk_ble c (ble_cmd_notify_on s) (ble_cmd_registered s) (ble_trace s) (ble_world s).
Definition ble_set_notify (b : bool) (s : ble) : ble :=
  mk_ble (ble_cmd_conn s) b (ble_cmd_registered s) (ble_trace s) (ble_world s).
Definition ble_set_registered (b : bool) (s : ble) : ble :=
  mk_ble (ble_cmd_conn s) (ble_cmd_notify_on s) b (ble_trace s) (ble_world s).
Definition ble_set_world (w : W) (s : ble) : ble :=
  mk_ble (ble_cmd_conn s) (ble_cmd_notify_on s) (ble_cmd_registered s) (ble_trace s) w.

Definition ble_cmd_send_ack (subcmd ret : Z) (s : ble) : ble :=
  match ble_cmd_conn s with
  | None => s
  | Some c =>
      if negb (ble_cmd_notify_on s) then s
      else ble_emit [BleSend c [0xD2; BLE_REMOTE_CMD_ACK_MARKER; subcmd; ble_cmd_ack_status ret]] s
  end.

(** The command, and the acknowledgement of one that starts with D2. *)
Definition ble_run (payload : list Z) (plen len : Z) (s : ble) : option (Z * ble) :=
  '(ret, w) ← bt_manager_remote_cmd_dispatch payload plen (ble_world s);
  let s := ble_set_world w s in
  if cmd_ack && (2 <=? plen) then
    b0 ← payload !! 0%nat;
    if b0 =? 0xD2 then b1 ← payload !! 1%nat; Some (len, ble_cmd_send_ack b1 ret s) else Some (len, s)
  else Some (len, s).

Definition ble_remote_cmd_write_cb (data : list Z) (offset : Z) (s : ble) : option (Z * ble) :=
  let len := Z.of_nat (length data) in
  if negb (offset =? 0) then Some (- BT_ATT_ERR_INVALID_OFFSET, s)
  else if len <? 2 then Some (len, s)
  else
    p ← ble_remote_cmd_parse_write data len;
    match p with
    | None => Some (len, s)
    | Some (off, plen, _) => ble_run (drop off data) plen len s
    end.

Definition ble_remote_cmd_ccc_cfg_changed (value : Z) (s : ble) : ble := ble_set_notify (value =? BT_GATT_CCC_NOTIFY) s.

Definition ble_remote_cmd_link_cb (conn : Z) (le connected : bool) (s : ble) : ble :=
  if negb le then s
  else if connected then
    let s := match ble_cmd_conn s with Some c => ble_emit [ConnUnref c] s | None => s end in
    ble_set_conn (Some conn) (ble_emit [ConnRef conn] s)
  else
    let s := match ble_cmd_conn s with Some c => ble_set_conn None (ble_emit [ConnUnref c] s) | None => s end in
    ble_set_notify false s.

Definition system_app_ble_remote_cmd_init (s : ble) : ble :=
  if ble_cmd_registered s then s else ble_set_registered true (ble_emit [BleServiceReg] s).
End ble.

(** ** Theorems *)

Lemma lor_bytes h l : is_u8 h → is_u8 l → u16 (Z.lor (u16 (Z.shiftl h 8)) l) = 256 * h + l.
Proof.
  unfold is_u8. intros Hh Hl. rewrite Z.shiftl_mul_pow2 by lia. change (2 ^ 8) with 256.
  rewrite (u16_id (h * 256)) by (unfold is_u16; lia).
  replace (Z.lor (h * 256) l) with (256 * h + l); [apply u16_id; unfold is_u16; lia|].
  rewrite Z.mul_comm. change 256 with (2 ^ 8). rewrite <- Z.shiftl_mul_pow2 by lia.
  apply Z.add_nocarry_lor. apply Z.bits_inj'. intros i Hi. rewrite Z.land_spec, Z.bits_0.
  destruct (Z.lt_ge_cases i 8); [rewrite Z.shiftl_spec_low by lia; done|].
  rewrite (testbit_bounded 8 l i) by (done || lia). apply andb_false_r.
Qed.

Section ble_theorems.
Context {W : Type} `{!BtApi W} (ack : bool).

Lemma ble_run_some payload plen len (s : @ble W) : (2 <= length payload)%nat → is_Some (ble_run ack payload plen len s).
Proof.
  intros Hl. destruct payload as [|a [|b payload]]; [cbn [length] in Hl; lia..|].
  unfold ble_run, bt_manager_remote_cmd_dispatch. cbn [lookup list_lookup mbind option_bind].
  destruct (plen <? 2); [|destruct (negb (a =? 0xD2))]; cbn [mbind option_bind]; repeat case_match; eauto.
Qed.
Lemma ble_run_cmd sub rest plen len (s : @ble W) :
  0 <= sub → 2 <= plen →
  ble_run ack (0xD2 :: sub :: rest) plen len s =
  Some (len, let '(ret, w) := remote_cmd sub (ble_world s) in
             if ack then ble_cmd_send_ack sub ret (ble_set_world w s) else ble_set_world w s).
Proof.
  intros Hs Hp. unfold ble_run. rewrite dispatch_cmd by done. cbn [mbind option_bind].
  destruct (remote_cmd sub (ble_world s)) as [ret w]. rewrite (proj2 (Z.leb_le 2 plen)) by done. by destruct ack.
Qed.

(** Exactly the headers whose length field is at least 0xFFFC, without two bytes
    behind them, make the callback read past the data. *)
Theorem ble_write_reads_past_end data (s : @ble W) :
  bytes_ok data →
  ble_remote_cmd_write_cb ack data 0 s = None ↔
  ∃ h l rest, data = 0xA5 :: 0x5A :: h :: l :: rest ∧ (length rest < 2)%nat ∧ 0xFFFC <= 256 * h + l.
Proof.
  intros Hb. unfold ble_remote_cmd_write_cb. replace (negb (0 =? 0)) with false by done. cbv iota.
  destruct (Z.ltb_spec (Z.of_nat (length data)) 2) as [Hl|Hl].
  { split; [done|]. intros (h & l & rest & -> & _). cbn [length] in Hl. lia. }
  unfold ble_remote_cmd_parse_write. destruct (_ && (getb data 0 =? BLE_CMD_SYNC0) && _) eqn:E; cycle 1.
  { assert (Hn : ∀ h l rest, data ≠ 0xA5 :: 0x5A :: h :: l :: rest).
    { intros h l rest ->. rewrite (proj2 (Z.leb_le _ _)) in E by (unfold BLE_CMD_FRAME_HDR; cbn [length]; lia). done. }
    split; [|naive_solver]. destruct ((2 <=? _) && _); cbn [mbind option_bind]; [|done].
    intros Hnone. destruct (ble_run_some (drop 0 data) (Z.of_nat (length data)) (Z.of_nat (length data)) s) as [x Hx]; [|congruence].
    rewrite drop_0. lia. }
  apply andb_prop in E as [E E1]. apply andb_prop in E as [E E0]. apply Z.leb_le in E. apply Z.eqb_eq in E0, E1.
  unfold BLE_CMD_FRAME_HDR in *. destruct data as [|a [|b [|h [|l rest]]]]; try (cbn [length] in E; lia).
  change (getb (a :: b :: h :: l :: rest) 0) with a in *. change (getb (a :: b :: h :: l :: rest) 1) with b in *.
  change (getb (a :: b :: h :: l :: rest) 2) with h. change (getb (a :: b :: h :: l :: rest) 3) with l. subst a b.
  do 2 (apply Forall_cons_1 in Hb as [_ Hb]). apply Forall_cons_1 in Hb as [Hh Hb]. apply Forall_cons_1 in Hb as [Hlo _].
  rewrite lor_bytes by done. unfold BLE_CMD_SYNC0, BLE_CMD_SYNC1 in *.
  destruct (_ || _) eqn:Eb; cbn [mbind option_bind].
  { split; [done|]. intros (h' & l' & rest' & [= <- <- <-] & Hr & Hge). apply orb_prop in Eb as [Eb|Eb].
    - apply Z.ltb_lt in Eb. lia.
    - apply Z.ltb_lt in Eb. unfold u16, is_u8 in *. dlia. }
  apply orb_false_elim in Eb as [Eb1 Eb2]. apply Z.ltb_ge in Eb1, Eb2.
  destruct rest as [|c [|d rest]]; cbn [lookup list_lookup mbind option_bind skipn length] in *.
  1-2: split; [|done]; intros _; eexists h, l, _; (split; [done|]); (split; [cbn [length]; lia|]);
    unfold u16, is_u8 in *; destruct (Z.lt_ge_cases (256 * h + l) 0xFFFC); [|done]; rewrite Z.mod_small in Eb2; lia.
  split; [|intros (h' & l' & rest' & [= <- <- <-] & Hr & _); cbn [length] in Hr; lia].
  intros Hnone. destruct (ble_run_some (c :: d :: rest) (256 * h + l) (Z.of_nat (S (S (S (S (S (S (length rest)))))))) s) as [x Hx];
    [cbn [length]; lia|]. unfold ble_run in *. cbn [skipn] in Hnone. congruence.
Qed.

(** A write of D2 and a sub-command, bare or in a frame, runs the command and
    acknowledges it. *)
Theorem ble_write_runs_command framed sub rest (s : @ble W) :
  is_u8 sub → Z.of_nat (length rest) < 60000 →
  let n := Z.of_nat (length rest) + 2 in
  let data := (if framed : bool then [0xA5; 0x5A; n / 256; n mod 256] else []) ++ 0xD2 :: sub :: rest in
  ble_remote_cmd_write_cb ack data 0 s =
  Some (Z.of_nat (length data),
        let '(ret, w) := remote_cmd sub (ble_world s) in
        if ack then ble_cmd_send_ack sub ret (ble_set_world w s) else ble_set_world w s).
Proof.
  intros Hs Hr n data. unfold is_u8 in Hs. assert (En : n = Z.of_nat (length rest) + 2) by done. clearbody n. assert (Hn : 2 <= n < 60002) by lia.
  assert (Hd : Z.of_nat (length data) = n + if framed then 4 else 0).
  { subst data. rewrite length_app. destruct framed; cbn [length]; lia. }
  clear En. unfold ble_remote_cmd_write_cb. replace (negb (0 =? 0)) with false by done. cbv iota.
  rewrite Hd, (proj2 (Z.ltb_ge _ 2)) by (destruct framed; lia).
  unfold ble_remote_cmd_parse_write, BLE_CMD_FRAME_HDR. subst data. destruct framed.
  - change (getb _ 0) with 0xA5. change (getb _ 1) with 0x5A. change (getb _ 2) with (n / 256). change (getb _ 3) with (n mod 256).
    rewrite lor_bytes by dlia.
    replace (256 * (n / 256) + n mod 256) with n by dlia.
    rewrite (proj2 (Z.leb_le 4 _)), (proj2 (Z.ltb_ge n 2)), u16_id, (proj2 (Z.ltb_ge (n + 4) _)) by (unfold is_u16; lia).
    cbn -[Z.add ble_run]. by rewrite ble_run_cmd by lia.
  - change (getb _ 0) with 0xD2. rewrite andb_false_r, (proj2 (Z.leb_le 2 _)) by lia.
    cbn -[Z.add ble_run]. by rewrite ble_run_cmd by lia.
Qed.
End ble_theorems.

(** ** Witnesses *)

#[local] Instance ble_sample_api : BtApi (list remote_call) := bt_trace (λ _, 0).
Definition sample_ble : @ble (list remote_call) := mk_ble (Some 7) true true [] [].

Lemma ble_write_reads_past_end_witness :
  ble_remote_cmd_write_cb false [0xA5; 0x5A; 0xFF; 0xFE] 0 sample_ble = None.
Proof.
  apply (ble_write_reads_past_end false [0xA5; 0x5A; 0xFF; 0xFE] sample_ble ltac:(by_decide)).
  exists 0xFF, 0xFE, []. split; [reflexivity|]. split; [cbn; lia|lia].
Defined.
Lemma ble_write_runs_command_witness :
  ∃ s', ble_remote_cmd_write_cb true [0xA5; 0x5A; 0; 2; 0xD2; 5] 0 sample_ble = Some (6, s') ∧
    ble_world s' = [bt_manager_volume_up] ∧ ble_trace s' = [BleSend 7 [0xD2; 0x80; 5; 0]].
Proof.
  pose proof (ble_write_runs_command true true 5 [] sample_ble ltac:(by_decide) ltac:(cbn; lia)) as H.
  eexists. split; [exact H|]. by split.
Defined.
