(* ===== verification/SppBridge.v ===== *)
(** * Commands over the Bluetooth serial port

    ext/actions/bluetooth/bt_manager/bt_manager_spp.c, the table of serial port
    services, and its client
    samples/bt_speaker/src/system_app/system_app_spp_uart_bridge.c, which takes the
    bytes of a phone for commands: a packet that starts with D2 as a bare one, all
    others as pieces of a stream of frames (CONFIG_SYSTEM_APP_SPP_UART_FORWARD is 0;
    the option for acknowledgements is a parameter).

    [None] is an access outside an array.  The Bluetooth service below is the
    function [btif], which gives the results of its calls, and a trace of them; a
    null UUID of the table is compared through: [null_uuid] are the bytes there.
    The callbacks of the table are those of the bridge. *)

From stdpp Require Import base numbers list option.
From S2P Require Import Prelude RemoteCmd.
Local Open Scope Z_scope.

Definition EALREADY : Z := 69.
Definition BTMGR_MAX_SPP_NUM : nat := 4.
Definition MGRSPP_INDEX_TO_ID (x : Z) : Z := u8 (Z.lor x 0x80).
Definition MGRSPP_ID_TO_INDEX (x : Z) : Z := Z.land x 0x7F.

Definition SPP_SYNC0 : Z := 0xA5.
Definition SPP_SYNC1 : Z := 0x5A.
Definition SPP_FRAME_HDR : nat := 4.
Definition SPP_MAX_PAYLOAD : nat := 512.
Definition SPP_ACC_CAP : nat := SPP_FRAME_HDR + SPP_MAX_PAYLOAD + 64.
Definition SPP_ACK_MARKER : Z := 0x80.
Definition SPP_ACK_PAYLOAD_LEN : Z := 4.
Definition spp_service_uuid : list Z :=
  [0xFB; 0x34; 0x9B; 0x5F; 0x80; 0x00; 0x00; 0x80; 0x00; 0x10; 0x00; 0x00; 0x01; 0x11; 0x00; 0x00].

Inductive btif_call :=
  | btif_spp_reg (app_id : Z) (uuid : list Z)
  | btif_spp_connect (app_id : Z) (uuid : list Z)
  | btif_spp_disconnect (app_id : Z)
  | btif_spp_send_data (app_id : Z) (data : list Z).

Record btmgr_uuid_cb := mk_uuid_cb {
  connected : bool;
  active_connect : bool;
  app_id : Z;
  uuid : option (list Z);
  cb : bool;
}.
Definition uuid_cb_clear : btmgr_uuid_cb := mk_uuid_cb false false 0 None false.

Inductive btsrv_spp_event :=
  | BTSRV_SPP_REGISTER_FAILED
  | BTSRV_SPP_REGISTER_SUCCESS
  | BTSRV_SPP_CONNECT_FAILED
  | BTSRV_SPP_CONNECTED
  | BTSRV_SPP_DISCONNECTED
  | BTSRV_SPP_DATA_INDICATED (packet : list Z)
  | BTSRV_SPP_SNOOP_CONNECTED (active : bool)
  | BTSRV_SPP_SNOOP_DISCONNECTED.

Section spp.
Context {W : Type} `{!BtApi W} (cmd_ack : bool) (null_uuid : list Z) (btif : btif_call → Z).

Record spp := mk_spp {
  spp_uuid_cb : list btmgr_uuid_cb;
  rx_acc : list Z;
  rx_acc_len : nat;
  spp_registered : bool;
  spp_channel : Z;
  btif_out : list btif_call;
  spp_world : W;
}.
Definition set_table (t : list btmgr_uuid_cb) (s : spp) : spp :=
  mk_spp t (rx_acc s) (rx_acc_len s) (spp_registered s) (spp_channel s) (btif_out s) (spp_world s).
Definition set_acc (a : list Z) (n : nat) (s : spp) : spp :=
  mk_spp (spp_uuid_cb s) a n (spp_registered s) (spp_channel s) (btif_out s) (spp_world s).
Definition set_registered (b : bool) (s : spp) : spp :=
  mk_spp (spp_uuid_cb s) (rx_acc s) (rx_acc_len s) b (spp_channel s) (btif_out s) (spp_world s).
Definition set_channel (c : Z) (s : spp) : spp :=
  mk_spp (spp_uuid_cb s) (rx_acc s) (rx_acc_len s) (spp_registered s) c (btif_out s) (spp_world s).
Definition btif_emit (c : btif_call) (s : spp) : spp :=
  mk_spp (spp_uuid_cb s) (rx_acc s) (rx_acc_len s) (spp_registered s) (spp_channel s) (btif_out s ++ [c]) (spp_world s).
Definition set_spp_world (w : W) (s : spp) : spp :=
  mk_spp (spp_uuid_cb s) (rx_acc s) (rx_acc_len s) (spp_registered s) (spp_channel s) (btif_out s) w.

(** ** The table of services *)

Definition bt_manager_spp_find (id : Z) (u : option (list Z)) (t : list btmgr_uuid_cb) : option nat * list btmgr_uuid_cb :=
  if negb (id =? 0) then (fst <$> list_find (λ e, app_id e = id) t, t)
  else
    match u with
    | Some u => (fst <$> list_find (λ e, default null_uuid (uuid e) = u) t, t)
    | None =>
        match list_find (λ e, app_id e = 0) t with
        | Some (i, e) =>
            (Some i, <[i := mk_uuid_cb (connected e) false (MGRSPP_INDEX_TO_ID (Z.of_nat i)) (uuid e) (cb e)]> t)
        | None => (None, t)
        end
    end.
Definition entry (i : nat) (s : spp) : btmgr_uuid_cb := default uuid_cb_clear (spp_uuid_cb s !! i).
Definition set_entry (i : nat) (e : btmgr_uuid_cb) (s : spp) : spp := set_table (<[i := e]> (spp_uuid_cb s)) s.
Definition bt_manager_spp_free (i : nat) (s : spp) : spp := set_entry i uuid_cb_clear s.

Definition bt_manager_spp_reg_uuid (u : list Z) (s : spp) : Z * spp :=
  match bt_manager_spp_find 0 (Some u) (spp_uuid_cb s) with
  | (Some _, _) => (- EALREADY, s)
  | (None, _) =>
      match bt_manager_spp_find 0 None (spp_uuid_cb s) with
      | (None, _) => (- ENOMEM, s)
      | (Some i, t) =>
          let s := set_table t s in
          let e := entry i s in
          let s := set_entry i (mk_uuid_cb false (active_connect e) (app_id e) (Some u) true) s in
          let c := btif_spp_reg (app_id e) u in
          let s := btif_emit c s in
          (btif c, if negb (btif c =? 0) then bt_manager_spp_free i s else s)
      end
  end.

Definition bt_manager_spp_send_data (chl : Z) (data : list Z) (s : spp) : Z * spp :=
  let '(r, t) := bt_manager_spp_find chl None (spp_uuid_cb s) in
  let s := set_table t s in
  match r with
  | Some i => let c := btif_spp_send_data (app_id (entry i s)) data in (btif c, btif_emit c s)
  | None => (- EIO, s)
  end.

Definition bt_manager_spp_connect (u : list Z) (s : spp) : Z * spp :=
  match bt_manager_spp_find 0 None (spp_uuid_cb s) with
  | (None, _) => (0, s)
  | (Some i, t) =>
      let s := set_table t s in
      let id := app_id (entry i s) in
      let s := set_entry i (mk_uuid_cb false true id (Some u) true) s in
      let c := btif_spp_connect id u in
      let s := btif_emit c s in
      if negb (btif c =? 0) then (0, bt_manager_spp_free i s) else (id, s)
  end.

Definition bt_manager_spp_disconnect (chl : Z) (s : spp) : Z * spp :=
  let '(r, t) := bt_manager_spp_find chl None (spp_uuid_cb s) in
  let s := set_table t s in
  match r with
  | Some i => let c := btif_spp_disconnect (app_id (entry i s)) in (btif c, btif_emit c s)
  | None => (- EIO, s)
  end.
Definition bt_manager_spp_by_uuid_disconnect (u : list Z) (s : spp) : Z * spp :=
  match bt_manager_spp_find 0 (Some u) (spp_uuid_cb s) with
  | (Some i, _) => let c := btif_spp_disconnect (app_id (entry i s)) in (btif c, btif_emit c s)
  | (None, _) => (- EIO, s)
  end.

(** The loop variable has run to the end of the table where the identifier is made. *)
Definition bt_manager_snoop_spp_connected_find (id : Z) (t : list btmgr_uuid_cb) : option (option nat * list btmgr_uuid_cb) :=
  match list_find (λ e, app_id e = id) t with
  | Some (i, _) => Some (Some i, t)
  | None =>
      let index := Z.to_nat (MGRSPP_ID_TO_INDEX id) in
      e ← t !! index;
      if app_id e =? 0 then
        Some (Some index, <[index := mk_uuid_cb (connected e) (active_connect e)
                                       (MGRSPP_INDEX_TO_ID (Z.of_nat BTMGR_MAX_SPP_NUM)) (uuid e) (cb e)]> t)
      else Some (None, t)
  end.

(** ** The bridge *)

Definition spp_ack_status_from_ret (ret : Z) : Z :=
  if ret =? 0 then 0 else if ret <? 0 then u8 (- ret) else 0xFF.

Definition spp_send_cmd_ack (subcmd ret : Z) (framed : bool) (s : spp) : spp :=
  if spp_channel s =? 0 then s
  else
    let ack := [0xD2; SPP_ACK_MARKER; subcmd; spp_ack_status_from_ret ret] in
    (bt_manager_spp_send_data (spp_channel s)
       (if framed then [SPP_SYNC0; SPP_SYNC1; 0; SPP_ACK_PAYLOAD_LEN] ++ ack else ack) s).2.

Definition spp_dispatch_remote_cmd (payload : list Z) (framed : bool) (s : spp) : option spp :=
  let plen := u16 (Z.of_nat (length payload)) in
  '(ret, w) ← bt_manager_remote_cmd_dispatch payload plen (spp_world s);
  let s := set_spp_world w s in
  if cmd_ack && (2 <=? plen) then
    b0 ← payload !! 0%nat;
    if b0 =? 0xD2 then b1 ← payload !! 1%nat; Some (spp_send_cmd_ack b1 ret framed s) else Some s
  else Some s.

Definition spp_handle_frame_payload (payload : list Z) (s : spp) : option spp :=
  if (length payload <? 2)%nat then Some s
  else
    b0 ← payload !! 0%nat;
    if b0 =? 0xD2 then spp_dispatch_remote_cmd payload true s else Some s.

Definition acc_at (s : spp) (i : nat) : Z := default 0 (rx_acc s !! i).
Fixpoint accumulator_loop (fuel i : nat) (s : spp) : option (nat * spp) :=
  match fuel with
  | O => None
  | S fuel =>
      if (i + SPP_FRAME_HDR <=? rx_acc_len s)%nat then
        if negb (acc_at s i =? SPP_SYNC0) || negb (acc_at s (i + 1) =? SPP_SYNC1) then accumulator_loop fuel (i + 1) s
        else
          let plen := Z.to_nat (u16 (Z.lor (u16 (Z.shiftl (acc_at s (i + 2)) 8)) (acc_at s (i + 3)))) in
          if (SPP_MAX_PAYLOAD <? plen)%nat then accumulator_loop fuel (i + 2) s
          else
            let frame_total := (SPP_FRAME_HDR + plen)%nat in
            if (rx_acc_len s <? i + frame_total)%nat then Some (i, s)
            else
              s ← spp_handle_frame_payload (slice (rx_acc s) (i + SPP_FRAME_HDR) plen) s;
              accumulator_loop fuel (i + frame_total) s
      else Some (i, s)
  end.

Definition spp_process_accumulator (s : spp) : option spp :=
  '(i, s) ← accumulator_loop (S (rx_acc_len s)) 0 s;
  let n := rx_acc_len s in
  Some (
    if (0 <? i)%nat && (i <? n)%nat then set_acc (memcpy (rx_acc s) 0 (slice (rx_acc s) i (n - i))) (n - i) s
    else if (n <=? i)%nat then set_acc (rx_acc s) 0 s
    else if (SPP_ACC_CAP <=? n)%nat then set_acc (rx_acc s) 0 s
    else s).

Definition spp_feed_accumulator (data : list Z) (s : spp) : option spp :=
  let len := length data in
  if (len =? 0)%nat then Some s
  else
    let n := if Z.of_nat SPP_ACC_CAP <? u32 (Z.of_nat (rx_acc_len s) + Z.of_nat len) then 0%nat else rx_acc_len s in
    if (SPP_ACC_CAP <? n + len)%nat then None
    else spp_process_accumulator (set_acc (memcpy (rx_acc s) n data) (n + len) s).

Definition is_bare (data : list Z) : bool :=
  let len := length data in
  (2 <=? len)%nat && (len <=? 16)%nat && (getb data 0 =? 0xD2) &&
  negb ((4 <=? len)%nat && (getb data 0 =? 0xD2) && (getb data 1 =? 0x5A)).
Definition spp_try_bare_cmd (data : list Z) (s : spp) : option (bool * spp) :=
  if is_bare data then s ← spp_dispatch_remote_cmd data false s; Some (true, s) else Some (false, s).

Definition bridge_spp_connect_failed_cb (channel : Z) (s : spp) : spp :=
  if spp_channel s =? channel then set_channel 0 s else s.
Definition bridge_spp_connected_cb (channel : Z) (s : spp) : spp := set_channel channel s.
Definition bridge_spp_disconnected_cb (channel : Z) (s : spp) : spp :=
  let s := if spp_channel s =? channel then set_channel 0 s else s in
  set_acc (rx_acc s) 0 s.
Definition bridge_spp_receive_data_cb (data : list Z) (s : spp) : option spp :=
  '(bare, s) ← spp_try_bare_cmd data s;
  if bare : bool then Some s else spp_feed_accumulator data s.

Definition system_app_spp_uart_bridge_init (s : spp) : spp :=
  if spp_registered s then s
  else
    let '(ret, s) := bt_manager_spp_reg_uuid spp_service_uuid s in
    if negb (ret =? 0) then s else set_registered true s.

(** ** Events of the service *)

Definition set_connected (b : bool) (e : btmgr_uuid_cb) : btmgr_uuid_cb :=
  mk_uuid_cb b (active_connect e) (app_id e) (uuid e) (cb e).
Definition set_active (b : bool) (e : btmgr_uuid_cb) : btmgr_uuid_cb :=
  mk_uuid_cb (connected e) b (app_id e) (uuid e) (cb e).

Definition bt_manager_spp_callback (event : btsrv_spp_event) (id : Z) (s : spp) : option spp :=
  '(r, t) ← match event with
            | BTSRV_SPP_SNOOP_CONNECTED _ => bt_manager_snoop_spp_connected_find id (spp_uuid_cb s)
            | _ => Some (bt_manager_spp_find id None (spp_uuid_cb s))
            end;
  let s := set_table t s in
  match r with
  | None => Some s
  | Some i =>
      let e := entry i s in
      match event with
      | BTSRV_SPP_REGISTER_FAILED => Some (bt_manager_spp_free i s)
      | BTSRV_SPP_REGISTER_SUCCESS => Some s
      | BTSRV_SPP_CONNECT_FAILED =>
          let s := if cb e then bridge_spp_connect_failed_cb (app_id e) s else s in
          Some (bt_manager_spp_free i s)
      | BTSRV_SPP_CONNECTED =>
          if connected e then Some s
          else
            let s := set_entry i (set_connected true e) s in
            Some (if cb e then bridge_spp_connected_cb (app_id e) s else s)
      | BTSRV_SPP_DISCONNECTED =>
          if connected e then
            let s := set_entry i (set_connected false e) s in
            let s := if cb e then bridge_spp_disconnected_cb (app_id e) s else s in
            Some (if active_connect e then bt_manager_spp_free i s else s)
          else Some s
      | BTSRV_SPP_DATA_INDICATED packet => if cb e then bridge_spp_receive_data_cb packet s else Some s
      | BTSRV_SPP_SNOOP_CONNECTED active =>
          if connected e then Some s else Some (set_entry i (set_active active (set_connected true e)) s)
      | BTSRV_SPP_SNOOP_DISCONNECTED =>
          if connected e then
            let s := set_entry i (set_connected false e) s in
            Some (if active_connect e then bt_manager_spp_free i s else s)
          else Some s
      end
  end.
End spp.

(** ** The stream of frames

    What the bytes of a connection mean, as a function of the whole stream: the
    payloads of the frames in it and the bytes left over. *)
Fixpoint frames_go (fuel : nat) (l : list Z) : list (list Z) * list Z :=
  match fuel with
  | O => ([], l)
  | S fuel =>
      match l with
      | a :: ((b :: ((h :: w :: rest) as l2)) as l1) =>
          if (a =? SPP_SYNC0) && (b =? SPP_SYNC1) then
            let plen := Z.to_nat (256 * h + w) in
            if (SPP_MAX_PAYLOAD <? plen)%nat then frames_go fuel l2
            else if (length rest <? plen)%nat then ([], l)
            else let '(fs, r) := frames_go fuel (drop plen rest) in (take plen rest :: fs, r)
          else frames_go fuel l1
      | _ => ([], l)
      end
  end.
Definition frames (l : list Z) : list (list Z) * list Z := frames_go (length l) l.


Definition frame_len (h w : Z) : nat := Z.to_nat (256 * h + w).

(** The same as rules. *)
Inductive parse : list Z → list (list Z) → list Z → Prop :=
  | parse_short l : (length l < 4)%nat → parse l [] l
  | parse_skip a b h w rest fs r :
      (a =? SPP_SYNC0) && (b =? SPP_SYNC1) = false → parse (b :: h :: w :: rest) fs r → parse (a :: b :: h :: w :: rest) fs r
  | parse_long h w rest fs r :
      (SPP_MAX_PAYLOAD < frame_len h w)%nat → parse (h :: w :: rest) fs r →
      parse (SPP_SYNC0 :: SPP_SYNC1 :: h :: w :: rest) fs r
  | parse_wait h w rest :
      (frame_len h w <= SPP_MAX_PAYLOAD)%nat → (length rest < frame_len h w)%nat →
      parse (SPP_SYNC0 :: SPP_SYNC1 :: h :: w :: rest) [] (SPP_SYNC0 :: SPP_SYNC1 :: h :: w :: rest)
  | parse_frame h w rest fs r :
      (frame_len h w <= SPP_MAX_PAYLOAD)%nat → (frame_len h w <= length rest)%nat → parse (drop (frame_len h w) rest) fs r →
      parse (SPP_SYNC0 :: SPP_SYNC1 :: h :: w :: rest) (take (frame_len h w) rest :: fs) r.

Lemma frames_go_parse n : ∀ l, (length l <= n)%nat → parse l (frames_go n l).1 (frames_go n l).2.
Proof.
  induction n as [|n IH]; intros l Hl; [destruct l; [apply parse_short; cbn; lia|cbn [length] in Hl; lia]|].
  destruct l as [|a [|b [|h [|w rest]]]]; [apply parse_short; cbn; lia..|].
  cbn [length] in Hl. cbn [frames_go]. fold (frame_len h w). destruct ((a =? SPP_SYNC0) && (b =? SPP_SYNC1)) eqn:E; [|apply parse_skip; [done|apply IH; cbn [length]; lia]].
  apply andb_prop in E as [->%Z.eqb_eq ->%Z.eqb_eq].
  destruct (Nat.ltb_spec SPP_MAX_PAYLOAD (frame_len h w)); [apply parse_long; [done|apply IH; cbn [length]; lia]|].
  destruct (Nat.ltb_spec (length rest) (frame_len h w)); [by apply parse_wait|].
  specialize (IH (drop (frame_len h w) rest) ltac:(rewrite length_drop; lia)).
  destruct (frames_go n (drop (frame_len h w) rest)) as [fs r]. by apply parse_frame.
Qed.
Lemma frames_parse l : parse l (frames l).1 (frames l).2.
Proof. by apply frames_go_parse. Qed.

Lemma parse_fun l fs r : parse l fs r → ∀ fs' r', parse l fs' r' → fs = fs' ∧ r = r'.
Proof.
  induction 1 as [l Hl|a b h w rest fs r E H IH|h w rest fs r Hp H IH|h w rest Hp Hr|h w rest fs r Hp Hr H IH]; intros fs' r' H';
    inversion H'; subst; try done; try (cbn [length] in *; lia); try naive_solver.
Qed.
Lemma parse_frames l fs r : parse l fs r → frames l = (fs, r).
Proof.
  intros H. destruct (parse_fun _ _ _ H _ _ (frames_parse l)) as [-> ->]. by destruct (frames l).
Qed.

(** Pieces of a stream can be read one after the other. *)
Lemma parse_app l fs r m gs r' : parse l fs r → parse (r ++ m) gs r' → parse (l ++ m) (fs ++ gs) r'.
Proof.
  intros H. induction H as [l Hl|a b h w rest fs r E H IH|h w rest fs r Hp H IH|h w rest Hp Hr|h w rest fs r Hp Hr H IH]; intros Hm; [done| | |done|].
  - apply parse_skip; [done|]. by apply IH.
  - apply parse_long; [done|]. by apply IH.
  - cbn [app]. specialize (IH Hm). rewrite <- (take_app_le rest m) by done. apply parse_frame; [done|rewrite length_app; lia|].
    by rewrite drop_app_le.
Qed.
Lemma parse_rest l fs r : parse l fs r → (length r <= 515)%nat.
Proof. induction 1; unfold SPP_MAX_PAYLOAD in *; cbn [length]; lia. Qed.
Lemma parse_settled l fs r : parse l fs r → parse r [] r.
Proof. induction 1; try done; by constructor. Qed.
Lemma parse_bytes l fs r : parse l fs r → bytes_ok l → Forall bytes_ok fs ∧ bytes_ok r.
Proof.
  induction 1 as [l Hl|a b h w rest fs r E H IH|h w rest fs r Hp H IH|h w rest Hp Hr|h w rest fs r Hp Hr H IH]; intros Hb; [done| | |done|].
  - apply IH. by apply Forall_cons_1 in Hb as [_ Hb].
  - apply IH. do 2 (apply Forall_cons_1 in Hb as [_ Hb]). done.
  - do 4 (apply Forall_cons_1 in Hb as [_ Hb]). destruct IH as [Hfs Hr']; [by apply Forall_drop|].
    split; [|done]. constructor; [by apply Forall_take|done].
Qed.

Section refinement.
Context {W : Type} `{!BtApi W} (cmd_ack : bool) (null_uuid : list Z) (btif : btif_call → Z).
#[local] Abbreviation spp := (@spp W).

(** What the bridge does for one payload. *)
Definition spp_command (framed : bool) (s : spp) (payload : list Z) : spp :=
  match payload with
  | b0 :: sub :: _ =>
      if b0 =? 0xD2 then
        let '(ret, w) := remote_cmd sub (spp_world s) in
        let s := set_spp_world w s in
        if cmd_ack then spp_send_cmd_ack null_uuid btif sub ret framed s else s
      else s
  | _ => s
  end.

Lemma dispatch_command framed sub rest s :
  is_u8 sub → Z.of_nat (length rest) < 65534 →
  spp_dispatch_remote_cmd cmd_ack null_uuid btif (0xD2 :: sub :: rest) framed s = Some (spp_command framed s (0xD2 :: sub :: rest)).
Proof.
  intros Hs Hl. unfold spp_dispatch_remote_cmd, is_u8 in *.
  assert (Hp : 2 <= u16 (Z.of_nat (length (0xD2 :: sub :: rest)))) by (cbn [length]; rewrite u16_id; unfold is_u16; lia).
  rewrite dispatch_cmd by lia. cbn [mbind option_bind]. unfold spp_command. replace (0xD2 =? 0xD2) with true by done.
  destruct (remote_cmd sub (spp_world s)) as [ret w]. rewrite (proj2 (Z.leb_le 2 _)) by done. by destruct cmd_ack.
Qed.
Lemma handle_command payload s :
  bytes_ok payload → (length payload <= 512)%nat →
  spp_handle_frame_payload cmd_ack null_uuid btif payload s = Some (spp_command true s payload).
Proof.
  intros Hb Hl. unfold spp_handle_frame_payload. destruct payload as [|b0 [|sub rest]]; [done..|].
  cbn [length Nat.ltb Nat.leb lookup list_lookup mbind option_bind]. destruct (Z.eqb_spec b0 0xD2) as [->|Hne].
  - apply dispatch_command; [|cbn [length] in Hl; lia]. apply Forall_cons_1 in Hb as [_ Hb]. by apply Forall_cons_1 in Hb as [Hb _].
  - unfold spp_command. by rewrite (proj2 (Z.eqb_neq _ _)).
Qed.

(** Commands touch neither the table nor the accumulator. *)
Lemma spp_command_acc framed payload s :
  let s' := spp_command framed s payload in
  spp_uuid_cb s' = spp_uuid_cb s ∧ rx_acc s' = rx_acc s ∧ rx_acc_len s' = rx_acc_len s ∧ spp_channel s' = spp_channel s ∧
  spp_registered s' = spp_registered s.
Proof.
  unfold spp_command. destruct payload as [|b0 [|sub rest]]; [done..|]. destruct (b0 =? 0xD2); [|done].
  destruct (remote_cmd sub (spp_world s)) as [ret w]. destruct cmd_ack; [|done].
  unfold spp_send_cmd_ack. destruct (spp_channel (set_spp_world w s) =? 0) eqn:E; [done|].
  unfold bt_manager_spp_send_data, bt_manager_spp_find. rewrite E. cbn [negb]. by destruct (_ <$> list_find _ _).
Qed.
Lemma spp_commands_acc fs : ∀ s,
  let s' := foldl (spp_command true) s fs in
  spp_uuid_cb s' = spp_uuid_cb s ∧ rx_acc s' = rx_acc s ∧ rx_acc_len s' = rx_acc_len s ∧ spp_channel s' = spp_channel s ∧
  spp_registered s' = spp_registered s.
Proof.
  induction fs as [|f fs IH]; intros s; [done|]. cbn [foldl].
  destruct (IH (spp_command true s f)) as (-> & -> & -> & -> & ->). apply spp_command_acc.
Qed.

(** The bytes that wait in the accumulator. *)
Definition acc_bytes (s : spp) : list Z := take (rx_acc_len s) (rx_acc s).
Record acc_wf (s : spp) : Prop := {
  aw_size : length (rx_acc s) = SPP_ACC_CAP;
  aw_len : (rx_acc_len s <= SPP_ACC_CAP)%nat;
  aw_bytes : bytes_ok (acc_bytes s);
}.

Lemma length_acc_bytes s : acc_wf s → length (acc_bytes s) = rx_acc_len s.
Proof. intros [H1 H2 _]. unfold acc_bytes. rewrite length_take. lia. Qed.
Lemma acc_at_bytes s i k x : drop i (acc_bytes s) !! k = Some x → acc_at s (i + k) = x.
Proof. unfold acc_bytes. intros H. rewrite lookup_drop in H. apply lookup_take_Some in H as [H _]. unfold acc_at. by rewrite H. Qed.
Lemma slice_acc_bytes s i n k :
  (i + k + n <= rx_acc_len s)%nat → slice (rx_acc s) (i + k) n = take n (drop k (drop i (acc_bytes s))).
Proof.
  intros H. unfold slice, acc_bytes. rewrite drop_drop, !take_drop_commute, take_take. do 2 f_equal. lia.
Qed.

Lemma accumulator_loop_frames l fs r :
  parse l fs r → ∀ fuel i s, acc_wf s → drop i (acc_bytes s) = l → (i <= rx_acc_len s)%nat → (length l < fuel)%nat →
  ∃ i', accumulator_loop cmd_ack null_uuid btif fuel i s = Some (i', foldl (spp_command true) s fs) ∧
    drop i' (acc_bytes s) = r ∧ (i' <= rx_acc_len s)%nat.
Proof.
  induction 1 as [l Hl|a b h w rest fs r E H IH|h w rest fs r Hp H IH|h w rest Hp Hr|h w rest fs r Hp Hr H IH];
    intros fuel i s Hwf Hd Hi Hf; (destruct fuel as [|fuel]; [lia|]); cbn [accumulator_loop];
    pose proof (f_equal length Hd) as Hlen; rewrite length_drop, length_acc_bytes in Hlen by done; cbn [length] in Hlen, Hf; unfold SPP_FRAME_HDR.
  { rewrite (proj2 (Nat.leb_gt _ _)) by lia. by exists i. }
  all: rewrite (proj2 (Nat.leb_le (i + 4) _)) by lia.
  all: assert (Hat : ∀ k x, drop i (acc_bytes s) !! k = Some x → acc_at s (i + k) = x) by apply acc_at_bytes; rewrite Hd in Hat.
  all: pose proof (Hat 0%nat _ eq_refl) as H0; rewrite Nat.add_0_r in H0; rewrite H0, (Hat 1%nat _ eq_refl).
  { rewrite <- negb_andb, E. cbn [negb]. apply IH; [done| |lia|cbn [length]; lia].
    rewrite <- drop_drop, Hd. done. }
  all: assert (Hb : bytes_ok (drop i (acc_bytes s))) by (apply Forall_drop; apply Hwf); rewrite Hd in Hb;
    do 2 (apply Forall_cons_1 in Hb as [_ Hb]); apply Forall_cons_1 in Hb as [Hh Hb]; apply Forall_cons_1 in Hb as [Hw _].
  all: rewrite (Hat 2%nat _ eq_refl), (Hat 3%nat _ eq_refl), lor_bytes by done; fold (frame_len h w); rewrite !Z.eqb_refl; cbn [negb orb].
  - rewrite (proj2 (Nat.ltb_lt _ _)) by done. apply IH; [done| |lia|cbn [length]; lia]. by rewrite <- drop_drop, Hd.
  - rewrite (proj2 (Nat.ltb_ge _ _)) by done. rewrite (proj2 (Nat.ltb_lt _ _)) by lia. by exists i.
  - rewrite !(proj2 (Nat.ltb_ge _ _)) by lia. rewrite slice_acc_bytes, Hd by lia. cbn [skipn].
    rewrite handle_command; [|by apply Forall_take, (Forall_drop _ 4 (SPP_SYNC0 :: SPP_SYNC1 :: h :: w :: rest)); rewrite <- Hd; apply Forall_drop, Hwf|
      rewrite length_take; unfold SPP_MAX_PAYLOAD in *; lia].
    cbn [mbind option_bind foldl]. set (s1 := spp_command true s (take (frame_len h w) rest)).
    destruct (spp_command_acc true (take (frame_len h w) rest) s) as (_ & E1 & E2 & _). fold s1 in E1, E2.
    assert (Ep : acc_bytes s1 = acc_bytes s) by (unfold acc_bytes; by rewrite E1, E2).
    destruct (IH fuel (i + (4 + frame_len h w))%nat s1) as (i' & Hi' & Hd' & Hle).
    + destruct Hwf. split; rewrite ?E1, ?E2, ?Ep; done.
    + by rewrite Ep, Nat.add_assoc, <- !drop_drop, Hd.
    + rewrite E2. lia.
    + rewrite length_drop. lia.
    + exists i'. rewrite Ep, E2 in *. done.
Qed.

(** Everything but the accumulator. *)
Definition view (s : spp) : spp := set_acc [] 0 s.
Lemma spp_command_set_acc framed a n s payload :
  spp_command framed (set_acc a n s) payload = set_acc a n (spp_command framed s payload).
Proof.
  unfold spp_command. destruct payload as [|b0 [|sub rest]]; [done..|]. destruct (b0 =? 0xD2); [|done].
  cbn [set_acc spp_world]. destruct (remote_cmd sub (spp_world s)) as [ret w]. destruct cmd_ack; [|done].
  unfold spp_send_cmd_ack. cbn [set_acc set_spp_world spp_channel]. destruct (spp_channel s =? 0); [done|].
  unfold bt_manager_spp_send_data. cbn [set_acc set_spp_world spp_uuid_cb].
  by destruct (bt_manager_spp_find null_uuid (spp_channel s) None (spp_uuid_cb s)) as [[i|] t].
Qed.
Lemma view_commands fs : ∀ s, view (foldl (spp_command true) s fs) = foldl (spp_command true) (view s) fs.
Proof.
  induction fs as [|f fs IH]; intros s; [done|]. cbn [foldl]. rewrite IH. unfold view. by rewrite spp_command_set_acc.
Qed.

Lemma process_accumulator_frames s :
  acc_wf s →
  ∃ s', spp_process_accumulator cmd_ack null_uuid btif s = Some s' ∧ acc_wf s' ∧ acc_bytes s' = (frames (acc_bytes s)).2 ∧
    view s' = foldl (spp_command true) (view s) (frames (acc_bytes s)).1.
Proof.
  intros Hwf. pose proof (frames_parse (acc_bytes s)) as Hp. destruct (frames (acc_bytes s)) as [fs r]. cbn [fst snd] in *.
  destruct (accumulator_loop_frames _ _ _ Hp (S (rx_acc_len s)) 0 s Hwf) as (i & Hl & Hd & Hi);
    [by rewrite drop_0|lia|rewrite length_acc_bytes by done; lia|].
  unfold spp_process_accumulator. rewrite Hl. cbn [mbind option_bind].
  set (s1 := foldl (spp_command true) s fs) in *.
  assert (Hv : view s1 = foldl (spp_command true) (view s) fs) by apply view_commands.
  destruct (spp_commands_acc fs s) as (_ & E1 & E2 & _). fold s1 in E1, E2. clearbody s1. rewrite E1, E2.
  pose proof (parse_rest _ _ _ Hp) as Hr. pose proof (proj2 (parse_bytes _ _ _ Hp (aw_bytes _ Hwf))) as Hb.
  pose proof (f_equal length Hd) as Hlen. rewrite length_drop, length_acc_bytes in Hlen by done.
  destruct Hwf as [W1 W2 W3]. eexists. split; [reflexivity|].
  destruct (Nat.ltb_spec 0 i), (Nat.ltb_spec i (rx_acc_len s)); cbn [andb].
  - assert (Ea : take (rx_acc_len s - i) (memcpy (rx_acc s) 0 (slice (rx_acc s) i (rx_acc_len s - i))) = r).
    { pose proof (slice_acc_bytes s i (rx_acc_len s - i) 0 ltac:(lia)) as Es. rewrite Nat.add_0_r, drop_0, Hd in Es. rewrite Es.
      rewrite (take_ge r) by lia. replace (rx_acc_len s - i)%nat with (length r) by lia. apply take_memcpy_0. lia. }
    split; [split; cbn; [by rewrite length_memcpy|lia|by unfold acc_bytes; cbn; rewrite Ea]|]. split; [exact Ea|exact Hv].
  - rewrite (proj2 (Nat.leb_le _ _)) by lia. assert (r = []) as -> by (apply nil_length_inv; lia).
    split; [split; cbn; [done|unfold SPP_ACC_CAP; lia|constructor]|]. split; [done|exact Hv].
  - replace (rx_acc_len s <=? i)%nat with false by (symmetry; apply Nat.leb_gt; lia).
    rewrite (proj2 (Nat.leb_gt _ _)) by (unfold SPP_ACC_CAP, SPP_FRAME_HDR, SPP_MAX_PAYLOAD; lia).
    assert (Ep : acc_bytes s1 = r) by (unfold acc_bytes; rewrite E1, E2, <- Hd; replace i with 0%nat by lia; done).
    split; [split; [congruence|congruence|by rewrite Ep]|]. done.
  - rewrite (proj2 (Nat.leb_le _ _)) by lia. assert (r = []) as -> by (apply nil_length_inv; lia).
    split; [split; cbn; [done|unfold SPP_ACC_CAP; lia|constructor]|]. split; [done|exact Hv].
Qed.

(** Between packets: what waits is the beginning of a frame. *)
Record acc_ok (s : spp) : Prop := {
  ao_wf :: acc_wf s;
  ao_settled : parse (acc_bytes s) [] (acc_bytes s);
}.
Lemma acc_ok_len s : acc_ok s → (rx_acc_len s <= 515)%nat.
Proof. intros [Hwf Hs]. rewrite <- length_acc_bytes by done. by eapply parse_rest. Qed.

(** New bytes behind those that wait. *)
Lemma acc_bytes_append data s :
  acc_wf s → bytes_ok data → (rx_acc_len s + length data <= SPP_ACC_CAP)%nat →
  let s' := set_acc (memcpy (rx_acc s) (rx_acc_len s) data) (rx_acc_len s + length data) s in
  acc_wf s' ∧ acc_bytes s' = acc_bytes s ++ data.
Proof.
  intros [W1 W2 W3] Hb Hl s'.
  assert (Ep : acc_bytes s' = acc_bytes s ++ data).
  { unfold acc_bytes, s'. cbn [set_acc rx_acc rx_acc_len].
    rewrite <- (take_drop (rx_acc_len s) (take (rx_acc_len s + length data) (memcpy _ _ data))), take_take, Nat.min_l by lia.
    rewrite <- take_drop_commute. f_equal.
    - pose proof (slice_memcpy_other (rx_acc s) (rx_acc_len s) data 0 (rx_acc_len s)) as E. unfold slice in E. rewrite !drop_0 in E. apply E; lia.
    - apply slice_memcpy_same. lia. }
  split; [|exact Ep]. split; [cbn; by rewrite length_memcpy|exact Hl|rewrite Ep; by apply Forall_app].
Qed.
Lemma feed_accumulator_frames data s :
  acc_ok s → bytes_ok data → (rx_acc_len s + length data <= SPP_ACC_CAP)%nat →
  ∃ s', spp_feed_accumulator cmd_ack null_uuid btif data s = Some s' ∧ acc_ok s' ∧
    acc_bytes s' = (frames (acc_bytes s ++ data)).2 ∧ view s' = foldl (spp_command true) (view s) (frames (acc_bytes s ++ data)).1.
Proof.
  intros [Hwf Hs] Hb Hl. unfold spp_feed_accumulator. destruct (Nat.eqb_spec (length data) 0) as [H0|H0].
  { apply nil_length_inv in H0 as ->. rewrite app_nil_r, (parse_frames _ _ _ Hs). by exists s. }
  unfold SPP_ACC_CAP, SPP_FRAME_HDR, SPP_MAX_PAYLOAD in Hl |- *. cbn [Nat.add] in Hl |- *.
  rewrite u32_id by lia. rewrite (proj2 (Z.ltb_ge _ _)) by lia. rewrite (proj2 (Nat.ltb_ge _ _)) by lia.
  destruct (acc_bytes_append data s Hwf Hb Hl) as [Hwf' Ep].
  destruct (process_accumulator_frames _ Hwf') as (s' & -> & Hw & Hp & Hv). rewrite Ep in Hp, Hv.
  exists s'. split; [done|]. split; [split; [done|]|done]. rewrite Hp. eapply parse_settled, frames_parse.
Qed.

(** ** One packet after the other *)

Definition spp_packet (st : spp * list Z) (data : list Z) : spp * list Z :=
  let '(v, p) := st in
  if is_bare data then (spp_command false v data, p)
  else let '(fs, r) := frames (p ++ data) in (foldl (spp_command true) v fs, r).
Fixpoint receive_all (l : list (list Z)) (s : spp) : option spp :=
  match l with [] => Some s | d :: l => s ← bridge_spp_receive_data_cb cmd_ack null_uuid btif d s; receive_all l s end.

Lemma bare_head data : is_bare data = true → ∃ sub rest, data = 0xD2 :: sub :: rest ∧ (length rest <= 14)%nat.
Proof.
  unfold is_bare. rewrite !andb_true_iff. intros [[[H1 H2] H3] _]. apply Nat.leb_le in H1, H2. apply Z.eqb_eq in H3.
  destruct data as [|a [|b rest]]; [cbn [length] in H1; lia..|]. change (getb (a :: b :: rest) 0) with a in H3. subst a.
  exists b, rest. cbn [length] in H2. split; [done|lia].
Qed.
Lemma spp_command_bytes framed s payload : acc_bytes (spp_command framed s payload) = acc_bytes s.
Proof. unfold acc_bytes. destruct (spp_command_acc framed payload s) as (_ & -> & -> & _). done. Qed.
Lemma receive_packet data s :
  acc_ok s → bytes_ok data → is_bare data = true ∨ (rx_acc_len s + length data <= SPP_ACC_CAP)%nat →
  ∃ s', bridge_spp_receive_data_cb cmd_ack null_uuid btif data s = Some s' ∧ acc_ok s' ∧
    (view s', acc_bytes s') = spp_packet (view s, acc_bytes s) data.
Proof.
  intros Hok Hb Hl. unfold bridge_spp_receive_data_cb, spp_try_bare_cmd, spp_packet. destruct (is_bare data) eqn:E.
  - destruct (bare_head _ E) as (sub & rest & -> & Hr). rewrite dispatch_command; [|apply Forall_cons_1 in Hb as [_ Hb]; by apply Forall_cons_1 in Hb as [Hb _]|lia].
    cbn [mbind option_bind]. eexists. split; [reflexivity|].
    destruct Hok as [[W1 W2 W3] Hs]. destruct (spp_command_acc false (0xD2 :: sub :: rest) s) as (_ & E1 & E2 & _).
    split; [split; [split; [congruence|congruence|]|]; by rewrite spp_command_bytes|].
    rewrite spp_command_bytes. unfold view. by rewrite spp_command_set_acc.
  - destruct Hl as [?|Hl]; [done|]. cbn [mbind option_bind].
    destruct (feed_accumulator_frames data s Hok Hb Hl) as (s' & -> & Hok' & Hp & Hv). exists s'. rewrite Hp, Hv. split; [done|]. split; [done|].
    by destruct (frames (acc_bytes s ++ data)).
Qed.
Lemma receive_packets l : ∀ s,
  acc_ok s → Forall (λ d, bytes_ok d ∧ (length d <= 64)%nat) l →
  ∃ s', receive_all l s = Some s' ∧ acc_ok s' ∧ (view s', acc_bytes s') = foldl spp_packet (view s, acc_bytes s) l.
Proof.
  induction l as [|d l IH]; intros s Hok Hl; [by exists s|]. apply Forall_cons_1 in Hl as [[Hb Hd] Hl]. cbn [receive_all foldl].
  destruct (receive_packet d s Hok Hb) as (s1 & -> & Hok1 & E1).
  { right. pose proof (acc_ok_len s Hok). unfold SPP_ACC_CAP, SPP_FRAME_HDR, SPP_MAX_PAYLOAD. lia. }
  cbn [mbind option_bind]. destruct (IH s1 Hok1 Hl) as (s' & -> & Hok' & E'). exists s'. by rewrite <- E1.
Qed.

(** Packets that are not bare commands make one stream. *)
Lemma packets_stream l : ∀ v p,
  Forall (λ d, is_bare d = false) l → parse p [] p →
  foldl spp_packet (v, p) l = (foldl (spp_command true) v (frames (p ++ concat l)).1, (frames (p ++ concat l)).2).
Proof.
  induction l as [|d l IH]; intros v p Hl Hp.
  { cbn [foldl concat]. by rewrite app_nil_r, (parse_frames _ _ _ Hp). }
  apply Forall_cons_1 in Hl as [Hd Hl]. cbn [foldl concat]. unfold spp_packet at 2. rewrite Hd.
  pose proof (frames_parse (p ++ d)) as H1. destruct (frames (p ++ d)) as [fs r]. cbn [fst snd] in H1.
  rewrite IH by (done || by eapply parse_settled).
  pose proof (frames_parse (r ++ concat l)) as H2. pose proof (parse_app _ _ _ _ _ _ H1 H2) as H3.
  rewrite <- (assoc_L (++)) in H3. apply parse_frames in H3. rewrite H3. cbn [fst snd]. by rewrite foldl_app.
Qed.

(** ** From the start of the firmware *)

Definition spp_boot (w : W) : spp :=
  mk_spp (replicate BTMGR_MAX_SPP_NUM uuid_cb_clear) (replicate SPP_ACC_CAP 0) 0 false 0 [] w.
Fixpoint spp_events (l : list btsrv_spp_event) (id : Z) (s : spp) : option spp :=
  match l with [] => Some s | e :: l => s ← bt_manager_spp_callback cmd_ack null_uuid btif e id s; spp_events l id s end.

(** The service is registered in the first entry, and a phone is connected. *)
Definition service_entry : btmgr_uuid_cb := mk_uuid_cb true false 0x80 (Some spp_service_uuid) true.
Definition spp_connected (w : W) : spp :=
  mk_spp (service_entry :: replicate 3 uuid_cb_clear) (replicate SPP_ACC_CAP 0) 0 true 0x80
    [btif_spp_reg 0x80 spp_service_uuid] w.

Lemma connected_after_init w :
  btif (btif_spp_reg 0x80 spp_service_uuid) = 0 → null_uuid ≠ spp_service_uuid →
  bt_manager_spp_callback cmd_ack null_uuid btif BTSRV_SPP_CONNECTED 0x80
    (system_app_spp_uart_bridge_init null_uuid btif (spp_boot w)) = Some (spp_connected w).
Proof.
  intros Hreg Hnull. unfold system_app_spp_uart_bridge_init. cbn [spp_boot spp_registered].
  assert (E : bt_manager_spp_reg_uuid null_uuid btif spp_service_uuid (spp_boot w) =
    (0, mk_spp (set_connected false service_entry :: replicate 3 uuid_cb_clear) (replicate SPP_ACC_CAP 0) 0 false 0
      [btif_spp_reg 0x80 spp_service_uuid] w)).
  { unfold bt_manager_spp_reg_uuid.
    assert (Hf : bt_manager_spp_find null_uuid 0 (Some spp_service_uuid) (spp_uuid_cb (spp_boot w)) =
      (None, replicate BTMGR_MAX_SPP_NUM uuid_cb_clear)).
    { unfold bt_manager_spp_find. cbn [Z.eqb negb]. f_equal. cbn. by rewrite !decide_False by done. }
    assert (Hg : bt_manager_spp_find null_uuid 0 None (spp_uuid_cb (spp_boot w)) =
      (Some 0%nat, mk_uuid_cb false false 0x80 None false :: replicate 3 uuid_cb_clear)) by reflexivity.
    rewrite Hf, Hg. cbv zeta. match goal with |- context [btif ?c] => change c with (btif_spp_reg 0x80 spp_service_uuid) end.
    rewrite Hreg. reflexivity. }
  rewrite E. reflexivity.
Qed.

(** Packets leave the table as it is. *)
Lemma packet_table v p d : spp_uuid_cb (spp_packet (v, p) d).1 = spp_uuid_cb v.
Proof.
  unfold spp_packet. destruct (is_bare d); [apply spp_command_acc|]. destruct (frames (p ++ d)) as [fs r]. apply spp_commands_acc.
Qed.

(** Data of the phone reaches the bridge. *)
Lemma data_events l : ∀ s,
  acc_ok s → Forall (λ d, bytes_ok d ∧ (length d <= 64)%nat) l → spp_uuid_cb s !! 0%nat = Some service_entry →
  spp_events (BTSRV_SPP_DATA_INDICATED <$> l) 0x80 s = receive_all l s.
Proof.
  induction l as [|d l IH]; intros s Hok Hl Hs; [done|]. cbn [fmap list_fmap spp_events receive_all].
  apply Forall_cons_1 in Hl as [[Hb Hd] Hl].
  assert (E : bt_manager_spp_callback cmd_ack null_uuid btif (BTSRV_SPP_DATA_INDICATED d) 0x80 s =
    bridge_spp_receive_data_cb cmd_ack null_uuid btif d s).
  { unfold bt_manager_spp_callback, bt_manager_spp_find. cbn [Z.eqb negb]. destruct s as [t acc n rg ch out w]. cbn [spp_uuid_cb] in *.
    destruct t as [|e t]; [done|]. injection Hs as ->. reflexivity. }
  rewrite E. destruct (receive_packet d s Hok Hb) as (s1 & -> & Hok1 & E1).
  { right. pose proof (acc_ok_len s Hok). unfold SPP_ACC_CAP, SPP_FRAME_HDR, SPP_MAX_PAYLOAD. lia. }
  cbn [mbind option_bind]. apply IH; [done|done|]. apply (f_equal (λ x, spp_uuid_cb x.1)) in E1.
  rewrite packet_table in E1. cbn in E1. by rewrite E1.
Qed.

Lemma connected_acc_ok w : acc_ok (spp_connected w) ∧ acc_bytes (spp_connected w) = [].
Proof.
  assert (E : acc_bytes (spp_connected w) = []) by done. split; [|done].
  split; [split; [done|apply Nat.le_0_l|rewrite E; constructor]|]. rewrite E. apply parse_short. cbn. lia.
Qed.

(** ** Commands in frames *)

Definition cmd_frame (sub : Z) : list Z := [SPP_SYNC0; SPP_SYNC1; 0; 2; 0xD2; sub].
Lemma parse_cmds subs : parse (subs ≫= cmd_frame) ((λ c, [0xD2; c]) <$> subs) [].
Proof.
  induction subs as [|c subs IH]; [by apply (parse_short []); apply Nat.lt_0_succ|]. cbn [fmap list_fmap]. rewrite bind_cons.
  apply (parse_frame 0 2 (0xD2 :: c :: (subs ≫= cmd_frame))); [..|exact IH];
    change (frame_len 0 2) with 2%nat; unfold SPP_MAX_PAYLOAD; cbn [length]; lia.
Qed.

(** The results of commands in a row. *)
Fixpoint run_cmds (subs : list Z) (w : W) : list Z * W :=
  match subs with
  | [] => ([], w)
  | c :: subs => let '(ret, w) := remote_cmd c w in let '(rets, w) := run_cmds subs w in (ret :: rets, w)
  end.
Definition framed_ack (c ret : Z) : btif_call :=
  btif_spp_send_data 0x80 [SPP_SYNC0; SPP_SYNC1; 0; 4; 0xD2; 0x80; c; spp_ack_status_from_ret ret].

Lemma run_commands subs : ∀ s,
  spp_uuid_cb s !! 0%nat = Some service_entry → spp_channel s = 0x80 →
  let '(rets, w) := run_cmds subs (spp_world s) in
  let s' := foldl (spp_command true) s ((λ c, [0xD2; c]) <$> subs) in
  spp_world s' = w ∧ btif_out s' = btif_out s ++ if cmd_ack then zip_with framed_ack subs rets else [].
Proof.
  induction subs as [|c subs IH]; intros s Ht Hc; [cbn; destruct cmd_ack; by rewrite app_nil_r|].
  cbn [run_cmds fmap list_fmap foldl]. destruct (spp_command_acc true [0xD2; c] s) as (E1 & _ & _ & E2 & _).
  specialize (IH (spp_command true s [0xD2; c]) ltac:(congruence) ltac:(congruence)).
  assert (Es : spp_world (spp_command true s [0xD2; c]) = (remote_cmd c (spp_world s)).2 ∧
    btif_out (spp_command true s [0xD2; c]) = btif_out s ++ if cmd_ack then [framed_ack c (remote_cmd c (spp_world s)).1] else []).
  { unfold spp_command. cbn [Z.eqb Pos.eqb]. destruct (remote_cmd c (spp_world s)) as [ret w]. cbn [fst snd]. destruct cmd_ack; [|by rewrite app_nil_r].
    unfold spp_send_cmd_ack. cbn [set_spp_world spp_channel]. rewrite Hc. cbn [Z.eqb]. unfold bt_manager_spp_send_data, bt_manager_spp_find.
    cbn [Z.eqb negb set_spp_world spp_uuid_cb]. destruct s as [t acc n rg ch out w0]. cbn [spp_uuid_cb] in *.
    destruct t as [|e t]; [done|]. injection Ht as ->. done. }
  destruct Es as [Ew Eo]. rewrite Ew in IH. destruct (remote_cmd c (spp_world s)) as [ret w]. cbn [fst snd] in *.
  destruct (run_cmds subs w) as [rets w']. destruct IH as [-> ->]. split; [done|]. rewrite Eo, <- (assoc_L (++)). f_equal. by destruct cmd_ack.
Qed.
End refinement.

(** ** Theorems *)

Section theorems.
Context {W : Type} `{!BtApi W} (cmd_ack : bool) (null_uuid : list Z) (btif : btif_call → Z).

(** C12: From registration on, the packets of a connection do what a reference
    parser says: it cuts the concatenated bytes into frames, skips what is
    none, and leaves an incomplete frame in the accumulator; unframed commands
    are taken packet by packet. The callback never fails on packets of at most
    64 bytes. *)
Theorem spp_packets_refine_stream (w : W) l :
  btif (btif_spp_reg 0x80 spp_service_uuid) = 0 → null_uuid ≠ spp_service_uuid →
  Forall (λ d, bytes_ok d ∧ (length d <= 64)%nat) l →
  ∃ s', spp_events cmd_ack null_uuid btif (BTSRV_SPP_CONNECTED :: (BTSRV_SPP_DATA_INDICATED <$> l)) 0x80
          (system_app_spp_uart_bridge_init null_uuid btif (spp_boot w)) = Some s' ∧
    (view s', acc_bytes s') = foldl (spp_packet cmd_ack null_uuid btif) (view (spp_connected w), []) l ∧
    (Forall (λ d, is_bare d = false) l →
       view s' = foldl (spp_command cmd_ack null_uuid btif true) (view (spp_connected w)) (frames (concat l)).1 ∧
       acc_bytes s' = (frames (concat l)).2).
Proof.
  intros Hreg Hnull Hl. cbn [spp_events]. rewrite connected_after_init by done. cbn [mbind option_bind].
  destruct (connected_acc_ok w) as [Hok Hp]. rewrite data_events by done.
  destruct (receive_packets cmd_ack null_uuid btif l _ Hok Hl) as (s' & -> & _ & E). rewrite Hp in E. exists s'. split; [done|]. split; [done|].
  intros Hb. rewrite (packets_stream cmd_ack null_uuid btif l _ [] Hb) in E by (apply parse_short; cbn; lia). by simplify_eq.
Qed.

(** C11: Commands sent in frames over the Bluetooth serial port are carried out,
    all and in order, and each is acknowledged with its result when the
    acknowledge is built in, however the byte stream is cut into packets of at
    most 64 bytes, as long as no packet by itself looks like an unframed
    command. *)
Theorem spp_commands_delivered (w : W) subs l :
  btif (btif_spp_reg 0x80 spp_service_uuid) = 0 → null_uuid ≠ spp_service_uuid → bytes_ok subs →
  concat l = subs ≫= cmd_frame → Forall (λ d, (length d <= 64)%nat ∧ is_bare d = false) l →
  ∃ s', spp_events cmd_ack null_uuid btif (BTSRV_SPP_CONNECTED :: (BTSRV_SPP_DATA_INDICATED <$> l)) 0x80
          (system_app_spp_uart_bridge_init null_uuid btif (spp_boot w)) = Some s' ∧
    rx_acc_len s' = 0%nat ∧ spp_world s' = (run_cmds subs w).2 ∧
    btif_out s' = btif_spp_reg 0x80 spp_service_uuid :: if cmd_ack then zip_with framed_ack subs (run_cmds subs w).1 else [].
Proof.
  intros Hreg Hnull Hs Hc Hl. cbn [spp_events]. rewrite connected_after_init by done. cbn [mbind option_bind].
  assert (Hb : Forall bytes_ok l).
  { apply Forall_forall. intros d Hd. assert (bytes_ok (concat l)) as Hcb.
    { rewrite Hc. clear -Hs. induction Hs as [|c subs Hc Hs IH]; [constructor|]. rewrite bind_cons. apply Forall_app_2; [by_decide || idtac|done].
      repeat (constructor; [by_decide || done|]). constructor. }
    unfold bytes_ok in *. rewrite Forall_concat in Hcb. rewrite Forall_forall in Hcb. by apply Hcb. }
  destruct (connected_acc_ok w) as [Hok Hp].
  assert (Hl1 : Forall (λ d, bytes_ok d ∧ (length d <= 64)%nat) l).
  { rewrite Forall_forall in Hb, Hl |- *. intros d Hd. split; [by apply Hb|by apply Hl]. }
  assert (Hl2 : Forall (λ d, is_bare d = false) l) by (rewrite Forall_forall in Hl |- *; intros d Hd; by apply Hl).
  rewrite data_events by done. destruct (receive_packets cmd_ack null_uuid btif l _ Hok Hl1) as (s' & -> & [Hwf _] & E). rewrite Hp in E.
  rewrite (packets_stream cmd_ack null_uuid btif l _ [] Hl2) in E by (apply parse_short; cbn; lia). cbn [app] in E.
  rewrite Hc, (parse_frames _ _ _ (parse_cmds subs)) in E. cbn [fst snd] in E.
  pose proof (run_commands cmd_ack null_uuid btif subs (view (spp_connected w)) eq_refl eq_refl) as Hr.
  cbn [view set_acc spp_world btif_out spp_connected] in Hr. 
  destruct (run_cmds subs w) as [rets w']. destruct Hr as [Hw Ho]. exists s'. split; [done|].
  injection E as Ev Ep. split; [by rewrite <- length_acc_bytes, Ep by done|].
  change (spp_world s') with (spp_world (view s')). change (btif_out s') with (btif_out (view s')). by rewrite Ev, Hw, Ho.
Qed.

(** C36: The receive callback writes behind the accumulator exactly for packets of
    more than 580 bytes: the flush of a full accumulator is not followed by a
    check of the packet itself. *)
Theorem spp_packet_overflow (s : @spp W) data :
  acc_ok s → bytes_ok data →
  bridge_spp_receive_data_cb cmd_ack null_uuid btif data s = None ↔ 580 < Z.of_nat (length data).
Proof.
  intros Hok Hb. assert (Hcap : SPP_ACC_CAP = 580%nat) by done. split.
  - intros Hn. destruct (Z.lt_ge_cases 580 (Z.of_nat (length data))) as [?|Hle]; [done|]. exfalso.
    destruct (Nat.le_gt_cases (rx_acc_len s + length data) 580) as [Hfit|Hfull].
    { destruct (receive_packet cmd_ack null_uuid btif data s Hok Hb) as (s' & E & _); [right; lia|]. congruence. }
    pose proof (acc_ok_len s Hok). destruct (is_bare data) eqn:Eb; [destruct (bare_head _ Eb) as (? & ? & -> & ?); cbn [length] in Hfull; lia|].
    revert Hn. unfold bridge_spp_receive_data_cb, spp_try_bare_cmd. rewrite Eb. cbn [mbind option_bind].
    unfold spp_feed_accumulator. rewrite (proj2 (Nat.eqb_neq _ _)) by lia. rewrite u32_id, Hcap by lia.
    rewrite (proj2 (Z.ltb_lt _ _)), (proj2 (Nat.ltb_ge _ _)) by lia.
    set (s0 := set_acc (rx_acc s) 0 s). assert (Hwf0 : acc_wf s0).
    { destruct Hok as [[W1 W2 W3] _]. split; [done|apply Nat.le_0_l|constructor]. }
    destruct (acc_bytes_append data s0 Hwf0 Hb ltac:(cbn; lia)) as [Hwf' _].
    destruct (process_accumulator_frames cmd_ack null_uuid btif _ Hwf') as (s' & E & _). intros Hn. discriminate (eq_trans (eq_sym E) Hn : Some s' = None).
  - intros Hlen. unfold bridge_spp_receive_data_cb, spp_try_bare_cmd. destruct (is_bare data) eqn:Eb.
    { destruct (bare_head _ Eb) as (? & ? & -> & ?). cbn [length] in Hlen. lia. }
    cbn [mbind option_bind]. unfold spp_feed_accumulator. rewrite (proj2 (Nat.eqb_neq _ _)) by lia.
    rewrite (proj2 (Nat.ltb_lt _ _)); [done|]. rewrite Hcap. lia.
Qed.

(** When the payload of a framed command comes in a packet of its own it is
    taken for an unframed command, the header stays in the accumulator, and
    the framed command after it is not carried out. *)
Theorem spp_split_frame_loses_next (w : W) a b :
  btif (btif_spp_reg 0x80 spp_service_uuid) = 0 → null_uuid ≠ spp_service_uuid → is_u8 a → is_u8 b →
  let l := [[SPP_SYNC0; SPP_SYNC1; 0; 2]; [0xD2; a]; cmd_frame b] in
  concat l = [a; b] ≫= cmd_frame ∧
  ∃ s', spp_events cmd_ack null_uuid btif (BTSRV_SPP_CONNECTED :: (BTSRV_SPP_DATA_INDICATED <$> l)) 0x80
          (system_app_spp_uart_bridge_init null_uuid btif (spp_boot w)) = Some s' ∧
    spp_world s' = (remote_cmd a w).2.
Proof.
  intros Hreg Hnull Ha Hb l. split; [done|].
  assert (Hl : Forall (λ d, bytes_ok d ∧ (length d <= 64)%nat) l).
  { repeat (constructor; [split; [repeat (constructor; [by_decide || done|]); constructor|cbn; lia]|]). constructor. }
  cbn [spp_events]. rewrite connected_after_init by done. cbn [mbind option_bind].
  destruct (connected_acc_ok w) as [Hok Hp]. rewrite data_events by done.
  destruct (receive_packets cmd_ack null_uuid btif l _ Hok Hl) as (s' & -> & _ & E). rewrite Hp in E. exists s'. split; [done|].
  change (spp_world s') with (spp_world (view s')). apply (f_equal (λ x, spp_world x.1)) in E. cbn [fst] in E. rewrite E. clear.
  subst l. unfold foldl, spp_packet.
  assert (Ef : frames ([] ++ [SPP_SYNC0; SPP_SYNC1; 0; 2]) = ([], [SPP_SYNC0; SPP_SYNC1; 0; 2])) by done.
  assert (Eg : frames ([SPP_SYNC0; SPP_SYNC1; 0; 2] ++ cmd_frame b) = ([[SPP_SYNC0; SPP_SYNC1]], [2; 0xD2; b])) by done.
  replace (is_bare [SPP_SYNC0; SPP_SYNC1; 0; 2]) with false by done. replace (is_bare [0xD2; a]) with true by done.
  replace (is_bare (cmd_frame b)) with false by done. rewrite Ef, Eg. cbn [fst foldl].
  set (v := view (spp_connected w)). unfold spp_command at 1. replace (SPP_SYNC0 =? 0xD2) with false by done. cbv iota.
  unfold spp_command. replace (0xD2 =? 0xD2) with true by done. change (spp_world v) with w.
  destruct (remote_cmd a w) as [ret w']. destruct cmd_ack; [|done]. unfold spp_send_cmd_ack, bt_manager_spp_send_data. by repeat case_match.
Qed.
End theorems.

(** ** Witnesses *)

#[local] Instance sample_api : BtApi (list remote_call) := bt_trace (λ _, 0).
Definition sample_btif (_ : btif_call) : Z := 0.

Lemma spp_packets_refine_stream_witness :
  ∃ s', spp_events true [] sample_btif [BTSRV_SPP_CONNECTED; BTSRV_SPP_DATA_INDICATED [0xA5; 0x5A; 0]; BTSRV_SPP_DATA_INDICATED [2; 0xD2; 5]]
          0x80 (system_app_spp_uart_bridge_init [] sample_btif (spp_boot [])) = Some s' ∧ spp_world s' = [bt_manager_volume_up].
Proof.
  destruct (spp_packets_refine_stream true [] sample_btif ([] : list remote_call) [[0xA5; 0x5A; 0]; [2; 0xD2; 5]]) as (s' & E & H & _);
    [reflexivity|discriminate|by_decide|].
  exists s'. split; [exact E|]. apply (f_equal (λ x, spp_world x.1)) in H. cbn [fst] in H. rewrite (eq_refl : spp_world s' = spp_world (view s')), H. reflexivity.
Defined.
Lemma spp_commands_delivered_witness :
  ∃ s', spp_events true [] sample_btif (BTSRV_SPP_CONNECTED :: (BTSRV_SPP_DATA_INDICATED <$> [[0xA5; 0x5A; 0]; [2; 0xD2; 1; 0xA5]; [0x5A; 0; 2; 0xD2; 6]]))
          0x80 (system_app_spp_uart_bridge_init [] sample_btif (spp_boot [])) = Some s' ∧
    rx_acc_len s' = 0%nat ∧ spp_world s' = [bt_manager_media_play_next; bt_manager_volume_down] ∧
    btif_out s' = btif_spp_reg 0x80 spp_service_uuid :: [framed_ack 1 0; framed_ack 6 0].
Proof.
  exact (spp_commands_delivered true [] sample_btif ([] : list remote_call) [1; 6] [[0xA5; 0x5A; 0]; [2; 0xD2; 1; 0xA5]; [0x5A; 0; 2; 0xD2; 6]]
    eq_refl ltac:(discriminate) ltac:(by_decide) eq_refl ltac:(by_decide)).
Defined.
Lemma spp_packet_overflow_witness :
  bridge_spp_receive_data_cb true [] sample_btif (replicate 581 0) (spp_connected ([] : list remote_call)) = None.
Proof.
  apply (spp_packet_overflow true [] sample_btif (spp_connected []) (replicate 581 0)); [apply connected_acc_ok|by_decide|reflexivity].
Defined.
Lemma spp_split_frame_loses_next_witness :
  ∃ s', spp_events false [] sample_btif (BTSRV_SPP_CONNECTED :: (BTSRV_SPP_DATA_INDICATED <$> [[0xA5; 0x5A; 0; 2]; [0xD2; 1]; [0xA5; 0x5A; 0; 2; 0xD2; 5]]))
          0x80 (system_app_spp_uart_bridge_init [] sample_btif (spp_boot [])) = Some s' ∧ spp_world s' = [bt_manager_media_play_next].
Proof.
  exact (proj2 (spp_split_frame_loses_next false [] sample_btif ([] : list remote_call) 1 5 eq_refl ltac:(discriminate) ltac:(by_decide) ltac:(by_decide))).
Defined.
