(* ===== verification/HeadphoneDetect.v ===== *)
(** * Headphone detection

    samples/bt_speaker/src/system_app/system_app_headphone_detect.c: every 100 ms a
    delayed work reads the switch of the headphone socket on GPIO 4 and mutes or
    unmutes the loudspeakers through the amplifier driver of Acm8635.v.

    The pin: its control register can be overwritten by other code.  As an input
    with pull-up the pin is low exactly when a plug is in; what it reads in another
    configuration is the parameter [pad]. *)

From stdpp Require Import base numbers list option gmap.
From S2P Require Import Prelude I2cBitbang Acm8635Regs Acm8635.
Local Open Scope Z_scope.

Definition GPIO_CTL_MFP_MASK : Z := 0xf.
Definition GPIO_CTL_MFP_GPIO : Z := 0.
Definition GPIO_CTL_SMIT : Z := 0x20.
Definition GPIO_CTL_GPIO_OUTEN : Z := 0x40.
Definition GPIO_CTL_GPIO_INEN : Z := 0x80.
Definition GPIO_CTL_PULLUP : Z := 0x800.

Definition HP_DETECT_POLL_MS : Z := 100.
Definition HP_DETECT_LOG_INTERVAL_MS : Z := 2000.
Definition HP_ACM8635_PAGE_REG : Z := 0x00.
Definition HP_ACM8635_PAGE0 : Z := 0x00.
Definition HP_ACM8635_CTRL_REG : Z := 0x04.
Definition HP_ACM8635_CTRL_MUTE : Z := 0x0e.
Definition HP_ACM8635_CTRL_PLAY : Z := 0x03.

Definition hp_gpio4_ctl_valid (ctl : Z) : bool :=
  if negb (Z.land ctl GPIO_CTL_GPIO_OUTEN =? 0) then false
  else if Z.land ctl GPIO_CTL_GPIO_INEN =? 0 then false
  else if Z.land ctl GPIO_CTL_PULLUP =? 0 then false
  else if negb (Z.land ctl GPIO_CTL_MFP_MASK =? GPIO_CTL_MFP_GPIO) then false
  else true.

(** [hp_ctl]: the control register of the pin, [hp_plug]: a plug is in the socket,
    [hp_amp]: the amplifier device, when there is one, [hp_work]: the deadline of
    the work. *)
Record hp (W : Type) := mk_hp {
  hp_prev_inserted : bool;
  hp_last_log_ms : Z;
  hp_work : option Z;
  hp_ctl : Z;
  hp_plug : bool;
  hp_amp : option (acm W);
}.
Arguments mk_hp {_} _ _ _ _ _ _.
Arguments hp_prev_inserted {_} _.
Arguments hp_last_log_ms {_} _.
Arguments hp_work {_} _.
Arguments hp_ctl {_} _.
Arguments hp_plug {_} _.
Arguments hp_amp {_} _.

Section driver.
Context {W : Type} `{!I2cDrv W} `{!I2cIo W} (pad : Z → bool → bool).
Implicit Types s : hp W.

Definition set_prev (b : bool) (s : hp W) : hp W :=
  mk_hp b (hp_last_log_ms s) (hp_work s) (hp_ctl s) (hp_plug s) (hp_amp s).
Definition set_log (t : Z) (s : hp W) : hp W :=
  mk_hp (hp_prev_inserted s) t (hp_work s) (hp_ctl s) (hp_plug s) (hp_amp s).
Definition set_hp_work (d : option Z) (s : hp W) : hp W :=
  mk_hp (hp_prev_inserted s) (hp_last_log_ms s) d (hp_ctl s) (hp_plug s) (hp_amp s).
Definition set_ctl (c : Z) (s : hp W) : hp W :=
  mk_hp (hp_prev_inserted s) (hp_last_log_ms s) (hp_work s) c (hp_plug s) (hp_amp s).
Definition set_plug (b : bool) (s : hp W) : hp W :=
  mk_hp (hp_prev_inserted s) (hp_last_log_ms s) (hp_work s) (hp_ctl s) b (hp_amp s).
Definition set_amp (a : option (acm W)) (s : hp W) : hp W :=
  mk_hp (hp_prev_inserted s) (hp_last_log_ms s) (hp_work s) (hp_ctl s) (hp_plug s) a.

(** [GPIO_CTL_PADDRV_LEVEL(0)] is 0. *)
Definition hp_gpio4_configure (s : hp W) : hp W :=
  set_ctl (Z.lor GPIO_CTL_MFP_GPIO (Z.lor GPIO_CTL_GPIO_INEN (Z.lor GPIO_CTL_PULLUP GPIO_CTL_SMIT))) s.
Definition hp_gpio4_read_ctl (s : hp W) : Z := hp_ctl s.
Definition hp_gpio4_read_level (s : hp W) : bool :=
  if hp_gpio4_ctl_valid (hp_ctl s) then negb (hp_plug s) else pad (hp_ctl s) (hp_plug s).
Definition hp_gpio4_ensure_config (s : hp W) : hp W :=
  if negb (hp_gpio4_ctl_valid (hp_gpio4_read_ctl s)) then hp_gpio4_configure s else s.
Definition hp_is_inserted (s : hp W) : bool := negb (hp_gpio4_read_level s).

Definition hp_apply_amp_state (inserted : bool) (s : hp W) : hp W :=
  match hp_amp s with
  | None => s
  | Some a =>
      let a := (acm8635_amp_set_reg HP_ACM8635_PAGE_REG HP_ACM8635_PAGE0 a).2 in
      let a := (acm8635_amp_set_reg HP_ACM8635_CTRL_REG (if inserted then HP_ACM8635_CTRL_MUTE else HP_ACM8635_CTRL_PLAY) a).2 in
      set_amp (Some a) s
  end.

(** The line itself is log output. *)
Definition hp_log_gpio4_status (now : Z) (force : bool) (s : hp W) : hp W :=
  if negb force && (u32 (now - hp_last_log_ms s) <? HP_DETECT_LOG_INTERVAL_MS) then s else set_log now s.

Definition hp_detect_work_handler (now : Z) (s : hp W) : hp W :=
  let s := hp_gpio4_ensure_config s in
  let inserted := hp_is_inserted s in
  let s :=
    if negb (Bool.eqb inserted (hp_prev_inserted s)) then
      hp_log_gpio4_status now true (hp_apply_amp_state inserted (set_prev inserted s))
    else hp_log_gpio4_status now false s in
  set_hp_work (Some (now + HP_DETECT_POLL_MS)) s.

Definition system_app_headphone_detect_init (now : Z) (s : hp W) : hp W :=
  let s := hp_gpio4_configure s in
  let s := set_prev (hp_is_inserted s) s in
  let s := set_log now s in
  set_hp_work (Some (now + HP_DETECT_POLL_MS)) s.
End driver.

(** ** What happens around it *)

Section runs.
Context {W R : Type} `{!I2cDrv W} `{!I2cIo W} `{!RegChip R} `{!RegBus W R} `{!AcmChip R} (pad : Z → bool → bool).

(** The plug moves, other code writes the control register of the pin, the work
    runs. *)
Inductive hp_event :=
  | Plug (b : bool)
  | Overwrite (ctl : Z)
  | Poll (now : Z).
Definition hp_step (s : hp W) (e : hp_event) : hp W :=
  match e with
  | Plug b => set_plug b s
  | Overwrite c => set_ctl c s
  | Poll now => hp_detect_work_handler pad now s
  end.

(** What the works saw: the plug at each of them. *)
Fixpoint polled (plug : bool) (es : list hp_event) : list bool :=
  match es with
  | [] => []
  | Plug b :: es => polled b es
  | Overwrite _ :: es => polled plug es
  | Poll _ :: es => plug :: polled plug es
  end.

Definition speaker_ctrl (inserted : bool) : Z := if inserted then HP_ACM8635_CTRL_MUTE else HP_ACM8635_CTRL_PLAY.

(** The amplifier is there, and its chip shows [f]. *)
Definition hp_shows (s : hp W) (f : Z → Z → Z) : Prop := ∃ a, hp_amp s = Some a ∧ shows a f.

Lemma configured_level (s : hp W) : hp_is_inserted pad (hp_gpio4_ensure_config s) = hp_plug s.
Proof.
  unfold hp_gpio4_ensure_config, hp_gpio4_read_ctl, hp_is_inserted, hp_gpio4_read_level.
  destruct (hp_gpio4_ctl_valid (hp_ctl s)) eqn:E; cbn [negb]; [by rewrite E, negb_involutive|].
  change (hp_gpio4_ctl_valid (hp_ctl (hp_gpio4_configure s))) with true. apply negb_involutive.
Qed.
Lemma apply_amp_shows b (s : hp W) f :
  hp_shows s f → hp_shows (hp_apply_amp_state b s) (with_ctrl (speaker_ctrl b) f).
Proof.
  intros (a & Ha & Hs). unfold hp_apply_amp_state. rewrite Ha.
  destruct (write_all_shows [(0, 0); (4, speaker_ctrl b)] a f 0 [(4, speaker_ctrl b)] Hs eq_refl) as [Hw _];
    [done|destruct b; cbn; split_and!; try done; left; by right|].
  eexists. split; [reflexivity|]. destruct b; exact Hw.
Qed.

(** One poll. *)
Lemma poll_shows now (s : hp W) f :
  hp_shows s f →
  let s' := hp_detect_work_handler pad now s in
  hp_prev_inserted s' = hp_plug s ∧ hp_plug s' = hp_plug s ∧ hp_work s' = Some (now + HP_DETECT_POLL_MS) ∧
  hp_shows s' (if Bool.eqb (hp_plug s) (hp_prev_inserted s) then f else with_ctrl (speaker_ctrl (hp_plug s)) f).
Proof.
  intros Hs. unfold hp_detect_work_handler. rewrite configured_level.
  set (s1 := hp_gpio4_ensure_config s).
  assert (E : hp_prev_inserted s1 = hp_prev_inserted s ∧ hp_plug s1 = hp_plug s ∧ hp_amp s1 = hp_amp s).
  { subst s1. unfold hp_gpio4_ensure_config. by destruct (negb _). }
  destruct E as (E1 & E2 & E3). rewrite E1.
  assert (Hs1 : hp_shows s1 f) by (destruct Hs as (a & Ha & Hf); exists a; split; [congruence|done]). clearbody s1.
  destruct (Bool.eqb (hp_plug s) (hp_prev_inserted s)) eqn:Eb; cbn [negb].
  - apply Bool.eqb_prop in Eb. unfold hp_log_gpio4_status. destruct (_ && _); cbn; split_and!; congruence || done.
  - pose proof (apply_amp_shows (hp_plug s) (set_prev (hp_plug s) s1) f Hs1) as Ha. rewrite <- E2.
    unfold hp_apply_amp_state in *. cbn [set_prev hp_amp] in *. rewrite E2 in *. destruct (hp_amp s1) as [a|]; cbn; split_and!; done.
Qed.

(** Several polls. *)
Definition latest (b : bool) (l : list bool) : bool := foldl (λ _ x, x) b l.
Lemma latest_same b l : forallb (Bool.eqb b) l = true → latest b l = b.
Proof.
  induction l as [|x l IH]; [done|]. cbn [forallb]. intros [->%Bool.eqb_prop H]%andb_prop. by apply IH.
Qed.
Lemma run_shows es : ∀ (s : hp W) f,
  hp_shows s f →
  let s' := foldl hp_step s es in
  let l := polled (hp_plug s) es in
  ∃ f', hp_shows s' f' ∧ hp_prev_inserted s' = latest (hp_prev_inserted s) l ∧
    f' 0 4 = (if forallb (Bool.eqb (hp_prev_inserted s)) l then f 0 4 else speaker_ctrl (latest (hp_prev_inserted s) l)) ∧
    ∀ v, holds_volume v f → holds_volume v f'.
Proof.
  induction es as [|e es IH]; intros s f Hs; [by exists f|]. destruct e as [b|c|now]; cbn [foldl hp_step polled].
  - exact (IH (set_plug b s) f Hs).
  - exact (IH (set_ctl c s) f Hs).
  - destruct (poll_shows now s f Hs) as (P1 & P2 & _ & P4).
    destruct (IH _ _ P4) as (f' & F1 & F2 & F3 & F4). rewrite P1, P2 in *. exists f'. split; [done|]. split; [done|].
    set (l := polled (hp_plug s) es) in *. clearbody l. cbn [forallb]. unfold latest in *. cbn [foldl].
    split.
    + rewrite F3. destruct (Bool.eqb (hp_prev_inserted s) (hp_plug s)) eqn:Eb.
      * apply Bool.eqb_prop in Eb. rewrite <- Eb, Bool.eqb_reflx. done.
      * replace (Bool.eqb (hp_plug s) (hp_prev_inserted s)) with false by (by destruct (hp_plug s), (hp_prev_inserted s)). cbn [andb].
        destruct (forallb (Bool.eqb (hp_plug s)) l) eqn:El; [|done]. by rewrite (latest_same _ _ El : foldl _ _ _ = _).
    + intros v Hv. apply F4. destruct (Bool.eqb (hp_plug s) (hp_prev_inserted s)); [done|by apply with_ctrl_holds].
Qed.
End runs.

(** ** Theorems *)

Section theorems.
Context {W R : Type} `{!I2cDrv W} `{!I2cIo W} `{!RegChip R} `{!RegBus W R} `{!AcmChip R} (pad : Z → bool → bool).

(** C22: For every sequence of plug changes and polls after start-up, the control
    register of the amplifier chip says mute when the last poll saw a plug and
    play otherwise, and the volume is kept; only while no poll has seen the
    socket differ from its state at start-up does the chip go on playing. *)
Theorem headphone_mutes_speaker (s : hp W) (a : acm W) now es :
  hp_amp s = Some a → amp_ok (R := R) a →
  let s' := foldl (hp_step pad) (system_app_headphone_detect_init pad now s) es in
  let l := polled (hp_plug s) es in
  hp_prev_inserted s' = latest (hp_plug s) l ∧
  ∃ a' f, hp_amp s' = Some a' ∧ shows (R := R) a' f ∧ holds_volume (ac_volume a) f ∧
    u8 (f 0 4) = if forallb (Bool.eqb (hp_plug s)) l then ACM8635_STATE_PLAY else speaker_ctrl (latest (hp_plug s) l).
Proof.
  intros Ha (Hb & Hv & f & Hf & Hc & Hh) s' l. set (s0 := system_app_headphone_detect_init pad now s) in *.
  assert (Hp : hp_prev_inserted s0 = hp_plug s) by apply (configured_level pad (hp_gpio4_configure s)).
  destruct (run_shows pad es s0 f) as (f' & (a' & Ha' & F1) & F2 & F3 & F4); [by exists a|].
  rewrite Hp in *. split; [exact F2|]. exists a', f'. split_and!; [done|done|by apply F4|]. rewrite F3.
  change (polled (hp_plug s0) es) with l. destruct (forallb _ l); [done|]. by destruct (latest (hp_plug s) l).
Qed.

(** Starting the amplifier while a plug is in the socket switches the muted
    speakers on again, and no later poll mutes them while the plug stays in. *)
Theorem amp_start_unmutes_headphone (s : hp W) (a : acm W) (f : Z → Z → Z) nows :
  hp_amp s = Some a → ac_bound a = true → 0 <= ac_volume a <= 16 → shows (R := R) a f → f 0 4 = HP_ACM8635_CTRL_MUTE →
  hp_plug s = true → hp_prev_inserted s = true →
  ∃ a', acm8635_amp_start a = (0, a') ∧
    let s' := foldl (hp_step pad) (set_amp (Some a') s) (Poll <$> nows) in
    hp_plug s' = true ∧ ∃ a2 f2, hp_amp s' = Some a2 ∧ shows (R := R) a2 f2 ∧ u8 (f2 0 4) = ACM8635_STATE_PLAY.
Proof.
  intros Ha Hb Hv Hf Hmute Hplug Hprev.
  destruct (amp_start_shows a f Hb Hf Hv) as (a' & f' & Hrun & Hs' & _ & _ & _ & Hc & _). exists a'. split; [done|].
  intros s'. assert (Hpl : ∀ l s0, hp_plug (foldl (hp_step pad) s0 (Poll <$> l)) = hp_plug s0 ∧ polled true (Poll <$> l) = replicate (length l) true).
  { induction l as [|n l IH]; intros s0; [done|]. cbn [fmap list_fmap foldl hp_step polled length replicate].
    destruct (IH (hp_detect_work_handler pad n s0)) as [-> ->]. split; [|done].
    unfold hp_detect_work_handler, hp_gpio4_ensure_config, hp_log_gpio4_status, hp_apply_amp_state. repeat case_match; done. }
  split; [unfold s'; by rewrite (proj1 (Hpl nows (set_amp (Some a') s)))|].
  destruct (run_shows pad (Poll <$> nows) (set_amp (Some a') s) f') as (f2 & (a2 & Ha2 & F1) & _ & F3 & _); [by exists a'|].
  exists a2, f2. split; [exact Ha2|]. split; [exact F1|]. cbn [set_amp hp_plug hp_prev_inserted] in F3. rewrite Hplug, Hprev in F3.
  rewrite (proj2 (Hpl nows s)) in F3. replace (forallb (Bool.eqb true) (replicate (length nows) true)) with true in F3; [by rewrite F3|].
  clear. induction nows; [done|]. by cbn.
Qed.
End theorems.

(** ** Witnesses *)

Definition sample_pad (_ : Z) (_ : bool) : bool := true.

Lemma headphone_mutes_speaker_witness :
  ∃ a, acm8635_init true acm_boot = (0, a) ∧
    let s' := foldl (hp_step sample_pad) (system_app_headphone_detect_init sample_pad 0 (mk_hp false 0 None 0 false (Some a)))
                [Poll 100; Plug true; Overwrite 0; Poll 200] in
    hp_prev_inserted s' = true ∧ ∃ a' f, hp_amp s' = Some a' ∧ shows (R := acm_sim) a' f ∧ u8 (f 0 4) = HP_ACM8635_CTRL_MUTE.
Proof.
  destruct (acm8635_init_ok (R := acm_sim) acm_boot (mk_sim 0 ∅)) as (a & Hi & Hok & _); [by exists false, 0|done|].
  exists a. split; [exact Hi|].
  destruct (headphone_mutes_speaker (R := acm_sim) sample_pad (mk_hp false 0 None 0 false (Some a)) a 0
    [Poll 100; Plug true; Overwrite 0; Poll 200] eq_refl Hok) as (Hp & a' & f & Ha & Hf & _ & Hc).
  split; [exact Hp|]. exists a', f. split; [exact Ha|]. split; [exact Hf|exact Hc].
Defined.
Lemma amp_start_unmutes_headphone_witness :
  let a := mk_acm true 0x1c 8 true 0 (sim_bus (mk_sim 0 {[ (0, 4) := HP_ACM8635_CTRL_MUTE ]})) in
  ∃ a', acm8635_amp_start a = (0, a') ∧
    let s' := foldl (hp_step sample_pad) (mk_hp true 0 None 0 true (Some a')) [Poll 100; Poll 200] in
    hp_plug s' = true ∧ ∃ a2 f2, hp_amp s' = Some a2 ∧ shows (R := acm_sim) a2 f2 ∧ u8 (f2 0 4) = ACM8635_STATE_PLAY.
Proof.
  intros a. apply (amp_start_unmutes_headphone (R := acm_sim) sample_pad (mk_hp true 0 None 0 true (Some a)) a
    (chip_reg (mk_sim 0 {[ (0, 4) := HP_ACM8635_CTRL_MUTE ]})) [100; 200]); try reflexivity; [cbn; lia|].
  apply chip_at_shows. split; [by exists false, 0|]. by cbn.
Defined.
