(* ===== verification/Hotplug.v ===== *)
(** * Hot plugging

    ext/actions/system/hotplug/hotplug_manager.c with the devices hotplug_linein.c
    and hotplug_charger.c (CONFIG_LINEIN_HOTPLUG, USB_HOTPLUG and CHARGER_HOTPLUG
    set, CARD_HOTPLUG and TWS not).  A work of the system monitor asks every
    registered device every 100 ms; what changed goes to the main thread.

    A device is a record of functions on a state [T]; the USB devices of
    hotplug_usb.c are a parameter. *)

From stdpp Require Import base numbers list option.
From S2P Require Import Prelude SysWakelock.
Local Open Scope Z_scope.

Definition HOTPLUG_NONE : Z := 0.
Definition HOTPLUG_IN : Z := 1.
Definition HOTPLUG_OUT : Z := 2.
Definition HOTPLUG_LINEIN : Z := 1.
Definition HOTPLUG_CHARGER : Z := 6.
Definition LINEIN_OUT : Z := 1.
Definition LINEIN_IN : Z := 2.
Definition MAX_HOTPLUG_DEVICE_NUM : nat := 5.

Record hotplug_device_t (T : Type) := mk_device {
  dev_type : Z;
  get_type : option (T → Z);
  get_state : T → Z;
  hotplug_detect : option (T → Z * T);
  fs_process : option (Z → T → Z * T);
}.
Arguments mk_device {_} _ _ _ _ _.
Arguments dev_type {_} _.
Arguments get_type {_} _.
Arguments get_state {_} _.
Arguments hotplug_detect {_} _.
Arguments fs_process {_} _.

Record hotplug_manager_context_t (T : Type) := mk_manager {
  device_num : Z;
  device : list (option (hotplug_device_t T));
}.
Arguments mk_manager {_} _ _.
Arguments device_num {_} _.
Arguments device {_} _.

(** ** The manager *)

Section manager.
Context {T : Type} (report : Z → Z → T → T).
Implicit Types (m : hotplug_manager_context_t T) (d : hotplug_device_t T).

(** The search for a free entry: [inl] is a device of the same type. *)
Fixpoint register_loop (l : list (option (hotplug_device_t T))) (type : Z) (i : nat) : unit + option nat :=
  match l with
  | [] => inr None
  | Some e :: l => if dev_type e =? type then inl () else register_loop l type (S i)
  | None :: _ => inr (Some i)
  end.
Definition hotplug_device_register (d : hotplug_device_t T) (m : hotplug_manager_context_t T) :
    Z * hotplug_manager_context_t T :=
  match register_loop (device m) (dev_type d) 0 with
  | inl _ => (- EEXIST, m)
  | inr (Some i) => (0, mk_manager (u8 (device_num m + 1)) (<[i := Some d]> (device m)))
  | inr None => (0, m)
  end.

Definition same_type (type : Z) (e : option (hotplug_device_t T)) : bool :=
  match e with Some e => dev_type e =? type | None => false end.
Definition hotplug_device_unregister (type : Z) (m : hotplug_manager_context_t T) : Z * hotplug_manager_context_t T :=
  (0, mk_manager (u8 (device_num m - Z.of_nat (length (filter (λ e, same_type type e = true) (device m)))))
        ((λ e, if same_type type e then None else e) <$> device m)).

(** [_hotplug_manager_work_handle]; [state] lives across the devices. *)
Fixpoint work_loop (l : list (option (hotplug_device_t T))) (state : Z) (t : T) : T :=
  match l with
  | [] => t
  | None :: l => work_loop l state t
  | Some d :: l =>
      let '(state, t) := match hotplug_detect d with Some f => f t | None => (state, t) end in
      if negb (state =? HOTPLUG_NONE) then
        let '(skip, t) := match fs_process d with Some f => f state t | None => (0, t) end in
        if negb (skip =? 0) then work_loop l state t
        else work_loop l state (report (match get_type d with Some f => f t | None => dev_type d end) state t)
      else work_loop l state t
  end.
Definition hotplug_manager_work_handle (m : hotplug_manager_context_t T) (t : T) : Z * T :=
  (0, work_loop (device m) HOTPLUG_NONE t).

Fixpoint hotplug_manager_get_state (l : list (option (hotplug_device_t T))) (type : Z) (t : T) : Z :=
  match l with
  | [] => HOTPLUG_NONE
  | None :: l => hotplug_manager_get_state l type t
  | Some d :: l => if dev_type d =? type then get_state d t else hotplug_manager_get_state l type t
  end.
End manager.

(** ** The devices *)

(** [struct linein_detect_state_t] and [struct charger_detect_state_t] *)
Record detect_state := mk_detect {
  prev_state : Z;
  stable_state : Z;
  detect_cnt : Z;
}.

(** The common body of the two detect routines; [n] samples confirm a state. *)
Definition debounce (n state : Z) (d : detect_state) : Z * detect_state :=
  if state <=? HOTPLUG_NONE then (HOTPLUG_NONE, d)
  else if state =? prev_state d then
    let cnt := u8 (detect_cnt d + 1) in
    if n <=? cnt then
      if negb (state =? stable_state d) then (u8 state, mk_detect (prev_state d) (u8 state) 0)
      else (HOTPLUG_NONE, mk_detect (prev_state d) (stable_state d) 0)
    else (HOTPLUG_NONE, mk_detect (prev_state d) (stable_state d) cnt)
  else (HOTPLUG_NONE, mk_detect (u8 state) (stable_state d) 0).

(** [hot_linein]: what the line-in detector gives, [None] when there is no device or
    reading it fails; [hot_5v]: [sys_pm_get_power_5v_status]. *)
Record hot (U : Type) := mk_hot {
  linein_detect_state : detect_state;
  charger_detect_state : detect_state;
  hot_linein : option Z;
  hot_5v : bool;
  hot_usb : U;
  hot_msgs : list (Z * Z);
}.
Arguments mk_hot {_} _ _ _ _ _ _.
Arguments linein_detect_state {_} _.
Arguments charger_detect_state {_} _.
Arguments hot_linein {_} _.
Arguments hot_5v {_} _.
Arguments hot_usb {_} _.
Arguments hot_msgs {_} _.

Section devices.
Context {U : Type}.
Implicit Types t : hot U.

(** The message to the main thread; it is taken to be accepted ([send_async_msg]
    can fail, and the work ignores that: the change would then not be told). *)
Definition hotplug_event_report (type state : Z) (t : hot U) : hot U :=
  mk_hot (linein_detect_state t) (charger_detect_state t) (hot_linein t) (hot_5v t) (hot_usb t) (hot_msgs t ++ [(type, state)]).

Definition linein_get_state (t : hot U) : Z :=
  match hot_linein t with
  | None => HOTPLUG_NONE
  | Some state => if state =? LINEIN_IN then HOTPLUG_IN else if state =? LINEIN_OUT then HOTPLUG_OUT else state
  end.
Definition linein_hotplug_detect (t : hot U) : Z * hot U :=
  let '(r, d) := debounce 3 (linein_get_state t) (linein_detect_state t) in
  (r, mk_hot d (charger_detect_state t) (hot_linein t) (hot_5v t) (hot_usb t) (hot_msgs t)).
Definition linein_hotplug_device : hotplug_device_t (hot U) :=
  mk_device HOTPLUG_LINEIN None linein_get_state (Some linein_hotplug_detect) None.
Definition hotplug_linein_init (m : hotplug_manager_context_t (hot U)) (t : hot U) :
    Z * hotplug_manager_context_t (hot U) * hot U :=
  match hot_linein t with
  | None => (- ENODEV, m, t)
  | Some state =>
      let d := mk_detect 0 (if state =? LINEIN_IN then HOTPLUG_IN else if state =? LINEIN_OUT then HOTPLUG_OUT else HOTPLUG_NONE) 0 in
      let '(ret, m) := hotplug_device_register linein_hotplug_device m in
      (ret, m, mk_hot d (charger_detect_state t) (hot_linein t) (hot_5v t) (hot_usb t) (hot_msgs t))
  end.

Definition charger_get_state (t : hot U) : Z := if hot_5v t then HOTPLUG_IN else HOTPLUG_OUT.
Definition charger_hotplug_detect (t : hot U) : Z * hot U :=
  let '(r, d) := debounce 1 (charger_get_state t) (charger_detect_state t) in
  (r, mk_hot (linein_detect_state t) d (hot_linein t) (hot_5v t) (hot_usb t) (hot_msgs t)).
Definition charger_hotplug_device : hotplug_device_t (hot U) :=
  mk_device HOTPLUG_CHARGER None charger_get_state (Some charger_hotplug_detect) None.
Definition hotplug_charger_init (m : hotplug_manager_context_t (hot U)) (t : hot U) :
    Z * hotplug_manager_context_t (hot U) * hot U :=
  let d := mk_detect 0 (if hot_5v t then HOTPLUG_IN else HOTPLUG_NONE) 0 in
  let '(ret, m) := hotplug_device_register charger_hotplug_device m in
  (ret, m, mk_hot (linein_detect_state t) d (hot_linein t) (hot_5v t) (hot_usb t) (hot_msgs t)).

(** [usb]: what [hotplug_usb_init] registers. *)
Definition hotplug_manager_init (usb : list (hotplug_device_t (hot U))) (m : option (hotplug_manager_context_t (hot U)))
    (t : hot U) : Z * option (hotplug_manager_context_t (hot U)) * hot U :=
  match m with
  | Some _ => (- EEXIST, m, t)
  | None =>
      let m := mk_manager 0 (replicate MAX_HOTPLUG_DEVICE_NUM None) in
      let '(_, m, t) := hotplug_linein_init m t in
      let m := foldl (λ m d, (hotplug_device_register d m).2) m usb in
      let '(_, m, t) := hotplug_charger_init m t in
      (0, Some m, t)
  end.
End devices.

(** ** Debouncing *)

(** The samples in runs of equal ones: the value and length of the current run, and
    the value last confirmed.  A run is confirmed when it has [n + 1] samples;
    samples without information do not count. *)
Record runs := mk_runs { run_val : Z; run_len : Z; confirmed : Z }.
Definition runs_step (n x : Z) (r : runs) : Z * runs :=
  if x =? HOTPLUG_NONE then (HOTPLUG_NONE, r)
  else
    let len := if x =? run_val r then run_len r + 1 else 1 in
    if (len =? n + 1) && negb (x =? confirmed r) then (x, mk_runs x len x)
    else (HOTPLUG_NONE, mk_runs x len (confirmed r)).

Fixpoint run_samples {S} (step : Z → S → Z * S) (xs : list Z) (s : S) : list Z * S :=
  match xs with
  | [] => ([], s)
  | x :: xs => let '(r, s) := step x s in let '(rs, s) := run_samples step xs s in (r :: rs, s)
  end.

(** The counter of the code starts again at every multiple of [n]. *)
Record debounces (n : Z) (d : detect_state) (r : runs) : Prop := {
  db_prev : prev_state d = run_val r;
  db_stable : stable_state d = confirmed r;
  db_len : 0 <= run_len r ∧ (run_len r = 0 → run_val r = 0);
  db_cnt : detect_cnt d = if run_len r =? 0 then 0 else (run_len r - 1) mod n;
  db_done : n < run_len r → confirmed r = run_val r;
}.
Definition sample_ok (x : Z) : Prop := 0 <= x < 256.

Lemma mod_succ a n : 1 <= n → 0 <= a → (a + 1) mod n = if a mod n + 1 =? n then 0 else a mod n + 1.
Proof.
  intros Hn Ha. destruct (Z.eqb_spec (a mod n + 1) n) as [E|E].
  - rewrite (Z.div_mod a n) at 1 by lia. replace (n * (a / n) + a mod n + 1) with ((a / n + 1) * n) by lia. apply Z_mod_mult.
  - pose proof (Z.mod_pos_bound a n). rewrite <- (Z.add_mod_idemp_l a 1 n) by lia. apply Z.mod_small. lia.
Qed.
Lemma debounce_step n x d r :
  1 <= n < 256 → sample_ok x → debounces n d r →
  (debounce n x d).1 = (runs_step n x r).1 ∧ debounces n (debounce n x d).2 (runs_step n x r).2.
Proof.
  intros Hn Hx [H1 H2 [H3 H3'] H4 H5]. unfold debounce, runs_step, HOTPLUG_NONE, sample_ok in *.
  destruct (Z.eqb_spec x 0) as [->|Hx0]; [by split|]. rewrite (proj2 (Z.leb_gt _ _)) by lia. rewrite H1.
  destruct (Z.eqb_spec x (run_val r)) as [->|Hne]; cycle 1.
  { rewrite (proj2 (Z.eqb_neq 1 (n + 1))) by lia. cbn [andb]. split; [done|]. rewrite u8_id by done.
    split; cbn; [done|done|lia| |lia]. by rewrite Z.mod_0_l by lia. }
  assert (Hl : 0 < run_len r) by (destruct (Z.eqb_spec (run_len r) 0); [tauto|lia]).
  rewrite (proj2 (Z.eqb_neq _ _)) in H4 by lia. pose proof (mod_succ (run_len r - 1) n ltac:(lia) ltac:(lia)) as Hmod.
  replace (run_len r - 1 + 1) with (run_len r) in Hmod by lia.
  pose proof (Z.mod_pos_bound (run_len r - 1) n ltac:(lia)) as Hb. rewrite u8_id by (unfold is_u8; lia). rewrite H4, H2.
  assert (Hwf : ∀ c, (n < run_len r + 1 → c = run_val r) → ∀ k, k = run_len r mod n →
    debounces n (mk_detect (prev_state d) c k) (mk_runs (run_val r) (run_len r + 1) c)).
  { intros c Hc k Hk. split; cbn; [done|done|lia| |done]. rewrite (proj2 (Z.eqb_neq _ 0)) by lia. by replace (run_len r + 1 - 1) with (run_len r) by lia. }
  rewrite H1 in Hwf. destruct (Z.leb_spec n ((run_len r - 1) mod n + 1)) as [Hge|Hlt].
  - rewrite (proj2 (Z.eqb_eq _ n)) in Hmod by lia.
    destruct (Z.eqb_spec (run_val r) (confirmed r)) as [Ec|Ec]; cbn [negb].
    + rewrite andb_false_r. split; [done|]. apply Hwf; [congruence|done].
    + assert (run_len r <= n) by (destruct (Z.lt_ge_cases n (run_len r)) as [Hlt|]; [by rewrite H5 in Ec|done]).
      assert (Elen : run_len r = n). { assert (run_len r mod n = 0) by lia. destruct (Z.eq_dec (run_len r) n); [done|]. rewrite Z.mod_small in * by lia. lia. }
      rewrite (proj2 (Z.eqb_eq (run_len r + 1) (n + 1))) by lia. cbn [andb]. rewrite !u8_id by done. split; [done|]. by apply Hwf.
  - rewrite (proj2 (Z.eqb_neq _ n)) in Hmod by lia.
    assert (Hn1 : run_len r ≠ n) by (intros E; rewrite E in Hb, Hmod; rewrite Z_mod_same_full in Hmod; lia).
    rewrite (proj2 (Z.eqb_neq (run_len r + 1) (n + 1))) by lia. cbn [andb]. split; [done|]. apply Hwf; [|lia]. intros. apply H5. lia.
Qed.

Lemma debounce_runs n xs : ∀ d r,
  1 <= n < 256 → Forall sample_ok xs → debounces n d r →
  (run_samples (debounce n) xs d).1 = (run_samples (runs_step n) xs r).1.
Proof.
  induction xs as [|x xs IH]; intros d r Hn Hxs Hd; [done|]. apply Forall_cons_1 in Hxs as [Hx Hxs].
  destruct (debounce_step n x d r Hn Hx Hd) as [E1 E2]. cbn [run_samples].
  destruct (debounce n x d) as [o d'], (runs_step n x r) as [o' r']. cbn [fst snd] in *. specialize (IH d' r' Hn Hxs E2).
  destruct (run_samples (debounce n) xs d'), (run_samples (runs_step n) xs r'). cbn [fst] in *. by subst.
Qed.
Lemma debounces_boot n s : 1 <= n → debounces n (mk_detect 0 s 0) (mk_runs 0 0 s).
Proof. intros. split; cbn; done || lia. Qed.

(** ** The table *)

Section table.
Context {T : Type}.
Implicit Types (m : hotplug_manager_context_t T) (d : hotplug_device_t T).

Lemma register_loop_free (l : list (hotplug_device_t T)) k type : ∀ i,
  Forall (λ e, dev_type e ≠ type) l →
  register_loop ((Some <$> l) ++ replicate (S k) None) type i = inr (Some (i + length l)%nat).
Proof.
  induction l as [|e l IH]; intros i Hl; [cbn; by rewrite Nat.add_0_r|]. apply Forall_cons_1 in Hl as [He Hl].
  cbn [fmap list_fmap app register_loop length]. rewrite (proj2 (Z.eqb_neq _ _)) by done. rewrite IH by done. do 2 f_equal. lia.
Qed.
Lemma register_loop_full (l : list (hotplug_device_t T)) type : ∀ i,
  Forall (λ e, dev_type e ≠ type) l → register_loop (Some <$> l) type i = inr None.
Proof.
  induction l as [|e l IH]; intros i Hl; [done|]. apply Forall_cons_1 in Hl as [He Hl].
  cbn [fmap list_fmap register_loop]. rewrite (proj2 (Z.eqb_neq _ _)) by done. by apply IH.
Qed.
Lemma register_append (l : list (hotplug_device_t T)) k d n :
  Forall (λ e, dev_type e ≠ dev_type d) l →
  hotplug_device_register d (mk_manager n ((Some <$> l) ++ replicate (S k) None)) =
  (0, mk_manager (u8 (n + 1)) ((Some <$> l ++ [d]) ++ replicate k None)).
Proof.
  intros Hl. unfold hotplug_device_register. cbn [device device_num]. rewrite register_loop_free by done. cbn [Nat.add].
  do 2 f_equal. rewrite insert_app_r_alt by (by rewrite length_fmap). rewrite length_fmap, Nat.sub_diag.
  rewrite fmap_app, <- (assoc_L (++)). done.
Qed.
Lemma register_all (us : list (hotplug_device_t T)) : ∀ (l : list (hotplug_device_t T)) k n,
  NoDup (dev_type <$> l ++ us) → (length us <= k)%nat →
  ∃ n', foldl (λ m d, (hotplug_device_register d m).2) (mk_manager n ((Some <$> l) ++ replicate k None)) us =
        mk_manager n' ((Some <$> l ++ us) ++ replicate (k - length us) None).
Proof.
  induction us as [|u us IH]; intros l k n Hd Hk.
  { exists n. cbn [foldl length]. by rewrite app_nil_r, Nat.sub_0_r. }
  destruct k as [|k]; [cbn [length] in Hk; lia|]. cbn [foldl length]. rewrite register_append.
  - cbn [snd]. destruct (IH (l ++ [u]) k (u8 (n + 1))) as (n' & ->); [by rewrite <- (assoc_L (++))|cbn [length] in Hk; lia|].
    exists n'. by rewrite <- (assoc_L (++)).
  - rewrite fmap_app in Hd. apply list.NoDup_app in Hd as (_ & Hd & _). apply Forall_forall. intros e He Heq.
    apply (Hd (dev_type e)); [by apply list_elem_of_fmap_2, list_elem_of_In|]. rewrite Heq. cbn [fmap list_fmap]. apply list_elem_of_here.
Qed.
Lemma work_loop_none report k : ∀ state (t : T), work_loop report (replicate k None) state t = t.
Proof. induction k as [|k IH]; intros state t; [done|]. apply IH. Qed.
End table.

(** ** Ticks of the monitor *)

(** A USB device keeps to its own state. *)
Record usb_device (U : Type) := mk_usb {
  usb_type : Z;
  usb_get_type : U → Z;
  usb_get_state : U → Z;
  usb_detect : U → Z * U;
  usb_process : Z → U → Z * U;
}.
Arguments mk_usb {_} _ _ _ _ _.
Arguments usb_type {_} _.
Arguments usb_get_type {_} _.
Arguments usb_get_state {_} _.
Arguments usb_detect {_} _.
Arguments usb_process {_} _.

Section ticks.
Context {U : Type}.
Implicit Types t : hot U.

Definition set_usb (u : U) (t : hot U) : hot U :=
  mk_hot (linein_detect_state t) (charger_detect_state t) (hot_linein t) (hot_5v t) u (hot_msgs t).
Definition add_msgs (l : list (Z * Z)) (t : hot U) : hot U :=
  mk_hot (linein_detect_state t) (charger_detect_state t) (hot_linein t) (hot_5v t) (hot_usb t) (hot_msgs t ++ l).
Definition lift_usb (d : usb_device U) : hotplug_device_t (hot U) :=
  mk_device (usb_type d) (Some (λ t, usb_get_type d (hot_usb t))) (λ t, usb_get_state d (hot_usb t))
    (Some (λ t, let '(r, u) := usb_detect d (hot_usb t) in (r, set_usb u t)))
    (Some (λ s t, let '(r, u) := usb_process d s (hot_usb t) in (r, set_usb u t))).

(** What the two detectors give at a tick, and the tick. *)
Definition set_inputs (i : option Z * bool) (t : hot U) : hot U :=
  mk_hot (linein_detect_state t) (charger_detect_state t) i.1 i.2 (hot_usb t) (hot_msgs t).
Definition hot_tick (m : hotplug_manager_context_t (hot U)) (t : hot U) (i : option Z * bool) : hot U :=
  (hotplug_manager_work_handle hotplug_event_report m (set_inputs i t)).2.

Definition news (type r : Z) : list (Z * Z) := if r =? HOTPLUG_NONE then [] else [(type, r)].
Definition of_type (type : Z) (l : list (Z * Z)) : list Z := omap (λ e, if e.1 =? type then Some e.2 else None) l.
Lemma of_type_app type l k : of_type type (l ++ k) = of_type type l ++ of_type type k.
Proof. apply omap_app. Qed.

(** The USB devices report for themselves only. *)
Lemma work_loop_usb us rest : ∀ state t,
  Forall (λ d, ∀ u, usb_get_type d u ≠ HOTPLUG_LINEIN ∧ usb_get_type d u ≠ HOTPLUG_CHARGER) us →
  ∃ state' u l, work_loop hotplug_event_report ((Some <$> (lift_usb <$> us)) ++ rest) state t =
      work_loop hotplug_event_report rest state' (add_msgs l (set_usb u t)) ∧
    of_type HOTPLUG_LINEIN l = [] ∧ of_type HOTPLUG_CHARGER l = [].
Proof.
  induction us as [|d us IH]; intros state t Hus.
  { exists state, (hot_usb t), []. destruct t. unfold add_msgs, set_usb. cbn. by rewrite app_nil_r. }
  apply Forall_cons_1 in Hus as [Hd Hus]. cbn [fmap list_fmap app work_loop lift_usb hotplug_detect fs_process get_type].
  destruct (usb_detect d (hot_usb t)) as [r u1].
  assert (Hgo : ∀ (l0 : list (Z * Z)) u st, of_type HOTPLUG_LINEIN l0 = [] → of_type HOTPLUG_CHARGER l0 = [] →
    ∃ state' u' l, work_loop hotplug_event_report ((Some <$> (lift_usb <$> us)) ++ rest) st (add_msgs l0 (set_usb u t)) =
      work_loop hotplug_event_report rest state' (add_msgs l (set_usb u' t)) ∧
      of_type HOTPLUG_LINEIN l = [] ∧ of_type HOTPLUG_CHARGER l = []).
  { intros l0 u st Hl Hc. destruct (IH st (add_msgs l0 (set_usb u t)) Hus) as (st' & u' & l & E & El & Ec).
    exists st', u', (l0 ++ l). rewrite !of_type_app, Hl, Hc, El, Ec. split; [|done]. rewrite E. unfold add_msgs, set_usb. cbn. by rewrite (assoc_L (++)). }
  destruct (negb (r =? HOTPLUG_NONE)).
  - cbn [set_usb hot_usb]. destruct (usb_process d r u1) as [skip u2]. destruct (negb (skip =? 0)).
    + destruct (Hgo [] u2 r eq_refl eq_refl) as (st' & u' & l & E & H). exists st', u', l. split; [|done]. rewrite <- E. unfold add_msgs. cbn. by rewrite app_nil_r.
    + cbn [hot_usb set_usb]. destruct (Hd u2) as [H1 H2]. apply (Hgo [(usb_get_type d u2, r)] u2 r); cbn; by rewrite (proj2 (Z.eqb_neq _ _)).
  - destruct (Hgo [] u1 r eq_refl eq_refl) as (st' & u' & l & E & H). exists st', u', l. split; [|done]. rewrite <- E. unfold add_msgs. cbn. by rewrite app_nil_r.
Qed.

Lemma of_type_news type r : of_type type (news type r) = if r =? HOTPLUG_NONE then [] else [r].
Proof. unfold news. destruct (r =? HOTPLUG_NONE); [done|]. cbn. by rewrite Z.eqb_refl. Qed.

(** One tick with the table as the start-up leaves it. *)
Definition hot_table (us : list (usb_device U)) (k : nat) : list (option (hotplug_device_t (hot U))) :=
  (Some <$> linein_hotplug_device :: (lift_usb <$> us) ++ [charger_hotplug_device]) ++ replicate k None.
Lemma tick_effect us k n t i :
  Forall (λ d, ∀ u, usb_get_type d u ≠ HOTPLUG_LINEIN ∧ usb_get_type d u ≠ HOTPLUG_CHARGER) us →
  let t' := hot_tick (mk_manager n (hot_table us k)) t i in
  let '(r, d) := debounce 3 (linein_get_state (set_inputs i t)) (linein_detect_state t) in
  let '(c, e) := debounce 1 (charger_get_state (set_inputs i t)) (charger_detect_state t) in
  linein_detect_state t' = d ∧ charger_detect_state t' = e ∧
  of_type HOTPLUG_LINEIN (hot_msgs t') = of_type HOTPLUG_LINEIN (hot_msgs t) ++ (if r =? HOTPLUG_NONE then [] else [r]) ∧
  of_type HOTPLUG_CHARGER (hot_msgs t') = of_type HOTPLUG_CHARGER (hot_msgs t) ++ (if c =? HOTPLUG_NONE then [] else [c]).
Proof.
  intros Hus. unfold hot_tick, hotplug_manager_work_handle, hot_table. cbn [device snd fmap list_fmap app].
  rewrite fmap_app, <- (assoc_L (++)). cbn [work_loop linein_hotplug_device hotplug_detect fs_process get_type dev_type].
  unfold linein_hotplug_detect. cbn [set_inputs linein_detect_state].
  destruct (debounce 3 (linein_get_state (set_inputs i t)) (linein_detect_state t)) as [r d].
  destruct (debounce 1 (charger_get_state (set_inputs i t)) (charger_detect_state t)) as [c e] eqn:Ec.
  set (t1 := mk_hot d _ _ _ _ _).
  assert (E1 : ∃ st, (if negb (r =? HOTPLUG_NONE) then
      work_loop hotplug_event_report ((Some <$> (lift_usb <$> us)) ++ (Some <$> [charger_hotplug_device]) ++ replicate k None) r (hotplug_event_report HOTPLUG_LINEIN r t1)
    else work_loop hotplug_event_report ((Some <$> (lift_usb <$> us)) ++ (Some <$> [charger_hotplug_device]) ++ replicate k None) r t1) =
    work_loop hotplug_event_report ((Some <$> (lift_usb <$> us)) ++ (Some <$> [charger_hotplug_device]) ++ replicate k None) st (add_msgs (news HOTPLUG_LINEIN r) t1)).
  { exists r. unfold news. destruct (r =? HOTPLUG_NONE); cbn [negb]; [|done]. f_equal. unfold add_msgs. by rewrite app_nil_r. }
  destruct E1 as [st E1]. cbn [Z.eqb negb]. rewrite E1. clear E1.
  destruct (work_loop_usb us ((Some <$> [charger_hotplug_device]) ++ replicate k None) st (add_msgs (news HOTPLUG_LINEIN r) t1) Hus) as (st' & u & l & -> & L1 & L2).
  cbn [fmap list_fmap app work_loop charger_hotplug_device hotplug_detect fs_process get_type dev_type].
  unfold charger_hotplug_detect.
  change (charger_detect_state (add_msgs l (set_usb u (add_msgs (news HOTPLUG_LINEIN r) t1)))) with (charger_detect_state t).
  change (charger_get_state (add_msgs l (set_usb u (add_msgs (news HOTPLUG_LINEIN r) t1)))) with (charger_get_state (set_inputs i t)).
  rewrite Ec. cbn [Z.eqb negb].
  assert (Hm : ∀ ty x, of_type ty ((hot_msgs t ++ news HOTPLUG_LINEIN r) ++ l ++ x) =
    of_type ty (hot_msgs t) ++ of_type ty (news HOTPLUG_LINEIN r) ++ of_type ty l ++ of_type ty x).
  { intros. by rewrite !of_type_app, <- !(assoc_L (++)). }
  assert (Hx : of_type HOTPLUG_CHARGER (news HOTPLUG_LINEIN r) = []) by (unfold news; by destruct (r =? HOTPLUG_NONE)).
  destruct (Z.eqb_spec c HOTPLUG_NONE) as [->|Hc]; cbn [negb]; rewrite work_loop_none; unfold t1;
    cbn [hotplug_event_report add_msgs set_usb set_inputs linein_detect_state charger_detect_state hot_msgs].
  - pose proof (Hm HOTPLUG_LINEIN []) as M1. pose proof (Hm HOTPLUG_CHARGER []) as M2. rewrite !app_nil_r in M1, M2.
    rewrite M1, M2, Hx, L1, L2, of_type_news. cbn [app]. rewrite !app_nil_r. by split_and!.
  - rewrite <- !(assoc_L (++)). pose proof (Hm HOTPLUG_LINEIN [(HOTPLUG_CHARGER, c)]) as M1. pose proof (Hm HOTPLUG_CHARGER [(HOTPLUG_CHARGER, c)]) as M2.
    rewrite <- !(assoc_L (++)) in M1, M2. rewrite M1, M2, Hx, L1, L2, of_type_news. cbn [app].
    change (of_type HOTPLUG_LINEIN [(HOTPLUG_CHARGER, c)]) with (@nil Z). change (of_type HOTPLUG_CHARGER [(HOTPLUG_CHARGER, c)]) with [c].
    rewrite !app_nil_r. by split_and!.
Qed.
End ticks.

(** ** Theorems *)

Definition reports (l : list Z) : list Z := filter (λ r, r ≠ HOTPLUG_NONE) l.
Lemma reports_cons r l : reports (r :: l) = (if r =? HOTPLUG_NONE then [] else [r]) ++ reports l.
Proof.
  unfold reports. rewrite filter_cons. destruct (Z.eqb_spec r HOTPLUG_NONE); [by rewrite decide_False by tauto|by rewrite decide_True].
Qed.

Section theorems.
Context {U : Type}.

(** What the detectors say at a tick, as states. *)
Definition linein_sample (i : option Z * bool) : Z :=
  match i.1 with
  | None => HOTPLUG_NONE
  | Some x => if x =? LINEIN_IN then HOTPLUG_IN else if x =? LINEIN_OUT then HOTPLUG_OUT else x
  end.
Definition charger_sample (i : option Z * bool) : Z := if i.2 then HOTPLUG_IN else HOTPLUG_OUT.

Lemma ticks_reports us k n ins : ∀ (t : hot U),
  Forall (λ d, ∀ u, usb_get_type d u ≠ HOTPLUG_LINEIN ∧ usb_get_type d u ≠ HOTPLUG_CHARGER) us →
  let t' := foldl (hot_tick (mk_manager n (hot_table us k))) t ins in
  of_type HOTPLUG_LINEIN (hot_msgs t') =
    of_type HOTPLUG_LINEIN (hot_msgs t) ++ reports (run_samples (debounce 3) (linein_sample <$> ins) (linein_detect_state t)).1 ∧
  of_type HOTPLUG_CHARGER (hot_msgs t') =
    of_type HOTPLUG_CHARGER (hot_msgs t) ++ reports (run_samples (debounce 1) (charger_sample <$> ins) (charger_detect_state t)).1.
Proof.
  induction ins as [|i ins IH]; intros t Hus; [cbn; by rewrite !app_nil_r|]. cbn [foldl fmap list_fmap run_samples].
  pose proof (tick_effect us k n t i Hus) as H.
  change (linein_get_state (set_inputs i t)) with (linein_sample i) in H. change (charger_get_state (set_inputs i t)) with (charger_sample i) in H.
  destruct (debounce 3 (linein_sample i) (linein_detect_state t)) as [r d].
  destruct (debounce 1 (charger_sample i) (charger_detect_state t)) as [c e]. cbn zeta in H. destruct H as (H1 & H2 & H3 & H4).
  destruct (IH (hot_tick (mk_manager n (hot_table us k)) t i) Hus) as [-> ->]. rewrite H1, H2, H3, H4.
  destruct (run_samples (debounce 3) _ d), (run_samples (debounce 1) _ e). cbn [fst]. by rewrite !reports_cons, <- !(assoc_L (++)).
Qed.

Lemma init_table (us : list (usb_device U)) v t :
  hot_linein t = Some v → (length us <= 3)%nat → NoDup (HOTPLUG_LINEIN :: (usb_type <$> us) ++ [HOTPLUG_CHARGER]) →
  ∃ n k, hotplug_manager_init (lift_usb <$> us) None t =
    (0, Some (mk_manager n (hot_table us k)),
     mk_hot (mk_detect 0 (if v =? LINEIN_IN then HOTPLUG_IN else if v =? LINEIN_OUT then HOTPLUG_OUT else HOTPLUG_NONE) 0)
       (mk_detect 0 (if hot_5v t then HOTPLUG_IN else HOTPLUG_NONE) 0) (hot_linein t) (hot_5v t) (hot_usb t) (hot_msgs t)).
Proof.
  intros Hv Hl Hd. unfold hotplug_manager_init, hotplug_linein_init. rewrite Hv.
  assert (Hty : dev_type <$> (lift_usb <$> us) = usb_type <$> us) by (rewrite <- list_fmap_compose; by apply list_fmap_ext).
  change (replicate MAX_HOTPLUG_DEVICE_NUM None) with ((Some <$> @nil (hotplug_device_t (hot U))) ++ replicate 5 None).
  rewrite (register_append [] 4 linein_hotplug_device 0 (Forall_nil_2 _)). change ([] ++ [linein_hotplug_device]) with [@linein_hotplug_device U].
  destruct (register_all (lift_usb <$> us) [linein_hotplug_device] 4 (u8 (0 + 1))) as (n & ->).
  { cbn [app fmap list_fmap dev_type linein_hotplug_device]. rewrite Hty. apply (list.NoDup_app (HOTPLUG_LINEIN :: (usb_type <$> us))) in Hd. tauto. }
  { rewrite length_fmap. lia. }
  rewrite length_fmap. destruct (4 - length us)%nat as [|k] eqn:Ek; [lia|]. unfold hotplug_charger_init.
  rewrite register_append.
  - exists (u8 (n + 1)), k. unfold hot_table. done.
  - apply Forall_fmap with (f := dev_type) (P := λ x, x ≠ HOTPLUG_CHARGER). cbn [app fmap list_fmap dev_type linein_hotplug_device]. rewrite Hty.
    apply (list.NoDup_app (HOTPLUG_LINEIN :: (usb_type <$> us))) in Hd as (_ & Hd & _). apply Forall_forall. intros x Hx ->.
    apply (Hd HOTPLUG_CHARGER); [by apply list_elem_of_In|apply list_elem_of_here].
Qed.

(** C23: After a start-up at which the line-in detector answers, the main thread
    is sent about the line-in and the charger exactly the changes that a run
    of equal samples confirms, four for the line-in and two for the charger,
    whatever the USB devices beside them do, in every sequence of ticks (each
    message taken to be accepted). *)
Theorem hotplug_reports_confirmed_changes (us : list (usb_device U)) v (t : hot U) ins :
  hot_linein t = Some v → (length us <= 3)%nat → NoDup (HOTPLUG_LINEIN :: (usb_type <$> us) ++ [HOTPLUG_CHARGER]) →
  Forall (λ d, ∀ u, usb_get_type d u ≠ HOTPLUG_LINEIN ∧ usb_get_type d u ≠ HOTPLUG_CHARGER) us →
  Forall (λ i, sample_ok (linein_sample i)) ins → hot_msgs t = [] →
  ∃ m t1, hotplug_manager_init (lift_usb <$> us) None t = (0, Some m, t1) ∧
    let t' := foldl (hot_tick m) t1 ins in
    of_type HOTPLUG_LINEIN (hot_msgs t') =
      reports (run_samples (runs_step 3) (linein_sample <$> ins)
        (mk_runs 0 0 (if v =? LINEIN_IN then HOTPLUG_IN else if v =? LINEIN_OUT then HOTPLUG_OUT else HOTPLUG_NONE))).1 ∧
    of_type HOTPLUG_CHARGER (hot_msgs t') =
      reports (run_samples (runs_step 1) (charger_sample <$> ins) (mk_runs 0 0 (if hot_5v t then HOTPLUG_IN else HOTPLUG_NONE))).1.
Proof.
  intros Hv Hl Hd Hus His Hm. destruct (init_table us v t Hv Hl Hd) as (n & k & E). eexists _, _. split; [exact E|].
  cbv zeta. match goal with |- context [foldl _ ?t1 ins] => destruct (ticks_reports us k n ins t1 Hus) as [E1 E2]; rewrite E1, E2; clear E1 E2 end.
  cbn [hot_msgs linein_detect_state charger_detect_state]. rewrite Hm. cbn [of_type omap list_omap app]. split; f_equal.
  - apply debounce_runs; [lia|by apply Forall_fmap|by apply debounces_boot].
  - apply debounce_runs; [lia| |by apply debounces_boot]. apply Forall_fmap, Forall_true. intros i. unfold charger_sample, sample_ok, compose. cbn. destruct (i.2); by compute.
Qed.

(** A device that finds no entry is refused silently. *)
Theorem hotplug_register_full {T} (m : hotplug_manager_context_t T) (l : list (hotplug_device_t T)) d :
  device m = Some <$> l → Forall (λ e, dev_type e ≠ dev_type d) l → hotplug_device_register d m = (0, m).
Proof. intros Hm Hl. unfold hotplug_device_register. by rewrite Hm, register_loop_full. Qed.
End theorems.

(** ** Witnesses *)

Definition sample_hot : hot () := mk_hot (mk_detect 0 0 0) (mk_detect 0 0 0) (Some LINEIN_OUT) false () [].
Definition sample_inputs : list (option Z * bool) :=
  [(Some 2, false); (Some 2, false); (None, true); (Some 2, true); (Some 2, true); (Some 1, true); (Some 2, true)].

(** The plug is reported at its fourth sample; without a charger at the start the
    manager reports its removal first. *)
Lemma hotplug_reports_confirmed_changes_witness :
  ∃ m t1, hotplug_manager_init (lift_usb <$> []) None sample_hot = (0, Some m, t1) ∧
    let t' := foldl (hot_tick m) t1 sample_inputs in
    of_type HOTPLUG_LINEIN (hot_msgs t') = [HOTPLUG_IN] ∧ of_type HOTPLUG_CHARGER (hot_msgs t') = [HOTPLUG_OUT; HOTPLUG_IN].
Proof.
  apply (hotplug_reports_confirmed_changes [] LINEIN_OUT sample_hot sample_inputs); [reflexivity|cbn; lia|by_decide|constructor| |reflexivity].
  unfold sample_ok. by_decide.
Defined.
