(* ===== verification/DesktopManager.v ===== *)
(** * The applications of the main thread

    samples/bt_speaker/src/desktop/desktop_manager.c, the application switching of
    main/main_app.c and main/main_event.c and the requests of
    common/system_app_launcher.c, in the shipped configuration (Auracast, line-in,
    USB sound and demo applications; no voice prompts, card player or disk update).

    The applications are plugins in a table that the linker collects, a parameter.
    Their [enter] is the last thing a switch does and their [proc_msg] the last
    thing a delivery does, so what they ask of the manager comes after it; no
    [exit] of the configured ones calls it.  The mutex makes each call one step. *)

From stdpp Require Import base numbers list option.
From S2P Require Import Prelude SysStandby Hotplug.
Local Open Scope Z_scope.

Definition DESKTOP_PLUGIN_ID_BR_CALL : Z := 1.
Definition DESKTOP_PLUGIN_ID_BMR : Z := 2.
Definition DESKTOP_PLUGIN_ID_LE_CALL : Z := 4.
Definition DESKTOP_PLUGIN_ID_LINE_IN : Z := 10.
Definition DESKTOP_PLUGIN_ID_OTA : Z := 24.
Definition DESKTOP_PLUGIN_ID_UAC : Z := 30.
Definition DESKTOP_PLUGIN_ID_DEMO : Z := 31.
Definition DESKTOP_PLUGIN_ID_NONE : Z := 0xff.
Definition DESKTOP_SWITCH_CURR : Z := 0.
Definition DESKTOP_SWITCH_NEXT : Z := 1.
Definition DESKTOP_SWITCH_LAST : Z := 2.
Definition APP_SWITCH_ADD : Z := 0.
Definition APP_SWITCH_DEL : Z := 1.
Definition APP_SWITCH_REPLACE : Z := 2.
Definition HOTPLUG_USB_DEVICE : Z := 3.

(** [p1] to [p3] are what [enter] is called with. *)
Record desktop_plugin_t := mk_plugin { plugin_id : Z; p1 : Z; p2 : Z; p3 : Z }.
#[export] Instance desktop_plugin_eq_dec : EqDecision desktop_plugin_t.
Proof. solve_decision. Defined.

(** A message: its type, command and value. *)
Definition desk_msg : Type := Z * Z * Z.

(** What the manager and its callers call outside. *)
Inductive desk_call :=
  | PluginEnter (p : desktop_plugin_t)
  | PluginExit (p : desktop_plugin_t)
  | PluginMsg (p : desktop_plugin_t) (m : desk_msg)
  | PropertyFlushReq
  | SysEventNotify (event : Z).

(** [desktop_manager_ctx_t], with the calls made so far. *)
Record desktop_manager_ctx_t := mk_desk {
  def_plugin_id : Z;
  cur_plugin_id : Z;
  last_plugin_id : Z;
  plugin_num : Z;
  dk_start : bool;
  dk_locked : Z;
  plugin_bits : Z;
  cur_plugin : option desktop_plugin_t;
  dk_calls : list desk_call;
}.
Notation desk := desktop_manager_ctx_t.

Definition set_plugins (bits num : Z) (s : desk) : desk :=
  mk_desk (def_plugin_id s) (cur_plugin_id s) (last_plugin_id s) num (dk_start s) (dk_locked s) bits (cur_plugin s) (dk_calls s).
Definition set_current (cur last : Z) (p : option desktop_plugin_t) (s : desk) : desk :=
  mk_desk (def_plugin_id s) cur last (plugin_num s) (dk_start s) (dk_locked s) (plugin_bits s) p (dk_calls s).
Definition set_locked (n : Z) (s : desk) : desk :=
  mk_desk (def_plugin_id s) (cur_plugin_id s) (last_plugin_id s) (plugin_num s) (dk_start s) n (plugin_bits s) (cur_plugin s) (dk_calls s).
Definition set_started (b : bool) (s : desk) : desk :=
  mk_desk (def_plugin_id s) (cur_plugin_id s) (last_plugin_id s) (plugin_num s) b (dk_locked s) (plugin_bits s) (cur_plugin s) (dk_calls s).
Definition desk_emit (l : list desk_call) (s : desk) : desk :=
  mk_desk (def_plugin_id s) (cur_plugin_id s) (last_plugin_id s) (plugin_num s) (dk_start s) (dk_locked s) (plugin_bits s) (cur_plugin s) (dk_calls s ++ l).

(** ** The manager *)

Section manager.
(** [wide]: what [1 << n] gives when C does not say; [proc]: the results of the
    plugins' [proc_msg]. *)
Context (table : list desktop_plugin_t) (wide : Z → Z) (proc : desktop_plugin_t → desk_msg → Z).
Implicit Types s : desk.

Definition shl1 (n : Z) : Z := if (0 <=? n) && (n <? 32) then Z.shiftl 1 n else u32 (wide n).
Definition has_plugin (s : desk) (id : Z) : bool := negb (Z.land (plugin_bits s) (shl1 id) =? 0).

Fixpoint plugin_search (l : list desktop_plugin_t) (id : Z) : option desktop_plugin_t :=
  match l with
  | [] => None
  | p :: l => if id =? plugin_id p then Some p else plugin_search l id
  end.
Definition get_plugin_by_id (id : Z) : option desktop_plugin_t :=
  if negb (id =? DESKTOP_PLUGIN_ID_NONE) then plugin_search table id else None.

Definition desktop_manager_init (default_plugin_id : Z) (calls : list desk_call) : Z * desk :=
  let s := mk_desk 0 DESKTOP_PLUGIN_ID_NONE DESKTOP_PLUGIN_ID_NONE 0 false 0 0 None calls in
  match get_plugin_by_id default_plugin_id with
  | None => (-1, s)
  | Some _ =>
      (0, mk_desk default_plugin_id DESKTOP_PLUGIN_ID_NONE DESKTOP_PLUGIN_ID_NONE 1 true 0
            (u32 (Z.lor 0 (shl1 default_plugin_id))) None calls)
  end.

Definition desktop_manager_add (id : Z) (s : desk) : Z * desk :=
  if negb (dk_start s) then (- EINVAL, s)
  else
    match get_plugin_by_id id with
    | None => (-1, s)
    | Some _ =>
        if has_plugin s id then (0, s)
        else (0, set_plugins (u32 (Z.lor (plugin_bits s) (shl1 id))) (u8 (plugin_num s + 1)) s)
    end.

Definition desktop_manager_del (id : Z) (s : desk) : Z * desk :=
  if negb (dk_start s) then (- EINVAL, s)
  else if def_plugin_id s =? id then (- EINVAL, s)
  else
    match get_plugin_by_id id with
    | None => (0, s)
    | Some _ =>
        if negb (has_plugin s id) then (0, s)
        else (0, set_plugins (Z.ldiff (plugin_bits s) (shl1 id)) (u8 (plugin_num s - 1)) s)
    end.

(** The search for the next bit goes round at 32; [None] when there is none. *)
Fixpoint next_loop (fuel : nat) (s : desk) (id : Z) : option Z :=
  match fuel with
  | O => None
  | S fuel => if negb (has_plugin s id) then next_loop fuel s (Z.rem (id + 1) 32) else Some id
  end.

(** The switch to the chosen plugin. *)
Definition switch_to (id : Z) (s : desk) : Z * desk :=
  if id =? cur_plugin_id s then (0, s)
  else if negb (has_plugin s id) then (-1, s)
  else
    let s := desk_emit (match cur_plugin s with Some p => [PluginExit p] | None => [] end)
               (set_current (cur_plugin_id s) (cur_plugin_id s) (cur_plugin s) s) in
    let s := set_current id (last_plugin_id s) (get_plugin_by_id id) s in
    match cur_plugin s with
    | None => (-1, s)
    | Some p => (0, desk_emit [PluginEnter p] s)
    end.

(** [None] is a search that does not end. *)
Definition desktop_manager_switch (id switch_mode : Z) (s : desk) : option (Z * desk) :=
  if negb (dk_start s) then Some (-1, s)
  else if negb (dk_locked s =? 0) then Some (-1, s)
  else
    id ← (if switch_mode =? DESKTOP_SWITCH_LAST then Some (last_plugin_id s)
          else if switch_mode =? DESKTOP_SWITCH_NEXT then
            if 1 <? plugin_num s then next_loop 32 s (Z.rem (cur_plugin_id s + 1) 32) else Some id
          else Some id);
    Some (switch_to id s).

Definition desktop_manager_get_plugin_id (s : desk) : Z :=
  if negb (dk_start s) then DESKTOP_PLUGIN_ID_NONE else cur_plugin_id s.
Definition desktop_manager_get_last_plugin_id (s : desk) : Z :=
  if negb (dk_start s) then DESKTOP_PLUGIN_ID_NONE else last_plugin_id s.

Definition desktop_manager_exit (s : desk) : desk :=
  if negb (dk_start s) then s
  else
    let s := match cur_plugin s with
             | Some p => set_current (cur_plugin_id s) (last_plugin_id s) None (desk_emit [PluginExit p] s)
             | None => s
             end in
    let s := set_started false (set_current DESKTOP_PLUGIN_ID_NONE (last_plugin_id s) (cur_plugin s) s) in
    desk_emit [PropertyFlushReq] s.

Definition desktop_manager_enter_app (id : Z) (s : desk) : option (Z * desk) :=
  if negb (dk_start s) then Some (- EINVAL, s)
  else if negb (dk_locked s =? 0) then Some (- EINVAL, s)
  else desktop_manager_switch id DESKTOP_SWITCH_CURR s.

Definition desktop_manager_exit_app (id : Z) (s : desk) : option (Z * desk) :=
  let app := desktop_manager_get_plugin_id s in
  if negb (dk_start s) then Some (- EINVAL, s)
  else if negb (dk_locked s =? 0) then Some (- EINVAL, s)
  else if negb (app =? id) then Some (0, s)
  else
    '(ret, s) ← desktop_manager_switch 0 DESKTOP_SWITCH_LAST s;
    if negb (ret =? 0) then desktop_manager_switch (def_plugin_id s) DESKTOP_SWITCH_CURR s
    else Some (0, s).

Definition desktop_manager_proc_app_msg (m : desk_msg) (s : desk) : Z * desk :=
  if dk_start s then
    match cur_plugin s with
    | Some p => (proc p m, desk_emit [PluginMsg p m] s)
    | None => (0, s)
    end
  else (0, s).

Definition desktop_manager_lock (s : desk) : Z * desk :=
  if negb (dk_start s) then (- EINVAL, s) else (0, set_locked (u8 (dk_locked s + 1)) s).
Definition desktop_manager_unlock (s : desk) : Z * desk :=
  if negb (dk_start s) then (- EINVAL, s)
  else (0, if 0 <? dk_locked s then set_locked (u8 (dk_locked s - 1)) s else s).
Definition desktop_manager_is_locked (s : desk) : bool := if 0 =? dk_locked s then false else true.
Definition desktop_manager_get_default_plugin_id (s : desk) : Z := def_plugin_id s.

(** ** Its callers in the main thread *)

Definition is_call (id : Z) : bool := (id =? DESKTOP_PLUGIN_ID_BR_CALL) || (id =? DESKTOP_PLUGIN_ID_LE_CALL).

(** What follows a successful [desktop_manager_add] in [main_app_switch];
    [keep_bmr] is the condition on the new plugin under which BMR stays. *)
Definition enter_added (current plugin : Z) (keep_bmr : bool) (s : desk) : option desk :=
  '(_, s) ← desktop_manager_switch plugin DESKTOP_SWITCH_CURR s;
  let s := if is_call plugin then (desktop_manager_lock s).2 else s in
  Some (if (current =? DESKTOP_PLUGIN_ID_BMR) && negb (plugin =? DESKTOP_PLUGIN_ID_BMR) && negb keep_bmr
        then (desktop_manager_del current s).2 else s).

Definition main_app_switch (mode plugin plugin_replaced : Z) (s : desk) : option desk :=
  let current := desktop_manager_get_plugin_id s in
  if mode =? APP_SWITCH_ADD then
    let '(ret, s) := desktop_manager_add plugin s in
    if ret =? 0 then enter_added current plugin (plugin =? DESKTOP_PLUGIN_ID_OTA) s else Some s
  else if mode =? APP_SWITCH_DEL then
    let s := if is_call plugin then (desktop_manager_unlock s).2 else s in
    let s := (desktop_manager_del plugin s).2 in
    if current =? plugin then snd <$> desktop_manager_switch 0 DESKTOP_SWITCH_LAST s else Some s
  else if mode =? APP_SWITCH_REPLACE then
    let s := if is_call plugin_replaced then (desktop_manager_unlock s).2 else s in
    let s := (desktop_manager_del plugin_replaced s).2 in
    let '(ret, s) := desktop_manager_add plugin s in
    if ret =? 0 then enter_added current plugin false s else Some s
  else Some s.

(** The value of the three launch requests, and how the main thread takes it apart. *)
Definition system_app_launch_add (plugin : Z) : Z * Z := (APP_SWITCH_ADD, plugin).
Definition system_app_launch_del (plugin : Z) : Z * Z := (APP_SWITCH_DEL, plugin).
Definition system_app_launch_switch (from to : Z) : Z * Z := (APP_SWITCH_REPLACE, Z.lor to (Z.shiftl from 8)).
Definition switch_app_msg (m : Z * Z) (s : desk) : option desk :=
  main_app_switch m.1 (u8 (Z.land m.2 0xff)) (u8 (Z.land (Z.shiftr m.2 8) 0xff)) s.
Definition main_app_init (s : desk) : Z * Z := system_app_launch_add (u8 (desktop_manager_get_default_plugin_id s)).

(** [secondary]: a connected TWS device in the secondary role; [boot_time]:
    [system_boot_time]; [demo]: [run_mode_is_demo]. *)
Definition main_hotplug_event_handle (secondary : bool) (boot_time : Z) (demo : bool) (m : desk_msg) (s : desk) : option desk :=
  let '(_, cmd, value) := m in
  let to_demo s := if desktop_manager_get_plugin_id s =? DESKTOP_PLUGIN_ID_DEMO then (desktop_manager_proc_app_msg m s).2 else s in
  if secondary then Some s
  else if cmd =? HOTPLUG_LINEIN then
    if value =? HOTPLUG_IN then
      let s := (desktop_manager_add DESKTOP_PLUGIN_ID_LINE_IN s).2 in
      snd <$> desktop_manager_enter_app DESKTOP_PLUGIN_ID_LINE_IN s
    else if value =? HOTPLUG_OUT then
      '(_, s) ← desktop_manager_exit_app DESKTOP_PLUGIN_ID_LINE_IN s;
      Some (desktop_manager_del DESKTOP_PLUGIN_ID_LINE_IN s).2
    else Some s
  else if cmd =? HOTPLUG_USB_DEVICE then
    if value =? HOTPLUG_IN then
      let s := (desktop_manager_add DESKTOP_PLUGIN_ID_UAC s).2 in
      s ← (if 5000 <? boot_time then snd <$> desktop_manager_enter_app DESKTOP_PLUGIN_ID_UAC s else Some s);
      Some (to_demo s)
    else if value =? HOTPLUG_OUT then
      '(_, s) ← desktop_manager_exit_app DESKTOP_PLUGIN_ID_UAC s;
      Some (to_demo (desktop_manager_del DESKTOP_PLUGIN_ID_UAC s).2)
    else Some s
  else if cmd =? HOTPLUG_CHARGER then
    Some (if (value =? HOTPLUG_OUT) && demo then desk_emit [SysEventNotify SYS_EVENT_POWER_OFF] s else s)
  else Some s.

(** [system_app_launch_init]; [line_in] and [usb]: what the hot-plug manager says. *)
Definition system_app_launch_init (demo : bool) (line_in usb : Z) : desk :=
  let s := (desktop_manager_init (if demo then DESKTOP_PLUGIN_ID_DEMO else 0) []).2 in
  let s := if line_in =? HOTPLUG_IN then (desktop_manager_add DESKTOP_PLUGIN_ID_LINE_IN s).2 else s in
  if usb =? HOTPLUG_IN then (desktop_manager_add DESKTOP_PLUGIN_ID_UAC s).2 else s.
End manager.

(** ** The set of plugins in the bits *)

Definition count_bits (b : Z) : nat := length (filter (λ i, Z.testbit b i = true) (seqZ 0 32)).

Lemma shl1_bit wide n : 0 <= n < 32 → shl1 wide n = 2 ^ n.
Proof. intros. unfold shl1. rewrite (proj2 (Z.leb_le _ _)), (proj2 (Z.ltb_lt _ _)) by lia. cbn [andb]. by rewrite Z.shiftl_1_l. Qed.
Lemma land_pow2 b n : 0 <= n → negb (Z.land b (2 ^ n) =? 0) = Z.testbit b n.
Proof.
  intros. destruct (Z.testbit b n) eqn:E.
  - destruct (Z.eqb_spec (Z.land b (2 ^ n)) 0) as [H0|]; [|done]. apply (f_equal (λ z, Z.testbit z n)) in H0.
    rewrite Z.land_spec, E, Z.pow2_bits_true, Z.bits_0 in H0 by done. done.
  - rewrite (proj2 (Z.eqb_eq _ _)); [done|]. apply Z.bits_inj'. intros k Hk. rewrite Z.land_spec, Z.bits_0, Z.pow2_bits_eqb by done.
    destruct (Z.eqb_spec n k) as [->|]; [by rewrite E|apply andb_false_r].
Qed.
Lemma has_plugin_bit wide (s : desk) n : 0 <= n < 32 → has_plugin wide s n = Z.testbit (plugin_bits s) n.
Proof. intros. unfold has_plugin. rewrite shl1_bit by done. apply land_pow2. lia. Qed.

Lemma u32_bits b : 0 <= b → (∀ i, 32 <= i → Z.testbit b i = false) → u32 b = b.
Proof.
  intros H0 Hb. unfold u32. change 4294967296 with (2 ^ 32). apply Z.bits_inj'. intros k Hk. rewrite Z.testbit_mod_pow2 by lia.
  destruct (Z.ltb_spec k 32); [done|]. by rewrite Hb.
Qed.

Lemma count_flip b b' n :
  0 <= n < 32 → (∀ i, i ≠ n → Z.testbit b' i = Z.testbit b i) → Z.testbit b n = false → Z.testbit b' n = true →
  count_bits b' = S (count_bits b).
Proof.
  intros Hn Hb H0 H1. unfold count_bits. assert (Hin : n ∈ seqZ 0 32) by (apply elem_of_seqZ; lia).
  pose proof (NoDup_seqZ 0 32) as Hnd. apply list_elem_of_split in Hin as (l1 & l2 & E). rewrite E in *.
  apply list.NoDup_app in Hnd as (_ & Hd & Hnd). apply list.NoDup_cons in Hnd as [Hn2 _].
  assert (Hf : ∀ l : list Z, n ∉ l → filter (λ i, Z.testbit b' i = true) l = filter (λ i, Z.testbit b i = true) l).
  { induction l as [|i l IH]; intros Hl; [done|]. apply not_elem_of_cons in Hl as [Hi Hl]. rewrite !filter_cons, IH by done. by rewrite Hb by done. }
  rewrite !list.filter_app, !filter_cons, (decide_True _ _ H1), decide_False by (by rewrite H0).
  rewrite !Hf by (done || (intros Hx; by apply (Hd n Hx), list_elem_of_here)). rewrite !length_app. cbn [length]. lia.
Qed.
Lemma count_le b : (count_bits b <= 32)%nat.
Proof. unfold count_bits. etrans; [apply length_filter|]. by rewrite length_seqZ. Qed.
Lemma count_some b : (0 < count_bits b)%nat → ∃ i, 0 <= i < 32 ∧ Z.testbit b i = true.
Proof.
  unfold count_bits. destruct (filter _ _) as [|i l] eqn:E; cbn; [lia|]. intros _. exists i.
  assert (Hi : i ∈ filter (λ i, Z.testbit b i = true) (seqZ 0 32)) by (rewrite E; apply list_elem_of_here).
  apply list_elem_of_filter in Hi as [H1 H2]. apply elem_of_seqZ in H2. split; [lia|done].
Qed.

(** ** One application at a time *)

(** The plugin that runs after a call, [None] when the call comes at a wrong time. *)
Definition run_call (r : option desktop_plugin_t) (c : desk_call) : option (option desktop_plugin_t) :=
  match c with
  | PluginEnter p => if r is None then Some (Some p) else None
  | PluginExit p => if decide (r = Some p) then Some None else None
  | PluginMsg p _ => if decide (r = Some p) then Some r else None
  | _ => Some r
  end.
Definition running (l : list desk_call) : option (option desktop_plugin_t) :=
  foldl (λ r c, r ≫= λ r, run_call r c) (Some None) l.
Lemma running_snoc l c : running (l ++ [c]) = running l ≫= λ r, run_call r c.
Proof. unfold running. by rewrite foldl_app. Qed.
Lemma running_app1 l r (c : option desk_call) r' :
  running l = Some r → (match c with Some c => run_call r c | None => Some r end) = Some r' →
  running (l ++ match c with Some c => [c] | None => [] end) = Some r'.
Proof. intros H1 H2. destruct c; [by rewrite running_snoc, H1|by rewrite app_nil_r, H1]. Qed.

Section invariant.
Context (table : list desktop_plugin_t) (wide : Z → Z).
Notation get := (get_plugin_by_id table).

Record desk_wf (s : desk) : Prop := {
  wf_bits : 0 <= plugin_bits s;
  wf_in : ∀ i, Z.testbit (plugin_bits s) i = true → is_Some (get i);
  wf_num : plugin_num s = Z.of_nat (count_bits (plugin_bits s));
  wf_def : dk_start s = true → 0 <= def_plugin_id s < 32 ∧ Z.testbit (plugin_bits s) (def_plugin_id s) = true;
  wf_cur : cur_plugin s = get (cur_plugin_id s);
  wf_ids : 0 <= cur_plugin_id s ∧ 0 <= last_plugin_id s ∧ 0 <= def_plugin_id s;
  wf_run : running (dk_calls s) = Some (cur_plugin s);
}.

Hypothesis ids : Forall (λ p, 0 <= plugin_id p < 32) table.

Lemma get_range i : is_Some (get i) → 0 <= i < 32.
Proof.
  unfold get_plugin_by_id. destruct (negb _); [|by intros [? ?]]. induction ids as [|p l Hp Hl IH]; cbn; [by intros [? ?]|].
  destruct (Z.eqb_spec i (plugin_id p)) as [->|]; [done|]. exact (IH Hl).
Qed.
Lemma get_id i p : get i = Some p → plugin_id p = i.
Proof.
  unfold get_plugin_by_id. destruct (negb _); [|done]. clear ids. induction table as [|q l IH]; [done|]. cbn.
  destruct (Z.eqb_spec i (plugin_id q)) as [->|]; [by intros [= ->]|exact IH].
Qed.
Lemma get_in i p : get i = Some p → p ∈ table.
Proof.
  unfold get_plugin_by_id. destruct (negb _); [|done]. clear ids. induction table as [|q l IH]; [done|]. cbn.
  destruct (Z.eqb_spec i (plugin_id q)) as [->|]; [intros [= ->]; apply list_elem_of_here|]. intros H. by apply list_elem_of_further, IH.
Qed.

Lemma wf_high s i : desk_wf s → 32 <= i → Z.testbit (plugin_bits s) i = false.
Proof. intros Hs Hi. destruct (Z.testbit (plugin_bits s) i) eqn:E; [|done]. apply (wf_in s Hs), get_range in E. lia. Qed.

Lemma init_wf d p : get d = Some p → desk_wf (desktop_manager_init table wide d []).2 ∧ dk_start (desktop_manager_init table wide d []).2 = true.
Proof.
  intros Hd. pose proof (get_range d (mk_is_Some _ _ Hd)) as Hr. unfold desktop_manager_init. rewrite Hd. cbn [snd dk_start].
  rewrite Z.lor_0_l, shl1_bit by done. assert (Hb : ∀ i, Z.testbit (2 ^ d) i = (d =? i)) by (intros; apply Z.pow2_bits_eqb; lia).
  rewrite u32_bits; [|apply Z.pow_nonneg; lia|intros; rewrite Hb; apply Z.eqb_neq; lia]. split; [|done]. split; cbn.
  - apply Z.pow_nonneg. lia.
  - intros i. rewrite Hb. intros <-%Z.eqb_eq. by exists p.
  - rewrite (count_flip 0 (2 ^ d) d); [done|done| | |].
    + intros i Hi. rewrite Hb, Z.bits_0. apply Z.eqb_neq. congruence.
    + apply Z.bits_0.
    + rewrite Hb. apply Z.eqb_refl.
  - intros _. rewrite Hb, Z.eqb_refl. done.
  - done.
  - unfold DESKTOP_PLUGIN_ID_NONE. lia.
  - done.
Qed.

Lemma add_wf i s : desk_wf s → desk_wf (desktop_manager_add table wide i s).2.
Proof.
  intros Hs. unfold desktop_manager_add. destruct (dk_start s) eqn:Es; [|done]. cbn [negb]. destruct (get i) as [p|] eqn:Ei; [|done].
  pose proof (get_range i (mk_is_Some _ _ Ei)) as Hr. rewrite has_plugin_bit, shl1_bit by done.
  destruct (Z.testbit (plugin_bits s) i) eqn:E; [done|]. cbn [snd]. destruct Hs as [H1 H2 H3 H4 H5 H6 H7].
  assert (Hb : ∀ k, Z.testbit (Z.lor (plugin_bits s) (2 ^ i)) k = Z.testbit (plugin_bits s) k || (i =? k)).
  { intros. by rewrite Z.lor_spec, Z.pow2_bits_eqb by lia. }
  rewrite u32_bits.
  - split; cbn; [|intros k|..].
    + apply Z.lor_nonneg. split; [done|]. apply Z.pow_nonneg. lia.
    + rewrite Hb. intros [?|<-%Z.eqb_eq]%orb_prop; [by apply H2|by exists p].
    + rewrite (count_flip (plugin_bits s) _ i); [|done| |done|].
      * rewrite H3. pose proof (count_le (plugin_bits s)). rewrite u8_id by (unfold is_u8; lia). lia.
      * intros k Hk. rewrite Hb, (proj2 (Z.eqb_neq i k)) by congruence. apply orb_false_r.
      * rewrite Hb, Z.eqb_refl. apply orb_true_r.
    + intros Hst. destruct (H4 Hst) as [? Hd]. split; [done|]. by rewrite Hb, Hd.
    + done.
    + done.
    + done.
  - apply Z.lor_nonneg. split; [done|]. apply Z.pow_nonneg. lia.
  - intros k Hk. rewrite Hb, (proj2 (Z.eqb_neq i k)) by lia. rewrite orb_false_r.
    destruct (Z.testbit (plugin_bits s) k) eqn:Ek; [|done]. apply H2, get_range in Ek. lia.
Qed.

Lemma del_wf i s : desk_wf s → desk_wf (desktop_manager_del table wide i s).2.
Proof.
  intros Hs. unfold desktop_manager_del. destruct (dk_start s) eqn:Es; [|done]. cbn [negb].
  destruct (Z.eqb_spec (def_plugin_id s) i) as [|Hdef]; [done|]. destruct (get i) as [p|] eqn:Ei; [|done].
  pose proof (get_range i (mk_is_Some _ _ Ei)) as Hr. rewrite has_plugin_bit, shl1_bit by done.
  destruct (Z.testbit (plugin_bits s) i) eqn:E; [|done]. cbn [negb snd]. destruct Hs as [H1 H2 H3 H4 H5 H6 H7].
  assert (Hb : ∀ k, Z.testbit (Z.ldiff (plugin_bits s) (2 ^ i)) k = Z.testbit (plugin_bits s) k && negb (i =? k)).
  { intros. by rewrite Z.ldiff_spec, Z.pow2_bits_eqb by lia. }
  split; cbn; [|intros k|..].
  - apply Z.ldiff_nonneg. by left.
  - rewrite Hb. intros [? _]%andb_prop. by apply H2.
  - rewrite H3, (count_flip (Z.ldiff (plugin_bits s) (2 ^ i)) (plugin_bits s) i); [|done| | |done].
    + pose proof (count_le (Z.ldiff (plugin_bits s) (2 ^ i))). rewrite u8_id by (unfold is_u8; lia). lia.
    + intros k Hk. rewrite Hb, (proj2 (Z.eqb_neq i k)) by congruence. by rewrite andb_true_r.
    + rewrite Hb, Z.eqb_refl. apply andb_false_r.
  - intros Hst. destruct (H4 Hst) as [? Hd]. split; [done|]. rewrite Hb, Hd, (proj2 (Z.eqb_neq i _)) by congruence. done.
  - done.
  - done.
  - done.
Qed.

Lemma next_loop_spec s fuel : ∀ c d,
  0 <= c → 0 <= d < Z.of_nat fuel → Z.testbit (plugin_bits s) ((c + d) mod 32) = true →
  ∃ e, 0 <= e <= d ∧ next_loop wide fuel s (c mod 32) = Some ((c + e) mod 32) ∧
    Z.testbit (plugin_bits s) ((c + e) mod 32) = true ∧ ∀ k, 0 <= k < e → Z.testbit (plugin_bits s) ((c + k) mod 32) = false.
Proof.
  induction fuel as [|fuel IH]; intros c d Hc Hd Hb; [lia|]. cbn [next_loop].
  rewrite has_plugin_bit by (apply Z.mod_pos_bound; lia). destruct (Z.testbit (plugin_bits s) (c mod 32)) eqn:E; cbn [negb].
  - exists 0. rewrite Z.add_0_r. split_and!; [lia|lia|done|done|lia].
  - assert (d ≠ 0) by (intros ->; rewrite Z.add_0_r in Hb; congruence).
    assert (Hr : Z.rem (c mod 32 + 1) 32 = (c + 1) mod 32).
    { pose proof (Z.mod_pos_bound c 32). rewrite Z.rem_mod_nonneg by lia. apply Z.add_mod_idemp_l. lia. }
    rewrite Hr. destruct (IH (c + 1) (d - 1)) as (e & He & H1 & H2 & H3); [lia|lia|by replace (c + 1 + (d - 1)) with (c + d) by lia|].
    replace (c + 1 + e) with (c + (e + 1)) in * by lia. exists (e + 1). split_and!; [lia|lia|done|done|].
    intros k Hk. destruct (Z.eq_dec k 0) as [->|]; [by rewrite Z.add_0_r|]. replace (c + k) with (c + 1 + (k - 1)) by lia. apply H3. lia.
Qed.

(** The search from the current plugin finds the next one round the circle. *)
Lemma next_found s : desk_wf s → (0 < count_bits (plugin_bits s))%nat →
  ∃ e, 1 <= e <= 32 ∧ next_loop wide 32 s (Z.rem (cur_plugin_id s + 1) 32) = Some ((cur_plugin_id s + e) mod 32) ∧
    Z.testbit (plugin_bits s) ((cur_plugin_id s + e) mod 32) = true ∧
    ∀ k, 1 <= k < e → Z.testbit (plugin_bits s) ((cur_plugin_id s + k) mod 32) = false.
Proof.
  intros Hs Hc. destruct (count_some _ Hc) as (i & Hi & Hb). destruct (wf_ids s Hs) as [H0 _]. set (c := cur_plugin_id s) in *.
  rewrite Z.rem_mod_nonneg by lia. destruct (next_loop_spec s 32 (c + 1) ((i - (c + 1)) mod 32)) as (e & He & H1 & H2 & H3).
  - lia.
  - apply Z.mod_pos_bound. lia.
  - rewrite Zplus_mod_idemp_r. replace (c + 1 + (i - (c + 1))) with i by lia. by rewrite Z.mod_small.
  - pose proof (Z.mod_pos_bound (i - (c + 1)) 32). replace (c + 1 + e) with (c + (e + 1)) in * by lia. exists (e + 1).
    split_and!; [lia|lia|done|done|]. intros k Hk. replace (c + k) with (c + 1 + (k - 1)) by lia. apply H3. lia.
Qed.

Lemma switch_to_wf i s : desk_wf s → 0 <= i → desk_wf (switch_to table wide i s).2.
Proof.
  intros Hs Hi. unfold switch_to. destruct (Z.eqb_spec i (cur_plugin_id s)) as [|Hne]; [done|]. destruct (has_plugin wide s i); [|done].
  cbn [negb]. destruct Hs as [H1 H2 H3 H4 H5 H6 H7].
  assert (Hx : running (dk_calls s ++ match cur_plugin s with Some p => [PluginExit p] | None => [] end) = Some None).
  { destruct (cur_plugin s) as [q|]; [rewrite running_snoc, H7; cbn; by rewrite decide_True|by rewrite app_nil_r]. }
  cbn [set_current desk_emit cur_plugin]. destruct (get i) as [p|] eqn:Ei; split; cbn; try done.
  - tauto.
  - by rewrite running_snoc, Hx.
  - tauto.
Qed.
Lemma switch_wf i m s : desk_wf s → 0 <= i → ∃ r s', desktop_manager_switch table wide i m s = Some (r, s') ∧ desk_wf s'.
Proof.
  intros Hs Hi. unfold desktop_manager_switch. destruct (negb (dk_start s)); [by exists (-1), s|]. destruct (negb (dk_locked s =? 0)); [by exists (-1), s|].
  assert (Hto : ∀ j, 0 <= j → ∃ r s', Some (switch_to table wide j s) = Some (r, s') ∧ desk_wf s').
  { intros j Hj. pose proof (switch_to_wf j s Hs Hj). destruct (switch_to table wide j s) as [r s']. by exists r, s'. }
  destruct (m =? DESKTOP_SWITCH_LAST); [apply Hto; pose proof (wf_ids s Hs); tauto|]. destruct (m =? DESKTOP_SWITCH_NEXT); [|by apply Hto].
  destruct (Z.ltb_spec 1 (plugin_num s)) as [Hn|]; [|by apply Hto]. rewrite (wf_num s Hs) in Hn.
  destruct (next_found s Hs) as (e & He & -> & _); [lia|]. apply Hto, Z.mod_pos_bound. lia.
Qed.

Lemma exit_wf s : desk_wf s → desk_wf (desktop_manager_exit s).
Proof.
  intros Hs. unfold desktop_manager_exit. destruct (dk_start s) eqn:Es; [|exact Hs]. cbn [negb]. destruct Hs as [H1 H2 H3 H4 H5 H6 H7].
  assert (Hn : get DESKTOP_PLUGIN_ID_NONE = None) by done.
  destruct (cur_plugin s) as [p|] eqn:Ep; split; cbn; rewrite ?Ep; try done; try (by unfold DESKTOP_PLUGIN_ID_NONE; destruct H6 as (? & ? & ?)).
  - rewrite !running_snoc, H7. cbn. by rewrite decide_True.
  - by rewrite running_snoc, H7.
Qed.
Lemma lock_wf s : desk_wf s → desk_wf (desktop_manager_lock s).2.
Proof. intros Hs. unfold desktop_manager_lock. destruct (negb (dk_start s)); [done|]. by destruct Hs. Qed.
Lemma unlock_wf s : desk_wf s → desk_wf (desktop_manager_unlock s).2.
Proof.
  intros Hs. unfold desktop_manager_unlock. destruct (negb (dk_start s)); [done|]. cbn [snd]. destruct (0 <? dk_locked s); [|done]. by destruct Hs.
Qed.
Lemma msg_wf (proc : desktop_plugin_t → desk_msg → Z) m s : desk_wf s → desk_wf (desktop_manager_proc_app_msg proc m s).2.
Proof.
  intros Hs. unfold desktop_manager_proc_app_msg. destruct (dk_start s); [|done]. destruct (cur_plugin s) as [p|] eqn:Ep; [|done].
  destruct Hs as [H1 H2 H3 H4 H5 H6 H7]. split; cbn; try done. rewrite running_snoc, H7, Ep. cbn. by rewrite decide_True.
Qed.
Lemma emit_wf c s : desk_wf s → (∀ r, run_call r c = Some r) → desk_wf (desk_emit [c] s).
Proof. intros [H1 H2 H3 H4 H5 H6 H7] Hc. split; cbn; try done. rewrite running_snoc, H7. apply Hc. Qed.
Lemma enter_app_wf i s : desk_wf s → 0 <= i → ∃ r s', desktop_manager_enter_app table wide i s = Some (r, s') ∧ desk_wf s'.
Proof.
  intros Hs Hi. unfold desktop_manager_enter_app. destruct (negb (dk_start s)); [by eexists _, s|].
  destruct (negb (dk_locked s =? 0)); [by eexists _, s|]. by apply switch_wf.
Qed.
Lemma exit_app_wf i s : desk_wf s → ∃ r s', desktop_manager_exit_app table wide i s = Some (r, s') ∧ desk_wf s'.
Proof.
  intros Hs. unfold desktop_manager_exit_app. destruct (negb (dk_start s)); [by eexists _, s|].
  destruct (negb (dk_locked s =? 0)); [by eexists _, s|]. destruct (negb _); [by eexists _, s|].
  destruct (switch_wf 0 DESKTOP_SWITCH_LAST s Hs) as (r & s1 & -> & Hs1); [lia|]. cbn [mbind option_bind].
  destruct (negb (r =? 0)); [|by exists 0, s1]. apply switch_wf; [done|]. pose proof (wf_ids s1 Hs1). tauto.
Qed.
#[local] Hint Resolve add_wf del_wf lock_wf unlock_wf exit_wf msg_wf : core.

Lemma enter_added_wf c i k s : desk_wf s → 0 <= i → ∃ s', enter_added table wide c i k s = Some s' ∧ desk_wf s'.
Proof.
  intros Hs Hi. unfold enter_added. destruct (switch_wf i DESKTOP_SWITCH_CURR s Hs Hi) as (r & s1 & -> & Hs1). cbn [mbind option_bind].
  eexists. split; [done|]. destruct (is_call i), (_ && _); auto.
Qed.
Lemma main_app_switch_wf m i j s : desk_wf s → 0 <= i → ∃ s', main_app_switch table wide m i j s = Some s' ∧ desk_wf s'.
Proof.
  intros Hs Hi. unfold main_app_switch.
  assert (Hadd : ∀ c k s0, desk_wf s0 → ∃ s', (let '(ret, s1) := desktop_manager_add table wide i s0 in
    if ret =? 0 then enter_added table wide c i k s1 else Some s1) = Some s' ∧ desk_wf s').
  { intros c k s0 H0. pose proof (add_wf i s0 H0) as H1. destruct (desktop_manager_add table wide i s0) as [ret s1].
    destruct (ret =? 0); [by apply enter_added_wf|by exists s1]. }
  assert (Hdel : ∀ x y, desk_wf (desktop_manager_del table wide x (if is_call y then (desktop_manager_unlock s).2 else s)).2).
  { intros x y. destruct (is_call y); auto. }
  destruct (m =? APP_SWITCH_ADD); [by apply Hadd|]. destruct (m =? APP_SWITCH_DEL).
  - destruct (_ =? i); [|by eexists]. destruct (switch_wf 0 DESKTOP_SWITCH_LAST _ (Hdel i i)) as (r & s1 & -> & H1); [lia|]. by exists s1.
  - destruct (m =? APP_SWITCH_REPLACE); [by apply Hadd|by exists s].
Qed.
Lemma hotplug_wf (proc : desktop_plugin_t → desk_msg → Z) b t d m s : desk_wf s → ∃ s', main_hotplug_event_handle table wide proc b t d m s = Some s' ∧ desk_wf s'.
Proof.
  intros Hs. destruct m as [[ty cmd] value]. unfold main_hotplug_event_handle. destruct b; [by exists s|].
  assert (Hin : ∀ i, 0 <= i → ∃ s', snd <$> desktop_manager_enter_app table wide i (desktop_manager_add table wide i s).2 = Some s' ∧ desk_wf s').
  { intros i Hi. destruct (enter_app_wf i _ (add_wf i s Hs) Hi) as (r & s1 & -> & H1). by exists s1. }
  destruct (cmd =? HOTPLUG_LINEIN); [|destruct (cmd =? HOTPLUG_USB_DEVICE)].
  - destruct (value =? HOTPLUG_IN); [by apply Hin|]. destruct (value =? HOTPLUG_OUT); [|by exists s].
    destruct (exit_app_wf DESKTOP_PLUGIN_ID_LINE_IN s Hs) as (r & s1 & -> & H1). eexists. split; [done|]. auto.
  - destruct (value =? HOTPLUG_IN).
    + destruct (5000 <? t).
      * destruct (Hin DESKTOP_PLUGIN_ID_UAC) as (s1 & -> & H1); [done|]. eexists. split; [done|]. destruct (_ =? _); auto.
      * eexists. split; [done|]. destruct (_ =? _); auto.
    + destruct (value =? HOTPLUG_OUT); [|by exists s].
      destruct (exit_app_wf DESKTOP_PLUGIN_ID_UAC s Hs) as (r & s1 & -> & H1). eexists. split; [done|]. destruct (_ =? _); auto.
  - destruct (cmd =? HOTPLUG_CHARGER); [|by exists s]. eexists. split; [done|]. destruct (_ && _); [|done]. by apply emit_wf.
Qed.
End invariant.

(** ** Runs *)

Inductive desk_op :=
  | DeskAdd (id : Z) | DeskDel (id : Z) | DeskSwitch (id mode : Z) | DeskExit
  | DeskEnterApp (id : Z) | DeskExitApp (id : Z) | DeskMsg (m : desk_msg) | DeskLock | DeskUnlock
  | DeskLaunch (m : Z * Z) | DeskHotplug (secondary : bool) (boot_time : Z) (demo : bool) (m : desk_msg).

Section runs.
Context (table : list desktop_plugin_t) (wide : Z → Z) (proc : desktop_plugin_t → desk_msg → Z).

Definition desk_exec (op : desk_op) (s : desk) : option desk :=
  match op with
  | DeskAdd i => Some (desktop_manager_add table wide i s).2
  | DeskDel i => Some (desktop_manager_del table wide i s).2
  | DeskSwitch i m => snd <$> desktop_manager_switch table wide i m s
  | DeskExit => Some (desktop_manager_exit s)
  | DeskEnterApp i => snd <$> desktop_manager_enter_app table wide i s
  | DeskExitApp i => snd <$> desktop_manager_exit_app table wide i s
  | DeskMsg m => Some (desktop_manager_proc_app_msg proc m s).2
  | DeskLock => Some (desktop_manager_lock s).2
  | DeskUnlock => Some (desktop_manager_unlock s).2
  | DeskLaunch m => switch_app_msg table wide m s
  | DeskHotplug b t d m => main_hotplug_event_handle table wide proc b t d m s
  end.
Fixpoint desk_run (l : list desk_op) (s : desk) : option desk :=
  match l with
  | [] => Some s
  | op :: l => s ← desk_exec op s; desk_run l s
  end.
Definition desk_op_ok (op : desk_op) : Prop :=
  match op with DeskSwitch i _ | DeskEnterApp i => 0 <= i | _ => True end.

Lemma desk_exec_wf op s : Forall (λ p, 0 <= plugin_id p < 32) table → desk_op_ok op → desk_wf table s →
  ∃ s', desk_exec op s = Some s' ∧ desk_wf table s'.
Proof.
  intros Ht Ho Hs. destruct op; cbn [desk_exec desk_op_ok] in *.
  - eexists; split; [done|]. by apply add_wf.
  - eexists; split; [done|]. by apply del_wf.
  - destruct (switch_wf table wide id mode s Hs Ho) as (r & s' & -> & ?). by exists s'.
  - eexists; split; [done|]. by apply exit_wf.
  - destruct (enter_app_wf table wide id s Hs Ho) as (r & s' & -> & ?). by exists s'.
  - destruct (exit_app_wf table wide id s Hs) as (r & s' & -> & ?). by exists s'.
  - eexists; split; [done|]. by apply msg_wf.
  - eexists; split; [done|]. by apply lock_wf.
  - eexists; split; [done|]. by apply unlock_wf.
  - apply main_app_switch_wf; [done|done|]. unfold u8. apply Z.mod_pos_bound. lia.
  - by apply hotplug_wf.
Qed.
Lemma desk_run_wf l : ∀ s, Forall (λ p, 0 <= plugin_id p < 32) table → Forall desk_op_ok l → desk_wf table s →
  ∃ s', desk_run l s = Some s' ∧ desk_wf table s'.
Proof.
  induction l as [|op l IH]; intros s Ht Hl Hs; [by exists s|]. apply Forall_cons_1 in Hl as [Ho Hl].
  destruct (desk_exec_wf op s Ht Ho Hs) as (s1 & E & H1). cbn [desk_run]. rewrite E. by apply IH.
Qed.
End runs.

(** ** Single steps *)

Section steps.
Context (table : list desktop_plugin_t) (wide : Z → Z).
Hypothesis ids : Forall (λ p, 0 <= plugin_id p < 32) table.
Notation get := (get_plugin_by_id table).

Lemma bit_range s i : desk_wf table s → Z.testbit (plugin_bits s) i = true → 0 <= i < 32.
Proof. intros Hs Hb. by apply (get_range table ids), (wf_in table s Hs). Qed.
Lemma has_bit s i : desk_wf table s → Z.testbit (plugin_bits s) i = true → has_plugin wide s i = true.
Proof. intros Hs Hb. rewrite has_plugin_bit; [done|]. by apply (bit_range s). Qed.

Lemma add_new i p s : desk_wf table s → dk_start s = true → get i = Some p → Z.testbit (plugin_bits s) i = false →
  desktop_manager_add table wide i s = (0, set_plugins (Z.lor (plugin_bits s) (2 ^ i)) (plugin_num s + 1) s).
Proof.
  intros Hs Hst Hi Hb. unfold desktop_manager_add. pose proof (get_range table ids i (mk_is_Some _ _ Hi)) as Hr.
  rewrite Hst, Hi, has_plugin_bit, Hb, shl1_bit by done. cbn [negb]. rewrite u32_bits.
  - rewrite (wf_num table s Hs). pose proof (count_le (plugin_bits s)). by rewrite u8_id by (unfold is_u8; lia).
  - apply Z.lor_nonneg. split; [apply (wf_bits table s Hs)|]. apply Z.pow_nonneg. lia.
  - intros k Hk. rewrite Z.lor_spec, Z.pow2_bits_false, (wf_high table ids s k Hs Hk) by lia. done.
Qed.
Lemma add_again i p s : desk_wf table s → dk_start s = true → get i = Some p → Z.testbit (plugin_bits s) i = true →
  desktop_manager_add table wide i s = (0, s).
Proof. intros Hs Hst Hi Hb. unfold desktop_manager_add. by rewrite Hst, Hi, has_bit. Qed.
Lemma del_old i s : desk_wf table s → dk_start s = true → def_plugin_id s ≠ i → Z.testbit (plugin_bits s) i = true →
  desktop_manager_del table wide i s = (0, set_plugins (Z.ldiff (plugin_bits s) (2 ^ i)) (plugin_num s - 1) s).
Proof.
  intros Hs Hst Hd Hb. unfold desktop_manager_del. destruct (wf_in table s Hs i Hb) as [p Hi]. pose proof (bit_range s i Hs Hb) as Hr.
  rewrite Hst, (proj2 (Z.eqb_neq _ _) Hd), Hi, has_bit, shl1_bit by done. cbn [negb].
  rewrite (wf_num table s Hs). pose proof (count_le (plugin_bits s)).
  assert (0 < count_bits (plugin_bits s))%nat.
  { unfold count_bits. destruct (filter _ _) eqn:E; [|cbn; lia]. exfalso. assert (Hin : i ∈ filter (λ i, Z.testbit (plugin_bits s) i = true) (seqZ 0 32)).
    { apply list_elem_of_filter. split; [done|]. apply elem_of_seqZ. lia. }
    rewrite E in Hin. by apply elem_of_nil in Hin. }
  by rewrite u8_id by (unfold is_u8; lia).
Qed.

(** The state after a switch to plugin [p]. *)
Definition moved (p : desktop_plugin_t) (s : desk) : desk :=
  mk_desk (def_plugin_id s) (plugin_id p) (cur_plugin_id s) (plugin_num s) (dk_start s) (dk_locked s) (plugin_bits s) (Some p)
    (dk_calls s ++ match cur_plugin s with Some q => [PluginExit q; PluginEnter p] | None => [PluginEnter p] end).

Lemma switch_to_ok i p s : desk_wf table s → i ≠ cur_plugin_id s → Z.testbit (plugin_bits s) i = true → get i = Some p →
  switch_to table wide i s = (0, moved p s).
Proof.
  intros Hs Hne Hb Hi. unfold switch_to, moved. rewrite (proj2 (Z.eqb_neq _ _) Hne), has_bit by done. cbn [negb].
  cbn [set_current desk_emit cur_plugin last_plugin_id]. rewrite Hi, (get_id table i p Hi). unfold desk_emit, set_current. cbn.
  rewrite <- (assoc_L (++)). by destruct (cur_plugin s).
Qed.
Lemma switch_curr i s : dk_start s = true → dk_locked s = 0 →
  desktop_manager_switch table wide i DESKTOP_SWITCH_CURR s = Some (switch_to table wide i s).
Proof. intros Hst Hl. unfold desktop_manager_switch. by rewrite Hst, Hl. Qed.
Lemma switch_last i s : dk_start s = true → dk_locked s = 0 →
  desktop_manager_switch table wide i DESKTOP_SWITCH_LAST s = Some (switch_to table wide (last_plugin_id s) s).
Proof. intros Hst Hl. unfold desktop_manager_switch. by rewrite Hst, Hl. Qed.

Lemma moved_wf p i s : desk_wf table s → get i = Some p → i ≠ cur_plugin_id s → Z.testbit (plugin_bits s) i = true → desk_wf table (moved p s).
Proof.
  intros Hs Hi Hne Hb. pose proof (bit_range s i Hs Hb). pose proof (switch_to_wf table wide i s Hs ltac:(lia)) as H1.
  by rewrite (switch_to_ok i p s) in H1.
Qed.

(** One press of the key that goes to the next application. *)
Lemma press_next s : desk_wf table s → dk_start s = true → dk_locked s = 0 → 1 < plugin_num s →
  ∃ e s1, 1 <= e <= 32 ∧ desktop_manager_switch table wide 0 DESKTOP_SWITCH_NEXT s = Some (0, s1) ∧
    cur_plugin_id s1 = (cur_plugin_id s + e) mod 32 ∧ Z.testbit (plugin_bits s) (cur_plugin_id s1) = true ∧
    (∀ k, 1 <= k < e → Z.testbit (plugin_bits s) ((cur_plugin_id s + k) mod 32) = false) ∧
    desk_wf table s1 ∧ dk_start s1 = true ∧ dk_locked s1 = 0 ∧ plugin_bits s1 = plugin_bits s ∧ plugin_num s1 = plugin_num s.
Proof.
  intros Hs Hst Hl Hn. assert (Hc : (0 < count_bits (plugin_bits s))%nat) by (rewrite (wf_num table s Hs) in Hn; lia).
  destruct (next_found table wide s Hs Hc) as (e & He & H1 & H2 & H3).
  assert (E : desktop_manager_switch table wide 0 DESKTOP_SWITCH_NEXT s = Some (switch_to table wide ((cur_plugin_id s + e) mod 32) s)).
  { unfold desktop_manager_switch. rewrite Hst, Hl, (proj2 (Z.ltb_lt _ _) Hn), H1. done. }
  rewrite E. set (i := (cur_plugin_id s + e) mod 32) in *. exists e. destruct (Z.eq_dec i (cur_plugin_id s)) as [Ei|Ei].
  - assert (Ht : switch_to table wide i s = (0, s)) by (unfold switch_to; by rewrite Ei, Z.eqb_refl).
    exists s. rewrite Ht. split_and!; done || lia || congruence.
  - destruct (wf_in table s Hs i H2) as [p Hp]. rewrite (switch_to_ok i p s) by done. exists (moved p s).
    pose proof (get_id table i p Hp) as Hid. pose proof (moved_wf p i s Hs Hp Ei H2). cbn [moved cur_plugin_id dk_start dk_locked plugin_bits plugin_num].
    rewrite Hid. split_and!; done || lia.
Qed.

Fixpoint presses (n : nat) (s : desk) : option desk :=
  match n with
  | O => Some s
  | S n => '(_, s) ← desktop_manager_switch table wide 0 DESKTOP_SWITCH_NEXT s; presses n s
  end.

Lemma circle_step c d e : 0 <= e < d ∧ d <= 32 → ((c + d) mod 32 - ((c + e) mod 32 + 1)) mod 32 = d - e - 1.
Proof. intros. Z.to_euclidean_division_equations. lia. Qed.
Lemma presses_reach i n : ∀ s, desk_wf table s → dk_start s = true → dk_locked s = 0 → 1 < plugin_num s →
  Z.testbit (plugin_bits s) i = true → (i - (cur_plugin_id s + 1)) mod 32 + 1 <= Z.of_nat n →
  ∃ k s', (k <= n)%nat ∧ presses k s = Some s' ∧ cur_plugin_id s' = i ∧ desk_wf table s'.
Proof.
  induction n as [|n IH]; intros s Hs Hst Hl Hn Hb Hd; [pose proof (Z.mod_pos_bound (i - (cur_plugin_id s + 1)) 32); lia|].
  destruct (Z.eq_dec (cur_plugin_id s) i) as [Ec|Ec]; [exists 0%nat, s; split_and!; [lia|done|done|done]|].
  pose proof (bit_range s i Hs Hb) as Hi.
  destruct (press_next s Hs Hst Hl Hn) as (e & s1 & He & H1 & Hcur & Hb1 & Hgap & Hs1 & Hst1 & Hl1 & Hbits & Hnum).
  destruct (wf_ids table s Hs) as [Hc0 _]. set (c := cur_plugin_id s) in *. set (d := (i - (c + 1)) mod 32 + 1) in *.
  assert (Hdi : (c + d) mod 32 = i).
  { unfold d. rewrite (Z.add_comm _ 1), Z.add_assoc, Zplus_mod_idemp_r. replace (c + 1 + (i - (c + 1))) with i by lia. by apply Z.mod_small. }
  assert (Hd1 : 1 <= d <= 32) by (pose proof (Z.mod_pos_bound (i - (c + 1)) 32); lia).
  assert (Hed : e <= d).
  { destruct (Z.lt_ge_cases d e) as [Hlt|]; [|lia]. rewrite <- Hdi, Hgap in Hb by lia. done. }
  destruct (Z.eq_dec e d) as [->|Hne].
  - exists 1%nat, s1. cbn [presses]. rewrite H1. cbn [mbind option_bind]. split_and!; [lia|done|congruence|done].
  - destruct (IH s1) as (k & s' & Hk & Hp & Hcur' & Hs'); [done|done|done|lia|by rewrite Hbits| |].
    + rewrite Hcur. enough ((i - ((c + e) mod 32 + 1)) mod 32 = d - e - 1) by lia.
      rewrite <- Hdi. apply circle_step. lia.
    + exists (S k), s'. cbn [presses]. rewrite H1. cbn [mbind option_bind]. split_and!; [lia|done|done|done].
Qed.
End steps.

(** ** Requests to the main thread *)

Section requests.
Context (table : list desktop_plugin_t) (wide : Z → Z) (proc : desktop_plugin_t → desk_msg → Z).
Hypothesis ids : Forall (λ p, 0 <= plugin_id p < 32) table.
Notation get := (get_plugin_by_id table).
Notation LI := DESKTOP_PLUGIN_ID_LINE_IN.

Definition added (c : Z) (s : desk) : desk := set_plugins (Z.lor (plugin_bits s) (2 ^ c)) (plugin_num s + 1) s.
Definition removed (c : Z) (s : desk) : desk := set_plugins (Z.ldiff (plugin_bits s) (2 ^ c)) (plugin_num s - 1) s.
Lemma added_bit c s k : 0 <= c → Z.testbit (plugin_bits (added c s)) k = Z.testbit (plugin_bits s) k || (c =? k).
Proof. intros. cbn. by rewrite Z.lor_spec, Z.pow2_bits_eqb by lia. Qed.
Lemma removed_bit c s k : 0 <= c → Z.testbit (plugin_bits (removed c s)) k = Z.testbit (plugin_bits s) k && negb (c =? k).
Proof. intros. cbn. by rewrite Z.ldiff_spec, Z.pow2_bits_eqb by lia. Qed.
Lemma added_wf c q s : desk_wf table s → dk_start s = true → get c = Some q → Z.testbit (plugin_bits s) c = false → desk_wf table (added c s).
Proof. intros Hs Hst Hq Hb. pose proof (add_wf table wide ids c s Hs) as H. by rewrite (add_new table wide ids c q) in H. Qed.
Lemma removed_wf c s : desk_wf table s → dk_start s = true → def_plugin_id s ≠ c → Z.testbit (plugin_bits s) c = true → desk_wf table (removed c s).
Proof. intros Hs Hst Hd Hb. pose proof (del_wf table wide ids c s Hs) as H. by rewrite (del_old table wide ids c) in H. Qed.
Lemma locked_wf n s : desk_wf table s → desk_wf table (set_locked n s).
Proof. by intros []. Qed.

Definition lock_of (c : Z) : Z := if is_call c then 1 else 0.

(** A request for a plugin that is not registered, while another one than BMR runs. *)
Lemma request_new c q x s : desk_wf table s → dk_start s = true → dk_locked s = 0 → get c = Some q →
  Z.testbit (plugin_bits s) c = false → c ≠ cur_plugin_id s → cur_plugin_id s ≠ DESKTOP_PLUGIN_ID_BMR →
  main_app_switch table wide APP_SWITCH_ADD c x s = Some (set_locked (lock_of c) (moved q (added c s))) ∧ desk_wf table (moved q (added c s)).
Proof.
  intros Hs Hst Hl Hq Hb Hne Hbmr. pose proof (get_range table ids c (mk_is_Some _ _ Hq)) as Hcr.
  assert (Hsa : desk_wf table (added c s)) by (by apply (added_wf c q)).
  assert (Hbc : Z.testbit (plugin_bits (added c s)) c = true) by (rewrite added_bit, Z.eqb_refl by lia; apply orb_true_r).
  split; [|by apply (moved_wf table wide ids q c)].
  unfold main_app_switch. cbn [Z.eqb APP_SWITCH_ADD]. rewrite (add_new table wide ids c q s) by done. fold (added c s). cbn [Z.eqb].
  unfold enter_added. rewrite switch_curr by done. rewrite (switch_to_ok table wide ids c q) by done. cbn [mbind option_bind].
  unfold desktop_manager_get_plugin_id. rewrite Hst. cbn [negb]. rewrite (proj2 (Z.eqb_neq _ _) Hbmr). cbn [andb].
  f_equal. unfold lock_of, desktop_manager_lock. destruct (is_call c).
  - change (dk_start (moved q (added c s))) with (dk_start s). change (dk_locked (moved q (added c s))) with (dk_locked s). by rewrite Hst, Hl.
  - unfold set_locked. by rewrite <- Hl.
Qed.

(** Leaving an application that does not run. *)
Lemma exit_app_elsewhere i s : dk_start s = true → cur_plugin_id s ≠ i →
  ∃ r, desktop_manager_exit_app table wide i s = Some (r, s).
Proof.
  intros Hst Hc. unfold desktop_manager_exit_app, desktop_manager_get_plugin_id. rewrite Hst. cbn [negb].
  destruct (negb (dk_locked s =? 0)); [by eexists|]. rewrite (proj2 (Z.eqb_neq _ _) Hc). by eexists.
Qed.
(** The line-in comes while another application runs, and goes again. *)
Lemma line_in_enters t demo ty q s : desk_wf table s → dk_start s = true → dk_locked s = 0 → get LI = Some q →
  Z.testbit (plugin_bits s) LI = false → cur_plugin_id s ≠ LI →
  main_hotplug_event_handle table wide proc false t demo (ty, HOTPLUG_LINEIN, HOTPLUG_IN) s = Some (moved q (added LI s)) ∧
  desk_wf table (moved q (added LI s)) ∧ Z.testbit (plugin_bits (added LI s)) LI = true.
Proof.
  intros Hs Hst Hl Hq Hb Hc. assert (Hsa : desk_wf table (added LI s)) by (by apply (added_wf LI q)).
  assert (HbL : Z.testbit (plugin_bits (added LI s)) LI = true) by (rewrite added_bit, Z.eqb_refl by done; apply orb_true_r).
  split_and!; [|apply (moved_wf table wide ids q LI); done|done].
  unfold main_hotplug_event_handle. cbn [Z.eqb Pos.eqb HOTPLUG_LINEIN HOTPLUG_IN]. rewrite (add_new table wide ids LI q s) by done. cbn [snd].
  fold (added LI s). unfold desktop_manager_enter_app.
  change (dk_start (added LI s)) with (dk_start s). change (dk_locked (added LI s)) with (dk_locked s). rewrite Hst, Hl. cbn [negb Z.eqb].
  rewrite switch_curr by done. by rewrite (switch_to_ok table wide ids LI q) by done.
Qed.
Lemma line_in_leaves t demo ty c p s : desk_wf table s → dk_start s = true → dk_locked s = 0 → cur_plugin_id s = LI → last_plugin_id s = c →
  c ≠ LI → get c = Some p → Z.testbit (plugin_bits s) c = true → Z.testbit (plugin_bits s) LI = true → def_plugin_id s ≠ LI →
  main_hotplug_event_handle table wide proc false t demo (ty, HOTPLUG_LINEIN, HOTPLUG_OUT) s = Some (removed LI (moved p s)) ∧
  desk_wf table (removed LI (moved p s)).
Proof.
  intros Hs Hst Hl Hc Hlast Hne Hp Hb HbL Hd.
  assert (Hm : desk_wf table (moved p s)) by (apply (moved_wf table wide ids p c); [done|done|by rewrite Hc|done]).
  split; [|by apply removed_wf]. unfold main_hotplug_event_handle. cbn [Z.eqb Pos.eqb HOTPLUG_LINEIN HOTPLUG_IN HOTPLUG_OUT].
  unfold desktop_manager_exit_app, desktop_manager_get_plugin_id. rewrite Hst, Hl, Hc. cbn [negb Z.eqb]. rewrite (Z.eqb_refl LI).
  rewrite switch_last by done. rewrite Hlast, (switch_to_ok table wide ids c p s) by (done || by rewrite Hc). cbn [mbind option_bind Z.eqb negb].
  by rewrite (del_old table wide ids LI).
Qed.
(** Repeated news change nothing. *)
Lemma line_in_again t demo ty q s : desk_wf table s → dk_start s = true → dk_locked s = 0 → get LI = Some q →
  Z.testbit (plugin_bits s) LI = true → cur_plugin_id s = LI →
  main_hotplug_event_handle table wide proc false t demo (ty, HOTPLUG_LINEIN, HOTPLUG_IN) s = Some s.
Proof.
  intros Hs Hst Hl Hq Hb Hc. unfold main_hotplug_event_handle. cbn [Z.eqb Pos.eqb HOTPLUG_LINEIN HOTPLUG_IN].
  rewrite (add_again table wide ids LI q s) by done. cbn [snd]. unfold desktop_manager_enter_app. rewrite Hst, Hl. cbn [negb Z.eqb].
  rewrite switch_curr by done. unfold switch_to. by rewrite Hc, Z.eqb_refl.
Qed.
Lemma line_in_not_there t demo ty s : dk_start s = true → Z.testbit (plugin_bits s) LI = false → cur_plugin_id s ≠ LI →
  main_hotplug_event_handle table wide proc false t demo (ty, HOTPLUG_LINEIN, HOTPLUG_OUT) s = Some s.
Proof.
  intros Hst Hb Hc. unfold main_hotplug_event_handle. cbn [Z.eqb Pos.eqb HOTPLUG_LINEIN HOTPLUG_IN HOTPLUG_OUT].
  destruct (exit_app_elsewhere LI s) as [r ->]; [done|done|]. cbn [mbind option_bind]. unfold desktop_manager_del. rewrite Hst. cbn [negb].
  destruct (def_plugin_id s =? LI); [done|]. destruct (get LI); [|done]. by rewrite has_plugin_bit, Hb.
Qed.

(** The line-in goes while another application runs. *)
Lemma line_in_goes_elsewhere t demo ty s : desk_wf table s → dk_start s = true → cur_plugin_id s ≠ LI → def_plugin_id s ≠ LI →
  Z.testbit (plugin_bits s) LI = true →
  main_hotplug_event_handle table wide proc false t demo (ty, HOTPLUG_LINEIN, HOTPLUG_OUT) s = Some (removed LI s).
Proof.
  intros Hs Hst Hc Hd Hb. unfold main_hotplug_event_handle. cbn [Z.eqb Pos.eqb HOTPLUG_LINEIN HOTPLUG_IN HOTPLUG_OUT].
  destruct (exit_app_elsewhere LI s) as [r ->]; [done|done|]. cbn [mbind option_bind]. by rewrite (del_old table wide ids LI).
Qed.

(** The end of an application whose predecessor is no longer registered. *)
Lemma end_without_predecessor c y s : desk_wf table s → dk_start s = true → dk_locked s = lock_of c → cur_plugin_id s = c → def_plugin_id s ≠ c →
  Z.testbit (plugin_bits s) c = true → 0 <= last_plugin_id s < 32 → Z.testbit (plugin_bits s) (last_plugin_id s) = false →
  main_app_switch table wide APP_SWITCH_DEL c y s = Some (set_locked 0 (removed c s)).
Proof.
  intros Hs Hst Hl Hc Hd Hb Hlr Hlb. pose proof (bit_range table ids s c Hs Hb).
  unfold main_app_switch. cbn [Z.eqb APP_SWITCH_ADD APP_SWITCH_DEL Pos.eqb].
  assert (E : (if is_call c then (desktop_manager_unlock s).2 else s) = set_locked 0 s).
  { unfold lock_of in Hl. unfold desktop_manager_unlock. rewrite Hst. cbn [negb snd]. destruct (is_call c); [by rewrite Hl|].
    unfold set_locked. rewrite <- Hl. by destruct s. }
  rewrite E, (del_old table wide ids c) by (done || by apply locked_wf). unfold desktop_manager_get_plugin_id. rewrite Hst. cbn [negb snd].
  rewrite Hc, Z.eqb_refl, switch_last by done. unfold switch_to. cbn [set_plugins set_locked last_plugin_id cur_plugin_id plugin_bits].
  rewrite (proj2 (Z.eqb_neq _ _)) by congruence. rewrite has_plugin_bit by done. cbn [set_plugins set_locked plugin_bits].
  rewrite Z.ldiff_spec, Hlb. done.
Qed.
End requests.

(** ** Theorems *)

Section theorems.
Context (table : list desktop_plugin_t) (wide : Z → Z) (proc : desktop_plugin_t → desk_msg → Z).
Notation get := (get_plugin_by_id table).

(** C13: In every sequence of calls, launch requests, hot-plug events and messages
    after start-up, every call returns, an application is entered only when
    none runs, left and given messages only while it runs, and the running one
    is the current plugin; the registered plugins are ones of the table, their
    number is kept right and the default one stays registered. The value of an
    oversized shift does not matter. *)
Theorem desktop_runs_one_app d q l :
  Forall (λ p, 0 <= plugin_id p < 32) table → get d = Some q → Forall desk_op_ok l →
  ∃ s, desk_run table wide proc l (desktop_manager_init table wide d []).2 = Some s ∧
    running (dk_calls s) = Some (cur_plugin s) ∧
    (∀ p, cur_plugin s = Some p → p ∈ table ∧ plugin_id p = cur_plugin_id s) ∧
    (∀ i, Z.testbit (plugin_bits s) i = true → ∃ p, p ∈ table ∧ plugin_id p = i) ∧
    plugin_num s = Z.of_nat (count_bits (plugin_bits s)) ∧
    (dk_start s = true → Z.testbit (plugin_bits s) (def_plugin_id s) = true).
Proof.
  intros Ht Hd Hl. destruct (init_wf table wide Ht d q Hd) as [H0 _]. destruct (desk_run_wf table wide proc l _ Ht Hl H0) as (s & E & Hs).
  exists s. split_and!; [done|apply (wf_run table s Hs)| | |apply (wf_num table s Hs)|intros Hst; by apply (wf_def table s Hs)].
  - intros p Hp. rewrite (wf_cur table s Hs) in Hp. split; [by apply (get_in table) in Hp|by apply (get_id table)].
  - intros i Hi. destruct (wf_in table s Hs i Hi) as [p Hp]. exists p. split; [by apply (get_in table) in Hp|by apply (get_id table)].
Qed.

(** C24: With more than one registered plugin and no lock, the switch key ends its
    search at the next registered plugin round the circle of 32, and at most
    32 presses bring every registered application to run. *)
Theorem desktop_next_visits_all (s : desk) :
  Forall (λ p, 0 <= plugin_id p < 32) table → desk_wf table s → dk_start s = true → dk_locked s = 0 → 1 < plugin_num s →
  (∃ e s1, 1 <= e <= 32 ∧ desktop_manager_switch table wide 0 DESKTOP_SWITCH_NEXT s = Some (0, s1) ∧
     cur_plugin_id s1 = (cur_plugin_id s + e) mod 32 ∧ Z.testbit (plugin_bits s) (cur_plugin_id s1) = true ∧
     ∀ k, 1 <= k < e → Z.testbit (plugin_bits s) ((cur_plugin_id s + k) mod 32) = false) ∧
  ∀ i, Z.testbit (plugin_bits s) i = true →
    ∃ k s' p, (k <= 32)%nat ∧ presses table wide k s = Some s' ∧ plugin_id p = i ∧ running (dk_calls s') = Some (Some p).
Proof.
  intros Ht Hs Hst Hl Hn. split.
  - destruct (press_next table wide Ht s Hs Hst Hl Hn) as (e & s1 & He & H1 & Hcur & Hb1 & Hgap & _). by exists e, s1.
  - intros i Hi. destruct (presses_reach table wide Ht i 32 s Hs Hst Hl Hn Hi) as (k & s' & Hk & Hp & Hc & Hs').
    { pose proof (Z.mod_pos_bound (i - (cur_plugin_id s + 1)) 32). lia. }
    destruct (wf_in table s Hs i Hi) as [p Hip]. exists k, s', p. split_and!; [done|done|by apply (get_id table)|].
    by rewrite (wf_run table s' Hs'), (wf_cur table s' Hs'), Hc, Hip.
Qed.

(** Plugging the line-in registers and enters its application; pulling it
    leaves it, returns to the application before and restores the set of
    plugins. *)
Theorem line_in_comes_and_goes (s : desk) c p q ty ty' t t' demo demo' :
  Forall (λ p, 0 <= plugin_id p < 32) table → desk_wf table s → dk_start s = true → dk_locked s = 0 →
  cur_plugin_id s = c → Z.testbit (plugin_bits s) c = true → get c = Some p →
  get DESKTOP_PLUGIN_ID_LINE_IN = Some q → Z.testbit (plugin_bits s) DESKTOP_PLUGIN_ID_LINE_IN = false →
  ∃ s1 s2,
    main_hotplug_event_handle table wide proc false t demo (ty, HOTPLUG_LINEIN, HOTPLUG_IN) s = Some s1 ∧
    cur_plugin s1 = Some q ∧ Z.testbit (plugin_bits s1) DESKTOP_PLUGIN_ID_LINE_IN = true ∧
    main_hotplug_event_handle table wide proc false t' demo' (ty', HOTPLUG_LINEIN, HOTPLUG_OUT) s1 = Some s2 ∧
    s2 = mk_desk (def_plugin_id s) c DESKTOP_PLUGIN_ID_LINE_IN (plugin_num s) true 0 (plugin_bits s) (Some p)
           (dk_calls s ++ [PluginExit p; PluginEnter q; PluginExit q; PluginEnter p]).
Proof.
  intros Ht Hs Hst Hl Hc Hb Hp Hq Hnb. set (L := DESKTOP_PLUGIN_ID_LINE_IN) in *.
  assert (Hcp : cur_plugin s = Some p) by (by rewrite (wf_cur table s Hs), Hc). assert (HcL : c ≠ L) by congruence.
  assert (HdL : def_plugin_id s ≠ L) by (intros E; destruct (wf_def table s Hs Hst) as [_ Hd]; congruence).
  destruct (line_in_enters table wide proc Ht t demo ty q s) as (E1 & H1 & HbL); [done..|by rewrite Hc|]. fold L in E1, H1, HbL.
  set (s1 := moved q (added L s)) in *. assert (Hid : cur_plugin_id s1 = L) by (by apply (get_id table)).
  assert (Hbc : Z.testbit (plugin_bits s1) c = true) by (change (plugin_bits s1) with (plugin_bits (added L s)); by rewrite added_bit, Hb).
  destruct (line_in_leaves table wide proc Ht t' demo' ty' c p s1) as [E2 _]; [done..|].
  exists s1. eexists. split_and!; [exact E1|done|exact HbL|exact E2|]. fold L.
  unfold removed, set_plugins, moved, s1, added. cbn. rewrite Hcp, Hst, Hl, (get_id table c p Hp), (get_id table L q Hq), <- !(assoc_L (++)). cbn [app].
  f_equal; [lia|]. apply Z.bits_inj'. intros k Hk. rewrite Z.ldiff_spec, Z.lor_spec, Z.pow2_bits_eqb by done.
  destruct (Z.eqb_spec L k) as [<-|]; [by rewrite Hnb|]. by rewrite orb_false_r, andb_true_r.
Qed.

(** C37: An application that was launched from the line-in goes on running after
    the request that ends it, unregistered, when the line-in has been pulled
    in the meantime: the switch back fails and nothing else is entered. *)
Theorem app_stays_when_source_is_gone (s : desk) c p q x y ty t demo :
  Forall (λ p, 0 <= plugin_id p < 32) table → desk_wf table s → dk_start s = true → dk_locked s = 0 →
  cur_plugin_id s = DESKTOP_PLUGIN_ID_LINE_IN → get DESKTOP_PLUGIN_ID_LINE_IN = Some p →
  Z.testbit (plugin_bits s) DESKTOP_PLUGIN_ID_LINE_IN = true → def_plugin_id s ≠ DESKTOP_PLUGIN_ID_LINE_IN →
  get c = Some q → Z.testbit (plugin_bits s) c = false →
  ∃ s1 s2 s3,
    main_app_switch table wide APP_SWITCH_ADD c x s = Some s1 ∧
    main_hotplug_event_handle table wide proc false t demo (ty, HOTPLUG_LINEIN, HOTPLUG_OUT) s1 = Some s2 ∧
    main_app_switch table wide APP_SWITCH_DEL c y s2 = Some s3 ∧
    cur_plugin s3 = Some q ∧ running (dk_calls s3) = Some (Some q) ∧
    Z.testbit (plugin_bits s3) c = false ∧ dk_calls s3 = dk_calls s ++ [PluginExit p; PluginEnter q].
Proof.
  intros Ht Hs Hst Hl Hc Hp Hb Hd Hq Hnb. set (L := DESKTOP_PLUGIN_ID_LINE_IN) in *. assert (HcL : c ≠ L) by congruence.
  assert (HL : 0 <= L < 32) by (unfold L, DESKTOP_PLUGIN_ID_LINE_IN; lia). pose proof (get_range table Ht c (mk_is_Some _ _ Hq)) as Hcr.
  destruct (request_new table wide Ht c q x s) as [E1 Hm]; [done|done|done|done|done|congruence|by rewrite Hc|].
  set (s1 := set_locked (lock_of c) (moved q (added c s))) in *. assert (H1 : desk_wf table s1) by (by apply locked_wf).
  assert (Hb1 : ∀ k, Z.testbit (plugin_bits s1) k = Z.testbit (plugin_bits s) k || (c =? k)) by (intros; apply (added_bit c s k); lia).
  assert (Hid : cur_plugin_id s1 = c) by (by apply (get_id table)). assert (HbL : Z.testbit (plugin_bits s1) L = true) by (by rewrite Hb1, Hb).
  pose proof (line_in_goes_elsewhere table wide proc Ht t demo ty s1 H1 Hst ltac:(rewrite Hid; exact HcL) Hd HbL) as E2. fold L in E2.
  set (s2 := removed L s1) in *. assert (H2 : desk_wf table s2) by (by apply (removed_wf table wide Ht)).
  assert (Hb2 : ∀ k, Z.testbit (plugin_bits s2) k = Z.testbit (plugin_bits s1) k && negb (L =? k)) by (intros; apply (removed_bit L s1 k); lia).
  assert (Hb2c : Z.testbit (plugin_bits s2) c = true).
  { rewrite Hb2, Hb1, Z.eqb_refl, orb_true_r, (proj2 (Z.eqb_neq L c)) by done. done. }
  assert (Hdc : def_plugin_id s2 ≠ c) by (change (def_plugin_id s ≠ c); intros E; destruct (wf_def table s Hs Hst) as [_ Hx]; congruence).
  assert (Hlast : last_plugin_id s2 = L) by (change (cur_plugin_id s = L); done).
  pose proof (end_without_predecessor table wide Ht c y s2 H2 Hst eq_refl Hid Hdc Hb2c) as E3.
  rewrite Hlast, Hb2, Z.eqb_refl, andb_false_r in E3. specialize (E3 HL eq_refl).
  assert (H3 : desk_wf table (set_locked 0 (removed c s2))) by (by apply locked_wf, (removed_wf table wide Ht)).
  assert (Hcp : cur_plugin s = Some p) by (by rewrite (wf_cur table s Hs), Hc).
  eexists _, _, _. split_and!; [exact E1|exact E2|exact E3|done|exact (wf_run table _ H3)| |].
  - change (plugin_bits (set_locked 0 (removed c s2))) with (plugin_bits (removed c s2)). rewrite removed_bit, Z.eqb_refl by lia. apply andb_false_r.
  - cbn. by rewrite Hcp.
Qed.
End theorems.

(** ** Witnesses *)

Definition sample_table : list desktop_plugin_t := (λ i, mk_plugin i 0 0 0) <$> [0; 2; 10; 30; 31].
Definition no_shift (n : Z) : Z := 0.
Definition proc0 (p : desktop_plugin_t) (m : desk_msg) : Z := 0.
Definition sample_plugin (i : Z) : desktop_plugin_t := mk_plugin i 0 0 0.
Definition sample_desk (l : list desk_op) : desk :=
  default (desktop_manager_init sample_table no_shift 0 []).2
    (desk_run sample_table no_shift proc0 l (desktop_manager_init sample_table no_shift 0 []).2).

Lemma sample_ids : Forall (λ p, 0 <= plugin_id p < 32) sample_table.
Proof. by_decide. Qed.
Lemma sample_wf l : Forall desk_op_ok l → desk_wf sample_table (sample_desk l).
Proof.
  intros Hl. destruct (init_wf sample_table no_shift sample_ids 0 (sample_plugin 0) eq_refl) as [H0 _].
  destruct (desk_run_wf sample_table no_shift proc0 l _ sample_ids Hl H0) as (s & E & Hs). unfold sample_desk. by rewrite E.
Qed.

(** The music application starts, the line-in comes, the key goes on, all leave. *)
Lemma desktop_runs_one_app_witness :
  ∃ s, desk_run sample_table no_shift proc0
         [DeskLaunch (0, 0); DeskHotplug false 9000 false (0, 1, 1); DeskSwitch 0 1; DeskMsg (7, 1, 2); DeskExit]
         (desktop_manager_init sample_table no_shift 0 []).2 = Some s ∧
    running (dk_calls s) = Some (cur_plugin s) ∧
    (∀ p, cur_plugin s = Some p → p ∈ sample_table ∧ plugin_id p = cur_plugin_id s) ∧
    (∀ i, Z.testbit (plugin_bits s) i = true → ∃ p, p ∈ sample_table ∧ plugin_id p = i) ∧
    plugin_num s = Z.of_nat (count_bits (plugin_bits s)) ∧
    (dk_start s = true → Z.testbit (plugin_bits s) (def_plugin_id s) = true).
Proof.
  apply (desktop_runs_one_app sample_table no_shift proc0 0 (sample_plugin 0)); [by_decide|reflexivity|].
  repeat (constructor; [cbn; trivial; lia|]). constructor.
Defined.

(** From the music application three presses reach USB sound behind line-in. *)
Lemma desktop_next_visits_all_witness :
  let s := sample_desk [DeskLaunch (0, 0); DeskAdd 10; DeskAdd 30] in
  ∃ k s' p, (k <= 32)%nat ∧ presses sample_table no_shift k s = Some s' ∧ plugin_id p = 30 ∧ running (dk_calls s') = Some (Some p).
Proof.
  intros s. apply (desktop_next_visits_all sample_table no_shift s); [by_decide| |reflexivity|reflexivity|vm_compute; reflexivity|reflexivity].
  apply sample_wf. repeat (constructor; [exact I|]). constructor.
Defined.

Lemma line_in_comes_and_goes_witness :
  let s := sample_desk [DeskLaunch (0, 0)] in
  ∃ s1 s2,
    main_hotplug_event_handle sample_table no_shift proc0 false 9000 false (0, HOTPLUG_LINEIN, HOTPLUG_IN) s = Some s1 ∧
    cur_plugin s1 = Some (sample_plugin 10) ∧ Z.testbit (plugin_bits s1) DESKTOP_PLUGIN_ID_LINE_IN = true ∧
    main_hotplug_event_handle sample_table no_shift proc0 false 9900 false (0, HOTPLUG_LINEIN, HOTPLUG_OUT) s1 = Some s2 ∧
    s2 = mk_desk 0 0 10 1 true 0 1 (Some (sample_plugin 0))
           [PluginEnter (sample_plugin 0); PluginExit (sample_plugin 0); PluginEnter (sample_plugin 10);
            PluginExit (sample_plugin 10); PluginEnter (sample_plugin 0)].
Proof.
  intros s. apply (line_in_comes_and_goes sample_table no_shift proc0 s 0 (sample_plugin 0) (sample_plugin 10) 0 0 9000 9900 false false);
    [by_decide| |reflexivity|reflexivity|reflexivity|reflexivity|reflexivity|reflexivity|reflexivity].
  apply sample_wf. repeat (constructor; [exact I|]). constructor.
Defined.

(** The demo application started from line-in goes on after its end when line-in was
    pulled. *)
Lemma app_stays_when_source_is_gone_witness :
  let s := sample_desk [DeskLaunch (0, 0); DeskHotplug false 9000 false (0, 1, 1)] in
  ∃ s1 s2 s3,
    main_app_switch sample_table no_shift APP_SWITCH_ADD DESKTOP_PLUGIN_ID_DEMO 0 s = Some s1 ∧
    main_hotplug_event_handle sample_table no_shift proc0 false 9900 false (0, HOTPLUG_LINEIN, HOTPLUG_OUT) s1 = Some s2 ∧
    main_app_switch sample_table no_shift APP_SWITCH_DEL DESKTOP_PLUGIN_ID_DEMO 0 s2 = Some s3 ∧
    cur_plugin s3 = Some (sample_plugin 31) ∧ running (dk_calls s3) = Some (Some (sample_plugin 31)) ∧
    Z.testbit (plugin_bits s3) 31 = false ∧
    dk_calls s3 = [PluginEnter (sample_plugin 0); PluginExit (sample_plugin 0); PluginEnter (sample_plugin 10);
                   PluginExit (sample_plugin 10); PluginEnter (sample_plugin 31)].
Proof.
  intros s. apply (app_stays_when_source_is_gone sample_table no_shift proc0 s DESKTOP_PLUGIN_ID_DEMO (sample_plugin 10) (sample_plugin 31) 0 0 0 9900 false);
    [by_decide| |reflexivity|reflexivity|reflexivity|reflexivity|reflexivity|discriminate|reflexivity|reflexivity].
  apply sample_wf. repeat (constructor; [exact I|]). constructor.
Defined.
