(* ===== verification/LineIn.v ===== *)
(** * From the line-in socket to its application

    drivers/hotplug/linein_detect.c turns the voltage at the socket into a state;
    the hot-plug manager (Hotplug.v) confirms it and sends a message; the main
    thread (DesktopManager.v) enters or leaves the line-in application.  This file
    models the driver and proves the three together. *)

From stdpp Require Import base numbers list option.
From S2P Require Import Prelude Hotplug DesktopManager.
Local Open Scope Z_scope.

(** ** The driver *)

Definition LINEIN_NONE : Z := 0.

(** [struct linein_vol_range] with the board's [LINEIN_DETEC_ADVAL_RANGE] *)
Record linein_vol_range := mk_range { vol_min : Z; vol_max : Z }.
Definition linein_vol : linein_vol_range := mk_range 760 830.

Definition linein_detect_adcval_to_state (adcval : Z) : Z :=
  if (vol_min linein_vol <? adcval) && (adcval <? vol_max linein_vol) then LINEIN_IN
  else if vol_max linein_vol <? adcval then LINEIN_OUT
  else LINEIN_NONE.

Definition sys_get_le16 (src : list Z) : Z := Z.lor (u16 (Z.shiftl (getb src 1) 8)) (getb src 0).

(** [linein_detect_state]; [adcval]: the buffer after [adc_read], whose result the driver ignores. *)
Definition linein_detect_driver_state (adcval : list Z) : Z * Z :=
  (0, linein_detect_adcval_to_state (sys_get_le16 adcval)).

(** What a tick of the hot-plug manager sees: the buffer and the 5 V supply. *)
Definition socket_input (i : list Z * bool) : option Z * bool := (Some (linein_detect_driver_state i.1).2, i.2).

(** The main thread, given the messages of the hot-plug manager one by one. *)
Section main_thread.
Context (table : list desktop_plugin_t) (wide : Z → Z) (proc : desktop_plugin_t → desk_msg → Z).
Definition hotplug_msgs (mtype boot_time : Z) (l : list (Z * Z)) (s : desk) : option desk :=
  foldl (λ s m, s ≫= main_hotplug_event_handle table wide proc false boot_time false (mtype, m.1, m.2)) (Some s) l.

(** ** The application *)

Notation get := (get_plugin_by_id table).
Notation LI := DESKTOP_PLUGIN_ID_LINE_IN.

(** Where the line-in application is: not registered; registered at start-up, when
    the cable was in, and not entered; running on top of another application. *)
Inductive plug_phase := Unplugged | PluggedAtBoot | Entered.

(** Application [c] runs, or line-in on top of it; the manager is started and unlocked. *)
Definition at_plug (c : Z) (ph : plug_phase) (s : desk) : Prop :=
  desk_wf table s ∧ dk_start s = true ∧ dk_locked s = 0 ∧ c ≠ LI ∧ Z.testbit (plugin_bits s) c = true ∧
  def_plugin_id s ≠ LI ∧
  match ph with
  | Unplugged => Z.testbit (plugin_bits s) LI = false ∧ cur_plugin_id s = c
  | PluggedAtBoot => Z.testbit (plugin_bits s) LI = true ∧ cur_plugin_id s = c
  | Entered => Z.testbit (plugin_bits s) LI = true ∧ cur_plugin_id s = LI ∧ last_plugin_id s = c
  end.

Definition plug_step (ph : plug_phase) (v : Z) : plug_phase :=
  if v =? HOTPLUG_IN then Entered else if v =? HOTPLUG_OUT then Unplugged else ph.

Hypothesis ids : Forall (λ p, 0 <= plugin_id p < 32) table.

(** News of a plug while line-in is registered and not running. *)
Lemma line_in_enters_registered boot mtype q s : desk_wf table s → dk_start s = true → dk_locked s = 0 → get LI = Some q →
  Z.testbit (plugin_bits s) LI = true → cur_plugin_id s ≠ LI →
  main_hotplug_event_handle table wide proc false boot false (mtype, HOTPLUG_LINEIN, HOTPLUG_IN) s = Some (moved q s) ∧ desk_wf table (moved q s).
Proof.
  intros Hs Hst Hl Hq Hb Hc. split; [|by apply (moved_wf table wide ids q LI)].
  unfold main_hotplug_event_handle. cbn [Z.eqb Pos.eqb HOTPLUG_LINEIN HOTPLUG_IN]. rewrite (add_again table wide ids LI q s) by done. cbn [snd].
  unfold desktop_manager_enter_app. rewrite Hst, Hl. cbn [negb Z.eqb].
  rewrite switch_curr by done. by rewrite (switch_to_ok table wide ids LI q) by done.
Qed.

Lemma line_in_msg mtype boot c p q ph v s : get c = Some p → get LI = Some q → at_plug c ph s →
  ∃ s', main_hotplug_event_handle table wide proc false boot false (mtype, HOTPLUG_LINEIN, v) s = Some s' ∧ at_plug c (plug_step ph v) s'.
Proof.
  intros Hp Hq (Hs & Hst & Hl & Hc & Hb & Hd & Hph). unfold plug_step.
  destruct (Z.eqb_spec v HOTPLUG_IN) as [->|Hi]; [|destruct (Z.eqb_spec v HOTPLUG_OUT) as [->|Ho]].
  - destruct ph; destruct Hph as [HbL Hcur].
    + destruct (line_in_enters table wide proc ids boot false mtype q s) as (E & Hw & Hn); [done..|congruence|].
      eexists. split; [exact E|]. split_and!; try done.
      * change (plugin_bits (moved q (added LI s))) with (plugin_bits (added LI s)). by rewrite added_bit, Hb.
      * by apply (get_id table).
    + destruct (line_in_enters_registered boot mtype q s) as (E & Hw); [done..|congruence|].
      eexists. split; [exact E|]. split_and!; try done. by apply (get_id table).
    + exists s. rewrite (line_in_again table wide proc ids boot false mtype q s) by (done || tauto). by split_and!.
  - destruct ph; destruct Hph as [HbL Hcur].
    + exists s. rewrite line_in_not_there by (done || congruence). by split_and!.
    + exists (removed LI s). rewrite (line_in_goes_elsewhere table wide proc ids) by (done || congruence). split; [done|].
      split_and!; try done; [by apply (removed_wf table wide ids)| |].
      * rewrite removed_bit by done. by rewrite Hb, (proj2 (Z.eqb_neq LI c)) by congruence.
      * rewrite removed_bit by done. by rewrite Z.eqb_refl, andb_false_r.
    + destruct Hcur as [Hcur Hlast].
      destruct (line_in_leaves table wide proc ids boot false mtype c p s) as [E Hw]; [done..|]. eexists. split; [exact E|]. split_and!; try done.
      * rewrite removed_bit by done. change (plugin_bits (moved p s)) with (plugin_bits s). by rewrite Hb, (proj2 (Z.eqb_neq LI c)) by congruence.
      * rewrite removed_bit by done. by rewrite Z.eqb_refl, andb_false_r.
      * by apply (get_id table).
  - exists s. unfold main_hotplug_event_handle. rewrite (proj2 (Z.eqb_neq _ _) Hi), (proj2 (Z.eqb_neq _ _) Ho). by split_and!.
Qed.

(** The other messages leave the application alone, those of the USB audio device apart. *)
Lemma hotplug_msgs_plug mtype boot c p q l : ∀ ph s, get c = Some p → get LI = Some q → at_plug c ph s →
  Forall (λ m : Z * Z, m.1 ≠ HOTPLUG_USB_DEVICE) l →
  ∃ s', hotplug_msgs mtype boot l s = Some s' ∧ at_plug c (foldl plug_step ph (of_type HOTPLUG_LINEIN l)) s'.
Proof.
  induction l as [|[ty v] l IH]; intros ph s Hp Hq Hs Hl; [by exists s|]. apply Forall_cons_1 in Hl as [Hty Hl]. cbn [fst] in Hty.
  unfold hotplug_msgs. cbn [foldl mbind option_bind fst snd of_type omap list_omap]. destruct (Z.eqb_spec ty HOTPLUG_LINEIN) as [->|Hn].
  - destruct (line_in_msg mtype boot c p q ph v s Hp Hq Hs) as (s1 & -> & H1). apply (IH (plug_step ph v) s1 Hp Hq H1 Hl).
  - assert (E : main_hotplug_event_handle table wide proc false boot false (mtype, ty, v) s = Some s).
    { unfold main_hotplug_event_handle. rewrite (proj2 (Z.eqb_neq _ _) Hn), (proj2 (Z.eqb_neq _ _) Hty), andb_false_r. by destruct (_ =? _). }
    rewrite E. apply (IH ph s Hp Hq Hs Hl).
Qed.
End main_thread.

(** ** The messages *)

Section messages.
Context {U : Type}.
Implicit Types t : hot U.

(** A USB device that reports for itself only, and is not a USB audio device that
    comes or goes. *)
Record usb_quiet (d : usb_device U) : Prop := {
  uq_own : ∀ u, usb_get_type d u ≠ HOTPLUG_LINEIN ∧ usb_get_type d u ≠ HOTPLUG_CHARGER;
  uq_audio : (∀ u, usb_get_type d u ≠ HOTPLUG_USB_DEVICE) ∨ (∀ u, (usb_detect d u).1 = HOTPLUG_NONE);
}.

(** Then no message is about a USB audio device. *)
Definition no_audio t : Prop := Forall (λ m : Z * Z, m.1 ≠ HOTPLUG_USB_DEVICE) (hot_msgs t).
Lemma report_no_audio ty v t : ty ≠ HOTPLUG_USB_DEVICE → no_audio t → no_audio (hotplug_event_report ty v t).
Proof. intros Hty Ht. unfold no_audio. apply Forall_app_2; [done|]. by repeat constructor. Qed.
Lemma work_loop_no_audio us rest : ∀ state t, Forall usb_quiet us → no_audio t →
  ∃ state' t', work_loop hotplug_event_report ((Some <$> (lift_usb <$> us)) ++ rest) state t =
    work_loop hotplug_event_report rest state' t' ∧ no_audio t'.
Proof.
  induction us as [|d us IH]; intros state t Hus Ht; [by exists state, t|].
  apply Forall_cons_1 in Hus as [[_ Hd] Hus]. cbn [fmap list_fmap app work_loop lift_usb hotplug_detect fs_process get_type].
  destruct (usb_detect d (hot_usb t)) as [r u1] eqn:Er. destruct (negb (r =? HOTPLUG_NONE)) eqn:En; [|by apply IH].
  destruct Hd as [Hd|Hd]; [|exfalso; specialize (Hd (hot_usb t)); rewrite Er in Hd; cbn in Hd; by subst].
  destruct (usb_process d r (hot_usb (set_usb u1 t))) as [skip u2]. destruct (negb (skip =? 0)); [by apply IH|].
  apply IH; [done|]. by apply report_no_audio.
Qed.
Lemma tick_types us n k t i : Forall usb_quiet us → no_audio t → no_audio (hot_tick (mk_manager n (hot_table us k)) t i).
Proof.
  intros Hus Ht. unfold hot_tick, hotplug_manager_work_handle, hot_table. cbn [device snd fmap list_fmap app].
  rewrite fmap_app, <- (assoc_L (++)). cbn [work_loop linein_hotplug_device hotplug_detect fs_process get_type dev_type].
  unfold linein_hotplug_detect. destruct (debounce 3 _ _) as [r d]. set (t1 := mk_hot d _ _ _ _ _).
  assert (H1 : no_audio t1) by done. clearbody t1. cbn [Z.eqb negb].
  assert (Hlast : ∀ st t2, no_audio t2 →
    no_audio (work_loop hotplug_event_report ((Some <$> [charger_hotplug_device]) ++ replicate k None) st t2)).
  { intros st t2 H2. cbn [fmap list_fmap app work_loop charger_hotplug_device hotplug_detect fs_process get_type dev_type].
    unfold charger_hotplug_detect. destruct (debounce 1 _ _) as [c e]. cbn [Z.eqb negb].
    destruct (negb (c =? HOTPLUG_NONE)); rewrite work_loop_none; [by apply report_no_audio|done]. }
  assert (Hgo : ∀ st t2, no_audio t2 → no_audio (work_loop hotplug_event_report
    ((Some <$> (lift_usb <$> us)) ++ (Some <$> [charger_hotplug_device]) ++ replicate k None) st t2)).
  { intros st t2 H2. destruct (work_loop_no_audio us ((Some <$> [charger_hotplug_device]) ++ replicate k None) st t2 Hus H2) as (st' & t' & -> & H').
    by apply Hlast. }
  destruct (negb (r =? HOTPLUG_NONE)); apply Hgo; [by apply report_no_audio|done].
Qed.
Lemma ticks_types us n k ins : Forall usb_quiet us → ∀ t, no_audio t → no_audio (foldl (hot_tick (mk_manager n (hot_table us k))) t ins).
Proof. intros Hus. induction ins as [|i ins IH]; intros t Ht; [done|]. cbn [foldl]. by apply IH, tick_types. Qed.
End messages.

(** The states the driver gives are what the manager confirms. *)
Definition plug_sample (x : Z) : Prop := x = HOTPLUG_NONE ∨ x = HOTPLUG_IN ∨ x = HOTPLUG_OUT.

Lemma socket_sample i : plug_sample (linein_sample (socket_input i)).
Proof.
  unfold linein_sample, socket_input, linein_detect_driver_state, linein_detect_adcval_to_state, plug_sample. cbn [fst snd].
  destruct (_ && _); [by right; left|]. destruct (_ <? _); [by right; right|by left].
Qed.
(** Once there are news, line-in has been entered exactly when the confirmed state
    is a plug. *)
Lemma confirmed_plug n xs : ∀ r ph, Forall plug_sample xs →
  let '(rs, r') := run_samples (runs_step n) xs r in
  foldl plug_step ph (reports rs) =
  if bool_decide (reports rs = []) then ph else if confirmed r' =? HOTPLUG_IN then Entered else Unplugged.
Proof.
  assert (Hgo : ∀ xs r ph, Forall plug_sample xs → ph = (if confirmed r =? HOTPLUG_IN then Entered else Unplugged) →
    foldl plug_step ph (reports (run_samples (runs_step n) xs r).1) =
    if confirmed (run_samples (runs_step n) xs r).2 =? HOTPLUG_IN then Entered else Unplugged).
  { clear xs. induction xs as [|x xs IH]; intros r ph Hxs Hph; [done|]. apply Forall_cons_1 in Hxs as [Hx Hxs]. cbn [run_samples].
    assert (Hstep : foldl plug_step ph (if (runs_step n x r).1 =? HOTPLUG_NONE then [] else [(runs_step n x r).1]) =
      if confirmed (runs_step n x r).2 =? HOTPLUG_IN then Entered else Unplugged).
    { unfold runs_step. destruct (Z.eqb_spec x HOTPLUG_NONE) as [->|Hn]; [done|].
      destruct (_ && _); [|done]. cbn [fst snd confirmed]. destruct Hx as [->|[->| ->]]; done. }
    destruct (runs_step n x r) as [o r']. cbn [fst snd] in *. specialize (IH r' _ Hxs eq_refl).
    destruct (run_samples (runs_step n) xs r') as [rs r2]. cbn [fst snd] in *. by rewrite reports_cons, foldl_app, Hstep. }
  induction xs as [|x xs IH]; intros r ph Hxs; [done|]. apply Forall_cons_1 in Hxs as [Hx Hxs]. cbn [run_samples].
  unfold runs_step at 1. assert (Hquiet : ∀ r1, let '(rs, s) := (let '(rs, s) := run_samples (runs_step n) xs r1 in (HOTPLUG_NONE :: rs, s)) in
    foldl plug_step ph (reports rs) = if bool_decide (reports rs = []) then ph else if confirmed s =? HOTPLUG_IN then Entered else Unplugged).
  { intros r1. specialize (IH r1 ph Hxs). destruct (run_samples (runs_step n) xs r1) as [rs r2]. by rewrite reports_cons. }
  destruct (Z.eqb_spec x HOTPLUG_NONE) as [->|Hn]; [apply Hquiet|]. cbv zeta. destruct (_ && _); [|apply Hquiet].
  set (r1 := mk_runs x _ x). specialize (Hgo xs r1 (plug_step ph x) Hxs).
  destruct (run_samples (runs_step n) xs r1) as [rs r2]. rewrite reports_cons, (proj2 (Z.eqb_neq _ _) Hn). cbn [app foldl fst snd] in *.
  rewrite bool_decide_false by done. apply Hgo. cbn [r1 confirmed]. destruct Hx as [->|[->| ->]]; done.
Qed.

(** Four equal samples confirm a state. *)
Record runs_ok (n : Z) (r : runs) : Prop := { ro_len : 0 <= run_len r; ro_done : n < run_len r → confirmed r = run_val r }.
Lemma runs_step_ok n x r : 1 <= n → runs_ok n r → runs_ok n (runs_step n x r).2.
Proof.
  intros Hn [H1 H2]. unfold runs_step. destruct (x =? HOTPLUG_NONE); [done|].
  destruct (Z.eqb_spec x (run_val r)) as [->|Hx]; [destruct (Z.eqb_spec (run_len r + 1) (n + 1)) as [E|E]|rewrite (proj2 (Z.eqb_neq 1 _)) by lia]; cbn [andb].
  - destruct (Z.eqb_spec (run_val r) (confirmed r)) as [Ec|]; split; cbn; [lia|congruence|lia|done].
  - split; cbn; [lia|]. intros. apply H2. lia.
  - split; cbn; [lia|lia].
Qed.
Lemma run_samples_app {S} (step : Z → S → Z * S) xs ys : ∀ s,
  (run_samples step (xs ++ ys) s).2 = (run_samples step ys (run_samples step xs s).2).2.
Proof.
  induction xs as [|x xs IH]; intros s; [done|]. cbn [app run_samples]. destruct (step x s) as [o s1]. specialize (IH s1).
  destruct (run_samples step (xs ++ ys) s1), (run_samples step xs s1). exact IH.
Qed.
Lemma runs_ok_run n xs : ∀ r, 1 <= n → runs_ok n r → runs_ok n (run_samples (runs_step n) xs r).2.
Proof.
  induction xs as [|x xs IH]; intros r Hn Hr; [done|]. cbn [run_samples]. pose proof (runs_step_ok n x r Hn Hr) as H1.
  destruct (runs_step n x r) as [o r1]. specialize (IH r1 Hn H1). by destruct (run_samples (runs_step n) xs r1).
Qed.
Lemma run_equal n x k : ∀ r, x ≠ HOTPLUG_NONE → 0 <= run_len r →
  let r' := (run_samples (runs_step n) (replicate (S k) x) r).2 in run_val r' = x ∧ Z.of_nat (S k) <= run_len r'.
Proof.
  induction k as [|k IH]; intros r Hx Hr.
  - cbn. unfold runs_step. rewrite (proj2 (Z.eqb_neq _ _) Hx). destruct (x =? run_val r), (_ && _); cbn; split; done || lia.
  - change (replicate (S (S k)) x) with ([] ++ replicate (S (S k)) x). rewrite (replicate_S_end (S k)). cbn [app].
    specialize (IH r Hx Hr). cbn zeta in IH. destruct IH as [I1 I2]. rewrite run_samples_app. set (r1 := (run_samples _ _ r).2) in *.
    cbn [run_samples]. unfold runs_step. rewrite (proj2 (Z.eqb_neq _ _) Hx), I1, Z.eqb_refl. destruct (_ && _); cbn; split; done || lia.
Qed.
Lemma confirmed_equal n x xs k r : 1 <= n → runs_ok n r → x ≠ HOTPLUG_NONE → n < Z.of_nat k →
  confirmed (run_samples (runs_step n) (xs ++ replicate k x) r).2 = x.
Proof.
  intros Hn Hr Hx Hk. destruct k as [|k]; [lia|]. rewrite run_samples_app. set (r1 := (run_samples _ xs r).2).
  assert (H1 : runs_ok n r1) by (by apply runs_ok_run).
  destruct (run_equal n x k r1 Hx (ro_len _ _ H1)) as [Hv Hl]. rewrite <- Hv at 2. apply runs_ok_run; [done|done|lia].
Qed.

Lemma tail_samples x (P : list Z * bool → Prop) tail :
  (∀ i, P i → linein_sample (socket_input i) = x) → Forall P tail →
  (linein_sample <$> (socket_input <$> tail)) = replicate (length tail) x.
Proof. intros Hx. induction 1 as [|i l Hi Hl IH]; [done|]. cbn [fmap list_fmap length replicate]. by rewrite (Hx i Hi), <- IH. Qed.
Lemma plugged_sample (i : list Z * bool) : 760 < sys_get_le16 i.1 < 830 → linein_sample (socket_input i) = HOTPLUG_IN.
Proof.
  intros Hi. unfold linein_sample, socket_input, linein_detect_driver_state, linein_detect_adcval_to_state. cbn [fst snd linein_vol vol_min vol_max].
  by rewrite (proj2 (Z.ltb_lt 760 _)), (proj2 (Z.ltb_lt _ 830)) by lia.
Qed.
Lemma pulled_sample (i : list Z * bool) : 830 < sys_get_le16 i.1 → linein_sample (socket_input i) = HOTPLUG_OUT.
Proof.
  intros Hi. unfold linein_sample, socket_input, linein_detect_driver_state, linein_detect_adcval_to_state. cbn [fst snd linein_vol vol_min vol_max].
  rewrite (proj2 (Z.ltb_ge _ 830)), andb_false_r by lia. by rewrite (proj2 (Z.ltb_lt 830 _)) by lia.
Qed.

(** ** Theorem *)

Section theorem.
Context (table : list desktop_plugin_t) (wide : Z → Z) (proc : desktop_plugin_t → desk_msg → Z) {U : Type}.

(** The changes that the samples of the socket confirm from start-up on, and the
    runs they end with. *)
Definition socket_runs (adc0 : list Z) (raw : list (list Z * bool)) : list Z * runs :=
  let v := (linein_detect_driver_state adc0).2 in
  let '(rs, r) := run_samples (runs_step 3) (linein_sample <$> (socket_input <$> raw))
    (mk_runs 0 0 (if v =? LINEIN_IN then HOTPLUG_IN else if v =? LINEIN_OUT then HOTPLUG_OUT else HOTPLUG_NONE)) in
  (reports rs, r).
(** A change has been confirmed, and the last one was a plug. *)
Definition plug_confirmed (adc0 : list Z) (raw : list (list Z * bool)) : bool :=
  let '(rs, r) := socket_runs adc0 raw in negb (bool_decide (rs = [])) && (confirmed r =? HOTPLUG_IN).
(** What start-up finds. *)
Definition phase0 (adc0 : list Z) : plug_phase :=
  if (linein_detect_driver_state adc0).2 =? LINEIN_IN then PluggedAtBoot else Unplugged.

(** Without a plug at start-up, a confirmed plug is news. *)
Lemma confirmed_news n xs : ∀ r, confirmed r ≠ HOTPLUG_IN →
  let '(rs, r') := run_samples (runs_step n) xs r in reports rs = [] → confirmed r' ≠ HOTPLUG_IN.
Proof.
  induction xs as [|x xs IH]; intros r Hr; [by intros _|]. cbn [run_samples].
  assert (Hstep : (runs_step n x r).1 = HOTPLUG_NONE → confirmed (runs_step n x r).2 ≠ HOTPLUG_IN).
  { unfold runs_step. destruct (Z.eqb_spec x HOTPLUG_NONE) as [->|Hn]; [done|]. by destruct (_ && _). }
  destruct (runs_step n x r) as [o r1]. cbn [fst snd] in Hstep. specialize (IH r1).
  destruct (run_samples (runs_step n) xs r1) as [rs r2]. rewrite reports_cons.
  destruct (Z.eqb_spec o HOTPLUG_NONE) as [->|]; [|done]. cbn [app]. apply IH. by apply Hstep.
Qed.

(** C14: From the voltage at the socket through the detection driver, the hot-plug
    manager with up to three USB devices and the messages to the main thread,
    with a detector that answers at start-up, outside demo mode and TWS
    secondary mode, line-in not being the default application, while the
    desktop manager is unlocked, nothing else switches applications and no USB
    audio device comes or goes: after every sequence of ticks the line-in
    application runs exactly when a change has been confirmed and the last
    confirmed state is a plug, the application before it otherwise, so a cable
    that is in at start-up registers line-in without entering it until it is
    pulled and plugged again; without a cable at start-up four samples in the
    plug range bring line-in to run, and four samples above it always bring
    the application before it back. *)
Theorem line_in_follows_socket (us : list (usb_device U)) (t : hot U) adc0 (s : desk) c p q raw mtype boot :
  Forall (λ p, 0 <= plugin_id p < 32) table → get_plugin_by_id table c = Some p →
  get_plugin_by_id table DESKTOP_PLUGIN_ID_LINE_IN = Some q → at_plug table c (phase0 adc0) s →
  (length us <= 3)%nat → NoDup (HOTPLUG_LINEIN :: (usb_type <$> us) ++ [HOTPLUG_CHARGER]) → Forall usb_quiet us →
  hot_linein t = Some (linein_detect_driver_state adc0).2 → hot_msgs t = [] →
  ∃ m t1 s',
    hotplug_manager_init (lift_usb <$> us) None t = (0, Some m, t1) ∧
    hotplug_msgs table wide proc mtype boot (hot_msgs (foldl (hot_tick m) t1 (socket_input <$> raw))) s = Some s' ∧
    running (dk_calls s') = Some (Some (if plug_confirmed adc0 raw then q else p)) ∧
    ∀ raw0 tail, raw = raw0 ++ tail → (4 <= length tail)%nat →
      (Forall (λ i, 760 < sys_get_le16 i.1 < 830) tail → phase0 adc0 = Unplugged → running (dk_calls s') = Some (Some q)) ∧
      (Forall (λ i, 830 < sys_get_le16 i.1) tail → running (dk_calls s') = Some (Some p)).
Proof.
  intros Hids Hp Hq Hs Hlen Hdup Hus Hlin Hm. set (v := (linein_detect_driver_state adc0).2) in *.
  destruct (init_table us v t Hlin Hlen Hdup) as (n & k & E).
  set (t1 := mk_hot _ _ _ _ _ _) in E. set (ins := socket_input <$> raw).
  assert (Hty : no_audio (foldl (hot_tick (mk_manager n (hot_table us k))) t1 ins)).
  { apply ticks_types; [done|]. unfold no_audio. change (hot_msgs t1) with (hot_msgs t). rewrite Hm. constructor. }
  destruct (hotplug_msgs_plug table wide proc Hids mtype boot c p q _ (phase0 adc0) s Hp Hq Hs Hty) as (s' & E' & H').
  assert (Hown : Forall (λ d : usb_device U, ∀ u, usb_get_type d u ≠ HOTPLUG_LINEIN ∧ usb_get_type d u ≠ HOTPLUG_CHARGER) us)
    by (eapply Forall_impl; [|exact Hus]; by intros d []).
  destruct (ticks_reports us k n ins t1 Hown) as [Hrep _]. cbv zeta in Hrep. change (hot_msgs t1) with (hot_msgs t) in Hrep.
  rewrite Hm in Hrep. change (of_type HOTPLUG_LINEIN []) with (@nil Z) in Hrep. cbn [app] in Hrep.
  assert (Hsam : Forall plug_sample (linein_sample <$> ins)) by (apply Forall_fmap, Forall_fmap, Forall_true; intros i; apply socket_sample).
  assert (Hok : Forall sample_ok (linein_sample <$> ins)).
  { clear -Hsam. induction Hsam as [|x l Hx Hl IH]; constructor; [|done]. destruct Hx as [->|[->| ->]]; by compute. }
  cbn [t1 linein_detect_state] in Hrep. rewrite (debounce_runs 3 _ _ _ ltac:(lia) Hok (debounces_boot 3 _ ltac:(lia))) in Hrep.
  rewrite Hrep in H'. unfold plug_confirmed, socket_runs. fold v. fold ins.
  set (r0 := mk_runs 0 0 _) in *. pose proof (confirmed_plug 3 (linein_sample <$> ins) r0 (phase0 adc0) Hsam) as Hph.
  pose proof (confirmed_news 3 (linein_sample <$> ins) r0) as Hnews.
  assert (Hc : ∀ x P raw0 tail, raw = raw0 ++ tail → (4 <= length tail)%nat → (∀ i, P i → linein_sample (socket_input i) = x) →
    x ≠ HOTPLUG_NONE → Forall P tail → confirmed (run_samples (runs_step 3) (linein_sample <$> ins) r0).2 = x).
  { intros x P raw0 tail -> Hl4 HP Hx Htail. unfold ins. rewrite !fmap_app, (tail_samples x P tail HP Htail).
    apply confirmed_equal; [lia|split; cbn; lia|done|lia]. }
  destruct (run_samples (runs_step 3) (linein_sample <$> ins) r0) as [rs r]. cbn [fst snd] in *. rewrite Hph in H'.
  assert (Hrun : running (dk_calls s') = Some (Some (if negb (bool_decide (reports rs = [])) && (confirmed r =? HOTPLUG_IN) then q else p))).
  { destruct H' as (Hw & _ & _ & _ & _ & _ & Hcur). rewrite (wf_run table s' Hw), (wf_cur table s' Hw). revert Hcur.
    case_bool_decide; cbn [negb andb].
    - unfold phase0. destruct (_ =? LINEIN_IN); intros [_ ->]; by rewrite Hp.
    - destruct (confirmed r =? HOTPLUG_IN); [intros (_ & -> & _); by rewrite Hq|intros [_ ->]; by rewrite Hp]. }
  eexists _, _, s'. split_and!; [exact E|exact E'|exact Hrun|]. intros raw0 tail Hraw Hl4. rewrite Hrun. split.
  - intros Htail H0. pose proof (Hc HOTPLUG_IN _ raw0 tail Hraw Hl4 plugged_sample ltac:(done) Htail) as Ein.
    rewrite bool_decide_false; [by rewrite Ein|]. intros Hnil. refine (Hnews _ Hnil Ein). cbn [r0 confirmed].
    unfold phase0 in H0. fold v in H0. destruct (v =? LINEIN_IN); [done|]. by destruct (v =? LINEIN_OUT).
  - intros Htail. by rewrite (Hc HOTPLUG_OUT _ raw0 tail Hraw Hl4 pulled_sample ltac:(done) Htail), andb_false_r.
Qed.
End theorem.

(** ** Witness *)

Definition sample_socket : hot () := mk_hot (mk_detect 0 0 0) (mk_detect 0 0 0) (Some LINEIN_IN) false () [].
Definition adc_bytes (x : Z) : list Z := [x mod 256; x / 256; 0; 0].

(** A USB audio device that stays as it is and a USB host that reports at every tick. *)
Definition sample_usb : list (usb_device ()) :=
  [mk_usb HOTPLUG_USB_DEVICE (λ _, HOTPLUG_USB_DEVICE) (λ _, HOTPLUG_NONE) (λ u, (HOTPLUG_NONE, u)) (λ _ u, (0, u));
   mk_usb 4 (λ _, 4) (λ _, HOTPLUG_IN) (λ u, (HOTPLUG_IN, u)) (λ _ u, (0, u))].

(** The cable in at start-up, pulled, and plugged again with one sample disturbed. *)
Lemma line_in_follows_socket_witness :
  let raw := (λ x, (adc_bytes x, false)) <$> [800; 790; 900; 901; 902; 900; 800; 790; 1000; 800; 801; 802; 803] in
  let s := sample_desk [DeskAdd 10; DeskLaunch (0, 0)] in
  ∃ m t1 s',
    hotplug_manager_init (lift_usb <$> sample_usb) None sample_socket = (0, Some m, t1) ∧
    hotplug_msgs sample_table no_shift proc0 20 9000 (hot_msgs (foldl (hot_tick m) t1 (socket_input <$> raw))) s = Some s' ∧
    running (dk_calls s) = Some (Some (sample_plugin 0)) ∧ running (dk_calls s') = Some (Some (sample_plugin 10)).
Proof.
  intros raw s.
  destruct (line_in_follows_socket sample_table no_shift proc0 sample_usb sample_socket (adc_bytes 800) s 0
    (sample_plugin 0) (sample_plugin 10) raw 20 9000) as (m & t1 & s' & E1 & E2 & E3 & _);
    [by_decide|reflexivity|reflexivity| |cbn; lia|by_decide| |reflexivity|reflexivity|].
  - split; [apply sample_wf; repeat (constructor; [done|]); constructor|].
    split_and!; [reflexivity|reflexivity|discriminate|reflexivity|discriminate|split; reflexivity].
  - apply Forall_cons_2; [|apply Forall_cons_2; [|apply Forall_nil_2]].
    + split; [intros u; split; discriminate|]. right. by intros [].
    + split; [intros u; split; discriminate|]. left. intros u. discriminate.
  - exists m, t1, s'. split; [exact E1|]. split; [exact E2|]. split; [reflexivity|exact E3].
Defined.
